(* ===== verification/_CoqProject ===== *)
-Q . S2P
Prelude.v
PyNum.v
Text.v
Numerals.v
Sha256.v
PyJson.v
Urls.v
SafeHttp.v
Secrets.v
ExchangeRates.v
BidLimits.v
Store.v
Gateway.v
Settings.v
EdgePoints.v
AuctionFees.v
AuctionRepo.v
Pricing.v
Restore.v
Lifecycle.v
Bidding.v
Winner.v
MarketTx.v
AuctionPayment.v
Auctions.v
Ownership.v
AuctionProtocol.v
Rooms.v
TaxInvoice.v
RevealOtp.v
Transfer.v
DirectSale.v
TransferProtocol.v
Settlement.v
VirtualAssistant.v
SignIn.v
TrackRecords.v
TechStore.v
TechStatus.v
TechAccess.v
ProductMapper.v
ResellPortal.v
TechRetry.v
TechWorker.v
TechGiveUp.v
TechCheckout.v
TechCheckoutFacts.v
TechCheckoutRuns.v
TechAdmin.v
TechLife.v
TechDesk.v
