(* ===== verification/Prelude.v ===== *)
(** * Verification of the Deltapreneur backend

    A development about the Python code under src/app: a FastAPI service over
    PostgreSQL through which users auction, sell and transfer domains.  It covers
    the domain auctions from the listing to the payment of the seller, the direct
    sale of a listed domain, the purchase of technology subscriptions and their
    fulfilment by an outside provider, and the services these rest on.

    ** The program and its parts

    A request runs a service function on one SQLAlchemy session.  The auction
    services (app/service/auction) let a seller put a domain up
    ([Auctions.create_auction_request]), an administrator review it
    ([Auctions.approve_and_go_live]) and users bid ([Bidding.place_bid]) once they
    have paid a bid fee ([AuctionFees], through the gateway of [Gateway] or with
    the reward points of [EdgePoints]).  A background sweep closes expired
    auctions ([Winner.sweep_expired]); the winner pays
    ([AuctionPayment.create_winner_order], [AuctionPayment.verify_winner_payment])
    or is reminded, forfeited and blocked by a daily job
    ([Lifecycle.process_reminders_and_forfeits]).  A listing without an auction is
    bought at its price ([DirectSale.create_purchase_order],
    [DirectSale.verify_payment]).  Before that the seller shows that the domain is
    his, by a DNS record, a page or a mail to its registrant
    ([Ownership.init_verification], [Ownership.check_verification]); pages are
    fetched by a client that must not reach internal addresses
    ([SafeHttp.ssrf_safe_get]).  Both ways end in a sale
    ([MarketTx.create_from_payment]) whose money is held until the domain has
    changed hands: the seller hands in an auth code, the buyer reveals it against
    a one-time code ([RevealOtp]) and confirms, an administrator approves and
    releases the payout or refunds, disputes and deadlines interrupt all this
    ([Transfer]).  Orders get invoice numbers ([TaxInvoice]).  Auction events reach
    the browsers through socket rooms ([Rooms]).  Beside them stand the
    applications of virtual assistants ([VirtualAssistant]) and the sessions
    and passwords of the users ([SignIn]): chains of refresh tokens of which each
    replaces the one before, access tokens that name their session, and what
    ends a session.

    A technology subscription is paid here and delivered by another company's
    portal.  The payment arrives as a webhook of the gateway
    ([TechCheckout.complete_technology_payment_from_webhook]): the services paid for are priced
    again, in rupees at the rate of the day ([ExchangeRates]), recorded with
    their invoices, and only then ordered.  What is not delivered at once is
    left to a worker
    ([TechRetry.run_tick]) that every tick takes the paid
    subscriptions that are due, creates the customer at the portal, places the
    order or finds the one placed before, and asks for its state until there is
    evidence that the service runs; failures are counted and, at a limit, handed
    to an administrator.  The customer meanwhile sees a status computed from the
    row ([TechStatus]), gets access data by mail ([TechAccess]) and can cancel;
    administrators list the subscriptions, fulfil them by hand and mail again
    ([TechAdmin]).

    ** Where the model is

    - Prelude.v (this file): Python values, the session monad, its reasoning
      principles and automation, lemmas on tables.  [session] is the SQLAlchemy
      session: what it sees, what is committed, the calls that left the process,
      the clock and the uuids still to come.  [run_request] is
      app/core/database.py's get_async_db: what is not committed is lost.
    - PyNum.v, Text.v, Numerals.v, Sha256.v: [Decimal] under its 28-digit context,
      binary64 floats, [str] methods, decimal numerals, hashlib and hmac.
    - Store.v: the enums and tables (app/entity, app/utils/*enums.py) as one
      record [DB] of maps and lists, and the effects a handler can have.
    - Gateway.v: app/integrations/razorpay/client.py.  Settings.v: the platform
      settings.  Pricing.v: commission and rounding.  EdgePoints.v: the wallet.
    - BidLimits.v: app/utils/auction_bid_limits.py and
      auction_place_bid_common.py.  AuctionFees.v, AuctionRepo.v, Restore.v,
      Lifecycle.v, Bidding.v, Winner.v, AuctionPayment.v, Auctions.v: the auction
      services, one file per module of app/service/auction, with the repositories
      under them.
    - SafeHttp.v: app/utils/safe_http.py, with [urlparse], [urljoin] and the
      [ipaddress] predicates of CPython.  Ownership.v:
      app/service/domain/verification_service.py, the checks of
      app/integrations/domain and whois, and the marks of the administrators.
    - AuctionProtocol.v: the auction as an abstract machine, and the refinement.
    - MarketTx.v, RevealOtp.v, Transfer.v: the sale, the one-time codes and the
      seven domain_transfer_*_service.py modules.  TransferProtocol.v: the escrow
      machine, and the refinement.  Settlement.v: what single operations of the
      transfer do, and its runs.
    - TaxInvoice.v, DirectSale.v: app/service/domain/tax_invoice_number_service.py
      and marketplace_payment_service.py with their helpers.
    - Rooms.v: app/websocket/manager.py.
    - VirtualAssistant.v: app/service/virtual_assistant (numbers, checks,
      submission), on tables and a sequence of its own.
    - SignIn.v: app/service/auth/auth_service.py (sign-in by password, refresh,
      sign-out, passwords), the token repositories, app/core/security.py and the
      check of app/core/dependencies.py, on tables of its own.
    - PyJson.v, Urls.v, Secrets.v: [json] and [repr], [urllib.parse],
      app/service/security/auth_code_encryption_service.py.
    - TrackRecords.v: recording payments and fulfilments in
      app/service/platform/track_record_service.py, for any database with such a
      table.
    - TechStore.v: the tables of the technology subscriptions, the settings and
      the provider as an argument.  TechStatus.v, TechAccess.v:
      app/service/technology/technology_purchase_status.py and provider_access.py.
      ProductMapper.v, ResellPortal.v: product_mapper.py and
      app/integrations/resellportal/client.py.  TechRetry.v:
      technology_subscription_retry_service.py.  TechWorker.v, TechGiveUp.v: what
      the worker guarantees, and where it does not.
    - ExchangeRates.v: app/service/currency/exchange_rate_service.py.
      TechCheckout.v: the technology subscriptions in
      app/service/cart/cart_checkout_service.py, from the webhook to the order.
      TechCheckoutFacts.v, TechCheckoutRuns.v: what the purchase guarantees, its
      runs, and where it departs.
    - TechAdmin.v: the routes over subscriptions in
      app/controller/technology/technology_services_controller.py, with their
      serializers.  TechLife.v: webhooks, ticks, retries and routes in any order.
      TechDesk.v: cancellation and fulfilment by hand, and runs of them.

    Definitions keep the names of the source; a part of a long function that has
    a definition of its own is composed into one of the function's name.  A
    handler is a [Prog] over the global [DB]: a whole request, commits, rollbacks,
    early returns and swallowed exceptions included.

    ** What is shown

    - Bids: the amount check accepts exactly the permitted range
      ([BidLimits.normalize_bid_amount_spec]); a bid that succeeds becomes the only
      winning one, one that fails leaves nothing but a settled fee
      ([Bidding.place_bid_success], [Bidding.place_bid_failure_atomic]).
    - Closing: the highest bid wins, or the listing goes back on sale
      ([Winner.resolve_auction_spec]); again changes nothing, and a sweep reaches every expired auction of its batch whatever the
      others do ([Winner.sweep_closes_expired]).
    - Payments: of the winner and of a buyer, with replays and refusals
      ([AuctionPayment], [DirectSale]).
    - Refinement: every request and job moves every auction and every sale along
      the edges of an abstract machine ([AuctionProtocol.auction_refines],
      [TransferProtocol.transfer_refines]); hence one open auction per domain
      ([AuctionProtocol.one_open_auction]) and at most one payout per sale
      ([TransferProtocol.seller_paid_at_most_once]).
    - Money and secrets: payouts, refunds, the auth code, one-time codes
      ([Settlement], [RevealOtp]); points are never spent twice
      ([EdgePoints.wallet_always_ok]), a referral is rewarded once
      ([EdgePoints.track_referral_once]).
    - Domains and fetches: a listing is verified on evidence only, but a token that
      was presented counts as such ([Ownership.verified_on_evidence],
      [Ownership.owner_verifies_alone]); a mailed token stays with the mailbox
      ([Ownership.whois_token_mailed_only]); a fetch dials no internal address,
      redirects and changing name servers included ([SafeHttp.only_public_dialled]).
    - Numbers: invoice numbers are unique and read back
      ([TaxInvoice.invoice_numbers_unique], [TaxInvoice.invoice_number_round_trip]);
      the allocation of application numbers ends
      ([VirtualAssistant.allocation_ends]).
    - Sessions: one live token per session, whatever requests run
      ([SignIn.one_live_token]); a dead session stays dead
      ([SignIn.dead_session_stays_dead]); the reuse of a token ends its session;
      the walk along the links of a session ends, cycles included.
    - Rooms: a broadcast reaches whom it should, whatever the other tasks do
      ([Rooms.broadcast_delivers]).
    - Subscriptions: for every provider, the worker touches only rows that are due
      ([TechWorker.only_due_rows_touched]), attempts stay within the limit but for
      forced retries ([TechWorker.attempts_bounded]), a row becomes active only on evidence
      ([TechWorker.active_only_on_evidence]), is ordered at most once per tick and
      not again where the portal lists an order ([TechWorker.one_order_per_subscription],
      [TechWorker.listed_order_not_doubled]); with live writes switched off nothing
      but reads leaves for the live portal ([TechWorker.production_off_only_reads]);
      orders a provider refuses end in a review, one order per attempt
      ([TechGiveUp.refused_orders_give_up]), refused accounts do not
      ([TechGiveUp.refused_clients_not_counted]).
    - Purchase: a paid service is committed before the portal hears of it
      ([TechCheckoutFacts.recorded_before_provider]), what the purchase leaves
      behind the worker or an administrator will see
      ([TechCheckoutFacts.purchase_stays_in_hand]), a webhook that comes
      again orders nothing for a subscription that is there
      ([TechCheckoutFacts.replay_fulfils_nothing]), and none changes a row there
      was before ([TechDesk.webhook_spares_old_rows]); every snapshot of rates
      has a rate above zero for every supported currency
      ([ExchangeRates.every_snapshot_priced]).
    - Life of a subscription: whatever events follow each other, a paid one is
      never forgotten ([TechLife.no_purchase_forgotten]) and a cancelled one stays
      cancelled unless it is retried by hand
      ([TechLife.cancelled_stays_cancelled]); what cancelling and fulfilling by
      hand change, and when ([TechDesk.cancel_confirmed],
      [TechDesk.fulfilled_by_hand]).
    - Access data: what is stored comes back from the cipher
      ([TechAccess.credentials_round_trip]); an access mail is made for an active,
      paid service only ([TechAccess.access_mail_safe]), and what lies nested in the
      credentials is mailed with it ([TechAccess.nested_token_mailed]).
    - Texts: what is dumped as JSON is loaded back ([PyJson.loads_dumps]).
    - Departures: theorems and lemmas that compute a run in which the code does
      not do what it means to; PROJECT.json lists them as findings.

    ** Conventions and bounds

    Money in NUMERIC(18, 2) columns is a number of hundredths, timestamps are
    microseconds, uuids their canonical text.  Texts are bytes with ASCII case
    rules.  What is not in the repository is an argument: the Razorpay API, RDAP,
    name servers and web servers, the Fernet cipher, currency conversion, the delivery of a mail, uploads.  Loops
    over rows are structural; loops with a bound in the source carry that bound
    (20 allocation attempts, 5 insert attempts, the sweep's batch).  Fuel occurs in
    SignIn.v (one step more than there are tokens, proved enough), in PyNum.v
    (digits of a number, with a bound proved enough), in [remove_all] (the
    length of the text), and in the parser of PyJson.v (the length of the text;
    the round trip proves it enough for what [dumps] writes).

    Requests run one at a time, except where a theorem says otherwise: the bid of
    another session during the commit of a bid fee ([Bidding.concurrent_bid_lost]),
    a bid between the query of the sweep and its lock
    ([Winner.extended_auction_closed_early]), the tasks of the socket manager.
    Advisory locks therefore have no effect.  A flush that violates a constraint
    leaves the session unusable until it is rolled back.  Rows a query does not
    order come in the order of the map.

    ** Not modelled

    Software, hardware and community auctions (the same rules on tables of their
    own); of the cart, adding to it, the checkout in the browser and the items
    that are not technology subscriptions; the sale of software; the registrar
    clients and the registration of domains (calls of outside services whose
    answers are passed on); the controllers over the modelled services, those of
    the subscriptions apart; reports
    over track records; sign-in through other providers or mailed codes; the
    wording of mails, AI helpers, forms and content.  PROJECT.json lists each
    with its reason. *)

From stdpp Require Export base tactics option list gmap strings pretty.
From Stdlib Require Export ZArith Lia.

#[global] Open Scope Z_scope.
#[global] Set Default Proof Using "Type".

(** ** Record update

    [x <| f := v |>] is Python's [x.f = v] on a record value.  The setter of a
    field is computed from the eta-expansion of the record ([Settable]). *)

Class Settable (R : Type) := eta_rec : R -> R.

Class Setter {R T : Type} (proj : R -> T) := set : (T -> T) -> R -> R.
Arguments set {R T} proj {_} _ _ /.

Ltac solve_setter :=
  lazymatch goal with
  | |- @Setter ?R ?T ?proj =>
      let inst := constr:(_ : Settable R) in
      let eta := eval hnf in inst in
      let setter := constr:(fun (f : T -> T) (r : R) =>
        ltac:(let e := eval cbv beta in (eta r) in
              lazymatch eval pattern (proj r) in e with
              | ?g _ => let out := eval cbv beta in (g (f (proj r))) in exact out
              end)) in
      exact setter
  end.

#[global] Hint Extern 1 (Setter _) => solve_setter : typeclass_instances.

Declare Scope py_scope.
Delimit Scope py_scope with py.
#[global] Open Scope py_scope.

Notation "x <| proj := v |>" := (set proj (fun _ => v) x)
  (at level 1, left associativity, format "x  <| proj  :=  v |>") : py_scope.
Notation "x <| proj ::= f |>" := (set proj f x)
  (at level 1, left associativity, format "x  <| proj  ::=  f |>") : py_scope.

(** ** Python values *)

(** The exceptions the modelled code raises or catches.  [AppException] is
    app/core/exceptions.py's, [AlreadyFullyRefunded] the payment client's;
    [OtherError] carries the class name of the rest; [IntegrityError] is the subclass of
    [SQLAlchemyError] a violated unique constraint or primary key raises. *)
Inductive exn :=
| AppException (message : string) (status_code : Z)
| HTTPException (detail : string) (status_code : Z)
| ValueError (message : string)
| RuntimeError (message : string)
| InvalidOperation
| SQLAlchemyError (message : string)
| IntegrityError (table : string)
| AlreadyFullyRefunded (refund_id : option string) (amount_refunded captured : Z)
| OtherError (message : string).

Definition is_app_exception (e : exn) : bool :=
  match e with AppException _ _ => true | _ => false end.

Definition is_sqlalchemy_error (e : exn) : bool :=
  match e with SQLAlchemyError _ | IntegrityError _ => true | _ => false end.

Inductive res (A : Type) :=
| Ok (a : A)
| Raise (e : exn).
Arguments Ok {A} a.
Arguments Raise {A} e.

Definition is_ok {A} (r : res A) : bool := match r with Ok _ => true | Raise _ => false end.

(** The pure error monad, for code that may raise but touches no session. *)
Definition res_bind {A B} (m : res A) (f : A -> res B) : res B :=
  match m with Ok a => f a | Raise e => Raise e end.

Notation "'try!' x <- m ; k" := (res_bind m (fun x => k))
  (at level 100, x pattern, m at next level, right associativity) : py_scope.

(** Truthiness of an optional string ([if s:]). *)
Definition truthy (s : option string) : bool :=
  match s with Some t => negb (bool_decide (t = EmptyString)) | None => false end.

(** [a or b] on an optional string. *)
Definition str_or (a : option string) (b : string) : string :=
  if truthy a then default b a else b.

(** Datetimes are microseconds since the epoch (UTC). *)
Definition seconds (n : Z) : Z := n * 1000000.
Definition minutes (n : Z) : Z := seconds (60 * n).
Definition hours (n : Z) : Z := minutes (60 * n).
Definition days (n : Z) : Z := hours (24 * n).

(** ** Database sessions

    One request or job works on one SQLAlchemy session: [s_db] is what the
    session sees (its identity map and the rows it flushed), [s_committed] what
    the other sessions see.  [s_out] collects the calls that leave the process
    (mails, notifications, WebSocket events), the latest first.  [s_clock] and
    [s_ids] supply the successive results of [datetime.now] and [uuid.uuid4]. *)
Section Sessions.
Context {D E : Type}.

Record session := Session {
  s_committed : D;
  s_db : D;
  s_out : list E;
  s_clock : nat -> Z;
  s_ids : nat -> string;
}.

Definition M (A : Type) : Type := session -> res A * session.

Definition ret {A} (a : A) : M A := fun s => (Ok a, s).
Definition raise {A} (e : exn) : M A := fun s => (Raise e, s).

Definition bind {A B} (m : M A) (f : A -> M B) : M B := fun s =>
  match m s with
  | (Ok a, s') => f a s'
  | (Raise e, s') => (Raise e, s')
  end.

(** [try: m except: h]: effects of [m] before the exception persist. *)
Definition catch {A} (m : M A) (h : exn -> M A) : M A := fun s =>
  match m s with
  | (Ok a, s') => (Ok a, s')
  | (Raise e, s') => h e s'
  end.

Definition lift_res {A} (r : res A) : M A := fun s => (r, s).

Definition guard_exn (b : bool) (e : exn) : M unit := if b then ret tt else raise e.

Definition when (b : bool) (m : M unit) : M unit := if b then m else ret tt.

Definition gets {A} (f : D -> A) : M A := fun s => (Ok (f (s_db s)), s).

Definition modify (f : D -> D) : M unit := fun s =>
  (Ok tt, Session (s_committed s) (f (s_db s)) (s_out s) (s_clock s) (s_ids s)).

Definition commit : M unit := fun s =>
  (Ok tt, Session (s_db s) (s_db s) (s_out s) (s_clock s) (s_ids s)).

Definition rollback : M unit := fun s =>
  (Ok tt, Session (s_committed s) (s_committed s) (s_out s) (s_clock s) (s_ids s)).

Definition emit (e : E) : M unit := fun s =>
  (Ok tt, Session (s_committed s) (s_db s) (e :: s_out s) (s_clock s) (s_ids s)).

Definition utc_now : M Z := fun s =>
  (Ok (s_clock s 0%nat),
   Session (s_committed s) (s_db s) (s_out s) (fun n => s_clock s (S n)) (s_ids s)).

Definition uuid4 : M string := fun s =>
  (Ok (s_ids s 0%nat),
   Session (s_committed s) (s_db s) (s_out s) (s_clock s) (fun n => s_ids s (S n))).

(** A fresh session on a committed database. *)
Definition open_session (clock : nat -> Z) (ids : nat -> string) (d : D) : session :=
  Session d d [] clock ids.

(** app/core/database.py [get_async_db]: what is not committed when the
    request ends is lost.  Returns the result and the committed database. *)
Definition run_request {A} (clock : nat -> Z) (ids : nat -> string) (m : M A) (d : D)
    : res A * D :=
  let '(r, s) := m (open_session clock ids d) in (r, s_committed s).

Fixpoint for_each {A} (l : list A) (body : A -> M unit) : M unit :=
  match l with
  | [] => ret tt
  | x :: l' => bind (body x) (fun _ => for_each l' body)
  end.

(** *** Frame reasoning: what a computation leaves alone *)

Definition preserves {T A} (view : session -> T) (m : M A) : Prop :=
  forall s, view (m s).2 = view s.

Lemma preserves_ret {T A} (view : session -> T) (a : A) : preserves view (ret a).
Proof. by intros s. Qed.

Lemma preserves_raise {T A} (view : session -> T) e : preserves view (raise e : M A).
Proof. by intros s. Qed.

Lemma preserves_lift_res {T A} (view : session -> T) (r : res A) :
  preserves view (lift_res r).
Proof. by intros s. Qed.

Lemma preserves_gets {T A} (view : session -> T) (f : D -> A) : preserves view (gets f).
Proof. by intros s. Qed.

Lemma preserves_bind {T A B} (view : session -> T) (m : M A) (f : A -> M B) :
  preserves view m -> (forall a, preserves view (f a)) -> preserves view (bind m f).
Proof.
  intros Hm Hf s. unfold bind. specialize (Hm s).
  destruct (m s) as [[a|e] s']; simpl in *; [by rewrite (Hf a s')|done].
Qed.

Lemma preserves_catch {T A} (view : session -> T) (m : M A) (h : exn -> M A) :
  preserves view m -> (forall e, preserves view (h e)) -> preserves view (catch m h).
Proof.
  intros Hm Hh s. unfold catch. specialize (Hm s).
  destruct (m s) as [[a|e] s']; simpl in *; [done|by rewrite (Hh e s')].
Qed.

Lemma preserves_guard {T} (view : session -> T) b e : preserves view (guard_exn b e).
Proof. by destruct b. Qed.

Lemma preserves_when {T} (view : session -> T) b m :
  preserves view m -> preserves view (when b m).
Proof. by destruct b. Qed.

Lemma preserves_for_each {T A} (view : session -> T) (l : list A) body :
  (forall x, x ∈ l -> preserves view (body x)) -> preserves view (for_each l body).
Proof.
  induction l as [|x l IH]; intros Hb; simpl; [apply preserves_ret|].
  apply preserves_bind; [apply Hb; set_solver|]. intros _. apply IH. set_solver.
Qed.

(** A computation that only reads. *)
Abbreviation silent m := (preserves (fun s => s) m).

(** The committed database only changes at a [commit]. *)
Abbreviation keeps_committed m := (preserves s_committed m).

Lemma committed_modify f : keeps_committed (modify f).
Proof. by intros s. Qed.
Lemma committed_emit e : keeps_committed (emit e).
Proof. by intros s. Qed.
Lemma committed_utc_now : keeps_committed utc_now.
Proof. by intros s. Qed.
Lemma committed_uuid4 : keeps_committed uuid4.
Proof. by intros s. Qed.
Lemma committed_rollback : keeps_committed rollback.
Proof. by intros s. Qed.

(** A view of the database that a computation neither writes nor commits. *)
Definition db_view {T} (view : D -> T) (s : session) : T := view (s_db s).

Lemma db_view_emit {T} (view : D -> T) e : preserves (db_view view) (emit e).
Proof. by intros s. Qed.
Lemma db_view_utc_now {T} (view : D -> T) : preserves (db_view view) utc_now.
Proof. by intros s. Qed.
Lemma db_view_uuid4 {T} (view : D -> T) : preserves (db_view view) uuid4.
Proof. by intros s. Qed.
Lemma db_view_commit {T} (view : D -> T) : preserves (db_view view) commit.
Proof. by intros s. Qed.
Lemma db_view_modify {T} (view : D -> T) f :
  (forall d, view (f d) = view d) -> preserves (db_view view) (modify f).
Proof. intros Hf s. apply Hf. Qed.

Lemma run_request_raise {A} clock ids (m : M A) d :
  keeps_committed m -> (run_request clock ids m d).2 = d.
Proof.
  intros Hm. unfold run_request. specialize (Hm (open_session clock ids d)).
  by destruct (m _) as [r s].
Qed.

Lemma run_request_gets {A B} clock ids (f : D -> A) (k : A -> M B) d :
  run_request clock ids (bind (gets f) k) d = run_request clock ids (k (f d)) d.
Proof. done. Qed.

Lemma run_request_ret {A} clock ids (a : A) d : run_request clock ids (ret a) d = (Ok a, d).
Proof. done. Qed.

(** *** Weakest preconditions: forward symbolic execution *)

Definition wp {A} (m : M A) (Q : res A -> session -> Prop) (s : session) : Prop :=
  Q (m s).1 (m s).2.

Lemma wp_mono {A} (m : M A) (Q Q' : res A -> session -> Prop) s :
  wp m Q s -> (forall r s', Q r s' -> Q' r s') -> wp m Q' s.
Proof. unfold wp. auto. Qed.

Lemma wp_bind {A B} (m : M A) (f : A -> M B) Q s :
  wp m (fun r s' => match r with Ok a => wp (f a) Q s' | Raise e => Q (Raise e) s' end) s ->
  wp (bind m f) Q s.
Proof. unfold wp, bind. by destruct (m s) as [[a|e] s']. Qed.

Lemma wp_catch {A} (m : M A) (h : exn -> M A) Q s :
  wp m (fun r s' => match r with Ok a => Q (Ok a) s' | Raise e => wp (h e) Q s' end) s ->
  wp (catch m h) Q s.
Proof. unfold wp, catch. by destruct (m s) as [[a|e] s']. Qed.

Lemma wp_ret {A} (a : A) (Q : res A -> session -> Prop) s : Q (Ok a) s -> wp (ret a) Q s.
Proof. done. Qed.
Lemma wp_raise {A} e (Q : res A -> session -> Prop) s : Q (Raise e) s -> wp (raise e) Q s.
Proof. done. Qed.
Lemma wp_lift_res {A} (r : res A) (Q : res A -> session -> Prop) s : Q r s -> wp (lift_res r) Q s.
Proof. done. Qed.
Lemma wp_gets {A} (f : D -> A) (Q : res A -> session -> Prop) s :
  Q (Ok (f (s_db s))) s -> wp (gets f) Q s.
Proof. done. Qed.
Lemma wp_guard b e (Q : res unit -> session -> Prop) s :
  (b = true -> Q (Ok tt) s) -> (b = false -> Q (Raise e) s) -> wp (guard_exn b e) Q s.
Proof. destruct b; unfold wp; cbn; auto. Qed.
Lemma wp_when b m (Q : res unit -> session -> Prop) s :
  (b = true -> wp m Q s) -> (b = false -> Q (Ok tt) s) -> wp (when b m) Q s.
Proof. destruct b; unfold wp; cbn; auto. Qed.

Lemma wp_committed {A} (m : M A) (Q : res A -> session -> Prop) s :
  keeps_committed m -> (forall r s', s_committed s' = s_committed s -> Q r s') -> wp m Q s.
Proof. intros Hm HQ. apply HQ, Hm. Qed.

Lemma wp_silent {A} (m : M A) (Q : res A -> session -> Prop) s :
  silent m -> (forall r, Q r s) -> wp m Q s.
Proof. intros Hm HQ. unfold wp. rewrite (Hm s). apply HQ. Qed.

(** A loop invariant on the session. *)
Lemma wp_for_each {A} (l : list A) (body : A -> M unit) (I : session -> Prop) s :
  I s -> (forall x s', x ∈ l -> I s' -> wp (body x) (fun _ => I) s') ->
  wp (for_each l body) (fun _ => I) s.
Proof.
  revert s. induction l as [|x l IH]; intros s Hs Hb; [done|].
  apply wp_bind. eapply wp_mono; [apply Hb; [set_solver|done]|].
  intros [[]|e] s' Hs'; [|done]. apply IH; [done|]. intros. apply Hb; [set_solver|done].
Qed.

(** An invariant of both what the session sees and what is committed. *)
Definition good (I : D -> Prop) (s : session) : Prop := I (s_committed s) /\ I (s_db s).

Lemma wp_good_frame {A} I (m : M A) s :
  keeps_committed m -> preserves s_db m -> good I s -> wp m (fun _ => good I) s.
Proof. unfold wp, good. intros Hc Hd [? ?]. by rewrite (Hc s), (Hd s). Qed.

Lemma run_request_good {A} clock ids I (m : M A) d :
  I d -> (forall s, good I s -> wp m (fun _ => good I) s) -> I (run_request clock ids m d).2.
Proof.
  intros Hd Hm. specialize (Hm (open_session clock ids d) (conj Hd Hd)).
  unfold wp in Hm. unfold run_request. destruct (m _) as [r s]. apply Hm.
Qed.

(** *** Computations that uphold an invariant of the database

    Of what the session sees and of what is committed, whatever the outcome. *)

Definition upholds {A} (I : D -> Prop) (m : M A) : Prop := forall s, good I s -> good I (m s).2.

Lemma upholds_silent {A} I (m : M A) : silent m -> upholds I m.
Proof. intros Hm s Hs. by rewrite (Hm s). Qed.
Lemma upholds_ret {A} I (a : A) : upholds I (ret a).
Proof. by intros s. Qed.
Lemma upholds_raise {A} I e : upholds I (raise e : M A).
Proof. by intros s. Qed.
Lemma upholds_lift_res {A} I (r : res A) : upholds I (lift_res r).
Proof. by intros s. Qed.
Lemma upholds_gets {A} I (f : D -> A) : upholds I (gets f).
Proof. by intros s. Qed.
Lemma upholds_guard I b e : upholds I (guard_exn b e).
Proof. by destruct b; intros s. Qed.
Lemma upholds_emit I e : upholds I (emit e).
Proof. by intros s. Qed.
Lemma upholds_utc_now I : upholds I utc_now.
Proof. by intros s. Qed.
Lemma upholds_uuid4 I : upholds I uuid4.
Proof. by intros s. Qed.
Lemma upholds_commit I : upholds I commit.
Proof. by intros s []. Qed.
Lemma upholds_rollback I : upholds I rollback.
Proof. by intros s []. Qed.
Lemma upholds_modify (I : D -> Prop) f : (forall d, I d -> I (f d)) -> upholds I (modify f).
Proof. intros Hf s [Hc Hd]. split; [done|by apply Hf]. Qed.
Lemma upholds_when I b m : upholds I m -> upholds I (when b m).
Proof. destruct b; [done|]. intros _. apply upholds_ret. Qed.

Lemma upholds_bind {A B} I (m : M A) (f : A -> M B) :
  upholds I m -> (forall a, upholds I (f a)) -> upholds I (bind m f).
Proof. intros Hm Hf s Hs%Hm. unfold bind. destruct (m s) as [[a|e] s']; [by apply Hf|done]. Qed.

Lemma upholds_catch {A} I (m : M A) (h : exn -> M A) :
  upholds I m -> (forall e, upholds I (h e)) -> upholds I (catch m h).
Proof. intros Hm Hh s Hs%Hm. unfold catch. destruct (m s) as [[a|e] s']; [done|by apply Hh]. Qed.

Lemma upholds_for_each {A} I (l : list A) body : (forall x, x ∈ l -> upholds I (body x)) -> upholds I (for_each l body).
Proof.
  induction l as [|x l IH]; intros Hb; simpl; [apply upholds_ret|].
  apply upholds_bind; [apply Hb; set_solver|]. intros _. apply IH. set_solver.
Qed.

(** A read whose answer is known to come from a good database. *)
Lemma upholds_read {A B} (I : D -> Prop) (f : D -> A) (k : A -> M B) :
  (forall d, I d -> upholds I (k (f d))) -> upholds I (bind (gets f) k).
Proof. intros Hk s Hs. apply (Hk (s_db s)); [apply Hs|done]. Qed.

Lemma run_request_upholds {A} clock ids I (m : M A) d : upholds I m -> I d -> I (run_request clock ids m d).2.
Proof. intros Hm Hd. apply run_request_good; [done|exact Hm]. Qed.

(** *** From one invariant to another

    However [m] ends, a good session becomes one that is good for [J]. *)

Definition leads {A} (I J : D -> Prop) (m : M A) : Prop := forall s, good I s -> good J (m s).2.

Lemma good_mono (I J : D -> Prop) s : (forall d, I d -> J d) -> good I s -> good J s.
Proof. intros H [? ?]. split; auto. Qed.

Lemma leads_upholds {A} (I J : D -> Prop) (m : M A) : upholds I m -> (forall d, I d -> J d) -> leads I J m.
Proof. intros Hm HJ s Hs. eapply good_mono; [exact HJ|by apply Hm]. Qed.

Lemma leads_bind {A B} (K I J : D -> Prop) (m : M A) (f : A -> M B) :
  leads I K m -> (forall d, K d -> J d) -> (forall a, leads K J (f a)) -> leads I J (bind m f).
Proof.
  intros Hm HJ Hf s Hs%Hm. unfold bind. destruct (m s) as [[a|e] s']; [by apply Hf|]. by eapply good_mono.
Qed.

Lemma leads_catch {A} (K I J : D -> Prop) (m : M A) (h : exn -> M A) :
  leads I K m -> (forall d, K d -> J d) -> (forall e, leads K J (h e)) -> leads I J (catch m h).
Proof.
  intros Hm HJ Hh s Hs%Hm. unfold catch. destruct (m s) as [[a|e] s']; [by eapply good_mono|by apply Hh].
Qed.

(** A step before the change. *)
Lemma leads_step {A B} (I J : D -> Prop) (m : M A) (f : A -> M B) :
  upholds I m -> (forall d, I d -> J d) -> (forall a, leads I J (f a)) -> leads I J (bind m f).
Proof. intros Hm HJ Hf. apply (leads_bind I); [by apply leads_upholds|done..]. Qed.

(** The step may establish a fact [F a] of its result. *)
Lemma leads_bind_fact {A B} (F : A -> D -> Prop) (I J : D -> Prop) (m : M A) (f : A -> M B) :
  (forall s, good I s -> match m s with (Ok a, s') => good (F a) s' | (Raise _, s') => good J s' end) ->
  (forall a, leads (F a) J (f a)) -> leads I J (bind m f).
Proof.
  intros Hm Hf s Hs%Hm. unfold bind. destruct (m s) as [[a|e] s']; [by apply Hf|done].
Qed.

Lemma run_request_leads {A} clock ids (I J : D -> Prop) (m : M A) d : leads I J m -> I d -> J (run_request clock ids m d).2.
Proof.
  intros Hm Hd. specialize (Hm (open_session clock ids d) (conj Hd Hd)). unfold run_request. destruct (m _) as [r s]. apply Hm.
Qed.

(** *** Views that a computation, commits included, leaves as they are *)

Definition keeps {T A} (view : D -> T) (m : M A) : Prop :=
  forall K s, good (fun d => view d = K) s -> good (fun d => view d = K) (m s).2.

Lemma keeps_silent {T A} (view : D -> T) (m : M A) : silent m -> keeps view m.
Proof. intros Hm K s Hs. by rewrite (Hm s). Qed.

Lemma keeps_bind {T A B} (view : D -> T) (m : M A) (f : A -> M B) :
  keeps view m -> (forall a, keeps view (f a)) -> keeps view (bind m f).
Proof.
  intros Hm Hf K s Hs%Hm. unfold bind. destruct (m s) as [[a|e] s']; [by apply Hf|done].
Qed.

Lemma keeps_catch {T A} (view : D -> T) (m : M A) (h : exn -> M A) :
  keeps view m -> (forall e, keeps view (h e)) -> keeps view (catch m h).
Proof.
  intros Hm Hh K s Hs%Hm. unfold catch. destruct (m s) as [[a|e] s']; [done|by apply Hh].
Qed.

Lemma keeps_ret {T A} (view : D -> T) (a : A) : keeps view (ret a).
Proof. by intros K s ?. Qed.
Lemma keeps_raise {T A} (view : D -> T) e : keeps view (raise e : M A).
Proof. by intros K s ?. Qed.
Lemma keeps_lift_res {T A} (view : D -> T) (r : res A) : keeps view (lift_res r).
Proof. by intros K s ?. Qed.
Lemma keeps_gets {T A} (view : D -> T) (f : D -> A) : keeps view (gets f).
Proof. by intros K s ?. Qed.
Lemma keeps_guard {T} (view : D -> T) b e : keeps view (guard_exn b e).
Proof. intros K s. by destruct b. Qed.
Lemma keeps_when {T} (view : D -> T) b m : keeps view m -> keeps view (when b m).
Proof. destruct b; [done|]. intros _. apply keeps_ret. Qed.
Lemma keeps_emit {T} (view : D -> T) e : keeps view (emit e).
Proof. by intros K s ?. Qed.
Lemma keeps_utc_now {T} (view : D -> T) : keeps view utc_now.
Proof. by intros K s ?. Qed.
Lemma keeps_uuid4 {T} (view : D -> T) : keeps view uuid4.
Proof. by intros K s ?. Qed.
Lemma keeps_commit {T} (view : D -> T) : keeps view commit.
Proof. by intros K s []. Qed.
Lemma keeps_rollback {T} (view : D -> T) : keeps view rollback.
Proof. by intros K s []. Qed.
Lemma keeps_modify {T} (view : D -> T) f : (forall d, view (f d) = view d) -> keeps view (modify f).
Proof. intros Hf K s [Hc Hd]. split; [done|]. cbn. by rewrite Hf. Qed.

Lemma keeps_for_each {T A} (view : D -> T) (l : list A) body :
  (forall x, x ∈ l -> keeps view (body x)) -> keeps view (for_each l body).
Proof.
  induction l as [|x l IH]; intros Hb; simpl; [apply keeps_ret|].
  apply keeps_bind; [apply Hb; set_solver|]. intros _. apply IH. set_solver.
Qed.

Lemma wp_keeps {T A} (view : D -> T) (m : M A) (Q : res A -> session -> Prop) K s :
  keeps view m -> good (fun d => view d = K) s ->
  (forall r s', good (fun d => view d = K) s' -> Q r s') -> wp m Q s.
Proof. intros Hm Hs HQ. by apply HQ, Hm. Qed.

Lemma run_request_keeps {T A} clock ids (view : D -> T) (m : M A) d :
  keeps view m -> view (run_request clock ids m d).2 = view d.
Proof.
  intros Hm. unfold run_request. pose proof (Hm (view d) (open_session clock ids d)) as H.
  destruct (m _) as [r s]. by apply H.
Qed.

(** *** Views that a computation leaves as they are in the session

    Unlike [keeps] this speaks of work in progress: what is committed is what it
    was, or has the view of the session. *)

Definition still {T A} (view : D -> T) (m : M A) : Prop := forall s,
  view (s_db (m s).2) = view (s_db s) /\
  (s_committed (m s).2 = s_committed s \/ view (s_committed (m s).2) = view (s_db s)).

Lemma still_frame {T A} (view : D -> T) (m : M A) : keeps_committed m -> preserves (db_view view) m -> still view m.
Proof. intros Hc Hd s. split; [apply Hd|left; apply Hc]. Qed.

Lemma still_then {T A B} (view : D -> T) (m : M A) (s : session) (r : res B * session) :
  still view m -> view (s_db r.2) = view (s_db (m s).2) ->
  (s_committed r.2 = s_committed (m s).2 \/ view (s_committed r.2) = view (s_db (m s).2)) ->
  view (s_db r.2) = view (s_db s) /\ (s_committed r.2 = s_committed s \/ view (s_committed r.2) = view (s_db s)).
Proof.
  intros Hm H1 H2. destruct (Hm s) as [H3 H4]. rewrite H1, H3. split; [done|].
  destruct H2 as [H2|H2]; [|right; by rewrite H2].
  destruct H4 as [H4|H4]; [left|right]; by rewrite H2.
Qed.

Lemma still_bind {T A B} (view : D -> T) (m : M A) (f : A -> M B) :
  still view m -> (forall a, still view (f a)) -> still view (bind m f).
Proof.
  intros Hm Hf s. apply (still_then view m s _ Hm); unfold bind;
    (destruct (m s) as [[a|e] s']; [apply (Hf a s')|by auto]).
Qed.

Lemma still_catch {T A} (view : D -> T) (m : M A) (h : exn -> M A) :
  still view m -> (forall e, still view (h e)) -> still view (catch m h).
Proof.
  intros Hm Hh s. apply (still_then view m s _ Hm); unfold catch;
    (destruct (m s) as [[a|e] s']; [by auto|apply (Hh e s')]).
Qed.

Lemma still_silent {T A} (view : D -> T) (m : M A) : silent m -> still view m.
Proof. intros Hm s. rewrite (Hm s). auto. Qed.
Lemma still_ret {T A} (view : D -> T) (a : A) : still view (ret a).
Proof. by apply still_silent. Qed.
Lemma still_raise {T A} (view : D -> T) e : still view (raise e : M A).
Proof. by apply still_silent. Qed.
Lemma still_lift_res {T A} (view : D -> T) (r : res A) : still view (lift_res r).
Proof. by apply still_silent. Qed.
Lemma still_gets {T A} (view : D -> T) (f : D -> A) : still view (gets f).
Proof. by apply still_silent. Qed.
Lemma still_guard {T} (view : D -> T) b e : still view (guard_exn b e).
Proof. apply still_silent. intros s. by destruct b. Qed.
Lemma still_when {T} (view : D -> T) b m : still view m -> still view (when b m).
Proof. destruct b; [done|]. intros _. apply still_ret. Qed.
Lemma still_emit {T} (view : D -> T) e : still view (emit e).
Proof. by apply still_frame. Qed.
Lemma still_utc_now {T} (view : D -> T) : still view utc_now.
Proof. by apply still_frame. Qed.
Lemma still_uuid4 {T} (view : D -> T) : still view uuid4.
Proof. by apply still_frame. Qed.
Lemma still_commit {T} (view : D -> T) : still view commit.
Proof. intros s. auto. Qed.
Lemma still_modify {T} (view : D -> T) f : (forall d, view (f d) = view d) -> still view (modify f).
Proof. intros Hf. apply still_frame; [done|]. intros s. apply Hf. Qed.

Lemma still_for_each {T A} (view : D -> T) (l : list A) body :
  (forall x, x ∈ l -> still view (body x)) -> still view (for_each l body).
Proof.
  induction l as [|x l IH]; intros Hb; simpl; [apply still_ret|].
  apply still_bind; [apply Hb; set_solver|]. intros _. apply IH. set_solver.
Qed.

(** *** Computations that raise no exception *)

Definition never_raises {A} (m : M A) : Prop := forall s, is_ok (m s).1 = true.

Lemma never_raises_bind {A B} (m : M A) (f : A -> M B) :
  never_raises m -> (forall a, never_raises (f a)) -> never_raises (bind m f).
Proof.
  intros Hm Hf s. unfold bind. specialize (Hm s). destruct (m s) as [[a|e] s']; [apply Hf|done].
Qed.

Lemma never_raises_catch {A} (m : M A) (h : exn -> M A) :
  (forall e, never_raises (h e)) -> never_raises (catch m h).
Proof. intros Hh s. unfold catch. destruct (m s) as [[a|e] s']; [done|apply Hh]. Qed.

Lemma never_raises_ok {A} (m : M A) s : never_raises m -> exists a s', m s = (Ok a, s').
Proof. intros Hm. specialize (Hm s). destruct (m s) as [[a|e] s']; [by eexists _, _|done]. Qed.

(** A step that cannot fail and keeps the view: go on with the next. *)
Lemma run_follow {T A B} (view : D -> T) (m : M A) (f : A -> M B) (b : B) K s :
  never_raises m -> keeps view m -> good (fun d => view d = K) s ->
  (forall a s1, good (fun d => view d = K) s1 ->
     exists s', f a s1 = (Ok b, s') /\ good (fun d => view d = K) s') ->
  exists s', bind m f s = (Ok b, s') /\ good (fun d => view d = K) s'.
Proof.
  intros Hn Hk Hs Hf. destruct (never_raises_ok m s Hn) as (a & s1 & H). apply Hk in Hs.
  rewrite H in Hs. destruct (Hf a s1 Hs) as (s' & H' & ?). exists s'. split; [|done].
  unfold bind. by rewrite H.
Qed.

(** *** Clock and identifiers: what holds of all that are still to come *)

Definition streams (C : Z -> Prop) (I : string -> Prop) (s : session) : Prop :=
  (forall n, C (s_clock s n)) /\ forall n, I (s_ids s n).

(** A computation takes from the two supplies and puts nothing in. *)
Definition draws {A} (m : M A) : Prop := forall C I s, streams C I s -> streams C I (m s).2.

Lemma draws_bind {A B} (m : M A) (f : A -> M B) : draws m -> (forall a, draws (f a)) -> draws (bind m f).
Proof.
  intros Hm Hf C I s Hs%Hm. unfold bind. destruct (m s) as [[a|e] s']; [by apply Hf|done].
Qed.

Lemma draws_catch {A} (m : M A) (h : exn -> M A) : draws m -> (forall e, draws (h e)) -> draws (catch m h).
Proof.
  intros Hm Hh C I s Hs%Hm. unfold catch. destruct (m s) as [[a|e] s']; [done|by apply Hh].
Qed.

Lemma draws_silent {A} (m : M A) : silent m -> draws m.
Proof. intros Hm C I s Hs. by rewrite (Hm s). Qed.
Lemma draws_ret {A} (a : A) : draws (ret a).
Proof. by intros C I s. Qed.
Lemma draws_raise {A} e : draws (raise e : M A).
Proof. by intros C I s. Qed.
Lemma draws_lift_res {A} (r : res A) : draws (lift_res r).
Proof. by intros C I s. Qed.
Lemma draws_gets {A} (f : D -> A) : draws (gets f).
Proof. by intros C I s. Qed.
Lemma draws_guard b e : draws (guard_exn b e).
Proof. intros C I s Hs. by destruct b. Qed.
Lemma draws_when b m : draws m -> draws (when b m).
Proof. destruct b; [done|]. intros _. apply draws_ret. Qed.
Lemma draws_modify f : draws (modify f).
Proof. by intros C I s. Qed.
Lemma draws_emit e : draws (emit e).
Proof. by intros C I s. Qed.
Lemma draws_commit : draws commit.
Proof. by intros C I s. Qed.
Lemma draws_rollback : draws rollback.
Proof. by intros C I s. Qed.
Lemma draws_utc_now : draws utc_now.
Proof. intros C I s [Hc Hi]. split; [intros n; apply (Hc (S n))|exact Hi]. Qed.
Lemma draws_uuid4 : draws uuid4.
Proof. intros C I s [Hc Hi]. split; [exact Hc|intros n; apply (Hi (S n))]. Qed.

(** A step that takes from the supplies, in a known run. *)
Lemma draws_run {A} (m : M A) C I s r s' : draws m -> streams C I s -> m s = (r, s') -> streams C I s'.
Proof. intros Hm Hs H. specialize (Hm C I s Hs). by rewrite H in Hm. Qed.

(** *** Inversion of a run *)

Lemma bind_inv {A B} (m : M A) (f : A -> M B) s r s' :
  bind m f s = (r, s') ->
  (exists a s1, m s = (Ok a, s1) /\ f a s1 = (r, s')) \/
  (exists e, m s = (Raise e, s') /\ r = Raise e).
Proof.
  unfold bind. destruct (m s) as [[a|e] s1]; intros H; [by left; eauto|].
  right. simplify_eq. eauto.
Qed.

Lemma bind_ok_inv {A B} (m : M A) (f : A -> M B) s b s' :
  bind m f s = (Ok b, s') -> exists a s1, m s = (Ok a, s1) /\ f a s1 = (Ok b, s').
Proof. intros [(a & s1 & ? & ?)|(e & ? & ?)]%bind_inv; [by eauto|done]. Qed.

Lemma guard_ok_inv b e s a s' : guard_exn b e s = (Ok a, s') -> b = true /\ s' = s.
Proof. destruct b; cbv; intros; by simplify_eq. Qed.

Lemma ret_ok_inv {A} (a b : A) s s' : ret a s = (Ok b, s') -> b = a /\ s' = s.
Proof. by intros [= -> ->]. Qed.

Lemma lift_ok_inv {A} (r : res A) b s s' : lift_res r s = (Ok b, s') -> r = Ok b /\ s' = s.
Proof. by intros [= -> ->]. Qed.

Lemma gets_ok_inv {A} (f : D -> A) b s s' : gets f s = (Ok b, s') -> b = f (s_db s) /\ s' = s.
Proof. by intros [= -> ->]. Qed.

Lemma modify_ok_inv f a s s' :
  modify f s = (Ok a, s') ->
  s' = Session (s_committed s) (f (s_db s)) (s_out s) (s_clock s) (s_ids s).
Proof. by intros [= <-]. Qed.

Lemma commit_ok_inv a s s' :
  commit s = (Ok a, s') -> s' = Session (s_db s) (s_db s) (s_out s) (s_clock s) (s_ids s).
Proof. by intros [= <-]. Qed.

Lemma emit_ok_inv e a s s' :
  emit e s = (Ok a, s') ->
  s' = Session (s_committed s) (s_db s) (e :: s_out s) (s_clock s) (s_ids s).
Proof. by intros [= <-]. Qed.

Lemma now_ok_inv a s s' :
  utc_now s = (Ok a, s') ->
  a = s_clock s 0%nat /\
  s' = Session (s_committed s) (s_db s) (s_out s) (fun n => s_clock s (S n)) (s_ids s).
Proof. by intros [= <- <-]. Qed.

Lemma id_ok_inv a s s' :
  uuid4 s = (Ok a, s') ->
  a = s_ids s 0%nat /\
  s' = Session (s_committed s) (s_db s) (s_out s) (s_clock s) (fun n => s_ids s (S n)).
Proof. by intros [= <- <-]. Qed.

Lemma raise_ok_inv {A} e (a : A) s s' : raise e s = (Ok a, s') -> False.
Proof. done. Qed.

Lemma silent_ok_inv {A} (m : M A) a s s' : silent m -> m s = (Ok a, s') -> s' = s.
Proof. intros Hm H. specialize (Hm s). by rewrite H in Hm. Qed.

Lemma when_ok_inv b m a s s' :
  when b m s = (Ok a, s') -> (b = true /\ m s = (Ok a, s')) \/ (b = false /\ s' = s).
Proof. destruct b; [by left|]. intros [= _ ->]. by right. Qed.

Lemma catch_ok_inv {A} (m : M A) h s a s' :
  catch m h s = (Ok a, s') ->
  m s = (Ok a, s') \/ (exists e s1, m s = (Raise e, s1) /\ h e s1 = (Ok a, s')).
Proof.
  unfold catch. destruct (m s) as [[b|e] s1]; intros H; [by left|]. right. by exists e, s1.
Qed.

Lemma catch_raise_inv {A} (m : M A) h s e s' :
  catch m h s = (Raise e, s') -> exists e0 s1, m s = (Raise e0, s1) /\ h e0 s1 = (Raise e, s').
Proof.
  unfold catch. destruct (m s) as [[b|e0] s1]; intros H; [done|]. by exists e0, s1.
Qed.

(** A successful run that keeps a view in its first step. *)
Lemma keeps_bind_ok {T A B} (view : D -> T) (m : M A) (f : A -> M B) K s b s' :
  good (fun d => view d = K) s -> bind m f s = (Ok b, s') -> keeps view m ->
  exists a s1, m s = (Ok a, s1) /\ good (fun d => view d = K) s1 /\ f a s1 = (Ok b, s').
Proof.
  intros Hs (a & s1 & H1 & H2)%bind_ok_inv Hm. apply Hm in Hs. rewrite H1 in Hs. by exists a, s1.
Qed.
End Sessions.

Arguments session D E : clear implicits.
Arguments Session {D E} _ _ _ _ _.
Arguments M D E A : clear implicits.

Notation "'do' x <- m ; k" := (bind m (fun x => k))
  (at level 100, x pattern, m at next level, right associativity) : py_scope.
Notation "m ;;; k" := (bind m (fun _ => k))
  (at level 100, right associativity) : py_scope.
Abbreviation keeps_committed m := (preserves s_committed m).
Abbreviation silent m := (preserves (fun s => s) m).

Create HintDb frame.
#[export] Hint Resolve preserves_ret preserves_raise preserves_lift_res preserves_gets
  preserves_bind preserves_catch preserves_guard preserves_when preserves_for_each
  committed_modify committed_emit committed_utc_now committed_uuid4 committed_rollback
  db_view_emit db_view_utc_now db_view_uuid4 db_view_commit db_view_modify : frame.

(** Frame goals: follow the program's structure. *)
Ltac frame :=
  repeat first
    [ progress intros
    | apply preserves_bind
    | apply preserves_catch
    | apply preserves_when
    | apply preserves_for_each
    | solve [eauto with frame nocore]
    | case_match ].

Create HintDb keeps.
#[export] Hint Resolve keeps_ret keeps_raise keeps_lift_res keeps_gets keeps_guard keeps_emit
  keeps_utc_now keeps_uuid4 keeps_commit keeps_rollback : keeps.

(** [keeps] goals: follow the program's structure; the writes are left over. *)
Ltac keeps :=
  repeat first
    [ progress intros
    | solve [eauto with keeps nocore]
    | apply keeps_bind
    | apply keeps_catch
    | apply keeps_when
    | apply keeps_for_each
    | solve [apply keeps_modify; intros; done]
    | case_match ].

Create HintDb upholds.
#[export] Hint Resolve upholds_ret upholds_raise upholds_lift_res upholds_gets upholds_guard upholds_emit
  upholds_utc_now upholds_uuid4 upholds_commit upholds_rollback : upholds.

(** [upholds] goals: follow the program's structure; the writes are left over. *)
Ltac upholds :=
  repeat first
    [ progress intros
    | solve [eauto with upholds nocore]
    | apply upholds_bind
    | apply upholds_catch
    | apply upholds_when
    | apply upholds_for_each
    | case_match ].

Create HintDb leads.

(** [leads] goals where [J] follows from [I] by an assumption: what is left over are
    the steps that do more than keep [I] or [J]. *)
Ltac leads :=
  repeat (cbn beta zeta; first
    [ progress intros
    | solve [eauto with leads nocore]
    | lazymatch goal with
      | |- leads _ _ (bind _ _) => eapply leads_step; [solve [upholds]|assumption|]
      | |- leads _ _ (match _ with _ => _ end) => case_match
      | |- _ => solve [apply leads_upholds; [solve [upholds]|assumption]]
      end ]).

Create HintDb still.
#[export] Hint Resolve still_ret still_raise still_lift_res still_gets still_guard still_emit
  still_utc_now still_uuid4 still_commit : still.

(** [still] goals: follow the program's structure; the writes are left over. *)
Ltac still :=
  repeat first
    [ progress intros
    | solve [eauto with still nocore]
    | apply still_bind
    | apply still_catch
    | apply still_when
    | apply still_for_each
    | solve [apply still_modify; intros; done]
    | case_match ].

Create HintDb draws.
#[export] Hint Resolve draws_ret draws_raise draws_lift_res draws_gets draws_guard draws_modify draws_emit
  draws_commit draws_rollback draws_utc_now draws_uuid4 : draws.

(** [draws] goals: follow the program's structure. *)
Ltac draws :=
  repeat first
    [ progress intros
    | solve [eauto with draws nocore]
    | apply draws_bind
    | apply draws_catch
    | apply draws_when
    | case_match ].

(** One step of forward execution; case analysis is left to the caller. *)
Ltac wp_step :=
  lazymatch goal with
  | |- wp (bind _ _) _ _ => apply wp_bind
  | |- wp (catch _ _) _ _ => apply wp_catch
  | |- wp (ret _) _ _ => apply wp_ret
  | |- wp (raise _) _ _ => apply wp_raise
  | |- wp (lift_res _) _ _ => apply wp_lift_res
  | |- wp (gets _) _ _ => apply wp_gets
  | |- wp (guard_exn _ _) _ _ => apply wp_guard; intros ?
  | |- wp (when _ _) _ _ => apply wp_when; intros ?
  | |- wp (let '(_, _) := ?x in _) _ _ => destruct x eqn:?
  | |- wp (modify _) _ _ => unfold wp at 1; cbn [modify fst snd]
  | |- wp commit _ _ => unfold wp at 1; cbn [commit fst snd]
  | |- wp rollback _ _ => unfold wp at 1; cbn [rollback fst snd]
  | |- wp (emit _) _ _ => unfold wp at 1; cbn [emit fst snd]
  | |- wp utc_now _ _ => unfold wp at 1; cbn [utc_now fst snd]
  | |- wp uuid4 _ _ => unfold wp at 1; cbn [uuid4 fst snd]
  end; cbn beta iota.
Ltac wp_steps := repeat wp_step.

(** Inversion of a successful run [H : m s = (Ok a, s')], primitive steps
    resolved; case analyses are left to the caller. *)
Ltac ok_inv_prim H :=
  lazymatch type of H with
  | ret _ _ = (Ok _, _) => apply ret_ok_inv in H as [? ?]; subst
  | lift_res _ _ = (Ok _, _) => apply lift_ok_inv in H as [H ?]; subst
  | gets _ _ = (Ok _, _) => apply gets_ok_inv in H as [? ?]; subst
  | modify _ _ = (Ok _, _) => apply modify_ok_inv in H; subst
  | commit _ = (Ok _, _) => apply commit_ok_inv in H; subst
  | emit _ _ = (Ok _, _) => apply emit_ok_inv in H; subst
  | utc_now _ = (Ok _, _) => apply now_ok_inv in H as [? ?]; subst
  | uuid4 _ = (Ok _, _) => apply id_ok_inv in H as [? ?]; subst
  | guard_exn _ _ _ = (Ok _, _) => apply guard_ok_inv in H as [H ?]; subst
  | raise _ _ = (Ok _, _) => destruct (raise_ok_inv _ _ _ _ H)
  | _ => idtac
  end.
Ltac ok_inv_step H :=
  lazymatch type of H with
  | bind _ _ _ = (Ok _, _) =>
      let x := fresh "x" in let s1 := fresh "s" in let H1 := fresh "Hr" in
      apply bind_ok_inv in H as (x & s1 & H1 & H); ok_inv_prim H1
  end; cbn beta iota in H.
Ltac ok_inv H := repeat ok_inv_step H; ok_inv_prim H; cbn [s_db s_committed s_out s_clock s_ids] in *.

(** Symbolic execution of a hypothesis [prog s = (r, s')]. *)
Ltac run_step H :=
  first
    [ progress cbn [bind ret raise lift_res guard_exn when gets modify commit rollback emit
        utc_now uuid4 catch fst snd] in H
    | match type of H with
      | context [match ?x with _ => _ end] => destruct x eqn:?; try discriminate H
      end ].
Ltac run H := repeat (run_step H; simplify_eq/=).

(** ** Tables by key *)

Definition values {A} (t : gmap string A) : list A := map snd (map_to_list t).

Lemma elem_of_values {A} (t : gmap string A) x : x ∈ values t <-> exists k, t !! k = Some x.
Proof.
  unfold values. rewrite list_elem_of_In, in_map_iff. split.
  - intros ([k y] & <- & H%list_elem_of_In%elem_of_map_to_list). by exists k.
  - intros [k Hk]. exists (k, x). split; [done|]. by apply list_elem_of_In, elem_of_map_to_list.
Qed.

(** ** Tables kept as lists of rows, in insertion order *)

Section Tables.
Context {R : Type}.

Definition select_where (p : R -> bool) (t : list R) : list R := filter (fun r => p r = true) t.

Definition update_where (p : R -> bool) (f : R -> R) (t : list R) : list R :=
  map (fun r => if p r then f r else r) t.

(** [order_by(...).limit(1)]: the first row of [t] no other row strictly
    precedes; [before x y] is the ORDER BY comparison. *)
Definition first_by_step (before : R -> R -> bool) (acc : option R) (r : R) : option R :=
  match acc with
  | None => Some r
  | Some b => if before r b then Some r else acc
  end.

Definition first_by (before : R -> R -> bool) (t : list R) : option R :=
  foldl (first_by_step before) None t.

Lemma elem_of_select_where p t x : x ∈ select_where p t <-> p x = true /\ x ∈ t.
Proof. unfold select_where. by rewrite list_elem_of_filter. Qed.

Lemma select_none p t : (forall x, x ∈ t -> p x = false) -> select_where p t = [].
Proof.
  intros H. unfold select_where. induction t as [|x t IH]; [done|].
  rewrite filter_cons_False; [apply IH; set_solver|]. rewrite H; [done|set_solver].
Qed.

Lemma length_update_where p f t : length (update_where p f t) = length t.
Proof. apply length_map. Qed.

Lemma elem_of_update_where p f t y :
  y ∈ update_where p f t <-> exists x, x ∈ t /\ y = (if p x then f x else x).
Proof.
  unfold update_where. rewrite list_elem_of_In, in_map_iff.
  setoid_rewrite list_elem_of_In. naive_solver.
Qed.

Lemma select_update_where p q f t :
  (forall x, p (f x) = p x) ->
  select_where p (update_where q f t) = update_where q f (select_where p t).
Proof.
  intros Hp. unfold select_where, update_where.
  induction t as [|x t IH]; [done|]. cbn [map].
  rewrite !filter_cons, IH.
  destruct (q x) eqn:Hq; [rewrite Hp|]; (case_decide; [|done]);
    cbn [map]; by rewrite Hq.
Qed.

Lemma first_by_foldl before t acc : foldl (first_by_step before) (Some acc) t <> None.
Proof.
  revert acc. induction t as [|x t IH]; intros acc; simpl; [done|].
  destruct (before x acc); apply IH.
Qed.

Lemma first_by_None before t : first_by before t = None <-> t = [].
Proof.
  split; [|by intros ->]. destruct t; [done|]. unfold first_by; simpl.
  intros H. by apply first_by_foldl in H.
Qed.

(** An update of rows the selection leaves out, before and after. *)
Lemma select_update_other q p f t :
  (forall x, p x = true -> q x = false /\ q (f x) = false) ->
  select_where q (update_where p f t) = select_where q t.
Proof.
  intros Hp. unfold select_where, update_where. induction t as [|x t IH]; [done|]. cbn [map].
  destruct (p x) eqn:Hx; [|by rewrite !filter_cons, IH].
  destruct (Hp x Hx) as [H1 H2]. by rewrite !filter_cons_False, IH by (by rewrite ?H1, ?H2).
Qed.

(** For a strict order the answer is a row of the table that no row precedes. *)
Lemma first_by_Some before t b :
  (forall x, before x x = false) ->
  (forall x y z, before x y = true -> before y z = true -> before x z = true) ->
  first_by before t = Some b -> b ∈ t /\ forall x, x ∈ t -> before x b = false.
Proof.
  intros Hirr Htrans. unfold first_by.
  assert (forall t seen a, a ∈ seen -> (forall x, x ∈ seen -> before x a = false) ->
    foldl (first_by_step before) (Some a) t = Some b ->
    b ∈ seen ++ t /\ forall x, x ∈ seen ++ t -> before x b = false) as Hgen.
  { clear t. induction t as [|y t IH]; intros seen a Ha Hmin Hf.
    { simpl in Hf. simplify_eq. by rewrite app_nil_r. }
    rewrite cons_middle, app_assoc. simpl in Hf. destruct (before y a) eqn:Hya.
    - apply (IH _ y); [set_solver| |done].
      intros x [Hx| ->%list_elem_of_singleton]%elem_of_app; [|by apply Hirr].
      destruct (before x y) eqn:Hxy; [|done].
      rewrite <-(Hmin x Hx). symmetry. by eapply Htrans.
    - apply (IH _ a); [set_solver| |done].
      intros x [Hx| ->%list_elem_of_singleton]%elem_of_app; [by apply Hmin|done]. }
  destruct t as [|x t]; simpl; [done|]. intros Hf.
  destruct (Hgen t [x] x) as [? ?]; [set_solver| |done|by split].
  intros y ->%list_elem_of_singleton. apply Hirr.
Qed.
End Tables.

Arguments select_where {R} p t : simpl never.
Arguments update_where {R} p f t : simpl never.
Arguments first_by {R} before t : simpl never.

(** ** Sums over keyed tables and lists ([func.sum]) *)

Section Sums.
Context {R : Type}.

Definition sum_map (f : R -> Z) (t : gmap string R) : Z :=
  map_fold (fun _ r acc => f r + acc) 0 t.

Definition sum_list (f : R -> Z) (t : list R) : Z := foldr (fun r acc => f r + acc) 0 t.

Lemma sum_map_fresh f t k r : t !! k = None -> sum_map f (<[k := r]> t) = f r + sum_map f t.
Proof.
  intros Hk. unfold sum_map. rewrite map_fold_insert_L; [done| |done].
  intros. lia.
Qed.

Lemma sum_map_delete f t k r : t !! k = Some r -> sum_map f t = f r + sum_map f (delete k t).
Proof.
  intros Hk. rewrite <-(insert_delete_id t k r Hk) at 1.
  apply sum_map_fresh, lookup_delete_eq.
Qed.

Lemma sum_map_update f t k r r' :
  t !! k = Some r -> sum_map f (<[k := r']> t) = sum_map f t - f r + f r'.
Proof.
  intros Hk. rewrite <-insert_delete_eq, sum_map_fresh by apply lookup_delete_eq.
  rewrite (sum_map_delete f t k r Hk). lia.
Qed.

Lemma sum_map_nonneg f t : (forall k r, t !! k = Some r -> 0 <= f r) -> 0 <= sum_map f t.
Proof.
  unfold sum_map. apply (map_fold_weak_ind
    (fun acc t => (forall k r, t !! k = Some r -> 0 <= f r) -> 0 <= acc)); [done|].
  intros k r t' acc Hk IH Hall.
  assert (0 <= f r) by (apply (Hall k); by rewrite lookup_insert_eq).
  assert (0 <= acc); [|lia]. apply IH. intros k' r' Hk'. apply (Hall k').
  rewrite lookup_insert_ne; [done|]. intros ->. by rewrite Hk in Hk'.
Qed.

Lemma sum_list_app f t t' : sum_list f (t ++ t') = sum_list f t + sum_list f t'.
Proof. unfold sum_list. induction t as [|x t IH]; simpl; [done|]. rewrite IH. lia. Qed.
End Sums.

Arguments sum_map {R} f t : simpl never.
Arguments sum_list {R} f t : simpl never.

(** ORDER BY key DESC / ASC, for [merge_sort]. *)
Definition by_desc {R} (key : R -> Z) (a b : R) : Prop := key b <= key a.
Definition by_asc {R} (key : R -> Z) (a b : R) : Prop := key a <= key b.
#[export] Instance by_desc_dec {R} (key : R -> Z) : RelDecision (by_desc key).
Proof. intros a b. apply Z.le_dec. Defined.
#[export] Instance by_asc_dec {R} (key : R -> Z) : RelDecision (by_asc key).
Proof. intros a b. apply Z.le_dec. Defined.
