(* ===== verification/PyNum.v ===== *)
(** * Python's numbers

    [decimal.Decimal] under the default context (28 significant digits, results
    of arithmetic rounded half-even) and [float] (IEEE 754 binary64, through the
    Standard Library's executable [SpecFloat]).  A finite [Decimal] is
    [coef * 10 ^ dexp]; infinities and NaNs are not modelled (the request models
    reject them).  Exponent limits (999999) are not modelled. *)

From Stdlib Require Import SpecFloat.
From S2P Require Import Prelude.

(** ** Integer rounding *)

(** ROUND_HALF_UP: ties away from zero. *)
Definition div_half_up (n d : Z) : Z :=
  let q := Z.abs n / d in
  let r := Z.abs n mod d in
  Z.sgn n * (if d <=? 2 * r then q + 1 else q).

(** ROUND_HALF_EVEN. *)
Definition div_half_even (n d : Z) : Z :=
  let q := Z.abs n / d in
  let r := Z.abs n mod d in
  Z.sgn n * (if (d <? 2 * r) || ((2 * r =? d) && Z.odd q) then q + 1 else q).

(** Number of decimal digits of [|n|] (1 for 0). *)
Fixpoint ndigits_fuel (fuel : nat) (n : Z) : Z :=
  match fuel with
  | O => 1
  | S fuel' => if n <? 10 then 1 else 1 + ndigits_fuel fuel' (n / 10)
  end.
Definition ndigits (n : Z) : Z := ndigits_fuel (Z.to_nat (Z.log2 (Z.abs n) + 1)) (Z.abs n).

(** ** Decimal *)

Record decimal := Dec { coef : Z; dexp : Z }.

Definition prec : Z := 28.

(** Rounding of an exact result to the context precision. *)
Definition ctx_round (d : decimal) : decimal :=
  let k := ndigits (coef d) - prec in
  if k <=? 0 then d
  else
    let c := div_half_even (coef d) (10 ^ k) in
    if Z.abs c =? 10 ^ prec then Dec (c / 10) (dexp d + k + 1) else Dec c (dexp d + k).

(** The coefficients of two decimals at their smaller exponent. *)
Definition align (a b : decimal) : Z * Z * Z :=
  let e := Z.min (dexp a) (dexp b) in
  (coef a * 10 ^ (dexp a - e), coef b * 10 ^ (dexp b - e), e).

Definition dec_add (a b : decimal) : decimal :=
  let '(x, y, e) := align a b in ctx_round (Dec (x + y) e).

Definition dec_mul (a b : decimal) : decimal :=
  ctx_round (Dec (coef a * coef b) (dexp a + dexp b)).

Definition dec_leb (a b : decimal) : bool := let '(x, y, _) := align a b in x <=? y.
Definition dec_ltb (a b : decimal) : bool := let '(x, y, _) := align a b in x <? y.

(** [d.quantize(Decimal(10) ** e, rounding=ROUND_HALF_UP)]: InvalidOperation
    when the result needs more than 28 digits. *)
Definition quantize_half_up (d : decimal) (e : Z) : res decimal :=
  let c := if e <=? dexp d then coef d * 10 ^ (dexp d - e)
           else div_half_up (coef d) (10 ^ (e - dexp d)) in
  if Z.abs c <? 10 ^ prec then Ok (Dec c e) else Raise InvalidOperation.

(** A money amount of [c] hundredths: what a NUMERIC(18, 2) column holds. *)
Definition cents (c : Z) : decimal := Dec c (-2).

(** ** float *)

Definition py_float := spec_float.

Definition fl_prec : Z := 53.
Definition fl_emax : Z := 1024.

Definition fl_of_Z (n : Z) : py_float := binary_normalize fl_prec fl_emax n 0 false.
Definition fl_add : py_float -> py_float -> py_float := SFadd fl_prec fl_emax.
Definition fl_sub : py_float -> py_float -> py_float := SFsub fl_prec fl_emax.
Definition fl_mul : py_float -> py_float -> py_float := SFmul fl_prec fl_emax.
Definition fl_div : py_float -> py_float -> py_float := SFdiv fl_prec fl_emax.
Definition fl_eqb : py_float -> py_float -> bool := SFeqb.
Definition fl_ltb : py_float -> py_float -> bool := SFltb.
Definition fl_leb : py_float -> py_float -> bool := SFleb.
Definition fl_zero : py_float := S754_zero false.

(** [max(a, b)]: Python keeps the first argument unless the second is greater. *)
Definition fl_max (a b : py_float) : py_float := if fl_ltb a b then b else a.

(** The exact quotient [n / d] ([d > 0]) correctly rounded. *)
Definition fl_ratio (n d : Z) : py_float :=
  match n, d with
  | Zpos p, Zpos q => SFdiv fl_prec fl_emax (S754_finite false p 0) (S754_finite false q 0)
  | Zneg p, Zpos q => SFdiv fl_prec fl_emax (S754_finite true p 0) (S754_finite false q 0)
  | _, _ => S754_zero false
  end.

(** [float(d)], also the value of a float literal. *)
Definition fl_of_dec (d : decimal) : py_float :=
  if 0 <=? dexp d then fl_of_Z (coef d * 10 ^ dexp d) else fl_ratio (coef d) (10 ^ (- dexp d)).

(** A finite float as an exact fraction. *)
Definition fl_frac (x : py_float) : option (Z * Z) :=
  match x with
  | S754_zero _ => Some (0, 1)
  | S754_finite s m e =>
      let n := if s then Zneg m else Zpos m in
      Some (if 0 <=? e then (n * 2 ^ e, 1) else (n, 2 ^ (- e)))
  | _ => None
  end.

(** [int(round(x))]: ties to even; ValueError on nan, OverflowError on inf. *)
Definition py_round_int (x : py_float) : res Z :=
  match fl_frac x with
  | Some (n, d) => Ok (div_half_even n d)
  | None => match x with
            | S754_nan => Raise (ValueError "cannot convert float NaN to integer")
            | _ => Raise (OtherError "OverflowError")
            end
  end.

Definition fl_nan : py_float := S754_nan.
Definition fl_inf (negative : bool) : py_float := S754_infinity negative.
Definition fl_neg (x : py_float) : py_float := SFopp x.
Definition fl_is_finite (x : py_float) : bool :=
  match x with S754_zero _ | S754_finite _ _ _ => true | _ => false end.

(** [round(x, 2)]: the exact value rounded half-even to hundredths, as a float. *)
Definition py_round2 (x : py_float) : py_float :=
  match fl_frac x with
  | Some (n, d) => fl_ratio (div_half_even (100 * n) d) 100
  | None => x
  end.

(** *** [repr(x)]: the shortest decimal that reads back as [x] *)

Fixpoint exp10_fuel (fuel : nat) (n d k : Z) : Z :=
  match fuel with
  | O => k
  | S fuel' => if n * 10 ^ (- k) <? d then exp10_fuel fuel' n d (k - 1) else k
  end.

(** The exponent [k] with [10^k <= n/d < 10^(k+1)]; a binary64 is at least 10^-324. *)
Definition exp10 (n d : Z) : Z :=
  if d <=? n then ndigits (n / d) - 1 else exp10_fuel 330 n d (-1).

Definition repr_at (x : py_float) (n d k p : Z) : option decimal :=
  let q := k - p + 1 in
  let '(n', d') := if 0 <=? q then (n, d * 10 ^ q) else (n * 10 ^ (- q), d) in
  let lo := n' / d' in
  let hi := lo + 1 in
  let lo_ok := fl_eqb (fl_of_dec (Dec lo q)) x in
  let hi_ok := fl_eqb (fl_of_dec (Dec hi q)) x in
  if lo_ok && (negb hi_ok || (2 * (n' - lo * d') <=? d')) then Some (Dec lo q)
  else if hi_ok then Some (Dec hi q) else None.

Fixpoint repr_from (fuel : nat) (x : py_float) (n d k p : Z) : decimal :=
  match fuel with
  | O => Dec n 0
  | S fuel' => match repr_at x n d k p with
               | Some r => r
               | None => repr_from fuel' x n d k (p + 1)
               end
  end.

(** [Decimal(str(x))] for a finite [x]: 17 significant digits always suffice. *)
Definition dec_of_repr (x : py_float) : res decimal :=
  match x with
  | S754_zero _ => Ok (Dec 0 (-1))
  | S754_finite s m e =>
      match fl_frac (S754_finite false m e) with
      | Some (n, d) =>
          let r := repr_from 17 (S754_finite false m e) n d (exp10 n d) 1 in
          Ok (if s then Dec (- coef r) (dexp r) else r)
      | None => Raise InvalidOperation
      end
  | _ => Raise InvalidOperation
  end.

Fixpoint zeros (n : nat) : string :=
  match n with O => EmptyString | S n' => ("0" +:+ zeros n')%string end.

(** The digits of [str(x)]: fixed notation when the decimal point falls within
    [(-4, 16]] places, scientific otherwise. *)
Definition float_digits (digits : string) (point : Z) : string :=
  let n := Z.of_nat (String.length digits) in
  if (-4 <? point) && (point <=? 16) then
    if point <=? 0 then ("0." +:+ zeros (Z.to_nat (- point)) +:+ digits)%string
    else if n <=? point then (digits +:+ zeros (Z.to_nat (point - n)) +:+ ".0")%string
    else (String.substring 0 (Z.to_nat point) digits +:+ "." +:+
          String.substring (Z.to_nat point) (String.length digits) digits)%string
  else
    let e := pretty (Z.abs (point - 1)) in
    (String.substring 0 1 digits
     +:+ (if bool_decide (n = 1)%Z then "" else "." +:+ String.substring 1 (String.length digits) digits)
     +:+ (if (point - 1 <? 0)%Z then "e-" else "e+")
     +:+ (if (Z.of_nat (String.length e) <? 2)%Z then "0" +:+ e else e))%string.

(** [str(x)] of a float. *)
Definition fl_str (x : py_float) : string :=
  match x with
  | S754_nan => "nan"
  | S754_infinity s => if s then "-inf" else "inf"
  | S754_zero s => if s then "-0.0" else "0.0"
  | S754_finite s _ _ =>
      match dec_of_repr x with
      | Ok d =>
          let digits := pretty (Z.abs (coef d)) in
          (if s then "-" else EmptyString)
          +:+ float_digits digits (Z.of_nat (String.length digits) + dexp d)
      | Raise _ => EmptyString
      end
  end.

(** ** Lemmas *)

Lemma pow10_pos k : 0 <= k -> 0 < 10 ^ k.
Proof. intros. by apply Z.pow_pos_nonneg. Qed.

Lemma div_half_up_exact n d : 0 < d -> div_half_up (n * d) d = n.
Proof.
  intros Hd. unfold div_half_up.
  rewrite Z.abs_mul, (Z.abs_eq d) by lia.
  rewrite Z.div_mul, Z.mod_mul by lia.
  destruct (Z.leb_spec d (2 * 0)); [lia|].
  rewrite Z.sgn_mul, (Z.sgn_pos d), Z.mul_1_r by lia. by destruct n.
Qed.

Lemma div_half_up_pos n d :
  0 < d -> 0 <= n -> div_half_up n d = (2 * n + d) / (2 * d).
Proof.
  intros Hd Hn. unfold div_half_up. rewrite Z.abs_eq by lia.
  pose proof (Z.div_mod n d ltac:(lia)) as Hdm.
  pose proof (Z.mod_pos_bound n d Hd) as Hm.
  set (q := n / d) in *. set (r := n mod d) in *.
  assert (Hs : Z.sgn n = 1 \/ (n = 0 /\ Z.sgn n = 0)) by lia.
  destruct (Z.leb_spec d (2 * r)).
  - assert ((2 * n + d) / (2 * d) = q + 1) as ->.
    { symmetry. apply Z.div_unique_pos with (2 * r - d); nia. }
    destruct Hs as [Hs|[Hn0 Hs]]; rewrite Hs; [lia|].
    assert (q = 0) as Hq0 by (unfold q; rewrite Hn0; apply Z.div_0_l; lia).
    rewrite Hq0 in Hdm. lia.
  - assert ((2 * n + d) / (2 * d) = q) as ->.
    { symmetry. apply Z.div_unique_pos with (2 * r + d); nia. }
    destruct Hs as [Hs|[Hn0 Hs]]; rewrite Hs; [lia|].
    assert (q = 0) as Hq0 by (unfold q; rewrite Hn0; apply Z.div_0_l; lia). lia.
Qed.

Lemma div_half_up_mono n m d :
  0 < d -> 0 <= n -> n <= m -> div_half_up n d <= div_half_up m d.
Proof.
  intros. rewrite !div_half_up_pos by lia. apply Z.div_le_mono; lia.
Qed.

(** A number below [10 ^ k] has at most [k] digits. *)
Lemma ndigits_fuel_le fuel n k :
  0 <= n -> 1 <= k -> n < 10 ^ k -> ndigits_fuel fuel n <= k.
Proof.
  revert n k. induction fuel as [|fuel IH]; intros n k Hn Hk Hlt; simpl; [lia|].
  destruct (Z.ltb_spec n 10); [lia|].
  assert (2 <= k).
  { destruct (Z.eq_dec k 1) as [->|]; [|lia]. rewrite Z.pow_1_r in Hlt. lia. }
  enough (ndigits_fuel fuel (n / 10) <= k - 1) by lia.
  apply IH; [by apply Z.div_pos|lia|].
  apply Z.div_lt_upper_bound; [lia|]. rewrite <-Z.pow_succ_r by lia.
  by replace (Z.succ (k - 1)) with k by lia.
Qed.

Lemma ndigits_le n k : 1 <= k -> Z.abs n < 10 ^ k -> ndigits n <= k.
Proof. intros. apply ndigits_fuel_le; lia. Qed.

(** Results of at most 28 digits are exact. *)
Lemma ctx_round_exact d : Z.abs (coef d) < 10 ^ prec -> ctx_round d = d.
Proof.
  intros H. unfold ctx_round. pose proof (ndigits_le (coef d) prec ltac:(done) H).
  by destruct (Z.leb_spec (ndigits (coef d) - prec) 0); [|lia].
Qed.

Lemma quantize_cents_id c :
  Z.abs c < 10 ^ prec -> quantize_half_up (cents c) (-2) = Ok (cents c).
Proof.
  intros H. unfold quantize_half_up, cents; simpl. rewrite Z.mul_1_r.
  by destruct (Z.ltb_spec (Z.abs c) (10 ^ prec)); [|lia].
Qed.

Lemma dec_leb_cents a b : dec_leb (cents a) (cents b) = (a <=? b).
Proof. unfold dec_leb, align, cents; simpl. by rewrite !Z.mul_1_r. Qed.

Lemma dec_ltb_cents a b : dec_ltb (cents a) (cents b) = (a <? b).
Proof. unfold dec_ltb, align, cents; simpl. by rewrite !Z.mul_1_r. Qed.

(** *** Executable checks of the float model *)

Example float_tenth : fl_of_dec (Dec 1 (-1)) = S754_finite false 7205759403792794 (-56).
Proof. reflexivity. Qed.

Example round_half_even_int : py_round_int (fl_of_dec (Dec 25 (-1))) = Ok 2.
Proof. reflexivity. Qed.

(** [round(2.675, 2) == 2.67]: the binary value is just below the tie. *)
Example round2_2675 : py_round2 (fl_of_dec (Dec 2675 (-3))) = fl_of_dec (Dec 267 (-2)).
Proof. vm_compute. reflexivity. Qed.

Example repr_0_3 :
  dec_of_repr (fl_add (fl_of_dec (Dec 1 (-1))) (fl_of_dec (Dec 2 (-1))))
  = Ok (Dec 30000000000000004 (-17)).
Proof. vm_compute. reflexivity. Qed.

Example repr_118 : dec_of_repr (fl_of_Z 118) = Ok (Dec 118 0).
Proof. vm_compute. reflexivity. Qed.

Example fl_str_600_5 : fl_str (fl_of_dec (Dec 6005 (-1))) = "600.5".
Proof. vm_compute. reflexivity. Qed.

Example fl_str_100 : fl_str (fl_of_Z 100) = "100.0".
Proof. vm_compute. reflexivity. Qed.

Example fl_str_1e20 : fl_str (fl_of_Z (10 ^ 20)) = "1e+20".
Proof. vm_compute. reflexivity. Qed.

(** *** Signs of float results *)

(** Values a comparison [x <= 0] does not accept: positive, or NaN. *)
Definition fl_pos_or_nan (x : py_float) : bool :=
  match x with
  | S754_finite false _ _ | S754_infinity false | S754_nan => true
  | _ => false
  end.

Lemma fl_not_le_zero x : fl_leb x fl_zero = false -> fl_pos_or_nan x = true.
Proof. by destruct x as [[]|[]| |[] m e]. Qed.

Definition fl_nonneg_or_nan (x : py_float) : bool :=
  match x with
  | S754_finite true _ _ | S754_infinity true => false
  | _ => true
  end.

Lemma round_aux_sign m e l : fl_nonneg_or_nan (binary_round_aux fl_prec fl_emax false m e l) = true.
Proof. unfold binary_round_aux. by repeat case_match. Qed.

Lemma fl_mul_pos x p e :
  fl_pos_or_nan x = true -> fl_nonneg_or_nan (fl_mul x (S754_finite false p e)) = true.
Proof.
  destruct x as [[]|[]| |[] m ex]; try done. intros _.
  unfold fl_mul, SFmul. cbn [xorb]. apply round_aux_sign.
Qed.

Lemma div_half_even_nonneg n d : 0 <= n -> 0 < d -> 0 <= div_half_even n d.
Proof.
  intros Hn Hd. unfold div_half_even. assert (0 <= Z.abs n / d) by (apply Z.div_pos; lia).
  case_match; nia.
Qed.

Lemma py_round_nonneg x z : fl_nonneg_or_nan x = true -> py_round_int x = Ok z -> 0 <= z.
Proof.
  unfold py_round_int. destruct x as [s|s| |[] m e]; try done; intros _.
  - cbn. intros [= <-]. apply div_half_even_nonneg; lia.
  - cbn [fl_frac]. destruct (Z.leb_spec 0 e); intros [= <-]; apply div_half_even_nonneg; lia.
Qed.

(** [int(round(x * 10))] of an amount the code did not reject as [x <= 0]. *)
Lemma round_times_10_nonneg x w :
  fl_leb x fl_zero = false -> py_round_int (fl_mul x (fl_of_Z 10)) = Ok w -> 0 <= w.
Proof.
  intros Hp%fl_not_le_zero Hw. eapply py_round_nonneg; [|done].
  change (fl_of_Z 10) with (S754_finite false 5629499534213120 (-49)). by apply fl_mul_pos.
Qed.
