(* ===== verification/Text.v ===== *)
(** * Texts

    The [str] methods the modelled code uses.  A text is its UTF-8 bytes; case
    mapping and white space are the ASCII ones (the code applies them to
    identifiers, statuses and form fields). *)

From S2P Require Import Prelude.

Definition is_space (c : Ascii.ascii) : bool :=
  let n := Ascii.nat_of_ascii c in
  ((9 <=? n) && (n <=? 13))%nat || ((28 <=? n) && (n <=? 32))%nat.

Fixpoint lstrip (s : string) : string :=
  match s with
  | String c s' => if is_space c then lstrip s' else s
  | EmptyString => EmptyString
  end.

Fixpoint rstrip (s : string) : string :=
  match s with
  | EmptyString => EmptyString
  | String c s' =>
      let t := rstrip s' in
      if is_space c && bool_decide (t = EmptyString) then EmptyString else String c t
  end.

(** [s.strip()] *)
Definition strip (s : string) : string := rstrip (lstrip s).

Definition map_ascii (f : Ascii.ascii -> Ascii.ascii) (s : string) : string :=
  String.string_of_list_ascii (map f (String.list_ascii_of_string s)).

Definition shift_if (lo hi : nat) (d : Z) (c : Ascii.ascii) : Ascii.ascii :=
  let n := Ascii.nat_of_ascii c in
  if ((lo <=? n) && (n <=? hi))%nat then Ascii.ascii_of_nat (Z.to_nat (Z.of_nat n + d)) else c.

(** [s.lower()], [s.upper()] *)
Definition lower : string -> string := map_ascii (shift_if 65 90 32).
Definition upper : string -> string := map_ascii (shift_if 97 122 (-32)).

(** [s.startswith(p)] *)
Definition startswith (s p : string) : bool := String.prefix p s.

(** [s[len(p):]] of a text that starts with [p]. *)
Definition after (p s : string) : option string :=
  if startswith s p then Some (String.substring (String.length p) (String.length s) s) else None.

(** [p in s] *)
Fixpoint contains (p s : string) : bool :=
  String.prefix p s || match s with String _ s' => contains p s' | EmptyString => false end.

(** [s[:n]] of an ASCII text. *)
Definition str_take (n : nat) (s : string) : string := String.substring 0 n s.

(** [s.strip() or None] of an optional form field. *)
Definition strip_or_none (s : option string) : option string :=
  let t := strip (default EmptyString s) in
  if bool_decide (t = EmptyString) then None else Some t.

Definition is_empty (s : string) : bool := bool_decide (s = EmptyString).

(** [s.replace(p, "")] for a non-empty [p]. *)
Fixpoint remove_all_fuel (fuel : nat) (p s : string) : string :=
  match fuel with
  | O => s
  | S fuel' =>
      if String.prefix p s
      then remove_all_fuel fuel' p (String.substring (String.length p) (String.length s) s)
      else match s with
           | EmptyString => EmptyString
           | String c s' => String c (remove_all_fuel fuel' p s')
           end
  end.
Definition remove_all (p s : string) : string := remove_all_fuel (String.length s) p s.

(** The characters of [s] that [p] keeps. *)
Fixpoint keep_ascii (p : Ascii.ascii -> bool) (s : string) : string :=
  match s with
  | EmptyString => EmptyString
  | String c s' => if p c then String c (keep_ascii p s') else keep_ascii p s'
  end.

(** [s.split(sep)] at a single character, [acc] the piece so far. *)
Fixpoint split_char_go (sep : Ascii.ascii) (acc s : string) : list string :=
  match s with
  | EmptyString => [acc]
  | String c s' =>
      if Ascii.eqb c sep then acc :: split_char_go sep EmptyString s'
      else split_char_go sep (acc +:+ String c EmptyString) s'
  end.
Definition split_char (sep : Ascii.ascii) (s : string) : list string := split_char_go sep EmptyString s.

(** [s.split(sep, 1)] of a text that has [sep]. *)
Fixpoint cut_char (sep : Ascii.ascii) (s : string) : option (string * string) :=
  match s with
  | EmptyString => None
  | String c s' =>
      if Ascii.eqb c sep then Some (EmptyString, s')
      else match cut_char sep s' with Some (a, b) => Some (String c a, b) | None => None end
  end.

(** [s.rstrip("/")] *)
Fixpoint rstrip_slash (s : string) : string :=
  match s with
  | EmptyString => EmptyString
  | String c s' =>
      let r := rstrip_slash s' in
      if is_empty r && bool_decide (String c EmptyString = "/"%string) then EmptyString else String c r
  end.

(** [ext] with a leading dot unless it is empty, as the services build FQDNs. *)
Definition dotted (ext : string) : string :=
  if is_empty ext || startswith ext "." then ext else ("." +:+ ext)%string.

Lemma is_empty_true s : is_empty s = true <-> s = EmptyString.
Proof. apply bool_decide_eq_true. Qed.

Lemma prefix_append p q : String.prefix p (p +:+ q)%string = true.
Proof.
  induction p as [|c p IH]; [by destruct q|].
  change ((if Ascii.ascii_dec c c then String.prefix p (p +:+ q) else false) = true). by destruct (Ascii.ascii_dec c c).
Qed.

Example strip_example : strip "  a b " = "a b"%string.
Proof. reflexivity. Qed.

Example remove_all_example : remove_all "-" "a-b--c" = "abc"%string.
Proof. reflexivity. Qed.

(** [s.capitalize()] *)
Definition capitalize (s : string) : string :=
  match s with
  | EmptyString => EmptyString
  | String c s' => (upper (String c EmptyString) +:+ lower s')%string
  end.
