(* ===== verification/Numerals.v ===== *)
(** * Decimal numerals

    Reading and printing numbers as texts of digits, padded with zeros, and the
    characters that [strip] and [upper] leave alone. *)

From S2P Require Import Prelude Text.

Definition is_digit (c : Ascii.ascii) : bool :=
  let n := Z.of_nat (Ascii.nat_of_ascii c) in (48 <=? n) && (n <=? 57).

Definition digit_value (c : Ascii.ascii) : Z := Z.of_nat (Ascii.nat_of_ascii c) - 48.

Definition digit_char (n : Z) : Ascii.ascii := Ascii.ascii_of_nat (Z.to_nat (48 + n)).

Fixpoint all_chars (p : Ascii.ascii -> bool) (s : string) : bool :=
  match s with
  | EmptyString => true
  | String c s' => p c && all_chars p s'
  end.

(** [int(s)] of a text of digits, [acc] the value of the digits before. *)
Fixpoint dec_value (acc : Z) (s : string) : Z :=
  match s with
  | EmptyString => acc
  | String c s' => dec_value (10 * acc + digit_value c) s'
  end.

(** The last [w] decimal digits of [n], put before [acc]. *)
Fixpoint last_digits (w : nat) (n : Z) (acc : string) : string :=
  match w with
  | O => acc
  | S w' => last_digits w' (n / 10) (String (digit_char (n mod 10)) acc)
  end.

(** [f"{n:0wd}"] for [n >= 0]. *)
Definition zero_padded (w : nat) (n : Z) : string :=
  if n <? 10 ^ Z.of_nat w then last_digits w n EmptyString else pretty n.

(** [s[-n:]] *)
Definition str_last (n : nat) (s : string) : string :=
  String.substring (String.length s - n) n s.

(** ** Printing and reading *)

Lemma digit_char_spec n : 0 <= n < 10 -> is_digit (digit_char n) = true /\ digit_value (digit_char n) = n.
Proof.
  intros H. rewrite <-(Z2Nat.id n) by lia. assert (Z.to_nat n < 10)%nat as Hn by lia.
  revert Hn. generalize (Z.to_nat n). intros m Hm.
  do 10 (destruct m as [|m]; [by split|]). lia.
Qed.

Lemma digit_value_char c : is_digit c = true -> digit_char (digit_value c) = c /\ 0 <= digit_value c < 10.
Proof.
  unfold is_digit, digit_char, digit_value. intros [H1%Z.leb_le H2%Z.leb_le]%andb_true_iff.
  split; [|lia]. replace (Z.to_nat _) with (Ascii.nat_of_ascii c) by lia. apply Ascii.ascii_nat_embedding.
Qed.

Lemma mod10 n : 0 <= n mod 10 < 10.
Proof. by apply Z.mod_pos_bound. Qed.

Lemma last_digits_all w : forall n acc,
  all_chars is_digit (last_digits w n acc) = all_chars is_digit acc.
Proof.
  induction w as [|w IH]; intros n acc; [done|]. cbn. rewrite IH. cbn.
  by rewrite (proj1 (digit_char_spec _ (mod10 n))).
Qed.

Lemma last_digits_length w : forall n acc,
  String.length (last_digits w n acc) = (w + String.length acc)%nat.
Proof. induction w as [|w IH]; intros n acc; [done|]. cbn. rewrite IH. cbn. lia. Qed.

Lemma last_digits_value w : forall n acc, dec_value (n / 10 ^ Z.of_nat w) (last_digits w n acc) = dec_value n acc.
Proof.
  induction w as [|w IH]; intros n acc; [by rewrite Z.div_1_r|].
  replace (n / 10 ^ Z.of_nat (S w)) with (n / 10 / 10 ^ Z.of_nat w).
  2:{ rewrite Z.div_div, Nat2Z.inj_succ, Z.pow_succ_r by lia. done. }
  cbn [last_digits]. rewrite IH. cbn. rewrite (proj2 (digit_char_spec _ (mod10 n))).
  f_equal. pose proof (Z.div_mod n 10 ltac:(lia)). lia.
Qed.

(** Printing what was read gives the text back. *)
Lemma last_digits_dec_value s : forall w a acc,
  all_chars is_digit s = true ->
  last_digits (w + String.length s) (dec_value a s) acc = last_digits w a (s +:+ acc).
Proof.
  induction s as [|c s IH]; intros w a acc; cbn; [by rewrite Nat.add_0_r|].
  intros [Hc Hs]%andb_true_iff. replace (w + S (String.length s))%nat with (S w + String.length s)%nat by lia.
  rewrite IH by done. cbn. destruct (digit_value_char c Hc) as [Hd Hr].
  rewrite (Z.add_comm (10 * a)), Z.mul_comm, Z.div_add, Z.mod_add by lia.
  by rewrite Z.div_small, Z.mod_small, Hd by done.
Qed.

Lemma dec_value_bound s : forall a, all_chars is_digit s = true ->
  a * 10 ^ Z.of_nat (String.length s) <= dec_value a s < (a + 1) * 10 ^ Z.of_nat (String.length s).
Proof.
  induction s as [|c s IH]; intros a; cbn [all_chars dec_value String.length]; [cbn; lia|].
  intros [Hc Hs]%andb_true_iff. specialize (IH (10 * a + digit_value c) Hs).
  destruct (digit_value_char c Hc) as [_ Hr]. rewrite Nat2Z.inj_succ, Z.pow_succ_r by lia.
  set (p := 10 ^ Z.of_nat (String.length s)) in *. assert (0 < p) by (by apply Z.pow_pos_nonneg; lia). nia.
Qed.

Lemma pretty_N_char_digit (n : N) : pretty_N_char (n `mod` 10) = digit_char (Z.of_N n mod 10).
Proof.
  change 10%Z with (Z.of_N 10). rewrite <-N2Z.inj_mod.
  assert (n `mod` 10 < 10)%N as Hm by (by apply N.mod_lt). revert Hm. generalize (n `mod` 10)%N. intros m Hm.
  rewrite <-(N2Nat.id m). assert (N.to_nat m < 10)%nat as Hk by lia. revert Hk. generalize (N.to_nat m). intros k Hk.
  do 10 (destruct k as [|k]; [done|]). lia.
Qed.

Lemma pretty_N_value (n : N) s : dec_value 0 (pretty_N_go n s) = dec_value (Z.of_N n) s.
Proof.
  revert s. induction (N.lt_wf_0 n) as [n _ IH]. intros s.
  destruct (decide (0 < n)%N) as [Hn|Hn].
  - rewrite pretty_N_go_step, IH by (done || by apply N.div_lt). cbn. f_equal.
    rewrite pretty_N_char_digit, (proj2 (digit_char_spec _ (mod10 _))).
    rewrite N2Z.inj_div. pose proof (Z.div_mod (Z.of_N n) 10 ltac:(lia)). lia.
  - assert (n = 0%N) as -> by lia. done.
Qed.

Lemma pretty_value n : 0 <= n -> dec_value 0 (pretty n) = n.
Proof.
  intros Hn. destruct n as [|p|p]; [done| |lia]. change (dec_value 0 (pretty (N.pos p)) = Z.pos p).
  unfold pretty, pretty_N. case_decide; [done|]. by rewrite pretty_N_value.
Qed.

Lemma zero_padded_value w n : 0 <= n -> dec_value 0 (zero_padded w n) = n.
Proof.
  intros Hn. unfold zero_padded. destruct (Z.ltb_spec n (10 ^ Z.of_nat w)); [|by apply pretty_value].
  rewrite <-(last_digits_value w n EmptyString) at 2. by rewrite Z.div_small.
Qed.

Lemma zero_padded_inj w n m : 0 <= n -> 0 <= m -> zero_padded w n = zero_padded w m -> n = m.
Proof. intros Hn Hm H. by rewrite <-(zero_padded_value w n), <-(zero_padded_value w m), H. Qed.

Lemma pad_dec_value w s : all_chars is_digit s = true -> String.length s = w ->
  0 <= dec_value 0 s < 10 ^ Z.of_nat w /\ last_digits w (dec_value 0 s) EmptyString = s.
Proof.
  intros Hs <-. pose proof (dec_value_bound s 0 Hs) as Hb. split; [lia|].
  etrans; [exact (last_digits_dec_value s 0 0 EmptyString Hs)|]. cbn. clear. induction s as [|c s IH]; [done|].
  change (String c (s +:+ EmptyString) = String c s). by f_equal.
Qed.

(** ** Characters without case or blanks *)

(** A character that [strip] and [upper] leave alone. *)
Definition plain (c : Ascii.ascii) : bool :=
  negb (is_space c) && bool_decide (shift_if 97 122 (-32) c = c) && negb (Ascii.nat_of_ascii c =? 32)%nat.

Lemma plain_inv c : plain c = true ->
  is_space c = false /\ shift_if 97 122 (-32) c = c /\ (Ascii.nat_of_ascii c =? 32)%nat = false.
Proof.
  intros [[H1%negb_true_iff H2%bool_decide_eq_true]%andb_true_iff H3%negb_true_iff]%andb_true_iff. done.
Qed.

Lemma digit_plain c : is_digit c = true -> plain c = true.
Proof.
  unfold is_digit, plain, is_space, shift_if. intros [H1%Z.leb_le H2%Z.leb_le]%andb_true_iff.
  destruct (Nat.leb_spec 9 (Ascii.nat_of_ascii c)), (Nat.leb_spec (Ascii.nat_of_ascii c) 13),
    (Nat.leb_spec 28 (Ascii.nat_of_ascii c)), (Nat.leb_spec (Ascii.nat_of_ascii c) 32),
    (Nat.leb_spec 97 (Ascii.nat_of_ascii c)), (Nat.eqb_spec (Ascii.nat_of_ascii c) 32); cbn; try lia.
  by rewrite bool_decide_eq_true_2.
Qed.

Lemma all_chars_mono (p q : Ascii.ascii -> bool) s :
  (forall c, p c = true -> q c = true) -> all_chars p s = true -> all_chars q s = true.
Proof.
  intros Hpq. induction s as [|c s IH]; [done|]. cbn. intros [H1 H2]%andb_true_iff. by rewrite Hpq, IH.
Qed.

Lemma strip_plain s : all_chars plain s = true -> strip s = s.
Proof.
  intros Hs. unfold strip.
  assert (lstrip s = s) as ->.
  { destruct s as [|c s]; [done|]. cbn in *. apply andb_true_iff in Hs as [Hc _].
    by destruct (plain_inv c Hc) as (-> & _). }
  induction s as [|c s IH]; [done|]. cbn in *. apply andb_true_iff in Hs as [Hc Hs].
  destruct (plain_inv c Hc) as (-> & _). by rewrite IH.
Qed.

Lemma upper_plain s : all_chars plain s = true -> upper s = s.
Proof.
  intros Hs. unfold upper, map_ascii. induction s as [|c s IH]; [done|]. cbn in *.
  apply andb_true_iff in Hs as [Hc Hs]. destruct (plain_inv c Hc) as (_ & -> & _). cbn. by rewrite IH.
Qed.

(** ** Padded numerals *)

Lemma pretty_N_digits (n : N) s : all_chars is_digit (pretty_N_go n s) = all_chars is_digit s.
Proof.
  revert s. induction (N.lt_wf_0 n) as [n _ IH]. intros s.
  destruct (decide (0 < n)%N) as [Hn|Hn].
  - rewrite pretty_N_go_step, IH by (done || by apply N.div_lt). cbn.
    by rewrite pretty_N_char_digit, (proj1 (digit_char_spec _ (mod10 _))).
  - by assert (n = 0%N) as -> by lia.
Qed.

Lemma zero_padded_digits w n : 0 <= n -> all_chars is_digit (zero_padded w n) = true.
Proof.
  intros Hn. unfold zero_padded. destruct (n <? _); [by rewrite last_digits_all|].
  destruct n as [|p|p]; [done| |lia]. change (all_chars is_digit (pretty (N.pos p)) = true).
  unfold pretty, pretty_N. case_decide; [done|]. by rewrite pretty_N_digits.
Qed.

Lemma zero_padded_nonempty w n : 0 <= n -> zero_padded (S w) n <> EmptyString.
Proof.
  intros Hn. unfold zero_padded. destruct (Z.ltb_spec n (10 ^ Z.of_nat (S w))) as [H|H].
  - intros He. apply (f_equal String.length) in He. rewrite last_digits_length in He. discriminate.
  - intros He. pose proof (pretty_value n Hn) as Hv. rewrite He in Hv. cbn in Hv. subst n.
    pose proof (Z.pow_pos_nonneg 10 (Z.of_nat (S w)) ltac:(lia) ltac:(lia)). lia.
Qed.

Lemma substring_all s : forall n, (String.length s <= n)%nat -> String.substring 0 n s = s.
Proof.
  induction s as [|c s IH]; intros [|n] H; cbn in *; try done; [lia|]. by rewrite IH by lia.
Qed.

Lemma after_app p s : after p (p +:+ s)%string = Some s.
Proof.
  unfold after, startswith. rewrite prefix_append.
  f_equal. assert (String.length s <= String.length (p +:+ s))%nat as Hl.
  { clear. induction p as [|c p IH]; [done|]. change (String.length s <= S (String.length (p +:+ s)))%nat. lia. }
  revert Hl. generalize (String.length (p +:+ s)). intros m Hm.
  induction p as [|c p IH]; [by apply substring_all|exact IH].
Qed.

(** ** [int(s)] of a text *)

(** Digits in groups that single underscores separate. *)
Fixpoint digit_groups (acc : string) (s : string) : option string :=
  match s with
  | EmptyString => if is_empty acc then None else Some acc
  | String c s' =>
      if is_digit c then digit_groups (acc +:+ String c EmptyString) s'
      else match s' with
      | String d _ =>
          if (Ascii.nat_of_ascii c =? 95)%nat && negb (is_empty acc) && is_digit d then digit_groups acc s' else None
      | EmptyString => None
      end
  end.

Definition int_of_str (s : string) : option Z :=
  match strip s with
  | String c r =>
      if (Ascii.nat_of_ascii c =? 45)%nat then option_map (fun d => - dec_value 0 d) (digit_groups EmptyString r)
      else if (Ascii.nat_of_ascii c =? 43)%nat then option_map (dec_value 0) (digit_groups EmptyString r)
      else option_map (dec_value 0) (digit_groups EmptyString (String c r))
  | EmptyString => None
  end.

Example int_of_str_example :
  map int_of_str [" -1_000 "; "+7"; "1__0"; "_1"; "1_"; ""; "ten"]%string
  = [Some (-1000); Some 7; None; None; None; None; None].
Proof. reflexivity. Qed.
