(* ===== verification/Sha256.v ===== *)
(** * hashlib.sha256 and hmac

    The digest functions of Python's standard library the payment client uses
    (app/integrations/razorpay/client.py), executable, on byte strings: a byte is
    a [Z] below 256, a word a [Z] below 2^32 with its wrap-around written out.
    The published test vectors are checked at the end. *)

From S2P Require Import Prelude.

Definition w32 (x : Z) : Z := Z.land x 4294967295.
Definition add32 (x y : Z) : Z := w32 (x + y).
Definition rotr (n x : Z) : Z := Z.lor (Z.shiftr x n) (w32 (Z.shiftl x (32 - n))).

Definition ch (x y z : Z) : Z := Z.lxor (Z.land x y) (Z.land (Z.lxor x 4294967295) z).
Definition maj (x y z : Z) : Z := Z.lxor (Z.lxor (Z.land x y) (Z.land x z)) (Z.land y z).
Definition bsig0 (x : Z) : Z := Z.lxor (Z.lxor (rotr 2 x) (rotr 13 x)) (rotr 22 x).
Definition bsig1 (x : Z) : Z := Z.lxor (Z.lxor (rotr 6 x) (rotr 11 x)) (rotr 25 x).
Definition ssig0 (x : Z) : Z := Z.lxor (Z.lxor (rotr 7 x) (rotr 18 x)) (Z.shiftr x 3).
Definition ssig1 (x : Z) : Z := Z.lxor (Z.lxor (rotr 17 x) (rotr 19 x)) (Z.shiftr x 10).

Definition round_constants : list Z :=
  [1116352408; 1899447441; 3049323471; 3921009573; 961987163; 1508970993; 2453635748;
   2870763221; 3624381080; 310598401; 607225278; 1426881987; 1925078388; 2162078206;
   2614888103; 3248222580; 3835390401; 4022224774; 264347078; 604807628; 770255983;
   1249150122; 1555081692; 1996064986; 2554220882; 2821834349; 2952996808; 3210313671;
   3336571891; 3584528711; 113926993; 338241895; 666307205; 773529912; 1294757372;
   1396182291; 1695183700; 1986661051; 2177026350; 2456956037; 2730485921; 2820302411;
   3259730800; 3345764771; 3516065817; 3600352804; 4094571909; 275423344; 430227734;
   506948616; 659060556; 883997877; 958139571; 1322822218; 1537002063; 1747873779;
   1955562222; 2024104815; 2227730452; 2361852424; 2428436474; 2756734187; 3204031479;
   3329325298].

Definition initial_state : list Z :=
  [1779033703; 3144134277; 1013904242; 2773480762; 1359893119; 2600822924; 528734635;
   1541459225].

(** Big-endian encodings. *)
Fixpoint be_bytes (n : nat) (x : Z) : list Z :=
  match n with
  | O => []
  | S n' => Z.land (Z.shiftr x (8 * Z.of_nat n')) 255 :: be_bytes n' x
  end.

Definition be_value (bs : list Z) : Z := foldl (fun acc b => Z.shiftl acc 8 + b) 0 bs.

Fixpoint chunks (fuel n : nat) (l : list Z) : list (list Z) :=
  match fuel with
  | O => []
  | S fuel' => match l with [] => [] | _ => take n l :: chunks fuel' n (drop n l) end
  end.

(** Padding to a multiple of 64 bytes. *)
Definition pad (m : list Z) : list Z :=
  let len := Z.of_nat (length m) in
  m ++ [128] ++ replicate (Z.to_nat ((55 - len) mod 64)) 0 ++ be_bytes 8 (8 * len).

(** The message schedule: 64 words, newest first while it grows. *)
Fixpoint extend (n : nat) (w : list Z) : list Z :=
  match n with
  | O => w
  | S n' =>
      let at_ i := nth i w 0 in
      extend n' (add32 (add32 (ssig1 (at_ 1%nat)) (at_ 6%nat))
                       (add32 (ssig0 (at_ 14%nat)) (at_ 15%nat)) :: w)
  end.

Definition schedule (block : list Z) : list Z :=
  rev (extend 48 (rev (map be_value (chunks 16 4 block)))).

Definition round (st : list Z) (kw : Z * Z) : list Z :=
  match st with
  | [a; b; c; d; e; f; g; h] =>
      let t1 := add32 (add32 (add32 h (bsig1 e)) (ch e f g)) (add32 kw.1 kw.2) in
      let t2 := add32 (bsig0 a) (maj a b c) in
      [add32 t1 t2; a; b; c; add32 d t1; e; f; g]
  | _ => st
  end.

Definition compress (st : list Z) (block : list Z) : list Z :=
  zip_with add32 st (foldl round st (zip round_constants (schedule block))).

Definition sha256 (m : list Z) : list Z :=
  let p := pad m in
  flat_map (be_bytes 4) (foldl compress initial_state (chunks (length p) 64 p)).

Definition xor_bytes (b : Z) (l : list Z) : list Z := map (Z.lxor b) l.

Definition hmac_key (key : list Z) : list Z :=
  let k := if (64 <? length key)%nat then sha256 key else key in
  k ++ replicate (64 - length k)%nat 0.

Definition hmac_sha256 (key msg : list Z) : list Z :=
  let k := hmac_key key in
  sha256 (xor_bytes 92 k ++ sha256 (xor_bytes 54 k ++ msg)).

(** ** Texts *)

Definition byte_of_ascii (c : Ascii.ascii) : Z := Z.of_N (Ascii.N_of_ascii c).
Definition ascii_of_byte (b : Z) : Ascii.ascii := Ascii.ascii_of_N (Z.to_N b).

(** [s.encode("utf-8")]: a text is its UTF-8 bytes already. *)
Definition encode (s : string) : list Z := map byte_of_ascii (String.list_ascii_of_string s).

Definition hex_digit (d : Z) : Ascii.ascii :=
  ascii_of_byte (if d <? 10 then 48 + d else 87 + d).

Definition hexdigest (bs : list Z) : string :=
  String.string_of_list_ascii
    (flat_map (fun b => [hex_digit (Z.shiftr b 4); hex_digit (Z.land b 15)]) bs).

(** [hmac.new(key, msg, hashlib.sha256).hexdigest()] *)
Definition hmac_hexdigest (key msg : string) : string :=
  hexdigest (hmac_sha256 (encode key) (encode msg)).

Definition is_ascii (s : string) : bool := forallb (fun b => b <? 128) (encode s).

(** [hmac.compare_digest(a, b)] on [str]: TypeError unless both are ASCII. *)
Definition compare_digest (a b : string) : res bool :=
  if is_ascii a && is_ascii b then Ok (bool_decide (a = b))
  else Raise (OtherError "TypeError").

Lemma compare_digest_true a b : compare_digest a b = Ok true -> a = b.
Proof.
  unfold compare_digest. destruct (is_ascii a && is_ascii b); [|done].
  intros [= H]. by apply bool_decide_eq_true in H.
Qed.

(** ** Published test vectors *)

Example sha256_abc :
  hexdigest (sha256 (encode "abc"))
  = "ba7816bf8f01cfea414140de5dae2223b00361a396177a9cb410ff61f20015ad"%string.
Proof. vm_compute. reflexivity. Qed.

Example sha256_two_blocks :
  hexdigest (sha256 (encode "abcdbcdecdefdefgefghfghighijhijkijkljklmklmnlmnomnopnopq"))
  = "248d6a61d20638b8e5c026930c3e6039a33ce45964ff2167f6ecedd419db06c1"%string.
Proof. vm_compute. reflexivity. Qed.

(** RFC 4231, test case 2. *)
Example hmac_rfc4231_2 :
  hmac_hexdigest "Jefe" "what do ya want for nothing?"
  = "5bdcc146bf60754e6a042426089575c75a003f089d2739839dec58b964ec3843"%string.
Proof. vm_compute. reflexivity. Qed.

(** ** uuid.uuid5 (SHA-1 name-based UUIDs) *)

Definition rotl (n x : Z) : Z := Z.lor (w32 (Z.shiftl x n)) (Z.shiftr x (32 - n)).

Fixpoint extend1 (n : nat) (w : list Z) : list Z :=
  match n with
  | O => w
  | S n' =>
      let at_ i := nth i w 0 in
      extend1 n' (rotl 1 (Z.lxor (Z.lxor (at_ 2%nat) (at_ 7%nat))
                                 (Z.lxor (at_ 13%nat) (at_ 15%nat))) :: w)
  end.

Definition sha1_f (t b c d : Z) : Z * Z :=
  if t <? 20 then (ch b c d, 1518500249)
  else if t <? 40 then (Z.lxor (Z.lxor b c) d, 1859775393)
  else if t <? 60 then (maj b c d, 2400959708)
  else (Z.lxor (Z.lxor b c) d, 3395469782).

Definition sha1_round (acc : Z * list Z) (w : Z) : Z * list Z :=
  match acc with
  | (t, [a; b; c; d; e]) =>
      let '(f, k) := sha1_f t b c d in
      (t + 1, [add32 (add32 (add32 (rotl 5 a) f) (add32 e k)) w; a; rotl 30 b; c; d])
  | _ => acc
  end.

Definition sha1_compress (st : list Z) (block : list Z) : list Z :=
  let ws := rev (extend1 64 (rev (map be_value (chunks 16 4 block)))) in
  zip_with add32 st (foldl sha1_round (0, st) ws).2.

Definition sha1 (m : list Z) : list Z :=
  let p := pad m in
  flat_map (be_bytes 4)
    (foldl sha1_compress [1732584193; 4023233417; 2562383102; 271733878; 3285377520]
       (chunks (length p) 64 p)).

(** The canonical text of 16 bytes. *)
Definition uuid_text (bs : list Z) : string :=
  (hexdigest (take 4 bs) +:+ "-" +:+ hexdigest (take 2 (drop 4 bs)) +:+ "-"
   +:+ hexdigest (take 2 (drop 6 bs)) +:+ "-" +:+ hexdigest (take 2 (drop 8 bs)) +:+ "-"
   +:+ hexdigest (take 6 (drop 10 bs)))%string.

Definition set_version (i : nat) (b : Z) : Z :=
  match i with
  | 6%nat => Z.lor (Z.land b 15) 80
  | 8%nat => Z.lor (Z.land b 63) 128
  | _ => b
  end.

Definition NAMESPACE_URL : list Z :=
  [107; 167; 184; 17; 157; 173; 17; 209; 128; 180; 0; 192; 79; 212; 48; 200].

Definition uuid5 (namespace : list Z) (name : string) : string :=
  uuid_text (imap set_version (take 16 (sha1 (namespace ++ encode name)))).

(** [uuid.uuid5(uuid.NAMESPACE_URL, "cobrother-share:domain:tidebrew.com")] *)
Example uuid5_share :
  uuid5 NAMESPACE_URL "cobrother-share:domain:tidebrew.com"
  = "26072c3d-9f49-5b5c-901b-4f2bd4a50785"%string.
Proof. vm_compute. reflexivity. Qed.
