(* ===== verification/PyJson.v ===== *)
(** * JSON values

    What the code has when it holds a decoded JSON text: [None], [bool], [int],
    [float], [str], lists and dictionaries, and the datetimes it puts among
    them.  A dictionary is the list of its items in the order of insertion.
    [str], [repr], the standard library's [json.dumps] and [json.loads], and the
    round trip between the last two.  Limits of the decoder on the length of an
    integer and the depth of a text are not modelled. *)

From Stdlib Require Import SpecFloat.
From stdpp Require Import sorting.
From S2P Require Import Prelude Text Numerals PyNum.

Inductive json :=
| JNull
| JBool (b : bool)
| JInt (n : Z)
| JFloat (x : py_float)
| JStr (s : string)
| JArr (l : list json)
| JObj (kvs : list (string * json))
| JDate (t : Z).

Abbreviation dict := (list (string * json)).

(** Induction with a hypothesis for every element and every item. *)
Lemma json_nested_ind (P : json -> Prop) :
  P JNull -> (forall b, P (JBool b)) -> (forall n, P (JInt n)) -> (forall x, P (JFloat x)) ->
  (forall s, P (JStr s)) -> (forall l, Forall P l -> P (JArr l)) ->
  (forall kvs, Forall (fun kv => P kv.2) kvs -> P (JObj kvs)) -> (forall t, P (JDate t)) ->
  forall j, P j.
Proof.
  intros H1 H2 H3 H4 H5 Harr Hobj H8. fix IH 1. intros [ |b|n|x|s|l|kvs|t].
  - apply H1.
  - apply H2.
  - apply H3.
  - apply H4.
  - apply H5.
  - apply Harr. induction l as [|j l IHl]; constructor; [apply IH|exact IHl].
  - apply Hobj. induction kvs as [|[k j] l IHl]; constructor; [apply IH|exact IHl].
  - apply H8.
Qed.

(** ** Dictionaries *)

(** [d.get(k)] where [None] is told from absence *)
Definition dlookup (k : string) (d : dict) : option json :=
  option_map snd (List.find (fun kv => bool_decide (kv.1 = k)) d).

(** [d.get(k)] *)
Definition dget (k : string) (d : dict) : json := default JNull (dlookup k d).

(** [k in d] *)
Definition has_key (k : string) (d : dict) : bool := bool_decide (k ∈ map fst d).

(** [d[k] = v]: in the place of the old value, or at the end. *)
Fixpoint dset (k : string) (v : json) (d : dict) : dict :=
  match d with
  | [] => [(k, v)]
  | (k', v') :: d' => if bool_decide (k' = k) then (k, v) :: d' else (k', v') :: dset k v d'
  end.

(** [d.update(e)] *)
Definition dupdate (d e : dict) : dict := foldl (fun acc kv => dset kv.1 kv.2 acc) d e.

(** [d.setdefault(k, v)] *)
Definition dsetdefault (k : string) (v : json) (d : dict) : dict := if has_key k d then d else dset k v d.

(** [d.pop(k, None)] *)
Definition dpop (k : string) (d : dict) : dict := List.filter (fun kv => negb (bool_decide (kv.1 = k))) d.

(** ** Truth and comparison with the empty values *)

Definition truth (v : json) : bool :=
  match v with
  | JNull => false
  | JBool b => b
  | JInt n => negb (n =? 0)
  | JFloat x => negb (fl_eqb x fl_zero)
  | JStr s => negb (is_empty s)
  | JArr l => negb (bool_decide (length l = 0%nat))
  | JObj kvs => negb (bool_decide (length kvs = 0%nat))
  | JDate _ => true
  end.

(** [a or b] *)
Definition py_or (a b : json) : json := if truth a then a else b.

(** [v in (None, "", [], {})] *)
Definition is_blank (v : json) : bool :=
  match v with
  | JNull => true
  | JStr s => is_empty s
  | JArr l => bool_decide (length l = 0%nat)
  | JObj kvs => bool_decide (length kvs = 0%nat)
  | _ => false
  end.

Definition is_dict (v : json) : bool := match v with JObj _ => true | _ => false end.

(** [v if isinstance(v, dict) else {}] *)
Definition as_dict (v : json) : dict := match v with JObj d => d | _ => [] end.

(** ** [str] and [repr] *)

Definition dquote : Ascii.ascii := Ascii.ascii_of_nat 34.
Definition squote : Ascii.ascii := Ascii.ascii_of_nat 39.
Definition backslash : Ascii.ascii := Ascii.ascii_of_nat 92.
Definition chr (c : Ascii.ascii) : string := String c EmptyString.
Definition code (c : Ascii.ascii) : Z := Z.of_nat (Ascii.nat_of_ascii c).

Definition hex_char (n : Z) : Ascii.ascii := Ascii.ascii_of_nat (Z.to_nat (if n <? 10 then 48 + n else 87 + n)).

(** The last [w] hexadecimal digits of [n]. *)
Fixpoint hex_digits (w : nat) (n : Z) (acc : string) : string :=
  match w with
  | O => acc
  | S w' => hex_digits w' (n / 16) (String (hex_char (n mod 16)) acc)
  end.

Definition join (sep : string) (l : list string) : string :=
  match l with
  | [] => EmptyString
  | s :: l' => foldl (fun acc t => acc +:+ sep +:+ t)%string s l'
  end.

Definition repr_char (quote c : Ascii.ascii) : string := (
  if Ascii.eqb c quote || Ascii.eqb c backslash then String backslash (chr c)
  else if (code c =? 9)%Z then chr backslash +:+ "t"
  else if (code c =? 10)%Z then chr backslash +:+ "n"
  else if (code c =? 13)%Z then chr backslash +:+ "r"
  else if (code c <? 32)%Z || (code c =? 127)%Z then chr backslash +:+ ("x" +:+ hex_digits 2 (code c) EmptyString)
  else chr c)%string.

Fixpoint map_chars (f : Ascii.ascii -> string) (s : string) : string :=
  match s with
  | EmptyString => EmptyString
  | String c s' => (f c +:+ map_chars f s')%string
  end.

(** [repr] of a text, single quoted unless that would need an escape. *)
Definition str_repr (s : string) : string :=
  let quote := if contains (chr squote) s && negb (contains (chr dquote) s) then dquote else squote in
  String quote (map_chars (repr_char quote) s +:+ chr quote).

(** Civil date of a day number since 1970-01-01. *)
Definition civil (z : Z) : Z * Z * Z :=
  let z := z + 719468 in
  let era := z / 146097 in
  let doe := z mod 146097 in
  let yoe := (doe - doe / 1460 + doe / 36524 - doe / 146096) / 365 in
  let doy := doe - (365 * yoe + yoe / 4 - yoe / 100) in
  let mp := (5 * doy + 2) / 153 in
  let d := doy - (153 * mp + 2) / 5 + 1 in
  let m := if mp <? 10 then mp + 3 else mp - 9 in
  (yoe + era * 400 + (if m <=? 2 then 1 else 0), m, d).

(** [t.isoformat(sep)] of an aware datetime in UTC. *)
Definition isoformat (sep : string) (t : Z) : string :=
  let '(y, m, d) := civil (t / days 1) in
  let us := t mod days 1 in
  let sec := us / seconds 1 in
  let frac := us mod seconds 1 in
  let clock := [zero_padded 2 (sec / 3600); zero_padded 2 (sec / 60 mod 60); zero_padded 2 (sec mod 60)] in
  let fraction := if frac =? 0 then EmptyString else ("." +:+ zero_padded 6 frac)%string in
  (join "-" [zero_padded 4 y; zero_padded 2 m; zero_padded 2 d] +:+ sep +:+ join ":" clock +:+ fraction +:+ "+00:00")%string.

(** [repr(v)]; of a datetime its [str], which is all the code prints. *)
Fixpoint py_repr (v : json) : string :=
  match v with
  | JNull => "None"
  | JBool b => if b then "True" else "False"
  | JInt n => pretty n
  | JFloat x => fl_str x
  | JStr s => str_repr s
  | JArr l => ("[" +:+ join ", " (map py_repr l) +:+ "]")%string
  | JObj kvs => ("{" +:+ join ", " (map (fun kv => str_repr kv.1 +:+ ": " +:+ py_repr kv.2) kvs) +:+ "}")%string
  | JDate t => isoformat " " t
  end.

(** [str(v)] *)
Definition py_str (v : json) : string := match v with JStr s => s | _ => py_repr v end.

Example py_repr_example :
  py_repr (JObj [("a", JArr [JInt (-3); JStr "it's"]); ("b", JBool true)])
  = ("{'a': [-3, " +:+ chr dquote +:+ "it's" +:+ chr dquote +:+ "], 'b': True}")%string.
Proof. vm_compute. reflexivity. Qed.

Example isoformat_example : isoformat "T" (days 19782 + seconds 3661 + 5) = "2024-02-29T01:01:01.000005+00:00".
Proof. vm_compute. reflexivity. Qed.

(** ** [json.dumps] *)

(** The code points of a text in UTF-8. *)
Fixpoint code_points (s : string) : list Z :=
  match s with
  | EmptyString => []
  | String a s1 =>
      if code a <? 192 then code a :: code_points s1
      else match s1 with
      | EmptyString => [code a]
      | String b s2 =>
          if code a <? 224 then ((code a - 192) * 64 + (code b - 128)) :: code_points s2
          else match s2 with
          | EmptyString => [code a; code b]
          | String c s3 =>
              if code a <? 240 then ((code a - 224) * 4096 + (code b - 128) * 64 + (code c - 128)) :: code_points s3
              else match s3 with
              | EmptyString => [code a; code b; code c]
              | String d s4 =>
                  ((code a - 240) * 262144 + (code b - 128) * 4096 + (code c - 128) * 64 + (code d - 128))
                    :: code_points s4
              end
          end
      end
  end.

Definition escape_unit (n : Z) : string := (chr backslash +:+ "u" +:+ hex_digits 4 n EmptyString)%string.

(** One code point, as [ensure_ascii] writes it. *)
Definition escape_point (n : Z) : string :=
  let short c := String backslash (chr (Ascii.ascii_of_nat c)) in
  if (n =? 34) || (n =? 92) then short (Z.to_nat n)
  else if n =? 10 then short 110%nat
  else if n =? 13 then short 114%nat
  else if n =? 9 then short 116%nat
  else if n =? 12 then short 102%nat
  else if n =? 8 then short 98%nat
  else if (32 <=? n) && (n <=? 126) then chr (Ascii.ascii_of_nat (Z.to_nat n))
  else if n <? 65536 then escape_unit n
  else (escape_unit (55296 + (n - 65536) / 1024) +:+ escape_unit (56320 + (n - 65536) mod 1024))%string.

Definition dump_str (s : string) : string :=
  String dquote (foldr (fun n acc => escape_point n +:+ acc)%string (chr dquote) (code_points s)).

Definition dump_float (x : py_float) : string :=
  match x with
  | S754_nan => "NaN"
  | S754_infinity s => if s then "-Infinity" else "Infinity"
  | _ => fl_str x
  end.

Definition key_le {A} (a b : string * A) : Prop := String.leb a.1 b.1 = true.
#[export] Instance key_le_dec {A} : RelDecision (key_le (A := A)).
Proof. intros a b. unfold key_le. apply _. Defined.

(** [separators], [sort_keys], and [default=str] for what JSON does not have. *)
Record dump_options := DumpOptions { item_separator : string; key_separator : string; sort_keys : bool; default_str : bool }.

Fixpoint serializable (o : dump_options) (j : json) : bool :=
  match j with
  | JArr l => forallb (serializable o) l
  | JObj kvs => forallb (fun kv => serializable o kv.2) kvs
  | JDate _ => default_str o
  | _ => true
  end.

Definition dump_item (o : dump_options) (kv : string * string) : string :=
  (dump_str kv.1 +:+ key_separator o +:+ kv.2)%string.

Fixpoint dump_text (o : dump_options) (j : json) : string :=
  match j with
  | JNull => "null"
  | JBool b => if b then "true" else "false"
  | JInt n => pretty n
  | JFloat x => dump_float x
  | JStr s => dump_str s
  | JArr l => ("[" +:+ join (item_separator o) (map (dump_text o) l) +:+ "]")%string
  | JObj kvs =>
      let items := map (fun kv => (kv.1, dump_text o kv.2)) kvs in
      ("{" +:+ join (item_separator o) (map (dump_item o) (if sort_keys o then merge_sort key_le items else items))
       +:+ "}")%string
  | JDate t => dump_str (py_str (JDate t))
  end.

(** [json.dumps(j, ...)] *)
Definition dumps (o : dump_options) (j : json) : res string :=
  if serializable o j then Ok (dump_text o j) else Raise (OtherError "TypeError").

(** ** [json.loads] *)

Definition is_ws (c : Ascii.ascii) : bool := bool_decide (code c ∈ [32; 9; 10; 13]).

Fixpoint skip_ws (s : string) : string :=
  match s with
  | String c s' => if is_ws c then skip_ws s' else s
  | EmptyString => EmptyString
  end.

Definition hex_value (c : Ascii.ascii) : option Z :=
  let n := code c in
  if (48 <=? n) && (n <=? 57) then Some (n - 48)
  else if (97 <=? n) && (n <=? 102) then Some (n - 87)
  else if (65 <=? n) && (n <=? 70) then Some (n - 55) else None.

(** The number of four hexadecimal digits, and the text after them. *)
Definition hex4 (s : string) : option (Z * string) :=
  match s with
  | String a (String b (String c (String d r))) =>
      match hex_value a, hex_value b, hex_value c, hex_value d with
      | Some a, Some b, Some c, Some d => Some (((a * 16 + b) * 16 + c) * 16 + d, r)
      | _, _, _, _ => None
      end
  | _ => None
  end.

Definition byte (n : Z) : string := chr (Ascii.ascii_of_nat (Z.to_nat n)).

(** A code point in UTF-8. *)
Definition utf8 (n : Z) : string :=
  if n <? 128 then byte n
  else if n <? 2048 then (byte (192 + n / 64) +:+ byte (128 + n mod 64))%string
  else if n <? 65536 then (byte (224 + n / 4096) +:+ byte (128 + n / 64 mod 64) +:+ byte (128 + n mod 64))%string
  else (byte (240 + n / 262144) +:+ byte (128 + n / 4096 mod 64) +:+ byte (128 + n / 64 mod 64)
        +:+ byte (128 + n mod 64))%string.

Definition prepend (t : string) (r : option (string * string)) : option (string * string) :=
  option_map (fun p => (t +:+ p.1, p.2)%string) r.

(** The character after a backslash. *)
Definition short_escape (c : Ascii.ascii) : option Z :=
  let n := code c in
  if bool_decide (n ∈ [34; 92; 47]) then Some n
  else if n =? 98 then Some 8 else if n =? 102 then Some 12 else if n =? 110 then Some 10
  else if n =? 114 then Some 13 else if n =? 116 then Some 9 else None.

(** The text after the opening quote, up to the closing one. *)
Fixpoint scan_string (fuel : nat) (s : string) : option (string * string) :=
  match fuel, s with
  | S fuel', String c r =>
      if Ascii.eqb c dquote then Some (EmptyString, r)
      else if Ascii.eqb c backslash then
        match r with
        | EmptyString => None
        | String e r1 =>
            if code e =? 117 then
              match hex4 r1 with
              | None => None
              | Some (n, r2) =>
                  if (55296 <=? n) && (n <? 56320) && startswith r2 (chr backslash +:+ "u") then
                    match hex4 (String.substring 2 (String.length r2) r2) with
                    | None => None
                    | Some (m, r3) =>
                        if (56320 <=? m) && (m <? 57344)
                        then prepend (utf8 (65536 + (n - 55296) * 1024 + (m - 56320))) (scan_string fuel' r3)
                        else prepend (utf8 n) (scan_string fuel' r2)
                    end
                  else prepend (utf8 n) (scan_string fuel' r2)
              end
            else match short_escape e with
                 | Some n => prepend (byte n) (scan_string fuel' r1)
                 | None => None
                 end
        end
      else if code c <? 32 then None
      else prepend (chr c) (scan_string fuel' r)
  | _, _ => None
  end.

Fixpoint take_digits (s : string) : string * string :=
  match s with
  | String c s' => if is_digit c then let '(d, r) := take_digits s' in (String c d, r) else (EmptyString, s)
  | EmptyString => (EmptyString, EmptyString)
  end.

(** [(\.\d+)?]: the digits of the fraction *)
Definition scan_fraction (s : string) : string * string :=
  match after "." s with
  | Some r => let '(d, r') := take_digits r in if is_empty d then (EmptyString, s) else (d, r')
  | None => (EmptyString, s)
  end.

(** [([eE][-+]?\d+)?]: the exponent, when there is one *)
Definition scan_exponent (s : string) : option Z * string :=
  match s with
  | String c r =>
      if (code c =? 101) || (code c =? 69) then
        let '(sign, r1) := match after "-" r with
                           | Some r1 => (-1, r1)
                           | None => (1, default r (after "+" r))
                           end in
        let '(d, r2) := take_digits r1 in
        if is_empty d then (None, s) else (Some (sign * dec_value 0 d), r2)
      else (None, s)
  | EmptyString => (None, s)
  end.

Definition signed_float (negative : bool) (x : py_float) : py_float := if negative then fl_neg x else x.

(** The decoder's NUMBER_RE: an integer without leading zeros, a fraction and an
    exponent that may be missing. *)
Definition scan_number (s : string) : option (json * string) :=
  let '(negative, s1) := match after "-" s with Some r => (true, r) | None => (false, s) end in
  let '(digits, s2) := match after "0" s1 with Some r => ("0"%string, r) | None => take_digits s1 end in
  if is_empty digits then None
  else
    let '(fraction, s3) := scan_fraction s2 in
    let '(exponent, s4) := scan_exponent s3 in
    match fraction, exponent with
    | EmptyString, None => Some (JInt (if negative then - dec_value 0 digits else dec_value 0 digits), s4)
    | _, _ =>
        let e := default 0 exponent - Z.of_nat (String.length fraction) in
        Some (JFloat (signed_float negative (fl_of_dec (Dec (dec_value 0 (digits +:+ fraction)%string) e))), s4)
    end.

Definition literals : list (string * json) :=
  [("null", JNull); ("true", JBool true); ("false", JBool false); ("NaN", JFloat fl_nan);
   ("Infinity", JFloat (fl_inf false)); ("-Infinity", JFloat (fl_inf true))]%string.

Fixpoint scan_literal (l : list (string * json)) (s : string) : option (json * string) :=
  match l with
  | [] => None
  | (t, j) :: l' => match after t s with Some r => Some (j, r) | None => scan_literal l' s end
  end.

(** One value, the elements of a list after [[] and blanks, the items of a
    dictionary after [{] and blanks. *)
Fixpoint scan_value (fuel : nat) (s : string) : option (json * string) :=
  match fuel, s with
  | S fuel', String c r =>
      if Ascii.eqb c dquote then
        match scan_string (S (String.length r)) r with Some (t, r') => Some (JStr t, r') | None => None end
      else if code c =? 123 then
        match after "}" (skip_ws r) with
        | Some r' => Some (JObj [], r')
        | None => match scan_items fuel' (skip_ws r) with
                  | Some (kvs, r') => Some (JObj (dupdate [] kvs), r')
                  | None => None
                  end
        end
      else if code c =? 91 then
        match after "]" (skip_ws r) with
        | Some r' => Some (JArr [], r')
        | None => match scan_elements fuel' (skip_ws r) with
                  | Some (l, r') => Some (JArr l, r')
                  | None => None
                  end
        end
      else match scan_literal literals s with Some p => Some p | None => scan_number s end
  | _, _ => None
  end
with scan_elements (fuel : nat) (s : string) : option (list json * string) :=
  match fuel with
  | O => None
  | S fuel' =>
      match scan_value fuel' s with
      | None => None
      | Some (j, r) =>
          match after "," (skip_ws r) with
          | Some r1 => match scan_elements fuel' (skip_ws r1) with
                       | Some (l, r2) => Some (j :: l, r2)
                       | None => None
                       end
          | None => match after "]" (skip_ws r) with Some r1 => Some ([j], r1) | None => None end
          end
      end
  end
with scan_items (fuel : nat) (s : string) : option (dict * string) :=
  match fuel, s with
  | S fuel', String c r =>
      if negb (Ascii.eqb c dquote) then None
      else match scan_string (S (String.length r)) r with
      | None => None
      | Some (k, r1) =>
          match after ":" (skip_ws r1) with
          | None => None
          | Some r2 =>
              match scan_value fuel' (skip_ws r2) with
              | None => None
              | Some (j, r3) =>
                  match after "," (skip_ws r3) with
                  | Some r4 => match scan_items fuel' (skip_ws r4) with
                               | Some (kvs, r5) => Some ((k, j) :: kvs, r5)
                               | None => None
                               end
                  | None => match after "}" (skip_ws r3) with Some r4 => Some ([(k, j)], r4) | None => None end
                  end
              end
          end
      end
  | _, _ => None
  end.

(** [json.loads(s)]; a step of the scanner that takes no character is followed
    by one that does. *)
Definition loads (s : string) : res json :=
  match scan_value (2 * String.length s + 2) (skip_ws s) with
  | Some (j, r) => if is_empty (skip_ws r) then Ok j else Raise (OtherError "JSONDecodeError")
  | None => Raise (OtherError "JSONDecodeError")
  end.

(** [separators=(",", ":"), sort_keys=True]; and [default=str] alone. *)
Definition compact_sorted : dump_options := DumpOptions "," ":" true false.
Definition default_options : dump_options := DumpOptions ", " ": " false true.

Example dumps_example :
  let d := JObj [("b", JArr [JInt (-12); JBool true; JNull]); ("a", JStr "x")] in
  dumps compact_sorted d = Ok (String.concat (chr dquote) ["{"; "a"; ":"; "x"; ","; "b"; ":[-12,true,null]}"]) /\
  (try! s <- dumps default_options d; loads s) = Ok d /\
  loads " [1.5e3 , { } , 007]" = Raise (OtherError "JSONDecodeError") /\
  loads " [1.5e3 , -0, { }]" = Ok (JArr [JFloat (fl_of_Z 1500); JInt 0; JObj []]).
Proof. vm_compute. done. Qed.

Example escapes_example :
  let s := (byte 233 +:+ chr dquote +:+ byte 10 +:+ utf8 233 +:+ utf8 8377 +:+ utf8 128512)%string in
  let t := String.substring 1 (String.length s) s in
  (try! u <- dumps compact_sorted (JStr t); loads u) = Ok (JStr t).
Proof. vm_compute. done. Qed.

(** ** The round trip *)

Section MergeSortMap.
Context {A B : Type} (R : relation A) (S : relation B).
Context `{!RelDecision R, !RelDecision S}.
Context (f : A -> B).
Context (Hf : forall x y, S (f x) (f y) <-> R x y).

Lemma list_merge_map l1 : forall l2, list_merge S (map f l1) (map f l2) = map f (list_merge R l1 l2).
Proof using Hf.
  induction l1 as [|x l1 IH1]; intros l2; [by destruct l2|].
  induction l2 as [|y l2 IH2]; [done|]. cbn [map list_merge].
  destruct (decide (S (f x) (f y))) as [H|H], (decide (R x y)) as [H'|H'];
    try (by rewrite Hf in H); cbn [map]; f_equal; [apply (IH1 (y :: l2))|apply IH2].
Qed.

Lemma merge_list_to_stack_map st : forall l,
  merge_list_to_stack S (map (option_map (map f)) st) (map f l) = map (option_map (map f)) (merge_list_to_stack R st l).
Proof using Hf.
  induction st as [|[l'|] st IH]; intros l; [done| |done]. cbn. by rewrite list_merge_map, IH.
Qed.

Lemma merge_stack_map st : merge_stack S (map (option_map (map f)) st) = map f (merge_stack R st).
Proof using Hf.
  induction st as [|[l|] st IH]; cbn; [done| |done]. by rewrite IH, list_merge_map.
Qed.

Lemma merge_sort_map l : merge_sort S (map f l) = map f (merge_sort R l).
Proof using Hf.
  unfold merge_sort. change (@nil (option (list B))) with (map (option_map (map f)) []).
  generalize (@nil (option (list A))). induction l as [|x l IH]; intros st; cbn; [apply merge_stack_map|].
  by rewrite <-IH, <-(merge_list_to_stack_map st [x]).
Qed.
End MergeSortMap.

(** *** Texts *)

Definition ascii7 (c : Ascii.ascii) : bool := code c <? 128.

Lemma app_cons c s t : (String c s +:+ t)%string = String c (s +:+ t)%string.
Proof. done. Qed.

Lemma app_assoc_str (a b c : string) : ((a +:+ b) +:+ c)%string = (a +:+ (b +:+ c))%string.
Proof. induction a as [|x a IH]; [done|]. by rewrite !app_cons, IH. Qed.

Lemma app_nil_str (a : string) : (a +:+ "")%string = a.
Proof. induction a as [|x a IH]; [done|]. by rewrite app_cons, IH. Qed.

Lemma length_app_str (a b : string) : String.length (a +:+ b)%string = (String.length a + String.length b)%nat.
Proof. induction a as [|x a IH]; [done|]. rewrite app_cons. cbn. by rewrite IH. Qed.

(** One character of a text is read back from its escape. *)
Lemma scan_escape c fuel r : ascii7 c = true ->
  scan_string (S fuel) (escape_point (code c) +:+ r) = prepend (chr c) (scan_string fuel r).
Proof.
  destruct c as [[] [] [] [] [] [] [] []]; intros H; try discriminate H; reflexivity.
Qed.

Lemma scan_dumped s : forall fuel r, all_chars ascii7 s = true -> (String.length s < fuel)%nat ->
  scan_string fuel (foldr (fun n acc => escape_point n +:+ acc)%string (chr dquote) (code_points s) +:+ r) = Some (s, r).
Proof.
  induction s as [|c s IH]; intros fuel r Hs Hf; (destruct fuel as [|fuel]; [cbn in Hf; lia|]); [done|].
  cbn in Hs, Hf. apply andb_true_iff in Hs as [Hc Hs].
  assert (code_points (String c s) = code c :: code_points s) as ->.
  { cbn. unfold ascii7 in Hc. destruct (Z.ltb_spec (code c) 192); [done|]. lia. }
  cbn [foldr]. rewrite app_assoc_str, scan_escape by done. rewrite IH by (done || lia). done.
Qed.

Lemma after_char a r : after (chr a) (String a r) = Some r.
Proof.
  unfold after, startswith, chr. cbn. destruct (Ascii.ascii_dec a a); [|done].
  destruct r; [done|]. f_equal. by apply substring_all; cbn; lia.
Qed.

Lemma after_other a p b r : a <> b -> after (String a p) (String b r) = None.
Proof. intros H. unfold after, startswith. cbn. by destruct (Ascii.ascii_dec a b). Qed.

(** *** Integers *)

(** No character that would go on with a number. *)
Definition number_end (r : string) : bool :=
  match r with
  | String c _ => negb (is_digit c) && negb (bool_decide (code c ∈ [46; 101; 69]))
  | EmptyString => true
  end.

Lemma take_digits_app d r : all_chars is_digit d = true -> number_end r = true -> take_digits (d +:+ r)%string = (d, r).
Proof.
  intros Hd Hr. induction d as [|c d IH].
  - destruct r as [|c r]; [done|]. apply andb_true_iff in Hr as [Hc%negb_true_iff _].
    change (take_digits (String c r) = (EmptyString, String c r)). cbn [take_digits]. by rewrite Hc.
  - apply andb_true_iff in Hd as [Hc Hd]. rewrite app_cons. cbn [take_digits]. by rewrite Hc, IH.
Qed.

Lemma scan_fraction_end r : number_end r = true -> scan_fraction r = (EmptyString, r).
Proof.
  intros H. unfold scan_fraction. destruct r as [|c r]; [done|].
  rewrite after_other; [done|]. intros <-. discriminate H.
Qed.

Lemma scan_exponent_end r : number_end r = true -> scan_exponent r = (None, r).
Proof.
  intros H. unfold scan_exponent. destruct r as [|c r]; [done|].
  destruct (Z.eqb_spec (code c) 101) as [E|E]; [|destruct (Z.eqb_spec (code c) 69) as [E'|E']; [|done]];
    cbn in H; rewrite ?E, ?E' in H; by rewrite andb_false_r in H.
Qed.

Lemma pretty_N_head (n : N) s : (0 < n)%N ->
  exists c t, pretty_N_go n s = String c t /\ is_digit c = true /\ code c <> 48.
Proof.
  revert s. induction (N.lt_wf_0 n) as [n _ IH]. intros s Hn. rewrite pretty_N_go_step by done.
  destruct (decide (0 < n `div` 10)%N) as [H|H]; [by apply IH; [apply N.div_lt|]|].
  assert (n `div` 10 = 0)%N as E by (by apply N.le_0_r, N.nlt_ge). rewrite E.
  assert (n < 10)%N as Hlt by (by apply N.div_small_iff in E). rewrite N.mod_small by done.
  exists (pretty_N_char n), s. rewrite pretty_N_go_0. split; [done|].
  rewrite <-(N.mod_small n 10), pretty_N_char_digit by done. rewrite Z.mod_small by lia.
  destruct (digit_char_spec (Z.of_N n) ltac:(lia)) as [H1 H2]. split; [done|].
  unfold digit_value in H2. unfold code. lia.
Qed.

Lemma pretty_digits n : 0 <= n -> all_chars is_digit (pretty n) = true.
Proof.
  intros Hn. destruct n as [|p|p]; [done| |lia]. change (all_chars is_digit (pretty (N.pos p)) = true).
  unfold pretty, pretty_N. case_decide; [done|]. by rewrite pretty_N_digits.
Qed.

Definition minus : Ascii.ascii := Ascii.ascii_of_nat 45.

Lemma scan_natural n r : 0 <= n -> number_end r = true ->
  exists c t, (pretty n +:+ r = String c t)%string /\ is_digit c = true /\
    scan_number (pretty n +:+ r)%string = Some (JInt n, r) /\ scan_number (String minus (pretty n +:+ r))%string = Some (JInt (- n), r).
Proof.
  intros Hn Hr. pose proof (pretty_digits n Hn) as Hd. pose proof (pretty_value n Hn) as Hv.
  assert (exists c t, pretty n = String c t /\ is_digit c = true /\ (code c = 48 -> n = 0 /\ t = EmptyString)) as (c & t & E & Hc & Hz).
  { destruct n as [|p|p]; [by eexists _, _| |lia].
    destruct (pretty_N_head (N.pos p) EmptyString) as (c & t & E & Hc & H0); [done|].
    exists c, t. split; [|done]. change (pretty (N.pos p) = String c t). unfold pretty, pretty_N. by case_decide. }
  exists c, (t +:+ r)%string. rewrite E in Hd, Hv |- *. split; [done|]. split; [done|].
  assert (match after "0" (String c t +:+ r)%string with Some r => ("0"%string, r) | None => take_digits (String c t +:+ r)%string end
          = (String c t, r)) as Hdig.
  { destruct (decide (code c = 48)) as [H0|H0].
    - destruct (Hz H0) as [-> ->]. vm_compute in E. injection E as <-.

      exact (f_equal (fun o => match o with Some r => ("0"%string, r) | None => _ end) (after_char (Ascii.ascii_of_nat 48) r)).
    - rewrite app_cons, after_other, <-app_cons, take_digits_app; [done..|]. intros <-. by apply H0. }
  unfold scan_number. split.
  - rewrite app_cons, (after_other minus), <-app_cons by (intros <-; discriminate Hc).
    rewrite Hdig. cbn [is_empty]. rewrite scan_fraction_end, scan_exponent_end by done. by rewrite Hv.
  - rewrite (after_char minus), Hdig. cbn [is_empty].
    rewrite scan_fraction_end, scan_exponent_end by done. by rewrite Hv.
Qed.

(** *** Values *)

(** No floats, no datetimes, texts in ASCII, keys that occur once. *)
Fixpoint plain_json (j : json) : bool :=
  match j with
  | JFloat _ | JDate _ => false
  | JStr s => all_chars ascii7 s
  | JArr l => forallb plain_json l
  | JObj kvs => forallb (fun kv => all_chars ascii7 kv.1 && plain_json kv.2) kvs && bool_decide (NoDup (map fst kvs))
  | _ => true
  end.

(** Every dictionary in the order of its keys. *)
Fixpoint sort_json (j : json) : json :=
  match j with
  | JArr l => JArr (map sort_json l)
  | JObj kvs => JObj (merge_sort key_le (map (fun kv => (kv.1, sort_json kv.2)) kvs))
  | _ => j
  end.

Lemma join_cons2 sep x y l : join sep (x :: y :: l) = (x +:+ sep +:+ join sep (y :: l))%string.
Proof.
  cbn [join foldl]. generalize y. clear y.
  assert (forall a y, foldl (fun acc t => acc +:+ sep +:+ t)%string (a +:+ y) l = (a +:+ foldl (fun acc t => acc +:+ sep +:+ t)%string y l)%string) as H.
  { induction l as [|z l IH]; intros a y; [done|]. cbn [foldl]. rewrite app_assoc_str. apply IH. }
  intros y. by rewrite <-app_assoc_str, H, app_assoc_str.
Qed.

Lemma dset_fresh k v d : k ∉ map fst d -> dset k v d = d ++ [(k, v)].
Proof.
  induction d as [|[k' v'] d IH]; [done|]. cbn. intros [H1 H2]%not_elem_of_cons.
  rewrite bool_decide_eq_false_2 by done. by rewrite IH.
Qed.

Lemma dupdate_fresh e : forall d, NoDup (map fst (d ++ e)) -> dupdate d e = d ++ e.
Proof.
  unfold dupdate. induction e as [|[k v] e IH]; intros d H; [by rewrite app_nil_r|]. cbn [foldl fst snd].
  rewrite dset_fresh.
  - rewrite IH; [by rewrite <-app_assoc|]. by rewrite <-app_assoc.
  - rewrite map_app in H. apply NoDup_app in H as (_ & H & _). intros Hk. apply (H k Hk). cbn. set_solver.
Qed.

Lemma sort_keys_commutes {A B} (f : A -> B) (d : list (string * A)) :
  merge_sort key_le (map (fun kv => (kv.1, f kv.2)) d) = map (fun kv => (kv.1, f kv.2)) (merge_sort key_le d).
Proof. by apply merge_sort_map. Qed.

Lemma sort_keys_perm {A} (d : list (string * A)) : merge_sort key_le d ≡ₚ d.
Proof. apply merge_sort_Permutation. Qed.

(** What a dictionary has under a key does not depend on the order. *)
Lemma dlookup_perm k d e : NoDup (map fst d) -> d ≡ₚ e -> dlookup k d = dlookup k e.
Proof.
  intros Hd He. unfold dlookup. induction He as [|x d e He IH|x y d|d1 d2 d3 He1 IH1 He2 IH2]; [done|..].
  - cbn in Hd. apply NoDup_cons in Hd as [_ Hd]. cbn. case_bool_decide; [done|by apply IH].
  - cbn in Hd. apply NoDup_cons in Hd as [Hx _]. cbn. do 2 case_bool_decide; try done.
    exfalso. apply Hx. subst. rewrite <-H0. set_solver.
  - rewrite IH1, IH2; try done. eapply NoDup_Permutation_proper; [|exact Hd]. by rewrite He1.
Qed.

(** A dumped value starts neither with a blank nor with a closing bracket. *)
Definition opens (s : string) : Prop :=
  exists c t, s = String c t /\ is_ws c = false /\ c <> Ascii.ascii_of_nat 93 /\ c <> Ascii.ascii_of_nat 125.

Lemma opens_app s r : opens s -> opens (s +:+ r)%string.
Proof. intros (c & t & -> & H). by exists c, (t +:+ r)%string. Qed.

Lemma skip_ws_opens s : opens s -> skip_ws s = s.
Proof. intros (c & t & -> & H & _). cbn. by rewrite H. Qed.

Lemma skip_ws_char c t : is_ws c = false -> skip_ws (String c t) = String c t.
Proof. intros H. cbn. by rewrite H. Qed.

Lemma pretty_neg p : pretty (Z.neg p) = String minus (pretty (Z.pos p)).
Proof. done. Qed.

Lemma digit_opens c t : is_digit c = true -> opens (String c t).
Proof.
  intros H. exists c, t. split; [done|]. destruct c as [[] [] [] [] [] [] [] []]; by vm_compute in H.
Qed.

Lemma dump_head j : plain_json j = true -> opens (dump_text compact_sorted j).
Proof.
  destruct j as [ |b|n|x|s|l|kvs|t]; intros Hj; try discriminate Hj; cbn [dump_text]; try (by eexists _, _).
  - destruct b; by eexists _, _.
  - destruct n as [|p|p]; [by eexists _, _| |rewrite pretty_neg; by eexists _, _].
    destruct (scan_natural (Z.pos p) EmptyString) as (c & t & E & H & _); [done..|].
    rewrite app_nil_str in E. rewrite E. by apply digit_opens.
Qed.

Definition value_end (r : string) : Prop :=
  r = EmptyString \/ exists c t, r = String c t /\ In c (map Ascii.ascii_of_nat [44; 93; 125]%nat).

Lemma value_end_number r : value_end r -> number_end r = true.
Proof. intros [->|(c & t & -> & H)]; [done|]. cbn in H. by destruct_or! H; subst. Qed.

Lemma literal_digit c t : is_digit c = true -> scan_literal literals (String c t) = None.
Proof.
  intros H. unfold literals, scan_literal. repeat rewrite after_other by (intros <-; discriminate H). done.
Qed.

Lemma literal_minus c t : is_digit c = true -> scan_literal literals (String minus (String c t)) = None.
Proof.
  intros H. destruct c as [[] [] [] [] [] [] [] []]; first [discriminate H|reflexivity].
Qed.

Lemma scan_int fuel n r : number_end r = true -> scan_value (S fuel) (pretty n +:+ r)%string = Some (JInt n, r).
Proof.
  intros Hr. destruct (Z.leb_spec 0 n) as [Hn|Hn].
  - destruct (scan_natural n r Hn Hr) as (c & t & E & Hc & H & _). rewrite E in H |- *. cbn [scan_value].
    rewrite literal_digit, H by done.
    destruct c as [[] [] [] [] [] [] [] []]; first [discriminate Hc|reflexivity].
  - destruct n as [|p|p]; [lia..|]. rewrite pretty_neg, app_cons.
    destruct (scan_natural (Z.pos p) r) as (c & t & E & Hc & _ & H); [done..|]. rewrite E in H |- *.
    cbn [scan_value]. rewrite literal_minus, H by done. done.
Qed.

(** What reads back: the value, for any fuel that covers its text. *)
Definition reads_back (j : json) : Prop :=
  plain_json j = true -> forall fuel r, value_end r -> (2 * String.length (dump_text compact_sorted j) <= fuel)%nat ->
  scan_value fuel (dump_text compact_sorted j +:+ r)%string = Some (sort_json j, r).

Abbreviation dumped := (map (dump_text compact_sorted)).

(** The punctuation. *)
Lemma after_comma r : after "," ("," +:+ r)%string = Some r. Proof. exact (after_char _ r). Qed.
Lemma after_colon r : after ":" (":" +:+ r)%string = Some r. Proof. exact (after_char _ r). Qed.
Lemma after_bracket r : after "]" ("]" +:+ r)%string = Some r. Proof. exact (after_char _ r). Qed.
Lemma after_brace r : after "}" ("}" +:+ r)%string = Some r. Proof. exact (after_char _ r). Qed.
Lemma bracket_no_comma r : after "," ("]" +:+ r)%string = None. Proof. by apply after_other. Qed.
Lemma brace_no_comma r : after "," ("}" +:+ r)%string = None. Proof. by apply after_other. Qed.
Lemma opens_no_close s : opens s -> after "]" s = None /\ after "}" s = None.
Proof. intros (c & t & -> & _ & H1 & H2). split; apply after_other; intros <-; [by apply H1|by apply H2]. Qed.

Lemma ends_here c r : In c (map Ascii.ascii_of_nat [44; 93; 125]%nat) -> value_end (chr c +:+ r)%string.
Proof. intros H. right. by exists c, r. Qed.

Lemma scan_list l : Forall reads_back l -> forallb plain_json l = true -> l <> [] -> forall fuel r,
  (2 * String.length (join "," (dumped l)) < fuel)%nat ->
  scan_elements fuel (join "," (dumped l) +:+ "]" +:+ r)%string = Some (map sort_json l, r) /\
  opens (join "," (dumped l)).
Proof.
  induction 1 as [|j l Hj Hl IH]; [done|]. cbn [forallb]. intros [Hp Hpl]%andb_true_iff _ [|fuel] r Hf; [lia|].
  pose proof (dump_head j Hp) as Ho. destruct l as [|j' l].
  - cbn [map join foldl] in *. split; [|done]. cbn [scan_elements]. rewrite (Hj Hp).
    + change (skip_ws ("]" +:+ r)) with ("]" +:+ r)%string. by rewrite bracket_no_comma, after_bracket.
    + apply (ends_here (Ascii.ascii_of_nat 93)). cbn. auto.
    + lia.
  - cbn [map] in *. rewrite join_cons2 in *. rewrite !length_app_str in Hf. cbn [String.length] in Hf.
    split; [|by apply opens_app]. rewrite !app_assoc_str. cbn [scan_elements]. rewrite (Hj Hp).
    + destruct (IH Hpl ltac:(done) fuel r ltac:(lia)) as [IH1 IH2].
      match goal with |- context [skip_ws ("," +:+ ?t)%string] => change (skip_ws ("," +:+ t)%string) with ("," +:+ t)%string end.
      rewrite after_comma, skip_ws_opens by (by apply opens_app). by rewrite IH1.
    + apply (ends_here (Ascii.ascii_of_nat 44)). cbn. auto.
    + lia.
Qed.

(** The items of a dictionary whose values read back. *)
Definition dumped_items (d : dict) : list string :=
  map (dump_item compact_sorted) (map (fun kv => (kv.1, dump_text compact_sorted kv.2)) d).
Definition sorted_items (d : dict) : dict := map (fun kv => (kv.1, sort_json kv.2)) d.

Lemma scan_dumped_str fuel k r : all_chars ascii7 k = true -> (String.length k < fuel)%nat ->
  exists t, (dump_str k +:+ r = String dquote t)%string /\ scan_string fuel t = Some (k, r).
Proof.
  intros Hk Hf. unfold dump_str. rewrite app_cons. eexists. split; [done|]. by apply scan_dumped.
Qed.

Lemma escape_length c : ascii7 c = true -> (1 <= String.length (escape_point (code c)))%nat.
Proof.
  destruct c as [[] [] [] [] [] [] [] []]; intros H; first [discriminate H|apply Nat.leb_le; reflexivity].
Qed.

Lemma dumped_str_length k : all_chars ascii7 k = true -> (String.length k + 2 <= String.length (dump_str k))%nat.
Proof.
  intros Hk. unfold dump_str. cbn [String.length]. induction k as [|c k IH]; [cbn; lia|].
  apply andb_true_iff in Hk as [Hc Hk]. specialize (IH Hk).
  assert (code_points (String c k) = code c :: code_points k) as ->.
  { cbn. unfold ascii7 in Hc. destruct (Z.ltb_spec (code c) 192); [done|]. lia. }
  cbn [foldr]. rewrite length_app_str. cbn [String.length].
  assert (1 <= String.length (escape_point (code c)))%nat; [|lia].
  by apply escape_length.
Qed.

Lemma scan_dict d : Forall (fun kv => reads_back kv.2) d ->
  forallb (fun kv => all_chars ascii7 kv.1 && plain_json kv.2) d = true -> d <> [] -> forall fuel r,
  (2 * String.length (join "," (dumped_items d)) < fuel)%nat ->
  scan_items fuel (join "," (dumped_items d) +:+ "}" +:+ r)%string = Some (sorted_items d, r) /\
  opens (join "," (dumped_items d)).
Proof.
  unfold dumped_items, sorted_items.
  induction 1 as [|[k j] d Hj Hd IH]; [done|]. cbn [forallb fst snd].
  intros [[Hk Hp]%andb_true_iff Hpd]%andb_true_iff _ [|fuel] r Hf; [lia|].
  pose proof (dumped_str_length k Hk) as Hlen.
  assert (forall x, opens (dump_item compact_sorted (k, x))) as Ho by (intros x; by eexists _, _).
  assert (forall x r, exists t, (dump_item compact_sorted (k, x) +:+ r = String dquote t)%string /\
    scan_string (S (String.length t)) t = Some (k, (":" +:+ x +:+ r)%string)) as Hkey.
  { intros x r'. unfold dump_item. cbn [fst snd key_separator compact_sorted]. rewrite !app_assoc_str.
    destruct (scan_dumped_str (S (S (String.length k))) k (":" +:+ x +:+ r')%string Hk ltac:(lia)) as (t & E & _).
    exists t. split; [done|].
    destruct (scan_dumped_str (S (String.length t)) k (":" +:+ x +:+ r')%string Hk) as (t' & E' & H).
    - apply (f_equal String.length) in E. rewrite !length_app_str in E. cbn [String.length] in E. lia.
    - rewrite E in E'. by injection E' as <-. }
  destruct d as [|kv' d].
  - cbn [map join foldl fst snd] in *. split; [|apply Ho].
    destruct (Hkey (dump_text compact_sorted j) ("}" +:+ r)%string) as (t & E & Hs). rewrite E.
    cbn [scan_items]. rewrite Ascii.eqb_refl. cbn [negb]. rewrite Hs.
    match goal with |- context [skip_ws (":" +:+ ?u)%string] => change (skip_ws (":" +:+ u)%string) with (":" +:+ u)%string end.
    rewrite after_colon, skip_ws_opens by (apply opens_app, dump_head, Hp). rewrite (Hj Hp).
    + change (skip_ws ("}" +:+ r)) with ("}" +:+ r)%string. by rewrite brace_no_comma, after_brace.
    + apply (ends_here (Ascii.ascii_of_nat 125)). cbn. auto.
    + unfold dump_item in Hf. cbn [fst snd] in Hf. rewrite !length_app_str in Hf. lia.
  - cbn [map fst snd] in *. rewrite join_cons2 in *. rewrite !length_app_str in Hf. cbn [String.length] in Hf.
    split; [|by apply opens_app]. rewrite !app_assoc_str.
    match goal with |- scan_items _ (_ +:+ ?u)%string = _ => destruct (Hkey (dump_text compact_sorted j) u) as (t & E & Hs) end.
    rewrite E. cbn [scan_items]. rewrite Ascii.eqb_refl. cbn [negb]. rewrite Hs.
    match goal with |- context [skip_ws (":" +:+ ?u)%string] => change (skip_ws (":" +:+ u)%string) with (":" +:+ u)%string end.
    rewrite after_colon, skip_ws_opens by (apply opens_app, dump_head, Hp).
    unfold dump_item at 1 in Hf. cbn [fst snd] in Hf. rewrite !length_app_str in Hf. rewrite (Hj Hp).
    + destruct (IH Hpd ltac:(done) fuel r ltac:(lia)) as [IH1 IH2].
      match goal with |- context [skip_ws ("," +:+ ?t)%string] => change (skip_ws ("," +:+ t)%string) with ("," +:+ t)%string end.
      rewrite after_comma, skip_ws_opens by (by apply opens_app). by rewrite IH1.
    + apply (ends_here (Ascii.ascii_of_nat 44)). cbn. auto.
    + lia.
Qed.

Lemma scan_literals r :
  scan_literal literals ("null" +:+ r)%string = Some (JNull, r) /\
  scan_literal literals ("true" +:+ r)%string = Some (JBool true, r) /\
  scan_literal literals ("false" +:+ r)%string = Some (JBool false, r).
Proof.
  unfold literals. cbn [scan_literal]. rewrite !after_app. split; [done|].
  assert (after "null" ("true" +:+ r)%string = None) as -> by (by apply after_other).
  assert (after "null" ("false" +:+ r)%string = None) as -> by (by apply after_other).
  by assert (after "true" ("false" +:+ r)%string = None) as -> by (by apply after_other).
Qed.

Lemma first_literal fuel s j r : match s with
  | String c _ => Ascii.eqb c dquote = false /\ (code c =? 123) || (code c =? 91) = false
  | EmptyString => False
  end -> scan_literal literals s = Some (j, r) -> scan_value (S fuel) s = Some (j, r).
Proof.
  destruct s as [|c s]; [done|]. intros [H1 [H2 H3]%orb_false_iff] H. cbn [scan_value]. by rewrite H1, H2, H3, H.
Qed.

Lemma scan_open_list fuel u : scan_value (S fuel) ("[" +:+ u)%string =
  match after "]" (skip_ws u) with
  | Some r => Some (JArr [], r)
  | None => match scan_elements fuel (skip_ws u) with Some (l, r) => Some (JArr l, r) | None => None end
  end.
Proof. done. Qed.

Lemma scan_open_dict fuel u : scan_value (S fuel) ("{" +:+ u)%string =
  match after "}" (skip_ws u) with
  | Some r => Some (JObj [], r)
  | None => match scan_items fuel (skip_ws u) with Some (kvs, r) => Some (JObj (dupdate [] kvs), r) | None => None end
  end.
Proof. done. Qed.

Lemma all_read_back j : reads_back j.
Proof.
  induction j as [ |b|n|x|s|l IH|kvs IH|t] using json_nested_ind; intros Hp fuel r Hr Hf; try discriminate Hp;
    (destruct fuel as [|fuel]; [exfalso; pose proof (dump_head _ Hp) as (? & ? & E & _); rewrite E in Hf; cbn in Hf; lia|]);
    destruct (scan_literals r) as (L1 & L2 & L3).
  - apply (first_literal fuel ("null" +:+ r)%string); [done|exact L1].
  - destruct b; [apply (first_literal fuel ("true" +:+ r)%string)|apply (first_literal fuel ("false" +:+ r)%string)]; done.
  - by apply scan_int, value_end_number.
  - cbn [plain_json dump_text] in *.
    destruct (scan_dumped_str (S (S (String.length s))) s r Hp ltac:(lia)) as (t & E & _). rewrite E.
    cbn [scan_value]. rewrite Ascii.eqb_refl.
    destruct (scan_dumped_str (S (String.length t)) s r Hp) as (t' & E' & H).
    + apply (f_equal String.length) in E. rewrite length_app_str in E. cbn [String.length] in E.
      pose proof (dumped_str_length s Hp). lia.
    + rewrite E in E'. injection E' as <-. by rewrite H.
  - cbn [plain_json dump_text sort_json item_separator compact_sorted] in *. rewrite !app_assoc_str, scan_open_list.
    destruct l as [|j l]; [change (skip_ws _) with ("]" +:+ r)%string; by rewrite after_bracket|]. rewrite !length_app_str in Hf. cbn [String.length] in Hf.
    destruct (scan_list (j :: l) IH Hp ltac:(done) fuel r ltac:(lia)) as [H Ho].
    apply (opens_app _ ("]" +:+ r)%string) in Ho. rewrite skip_ws_opens by done.
    by rewrite (proj1 (opens_no_close _ Ho)), H.
  - cbn [plain_json dump_text sort_json item_separator sort_keys compact_sorted] in *.
    apply andb_true_iff in Hp as [Hp Hk%bool_decide_eq_true].
    rewrite (sort_keys_commutes sort_json). rewrite (sort_keys_commutes (dump_text compact_sorted)) in Hf |- *.
    pose proof (sort_keys_perm kvs) as Hperm. revert Hperm Hf. generalize (merge_sort key_le kvs). intros d Hperm Hf.
    fold (sorted_items d) (dumped_items d) in *.
    rewrite !app_assoc_str, scan_open_dict.
    destruct d as [|kv d]; [change (skip_ws _) with ("}" +:+ r)%string; by rewrite after_brace|]. rewrite !length_app_str in Hf. cbn [String.length] in Hf.
    destruct (scan_dict (kv :: d)) with (fuel := fuel) (r := r) as [H Ho].
    + by rewrite Hperm.
    + apply forallb_forall. intros x Hx%list_elem_of_In. rewrite Hperm in Hx.
      apply list_elem_of_In in Hx. by apply (proj1 (forallb_forall _ _) Hp).
    + done.
    + lia.
    + apply (opens_app _ ("}" +:+ r)%string) in Ho. rewrite skip_ws_opens by done.
      rewrite (proj2 (opens_no_close _ Ho)), H. rewrite dupdate_fresh; [done|].
      rewrite app_nil_l. unfold sorted_items. rewrite map_map. cbn [fst]. by rewrite Hperm.
Qed.

(** What is dumped reads back as the same value with its keys in order. *)
Lemma loads_dumps j : plain_json j = true -> (try! s <- dumps compact_sorted j; loads s) = Ok (sort_json j).
Proof.
  intros Hj. assert (serializable compact_sorted j = true) as Hs.
  { revert Hj. induction j as [ |b|n|x|s|l IH|kvs IH|t] using json_nested_ind; try done; cbn [plain_json serializable].
    - induction IH as [|j l Hj Hl IHl]; [done|]. cbn. intros [H1 H2]%andb_true_iff. by rewrite Hj, IHl.
    - intros [H _]%andb_true_iff. revert H. induction IH as [|kv l Hj Hl IHl]; [done|]. cbn.
      intros [[_ H1]%andb_true_iff H2]%andb_true_iff. by rewrite Hj, IHl. }
  unfold dumps. rewrite Hs. cbn [res_bind]. unfold loads. rewrite skip_ws_opens by (by apply dump_head).
  pose proof (all_read_back j Hj (2 * String.length (dump_text compact_sorted j) + 2)%nat EmptyString (or_introl eq_refl) ltac:(lia)) as H.
  rewrite app_nil_str in H. by rewrite H.
Qed.

Lemma sorted_lookup d k : NoDup (map fst d) ->
  dlookup k (as_dict (sort_json (JObj d))) = option_map sort_json (dlookup k d).
Proof.
  intros Hd. cbn [sort_json as_dict]. rewrite sort_keys_commutes, <-sort_keys_commutes.
  rewrite <-(dlookup_perm k (sorted_items d)).
  - unfold sorted_items, dlookup. clear Hd. induction d as [|[k' v] d IH]; [done|]. cbn. by case_bool_decide.
  - unfold sorted_items. by rewrite map_map.
  - symmetry. apply sort_keys_perm.
Qed.

(** ** [int] of a value *)

(** [int(x)] of a float drops the fraction. *)
Definition fl_trunc (x : py_float) : res Z :=
  match fl_frac x with
  | Some (n, d) => Ok (Z.quot n d)
  | None => match x with
            | S754_nan => Raise (ValueError "cannot convert float NaN to integer")
            | _ => Raise (OtherError "OverflowError")
            end
  end.

Definition py_int (v : json) : res Z :=
  match v with
  | JBool b => Ok (if b then 1 else 0)
  | JInt n => Ok n
  | JFloat x => fl_trunc x
  | JStr s => match int_of_str s with Some n => Ok n | None => Raise (ValueError "invalid literal for int() with base 10") end
  | _ => Raise (OtherError "TypeError")
  end.

(** ** [float] of a value *)

(** [float(s)]: an optional sign, a word for infinity or NaN, or a decimal with
    optional fraction and exponent; blanks around it are skipped. *)
Definition float_of_str (s : string) : option py_float :=
  let t := lower (strip s) in
  let '(negative, u) := match after "-" t with Some r => (true, r) | None => (false, default t (after "+" t)) end in
  if bool_decide (u ∈ ["inf"; "infinity"]%string) then Some (fl_inf negative)
  else if bool_decide (u = "nan"%string) then Some fl_nan
  else
    let '(mantissa, exponent) := match cut_char (Ascii.ascii_of_nat 101) u with
                                 | Some (m, r) => (m, int_of_str (if is_empty (strip r) || negb (bool_decide (strip r = r)) then "x" else r)%string)
                                 | None => (u, Some 0)
                                 end in
    let '(whole, fraction) := match cut_char (Ascii.ascii_of_nat 46) mantissa with
                              | Some (w, f) => (w, Some f)
                              | None => (mantissa, None)
                              end in
    let part p := if is_empty p then Some EmptyString else digit_groups EmptyString p in
    match exponent, part whole, part (default EmptyString fraction) with
    | Some e, Some w, Some f =>
        if is_empty w && is_empty f then None
        else Some (signed_float negative (fl_of_dec (Dec (dec_value 0 (w +:+ f)%string) (e - Z.of_nat (String.length f)))))
    | _, _, _ => None
    end.

Example float_of_str_example :
  map float_of_str [" 1_0.5 "; "-.5e1"; "2."; "."; "1e"; "1e 2"; "INF"; "0x1"]%string
  = [Some (fl_of_dec (Dec 105 (-1))); Some (fl_of_Z (-5)); Some (fl_of_Z 2); None; None; None; Some (fl_inf false); None].
Proof. vm_compute. reflexivity. Qed.

(** [float(v)] *)
Definition py_float_of (v : json) : res py_float :=
  match v with
  | JBool b => Ok (fl_of_Z (if b then 1 else 0))
  | JInt n => let x := fl_of_Z n in if fl_is_finite x then Ok x else Raise (OtherError "OverflowError")
  | JFloat x => Ok x
  | JStr s => match float_of_str s with Some x => Ok x | None => Raise (ValueError "could not convert string to float") end
  | _ => Raise (OtherError "TypeError")
  end.

(** What [except (TypeError, ValueError)] catches; the decoder's error is a [ValueError]. *)
Definition type_or_value_error (e : exn) : bool :=
  match e with ValueError _ | OtherError "TypeError" | OtherError "JSONDecodeError" => true | _ => false end.
