(* ===== verification/Urls.v ===== *)
(** * URLs

    What the code uses of urllib.parse (CPython 3.11): [urlsplit], [urlunsplit],
    [parse_qsl] with blank values kept, [urlencode].  Texts are ASCII; octets of a
    query that are not UTF-8 stay as they are where CPython puts U+FFFD. *)

From S2P Require Import Prelude Text Numerals PyJson.

Definition ch (n : nat) : Ascii.ascii := Ascii.ascii_of_nat n.

Definition is_alpha (c : Ascii.ascii) : bool :=
  let n := code c in ((65 <=? n) && (n <=? 90)) || ((97 <=? n) && (n <=? 122)).

Definition one_of (l : list nat) (c : Ascii.ascii) : bool := bool_decide (Ascii.nat_of_ascii c ∈ l).

(** The text before the first character that [p] accepts, and from there on. *)
Fixpoint break_at (p : Ascii.ascii -> bool) (s : string) : string * string :=
  match s with
  | EmptyString => (EmptyString, EmptyString)
  | String c s' => if p c then (EmptyString, s) else let '(a, b) := break_at p s' in (String c a, b)
  end.

Fixpoint drop_while (p : Ascii.ascii -> bool) (s : string) : string :=
  match s with
  | String c s' => if p c then drop_while p s' else s
  | EmptyString => EmptyString
  end.

(** ** ipaddress: the hosts that may stand in brackets *)

Definition octet_ok (s : string) : bool :=
  negb (is_empty s) && all_chars is_digit s && (String.length s <=? 3)%nat
  && negb (startswith s "0" && (1 <? String.length s)%nat) && (dec_value 0 s <=? 255).

Definition ipv4_ok (s : string) : bool :=
  let parts := split_char (ch 46) s in bool_decide (length parts = 4%nat) && forallb octet_ok parts.

Definition hextet_ok (s : string) : bool :=
  negb (is_empty s) && (String.length s <=? 4)%nat && all_chars (fun c => bool_decide (hex_value c <> None)) s.

(** The inner positions (from [i]) of a list of parts that are empty, the last part left out. *)
Fixpoint empty_inner (i : nat) (parts : list string) : list nat :=
  match parts with
  | [] | [_] => []
  | p :: parts' => (if is_empty p then [i] else []) ++ empty_inner (S i) parts'
  end.

Definition parts_ok (parts : list string) : bool :=
  let n := length parts in
  let first_empty := is_empty (default EmptyString (head parts)) in
  let last_empty := is_empty (List.last parts EmptyString) in
  if (9 <? n)%nat then false
  else match empty_inner 1 (tail parts) with
  | [] => bool_decide (n = 8%nat) && forallb hextet_ok parts
  | [i] =>
      let hi := if first_empty then (i - 1)%nat else i in
      let lo := if last_empty then (n - i - 2)%nat else (n - i - 1)%nat in
      negb (first_empty && (0 <? hi)%nat) && negb (last_empty && (0 <? lo)%nat) && (hi + lo <? 8)%nat
      && forallb hextet_ok (take hi parts) && forallb hextet_ok (drop (n - lo) parts)
  | _ => false
  end.

Definition ipv6_ok (s : string) : bool :=
  let '(addr, scope) := match cut_char (ch 37) s with Some (a, z) => (a, Some z) | None => (s, None) end in
  let scope_ok := match scope with Some z => negb (is_empty z) && negb (contains "%" z) | None => true end in
  let parts := split_char (ch 58) addr in
  let tail_part := List.last parts EmptyString in
  scope_ok && (3 <=? length parts)%nat
  && (if contains "." tail_part
      then ipv4_ok tail_part && parts_ok (removelast parts ++ ["0"; "0"]%string)
      else parts_ok parts).

(** [\Av[a-fA-F0-9]+\..+\Z] *)
Definition ip_future (s : string) : bool :=
  match cut_char (ch 46) s with
  | Some (String v h, r) => negb (is_empty h) && all_chars (fun c => bool_decide (hex_value c <> None)) h && negb (is_empty r)
  | _ => false
  end.

Definition _check_bracketed_host (s : string) : bool := if startswith s "v" then ip_future s else ipv6_ok s.

(** ** [urlsplit] and [urlunsplit] *)

Record SplitResult := Split { u_scheme : string; u_netloc : string; u_path : string; u_query : string; u_fragment : string }.

Definition scheme_char (c : Ascii.ascii) : bool := is_alpha c || is_digit c || one_of [43; 45; 46]%nat c.

Definition split_scheme (url : string) : string * string :=
  match cut_char (ch 58) url with
  | Some (String c s, rest) => if is_alpha c && all_chars scheme_char (String c s) then (lower (String c s), rest) else (EmptyString, url)
  | _ => (EmptyString, url)
  end.

(** The part of [netloc] between the first bracket and the next closing one. *)
Definition bracketed (netloc : string) : string :=
  match cut_char (ch 91) netloc with
  | Some (_, r) => match cut_char (ch 93) r with Some (h, _) => h | None => r end
  | None => EmptyString
  end.

Definition netloc_ok (netloc : string) : bool :=
  let opening := contains "[" netloc in
  Bool.eqb opening (contains "]" netloc) && (negb opening || _check_bracketed_host (bracketed netloc)).

Definition split_netloc (url : string) : string * string :=
  match after "//" url with
  | Some r => break_at (one_of [47; 63; 35]%nat) r
  | None => (EmptyString, url)
  end.

Definition split_at (sep : nat) (s : string) : string * string :=
  match cut_char (ch sep) s with Some p => p | None => (s, EmptyString) end.

Definition urlsplit (url : string) : res SplitResult :=
  let url := drop_while (fun c => code c <=? 32) url in
  let url := keep_ascii (fun c => negb (one_of [9; 10; 13]%nat c)) url in
  let '(scheme, rest) := split_scheme url in
  let '(netloc, rest) := split_netloc rest in
  if negb (netloc_ok netloc) then Raise (ValueError "Invalid IPv6 URL")
  else
    let '(rest, fragment) := split_at 35 rest in
    let '(path, query) := split_at 63 rest in
    Ok (Split scheme netloc path query fragment).

Definition uses_netloc : list string :=
  [""; "ftp"; "http"; "gopher"; "nntp"; "telnet"; "imap"; "wais"; "file"; "mms"; "https"; "shttp"; "snews"; "prospero";
   "rtsp"; "rtspu"; "rsync"; "svn"; "svn+ssh"; "sftp"; "nfs"; "git"; "git+ssh"; "ws"; "wss"]%string.

Definition urlunsplit (u : SplitResult) : string :=
  let url := u_path u in
  let url :=
    if negb (is_empty (u_netloc u))
       || (negb (is_empty (u_scheme u)) && bool_decide (u_scheme u ∈ uses_netloc) && negb (startswith url "//"))
    then ("//" +:+ u_netloc u +:+ (if negb (is_empty url) && negb (startswith url "/") then "/" +:+ url else url))%string
    else url in
  let url := if is_empty (u_scheme u) then url else (u_scheme u +:+ ":" +:+ url)%string in
  let url := if is_empty (u_query u) then url else (url +:+ "?" +:+ u_query u)%string in
  if is_empty (u_fragment u) then url else (url +:+ "#" +:+ u_fragment u)%string.

(** ** [parse_qsl] and [urlencode] *)

Fixpoint unquote (s : string) : string :=
  match s with
  | String p (String a (String b r) as s') =>
      match (if Ascii.eqb p (ch 37) then hex_value a else None), hex_value b with
      | Some x, Some y => String (Ascii.ascii_of_nat (Z.to_nat (16 * x + y))) (unquote r)
      | _, _ => String p (unquote s')
      end
  | String p s' => String p (unquote s')
  | EmptyString => EmptyString
  end.

Definition plus_to_space (c : Ascii.ascii) : Ascii.ascii := if Ascii.eqb c (ch 43) then ch 32 else c.

Definition unquote_plus (s : string) : string := unquote (map_ascii plus_to_space s).

(** [parse_qsl(qs, keep_blank_values=True)] *)
Definition parse_qsl (qs : string) : list (string * string) :=
  map (fun nv => let '(k, v) := split_at 61 nv in (unquote_plus k, unquote_plus v))
    (List.filter (fun nv => negb (is_empty nv)) (split_char (ch 38) qs)).

Definition unreserved (c : Ascii.ascii) : bool := is_alpha c || is_digit c || one_of [95; 46; 45; 126]%nat c.

Definition quote_plus (s : string) : string :=
  map_chars (fun c => if unreserved c then chr c
                      else if code c =? 32 then "+"%string
                      else upper ("%" +:+ hex_digits 2 (code c) EmptyString)%string) s.

Definition urlencode (l : list (string * string)) : string :=
  join "&" (map (fun kv => (quote_plus kv.1 +:+ "=" +:+ quote_plus kv.2)%string) l).

Example urlsplit_example :
  urlsplit " HTTPS://u:p@Host:80/a/b?x=1&y#f" = Ok (Split "https" "u:p@Host:80" "/a/b" "x=1&y" "f") /\
  urlsplit "https://[::1]:8/" = Ok (Split "https" "[::1]:8" "/" "" "") /\
  urlsplit "https://[::g]/" = Raise (ValueError "Invalid IPv6 URL") /\
  urlsplit "https://[fe80::1%eth0]" = Ok (Split "https" "[fe80::1%eth0]" "" "" "") /\
  map ipv6_ok ["1:2:3:4:5:6:7:8"; "::"; "1::8"; "::ffff:1.2.3.4"; "1:2:3:4:5:6:7::"; ":1::2"; "1:::2"; "1:2"; "::1.2.3.04"]%string
    = [true; true; true; true; true; false; false; false; false] /\
  parse_qsl "a=1&&b+c=%41%zz&d" = [("a", "1"); ("b c", "A%zz"); ("d", "")]%string /\
  urlencode [("b c", "A%/~"); ("d", "")]%string = "b+c=A%25%2F~&d="%string /\
  urlunsplit (Split "https" "h" "p" "q=1" "f") = "https://h/p?q=1#f"%string.
Proof. vm_compute. done. Qed.
