(* ===== verification/SafeHttp.v ===== *)
(** * Fetching a URL a user named

    app/utils/safe_http.py: the check of an address before the server dials it, the
    resolution of names, and the GET that follows redirects; with what it uses of
    urllib.parse, ipaddress and http.client (CPython 3.11.9, the version of the
    Dockerfile).  The resolver and the servers of the world are an argument; what was
    asked of them is a log. *)

From S2P Require Import Prelude Text Numerals PyJson Urls.

(** ** Texts *)

(** [s.rpartition(c)\[2\]] *)
Fixpoint after_last (c : Ascii.ascii) (s : string) : string :=
  match cut_char c s with
  | None => s
  | Some _ => match s with String _ s' => after_last c s' | EmptyString => EmptyString end
  end.

(** [s.rstrip(".")], [s.lstrip(".")] *)
Fixpoint rstrip_dots (s : string) : string :=
  match s with
  | EmptyString => EmptyString
  | String c s' => let r := rstrip_dots s' in if is_empty r && Ascii.eqb c (ch 46) then EmptyString else String c r
  end.
Definition lstrip_dots (s : string) : string := drop_while (fun c => Ascii.eqb c (ch 46)) s.

(** [s.endswith(p)] *)
Fixpoint endswith (s p : string) : bool :=
  bool_decide (s = p) || match s with String _ s' => endswith s' p | EmptyString => false end.

(** [s.removeprefix(p)] *)
Definition removeprefix (p s : string) : string := default s (after p s).

(** ** urllib.parse: [urlparse], [hostname], [port], [urljoin] *)

Record ParseResult := Parsed {
  pr_scheme : string; pr_netloc : string; pr_path : string; pr_params : string; pr_query : string; pr_fragment : string }.

Definition uses_params : list string :=
  [""; "ftp"; "hdl"; "prospero"; "http"; "imap"; "https"; "shttp"; "rtsp"; "rtspu"; "sip"; "sips"; "mms"; "sftp"; "tel"]%string.

Definition uses_relative : list string :=
  [""; "ftp"; "http"; "gopher"; "nntp"; "imap"; "wais"; "file"; "https"; "shttp"; "mms"; "prospero"; "rtsp"; "rtspu"; "sftp";
   "svn"; "svn+ssh"; "ws"; "wss"]%string.

(** The parameters of the last segment of a path. *)
Definition _splitparams (path : string) : string * string :=
  let seg := after_last (ch 47) path in
  match cut_char (ch 59) seg with
  | Some (a, params) => ((str_take (String.length path - String.length seg) path +:+ a)%string, params)
  | None => (path, EmptyString)
  end.

Definition urlparse (url scheme : string) : res ParseResult :=
  try! u <- urlsplit url;
  let scheme := if is_empty (u_scheme u) then scheme else u_scheme u in
  let '(path, params) := if bool_decide (scheme ∈ uses_params) then _splitparams (u_path u) else (u_path u, EmptyString) in
  Ok (Parsed scheme (u_netloc u) path params (u_query u) (u_fragment u)).

Definition urlunparse (p : ParseResult) : string :=
  urlunsplit (Split (pr_scheme p) (pr_netloc p)
    (if is_empty (pr_params p) then pr_path p else (pr_path p +:+ ";" +:+ pr_params p)%string) (pr_query p) (pr_fragment p)).

Definition _hostinfo (netloc : string) : string * string :=
  let hostinfo := after_last (ch 64) netloc in
  match cut_char (ch 91) hostinfo with
  | Some (_, r) => let '(host, rest) := split_at 93 r in (host, (split_at 58 rest).2)
  | None => split_at 58 hostinfo
  end.

(** The name in lower case, the zone of an IPv6 address as it is. *)
Definition hostname (p : ParseResult) : option string :=
  let host := (_hostinfo (pr_netloc p)).1 in
  if is_empty host then None
  else match cut_char (ch 37) host with
       | Some (name, zone) => Some (lower name +:+ "%" +:+ zone)%string
       | None => Some (lower host)
       end.

Definition url_port (p : ParseResult) : res (option Z) :=
  let port := (_hostinfo (pr_netloc p)).2 in
  if is_empty port then Ok None
  else if all_chars is_digit port then
    let n := dec_value 0 port in if n <=? 65535 then Ok (Some n) else Raise (ValueError "Port out of range 0-65535")
  else Raise (ValueError "Port could not be cast to integer value").

(** The path without its dot segments. *)
Definition resolve_segment (acc : list string) (seg : string) : list string :=
  if bool_decide (seg = ".."%string) then removelast acc
  else if bool_decide (seg = "."%string) then acc
  else app acc [seg].

(** [segments\[1:-1\] = filter(None, segments\[1:-1\])] *)
Definition drop_inner_empty (l : list string) : list string :=
  match l with
  | x :: (_ :: _) as l' => x :: app (List.filter (fun s => negb (is_empty s)) (removelast l')) [List.last l' EmptyString]
  | _ => l
  end.

Definition drop_file (parts : list string) : list string :=
  if is_empty (List.last parts EmptyString) then parts else removelast parts.

Definition resolve_path (base_path path : string) : string :=
  let slash := split_char (ch 47) in
  let segments := if startswith path "/" then slash path else drop_inner_empty (app (drop_file (slash base_path)) (slash path)) in
  let resolved := foldl resolve_segment [] segments in
  let resolved := if bool_decide (List.last segments EmptyString ∈ ["."; ".."]%string) then app resolved [EmptyString] else resolved in
  let joined := join "/" resolved in
  if is_empty joined then "/"%string else joined.

Definition urljoin (base url : string) : res string :=
  if is_empty base then Ok url
  else if is_empty url then Ok base
  else
    try! b <- urlparse base EmptyString;
    try! u <- urlparse url (pr_scheme b);
    if negb (bool_decide (pr_scheme u = pr_scheme b)) || negb (bool_decide (pr_scheme u ∈ uses_relative)) then Ok url
    else
      let has_netloc := bool_decide (pr_scheme u ∈ uses_netloc) in
      if has_netloc && negb (is_empty (pr_netloc u)) then Ok (urlunparse u)
      else
        let netloc := if has_netloc then pr_netloc b else pr_netloc u in
        if is_empty (pr_path u) && is_empty (pr_params u) then
          Ok (urlunparse (Parsed (pr_scheme u) netloc (pr_path b) (pr_params b)
                (if is_empty (pr_query u) then pr_query b else pr_query u) (pr_fragment u)))
        else
          Ok (urlunparse (Parsed (pr_scheme u) netloc (resolve_path (pr_path b) (pr_path u)) (pr_params u) (pr_query u) (pr_fragment u))).

Example urljoin_example :
  map (urljoin "https://a.in/b/c/d;p?q") ["g"; "./g"; "g/"; "/g"; "//g"; "?y"; "g?y"; "#s"; ";x"; ""; "."; ".."; "../g"; "../../g"; "../../../g"; "http:g"; "ftp://x/"]%string
  = map Ok ["https://a.in/b/c/g"; "https://a.in/b/c/g"; "https://a.in/b/c/g/"; "https://a.in/g"; "https://g"; "https://a.in/b/c/d;p?y";
     "https://a.in/b/c/g?y"; "https://a.in/b/c/d;p?q#s"; "https://a.in/b/c/;x"; "https://a.in/b/c/d;p?q"; "https://a.in/b/c/"; "https://a.in/b/";
     "https://a.in/b/g"; "https://a.in/g"; "https://a.in/g"; "http:g"; "ftp://x/"]%string.
Proof. vm_compute. reflexivity. Qed.

(** ** ipaddress *)

Inductive ip_addr := V4 (n : Z) | V6 (n : Z).

Definition v4_value (s : string) : Z := foldl (fun acc o => 256 * acc + dec_value 0 o) 0 (split_char (ch 46) s).

Fixpoint hex_number (acc : Z) (s : string) : Z :=
  match s with String c s' => hex_number (16 * acc + default 0 (hex_value c)) s' | EmptyString => acc end.

(** The hextets of an address whose parts are in order, the gap filled with zeros. *)
Definition parts_value (parts : list string) : Z :=
  let n := length parts in
  let first_empty := is_empty (default EmptyString (head parts)) in
  let last_empty := is_empty (List.last parts EmptyString) in
  let hextets :=
    match empty_inner 1 (tail parts) with
    | [] => map (hex_number 0) parts
    | i :: _ =>
        let hi := if first_empty then (i - 1)%nat else i in
        let lo := if last_empty then (n - i - 2)%nat else (n - i - 1)%nat in
        app (map (hex_number 0) (take hi parts)) (app (repeat 0 (8 - hi - lo)) (map (hex_number 0) (drop (n - lo) parts)))
    end in
  foldl (fun acc h => 65536 * acc + h) 0 hextets.

Definition v6_value (s : string) : Z :=
  let addr := (split_at 37 s).1 in
  let parts := split_char (ch 58) addr in
  let tail_part := List.last parts EmptyString in
  if contains "." tail_part then
    let v := v4_value tail_part in
    parts_value (app (removelast parts) [hex_digits 4 (v / 65536) EmptyString; hex_digits 4 (v mod 65536) EmptyString])
  else parts_value parts.

(** [ipaddress.ip_address(s)], [None] for the [ValueError] *)
Definition ip_address (s : string) : option ip_addr :=
  if ipv4_ok s then Some (V4 (v4_value s))
  else if ipv6_ok s && negb (contains "/" s) then Some (V6 (v6_value s))
  else None.

Inductive ip_net := N4 (base prefix : Z) | N6 (base prefix : Z).

(** [ip in net] *)
Definition in_net (ip : ip_addr) (net : ip_net) : bool :=
  match ip, net with
  | V4 a, N4 b p => Z.shiftr a (32 - p) =? Z.shiftr b (32 - p)
  | V6 a, N6 b p => Z.shiftr a (128 - p) =? Z.shiftr b (128 - p)
  | _, _ => false
  end.

Definition in_any (nets : list ip_net) (ip : ip_addr) : bool := existsb (in_net ip) nets.

Definition n4 (a b c d p : Z) : ip_net := N4 (((a * 256 + b) * 256 + c) * 256 + d) p.

(** The first hextets of a network. *)
Definition n6 (hextets : list Z) (p : Z) : ip_net :=
  N6 (foldl (fun acc h => 65536 * acc + h) 0 hextets * 65536 ^ (8 - Z.of_nat (length hextets))) p.

Definition _private_networks : list ip_net :=
  [n4 0 0 0 0 8; n4 10 0 0 0 8; n4 127 0 0 0 8; n4 169 254 0 0 16; n4 172 16 0 0 12; n4 192 0 0 0 29; n4 192 0 0 170 31;
   n4 192 0 2 0 24; n4 192 168 0 0 16; n4 198 18 0 0 15; n4 198 51 100 0 24; n4 203 0 113 0 24; n4 240 0 0 0 4;
   n4 255 255 255 255 32;
   n6 [0; 0; 0; 0; 0; 0; 0; 1] 128; n6 [0] 128; n6 [0; 0; 0; 0; 0; 0xffff] 96; n6 [0x100] 64; n6 [0x2001] 23;
   n6 [0x2001; 2] 48; n6 [0x2001; 0xdb8] 32; n6 [0x2001; 0x10] 28; n6 [0xfc00] 7; n6 [0xfe80] 10].

Definition _reserved_networks : list ip_net :=
  [n4 240 0 0 0 4; n6 [0] 8; n6 [0x100] 8; n6 [0x200] 7; n6 [0x400] 6; n6 [0x800] 5; n6 [0x1000] 4; n6 [0x4000] 3; n6 [0x6000] 3;
   n6 [0x8000] 3; n6 [0xa000] 3; n6 [0xc000] 3; n6 [0xe000] 4; n6 [0xf000] 5; n6 [0xf800] 6; n6 [0xfe00] 9].

Definition ipv4_mapped (ip : ip_addr) : option ip_addr :=
  match ip with V6 n => if Z.shiftr n 32 =? 0xffff then Some (V4 (n mod 2 ^ 32)) else None | V4 _ => None end.

Definition is_private (ip : ip_addr) : bool := in_any _private_networks (default ip (ipv4_mapped ip)).
Definition is_loopback (ip : ip_addr) : bool := match ip with V4 _ => in_net ip (n4 127 0 0 0 8) | V6 n => n =? 1 end.
Definition is_link_local (ip : ip_addr) : bool := in_any [n4 169 254 0 0 16; n6 [0xfe80] 10] ip.
Definition is_multicast (ip : ip_addr) : bool := in_any [n4 224 0 0 0 4; n6 [0xff00] 8] ip.
Definition is_reserved (ip : ip_addr) : bool := in_any _reserved_networks ip.

Example ip_address_example :
  map ip_address ["127.0.0.1"; "1.2.3"; "::1"; "::ffff:10.0.0.1"; "fe80::1%eth0"; "1:2:3:4:5:6:7:8"; "2001:db8::"; "01.2.3.4"; "host"]%string
  = [Some (V4 2130706433); None; Some (V6 1); Some (V6 (0xffff * 2 ^ 32 + 167772161)); Some (V6 (0xfe80 * 2 ^ 112 + 1));
     Some (V6 0x10002000300040005000600070008); Some (V6 (0x20010db8 * 2 ^ 96)); None; None].
Proof. vm_compute. reflexivity. Qed.

(** ** Which addresses may be dialled *)

Definition LINKEDIN_DOWNLOAD_HOST_SUFFIXES : list string := ["linkedin.com"; "licdn.com"]%string.

Definition _BLOCKED_NETWORKS : list ip_net :=
  [n4 0 0 0 0 8; n4 10 0 0 0 8; n4 127 0 0 0 8; n4 169 254 0 0 16; n4 172 16 0 0 12; n4 192 168 0 0 16;
   n6 [0; 0; 0; 0; 0; 0; 0; 1] 128; n6 [0xfc00] 7; n6 [0xfe80] 10].

Definition _host_allowed (hostname : string) (allowed_suffixes : list string) : bool :=
  let host := rstrip_dots (lower (strip hostname)) in
  if is_empty host || bool_decide (host = "localhost"%string) then false
  else existsb (fun suffix => let s := lstrip_dots (lower suffix) in bool_decide (host = s) || endswith host ("." +:+ s)%string) allowed_suffixes.

Definition _ip_is_public (ip : ip_addr) : bool :=
  negb (is_private ip || is_loopback ip || is_link_local ip || is_multicast ip || is_reserved ip) && negb (in_any _BLOCKED_NETWORKS ip).

(** ** The network *)

(** A TCP connection for one GET: with TLS or without, the name in [Host] and in the
    certificate check, the address dialled. *)
Record connection := Connection { c_tls : bool; c_host : string; c_ip : ip_addr; c_port : Z; c_path : string }.

Inductive net_event := Asked (host : string) | Dialled (c : connection).

(** [Reply status headers chunks]: the body arrives in chunks; [NoReply]: the connection fails. *)
Inductive reply := NoReply | Reply (status : Z) (headers : list (string * string)) (chunks : list string).

(** What the resolver and the servers answer may depend on all that was asked before. *)
Class Network := {
  getaddrinfo : list net_event -> string -> option (list string);
  serve : list net_event -> connection -> reply }.

Abbreviation Net A := (M (list net_event) unit A).

Section Fetch.
Context {net : Network}.

Definition ask_resolver (host : string) : Net (option (list string)) :=
  do answer <- gets (fun log => getaddrinfo log host);
  modify (cons (Asked host)) ;;;
  ret answer.

Definition blocked_address : exn := ValueError "URL resolves to a blocked address".
Definition unresolved : exn := ValueError "URL host could not be resolved".

(** The texts of the public addresses, each once; one that is not public refuses all. *)
Fixpoint public_ips (seen infos : list string) : res (list string) :=
  match infos with
  | [] => Ok seen
  | ip_str :: infos' =>
      match ip_address ip_str with
      | None => public_ips seen infos'
      | Some ip =>
          if _ip_is_public ip
          then public_ips (if bool_decide (ip_str ∈ seen) then seen else app seen [ip_str]) infos'
          else Raise blocked_address
      end
  end.

Definition resolve_public_ips (host : string) : Net (list string) :=
  do answer <- ask_resolver host;
  match answer with
  | None => raise unresolved
  | Some infos =>
      do ips <- lift_res (public_ips [] infos);
      guard_exn (negb (bool_decide (ips = []))) unresolved ;;;
      ret ips
  end.

Record fetch_options := FetchOptions {
  allowed_host_suffixes : option (list string); allow_http : bool; max_redirects : Z; max_bytes : option Z;
  same_host_redirects_only : bool }.

Definition scheme_allowed (allow_http : bool) (scheme : string) : bool :=
  bool_decide (scheme = "https"%string) || (bool_decide (scheme = "http"%string) && allow_http).

Definition host_required : exn := ValueError "URL host is required".

(** A literal address is checked; its check reads the error it raised, which names the
    host where it is none. *)
Definition literal_or_resolved (host : string) : Net unit :=
  match ip_address host with
  | Some literal_ip => guard_exn (_ip_is_public literal_ip) blocked_address
  | None =>
      if contains "blocked" host
      then raise (ValueError (str_repr host +:+ " does not appear to be an IPv4 or IPv6 address"))
      else do _ <- resolve_public_ips host; ret tt
  end.

Definition assert_safe_outbound_url (o : fetch_options) (url : string) : Net string :=
  let raw := strip url in
  guard_exn (negb (is_empty raw)) (ValueError "URL is required") ;;;
  do parsed <- lift_res (urlparse raw EmptyString);
  guard_exn (scheme_allowed (allow_http o) (lower (pr_scheme parsed)))
    (ValueError (if allow_http o then "Only http/https URLs are allowed" else "Only https URLs are allowed")) ;;;
  match hostname parsed with
  | None => raise host_required
  | Some host =>
      guard_exn (match allowed_host_suffixes o with Some suffixes => _host_allowed host suffixes | None => true end)
        (ValueError "URL host is not allowed") ;;;
      literal_or_resolved host ;;;
      ret raw
  end.

Definition same_registrable_host (url_a url_b : string) : bool :=
  let host url := match urlparse url EmptyString with
                  | Ok p => Some (removeprefix "www." (lower (default EmptyString (hostname p))))
                  | Raise _ => None
                  end in
  match host url_a, host url_b with
  | Some a, Some b => negb (is_empty a) && bool_decide (a = b)
  | _, _ => false
  end.

Definition _pick_pinned_ip (hostname : string) : Net ip_addr :=
  do first <- resolve_public_ips hostname;
  do second <- resolve_public_ips hostname;
  match List.find (fun ip => bool_decide (ip ∈ second) && match ip_address ip with Some a => _ip_is_public a | None => false end) first with
  | Some ip => match ip_address ip with Some a => ret a | None => raise blocked_address end
  | None => raise (ValueError "URL host resolution changed to an unsafe address")
  end.

(** ** The GET *)

Record SafeHttpResponse := HttpResponse { status_code : Z; headers : list (string * string); content : string; r_url : string }.

Definition is_redirect (r : SafeHttpResponse) : bool := bool_decide (status_code r ∈ [301; 302; 303; 307; 308]).

(** The body, as long as it stays within the limit. *)
Fixpoint read_body (limit : option Z) (total : Z) (acc : string) (chunks : list string) : res string :=
  match chunks with
  | [] => Ok acc
  | chunk :: chunks' =>
      if is_empty chunk then Ok acc else
      let total := total + Z.of_nat (String.length chunk) in
      if match limit with Some m => m <? total | None => false end then Raise (RuntimeError "Remote response exceeds size limit")
      else read_body limit total (acc +:+ chunk)%string chunks'
  end.

(** [{k.lower(): v for k, v in resp.getheaders()}.get(name)] *)
Definition header (name : string) (hs : list (string * string)) : option string :=
  foldl (fun acc kv => if bool_decide (lower kv.1 = name) then Some kv.2 else acc) None hs.

(** What http.client refuses in a host or a path. *)
Definition printable (s : string) : bool := all_chars (fun c => (32 <? code c) && negb (code c =? 127)) s.

Definition InvalidURL : exn := OtherError "InvalidURL".

Definition send_get (limit : option Z) (c : connection) (url : string) : Net SafeHttpResponse :=
  guard_exn (printable (c_host c) && printable (c_path c)) InvalidURL ;;;
  do answer <- gets (fun log => serve log c);
  modify (cons (Dialled c)) ;;;
  match answer with
  | NoReply => raise (OtherError "OSError")
  | Reply status headers chunks =>
      do body <- lift_res (read_body limit 0 EmptyString chunks);
      ret (HttpResponse status headers body url)
  end.

(** The connection to a URL that was checked. *)
Definition connect_to (current : string) : Net connection :=
  do parsed <- lift_res (urlparse current EmptyString);
  match hostname parsed with
  | None => raise host_required
  | Some host =>
      let https := bool_decide (lower (pr_scheme parsed) = "https"%string) in
      do port <- lift_res (url_port parsed);
      let port := match port with Some p => if p =? 0 then None else Some p | None => None end in
      let path := if is_empty (pr_path parsed) then "/"%string else pr_path parsed in
      let path := if is_empty (pr_query parsed) then path else (path +:+ "?" +:+ pr_query parsed)%string in
      do ip <- (match ip_address host with Some ip => ret ip | None => _pick_pinned_ip host end);
      ret (Connection https host ip (default (if https then 443 else 80) port) path)
  end.

(** Where a redirect leads, once it is checked. *)
Definition next_url (o : fetch_options) (current : string) (r : SafeHttpResponse) : Net string :=
  match header "location" (headers r) with
  | Some location =>
      if is_empty location then raise (RuntimeError "Redirect without Location header")
      else
        do nxt <- lift_res (urljoin current location);
        guard_exn (negb (same_host_redirects_only o && negb (same_registrable_host current nxt))) (ValueError "Cross-host redirect blocked") ;;;
        assert_safe_outbound_url o nxt ;;;
        ret nxt
  | None => raise (RuntimeError "Redirect without Location header")
  end.

Fixpoint follow (hops : nat) (o : fetch_options) (current : string) : Net SafeHttpResponse :=
  match hops with
  | O => raise (RuntimeError "Too many redirects")
  | S hops' =>
      do c <- connect_to current;
      do r <- send_get (max_bytes o) c current;
      if is_redirect r then do nxt <- next_url o current r; follow hops' o nxt
      else ret r
  end.

Definition ssrf_safe_get (o : fetch_options) (url : string) : Net SafeHttpResponse :=
  do current <- assert_safe_outbound_url o url;
  follow (Z.to_nat (Z.max 1 (max_redirects o + 1))) o current.

(** A fetch on its own: the answer and what was asked, the latest first. *)
Definition fetch {A} (m : Net A) : res A * list net_event :=
  let '(r, s) := m (open_session (fun _ => 0) (fun _ => EmptyString) []) in (r, s_db s).
End Fetch.

(** ** Which addresses are public *)

Lemma shiftr_interval a b k : 0 <= k -> b mod 2 ^ k = 0 -> (Z.shiftr a k =? Z.shiftr b k) = true <-> b <= a < b + 2 ^ k.
Proof.
  intros Hk Hb. rewrite Z.eqb_eq, !Z.shiftr_div_pow2 by done. pose proof (Z.pow_pos_nonneg 2 k ltac:(lia) Hk).
  pose proof (Z.div_mod a (2 ^ k) ltac:(lia)). pose proof (Z.div_mod b (2 ^ k) ltac:(lia)). pose proof (Z.mod_pos_bound a (2 ^ k) ltac:(lia)).
  split; [nia|]. intros. symmetry. apply (Z.div_unique_pos _ _ _ (a - b)); lia.
Qed.

(** What must never be dialled: this network, the private ones, loopback, link-local,
    multicast and reserved addresses; of IPv6 also all that start with a zero octet,
    among them loopback and the IPv4 addresses in IPv6 clothes. *)
Definition internal (ip : ip_addr) : Prop :=
  match ip with
  | V4 n =>
      0 <= n < 2 ^ 24 \/ 10 * 2 ^ 24 <= n < 11 * 2 ^ 24 \/ 127 * 2 ^ 24 <= n < 128 * 2 ^ 24 \/
      (169 * 256 + 254) * 2 ^ 16 <= n < (169 * 256 + 255) * 2 ^ 16 \/ (172 * 16 + 1) * 2 ^ 20 <= n < (172 * 16 + 2) * 2 ^ 20 \/
      (192 * 256 + 168) * 2 ^ 16 <= n < (192 * 256 + 169) * 2 ^ 16 \/ 224 * 2 ^ 24 <= n < 2 ^ 32
  | V6 n => 0 <= n < 2 ^ 120 \/ 0xfc * 2 ^ 120 <= n < 0xfe * 2 ^ 120 \/ 0xfe80 * 2 ^ 112 <= n < 0xfec0 * 2 ^ 112 \/ 0xff * 2 ^ 120 <= n < 2 ^ 128
  end.

Lemma net4_interval n b p : (b mod 2 ^ (32 - p) =? 0) && (p <=? 32) = true -> in_net (V4 n) (N4 b p) = false -> ~ b <= n < b + 2 ^ (32 - p).
Proof.
  intros [H1%Z.eqb_eq H2%Z.leb_le]%andb_true_iff H3 H4. cbn in H3. rewrite (proj2 (shiftr_interval n b (32 - p) ltac:(lia) H1) H4) in H3. done.
Qed.

Lemma net6_interval n b p : (b mod 2 ^ (128 - p) =? 0) && (p <=? 128) = true -> in_net (V6 n) (N6 b p) = false -> ~ b <= n < b + 2 ^ (128 - p).
Proof.
  intros [H1%Z.eqb_eq H2%Z.leb_le]%andb_true_iff H3 H4. cbn in H3. rewrite (proj2 (shiftr_interval n b (128 - p) ltac:(lia) H1) H4) in H3. done.
Qed.

Lemma in_any_false nets ip net : in_any nets ip = false -> net ∈ nets -> in_net ip net = false.
Proof.
  intros H Hin. destruct (in_net ip net) eqn:E; [|done]. assert (in_any nets ip = true); [|congruence].
  apply existsb_exists. exists net. by split; [apply list_elem_of_In|].
Qed.

(** [n] is outside [net], which is among the networks of [H]. *)
Ltac outside H net :=
  let Hin := fresh in let net' := eval vm_compute in net in
  match type of H with
  | in_any ?nets (?V ?n) = false =>
      assert (Hin : net' ∈ nets) by (vm_compute; repeat first [left; reflexivity | right]);
      match net' with
      | N4 ?b ?p => pose proof (net4_interval n b p eq_refl (in_any_false nets (V n) net' H Hin))
      | N6 ?b ?p => pose proof (net6_interval n b p eq_refl (in_any_false nets (V n) net' H Hin))
      end; clear Hin
  end.

Lemma public_not_internal ip : _ip_is_public ip = true -> ~ internal ip.
Proof.
  unfold _ip_is_public. rewrite andb_true_iff, !negb_true_iff, !orb_false_iff. intros [[[_ Hm] Hr] Hb].
  unfold is_multicast, is_reserved in *. destruct ip as [n|n].
  - outside Hb (n4 0 0 0 0 8). outside Hb (n4 10 0 0 0 8). outside Hb (n4 127 0 0 0 8). outside Hb (n4 169 254 0 0 16).
    outside Hb (n4 172 16 0 0 12). outside Hb (n4 192 168 0 0 16). outside Hr (n4 240 0 0 0 4). outside Hm (n4 224 0 0 0 4).
    clear Hm Hr Hb. cbn in *. lia.
  - outside Hb (n6 [0xfc00] 7). outside Hb (n6 [0xfe80] 10). outside Hr (n6 [0] 8). outside Hm (n6 [0xff00] 8). clear Hm Hr Hb. cbn in *. lia.
Qed.

(** ** White space around a URL does not change its name and scheme *)

Definition blank (w : string) : Prop := all_chars is_space w = true.

Lemma append_nil_r s : (s +:+ "")%string = s.
Proof. induction s as [|c s IH]; [done|]. change (String c (s +:+ "")%string = String c s). by rewrite IH. Qed.

Lemma rstrip_pad s : exists w, blank w /\ s = (rstrip s +:+ w)%string.
Proof.
  induction s as [|c s (w & Hw & IH)]; [by exists EmptyString|]. cbn [rstrip]. destruct (is_space c) eqn:Ec; cbn [andb].
  - destruct (bool_decide_reflect (rstrip s = EmptyString)) as [E|E].
    + exists (String c w). rewrite E in IH. split; [unfold blank; cbn; rewrite Ec; exact Hw|]. by rewrite IH.
    + exists w. split; [done|]. change (String c s = String c (rstrip s +:+ w)%string). by rewrite <- IH.
  - exists w. split; [done|]. change (String c s = String c (rstrip s +:+ w)%string). by rewrite <- IH.
Qed.

(** No character [p] accepts is white space. *)
Definition unspaced (p : Ascii.ascii -> bool) : Prop := forall c, is_space c = true -> p c = false.

Lemma blank_cons c w : blank (String c w) -> is_space c = true /\ blank w.
Proof. unfold blank. cbn. by rewrite andb_true_iff. Qed.

Lemma cut_blank c w : is_space c = false -> blank w -> cut_char c w = None.
Proof.
  intros Hc. induction w as [|x w IH]; [done|]. intros [Hx Hw]%blank_cons. cbn. destruct (Ascii.eqb_spec x c) as [->|]; [congruence|]. by rewrite IH.
Qed.

Lemma cut_pad c t w : is_space c = false -> blank w ->
  cut_char c (t +:+ w)%string = match cut_char c t with Some (a, b) => Some (a, (b +:+ w)%string) | None => None end.
Proof.
  intros Hc Hw. induction t as [|x t IH]; [by apply cut_blank|]. change (cut_char c (String x (t +:+ w)%string) = match cut_char c (String x t) with Some (a, b) => Some (a, (b +:+ w)%string) | None => None end).
  cbn. destruct (Ascii.eqb x c); [done|]. rewrite IH. by destruct (cut_char c t) as [[a b]|].
Qed.

Lemma break_blank p w : unspaced p -> blank w -> break_at p w = (w, EmptyString).
Proof. intros Hp. induction w as [|y w IH]; [done|]. intros [Hy Hw]%blank_cons. cbn. by rewrite (Hp _ Hy), (IH Hw). Qed.

Lemma break_pad p t w : unspaced p -> blank w ->
  break_at p (t +:+ w)%string = let '(a, b) := break_at p t in if is_empty b then ((a +:+ w)%string, EmptyString) else (a, (b +:+ w)%string).
Proof.
  intros Hp Hw. induction t as [|x t IH].
  - exact (break_blank p w Hp Hw).
  - change (break_at p (String x (t +:+ w)%string) = let '(a, b) := break_at p (String x t) in if is_empty b then ((a +:+ w)%string, EmptyString) else (a, (b +:+ w)%string)).
    cbn. destruct (p x); [done|]. rewrite IH. destruct (break_at p t) as [a b]. by destruct (is_empty b).
Qed.

Lemma keep_pad p t w : keep_ascii p (t +:+ w)%string = (keep_ascii p t +:+ keep_ascii p w)%string.
Proof.
  induction t as [|x t IH]; [done|]. change (keep_ascii p (String x (t +:+ w)%string) = (keep_ascii p (String x t) +:+ keep_ascii p w)%string).
  cbn. rewrite IH. by destruct (p x).
Qed.

Lemma keep_blank p w : blank w -> blank (keep_ascii p w).
Proof. induction w as [|x w IH]; [done|]. intros [Hx Hw]%blank_cons. cbn. destruct (p x); [unfold blank; cbn; rewrite Hx|]; by apply IH. Qed.

Lemma space_low c : is_space c = true -> (code c <=? 32) = true.
Proof. unfold is_space, code. intros H. apply Z.leb_le. rewrite orb_true_iff, !andb_true_iff, !Nat.leb_le in H. lia. Qed.

Abbreviation low := (fun c => Z.leb (code c) 32).

Lemma drop_low_blank w : blank w -> drop_while low w = EmptyString.
Proof. induction w as [|x w IH]; [done|]. intros [Hx Hw]%blank_cons. cbn. rewrite (space_low _ Hx). by apply IH. Qed.

Lemma drop_low_pad t w : blank w -> exists w', blank w' /\ drop_while low (t +:+ w)%string = (drop_while low t +:+ w')%string.
Proof.
  intros Hw. induction t as [|x t IH].
  - exists EmptyString. split; [done|]. apply drop_low_blank, Hw.
  - change (exists w', blank w' /\ drop_while low (String x (t +:+ w)%string) = (drop_while low (String x t) +:+ w')%string).
    cbn. destruct (code x <=? 32); [exact IH|]. by exists w.
Qed.

Lemma drop_low_lstrip s : drop_while low (lstrip s) = drop_while low s.
Proof. induction s as [|x s IH]; [done|]. cbn. destruct (is_space x) eqn:E; [by rewrite (space_low _ E)|done]. Qed.

Lemma split_scheme_pad t w : blank w -> split_scheme (t +:+ w)%string = ((split_scheme t).1, ((split_scheme t).2 +:+ w)%string).
Proof.
  intros Hw. unfold split_scheme. rewrite (cut_pad (ch 58) _ _ eq_refl Hw).
  destruct (cut_char (ch 58) t) as [[[|c a] b]|]; [done| |done]. by destruct (_ && _).
Qed.

Ltac same_char := match goal with |- context [Ascii.ascii_dec ?x ?y] => destruct (Ascii.ascii_dec x y) end.

Lemma after_two x y s : after (String x (String y "")) s =
  match s with String a (String b r) => if Ascii.eqb a x && Ascii.eqb b y then Some r else None | _ => None end.
Proof.
  destruct s as [|a [|b r]]; [done|unfold after, startswith; cbn; by same_char|].
  destruct (Ascii.eqb_spec a x) as [->|Ha]; [destruct (Ascii.eqb_spec b y) as [->|Hb]|].
  - exact (after_app (String x (String y "")) r).
  - unfold after, startswith. cbn. do 2 (same_char; [|done]). by destruct Hb.
  - unfold after, startswith. cbn. same_char; [by destruct Ha|done].
Qed.

Lemma after_slashes_pad t w : blank w -> after "//" (t +:+ w)%string = match after "//" t with Some r => Some (r +:+ w)%string | None => None end.
Proof.
  intros Hw. change "//"%string with (String (ch 47) (String (ch 47) "")). rewrite !after_two. assert (Hs : forall x y, blank (String x y) -> Ascii.eqb x (ch 47) = false).
  { intros x y [Hx _]%blank_cons. destruct (Ascii.eqb_spec x (ch 47)) as [->|]; [done|done]. }
  destruct t as [|a [|b r]].
  - change ("" +:+ w)%string with w. destruct w as [|x [|y w]]; [done..|]. by rewrite (Hs _ _ Hw).
  - change (String a "" +:+ w)%string with (String a w). destruct w as [|x w]; [done|]. rewrite (Hs _ _ Hw), andb_false_r. done.
  - change (String a (String b r) +:+ w)%string with (String a (String b (r +:+ w))). cbn iota beta. destruct (Ascii.eqb a _ && Ascii.eqb b _); done.
Qed.

Lemma split_netloc_pad t w : blank w -> exists w1, blank w1 /\ (split_netloc (t +:+ w)%string).1 = ((split_netloc t).1 +:+ w1)%string.
Proof.
  intros Hw. unfold split_netloc. rewrite (after_slashes_pad _ _ Hw). destruct (after "//" t) as [r|]; [|by exists EmptyString].
  rewrite break_pad; [|intros c Hc; unfold one_of; apply bool_decide_eq_false; revert Hc; unfold is_space; rewrite !elem_of_cons, elem_of_nil, orb_true_iff, !andb_true_iff, !Nat.leb_le; lia|done].
  destruct (break_at _ r) as [a b]. destruct (is_empty b); [by exists w|]. exists EmptyString. by rewrite append_nil_r.
Qed.

Lemma urlsplit_pad s u u' : urlsplit (strip s) = Ok u -> urlsplit s = Ok u' ->
  u_scheme u' = u_scheme u /\ exists w, blank w /\ u_netloc u' = (u_netloc u +:+ w)%string.
Proof.
  unfold urlsplit. rewrite <- (drop_low_lstrip s). unfold strip. destruct (rstrip_pad (lstrip s)) as (w & Hw & E).
  rewrite E at 2. destruct (drop_low_pad (rstrip (lstrip s)) w Hw) as (w1 & Hw1 & ->). rewrite keep_pad.
  set (t := keep_ascii _ (drop_while _ (rstrip (lstrip s)))). set (v := keep_ascii _ w1). assert (Hv : blank v) by by apply keep_blank.
  rewrite (split_scheme_pad t v Hv). destruct (split_scheme t) as [sch rest]. cbn [fst snd].
  destruct (split_netloc_pad rest v Hv) as (w2 & Hw2 & E2).
  destruct (split_netloc rest) as [nl r], (split_netloc (rest +:+ v)%string) as [nl' r']. cbn in E2. subst nl'.
  destruct (netloc_ok nl); cbn [negb]; [|done]. destruct (netloc_ok (nl +:+ w2)%string); cbn [negb]; [|done].
  destruct (split_at 35 r) as [? ?], (split_at 35 r') as [? ?]. destruct (split_at 63 _) as [? ?], (split_at 63 _) as [? ?].
  intros [= <-] [= <-]. split; [done|]. by exists w2.
Qed.

Lemma urlparse_pad s sch p p' : urlparse (strip s) sch = Ok p -> urlparse s sch = Ok p' ->
  pr_scheme p' = pr_scheme p /\ exists w, blank w /\ pr_netloc p' = (pr_netloc p +:+ w)%string.
Proof.
  unfold urlparse. destruct (urlsplit (strip s)) as [u|] eqn:E; [|done]. destruct (urlsplit s) as [u'|] eqn:E'; [|done]. cbn [res_bind].
  destruct (urlsplit_pad s u u' E E') as [Hs Hn]. rewrite Hs. destruct (if bool_decide _ then _splitparams (u_path u) else _) as [? ?].
  destruct (if bool_decide _ then _ else _) as [? ?]. by intros [= <-] [= <-].
Qed.

Lemma after_last_pad c t w : is_space c = false -> blank w -> after_last c (t +:+ w)%string = (after_last c t +:+ w)%string.
Proof.
  intros Hc Hw. induction t as [|x t IH].
  - change ("" +:+ w)%string with w. destruct w as [|y w]; [done|]. cbn [after_last]. by rewrite (cut_blank _ _ Hc Hw).
  - change (after_last c (String x (t +:+ w)) = (after_last c (String x t) +:+ w)%string). cbn [after_last].
    change (String x (t +:+ w)) with (String x t +:+ w)%string. rewrite (cut_pad _ _ _ Hc Hw).
    destruct (cut_char c (String x t)) as [[a b]|]; [exact IH|done].
Qed.

Lemma hostinfo_pad nl w : blank w -> (_hostinfo (nl +:+ w)%string).1 = (_hostinfo nl).1 \/ (_hostinfo (nl +:+ w)%string).1 = ((_hostinfo nl).1 +:+ w)%string.
Proof.
  intros Hw. unfold _hostinfo. rewrite (after_last_pad (ch 64) _ _ eq_refl Hw). set (h := after_last _ nl).
  assert (Hsplit : forall k r, is_space (ch k) = false -> (split_at k (r +:+ w)%string).1 = (split_at k r).1 \/ (split_at k (r +:+ w)%string).1 = ((split_at k r).1 +:+ w)%string).
  { intros k r Hk. unfold split_at. rewrite (cut_pad _ _ _ Hk Hw). destruct (cut_char _ r) as [[a b]|]; [by left|by right]. }
  rewrite (cut_pad (ch 91) _ _ eq_refl Hw). destruct (cut_char (ch 91) h) as [[a r]|]; [|by apply Hsplit].
  pose proof (Hsplit 93%nat r eq_refl). destruct (split_at 93 r) as [? ?], (split_at 93 (r +:+ w)%string) as [? ?]. done.
Qed.

Lemma printable_lower s : printable (lower s) = printable s.
Proof.
  unfold printable, lower, map_ascii. induction s as [|c s IH]; [done|]. cbn. f_equal; [|exact IH]. clear. by destruct c as [[] [] [] [] [] [] [] []].
Qed.

Lemma printable_app a b : printable (a +:+ b)%string = printable a && printable b.
Proof. unfold printable. induction a as [|c a IH]; [done|]. change (all_chars ?p (String c a +:+ b)%string) with (p c && all_chars p (a +:+ b)%string). rewrite IH. cbn. by rewrite andb_assoc. Qed.

Lemma blank_unprintable w : blank w -> printable w = true -> w = EmptyString.
Proof. destruct w as [|c w]; [done|]. intros [Hc%space_low _]%blank_cons. unfold printable. cbn. apply Z.leb_le in Hc. rewrite (proj2 (Z.ltb_ge 32 (code c)) Hc). done. Qed.

(** A name that can be dialled is the one that was checked. *)
Lemma hostname_pad s sch p p' h : urlparse (strip s) sch = Ok p -> urlparse s sch = Ok p' -> hostname p' = Some h -> printable h = true ->
  hostname p = Some h.
Proof.
  intros Hp Hp' Hh Hpr. destruct (urlparse_pad _ _ _ _ Hp Hp') as (_ & w & Hw & Hn). unfold hostname in *. rewrite Hn in Hh.
  destruct (hostinfo_pad (pr_netloc p) w Hw) as [E|E]; rewrite E in Hh; [done|]. set (x := (_hostinfo (pr_netloc p)).1) in *.
  enough (w = EmptyString) as -> by by rewrite append_nil_r in Hh.
  destruct (is_empty (x +:+ w)%string); [done|]. rewrite (cut_pad (ch 37) _ _ eq_refl Hw) in Hh. apply blank_unprintable; [done|].
  destruct (cut_char (ch 37) x) as [[a b]|]; injection Hh as <-; [|rewrite printable_lower in Hpr]; rewrite ?printable_app, ?andb_true_iff in Hpr; tauto.
Qed.

(** ** Every hop is checked *)

(** A name without [www.]. *)
Definition site (host : string) : string := removeprefix "www." (lower host).

Definition dials (log : list net_event) : nat := length (List.filter (fun e => match e with Dialled _ => true | Asked _ => false end) log).

Section Hops.
Context {net : Network} (o : fetch_options) (home : string).

Definition host_ok (host : string) : Prop := match allowed_host_suffixes o with Some l => _host_allowed host l = true | None => True end.

(** A connection as the options allow it. *)
Definition checked (c : connection) : Prop :=
  ~ internal (c_ip c) /\ (c_tls c = true \/ allow_http o = true) /\ host_ok (c_host c) /\
  (same_host_redirects_only o = true -> site (c_host c) = home).

(** The address dialled is the literal one of the URL, or one the resolver has just given
    for the name. *)
Definition pinned (c : connection) (log : list net_event) : Prop :=
  ip_address (c_host c) = Some (c_ip c) \/
  exists rest infos text, log = Asked (c_host c) :: rest /\ getaddrinfo rest (c_host c) = Some infos /\ text ∈ infos /\ ip_address text = Some (c_ip c).

Fixpoint all_checked (log : list net_event) : Prop :=
  match log with
  | [] => True
  | Asked _ :: log' => all_checked log'
  | Dialled c :: log' => checked c /\ pinned c log' /\ all_checked log'
  end.

(** A step from a log [P] holds of: all connections stay checked, and an answer has [Q]. *)
Definition does {A} (P : list net_event -> Prop) (Q : A -> list net_event -> Prop) (m : Net A) : Prop :=
  forall s, all_checked (s_db s) -> P (s_db s) ->
  all_checked (s_db (m s).2) /\ forall a, (m s).1 = Ok a -> Q a (s_db (m s).2).

Abbreviation always := (fun _ : list net_event => True).

Lemma does_bind {A B} K P Q (m : Net A) (f : A -> Net B) : does P K m -> (forall a, does (K a) Q (f a)) -> does P Q (bind m f).
Proof.
  intros Hm Hf s H1 H2. destruct (Hm s H1 H2) as [H3 H4]. unfold bind. destruct (m s) as [[a|e] s']; [by apply Hf, H4|done].
Qed.

Lemma does_ret {A} P Q (a : A) : (forall log, P log -> Q a log) -> does P Q (ret a : Net A).
Proof. intros H s H1 H2. split; [done|]. intros b [= <-]. by apply H. Qed.

Lemma does_raise {A} P Q e : does P Q (raise e : Net A).
Proof. by intros s H1 H2. Qed.

Lemma does_guard P b e : does P (fun _ log => P log /\ b = true) (guard_exn b e : Net unit).
Proof. intros s H1 H2. by destruct b. Qed.

Lemma does_lift {A} P (r : res A) : does P (fun a log => P log /\ r = Ok a) (lift_res r : Net A).
Proof. intros s H1 H2. split; [done|]. cbn. intros a ->. done. Qed.

Lemma does_weaken {A} P P' Q Q' (m : Net A) : (forall log, P log -> P' log) -> (forall a log, Q' a log -> Q a log) -> does P' Q' m -> does P Q m.
Proof. intros HP HQ Hm s H1 H2. destruct (Hm s H1 (HP _ H2)) as [H3 H4]. split; [done|]. auto. Qed.

Lemma does_fact {A} (F : Prop) P Q (m : Net A) : (F -> does P Q m) -> does (fun log => P log /\ F) Q m.
Proof. intros H s H1 [H2 H3]. by apply H. Qed.

Lemma public_ips_spec infos : forall seen ips, public_ips seen infos = Ok ips -> forall t, t ∈ ips ->
  t ∈ seen \/ (t ∈ infos /\ exists ip, ip_address t = Some ip /\ _ip_is_public ip = true).
Proof.
  induction infos as [|x infos IH]; intros seen ips; cbn; [intros [= <-]; by left|].
  destruct (ip_address x) as [ip|] eqn:E.
  - destruct (_ip_is_public ip) eqn:Hp; [|done]. intros H t Ht. destruct (IH _ _ H t Ht) as [Hs|[H1 H2]]; [|right; by split; [right|]].
    case_bool_decide; [by left|]. apply elem_of_app in Hs as [Hs|Hs%list_elem_of_singleton]; [by left|subst]. right. split; [left|by exists ip].
  - intros H t Ht. destruct (IH _ _ H t Ht) as [|[H1 H2]]; [by left|]. right. by split; [right|].
Qed.

(** What the resolver has just given for [host]. *)
Definition answered (host text : string) (log : list net_event) : Prop :=
  exists rest infos, log = Asked host :: rest /\ getaddrinfo rest host = Some infos /\ text ∈ infos.

Lemma does_resolve host : does always (fun ips log => forall t, t ∈ ips -> answered host t log /\ exists ip, ip_address t = Some ip /\ _ip_is_public ip = true)
  (resolve_public_ips host).
Proof.
  intros s H1 _. unfold resolve_public_ips, ask_resolver, bind, gets, modify. cbn.
  destruct (getaddrinfo (s_db s) host) as [infos|] eqn:E; [|done]. unfold lift_res.
  destruct (public_ips [] infos) as [ips|] eqn:Ep; [|done]. case_bool_decide; [done|]. cbn. split; [done|]. intros a [= <-] t Ht.
  destruct (public_ips_spec _ _ _ Ep t Ht) as [Hn|[Ht' Hip]]; [by apply elem_of_nil in Hn|]. split; [|done]. by exists (s_db s), infos.
Qed.

Lemma does_pick host : does always (fun ip log => _ip_is_public ip = true /\ exists t, answered host t log /\ ip_address t = Some ip) (_pick_pinned_ip host).
Proof.
  unfold _pick_pinned_ip. eapply does_bind; [apply does_resolve|intros first]. eapply does_bind.
  { eapply does_weaken; [| |apply does_resolve]; [done|intros ? ? H; exact H]. }
  intros second. destruct (List.find _ first) as [t|] eqn:E; [|apply does_raise]. apply find_some in E as [_ [Ht _]%andb_true_iff].
  apply bool_decide_eq_true in Ht. destruct (ip_address t) as [ip|] eqn:Ei; [|apply does_raise].
  apply does_ret. intros log H. destruct (H t Ht) as [Ha (ip' & Hi & Hp)]. rewrite Ei in Hi. injection Hi as <-. split; [done|]. by exists t.
Qed.

(** ** The URLs that are followed *)

Definition vetted (u : string) : Prop := forall p, urlparse u EmptyString = Ok p ->
  scheme_allowed (allow_http o) (lower (pr_scheme p)) = true /\
  forall h, hostname p = Some h -> printable h = true -> host_ok h /\ forall ip, ip_address h = Some ip -> _ip_is_public ip = true.

Definition at_home (u : string) : Prop := same_host_redirects_only o = true -> forall p, urlparse u EmptyString = Ok p -> site (default EmptyString (hostname p)) = home.

Lemma does_literal h : does always (fun _ _ => forall ip, ip_address h = Some ip -> _ip_is_public ip = true) (literal_or_resolved h).
Proof.
  unfold literal_or_resolved. destruct (ip_address h) as [ip|].
  - eapply does_weaken; [| |apply does_guard]; [intros log H; exact H|]. by intros _ log [_ H] ip' [= <-].
  - destruct (contains "blocked" h); [apply does_raise|]. eapply does_bind; [apply does_resolve|intros ips]. by apply does_ret.
Qed.

Lemma does_assert url : does always (fun raw _ => raw = strip url /\ vetted (strip url) /\ exists p, urlparse (strip url) EmptyString = Ok p) (assert_safe_outbound_url o url).
Proof.
  unfold assert_safe_outbound_url. eapply does_bind; [apply does_guard|intros ?; cbn beta]. apply does_fact. intros _.
  eapply does_bind; [apply does_lift|intros p; cbn beta]. apply does_fact. intros Hp.
  eapply does_bind; [apply does_guard|intros ?; cbn beta]. apply does_fact. intros Hs.
  destruct (hostname p) as [h|] eqn:Hh; [|apply does_raise]. eapply does_bind; [apply does_guard|intros ?; cbn beta]. apply does_fact. intros Ha.
  eapply does_bind; [eapply does_weaken; [| |apply does_literal]; [done|intros ? ? H; exact H]|intros ?; cbn beta].
  apply does_ret. intros log Hl. split; [done|]. split; [|by exists p]. intros p' Hp'. rewrite Hp in Hp'. injection Hp' as <-. split; [done|].
  rewrite Hh. intros h' [= <-] _. split; [|done]. unfold host_ok. by destruct (allowed_host_suffixes o).
Qed.

Lemma vetted_pad u : (exists p, urlparse (strip u) EmptyString = Ok p) -> vetted (strip u) -> vetted u.
Proof.
  intros [p Hp] Hv p' Hp'. destruct (Hv p Hp) as [H1 H2]. destruct (urlparse_pad _ _ _ _ Hp Hp') as [-> _]. split; [done|].
  intros h Hh Hpr. apply H2; [by eapply hostname_pad|done].
Qed.

Lemma does_connect u : vetted u -> at_home u ->
  does always (fun c log => printable (c_host c) = true -> checked c /\ pinned c log) (connect_to u).
Proof.
  intros Hv Hh. unfold connect_to. eapply does_bind; [apply does_lift|intros p; cbn beta]. apply does_fact. intros Hp.
  destruct (Hv p Hp) as [Hs Hhost]. destruct (hostname p) as [h|] eqn:E; [|apply does_raise].
  eapply does_bind; [apply does_lift|intros port; cbn beta]. apply does_fact. intros _.
  assert (Hc : forall ip prt path, _ip_is_public ip = true -> printable h = true ->
    checked (Connection (bool_decide (lower (pr_scheme p) = "https"%string)) h ip prt path)).
  { intros ip prt path Hip Hpr. split; [by apply public_not_internal|]. cbn. split; [|split; [by apply Hhost|]].
    - unfold scheme_allowed in Hs. apply orb_true_iff in Hs as [->|[_ ->]%andb_true_iff]; auto.
    - intros Hsame. specialize (Hh Hsame p Hp). by rewrite E in Hh. }
  destruct (ip_address h) as [ip|] eqn:Ei.
  - eapply does_bind; [by apply (does_ret _ (fun a _ => a = ip))|intros a]. apply does_ret. intros log -> Hpr. cbn in Hpr.
    split; [apply Hc; [by apply (Hhost h)|done]|by left].
  - eapply does_bind; [eapply does_weaken; [| |apply does_pick]; [done|intros ? ? H; exact H]|intros ip].
    apply does_ret. intros log (Hip & t & (rest & infos & H1 & H2 & H3) & H4) Hpr. cbn in Hpr. split; [by apply Hc|]. right. by exists rest, infos, t.
Qed.

Lemma read_body_bound limit chunks : forall total acc b m, read_body limit total acc chunks = Ok b -> limit = Some m ->
  Z.of_nat (String.length acc) = total -> Z.of_nat (String.length b) <= Z.max m total.
Proof.
  induction chunks as [|x chunks IH]; intros total acc b m; cbn; [intros [= <-] _ <-; lia|].
  destruct (is_empty x); [intros [= <-] _ <-; lia|]. intros H -> Hacc. destruct (Z.ltb_spec m (total + Z.of_nat (String.length x))); [done|].
  apply IH with (m := m) in H; [lia|done|]. rewrite length_app_str. lia.
Qed.

(** A response within the limit. *)
Definition bounded (r : SafeHttpResponse) : Prop := forall m, max_bytes o = Some m -> Z.of_nat (String.length (content r)) <= Z.max m 0.

Lemma does_send c u : does (fun log => printable (c_host c) = true -> checked c /\ pinned c log) (fun r _ => bounded r) (send_get (max_bytes o) c u).
Proof.
  unfold send_get. eapply does_bind; [apply does_guard|intros ?; cbn beta]. apply does_fact. intros [Hh _]%andb_true_iff.
  intros s H1 H2. destruct (H2 Hh) as [Hc Hp]. unfold bind, gets, modify. cbn.
  destruct (serve (s_db s) c) as [|status hs chunks]; cbn; [done|]. unfold lift_res.
  destruct (read_body (max_bytes o) 0 EmptyString chunks) as [b|] eqn:E; cbn; [|done]. split; [done|]. intros answer [= <-] m Hm.
  by apply (read_body_bound _ _ _ _ _ m E).
Qed.

Lemma same_site a b : same_registrable_host a b = true -> exists p q, urlparse a EmptyString = Ok p /\ urlparse b EmptyString = Ok q /\
  site (default EmptyString (hostname p)) = site (default EmptyString (hostname q)).
Proof.
  unfold same_registrable_host. destruct (urlparse a EmptyString) as [p|]; [|done]. destruct (urlparse b EmptyString) as [q|]; [|done].
  intros [_ H%bool_decide_eq_true]%andb_true_iff. by exists p, q.
Qed.

Lemma does_next u r : at_home u -> does always (fun nxt _ => vetted nxt /\ at_home nxt) (next_url o u r).
Proof.
  intros Hu. unfold next_url. destruct (header "location" (headers r)) as [location|]; [|apply does_raise].
  destruct (is_empty location); [apply does_raise|]. eapply does_bind; [apply does_lift|intros nxt; cbn beta]. apply does_fact. intros _.
  eapply does_bind; [apply does_guard|intros ?; cbn beta]. apply does_fact. intros Hsame.
  eapply does_bind; [eapply does_weaken; [| |apply does_assert]; [done|intros ? ? H; exact H]|intros raw; cbn beta].
  apply does_ret. intros log (_ & Hv & Hp). split; [by apply vetted_pad|]. intros Hs p' Hp'. rewrite Hs in Hsame. cbn in Hsame.
  rewrite !negb_involutive in Hsame. destruct (same_site _ _ Hsame) as (p & q & E1 & E2 & E3). rewrite E2 in Hp'. injection Hp' as <-. rewrite <- E3. by apply Hu.
Qed.

Lemma does_follow hops : forall u, vetted u -> at_home u -> does always (fun r _ => is_redirect r = false /\ bounded r) (follow hops o u).
Proof.
  induction hops as [|hops IH]; intros u Hv Hh; cbn [follow]; [apply does_raise|].
  eapply does_bind; [by apply does_connect|intros c; cbn beta]. eapply does_bind; [apply does_send|intros r; cbn beta].
  destruct (is_redirect r) eqn:E; [|by apply does_ret].
  eapply does_bind; [eapply does_weaken; [| |by apply does_next]; [done|intros ? ? H; exact H]|intros nxt; cbn beta].
  intros s H1 [H2 H3]. by apply IH.
Qed.
End Hops.

Section Count.
Context {net : Network}.

(** At most [n] connections are made. *)
Definition dials_within {A} (n : nat) (m : Net A) : Prop := forall s, (dials (s_db (m s).2) <= dials (s_db s) + n)%nat.

Lemma within_bind {A B} n k (m : Net A) (f : A -> Net B) : dials_within n m -> (forall a, dials_within k (f a)) -> dials_within (n + k) (bind m f).
Proof.
  intros Hm Hf s. specialize (Hm s). unfold bind. destruct (m s) as [[a|e] s']; cbn in *; [specialize (Hf a s')|]; lia.
Qed.

Lemma within_none {A} (m : Net A) : preserves (db_view dials) m -> dials_within 0 m.
Proof. intros Hm s. specialize (Hm s). unfold db_view in Hm. lia. Qed.

Lemma dials_ask host : preserves (db_view dials) (modify (cons (Asked host)) : Net unit).
Proof. by intros s. Qed.
#[local] Hint Resolve dials_ask : frame.

Lemma dials_resolve host : preserves (db_view dials) (resolve_public_ips host).
Proof. unfold resolve_public_ips. frame. Qed.
#[local] Hint Resolve dials_resolve : frame.

Lemma dials_literal host : preserves (db_view dials) (literal_or_resolved host).
Proof. unfold literal_or_resolved. frame. Qed.
#[local] Hint Resolve dials_literal : frame.

Lemma dials_assert o u : preserves (db_view dials) (assert_safe_outbound_url o u).
Proof. unfold assert_safe_outbound_url. frame. Qed.
#[local] Hint Resolve dials_assert : frame.

Lemma dials_connect u : preserves (db_view dials) (connect_to u).
Proof. unfold connect_to, _pick_pinned_ip. frame. Qed.

Lemma within_follow hops o : forall u, dials_within hops (follow hops o u).
Proof.
  induction hops as [|hops IH]; intros u; cbn [follow]; [apply within_none; frame|].
  change (S hops) with (0 + (1 + hops))%nat. apply within_bind; [apply within_none, dials_connect|intros c].
  apply within_bind.
  - intros s. unfold send_get, bind, guard_exn, gets, modify, dials. destruct (printable _ && _); cbn; [|lia].
    destruct (serve _ _); cbn; [lia|]. unfold lift_res. destruct (read_body _ _ _ _); cbn; lia.
  - intros r. destruct (is_redirect r); [|intros s; cbn; lia]. change hops with (0 + hops)%nat. apply within_bind; [|done].
    apply within_none. unfold next_url. frame.
Qed.
End Count.

(** C30. No fetch reaches inside.  Whatever URL a user names, whatever the resolver answers
    from one question to the next and wherever servers redirect: every connection a fetch
    makes goes to an address that is not internal, over TLS unless plain HTTP was allowed,
    to a host of the allowlist when there is one and to the first host when redirects must
    stay there; the address is the literal one or one the resolver gave for that host last
    before the connection.  There are at most [max_redirects + 1] connections, and an
    answer is no redirect and within the size limit. *)
Theorem only_public_dialled {net : Network} o url :
  let r := fetch (ssrf_safe_get o url) in
  let home := match urlparse (strip url) EmptyString with Ok p => site (default EmptyString (hostname p)) | Raise _ => EmptyString end in
  (forall newer c older, r.2 = newer ++ Dialled c :: older -> checked o home c /\ pinned c older) /\
  Z.of_nat (dials r.2) <= Z.max 1 (max_redirects o + 1) /\
  forall answer, r.1 = Ok answer -> is_redirect answer = false /\ bounded o answer.
Proof.
  intros r home. set (s0 := open_session (fun _ => 0) (fun _ => EmptyString) [] : session (list net_event) unit).
  assert (Hd : does o home (fun _ => True) (fun a _ => is_redirect a = false /\ bounded o a) (ssrf_safe_get o url)).
  { unfold ssrf_safe_get. eapply does_bind; [apply does_assert|intros raw; cbn beta]. intros s H1 (-> & H2 & _).
    apply does_follow; [done| |done|done]. intros _ p Hp. unfold home. by rewrite Hp. }
  assert (Hn : dials_within (Z.to_nat (Z.max 1 (max_redirects o + 1))) (ssrf_safe_get o url)).
  { unfold ssrf_safe_get. change (Z.to_nat ?n) with (0 + Z.to_nat n)%nat. apply within_bind; [apply within_none, dials_assert|intros u; apply within_follow]. }
  destruct (Hd s0 I I) as [H1 H2]. specialize (Hn s0). change (dials (s_db s0)) with 0%nat in Hn. unfold r, fetch. fold s0.
  destruct (ssrf_safe_get o url s0) as [x s]. cbn [fst snd] in *. split; [|split; [lia|done]].
  revert H1. generalize (s_db s). clear. intros log Hlog newer. revert log Hlog. induction newer as [|e newer IH]; intros log Hlog c older ->.
  - by destruct Hlog as (? & ? & _).
  - apply (IH (newer ++ Dialled c :: older)); [|done]. destruct e; [exact Hlog|by destruct Hlog as (_ & _ & ?)].
Qed.

(** ** Runs *)

(** A resolver and servers that always answer the same. *)
Definition steady (answers : string -> option (list string)) (site_of : connection -> reply) : Network :=
  {| getaddrinfo := fun _ => answers; serve := fun _ => site_of |}.

Definition defaults : fetch_options := FetchOptions None false 5 None false.

Definition hello : connection -> reply := fun _ => Reply 200 [] ["hello"]%string.

(** A redirect to another host, then to an internal address: two hops, no third. *)
Example only_public_dialled_run :
  let net := steady (fun h => if bool_decide (h = "a.in"%string) then Some ["93.184.216.34"%string] else Some ["1.1.1.1"; "10.0.0.5"]%string)
               (fun c => Reply 302 [("Location", "https://b.in/x")]%string []) in
  let r := fetch (ssrf_safe_get defaults " https://www.A.in:8443/p;v=1?q ") in
  let r' := fetch (ssrf_safe_get defaults "https://a.in/p") in
  r.1 = Raise blocked_address /\ r'.1 = Raise blocked_address /\
  List.filter (fun e => match e with Dialled _ => true | Asked _ => false end) r'.2 = [Dialled (Connection true "a.in" (V4 1572395042) 443 "/p")].
Proof. vm_compute. repeat split; reflexivity. Qed.

(** A resolver that answers a public address to the check and an internal one afterwards
    is not followed. *)
Example rebinding_stopped :
  let net := {| getaddrinfo := fun log _ => Some (match log with [] => ["93.184.216.34"] | _ => ["169.254.169.254"] end)%string; serve := fun _ => hello |} in
  fetch (ssrf_safe_get defaults "https://a.in/") = (Raise blocked_address, [Asked "a.in"; Asked "a.in"]%string).
Proof. vm_compute. reflexivity. Qed.

(** *** Where the module departs from what it means *)

(** The check of a literal address recognises its own error by the word "blocked"; the
    error for a name quotes the name. *)
Lemma blocked_in_name {net : Network} s :
  literal_or_resolved "unblocked.in" s = (Raise (ValueError "'unblocked.in' does not appear to be an IPv4 or IPv6 address"), s).
Proof. vm_compute. reflexivity. Qed.

(** The shared address space of providers, where one of them keeps its metadata service,
    counts as public. *)
Lemma shared_space_dialled :
  let net := steady (fun _ => None) hello in
  let r := fetch (ssrf_safe_get defaults "https://100.100.100.200/latest/meta-data/") in
  is_ok r.1 = true /\ dials r.2 = 1%nat.
Proof. vm_compute. by split. Qed.

(** The parameters of a path are not sent. *)
Lemma params_dropped :
  let net := steady (fun _ => Some ["1.1.1.1"%string]) hello in
  head (fetch (ssrf_safe_get defaults "https://a.in/x;v=1?y")).2 = Some (Dialled (Connection true "a.in" (V4 16843009) 443 "/x?y")).
Proof. vm_compute. reflexivity. Qed.
