(* ===== verification/Secrets.v ===== *)
(** * Encrypted texts

    app/service/security/auth_code_encryption_service.py.  The Fernet cipher is
    third-party code: a [Cipher] is any pair of functions of which decryption
    undoes encryption, no token is empty, and a token that cannot be read is
    reported as decrypt_secret does. *)

From S2P Require Import Prelude.

Class Cipher := {
  encrypt_secret : string -> string;
  decrypt_secret : string -> res string;
  decrypt_encrypt : forall s, decrypt_secret (encrypt_secret s) = Ok s;
  encrypt_nonempty : forall s, encrypt_secret s <> EmptyString;
  decrypt_error : forall s e, decrypt_secret s = Raise e -> e = ValueError "Could not decrypt secret.";
}.
