(* ===== verification/ExchangeRates.v ===== *)
(** * Exchange rates

    app/service/currency/exchange_rate_service.py.  The three providers are asked
    over HTTP: an answer is the decoded body, or nothing when the request, its
    status or the decoding failed.  The cache of the process is explicit. *)

From Stdlib Require Import SpecFloat.
From S2P Require Import Prelude Text Numerals PyNum PyJson.

Definition SUPPORTED_CURRENCIES : list string :=
  ["AED"; "ALL"; "AMD"; "AUD"; "AWG"; "AZN"; "BAM"; "BBD"; "BDT"; "BGN"; "BHD"; "BIF"; "BMD"; "BND"; "BOB"; "BRL";
   "BSD"; "BTN"; "BWP"; "BZD"; "CAD"; "CHF"; "CLP"; "CNY"; "COP"; "CRC"; "CUP"; "CVE"; "CZK"; "DJF"; "DKK"; "DOP";
   "DZD"; "EGP"; "ETB"; "EUR"; "FJD"; "GBP"; "GHS"; "GIP"; "GMD"; "GNF"; "GTQ"; "GYD"; "HKD"; "HNL"; "HRK"; "HTG";
   "HUF"; "IDR"; "ILS"; "INR"; "IQD"; "ISK"; "JMD"; "JOD"; "JPY"; "KES"; "KGS"; "KHR"; "KMF"; "KRW"; "KWD"; "KYD";
   "KZT"; "LAK"; "LKR"; "LRD"; "LSL"; "MAD"; "MDL"; "MGA"; "MKD"; "MMK"; "MNT"; "MOP"; "MUR"; "MVR"; "MWK"; "MXN";
   "MYR"; "MZN"; "NAD"; "NGN"; "NIO"; "NOK"; "NPR"; "NZD"; "OMR"; "PEN"; "PGK"; "PHP"; "PKR"; "PLN"; "PYG"; "QAR";
   "RON"; "RSD"; "RUB"; "RWF"; "SAR"; "SCR"; "SEK"; "SGD"; "SLL"; "SOS"; "SVC"; "SZL"; "THB"; "TND"; "TRY"; "TTD";
   "TWD"; "TZS"; "UAH"; "UGX"; "USD"; "UYU"; "UZS"; "VND"; "VUV"; "XAF"; "XCD"; "XOF"; "XPF"; "YER"; "ZAR"; "ZMW"]%string.

Definition _CACHE_TTL_SECONDS : Z := 1800.

(** Rates by currency, as dictionaries whose order nothing depends on. *)
Abbreviation rates_map := (gmap string py_float).

Definition rate_literal (coefficient exponent : Z) : py_float := fl_of_dec (Dec coefficient exponent).
Definition fl_one : py_float := fl_of_Z 1.

Definition _FALLBACK_RATES_FROM_INR : rates_map := list_to_map
  [("INR", fl_one); ("USD", rate_literal 105 (-4)); ("EUR", rate_literal 11 (-3)); ("GBP", rate_literal 11 (-3));
   ("AED", rate_literal 44 (-3)); ("SAR", rate_literal 44 (-3)); ("QAR", rate_literal 44 (-3)); ("SGD", rate_literal 12 (-3));
   ("AUD", rate_literal 12 (-3)); ("CAD", rate_literal 12 (-3)); ("CHF", rate_literal 12 (-3))]%string.

Definition _fallback_rates_from_inr : rates_map :=
  _FALLBACK_RATES_FROM_INR ∪ list_to_map (map (fun c => (c, fl_one)) SUPPORTED_CURRENCIES).

(** ** Reading the answers *)

(** The supported currencies without the base. *)
Definition foreign_currencies : list string := List.filter (fun c => negb (bool_decide (c = "INR"%string))) SUPPORTED_CURRENCIES.

(** The rate of one currency in an answer, when it has a usable one. *)
Definition quoted (raw : dict) (code : string) : res (option py_float) :=
  match dlookup code raw with
  | None => Ok None
  | Some v =>
      match py_float_of v with
      | Ok x => Ok (if fl_leb x fl_zero then None else Some x)
      | Raise e => if type_or_value_error e then Ok None else Raise e
      end
  end.

Fixpoint take_rates (raw : dict) (codes : list string) (rates : rates_map) : res rates_map :=
  match codes with
  | [] => Ok rates
  | code :: codes' =>
      try! q <- quoted raw code;
      take_rates raw codes' (match q with Some x => <[code := x]> rates | None => rates end)
  end.

Definition inr_only : rates_map := {["INR"%string := fl_one]}.

(** A list or a text has no rate under any code; of other values [in] raises. *)
Definition _normalize_snapshot (raw : json) : res rates_map :=
  match raw with
  | JObj d => take_rates d foreign_currencies inr_only
  | JArr _ | JStr _ => Ok inr_only
  | _ => Raise (OtherError "TypeError")
  end.

(** [payload.get(k)] *)
Definition field (k : string) (payload : json) : res json :=
  match payload with JObj d => Ok (dget k d) | _ => Raise (OtherError "AttributeError") end.

(** A request that failed, in any way the caller catches. *)
Definition answered (answer : option json) : res json :=
  match answer with Some j => Ok j | None => Raise (OtherError "HTTPError") end.

Definition _fetch_open_er_api (answer : option json) : res (rates_map * option Z) :=
  try! payload <- answered answer;
  try! raw <- field "rates" payload;
  try! rates <- _normalize_snapshot (py_or raw (JObj []));
  try! source <- field "time_last_update_unix" payload;
  match source with
  | JNull => Ok (rates, None)
  | v => try! n <- py_int v; Ok (rates, Some n)
  end.

Definition _fetch_exchange_rate_api_v4 (answer : option json) : res rates_map :=
  try! payload <- answered answer;
  try! raw <- field "rates" payload;
  _normalize_snapshot (py_or raw (JObj [])).

(** [{"usd": {"rate": ...}, ...}] as [{"USD": ...}] *)
Fixpoint floatrates_raw (payload : json) (codes : list string) : res dict :=
  match codes with
  | [] => Ok []
  | code :: codes' =>
      try! entry <- field (lower code) payload;
      try! mine <- (if truth entry then
                      try! rate <- field "rate" entry;
                      match rate with JNull => Ok [] | v => try! x <- py_float_of v; Ok [(code, JFloat x)] end
                    else Ok []);
      try! rest <- floatrates_raw payload codes';
      Ok (mine ++ rest)
  end.

Definition _fetch_floatrates (answer : option json) : res rates_map :=
  try! payload <- answered answer;
  try! raw <- floatrates_raw payload foreign_currencies;
  _normalize_snapshot (JObj raw).

(** ** Merging *)

(** [min(candidates)]: the first of the smallest. *)
Definition fl_min (a b : py_float) : py_float := if fl_ltb b a then b else a.

(** The positive quotes for a currency, in the order of the providers. *)
Definition candidates (snapshots : list rates_map) (code : string) : list py_float :=
  omap (fun s => match s !! code with Some x => if fl_ltb fl_zero x then Some x else None | None => None end) snapshots.

Definition merged_rate (snapshots : list rates_map) (code : string) : py_float :=
  match candidates snapshots code with
  | [] => fl_one
  | x :: xs => foldl fl_min x xs
  end.

Definition _merge_consumer_rates (snapshots : list rates_map) : rates_map :=
  foldl (fun m code => <[code := merged_rate snapshots code]> m) inr_only foreign_currencies.

Record live_rates := LiveRates { lr_rates : rates_map; lr_source_unix : option Z; lr_providers : list string }.

(** What the providers answer to one round of requests. *)
Record fx_answers := FxAnswers { fx_open_er_api : option json; fx_exchange_rate_api : option json; fx_floatrates : option json }.

Definition ok_list {A B} (r : res A) (f : A -> B) : list B := match r with Ok a => [f a] | Raise _ => [] end.

Definition _fetch_live_rates (a : fx_answers) : res live_rates :=
  let open_er := _fetch_open_er_api (fx_open_er_api a) in
  let v4 := _fetch_exchange_rate_api_v4 (fx_exchange_rate_api a) in
  let floatrates := _fetch_floatrates (fx_floatrates a) in
  let snapshots := ok_list open_er fst ++ ok_list v4 id ++ ok_list floatrates id in
  let providers := ok_list open_er (fun _ => "open.er-api") ++ ok_list v4 (fun _ => "exchangerate-api")
    ++ ok_list floatrates (fun _ => "floatrates") in
  match snapshots with
  | [] => Raise (RuntimeError "All exchange rate providers failed")
  | _ => Ok (LiveRates (_merge_consumer_rates snapshots) (match open_er with Ok p => p.2 | Raise _ => None end) providers%string)
  end.

(** ** The cache *)

(** The module's globals; [_cache_rates] is [None] until a fetch succeeds.  The
    clock is in microseconds. *)
Record fx_cache := FxCache { _cache_rates : option live_rates; _cache_updated_at : Z }.

Record fx_snapshot := FxSnapshot {
  sn_rates : rates_map; sn_updated_at : option Z; sn_source : option Z; sn_cached : bool; sn_stale : bool; sn_fallback : bool;
  sn_providers : list string }.

Definition snapshot_of (l : live_rates) (updated_at : Z) (cached stale : bool) : fx_snapshot :=
  FxSnapshot (lr_rates l) (Some (updated_at / seconds 1)) (lr_source_unix l) cached stale false (lr_providers l).

Definition fresh (now : Z) (cache : fx_cache) : bool := now - _cache_updated_at cache <? seconds _CACHE_TTL_SECONDS.

Definition get_exchange_rates (force_refresh : bool) (now : Z) (a : fx_answers) (cache : fx_cache) : fx_snapshot * fx_cache :=
  let ask :=
    match _fetch_live_rates a, _cache_rates cache with
    | Ok live, _ => (snapshot_of live now false false, FxCache (Some live) now)
    | Raise _, Some l => (snapshot_of l (_cache_updated_at cache) true true, cache)
    | Raise _, None =>
        (FxSnapshot _fallback_rates_from_inr None None false true true ["static-fallback"%string], cache)
    end in
  match _cache_rates cache with
  | Some l => if negb force_refresh && fresh now cache
              then (snapshot_of l (_cache_updated_at cache) true false, cache) else ask
  | None => ask
  end.

(** ** Conversion *)

Definition supported (code : string) : bool := bool_decide (code ∈ SUPPORTED_CURRENCIES).

(** [snapshot["rates"][code]] *)
Definition rate_in (rates : rates_map) (code : string) : res py_float :=
  match rates !! code with Some r => Ok r | None => Raise (OtherError "KeyError") end.

(** The amount in rupees. *)
Definition convert_foreign_to_inr (rates : rates_map) (amount : py_float) (from_currency : string) : res Z :=
  let code := upper from_currency in
  if negb (supported code) then Raise (ValueError ("Unsupported currency: " +:+ from_currency))
  else if bool_decide (code = "INR"%string) then py_round_int amount
  else
    try! rate <- rate_in rates code;
    if fl_leb rate fl_zero then Raise (ValueError ("Invalid rate for " +:+ code))
    else py_round_int (fl_div amount rate).

Definition convert_inr (rates : rates_map) (amount : py_float) (target : string) : res py_float :=
  let code := upper target in
  if negb (supported code) then Raise (ValueError ("Unsupported currency: " +:+ target))
  else if bool_decide (code = "INR"%string) then Ok (py_round2 amount)
  else try! rate <- rate_in rates code; Ok (py_round2 (fl_mul amount rate)).

Definition rate_from_inr (rates : rates_map) (code : string) : py_float :=
  default (if bool_decide (code = "INR"%string) then fl_one else fl_zero) (rates !! code).

(** The rates of [rates_to_display_meta]; its currency symbols are constants. *)
Definition rates_to_display_meta (rates : rates_map) : list (string * py_float) :=
  map (fun code => (code, rate_from_inr rates code)) SUPPORTED_CURRENCIES.

(** ** Positive floats are ordered *)

Definition positive (x : py_float) : bool := fl_ltb fl_zero x.

Lemma positive_shape x : positive x = true -> x = S754_infinity false \/ exists m e, x = S754_finite false m e.
Proof. destruct x as [[]|[]| |[] m e]; try done; [by left|right; by exists m, e]. Qed.

(** Not greater. *)
Definition fl_le (x y : py_float) : Prop := fl_ltb y x = false.

Lemma fl_le_finite m e n f : fl_le (S754_finite false m e) (S754_finite false n f) <-> e < f \/ (e = f /\ (m <= n)%positive).
Proof.
  unfold fl_le, fl_ltb, SFltb, SFcompare.
  destruct (Z.compare_spec f e) as [->|H|H]; [|split; (lia || done)|split; (lia || done)].
  change (Pos.compare_cont Eq n m) with (Pos.compare n m).
  destruct (Pos.compare_spec n m); split; (lia || done).
Qed.

Lemma fl_le_infinity x : positive x = true -> fl_le x (S754_infinity false).
Proof. by intros [->|(m & e & ->)]%positive_shape. Qed.

Lemma fl_le_refl x : positive x = true -> fl_le x x.
Proof. intros [->|(m & e & ->)]%positive_shape; [done|]. apply fl_le_finite. lia. Qed.

Lemma fl_le_trans x y z : positive x = true -> positive y = true -> positive z = true -> fl_le x y -> fl_le y z -> fl_le x z.
Proof.
  intros Hx [->|(m & e & ->)]%positive_shape [->|(n & f & ->)]%positive_shape H1 H2; try (by apply fl_le_infinity); [done|].
  apply positive_shape in Hx as [->|(k & g & ->)]; [done|]. rewrite fl_le_finite in *. lia.
Qed.

Lemma fl_min_spec a b : positive a = true -> positive b = true ->
  positive (fl_min a b) = true /\ fl_le (fl_min a b) a /\ fl_le (fl_min a b) b /\ (fl_min a b = a \/ fl_min a b = b).
Proof.
  intros Ha Hb. unfold fl_min. destruct (fl_ltb b a) eqn:E; split_and!; auto using fl_le_refl.
  apply positive_shape in Ha as [->|(m & e & ->)], Hb as [->|(n & f & ->)]; try done. apply fl_le_finite.
  assert (~ fl_le (S754_finite false m e) (S754_finite false n f)) as H by (unfold fl_le; by rewrite E).
  rewrite fl_le_finite in H. lia.
Qed.

Lemma foldl_min_spec xs : forall x, positive x = true -> Forall (fun y => positive y = true) xs ->
  let m := foldl fl_min x xs in positive m = true /\ m ∈ x :: xs /\ Forall (fl_le m) (x :: xs).
Proof.
  induction xs as [|y xs IH]; intros x Hx Hxs; cbn [foldl].
  - split_and!; [done|by left|]. repeat constructor. by apply fl_le_refl.
  - apply Forall_cons in Hxs as [Hy Hxs]. destruct (fl_min_spec x y Hx Hy) as (Hp & Hlx & Hly & Hor).
    destruct (IH _ Hp Hxs) as (H1 & H2 & H3). cbv zeta in *. apply Forall_cons in H3 as [H3 H4].
    split_and!; [done| |].
    + apply elem_of_cons in H2 as [H2|H2]; [|set_solver]. rewrite H2. destruct Hor as [-> | ->]; set_solver.
    + constructor; [by eapply fl_le_trans; [..|exact Hlx]|]. constructor; [by eapply fl_le_trans; [..|exact Hly]|done].
Qed.

Lemma candidates_positive snapshots code : Forall (fun y => positive y = true) (candidates snapshots code).
Proof.
  apply Forall_forall. intros y (s & _ & H)%list_elem_of_omap. destruct (s !! code) as [x|]; [|done].
  destruct (fl_ltb fl_zero x) eqn:E; [|done]. by injection H as <-.
Qed.

Lemma merged_rate_positive snapshots code : positive (merged_rate snapshots code) = true.
Proof.
  unfold merged_rate. pose proof (candidates_positive snapshots code) as H. destruct (candidates snapshots code) as [|x xs]; [done|].
  apply Forall_cons in H as [Hx H]. by apply foldl_min_spec.
Qed.

Lemma foldl_insert_lookup (f : string -> py_float) codes : forall (m : rates_map) code,
  foldl (fun m c => <[c := f c]> m) m codes !! code = if bool_decide (code ∈ codes) then Some (f code) else m !! code.
Proof.
  induction codes as [|c codes IH]; intros m code; cbn [foldl]; [done|]. rewrite IH.
  destruct (decide (code = c)) as [->|Hne].
  - rewrite (bool_decide_eq_true_2 (c ∈ c :: codes)) by set_solver. case_bool_decide; [done|]. by rewrite lookup_insert_eq.
  - rewrite lookup_insert_ne by done.
    assert (bool_decide (code ∈ c :: codes) = bool_decide (code ∈ codes)) as -> by (apply bool_decide_ext; set_solver). done.
Qed.

(** A rate above zero for every supported currency. *)
Definition priced (rates : rates_map) : Prop := forall code, supported code = true -> exists x, rates !! code = Some x /\ positive x = true.

Lemma foreign_currency code : supported code = true -> code <> "INR"%string -> code ∈ foreign_currencies.
Proof.
  intros H%bool_decide_eq_true Hne. apply list_elem_of_In, filter_In. rewrite <-list_elem_of_In. by rewrite bool_decide_eq_false_2.
Qed.

Lemma merged_priced snapshots : priced (_merge_consumer_rates snapshots).
Proof.
  intros code Hc. unfold _merge_consumer_rates. rewrite foldl_insert_lookup. case_bool_decide as H.
  - eexists. split; [done|]. apply merged_rate_positive.
  - destruct (decide (code = "INR"%string)) as [->|Hne]; [by exists fl_one|]. by destruct H; apply foreign_currency.
Qed.

Lemma fallback_priced : priced _fallback_rates_from_inr.
Proof.
  intros code Hc%bool_decide_eq_true. revert code Hc. apply Forall_forall.
  assert (forallb (fun c => match _fallback_rates_from_inr !! c with Some x => positive x | None => false end) SUPPORTED_CURRENCIES = true)
    as H by (vm_compute; reflexivity).
  apply Forall_forall. intros c Hc. rewrite forallb_forall in H. apply list_elem_of_In, H in Hc.
  destruct (_ !! c) as [x|]; [by exists x|done].
Qed.

(** ** What callers may rely on *)

(** One call: whether a refresh is forced, the clock, what the providers would answer. *)
Abbreviation fx_call := (bool * Z * fx_answers)%type.

(** The snapshots of a sequence of calls of one process. *)
Fixpoint serve (calls : list fx_call) (cache : fx_cache) : list fx_snapshot :=
  match calls with
  | [] => []
  | (force, now, a) :: calls' =>
      let '(s, cache') := get_exchange_rates force now a cache in s :: serve calls' cache'
  end.

Definition cache_priced (cache : fx_cache) : Prop := forall l, _cache_rates cache = Some l -> priced (lr_rates l).

Lemma fetched_priced a l : _fetch_live_rates a = Ok l -> priced (lr_rates l).
Proof.
  unfold _fetch_live_rates. destruct (_ ++ _) as [|s l']; [done|]. intros [= <-]. apply merged_priced.
Qed.

Lemma snapshot_priced force now a cache : cache_priced cache ->
  let '(s, cache') := get_exchange_rates force now a cache in priced (sn_rates s) /\ cache_priced cache'.
Proof.
  intros Hc. unfold get_exchange_rates.
  destruct (_cache_rates cache) as [l|] eqn:E; [destruct (negb force && fresh now cache); [split; [by apply Hc|exact Hc]|]|];
    (destruct (_fetch_live_rates a) as [live|] eqn:Ha; cbn -[_fallback_rates_from_inr];
      [pose proof (fetched_priced _ _ Ha); split; [done|]; by intros ? [= <-]|]);
    (split; [first [by apply fallback_priced|by apply Hc]|exact Hc]).
Qed.

(** C20. Whatever the providers answer, in whatever order requests and refreshes come:
    every snapshot the process serves has a rate above zero for every supported
    currency, so that an amount of rupees can be shown in each of them. *)
Theorem every_snapshot_priced calls (s : fx_snapshot) :
  s ∈ serve calls (FxCache None 0) ->
  priced (sn_rates s) /\ forall amount code, supported (upper code) = true -> is_ok (convert_inr (sn_rates s) amount code) = true.
Proof.
  intros Hs. assert (H : priced (sn_rates s)).
  { assert (Hc : cache_priced (FxCache None 0)) by (by intros ? [=]). revert Hs Hc. generalize (FxCache None 0).
    induction calls as [|[[force now] a] calls IH]; intros cache Hs Hc; cbn [serve] in Hs; [set_solver|].
    pose proof (snapshot_priced force now a cache Hc) as H. destruct (get_exchange_rates _ _ _ _) as [s0 cache'].
    destruct H as [Hp Hc']. apply elem_of_cons in Hs as [->|Hs]; [done|]. by apply (IH cache'). }
  split; [done|]. intros amount code Hcode. unfold convert_inr. rewrite Hcode. cbn [negb].
  case_bool_decide; [done|]. unfold rate_in. by destruct (H _ Hcode) as (x & -> & _).
Qed.

Definition quotes (code : string) (x : py_float) : json := JObj [("rates", JObj [(code, JFloat x)])]%string.

(** Only one provider answers, with one rate. *)
Definition one_quote : fx_answers := FxAnswers (Some (quotes "USD" (rate_literal 12 (-3)))) None (Some (JStr "busy")).

Lemma every_snapshot_priced_witness :
  exists s, s ∈ serve [(false, seconds 10, one_quote)] (FxCache None 0) /\ priced (sn_rates s) /\ sn_providers s = ["open.er-api"%string] /\
    sn_rates s !! "USD"%string = Some (rate_literal 12 (-3)).
Proof.
  eexists. split; [by left|]. split; [eapply (proj1 (every_snapshot_priced [(false, seconds 10, one_quote)] _ _))|vm_compute; split; reflexivity].
  Unshelve. by left.
Defined.

(** The rate taken for a currency is the lowest one a provider quotes, among those
    above zero. *)
Theorem cheapest_quote_taken a l code (x : py_float) : _fetch_live_rates a = Ok l -> supported code = true -> code <> "INR"%string ->
  let snapshots := ok_list (_fetch_open_er_api (fx_open_er_api a)) fst
    ++ ok_list (_fetch_exchange_rate_api_v4 (fx_exchange_rate_api a)) id ++ ok_list (_fetch_floatrates (fx_floatrates a)) id in
  (exists s, s ∈ snapshots /\ s !! code = Some x /\ positive x = true) ->
  exists r, lr_rates l !! code = Some r /\ fl_le r x /\ exists s, s ∈ snapshots /\ s !! code = Some r.
Proof.
  intros Hl Hc Hne snapshots (s & Hs & Hx & Hp). unfold _fetch_live_rates in Hl. fold snapshots in Hl.
  destruct snapshots as [|s0 rest] eqn:E; [set_solver|]. rewrite <-E in *. injection Hl as <-. cbn [lr_rates].
  exists (merged_rate snapshots code). unfold _merge_consumer_rates. rewrite foldl_insert_lookup.
  rewrite bool_decide_eq_true_2 by by apply foreign_currency. split; [done|].
  assert (Hin : x ∈ candidates snapshots code).
  { apply list_elem_of_omap. exists s. split; [done|]. rewrite Hx. unfold positive in Hp. by rewrite Hp. }
  unfold merged_rate. pose proof (candidates_positive snapshots code) as Hpos.
  destruct (candidates snapshots code) as [|y ys] eqn:Ec; [set_solver|]. apply Forall_cons in Hpos as [Hy Hys].
  destruct (foldl_min_spec ys y Hy Hys) as (_ & Hm & Hle). split; [by eapply (proj1 (Forall_forall _ _) Hle)|].
  rewrite <-Ec in Hm. apply list_elem_of_omap in Hm as (s' & Hs' & Hm). exists s'. split; [done|].
  destruct (s' !! code) as [z|]; [|done]. destruct (fl_ltb fl_zero z); [|done]. by injection Hm as ->.
Qed.

(** Two quotes for the dollar: the lower one counts. *)
Definition two_quotes : fx_answers :=
  FxAnswers (Some (quotes "USD" (rate_literal 12 (-3)))) (Some (quotes "USD" (rate_literal 11 (-3)))) None.

Definition two_quotes_live : live_rates :=
  match _fetch_live_rates two_quotes with Ok l => l | Raise _ => LiveRates ∅ None [] end.

Lemma cheapest_quote_taken_witness :
  exists r, lr_rates two_quotes_live !! "USD"%string = Some r /\ fl_le r (rate_literal 12 (-3)) /\ r = rate_literal 11 (-3).
Proof.
  destruct (cheapest_quote_taken two_quotes two_quotes_live "USD" (rate_literal 12 (-3))) as (r & H1 & H2 & _).
  - vm_compute. reflexivity.
  - vm_compute. reflexivity.
  - discriminate.
  - exists (match _fetch_open_er_api (fx_open_er_api two_quotes) with Ok p => p.1 | Raise _ => ∅ end).
    split; [apply list_elem_of_In; vm_compute; by left|]. split; vm_compute; reflexivity.
  - exists r. split; [done|]. split; [done|]. vm_compute in H1. injection H1 as <-. vm_compute. reflexivity.
Defined.

(** A currency no provider quotes is converted one to one. *)
Lemma missing_currency_at_par :
  exists l, _fetch_live_rates one_quote = Ok l /\ convert_inr (lr_rates l) (fl_of_Z 1000) "JPY" = Ok (fl_of_Z 1000) /\
    convert_foreign_to_inr (lr_rates l) (fl_of_Z 29) "EUR" = Ok 29.
Proof. eexists. split; [vm_compute; reflexivity|]. vm_compute. split; reflexivity. Qed.
