(* ===== verification/BidLimits.v ===== *)
(** * Bid limits and anti-sniping

    app/utils/auction_bid_limits.py and app/utils/auction_place_bid_common.py:
    the rules every auction type shares.  Amounts are [PyNum.decimal]s, so the
    28-digit context and its [InvalidOperation] are part of the model. *)

From S2P Require Import Prelude PyNum.

(** ** auction_bid_limits.py *)

(** [Number = Union[Decimal, float, int, str, None]]; no caller passes a [str]. *)
Inductive number :=
| NNone
| NDec (d : decimal)
| NFloat (x : py_float)
| NInt (z : Z).

Definition MAX_BID_ACTIVE_RATIO : decimal := Dec 15 (-1).
Definition MIN_BID_UNIT_INCREMENT : decimal := Dec 1 0.

(** [value.quantize(MONEY_QUANT, rounding=ROUND_HALF_UP)] *)
Definition quantize_money (d : decimal) : res decimal := quantize_half_up d (-2).

Definition as_decimal (value : number) : res decimal :=
  match value with
  | NNone => Ok (Dec 0 0)
  | NDec d => Ok d
  | NFloat x => dec_of_repr x
  | NInt z => Ok (Dec z 0)
  end.

Definition active_bid_reference (current_highest min_bid_price : number) : res decimal :=
  try! current <- as_decimal current_highest;
  if dec_ltb (Dec 0 0) current then quantize_money current
  else
    try! minimum <- as_decimal min_bid_price;
    quantize_money minimum.

Definition min_required_bid (current_highest min_bid_price : number) : res decimal :=
  try! reference <- active_bid_reference current_highest min_bid_price;
  quantize_money (dec_add reference MIN_BID_UNIT_INCREMENT).

Definition max_allowed_bid (current_highest min_bid_price : number) : res decimal :=
  try! reference <- active_bid_reference current_highest min_bid_price;
  if dec_leb reference (Dec 0 0) then Ok (Dec 0 0)
  else quantize_money (dec_mul reference MAX_BID_ACTIVE_RATIO).

(** The JSON object {activeBidReference, minNextBid, maxBidPrice}. *)
Definition bid_limit_fields (current_highest min_bid_price : number)
    : res (py_float * py_float * py_float) :=
  try! reference <- active_bid_reference current_highest min_bid_price;
  try! min_next <- min_required_bid current_highest min_bid_price;
  try! max_bid <- max_allowed_bid current_highest min_bid_price;
  Ok (fl_of_dec reference, fl_of_dec min_next, fl_of_dec max_bid).

Definition bid_amount_in_range (amount current_highest min_bid_price : number)
    : res (bool * decimal * decimal * decimal) :=
  try! raw <- as_decimal amount;
  try! normalized <- quantize_money raw;
  try! min_req <- min_required_bid current_highest min_bid_price;
  try! max_allowed <- max_allowed_bid current_highest min_bid_price;
  if dec_leb max_allowed (Dec 0 0) then Ok (false, min_req, max_allowed, normalized)
  else
    Ok (dec_leb min_req normalized && dec_leb normalized max_allowed,
        min_req, max_allowed, normalized).

(** [f"{d:,.2f}"] of a decimal with two decimal places. *)
Fixpoint group_thousands (s : string) : string :=
  match s with
  | EmptyString => EmptyString
  | String c s' =>
      if (0 <? String.length s')%nat && (String.length s' mod 3 =? 0)%nat
      then String c (String.append "," (group_thousands s'))
      else String c (group_thousands s')
  end.

Definition format_comma_2f (d : decimal) : string :=
  let c := Z.abs (coef d) in
  let frac := pretty (c mod 100) in
  ((if (coef d <? 0)%Z then "-" else "") +:+ group_thousands (pretty (c / 100)) +:+ "."
   +:+ (if (c mod 100 <? 10)%Z then "0" +:+ frac else frac))%string.

Definition format_bid_range_error (normalized min_required max_allowed : decimal)
    : option string :=
  if dec_leb max_allowed (Dec 0 0) then Some "Auction starting price is not configured."%string
  else if dec_ltb normalized min_required then
    Some ("Bid must be at least ₹" +:+ format_comma_2f min_required +:+ ".")%string
  else if dec_ltb max_allowed normalized then
    Some ("Bid cannot exceed ₹" +:+ format_comma_2f max_allowed
          +:+ " (150% of the current active bid).")%string
  else None.

(** ** auction_place_bid_common.py *)

Definition ANTI_SNIPE_WINDOW : Z := minutes 5.
Definition ANTI_SNIPE_EXTENSION : Z := minutes 5.

(** [x or 0] on an amount. *)
Definition number_or_0 (n : number) : number :=
  match n with
  | NNone => NInt 0
  | NDec d => if coef d =? 0 then NInt 0 else n
  | NFloat x => if fl_eqb x fl_zero then NInt 0 else n
  | NInt z => n
  end.

Definition normalize_bid_amount (amount current_highest min_bid_price : number)
    : res (py_float * decimal * decimal) :=
  try! (_, min_required, max_allowed, normalized) <-
    bid_amount_in_range amount (number_or_0 current_highest) (number_or_0 min_bid_price);
  match format_bid_range_error normalized min_required max_allowed with
  | Some range_error => Raise (ValueError range_error)
  | None => Ok (fl_of_dec normalized, min_required, max_allowed)
  end.

(** Status values are any type here: the four auction types share the rule. *)
Definition apply_anti_snipe {S : Type} (end_time : option Z) (now : Z) (status extended_status : S)
    : option Z * S * bool :=
  match end_time with
  | None => (end_time, status, false)
  | Some e =>
      if e <=? now then (end_time, status, false)
      else
        let remaining := e - now in
        if remaining <? ANTI_SNIPE_WINDOW
        then (Some (e + ANTI_SNIPE_EXTENSION), extended_status, true)
        else (end_time, status, false)
  end.

(** [" ".join(p for p in (firstname, lastname) if p)], then the e-mail, then the id. *)
Definition bidder_display_name (firstname lastname : option string) (email uid : string) : string :=
  match filter (fun p => truthy p = true) [firstname; lastname] with
  | [Some f; Some l] => (f +:+ " " +:+ l)%string
  | [Some p] => p
  | _ => if bool_decide (email = EmptyString) then ("user#" +:+ uid)%string else email
  end.

(** ** Reference rules on whole hundredths *)

Definition ref_cents (highest reserve : Z) : Z := if 0 <? highest then highest else reserve.

(** 150% of the reference, half a hundredth rounded up. *)
Definition max_cents (reference : Z) : Z := (3 * reference + 1) / 2.

Definition bid_in_range (amount highest reserve : Z) : Prop :=
  0 < ref_cents highest reserve /\
  ref_cents highest reserve + 100 <= amount <= max_cents (ref_cents highest reserve).

#[export] Instance bid_in_range_dec a h r : Decision (bid_in_range a h r).
Proof. unfold bid_in_range. apply _. Defined.

(** A NUMERIC(18, 2) column holds at most 18 digits; the bound leaves a margin. *)
Definition money_bound : Z := 10 ^ 24.

Definition is_money (c : Z) : Prop := 0 <= c < money_bound.

(** ** Lemmas *)

Lemma try_ok {A B} (a : A) (f : A -> res B) : res_bind (Ok a) f = f a.
Proof. done. Qed.

Lemma try_raise {A B} e (f : A -> res B) : res_bind (Raise e) f = Raise e.
Proof. done. Qed.

Lemma res_bind_ok_inv {A B} (m : res A) (f : A -> res B) b :
  res_bind m f = Ok b -> exists a, m = Ok a /\ f a = Ok b.
Proof. destruct m; simpl; [by eauto|done]. Qed.

Lemma small_prec c : is_money c -> Z.abs (100 * c) < 10 ^ prec.
Proof. unfold is_money, money_bound, prec. change (10 ^ 28) with (10000 * 10 ^ 24). lia. Qed.

Lemma quantize_money_cents c : is_money c -> quantize_money (cents c) = Ok (cents c).
Proof. intros ?%small_prec. apply quantize_cents_id. lia. Qed.

Lemma quantize_money_zero : quantize_money (Dec 0 0) = Ok (cents 0).
Proof. reflexivity. Qed.

Lemma cents_pos c : dec_ltb (Dec 0 0) (cents c) = (0 <? c).
Proof. unfold dec_ltb, align, cents; simpl. by rewrite Z.mul_1_r. Qed.

Lemma cents_nonpos c : dec_leb (cents c) (Dec 0 0) = (c <=? 0).
Proof. unfold dec_leb, align, cents; simpl. by rewrite Z.mul_1_r. Qed.

Lemma as_decimal_cents_or_0 c :
  as_decimal (number_or_0 (NDec (cents c))) = Ok (if c =? 0 then Dec 0 0 else cents c).
Proof. simpl. by destruct (c =? 0). Qed.

Lemma active_bid_reference_cents h r :
  is_money h -> is_money r ->
  active_bid_reference (number_or_0 (NDec (cents h))) (number_or_0 (NDec (cents r)))
  = Ok (cents (ref_cents h r)).
Proof.
  intros Hh Hr. unfold active_bid_reference, ref_cents.
  rewrite !as_decimal_cents_or_0, try_ok. destruct (Z.eqb_spec h 0) as [->|Hh0].
  - change (dec_ltb (Dec 0 0) (Dec 0 0)) with false. cbn [Z.ltb Z.compare].
    rewrite try_ok. destruct (Z.eqb_spec r 0) as [->|]; [apply quantize_money_zero|].
    by apply quantize_money_cents.
  - rewrite cents_pos. destruct (Z.ltb_spec 0 h); [by apply quantize_money_cents|].
    unfold is_money in *. lia.
Qed.

Lemma ref_cents_money h r : is_money h -> is_money r -> is_money (ref_cents h r).
Proof. unfold ref_cents. by case_match. Qed.

Lemma dec_add_unit c :
  is_money c -> dec_add (cents c) MIN_BID_UNIT_INCREMENT = cents (c + 100).
Proof.
  intros Hc%small_prec. unfold dec_add, align, cents, MIN_BID_UNIT_INCREMENT; simpl.
  rewrite Z.mul_1_r. change (Z.pow_pos 10 2) with 100. apply ctx_round_exact. simpl.
  unfold prec in *. lia.
Qed.

Lemma quantize_mul_ratio c :
  is_money c -> quantize_money (dec_mul (cents c) MAX_BID_ACTIVE_RATIO) = Ok (cents (max_cents c)).
Proof.
  intros Hc. pose proof (small_prec c Hc) as Hs. unfold is_money in Hc.
  unfold dec_mul, MAX_BID_ACTIVE_RATIO; simpl.
  rewrite ctx_round_exact by (simpl; lia).
  unfold quantize_money, quantize_half_up; simpl. change (10 ^ (-2 - (-2 + -1))) with 10.
  assert (div_half_up (c * 15) 10 = max_cents c) as ->.
  { rewrite div_half_up_pos by lia. unfold max_cents.
    replace (2 * (c * 15) + 10) with ((3 * c + 1) * 10) by lia.
    by rewrite Z.div_mul_cancel_r. }
  assert (0 <= max_cents c <= 2 * c + 1).
  { unfold max_cents. split; [apply Z.div_pos; lia|].
    apply Z.div_le_upper_bound; lia. }
  destruct (Z.ltb_spec (Z.abs (max_cents c)) (10 ^ prec)); [done|].
  unfold prec in *. change (10 ^ 28) with (10000 * 10 ^ 24) in *. lia.
Qed.

Lemma bid_amount_in_range_cents a h r :
  is_money a -> is_money h -> is_money r ->
  let ref := ref_cents h r in
  bid_amount_in_range (NDec (cents a)) (number_or_0 (NDec (cents h))) (number_or_0 (NDec (cents r)))
  = Ok (if ref <=? 0 then (false, cents (ref + 100), Dec 0 0, cents a)
        else ((ref + 100 <=? a) && (a <=? max_cents ref),
              cents (ref + 100), cents (max_cents ref), cents a)).
Proof.
  intros Ha Hh Hr ref. pose proof (ref_cents_money h r Hh Hr) as Href. fold ref in Href.
  unfold bid_amount_in_range, min_required_bid, max_allowed_bid.
  rewrite !active_bid_reference_cents by done. fold ref. cbn [as_decimal].
  rewrite !try_ok, (quantize_money_cents a), try_ok by done.
  rewrite dec_add_unit by done.
  assert (quantize_money (cents (ref + 100)) = Ok (cents (ref + 100))) as ->.
  { apply quantize_cents_id. pose proof (small_prec ref Href). unfold is_money in Href.
    unfold prec in *. change (10 ^ 28) with (10000 * 10 ^ 24) in *. lia. }
  rewrite try_ok, cents_nonpos. destruct (Z.leb_spec ref 0); [done|].
  rewrite quantize_mul_ratio, try_ok, cents_nonpos by done.
  destruct (Z.leb_spec (max_cents ref) 0) as [Hle|].
  { exfalso. assert (1 <= max_cents ref); [|lia]. apply Z.div_le_lower_bound; lia. }
  by rewrite !dec_leb_cents.
Qed.

(** A bid that passes the check is a float of an in-range amount. *)
Lemma normalize_cents_cases a h r :
  is_money a -> is_money h -> is_money r ->
  let ref := ref_cents h r in
  normalize_bid_amount (NDec (cents a)) (NDec (cents h)) (NDec (cents r))
  = if ref <=? 0 then Raise (ValueError "Auction starting price is not configured.")
    else if a <? ref + 100 then
      Raise (ValueError ("Bid must be at least ₹" +:+ format_comma_2f (cents (ref + 100)) +:+ "."))
    else if max_cents ref <? a then
      Raise (ValueError ("Bid cannot exceed ₹" +:+ format_comma_2f (cents (max_cents ref))
                         +:+ " (150% of the current active bid)."))
    else Ok (fl_of_dec (cents a), cents (ref + 100), cents (max_cents ref)).
Proof.
  intros Ha Hh Hr ref. unfold normalize_bid_amount, format_bid_range_error.
  rewrite bid_amount_in_range_cents by done. fold ref.
  destruct (Z.leb_spec ref 0) as [|Hpos]; [done|].
  rewrite try_ok, cents_nonpos.
  destruct (Z.leb_spec (max_cents ref) 0) as [Hle|_].
  { exfalso. assert (1 <= max_cents ref); [|lia]. apply Z.div_le_lower_bound; lia. }
  rewrite !dec_ltb_cents. by repeat case_match; simplify_eq.
Qed.

(** An amount of at most two decimal places is checked by its value. *)
Lemma quantize_money_value k e :
  -2 <= e -> is_money (k * 10 ^ (e + 2)) -> quantize_money (Dec k e) = Ok (cents (k * 10 ^ (e + 2))).
Proof.
  intros He Hm%small_prec. unfold quantize_money, quantize_half_up. cbn [coef dexp].
  destruct (Z.leb_spec (-2) e); [|lia]. replace (e - -2) with (e + 2) by lia.
  destruct (Z.ltb_spec (Z.abs (k * 10 ^ (e + 2))) (10 ^ prec)); [done|lia].
Qed.

Lemma normalize_amount_value k e h r :
  -2 <= e -> is_money (k * 10 ^ (e + 2)) ->
  normalize_bid_amount (NDec (Dec k e)) h r = normalize_bid_amount (NDec (cents (k * 10 ^ (e + 2)))) h r.
Proof.
  intros He Hm. unfold normalize_bid_amount, bid_amount_in_range. cbn [as_decimal]. rewrite !try_ok.
  by rewrite (quantize_money_value k e), quantize_money_cents.
Qed.

(** ** Properties *)

(** C1. On money amounts the bid check accepts exactly the bids that are at
    least 1 above the reference and at most 150% of it (half a hundredth
    rounded up); the reference is the current highest bid, or the reserve when
    there is none.  On acceptance it returns the amount and both limits. *)
Theorem normalize_bid_amount_spec a h r :
  is_money a -> is_money h -> is_money r ->
  match normalize_bid_amount (NDec (cents a)) (NDec (cents h)) (NDec (cents r)) with
  | Ok (x, lo, hi) =>
      bid_in_range a h r /\ x = fl_of_dec (cents a) /\
      lo = cents (ref_cents h r + 100) /\ hi = cents (max_cents (ref_cents h r))
  | Raise (ValueError _) => ~ bid_in_range a h r
  | Raise _ => False
  end.
Proof.
  intros. rewrite normalize_cents_cases by done. unfold bid_in_range.
  destruct (Z.leb_spec (ref_cents h r) 0); [lia|].
  destruct (Z.ltb_spec a (ref_cents h r + 100)); [lia|].
  destruct (Z.ltb_spec (max_cents (ref_cents h r)) a); [lia|].
  repeat split; lia.
Qed.

Lemma normalize_bid_amount_spec_witness :
  is_money 60050 /\
  match normalize_bid_amount (NDec (cents 60050)) (NDec (cents 50000)) (NDec (cents 10000)) with
  | Ok (x, lo, hi) =>
      bid_in_range 60050 50000 10000 /\ x = fl_of_dec (cents 60050) /\
      lo = cents (50000 + 100) /\ hi = cents (max_cents 50000)
  | Raise (ValueError _) => ~ bid_in_range 60050 50000 10000
  | Raise _ => False
  end.
Proof.
  assert (is_money 60050 /\ is_money 50000 /\ is_money 10000) as (H1 & H2 & H3)
    by (vm_compute; repeat split; discriminate).
  split; [exact H1|]. exact (normalize_bid_amount_spec 60050 50000 10000 H1 H2 H3).
Defined.

(** Anti-sniping: a bid never shortens an auction and extends it by exactly
    five minutes when less than five minutes remain; after any accepted bid at
    least five minutes remain, and at most ten if the end moved.  An auction
    without an end, or whose end has passed, is untouched. *)
Theorem apply_anti_snipe_spec {S : Type} end_time now (status extended_status : S) :
  let '(e', st', ext) := apply_anti_snipe end_time now status extended_status in
  match end_time with
  | Some e =>
      (ext = true <-> now < e < now + minutes 5) /\
      (if ext then e' = Some (e + minutes 5) /\ st' = extended_status
       else e' = Some e /\ st' = status) /\
      (now < e -> exists e1, e' = Some e1 /\ now + minutes 5 <= e1 /\ e <= e1 /\
                             (ext = true -> e1 < now + minutes 10))
  | None => e' = None /\ st' = status /\ ext = false
  end.
Proof.
  unfold apply_anti_snipe, ANTI_SNIPE_EXTENSION, ANTI_SNIPE_WINDOW, minutes, seconds.
  destruct end_time as [e|]; [|done].
  destruct (Z.leb_spec e now); [repeat split; intros; lia|].
  destruct (Z.ltb_spec (e - now) (60 * 5 * 1000000));
    repeat split; intros; try lia; eexists; (split; [done|lia]).
Qed.

(** An amount beyond the 28-digit context is not rejected as out of range: the
    rounding itself fails, with an exception that is not a [ValueError]. *)
Theorem normalize_bid_amount_overflow k h r :
  26 <= k -> normalize_bid_amount (NDec (Dec 1 k)) h r = Raise InvalidOperation.
Proof.
  intros Hk. unfold normalize_bid_amount, bid_amount_in_range. cbn [as_decimal].
  rewrite try_ok.
  assert (quantize_money (Dec 1 k) = Raise InvalidOperation) as ->; [|done].
  unfold quantize_money, quantize_half_up; cbn [coef dexp].
  destruct (Z.leb_spec (-2) k); [|lia].
  rewrite Z.mul_1_l, Z.abs_eq by (apply Z.pow_nonneg; lia).
  destruct (Z.ltb_spec (10 ^ (k - -2)) (10 ^ prec)) as [Hlt|]; [|done].
  exfalso. unfold prec in Hlt. assert (10 ^ 28 <= 10 ^ (k - -2)); [|lia].
  apply Z.pow_le_mono_r; lia.
Qed.
