(* ===== verification/Store.v ===== *)
(** * The store

    The entities (app/entity), their enums, and the database the handlers work on.
    One record [DB] holds the tables of the modelled components.  Rows reached by
    primary or unique key are in a [gmap] keyed by it (a uuid is its canonical
    text); append-only rows are lists in insertion order.  A NUMERIC(18, 2) column
    is its whole number of hundredths, a FLOAT column a binary64, a timestamp its
    microseconds.  Columns no modelled code reads are left out, and so are
    [updated_at] and soft-delete audit columns. *)

From S2P Require Import Prelude PyNum.

(** ** Enums *)

(** app/utils/enums.py *)
Module AuctionStatus.
Inductive t := DRAFT | ACTIVE | EXTENDED | ENDED | UNSOLD | CLOSED | CANCELLED | TAKEN_DOWN | PAYMENT_PENDING | COMPLETED.
Definition value (x : t) : string :=
  match x with
  | DRAFT => "DRAFT"
  | ACTIVE => "ACTIVE"
  | EXTENDED => "EXTENDED"
  | ENDED => "ENDED"
  | UNSOLD => "UNSOLD"
  | CLOSED => "CLOSED"
  | CANCELLED => "CANCELLED"
  | TAKEN_DOWN => "TAKEN_DOWN"
  | PAYMENT_PENDING => "PAYMENT_PENDING"
  | COMPLETED => "COMPLETED"
  end.
#[global] Instance eq_dec : EqDecision t.
Proof. solve_decision. Defined.
End AuctionStatus.

(** app/utils/enums.py; [to_seconds] is below. *)
Module AuctionDuration.
Inductive t := ONE_DAY | SEVEN_DAYS | THIRTY_DAYS | SIXTY_DAYS | NINETY_DAYS.
Definition value (x : t) : string :=
  match x with
  | ONE_DAY => "ONE_DAY"
  | SEVEN_DAYS => "SEVEN_DAYS"
  | THIRTY_DAYS => "THIRTY_DAYS"
  | SIXTY_DAYS => "SIXTY_DAYS"
  | NINETY_DAYS => "NINETY_DAYS"
  end.
#[global] Instance eq_dec : EqDecision t.
Proof. solve_decision. Defined.
End AuctionDuration.

Definition to_seconds (d : AuctionDuration.t) : Z :=
  match d with
  | AuctionDuration.ONE_DAY => 24 * 60 * 60
  | AuctionDuration.SEVEN_DAYS => 7 * 24 * 60 * 60
  | AuctionDuration.THIRTY_DAYS => 30 * 24 * 60 * 60
  | AuctionDuration.SIXTY_DAYS => 60 * 24 * 60 * 60
  | AuctionDuration.NINETY_DAYS => 90 * 24 * 60 * 60
  end.

(** app/utils/enums.py *)
Module PaymentStatus.
Inductive t := PENDING | SUCCESS | FAILED | REFUNDED.
Definition value (x : t) : string :=
  match x with
  | PENDING => "PENDING"
  | SUCCESS => "SUCCESS"
  | FAILED => "FAILED"
  | REFUNDED => "REFUNDED"
  end.
#[global] Instance eq_dec : EqDecision t.
Proof. solve_decision. Defined.
End PaymentStatus.

(** app/utils/enums.py *)
Module TransactionStatus.
Inductive t := INITIATED | SUCCESS | FAILED | VERIFIED.
Definition value (x : t) : string :=
  match x with
  | INITIATED => "INITIATED"
  | SUCCESS => "SUCCESS"
  | FAILED => "FAILED"
  | VERIFIED => "VERIFIED"
  end.
#[global] Instance eq_dec : EqDecision t.
Proof. solve_decision. Defined.
End TransactionStatus.

(** app/entity/user/user_role.py *)
Module UserRole.
Inductive t := USER | GUEST | ADMIN | SUPER_ADMIN | AUCTION_MODERATOR | COBROTHER.
Definition value (x : t) : string :=
  match x with
  | USER => "USER"
  | GUEST => "GUEST"
  | ADMIN => "ADMIN"
  | SUPER_ADMIN => "SUPER_ADMIN"
  | AUCTION_MODERATOR => "AUCTION_MODERATOR"
  | COBROTHER => "COBROTHER"
  end.
#[global] Instance eq_dec : EqDecision t.
Proof. solve_decision. Defined.
End UserRole.

(** app/entity/auction/auction_fee_payment_entity.py *)
Module AuctionFeePaymentKind.
Inductive t := CREATION | BID.
Definition value (x : t) : string :=
  match x with
  | CREATION => "CREATION"
  | BID => "BID"
  end.
#[global] Instance eq_dec : EqDecision t.
Proof. solve_decision. Defined.
End AuctionFeePaymentKind.

(** app/entity/auction/auction_fee_payment_entity.py *)
Module AuctionFeeAuctionType.
Inductive t := DOMAIN | SOFTWARE | COMMUNITY.
Definition value (x : t) : string :=
  match x with
  | DOMAIN => "DOMAIN"
  | SOFTWARE => "SOFTWARE"
  | COMMUNITY => "COMMUNITY"
  end.
#[global] Instance eq_dec : EqDecision t.
Proof. solve_decision. Defined.
End AuctionFeeAuctionType.

(** app/entity/auction/auction_fee_payment_entity.py *)
Module AuctionFeePaymentStatus.
Inductive t := CREATED | COMPLETED | CONSUMED.
Definition value (x : t) : string :=
  match x with
  | CREATED => "CREATED"
  | COMPLETED => "COMPLETED"
  | CONSUMED => "CONSUMED"
  end.
#[global] Instance eq_dec : EqDecision t.
Proof. solve_decision. Defined.
End AuctionFeePaymentStatus.

(** app/entity/user/edge_points_redemption.py *)
Module RedemptionStatus.
Inductive t := PENDING | COMPLETED | FAILED.
Definition value (x : t) : string :=
  match x with
  | PENDING => "PENDING"
  | COMPLETED => "COMPLETED"
  | FAILED => "FAILED"
  end.
#[global] Instance eq_dec : EqDecision t.
Proof. solve_decision. Defined.
End RedemptionStatus.

(** app/entity/user/edge_points_history.py *)
Module EdgePointsTransactionType.
Inductive t := REFERRAL_EARN | CHECKOUT_REDEEM | REDEEM_REVERT.
Definition value (x : t) : string :=
  match x with
  | REFERRAL_EARN => "REFERRAL_EARN"
  | CHECKOUT_REDEEM => "CHECKOUT_REDEEM"
  | REDEEM_REVERT => "REDEEM_REVERT"
  end.
#[global] Instance eq_dec : EqDecision t.
Proof. solve_decision. Defined.
End EdgePointsTransactionType.

(** app/utils/marketplace_enums.py *)
Module DomainListingStatus.
Inductive t := AVAILABLE | SOLD | PENDING | UNDER_REVIEW.
Definition value (x : t) : string :=
  match x with
  | AVAILABLE => "AVAILABLE"
  | SOLD => "SOLD"
  | PENDING => "PENDING"
  | UNDER_REVIEW => "UNDER_REVIEW"
  end.
#[global] Instance eq_dec : EqDecision t.
Proof. solve_decision. Defined.
End DomainListingStatus.

(** app/utils/marketplace_enums.py *)
Module DomainListingVerificationStatus.
Inductive t := PENDING | VERIFIED | REJECTED | MORE_INFO_REQUESTED.
Definition value (x : t) : string :=
  match x with
  | PENDING => "PENDING"
  | VERIFIED => "VERIFIED"
  | REJECTED => "REJECTED"
  | MORE_INFO_REQUESTED => "MORE_INFO_REQUESTED"
  end.
#[global] Instance eq_dec : EqDecision t.
Proof. solve_decision. Defined.
End DomainListingVerificationStatus.

(** app/utils/marketplace_enums.py *)
Module SaleType.
Inductive t := ONE_TIME | AUCTION.
Definition value (x : t) : string :=
  match x with
  | ONE_TIME => "ONE_TIME"
  | AUCTION => "AUCTION"
  end.
#[global] Instance eq_dec : EqDecision t.
Proof. solve_decision. Defined.
End SaleType.

(** app/utils/marketplace_enums.py *)
Module VerificationMethod.
Inductive t := DNS | META_TAG | WHOIS_EMAIL.
Definition value (x : t) : string :=
  match x with
  | DNS => "DNS"
  | META_TAG => "META_TAG"
  | WHOIS_EMAIL => "WHOIS_EMAIL"
  end.
#[global] Instance eq_dec : EqDecision t.
Proof. solve_decision. Defined.
End VerificationMethod.

(** app/utils/marketplace_enums.py *)
Module MarketplacePaymentStatus.
Inductive t := CREATED | COMPLETED | FAILED | CONTACT_PENDING | REFUNDED.
Definition value (x : t) : string :=
  match x with
  | CREATED => "CREATED"
  | COMPLETED => "COMPLETED"
  | FAILED => "FAILED"
  | CONTACT_PENDING => "CONTACT_PENDING"
  | REFUNDED => "REFUNDED"
  end.
#[global] Instance eq_dec : EqDecision t.
Proof. solve_decision. Defined.
End MarketplacePaymentStatus.

(** app/utils/transfer_enums.py *)
Module MarketplaceEscrowStatus.
Inductive t := HELD | RELEASED | REFUNDED.
Definition value (x : t) : string :=
  match x with
  | HELD => "HELD"
  | RELEASED => "RELEASED"
  | REFUNDED => "REFUNDED"
  end.
#[global] Instance eq_dec : EqDecision t.
Proof. solve_decision. Defined.
End MarketplaceEscrowStatus.

(** app/utils/transfer_enums.py *)
Module MarketplaceTransferStatus.
Inductive t := PAYMENT_COMPLETED | AWAITING_AUTH_CODE | AUTH_CODE_AVAILABLE | AUTH_CODE_RECEIVED | AUTH_CODE_VIEWED | TRANSFER_IN_PROGRESS | TRANSFER_COMPLETED | PAYOUT_PENDING | PAYOUT_APPROVED | PAYOUT_RELEASED | COMPLETED | SELLER_PAID | AUTH_CODE_TIMEOUT | ADMIN_REVIEW_REQUIRED | BUYER_TRANSFER_TIMEOUT | REFUNDED | DISPUTED | CANCELLED.
Definition value (x : t) : string :=
  match x with
  | PAYMENT_COMPLETED => "PAYMENT_COMPLETED"
  | AWAITING_AUTH_CODE => "AWAITING_AUTH_CODE"
  | AUTH_CODE_AVAILABLE => "AUTH_CODE_AVAILABLE"
  | AUTH_CODE_RECEIVED => "AUTH_CODE_RECEIVED"
  | AUTH_CODE_VIEWED => "AUTH_CODE_VIEWED"
  | TRANSFER_IN_PROGRESS => "TRANSFER_IN_PROGRESS"
  | TRANSFER_COMPLETED => "TRANSFER_COMPLETED"
  | PAYOUT_PENDING => "PAYOUT_PENDING"
  | PAYOUT_APPROVED => "PAYOUT_APPROVED"
  | PAYOUT_RELEASED => "PAYOUT_RELEASED"
  | COMPLETED => "COMPLETED"
  | SELLER_PAID => "SELLER_PAID"
  | AUTH_CODE_TIMEOUT => "AUTH_CODE_TIMEOUT"
  | ADMIN_REVIEW_REQUIRED => "ADMIN_REVIEW_REQUIRED"
  | BUYER_TRANSFER_TIMEOUT => "BUYER_TRANSFER_TIMEOUT"
  | REFUNDED => "REFUNDED"
  | DISPUTED => "DISPUTED"
  | CANCELLED => "CANCELLED"
  end.
#[global] Instance eq_dec : EqDecision t.
Proof. solve_decision. Defined.
End MarketplaceTransferStatus.

(** app/utils/transfer_enums.py *)
Module TransferMethod.
Inductive t := SELF | COBROTHER_ASSISTED.
Definition value (x : t) : string :=
  match x with
  | SELF => "SELF"
  | COBROTHER_ASSISTED => "COBROTHER_ASSISTED"
  end.
#[global] Instance eq_dec : EqDecision t.
Proof. solve_decision. Defined.
End TransferMethod.

(** app/utils/transfer_enums.py *)
Module TransferDisputeStatus.
Inductive t := NONE | OPEN | UNDER_REVIEW | RESOLVED_REFUND | RESOLVED_PAYOUT | CLOSED.
Definition value (x : t) : string :=
  match x with
  | NONE => "NONE"
  | OPEN => "OPEN"
  | UNDER_REVIEW => "UNDER_REVIEW"
  | RESOLVED_REFUND => "RESOLVED_REFUND"
  | RESOLVED_PAYOUT => "RESOLVED_PAYOUT"
  | CLOSED => "CLOSED"
  end.
#[global] Instance eq_dec : EqDecision t.
Proof. solve_decision. Defined.
End TransferDisputeStatus.

(** app/utils/transfer_enums.py *)
Module DisputeReason.
Inductive t := INVALID_AUTH_CODE | SELLER_UNRESPONSIVE | TRANSFER_ISSUE.
Definition value (x : t) : string :=
  match x with
  | INVALID_AUTH_CODE => "INVALID_AUTH_CODE"
  | SELLER_UNRESPONSIVE => "SELLER_UNRESPONSIVE"
  | TRANSFER_ISSUE => "TRANSFER_ISSUE"
  end.
#[global] Instance eq_dec : EqDecision t.
Proof. solve_decision. Defined.
End DisputeReason.

(** app/utils/transfer_enums.py *)
Module TransferVerifiedBy.
Inductive t := BUYER | ADMIN.
Definition value (x : t) : string :=
  match x with
  | BUYER => "BUYER"
  | ADMIN => "ADMIN"
  end.
#[global] Instance eq_dec : EqDecision t.
Proof. solve_decision. Defined.
End TransferVerifiedBy.

(** app/utils/transfer_enums.py *)
Module TransferEventType.
Inductive t := PAYMENT_COMPLETED | AUTH_SUBMITTED | OTP_REVEAL | TRANSFER_STARTED | TRANSFER_CONFIRMED | ASSISTANCE_REQUESTED | ADMIN_REVIEW | PAYOUT_PENDING | PAYOUT_APPROVED | PAYOUT_REMINDER_SENT | PAYOUT_RELEASED | REFUNDED | DISPUTE_OPENED | DISPUTE_RESOLVED | WHOIS_CHECK.
Definition value (x : t) : string :=
  match x with
  | PAYMENT_COMPLETED => "PAYMENT_COMPLETED"
  | AUTH_SUBMITTED => "AUTH_SUBMITTED"
  | OTP_REVEAL => "OTP_REVEAL"
  | TRANSFER_STARTED => "TRANSFER_STARTED"
  | TRANSFER_CONFIRMED => "TRANSFER_CONFIRMED"
  | ASSISTANCE_REQUESTED => "ASSISTANCE_REQUESTED"
  | ADMIN_REVIEW => "ADMIN_REVIEW"
  | PAYOUT_PENDING => "PAYOUT_PENDING"
  | PAYOUT_APPROVED => "PAYOUT_APPROVED"
  | PAYOUT_REMINDER_SENT => "PAYOUT_REMINDER_SENT"
  | PAYOUT_RELEASED => "PAYOUT_RELEASED"
  | REFUNDED => "REFUNDED"
  | DISPUTE_OPENED => "DISPUTE_OPENED"
  | DISPUTE_RESOLVED => "DISPUTE_RESOLVED"
  | WHOIS_CHECK => "WHOIS_CHECK"
  end.
#[global] Instance eq_dec : EqDecision t.
Proof. solve_decision. Defined.
End TransferEventType.

(** app/utils/registration_enums.py *)
Module RegistrationOrderStatus.
Inductive t := CREATED | PAYMENT_COMPLETED | REGISTRATION_PENDING | ACTIVE | PAYMENT_FAILED | EXPIRED | FAILED | PROVISION_FAILED | REFUNDED.
Definition value (x : t) : string :=
  match x with
  | CREATED => "CREATED"
  | PAYMENT_COMPLETED => "PAYMENT_COMPLETED"
  | REGISTRATION_PENDING => "REGISTRATION_PENDING"
  | ACTIVE => "ACTIVE"
  | PAYMENT_FAILED => "PAYMENT_FAILED"
  | EXPIRED => "EXPIRED"
  | FAILED => "FAILED"
  | PROVISION_FAILED => "PROVISION_FAILED"
  | REFUNDED => "REFUNDED"
  end.
#[global] Instance eq_dec : EqDecision t.
Proof. solve_decision. Defined.
End RegistrationOrderStatus.

(** app/utils/transfer_enums.py *)
Module SellerKycStatus.
Inductive t := PENDING | SUBMITTED | VERIFIED | REJECTED.
Definition value (x : t) : string :=
  match x with
  | PENDING => "PENDING"
  | SUBMITTED => "SUBMITTED"
  | VERIFIED => "VERIFIED"
  | REJECTED => "REJECTED"
  end.
#[global] Instance eq_dec : EqDecision t.
Proof. solve_decision. Defined.
End SellerKycStatus.

(** app/utils/transfer_enums.py *)
Module PayoutMethod.
Inductive t := BANK_ACCOUNT | UPI.
Definition value (x : t) : string :=
  match x with
  | BANK_ACCOUNT => "BANK_ACCOUNT"
  | UPI => "UPI"
  end.
#[global] Instance eq_dec : EqDecision t.
Proof. solve_decision. Defined.
End PayoutMethod.

(** app/utils/transfer_enums.py *)
Module SellerPayoutStatus.
Inductive t := PENDING | APPROVED | SENT | FAILED.
Definition value (x : t) : string :=
  match x with
  | PENDING => "PENDING"
  | APPROVED => "APPROVED"
  | SENT => "SENT"
  | FAILED => "FAILED"
  end.
#[global] Instance eq_dec : EqDecision t.
Proof. solve_decision. Defined.
End SellerPayoutStatus.

(** ** JSON values

    A dict is an association list in insertion order.  [JTime] is the ISO 8601
    text of an aware datetime and [JDate] that of a calendar day (days since the
    epoch): the code only stores such texts with [isoformat] and reads them back
    with [fromisoformat]. *)
Inductive json :=
| JNull
| JBool (b : bool)
| JInt (z : Z)
| JNum (x : py_float)
| JStr (s : string)
| JTime (t : Z)
| JDate (d : Z)
| JArr (l : list json)
| JObj (fields : list (string * json)).

(** [bool(v)] *)
Definition json_truthy (v : json) : bool :=
  match v with
  | JNull => false
  | JBool b => b
  | JInt z => negb (z =? 0)
  | JNum x => negb (fl_eqb x fl_zero)
  | JStr s => negb (bool_decide (s = EmptyString))
  | JTime _ | JDate _ => true
  | JArr l => match l with [] => false | _ => true end
  | JObj l => match l with [] => false | _ => true end
  end.

Definition dict := list (string * json).

(** [d.get(k)] *)
Fixpoint dict_get (k : string) (d : dict) : json :=
  match d with
  | [] => JNull
  | (k', v) :: d' => if bool_decide (k = k') then v else dict_get k d'
  end.

(** [d[k] = v] *)
Fixpoint dict_set (k : string) (v : json) (d : dict) : dict :=
  match d with
  | [] => [(k, v)]
  | (k', v') :: d' => if bool_decide (k = k') then (k, v) :: d' else (k', v') :: dict_set k v d'
  end.

Definition json_opt_str (s : option string) : json :=
  match s with Some t => JStr t | None => JNull end.

(** [platform_settings.setting_value]: the text of a JSON document ([json.dumps]),
    of a float ([str]), or a text that is neither. *)
Inductive setting_value :=
| SvJson (j : json)
| SvFloat (x : py_float)
| SvText (s : string).

(** [if raw:] *)
Definition setting_truthy (v : setting_value) : bool :=
  match v with SvText s => negb (bool_decide (s = EmptyString)) | _ => true end.

(** [json.loads(raw)]; [None] is a JSONDecodeError. *)
Definition json_loads (v : setting_value) : option json :=
  match v with
  | SvJson j => Some j
  | SvFloat x => if fl_is_finite x then Some (JNum x) else None
  | SvText _ => None
  end.

(** ** Rows *)

(** app/entity/user/app_user.py *)
Record AppUser := MkUser {
  u_id : string;
  u_email : string;
  u_firstname : option string;
  u_lastname : option string;
  u_edge_points : Z;
  u_role : option UserRole.t;
  u_phone_number : option string;
}.
#[export] Instance AppUser_eta : Settable AppUser := fun r =>
  MkUser (u_id r) (u_email r) (u_firstname r) (u_lastname r) (u_edge_points r) (u_role r)
    (u_phone_number r).

(** app/entity/auction/auction_entity.py *)
Record Auction := MkAuction {
  a_id : string;
  a_domain_id : string;
  a_status : AuctionStatus.t;
  a_duration : AuctionDuration.t;
  a_min_bid_price : Z;
  a_current_highest_bid : option Z;
  a_total_bids : Z;
  a_current_winner_id : option string;
  a_start_time : Z;
  a_end_time : Z;
  a_original_end_time : Z;
  a_created_by : string;
  a_created_at : Z;
  a_is_deleted : bool;
}.
#[export] Instance Auction_eta : Settable Auction := fun r =>
  MkAuction (a_id r) (a_domain_id r) (a_status r) (a_duration r) (a_min_bid_price r)
    (a_current_highest_bid r) (a_total_bids r) (a_current_winner_id r)
    (a_start_time r) (a_end_time r) (a_original_end_time r) (a_created_by r)
    (a_created_at r) (a_is_deleted r).

(** app/entity/auction/bid_entity.py *)
Record Bid := MkBid {
  b_id : string;
  b_auction_id : string;
  b_bidder_id : string;
  b_amount : Z;
  b_bidder_name : string;
  b_is_winning_bid : bool;
  b_created_at : Z;
  b_is_deleted : bool;
}.
#[export] Instance Bid_eta : Settable Bid := fun r =>
  MkBid (b_id r) (b_auction_id r) (b_bidder_id r) (b_amount r) (b_bidder_name r)
    (b_is_winning_bid r) (b_created_at r) (b_is_deleted r).

(** app/entity/auction/auction_fee_payment_entity.py; the key default is applied when the
    row is flushed, so [fp_id] is [None] on an object that was never added. *)
Record AuctionFeePayment := MkFee {
  fp_id : option string;
  fp_payment_kind : AuctionFeePaymentKind.t;
  fp_auction_type : AuctionFeeAuctionType.t;
  fp_user_id : string;
  fp_auction_id : option string;
  fp_reference_id : option string;
  fp_bid_amount : option Z;
  fp_fee_amount_inr : py_float;
  fp_razorpay_order_id : string;
  fp_razorpay_payment_id : option string;
  fp_status : AuctionFeePaymentStatus.t;
  fp_created_at : Z;
}.
#[export] Instance AuctionFeePayment_eta : Settable AuctionFeePayment := fun r =>
  MkFee (fp_id r) (fp_payment_kind r) (fp_auction_type r) (fp_user_id r)
    (fp_auction_id r) (fp_reference_id r) (fp_bid_amount r) (fp_fee_amount_inr r)
    (fp_razorpay_order_id r) (fp_razorpay_payment_id r) (fp_status r)
    (fp_created_at r).

(** app/entity/user/edge_points_redemption.py *)
Record EdgePointsRedemption := MkRedemption {
  rd_id : string;
  rd_user_id : string;
  rd_razorpay_order_id : string;
  rd_edge_points_redeemed : Z;
  rd_status : RedemptionStatus.t;
}.
#[export] Instance EdgePointsRedemption_eta : Settable EdgePointsRedemption := fun r =>
  MkRedemption (rd_id r) (rd_user_id r) (rd_razorpay_order_id r) (rd_edge_points_redeemed r)
    (rd_status r).

(** app/entity/user/edge_points_history.py *)
Record EdgePointsHistory := MkHistory {
  h_id : string;
  h_user_id : string;
  h_points : Z;
  h_transaction_type : EdgePointsTransactionType.t;
  h_description : string;
  h_created_at : Z;
}.
#[export] Instance EdgePointsHistory_eta : Settable EdgePointsHistory := fun r =>
  MkHistory (h_id r) (h_user_id r) (h_points r) (h_transaction_type r) (h_description r)
    (h_created_at r).

(** app/entity/user/referral_track.py *)
Record ReferralTrack := MkTrack {
  rt_id : string;
  rt_referrer_id : string;
  rt_listing_id : string;
  rt_listing_type : string;
  rt_visitor_ip : string;
  rt_visitor_id : option string;
  rt_points_awarded : Z;
  rt_share_link_id : option string;
  rt_item_key : option string;
  rt_visitor_key : option string;
  rt_created_at : Z;
}.
#[export] Instance ReferralTrack_eta : Settable ReferralTrack := fun r =>
  MkTrack (rt_id r) (rt_referrer_id r) (rt_listing_id r) (rt_listing_type r)
    (rt_visitor_ip r) (rt_visitor_id r) (rt_points_awarded r) (rt_share_link_id r)
    (rt_item_key r) (rt_visitor_key r) (rt_created_at r).

(** app/entity/cobranding/domain_listing_entity.py *)
Record DomainListing := MkListing {
  l_id : string;
  l_domain_name : string;
  l_domain_extension : string;
  l_sale_type : SaleType.t;
  l_domain_status : DomainListingStatus.t;
  l_verification_status : DomainListingVerificationStatus.t;
  l_verified : bool;
  l_verified_at : option Z;
  l_verified_by_user_id : option string;
  l_verification_method : option VerificationMethod.t;
  l_verification_token : option string;
  l_whois_email : option string;
  l_verification_rejection_reason : option string;
  l_verification_admin_note : option string;
  l_asking_price : py_float;
  l_seller_price : option py_float;
  l_listing_price : option py_float;
  l_commission_percentage : option py_float;
  l_commission_amount : option py_float;
  l_seller_payout_amount : option py_float;
  l_listed_by_user_id : option string;
  l_purchased_by_user_id : option string;
  l_payment_status : option MarketplacePaymentStatus.t;
  l_razorpay_order_id : option string;
  l_razorpay_payment_id : option string;
  l_sold_at : option Z;
  l_active_transaction_id : option string;
  l_is_deleted : bool;
  l_purchase_buyer_name : option string;
  l_purchase_buyer_email : option string;
  l_purchase_buyer_phone : option string;
  l_purchase_addon_services : option string;
}.
#[export] Instance DomainListing_eta : Settable DomainListing := fun r =>
  MkListing (l_id r) (l_domain_name r) (l_domain_extension r) (l_sale_type r)
    (l_domain_status r) (l_verification_status r) (l_verified r) (l_verified_at r)
    (l_verified_by_user_id r) (l_verification_method r) (l_verification_token r)
    (l_whois_email r) (l_verification_rejection_reason r)
    (l_verification_admin_note r) (l_asking_price r) (l_seller_price r)
    (l_listing_price r) (l_commission_percentage r) (l_commission_amount r)
    (l_seller_payout_amount r) (l_listed_by_user_id r) (l_purchased_by_user_id r)
    (l_payment_status r) (l_razorpay_order_id r) (l_razorpay_payment_id r)
    (l_sold_at r) (l_active_transaction_id r) (l_is_deleted r)
    (l_purchase_buyer_name r) (l_purchase_buyer_email r) (l_purchase_buyer_phone r)
    (l_purchase_addon_services r).

(** app/entity/auction/domain_entity.py *)
Record Domain := MkDomain {
  d_id : string;
  d_owner_id : string;
  d_domain_name : string;
  d_is_verified : bool;
  d_is_deleted : bool;
}.
#[export] Instance Domain_eta : Settable Domain := fun r =>
  MkDomain (d_id r) (d_owner_id r) (d_domain_name r) (d_is_verified r) (d_is_deleted r).

(** app/entity/auction/payment_entity.py *)
Record Payment := MkPayment {
  p_id : string;
  p_auction_id : string;
  p_user_id : string;
  p_razorpay_order_id : string;
  p_razorpay_payment_id : option string;
  p_payment_status : PaymentStatus.t;
  p_amount : Z;
  p_paid_at : option Z;
  p_created_at : Z;
  p_is_deleted : bool;
}.
#[export] Instance Payment_eta : Settable Payment := fun r =>
  MkPayment (p_id r) (p_auction_id r) (p_user_id r) (p_razorpay_order_id r)
    (p_razorpay_payment_id r) (p_payment_status r) (p_amount r) (p_paid_at r)
    (p_created_at r) (p_is_deleted r).

(** app/entity/auction/transaction_entity.py *)
Record Transaction := MkTransaction {
  t_id : string;
  t_payment_id : string;
  t_transaction_reference : option string;
  t_transaction_status : TransactionStatus.t;
  t_gateway_response : json;
}.
#[export] Instance Transaction_eta : Settable Transaction := fun r =>
  MkTransaction (t_id r) (t_payment_id r) (t_transaction_reference r) (t_transaction_status r)
    (t_gateway_response r).

(** The payout_snapshot_* columns of a transfer transaction. *)
Record payout_snapshot := MkSnapshot {
  ps_method : option string;
  ps_upi_id : option string;
  ps_account_holder : option string;
  ps_bank_name : option string;
  ps_account_number : option string;
  ps_ifsc : option string;
  ps_account_last4 : option string;
  ps_captured_at : Z;
  ps_source : string;
}.
#[export] Instance payout_snapshot_eta : Settable payout_snapshot := fun r =>
  MkSnapshot (ps_method r) (ps_upi_id r) (ps_account_holder r) (ps_bank_name r)
    (ps_account_number r) (ps_ifsc r) (ps_account_last4 r) (ps_captured_at r)
    (ps_source r).

(** app/entity/domain/domain_marketplace_transaction_entity.py *)
Record DomainMarketplaceTransaction := MkTx {
  x_id : string;
  x_domain_listing_id : string;
  x_buyer_id : string;
  x_seller_id : string;
  x_domain_fqdn : string;
  x_gross_amount_inr : py_float;
  x_platform_fee_inr : py_float;
  x_seller_payout_inr : py_float;
  x_razorpay_order_id : option string;
  x_razorpay_payment_id : option string;
  x_razorpay_refund_id : option string;
  x_escrow_status : MarketplaceEscrowStatus.t;
  x_transfer_status : MarketplaceTransferStatus.t;
  x_transfer_method : option TransferMethod.t;
  x_assistance_requested_at : option Z;
  x_seller_registrar_name : option string;
  x_buyer_target_registrar : option string;
  x_auth_code_ciphertext : option string;
  x_proof_storage_key : option string;
  x_seller_deadline_at : Z;
  x_buyer_deadline_at : option Z;
  x_auth_code_submitted_at : option Z;
  x_auth_code_viewed_at : option Z;
  x_transfer_started_at : option Z;
  x_transfer_confirmed_at : option Z;
  x_transfer_verified_at : option Z;
  x_transfer_verified_by : option TransferVerifiedBy.t;
  x_payout_profile_id : option string;
  x_payout_approved_by_user_id : option string;
  x_payout_approved_at : option Z;
  x_seller_paid_at : option Z;
  x_refund_completed_at : option Z;
  x_admin_review_required_at : option Z;
  x_admin_review_reason : option string;
  x_dispute_status : TransferDisputeStatus.t;
  x_payout_snapshot : option payout_snapshot;
  x_email_sale_seller_sent : bool;
  x_email_sale_buyer_sent : bool;
  x_email_seller_reminder_12h_sent : bool;
  x_email_seller_reminder_6h_sent : bool;
  x_email_auth_available_sent : bool;
  x_email_admin_review_sent : bool;
  x_email_payout_released_sent : bool;
  x_email_refund_sent : bool;
  x_payout_reminder_sent_at : option Z;
  x_payout_reminder_count : Z;
  x_whois_supports_transfer : option bool;
  x_whois_last_checked_at : option Z;
  x_whois_registrar_snapshot : option string;
}.
#[export] Instance DomainMarketplaceTransaction_eta : Settable DomainMarketplaceTransaction := fun r =>
  MkTx (x_id r) (x_domain_listing_id r) (x_buyer_id r) (x_seller_id r) (x_domain_fqdn r)
    (x_gross_amount_inr r) (x_platform_fee_inr r) (x_seller_payout_inr r)
    (x_razorpay_order_id r) (x_razorpay_payment_id r) (x_razorpay_refund_id r)
    (x_escrow_status r) (x_transfer_status r) (x_transfer_method r)
    (x_assistance_requested_at r) (x_seller_registrar_name r)
    (x_buyer_target_registrar r) (x_auth_code_ciphertext r) (x_proof_storage_key r)
    (x_seller_deadline_at r) (x_buyer_deadline_at r) (x_auth_code_submitted_at r)
    (x_auth_code_viewed_at r) (x_transfer_started_at r) (x_transfer_confirmed_at r)
    (x_transfer_verified_at r) (x_transfer_verified_by r) (x_payout_profile_id r)
    (x_payout_approved_by_user_id r) (x_payout_approved_at r) (x_seller_paid_at r)
    (x_refund_completed_at r) (x_admin_review_required_at r)
    (x_admin_review_reason r) (x_dispute_status r) (x_payout_snapshot r)
    (x_email_sale_seller_sent r) (x_email_sale_buyer_sent r)
    (x_email_seller_reminder_12h_sent r) (x_email_seller_reminder_6h_sent r)
    (x_email_auth_available_sent r) (x_email_admin_review_sent r)
    (x_email_payout_released_sent r) (x_email_refund_sent r)
    (x_payout_reminder_sent_at r) (x_payout_reminder_count r)
    (x_whois_supports_transfer r) (x_whois_last_checked_at r)
    (x_whois_registrar_snapshot r).

(** app/entity/domain/domain_transfer_event_entity.py *)
Record DomainTransferEvent := MkEvent {
  ev_id : string;
  ev_transaction_id : string;
  ev_event_type : TransferEventType.t;
  ev_actor_user_id : option string;
  ev_actor_role : string;
  ev_payload : option dict;
}.
#[export] Instance DomainTransferEvent_eta : Settable DomainTransferEvent := fun r =>
  MkEvent (ev_id r) (ev_transaction_id r) (ev_event_type r) (ev_actor_user_id r)
    (ev_actor_role r) (ev_payload r).

(** app/entity/payout/seller_payout_entity.py *)
Record SellerPayout := MkPayout {
  po_id : string;
  po_transaction_id : option string;
  po_payout_profile_id : option string;
  po_seller_id : option string;
  po_amount_inr : py_float;
  po_status : SellerPayoutStatus.t;
  po_method_used : option string;
  po_reference_number : option string;
  po_notes : option string;
  po_released_by_user_id : option string;
  po_released_at : option Z;
}.
#[export] Instance SellerPayout_eta : Settable SellerPayout := fun r =>
  MkPayout (po_id r) (po_transaction_id r) (po_payout_profile_id r) (po_seller_id r)
    (po_amount_inr r) (po_status r) (po_method_used r) (po_reference_number r)
    (po_notes r) (po_released_by_user_id r) (po_released_at r).

(** app/entity/payout/seller_payout_profile_entity.py *)
Record SellerPayoutProfile := MkProfile {
  pp_id : string;
  pp_user_id : string;
  pp_payout_method : PayoutMethod.t;
  pp_account_holder_name : option string;
  pp_bank_name : option string;
  pp_account_number : option string;
  pp_account_number_last4 : option string;
  pp_bank_ifsc : option string;
  pp_upi_id_encrypted : option string;
}.
#[export] Instance SellerPayoutProfile_eta : Settable SellerPayoutProfile := fun r =>
  MkProfile (pp_id r) (pp_user_id r) (pp_payout_method r) (pp_account_holder_name r)
    (pp_bank_name r) (pp_account_number r) (pp_account_number_last4 r)
    (pp_bank_ifsc r) (pp_upi_id_encrypted r).

(** app/entity/domain/domain_dispute_entity.py *)
Record DomainDispute := MkDispute {
  dd_id : string;
  dd_transaction_id : string;
  dd_opened_by_user_id : string;
  dd_reason : DisputeReason.t;
  dd_description : option string;
  dd_status : string;
  dd_resolution_note : option string;
  dd_resolved_by_user_id : option string;
  dd_resolved_at : option Z;
}.
#[export] Instance DomainDispute_eta : Settable DomainDispute := fun r =>
  MkDispute (dd_id r) (dd_transaction_id r) (dd_opened_by_user_id r) (dd_reason r)
    (dd_description r) (dd_status r) (dd_resolution_note r)
    (dd_resolved_by_user_id r) (dd_resolved_at r).

(** app/entity/domain/domain_dispute_entity.py *)
Record DomainDisputeEvidence := MkEvidence {
  de_dispute_id : string;
  de_uploaded_by_user_id : string;
  de_storage_key : string;
  de_mime_type : option string;
}.
#[export] Instance DomainDisputeEvidence_eta : Settable DomainDisputeEvidence := fun r =>
  MkEvidence (de_dispute_id r) (de_uploaded_by_user_id r) (de_storage_key r) (de_mime_type r).

(** app/entity/domain/domain_registration_order_entity.py *)
Record DomainRegistrationOrder := MkOrder {
  ro_id : string;
  ro_domain_name : string;
  ro_domain_extension : string;
  ro_buyer_id : string;
  ro_buyer_full_name : option string;
  ro_buyer_email : option string;
  ro_buyer_phone : option string;
  ro_period_years : Z;
  ro_subtotal_inr : option py_float;
  ro_gst_inr : option py_float;
  ro_price_inr : py_float;
  ro_quoted_unit_price_inr : option py_float;
  ro_price_source : option string;
  ro_status : RegistrationOrderStatus.t;
  ro_razorpay_order_id : option string;
  ro_razorpay_payment_id : option string;
  ro_tax_invoice_number : option string;
  ro_provision_message : option string;
  ro_provision_attempts : Z;
  ro_created_at : option Z;
  ro_completed_at : option Z;
}.
#[export] Instance DomainRegistrationOrder_eta : Settable DomainRegistrationOrder := fun r =>
  MkOrder (ro_id r) (ro_domain_name r) (ro_domain_extension r) (ro_buyer_id r)
    (ro_buyer_full_name r) (ro_buyer_email r) (ro_buyer_phone r) (ro_period_years r)
    (ro_subtotal_inr r) (ro_gst_inr r) (ro_price_inr r) (ro_quoted_unit_price_inr r)
    (ro_price_source r) (ro_status r) (ro_razorpay_order_id r)
    (ro_razorpay_payment_id r) (ro_tax_invoice_number r) (ro_provision_message r)
    (ro_provision_attempts r) (ro_created_at r) (ro_completed_at r).

(** app/entity/operations/operations_service_entity.py *)
Record OperationsService := MkService {
  os_id : string;
  os_name : string;
  os_price : py_float;
  os_is_available : bool;
  os_skills : option string;
  os_service_type : string;
  os_is_deleted : bool;
}.
#[export] Instance OperationsService_eta : Settable OperationsService := fun r =>
  MkService (os_id r) (os_name r) (os_price r) (os_is_available r) (os_skills r)
    (os_service_type r) (os_is_deleted r).

(** app/entity/operations/operations_service_request_entity.py *)
Record OperationsServiceRequest := MkServiceRequest {
  or_operations_service_id : string;
  or_user_id : string;
  or_service_type : string;
  or_service_name : string;
  or_quoted_price : py_float;
  or_full_name : string;
  or_email : string;
  or_phone : string;
  or_status : string;
}.
#[export] Instance OperationsServiceRequest_eta : Settable OperationsServiceRequest := fun r =>
  MkServiceRequest (or_operations_service_id r) (or_user_id r) (or_service_type r)
    (or_service_name r) (or_quoted_price r) (or_full_name r) (or_email r)
    (or_phone r) (or_status r).

(** The tables.  [fee_payments] and [redemptions] are keyed by their unique
    [razorpay_order_id], [profiles] by the unique [user_id], [settings] by [setting_key],
    [invoice_counters] (year to last number) by [year]. *)
Record DB := MkDB {
  users : gmap string AppUser;
  auctions : gmap string Auction;
  bids : list Bid;
  fee_payments : gmap string AuctionFeePayment;
  redemptions : gmap string EdgePointsRedemption;
  points_history : list EdgePointsHistory;
  referral_tracks : list ReferralTrack;
  settings : gmap string setting_value;
  listings : gmap string DomainListing;
  domains : gmap string Domain;
  payments : gmap string Payment;
  transactions : list Transaction;
  mkt_txs : gmap string DomainMarketplaceTransaction;
  tx_events : list DomainTransferEvent;
  payouts : list SellerPayout;
  profiles : gmap string SellerPayoutProfile;
  disputes : gmap string DomainDispute;
  dispute_evidence : list DomainDisputeEvidence;
  reg_orders : gmap string DomainRegistrationOrder;
  invoice_counters : gmap Z Z;
  ops_services : gmap string OperationsService;
  ops_requests : list OperationsServiceRequest;
}.
#[export] Instance DB_eta : Settable DB := fun r =>
  MkDB (users r) (auctions r) (bids r) (fee_payments r) (redemptions r)
    (points_history r) (referral_tracks r) (settings r) (listings r) (domains r)
    (payments r) (transactions r) (mkt_txs r) (tx_events r) (payouts r) (profiles r)
    (disputes r) (dispute_evidence r) (reg_orders r) (invoice_counters r)
    (ops_services r) (ops_requests r).

Definition empty_db : DB :=
  MkDB ∅ ∅ [] ∅ ∅ [] [] ∅ ∅ ∅ ∅ [] ∅ [] [] ∅ ∅ [] ∅ ∅ ∅ [].

(** ** Effects that leave the database *)

Inductive effect :=
| Broadcast (room : string) (event : dict)
| PersonalEvent (user_id : string) (event : dict)
| Notify (user_id title target_url : string)
| Mail (recipient subject : string)
| RazorpayRefund (payment_id : string) (paise : Z)
| TrackRecord (internal_order_id : string).

Abbreviation Prog A := (M DB effect A).
Abbreviation Session := (session DB effect).

(** ** Sessions on this store *)

(** A NUMERIC(18, 2) column: the value rounded to hundredths, half away from
    zero; 16 integral digits at most. *)
Definition numeric_18_2 (d : decimal) : res Z :=
  let c := if -2 <=? dexp d then coef d * 10 ^ (dexp d + 2)
           else div_half_up (coef d) (10 ^ (-2 - dexp d)) in
  if Z.abs c <? 10 ^ 18 then Ok c else Raise (SQLAlchemyError "NumericValueOutOfRange").

(** [result.scalar_one_or_none()] *)
Definition scalar_one_or_none {A} (rows : list A) : Prog (option A) :=
  match rows with
  | [] => ret None
  | [x] => ret (Some x)
  | _ => raise (SQLAlchemyError "MultipleResultsFound")
  end.

(** INSERT of a row with key [k] in a keyed table. *)
Definition insert_new {A} (table : DB -> gmap string A) (put : gmap string A -> DB -> DB)
    (name k : string) (row : A) : Prog unit :=
  do t <- gets table;
  match t !! k with
  | None => modify (put (<[k := row]> t))
  | Some _ => raise (IntegrityError name)
  end.

(** An attribute as the unit of work writes it back: only if it was changed. *)
Definition dirty {A} `{EqDecision A} (loaded new in_row : A) : A :=
  if decide (loaded = new) then in_row else new.
