(* ===== verification/Gateway.v ===== *)
(** * The payment gateway client

    app/integrations/razorpay/client.py.  The settings it reads are the class
    [Config]; the remote Razorpay service, which is not part of the repository,
    is an argument [rzp_api]: one reply per call, an error being one of the
    exceptions the SDK documents. *)

From S2P Require Import Prelude PyNum Store Text Sha256.

(** app/core/config.py [Settings]: the values the modelled code reads. *)
Class Config := {
  ENVIRONMENT : string;
  RAZORPAY_KEY_ID : string;
  RAZORPAY_KEY_SECRET : string;
  RAZORPAY_WEBHOOK_SECRET : string;
  REQUIRE_DOMAIN_VERIFICATION_BEFORE_PURCHASE : bool;
  DOMAIN_TRANSFER_SELLER_DEADLINE_HOURS : Z;
  DOMAIN_TRANSFER_BUYER_DEADLINE_DAYS : Z;
  DOMAIN_TRANSFER_OPS_BATCH_LIMIT : nat;
  DOMAIN_TRANSFER_WHOIS_POLL_HOURS : Z;
  FRONTEND_BASE_URL : string;
  REFERRAL_REWARD_LIMIT_PER_REFERRER_DAILY : Z;
  JWT_REFRESH_TOKEN_PEPPER : string;
  MAIL_CONFIGURED : bool;
  DOMAIN_GST_ENABLED : bool;
  DOMAIN_GST_RATE : py_float;
  DOMAIN_PRICE_GST_INCLUSIVE : bool;
}.

(** ** Remote replies *)

Inductive api_reply (A : Type) :=
| Reply (a : A)
| ConnectionErr
| TimeoutErr
| BadRequestErr (message body : string)
| OtherErr (message body : string).
Arguments Reply {A} a.
Arguments ConnectionErr {A}.
Arguments TimeoutErr {A}.
Arguments BadRequestErr {A} _ _.
Arguments OtherErr {A} _ _.

Record rzp_payment := RzpPayment {
  pay_status : string;
  pay_order_id : string;
  pay_amount : option Z;
  pay_currency : string;
  pay_amount_refunded : Z;
}.

Record rzp_order := RzpOrder {
  ord_amount : option Z;
  ord_currency : string;
  ord_notes : list (string * string);
}.

Record rzp_refund := RzpRefund { rfn_id : option string; rfn_amount : Z }.

Record rzp_api := RzpApi {
  api_order_create : Z -> string -> string -> api_reply string;
  api_payment_fetch : string -> api_reply rzp_payment;
  api_order_fetch : string -> api_reply rzp_order;
  api_refund_list : string -> api_reply (list (option string));
  api_refund : string -> Z -> api_reply rzp_refund;
}.

(** The exception of a failed SDK call that nothing translates. *)
Definition reply_res {A} (r : api_reply A) : res A :=
  match r with
  | Reply a => Ok a
  | ConnectionErr => Raise (OtherError "ConnectionError")
  | TimeoutErr => Raise (OtherError "Timeout")
  | BadRequestErr _ _ => Raise (OtherError "BadRequestError")
  | OtherErr _ _ => Raise (OtherError "Exception")
  end.

Section Client.
Context {cfg : Config}.

Definition is_configured : bool :=
  negb (is_empty RAZORPAY_KEY_ID) && negb (is_empty RAZORPAY_KEY_SECRET).

Definition is_test_mode : bool := startswith RAZORPAY_KEY_ID "rzp_test_".

Definition get_environment : option string :=
  if startswith RAZORPAY_KEY_ID "rzp_test_" then Some "TEST"%string
  else if startswith RAZORPAY_KEY_ID "rzp_live_" then Some "LIVE"%string
  else None.

Definition _TEST_MODE_MAX_ORDER_INR : py_float := fl_of_Z 100000.

Definition _allow_dev_payment_bypass : bool :=
  if bool_decide (lower (strip ENVIRONMENT) = "production"%string) then false else is_test_mode.

Definition _normalize_receipt (receipt : string) : string :=
  str_take 40 (strip (if is_empty receipt then "order"%string else receipt)).

Definition _ZERO_DECIMAL_CURRENCIES : list string :=
  ["BIF"; "CLP"; "DJF"; "GNF"; "ISK"; "JPY"; "KMF"; "KRW"; "PYG"; "RWF"; "UGX"; "VND"; "VUV";
   "XAF"; "XOF"; "XPF"]%string.

Definition _THREE_DECIMAL_CURRENCIES : list string :=
  ["BHD"; "JOD"; "KWD"; "OMR"; "TND"]%string.

Definition _to_smallest_unit (amount : py_float) (currency : string) : res Z :=
  let code := upper currency in
  if bool_decide (code ∈ _ZERO_DECIMAL_CURRENCIES) then py_round_int amount
  else if bool_decide (code ∈ _THREE_DECIMAL_CURRENCIES)
  then py_round_int (fl_mul amount (fl_of_Z 1000))
  else py_round_int (fl_mul amount (fl_of_Z 100)).

(** How [create_order] reports the failure of the SDK call. *)
Definition order_create_error (currency : string) (r : api_reply string) : res string :=
  match r with
  | Reply id => Ok id
  | ConnectionErr => Raise (OtherError "ConnectionError")
  | TimeoutErr => Raise (OtherError "Timeout")
  | BadRequestErr msg body | OtherErr msg body =>
      if contains "maximum amount" (lower msg) || contains "amount exceeds" (lower msg) then
        Raise (ValueError "This purchase amount exceeds the payment gateway limit for instant checkout. Please use Add to Cart or contact support for assisted purchase.")
      else if contains "currency" (lower msg) || contains "unsupported currency" (lower body) then
        Raise (ValueError ("Currency " +:+ upper currency +:+ " is not supported by the payment gateway."))
      else Raise (RuntimeError ("Razorpay order creation failed: " +:+ msg))
  end.

(** The order's id.  [notes] go to the gateway only. *)
Definition create_order (api : rzp_api) (amount_inr : py_float) (receipt currency : string)
    : res string :=
  if negb is_configured then
    Raise (RuntimeError "Razorpay is not configured (RAZORPAY_KEY_ID / RAZORPAY_KEY_SECRET).")
  else if fl_leb amount_inr fl_zero then
    Raise (ValueError "Order amount must be greater than zero.")
  else if is_test_mode && bool_decide (upper currency = "INR"%string)
          && fl_ltb _TEST_MODE_MAX_ORDER_INR amount_inr then
    Raise (ValueError "Amount exceeds Razorpay test-mode limit (INR 100,000). Use live keys for larger payments, or continue via Add to Cart / assisted purchase.")
  else
    try! amount <- _to_smallest_unit amount_inr currency;
    order_create_error currency
      (api_order_create api amount (upper currency) (_normalize_receipt receipt)).

Definition signature_payload (order_id payment_id : string) : string :=
  (order_id +:+ "|" +:+ payment_id)%string.

Definition verify_payment_signature (order_id payment_id signature : string) : res bool :=
  if _allow_dev_payment_bypass && (is_empty signature || startswith signature "mock_") then Ok true
  else if is_empty RAZORPAY_KEY_SECRET then Ok false
  else compare_digest
         (hmac_hexdigest RAZORPAY_KEY_SECRET (signature_payload order_id payment_id)) signature.

Definition verify_webhook_signature (body signature_header : string) : res bool :=
  if is_empty RAZORPAY_WEBHOOK_SECRET then Ok false
  else compare_digest (hmac_hexdigest RAZORPAY_WEBHOOK_SECRET body) signature_header.

Definition fetch_payment (api : rzp_api) (payment_id : string) : res rzp_payment :=
  if negb is_configured then Raise (RuntimeError "Razorpay is not configured.")
  else reply_res (api_payment_fetch api payment_id).

Definition fetch_order (api : rzp_api) (order_id : string) : res rzp_order :=
  if negb is_configured then Raise (RuntimeError "Razorpay is not configured.")
  else reply_res (api_order_fetch api order_id).

Fixpoint note (k : string) (notes : list (string * string)) : string :=
  match notes with
  | [] => EmptyString
  | (k', v) :: notes' => if bool_decide (k = k') then v else note k notes'
  end.

(** [notes.get("buyerId") or notes.get("buyer_id") or ""], stripped. *)
Definition note_buyer (notes : list (string * string)) : string :=
  let b := note "buyerId" notes in strip (if is_empty b then note "buyer_id" notes else b).

Definition assert_captured_payment_for_order (api : rzp_api) (payment_id order_id : string)
    (expected_buyer_id : option string) : res rzp_payment :=
  if _allow_dev_payment_bypass && (is_empty payment_id || startswith payment_id "mock_") then
    Ok (RzpPayment "captured" order_id None "" 0)
  else
    try! payment <- fetch_payment api payment_id;
    let status := lower (pay_status payment) in
    if negb (bool_decide (status ∈ ["captured"; "authorized"]%string)) then
      Raise (ValueError "Payment status is not captured")
    else if negb (bool_decide (pay_order_id payment = order_id)) then
      Raise (ValueError "Payment does not match Razorpay order.")
    else
      try! order <- fetch_order api order_id;
      if match pay_amount payment, ord_amount order with
         | Some a, Some b => negb (a =? b)
         | _, _ => false
         end
      then Raise (ValueError "Payment amount does not match Razorpay order.")
      else
        let pay_currency := upper (pay_currency payment) in
        let order_currency := upper (ord_currency order) in
        if negb (is_empty pay_currency) && negb (is_empty order_currency)
           && negb (bool_decide (pay_currency = order_currency))
        then Raise (ValueError "Payment currency does not match Razorpay order.")
        else
          if truthy expected_buyer_id then
            let buyer := note_buyer (ord_notes order) in
            if is_empty buyer then Raise (ValueError "Payment order is missing buyer binding.")
            else if negb (bool_decide (Some buyer = expected_buyer_id)) then
              Raise (ValueError "Payment order does not belong to this buyer.")
            else Ok payment
          else Ok payment.

Definition _fetch_existing_refund_id (api : rzp_api) (payment_id : string) : option string :=
  match api_refund_list api payment_id with
  | Reply (r :: _) => r
  | _ => None
  end.

Definition refund_payment (api : rzp_api) (payment_id : string) (amount_inr : py_float)
    (currency : string) : Prog rzp_refund :=
  guard_exn is_configured (RuntimeError "Razorpay is not configured.") ;;;
  do payment <- lift_res
    match api_payment_fetch api payment_id with
    | Reply p => Ok p
    | _ => Raise (RuntimeError ("Could not fetch payment " +:+ payment_id +:+ " from Razorpay"))
    end;
  let actual_amount := default 0 (pay_amount payment) in
  let payment_status := lower (pay_status payment) in
  let already_refunded := pay_amount_refunded payment in
  let open_status := bool_decide (payment_status ∈ ["captured"; "authorized"]%string) in
  if bool_decide (payment_status = "refunded"%string)
     || (open_status && (actual_amount <=? already_refunded) && (0 <? actual_amount))
  then
    raise (AlreadyFullyRefunded (_fetch_existing_refund_id api payment_id)
             already_refunded actual_amount)
  else
    guard_exn open_status (ValueError ("Cannot refund payment in '" +:+ payment_status
      +:+ "' status. Only captured or authorized payments can be refunded.")%string) ;;;
    let refundable_paise := Z.max (actual_amount - already_refunded) 0 in
    do requested_paise <- lift_res (_to_smallest_unit amount_inr (upper currency));
    let refund_amount := Z.min requested_paise refundable_paise in
    guard_exn (0 <? refund_amount) (ValueError ("Nothing left to refund. Captured: " +:+ pretty actual_amount
      +:+ " paise, already refunded: " +:+ pretty already_refunded +:+ " paise.")%string) ;;;
    emit (RazorpayRefund payment_id refund_amount) ;;;
    match api_refund api payment_id refund_amount with
    | Reply refund =>
        if match rfn_id refund with Some id => startswith id "rfnd_" | None => false end
        then ret refund
        else raise (RuntimeError "Razorpay returned unexpected refund response")
    | BadRequestErr msg _ => raise (ValueError ("Razorpay rejected refund: " +:+ msg))
    | _ => raise (RuntimeError "Razorpay refund API call failed")
    end.

(** *** resolve_payment_environment: the process-local cache *)

Definition _PAYMENT_ENV_CACHE_TTL_SECONDS : Z := 600.

Definition payment_env_cache := gmap string (Z * option string).

(** [now] and [later] are the two readings of [time.monotonic] in seconds; a
    [BadRequestErr] of the fetch means the payment belongs to the other mode. *)
Definition resolve_payment_environment (api : rzp_api) (now later : Z) (payment_id : string)
    (cache : payment_env_cache) : option string * payment_env_cache :=
  let pid := strip payment_id in
  if is_empty pid then (None, cache)
  else
    let cached :=
      match cache !! pid with
      | Some (t, v) => if now - t <? _PAYMENT_ENV_CACHE_TTL_SECONDS then Some v else None
      | None => None
      end in
    match cached with
    | Some v => (v, cache)
    | None =>
        match get_environment with
        | None => (None, cache)
        | Some current =>
            if negb is_configured then (None, cache)
            else
              let resolved :=
                match api_payment_fetch api pid with
                | Reply _ => Some current
                | BadRequestErr _ _ =>
                    Some (if bool_decide (current = "LIVE"%string) then "TEST"%string
                          else "LIVE"%string)
                | _ => None
                end in
              (resolved, <[pid := (later, resolved)]> cache)
        end
    end.

(** ** Lemmas *)

Lemma committed_refund_payment api pid amt cur : keeps_committed (refund_payment api pid amt cur).
Proof. unfold refund_payment. frame. Qed.

Lemma db_refund_payment {T} (view : DB -> T) api pid amt cur :
  preserves (db_view view) (refund_payment api pid amt cur).
Proof. unfold refund_payment. frame. Qed.

Lemma create_order_positive api amt rc cur id :
  create_order api amt rc cur = Ok id -> fl_leb amt fl_zero = false /\ is_configured = true.
Proof. unfold create_order. repeat case_match; intros; simplify_eq; by destruct is_configured. Qed.

(** What a verified signature means: unless the test-mode shortcut applies, the
    signature is the HMAC of the order and payment ids under the key secret. *)
Lemma verify_payment_signature_true order_id payment_id signature :
  verify_payment_signature order_id payment_id signature = Ok true ->
  _allow_dev_payment_bypass = true /\ (signature = EmptyString \/ startswith signature "mock_" = true)
  \/ RAZORPAY_KEY_SECRET <> EmptyString /\
     signature = hmac_hexdigest RAZORPAY_KEY_SECRET (signature_payload order_id payment_id).
Proof.
  unfold verify_payment_signature.
  destruct _allow_dev_payment_bypass; simpl.
  - destruct (is_empty signature) eqn:He; simpl.
    { apply is_empty_true in He. auto. }
    destruct (startswith signature "mock_") eqn:Hm; simpl; [by auto|].
    destruct (is_empty RAZORPAY_KEY_SECRET) eqn:Hs; [done|]. intros H%compare_digest_true.
    right. split; [|done]. intros Hk. by apply is_empty_true in Hk; rewrite Hk in Hs.
  - destruct (is_empty RAZORPAY_KEY_SECRET) eqn:Hs; [done|]. intros H%compare_digest_true.
    right. split; [|done]. intros Hk. by apply is_empty_true in Hk; rewrite Hk in Hs.
Qed.
End Client.

#[export] Hint Resolve committed_refund_payment db_refund_payment : frame.

(** A configuration for the witnesses. *)
Module Production.

#[export] Instance config : Config := {|
  ENVIRONMENT := "production"; RAZORPAY_KEY_ID := "rzp_live_k"; RAZORPAY_KEY_SECRET := "secret";
  RAZORPAY_WEBHOOK_SECRET := "hook"; REQUIRE_DOMAIN_VERIFICATION_BEFORE_PURCHASE := true;
  DOMAIN_TRANSFER_SELLER_DEADLINE_HOURS := 24; DOMAIN_TRANSFER_BUYER_DEADLINE_DAYS := 7;
  DOMAIN_TRANSFER_OPS_BATCH_LIMIT := 50%nat; DOMAIN_TRANSFER_WHOIS_POLL_HOURS := 6;
  FRONTEND_BASE_URL := "https://www.deltapreneur.com/"; REFERRAL_REWARD_LIMIT_PER_REFERRER_DAILY := 50;
  JWT_REFRESH_TOKEN_PEPPER := "pepper"; MAIL_CONFIGURED := true;
  DOMAIN_GST_ENABLED := true; DOMAIN_GST_RATE := fl_of_Z 18; DOMAIN_PRICE_GST_INCLUSIVE := false |}.
End Production.
