(* ===== verification/Settings.v ===== *)
(** * Platform settings

    app/repository/platform_settings_repository.py and
    app/service/platform/platform_settings_service.py: the admin-editable key-value
    table and the typed fees and percentages kept in it. *)

From Stdlib Require Import Ascii.
From S2P Require Import Prelude PyNum Text Store.

(** ** float(text) *)

Definition digit_of (c : Ascii.ascii) : option Z :=
  let n := Z.of_nat (Ascii.nat_of_ascii c) in
  if (48 <=? n) && (n <=? 57) then Some (n - 48) else None.

(** Digits with single underscores between them: value, count, rest of the text. *)
Fixpoint read_digits (seen : bool) (acc count : Z) (s : string) : Z * Z * string :=
  match s with
  | String c s' =>
      match digit_of c with
      | Some d => read_digits true (10 * acc + d) (count + 1) s'
      | None =>
          match s' with
          | String c' s'' =>
              match (if seen && Ascii.eqb c "_"%char then digit_of c' else None) with
              | Some d => read_digits true (10 * acc + d) (count + 1) s''
              | None => (acc, count, s)
              end
          | EmptyString => (acc, count, s)
          end
      end
  | EmptyString => (acc, count, s)
  end.

Definition read_sign (s : string) : bool * string :=
  match s with
  | String c s' => if Ascii.eqb c "-"%char then (true, s') else if Ascii.eqb c "+"%char then (false, s') else (false, s)
  | EmptyString => (false, s)
  end.

(** The exponent part, if the text is one entirely. *)
Definition read_exponent (s : string) : option Z :=
  match s with
  | EmptyString => Some 0
  | String c s' =>
      if Ascii.eqb c "e"%char || Ascii.eqb c "E"%char then
        let '(neg, s1) := read_sign s' in
        match read_digits false 0 0 s1 with
        | (n, count, EmptyString) => if 0 <? count then Some (if neg : bool then - n else n) else None
        | _ => None
        end
      else None
  end.

Definition float_of_decimal (negative : bool) (d : decimal) : py_float :=
  let x := fl_of_dec d in if negative then fl_neg x else x.

(** [float(text)]; [None] is a ValueError. *)
Definition float_of_text (text : string) : option py_float :=
  let '(negative, s) := read_sign (strip text) in
  if bool_decide (lower s ∈ ["inf"; "infinity"]%string) then Some (fl_inf negative)
  else if bool_decide (lower s = "nan"%string) then Some fl_nan
  else
    let '(int_part, n_int, rest) := read_digits false 0 0 s in
    let '(coefficient, n_frac, rest') :=
      match rest with
      | String c rest1 =>
          if Ascii.eqb c "."%char then
            let '(f, k, rest2) := read_digits false int_part 0 rest1 in (f, k, rest2)
          else (int_part, 0, rest)
      | EmptyString => (int_part, 0, rest)
      end in
    if n_int + n_frac <=? 0 then None
    else
      match read_exponent rest' with
      | Some e => Some (float_of_decimal negative (Dec coefficient (e - n_frac)))
      | None => None
      end.

Example float_of_text_118 : float_of_text " 118.0 " = Some (fl_of_Z 118).
Proof. vm_compute. reflexivity. Qed.
Example float_of_text_exp : float_of_text "-1_5e-1" = Some (fl_of_dec (Dec (-15) (-1))).
Proof. vm_compute. reflexivity. Qed.
Example float_of_text_bad : float_of_text "12,5" = None /\ float_of_text "" = None.
Proof. vm_compute. split; reflexivity. Qed.

Definition setting_float (v : setting_value) : option py_float :=
  match v with
  | SvFloat x => Some x
  | SvJson (JNum x) => Some x
  | SvJson (JInt z) => Some (fl_of_Z z)
  | SvJson _ => None
  | SvText s => float_of_text s
  end.

(** ** platform_settings_repository.py *)

Definition get_setting (key : string) : Prog (option setting_value) :=
  gets (fun d => settings d !! key).

Definition insert_if_absent (key : string) (value : setting_value) : Prog unit :=
  modify (fun d => d <| settings ::= fun t => match t !! key with Some _ => t | None => <[key := value]> t end |>).

(** One row update; [updated_at] reads the clock. *)
Definition set_setting (key : string) (value : setting_value) : Prog unit :=
  do _ <- utc_now;
  modify (fun d => d <| settings ::= <[key := value]> |>).

(** ** platform_settings_service.py *)

Definition KEY_DOMAIN_PARTICIPATION_FEE : string := "domain_auction_participation_fee_inr".
Definition KEY_SOFTWARE_PARTICIPATION_FEE : string := "software_auction_participation_fee_inr".
Definition KEY_COMMUNITY_PARTICIPATION_FEE : string := "community_auction_participation_fee_inr".
Definition KEY_LISTING_COMMISSION_PERCENT : string := "listing_commission_percent".
Definition KEY_AUCTION_CREATION_FEE : string := "auction_creation_fee_inr".
Definition KEY_AUCTION_BID_FEE : string := "auction_bid_fee_inr".
Definition KEY_VENTURE_ACQUISITION_COMMISSION : string := "venture_acquisition_commission_percent".
Definition KEY_SOFTWARE_ONETIME_COMMISSION : string := "software_onetime_commission_percent".
Definition KEY_HARDWARE_ONETIME_COMMISSION : string := "hardware_onetime_commission_percent".
Definition KEY_HARDWARE_SUBSCRIPTION_COMMISSION : string := "hardware_subscription_commission_percent".

Definition DEFAULT_PARTICIPATION_FEE : py_float := fl_of_Z 118.
Definition DEFAULT_LISTING_COMMISSION_PERCENT : py_float := fl_of_Z 15.
Definition DEFAULT_AUCTION_CREATION_FEE : py_float := fl_of_Z 118.
Definition DEFAULT_AUCTION_BID_FEE : py_float := fl_of_Z 20.
Definition DEFAULT_VENTURE_ACQUISITION_COMMISSION : py_float := fl_of_Z 3.
Definition DEFAULT_SOFTWARE_ONETIME_COMMISSION : py_float := fl_of_Z 15.
Definition DEFAULT_HARDWARE_ONETIME_COMMISSION : py_float := fl_of_Z 15.
Definition DEFAULT_HARDWARE_SUBSCRIPTION_COMMISSION : py_float := fl_of_Z 15.

Definition _get_float (key : string) (default_ : py_float) : Prog py_float :=
  do raw <- get_setting key;
  ret match raw with
      | None => default_
      | Some v => default default_ (setting_float v)
      end.

Definition domain_participation_fee_inr : Prog py_float :=
  _get_float KEY_DOMAIN_PARTICIPATION_FEE DEFAULT_PARTICIPATION_FEE.
Definition software_participation_fee_inr : Prog py_float :=
  _get_float KEY_SOFTWARE_PARTICIPATION_FEE DEFAULT_PARTICIPATION_FEE.
Definition community_participation_fee_inr : Prog py_float :=
  _get_float KEY_COMMUNITY_PARTICIPATION_FEE DEFAULT_PARTICIPATION_FEE.
Definition listing_commission_percent : Prog py_float :=
  _get_float KEY_LISTING_COMMISSION_PERCENT DEFAULT_LISTING_COMMISSION_PERCENT.
Definition auction_creation_fee_inr : Prog py_float :=
  _get_float KEY_AUCTION_CREATION_FEE DEFAULT_AUCTION_CREATION_FEE.
Definition auction_bid_fee_inr : Prog py_float :=
  _get_float KEY_AUCTION_BID_FEE DEFAULT_AUCTION_BID_FEE.
Definition venture_acquisition_commission_percent : Prog py_float :=
  _get_float KEY_VENTURE_ACQUISITION_COMMISSION DEFAULT_VENTURE_ACQUISITION_COMMISSION.
Definition software_onetime_commission_percent : Prog py_float :=
  _get_float KEY_SOFTWARE_ONETIME_COMMISSION DEFAULT_SOFTWARE_ONETIME_COMMISSION.
Definition hardware_onetime_commission_percent : Prog py_float :=
  _get_float KEY_HARDWARE_ONETIME_COMMISSION DEFAULT_HARDWARE_ONETIME_COMMISSION.
Definition hardware_subscription_commission_percent : Prog py_float :=
  _get_float KEY_HARDWARE_SUBSCRIPTION_COMMISSION DEFAULT_HARDWARE_SUBSCRIPTION_COMMISSION.

(** Set [key] to the given value, if any, after checking its range. *)
Definition set_checked (lo hi : Z) (message key : string) (value : option py_float) : Prog unit :=
  match value with
  | None => ret tt
  | Some v =>
      guard_exn (negb (fl_ltb v (fl_of_Z lo) || fl_ltb (fl_of_Z hi) v)) (ValueError message) ;;;
      set_setting key (SvFloat v)
  end.

Definition set_fee (message key : string) : option py_float -> Prog unit :=
  set_checked 1 100000 (message +:+ " must be between ₹1 and ₹100,000.") key.
Definition set_percent (message key : string) : option py_float -> Prog unit :=
  set_checked 0 100 (message +:+ " must be between 0% and 100%.") key.

Definition update_software_auction_config (participation_fee_inr : option py_float) : Prog unit :=
  set_fee "Participation fee" KEY_SOFTWARE_PARTICIPATION_FEE participation_fee_inr ;;;
  commit.

Definition update_all_participation_fees (domain_fee_inr software_fee_inr community_fee_inr : option py_float)
    : Prog unit :=
  set_fee "Domain auction participation fee" KEY_DOMAIN_PARTICIPATION_FEE domain_fee_inr ;;;
  set_fee "Software auction participation fee" KEY_SOFTWARE_PARTICIPATION_FEE software_fee_inr ;;;
  set_fee "Community auction participation fee" KEY_COMMUNITY_PARTICIPATION_FEE community_fee_inr ;;;
  commit.

(** The keyword arguments of [update_listing_fees_and_charges]. *)
Record fees_update := FeesUpdate {
  fu_listing_commission_percent : option py_float;
  fu_venture_acquisition_commission_percent : option py_float;
  fu_auction_creation_fee_inr : option py_float;
  fu_auction_bid_fee_inr : option py_float;
  fu_domain_participation_fee_inr : option py_float;
  fu_software_participation_fee_inr : option py_float;
  fu_community_participation_fee_inr : option py_float;
  fu_software_onetime_commission_percent : option py_float;
  fu_hardware_onetime_commission_percent : option py_float;
  fu_hardware_subscription_commission_percent : option py_float;
}.

Definition is_some {A} (o : option A) : bool := match o with Some _ => true | None => false end.

Definition update_listing_fees_and_charges (u : fees_update) : Prog unit :=
  set_percent "Listing commission" KEY_LISTING_COMMISSION_PERCENT (fu_listing_commission_percent u) ;;;
  set_percent "Venture acquisition commission" KEY_VENTURE_ACQUISITION_COMMISSION
    (fu_venture_acquisition_commission_percent u) ;;;
  set_fee "Auction creation fee" KEY_AUCTION_CREATION_FEE (fu_auction_creation_fee_inr u) ;;;
  set_fee "Auction bid fee" KEY_AUCTION_BID_FEE (fu_auction_bid_fee_inr u) ;;;
  set_percent "Software One-Time commission" KEY_SOFTWARE_ONETIME_COMMISSION
    (fu_software_onetime_commission_percent u) ;;;
  set_percent "Hardware One-Time commission" KEY_HARDWARE_ONETIME_COMMISSION
    (fu_hardware_onetime_commission_percent u) ;;;
  set_percent "Hardware Subscription commission" KEY_HARDWARE_SUBSCRIPTION_COMMISSION
    (fu_hardware_subscription_commission_percent u) ;;;
  when (is_some (fu_domain_participation_fee_inr u) || is_some (fu_software_participation_fee_inr u)
        || is_some (fu_community_participation_fee_inr u))
    (update_all_participation_fees (fu_domain_participation_fee_inr u)
       (fu_software_participation_fee_inr u) (fu_community_participation_fee_inr u)) ;;;
  commit.

Definition update_technology_commissions
    (software_onetime hardware_onetime hardware_subscription : option py_float) : Prog unit :=
  set_percent "Software One-Time commission" KEY_SOFTWARE_ONETIME_COMMISSION software_onetime ;;;
  set_percent "Hardware One-Time commission" KEY_HARDWARE_ONETIME_COMMISSION hardware_onetime ;;;
  set_percent "Hardware Subscription commission" KEY_HARDWARE_SUBSCRIPTION_COMMISSION
    hardware_subscription ;;;
  commit.

(** ** Lemmas *)

Lemma get_float_run key dflt s :
  _get_float key dflt s
  = (Ok match settings (s_db s) !! key with
        | None => dflt
        | Some v => default dflt (setting_float v)
        end, s).
Proof. done. Qed.

Lemma committed_get_float key dflt : keeps_committed (_get_float key dflt).
Proof. unfold _get_float, get_setting. frame. Qed.

Lemma committed_set_setting key v : keeps_committed (set_setting key v).
Proof. unfold set_setting. frame. Qed.

#[export] Hint Resolve committed_get_float committed_set_setting : frame.
