(* ===== verification/EdgePoints.v ===== *)
(** * Edge points

    app/service/user/edge_points_service.py: the reward wallet.  Referral rewards
    credit it once per (referrer, item, visitor); checkouts reserve points in a
    PENDING redemption when the order is created and debit them when the payment
    is verified.  The database schema is the migrated one (share001), so the
    pre-migration fallback is not modelled. *)

From stdpp Require Import sorting.
From S2P Require Import Prelude PyNum Text Sha256 Store.

(** app/entity/share/share_link.py *)
Module ShareType.
Inductive t := MARKETPLACE | DOMAIN_SEARCH | AI_BRAND_DOMAIN.
End ShareType.

Record ShareLink := MkShare {
  sl_id : string;
  sl_share_type : ShareType.t;
  sl_referrer_id : option string;
  sl_domain : option string;
  sl_referrer_visitor_key : option string;
}.

Definition _SHARE_TYPE_LABELS (t : ShareType.t) : string :=
  match t with
  | ShareType.MARKETPLACE => "Marketplace"
  | ShareType.DOMAIN_SEARCH => "Domain Search"
  | ShareType.AI_BRAND_DOMAIN => "AI Brand Name"
  end.

(** ** Wallet *)

Definition history_of (uid : string) (d : DB) : list EdgePointsHistory :=
  select_where (fun h => bool_decide (h_user_id h = uid)) (points_history d).

Record wallet_summary := WalletSummary {
  ws_current_points : Z;
  ws_worth_inr : py_float;
  ws_total_earned : Z;
  ws_total_redeemed : Z;
}.

Definition get_wallet_summary (user : AppUser) : Prog wallet_summary :=
  do hs <- gets (history_of (u_id user));
  let current_points := u_edge_points user in
  let total_earned := sum_list (fun h => if 0 <? h_points h then h_points h else 0) hs in
  let total_redeemed :=
    Z.abs (sum_list (fun h => if h_points h <? 0 then h_points h else 0) hs) in
  ret (WalletSummary current_points (fl_div (fl_of_Z current_points) (fl_of_Z 10))
         total_earned total_redeemed).

(** Points reserved by the user's PENDING redemptions. *)
Definition pending_of (uid : string) (r : EdgePointsRedemption) : Z :=
  if bool_decide (rd_user_id r = uid) && bool_decide (rd_status r = RedemptionStatus.PENDING)
  then rd_edge_points_redeemed r else 0.

Definition pending_points (uid : string) (d : DB) : Z := sum_map (pending_of uid) (redemptions d).

Definition calculate_redemption (user : AppUser) (order_amount_inr : py_float)
    (redeem_requested : bool) : Prog (py_float * Z) :=
  if negb redeem_requested || fl_leb order_amount_inr fl_zero then ret (order_amount_inr, 0)
  else
    do pending <- gets (pending_points (u_id user));
    let available_points := Z.max 0 (u_edge_points user - pending) in
    if available_points <=? 0 then ret (order_amount_inr, 0)
    else
      do worth <- lift_res (py_round_int (fl_mul order_amount_inr (fl_of_Z 10)));
      let max_points_redeemable := Z.min (Z.min 5000 available_points) worth in
      let rupees_discount := fl_div (fl_of_Z max_points_redeemable) (fl_of_Z 10) in
      ret (fl_max fl_zero (fl_sub order_amount_inr rupees_discount), max_points_redeemable).

Definition create_pending_redemption (user_id razorpay_order_id : string) (points : Z)
    : Prog unit :=
  if points <=? 0 then ret tt
  else
    do id <- uuid4;
    insert_new redemptions (fun t => set redemptions (fun _ => t)) "edge_points_redemptions"
      razorpay_order_id
      (MkRedemption id user_id razorpay_order_id points RedemptionStatus.PENDING) ;;;
    commit.

Definition get_pending_redemption (razorpay_order_id : string) (d : DB)
    : option EdgePointsRedemption :=
  match redemptions d !! razorpay_order_id with
  | Some r => if bool_decide (rd_status r = RedemptionStatus.PENDING) then Some r else None
  | None => None
  end.

Definition put_redemption (r : EdgePointsRedemption) (d : DB) : DB :=
  d <| redemptions ::= fun t => <[rd_razorpay_order_id r := r]> t |>.
Definition put_user (u : AppUser) (d : DB) : DB :=
  d <| users ::= fun t => <[u_id u := u]> t |>.

Definition add_history (user_id : string) (points : Z) (ty : EdgePointsTransactionType.t)
    (description : string) : Prog unit :=
  do id <- uuid4;
  do now <- utc_now;
  modify (fun d => d <| points_history ::= fun t =>
                     t ++ [MkHistory id user_id points ty description now] |>).

Definition confirm_redemption (razorpay_order_id : string) : Prog unit :=
  do redemption <- gets (get_pending_redemption razorpay_order_id);
  match redemption with
  | None => ret tt
  | Some r =>
      modify (put_redemption (r <| rd_status := RedemptionStatus.COMPLETED |>)) ;;;
      do user <- gets (fun d => users d !! rd_user_id r);
      match user with
      | None => raise (SQLAlchemyError "NoResultFound")
      | Some u =>
          modify (put_user
            (u <| u_edge_points ::= fun p => Z.max 0 (p - rd_edge_points_redeemed r) |>)) ;;;
          add_history (rd_user_id r) (- rd_edge_points_redeemed r)
            EdgePointsTransactionType.CHECKOUT_REDEEM
            ("Redeemed " +:+ pretty (rd_edge_points_redeemed r) +:+ " points on purchase") ;;;
          commit
      end
  end.

Definition cancel_redemption (razorpay_order_id : string) : Prog unit :=
  do redemption <- gets (get_pending_redemption razorpay_order_id);
  match redemption with
  | None => ret tt
  | Some r =>
      modify (put_redemption (r <| rd_status := RedemptionStatus.FAILED |>)) ;;;
      commit
  end.

(** ** Referrals *)

(** The partial unique index the INSERT can conflict on. *)
Definition conflicts (referrer_id item_key : string) (visitor_id : option string)
    (visitor_key : string) (r : ReferralTrack) : bool :=
  bool_decide (rt_referrer_id r = referrer_id) && bool_decide (rt_item_key r = Some item_key) &&
  match visitor_id with
  | Some v => bool_decide (rt_visitor_id r = Some v)
  | None => bool_decide (rt_visitor_id r = None) && bool_decide (rt_visitor_key r = Some visitor_key)
  end.

Definition _atomic_track_insert (referrer_id item_key : string) (share_link_id : option string)
    (listing_id listing_type visitor_ip : string) (visitor_id : option string)
    (visitor_key : string) (points : Z) : Prog (option string) :=
  do tracks <- gets referral_tracks;
  if existsb (conflicts referrer_id item_key visitor_id visitor_key) tracks then ret None
  else
    do id <- uuid4;
    do now <- utc_now;
    modify (fun d => d <| referral_tracks ::= fun t =>
      t ++ [MkTrack id referrer_id listing_id listing_type visitor_ip visitor_id points
              share_link_id (Some item_key) (Some visitor_key) now] |>) ;;;
    ret (Some id).

Definition _award_referrer_points (referrer : AppUser) (points : Z) (description : string)
    : Prog unit :=
  modify (put_user (referrer <| u_edge_points ::= fun p => p + points |>)) ;;;
  add_history (u_id referrer) points EdgePointsTransactionType.REFERRAL_EARN description ;;;
  emit (PersonalEvent (u_id referrer) [("event", JStr "notification_created")]%string).

Record track_response := TrackResponse {
  tr_success : bool;
  tr_points_awarded : Z;
  tr_message : string;
}.

Definition _track_response (points : Z) (message : option string) : track_response :=
  TrackResponse true points
    match message with
    | Some m => m
    | None => if 0 <? points then "Referral tracked successfully"
              else "Referral tracked (no points awarded - duplicate or self-click)"
    end.

(** The end both entry points share: dedupe, daily limit, award.  [reward_allowed]
    is the answer of referral_rate_limiter.check_reward. *)
Definition finish_track (referrer : AppUser) (inserted_id : option string)
    (reward_allowed : bool) (description : string) : Prog track_response :=
  match inserted_id with
  | None => commit ;;; ret (_track_response 0 None)
  | Some id =>
      if negb reward_allowed then
        modify (fun d => d <| referral_tracks ::=
          update_where (fun r => bool_decide (rt_id r = id)) (fun r => r <| rt_points_awarded := 0 |>) |>) ;;;
        commit ;;;
        ret (_track_response 0 (Some "Referral tracked (daily reward limit reached)"%string))
      else
        _award_referrer_points referrer 20 description ;;;
        commit ;;;
        ret (_track_response 20 None)
  end.

Definition refuse (message : string) : track_response := TrackResponse false 0 message.

Definition track_referral (referrer_id listing_id listing_type visitor_ip : string)
    (visitor_user : option AppUser) (reward_allowed : bool) : Prog track_response :=
  do referrer <- gets (fun d => users d !! referrer_id);
  match referrer with
  | None => ret (refuse "Referrer not found")
  | Some referrer =>
      if bool_decide (option_map u_id visitor_user = Some referrer_id) then
        ret (refuse "Self-referrals are not rewarded")
      else
        let item_key := (listing_type +:+ ":" +:+ listing_id)%string in
        let visitor_key := default visitor_ip (option_map u_id visitor_user) in
        do inserted_id <- _atomic_track_insert referrer_id item_key None listing_id listing_type
          visitor_ip (option_map u_id visitor_user) visitor_key 20;
        finish_track referrer inserted_id reward_allowed
          ("Earned 20 points from referring " +:+ capitalize listing_type +:+ " listing")
  end.

Definition track_share_referral (share : ShareLink) (visitor_ip : string)
    (visitor_user : option AppUser) (visitor_key_from_cookie : option string)
    (reward_allowed : bool) : Prog track_response :=
  do referrer <- gets (fun d => sl_referrer_id share ≫= fun r => users d !! r);
  match referrer with
  | None => ret (refuse "Anonymous share has no referrer - no reward")
  | Some referrer =>
      let visitor := option_map u_id visitor_user in
      if bool_decide (visitor <> None) && bool_decide (visitor = sl_referrer_id share) then
        ret (refuse "Self-referrals are not rewarded")
      else if bool_decide (visitor = None) && truthy (sl_referrer_visitor_key share)
              && truthy visitor_key_from_cookie
              && bool_decide (sl_referrer_visitor_key share = visitor_key_from_cookie) then
        ret (refuse "Self-referrals are not rewarded")
      else
        let domain := lower (default EmptyString (sl_domain share)) in
        if is_empty domain then ret (refuse "Shared item is missing")
        else
          let visitor_key := default (str_or visitor_key_from_cookie visitor_ip) visitor in
          let item_key := ("domain:" +:+ domain)%string in
          let listing_id := uuid5 NAMESPACE_URL ("cobrother-share:" +:+ item_key) in
          do inserted_id <- _atomic_track_insert (u_id referrer) item_key (Some (sl_id share))
            listing_id "domain" visitor_ip visitor visitor_key 20;
          finish_track referrer inserted_id reward_allowed
            ("Earned 20 points from " +:+ _SHARE_TYPE_LABELS (sl_share_type share) +:+ " share")
  end.

(** Newest first, for the history endpoints. *)
Definition get_wallet_history (user : AppUser) : Prog (list EdgePointsHistory) :=
  gets (fun d => merge_sort (by_desc h_created_at) (history_of (u_id user) d)).

Definition get_referral_history (user : AppUser) : Prog (list ReferralTrack) :=
  gets (fun d => merge_sort (by_desc rt_created_at)
    (select_where (fun r => bool_decide (rt_referrer_id r = u_id user) && (0 <? rt_points_awarded r))
       (referral_tracks d))).

(** ** Lemmas *)

Lemma calculate_redemption_pure user amt req s :
  (calculate_redemption user amt req s).2 = s.
Proof.
  unfold calculate_redemption, bind, gets, lift_res. by repeat (case_match; simpl).
Qed.

Lemma calculate_redemption_cases user amt req s f pts s' :
  calculate_redemption user amt req s = (Ok (f, pts), s') ->
  s' = s /\
  ((pts = 0 /\ f = amt) \/
   exists w,
     req = true /\ fl_leb amt fl_zero = false /\
     py_round_int (fl_mul amt (fl_of_Z 10)) = Ok w /\
     0 < u_edge_points user - pending_points (u_id user) (s_db s) /\
     pts = Z.min (Z.min 5000 (u_edge_points user - pending_points (u_id user) (s_db s))) w /\
     f = fl_max fl_zero (fl_sub amt (fl_div (fl_of_Z pts) (fl_of_Z 10)))).
Proof.
  unfold calculate_redemption. destruct req; simpl.
  2:{ intros [= <- <- <-]. auto. }
  destruct (fl_leb amt fl_zero) eqn:Hle; [intros [= <- <- <-]; by auto|].
  unfold bind, gets. destruct (Z.leb_spec (Z.max 0 (u_edge_points user -
    pending_points (u_id user) (s_db s))) 0); [intros [= <- <- <-]; by auto|].
  unfold lift_res. destruct (py_round_int _) as [w|] eqn:Hw; [|done].
  intros [= <- <- <-]. split; [done|]. right. exists w.
  rewrite Z.max_r in * by lia. repeat split; auto; lia.
Qed.

(** *** What the wallet operations commit *)

(** The database once the points reserved for an order are spent: the redemption
    is completed, its user's balance is lowered by its points and one line is
    added to the history; nothing without a pending redemption. *)
Definition points_spent (oid history_id : string) (at_time : Z) (d : DB) : DB :=
  match get_pending_redemption oid d with
  | Some r =>
      match users d !! rd_user_id r with
      | Some u =>
          (put_user (u <| u_edge_points ::= fun p => Z.max 0 (p - rd_edge_points_redeemed r) |>)
             (put_redemption (r <| rd_status := RedemptionStatus.COMPLETED |>) d))
          <| points_history ::= fun t => t ++
               [MkHistory history_id (rd_user_id r) (- rd_edge_points_redeemed r)
                  EdgePointsTransactionType.CHECKOUT_REDEEM
                  ("Redeemed " +:+ pretty (rd_edge_points_redeemed r) +:+ " points on purchase")
                  at_time] |>
      | None => d
      end
  | None => d
  end.

Lemma run_confirm clock ids oid d :
  (run_request clock ids (confirm_redemption oid) d).2 = points_spent oid (ids 0%nat) (clock 0%nat) d.
Proof.
  unfold run_request, points_spent, confirm_redemption, add_history, bind, gets, modify, uuid4, utc_now, commit.
  cbn [open_session s_db]. destruct (get_pending_redemption oid d) as [r|]; [|done].
  cbn. by destruct (users d !! rd_user_id r).
Qed.

Lemma run_cancel clock ids oid d :
  (run_request clock ids (cancel_redemption oid) d).2 =
  match get_pending_redemption oid d with
  | Some r => put_redemption (r <| rd_status := RedemptionStatus.FAILED |>) d
  | None => d
  end.
Proof.
  unfold run_request, cancel_redemption, bind, gets. cbn [open_session s_db].
  by destruct (get_pending_redemption oid d).
Qed.

Lemma run_reserve clock ids uid oid pts d :
  (run_request clock ids (create_pending_redemption uid oid pts) d).2 =
  if (0 <? pts) && bool_decide (redemptions d !! oid = None)
  then put_redemption (MkRedemption (ids 0%nat) uid oid pts RedemptionStatus.PENDING) d
  else d.
Proof.
  unfold run_request, create_pending_redemption, insert_new, bind, gets, uuid4.
  rewrite Z.ltb_antisym. destruct (pts <=? 0); [done|]. cbn.
  by destruct (redemptions d !! oid) eqn:Ho.
Qed.

(** The wallet after a referral reward. *)
Definition awarded (referrer : AppUser) (h : EdgePointsHistory) (d : DB) : DB :=
  (put_user (referrer <| u_edge_points ::= fun p => p + 20 |>) d)
    <| points_history ::= fun t => t ++ [h] |>.

(** The key is in the track table. *)
Definition tracked (referrer_id item_key : string) (visitor_id : option string)
    (visitor_key : string) (ts : list ReferralTrack) : bool :=
  existsb (conflicts referrer_id item_key visitor_id visitor_key) ts.
Arguments tracked : simpl never.

(** A referral entry point commits a changed track table, with at most one reward
    of 20 points to a stored referrer. *)
Definition referral_effect (d d' : DB) : Prop :=
  exists ts, (forall a b c e, tracked a b c e (referral_tracks d) = true -> tracked a b c e ts = true) /\
  (d' = d <| referral_tracks := ts |> \/
  exists rid referrer h, users d !! rid = Some referrer /\ h_points h = 20 /\
    h_user_id h = u_id referrer /\ d' = awarded referrer h (d <| referral_tracks := ts |>)).

Lemma referral_effect_refl d : referral_effect d d.
Proof. exists (referral_tracks d). split; [done|]. left. by destruct d. Qed.

Lemma tracked_zero a b c e p ts :
  tracked a b c e (update_where p (fun r => r <| rt_points_awarded := 0 |>) ts) = tracked a b c e ts.
Proof.
  unfold tracked, update_where. induction ts as [|t ts IH]; [done|].
  cbn [map existsb]. f_equal; [by destruct (p t)|exact IH].
Qed.

Lemma tracked_app a b c e ts t :
  tracked a b c e (ts ++ [t]) = tracked a b c e ts || conflicts a b c e t.
Proof. unfold tracked. rewrite existsb_app. simpl. by rewrite orb_false_r. Qed.

Lemma run_finish clock ids rid referrer points visitor rkey allowed desc d
    (share listing lty ip : string) (sl : option string) ikey :
  users d !! rid = Some referrer ->
  referral_effect d
    (run_request clock ids
       (do i <- _atomic_track_insert share ikey sl listing lty ip visitor rkey points;
        finish_track referrer i allowed desc) d).2.
Proof.
  intros Hu. unfold run_request, _atomic_track_insert, finish_track, _award_referrer_points,
    add_history, bind, gets, uuid4, utc_now, modify, commit, emit, ret, when, guard_exn.
  cbn [open_session s_db s_committed s_ids s_clock].
  destruct (existsb _ _); cbn; [apply referral_effect_refl|].
  destruct allowed; cbn; eexists; (split; [|first [left; by destruct d|right]]).
  2:{ exists rid, referrer. eexists. split_and!; [done| | |unfold awarded; cbn; reflexivity]; done. }
  all: intros a b c e Ht; rewrite ?tracked_zero, tracked_app, Ht; done.
Qed.

(** Afterwards the key is tracked; it is not rewarded if it was already. *)
Lemma run_finish_tracked clock ids referrer points visitor rkey allowed desc d
    (share listing lty ip : string) (sl : option string) ikey :
  let out := run_request clock ids
       (do i <- _atomic_track_insert share ikey sl listing lty ip visitor rkey points;
        finish_track referrer i allowed desc) d in
  tracked share ikey visitor rkey (referral_tracks out.2) = true /\
  (tracked share ikey visitor rkey (referral_tracks d) = true ->
   out = (Ok (_track_response 0 None), d)).
Proof.
  unfold run_request, _atomic_track_insert, finish_track, _award_referrer_points,
    add_history, bind, gets, uuid4, utc_now, modify, commit, emit, ret, when, guard_exn.
  cbn [open_session s_db s_committed s_ids s_clock]. fold (tracked share ikey visitor rkey).
  fold (tracked share ikey visitor rkey (referral_tracks d)).
  destruct (tracked share ikey visitor rkey (referral_tracks d)) eqn:Ht; cbn; [by rewrite Ht|].
  split; [|done].
  assert (forall t, conflicts share ikey visitor rkey
      (MkTrack t share listing lty ip visitor points sl (Some ikey) (Some rkey) (clock 0%nat)) = true).
  { intros t. unfold conflicts. cbn. destruct visitor; by rewrite !bool_decide_eq_true_2. }
  destruct allowed; cbn; rewrite ?tracked_zero, tracked_app, Ht; simpl; auto.
Qed.

Lemma run_track_referral clock ids rid listing lty ip visitor allowed d :
  referral_effect d (run_request clock ids (track_referral rid listing lty ip visitor allowed) d).2.
Proof.
  unfold track_referral. rewrite run_request_gets.
  destruct (users d !! rid) as [referrer|] eqn:Hu; [|apply referral_effect_refl].
  case_match; [apply referral_effect_refl|]. by apply run_finish with rid.
Qed.

Lemma run_track_share clock ids share ip visitor cookie allowed d :
  referral_effect d (run_request clock ids (track_share_referral share ip visitor cookie allowed) d).2.
Proof.
  unfold track_share_referral. rewrite run_request_gets.
  destruct (sl_referrer_id share ≫= _) as [referrer|] eqn:Hu; [|apply referral_effect_refl].
  apply bind_Some in Hu as (rid & _ & Hu).
  repeat (case_match; [apply referral_effect_refl|]). by apply run_finish with rid.
Qed.

(** ** The wallet invariant *)

(** What the history says a user owns. *)
Definition ledger (uid : string) (d : DB) : Z := sum_list h_points (history_of uid d).

(** Reserved points are covered by the balance, and the balance is the sum of the
    history. *)
Record wallet_ok (d : DB) : Prop := WalletOk {
  redemptions_keyed : forall k r, redemptions d !! k = Some r ->
    rd_razorpay_order_id r = k /\ 0 < rd_edge_points_redeemed r;
  balance_covers : forall uid u, users d !! uid = Some u ->
    u_id u = uid /\ pending_points uid d <= u_edge_points u /\ u_edge_points u = ledger uid d;
}.

(** The handlers of this file, each as one request on the committed database,
    with a clock and a supply of ids of its own. *)
Inductive wallet_step : DB -> DB -> Prop :=
| step_reserve clock ids d user amt redeem oid :
    users d !! u_id user = Some user ->
    wallet_step d
      (run_request clock ids
         (do x <- calculate_redemption user amt redeem;
          create_pending_redemption (u_id user) oid x.2) d).2
| step_confirm clock ids d oid : wallet_step d (run_request clock ids (confirm_redemption oid) d).2
| step_cancel clock ids d oid : wallet_step d (run_request clock ids (cancel_redemption oid) d).2
| step_referral clock ids d rid listing lty ip visitor allowed :
    wallet_step d
      (run_request clock ids (track_referral rid listing lty ip visitor allowed) d).2
| step_share clock ids d share ip visitor cookie allowed :
    wallet_step d
      (run_request clock ids (track_share_referral share ip visitor cookie allowed) d).2.

Lemma pending_of_nonneg d uid k r : wallet_ok d -> redemptions d !! k = Some r -> 0 <= pending_of uid r.
Proof. intros [Hk _] [_ ?]%Hk. unfold pending_of. case_match; lia. Qed.

Lemma pending_points_nonneg d uid : wallet_ok d -> 0 <= pending_points uid d.
Proof. intros Hd. apply sum_map_nonneg. intros. by eapply pending_of_nonneg. Qed.

(** One redemption's share of the reserved points. *)
Lemma pending_of_le d uid k r :
  wallet_ok d -> redemptions d !! k = Some r -> pending_of uid r <= pending_points uid d.
Proof.
  intros Hd Hr. unfold pending_points. rewrite (sum_map_delete _ _ _ _ Hr).
  enough (0 <= sum_map (pending_of uid) (delete k (redemptions d))) by lia.
  apply sum_map_nonneg. intros k' r' [_ H]%lookup_delete_Some. by eapply pending_of_nonneg.
Qed.

Lemma get_pending_Some oid d r :
  wallet_ok d -> get_pending_redemption oid d = Some r ->
  redemptions d !! oid = Some r /\ rd_razorpay_order_id r = oid /\
  rd_status r = RedemptionStatus.PENDING /\ 0 < rd_edge_points_redeemed r.
Proof.
  intros [Hk _]. unfold get_pending_redemption.
  destruct (redemptions d !! oid) eqn:Hr; [|done]. case_match eqn:Hp; [|done].
  apply bool_decide_eq_true in Hp. intros [= ->]. by apply Hk in Hr as [? ?].
Qed.

(** Settling a redemption releases exactly what it had reserved. *)
Lemma pending_settle d oid r st uid :
  redemptions d !! oid = Some r -> rd_razorpay_order_id r = oid ->
  st <> RedemptionStatus.PENDING ->
  pending_points uid (put_redemption (r <| rd_status := st |>) d)
  = pending_points uid d - pending_of uid r.
Proof.
  intros Hr Hk Hst. unfold pending_points, put_redemption. cbn. rewrite Hk.
  rewrite (sum_map_update _ _ _ _ _ Hr).
  etransitivity; [|apply Z.add_0_r]. f_equal.
  unfold pending_of. cbn. rewrite (bool_decide_eq_false_2 (st = _)), andb_false_r by done. done.
Qed.

Lemma ledger_app uid d h :
  ledger uid (d <| points_history ::= fun t => t ++ [h] |>)
  = ledger uid d + (if bool_decide (h_user_id h = uid) then h_points h else 0).
Proof.
  unfold ledger, history_of, select_where. cbn. rewrite filter_app, sum_list_app. f_equal.
  rewrite filter_cons, filter_nil. destruct (bool_decide (h_user_id h = uid)) eqn:Hb;
    rewrite ?decide_True, ?decide_False by congruence; unfold sum_list; simpl; lia.
Qed.

Lemma keyed_put_redemption d r :
  wallet_ok d -> 0 < rd_edge_points_redeemed r ->
  forall k r', redemptions (put_redemption r d) !! k = Some r' ->
    rd_razorpay_order_id r' = k /\ 0 < rd_edge_points_redeemed r'.
Proof.
  intros [Hk _] Hr k r'. cbn. intros [[<- <-]|[_ H]]%lookup_insert_Some; [done|by apply Hk].
Qed.

Lemma wallet_ok_reserve d user oid pts id :
  wallet_ok d -> users d !! u_id user = Some user -> 0 < pts -> redemptions d !! oid = None ->
  pts <= u_edge_points user - pending_points (u_id user) d ->
  wallet_ok (put_redemption (MkRedemption id (u_id user) oid pts RedemptionStatus.PENDING) d).
Proof.
  intros Hd Hu Hpts Ho Hle. split; [by apply keyed_put_redemption|].
  intros uid u Hu'. cbn in Hu'. destruct (balance_covers _ Hd _ _ Hu') as (? & ? & ?).
  split_and!; [done| |done]. unfold pending_points in *. cbn. rewrite sum_map_fresh by done.
  unfold pending_of at 1. cbn. destruct (bool_decide_reflect (u_id user = uid)) as [<-|]; simpl.
  - rewrite Hu in Hu'. simplify_eq. lia.
  - lia.
Qed.

Lemma wallet_ok_cancel d oid r :
  wallet_ok d -> get_pending_redemption oid d = Some r ->
  wallet_ok (put_redemption (r <| rd_status := RedemptionStatus.FAILED |>) d).
Proof.
  intros Hd (Hr & Hk & Hp & Hpos)%get_pending_Some; [|done].
  split; [by apply keyed_put_redemption|]. intros uid u Hu.
  destruct (balance_covers _ Hd _ _ Hu) as (? & ? & ?).
  split_and!; [done| |done]. rewrite (pending_settle d oid) by done.
  pose proof (pending_of_nonneg d uid oid r Hd Hr). lia.
Qed.

(** Moving points of one user together with a history line. *)
Lemma wallet_ok_move d d0 uid0 u u' h :
  wallet_ok d ->
  (forall k r, redemptions d0 !! k = Some r ->
     rd_razorpay_order_id r = k /\ 0 < rd_edge_points_redeemed r) ->
  users d0 = users d -> points_history d0 = points_history d ->
  (forall uid, pending_points uid d0 <= pending_points uid d) ->
  users d !! uid0 = Some u -> u_id u' = uid0 -> h_user_id h = uid0 ->
  u_edge_points u' = u_edge_points u + h_points h ->
  pending_points uid0 d0 <= u_edge_points u' ->
  wallet_ok ((put_user u' d0) <| points_history ::= fun t => t ++ [h] |>).
Proof.
  intros Hd Hkeyed Hus Hhist Hpend Hu Hid Hh Heq Hcov. split; [exact Hkeyed|].
  intros uid v Hv. change (<[u_id u' := u']> (users d0) !! uid = Some v) in Hv.
  change (pending_points uid _) with (pending_points uid d0).
  rewrite ledger_app. change (ledger uid (put_user u' d0)) with (ledger uid d0).
  assert (ledger uid d0 = ledger uid d) as -> by (unfold ledger, history_of; by rewrite Hhist).
  rewrite Hid, Hus in Hv. rewrite Hh.
  apply lookup_insert_Some in Hv as [[<- <-]|[Hne Hv]].
  - destruct (balance_covers _ Hd _ _ Hu) as (? & ? & ?).
    rewrite bool_decide_eq_true_2 by done. split_and!; [done|lia|lia].
  - destruct (balance_covers _ Hd _ _ Hv) as (? & ? & ?). specialize (Hpend uid).
    rewrite bool_decide_eq_false_2 by done. split_and!; [done|lia|lia].
Qed.

Lemma wallet_ok_confirm d oid r u h :
  wallet_ok d -> get_pending_redemption oid d = Some r -> users d !! rd_user_id r = Some u ->
  h_user_id h = rd_user_id r -> h_points h = - rd_edge_points_redeemed r ->
  wallet_ok ((put_user (u <| u_edge_points ::= fun p => Z.max 0 (p - rd_edge_points_redeemed r) |>)
               (put_redemption (r <| rd_status := RedemptionStatus.COMPLETED |>) d))
             <| points_history ::= fun t => t ++ [h] |>).
Proof.
  intros Hd (Hr & Hk & Hp & Hpos)%get_pending_Some Hu Hh1 Hh2; [|done].
  pose proof (pending_of_le d (rd_user_id r) oid r Hd Hr) as Hle.
  assert (Hself : pending_of (rd_user_id r) r = rd_edge_points_redeemed r).
  { unfold pending_of. by rewrite !bool_decide_eq_true_2. }
  destruct (balance_covers _ Hd _ _ Hu) as (Hid & Hcov & Hled).
  apply wallet_ok_move with d (rd_user_id r) u; try done.
  - by apply keyed_put_redemption.
  - intros uid. rewrite (pending_settle d oid) by done.
    pose proof (pending_of_nonneg d uid oid r Hd Hr). lia.
  - cbn. lia.
  - rewrite (pending_settle d oid) by done. cbn -[pending_points]. lia.
Qed.

Lemma wallet_ok_tracks d ts : wallet_ok d -> wallet_ok (d <| referral_tracks := ts |>).
Proof. intros [H1 H2]. split; [exact H1|exact H2]. Qed.

Lemma wallet_ok_awarded d rid referrer h :
  wallet_ok d -> users d !! rid = Some referrer -> h_points h = 20 ->
  h_user_id h = u_id referrer -> wallet_ok (awarded referrer h d).
Proof.
  intros Hd Hu Hh1 Hh2. destruct (balance_covers _ Hd _ _ Hu) as (Hid & Hcov & Hled).
  apply wallet_ok_move with d rid referrer; try done.
  - apply (redemptions_keyed _ Hd).
  - congruence.
  - cbn. lia.
  - cbn -[pending_points]. lia.
Qed.

Lemma wallet_ok_referral d d' : wallet_ok d -> referral_effect d d' -> wallet_ok d'.
Proof.
  intros Hd (ts & _ & [->|(rid & referrer & h & Hu & ? & ? & ->)]); [by apply wallet_ok_tracks|].
  eapply wallet_ok_awarded; [by apply wallet_ok_tracks|done..].
Qed.

Lemma run_calculate_reserve clock ids user amt redeem oid d :
  run_request clock ids
    (do x <- calculate_redemption user amt redeem;
     create_pending_redemption (u_id user) oid x.2) d
  = match (calculate_redemption user amt redeem (open_session clock ids d)).1 with
    | Ok x => run_request clock ids (create_pending_redemption (u_id user) oid x.2) d
    | Raise e => (Raise e, d)
    end.
Proof.
  unfold run_request, bind.
  pose proof (calculate_redemption_pure user amt redeem (open_session clock ids d)) as Hp.
  destruct (calculate_redemption _ _ _ _) as [[x|e] s]; cbn in *; by subst.
Qed.

Lemma wallet_step_ok d d' : wallet_step d d' -> wallet_ok d -> wallet_ok d'.
Proof.
  intros Hs Hd.
  destruct Hs as [clock ids d user amt redeem oid Hu|clock ids d oid|clock ids d oid
    |clock ids d rid listing lty ip v al|clock ids d sh ip v c al].
  - rewrite run_calculate_reserve.
    destruct (calculate_redemption _ _ _ _) as [[[f pts]|e] s] eqn:Hc; [|done]. cbn -[run_request].
    rewrite run_reserve. destruct (Z.ltb_spec 0 pts); [|done].
    destruct (bool_decide_reflect (redemptions d !! oid = None)); [|done].
    apply calculate_redemption_cases in Hc as (_ & [[-> _]|(w & _ & _ & _ & _ & -> & _)]); [lia|].
    apply wallet_ok_reserve; auto. cbn in *. lia.
  - rewrite run_confirm. unfold points_spent. destruct (get_pending_redemption oid d) as [r|] eqn:Hr; [|done].
    destruct (users d !! rd_user_id r) as [u|] eqn:Hu; [|done]. by apply wallet_ok_confirm with oid.
  - rewrite run_cancel. destruct (get_pending_redemption oid d) as [r|] eqn:Hr; [|done].
    by apply wallet_ok_cancel with oid.
  - eapply wallet_ok_referral; [done|apply run_track_referral].
  - eapply wallet_ok_referral; [done|apply run_track_share].
Qed.

(** ** Properties *)

(** Redeemed points are between 0 and 5000 (500 rupees), never more than the
    points the user has and has not reserved elsewhere, never worth more than the
    order, and 0 unless redemption was requested; the charge is the order less a
    tenth of a rupee per point, never below 0, and nothing is written. *)
Theorem calculate_redemption_bounds user amt req s f pts s' :
  calculate_redemption user amt req s = (Ok (f, pts), s') ->
  s' = s /\ 0 <= pts <= 5000 /\
  pts <= Z.max 0 (u_edge_points user - pending_points (u_id user) (s_db s)) /\
  (pts <> 0 -> req = true /\
     exists w, py_round_int (fl_mul amt (fl_of_Z 10)) = Ok w /\ pts <= w) /\
  (f = amt \/ f = fl_max fl_zero (fl_sub amt (fl_div (fl_of_Z pts) (fl_of_Z 10)))).
Proof.
  intros (-> & [[-> ->]|(w & -> & Ha & Hw & Hav & -> & ->)])%calculate_redemption_cases.
  - split_and!; try lia; auto.
  - pose proof (round_times_10_nonneg _ _ Ha Hw). split_and!; try lia; auto.
    intros _. split; [done|]. exists w. split; [done|]. lia.
Qed.

(** C4. Wallet safety: after any sequence of reservations, confirmations,
    cancellations and referral rewards, each at its own time, every user's reserved points are covered
    by the balance (so the [max 0] of a confirmation never cuts anything off: no
    point is spent twice), and the balance is the sum of the history. *)
Theorem wallet_always_ok d d' :
  wallet_ok d -> rtc wallet_step d d' -> wallet_ok d'.
Proof. intros Hd Hr. induction Hr; eauto using wallet_step_ok. Qed.

Lemma wallet_step_tracked d d' a b c e :
  wallet_step d d' ->
  tracked a b c e (referral_tracks d) = true -> tracked a b c e (referral_tracks d') = true.
Proof.
  assert (Heff : forall d d', referral_effect d d' ->
    tracked a b c e (referral_tracks d) = true -> tracked a b c e (referral_tracks d') = true).
  { intros ? ? (ts & Hts & [->|(rid & referrer & h & _ & _ & _ & ->)]) Ht; exact (Hts _ _ _ _ Ht). }
  intros Hs Hd.
  destruct Hs as [clock ids d user amt redeem oid Hu|clock ids d oid|clock ids d oid
    |clock ids d rid listing lty ip v al|clock ids d sh ip v c' al].
  - rewrite run_calculate_reserve. destruct (_.1) as [x|]; [|done].
    rewrite run_reserve. by case_match.
  - rewrite run_confirm. unfold points_spent. by repeat case_match.
  - rewrite run_cancel. by case_match.
  - by apply Heff with d; [apply run_track_referral|].
  - by apply Heff with d; [apply run_track_share|].
Qed.

(** C5. One reward per (referrer, item, visitor): once a referral of a visitor was
    tracked, a later referral of the same item by the same referrer, after any
    other wallet activity (any requests, each with its own clock and ids) and whatever the new request's IP (for a known visitor),
    awards nothing and writes nothing. *)
Theorem track_referral_once clock ids clock' ids' d d1 d2 rid listing lty ip ip'
    visitor allowed allowed' r :
  run_request clock ids (track_referral rid listing lty ip visitor allowed) d = (Ok r, d1) ->
  tr_success r = true ->
  rtc wallet_step d1 d2 ->
  visitor <> None \/ ip' = ip ->
  exists r', run_request clock' ids' (track_referral rid listing lty ip' visitor allowed') d2
             = (Ok r', d2) /\ tr_points_awarded r' = 0.
Proof.
  intros H1 Hsucc Hsteps Hip. unfold track_referral in H1. rewrite run_request_gets in H1.
  destruct (users d !! rid) as [referrer|]; [|by injection H1 as <- _].
  destruct (bool_decide (option_map u_id visitor = Some rid)) eqn:Hself; [by injection H1 as <- _|].
  set (vk := default ip (option_map u_id visitor)) in *.
  assert (Ht : tracked rid (lty +:+ ":" +:+ listing) (option_map u_id visitor) vk
                 (referral_tracks d2) = true).
  { pose proof (run_finish_tracked clock ids referrer 20 (option_map u_id visitor) vk allowed
      ("Earned 20 points from referring " +:+ capitalize lty +:+ " listing") d rid listing lty ip None
      (lty +:+ ":" +:+ listing)%string) as [Ht _].
    rewrite H1 in Ht. cbn in Ht. clear -Hsteps Ht.
    induction Hsteps; [done|]. apply IHHsteps. by eapply wallet_step_tracked. }
  unfold track_referral. rewrite run_request_gets.
  destruct (users d2 !! rid) as [referrer2|]; [|by eexists]. rewrite Hself.
  assert (default ip' (option_map u_id visitor) = vk) as ->.
  { unfold vk. destruct visitor; [done|]. by destruct Hip as [?| ->]. }
  pose proof (run_finish_tracked clock' ids' referrer2 20 (option_map u_id visitor) vk allowed'
    ("Earned 20 points from referring " +:+ capitalize lty +:+ " listing") d2 rid listing lty ip' None
    (lty +:+ ":" +:+ listing)%string) as [_ Hout].
  eexists. split; [exact (Hout Ht)|done].
Qed.

(** ** Witnesses *)

Definition sample_user (id : string) (points : Z) : AppUser :=
  MkUser id (id +:+ "@example.org") None None points (Some UserRole.USER) None.

Definition sample_clock : nat -> Z := fun n => Z.of_nat n.
Definition sample_ids : nat -> string := fun n => ("id" +:+ pretty n)%string.

Definition sample_wallet : DB :=
  empty_db <| users := {[ "u1" := sample_user "u1" 0 ]} |>.

Lemma sample_wallet_ok : wallet_ok sample_wallet.
Proof.
  split; [done|]. intros uid u Hu. cbn in Hu.
  by apply lookup_singleton_Some in Hu as [<- <-].
Qed.

Lemma calculate_redemption_bounds_witness :
  calculate_redemption (sample_user "u1" 300) (fl_of_Z 20) true
    (open_session sample_clock sample_ids sample_wallet)
  = (Ok (fl_zero, 200), open_session sample_clock sample_ids sample_wallet) /\ 0 <= 200 <= 5000.
Proof.
  assert (calculate_redemption (sample_user "u1" 300) (fl_of_Z 20) true
    (open_session sample_clock sample_ids sample_wallet)
    = (Ok (fl_zero, 200), open_session sample_clock sample_ids sample_wallet)) as H
    by (vm_compute; reflexivity).
  split; [exact H|]. exact (proj1 (proj2 (calculate_redemption_bounds _ _ _ _ _ _ _ H))).
Defined.

Lemma wallet_always_ok_witness :
  exists d', users d' !! "u1" = Some (sample_user "u1" 20) /\ wallet_ok d'.
Proof.
  exists (run_request sample_clock sample_ids
    (track_referral "u1" "l1" "domain" "ip" None true) sample_wallet).2.
  split; [vm_compute; reflexivity|].
  apply (wallet_always_ok sample_wallet); [apply sample_wallet_ok|].
  apply rtc_once. apply step_referral.
Defined.

(** A referral, two requests of later times, and the referral again. *)
Definition later (n : Z) (name : string) : (nat -> Z) * (nat -> string) :=
  (fun k => n + Z.of_nat k, fun k => (name +:+ pretty k)%string).

Definition after_referral : DB :=
  (run_request sample_clock sample_ids
     (track_referral "u1" "l1" "domain" "ip" (Some (sample_user "u2" 0)) true) sample_wallet).2.

Definition after_reserve : DB :=
  (run_request (later 100 "b").1 (later 100 "b").2
     (do x <- calculate_redemption (sample_user "u1" 20) (fl_of_Z 20) true;
      create_pending_redemption "u1" "o1" x.2) after_referral).2.

Definition after_confirm : DB :=
  (run_request (later 200 "c").1 (later 200 "c").2 (confirm_redemption "o1") after_reserve).2.

Lemma track_referral_once_witness :
  users after_referral !! "u1" = Some (sample_user "u1" 20) /\
  users after_confirm !! "u1" = Some (sample_user "u1" 0) /\
  exists r', run_request (later 300 "d").1 (later 300 "d").2
    (track_referral "u1" "l1" "domain" "ip2" (Some (sample_user "u2" 0)) true) after_confirm
      = (Ok r', after_confirm) /\
    tr_points_awarded r' = 0.
Proof.
  split; [vm_compute; reflexivity|]. split; [vm_compute; reflexivity|].
  apply (track_referral_once sample_clock sample_ids (later 300 "d").1 (later 300 "d").2
    sample_wallet after_referral after_confirm "u1" "l1" "domain" "ip" "ip2"
    (Some (sample_user "u2" 0)) true true (_track_response 20 None));
    [vm_compute; reflexivity|reflexivity| |left; discriminate].
  apply rtc_l with after_reserve; [|apply rtc_once; apply step_confirm].
  apply (step_reserve _ _ after_referral (sample_user "u1" 20)). vm_compute. reflexivity.
Defined.
