(* ===== verification/AuctionFees.v ===== *)
(** * Auction fees

    app/service/auction/auction_fee_service.py, auction_fee_sync.py,
    app/repository/auction_fee_payment_repository.py and
    app/utils/admin_fee_roles.py: the Razorpay orders that pay for creating an
    auction and for each bid.  A fee row goes CREATED -> COMPLETED (signature
    verified) -> CONSUMED (used once). *)

From S2P Require Import Prelude PyNum Text Sha256 Store Gateway Settings EdgePoints.

Module Kind := AuctionFeePaymentKind.
Module FeeType := AuctionFeeAuctionType.
Module FeeStatus := AuctionFeePaymentStatus.

(** ** admin_fee_roles.py *)

Definition role_waives_auction_platform_fees (role : option UserRole.t) : bool :=
  match role with
  | None => false
  | Some UserRole.ADMIN | Some UserRole.SUPER_ADMIN => true
  | Some r =>
      bool_decide (remove_all "ROLE_" (upper (UserRole.value r)) ∈ ["ADMIN"; "SUPER_ADMIN"]%string)
  end.

(** ** auction_fee_payment_repository.py *)

Definition put_fee (row : AuctionFeePayment) (d : DB) : DB :=
  d <| fee_payments ::= <[fp_razorpay_order_id row := row]> |>.

(** INSERT; the key default is applied at the flush. *)
Definition fee_create (row : AuctionFeePayment) : Prog AuctionFeePayment :=
  do id <- uuid4;
  do now <- utc_now;
  let stored := row <| fp_id := Some id |> <| fp_created_at := now |> in
  insert_new fee_payments (fun t => set fee_payments (fun _ => t)) "auction_fee_payments"
    (fp_razorpay_order_id row) stored ;;;
  ret stored.

(** [flush] writes the changed row back; [refresh] refuses an object that was
    never added to the session. *)
Definition fee_save (row : AuctionFeePayment) : Prog AuctionFeePayment :=
  match fp_id row with
  | None => raise (SQLAlchemyError "InvalidRequestError: instance is not persistent within this Session")
  | Some _ => modify (put_fee row) ;;; ret row
  end.

Definition get_by_order_id (order_id : string) : Prog (option AuctionFeePayment) :=
  gets (fun d => fee_payments d !! order_id).

Definition completed_creation_fee (order_id user_id : string) (auction_type : FeeType.t) (d : DB)
    : option AuctionFeePayment :=
  match fee_payments d !! order_id with
  | Some r =>
      if bool_decide (fp_user_id r = user_id) && bool_decide (fp_payment_kind r = Kind.CREATION)
         && bool_decide (fp_auction_type r = auction_type)
         && bool_decide (fp_status r = FeeStatus.COMPLETED)
      then Some r else None
  | None => None
  end.

Definition get_completed_creation_payment (order_id user_id : string) (auction_type : FeeType.t)
    : Prog (option AuctionFeePayment) :=
  gets (completed_creation_fee order_id user_id auction_type).

Section Fees.
Context {cfg : Config}.

(** The dict a create-order endpoint returns. *)
Record fee_order := FeeOrder {
  fo_order_id : string;
  fo_amount : py_float;
  fo_key_id : string;
  fo_auction_id : option string;
  fo_bid_amount : option py_float;
}.

Definition key_id_if_configured : string :=
  if is_configured then RAZORPAY_KEY_ID else EmptyString.

Definition order_and_reserve (api : rzp_api) (user : AppUser) (fee : py_float) (points : Z)
    (receipt : string) : Prog string :=
  do order_id <- lift_res (create_order api fee receipt "INR");
  when (0 <? points) (create_pending_redemption (u_id user) order_id points) ;;;
  ret order_id.

Definition is_value_or_runtime_error (e : exn) : bool :=
  match e with ValueError _ | RuntimeError _ => true | _ => false end.

Definition exn_text (e : exn) : string :=
  match e with
  | AppException m _ | HTTPException m _ | ValueError m | RuntimeError m | SQLAlchemyError m
  | OtherError m => m
  | IntegrityError t => t
  | InvalidOperation => "InvalidOperation"
  | AlreadyFullyRefunded _ _ _ => "AlreadyFullyRefunded"
  end.

Definition persist_row (row : AuctionFeePayment) (what : string) : Prog unit :=
  catch (do _ <- fee_create row; commit)
    (fun e => if is_sqlalchemy_error e
              then raise (AppException ("Unable to persist " +:+ what +:+ " order.") 500)
              else raise e).

Definition create_creation_fee_order (api : rzp_api) (auction_type : FeeType.t) (user : AppUser)
    (reference_id : option string) (redeem_points : bool) : Prog fee_order :=
  if role_waives_auction_platform_fees (u_role user) then
    ret (FeeOrder ("admin_free_" +:+ FeeType.value auction_type +:+ "_" +:+ u_id user) fl_zero
           key_id_if_configured None None)
  else
    guard_exn is_configured (AppException "Payment gateway is not configured." 503) ;;;
    do fee0 <- auction_creation_fee_inr;
    do (fee, points_redeemed) <-
      (if fl_ltb fl_zero fee0 then calculate_redemption user fee0 redeem_points
       else ret (fee0, 0));
    let receipt := str_take 40
      ("acf_" +:+ str_take 3 (FeeType.value auction_type) +:+ "_" +:+ u_id user) in
    do order_id <-
      catch (order_and_reserve api user fee points_redeemed receipt)
        (fun e => if is_value_or_runtime_error e then raise (AppException (exn_text e) 400)
                  else raise (AppException "Unable to create auction creation fee order." 502));
    persist_row
      (MkFee None Kind.CREATION auction_type (u_id user) None reference_id None fee order_id None
         FeeStatus.CREATED 0)
      "auction creation fee" ;;;
    ret (FeeOrder order_id fee RAZORPAY_KEY_ID None None).

Definition verify_creation_fee_payment (user : AppUser) (auction_type : FeeType.t)
    (razorpay_order_id razorpay_payment_id razorpay_signature : string) : Prog unit :=
  do ok <- lift_res (verify_payment_signature razorpay_order_id razorpay_payment_id razorpay_signature);
  if negb ok then
    cancel_redemption razorpay_order_id ;;;
    raise (AppException "Invalid payment signature." 400)
  else
    do row <- get_by_order_id razorpay_order_id;
    match row with
    | Some r =>
        guard_exn (bool_decide (fp_user_id r = u_id user)
                   && bool_decide (fp_payment_kind r = Kind.CREATION)
                   && bool_decide (fp_auction_type r = auction_type))
          (AppException "Creation fee payment not found." 404) ;;;
        guard_exn (negb (bool_decide (fp_status r = FeeStatus.CONSUMED)))
          (AppException "Creation fee payment already used." 409) ;;;
        do _ <- fee_save (r <| fp_status := FeeStatus.COMPLETED |>
                            <| fp_razorpay_payment_id := Some razorpay_payment_id |>);
        commit ;;;
        confirm_redemption razorpay_order_id
    | None => raise (AppException "Creation fee payment not found." 404)
    end.

Definition consume_creation_fee (user : AppUser) (auction_type : FeeType.t)
    (creation_fee_order_id auction_id : string) : Prog unit :=
  do row <- get_completed_creation_payment creation_fee_order_id (u_id user) auction_type;
  match row with
  | None => raise (AppException "Valid auction creation fee payment is required." 402)
  | Some r =>
      do _ <- fee_save (r <| fp_status := FeeStatus.CONSUMED |> <| fp_auction_id := Some auction_id |>);
      ret tt
  end.

(** [float(bid_amount)] is compared on verification; the column is NUMERIC(18, 2). *)
Definition bid_amount_column (bid_amount : py_float) : res Z :=
  if fl_is_finite bid_amount then try! x <- dec_of_repr bid_amount; numeric_18_2 x
  else Raise (SQLAlchemyError "NumericValueOutOfRange").

Definition bid_order_error (e : exn) : exn :=
  match e with
  | AppException _ _ => e
  | ValueError m | RuntimeError m => AppException m 400
  | OtherError "ConnectionError" | OtherError "Timeout" =>
      AppException "Unable to reach the payment gateway. Please check your connection and try again." 502
  | _ => AppException "Unable to create bid fee order." 500
  end.

Definition create_bid_fee_order (api : rzp_api) (auction_type : FeeType.t) (auction_id : string)
    (bid_amount : py_float) (user : AppUser) (redeem_points : bool) : Prog fee_order :=
  guard_exn (negb (fl_leb bid_amount fl_zero)) (AppException "Bid amount must be positive." 400) ;;;
  if role_waives_auction_platform_fees (u_role user) then
    ret (FeeOrder ("admin_free_bid_" +:+ FeeType.value auction_type +:+ "_" +:+ auction_id +:+ "_"
                   +:+ u_id user) fl_zero key_id_if_configured (Some auction_id) (Some bid_amount))
  else
    guard_exn is_configured (AppException "Payment gateway is not configured." 503) ;;;
    do fee0 <- auction_bid_fee_inr;
    guard_exn (negb (fl_leb fee0 fl_zero))
      (AppException "Auction bid placement fee is not configured." 503) ;;;
    do (fee, points_redeemed) <-
      (if fl_ltb fl_zero fee0 then calculate_redemption user fee0 redeem_points
       else ret (fee0, 0));
    let receipt := str_take 40 ("abf_" +:+ auction_id +:+ "_" +:+ u_id user) in
    do order_id <- catch (order_and_reserve api user fee points_redeemed receipt)
                     (fun e => raise (bid_order_error e));
    do _ <- catch
      (do amount <- lift_res (bid_amount_column bid_amount);
       do _ <- fee_create (MkFee None Kind.BID auction_type (u_id user) (Some auction_id) None
                             (Some amount) fee order_id None FeeStatus.CREATED 0);
       commit)
      (fun e => if is_sqlalchemy_error e
                then raise (AppException "Unable to persist bid fee order." 500) else raise e);
    ret (FeeOrder order_id fee RAZORPAY_KEY_ID (Some auction_id) (Some bid_amount)).

Definition bid_fee_matches (r : AuctionFeePayment) (user : AppUser) (auction_type : FeeType.t)
    (auction_id : string) : bool :=
  bool_decide (fp_user_id r = u_id user) && bool_decide (fp_payment_kind r = Kind.BID)
  && bool_decide (fp_auction_type r = auction_type)
  && bool_decide (fp_auction_id r = Some auction_id).

(** [float(row.bid_amount) == float(expected_bid_amount)] *)
Definition bid_amount_matches (r : AuctionFeePayment) (expected : decimal) : bool :=
  match fp_bid_amount r with
  | Some c => fl_eqb (fl_of_dec (cents c)) (fl_of_dec expected)
  | None => false
  end.

Definition is_free_admin_bid (user : AppUser) (razorpay_order_id : string) : bool :=
  role_waives_auction_platform_fees (u_role user) && startswith razorpay_order_id "admin_free_bid_".

Definition verify_bid_fee_payment (auction_type : FeeType.t) (auction_id : string) (user : AppUser)
    (razorpay_order_id razorpay_payment_id razorpay_signature : string)
    (expected_bid_amount : decimal) : Prog AuctionFeePayment :=
  if is_free_admin_bid user razorpay_order_id then
    (* Synthetic row, never added to the session; the failing save is swallowed. *)
    let row := MkFee None Kind.BID auction_type (u_id user) (Some auction_id) None
                 (Some (coef expected_bid_amount * 10 ^ (dexp expected_bid_amount + 2))) fl_zero
                 razorpay_order_id
                 (Some (if is_empty razorpay_payment_id then "admin_free"%string
                        else razorpay_payment_id))
                 FeeStatus.COMPLETED 0 in
    catch (do _ <- fee_save row; ret tt) (fun _ => ret tt) ;;;
    ret row
  else
    do ok <- lift_res
      (verify_payment_signature razorpay_order_id razorpay_payment_id razorpay_signature);
    if negb ok then
      cancel_redemption razorpay_order_id ;;;
      raise (AppException "Invalid payment signature." 400)
    else
      do row <- get_by_order_id razorpay_order_id;
      match row with
      | None => raise (AppException "Bid fee payment not found." 404)
      | Some r =>
          guard_exn (bid_fee_matches r user auction_type auction_id)
            (AppException "Bid fee payment not found." 404) ;;;
          guard_exn (negb (bool_decide (fp_status r = FeeStatus.CONSUMED)))
            (AppException "Bid fee payment already used." 409) ;;;
          guard_exn (bid_amount_matches r expected_bid_amount)
            (AppException "Bid amount does not match the paid bid fee order." 400) ;;;
          do row <- fee_save (r <| fp_status := FeeStatus.COMPLETED |>
                                <| fp_razorpay_payment_id := Some razorpay_payment_id |>);
          confirm_redemption razorpay_order_id ;;;
          ret row
      end.

Definition consume_bid_fee (row : AuctionFeePayment) : Prog unit :=
  if bool_decide (fp_status row = FeeStatus.CONSUMED) then ret tt
  else
    guard_exn (bool_decide (fp_status row = FeeStatus.COMPLETED))
      (AppException "Bid fee payment is not verified." 402) ;;;
    do _ <- fee_save (row <| fp_status := FeeStatus.CONSUMED |>);
    ret tt.

Definition verify_and_consume_bid_fee (auction_type : FeeType.t) (auction_id : string)
    (user : AppUser) (razorpay_order_id razorpay_payment_id razorpay_signature : string)
    (expected_bid_amount : decimal) : Prog AuctionFeePayment :=
  do row <- verify_bid_fee_payment auction_type auction_id user razorpay_order_id
    razorpay_payment_id razorpay_signature expected_bid_amount;
  consume_bid_fee row ;;;
  ret row.

(** ** auction_fee_sync.py: the community auctions' helpers

    They work on the same tables with a synchronous session; failures are
    FastAPI's [HTTPException]. *)

Definition consume_creation_fee_sync (user_id order_id auction_id : string) : Prog unit :=
  do row <- get_completed_creation_payment order_id user_id FeeType.COMMUNITY;
  match row with
  | None => raise (HTTPException "Valid auction creation fee payment is required." 402)
  | Some r =>
      modify (put_fee (r <| fp_status := FeeStatus.CONSUMED |> <| fp_auction_id := Some auction_id |>))
  end.

Definition verify_bid_fee_sync (user_id auction_id : string) (bid_amount : decimal)
    (razorpay_order_id razorpay_payment_id razorpay_signature : string) : Prog AuctionFeePayment :=
  do ok <- lift_res
    (verify_payment_signature razorpay_order_id razorpay_payment_id razorpay_signature);
  guard_exn ok (HTTPException "Invalid bid fee payment signature." 400) ;;;
  do row <- get_by_order_id razorpay_order_id;
  match row with
  | None => raise (HTTPException "Bid fee payment not found." 404)
  | Some r =>
      guard_exn (bool_decide (fp_user_id r = user_id) && bool_decide (fp_auction_id r = Some auction_id)
                 && bool_decide (fp_payment_kind r = Kind.BID)
                 && bool_decide (fp_auction_type r = FeeType.COMMUNITY))
        (HTTPException "Bid fee payment not found." 404) ;;;
      guard_exn (negb (bool_decide (fp_status r = FeeStatus.CONSUMED)))
        (HTTPException "Bid fee payment already used." 409) ;;;
      guard_exn (bid_amount_matches r bid_amount)
        (HTTPException "Bid amount does not match the paid bid fee order." 400) ;;;
      let row := r <| fp_status := FeeStatus.COMPLETED |>
                   <| fp_razorpay_payment_id := Some razorpay_payment_id |> in
      modify (put_fee row) ;;;
      ret row
  end.

Definition consume_bid_fee_sync (row : AuctionFeePayment) : Prog unit :=
  if bool_decide (fp_status row = FeeStatus.CONSUMED) then ret tt
  else
    guard_exn (bool_decide (fp_status row = FeeStatus.COMPLETED))
      (HTTPException "Bid fee payment is not verified." 402) ;;;
    modify (put_fee (row <| fp_status := FeeStatus.CONSUMED |>)).

Definition verify_and_consume_bid_fee_sync (user_id auction_id : string) (bid_amount : decimal)
    (razorpay_order_id razorpay_payment_id razorpay_signature : string) : Prog unit :=
  do row <- verify_bid_fee_sync user_id auction_id bid_amount razorpay_order_id
    razorpay_payment_id razorpay_signature;
  consume_bid_fee_sync row.
End Fees.

(** ** Lemmas *)

(** Everything but the wallet tables. *)
Definition sans_wallet (d : DB) : DB :=
  d <| users := ∅ |> <| redemptions := ∅ |> <| points_history := [] |>.

(** Everything but the wallet and the fee payments. *)
Definition sans_fees (d : DB) : DB := sans_wallet d <| fee_payments := ∅ |>.

Lemma sans_fees_wallet d d' : sans_wallet d = sans_wallet d' -> sans_fees d = sans_fees d'.
Proof. intros H. exact (f_equal (fun x => x <| fee_payments := ∅ |>) H). Qed.

Lemma confirm_cases oid (s : Session) :
  match get_pending_redemption oid (s_db s) with
  | None => confirm_redemption oid s = (Ok tt, s)
  | Some r =>
      exists out s', confirm_redemption oid s = (out, s') /\
        sans_wallet (s_db s') = sans_wallet (s_db s) /\
        s_out s' = s_out s /\
        (out = Ok tt /\ s_committed s' = s_db s' /\ s_clock s' = (fun n => s_clock s (S n)) /\
           s_ids s' = (fun n => s_ids s (S n))
         \/ (exists e, out = Raise (SQLAlchemyError e)) /\ s_committed s' = s_committed s)
  end.
Proof.
  unfold confirm_redemption, bind, gets.
  destruct (get_pending_redemption oid (s_db s)) as [r|]; [|done]. cbn.
  destruct (users (s_db s) !! rd_user_id r) as [u|]; cbn; eexists _, _;
    split_and!; try reflexivity; eauto 10.
Qed.

(** A confirmation that succeeds spends the points of its order. *)
Lemma confirm_ok oid (s s' : Session) x :
  confirm_redemption oid s = (Ok x, s') ->
  exists hid t, s_db s' = points_spent oid hid t (s_db s).
Proof.
  unfold confirm_redemption, points_spent, bind, gets.
  destruct (get_pending_redemption oid (s_db s)) as [r|]; cbn.
  2:{ intros [= _ <-]. by exists EmptyString, 0. }
  destruct (users (s_db s) !! rd_user_id r) as [u|]; cbn; [|done].
  intros [= _ <-]. by eexists _, _.
Qed.

Lemma sans_wallet_spent oid hid t d : sans_wallet (points_spent oid hid t d) = sans_wallet d.
Proof. unfold points_spent. by repeat case_match. Qed.

Lemma cancel_cases oid (s : Session) :
  match get_pending_redemption oid (s_db s) with
  | None => cancel_redemption oid s = (Ok tt, s)
  | Some r =>
      exists s', cancel_redemption oid s = (Ok tt, s') /\
        sans_wallet (s_db s') = sans_wallet (s_db s) /\ s_committed s' = s_db s'
  end.
Proof.
  unfold cancel_redemption, bind, gets.
  destruct (get_pending_redemption oid (s_db s)) as [r|]; [|done]. cbn. eexists. eauto.
Qed.

Definition fees_wf (d : DB) : Prop :=
  forall k r, fee_payments d !! k = Some r -> fp_razorpay_order_id r = k.

Lemma fee_save_ok_inv row (s : Session) row' s' :
  fee_save row s = (Ok row', s') ->
  fp_id row <> None /\ row' = row /\
  s' = Prelude.Session (s_committed s) (put_fee row (s_db s)) (s_out s) (s_clock s) (s_ids s).
Proof.
  unfold fee_save. destruct (fp_id row) eqn:Hid; intros H; [|by ok_inv H].
  by ok_inv H.
Qed.

Section Lemmas.
Context {cfg : Config}.

(** The row a verified bid fee is left in. *)
Definition verified (payment_id : string) (r : AuctionFeePayment) : AuctionFeePayment :=
  r <| fp_status := FeeStatus.COMPLETED |> <| fp_razorpay_payment_id := Some payment_id |>.

(** What a successful verification found and wrote. *)
Record verified_fee (ty : FeeType.t) (aid : string) (user : AppUser) (oid pid sig : string)
    (amt : decimal) (row : AuctionFeePayment) (s s1 : Session) : Prop := VerifiedFee {
  vf_paid : exists r, fee_payments (s_db s) !! oid = Some r /\ row = verified pid r /\
    fp_id r <> None /\ bid_fee_matches r user ty aid = true /\ fp_status r <> FeeStatus.CONSUMED /\
    bid_amount_matches r amt = true;
  vf_signed : verify_payment_signature oid pid sig = Ok true;
  vf_db : exists hid t, s_db s1 = points_spent oid hid t (put_fee row (s_db s));
  vf_out : s_out s1 = s_out s;
  vf_clock : exists k, s_clock s1 = (fun n => s_clock s (k + n)%nat) /\
    s_ids s1 = (fun n => s_ids s (k + n)%nat);
}.

Lemma verify_bid_fee_ok ty aid user oid pid sig amt (s : Session) row s1 :
  verify_bid_fee_payment ty aid user oid pid sig amt s = (Ok row, s1) ->
  (is_free_admin_bid user oid = true /\ fp_id row = None /\ fp_status row = FeeStatus.COMPLETED /\ s1 = s)
  \/ (is_free_admin_bid user oid = false /\ verified_fee ty aid user oid pid sig amt row s s1).
Proof.
  unfold verify_bid_fee_payment. destruct (is_free_admin_bid user oid).
  { intros H. left. cbn in H. by apply ret_ok_inv in H as [-> ->]. }
  intros H. right. split; [done|]. unfold get_by_order_id in H. ok_inv_step H. destruct x; cbn [negb] in H; [|by ok_inv H].
  ok_inv_step H. destruct (fee_payments (s_db s) !! oid) as [r|] eqn:Hfee; [|by ok_inv H].
  do 4 ok_inv_step H. apply fee_save_ok_inv in Hr3 as (Hid & -> & ->). fold (verified pid r) in H |- *.
  ok_inv_step H. ok_inv H. set (s2 := Prelude.Session _ _ _ _ _) in *.
  assert (Hpaid : exists r0, fee_payments (s_db s) !! oid = Some r0 /\ verified pid r = verified pid r0 /\
    fp_id r0 <> None /\ bid_fee_matches r0 user ty aid = true /\ fp_status r0 <> FeeStatus.CONSUMED /\
    bid_amount_matches r0 amt = true).
  { exists r. split_and!; try done. by apply negb_true_iff, bool_decide_eq_false_1 in Hr1. }
  pose proof (confirm_ok _ _ _ _ Hr3) as Hspent.
  pose proof (confirm_cases oid s2) as Hcc.
  destruct (get_pending_redemption oid _).
  - destruct Hcc as (out & s' & Hrun & Hdb & Hout & Hcase).
    rewrite Hrun in Hr3. injection Hr3 as -> ->.
    destruct Hcase as [(_ & _ & Hk & Hi)|([? He] & _)]; [|done].
    split; try done. by exists 1%nat.
  - rewrite Hcc in Hr3. injection Hr3 as _ <-. split; try done. by exists 0%nat.
Qed.
End Lemmas.

(** The row after its one use. *)
Definition consumed (r : AuctionFeePayment) : AuctionFeePayment := r <| fp_status := FeeStatus.CONSUMED |>.

Lemma consume_bid_fee_ok row (s s' : Session) x :
  fp_status row = FeeStatus.COMPLETED -> consume_bid_fee row s = (Ok x, s') ->
  fp_id row <> None /\
  s' = Prelude.Session (s_committed s) (put_fee (consumed row) (s_db s)) (s_out s) (s_clock s) (s_ids s).
Proof.
  intros Hst. unfold consume_bid_fee. rewrite (bool_decide_eq_false_2 (_ = FeeStatus.CONSUMED))
    by congruence. intros H.
  ok_inv_step H. ok_inv_step H. ok_inv H.
  apply fee_save_ok_inv in Hr0 as (? & _ & ->). by split.
Qed.
