(* ===== verification/AuctionRepo.v ===== *)
(** * Auction, bid, listing and registry repositories

    app/repository/auction_repository.py, bid_repository.py,
    domain_listing_repository.py and domain_repository.py.  [first_by] picks the
    row ORDER BY puts first; between rows with equal keys SQL leaves the order
    open, and no theorem depends on it. *)

From stdpp Require Import sorting.
From S2P Require Import Prelude PyNum Text Store.

(** ** auction_repository.py *)

Definition _alive_auction (a : Auction) : bool := negb (a_is_deleted a).

Definition is_status (ss : list AuctionStatus.t) (a : Auction) : bool :=
  bool_decide (a_status a ∈ ss).

Definition _BLOCKING_STATUSES : list AuctionStatus.t :=
  [AuctionStatus.DRAFT; AuctionStatus.ACTIVE; AuctionStatus.EXTENDED].

Definition LIVE_STATUSES : list AuctionStatus.t := [AuctionStatus.ACTIVE; AuctionStatus.EXTENDED].

Definition put_auction (a : Auction) (d : DB) : DB := d <| auctions ::= <[a_id a := a]> |>.

Definition create_auction (a : Auction) : Prog Auction :=
  do id <- uuid4;
  do now <- utc_now;
  let stored := a <| a_id := id |> <| a_created_at := now |> in
  insert_new auctions (fun t => set auctions (fun _ => t)) "auctions" id stored ;;;
  ret stored.

Definition alive_auction (auction_id : string) (d : DB) : option Auction :=
  match auctions d !! auction_id with
  | Some a => if _alive_auction a then Some a else None
  | None => None
  end.

Definition get_auction_by_id (auction_id : string) : Prog (option Auction) :=
  gets (alive_auction auction_id).

(** ORDER BY created_at DESC *)
Definition newer (a b : Auction) : bool := a_created_at b <? a_created_at a.

Definition domain_auctions (domain_id : string) (p : Auction -> bool) (d : DB) : list Auction :=
  select_where (fun a => bool_decide (a_domain_id a = domain_id) && _alive_auction a && p a)
    (values (auctions d)).

Definition get_auction_by_domain (domain_id : string) (active_only : bool) : Prog (option Auction) :=
  gets (fun d => first_by newer
    (domain_auctions domain_id (fun a => negb active_only || is_status LIVE_STATUSES a) d)).

Definition get_blocking_auction_by_domain (domain_id : string) : Prog (option Auction) :=
  gets (fun d => first_by newer (domain_auctions domain_id (is_status _BLOCKING_STATUSES) d)).

Definition page {A} (offset limit : nat) (l : list A) : list A := take limit (drop offset l).

(** ORDER BY end_time ASC of the live auctions still running at [now]. *)
Definition get_active_auctions (limit offset : nat) : Prog (list Auction) :=
  do now <- utc_now;
  gets (fun d => page offset limit (merge_sort (by_asc a_end_time)
    (select_where (fun a => is_status LIVE_STATUSES a && (now <? a_end_time a) && _alive_auction a)
       (values (auctions d))))).

Definition list_by_created_by (user_id : string) (limit : nat) : Prog (list Auction) :=
  gets (fun d => take limit (merge_sort (by_desc a_created_at)
    (select_where (fun a => bool_decide (a_created_by a = user_id) && _alive_auction a)
       (values (auctions d))))).

Definition list_by_ids (auction_ids : list string) : Prog (list Auction) :=
  gets (fun d => select_where (fun a => bool_decide (a_id a ∈ auction_ids) && _alive_auction a)
    (values (auctions d))).

(** The listing an auction's LEFT JOIN finds is public. *)
Definition _public_auction_listing_visibility (d : DB) (a : Auction) : bool :=
  match listings d !! a_domain_id a with
  | None => true
  | Some l =>
      negb (bool_decide (l_sale_type l = SaleType.AUCTION))
      || bool_decide (l_verification_status l = DomainListingVerificationStatus.VERIFIED)
  end.

Definition public_live (now : Z) (d : DB) (a : Auction) : bool :=
  is_status LIVE_STATUSES a && (now <? a_end_time a) && _alive_auction a
  && _public_auction_listing_visibility d a.

Definition get_active_auctions_with_details (limit offset : nat) : Prog (list Auction) :=
  do now <- utc_now;
  gets (fun d => page offset limit (merge_sort (by_asc a_end_time)
    (select_where (public_live now d) (values (auctions d))))).

Definition count_active_auctions : Prog Z :=
  do now <- utc_now;
  gets (fun d => Z.of_nat (length (select_where (public_live now d) (values (auctions d))))).

Definition list_all_auctions (status : option AuctionStatus.t) (limit offset : nat) : Prog (list Auction) :=
  gets (fun d => page offset limit (merge_sort (by_desc a_created_at)
    (select_where (fun a => _alive_auction a &&
                     match status with Some st => bool_decide (a_status a = st) | None => true end)
       (values (auctions d))))).

Definition count_all_auctions (status : option AuctionStatus.t) : Prog Z :=
  gets (fun d => Z.of_nat (length
    (select_where (fun a => _alive_auction a &&
                     match status with Some st => bool_decide (a_status a = st) | None => true end)
       (values (auctions d))))).

Definition expired_auctions (now : Z) (d : DB) : list Auction :=
  select_where (fun a => is_status LIVE_STATUSES a && (a_end_time a <=? now) && _alive_auction a)
    (values (auctions d)).

Definition get_expired_auctions (limit : nat) : Prog (list Auction) :=
  do now <- utc_now;
  gets (fun d => take limit (merge_sort (by_asc a_end_time) (expired_auctions now d))).

(** UPDATE auctions SET ... WHERE id = :id AND alive RETURNING *. *)
Definition update_auction (auction_id : string) (fields : Auction -> Auction) : Prog (option Auction) :=
  do found <- get_auction_by_id auction_id;
  match found with
  | None => ret None
  | Some a => modify (put_auction (fields a)) ;;; ret (Some (fields a))
  end.

Definition repo_close_auction (auction_id : string) (final_status : AuctionStatus.t)
    : Prog (option Auction) :=
  update_auction auction_id (fun a => a <| a_status := final_status |>).

(** The number of rows cancelled and soft-deleted. *)
Definition retire_all_for_domain (domain_id : string) : Prog Z :=
  do n <- gets (fun d => length (domain_auctions domain_id (fun _ => true) d));
  modify (fun d => d <| auctions ::= fmap (fun a =>
    if bool_decide (a_domain_id a = domain_id) && _alive_auction a
    then a <| a_status := AuctionStatus.CANCELLED |> <| a_is_deleted := true |> else a) |>) ;;;
  ret (Z.of_nat n).

(** ** bid_repository.py *)

Definition _alive_bid (b : Bid) : bool := negb (b_is_deleted b).

Definition bids_of (auction_id : string) (d : DB) : list Bid :=
  select_where (fun b => bool_decide (b_auction_id b = auction_id) && _alive_bid b) (bids d).

Definition create_bid (b : Bid) : Prog Bid :=
  do id <- uuid4;
  do now <- utc_now;
  let stored := b <| b_id := id |> <| b_created_at := now |> in
  do existing <- gets bids;
  if bool_decide (id ∈ map b_id existing) then raise (IntegrityError "bids")
  else modify (fun d => d <| bids ::= fun t => t ++ [stored] |>) ;;; ret stored.

(** ORDER BY amount DESC, created_at ASC *)
Definition better_bid (x y : Bid) : bool :=
  (b_amount y <? b_amount x)
  || ((b_amount x =? b_amount y) && (b_created_at x <? b_created_at y)).

Definition highest_bid (auction_id : string) (d : DB) : option Bid :=
  first_by better_bid (bids_of auction_id d).

Definition get_highest_bid (auction_id : string) : Prog (option Bid) :=
  gets (highest_bid auction_id).

Definition get_bid_history (auction_id : string) (limit offset : nat) : Prog (list Bid) :=
  gets (fun d => page offset limit (merge_sort (by_desc b_created_at) (bids_of auction_id d))).

Definition increment_total_bids (auction_id : string) : Prog Z :=
  do updated <- update_auction auction_id (fun a => a <| a_total_bids ::= Z.add 1 |>);
  match updated with
  | None => raise (ValueError ("Auction " +:+ auction_id +:+ " not found for bid increment."))
  | Some a => ret (a_total_bids a)
  end.

Definition is_winning_of (auction_id : string) (b : Bid) : bool :=
  bool_decide (b_auction_id b = auction_id) && b_is_winning_bid b && _alive_bid b.

Definition clear_winning_flag (auction_id : string) : Prog unit :=
  modify (fun d => d <| bids ::= update_where (is_winning_of auction_id)
                                   (fun b => b <| b_is_winning_bid := false |>) |>).

Definition list_by_bidder_id (bidder_id : string) (limit : nat) : Prog (list Bid) :=
  gets (fun d => take limit (merge_sort (by_desc b_created_at)
    (select_where (fun b => bool_decide (b_bidder_id b = bidder_id) && _alive_bid b) (bids d)))).

(** ** domain_listing_repository.py *)

Definition put_listing (l : DomainListing) (d : DB) : DB := d <| listings ::= <[l_id l := l]> |>.

Definition alive_listing (listing_id : string) (d : DB) : option DomainListing :=
  match listings d !! listing_id with
  | Some l => if l_is_deleted l then None else Some l
  | None => None
  end.

(** [get_by_id], [get_by_id_basic] and [get_by_id_for_update] load the same row. *)
Definition get_listing (listing_id : string) : Prog (option DomainListing) :=
  gets (alive_listing listing_id).

Definition save_listing (l : DomainListing) : Prog unit := modify (put_listing l).

(** ** domain_repository.py *)

Definition put_domain (x : Domain) (d : DB) : DB := d <| domains ::= <[d_id x := x]> |>.

Definition alive_domain (domain_id : string) (d : DB) : option Domain :=
  match domains d !! domain_id with
  | Some x => if d_is_deleted x then None else Some x
  | None => None
  end.

Definition get_domain_alive (domain_id : string) : Prog (option Domain) :=
  gets (alive_domain domain_id).

Definition create_domain (x : Domain) : Prog unit :=
  insert_new domains (fun t => set domains (fun _ => t)) "domains" (d_id x) x.

(** ** Well-formed rows

    Keys are the rows' own ids, and amounts are within NUMERIC(18, 2). *)

Definition amount_ok (c : Z) : Prop := 0 <= c < 10 ^ 18.

Record auction_row_ok (k : string) (a : Auction) : Prop := AuctionRowOk {
  ar_key : a_id a = k;
  ar_min : amount_ok (a_min_bid_price a);
  ar_highest : amount_ok (default 0 (a_current_highest_bid a));
}.

Definition auctions_wf (d : DB) : Prop := forall k a, auctions d !! k = Some a -> auction_row_ok k a.

(** ** Lemmas *)

Lemma better_bid_irrefl x : better_bid x x = false.
Proof. unfold better_bid. by rewrite !Z.ltb_irrefl, andb_false_r. Qed.

Lemma better_bid_trans x y z : better_bid x y = true -> better_bid y z = true -> better_bid x z = true.
Proof. unfold better_bid. intros. lia. Qed.

Lemma newer_irrefl a : newer a a = false.
Proof. apply Z.ltb_irrefl. Qed.

Lemma newer_trans a b c : newer a b = true -> newer b c = true -> newer a c = true.
Proof. unfold newer. lia. Qed.

(** The highest bid is a live bid of the auction no other exceeds. *)
Lemma highest_bid_Some aid d b :
  highest_bid aid d = Some b ->
  b ∈ bids_of aid d /\ forall x, x ∈ bids_of aid d -> b_amount x <= b_amount b.
Proof.
  intros [Hin Hmax]%first_by_Some; [|apply better_bid_irrefl|apply better_bid_trans].
  split; [done|]. intros x Hx. specialize (Hmax x Hx). unfold better_bid in Hmax. lia.
Qed.

Lemma highest_bid_None aid d : highest_bid aid d = None <-> bids_of aid d = [].
Proof. apply first_by_None. Qed.

Lemma elem_of_bids_of aid d b :
  b ∈ bids_of aid d <-> b ∈ bids d /\ b_auction_id b = aid /\ b_is_deleted b = false.
Proof.
  unfold bids_of. rewrite elem_of_select_where, andb_true_iff, bool_decide_eq_true.
  unfold _alive_bid. rewrite negb_true_iff. tauto.
Qed.

Lemma alive_auction_Some aid d a :
  alive_auction aid d = Some a <-> auctions d !! aid = Some a /\ a_is_deleted a = false.
Proof.
  unfold alive_auction, _alive_auction. destruct (auctions d !! aid) as [a'|];
    [|split; [done|by intros [? _]]].
  destruct (a_is_deleted a') eqn:Hdel; cbn; split.
  - done.
  - intros [[= ->] ?]. congruence.
  - by intros [= ->].
  - by intros [[= ->] _].
Qed.

Lemma create_bid_ok b (s : Session) b' s' :
  create_bid b s = (Ok b', s') ->
  b' = b <| b_id := s_ids s 0%nat |> <| b_created_at := s_clock s 0%nat |> /\
  (s_ids s 0%nat ∉ map b_id (bids (s_db s))) /\
  s' = Prelude.Session (s_committed s) ((s_db s) <| bids ::= fun t => t ++ [b'] |>) (s_out s)
         (fun n => s_clock s (S n)) (fun n => s_ids s (S n)).
Proof.
  unfold create_bid. intros H. do 3 ok_inv_step H.
  destruct (bool_decide _) eqn:Hid; [by ok_inv H|]. ok_inv H.
  by apply bool_decide_eq_false_1 in Hid.
Qed.

Lemma map_update_where {R A} (f : R -> A) p g (t : list R) :
  (forall x, f (g x) = f x) -> map f (update_where p g t) = map f t.
Proof.
  intros Hf. unfold update_where. rewrite map_map. apply map_ext. intros x. by case_match.
Qed.

(** *** The winner's flag *)

Lemma cleared_no_winner aid t x :
  x ∈ update_where (is_winning_of aid) (fun b => b <| b_is_winning_bid := false |>) t ->
  is_winning_of aid x = false.
Proof.
  intros (y & _ & ->)%elem_of_update_where. destruct (is_winning_of aid y) eqn:Hy; [|done].
  unfold is_winning_of. cbn. by rewrite andb_false_r.
Qed.

Definition is_bid_of (aid bid_id : string) (b : Bid) : bool :=
  bool_decide (b_id b = bid_id) && bool_decide (b_auction_id b = aid) && _alive_bid b.

Lemma flagged_one aid b t :
  (forall x, x ∈ t -> is_winning_of aid x = false) ->
  b ∈ t -> b_auction_id b = aid -> b_is_deleted b = false -> NoDup (map b_id t) ->
  select_where (is_winning_of aid)
    (update_where (is_bid_of aid (b_id b)) (fun b => b <| b_is_winning_bid := true |>) t)
  = [b <| b_is_winning_bid := true |>].
Proof.
  intros Hno Hin Hb Hd. unfold update_where.
  induction t as [|x t IH]; [by apply not_elem_of_nil in Hin|]. intros [Hx Hnd]%NoDup_cons. cbn [map].
  destruct (decide (b_id x = b_id b)) as [Heq|Hne].
  - assert (b = x) as ->.
    { apply elem_of_cons in Hin as [|Hin]; [done|]. destruct Hx. rewrite Heq.
      apply list_elem_of_In, in_map, list_elem_of_In, Hin. }
    unfold is_bid_of at 1, _alive_bid. rewrite !bool_decide_eq_true_2, Hd by done. cbn [negb andb].
    unfold select_where. rewrite filter_cons_True.
    2:{ unfold is_winning_of, _alive_bid. cbn. by rewrite bool_decide_eq_true_2, Hd. }
    f_equal. apply select_none. intros y (z & <- & Hz)%list_elem_of_In%in_map_iff.
    apply list_elem_of_In in Hz. destruct (is_bid_of aid (b_id x) z) eqn:Hbid; [|apply Hno; set_solver].
    exfalso. apply Hx. apply andb_true_iff in Hbid as [[<-%bool_decide_eq_true_1 _]%andb_true_iff _].
    apply list_elem_of_In, in_map, list_elem_of_In, Hz.
  - unfold is_bid_of at 1. rewrite bool_decide_eq_false_2 by done. cbn [andb].
    unfold select_where. rewrite filter_cons_False by (rewrite Hno; [done|set_solver]).
    apply IH; [set_solver| |done]. apply elem_of_cons in Hin as [->|]; done.
Qed.
