(* ===== verification/Pricing.v ===== *)
(** * Money rounding and listing commission

    app/utils/money.py, app/utils/listing_commission.py and the parts of
    app/service/platform/listing_pricing_service.py the auctions use. *)

From S2P Require Import Prelude PyNum Store Settings.

(** [value] is a float ([None] gives 0); a NaN or infinity raises. *)
Definition round_inr_float (value : py_float) : res Z :=
  try! raw <- dec_of_repr value;
  Ok (if 0 <=? dexp raw then coef raw * 10 ^ dexp raw
      else div_half_up (coef raw) (10 ^ (- dexp raw))).

Definition round_inr (value : option py_float) : res Z :=
  match value with None => Ok 0 | Some v => round_inr_float v end.

Definition round_money (value : option py_float) : res py_float :=
  match value with
  | None => Ok fl_zero
  | Some v =>
      try! raw <- dec_of_repr v;
      try! q <- quantize_half_up raw (-2);
      Ok (fl_of_dec q)
  end.

(** (amount, commission, net) in whole rupees. *)
Definition compute_inr_commission (amount commission_percent : py_float) : res (Z * Z * Z) :=
  try! base <- round_inr (Some amount);
  try! commission <-
    round_inr (Some (fl_div (fl_mul (fl_of_Z base) commission_percent) (fl_of_Z 100)));
  Ok (base, commission, base - commission).

Definition is_likely_truncated_round_inr (deal_value : option Z) : bool :=
  match deal_value with
  | None => false
  | Some v => if v <? 9999 then false else (v + 1) mod 10000 =? 0
  end.

Definition repair_truncated_inr_amount (deal_value : option Z) : res (option Z) :=
  match deal_value with
  | None => Ok None
  | Some v =>
      try! normalized <- round_inr (Some (fl_of_Z v));
      Ok (Some (if is_likely_truncated_round_inr (Some normalized) then normalized + 1
                else normalized))
  end.

(** (seller_payout_amount, commission_amount, listing_price) *)
Definition compute_listing_commission (listing_price commission_percent : py_float)
    : res (py_float * py_float * py_float) :=
  if fl_ltb listing_price fl_zero then Raise (ValueError "Listing price cannot be negative.")
  else if fl_ltb commission_percent fl_zero then
    Raise (ValueError "Commission percent cannot be negative.")
  else
    try! price <- round_inr (Some listing_price);
    try! commission <-
      round_inr (Some (fl_div (fl_mul (fl_of_Z price) commission_percent) (fl_of_Z 100)));
    Ok (fl_of_Z (price - commission), fl_of_Z commission, fl_of_Z price).

Record price_fields := PriceFields {
  pf_sellerPrice : option py_float;
  pf_platformCommissionPercent : option py_float;
  pf_platformCommissionAmount : option py_float;
  pf_finalListingPrice : py_float;
  pf_displayPrice : py_float;
}.

Definition pricing_breakdown (stored_price commission_percent : py_float) : res price_fields :=
  if fl_ltb fl_zero stored_price then
    try! (seller_payout, commission, final_price) <-
      compute_listing_commission stored_price commission_percent;
    Ok (PriceFields (Some seller_payout) (Some commission_percent) (Some commission) final_price
          final_price)
  else Ok (PriceFields None None None stored_price stored_price).

(** ** listing_pricing_service.py *)

Definition commission_percent : Prog py_float := listing_commission_percent.
Definition acquisition_commission_percent : Prog py_float := venture_acquisition_commission_percent.

(** (seller_price, final_asking_price) *)
Definition resolve_domain_prices (seller_amount : py_float) : Prog (py_float * py_float) :=
  do pct <- listing_commission_percent;
  do (seller, _, final) <- lift_res (compute_listing_commission seller_amount pct);
  ret (seller, final).

Definition resolve_software_prices (seller_amount : py_float) (purchase_type technology_type : string)
    : Prog (py_float * py_float) :=
  do pct <-
    (if bool_decide (purchase_type = "SUBSCRIPTION"%string) && bool_decide (technology_type = "SOFTWARE"%string)
     then ret (fl_of_Z 100)
     else if bool_decide (purchase_type = "SUBSCRIPTION"%string) && bool_decide (technology_type = "HARDWARE"%string)
     then hardware_subscription_commission_percent
     else if bool_decide (purchase_type = "ONE_TIME"%string) && bool_decide (technology_type = "HARDWARE"%string)
     then hardware_onetime_commission_percent
     else software_onetime_commission_percent);
  do (seller, _, final) <- lift_res (compute_listing_commission seller_amount pct);
  ret (seller, final).

Definition resolve_venture_deal_values (seller_amount : Z) : Prog (Z * Z) :=
  do pct <- listing_commission_percent;
  do (seller, _, final) <- lift_res (compute_listing_commission (fl_of_Z seller_amount) pct);
  do s <- lift_res (round_inr (Some seller));
  do f <- lift_res (round_inr (Some final));
  ret (s, f).

(** ** Checks *)

Example round_inr_half : round_inr (Some (fl_of_dec (Dec 25 (-1)))) = Ok 3.
Proof. vm_compute. reflexivity. Qed.

Example commission_15 :
  compute_listing_commission (fl_of_dec (Dec 99995 (-1))) (fl_of_Z 15)
  = Ok (fl_of_Z 8500, fl_of_Z 1500, fl_of_Z 10000).
Proof. vm_compute. reflexivity. Qed.
