(* ===== verification/Restore.v ===== *)
(** * Returning a listing to direct sale

    app/service/domain/direct_sale_restore.py: what happens to the marketplace
    listing of an auction that ended without a sale. *)

From S2P Require Import Prelude PyNum Store Settings AuctionRepo Pricing.

Module LStatus := DomainListingStatus.
Module VStatus := DomainListingVerificationStatus.

Definition NO_SALE_AUCTION_STATUSES : list AuctionStatus.t :=
  [AuctionStatus.UNSOLD; AuctionStatus.CANCELLED; AuctionStatus.CLOSED; AuctionStatus.TAKEN_DOWN].

Definition needs_verification (l : DomainListing) : bool :=
  negb (bool_decide (l_verification_status l = VStatus.VERIFIED)) || negb (l_verified l).

(** The early return: a listing already back on direct sale. *)
Definition already_restored (l : DomainListing) : bool :=
  negb (bool_decide (l_sale_type l = SaleType.AUCTION)) && negb (fl_leb (l_asking_price l) fl_zero)
  && negb (needs_verification l) && bool_decide (l_domain_status l = LStatus.AVAILABLE).

Definition to_one_time (l : DomainListing) : DomainListing :=
  if bool_decide (l_sale_type l = SaleType.AUCTION) then l <| l_sale_type := SaleType.ONE_TIME |> else l.

Definition to_available (l : DomainListing) : DomainListing :=
  if bool_decide (l_domain_status l = LStatus.AVAILABLE) then l
  else l <| l_domain_status := LStatus.AVAILABLE |>.

Definition must_verify (a : Auction) (l : DomainListing) : bool :=
  bool_decide (a_status a = AuctionStatus.UNSOLD)
  && negb (bool_decide (l_verification_status l = VStatus.REJECTED))
  && needs_verification l.

Definition to_verified (now : Z) (l : DomainListing) : DomainListing :=
  l <| l_verification_status := VStatus.VERIFIED |> <| l_verified := true |>
    <| l_verified_at := Some (default now (l_verified_at l)) |>.

(** Only an unsold auction's start price becomes the missing asking price. *)
Definition must_price (a : Auction) (l : DomainListing) : bool :=
  bool_decide (a_status a = AuctionStatus.UNSOLD) && fl_leb (l_asking_price l) fl_zero
  && fl_ltb fl_zero (fl_of_dec (cents (a_min_bid_price a))).

Definition priced (percent seller commission final : py_float) (l : DomainListing) : DomainListing :=
  l <| l_asking_price := final |> <| l_listing_price := Some final |>
    <| l_seller_price := Some seller |> <| l_seller_payout_amount := Some seller |>
    <| l_commission_percentage := Some percent |> <| l_commission_amount := Some commission |>.

Definition restore_listing_after_no_sale (listing : option DomainListing) : Prog bool :=
  match listing with
  | None => ret false
  | Some l =>
      if bool_decide (l_domain_status l = LStatus.SOLD) || already_restored l then ret false
      else
        do auction <- get_auction_by_domain (l_id l) false;
        match auction with
        | None => ret false
        | Some a =>
            if negb (is_status NO_SALE_AUCTION_STATUSES a) then ret false
            else
              let l1 := to_available (to_one_time l) in
              let changed1 := bool_decide (l_sale_type l = SaleType.AUCTION)
                              || negb (bool_decide (l_domain_status l = LStatus.AVAILABLE)) in
              do now <- utc_now;
              let l2 := if must_verify a l1 then to_verified now l1 else l1 in
              let changed2 := changed1 || must_verify a l1 in
              save_listing l2 ;;;
              if must_price a l2 then
                do percent <- commission_percent;
                do (seller, commission, final) <- lift_res
                  (compute_listing_commission (fl_of_dec (cents (a_min_bid_price a))) percent);
                save_listing (priced percent seller commission final l2) ;;;
                ret true
              else ret changed2
        end
  end.

(** winner_service.py [_restore_listing_to_direct_sale] /
    [release_listing_for_direct_sale]: the listing is loaded even if soft-deleted. *)
Definition release_listing_for_direct_sale (domain_id : string) : Prog unit :=
  do listing <- gets (fun d => listings d !! domain_id);
  do _ <- restore_listing_after_no_sale listing;
  ret tt.

(** ** Lemmas *)

Lemma committed_restore listing : keeps_committed (restore_listing_after_no_sale listing).
Proof.
  unfold restore_listing_after_no_sale, save_listing, get_auction_by_domain, commission_percent,
    listing_commission_percent. frame.
Qed.

Lemma committed_release did : keeps_committed (release_listing_for_direct_sale did).
Proof. unfold release_listing_for_direct_sale. frame. apply committed_restore. Qed.

(** The restore touches listings only. *)
Lemma restore_frame {T} (view : DB -> T) listing :
  (forall d l, view (put_listing l d) = view d) ->
  preserves (db_view view) (restore_listing_after_no_sale listing).
Proof.
  intros Hv. unfold restore_listing_after_no_sale, save_listing, get_auction_by_domain,
    commission_percent, listing_commission_percent, _get_float, get_setting. frame;
    apply db_view_modify; intros; apply Hv.
Qed.

Lemma release_frame {T} (view : DB -> T) did :
  (forall d l, view (put_listing l d) = view d) ->
  preserves (db_view view) (release_listing_for_direct_sale did).
Proof. intros Hv. unfold release_listing_for_direct_sale. frame. by apply restore_frame. Qed.

(** *** What the release does to the listing *)

(** The commission that applies. *)
Definition commission_of (d : DB) : py_float :=
  match settings d !! KEY_LISTING_COMMISSION_PERCENT with
  | Some v => default DEFAULT_LISTING_COMMISSION_PERCENT (setting_float v)
  | None => DEFAULT_LISTING_COMMISSION_PERCENT
  end.

Definition price_part (l : DomainListing) :=
  (l_asking_price l, l_listing_price l, l_seller_price l, l_seller_payout_amount l,
   l_commission_percentage l, l_commission_amount l).

(** The listing without the fields a release may set. *)
Definition sans_sale (l : DomainListing) : DomainListing :=
  l <| l_sale_type := SaleType.ONE_TIME |> <| l_domain_status := LStatus.AVAILABLE |>
    <| l_verification_status := VStatus.VERIFIED |> <| l_verified := true |> <| l_verified_at := None |>
    <| l_asking_price := fl_zero |> <| l_listing_price := None |> <| l_seller_price := None |>
    <| l_seller_payout_amount := None |> <| l_commission_percentage := None |>
    <| l_commission_amount := None |>.

(** A listing [l] that was not sold is for direct sale again as [l'] after its
    auction [a] ended without a bid; [pct] is the platform's commission. *)
Record back_on_sale (pct : py_float) (a : Auction) (l l' : DomainListing) : Prop := BackOnSale {
  bs_type : l_sale_type l' =
    if bool_decide (l_sale_type l = SaleType.AUCTION) then SaleType.ONE_TIME else l_sale_type l;
  bs_status : l_domain_status l' = LStatus.AVAILABLE;
  bs_verified : l_verification_status l <> VStatus.REJECTED ->
    l_verification_status l' = VStatus.VERIFIED /\ l_verified l' = true;
  bs_rejected : l_verification_status l = VStatus.REJECTED ->
    l_verification_status l' = VStatus.REJECTED /\ l_verified l' = l_verified l;
  bs_price : if fl_leb (l_asking_price l) fl_zero && fl_ltb fl_zero (fl_of_dec (cents (a_min_bid_price a)))
    then exists seller commission final,
      compute_listing_commission (fl_of_dec (cents (a_min_bid_price a))) pct = Ok (seller, commission, final) /\
      price_part l' = (final, Some final, Some seller, Some seller, Some pct, Some commission)
    else price_part l' = price_part l;
  bs_rest : sans_sale l' = sans_sale l;
}.

Lemma commission_ok (s : Session) : commission_percent s = (Ok (commission_of (s_db s)), s).
Proof.
  unfold commission_percent, listing_commission_percent, _get_float, get_setting, commission_of, bind, gets.
  by destruct (settings (s_db s) !! KEY_LISTING_COMMISSION_PERCENT).
Qed.

Lemma restored_already pct a l :
  already_restored l = true -> back_on_sale pct a l l.
Proof.
  unfold already_restored, needs_verification.
  intros [[[Ht%negb_true_iff Hp%negb_true_iff]%andb_true_iff Hv]%andb_true_iff Hs%bool_decide_eq_true_1]%andb_true_iff.
  apply negb_true_iff, orb_false_iff in Hv as [Hv1%negb_false_iff%bool_decide_eq_true_1 Hv2%negb_false_iff].
  split; [by rewrite Ht|done|done|intros; congruence|by rewrite Hp|done].
Qed.

(** The steps of [restore_listing_after_no_sale] before the price. *)
Definition unpriced (a : Auction) (now : Z) (l : DomainListing) : DomainListing :=
  let l1 := to_available (to_one_time l) in if must_verify a l1 then to_verified now l1 else l1.

Lemma unpriced_price a now l : price_part (unpriced a now l) = price_part l.
Proof. unfold unpriced, to_available, to_one_time. by repeat case_match. Qed.

Lemma unpriced_rest a now l : sans_sale (unpriced a now l) = sans_sale l.
Proof. unfold unpriced, to_available, to_one_time. by repeat case_match. Qed.

Lemma unpriced_type a now l : l_sale_type (unpriced a now l) =
  if bool_decide (l_sale_type l = SaleType.AUCTION) then SaleType.ONE_TIME else l_sale_type l.
Proof. unfold unpriced, to_available, to_one_time. by repeat case_match. Qed.

Lemma unpriced_status a now l : l_domain_status (unpriced a now l) = LStatus.AVAILABLE.
Proof.
  unfold unpriced, to_available. case_bool_decide; by repeat case_match.
Qed.

Lemma unpriced_verified a now l :
  a_status a = AuctionStatus.UNSOLD ->
  (l_verification_status l <> VStatus.REJECTED ->
   l_verification_status (unpriced a now l) = VStatus.VERIFIED /\ l_verified (unpriced a now l) = true) /\
  (l_verification_status l = VStatus.REJECTED ->
   l_verification_status (unpriced a now l) = VStatus.REJECTED /\ l_verified (unpriced a now l) = l_verified l).
Proof.
  intros Hst. unfold unpriced, must_verify, needs_verification.
  rewrite (bool_decide_eq_true_2 (a_status a = _)) by done. cbn [andb].
  assert (l_verification_status (to_available (to_one_time l)) = l_verification_status l /\
          l_verified (to_available (to_one_time l)) = l_verified l) as [-> ->]
    by (unfold to_available, to_one_time; by repeat case_match).
  assert (Hsame : l_verification_status (to_available (to_one_time l)) = l_verification_status l /\
          l_verified (to_available (to_one_time l)) = l_verified l)
    by (unfold to_available, to_one_time; by repeat case_match).
  destruct Hsame as [H1 H2].
  destruct (l_verification_status l) eqn:Hv, (l_verified l) eqn:Hb; cbn; rewrite ?H1, ?H2; by split.
Qed.

Lemma back_unpriced pct a now l :
  a_status a = AuctionStatus.UNSOLD ->
  must_price a (unpriced a now l) = false -> back_on_sale pct a l (unpriced a now l).
Proof.
  intros Hst Hp. split.
  - apply unpriced_type.
  - apply unpriced_status.
  - apply (unpriced_verified a now l Hst).
  - apply (unpriced_verified a now l Hst).
  - unfold must_price in Hp. rewrite bool_decide_eq_true_2 in Hp by done. cbn [andb] in Hp.
    pose proof (unpriced_price a now l) as Hpp. unfold price_part in Hpp. simplify_eq.
    replace (l_asking_price (unpriced a now l)) with (l_asking_price l) in Hp by congruence.
    by rewrite Hp, unpriced_price.
  - apply unpriced_rest.
Qed.

Lemma back_priced pct a now l seller commission final :
  a_status a = AuctionStatus.UNSOLD ->
  must_price a (unpriced a now l) = true ->
  compute_listing_commission (fl_of_dec (cents (a_min_bid_price a))) pct = Ok (seller, commission, final) ->
  back_on_sale pct a l (priced pct seller commission final (unpriced a now l)).
Proof.
  intros Hst Hp Hc. split.
  - apply unpriced_type.
  - apply unpriced_status.
  - apply (unpriced_verified a now l Hst).
  - apply (unpriced_verified a now l Hst).
  - unfold must_price in Hp. rewrite bool_decide_eq_true_2 in Hp by done. cbn [andb] in Hp.
    pose proof (unpriced_price a now l) as Hpp. unfold price_part in Hpp. simplify_eq.
    replace (l_asking_price (unpriced a now l)) with (l_asking_price l) in Hp by congruence.
    rewrite Hp. by exists seller, commission, final.
  - transitivity (sans_sale (unpriced a now l)); [done|apply unpriced_rest].
Qed.

(** The auction the release looks at: the listing's newest one. *)
Definition newest_auction (did : string) (d : DB) : option Auction :=
  first_by newer (domain_auctions did (fun a => negb false || is_status LIVE_STATUSES a) d).

Lemma newest_unique k a d :
  auctions d !! k = Some a -> a_is_deleted a = false ->
  (forall k' a', auctions d !! k' = Some a' -> k' <> k -> a_domain_id a' = a_domain_id a ->
     a_is_deleted a' = false -> a_created_at a' < a_created_at a) ->
  newest_auction (a_domain_id a) d = Some a.
Proof.
  intros Hk Hdel Hold. unfold newest_auction.
  set (t := domain_auctions _ _ d).
  assert (Hin : a ∈ t).
  { apply elem_of_select_where. split; [|apply elem_of_values; by exists k].
    unfold _alive_auction. by rewrite bool_decide_eq_true_2, Hdel. }
  destruct (first_by newer t) as [b|] eqn:Hb.
  2:{ apply first_by_None in Hb. rewrite Hb in Hin. by apply not_elem_of_nil in Hin. }
  apply first_by_Some in Hb as [Hbt Hmin]; [|unfold newer; intros; lia..].
  apply elem_of_select_where in Hbt as [Hp (k' & Hk')%elem_of_values].
  unfold _alive_auction in Hp. apply andb_true_iff in Hp as [[Hd%bool_decide_eq_true_1 Hbd%negb_true_iff]%andb_true_iff _].
  specialize (Hmin a Hin). unfold newer in Hmin.
  destruct (decide (k' = k)) as [->|Hne]; [congruence|].
  specialize (Hold _ _ Hk' Hne Hd Hbd). lia.
Qed.

Lemma newest_alive did d a : newest_auction did d = Some a -> a_domain_id a = did /\ a_is_deleted a = false.
Proof.
  intros [Hin _]%first_by_Some; [|unfold newer; intros; lia..].
  apply elem_of_select_where in Hin as [Hp _].
  apply andb_true_iff in Hp as [[Hd%bool_decide_eq_true_1 Hbd%negb_true_iff]%andb_true_iff _]. by split.
Qed.

(** The release of a stored listing: sold ones stay as they are; the others go
    back on sale, unless the missing price cannot be computed. *)
Lemma release_listing did s l :
  listings (s_db s) !! did = Some l -> l_id l = did ->
  let '(r, s2) := release_listing_for_direct_sale did s in
  (r = Ok tt /\ exists l', listings (s_db s2) = <[did := l']> (listings (s_db s)) /\
     (l_domain_status l = LStatus.SOLD -> l' = l) /\
     (l_domain_status l <> LStatus.SOLD -> forall a, newest_auction did (s_db s) = Some a ->
        a_status a = AuctionStatus.UNSOLD -> back_on_sale (commission_of (s_db s)) a l l'))
  \/ (exists e a, r = Raise e /\ l_domain_status l <> LStatus.SOLD /\ newest_auction did (s_db s) = Some a /\
        fl_leb (l_asking_price l) fl_zero = true /\
        compute_listing_commission (fl_of_dec (cents (a_min_bid_price a))) (commission_of (s_db s)) = Raise e).
Proof.
  intros Hl Hid. unfold release_listing_for_direct_sale, restore_listing_after_no_sale, get_auction_by_domain.
  unfold bind at 1, gets at 1. rewrite Hl, Hid. unfold bind at 1.
  assert (Hsame : listings (s_db s) = <[did := l]> (listings (s_db s))) by (by rewrite insert_id).
  destruct (bool_decide_reflect (l_domain_status l = LStatus.SOLD)) as [Hsold|Hns]; cbn [orb].
  { left. split; [done|]. by exists l. }
  destruct (already_restored l) eqn:Halr.
  { left. split; [done|]. exists l. split_and!; [done|done|]. intros. by apply restored_already. }
  unfold bind at 1, gets at 1. fold (newest_auction did (s_db s)).
  destruct (newest_auction did (s_db s)) as [a|] eqn:Hn.
  2:{ left. split; [done|]. by exists l. }
  destruct (is_status NO_SALE_AUCTION_STATUSES a) eqn:Hst; cbn [negb].
  2:{ left. split; [done|]. exists l. split_and!; [done|done|]. intros _ a' [= <-] Hu.
      unfold is_status in Hst. by rewrite Hu in Hst. }
  unfold bind at 1, utc_now, save_listing, bind at 1, modify at 1. cbv zeta.
  fold (unpriced a (s_clock s 0%nat) l). set (now := s_clock s 0%nat).
  destruct (must_price a (unpriced a now l)) eqn:Hp.
  - unfold bind at 1. rewrite commission_ok. cbn [s_db].
    change (commission_of (put_listing (unpriced a now l) (s_db s))) with (commission_of (s_db s)).
    unfold bind at 1, lift_res.
    destruct (compute_listing_commission _ _) as [[[seller commission] final]|e] eqn:Hc.
    + left. split; [done|]. exists (priced (commission_of (s_db s)) seller commission final (unpriced a now l)).
      split_and!; [|done|].
      * cbn. change (l_id (priced _ _ _ _ _)) with (l_id (unpriced a now l)).
        assert (l_id (unpriced a now l) = did) as -> by (unfold unpriced, to_available, to_one_time; by repeat case_match).
        by rewrite insert_insert_eq.
      * intros _ a' [= <-] Hu. by apply back_priced.
    + right. exists e, a. split_and!; try done.
      pose proof (unpriced_price a now l) as Hpp. unfold price_part in Hpp. simplify_eq.
      unfold must_price in Hp. apply andb_true_iff in Hp as [[_ Hp]%andb_true_iff _]. congruence.
  - left. split; [done|]. exists (unpriced a now l). split_and!; [|done|].
    + cbn. assert (l_id (unpriced a now l) = did) as -> by (unfold unpriced, to_available, to_one_time; by repeat case_match). done.
    + intros _ a' [= <-] Hu. by apply back_unpriced.
Qed.

Lemma release_missing did s :
  listings (s_db s) !! did = None -> release_listing_for_direct_sale did s = (Ok tt, s).
Proof.
  intros Hl. unfold release_listing_for_direct_sale, bind, gets. by rewrite Hl.
Qed.
