(* ===== verification/Lifecycle.v ===== *)
(** * Winner payment window, bidding blocks, forfeits

    app/service/auction/winner_payment_lifecycle.py.  Its state is JSON documents
    in platform_settings: one payment track per auction ("wpt:..."), one block
    document per user ("bidblock:...") and the index of blocked users.  Documents
    are dicts as [json.loads] returns them; sending a mail is an argument
    [mail_ok] (did the send to this recipient succeed), the gateway an [rzp_api].
    Software auctions keep their rows in tables outside this development: a
    forfeit's update of them is not modelled. *)

From stdpp Require Import sorting.
From S2P Require Import Prelude PyNum Text BidLimits Store Gateway Settings AuctionFees AuctionRepo Pricing Restore.

Definition PAYMENT_WINDOW_DAYS : Z := 7.
Definition TRACK_PREFIX : string := "wpt:".
Definition BLOCK_PREFIX : string := "bidblock:".
Definition BLOCK_INDEX_KEY : string := "bidblock_index".

Definition _track_key (auction_type auction_id : string) : string :=
  (TRACK_PREFIX +:+ upper auction_type +:+ ":" +:+ auction_id)%string.

Definition _block_key (user_id : string) : string := (BLOCK_PREFIX +:+ user_id)%string.

(** ** Reading JSON values *)

(** [v.get(...)] needs a dict. *)
Definition as_dict (v : json) : res dict :=
  match v with JObj d => Ok d | _ => Raise (OtherError "AttributeError") end.

(** [d[k]] *)
Definition dict_index (k : string) (d : dict) : res json :=
  match list_find (fun kv => kv.1 = k) d with
  | Some (_, kv) => Ok kv.2
  | None => Raise (OtherError "KeyError")
  end.

(** [uuid.UUID(str(v))]: the documents hold the canonical text of a uuid. *)
Definition uuid_of (v : json) : res string :=
  match v with
  | JStr s => if is_empty s then Raise (ValueError "badly formed hexadecimal UUID string") else Ok s
  | _ => Raise (ValueError "badly formed hexadecimal UUID string")
  end.

(** [v.upper()] needs a text. *)
Definition text_of (v : json) : res string :=
  match v with JStr s => Ok s | _ => Raise (OtherError "AttributeError") end.

(** [float(v or 0)] *)
Definition float_or_0 (v : json) : res py_float :=
  if negb (json_truthy v) then Ok fl_zero
  else
    match v with
    | JNum x => Ok x
    | JInt z => Ok (fl_of_Z z)
    | JBool _ => Ok (fl_of_Z 1)
    | JStr s => match float_of_text s with Some x => Ok x | None => Raise (ValueError "could not convert string to float") end
    | JTime _ | JDate _ => Raise (ValueError "could not convert string to float")
    | _ => Raise (OtherError "TypeError")
    end.

(** [d.get(k) or default] of a text field. *)
Definition text_or (v : json) (dflt : string) : string :=
  match v with JStr s => if is_empty s then dflt else s | _ => dflt end.

(** [f"{x:,.2f}"] of a finite float. *)
Definition fl_comma_2f (x : py_float) : string :=
  match fl_frac x with
  | Some (n, d) => format_comma_2f (cents (div_half_even (100 * n) d))
  | None => "nan"
  end.

(** ** Dates *)

Definition day_of (t : Z) : Z := t / days 1.

(** Calendar days (UTC) from now until the due date; [None] when unreadable. *)
Definition days_left_until (due_at_iso : json) (now : Z) : res (option Z) :=
  if negb (json_truthy due_at_iso) then Ok None
  else
    match due_at_iso with
    | JTime t => Ok (Some (day_of t - day_of now))
    | JDate d => Ok (Some (d - day_of now))
    | JStr _ => Ok None
    | _ => Raise (OtherError "AttributeError")
    end.

Definition payment_due_label (due_at_iso : json) (now : Z) : res (option string) :=
  try! n_left <- days_left_until due_at_iso now;
  Ok match n_left with
     | None => None
     | Some n =>
         Some (if (n <? 0)%Z then "Payment overdue"
               else if (n =? 0)%Z then "Payment due today"
               else if (n =? 1)%Z then "Payment due in 1 day"
               else "Payment due in " +:+ pretty n +:+ " days")%string
     end.

Section Lifecycle.
Context {cfg : Config}.

(** ** The settings rows *)

Definition get_track (auction_type auction_id : string) : Prog (option json) :=
  do raw <- get_setting (_track_key auction_type auction_id);
  ret match raw with
      | None => None
      | Some v => if setting_truthy v then json_loads v else None
      end.

(** [await self.get_track(...) or {}] *)
Definition track_or_empty (t : option json) : res dict :=
  match t with
  | Some v => if json_truthy v then as_dict v else Ok []
  | None => Ok []
  end.

Definition set_track (key : string) (track : dict) : Prog unit := set_setting key (SvJson (JObj track)).

Definition track_rows (d : DB) : list setting_value :=
  map snd (filter (fun kv => startswith kv.1 TRACK_PREFIX = true) (map_to_list (settings d))).

(** The documents still to be paid: neither forfeited nor a zero-bid notice, with
    a due date.  A document that is not JSON is skipped. *)
Fixpoint open_tracks (rows : list setting_value) : res (list dict) :=
  match rows with
  | [] => Ok []
  | v :: rows' =>
      match (if setting_truthy v then json_loads v else Some (JObj [])) with
      | None => open_tracks rows'
      | Some j =>
          try! data <- as_dict j;
          try! out <- open_tracks rows';
          Ok (if json_truthy (dict_get "forfeitedAt" data) || json_truthy (dict_get "zeroBid" data)
              then out
              else if json_truthy (dict_get "dueAt" data) then data :: out else out)
      end
  end.

Definition list_open_tracks : Prog (list dict) :=
  do rows <- gets track_rows;
  lift_res (open_tracks rows).

Definition start_winner_window (auction_type auction_id winner_user_id : string)
    (seller_user_id : option string) (winning_amount : py_float) (title pay_path : string)
    : Prog dict :=
  do now <- utc_now;
  let track : dict :=
    [("auctionType", JStr (upper auction_type)); ("auctionId", JStr auction_id);
     ("winnerUserId", JStr winner_user_id); ("sellerUserId", json_opt_str seller_user_id);
     ("winningAmount", JNum winning_amount); ("title", JStr title); ("payPath", JStr pay_path);
     ("dueAt", JTime (now + days PAYMENT_WINDOW_DAYS)); ("winEmailSentAt", JNull);
     ("reminderSentOn", JNull); ("forfeitedAt", JNull); ("creationFeeRefundedAt", JNull);
     ("zeroBidNoticeSentAt", JNull)]%string in
  set_track (_track_key auction_type auction_id) track ;;;
  ret track.

Definition mark_win_email_sent (auction_type auction_id : string) : Prog unit :=
  do t <- get_track auction_type auction_id;
  do track <- lift_res (track_or_empty t);
  do now <- utc_now;
  set_track (_track_key auction_type auction_id) (dict_set "winEmailSentAt" (JTime now) track).

(** ** Bidding blocks *)

Definition BLOCKED_TEXT : string := "Bidding blocked.".
Definition BLOCKED_UNPAID_TEXT : string := "Bidding blocked for unpaid auction win.".

Definition is_user_bidding_blocked (user_id : string) : Prog (bool * option string) :=
  do raw <- get_setting (_block_key user_id);
  match raw with
  | None => ret (false, None)
  | Some v =>
      if negb (setting_truthy v) then ret (false, None)
      else
        match json_loads v with
        | None => ret (true, Some BLOCKED_TEXT)
        | Some j =>
            do data <- lift_res (as_dict j);
            if json_truthy (dict_get "unblockedAt" data) then ret (false, None)
            else ret (true, Some (text_or (dict_get "reason" data) BLOCKED_UNPAID_TEXT))
        end
  end.

(** [json.loads(idx_raw) if idx_raw else []], [[]] when it is not JSON. *)
Definition block_index (raw : option setting_value) : res (list json) :=
  match raw with
  | Some v =>
      if setting_truthy v then
        match json_loads v with
        | Some (JArr l) => Ok l
        | Some _ => Raise (OtherError "TypeError")
        | None => Ok []
        end
      else Ok []
  | None => Ok []
  end.

Definition is_str (s : string) (j : json) : bool :=
  match j with JStr t => bool_decide (t = s) | _ => false end.

Definition block_user (user_id reason auction_type auction_id : string) (winning_amount : py_float)
    (title : string) : Prog unit :=
  do now <- utc_now;
  set_setting (_block_key user_id) (SvJson (JObj
    [("userId", JStr user_id); ("reason", JStr reason); ("blockedAt", JTime now);
     ("auctionType", JStr (upper auction_type)); ("auctionId", JStr auction_id);
     ("winningAmount", JNum winning_amount); ("title", JStr title); ("unblockedAt", JNull);
     ("unblockedBy", JNull)]%string)) ;;;
  do idx_raw <- get_setting BLOCK_INDEX_KEY;
  do idx <- lift_res (block_index idx_raw);
  if existsb (is_str user_id) idx then ret tt
  else set_setting BLOCK_INDEX_KEY (SvJson (JArr (idx ++ [JStr user_id]))).

Definition unblock_user (user_id : string) (by_admin_id : option string) : Prog bool :=
  do raw <- get_setting (_block_key user_id);
  match raw with
  | None => ret false
  | Some v =>
      if negb (setting_truthy v) then ret false
      else
        do data <- lift_res
          match json_loads v with
          | None => Ok []
          | Some (JObj d) => Ok d
          | Some _ => Raise (OtherError "TypeError")
          end;
        do now <- utc_now;
        set_setting (_block_key user_id)
          (SvJson (JObj (dict_set "unblockedBy" (json_opt_str by_admin_id)
                           (dict_set "unblockedAt" (JTime now) data)))) ;;;
        ret true
  end.

Definition assert_user_can_bid_async (user : AppUser) : Prog unit :=
  do (blocked, reason) <- is_user_bidding_blocked (u_id user);
  guard_exn (negb blocked)
    (AppException (str_or reason "Your account is blocked from bidding after an unpaid auction win.") 403).

Definition assert_user_can_bid_sync (user : AppUser) : Prog unit :=
  do raw <- get_setting (_block_key (u_id user));
  match raw with
  | None => ret tt
  | Some v =>
      if negb (setting_truthy v) then ret tt
      else
        match json_loads v with
        | None => raise (HTTPException "Your account is blocked from bidding. Contact support." 403)
        | Some j =>
            do data <- lift_res (as_dict j);
            guard_exn (json_truthy (dict_get "unblockedAt" data))
              (HTTPException (text_or (dict_get "reason" data)
                 "Your account is blocked from bidding after an unpaid auction win.") 403)
        end
  end.

(** ** Notices *)

(** Whether this is the first zero-bid notice. *)
Definition mark_zero_bid_notice_sent (auction_type auction_id seller_user_id title : string)
    : Prog bool :=
  do t <- get_track auction_type auction_id;
  do track <- lift_res
    match t with
    | Some v =>
        if json_truthy v then as_dict v
        else Ok [("auctionType", JStr (upper auction_type)); ("auctionId", JStr auction_id);
                 ("sellerUserId", JStr seller_user_id); ("title", JStr title);
                 ("winningAmount", JInt 0); ("zeroBid", JBool true)]%string
    | None =>
        Ok [("auctionType", JStr (upper auction_type)); ("auctionId", JStr auction_id);
            ("sellerUserId", JStr seller_user_id); ("title", JStr title);
            ("winningAmount", JInt 0); ("zeroBid", JBool true)]%string
    end;
  if json_truthy (dict_get "zeroBidNoticeSentAt" track) then ret false
  else
    do now <- utc_now;
    set_track (_track_key auction_type auction_id)
      (dict_set "title" (JStr title)
         (dict_set "sellerUserId" (JStr seller_user_id)
            (dict_set "zeroBidNoticeSentAt" (JTime now) track))) ;;;
    ret true.

Definition is_date (d : Z) (v : json) : bool := match v with JDate d' => d' =? d | _ => false end.

(** The win mail was sent on this calendar day. *)
Definition win_email_today (today : Z) (win_sent : json) : bool :=
  match win_sent with
  | JTime t => day_of t =? today
  | JDate d => d =? today
  | _ => false
  end.

Definition try_send_daily_reminder (mail_ok : string -> bool) (track : dict) : Prog bool :=
  if json_truthy (dict_get "forfeitedAt" track) || negb (json_truthy (dict_get "dueAt" track))
  then ret false
  else
    do now <- utc_now;
    let today := day_of now in
    if is_date today (dict_get "reminderSentOn" track) then ret false
    else if win_email_today today (dict_get "winEmailSentAt" track) then ret false
    else
      do n_left <- lift_res (days_left_until (dict_get "dueAt" track) now);
      match n_left with
      | None => ret false
      | Some n =>
          if (n <? 0) || negb (json_truthy (dict_get "winnerUserId" track)) then ret false
          else
            do winner_id <- lift_res (uuid_of (dict_get "winnerUserId" track));
            do winner <- gets (fun d => users d !! winner_id);
            match winner with
            | None => ret false
            | Some w =>
                if is_empty (u_email w) then ret false
                else
                  let title := text_or (dict_get "title" track) "your auction" in
                  do amount <- lift_res (float_or_0 (dict_get "winningAmount" track));
                  let subject :=
                    (if (n =? 0)%Z then "Final reminder: pay today for “" +:+ title
                                    +:+ "” or your account will be blocked"
                     else "Payment reminder: " +:+ pretty n +:+ " days left for “" +:+ title
                          +:+ "”")%string in
                  if negb (mail_ok (u_email w)) then ret false
                  else
                    emit (Mail (u_email w) subject) ;;;
                    do auction_type <- lift_res (try! v <- dict_index "auctionType" track; text_of v);
                    do auction_id <- lift_res (try! v <- dict_index "auctionId" track; uuid_of v);
                    set_track (_track_key auction_type auction_id)
                      (dict_set "reminderSentOn" (JDate today) track) ;;;
                    ret true
            end
      end.

Definition send_win_email (mail_ok : string -> bool) (track : dict) : Prog unit :=
  if json_truthy (dict_get "winEmailSentAt" track)
     || negb (json_truthy (dict_get "winnerUserId" track)) then ret tt
  else
    do winner_id <- lift_res (uuid_of (dict_get "winnerUserId" track));
    do winner <- gets (fun d => users d !! winner_id);
    match winner with
    | None => ret tt
    | Some w =>
        if is_empty (u_email w) then ret tt
        else
          let title := text_or (dict_get "title" track) "your auction" in
          do amount <- lift_res (float_or_0 (dict_get "winningAmount" track));
          if negb (mail_ok (u_email w)) then ret tt
          else
            catch
              (emit (Mail (u_email w) ("You won “" +:+ title +:+ "” — complete payment")) ;;;
               do auction_type <- lift_res (try! v <- dict_index "auctionType" track; text_of v);
               do auction_id <- lift_res (try! v <- dict_index "auctionId" track; uuid_of v);
               mark_win_email_sent auction_type auction_id)
              (fun _ => ret tt)
    end.

(** ** Refund of the creation fee *)

Definition is_refundable (auction_type : FeeType.t) (seller_user_id : string) (r : AuctionFeePayment)
    : bool :=
  bool_decide (fp_payment_kind r = Kind.CREATION) && bool_decide (fp_auction_type r = auction_type)
  && bool_decide (fp_user_id r = seller_user_id)
  && bool_decide (fp_status r ∈ [FeeStatus.COMPLETED; FeeStatus.CONSUMED]).

Definition newer_fee (a b : AuctionFeePayment) : bool := fp_created_at b <? fp_created_at a.

(** The auction's own fee row, else the seller's latest of that type. *)
Definition creation_fee_row (auction_type : FeeType.t) (auction_id seller_user_id : string) (d : DB)
    : option AuctionFeePayment :=
  let rows := select_where (is_refundable auction_type seller_user_id) (values (fee_payments d)) in
  match first_by newer_fee (select_where (fun r => bool_decide (fp_auction_id r = Some auction_id)) rows) with
  | Some r => Some r
  | None => first_by newer_fee rows
  end.

Definition refund_creation_fee_if_any (api : rzp_api) (auction_type : FeeType.t)
    (auction_id seller_user_id : string) : Prog bool :=
  let key := _track_key (FeeType.value auction_type) auction_id in
  do t <- get_track (FeeType.value auction_type) auction_id;
  do track <- lift_res (track_or_empty t);
  if json_truthy (dict_get "creationFeeRefundedAt" track) then ret false
  else
    do row <- gets (creation_fee_row auction_type auction_id seller_user_id);
    match row with
    | Some r =>
        match fp_razorpay_payment_id r with
        | Some pid =>
            if is_empty pid then
              set_track key (dict_set "creationFeeRefundedAt" (JStr "skipped_no_payment") track) ;;;
              ret false
            else if startswith (fp_razorpay_order_id r) "admin_free" then
              set_track key (dict_set "creationFeeRefundedAt" (JStr "skipped_admin_free") track) ;;;
              ret false
            else
              catch
                (when is_configured
                   (do _ <- refund_payment api pid (fp_fee_amount_inr r) "INR"; ret tt) ;;;
                 do now <- utc_now;
                 set_track key (dict_set "creationFeeRefundPaymentId" (JStr pid)
                                  (dict_set "creationFeeRefundedAt" (JTime now) track)) ;;;
                 ret true)
                (fun _ => ret false)
        | None =>
            set_track key (dict_set "creationFeeRefundedAt" (JStr "skipped_no_payment") track) ;;;
            ret false
        end
    | None =>
        set_track key (dict_set "creationFeeRefundedAt" (JStr "skipped_no_payment") track) ;;;
        ret false
    end.

(** ** Forfeit *)

Definition notify_user (user_id title target_url : string) : Prog unit :=
  do user <- gets (fun d => users d !! user_id);
  match user with
  | Some u => emit (Notify (u_id u) title target_url)
  | None => ret tt
  end.

(** [uuid.UUID(str(v)) if v else None] *)
Definition optional_uuid (v : json) : res (option string) :=
  if json_truthy v then try! s <- uuid_of v; Ok (Some s) else Ok None.

Definition forfeit_reason (title : string) (amount : py_float) : string :=
  ("Unpaid winning bid on “" +:+ title +:+ "” (₹" +:+ fl_comma_2f amount +:+ "). "
   +:+ "Contact support / admin to unblacklist.")%string.

(** Mark the auction unsold; it is loaded even if soft-deleted, and every
    exception is swallowed. *)
Definition mark_forfeited_auction (auction_id : string) : Prog unit :=
  catch
    (do auction <- gets (fun d => auctions d !! auction_id);
     match auction with
     | Some a =>
         when (is_status [AuctionStatus.PAYMENT_PENDING; AuctionStatus.ENDED] a)
           (modify (put_auction (a <| a_status := AuctionStatus.UNSOLD |>
                                   <| a_current_winner_id := None |>)) ;;;
            release_listing_for_direct_sale (a_domain_id a))
     | None => ret tt
     end)
    (fun _ => ret tt).

Definition fee_type_of (auction_type : string) : FeeType.t :=
  if bool_decide (auction_type ∈ ["TECHNOLOGY"; "SOFTWARE"]%string) then FeeType.SOFTWARE
  else if bool_decide (auction_type = "CREATOR"%string) then FeeType.COMMUNITY
  else FeeType.DOMAIN.

Definition _forfeit_unpaid_winner (api : rzp_api) (track : dict) : Prog bool :=
  if json_truthy (dict_get "forfeitedAt" track) then ret false
  else
    let auction_type := upper (text_or (dict_get "auctionType" track) "DOMAIN") in
    do auction_id <- lift_res (try! v <- dict_index "auctionId" track; uuid_of v);
    do winner_id <- lift_res (optional_uuid (dict_get "winnerUserId" track));
    do seller_id <- lift_res (optional_uuid (dict_get "sellerUserId" track));
    let title := text_or (dict_get "title" track) "auction" in
    do amount <- lift_res (float_or_0 (dict_get "winningAmount" track));
    match winner_id with
    | Some w =>
        block_user w (forfeit_reason title amount) auction_type auction_id amount title ;;;
        notify_user w "Account blocked — unpaid auction win"
          (text_or (dict_get "payPath" track) "/auctions")
    | None => ret tt
    end ;;;
    when (bool_decide (auction_type = "DOMAIN"%string)) (mark_forfeited_auction auction_id) ;;;
    match seller_id with
    | Some sid =>
        do _ <- catch (refund_creation_fee_if_any api (fee_type_of auction_type) auction_id sid)
                  (fun _ => ret false);
        notify_user sid "Auction cancelled — winner did not pay" "/auctions?view=yours"
    | None => ret tt
    end ;;;
    do now <- utc_now;
    set_track (_track_key auction_type auction_id) (dict_set "forfeitedAt" (JTime now) track) ;;;
    ret true.

(** One document of the daily job. *)
Definition process_track (mail_ok : string -> bool) (api : rzp_api) (track : dict) : Prog unit :=
  do now <- utc_now;
  do n_left <- lift_res (days_left_until (dict_get "dueAt" track) now);
  match n_left with
  | None => ret tt
  | Some n =>
      if 0 <=? n then do _ <- try_send_daily_reminder mail_ok track; ret tt
      else do _ <- _forfeit_unpaid_winner api track; ret tt
  end.

Definition process_reminders_and_forfeits (mail_ok : string -> bool) (api : rzp_api) : Prog unit :=
  do tracks <- list_open_tracks;
  for_each tracks (process_track mail_ok api) ;;;
  commit.

(** The admin's list, newest block first. *)
Definition display_name (user : AppUser) : string :=
  let full := strip (strip (default EmptyString (u_firstname user)) +:+ " "
                     +:+ strip (default EmptyString (u_lastname user)))%string in
  if is_empty full then u_email user else full.

(** [data] with the user's email and names, when the user exists. *)
Definition enrich_blocked (d : DB) (u : string) (data : dict) : dict :=
  match users d !! u with
  | Some user =>
      dict_set "displayName" (JStr (display_name user))
        (dict_set "lastname" (json_opt_str (u_lastname user))
           (dict_set "firstname" (json_opt_str (u_firstname user))
              (dict_set "email" (JStr (u_email user)) data)))
  | None => data
  end.

(** The due label of the unpaid auction, [None] on any failure. *)
Definition blocked_due_label (d : DB) (now : Z) (data : dict) : json :=
  match dict_get "auctionType" data, dict_get "auctionId" data with
  | JStr ty, JStr aid =>
      if is_empty ty || is_empty aid then JNull
      else
        match settings d !! _track_key ty aid with
        | Some t =>
            match json_loads t with
            | Some (JObj tr) =>
                match payment_due_label (dict_get "dueAt" tr) now with
                | Ok (Some l) => JStr l
                | _ => JNull
                end
            | _ => JNull
            end
        | None => JNull
        end
  | _, _ => JNull
  end.

Definition blocked_entry (d : DB) (now : Z) (uid : json) : res (list dict) :=
  match uid with
  | JStr u =>
      match settings d !! _block_key u with
      | Some v =>
          if negb (setting_truthy v) then Ok []
          else
            match json_loads v with
            | Some j =>
                try! data <- as_dict j;
                if json_truthy (dict_get "unblockedAt" data) then Ok []
                else
                  let data1 := enrich_blocked d u data in
                  Ok [dict_set "paymentDueLabel" (blocked_due_label d now data1) data1]
            | None => Ok []
            end
      | None => Ok []
      end
  | _ => Ok []
  end.

Fixpoint blocked_entries (d : DB) (now : Z) (idx : list json) : res (list dict) :=
  match idx with
  | [] => Ok []
  | uid :: idx' =>
      try! e <- blocked_entry d now uid;
      try! es <- blocked_entries d now idx';
      Ok (e ++ es)
  end.

Definition blocked_at (d : dict) : Z :=
  match dict_get "blockedAt" d with JTime t => t | _ => 0 end.

Definition list_blocked_users : Prog (list dict) :=
  do idx_raw <- get_setting BLOCK_INDEX_KEY;
  do idx <- lift_res (block_index idx_raw);
  do now <- utc_now;
  do d <- gets id;
  do out <- lift_res (blocked_entries d now idx);
  ret (merge_sort (by_desc blocked_at) out).
End Lifecycle.

(** ** Lemmas *)

Section BlockLemmas.
Context {cfg : Config}.

(** The verdict of [is_user_bidding_blocked] on the stored document. *)
Definition block_status (raw : option setting_value) : res (bool * option string) :=
  match raw with
  | None => Ok (false, None)
  | Some v =>
      if negb (setting_truthy v) then Ok (false, None)
      else
        match json_loads v with
        | None => Ok (true, Some BLOCKED_TEXT)
        | Some j =>
            try! data <- as_dict j;
            if json_truthy (dict_get "unblockedAt" data) then Ok (false, None)
            else Ok (true, Some (text_or (dict_get "reason" data) BLOCKED_UNPAID_TEXT))
        end
  end.

Definition blocked_in (d : DB) (user_id : string) : res (bool * option string) :=
  block_status (settings d !! _block_key user_id).

Lemma is_user_bidding_blocked_run uid (s : Session) :
  is_user_bidding_blocked uid s = (blocked_in (s_db s) uid, s).
Proof.
  unfold is_user_bidding_blocked, blocked_in, block_status, get_setting, bind, gets.
  destruct (settings (s_db s) !! _ : option setting_value) as [v|]; [|done].
  destruct (setting_truthy v); [|done]. cbn [negb].
  destruct (json_loads v) as [j|]; [|done]. unfold lift_res.
  destruct (as_dict j) as [data|]; [|done]. cbn [res_bind]. by case_match.
Qed.

Lemma silent_assert_user u : silent (assert_user_can_bid_async u).
Proof.
  intros s. unfold assert_user_can_bid_async, bind. rewrite is_user_bidding_blocked_run.
  destruct (blocked_in _ _) as [[[] ?]|]; done.
Qed.

Lemma assert_user_ok u (s s' : Session) a :
  assert_user_can_bid_async u s = (Ok a, s') -> exists r, blocked_in (s_db s) (u_id u) = Ok (false, r).
Proof.
  unfold assert_user_can_bid_async, bind. rewrite is_user_bidding_blocked_run.
  destruct (blocked_in _ _) as [[[] r]|]; [done| |done]. by exists r.
Qed.
End BlockLemmas.
