(* ===== verification/Bidding.v ===== *)
(** * Placing a bid

    app/service/auction/bid_service.py, domain_auction_guard.py and the WebSocket
    payload of app/utils/auction_place_bid_common.py.  [_place_bid_locked] is cut at
    the verification of the bid fee, which may commit: [check_and_verify] runs
    before, [record_bid] after.  What another session commits in between is
    visible to the second part's queries, while the auction row object keeps the
    values it was loaded with ([expire_on_commit=False]); the unit of work writes
    back only the columns the code changed ([write_back]). *)

From S2P Require Import Prelude PyNum Text Sha256 BidLimits Store Gateway Settings EdgePoints AuctionFees AuctionRepo Lifecycle.

(** ** domain_auction_guard.py *)

Definition _VERIFICATION_MESSAGE : string :=
  "Bidding is blocked until the domain is verified by the owner.".

(** ** The WebSocket payload *)

Definition build_bid_placed_ws_event (auction_id : string) (status : AuctionStatus.t)
    (current_highest_bid : option Z) (total_bids : Z) (end_time : Z) (bidder_name : string)
    (amount bid_time : Z) (extended : bool) (bid_id bidder_id : string) : dict :=
  let highest := match current_highest_bid with
                 | Some c => fl_of_dec (cents c)
                 | None => fl_zero
                 end in
  let latest := JObj
    [("bidderName", JStr bidder_name); ("amount", JNum (fl_of_dec (cents amount)));
     ("bidTime", JTime bid_time); ("isWinningBid", JBool true); ("id", JStr bid_id);
     ("bidder_id", JStr bidder_id)]%string in
  [("type", JStr "BID_PLACED"); ("auctionId", JStr auction_id); ("auction_id", JStr auction_id);
   ("status", JStr (AuctionStatus.value status)); ("currentHighestBid", JNum highest);
   ("current_highest_bid", if fl_eqb highest fl_zero then JNull else JStr (fl_str highest));
   ("totalBids", JInt total_bids); ("total_bids", JInt total_bids); ("endTime", JTime end_time);
   ("end_time", JTime end_time); ("extended", JBool extended);
   ("currentWinnerName", JStr bidder_name); ("latestBid", latest); ("bid", latest)]%string.

(** [event["domain_id"] = auction.domain_id] *)
Definition _build_ws_event (a : Auction) (b : Bid) (extended : bool) : dict :=
  dict_set "domain_id" (JStr (a_domain_id a))
    (build_bid_placed_ws_event (a_id a) (a_status a) (a_current_highest_bid a) (a_total_bids a)
       (a_end_time a) (b_bidder_name b) (b_amount b) (b_created_at b) extended (b_id b)
       (b_bidder_id b)).

(** ** BidService *)

(** app/model/auction/bid_request.py; its validator accepts finite amounts of at
    most two decimal places. *)
Record PlaceBidRequest := MkBidRequest {
  pb_auction_id : option string;
  pb_amount : decimal;
  pb_razorpay_order_id : string;
  pb_razorpay_payment_id : string;
  pb_razorpay_signature : string;
}.

Definition _validate_money (v : decimal) : bool := -2 <=? dexp v.

Definition _validate_auction_state (a : Auction) : Prog unit :=
  guard_exn (is_status LIVE_STATUSES a)
    (AppException ("Auction is not accepting bids (status=" +:+ AuctionStatus.value (a_status a)
                   +:+ ").") 409) ;;;
  do now <- utc_now;
  guard_exn (now <? a_end_time a) (AppException "Auction has already expired." 409).

(** The column as the code reads it: a [Decimal], or [None]. *)
Definition highest_number (a : Auction) : number :=
  match a_current_highest_bid a with Some c => NDec (cents c) | None => NNone end.

Definition _validate_bid_amount (a : Auction) (amount : decimal) : Prog unit :=
  match normalize_bid_amount (NDec amount) (number_or_0 (highest_number a))
          (NDec (cents (a_min_bid_price a))) with
  | Ok _ => ret tt
  | Raise (ValueError m) => raise (AppException m 400)
  | Raise e => raise e
  end.

Definition listing_bid_limits (a : Auction) : res (py_float * py_float * py_float) :=
  bid_limit_fields (number_or_0 (highest_number a)) (NDec (cents (a_min_bid_price a))).

(** The columns a bid changes, as they reach the row. *)
Definition write_back (loaded new row : Auction) : Auction :=
  row <| a_end_time := dirty (a_end_time loaded) (a_end_time new) (a_end_time row) |>
      <| a_status := dirty (a_status loaded) (a_status new) (a_status row) |>
      <| a_current_highest_bid := dirty (a_current_highest_bid loaded) (a_current_highest_bid new)
                                    (a_current_highest_bid row) |>
      <| a_current_winner_id := dirty (a_current_winner_id loaded) (a_current_winner_id new)
                                  (a_current_winner_id row) |>
      <| a_total_bids := dirty (a_total_bids loaded) (a_total_bids new) (a_total_bids row) |>.

Section Bidding.
Context {cfg : Config}.

Definition ensure_domain_verified_for_auction (domain_id : string) : Prog unit :=
  if negb REQUIRE_DOMAIN_VERIFICATION_BEFORE_PURCHASE then ret tt
  else
    do listing <- get_listing domain_id;
    match listing with
    | Some l => guard_exn (l_verified l) (AppException _VERIFICATION_MESSAGE 400)
    | None =>
        do domain <- get_domain_alive domain_id;
        match domain with
        | Some x => guard_exn (d_is_verified x) (AppException _VERIFICATION_MESSAGE 400)
        | None => ret tt
        end
    end.

(** Steps 1 to 3 and the creator check, on the locked row. *)
Definition check_and_verify (auction_id : string) (payload : PlaceBidRequest) (bidder : AppUser)
    : Prog (Auction * AuctionFeePayment) :=
  do auction <- get_auction_by_id auction_id;
  match auction with
  | None => raise (AppException "Auction not found." 404)
  | Some a =>
      _validate_auction_state a ;;;
      ensure_domain_verified_for_auction (a_domain_id a) ;;;
      assert_user_can_bid_async bidder ;;;
      _validate_bid_amount a (pb_amount payload) ;;;
      do fee_row <- verify_bid_fee_payment FeeType.DOMAIN (a_id a) bidder
        (pb_razorpay_order_id payload) (pb_razorpay_payment_id payload)
        (pb_razorpay_signature payload) (pb_amount payload);
      guard_exn (negb (bool_decide (a_created_by a = u_id bidder)))
        (AppException "Auction creator cannot bid on their own auction." 403) ;;;
      ret (a, fee_row)
  end.

(** The auction after the bid. *)
Definition with_bid (a : Auction) (now : Z) (bidder_id : string) (amount : Z) : Auction :=
  let '(new_end, new_status, _) :=
    apply_anti_snipe (Some (a_end_time a)) now (a_status a) AuctionStatus.EXTENDED in
  a <| a_end_time := default (a_end_time a) new_end |>
    <| a_status := new_status |>
    <| a_current_highest_bid := Some amount |>
    <| a_current_winner_id := Some bidder_id |>
    <| a_total_bids := a_total_bids a + 1 |>.

Definition was_extended (a : Auction) (now : Z) : bool :=
  (apply_anti_snipe (Some (a_end_time a)) now (a_status a) AuctionStatus.EXTENDED).2.

(** Steps 4 to 6. *)
Definition record_bid (a : Auction) (fee_row : AuctionFeePayment) (payload : PlaceBidRequest)
    (bidder : AppUser) : Prog (Bid * dict) :=
  do now <- utc_now;
  clear_winning_flag (a_id a) ;;;
  do amount <- lift_res (numeric_18_2 (pb_amount payload));
  do bid <- create_bid
    (MkBid EmptyString (a_id a) (u_id bidder) amount
       (bidder_display_name (u_firstname bidder) (u_lastname bidder) (u_email bidder) (u_id bidder))
       true 0 false);
  let new := with_bid a now (u_id bidder) amount in
  modify (fun d => d <| auctions ::= alter (write_back a new) (a_id a) |>) ;;;
  consume_bid_fee fee_row ;;;
  commit ;;;
  ret (bid, _build_ws_event new bid (was_extended a now)).

Definition _place_bid_locked (auction_id : string) (payload : PlaceBidRequest) (bidder : AppUser)
    : Prog (Bid * dict) :=
  do (a, fee_row) <- check_and_verify auction_id payload bidder;
  record_bid a fee_row payload bidder.

(** [place_bid]'s exception handlers around the locked part. *)
Definition bid_errors {A} (m : Prog A) : Prog A :=
  catch m (fun e =>
    if is_app_exception e then rollback ;;; raise e
    else if is_sqlalchemy_error e then rollback ;;; raise (AppException "Failed to place bid." 500)
    else raise e).

(** A broadcast never fails the request. *)
Definition _publish_event (auction_id : string) (event : dict) : Prog unit :=
  emit (Broadcast auction_id event).

Definition place_bid (payload : PlaceBidRequest) (bidder : AppUser) : Prog (Bid * dict) :=
  match pb_auction_id payload with
  | None => raise (AppException "auction_id is required." 400)
  | Some auction_id =>
      guard_exn (dec_ltb (Dec 0 0) (pb_amount payload))
        (AppException "Bid amount must be positive." 400) ;;;
      do (bid, event) <- bid_errors (_place_bid_locked auction_id payload bidder);
      _publish_event auction_id event ;;;
      ret (bid, event)
  end.
End Bidding.

(** ** Lemmas *)

Section Lemmas.
Context {cfg : Config}.

Definition domain_cleared (d : DB) (domain_id : string) : bool :=
  negb REQUIRE_DOMAIN_VERIFICATION_BEFORE_PURCHASE ||
  match alive_listing domain_id d with
  | Some l => l_verified l
  | None => match alive_domain domain_id d with Some x => d_is_verified x | None => true end
  end.

Lemma silent_ensure_domain did : silent (ensure_domain_verified_for_auction did).
Proof. unfold ensure_domain_verified_for_auction, get_listing, get_domain_alive. frame. Qed.

Lemma ensure_domain_ok did (s s' : Session) x :
  ensure_domain_verified_for_auction did s = (Ok x, s') -> domain_cleared (s_db s) did = true.
Proof.
  unfold ensure_domain_verified_for_auction, domain_cleared, get_listing, get_domain_alive.
  destruct REQUIRE_DOMAIN_VERIFICATION_BEFORE_PURCHASE; cbn [negb orb]; [|done]. intros H.
  ok_inv_step H. destruct (alive_listing did (s_db s)); [by ok_inv H|].
  ok_inv_step H. destruct (alive_domain did (s_db s)); by ok_inv H.
Qed.

Definition amount_check (a : Auction) (amount : decimal) : res (py_float * decimal * decimal) :=
  normalize_bid_amount (NDec amount) (number_or_0 (highest_number a)) (NDec (cents (a_min_bid_price a))).

Lemma silent_validate_amount a amt : silent (_validate_bid_amount a amt).
Proof. unfold _validate_bid_amount. frame. Qed.

Lemma validate_amount_ok a amt (s s' : Session) x :
  _validate_bid_amount a amt s = (Ok x, s') -> is_ok (amount_check a amt) = true.
Proof. unfold _validate_bid_amount, amount_check. by destruct (normalize_bid_amount _ _ _) as [|[]]. Qed.

Definition tick (s : Session) : Session :=
  Prelude.Session (s_committed s) (s_db s) (s_out s) (fun n => s_clock s (S n)) (s_ids s).

(** What a bid that passes every check was checked for. *)
Record checked (aid : string) (p : PlaceBidRequest) (u : AppUser) (a : Auction)
    (fee : AuctionFeePayment) (s s1 : Session) : Prop := Checked {
  ck_auction : alive_auction aid (s_db s) = Some a;
  ck_live : is_status LIVE_STATUSES a = true;
  ck_open : s_clock s 0%nat < a_end_time a;
  ck_domain : domain_cleared (s_db s) (a_domain_id a) = true;
  ck_user : exists r, blocked_in (s_db s) (u_id u) = Ok (false, r);
  ck_amount : is_ok (amount_check a (pb_amount p)) = true;
  ck_creator : a_created_by a <> u_id u;
  ck_fee :
    (is_free_admin_bid u (pb_razorpay_order_id p) = true /\ fp_id fee = None /\
       fp_status fee = FeeStatus.COMPLETED /\ s1 = tick s)
    \/ (is_free_admin_bid u (pb_razorpay_order_id p) = false /\
        verified_fee FeeType.DOMAIN (a_id a) u (pb_razorpay_order_id p) (pb_razorpay_payment_id p)
          (pb_razorpay_signature p) (pb_amount p) fee (tick s) s1);
}.

Lemma check_ok aid p u a fee (s s1 : Session) :
  check_and_verify aid p u s = (Ok (a, fee), s1) -> checked aid p u a fee s s1.
Proof.
  unfold check_and_verify, get_auction_by_id. intros H. ok_inv_step H.
  destruct (alive_auction aid (s_db s)) as [a'|] eqn:Ha; [|by ok_inv H].
  ok_inv_step H. unfold _validate_auction_state in Hr. ok_inv Hr. fold (tick s) in H.
  ok_inv_step H. pose proof (ensure_domain_ok _ _ _ _ Hr1).
  apply silent_ok_inv in Hr1 as ->; [|apply silent_ensure_domain].
  ok_inv_step H. pose proof (assert_user_ok _ _ _ _ Hr1).
  apply silent_ok_inv in Hr1 as ->; [|apply silent_assert_user].
  ok_inv_step H. pose proof (validate_amount_ok _ _ _ _ _ Hr1).
  apply silent_ok_inv in Hr1 as ->; [|apply silent_validate_amount].
  ok_inv_step H. ok_inv H.
  injection H as -> ->. apply negb_true_iff, bool_decide_eq_false_1 in Hr2.
  apply verify_bid_fee_ok in Hr1 as [(? & ? & ? & ->)|[? Hfee]]; split; try done; try lia; eauto 6.
Qed.

Definition bid_of (a : Auction) (u : AppUser) (id : string) (amount now : Z) : Bid :=
  MkBid id (a_id a) (u_id u) amount
    (bidder_display_name (u_firstname u) (u_lastname u) (u_email u) (u_id u)) true now false.

(** The database after the bid, when the auction row is still the one loaded. *)
Definition bid_placed (a : Auction) (new : Auction) (bid : Bid) (fee : AuctionFeePayment) (d : DB) : DB :=
  put_fee (consumed fee)
    (d <| bids ::= fun t => update_where (is_winning_of (a_id a))
                              (fun b => b <| b_is_winning_bid := false |>) t ++ [bid] |>
       <| auctions ::= alter (write_back a new) (a_id a) |>).

Lemma record_bid_ok a fee p u (s s2 : Session) bid ev :
  fp_status fee = FeeStatus.COMPLETED ->
  record_bid a fee p u s = (Ok (bid, ev), s2) ->
  exists c, let new := with_bid a (s_clock s 0%nat) (u_id u) c in
    numeric_18_2 (pb_amount p) = Ok c /\ fp_id fee <> None /\
    bid = bid_of a u (s_ids s 0%nat) c (s_clock s 1%nat) /\
    (b_id bid ∉ map b_id (bids (s_db s))) /\
    ev = _build_ws_event new bid (was_extended a (s_clock s 0%nat)) /\
    s_db s2 = bid_placed a new bid fee (s_db s) /\ s_committed s2 = s_db s2.
Proof.
  intros Hst. unfold record_bid, clear_winning_flag. intros H.
  do 4 ok_inv_step H. apply create_bid_ok in Hr0 as (-> & Hid & ->).
  cbn in Hid. rewrite map_update_where in Hid by done.
  do 2 ok_inv_step H. apply (consume_bid_fee_ok _ _ _ _ Hst) in Hr0 as [? ->]. ok_inv H.
  injection H as -> ->. exists x0. split_and!; done.
Qed.

Lemma dec_pos_inv k e : dec_ltb (Dec 0 0) (Dec k e) = true -> 0 < k.
Proof.
  unfold dec_ltb, align. cbn [coef dexp]. intros H%Z.ltb_lt.
  destruct (Z.lt_ge_cases 0 k); [done|].
  assert (0 <= 10 ^ (e - Z.min 0 e)) by (apply Z.pow_nonneg; lia). nia.
Qed.

Lemma normalize_highest x a m :
  normalize_bid_amount x (number_or_0 (highest_number a)) m
  = normalize_bid_amount x (NDec (cents (default 0 (a_current_highest_bid a)))) m.
Proof.
  unfold normalize_bid_amount, highest_number. f_equal. f_equal.
  destruct (a_current_highest_bid a) as [h|]; cbn; [|done].
  destruct (h =? 0) eqn:Hh; cbn; by rewrite ?Hh.
Qed.

(** An accepted amount is in range. *)
Lemma amount_check_range k a x c :
  auction_row_ok k a -> _validate_money x = true -> dec_ltb (Dec 0 0) x = true ->
  numeric_18_2 x = Ok c -> is_ok (amount_check a x) = true ->
  bid_in_range c (default 0 (a_current_highest_bid a)) (a_min_bid_price a).
Proof.
  intros [_ Hmin Hhigh] Hm Hpos Hc Hok. destruct x as [co e].
  unfold _validate_money in Hm. cbn [dexp] in Hm.
  unfold numeric_18_2 in Hc. cbn [coef dexp] in Hc. rewrite Hm in Hc.
  destruct (Z.ltb_spec (Z.abs (co * 10 ^ (e + 2))) (10 ^ 18)) as [Hb|]; [|done].
  injection Hc as <-. apply Z.leb_le in Hm.
  pose proof (dec_pos_inv _ _ Hpos) as Hco.
  assert (0 < co * 10 ^ (e + 2)) by (apply Z.mul_pos_pos; [done|apply pow10_pos; lia]).
  assert (forall z, 0 <= z < 10 ^ 18 -> is_money z) as Hsmall
    by (intros z Hz; unfold is_money, money_bound; lia).
  unfold amount_check in Hok. rewrite normalize_amount_value in Hok by (try apply Hsmall; lia).
  rewrite normalize_highest in Hok.
  rewrite normalize_cents_cases in Hok by (apply Hsmall; unfold amount_ok in *; lia).
  unfold bid_in_range. repeat case_match; try done. lia.
Qed.

(** The database with a bid recorded: the auction's row replaced, its winning
    flags cleared and the bid added behind the others, the fee's row replaced. *)
Definition bid_recorded (aid : string) (new : Auction) (bid : Bid) (oid : string)
    (fee : AuctionFeePayment) (d : DB) : DB :=
  d <| auctions := <[aid := new]> (auctions d) |>
    <| bids := update_where (is_winning_of aid) (fun b => b <| b_is_winning_bid := false |>) (bids d)
                 ++ [bid] |>
    <| fee_payments := <[oid := fee]> (fee_payments d) |>.

Lemma spent_put_fee oid hid t fee d :
  points_spent oid hid t (put_fee fee d) = put_fee fee (points_spent oid hid t d).
Proof.
  unfold points_spent. change (get_pending_redemption oid (put_fee fee d)) with (get_pending_redemption oid d).
  destruct (get_pending_redemption oid d) as [r|]; [|done].
  change (users (put_fee fee d)) with (users d). by destruct (users d !! rd_user_id r).
Qed.

Lemma dirty_same {A} `{EqDecision A} (loaded new : A) : dirty loaded new loaded = new.
Proof. unfold dirty. by case_decide. Qed.

Lemma write_back_same a now uid c : write_back a (with_bid a now uid c) a = with_bid a now uid c.
Proof.
  unfold write_back. rewrite !dirty_same. unfold with_bid.
  by destruct (apply_anti_snipe _ _ _ _) as [[e st] x], a.
Qed.

Lemma alter_write_back a now uid c (t : gmap string Auction) k :
  t !! k = Some a ->
  alter (write_back a (with_bid a now uid c)) k t = <[k := with_bid a now uid c]> t.
Proof.
  intros Hk. apply map_eq. intros j. destruct (decide (j = k)) as [->|Hj].
  - by rewrite lookup_alter_eq, lookup_insert_eq, Hk; cbn; rewrite write_back_same.
  - by rewrite lookup_alter_ne, lookup_insert_ne.
Qed.

Lemma with_bid_fields a now uid c :
  let new := with_bid a now uid c in
  a_id new = a_id a /\ a_current_highest_bid new = Some c /\ a_current_winner_id new = Some uid /\
  a_total_bids new = a_total_bids a + 1 /\ a_min_bid_price new = a_min_bid_price a /\
  a_is_deleted new = a_is_deleted a /\ a_domain_id new = a_domain_id a /\
  a_created_by new = a_created_by a /\ (a_status new = a_status a \/ a_status new = AuctionStatus.EXTENDED).
Proof.
  unfold with_bid, apply_anti_snipe. destruct (a_end_time a <=? now); [by split_and!; auto|].
  destruct (_ <? ANTI_SNIPE_WINDOW); by split_and!; auto.
Qed.

(** What an accepted bid is checked for and what it changes. *)
Record bid_accepted (p : PlaceBidRequest) (u : AppUser) (clock : nat -> Z) (d : DB) (bid : Bid)
    (d' : DB) (aid : string) (a : Auction) (fee : AuctionFeePayment) (c now : Z) : Prop := BidAccepted {
  ba_auction : pb_auction_id p = Some aid /\ alive_auction aid d = Some a;
  ba_live : is_status LIVE_STATUSES a = true /\ clock 0%nat < a_end_time a;
  ba_cleared : domain_cleared d (a_domain_id a) = true;
  ba_bidder : a_created_by a <> u_id u /\ exists r, blocked_in d (u_id u) = Ok (false, r);
  ba_amount : numeric_18_2 (pb_amount p) = Ok c /\
    bid_in_range c (default 0 (a_current_highest_bid a)) (a_min_bid_price a);
  ba_fee : fee_payments d !! pb_razorpay_order_id p = Some fee /\
    bid_fee_matches fee u FeeType.DOMAIN aid = true /\ fp_status fee <> FeeStatus.CONSUMED /\
    bid_amount_matches fee (pb_amount p) = true /\
    verify_payment_signature (pb_razorpay_order_id p) (pb_razorpay_payment_id p)
      (pb_razorpay_signature p) = Ok true;
  ba_now : exists k, now = clock (S k);
  ba_bid : b_auction_id bid = aid /\ b_bidder_id bid = u_id u /\ b_amount bid = c /\
    b_is_winning_bid bid = true /\ b_is_deleted bid = false /\ (b_id bid ∉ map b_id (bids d));
  ba_db : exists hid t, d' = bid_recorded aid (with_bid a now (u_id u) c) bid
    (pb_razorpay_order_id p) (consumed (verified (pb_razorpay_payment_id p) fee))
    (points_spent (pb_razorpay_order_id p) hid t d);
}.

Lemma sans_wallet_tables d d' :
  sans_wallet d = sans_wallet d' ->
  auctions d = auctions d' /\ bids d = bids d' /\ fee_payments d = fee_payments d' /\
  settings d = settings d' /\ listings d = listings d' /\ domains d = domains d'.
Proof.
  intros H. split_and!;
    [exact (f_equal auctions H)|exact (f_equal bids H)|exact (f_equal fee_payments H)
    |exact (f_equal settings H)|exact (f_equal listings H)|exact (f_equal domains H)].
Qed.

Lemma bid_errors_ok {A} (m : Prog A) (s s' : Session) a :
  bid_errors m s = (Ok a, s') -> m s = (Ok a, s').
Proof.
  intros [?|(e & s1 & _ & H)]%catch_ok_inv; [done|].
  repeat case_match; by ok_inv H.
Qed.

Lemma place_bid_accepted p u clock ids d bid ev d' :
  auctions_wf d -> fees_wf d -> _validate_money (pb_amount p) = true ->
  run_request clock ids (place_bid p u) d = (Ok (bid, ev), d') ->
  exists aid a fee c now, bid_accepted p u clock d bid d' aid a fee c now.
Proof.
  intros Hwf Hfwf Hm. unfold run_request, place_bid.
  destruct (pb_auction_id p) as [aid|] eqn:Haid; [|done].
  destruct (bind _ _ _) as [r sf] eqn:H. intros [= -> <-].
  ok_inv_step H. ok_inv_step H. destruct x0 as [bid' ev']. apply bid_errors_ok in Hr0.
  unfold _publish_event in H. ok_inv H. injection H as -> ->.
  unfold _place_bid_locked in Hr0. ok_inv_step Hr0. destruct x1 as [a fee].
  apply check_ok in Hr1 as [Hauc Hlive Hopen Hdom Hbl Hamt Hcr Hfee].
  cbn in Hauc, Hopen, Hdom, Hbl.
  pose proof Hauc as [Ha _]%alive_auction_Some.
  pose proof (Hwf _ _ Ha) as Hrow. pose proof (ar_key _ _ Hrow) as Hkey.
  assert (fp_status fee = FeeStatus.COMPLETED) as Hst.
  { destruct Hfee as [(_ & _ & ? & _)|[_ [(r0 & _ & -> & _) _ _ _ _]]]; done. }
  apply (record_bid_ok _ _ _ _ _ _ _ _ Hst) in Hr0 as (c & Hc & Hid & -> & Hnew & _ & Hdb & ->).
  destruct Hfee as [(_ & ? & _)|[_ [(r0 & Hr0 & -> & _ & Hmt & Hnc & Hbm) Hsig Hw Hout (k & Hk & _)]]]; [done|].
  rewrite Hkey in *. cbn in Hr0, Hw.
  destruct Hw as (hid & t & Hw). rewrite spent_put_fee in Hw.
  pose proof (sans_wallet_tables _ _ (sans_wallet_spent (pb_razorpay_order_id p) hid t d)) as (Hta & Htb & Htf & _).
  unfold bid_placed in Hdb. rewrite Hw in Hdb, Hnew. cbn -[points_spent] in Hdb, Hnew. rewrite Htb in Hnew.
  rewrite Hdb.
  exists aid, a, r0, c, (s_clock s0 0%nat). split; try by eauto.
  - split; [done|]. by apply (amount_check_range aid a (pb_amount p)).
  - exists k. by rewrite Hk, Nat.add_0_r.
  - exists hid, t. unfold bid_recorded, put_fee. cbn -[points_spent].
    rewrite Hkey, alter_write_back by by rewrite Hta. unfold verified; cbn -[points_spent].
    by rewrite (Hfwf _ _ Hr0), insert_insert_eq.
Qed.

(** *** Failures *)

(** A free administrator's bid is never recorded: its fee row is no row. *)
Lemma free_bid_row_unsaved ty aid u oid pid sig amt (s : Session) row s' :
  is_free_admin_bid u oid = true ->
  verify_bid_fee_payment ty aid u oid pid sig amt s = (Ok row, s') -> fp_id row = None.
Proof. by intros Hf [(_ & ? & _)|[Hf' _]]%verify_bid_fee_ok; [|rewrite Hf in Hf']. Qed.

(** [bid_errors] turns database errors into AppException 500 and rolls back. *)
Lemma bid_errors_committed {A} (m : Prog A) (s : Session) :
  s_committed (bid_errors m s).2 = s_committed (m s).2.
Proof.
  unfold bid_errors, catch. destruct (m s) as [[a|e] s1]; [done|].
  by destruct (is_app_exception e), (is_sqlalchemy_error e).
Qed.

(** Only the wallet and the verified fee row can be committed by a bid that fails. *)
Lemma keeps_fees_confirm oid (K : DB) (s : Session) :
  good (fun d => sans_fees d = K) s ->
  wp (confirm_redemption oid) (fun _ => good (fun d => sans_fees d = K)) s.
Proof.
  intros [Hc Hd]. unfold wp, good. pose proof (confirm_cases oid s) as Hcc.
  destruct (get_pending_redemption oid _); [|by rewrite Hcc].
  destruct Hcc as (out & s' & -> & Hw%sans_fees_wallet & _ & [(_ & Hcm & _)|[_ Hcm]]); cbn;
    by rewrite Hcm, ?Hw.
Qed.

Lemma keeps_fees_cancel oid (K : DB) (s : Session) :
  good (fun d => sans_fees d = K) s ->
  wp (cancel_redemption oid) (fun _ => good (fun d => sans_fees d = K)) s.
Proof.
  intros [Hc Hd]. unfold wp, good. pose proof (cancel_cases oid s) as Hcc.
  destruct (get_pending_redemption oid _); [|by rewrite Hcc].
  destruct Hcc as (s' & -> & Hw%sans_fees_wallet & Hcm); cbn; by rewrite Hcm, Hw.
Qed.

Lemma keeps_fees_verify ty aid u oid pid sig amt (K : DB) (s : Session) :
  good (fun d => sans_fees d = K) s ->
  wp (verify_bid_fee_payment ty aid u oid pid sig amt) (fun _ => good (fun d => sans_fees d = K)) s.
Proof.
  intros Hg. unfold verify_bid_fee_payment, get_by_order_id. destruct (is_free_admin_bid u oid).
  { by wp_steps. }
  repeat wp_step. destruct (verify_payment_signature _ _ _) as [[]|e]; cbn [negb]; [| |done].
  - repeat wp_step. destruct (fee_payments (s_db s) !! oid) as [r|]; [|by wp_step].
    repeat wp_step; try done. unfold fee_save. destruct (fp_id _); [|by wp_step].
    repeat wp_step. eapply wp_mono; [apply keeps_fees_confirm|].
    + by destruct Hg.
    + intros [x|e] s' Hs'; [by wp_step|done].
  - repeat wp_step. eapply wp_mono; [by apply keeps_fees_cancel|].
    intros [x|e] s' Hs'; [by wp_step|done].
Qed.

Lemma committed_consume row : keeps_committed (consume_bid_fee row).
Proof. unfold consume_bid_fee, fee_save. frame. Qed.

Lemma committed_create_bid b : keeps_committed (create_bid b).
Proof. unfold create_bid. frame. Qed.

(** [record_bid] commits once, as its last step. *)
Lemma record_bid_raise a fee p u (s s' : Session) e :
  record_bid a fee p u s = (Raise e, s') -> s_committed s' = s_committed s.
Proof.
  intros H. enough (wp (record_bid a fee p u)
    (fun r s' => is_ok r = false -> s_committed s' = s_committed s) s) as Hw
    by (unfold wp in Hw; rewrite H in Hw; by apply Hw).
  unfold record_bid, clear_winning_flag. repeat wp_step.
  destruct (numeric_18_2 (pb_amount p)) as [c|]; [|done]. wp_step.
  apply (wp_committed _ _ _ (committed_create_bid _)). intros [b|] s1 H1; [|done]. repeat wp_step.
  apply (wp_committed _ _ _ (committed_consume _)). intros [x|] s2 H2; cbn in H2; [|by rewrite H2, H1].
  by repeat wp_step.
Qed.

(** Invariants of the checks: a predicate on sessions that reading the clock and
    [verify_bid_fee_payment] keep. *)
Lemma check_keeps (I : Session -> Prop) aid p u (s : Session) :
  (forall s, I s -> I (tick s)) ->
  (forall a s, I s -> wp (verify_bid_fee_payment FeeType.DOMAIN a u (pb_razorpay_order_id p)
     (pb_razorpay_payment_id p) (pb_razorpay_signature p) (pb_amount p)) (fun _ => I) s) ->
  I s -> wp (check_and_verify aid p u) (fun _ => I) s.
Proof.
  intros Htick Hver Hs. unfold check_and_verify, get_auction_by_id, _validate_auction_state. wp_steps.
  destruct (alive_auction aid (s_db s)) as [a|]; [|by wp_step].
  repeat wp_step; try done; try (by apply Htick). fold (tick s).
  apply Htick in Hs. revert Hs. generalize (tick s). clear s H0. intros s Hs.
  apply (wp_silent _ _ _ (silent_ensure_domain _)). intros [|]; [|done]. wp_step.
  apply (wp_silent _ _ _ (silent_assert_user _)). intros [|]; [|done]. wp_step.
  apply (wp_silent _ _ _ (silent_validate_amount _ _)). intros [|]; [|done]. wp_step.
  eapply wp_mono; [by apply Hver|]. intros [fee|] s1 Hs1; [|done]. by repeat wp_step.
Qed.

(** [place_bid] commits nothing when it fails, but what [check_and_verify] committed. *)
Lemma place_bid_raise p u (s s' : Session) e :
  place_bid p u s = (Raise e, s') ->
  s_committed s' = s_committed s \/
  exists aid, s_committed s' = s_committed (check_and_verify aid p u s).2.
Proof.
  unfold place_bid. destruct (pb_auction_id p) as [aid|]; [|intros [= _ <-]; by left].
  intros [(x & s1 & [_ ->]%guard_ok_inv & H)|(e' & H & _)]%bind_inv.
  2:{ left. destruct (dec_ltb _ _); by injection H as _ <-. }
  right. exists aid.
  apply bind_inv in H as [([b ev] & s1 & _ & H)|(e' & H & _)]; [done|].
  pose proof (bid_errors_committed (_place_bid_locked aid p u) s) as Hc. rewrite H in Hc.
  cbn in Hc. rewrite Hc. unfold _place_bid_locked, bind.
  destruct (check_and_verify aid p u s) as [[[a fee]|e0] s2] eqn:Hck; [|done].
  unfold bid_errors in H. apply catch_raise_inv in H as (e1 & s3 & H & _).
  unfold _place_bid_locked, bind in H. rewrite Hck in H. rewrite H. cbn.
  by apply record_bid_raise in H.
Qed.

(** A bid without reserved points: nothing at all is committed by a failing bid. *)
Lemma check_keeps_committed aid p u (s : Session) :
  get_pending_redemption (pb_razorpay_order_id p) (s_db s) = None ->
  s_committed (check_and_verify aid p u s).2 = s_committed s.
Proof.
  intros Hnone.
  set (oid := pb_razorpay_order_id p) in *. set (K := s_committed s).
  apply (check_keeps (fun s' => s_committed s' = K /\ get_pending_redemption oid (s_db s') = None));
    [done| |done].
  clearbody K. clear s Hnone. intros a s [Hc Hn]. unfold verify_bid_fee_payment, get_by_order_id.
  destruct (is_free_admin_bid u _); [by wp_steps|].
  repeat wp_step. destruct (verify_payment_signature _ _ _) as [[]|e]; cbn [negb]; [| |done].
  - repeat wp_step. destruct (fee_payments (s_db s) !! _) as [r|]; [|by wp_step].
    repeat wp_step; try done. unfold fee_save. destruct (fp_id _); [|by wp_step].
    repeat wp_step. unfold wp. pose proof (confirm_cases oid
      (Prelude.Session (s_committed s) (put_fee (verified (pb_razorpay_payment_id p) r) (s_db s))
         (s_out s) (s_clock s) (s_ids s))) as Hcc. cbn [s_db] in Hcc.
    change (get_pending_redemption oid (put_fee _ _)) with (get_pending_redemption oid (s_db s)) in Hcc.
    rewrite Hn in Hcc. unfold verified, oid in *. rewrite Hcc. done.
  - repeat wp_step. pose proof (cancel_cases oid s) as Hcc. rewrite Hn in Hcc.
    unfold wp, oid in *. by rewrite Hcc.
Qed.

(** C3. Atomicity of a bid: a bid that fails, for whatever reason, leaves the
    auctions, the bids and every other table but the wallet and the fee payments as
    they were; when no points were reserved for its fee order, it leaves the whole
    committed database as it was. *)
Theorem place_bid_failure_atomic p u clock ids d e d' :
  run_request clock ids (place_bid p u) d = (Raise e, d') ->
  sans_fees d' = sans_fees d /\
  (get_pending_redemption (pb_razorpay_order_id p) d = None -> d' = d).
Proof.
  unfold run_request. destruct (place_bid _ _ _) as [r s] eqn:H. intros [= -> <-].
  apply place_bid_raise in H as [->|[aid ->]]; [done|]. split.
  - apply (check_keeps (good (fun x => sans_fees x = sans_fees d)));
      [done|intros; by apply keeps_fees_verify|done].
  - exact (check_keeps_committed aid p u (open_session clock ids d)).
Qed.

(** The bids of the auction after [clear_winning_flag] and the insertion. *)
Lemma winning_after aid (t : list Bid) bid :
  is_winning_of aid bid = true ->
  select_where (is_winning_of aid)
    (update_where (is_winning_of aid) (fun b => b <| b_is_winning_bid := false |>) t ++ [bid]) = [bid].
Proof.
  intros Hb. pose proof (select_none (is_winning_of aid) _ (cleared_no_winner aid t)) as Hn.
  unfold select_where in *. by rewrite filter_app, Hn, (filter_cons_True _ bid []).
Qed.

Lemma bids_of_other aid aid' d d' bid :
  aid' <> aid -> b_auction_id bid = aid ->
  bids d' = update_where (is_winning_of aid) (fun b => b <| b_is_winning_bid := false |>) (bids d) ++ [bid] ->
  bids_of aid' d' = bids_of aid' d.
Proof.
  intros Hne Hb Hd. unfold bids_of. rewrite Hd. unfold select_where at 1.
  rewrite filter_app, (filter_cons_False _ bid []).
  2:{ by rewrite bool_decide_eq_false_2 by congruence. }
  rewrite app_nil_r. apply select_update_other. intros x [[Hx%bool_decide_eq_true_1 _]%andb_true_iff _]%andb_true_iff.
  cbn. by rewrite bool_decide_eq_false_2 by congruence.
Qed.

(** C2. A successful bid: the auction was open to this bidder, who is not blocked
    and paid the fee of this auction and amount, and the amount is in range of
    the state it was checked against; the whole database afterwards is
    the one before with the auction's row, the bid and the fee's row recorded and
    the points reserved for the fee order spent.  So the auction's highest bid,
    winner and counter are the new bid's, its end is not earlier, the new bid is
    its only winning bid, no earlier bid is lost or altered but for the flag,
    the fee order is used up, and no other auction, fee, user, redemption or table
    changes. *)
Theorem place_bid_success p u clock ids d bid ev d' :
  auctions_wf d -> fees_wf d -> _validate_money (pb_amount p) = true ->
  run_request clock ids (place_bid p u) d = (Ok (bid, ev), d') ->
  exists aid a now c fee hid t,
    let oid := pb_razorpay_order_id p in
    let new := with_bid a now (u_id u) c in
    pb_auction_id p = Some aid /\ alive_auction aid d = Some a /\
    is_status LIVE_STATUSES a = true /\ clock 0%nat < a_end_time a /\ a_created_by a <> u_id u /\
    numeric_18_2 (pb_amount p) = Ok c /\
    bid_in_range c (default 0 (a_current_highest_bid a)) (a_min_bid_price a) /\
    domain_cleared d (a_domain_id a) = true /\ (exists r, blocked_in d (u_id u) = Ok (false, r)) /\
    fee_payments d !! oid = Some fee /\ fp_status fee <> FeeStatus.CONSUMED /\
    bid_fee_matches fee u FeeType.DOMAIN aid = true /\ bid_amount_matches fee (pb_amount p) = true /\
    verify_payment_signature oid (pb_razorpay_payment_id p) (pb_razorpay_signature p) = Ok true /\
    a_current_highest_bid new = Some c /\ a_current_winner_id new = Some (u_id u) /\
    a_total_bids new = a_total_bids a + 1 /\ a_end_time a <= a_end_time new /\
    b_amount bid = c /\ b_bidder_id bid = u_id u /\ (b_id bid ∉ map b_id (bids d)) /\
    select_where (is_winning_of aid) (bids d') = [bid] /\
    (forall aid', aid' <> aid -> bids_of aid' d' = bids_of aid' d) /\
    d' = bid_recorded aid new bid oid (consumed (verified (pb_razorpay_payment_id p) fee))
           (points_spent oid hid t d).
Proof.
  intros Hwf Hfwf Hm H. apply place_bid_accepted in H as (aid & a & fee & c & now & Hacc); try done.
  destruct Hacc as [[Haid Ha] [Hl Ho] Hdom [Hcr Hbl] [Hc Hr] (Hf & Hm1 & Hnc & Hm2 & Hsig) _
    (Hb1 & Hb2 & Hb3 & Hb4 & Hb5 & Hb6) (hid & t & Hd)].
  exists aid, a, now, c, fee, hid, t. cbv zeta.
  pose proof (with_bid_fields a now (u_id u) c) as (_ & Hh & Hw & Ht & _).
  assert (Hbs : bids d' = update_where (is_winning_of aid)
    (fun b => b <| b_is_winning_bid := false |>) (bids d) ++ [bid]).
  { rewrite Hd. cbn -[points_spent].
    by pose proof (sans_wallet_tables _ _ (sans_wallet_spent (pb_razorpay_order_id p) hid t d))
      as (_ & -> & _). }
  split_and!; try done.
  - unfold with_bid, apply_anti_snipe, ANTI_SNIPE_EXTENSION, minutes, seconds.
    repeat case_match; simplify_eq/=; lia.
  - rewrite Hbs. apply winning_after. unfold is_winning_of, _alive_bid.
    by rewrite Hb1, Hb4, Hb5, bool_decide_eq_true_2.
  - intros aid' Hne. by eapply bids_of_other.
Qed.

(** Administrators are exempt from the bid fee, but their free bids never
    succeed: the fee row made up for them is not in the session, so marking it
    used fails and the bid is rolled back. *)
Theorem admin_free_bid_fails p u clock ids d :
  is_free_admin_bid u (pb_razorpay_order_id p) = true ->
  is_ok (run_request clock ids (place_bid p u) d).1 = false.
Proof.
  intros Hfree. unfold run_request. destruct (place_bid _ _ _) as [[[bid ev]|e] s] eqn:H; [|done].
  exfalso. unfold place_bid in H. destruct (pb_auction_id p) as [aid|]; [|done].
  do 2 ok_inv_step H. destruct x0. apply bid_errors_ok in Hr0. clear H.
  unfold _place_bid_locked in Hr0. ok_inv_step Hr0. destruct x0 as [a fee].
  apply check_ok, ck_fee in Hr1 as [(_ & Hid & Hst & _)|[Hnf _]]; [|congruence].
  by apply record_bid_ok in Hr0 as (c & _ & Hid' & _).
Qed.
End Lemmas.

(** ** Witnesses *)

Module Samples.

Export Production.

Definition sign (order_id payment_id : string) : string :=
  hmac_hexdigest RAZORPAY_KEY_SECRET (signature_payload order_id payment_id).

Definition bid_request (order_id : string) (amount : Z) : PlaceBidRequest :=
  MkBidRequest (Some "a1") (Dec amount 0) order_id "pay" (sign order_id "pay").

Definition bid_fee (id order_id uid : string) (amount : Z) : AuctionFeePayment :=
  MkFee (Some id) AuctionFeePaymentKind.BID AuctionFeeAuctionType.DOMAIN uid (Some "a1") None
    (Some (100 * amount)) (fl_of_Z 20) order_id None AuctionFeePaymentStatus.CREATED 0.

Definition auction : Auction :=
  MkAuction "a1" "l1" AuctionStatus.ACTIVE AuctionDuration.ONE_DAY 10000 None 0 None 0 (days 1) (days 1)
    "seller" 0 false.

Definition admin : AppUser := (sample_user "adm" 0) <| u_role := Some UserRole.ADMIN |>.

(** One live auction with a reserve of 100 and three paid bid fees; 5 points of
    u1 are reserved for the first one. *)
Definition db : DB :=
  empty_db
    <| users := {[ "u1" := sample_user "u1" 100; "u2" := sample_user "u2" 0 ]} |>
    <| auctions := {[ "a1" := auction ]} |>
    <| fee_payments := {[ "o1" := bid_fee "f1" "o1" "u1" 110; "o2" := bid_fee "f2" "o2" "u2" 150;
                          "o3" := bid_fee "f3" "o3" "u2" 200 ]} |>
    <| redemptions := {[ "o1" := MkRedemption "r1" "u1" "o1" 5 RedemptionStatus.PENDING ]} |>.

Lemma db_auctions : auctions_wf db.
Proof.
  intros k a Ha. cbn in Ha. apply lookup_singleton_Some in Ha as [<- <-].
  split; [done| |]; unfold amount_ok; cbn; lia.
Qed.

Lemma db_fees : fees_wf db.
Proof.
  intros k r Hr. cbn in Hr.
  repeat (apply lookup_insert_Some in Hr as [[<- <-]|[_ Hr]]; [done|]).
  by apply lookup_singleton_Some in Hr as [<- <-].
Qed.
End Samples.

Import Samples.

Definition first_bid : res (Bid * dict) * DB :=
  run_request sample_clock sample_ids
    (place_bid (Samples.bid_request "o2" 150) (sample_user "u2" 0)) Samples.db.

Lemma place_bid_success_witness :
  exists bid ev d' new fee hid t, first_bid = (Ok (bid, ev), d') /\ b_amount bid = 15000 /\
    d' = bid_recorded "a1" new bid "o2" fee (points_spent "o2" hid t Samples.db).
Proof.
  destruct first_bid as [[[bid ev]|e] d'] eqn:H.
  - destruct (place_bid_success (Samples.bid_request "o2" 150) (sample_user "u2" 0) sample_clock
      sample_ids db bid ev d' db_auctions db_fees eq_refl H)
      as (aid & a & now & c & fee & hid & t & Haid & _ & _ & _ & _ & Hc & _ & _ & _ & _ & _ & _ & _ & _ & _ & _ & _ & _ & Hb
          & _ & _ & _ & _ & Hd).
    injection Haid as <-.
    exists bid, ev, d', (with_bid a now "u2" c), (consumed (verified "pay" fee)), hid, t.
    split; [reflexivity|]. split; [|exact Hd]. rewrite Hb. vm_compute in Hc. congruence.
  - exfalso. assert (is_ok first_bid.1 = true) as Hok by (vm_compute; reflexivity).
    rewrite H in Hok. discriminate.
Defined.

Lemma place_bid_failure_atomic_witness :
  exists e d', run_request sample_clock sample_ids
    (place_bid (Samples.bid_request "o2" 151) (sample_user "u2" 0)) db = (Raise e, d') /\ d' = db.
Proof.
  destruct (run_request sample_clock sample_ids
    (place_bid (Samples.bid_request "o2" 151) (sample_user "u2" 0)) db) as [[[bid ev]|e] d'] eqn:H.
  - exfalso. assert (is_ok (run_request sample_clock sample_ids
      (place_bid (Samples.bid_request "o2" 151) (sample_user "u2" 0)) db).1 = false) as Hok
      by (vm_compute; reflexivity).
    rewrite H in Hok. discriminate.
  - exists e, d'. split; [reflexivity|].
    apply (proj2 (place_bid_failure_atomic _ _ _ _ _ _ _ H)). vm_compute. reflexivity.
Defined.

Lemma admin_free_bid_fails_witness :
  let p := MkBidRequest (Some "a1") (Dec 110 0) "admin_free_bid_DOMAIN_a1_adm" "" "" in
  is_free_admin_bid admin "admin_free_bid_DOMAIN_a1_adm" = true /\
  (run_request sample_clock sample_ids (place_bid p admin) db).1
    = Raise (AppException "Failed to place bid." 500) /\
  is_ok (run_request sample_clock sample_ids (place_bid p admin) db).1 = false.
Proof.
  intros p. split; [vm_compute; reflexivity|]. split; [vm_compute; reflexivity|].
  apply admin_free_bid_fails. vm_compute. reflexivity.
Defined.

(** *** A lost update

    u1 bids 110 with 5 points reserved for the fee.  Verifying the fee commits
    (it spends the points), which ends the transaction and with it the lock on
    the auction row. *)

Definition interrupted : res (Auction * AuctionFeePayment) * Session :=
  check_and_verify "a1" (Samples.bid_request "o1" 110) (sample_user "u1" 100)
    (open_session sample_clock sample_ids db).

(** u2 bids 150 before u1's request goes on. *)
Definition overtaking : res (Bid * dict) * DB :=
  run_request sample_clock (fun n => ("x" +:+ pretty n)%string)
    (place_bid (Samples.bid_request "o2" 150) (sample_user "u2" 0)) (s_committed interrupted.2).

(** u1's request goes on in a new transaction on what is committed now. *)
Definition resumed : option (res (Bid * dict) * Session) :=
  match interrupted with
  | (Ok (a, fee), s) =>
      Some (record_bid a fee (Samples.bid_request "o1" 110) (sample_user "u1" 100)
        (Prelude.Session overtaking.2 overtaking.2 (s_out s) (s_clock s) (s_ids s)))
  | _ => None
  end.

(** What is left of an auction: its highest bid, its winner, the number of bids
    it counts, and the amounts of its bids. *)
Definition standing (aid : string) (d : DB) : option (option Z * option string * Z) * list Z :=
  (fmap (fun a => (a_current_highest_bid a, a_current_winner_id a, a_total_bids a)) (auctions d !! aid),
   map b_amount (bids_of aid d)).

(** Two bids are not always serialised by the row lock: when points are
    spent on the first bid's fee, its verification commits in the middle of the
    request, a concurrent higher bid gets in, and the first request then
    overwrites it.  The auction's highest bid is 110 with u1 winning, although
    the bid of 150 by u2 was accepted and is in the table. *)
Theorem concurrent_bid_lost :
  is_ok interrupted.1 = true /\ s_committed interrupted.2 <> db /\
  is_ok overtaking.1 = true /\
  standing "a1" overtaking.2 = (Some (Some 15000, Some "u2"%string, 1), [15000]) /\
  exists s, fmap snd resumed = Some s /\
    standing "a1" (s_committed s) = (Some (Some 11000, Some "u1"%string, 1), [15000; 11000]).
Proof.
  split; [vm_compute; reflexivity|]. split.
  { intros H. apply (f_equal (fun d => fmap u_edge_points (users d !! "u1"%string))) in H.
    vm_compute in H. discriminate. }
  split; [vm_compute; reflexivity|]. split; [vm_compute; reflexivity|].
  destruct resumed as [[r s]|] eqn:Hr.
  - exists s. split; [done|].
    assert (fmap (fun x => standing "a1" (s_committed x.2)) resumed
            = Some (Some (Some 11000, Some "u1"%string, 1), [15000; 11000])) as Hst
      by (vm_compute; reflexivity).
    rewrite Hr in Hst. cbn in Hst. congruence.
  - exfalso. assert (is_Some resumed) as [x Hx] by (vm_compute; by eexists). congruence.
Qed.
