(* ===== verification/Winner.v ===== *)
(** * Closing an auction and selecting its winner

    app/service/auction/winner_service.py, auction_notification_service.py and
    auction_timer_service.py.  [mail_ok] tells whether sending a mail to an address
    succeeds.  Every sweep step runs in a session of its own: the sweep is a
    function of the committed database, each session with its own clock readings
    and ids. *)

From stdpp Require Import sorting.
From S2P Require Import Prelude PyNum Text BidLimits Store Gateway Settings EdgePoints AuctionFees AuctionRepo Pricing Restore Lifecycle Bidding.

(** ** auction_notification_service.py

    A notification is committed on a session of its own and never fails. *)

Definition auction_url (auction_id : string) : string := ("/auction/" +:+ auction_id)%string.

Definition notify_winner_payment_due (winner : AppUser) (auction_id : string) : Prog unit :=
  emit (Notify (u_id winner) "You won the domain auction!" (auction_url auction_id)).

Definition notify_seller_auction_ended_with_winner (seller : AppUser) (auction_id : string) : Prog unit :=
  emit (Notify (u_id seller) "Your domain auction has ended" (auction_url auction_id)).

Definition notify_winner_payment_completed (winner : AppUser) (transfer_url : string) : Prog unit :=
  emit (Notify (u_id winner) "Payment complete — transfer started" transfer_url).

Definition notify_seller_payment_received (seller : AppUser) (transfer_url : string) : Prog unit :=
  emit (Notify (u_id seller) "Winner payment received" transfer_url).

(** ** WinnerService *)

Definition NON_RESOLVABLE : list AuctionStatus.t :=
  [AuctionStatus.COMPLETED; AuctionStatus.CANCELLED; AuctionStatus.UNSOLD; AuctionStatus.PAYMENT_PENDING].

(** The domain's name as the messages show it. *)
Definition listing_title (a : Auction) (listing : option DomainListing) : string :=
  match listing with
  | Some l =>
      let t := strip (l_domain_name l +:+ dotted (l_domain_extension l)) in
      if is_empty t then a_domain_id a else t
  | None => a_domain_id a
  end.

Definition seller_of (a : Auction) (listing : option DomainListing) : option string :=
  match listing with Some l => l_listed_by_user_id l | None => Some (a_created_by a) end.

Definition select_winner (auction_id : string) : Prog (option Bid) := get_highest_bid auction_id.

Definition mark_winning_bid (auction_id bid_id : string) : Prog unit :=
  clear_winning_flag auction_id ;;;
  modify (fun d => d <| bids ::= update_where (is_bid_of auction_id bid_id)
                                   (fun b => b <| b_is_winning_bid := true |>) |>).

Definition unsold_event (a : Auction) : dict :=
  [("type", JStr "AUCTION_UNSOLD"); ("auction_id", JStr (a_id a)); ("domain_id", JStr (a_domain_id a));
   ("status", JStr (AuctionStatus.value (a_status a)))]%string.

(** [str(winning_bid.amount)] of a NUMERIC(18, 2) value. *)
Definition money_str (c : Z) : string :=
  (pretty (c / 100) +:+ "." +:+ (if c mod 100 <? 10 then "0" else "")%Z%string
   +:+ pretty (c mod 100))%string.

Definition ended_event (a : Auction) (b : Bid) : dict :=
  [("type", JStr "AUCTION_ENDED"); ("auctionId", JStr (a_id a)); ("auction_id", JStr (a_id a));
   ("domain_id", JStr (a_domain_id a)); ("status", JStr (AuctionStatus.value (a_status a)));
   ("currentHighestBid", JNum (fl_of_dec (cents (b_amount b))));
   ("currentWinnerId", JStr (b_bidder_id b)); ("currentWinnerName", JStr (b_bidder_name b));
   ("totalBids", JInt (a_total_bids a)); ("winnerPaymentPaid", JBool false);
   ("winner", JObj [("user_id", JStr (b_bidder_id b)); ("name", JStr (b_bidder_name b));
                    ("winning_amount", JStr (money_str (b_amount b)))])]%string.

Definition publish (auction_id : string) (event : dict) : Prog unit := emit (Broadcast auction_id event).

Definition find_listing (domain_id : string) : Prog (option DomainListing) :=
  gets (fun d => listings d !! domain_id).

Section Winner.
Context {cfg : Config}.

(** Tell the seller of an auction without bids, once. *)
Definition _notify_zero_bid_seller (mail_ok : string -> bool) (a : Auction) : Prog unit :=
  catch
    (do listing <- find_listing (a_domain_id a);
     let title := listing_title a listing in
     match seller_of a listing with
     | None => ret tt
     | Some seller_id =>
         do first <- mark_zero_bid_notice_sent "DOMAIN" (a_id a) seller_id title;
         commit ;;;
         if negb first then ret tt
         else
           do seller <- gets (fun d => users d !! seller_id);
           match seller with
           | None => ret tt
           | Some s =>
               emit (Notify (u_id s) "Your auction ended with no bids" (auction_url (a_id a))) ;;;
               when (negb (is_empty (u_email s)) && mail_ok (u_email s))
                 (emit (Mail (u_email s) ("No bids on “" +:+ title +:+ "” — how to re-list")))
           end
     end)
    (fun _ => ret tt).

Definition _notify_payment_pending (a : Auction) (b : Bid) : Prog unit :=
  do listing <- find_listing (a_domain_id a);
  do winner <- gets (fun d => users d !! b_bidder_id b);
  match winner with Some w => notify_winner_payment_due w (a_id a) | None => ret tt end ;;;
  match seller_of a listing with
  | None => ret tt
  | Some seller_id =>
      do seller <- gets (fun d => users d !! seller_id);
      match seller with
      | Some s => notify_seller_auction_ended_with_winner s (a_id a)
      | None => ret tt
      end
  end.

Definition _start_winner_payment_window (mail_ok : string -> bool) (a : Auction) (b : Bid) : Prog unit :=
  catch
    (do listing <- find_listing (a_domain_id a);
     do track <- start_winner_window "DOMAIN" (a_id a) (b_bidder_id b) (seller_of a listing)
       (fl_of_dec (cents (b_amount b))) (listing_title a listing) (auction_url (a_id a));
     send_win_email mail_ok track ;;;
     commit)
    (fun _ => ret tt).

Definition as_unsold (a : Auction) : Auction :=
  a <| a_status := AuctionStatus.UNSOLD |> <| a_current_winner_id := None |>.

Definition _mark_unsold (mail_ok : string -> bool) (a : Auction) : Prog Auction :=
  modify (put_auction (as_unsold a)) ;;;
  release_listing_for_direct_sale (a_domain_id a) ;;;
  commit ;;;
  _notify_zero_bid_seller mail_ok (as_unsold a) ;;;
  publish (a_id a) (unsold_event (as_unsold a)) ;;;
  ret (as_unsold a).

Definition as_won (a : Auction) (b : Bid) : Auction :=
  a <| a_status := AuctionStatus.PAYMENT_PENDING |> <| a_current_winner_id := Some (b_bidder_id b) |>
    <| a_current_highest_bid := Some (b_amount b) |>.

Definition _mark_payment_pending (mail_ok : string -> bool) (a : Auction) (b : Bid) : Prog Auction :=
  mark_winning_bid (a_id a) (b_id b) ;;;
  modify (put_auction (as_won a b)) ;;;
  commit ;;;
  _notify_payment_pending (as_won a b) b ;;;
  _start_winner_payment_window mail_ok (as_won a b) b ;;;
  publish (a_id a) (ended_event (as_won a b) b) ;;;
  ret (as_won a b).

Definition resolve_auction (mail_ok : string -> bool) (auction_id : string) : Prog Auction :=
  do auction <- get_auction_by_id auction_id;
  match auction with
  | None => raise (AppException "Auction not found." 404)
  | Some a =>
      if is_status NON_RESOLVABLE a then ret a
      else
        do winning_bid <- get_highest_bid (a_id a);
        match winning_bid with
        | None => _mark_unsold mail_ok a
        | Some b => _mark_payment_pending mail_ok a b
        end
  end.

(** ** AuctionTimerService *)

Definition BATCH_LIMIT : nat := 100.

(** The clock and the ids of the n-th session. *)
Record env := Env { e_clock : nat -> nat -> Z; e_ids : nat -> nat -> string }.

Definition _resolve_one (mail_ok : string -> bool) (e : env) (n : nat) (auction_id : string) (d : DB)
    : bool * DB :=
  let '(r, d') := run_request (e_clock e n) (e_ids e n) (resolve_auction mail_ok auction_id) d in
  (is_ok r, d').

Fixpoint resolve_all (mail_ok : string -> bool) (e : env) (n : nat) (ids : list string) (d : DB)
    : Z * DB :=
  match ids with
  | [] => (0, d)
  | id :: ids' =>
      let '(ok, d1) := _resolve_one mail_ok e n id d in
      let '(k, d2) := resolve_all mail_ok e (S n) ids' d1 in
      ((if ok then 1 else 0) + k, d2)
  end.

(** The ids collected by the first session of a sweep. *)
Definition sweep_candidates (e : env) (d : DB) : list string :=
  match (run_request (e_clock e 0%nat) (e_ids e 0%nat) (get_expired_auctions BATCH_LIMIT) d).1 with
  | Ok expired => map a_id expired
  | Raise _ => []
  end.

Definition _sweep_once (mail_ok : string -> bool) (e : env) (d : DB) : Z * DB :=
  resolve_all mail_ok e 1 (sweep_candidates e d) d.

(** [running] is the in-process re-entrancy guard. *)
Definition sweep_expired (mail_ok : string -> bool) (e : env) (running : bool) (d : DB) : Z * DB :=
  if running then (0, d) else _sweep_once mail_ok e d.
End Winner.

(** ** Lemmas *)

Section Lemmas.
Context {cfg : Config}.
Implicit Types (d : DB) (a : Auction) (s : Session).

Definition sans_settings d : DB := d <| settings := ∅ |>.

Lemma keeps_set_setting key v : keeps sans_settings (set_setting key v).
Proof. unfold set_setting. keeps. Qed.

Lemma keeps_get_setting {T} (view : DB -> T) key : keeps view (get_setting key).
Proof. unfold get_setting. keeps. Qed.

Lemma keeps_get_track {T} (view : DB -> T) ty aid : keeps view (get_track ty aid).
Proof. unfold get_track, get_setting. keeps. Qed.

Lemma keeps_send_win_email mail_ok track : keeps sans_settings (send_win_email mail_ok track).
Proof.
  unfold send_win_email, mark_win_email_sent, set_track. keeps;
    (apply keeps_get_track || apply keeps_set_setting).
Qed.

Lemma keeps_window mail_ok a b : keeps sans_settings (_start_winner_payment_window mail_ok a b).
Proof.
  unfold _start_winner_payment_window, find_listing, start_winner_window, set_track. keeps;
    (apply keeps_send_win_email || apply keeps_set_setting).
Qed.

Lemma keeps_notify_zero mail_ok a : keeps sans_settings (_notify_zero_bid_seller mail_ok a).
Proof.
  unfold _notify_zero_bid_seller, find_listing, mark_zero_bid_notice_sent, set_track. keeps;
    (apply keeps_get_track || apply keeps_set_setting).
Qed.

Lemma keeps_notify_pending {T} (view : DB -> T) a b : keeps view (_notify_payment_pending a b).
Proof.
  unfold _notify_payment_pending, find_listing, notify_winner_payment_due,
    notify_seller_auction_ended_with_winner. keeps.
Qed.

Lemma notify_pending_ok a b : never_raises (_notify_payment_pending a b).
Proof.
  intros s. unfold _notify_payment_pending, find_listing, bind, gets.
  destruct (users (s_db s) !! b_bidder_id b) as [w|]; cbn;
    (destruct (seller_of a _) as [sid|]; [|done]; cbn; by destruct (users (s_db s) !! sid)).
Qed.

Lemma window_ok mail_ok a b : never_raises (_start_winner_payment_window mail_ok a b).
Proof. by apply never_raises_catch. Qed.

Lemma notify_zero_ok mail_ok a : never_raises (_notify_zero_bid_seller mail_ok a).
Proof. by apply never_raises_catch. Qed.

(** The bids with the winner's flag set on [b] alone. *)
Definition flag_winner (aid bid_id : string) (t : list Bid) : list Bid :=
  update_where (is_bid_of aid bid_id)
    (fun b => b <| b_is_winning_bid := true |>)
    (update_where (is_winning_of aid) (fun b => b <| b_is_winning_bid := false |>) t).

(** The database a resolution with bids leaves, settings apart. *)
Definition won a b d : DB :=
  put_auction (as_won a b) (d <| bids ::= flag_winner (a_id a) (b_id b) |>).

Lemma run_mark_payment_pending mail_ok a b s :
  exists s', _mark_payment_pending mail_ok a b s = (Ok (as_won a b), s') /\
    good (fun d => sans_settings d = sans_settings (won a b (s_db s))) s'.
Proof.
  unfold _mark_payment_pending, mark_winning_bid, clear_winning_flag.
  set (s1 := Prelude.Session (won a b (s_db s)) (won a b (s_db s)) (s_out s) (s_clock s) (s_ids s)).
  change ((_ ;;; _) s) with ((_notify_payment_pending (as_won a b) b ;;;
    _start_winner_payment_window mail_ok (as_won a b) b ;;;
    publish (a_id a) (ended_event (as_won a b) b) ;;; ret (as_won a b)) s1).
  apply (run_follow sans_settings); [apply notify_pending_ok|apply keeps_notify_pending|done|].
  intros _ s2 H2.
  apply (run_follow sans_settings); [apply window_ok|apply keeps_window|done|]. intros _ s3 H3.
  by eexists.
Qed.

Lemma run_mark_unsold mail_ok a s :
  (exists s' s2, _mark_unsold mail_ok a s = (Ok (as_unsold a), s') /\
     release_listing_for_direct_sale (a_domain_id a)
       (Prelude.Session (s_committed s) (put_auction (as_unsold a) (s_db s)) (s_out s) (s_clock s) (s_ids s))
     = (Ok tt, s2) /\
     good (fun d => sans_settings d = sans_settings (s_db s2)) s')
  \/ (exists e s', _mark_unsold mail_ok a s = (Raise e, s') /\ s_committed s' = s_committed s /\
       release_listing_for_direct_sale (a_domain_id a)
         (Prelude.Session (s_committed s) (put_auction (as_unsold a) (s_db s)) (s_out s) (s_clock s) (s_ids s))
       = (Raise e, s')).
Proof.
  unfold _mark_unsold. set (s1 := Prelude.Session _ _ _ _ _).
  change ((modify _ ;;; ?k) s) with (k s1).
  pose proof (committed_release (a_domain_id a) s1) as Hc. unfold bind at 1.
  destruct (release_listing_for_direct_sale (a_domain_id a) s1) as [[[]|e] s2] eqn:H2; [left|right].
  - set (s3 := Prelude.Session (s_db s2) (s_db s2) (s_out s2) (s_clock s2) (s_ids s2)).
    enough (exists s', (_notify_zero_bid_seller mail_ok (as_unsold a) ;;;
      publish (a_id a) (unsold_event (as_unsold a)) ;;; ret (as_unsold a)) s3 = (Ok (as_unsold a), s') /\
      good (fun d => sans_settings d = sans_settings (s_db s2)) s') as (s' & ? & ?) by (by exists s', s2).
    apply (run_follow sans_settings); [apply notify_zero_ok|apply keeps_notify_zero|done|].
    intros _ s4 H4. by eexists.
  - exists e, s2. split; [|split; [exact Hc|done]]. unfold bind at 1. by rewrite H2.
Qed.

Lemma run_resolve mail_ok clock ids aid d a :
  alive_auction aid d = Some a -> is_status NON_RESOLVABLE a = false ->
  run_request clock ids (resolve_auction mail_ok aid) d =
  run_request clock ids
    (match highest_bid (a_id a) d with
     | None => _mark_unsold mail_ok a
     | Some b => _mark_payment_pending mail_ok a b
     end) d.
Proof.
  intros Ha Hst. unfold resolve_auction, get_auction_by_id, get_highest_bid.
  rewrite run_request_gets, Ha, Hst, run_request_gets. done.
Qed.

Lemma run_resolve_won mail_ok clock ids aid d a b :
  alive_auction aid d = Some a -> is_status NON_RESOLVABLE a = false ->
  highest_bid (a_id a) d = Some b ->
  exists d', run_request clock ids (resolve_auction mail_ok aid) d = (Ok (as_won a b), d') /\
    sans_settings d' = sans_settings (won a b d).
Proof.
  intros Ha Hst Hb. rewrite (run_resolve _ _ _ _ _ a), Hb by done. unfold run_request.
  destruct (run_mark_payment_pending mail_ok a b (open_session clock ids d)) as (s' & -> & Hg & _).
  by eexists.
Qed.

Lemma run_resolve_unsold mail_ok clock ids aid d a :
  alive_auction aid d = Some a -> is_status NON_RESOLVABLE a = false ->
  highest_bid (a_id a) d = None ->
  (exists d' s2, run_request clock ids (resolve_auction mail_ok aid) d = (Ok (as_unsold a), d') /\
     release_listing_for_direct_sale (a_domain_id a)
       (Prelude.Session d (put_auction (as_unsold a) d) [] clock ids) = (Ok tt, s2) /\
     sans_settings d' = sans_settings (s_db s2))
  \/ exists e, run_request clock ids (resolve_auction mail_ok aid) d = (Raise e, d) /\
       exists s2, release_listing_for_direct_sale (a_domain_id a)
         (Prelude.Session d (put_auction (as_unsold a) d) [] clock ids) = (Raise e, s2).
Proof.
  intros Ha Hst Hb. rewrite (run_resolve _ _ _ _ _ a), Hb by done. unfold run_request.
  destruct (run_mark_unsold mail_ok a (open_session clock ids d))
    as [(s' & s2 & -> & Hrel & Hg & _)|(e & s' & -> & -> & Hrel)]; [left|right; by eauto].
  by eexists _, s2.
Qed.

(** What a resolution may change. *)
Definition sans_close d : DB :=
  sans_settings d <| auctions := ∅ |> <| bids := [] |> <| listings := ∅ |>.

Definition hide_close d : DB := d <| auctions := ∅ |> <| bids := [] |> <| listings := ∅ |>.

Lemma sans_close_settings d d' : sans_settings d = sans_settings d' -> sans_close d = sans_close d'.
Proof. intros H. exact (f_equal hide_close H). Qed.

Lemma release_tables did s s2 r :
  release_listing_for_direct_sale did s = (r, s2) ->
  auctions (s_db s2) = auctions (s_db s) /\ bids (s_db s2) = bids (s_db s) /\
  sans_close (s_db s2) = sans_close (s_db s).
Proof.
  intros H.
  pose proof (release_frame auctions did ltac:(done) s) as H1.
  pose proof (release_frame bids did ltac:(done) s) as H2.
  pose proof (release_frame sans_close did ltac:(done) s) as H3.
  unfold db_view in *. by rewrite H in *.
Qed.

Lemma sans_settings_tables d d' :
  sans_settings d = sans_settings d' ->
  auctions d = auctions d' /\ bids d = bids d' /\ listings d = listings d' /\ fee_payments d = fee_payments d'.
Proof.
  intros H. split_and!; [exact (f_equal auctions H)|exact (f_equal bids H)|exact (f_equal listings H)
    |exact (f_equal fee_payments H)].
Qed.

(** After [mark_winning_bid], [b] alone carries the flag. *)
Lemma winning_flagged aid t b :
  b ∈ t -> b_auction_id b = aid -> b_is_deleted b = false -> NoDup (map b_id t) ->
  select_where (is_winning_of aid) (flag_winner aid (b_id b) t) = [b <| b_is_winning_bid := true |>].
Proof.
  intros Hin Hb Hd Hnd. unfold flag_winner.
  set (t' := update_where (is_winning_of aid) _ t).
  pose proof (elem_of_update_where (is_winning_of aid) (fun b => b <| b_is_winning_bid := false |>) t
    (if is_winning_of aid b then b <| b_is_winning_bid := false |> else b)) as [_ Hin'].
  specialize (Hin' (ex_intro _ b (conj Hin eq_refl))). fold t' in Hin'.
  assert (NoDup (map b_id t')) as Hnd' by (unfold t'; by rewrite map_update_where).
  assert (forall x, x ∈ t' -> is_winning_of aid x = false) as Hno by apply cleared_no_winner.
  destruct (is_winning_of aid b); by apply (flagged_one aid _ t' Hno Hin').
Qed.

Lemma highest_bid_tie aid d b :
  highest_bid aid d = Some b ->
  forall x, x ∈ bids_of aid d -> b_amount x = b_amount b -> b_created_at b <= b_created_at x.
Proof.
  intros [_ Hmax]%first_by_Some; [|apply better_bid_irrefl|apply better_bid_trans].
  intros x Hx He. specialize (Hmax x Hx). unfold better_bid in Hmax. lia.
Qed.

Lemma bids_of_flag_other aid aid' bid_id d d' :
  aid' <> aid -> bids d' = flag_winner aid bid_id (bids d) -> bids_of aid' d' = bids_of aid' d.
Proof.
  intros Hne Hd. unfold bids_of. rewrite Hd. unfold flag_winner.
  rewrite select_update_other; [apply select_update_other|]; intros x Hx.
  - apply andb_true_iff in Hx as [[Hx%bool_decide_eq_true_1 _]%andb_true_iff _].
    cbn. by rewrite bool_decide_eq_false_2 by congruence.
  - apply andb_true_iff in Hx as [[_ Hx%bool_decide_eq_true_1]%andb_true_iff _].
    cbn. by rewrite bool_decide_eq_false_2 by congruence.
Qed.

(** What a resolution without bids does to the listings: the auction's own
    listing, unless it is sold, goes back to direct sale ([back_on_sale]); every
    other listing stays as it is. *)
Definition listing_released a d d' : Prop :=
  (forall k, k <> a_domain_id a -> listings d' !! k = listings d !! k) /\
  match listings d !! a_domain_id a with
  | None => listings d' !! a_domain_id a = None
  | Some l =>
      exists l', listings d' !! a_domain_id a = Some l' /\
        if bool_decide (l_domain_status l = LStatus.SOLD) then l' = l
        else back_on_sale (commission_of d) a l l'
  end.

(** [a] is the newest auction of its listing. *)
Definition newest_of (aid : string) a d : Prop :=
  forall k a', auctions d !! k = Some a' -> k <> aid -> a_domain_id a' = a_domain_id a ->
    a_is_deleted a' = false -> a_created_at a' < a_created_at a.

Definition listings_wf d : Prop := forall k l, listings d !! k = Some l -> l_id l = k.

Lemma back_unsold pct a l l' : back_on_sale pct (as_unsold a) l l' -> back_on_sale pct a l l'.
Proof. by intros [? ? ? ? ? ?]. Qed.

(** The release within the resolution of [a]. *)
Lemma release_unsold aid a d out clock ids r s2 :
  auctions_wf d -> listings_wf d -> alive_auction aid d = Some a -> newest_of aid a d ->
  release_listing_for_direct_sale (a_domain_id a)
    (Prelude.Session d (put_auction (as_unsold a) d) out clock ids) = (r, s2) ->
  (r = Ok tt /\ listing_released a d (s_db s2)) \/
  (exists e l, r = Raise e /\ listings d !! a_domain_id a = Some l /\ l_domain_status l <> LStatus.SOLD /\
     fl_leb (l_asking_price l) fl_zero = true /\
     compute_listing_commission (fl_of_dec (cents (a_min_bid_price a))) (commission_of d) = Raise e).
Proof.
  intros Hwf Hlw [Ha Hdel]%alive_auction_Some Hnew H. pose proof (ar_key _ _ (Hwf _ _ Ha)) as Hk.
  destruct (listings d !! a_domain_id a) as [l|] eqn:Hl.
  2:{ rewrite release_missing in H by done. injection H as <- <-. left. split; [done|].
      split; [done|]. by rewrite Hl. }
  set (s := Prelude.Session _ _ _ _ _) in H.
  assert (Hn : newest_auction (a_domain_id a) (s_db s) = Some (as_unsold a)).
  { apply (newest_unique aid (as_unsold a)); [|exact Hdel|].
    - cbn. by rewrite Hk, lookup_insert_eq.
    - intros k' a' Hk' Hne. cbn in Hk'. rewrite Hk, lookup_insert_ne in Hk' by done. by apply Hnew with k'. }
  pose proof (release_listing (a_domain_id a) s l Hl (Hlw _ _ Hl)) as Hrel. rewrite H in Hrel.
  destruct Hrel as [(-> & l' & Hls & Hsold & Hns)|(e & a' & -> & Hns & Hn' & Hp & Hc)].
  - left. split; [done|]. split.
    + intros k Hne. by rewrite Hls, lookup_insert_ne.
    + rewrite Hl. exists l'. split; [by rewrite Hls, lookup_insert_eq|].
      case_bool_decide as Hd; [by apply Hsold|]. by apply back_unsold, Hns.
  - right. rewrite Hn in Hn'. injection Hn' as <-. by exists e, l.
Qed.

(** C6. Resolving an auction that is not resolved yet.  With bids: the winner is
    the highest bidder, the earliest one on a tie; the auction waits for payment
    at that amount, exactly that bid carries the winner's flag and no listing
    changes.  Without bids: it is unsold without a winner and its listing is
    released: not sold yet, it is available for direct sale, verified unless its
    verification was rejected, at the auction's start price when it had none.
    Only when the commission on that missing price cannot be computed the call
    fails, and then it commits nothing.  Other auctions, other listings and all
    tables but the settings (the payment window and the seller's notice) stay as
    they are. *)
Theorem resolve_auction_spec mail_ok clock ids aid d a :
  auctions_wf d -> listings_wf d -> NoDup (map b_id (bids d)) ->
  alive_auction aid d = Some a -> is_status NON_RESOLVABLE a = false -> newest_of aid a d ->
  let '(r, d') := run_request clock ids (resolve_auction mail_ok aid) d in
  match highest_bid aid d with
  | Some b =>
      r = Ok (as_won a b) /\ auctions d' = <[aid := as_won a b]> (auctions d) /\
      select_where (is_winning_of aid) (bids d') = [b <| b_is_winning_bid := true |>] /\
      (forall aid', aid' <> aid -> bids_of aid' d' = bids_of aid' d) /\
      (forall x, x ∈ bids_of aid d -> b_amount x <= b_amount b) /\
      (forall x, x ∈ bids_of aid d -> b_amount x = b_amount b -> b_created_at b <= b_created_at x) /\
      listings d' = listings d /\ sans_close d' = sans_close d
  | None =>
      (r = Ok (as_unsold a) /\ auctions d' = <[aid := as_unsold a]> (auctions d) /\
         bids d' = bids d /\ listing_released a d d' /\ sans_close d' = sans_close d)
      \/ (d' = d /\ exists e l, r = Raise e /\ listings d !! a_domain_id a = Some l /\
            l_domain_status l <> LStatus.SOLD /\ fl_leb (l_asking_price l) fl_zero = true /\
            compute_listing_commission (fl_of_dec (cents (a_min_bid_price a))) (commission_of d) = Raise e)
  end.
Proof.
  intros Hwf Hlw Hnd Ha Hst Hnew. pose proof Ha as [Hl _]%alive_auction_Some.
  pose proof (ar_key _ _ (Hwf _ _ Hl)) as Hk.
  destruct (run_request clock ids (resolve_auction mail_ok aid) d) as [r d'] eqn:Hrun.
  destruct (highest_bid aid d) as [b|] eqn:Hb.
  - destruct (run_resolve_won mail_ok clock ids aid d a b) as (d1 & H1 & Hs); try done; [by rewrite Hk|].
    rewrite Hrun in H1. injection H1 as -> ->.
    pose proof (highest_bid_Some _ _ _ Hb) as [(Hin & Hba & Hbd)%elem_of_bids_of Hmax].
    pose proof (sans_settings_tables _ _ Hs) as (-> & Hbs & -> & _).
    cbn in Hbs |- *. rewrite Hk in *. split_and!; try done.
    + rewrite Hbs. by apply winning_flagged.
    + intros aid' Hne. by eapply bids_of_flag_other.
    + by eapply highest_bid_tie.
    + by rewrite (sans_close_settings _ _ Hs).
  - destruct (run_resolve_unsold mail_ok clock ids aid d a) as [(d1 & s2 & H1 & Hrel & Hs)|(e & H1 & s2 & Hrel)];
      try done; [by rewrite Hk| |]; rewrite Hrun in H1; injection H1 as -> ->.
    + left. destruct (release_unsold _ _ _ _ _ _ _ _ Hwf Hlw Ha Hnew Hrel) as [[_ Hls]|(e & l & He & _)]; [|done].
      apply release_tables in Hrel as (Hau & Hbs & Hc).
      pose proof (sans_settings_tables _ _ Hs) as (Hau' & Hbs' & Hls' & _).
      rewrite Hau' , Hbs', Hau, Hbs, (sans_close_settings _ _ Hs), Hc. unfold listing_released in *.
      rewrite Hls'. cbn. by rewrite Hk.
    + right. split; [done|].
      destruct (release_unsold _ _ _ _ _ _ _ _ Hwf Hlw Ha Hnew Hrel) as [[? _]|(e' & l & [= <-] & H)]; [done|by eauto].
Qed.

(** *** One resolution among other auctions *)

Lemma flag_winner_ids aid bid_id t : map b_id (flag_winner aid bid_id t) = map b_id t.
Proof. unfold flag_winner. by rewrite !map_update_where. Qed.

Lemma auctions_wf_insert d d' a : 
  auctions_wf d -> auction_row_ok (a_id a) a -> auctions d' = <[a_id a := a]> (auctions d) -> auctions_wf d'.
Proof.
  intros Hwf Ha Hd k a' Hk. rewrite Hd in Hk.
  apply lookup_insert_Some in Hk as [[<- <-]|[_ Hk]]; [done|by apply Hwf].
Qed.

(** Bid amounts, as the column bounds them. *)
Definition bids_wf d : Prop := forall b, b ∈ bids d -> amount_ok (b_amount b).

Lemma flag_winner_amounts aid bid_id t : map b_amount (flag_winner aid bid_id t) = map b_amount t.
Proof. unfold flag_winner. by rewrite !map_update_where. Qed.

Lemma bids_wf_amounts d d' : map b_amount (bids d') = map b_amount (bids d) -> bids_wf d -> bids_wf d'.
Proof.
  intros Hm Hwf b Hb. assert (b_amount b ∈ map b_amount (bids d)) as Hin.
  { rewrite <-Hm. by apply list_elem_of_In, in_map, list_elem_of_In. }
  apply list_elem_of_In, in_map_iff in Hin as (x & <- & Hx%list_elem_of_In). by apply Hwf.
Qed.

(** What one resolution does to the auction [aid] and leaves of the others. *)
Record resolved_one aid r d d' : Prop := ResolvedOne {
  ro_wf : auctions_wf d';
  ro_bids : bids_wf d';
  ro_other : forall aid', aid' <> aid ->
    auctions d' !! aid' = auctions d !! aid' /\ bids_of aid' d' = bids_of aid' d;
  ro_won : forall a b, alive_auction aid d = Some a -> is_status NON_RESOLVABLE a = false ->
    highest_bid aid d = Some b -> r = Ok (as_won a b) /\ auctions d' !! aid = Some (as_won a b);
  ro_done : forall a, alive_auction aid d = Some a -> is_status NON_RESOLVABLE a = true ->
    r = Ok a /\ d' = d;
}.

Lemma resolve_one_step mail_ok clock ids aid d r d' :
  auctions_wf d -> bids_wf d ->
  run_request clock ids (resolve_auction mail_ok aid) d = (r, d') -> resolved_one aid r d d'.
Proof.
  intros Hwf Hbw Hrun.
  destruct (alive_auction aid d) as [a|] eqn:Ha.
  2:{ unfold resolve_auction, get_auction_by_id in Hrun. rewrite run_request_gets, Ha in Hrun.
      injection Hrun as <- <-. split; try done; congruence. }
  destruct (is_status NON_RESOLVABLE a) eqn:Hst.
  { unfold resolve_auction, get_auction_by_id in Hrun. rewrite run_request_gets, Ha, Hst in Hrun.
    injection Hrun as <- <-. split; try done; intros; simplify_eq; [congruence|done]. }
  pose proof Ha as [Hl _]%alive_auction_Some. pose proof (Hwf _ _ Hl) as Hrow.
  pose proof (ar_key _ _ Hrow) as Hk.
  destruct (highest_bid (a_id a) d) as [b|] eqn:Hb.
  - destruct (run_resolve_won mail_ok clock ids aid d a b) as (d1 & H1 & Hs); try done.
    rewrite Hrun in H1. injection H1 as -> ->.
    pose proof (sans_settings_tables _ _ Hs) as (Hau & Hbs & _). cbn in Hau, Hbs. rewrite Hk in *.
    pose proof (highest_bid_Some _ _ _ Hb) as [(Hin & _)%elem_of_bids_of _].
    split.
    + apply (auctions_wf_insert d _ (as_won a b)); [done| |by rewrite <-Hk in Hau].
      destruct Hrow. split; [done|done|]. by apply Hbw.
    + eapply bids_wf_amounts; [|exact Hbw]. by rewrite Hbs, flag_winner_amounts.
    + intros aid' Hne. rewrite Hau. split; [by rewrite lookup_insert_ne|]. by eapply bids_of_flag_other.
    + intros a0 b0 Ha0 _ Hb0. rewrite Ha in Ha0. rewrite Hb in Hb0. simplify_eq. split; [done|]. by rewrite Hau, lookup_insert_eq.
    + congruence.
  - destruct (run_resolve_unsold mail_ok clock ids aid d a) as [(d1 & s2 & H1 & Hrel & Hs)|(e & H1 & _)];
      try done; rewrite Hrun in H1; injection H1 as -> ->; [|by split; try done; rewrite Hk in *; congruence].
    apply release_tables in Hrel as (Hau & Hbs & _). cbn in Hau, Hbs.
    pose proof (sans_settings_tables _ _ Hs) as (Hau' & Hbs' & _). rewrite Hau in Hau'. rewrite Hbs in Hbs'.
    split.
    + apply (auctions_wf_insert d _ (as_unsold a)); [done| |done]. by destruct Hrow.
    + unfold bids_wf. by rewrite Hbs'.
    + intros aid' Hne. unfold bids_of. rewrite Hau', Hbs', Hk. by rewrite lookup_insert_ne.
    + rewrite Hk in *. congruence.
    + congruence.
Qed.

Lemma resolve_all_won mail_ok e aid a b l : forall n d,
  auctions_wf d -> bids_wf d -> alive_auction aid d = Some a ->
  is_status NON_RESOLVABLE a = false -> highest_bid aid d = Some b -> aid ∈ l ->
  auctions (resolve_all mail_ok e n l d).2 !! aid = Some (as_won a b).
Proof.
  assert (Hstay : forall l n d, alive_auction aid d = Some (as_won a b) -> auctions_wf d -> bids_wf d ->
    auctions (resolve_all mail_ok e n l d).2 !! aid = Some (as_won a b)).
  { clear l. induction l as [|id l IH]; intros n d Ha Hwf Hbw; [by apply alive_auction_Some in Ha as [? _]|].
    cbn [resolve_all]. unfold _resolve_one.
    destruct (run_request _ _ _ d) as [r d1] eqn:Hrun. apply resolve_one_step in Hrun; [|done..].
    destruct (resolve_all mail_ok e (S n) l d1) as [k d2] eqn:Hall. cbn.
    change d2 with ((k, d2).2). rewrite <-Hall. apply IH; [|apply Hrun..].
    destruct (decide (id = aid)) as [->|Hne]; [by destruct (ro_done _ _ _ _ Hrun _ Ha) as [_ ->]|].
    unfold alive_auction. destruct (ro_other _ _ _ _ Hrun aid) as [-> _]; done. }
  induction l as [|id l IH]; intros n d Hwf Hbw Ha Hst Hb Hin; [by apply not_elem_of_nil in Hin|].
  cbn [resolve_all]. unfold _resolve_one.
  destruct (run_request _ _ _ d) as [r d1] eqn:Hrun. apply resolve_one_step in Hrun; [|done..].
  destruct (resolve_all mail_ok e (S n) l d1) as [k d2] eqn:Hall. cbn.
  change d2 with ((k, d2).2). rewrite <-Hall. pose proof Ha as [_ Hdel]%alive_auction_Some.
  destruct (decide (id = aid)) as [->|Hne].
  - apply Hstay; [|apply Hrun..]. apply alive_auction_Some. split; [|done].
    by apply (ro_won _ _ _ _ Hrun).
  - destruct (ro_other _ _ _ _ Hrun aid) as [Hau Hbs]; [done|].
    apply IH; try apply Hrun; try done; [| |set_solver].
    + unfold alive_auction. by rewrite Hau.
    + unfold highest_bid. by rewrite Hbs.
Qed.

Lemma sweep_candidates_complete e aid a d :
  auctions_wf d -> alive_auction aid d = Some a -> is_status LIVE_STATUSES a = true ->
  a_end_time a <= e_clock e 0%nat 0%nat ->
  (length (expired_auctions (e_clock e 0%nat 0%nat) d) <= BATCH_LIMIT)%nat ->
  aid ∈ sweep_candidates e d.
Proof.
  intros Hwf [Ha Hdel]%alive_auction_Some Hl He Hlen. unfold sweep_candidates, run_request, get_expired_auctions.
  cbn [bind utc_now gets open_session s_clock s_db fst snd].
  rewrite take_ge by (rewrite merge_sort_Permutation; done).
  rewrite <-(ar_key _ _ (Hwf _ _ Ha)). apply list_elem_of_In, in_map, list_elem_of_In.
  rewrite merge_sort_Permutation. unfold expired_auctions. rewrite elem_of_select_where. split.
  - unfold _alive_auction. rewrite Hl, Hdel, (proj2 (Z.leb_le _ _) He). done.
  - apply elem_of_values. by exists aid.
Qed.

Lemma live_resolvable a : is_status LIVE_STATUSES a = true -> is_status NON_RESOLVABLE a = false.
Proof. unfold is_status. by destruct (a_status a). Qed.

(** C7. The sweep closes what has expired: of at most [BATCH_LIMIT] expired
    auctions, every one that has a bid waits for its highest bidder's payment
    afterwards, whatever happens to the others. *)
Theorem sweep_closes_expired mail_ok e aid a b d :
  auctions_wf d -> bids_wf d -> alive_auction aid d = Some a ->
  is_status LIVE_STATUSES a = true -> a_end_time a <= e_clock e 0%nat 0%nat ->
  (length (expired_auctions (e_clock e 0%nat 0%nat) d) <= BATCH_LIMIT)%nat ->
  highest_bid aid d = Some b ->
  auctions (sweep_expired mail_ok e false d).2 !! aid = Some (as_won a b).
Proof.
  intros. unfold sweep_expired, _sweep_once.
  apply resolve_all_won; try done; [by apply live_resolvable|by eapply sweep_candidates_complete].
Qed.

(** Resolving is idempotent: once a resolution succeeded, resolving the
    auction again, at any later time, returns the auction as it is and changes
    nothing. *)
Theorem resolve_auction_idempotent mail_ok mail_ok' clock ids clock' ids' aid d r d' :
  auctions_wf d ->
  run_request clock ids (resolve_auction mail_ok aid) d = (Ok r, d') ->
  run_request clock' ids' (resolve_auction mail_ok' aid) d' = (Ok r, d') /\ alive_auction aid d' = Some r.
Proof.
  intros Hwf Hrun.
  enough (alive_auction aid d' = Some r /\ is_status NON_RESOLVABLE r = true) as [Hr Hst].
  { split; [|done]. unfold resolve_auction, get_auction_by_id. by rewrite run_request_gets, Hr, Hst. }
  destruct (alive_auction aid d) as [a|] eqn:Ha.
  2:{ unfold resolve_auction, get_auction_by_id in Hrun. by rewrite run_request_gets, Ha in Hrun. }
  destruct (is_status NON_RESOLVABLE a) eqn:Hst.
  { unfold resolve_auction, get_auction_by_id in Hrun. rewrite run_request_gets, Ha, Hst in Hrun.
    by injection Hrun as <- <-. }
  pose proof Ha as [Hl Hdel]%alive_auction_Some. pose proof (ar_key _ _ (Hwf _ _ Hl)) as Hk.
  destruct (highest_bid (a_id a) d) as [b|] eqn:Hb.
  - destruct (run_resolve_won mail_ok clock ids aid d a b) as (d1 & H1 & Hs); try done.
    rewrite Hrun in H1. injection H1 as -> ->. split; [|done].
    pose proof (sans_settings_tables _ _ Hs) as (Hau & _). apply alive_auction_Some.
    rewrite Hau. cbn. by rewrite Hk, lookup_insert_eq.
  - destruct (run_resolve_unsold mail_ok clock ids aid d a) as [(d1 & s2 & H1 & Hrel & Hs)|(x & H1 & _)];
      try done; rewrite Hrun in H1; [injection H1 as -> ->|done]. split; [|done].
    apply release_tables in Hrel as (Hau & _).
    pose proof (sans_settings_tables _ _ Hs) as (Hau' & _). apply alive_auction_Some.
    rewrite Hau', Hau. cbn. by rewrite Hk, lookup_insert_eq.
Qed.
End Lemmas.

(** ** Witnesses *)

Import Samples.

Definition mails_sent : string -> bool := fun _ => true.

(** The sample auction past its end, with bids of 110 and 150. *)
Definition ended_db : DB :=
  db <| bids := [MkBid "b1" "a1" "u1" 11000 "u1" false 5 false; MkBid "b2" "a1" "u2" 15000 "u2" true 7 false] |>.

Definition late_clock : nat -> Z := fun n => days 1 + 10 + Z.of_nat n.
Definition late_env : env := Env (fun n => late_clock) (fun n k => ("s" +:+ pretty n +:+ "-" +:+ pretty k)%string).

Lemma ended_db_bids : bids_wf ended_db.
Proof.
  intros b Hb. cbn in Hb. apply elem_of_cons in Hb as [->|Hb%list_elem_of_singleton];
    [|subst b]; unfold amount_ok; cbn; lia.
Qed.

(** The sample auction's listing, not verified and without a price. *)
Definition offered : DomainListing :=
  {| l_id := "l1"; l_domain_name := "acme"; l_domain_extension := "com"; l_sale_type := SaleType.AUCTION;
     l_domain_status := LStatus.PENDING; l_verification_status := VStatus.PENDING; l_verified := false;
     l_verified_at := None; l_verified_by_user_id := None; l_verification_method := None;
     l_verification_token := None; l_whois_email := None; l_verification_rejection_reason := None;
     l_verification_admin_note := None; l_asking_price := fl_zero; l_seller_price := None;
     l_listing_price := None; l_commission_percentage := None; l_commission_amount := None;
     l_seller_payout_amount := None; l_listed_by_user_id := Some "seller"%string;
     l_purchased_by_user_id := None; l_payment_status := None; l_razorpay_order_id := None;
     l_razorpay_payment_id := None; l_sold_at := None; l_active_transaction_id := None;
     l_is_deleted := false; l_purchase_buyer_name := None; l_purchase_buyer_email := None;
     l_purchase_buyer_phone := None; l_purchase_addon_services := None |}.

(** The sample auction without a bid. *)
Definition ignored_db : DB := db <| listings := {[ "l1" := offered ]} |>.

Lemma ignored_listings : listings_wf ignored_db.
Proof. intros k l Hl. cbn in Hl. by apply lookup_singleton_Some in Hl as [<- <-]. Qed.

Lemma sample_newest d : auctions d = auctions db -> newest_of "a1" auction d.
Proof.
  intros Hd k a' Hk Hne. rewrite Hd in Hk. cbn in Hk. by apply lookup_singleton_Some in Hk as [<- _].
Qed.

Lemma resolve_auction_spec_witness :
  (let '(r, d') := run_request late_clock sample_ids (resolve_auction mails_sent "a1") ended_db in
   fmap a_current_winner_id (auctions d' !! "a1"%string) = Some (Some "u2"%string)) /\
  (let '(r, d') := run_request late_clock sample_ids (resolve_auction mails_sent "a1") ignored_db in
   fmap a_status (auctions d' !! "a1"%string) = Some AuctionStatus.UNSOLD /\
   exists l', listings d' !! "l1"%string = Some l' /\ l_domain_status l' = LStatus.AVAILABLE /\
     l_sale_type l' = SaleType.ONE_TIME /\ l_verified l' = true /\
     price_part l' = (fl_of_Z 100, Some (fl_of_Z 100), Some (fl_of_Z 85), Some (fl_of_Z 85),
                      Some (fl_of_Z 15), Some (fl_of_Z 15))).
Proof.
  split.
  - assert (NoDup (map b_id (bids ended_db))) as Hnd by (vm_compute; repeat constructor; set_solver).
    pose proof (resolve_auction_spec mails_sent late_clock sample_ids "a1" ended_db auction
      db_auctions ltac:(done) Hnd ltac:(vm_compute; reflexivity) ltac:(vm_compute; reflexivity)
      (sample_newest ended_db eq_refl)) as H.
    destruct (run_request late_clock sample_ids (resolve_auction mails_sent "a1") ended_db) as [r d'].
    destruct (highest_bid "a1" ended_db) as [b|] eqn:Hb.
    + destruct H as (_ & -> & _). rewrite lookup_insert_eq. vm_compute in Hb. by injection Hb as <-.
    + exfalso. vm_compute in Hb. discriminate.
  - pose proof (resolve_auction_spec mails_sent late_clock sample_ids "a1" ignored_db auction
      db_auctions ignored_listings ltac:(vm_compute; constructor) ltac:(vm_compute; reflexivity)
      ltac:(vm_compute; reflexivity) (sample_newest ignored_db eq_refl)) as H.
    destruct (run_request late_clock sample_ids (resolve_auction mails_sent "a1") ignored_db) as [r d'].
    destruct (highest_bid "a1" ignored_db) as [b|] eqn:Hb; [exfalso; vm_compute in Hb; discriminate|].
    destruct H as [(_ & Hau & _ & [_ Hl] & _)|(_ & e & l & _ & Hl & _ & _ & Hc)].
    + split; [by rewrite Hau|]. cbn in Hl. destruct Hl as (l' & Hl' & [Ht Hs Hv _ Hp _]).
      exists l'. split; [exact Hl'|]. split; [exact Hs|]. split; [exact Ht|].
      split; [by apply Hv|]. destruct Hp as (seller & commission & final & Hc & ->).
      vm_compute in Hc. injection Hc as <- <- <-. vm_compute. reflexivity.
    + exfalso. vm_compute in Hc. discriminate.
Defined.

Lemma sweep_closes_expired_witness :
  fmap a_status (auctions (sweep_expired mails_sent late_env false ended_db).2 !! "a1"%string)
  = Some AuctionStatus.PAYMENT_PENDING.
Proof.
  rewrite (sweep_closes_expired mails_sent late_env "a1" auction
    (MkBid "b2" "a1" "u2" 15000 "u2" true 7 false) ended_db); [reflexivity|..].
  - exact db_auctions.
  - exact ended_db_bids.
  - vm_compute. reflexivity.
  - vm_compute. reflexivity.
  - vm_compute. discriminate.
  - vm_compute. lia.
  - vm_compute. reflexivity.
Defined.

Lemma resolve_auction_idempotent_witness :
  exists r d', run_request late_clock sample_ids (resolve_auction mails_sent "a1") ended_db = (Ok r, d') /\ run_request sample_clock sample_ids (resolve_auction mails_sent "a1") d' = (Ok r, d').
Proof.
  destruct (run_request late_clock sample_ids (resolve_auction mails_sent "a1") ended_db)
    as [[r|e] d'] eqn:H.
  - exists r, d'. split; [reflexivity|].
    exact (proj1 (resolve_auction_idempotent _ mails_sent _ _ sample_clock sample_ids "a1" ended_db r d'
      db_auctions H)).
  - exfalso. assert (is_ok (run_request late_clock sample_ids (resolve_auction mails_sent "a1") ended_db).1
      = true) as Hok by (vm_compute; reflexivity).
    rewrite H in Hok. discriminate.
Defined.

(** *** A bid at the deadline

    u2's bid of 150 is checked half a minute before the end; a sweep at the end
    reads the committed rows and takes the auction for expired; the bid, which
    held the row lock, commits the extension; then the sweep resolves. *)

Definition deadline_bid : DB :=
  (run_request (fun n => days 1 - seconds 30 + Z.of_nat n) (fun n => ("x" +:+ pretty n)%string)
    (place_bid (Samples.bid_request "o2" 150) (sample_user "u2" 0)) db).2.

Definition deadline_env : env := Env (fun n k => days 1 + Z.of_nat n + Z.of_nat k) (fun _ => sample_ids).

(** [resolve_auction] does not look at the end time again: an auction that a
    bid extended to five minutes after its original end, between the sweep's
    query and the lock, is closed at once. *)
Theorem extended_auction_closed_early :
  (sweep_candidates deadline_env db = ["a1"%string]) /\
  fmap (fun a => (a_status a, a_end_time a)) (auctions deadline_bid !! "a1"%string)
  = Some (AuctionStatus.EXTENDED, days 1 + minutes 5) /\
  fmap (fun a => (a_status a, a_end_time a))
    (auctions (resolve_all mails_sent deadline_env 1 (sweep_candidates deadline_env db) deadline_bid).2
       !! "a1"%string)
  = Some (AuctionStatus.PAYMENT_PENDING, days 1 + minutes 5) /\
  e_clock deadline_env 1 0 < days 1 + minutes 5.
Proof. split_and!; vm_compute; reflexivity. Qed.
