(* ===== verification/MarketTx.v ===== *)
(** * Domain transfer transactions: creation, audit log, notices

    app/service/domain/domain_marketplace_transaction_service.py,
    domain_transfer_event_service.py, domain_transfer_notification_service.py,
    seller_payout_profile_service.py's completeness rule and the repositories
    under them.  [mail_ok] tells whether a mail to an address is delivered. *)

From S2P Require Import Prelude PyNum Text Store Gateway Settings Pricing AuctionRepo Secrets.

Module Escrow := MarketplaceEscrowStatus.
Module TStatus := MarketplaceTransferStatus.
Module TEvent := TransferEventType.
Module DStatus := TransferDisputeStatus.

(** ** Repositories *)

Definition put_tx (tx : DomainMarketplaceTransaction) (d : DB) : DB := d <| mkt_txs ::= <[x_id tx := tx]> |>.

Definition tx_save (tx : DomainMarketplaceTransaction) : Prog unit := modify (put_tx tx).

(** [get_by_id] and [get_by_id_for_update] load the same row. *)
Definition get_tx (tx_id : string) : Prog (option DomainMarketplaceTransaction) :=
  gets (fun d => mkt_txs d !! tx_id).

Definition paid_by (payment_id : string) (tx : DomainMarketplaceTransaction) : bool :=
  bool_decide (x_razorpay_payment_id tx = Some payment_id).

Definition txs_paid_by (payment_id : string) (d : DB) : list DomainMarketplaceTransaction :=
  select_where (paid_by payment_id) (values (mkt_txs d)).

Definition get_by_razorpay_payment_id (payment_id : string)
    : Prog (option DomainMarketplaceTransaction) :=
  do rows <- gets (txs_paid_by payment_id);
  scalar_one_or_none rows.

(** INSERT; [razorpay_payment_id] is unique. *)
Definition tx_create (tx : DomainMarketplaceTransaction) : Prog DomainMarketplaceTransaction :=
  do id <- uuid4;
  let stored := tx <| x_id := id |> in
  do taken <- gets (fun d =>
    match x_razorpay_payment_id tx with
    | Some pid => negb (bool_decide (txs_paid_by pid d = []))
    | None => false
    end);
  guard_exn (negb taken) (IntegrityError "domain_marketplace_transactions") ;;;
  insert_new mkt_txs (fun t => set mkt_txs (fun _ => t)) "domain_marketplace_transactions" id stored ;;;
  ret stored.

Definition get_profile (user_id : string) : Prog (option SellerPayoutProfile) :=
  gets (fun d => profiles d !! user_id).

(** ** seller_payout_profile_service.py *)

(** [(s or "").strip()] *)
Definition stripped (s : option string) : string := strip (default EmptyString s).

Definition is_complete (profile : option SellerPayoutProfile) : bool :=
  match profile with
  | None => false
  | Some p =>
      match pp_payout_method p with
      | PayoutMethod.UPI => truthy (pp_upi_id_encrypted p)
      | PayoutMethod.BANK_ACCOUNT =>
          negb (is_empty (stripped (pp_account_holder_name p)))
          && negb (is_empty (stripped (pp_bank_name p)))
          && negb (is_empty (stripped (pp_account_number p)))
          && negb (is_empty (stripped (pp_bank_ifsc p)))
      end
  end.

(** ** domain_transfer_event_service.py *)

(** The stored payload: the auth code never enters the log; an empty dict is NULL. *)
Definition safe_payload (payload : dict) : option dict :=
  let p := if existsb (fun kv => bool_decide (kv.1 = "authCode"%string)) payload
           then dict_set "authCode" (JStr "[REDACTED]") payload else payload in
  match p with [] => None | _ => Some p end.

Definition log_event (transaction_id : string) (event_type : TEvent.t) (actor_user_id : option string)
    (actor_role : string) (payload : dict) : Prog unit :=
  do id <- uuid4;
  modify (fun d => d <| tx_events ::= fun t =>
    t ++ [MkEvent id transaction_id event_type actor_user_id actor_role (safe_payload payload)] |>).

Definition list_timeline (transaction_id : string) : Prog (list DomainTransferEvent) :=
  gets (fun d => select_where (fun e => bool_decide (ev_transaction_id e = transaction_id)) (tx_events d)).

Section MarketTx.
Context {cfg : Config} {cipher : Cipher}.

(** The frozen copy of the seller's payout details. *)
Definition snapshot (profile : SellerPayoutProfile) (now : Z) (source : string) : payout_snapshot :=
  {| ps_method := Some (PayoutMethod.value (pp_payout_method profile));
     ps_upi_id :=
       match pp_upi_id_encrypted profile with
       | Some c =>
           if is_empty c then None
           else match decrypt_secret c with Ok s => Some s | Raise _ => None end
       | None => None
       end;
     ps_account_holder := pp_account_holder_name profile;
     ps_bank_name := pp_bank_name profile;
     ps_account_number := strip_or_none (pp_account_number profile);
     ps_ifsc := pp_bank_ifsc profile;
     ps_account_last4 := pp_account_number_last4 profile;
     ps_captured_at := now;
     ps_source := source |}.

(** [a or b] on an optional float *)
Definition float_or (a : option py_float) (b : py_float) : py_float :=
  match a with Some x => if fl_eqb x fl_zero then b else x | None => b end.

Definition is_nonneg (a : option py_float) : option py_float :=
  match a with Some x => if fl_leb fl_zero x then Some x else None | None => None end.

(** The platform fee and the seller's payout of a sale at [gross]. *)
Definition split_sale (listing : DomainListing) (commission : option py_float) (gross : py_float)
    : Prog (py_float * py_float) :=
  match is_nonneg (l_seller_payout_amount listing) with
  | Some payout =>
      ret (float_or (l_commission_amount listing) (py_round2 (fl_sub gross payout)), payout)
  | None =>
      match is_nonneg (l_seller_price listing) with
      | Some payout => ret (py_round2 (fl_sub gross payout), payout)
      | None =>
          do pct <- match commission with
                    | Some p => ret p
                    | None =>
                        match l_commission_percentage listing with
                        | Some p => ret p
                        | None => commission_percent
                        end
                    end;
          let fee := py_round2 (fl_div (fl_mul gross pct) (fl_of_Z 100)) in
          ret (fee, py_round2 (fl_sub gross fee))
      end
  end.

Definition fqdn_of (l : DomainListing) : string :=
  lower (l_domain_name l +:+ dotted (l_domain_extension l)).

(** The price of the listing when no amount is given. *)
Definition listing_gross (l : DomainListing) : py_float :=
  float_or (l_listing_price l) (float_or (Some (l_asking_price l)) fl_zero).

Definition new_tx (listing : DomainListing) (buyer_id seller_id order_id payment_id : string)
    (gross fee payout : py_float) (now : Z) : DomainMarketplaceTransaction :=
  {| x_id := EmptyString; x_domain_listing_id := l_id listing; x_buyer_id := buyer_id;
     x_seller_id := seller_id; x_domain_fqdn := fqdn_of listing; x_gross_amount_inr := gross;
     x_platform_fee_inr := fee; x_seller_payout_inr := payout;
     x_razorpay_order_id := Some order_id; x_razorpay_payment_id := Some payment_id;
     x_razorpay_refund_id := None; x_escrow_status := Escrow.HELD;
     x_transfer_status := TStatus.AWAITING_AUTH_CODE; x_transfer_method := None;
     x_assistance_requested_at := None; x_seller_registrar_name := None;
     x_buyer_target_registrar := None; x_auth_code_ciphertext := None; x_proof_storage_key := None;
     x_seller_deadline_at := now + hours DOMAIN_TRANSFER_SELLER_DEADLINE_HOURS;
     x_buyer_deadline_at := None; x_auth_code_submitted_at := None; x_auth_code_viewed_at := None;
     x_transfer_started_at := None; x_transfer_confirmed_at := None; x_transfer_verified_at := None;
     x_transfer_verified_by := None; x_payout_profile_id := None;
     x_payout_approved_by_user_id := None; x_payout_approved_at := None; x_seller_paid_at := None;
     x_refund_completed_at := None; x_admin_review_required_at := None;
     x_admin_review_reason := None; x_dispute_status := DStatus.NONE; x_payout_snapshot := None;
     x_email_sale_seller_sent := false; x_email_sale_buyer_sent := false;
     x_email_seller_reminder_12h_sent := false; x_email_seller_reminder_6h_sent := false;
     x_email_auth_available_sent := false; x_email_admin_review_sent := false;
     x_email_payout_released_sent := false; x_email_refund_sent := false;
     x_payout_reminder_sent_at := None; x_payout_reminder_count := 0;
     x_whois_supports_transfer := None; x_whois_last_checked_at := None;
     x_whois_registrar_snapshot := None |}.

(** [listing] is the row object the caller holds: its [active_transaction_id] is set. *)
Definition create_from_payment (listing : DomainListing) (buyer : AppUser)
    (razorpay_order_id razorpay_payment_id : string) (commission gross_amount_inr : option py_float)
    : Prog DomainMarketplaceTransaction :=
  do existing <- get_by_razorpay_payment_id razorpay_payment_id;
  match existing with
  | Some tx => ret tx
  | None =>
      match l_listed_by_user_id listing with
      | None => raise (AppException "Domain listing has no seller." 400)
      | Some seller_id =>
          let gross := default (listing_gross listing) gross_amount_inr in
          do (fee, payout) <- split_sale listing commission gross;
          do now <- utc_now;
          do profile <- get_profile seller_id;
          let tx := new_tx listing (u_id buyer) seller_id razorpay_order_id razorpay_payment_id gross
                      fee payout now in
          do tx <- tx_create
            match profile with
            | Some p =>
                if is_complete (Some p)
                then tx <| x_payout_snapshot := Some (snapshot p now "TRANSACTION_CREATION") |>
                else tx
            | None => tx
            end;
          save_listing (listing <| l_active_transaction_id := Some (x_id tx) |>) ;;;
          log_event (x_id tx) TEvent.PAYMENT_COMPLETED (Some (u_id buyer)) "BUYER"
            [("razorpayPaymentId"%string, JStr razorpay_payment_id)] ;;;
          ret tx
      end
  end.

Definition get_for_user (tx_id : string) (user : AppUser) (admin : bool)
    : Prog DomainMarketplaceTransaction :=
  do tx <- get_tx tx_id;
  match tx with
  | None => raise (AppException "Transfer transaction not found." 404)
  | Some x =>
      guard_exn (admin || bool_decide (u_id user ∈ [x_buyer_id x; x_seller_id x]))
        (AppException "Forbidden." 403) ;;;
      ret x
  end.

(** ** domain_transfer_notification_service.py *)

Definition _transfer_url (tx_id : string) (buyer : bool) : string :=
  (rstrip_slash FRONTEND_BASE_URL +:+ (if buyer then "/purchases/transfers/" else "/domains/transfers/")
   +:+ tx_id)%string.

(** The relationship attributes [tx.seller] and [tx.buyer]. *)
Definition tx_seller (x : DomainMarketplaceTransaction) : Prog (option AppUser) :=
  gets (fun d => users d !! x_seller_id x).
Definition tx_buyer (x : DomainMarketplaceTransaction) : Prog (option AppUser) :=
  gets (fun d => users d !! x_buyer_id x).

(** A mail whose failure is only logged. *)
Definition mail_to (mail_ok : string -> bool) (user : AppUser) (subject : string) : Prog unit :=
  when (MAIL_CONFIGURED && mail_ok (u_email user)) (emit (Mail (u_email user) subject)).

(** Tell a party of the sale once; the new value of the row's flag. *)
Definition tell (mail_ok : string -> bool) (user : option AppUser) (sent : bool) (title url subject : string)
    : Prog bool :=
  match user with
  | Some u => when (negb sent) (emit (Notify (u_id u) title url) ;;; mail_to mail_ok u subject) ;;; ret true
  | None => ret sent
  end.

Definition on_payment_completed (mail_ok : string -> bool) (tx : DomainMarketplaceTransaction) : Prog unit :=
  do seller <- tx_seller tx;
  do seller_sent <- tell mail_ok seller (x_email_sale_seller_sent tx) "Your domain was sold"
    (_transfer_url (x_id tx) false) "domain_transfer_seller_sold";
  do buyer <- tx_buyer tx;
  do buyer_sent <- tell mail_ok buyer (x_email_sale_buyer_sent tx) "Purchase successful"
    (_transfer_url (x_id tx) true) "domain_transfer_buyer_purchase";
  tx_save (tx <| x_email_sale_seller_sent := seller_sent |> <| x_email_sale_buyer_sent := buyer_sent |>).

Definition on_auth_code_available (mail_ok : string -> bool) (tx : DomainMarketplaceTransaction) : Prog unit :=
  do buyer <- tx_buyer tx;
  match buyer with
  | Some u =>
      when (negb (x_email_auth_available_sent tx))
        (emit (Notify (u_id u) "Auth code ready" (_transfer_url (x_id tx) true)) ;;;
         mail_to mail_ok u "domain_transfer_auth_available" ;;;
         tx_save (tx <| x_email_auth_available_sent := true |>))
  | None => ret tt
  end.

Definition on_admin_review_required (tx : DomainMarketplaceTransaction) : Prog unit :=
  if x_email_admin_review_sent tx then ret tt
  else
    do seller <- tx_seller tx;
    match seller with
    | Some u => emit (Notify (u_id u) "Transfer deadline passed" (_transfer_url (x_id tx) false))
    | None => ret tt
    end ;;;
    do buyer <- tx_buyer tx;
    match buyer with
    | Some u => emit (Notify (u_id u) "Transfer under review" (_transfer_url (x_id tx) true))
    | None => ret tt
    end ;;;
    tx_save (tx <| x_email_admin_review_sent := true |>).

Definition on_payout_released (tx : DomainMarketplaceTransaction) : Prog unit :=
  do seller <- tx_seller tx;
  match seller with
  | Some u =>
      when (negb (x_email_payout_released_sent tx))
        (emit (Notify (u_id u) "Payout released" (_transfer_url (x_id tx) false)) ;;;
         tx_save (tx <| x_email_payout_released_sent := true |>))
  | None => ret tt
  end.

Definition on_payout_profile_reminder (mail_ok : string -> bool) (tx : DomainMarketplaceTransaction)
    (admin : AppUser) : Prog string :=
  do seller <- tx_seller tx;
  match seller with
  | None => raise (AppException "Seller email address is not available." 400)
  | Some u =>
      guard_exn (negb (is_empty (u_email u)))
        (AppException "Seller email address is not available." 400) ;;;
      guard_exn MAIL_CONFIGURED (AppException "Unable to send reminder." 503) ;;;
      guard_exn (mail_ok (u_email u)) (OtherError "ConnectionErrors") ;;;
      emit (Mail (u_email u) "seller_payout_details_reminder") ;;;
      do now <- utc_now;
      let tx' := tx <| x_payout_reminder_sent_at := Some now |>
                    <| x_payout_reminder_count := x_payout_reminder_count tx + 1 |> in
      emit (Notify (u_id u) "Add payout details"
              (rstrip_slash FRONTEND_BASE_URL +:+ "/settings/payouts")) ;;;
      log_event (x_id tx) TEvent.PAYOUT_REMINDER_SENT (Some (u_id admin)) "ADMIN"
        [("recipient", JStr (u_email u)); ("reminderCount", JInt (x_payout_reminder_count tx'))]%string ;;;
      tx_save tx' ;;;
      ret (u_email u)
  end.

Definition on_refund (tx : DomainMarketplaceTransaction) : Prog unit :=
  do buyer <- tx_buyer tx;
  match buyer with
  | Some u =>
      when (negb (x_email_refund_sent tx))
        (emit (Notify (u_id u) "Refund processed" (_transfer_url (x_id tx) true)) ;;;
         tx_save (tx <| x_email_refund_sent := true |>))
  | None => ret tt
  end.
End MarketTx.

(** ** Lemmas *)

Section Lemmas.
Context {cfg : Config} {cipher : Cipher}.

(** Everything but the sales and their logs. *)
Definition sans_sales (d : DB) : DB := d <| mkt_txs := ∅ |> <| listings := ∅ |> <| tx_events := [] |>.

Lemma split_sale_run l commission gross (s : Session) :
  exists fee payout, split_sale l commission gross s = (Ok (fee, payout), s).
Proof.
  unfold split_sale. destruct (is_nonneg _); [by eexists _, _|].
  destruct (is_nonneg _); [by eexists _, _|].
  destruct commission; [by eexists _, _|]. destruct (l_commission_percentage l); by eexists _, _.
Qed.

(** What a sale's row says when it is opened. *)
Record opened (l : DomainListing) (buyer_id seller_id oid pid : string) (gross : py_float)
    (tx : DomainMarketplaceTransaction) : Prop := {
  op_listing : x_domain_listing_id tx = l_id l;
  op_parties : x_buyer_id tx = buyer_id /\ x_seller_id tx = seller_id;
  op_payment : x_razorpay_order_id tx = Some oid /\ x_razorpay_payment_id tx = Some pid;
  op_gross : x_gross_amount_inr tx = gross;
  op_state : x_escrow_status tx = Escrow.HELD /\ x_transfer_status tx = TStatus.AWAITING_AUTH_CODE;
}.

Lemma tx_create_new tx pid (s : Session) :
  x_razorpay_payment_id tx = Some pid -> txs_paid_by pid (s_db s) = [] ->
  mkt_txs (s_db s) !! s_ids s 0%nat = None ->
  let stored := tx <| x_id := s_ids s 0%nat |> in
  tx_create tx s = (Ok stored, Prelude.Session (s_committed s) (put_tx stored (s_db s)) (s_out s)
                                 (s_clock s) (fun n => s_ids s (S n))).
Proof.
  intros Hp Hpid Hfresh stored. unfold tx_create, bind, uuid4, gets. rewrite Hp. cbn [fst snd s_db].
  rewrite Hpid, bool_decide_eq_true_2 by done. cbn [negb guard_exn ret].
  unfold insert_new, bind, gets. cbn [s_db]. by rewrite Hfresh.
Qed.

Lemma create_from_payment_new l buyer oid pid commission gross seller (s : Session) :
  txs_paid_by pid (s_db s) = [] -> l_listed_by_user_id l = Some seller ->
  mkt_txs (s_db s) !! s_ids s 0%nat = None ->
  exists tx s', create_from_payment l buyer oid pid commission (Some gross) s = (Ok tx, s') /\
    x_id tx = s_ids s 0%nat /\ opened l (u_id buyer) seller oid pid gross tx /\
    mkt_txs (s_db s') = <[x_id tx := tx]> (mkt_txs (s_db s)) /\
    listings (s_db s') = <[l_id l := l <| l_active_transaction_id := Some (x_id tx) |>]> (listings (s_db s)) /\
    sans_sales (s_db s') = sans_sales (s_db s).
Proof.
  intros Hpid Hseller Hfresh.
  unfold create_from_payment, get_by_razorpay_payment_id, get_profile, utc_now, gets, bind.
  rewrite Hpid. cbn [scalar_one_or_none ret]. rewrite Hseller. cbn [default from_option id].
  destruct (split_sale_run l commission gross s) as (fee & payout & ->). cbn [s_db].
  set (tx1 := match profiles (s_db s) !! seller with Some p => _ | None => _ end).
  assert (x_razorpay_payment_id tx1 = Some pid) as Hp1.
  { subst tx1. by repeat case_match. }
  assert (opened l (u_id buyer) seller oid pid gross (tx1 <| x_id := s_ids s 0%nat |>)) as Hop.
  { subst tx1. clear Hp1. constructor; by repeat case_match. }
  clearbody tx1. rewrite (tx_create_new tx1 pid) by done.
  eexists _, _. split; [reflexivity|]. split; [reflexivity|]. split; [exact Hop|]. done.
Qed.

Lemma tell_run mail_ok user sent title url subject (s : Session) :
  exists b s', tell mail_ok user sent title url subject s = (Ok b, s') /\ s_db s' = s_db s.
Proof.
  unfold tell, mail_to, when. destruct user as [u|]; [|by eexists _, _].
  destruct sent; [by eexists _, _|]. cbn. destruct (_ && _); by eexists _, _.
Qed.

(** Telling the parties only records in the row that they were told. *)
Lemma on_payment_completed_run mail_ok tx (s : Session) :
  exists s' a b,
    let tx' := tx <| x_email_sale_seller_sent := a |> <| x_email_sale_buyer_sent := b |> in
    on_payment_completed mail_ok tx s = (Ok tt, s') /\ s_db s' = put_tx tx' (s_db s).
Proof.
  unfold on_payment_completed, tx_seller, tx_buyer, bind, gets.
  destruct (tell_run mail_ok (users (s_db s) !! x_seller_id tx) (x_email_sale_seller_sent tx)
    "Your domain was sold" (_transfer_url (x_id tx) false) "domain_transfer_seller_sold" s)
    as (a & s1 & -> & Hs1).
  destruct (tell_run mail_ok (users (s_db s1) !! x_buyer_id tx) (x_email_sale_buyer_sent tx)
    "Purchase successful" (_transfer_url (x_id tx) true) "domain_transfer_buyer_purchase" s1)
    as (b & s2 & -> & Hs2).
  eexists _, a, b. split; [reflexivity|]. cbn. by rewrite Hs2, Hs1.
Qed.

(** A sale under a fresh id is the only one of its payment. *)
Lemma txs_paid_by_new tx pid d :
  x_razorpay_payment_id tx = Some pid -> txs_paid_by pid d = [] -> mkt_txs d !! x_id tx = None ->
  txs_paid_by pid (put_tx tx d) = [tx].
Proof.
  intros Hp Hnone Hfresh. apply Permutation_singleton_r. unfold txs_paid_by, select_where, values in *. cbn.
  rewrite map_to_list_insert by done. cbn [map snd]. rewrite filter_cons_True, Hnone; [done|].
  by apply bool_decide_eq_true_2.
Qed.
End Lemmas.
