(* ===== verification/AuctionPayment.v ===== *)
(** * The winner's payment

    app/service/auction/auction_payment_service.py and
    app/repository/payment_repository.py: the Razorpay order of an auction's
    winner, its verification (PAYMENT_PENDING -> COMPLETED) and the start of the
    domain transfer. *)

From S2P Require Import Prelude PyNum Text BidLimits Store Gateway Settings EdgePoints AuctionFees AuctionRepo Pricing Lifecycle Bidding Winner MarketTx Secrets.

(** ** payment_repository.py *)

Definition _alive_payment (p : Payment) : bool := negb (p_is_deleted p).

Definition put_payment (p : Payment) (d : DB) : DB := d <| payments ::= <[p_id p := p]> |>.

Definition payments_where (q : Payment -> bool) (d : DB) : list Payment :=
  select_where (fun p => _alive_payment p && q p) (values (payments d)).

Definition newer_payment (a b : Payment) : bool := p_created_at b <? p_created_at a.

Definition payment_by_order_id (razorpay_order_id : string) : Prog (option Payment) :=
  do rows <- gets (payments_where (fun p => bool_decide (p_razorpay_order_id p = razorpay_order_id)));
  scalar_one_or_none rows.

Definition is_paid_for (auction_id : string) (p : Payment) : bool :=
  bool_decide (p_auction_id p = auction_id) && bool_decide (p_payment_status p = PaymentStatus.SUCCESS).

Definition get_success_for_auction (auction_id : string) : Prog (option Payment) :=
  gets (fun d => first_by newer_payment (payments_where (is_paid_for auction_id) d)).

Definition get_open_for_auction_user (auction_id user_id : string) : Prog (option Payment) :=
  gets (fun d => first_by newer_payment (payments_where (fun p =>
    bool_decide (p_auction_id p = auction_id) && bool_decide (p_user_id p = user_id)
    && bool_decide (p_payment_status p = PaymentStatus.PENDING)) d)).

Definition payment_create (p : Payment) : Prog Payment :=
  do id <- uuid4;
  do now <- utc_now;
  let stored := p <| p_id := id |> <| p_created_at := now |> in
  insert_new payments (fun t => set payments (fun _ => t)) "payments" id stored ;;;
  ret stored.

Definition payment_save (p : Payment) : Prog unit := modify (put_payment p).

(** payment_response.py *)
Definition payment_status_label (status : PaymentStatus.t) : string :=
  match status with PaymentStatus.PENDING => "CREATED" | s => PaymentStatus.value s end.

(** ** AuctionPaymentService *)

Definition _lock_auction (auction_id : string) : Prog Auction :=
  do auction <- get_auction_by_id auction_id;
  match auction with
  | Some a => ret a
  | None => raise (AppException "Auction not found." 404)
  end.

Definition _require_payment_pending (a : Auction) : Prog unit :=
  guard_exn (bool_decide (a_status a = AuctionStatus.PAYMENT_PENDING))
    (AppException ("Auction is not awaiting payment (status=" +:+ AuctionStatus.value (a_status a)
                   +:+ ").") 409).

Definition _require_winner (a : Auction) (user : AppUser) : Prog unit :=
  guard_exn (bool_decide (a_current_winner_id a = Some (u_id user)))
    (AppException "Only the auction winner can complete this payment." 403).

Definition _winner_payment_amount (a : Auction) : Prog Z :=
  match a_current_highest_bid a with
  | Some c => guard_exn (0 <? c) (AppException "No winning bid amount is available for this auction." 409) ;;;
              ret c
  | None => raise (AppException "No winning bid amount is available for this auction." 409)
  end.

Definition _record_transaction (payment_id reference : string) (status : TransactionStatus.t)
    (gateway_response : dict) : Prog unit :=
  do id <- uuid4;
  modify (fun d => d <| transactions ::= fun t =>
    t ++ [MkTransaction id payment_id (Some reference) status (JObj gateway_response)] |>).

Record winner_order := WinnerOrder {
  wo_order_id : string;
  wo_amount : py_float;
  wo_key_id : string;
  wo_payment_id : string;
  wo_status : string;
}.

Record winner_verified := WinnerVerified {
  wv_auction_id : string;
  wv_auction_status : AuctionStatus.t;
  wv_payment_status : string;
  wv_transfer : option (string * string);
}.

Definition _verify_success_payload (a : Auction) (p : Payment)
    (transfer_tx : option DomainMarketplaceTransaction) : winner_verified :=
  WinnerVerified (a_id a) (a_status a) (payment_status_label (p_payment_status p))
    (fmap (fun x => (x_id x, TStatus.value (x_transfer_status x))) transfer_tx).

Definition payment_completed_event (a : Auction) (p : Payment)
    (transfer_tx : option DomainMarketplaceTransaction) : dict :=
  [("type", JStr "PAYMENT_COMPLETED"); ("auctionId", JStr (a_id a)); ("auction_id", JStr (a_id a));
    ("domain_id", JStr (a_domain_id a)); ("status", JStr (AuctionStatus.value (a_status a)));
    ("winnerPaymentPaid", JBool true); ("currentHighestBid", JNum (fl_of_dec (cents (p_amount p))));
    ("winner", JObj [("user_id", JStr (p_user_id p)); ("amount", JStr (money_str (p_amount p)))]);
    ("razorpay_order_id", JStr (p_razorpay_order_id p));
    ("razorpay_payment_id", json_opt_str (p_razorpay_payment_id p))]%string
  ++ match transfer_tx with
      | Some x => [("transferTransactionId", JStr (x_id x));
                   ("transferStatus", JStr (TStatus.value (x_transfer_status x)))]%string
      | None => []
      end.

Section AuctionPayment.
Context {cfg : Config} {cipher : Cipher}.

Definition order_receipt (auction_id : string) : string :=
  ("auc_" +:+ str_take 24 (remove_all "-" auction_id))%string.

(** The order's row: the user's open payment of this auction is reused. *)
Definition store_order (auction_id : string) (user : AppUser) (order_id : string) (amount : Z)
    : Prog Payment :=
  do existing <- get_open_for_auction_user auction_id (u_id user);
  match existing with
  | Some p =>
      let p' := p <| p_razorpay_order_id := order_id |> <| p_amount := amount |>
                  <| p_payment_status := PaymentStatus.PENDING |>
                  <| p_razorpay_payment_id := None |> <| p_paid_at := None |> in
      payment_save p' ;;;
      ret p'
  | None =>
      payment_create (MkPayment EmptyString auction_id (u_id user) order_id None PaymentStatus.PENDING
                        amount None 0 false)
  end.

(** The Razorpay order, with the points that pay for a part of it. *)
Definition place_order (api : rzp_api) (auction_id : string) (user : AppUser) (redeem_points : bool)
    (amount : Z) : Prog string :=
  let amount0 := fl_of_dec (cents amount) in
  do (charge, points) <-
    (if fl_ltb fl_zero amount0 then calculate_redemption user amount0 redeem_points else ret (amount0, 0));
  catch (do order_id <- lift_res (create_order api charge (order_receipt auction_id) "INR");
         when (0 <? points) (create_pending_redemption (u_id user) order_id points) ;;;
         ret order_id)
    (fun _ => raise (AppException "Could not create payment order. Please try again." 502)).

Definition create_winner_order (api : rzp_api) (auction_id : string) (user : AppUser)
    (redeem_points : bool) : Prog winner_order :=
  guard_exn is_configured (AppException "Payment gateway is not configured." 503) ;;;
  do a <- _lock_auction auction_id;
  _require_winner a user ;;;
  _require_payment_pending a ;;;
  do paid <- get_success_for_auction auction_id;
  guard_exn (match paid with Some _ => false | None => true end)
    (AppException "This auction has already been paid for." 409) ;;;
  do amount <- _winner_payment_amount a;
  do order_id <- place_order api auction_id user redeem_points amount;
  do payment <- store_order auction_id user order_id amount;
  commit ;;;
  ret (WinnerOrder order_id (fl_of_dec (cents amount)) RAZORPAY_KEY_ID (p_id payment)
         (payment_status_label (p_payment_status payment))).

(** [float(payment.amount or auction.current_highest_bid or 0)] *)
Definition winning_amount (a : Auction) (p : Payment) : py_float :=
  fl_of_dec (cents (if p_amount p =? 0 then default 0 (a_current_highest_bid a) else p_amount p)).

(** The listing row of a domain sold to the winner. *)
Definition sold_listing (l : DomainListing) (buyer_id : string) (p : Payment) (amount : py_float) (now : Z)
    : DomainListing :=
  l <| l_domain_status := DomainListingStatus.SOLD |>
    <| l_payment_status := Some MarketplacePaymentStatus.COMPLETED |>
    <| l_purchased_by_user_id := Some buyer_id |>
    <| l_razorpay_order_id := Some (p_razorpay_order_id p) |>
    <| l_razorpay_payment_id := p_razorpay_payment_id p |>
    <| l_sold_at := Some now |>
    <| l_asking_price := amount |>.

(** After an IntegrityError the session refuses every query until it is rolled
    back, so the replay lookup fails too. *)
Definition transfer_errors {A} (m : Prog A) : Prog A :=
  catch m (fun e =>
    match e with
    | IntegrityError _ => raise (SQLAlchemyError "PendingRollbackError")
    | _ => raise e
    end).

Definition _ensure_domain_transfer (mail_ok : string -> bool) (a : Auction) (p : Payment) (buyer : AppUser)
    : Prog (option DomainMarketplaceTransaction) :=
  match p_razorpay_payment_id p with
  | None => ret None
  | Some pid =>
      if is_empty pid then ret None
      else
        do existing <- get_by_razorpay_payment_id pid;
        match existing with
        | Some tx => ret (Some tx)
        | None =>
            do listing <- get_listing (a_domain_id a);
            match listing with
            | None => ret None
            | Some l =>
                let amount := winning_amount a p in
                if fl_leb amount fl_zero then ret None
                else
                  do now <- utc_now;
                  let l' := sold_listing l (u_id buyer) p amount now in
                  save_listing l' ;;;
                  transfer_errors
                    (do tx <- create_from_payment l' buyer (p_razorpay_order_id p) pid None (Some amount);
                     on_payment_completed mail_ok tx ;;;
                     ret (Some tx))
            end
        end
  end.

Definition _publish_payment_completed (a : Auction) (p : Payment)
    (transfer_tx : option DomainMarketplaceTransaction) : Prog unit :=
  emit (Broadcast (a_id a) (payment_completed_event a p transfer_tx)).

(** The payment was verified before: finish what is missing. *)
Definition replay_success (mail_ok : string -> bool) (a : Auction) (p : Payment) (user : AppUser)
    (razorpay_order_id : string) : Prog winner_verified :=
  let a' := a <| a_status := AuctionStatus.COMPLETED |> in
  modify (put_auction a') ;;;
  do tx <- _ensure_domain_transfer mail_ok a' p user;
  commit ;;;
  confirm_redemption razorpay_order_id ;;;
  ret (_verify_success_payload a' p tx).

Definition reject_signature (p : Payment) (razorpay_order_id razorpay_payment_id : string)
    : Prog winner_verified :=
  cancel_redemption razorpay_order_id ;;;
  payment_save (p <| p_payment_status := PaymentStatus.FAILED |>) ;;;
  _record_transaction (p_id p) razorpay_payment_id TransactionStatus.FAILED
    [("reason"%string, JStr "signature_mismatch")] ;;;
  commit ;;;
  raise (AppException "Invalid payment signature." 400).

(** The auction is not waiting for payment: only a completed one is accepted. *)
Definition late_payment (mail_ok : string -> bool) (a : Auction) (p : Payment) (user : AppUser)
    (razorpay_payment_id : string) : Prog winner_verified :=
  if bool_decide (a_status a = AuctionStatus.COMPLETED) then
    let p' := p <| p_payment_status := PaymentStatus.SUCCESS |>
                <| p_razorpay_payment_id := Some razorpay_payment_id |> in
    payment_save p' ;;;
    do tx <- _ensure_domain_transfer mail_ok a p' user;
    commit ;;;
    ret (_verify_success_payload a p' tx)
  else
    raise (AppException ("Auction is not awaiting payment (status=" +:+ AuctionStatus.value (a_status a)
                         +:+ ").") 409).

Definition accept_payment (mail_ok : string -> bool) (a : Auction) (p : Payment) (user : AppUser)
    (razorpay_order_id razorpay_payment_id : string) : Prog winner_verified :=
  _require_winner a user ;;;
  do now <- utc_now;
  let p' := p <| p_payment_status := PaymentStatus.SUCCESS |>
              <| p_razorpay_payment_id := Some razorpay_payment_id |>
              <| p_paid_at := Some now |> in
  let a' := a <| a_status := AuctionStatus.COMPLETED |> in
  payment_save p' ;;;
  modify (put_auction a') ;;;
  _record_transaction (p_id p) razorpay_payment_id TransactionStatus.VERIFIED
    [("razorpay_order_id", JStr razorpay_order_id); ("razorpay_payment_id", JStr razorpay_payment_id)]%string ;;;
  do tx <- _ensure_domain_transfer mail_ok a' p' user;
  commit ;;;
  confirm_redemption razorpay_order_id ;;;
  _publish_payment_completed a' p' tx ;;;
  ret (_verify_success_payload a' p' tx).

Definition verify_winner_payment (mail_ok : string -> bool) (user : AppUser)
    (razorpay_order_id razorpay_payment_id razorpay_signature : string) : Prog winner_verified :=
  do payment <- payment_by_order_id razorpay_order_id;
  match payment with
  | None => raise (AppException "Payment record not found." 404)
  | Some p =>
      guard_exn (bool_decide (p_user_id p = u_id user))
        (AppException "You are not authorized to verify this payment." 403) ;;;
      do a <- _lock_auction (p_auction_id p);
      if bool_decide (p_payment_status p = PaymentStatus.SUCCESS) then
        replay_success mail_ok a p user razorpay_order_id
      else
        do ok <- lift_res
          (verify_payment_signature razorpay_order_id razorpay_payment_id razorpay_signature);
        if negb ok then reject_signature p razorpay_order_id razorpay_payment_id
        else if negb (bool_decide (a_status a = AuctionStatus.PAYMENT_PENDING)) then
          late_payment mail_ok a p user razorpay_payment_id
        else accept_payment mail_ok a p user razorpay_order_id razorpay_payment_id
  end.
End AuctionPayment.

(** ** Lemmas *)

Section Lemmas.
Context {cfg : Config} {cipher : Cipher}.

Lemma confirm_known oid (s : Session) :
  (forall r, get_pending_redemption oid (s_db s) = Some r -> is_Some (users (s_db s) !! rd_user_id r)) ->
  s_committed s = s_db s ->
  exists s', confirm_redemption oid s = (Ok tt, s') /\ s_committed s' = s_db s' /\
    sans_wallet (s_db s') = sans_wallet (s_db s).
Proof.
  intros Hfk Hs. unfold confirm_redemption, bind, gets.
  destruct (get_pending_redemption oid (s_db s)) as [r|]; [|by exists s].
  destruct (Hfk r eq_refl) as [u Hu]. cbn. rewrite Hu. cbn. eexists. by split_and!.
Qed.

(** The sale that [_ensure_domain_transfer] opens. *)
Lemma ensure_transfer_new mail_ok a p buyer pid l seller (s : Session) :
  p_razorpay_payment_id p = Some pid -> pid <> EmptyString ->
  txs_paid_by pid (s_db s) = [] -> alive_listing (a_domain_id a) (s_db s) = Some l ->
  l_listed_by_user_id l = Some seller -> fl_leb (winning_amount a p) fl_zero = false ->
  mkt_txs (s_db s) !! s_ids s 0%nat = None ->
  let l' := sold_listing l (u_id buyer) p (winning_amount a p) (s_clock s 0%nat) in
  exists tx tx' s', _ensure_domain_transfer mail_ok a p buyer s = (Ok (Some tx), s') /\
    x_id tx = s_ids s 0%nat /\ x_id tx' = x_id tx /\ x_transfer_status tx = TStatus.AWAITING_AUTH_CODE /\
    opened l' (u_id buyer) seller (p_razorpay_order_id p) pid (winning_amount a p) tx' /\
    mkt_txs (s_db s') = <[x_id tx := tx']> (mkt_txs (s_db s)) /\
    listings (s_db s') = <[l_id l := l' <| l_active_transaction_id := Some (x_id tx) |>]> (listings (s_db s)) /\
    sans_sales (s_db s') = sans_sales (s_db s).
Proof.
  intros Hp Hne Hpid Hl Hseller Hamt Hfresh l'. unfold _ensure_domain_transfer. rewrite Hp.
  replace (is_empty pid) with false by (by destruct pid).
  unfold get_by_razorpay_payment_id, get_listing, utc_now, gets, bind at 1 2 3 4. rewrite Hpid.
  cbn [scalar_one_or_none ret]. rewrite Hl, Hamt. unfold bind at 1, save_listing, modify.
  cbn [s_db s_committed s_out s_clock s_ids]. fold l'.
  unfold transfer_errors, catch, bind at 1.
  match goal with |- context [create_from_payment _ _ _ _ _ _ ?s1] =>
    destruct (create_from_payment_new l' buyer (p_razorpay_order_id p) pid None (winning_amount a p)
      seller s1 Hpid Hseller Hfresh) as (tx & s2 & -> & Hid & Hop & Hm & Hli & Hsans) end.
  unfold bind. destruct (on_payment_completed_run mail_ok tx s2) as (s3 & b1 & b2 & -> & Hs3).
  exists tx, (tx <| x_email_sale_seller_sent := b1 |> <| x_email_sale_buyer_sent := b2 |>), s3. split; [reflexivity|]. split; [exact Hid|]. cbn [s_db] in *.
  split; [|split; [apply Hop|split; [|rewrite Hs3; split_and!]]]; cycle 1.
  - destruct Hop. by constructor.
  - cbn. rewrite Hm. apply insert_insert_eq.
  - cbn. rewrite Hli. exact (insert_insert_eq _ _ _ _).
  - exact Hsans.
  - done.
Qed.

(** The auction [a] waits for the payment [p] of its winner, and Razorpay
    signed the payment [pid] of the order [oid]. *)
Record ready (d : DB) (user : AppUser) (oid pid sig : string) (p : Payment) (a : Auction)
    (l : DomainListing) (seller : string) : Prop := {
  rdy_payment : payments_where (fun q => bool_decide (p_razorpay_order_id q = oid)) d = [p];
  rdy_open : p_payment_status p <> PaymentStatus.SUCCESS /\ txs_paid_by pid d = [] /\ pid <> EmptyString;
  rdy_user : p_user_id p = u_id user /\ a_current_winner_id a = Some (u_id user);
  rdy_auction : alive_auction (p_auction_id p) d = Some a /\ a_status a = AuctionStatus.PAYMENT_PENDING;
  rdy_listing : alive_listing (a_domain_id a) d = Some l /\ l_listed_by_user_id l = Some seller;
  rdy_amount : fl_leb (winning_amount a p) fl_zero = false;
  rdy_signed : verify_payment_signature oid pid sig = Ok true;
  rdy_points : forall r, get_pending_redemption oid d = Some r -> is_Some (users d !! rd_user_id r);
}.

Lemma ready_order d user oid pid sig p a l seller :
  ready d user oid pid sig p a l seller -> p_razorpay_order_id p = oid.
Proof.
  intros [Hp _ _ _ _ _ _ _]. assert (p ∈ payments_where (fun q => bool_decide (p_razorpay_order_id q = oid)) d)
    as Hin by (rewrite Hp; set_solver).
  apply elem_of_select_where in Hin as [[_ H]%andb_true_iff _]. by apply bool_decide_eq_true_1 in H.
Qed.

(** C21. The winner's payment goes through: the payment is recorded as
    successful, the auction completed and the listing sold to the winner, and
    one sale is opened for this payment, its money held in escrow, waiting for
    the seller's auth code; the answer names it. *)
Theorem winner_payment_completes mail_ok clock ids d user oid pid sig p a l seller :
  ready d user oid pid sig p a l seller -> mkt_txs d !! ids 1%nat = None ->
  let p' := p <| p_payment_status := PaymentStatus.SUCCESS |> <| p_razorpay_payment_id := Some pid |>
              <| p_paid_at := Some (clock 0%nat) |> in
  let l' := sold_listing l (u_id user) p' (winning_amount a p) (clock 1%nat) in
  exists v tx d',
    run_request clock ids (verify_winner_payment mail_ok user oid pid sig) d = (Ok v, d') /\
    payments d' = <[p_id p := p']> (payments d) /\
    auctions d' = <[a_id a := a <| a_status := AuctionStatus.COMPLETED |>]> (auctions d) /\
    listings d' = <[l_id l := l' <| l_active_transaction_id := Some (x_id tx) |>]> (listings d) /\
    mkt_txs d' = <[x_id tx := tx]> (mkt_txs d) /\
    txs_paid_by pid d' = [tx] /\
    opened l' (u_id user) seller oid pid (winning_amount a p) tx /\
    wv_transfer v = Some (x_id tx, "AWAITING_AUTH_CODE"%string) /\
    wv_auction_status v = AuctionStatus.COMPLETED.
Proof.
  intros Hrdy Hfresh p' l'. pose proof (ready_order _ _ _ _ _ _ _ _ _ Hrdy) as Hoid.
  destruct Hrdy as [Hp (Hst & Hnew & Hne) [Hu Hw] [Ha Has] [Hl Hs] Hamt Hsig Hfk].
  unfold run_request, verify_winner_payment, payment_by_order_id, _lock_auction, get_auction_by_id,
    gets, bind, lift_res, open_session.
  cbn [s_db]. rewrite Hp. cbn [scalar_one_or_none ret]. rewrite bool_decide_eq_true_2 by done. cbn [guard_exn ret].
  cbn [s_db]. rewrite Ha. cbn [ret].
  rewrite bool_decide_eq_false_2 by done. rewrite Hsig. cbn [negb]. rewrite bool_decide_eq_true_2 by done.
  cbn [negb]. unfold accept_payment, _require_winner. rewrite bool_decide_eq_true_2 by done.
  unfold guard_exn, utc_now, _record_transaction, payment_save, modify, uuid4, bind. cbn [ret fst snd].
  cbn [s_committed s_db s_out s_clock s_ids]. fold p'.
  match goal with |- context [_ensure_domain_transfer _ ?a' _ _ ?s1] =>
    destruct (ensure_transfer_new mail_ok a' p' user pid l seller s1) as
      (tx & tx' & s2 & -> & Hid & Hid' & Htr & Hop & Hm & Hli & Hsans) end.
  all: try first [done|exact Hl|exact Hnew|exact Hamt].
  unfold commit. cbn [s_db s_committed s_out s_clock s_ids] in *.
  destruct (confirm_known oid (Prelude.Session (s_db s2) (s_db s2) (s_out s2) (s_clock s2) (s_ids s2)))
    as (s3 & -> & Hc & Hsw); [|done|].
  { cbn [s_db]. unfold get_pending_redemption.
    rewrite (f_equal redemptions Hsans : redemptions (s_db s2) = redemptions d),
      (f_equal users Hsans : users (s_db s2) = users d). exact Hfk. }
  unfold _publish_payment_completed, emit. cbn [s_committed s_db s_out s_clock s_ids ret] in *.
  assert (x_razorpay_payment_id tx' = Some pid) as Hpid' by (by destruct Hop as [_ _ []]).
  assert (mkt_txs (s_db s3) = <[x_id tx' := tx']> (mkt_txs d)) as Hm3.
  { rewrite Hid'. etrans; [exact (f_equal mkt_txs Hsw)|exact Hm]. }
  eexists _, tx', _. split; [reflexivity|]. rewrite Hc, Hid'. split_and!.
  - etrans; [exact (f_equal payments Hsw)|]. exact (f_equal payments Hsans).
  - etrans; [exact (f_equal auctions Hsw)|]. exact (f_equal auctions Hsans).
  - etrans; [exact (f_equal listings Hsw)|]. exact Hli.
  - by rewrite <-Hid'.
  - unfold txs_paid_by. rewrite Hm3. apply (txs_paid_by_new tx' pid d); [done|done|].
    by rewrite Hid', Hid.
  - rewrite <-Hoid. exact Hop.
  - cbn. by rewrite Htr.
  - done.
Qed.

(** Verifying a payment that already succeeded, whatever is sent with it,
    opens no second sale: it answers with the sale there is and leaves
    everything but the wallet and the auction's completed status as it was. *)
Theorem winner_payment_replayed mail_ok clock ids d user oid pid pid' sig p a tx :
  payments_where (fun q => bool_decide (p_razorpay_order_id q = oid)) d = [p] ->
  p_payment_status p = PaymentStatus.SUCCESS -> p_user_id p = u_id user ->
  p_razorpay_payment_id p = Some pid -> pid <> EmptyString ->
  alive_auction (p_auction_id p) d = Some a -> txs_paid_by pid d = [tx] ->
  (forall r, get_pending_redemption oid d = Some r -> is_Some (users d !! rd_user_id r)) ->
  exists v d',
    run_request clock ids (verify_winner_payment mail_ok user oid pid' sig) d = (Ok v, d') /\
    sans_wallet d' = sans_wallet (put_auction (a <| a_status := AuctionStatus.COMPLETED |>) d) /\
    wv_transfer v = Some (x_id tx, TStatus.value (x_transfer_status tx)).
Proof.
  intros Hp Hst Hu Hpid Hne Ha Htx Hfk.
  unfold run_request, verify_winner_payment, payment_by_order_id, _lock_auction, get_auction_by_id,
    gets, bind, lift_res, open_session.
  cbn [s_db]. rewrite Hp. cbn [scalar_one_or_none ret]. rewrite bool_decide_eq_true_2 by done.
  cbn [guard_exn ret]. cbn [s_db]. rewrite Ha. cbn [ret]. rewrite bool_decide_eq_true_2 by done.
  unfold replay_success, _ensure_domain_transfer. rewrite Hpid.
  replace (is_empty pid) with false by (by destruct pid).
  unfold get_by_razorpay_payment_id, gets, modify, commit, bind. cbn [s_db s_committed s_out s_clock s_ids].
  change (txs_paid_by pid (put_auction _ d)) with (txs_paid_by pid d). rewrite Htx.
  cbn [scalar_one_or_none ret fst snd s_db s_committed s_out s_clock s_ids].
  match goal with |- context [confirm_redemption oid ?s] =>
    destruct (confirm_known oid s) as (s3 & -> & Hc & Hsw); [exact Hfk|done|] end.
  eexists _, _. split; [reflexivity|]. split; [|done]. rewrite Hc. exact Hsw.
Qed.

(** The tables a sale changes. *)
Definition sale_view (d : DB) := (auctions d, listings d, mkt_txs d).

Lemma keeps_cancel_redemption oid : keeps sale_view (cancel_redemption oid).
Proof. unfold cancel_redemption. keeps. Qed.

(** Without the winner, the order's user or Razorpay's signature nothing is
    sold: an open payment that another user verifies, whose signature is not
    the HMAC of order and payment, or whose auction another user won, is
    answered with an error, and auctions, listings and sales stay the same. *)
Theorem winner_payment_refused mail_ok clock ids d user oid pid sig p :
  payments_where (fun q => bool_decide (p_razorpay_order_id q = oid)) d = [p] ->
  p_payment_status p <> PaymentStatus.SUCCESS ->
  (p_user_id p <> u_id user \/ verify_payment_signature oid pid sig <> Ok true \/
   exists a, alive_auction (p_auction_id p) d = Some a /\ a_status a <> AuctionStatus.COMPLETED /\
     a_current_winner_id a <> Some (u_id user)) ->
  exists e d', run_request clock ids (verify_winner_payment mail_ok user oid pid sig) d = (Raise e, d') /\
    sale_view d' = sale_view d.
Proof.
  intros Hp Hst Hbad. assert (keeps sale_view (reject_signature p oid pid)) as Hkeep.
  { unfold reject_signature, payment_save, _record_transaction.
    apply keeps_bind; [apply keeps_cancel_redemption|keeps]. }
  pose proof (Hkeep (sale_view d) (open_session clock ids d) (conj eq_refl eq_refl)) as Hs.
  unfold run_request, verify_winner_payment, payment_by_order_id, _lock_auction, get_auction_by_id, bind,
    gets. cbn [open_session s_db]. rewrite Hp. cbn [scalar_one_or_none ret].
  destruct (bool_decide (p_user_id p = u_id user)) eqn:Hu; [|by eexists _, _].
  apply bool_decide_eq_true_1 in Hu. cbn [guard_exn ret open_session s_db].
  destruct (alive_auction (p_auction_id p) d) as [a|] eqn:Ha; [|by eexists _, _]. cbn [ret].
  rewrite bool_decide_eq_false_2 by done. unfold lift_res.
  destruct (verify_payment_signature oid pid sig) as [[]|e] eqn:Hsig; [| |by eexists _, _]; cbn [negb].
  - destruct Hbad as [?|[?|(a' & [= <-] & Hc & Hw)]]; [done..|].
    destruct (bool_decide (a_status a = _)) eqn:Has; cbn [negb].
    + unfold accept_payment, _require_winner, bind. rewrite bool_decide_eq_false_2 by done. by eexists _, _.
    + unfold late_payment. rewrite bool_decide_eq_false_2 by done. by eexists _, _.
  - destruct (reject_signature _ _ _ _) as [[v|e] s'] eqn:Hrej; [|exists e, (s_committed s'); by destruct Hs].
    unfold reject_signature in Hrej. do 4 (apply bind_ok_inv in Hrej as (? & ? & _ & Hrej)). done.
Qed.

Lemma keeps_place_order api aid user redeem amount : keeps payments (place_order api aid user redeem amount).
Proof.
  unfold place_order, create_pending_redemption, insert_new. apply keeps_bind.
  - case_match; [|keeps]. apply keeps_silent. intros s. apply calculate_redemption_pure.
  - intros [charge points]. keeps.
Qed.

(** What stays of an order request that succeeds: the user's open payment, if
    there is one, is the only row it writes. *)
Lemma create_winner_order_open api aid user redeem p o (d : DB) (s s' : Session) :
  first_by newer_payment (payments_where (fun q =>
    bool_decide (p_auction_id q = aid) && bool_decide (p_user_id q = u_id user)
    && bool_decide (p_payment_status q = PaymentStatus.PENDING)) d) = Some p ->
  good (fun x => payments x = payments d) s ->
  create_winner_order api aid user redeem s = (Ok o, s') ->
  exists p', p_id p' = p_id p /\ p_razorpay_order_id p' = wo_order_id o /\
    payments (s_committed s') = <[p_id p := p']> (payments d).
Proof.
  intros Hopen Hg H. unfold create_winner_order, _lock_auction, get_auction_by_id,
    _require_winner, _require_payment_pending, get_success_for_auction, _winner_payment_amount in H.
  do 8 (eapply (keeps_bind_ok payments) in H as (? & ? & _ & Hg' & H); [|exact Hg|first [apply keeps_place_order|solve [keeps]]];
    clear Hg; rename Hg' into Hg).
  destruct Hg as [_ Hg]. unfold store_order, get_open_for_auction_user, payment_save in H. ok_inv_step H.
  unfold payments_where in Hopen, Hr. ok_inv_step Hr. rewrite Hg, Hopen in Hr. ok_inv Hr. ok_inv H.
  eexists. split_and!; cycle 2; [cbn; by rewrite Hg|reflexivity..].
Qed.

(** An order of the winner that a later one replaces can no longer be
    verified: the payment row only knows the later order's id. *)
Theorem superseded_order_unpayable mail_ok api clock ids clock' ids' d d' user aid redeem oid pid sig p o :
  (forall k q, payments d !! k = Some q -> p_id q = k) ->
  payments_where (fun q => bool_decide (p_razorpay_order_id q = oid)) d = [p] ->
  first_by newer_payment (payments_where (fun q =>
    bool_decide (p_auction_id q = aid) && bool_decide (p_user_id q = u_id user)
    && bool_decide (p_payment_status q = PaymentStatus.PENDING)) d) = Some p ->
  run_request clock ids (create_winner_order api aid user redeem) d = (Ok o, d') ->
  wo_order_id o <> oid ->
  run_request clock' ids' (verify_winner_payment mail_ok user oid pid sig) d'
  = (Raise (AppException "Payment record not found." 404), d').
Proof.
  intros Hkey Hp Hopen Hrun Hne. unfold run_request in Hrun.
  destruct (create_winner_order _ _ _ _ _) as [r s'] eqn:H. injection Hrun as -> <-.
  eapply create_winner_order_open in H as (p' & Hid & Hord & Hpay); [|exact Hopen|done].
  unfold run_request, verify_winner_payment, payment_by_order_id, bind, gets. cbn [open_session s_db].
  replace (payments_where _ (s_committed s')) with (@nil Payment); [done|]. symmetry.
  apply select_none. intros q (k & Hk)%elem_of_values. rewrite Hpay in Hk.
  destruct (_alive_payment q && _) eqn:Hq; [|done]. pose proof Hq as [_ Ho%bool_decide_eq_true_1]%andb_true_iff.
  apply lookup_insert_Some in Hk as [[<- <-]|[Hk0 Hk]]; [congruence|].
  assert (q ∈ payments_where (fun q => bool_decide (p_razorpay_order_id q = oid)) d) as Hin
    by (apply elem_of_select_where; split; [done|apply elem_of_values; by exists k]).
  rewrite Hp in Hin. apply list_elem_of_singleton in Hin as ->. by apply Hkey in Hk.
Qed.
End Lemmas.

(** ** Witnesses *)

Module Sale.

Import Samples.

(** A cipher that marks its tokens. *)
Fixpoint drop_chars (n : nat) (s : string) : string :=
  match n, s with S n', String _ s' => drop_chars n' s' | _, _ => s end.

Definition unmark (s : string) : res string :=
  if startswith s "enc:" then Ok (drop_chars 4 s) else Raise (ValueError "Could not decrypt secret.").

#[export] Instance cipher : Cipher.
Proof.
  refine {| encrypt_secret := fun s => ("enc:" +:+ s)%string; decrypt_secret := unmark |}.
  - intros s. unfold unmark, startswith. cbn. by destruct s.
  - intros s H. discriminate.
  - intros s e. unfold unmark. case_match; by intros [= <-].
Defined.

(** A gateway that accepts everything. *)
Definition api : rzp_api := {|
  api_order_create := fun _ _ _ => Reply "o5"%string;
  api_payment_fetch := fun _ => ConnectionErr;
  api_order_fetch := fun _ => ConnectionErr;
  api_refund_list := fun _ => ConnectionErr;
  api_refund := fun _ _ => ConnectionErr |}.

(** The listing of the sample auction; [seller_price] is the price of an earlier direct sale. *)
Definition listing (seller_price : option py_float) : DomainListing :=
  {| l_id := "l1"; l_domain_name := "acme"; l_domain_extension := "com"; l_sale_type := SaleType.AUCTION;
     l_domain_status := DomainListingStatus.AVAILABLE;
     l_verification_status := DomainListingVerificationStatus.VERIFIED; l_verified := true;
     l_verified_at := None; l_verified_by_user_id := None; l_verification_method := None;
     l_verification_token := None; l_whois_email := None; l_verification_rejection_reason := None;
     l_verification_admin_note := None; l_asking_price := fl_of_Z 100; l_seller_price := seller_price;
     l_listing_price := None; l_commission_percentage := None; l_commission_amount := None;
     l_seller_payout_amount := None; l_listed_by_user_id := Some "seller"%string;
     l_purchased_by_user_id := None; l_payment_status := None; l_razorpay_order_id := None;
     l_razorpay_payment_id := None; l_sold_at := None; l_active_transaction_id := None;
     l_is_deleted := false; l_purchase_buyer_name := None; l_purchase_buyer_email := None;
     l_purchase_buyer_phone := None; l_purchase_addon_services := None |}.

Definition payment : Payment :=
  MkPayment "p1" "a1" "u2" "o4" None PaymentStatus.PENDING 15000 None 8 false.

Definition winner : AppUser := sample_user "u2" 0.

(** The sample auction, won by u2 with 150 and closed by the sweep; u2 opened an order. *)
Definition won_db (l : DomainListing) : DB :=
  (run_request late_clock sample_ids (resolve_auction mails_sent "a1")
     (ended_db <| listings := {[ "l1" := l ]} |>)).2 <| payments := {[ "p1" := payment ]} |>.

Definition pay_clock : nat -> Z := fun n => days 2 + Z.of_nat n.
Definition pay_ids : nat -> string := fun n => ("p-" +:+ pretty n)%string.

Definition paid (l : DomainListing) : res winner_verified * DB :=
  run_request pay_clock pay_ids
    (verify_winner_payment mails_sent winner "o4" "pay" (sign "o4" "pay")) (won_db l).

Definition won_auction : Auction :=
  Samples.auction <| a_status := AuctionStatus.PAYMENT_PENDING |> <| a_current_winner_id := Some "u2"%string |>
    <| a_current_highest_bid := Some 15000 |>.

Lemma won_ready : ready (won_db (listing None)) winner "o4" "pay" (sign "o4" "pay") payment won_auction
  (listing None) "seller".
Proof.
  constructor; try (vm_compute; reflexivity); try (split; vm_compute; reflexivity).
  - split_and!; [discriminate|vm_compute; reflexivity|discriminate].
  - intros r Hr. vm_compute in Hr. discriminate.
Qed.
End Sale.

Import Samples Sale.

Lemma winner_payment_completes_witness :
  fmap a_status (auctions (paid (listing None)).2 !! "a1"%string) = Some AuctionStatus.COMPLETED /\
  map (fun x => (x_buyer_id x, x_seller_id x, x_escrow_status x)) (txs_paid_by "pay" (paid (listing None)).2)
  = [("u2", "seller", Escrow.HELD)]%string.
Proof.
  destruct (winner_payment_completes mails_sent pay_clock pay_ids (won_db (listing None)) winner "o4" "pay"
    (sign "o4" "pay") payment won_auction (listing None) "seller" won_ready ltac:(vm_compute; reflexivity))
    as (v & tx & d' & Hrun & _ & Ha & _ & _ & Htx & [_ [Hb Hs] _ _ [He _]] & _).
  unfold paid. rewrite Hrun. cbn [snd]. rewrite Ha, Htx. cbn [map]. rewrite Hb, Hs, He.
  split; [|reflexivity]. change (a_id won_auction) with "a1"%string. by rewrite lookup_insert_eq.
Defined.

(** What is left of a sale: the auction, the sale's row and the listing. *)
Definition sale_outcome (d : DB) :=
  (fmap a_status (auctions d !! "a1"%string),
   map (fun x => (x_gross_amount_inr x, x_platform_fee_inr x, x_seller_payout_inr x)) (values (mkt_txs d)),
   fmap l_domain_status (listings d !! "l1"%string)).

Lemma winner_payment_replayed_witness :
  let d1 := (paid (listing None)).2 in
  exists v d2, run_request sample_clock sample_ids
    (verify_winner_payment mails_sent winner "o4" "other" "") d1 = (Ok v, d2) /\
    sale_outcome d2 = sale_outcome d1.
Proof.
  intros d1.
  destruct (payments_where (fun q => bool_decide (p_razorpay_order_id q = "o4"%string)) d1) as [|p []] eqn:Hp;
    [exfalso; by vm_compute in Hp| |exfalso; by vm_compute in Hp].
  destruct (alive_auction (p_auction_id p) d1) as [a|] eqn:Ha.
  2:{ exfalso. vm_compute in Hp. injection Hp as <-. by vm_compute in Ha. }
  destruct (txs_paid_by "pay" d1) as [|tx []] eqn:Htx;
    [exfalso; by vm_compute in Htx| |exfalso; by vm_compute in Htx].
  assert (a = won_auction <| a_status := AuctionStatus.COMPLETED |>) as Hva.
  { vm_compute in Hp. injection Hp as <-. vm_compute in Ha. by injection Ha as <-. }
  destruct (winner_payment_replayed mails_sent sample_clock sample_ids d1 winner "o4" "pay" "other" "" p a tx)
    as (v & d2 & Hrun & Hsans & _); try assumption.
  - vm_compute in Hp. injection Hp as <-. reflexivity.
  - vm_compute in Hp. injection Hp as <-. reflexivity.
  - vm_compute in Hp. injection Hp as <-. reflexivity.
  - discriminate.
  - intros r Hr. vm_compute in Hr. discriminate.
  - exists v, d2. split; [exact Hrun|].
    transitivity (sale_outcome (sans_wallet d2)); [reflexivity|]. rewrite Hsans, Hva. vm_compute. reflexivity.
Defined.

Lemma winner_payment_refused_witness :
  exists e d', run_request pay_clock pay_ids
    (verify_winner_payment mails_sent winner "o4" "pay" "forged") (won_db (listing None)) = (Raise e, d') /\
    sale_view d' = sale_view (won_db (listing None)).
Proof.
  apply (winner_payment_refused _ _ _ _ _ _ _ _ payment); [vm_compute; reflexivity|discriminate|].
  right. left. intros H. vm_compute in H. discriminate.
Defined.

Lemma superseded_order_unpayable_witness :
  exists o d', run_request pay_clock pay_ids (create_winner_order api "a1" winner false) (won_db (listing None))
    = (Ok o, d') /\ wo_order_id o = "o5"%string /\
    run_request sample_clock sample_ids (verify_winner_payment mails_sent winner "o4" "pay" (sign "o4" "pay")) d'
    = (Raise (AppException "Payment record not found." 404), d').
Proof.
  destruct (run_request pay_clock pay_ids (create_winner_order api "a1" winner false) (won_db (listing None)))
    as [[o|e] d'] eqn:H; [|exfalso; by vm_compute in H].
  assert (wo_order_id o = "o5"%string) as Ho by (vm_compute in H; by injection H as <- _).
  exists o, d'. split; [reflexivity|]. split; [exact Ho|].
  apply (superseded_order_unpayable _ api pay_clock pay_ids _ _ (won_db (listing None)) d' winner "a1" false
    "o4" _ _ payment o); [|vm_compute; reflexivity|vm_compute; reflexivity|exact H|by rewrite Ho].
  intros k q Hq. cbn in Hq. by apply lookup_singleton_Some in Hq as [<- <-].
Defined.

(** *** A paid winner is forfeited *)

Definition forfeit_job (d : DB) : res unit * DB :=
  run_request (fun n => days 10 + Z.of_nat n) sample_ids (process_reminders_and_forfeits mails_sent api) d.

(** Paying does not close the track of the winner's payment window: when
    the seven days are over the daily job blocks the winner who paid, although
    the auction is completed and the sale is under way. *)
Theorem paid_winner_blocked :
  is_ok (paid (listing None)).1 = true /\
  blocked_in (paid (listing None)).2 "u2" = Ok (false, None) /\
  is_ok (forfeit_job (paid (listing None)).2).1 = true /\
  fmap fst (match blocked_in (forfeit_job (paid (listing None)).2).2 "u2" with Ok x => Some x | Raise _ => None end)
  = Some true /\
  sale_outcome (forfeit_job (paid (listing None)).2).2 = sale_outcome (paid (listing None)).2.
Proof. split_and!; vm_compute; reflexivity. Qed.

(** The sale of an auction uses the listing's price of an earlier direct
    sale: the seller of a domain that went for 150 at auction is paid the 1000
    the listing was once offered for, and the platform's fee is negative. *)
Theorem auction_sale_pays_stale_price :
  is_ok (paid (listing (Some (fl_of_Z 1000)))).1 = true /\
  (sale_outcome (paid (listing (Some (fl_of_Z 1000)))).2).1.2
  = [(fl_of_Z 150, fl_of_Z (-850), fl_of_Z 1000)].
Proof. split; vm_compute; reflexivity. Qed.
