(* ===== verification/Auctions.v ===== *)
(** * The life of an auction

    app/service/auction/auction_service.py (creating, re-listing and closing) and
    app/service/domain/domain_auction_verification_service.py (the review that
    lets an auction go live).  Reads and serialisers are left out, but for the
    rows a review answers with and the rule of what is shown. *)

From S2P Require Import Prelude PyNum Text Store Gateway AuctionRepo AuctionFees Restore Lifecycle Bidding Winner.

(** ** auction_service.py *)

Definition RE_AUCTIONABLE : list AuctionStatus.t :=
  [AuctionStatus.UNSOLD; AuctionStatus.CANCELLED; AuctionStatus.ENDED].

Definition _is_admin (actor : AppUser) : bool := role_waives_auction_platform_fees (u_role actor).

(** app/model/auction/auction_request.py; amounts have at most two decimals. *)
Record CreateAuctionRequest := MkCreateRequest {
  ca_domain_id : option string;
  ca_min_bid_price : decimal;
  ca_duration : AuctionDuration.t;
  ca_creation_fee_order_id : option string;
}.

Record ReAuctionRequest := MkReRequest {
  ra_domain_id : string;
  ra_duration : AuctionDuration.t;
  ra_min_bid_price : option decimal;
  ra_creation_fee_order_id : string;
}.

Definition NO_ACCESS : exn := AppException "You do not have access to this domain." 403.

(** The registry entry of a listing, made on its first auction. *)
Definition domain_of_listing (l : DomainListing) (owner : string) : Domain :=
  MkDomain (l_id l) owner (lower (strip (l_domain_name l +:+ l_domain_extension l))) (l_verified l) false.

(** [owner_id] is NOT NULL. *)
Definition register_listing (l : DomainListing) (actor : AppUser) : Prog Domain :=
  guard_exn (_is_admin actor || bool_decide (l_listed_by_user_id l = Some (u_id actor))) NO_ACCESS ;;;
  match l_listed_by_user_id l with
  | None => raise (IntegrityError "domains")
  | Some owner => create_domain (domain_of_listing l owner) ;;; ret (domain_of_listing l owner)
  end.

Definition _require_usable_domain_for_auction (domain_id : option string) (actor : AppUser) : Prog unit :=
  match domain_id with
  | None => raise (AppException "Domain not found." 404)
  | Some id =>
      do domain <- get_domain_alive id;
      do usable <- (match domain with
        | Some x => ret (Some x)
        | None =>
            do listing <- get_listing id;
            match listing with
            | Some l => do x <- register_listing l actor; ret (Some x)
            | None => ret None
            end
        end);
      match usable with
      | None => raise (AppException "Domain not found." 404)
      | Some x => if _is_admin actor then ret tt else guard_exn (bool_decide (d_owner_id x = u_id actor)) NO_ACCESS
      end
  end.

Definition _require_auction_actor (a : Auction) (actor : AppUser) : Prog unit :=
  guard_exn (_is_admin actor || bool_decide (a_created_by a = u_id actor))
    (AppException "You do not have permission to modify this auction." 403).

Definition require_no_blocking (domain_id : string) : Prog unit :=
  do existing <- get_blocking_auction_by_domain domain_id;
  match existing with
  | Some _ => raise (AppException "Domain already has an active or pending auction." 409)
  | None => ret tt
  end.

(** A draft: it runs from now, until the review lets it start again. *)
Definition draft (domain_id : string) (min_bid_price : Z) (duration : AuctionDuration.t) (now : Z) (actor : AppUser)
    : Auction :=
  let end_time := now + seconds (to_seconds duration) in
  MkAuction EmptyString domain_id AuctionStatus.DRAFT duration min_bid_price None 0 None now end_time end_time
    (u_id actor) 0 false.

Definition to_review (l : DomainListing) : DomainListing :=
  l <| l_sale_type := SaleType.AUCTION |> <| l_verification_status := DomainListingVerificationStatus.PENDING |>
    <| l_verified := false |>.

Definition create_auction_request (payload : CreateAuctionRequest) (actor : AppUser) : Prog Auction :=
  _require_usable_domain_for_auction (ca_domain_id payload) actor ;;;
  let domain_id := default EmptyString (ca_domain_id payload) in
  guard_exn (_is_admin actor || truthy (ca_creation_fee_order_id payload))
    (AppException "Auction creation fee payment is required." 402) ;;;
  require_no_blocking domain_id ;;;
  do now <- utc_now;
  do price <- lift_res (numeric_18_2 (ca_min_bid_price payload));
  do a <- create_auction (draft domain_id price (ca_duration payload) now actor);
  do listing <- get_listing domain_id;
  match listing with Some l => save_listing (to_review l) | None => ret tt end ;;;
  when (negb (_is_admin actor))
    (consume_creation_fee actor FeeType.DOMAIN (default EmptyString (ca_creation_fee_order_id payload)) (a_id a)) ;;;
  commit ;;;
  ret a.

Definition back_to_review (l : DomainListing) : DomainListing :=
  l <| l_verification_status := DomainListingVerificationStatus.PENDING |>
    <| l_verification_rejection_reason := None |> <| l_verification_admin_note := None |>.

Definition is_auction_listing (l : DomainListing) : bool := bool_decide (l_sale_type l = SaleType.AUCTION).

Definition re_auction (auction_id : string) (payload : ReAuctionRequest) (actor : AppUser) : Prog Auction :=
  do found <- get_auction_by_id auction_id;
  match found with
  | None => raise (AppException "Auction not found." 404)
  | Some prior =>
      _require_auction_actor prior actor ;;;
      _require_usable_domain_for_auction (Some (ra_domain_id payload)) actor ;;;
      guard_exn (is_status RE_AUCTIONABLE prior)
        (AppException ("Auction in status " +:+ AuctionStatus.value (a_status prior) +:+ " cannot be re-auctioned.")
           409) ;;;
      guard_exn (bool_decide (a_domain_id prior = ra_domain_id payload))
        (AppException "domain_id does not match the source auction." 400) ;;;
      require_no_blocking (ra_domain_id payload) ;;;
      do now <- utc_now;
      do price <- lift_res (match ra_min_bid_price payload with
                            | Some p => numeric_18_2 p
                            | None => Ok (a_min_bid_price prior)
                            end);
      do a <- create_auction (draft (ra_domain_id payload) price (ra_duration payload) now actor);
      do listing <- get_listing (ra_domain_id payload);
      match listing with
      | Some l => when (is_auction_listing l) (save_listing (back_to_review l))
      | None => ret tt
      end ;;;
      consume_creation_fee actor FeeType.DOMAIN (ra_creation_fee_order_id payload) (a_id a) ;;;
      commit ;;;
      ret a
  end.

Definition CLOSED_FOR_GOOD : list AuctionStatus.t :=
  [AuctionStatus.COMPLETED; AuctionStatus.CANCELLED; AuctionStatus.UNSOLD; AuctionStatus.PAYMENT_PENDING].

Section Closing.
Context {cfg : Config}.

Definition cancel_auction (a : Auction) : Prog Auction :=
  do updated <- repo_close_auction (a_id a) AuctionStatus.CANCELLED;
  match updated with
  | None => raise (OtherError "AttributeError")
  | Some a' =>
      do listing <- get_listing (a_domain_id a');
      match listing with
      | Some l => when (is_auction_listing l) (save_listing (l <| l_sale_type := SaleType.ONE_TIME |>))
      | None => ret tt
      end ;;;
      commit ;;;
      ret a'
  end.

Definition close_auction (mail_ok : string -> bool) (auction_id : string) (actor : AppUser) (force_cancel : bool)
    : Prog Auction :=
  do found <- get_auction_by_id auction_id;
  match found with
  | None => raise (AppException "Auction not found." 404)
  | Some a =>
      _require_auction_actor a actor ;;;
      guard_exn (negb (is_status CLOSED_FOR_GOOD a))
        (AppException ("Auction already in terminal status " +:+ AuctionStatus.value (a_status a) +:+ ".") 409) ;;;
      if force_cancel then cancel_auction a else resolve_auction mail_ok auction_id
  end.
End Closing.

(** ** domain_auction_verification_service.py *)

Definition is_auction_publicly_visible (listing : option DomainListing) : bool :=
  match listing with
  | None => true
  | Some l => negb (is_auction_listing l)
              || bool_decide (l_verification_status l = DomainListingVerificationStatus.VERIFIED)
  end.

Definition listing_for_review (listing_id : string) : Prog DomainListing :=
  do listing <- get_listing listing_id;
  match listing with Some l => ret l | None => raise (AppException "Domain listing not found." 404) end.

(** The rows the answer of a review is built from. *)
Record review_payload := ReviewPayload { rv_listing : DomainListing; rv_auction : option Auction }.

Definition get_review_payload (listing_id : string) : Prog review_payload :=
  do l <- listing_for_review listing_id;
  do a <- get_auction_by_domain listing_id false;
  ret (ReviewPayload l a).

(** A notification on a session of its own; it never fails the request. *)
Definition _notify_seller (l : DomainListing) (title target_url : string) : Prog unit :=
  do owner <- gets (fun d => match l_listed_by_user_id l with Some u => users d !! u | None => None end);
  match owner with Some u => emit (Notify (u_id u) title target_url) | None => ret tt end.

Definition _sync_domain_registry_verified (listing_id : string) : Prog unit :=
  do domain <- get_domain_alive listing_id;
  match domain with Some x => modify (put_domain (x <| d_is_verified := true |>)) | None => ret tt end.

Definition awaiting_review (l : DomainListing) : bool :=
  bool_decide (l_verification_status l ∈ [DomainListingVerificationStatus.PENDING;
                                          DomainListingVerificationStatus.MORE_INFO_REQUESTED]).

(** Marked as verified while its auction already runs. *)
Definition verified_by (l : DomainListing) (admin : AppUser) (now : Z) : DomainListing :=
  l <| l_verification_status := DomainListingVerificationStatus.VERIFIED |> <| l_verified := true |>
    <| l_verified_by_user_id := Some (u_id admin) |> <| l_verified_at := Some now |>.

Definition approved (l : DomainListing) (admin : AppUser) (now : Z) : DomainListing :=
  (verified_by l admin now) <| l_verification_admin_note := None |> <| l_verification_rejection_reason := None |>.

(** The auction starts over, for its full duration. *)
Definition gone_live (a : Auction) (now : Z) : Auction :=
  let end_time := now + seconds (to_seconds (a_duration a)) in
  a <| a_status := AuctionStatus.ACTIVE |> <| a_start_time := now |> <| a_end_time := end_time |>
    <| a_original_end_time := end_time |>.

Definition publish_auction (l : DomainListing) (a : Auction) (admin : AppUser) : Prog review_payload :=
  do now <- utc_now;
  modify (put_auction (gone_live a now)) ;;;
  save_listing (approved l admin now) ;;;
  _sync_domain_registry_verified (l_id l) ;;;
  commit ;;;
  _notify_seller l "Domain auction approved" ("/auction/" +:+ a_id a) ;;;
  get_review_payload (l_id l).

Definition already_running (l : DomainListing) (admin : AppUser) : Prog review_payload :=
  do now <- utc_now;
  save_listing (verified_by l admin now) ;;;
  commit ;;;
  get_review_payload (l_id l).

Definition approve_and_go_live (listing_id : string) (admin : AppUser) : Prog review_payload :=
  do l <- listing_for_review listing_id;
  guard_exn (is_auction_listing l)
    (AppException "Approve & Go Live applies only to auction domain listings." 400) ;;;
  guard_exn (awaiting_review l) (AppException "Listing is not awaiting admin verification approval." 400) ;;;
  do auction <- get_auction_by_domain listing_id false;
  match auction with
  | None =>
      raise (AppException "No auction found for this domain listing. The seller may not have completed auction payment during listing." 400)
  | Some a =>
      if is_status [AuctionStatus.DRAFT; AuctionStatus.CANCELLED] a then publish_auction l a admin
      else if is_status LIVE_STATUSES a then already_running l admin
      else raise (AppException "Auction cannot be published from its current state." 400)
  end.

Definition rejected (l : DomainListing) (reason : string) : DomainListing :=
  l <| l_verification_status := DomainListingVerificationStatus.REJECTED |>
    <| l_verification_rejection_reason := Some reason |> <| l_verification_admin_note := None |>.

Definition reject_verification (listing_id : string) (admin : AppUser) (reason : string) : Prog review_payload :=
  do l <- listing_for_review listing_id;
  guard_exn (is_auction_listing l)
    (AppException "Reject verification applies only to auction domain listings." 400) ;;;
  let cleaned := strip reason in
  guard_exn (negb (is_empty cleaned)) (AppException "Rejection reason is required." 400) ;;;
  do auction <- get_auction_by_domain listing_id false;
  match auction with
  | Some a => when (is_status _BLOCKING_STATUSES a)
                (modify (put_auction (a <| a_status := AuctionStatus.CANCELLED |>)))
  | None => ret tt
  end ;;;
  save_listing (rejected l cleaned) ;;;
  commit ;;;
  _notify_seller l "Domain auction verification rejected" "/domains/dashboard" ;;;
  get_review_payload listing_id.

Definition request_more_information (listing_id : string) (admin : AppUser) (message : string)
    : Prog review_payload :=
  do l <- listing_for_review listing_id;
  guard_exn (is_auction_listing l)
    (AppException "Request more information applies only to auction domain listings." 400) ;;;
  let cleaned := strip message in
  guard_exn (negb (is_empty cleaned)) (AppException "Message is required." 400) ;;;
  save_listing (l <| l_verification_status := DomainListingVerificationStatus.MORE_INFO_REQUESTED |>
                  <| l_verification_admin_note := Some cleaned |>) ;;;
  commit ;;;
  _notify_seller l "More information needed" "/domains/dashboard" ;;;
  get_review_payload listing_id.
