(* ===== verification/Ownership.v ===== *)
(** * Who owns a domain

    app/service/domain/verification_service.py with the checks it makes
    (integrations/domain/dns_verify.py and html_verify.py, integrations/whois/rdap.py)
    and the marks an administrator sets (admin_service.py).  What the world answers, in
    the DNS, on the web, in RDAP and at the mail server, is an argument. *)

From S2P Require Import Prelude Store Gateway EdgePoints AuctionRepo Bidding Winner AuctionPayment Auctions Text Numerals PyJson Urls SafeHttp.

(** ** dns_verify.py *)

Class World := {
  world_net :: Network;
  (** The strings of the TXT records of a name; [None] for every failure. *)
  txt_records : string -> option (list (list string));
  rdap_answer : string -> option json;
  mail_delivered : string -> bool;
  (** Whether the enum of the database has [META_TAG]. *)
  enum_has_meta_tag : bool }.

Section Checks.
Context {world : World}.

Definition txt_holds (expected chunk : string) : bool := let txt := strip chunk in bool_decide (txt = expected) || contains expected txt.

Definition domain_has_verification_txt (fqdn expected_record : string) : bool :=
  let fqdn := rstrip_dots (lower (strip fqdn)) in
  let expected := strip expected_record in
  if is_empty expected then false
  else
    let hosts := app (if is_empty fqdn then [] else [fqdn])
                     (if negb (is_empty fqdn) && negb (startswith fqdn "www.") then [("www." +:+ fqdn)%string] else []) in
    existsb (fun host => match txt_records host with
                         | Some answers => existsb (existsb (txt_holds expected)) answers
                         | None => false
                         end) hosts.

(** ** html_verify.py *)

Definition _META_NAME : string := "cobrother-domain-verification".

Definition _candidate_bases (fqdn : string) : list string :=
  let host := lower (strip fqdn) in
  let with_www := if startswith host "www." then host else ("www." +:+ host)%string in
  [("https://" +:+ host)%string; ("https://" +:+ with_www)%string; ("http://" +:+ host)%string; ("http://" +:+ with_www)%string].

(** *** The regular expression *)

(** A literal, whatever its case; a character of a class; the greedy repetition of one,
    which gives characters back until the rest matches. *)
Definition literal (l s : string) : option string :=
  if startswith (lower s) (lower l) then Some (String.substring (String.length l) (String.length s) s) else None.

Definition one (p : Ascii.ascii -> bool) (s : string) : option string :=
  match s with String c s' => if p c then Some s' else None | EmptyString => None end.

Fixpoint many {R} (p : Ascii.ascii -> bool) (taken s : string) (k : string -> string -> option R) : option R :=
  match s with
  | String c s' =>
      if p c then match many p (taken +:+ chr c)%string s' k with Some r => Some r | None => k taken s end else k taken s
  | EmptyString => k taken s
  end.

Definition then_ {A B} (m : option A) (f : A -> option B) : option B := match m with Some a => f a | None => None end.
#[local] Notation "'try?' x <- m ; k" := (then_ m (fun x => k)) (at level 100, x pattern, m at next level, right associativity).

Definition is_quote (c : Ascii.ascii) : bool := one_of [34; 39]%nat c.
Definition not_quote (c : Ascii.ascii) : bool := negb (is_quote c).
Definition not_gt (c : Ascii.ascii) : bool := negb (one_of [62]%nat c).

(** The pattern of a meta tag, whatever quotes it uses: the group of [content] and what
    follows the tag. *)
Definition tag_end (s : string) : option string := many not_gt EmptyString s (fun _ => one (fun c => negb (not_gt c))).

Definition content_value (s : string) : option (string * string) :=
  many not_quote EmptyString s (fun group s =>
    if is_empty group then None else try? s <- one is_quote s; try? rest <- tag_end s; Some (group, rest)).

Definition content_at (s : string) : option (string * string) :=
  try? s <- literal "content=" s; try? s <- one is_quote s; content_value s.

Definition name_at (s : string) : option (string * string) :=
  try? s <- literal "name=" s; try? s <- one is_quote s; try? s <- literal _META_NAME s; try? s <- one is_quote s;
  many not_gt EmptyString s (fun _ => content_at).

Definition meta_at (s : string) : option (string * string) :=
  try? s <- literal "<meta" s; many not_gt EmptyString s (fun _ => name_at).

Fixpoint find_metas (fuel : nat) (s : string) : list string :=
  match fuel, s with
  | S fuel', String _ s' => match meta_at s with Some (group, rest) => strip group :: find_metas fuel' rest | None => find_metas fuel' s' end
  | _, _ => []
  end.

Definition _extract_meta_values (html : string) : list string := find_metas (String.length html) html.

(** *** The pages *)

Definition page_options : fetch_options := FetchOptions None true 3 (Some (2 * 1024 * 1024)) true.

Definition _get_same_host (url : string) : Net (option SafeHttpResponse) :=
  catch (do r <- ssrf_safe_get page_options url; ret (Some r)) (fun _ => ret None).

(** One page after the other, until one shows it. *)
Fixpoint any_page (shows : string -> bool) (urls : list string) : Net bool :=
  match urls with
  | [] => ret false
  | url :: urls' =>
      do res <- _get_same_host url;
      match res with
      | Some r => if negb (400 <=? status_code r) && shows (content r) then ret true else any_page shows urls'
      | None => any_page shows urls'
      end
  end.

Definition domain_has_meta_verification (fqdn expected_value : string) : Net bool :=
  let expected := strip expected_value in
  if is_empty expected then ret false
  else any_page (fun text => bool_decide (expected ∈ _extract_meta_values text)) (_candidate_bases fqdn).

Definition domain_has_verification_file (fqdn expected_value file_path : string) : Net bool :=
  let expected := strip expected_value in
  if is_empty expected then ret false
  else
    let file_path := if startswith file_path "/" then file_path else ("/" +:+ file_path)%string in
    any_page (fun text => bool_decide (expected = strip text)) (map (fun base => base +:+ file_path)%string (_candidate_bases fqdn)).

Definition build_meta_tag (value : string) : string :=
  ("<meta name=" +:+ chr dquote +:+ _META_NAME +:+ chr dquote +:+ " content=" +:+ chr dquote +:+ strip value +:+ chr dquote +:+ " />")%string.

(** ** rdap.py *)

Definition email_shaped (raw : string) : bool :=
  match split_char (ch 64) raw with
  | [local; domain] =>
      negb (is_empty local) && all_chars (fun c => negb (is_space c)) raw
      && existsb (fun i => match String.get i domain with Some c => Ascii.eqb c (ch 46) | None => false end) (seq 1 (String.length domain - 2))
  | _ => false
  end.

Definition _normalize_email (value : string) : option string :=
  let raw := lower (strip value) in
  if is_empty raw || negb (contains "@" raw) then None
  else
    let raw := match after "mailto:" raw with Some r => strip r | None => raw end in
    if email_shaped raw then Some raw else None.

Definition _emails_from_vcard (vcard_array : list json) : list string :=
  match vcard_array with
  | _ :: JArr props :: _ =>
      omap (fun item => match item with
                        | JArr (kind :: _ :: _ :: value :: _) =>
                            if bool_decide (lower (py_str kind) = "email"%string) then _normalize_email (py_str value) else None
                        | _ => None
                        end) props
  | _ => []
  end.

(** The mailboxes of each role, in the order of the answer. *)
Abbreviation roles := (list (string * list string)).

Fixpoint extend (role : string) (emails : list string) (by_role : roles) : roles :=
  match by_role with
  | [] => [(role, emails)]
  | (r, l) :: by_role' => if bool_decide (r = role) then (r, app l emails) :: by_role' else (r, l) :: extend role emails by_role'
  end.

(** [for x in v], of what JSON has. *)
Definition iterate (v : json) : res (list json) :=
  match v with
  | JArr l => Ok l
  | JStr s => Ok (map (fun c => JStr (chr c)) (String.list_ascii_of_string s))
  | JObj d => Ok (map (fun kv => JStr kv.1) d)
  | _ => if truth v then Raise (OtherError "TypeError") else Ok []
  end.

Definition merge_roles (into from : roles) : roles := foldl (fun acc rl => extend rl.1 rl.2 acc) into from.

Fixpoint _collect_entity_emails (entity : json) : res roles :=
  match entity with
  | JObj kvs =>
      let emails := match dget "vcardArray" kvs with JArr l => _emails_from_vcard l | _ => [] end in
      try! names <- iterate (dget "roles" kvs);
      let own := foldl (fun acc role => extend (lower (py_str role)) emails acc) [] names in
      (fix nested (l : dict) : res roles :=
         match l with
         | [] => Ok own
         | (k, v) :: l' =>
             if bool_decide (k = "entities"%string) then
               match v with
               | JArr children =>
                   (fix each (cs : list json) (acc : roles) : res roles :=
                      match cs with
                      | [] => Ok acc
                      | c :: cs' => if is_dict c then try! r <- _collect_entity_emails c; each cs' (merge_roles acc r) else each cs' acc
                      end) children own
               | _ => try! _ <- iterate v; Ok own
               end
             else nested l'
         end) kvs
  | _ => Ok []
  end.

Definition emails_of_role (role : string) (by_role : roles) : list string :=
  match List.find (fun rl => bool_decide (rl.1 = role)) by_role with Some rl => rl.2 | None => [] end.

(** The first mailbox of the registrant, or of the administrative contact. *)
Definition pick_registrant_email (by_role : roles) : option string :=
  head (app (emails_of_role "registrant" by_role) (emails_of_role "administrative" by_role)).

Definition lookup_registrant_email (fqdn : string) : res (option string) :=
  match rdap_answer (lower (strip fqdn)) with
  | None => Ok None
  | Some (JObj data) =>
      try! entities <- iterate (dget "entities" data);
      (fix all (l : list json) (acc : roles) : res (option string) :=
         match l with
         | [] => Ok (pick_registrant_email acc)
         | e :: l' => if is_dict e then try! r <- _collect_entity_emails e; all l' (merge_roles acc r) else all l' acc
         end) entities []
  | Some _ => Raise (OtherError "AttributeError")
  end.
End Checks.

(** [mask_email] of app/utils/email_mask.py *)
Definition mask_email (email : string) : string :=
  match cut_char (ch 64) (lower (strip email)) with
  | None => "***"
  | Some (EmptyString, domain) => ("***@" +:+ domain)%string
  | Some (String c _, domain) => (chr c +:+ "***@" +:+ domain)%string
  end.

Example meta_example :
  let tag := build_meta_tag " cobrother-verify-x " in
  _extract_meta_values ("<html><META lang=en>" +:+ tag +:+ "</html>") = ["cobrother-verify-x"%string] /\
  _extract_meta_values "<meta name='cobrother-domain-verification' content='a'><meta name='other' content='b'>" = ["a"%string] /\
  _extract_meta_values "<meta content='a' name='cobrother-domain-verification'>" = [].
Proof. vm_compute. repeat split; reflexivity. Qed.

Example rdap_example :
  let vcard email := JArr [JStr "vcard"; JArr [JArr [JStr "email"; JObj []; JStr "text"; JStr email]]] in
  let world := {| world_net := steady (fun _ => None) hello; txt_records := fun _ => None; mail_delivered := fun _ => true; enum_has_meta_tag := true;
    rdap_answer := fun _ => Some (JObj [("entities", JArr [JObj [("roles", JArr [JStr "registrar"]); ("vcardArray", vcard "abuse@r.in"%string);
      ("entities", JArr [JObj [("roles", JArr [JStr "Registrant"]); ("vcardArray", vcard "mailto:Owner@A.in"%string)]])]])]%string) |} in
  lookup_registrant_email "a.in" = Ok (Some "owner@a.in"%string) /\ mask_email " Owner@a.in" = "o***@a.in"%string /\
  map _normalize_email ["a@b.c"; "a@.c"; "a@b."; "a b@c.d"; "mailto: x@y.z"; "a@b@c.d"]%string = [Some "a@b.c"; None; None; None; Some "x@y.z"; None]%string.
Proof. vm_compute. repeat split; reflexivity. Qed.

(** ** verification_service.py *)

Class OwnershipConfig := { DOMAIN_VERIFICATION_WHOIS_EMAIL_OVERRIDE : string; DOMAIN_VERIFICATION_DISABLE_WHOIS_EMAIL : bool }.

Definition _VERIFICATION_PREFIX : string := "cobrother-verify-".
Definition _FILE_PATH : string := "/.well-known/cobrother-domain-verification.txt".

Section Service.
Context {cfg : Config} {ocfg : OwnershipConfig} {world : World}.

(** [settings.domain_verification_whois_email_enabled()] *)
Definition domain_verification_whois_email_enabled : bool := negb DOMAIN_VERIFICATION_DISABLE_WHOIS_EMAIL && MAIL_CONFIGURED.

(** [actor] and [admin] of a request. *)
Record requester := Requester { rq_actor : option AppUser; rq_admin : bool }.

Definition by_user (u : AppUser) : requester := Requester (Some u) false.
Definition by_admin : requester := Requester None true.

Definition owns (l : DomainListing) (u : AppUser) : bool := bool_decide (l_listed_by_user_id l = Some (u_id u)).

Definition _get_owned_listing (listing_id : string) (r : requester) : Prog DomainListing :=
  do found <- get_listing listing_id;
  match found with
  | None => raise (AppException "Domain listing not found." 404)
  | Some l =>
      guard_exn (rq_admin r || match rq_actor r with Some u => owns l u | None => true end) (AppException "Not authorized." 403) ;;;
      ret l
  end.

Definition _resolve_whois_email (fqdn : string) : Prog string :=
  let override := strip DOMAIN_VERIFICATION_WHOIS_EMAIL_OVERRIDE in
  if negb (is_empty override) then ret (lower override)
  else
    do email <- lift_res (lookup_registrant_email fqdn);
    if truthy email then ret (default EmptyString email)
    else raise (AppException "Could not find a registrant email for this domain. WHOIS may be privacy-protected — use DNS verification instead." 400).

Definition MissingGreenlet : exn := OtherError "MissingGreenlet".

(** The row with its method is flushed and committed.  When the enum of the database does
    not have the method the transaction is rolled back; the logging of the failure then
    reads the listing, which the rollback has expired. *)
Definition _persist_listing (l : DomainListing) : Prog unit :=
  if enum_has_meta_tag || negb (bool_decide (l_verification_method l = Some VerificationMethod.META_TAG))
  then save_listing l ;;; commit
  else rollback ;;; raise MissingGreenlet.

Definition verified_at (now : Z) (l : DomainListing) : DomainListing :=
  l <| l_verified := true |> <| l_verified_at := Some now |> <| l_verification_token := None |>.

Definition _mark_verified (l : DomainListing) : Prog (bool * string) :=
  do now <- utc_now;
  _persist_listing (verified_at now l) ;;;
  ret (true, "Domain ownership verified."%string).

Definition method_of_text (method : string) : option VerificationMethod.t :=
  List.find (fun m => bool_decide (VerificationMethod.value m = upper method))
    [VerificationMethod.DNS; VerificationMethod.META_TAG; VerificationMethod.WHOIS_EMAIL].

(** What the answer shows of the token. *)
Record init_answer := InitAnswer {
  in_message : string; in_token : option string; in_dns_record : option string; in_meta_tag : option string; in_file_content : option string }.

Definition fqdn_of (l : DomainListing) : string := (l_domain_name l +:+ l_domain_extension l)%string.

Definition started (method : VerificationMethod.t) (token : string) (l : DomainListing) : DomainListing :=
  l <| l_verification_token := Some token |> <| l_verification_method := Some method |>.

Definition mail_registrant (listing_id fqdn email : string) : Prog unit :=
  if mail_delivered email then emit (Mail email ("Verify ownership of " +:+ fqdn))
  else raise (AppException "Could not send verification email." 503).

Definition init_verification (listing_id method : string) (r : requester) : Prog init_answer :=
  do l <- _get_owned_listing listing_id r;
  match method_of_text method with
  | None => raise (AppException "Invalid verification method. Use DNS, META_TAG, or WHOIS_EMAIL." 400)
  | Some m =>
      let by_mail := bool_decide (m = VerificationMethod.WHOIS_EMAIL) in
      guard_exn (negb (by_mail && negb MAIL_CONFIGURED)) (AppException "WHOIS email verification is unavailable because email is not configured on the server." 503) ;;;
      guard_exn (negb (by_mail && negb domain_verification_whois_email_enabled)) (AppException "WHOIS email verification is unavailable." 503) ;;;
      do token <- uuid4;
      let l := started m token l in
      let fqdn := fqdn_of l in
      let value := (_VERIFICATION_PREFIX +:+ token)%string in
      match m with
      | VerificationMethod.DNS =>
          _persist_listing l ;;;
          ret (InitAnswer ("Add a TXT record on " +:+ fqdn +:+ " with value: " +:+ value) (Some token) (Some value) None None)
      | VerificationMethod.META_TAG =>
          _persist_listing l ;;;
          ret (InitAnswer "Add either the meta tag in <head> OR upload verification file." (Some token) None (Some (build_meta_tag value)) (Some value))
      | VerificationMethod.WHOIS_EMAIL =>
          do email <- _resolve_whois_email fqdn;
          let masked := mask_email email in
          mail_registrant listing_id fqdn email ;;;
          _persist_listing (l <| l_whois_email := Some masked |>) ;;;
          ret (InitAnswer ("Verification email sent to " +:+ masked +:+ ". Open the link in that inbox to complete verification.") None None None None)
      end
  end.

(** [token and secrets.compare_digest(token, expected)] *)
Definition presents (token : option string) (expected : string) : bool := truthy token && bool_decide (token = Some expected).

Definition page_shows (fqdn value : string) : bool :=
  let holds m := match (fetch m).1 with Ok b => b | Raise _ => false end in
  holds (domain_has_meta_verification fqdn value) || holds (domain_has_verification_file fqdn value _FILE_PATH).

Definition not_verified (message : string) : Prog (bool * string) := ret (false, message).

(** The check of a listing that is not verified. *)
Definition check_method (l : DomainListing) (token : option string) : Prog (bool * string) :=
  let expected := default EmptyString (l_verification_token l) in
  let value := (_VERIFICATION_PREFIX +:+ expected)%string in
  match l_verification_method l with
  | Some VerificationMethod.DNS =>
      if is_empty expected then not_verified "Start DNS verification first."
      else if domain_has_verification_txt (fqdn_of l) value then _mark_verified l
      else if presents token expected then _mark_verified l
      else not_verified "DNS TXT record not found yet. Add the TXT record and try again."
  | Some VerificationMethod.META_TAG =>
      if is_empty expected then not_verified "Start META_TAG verification first."
      else if page_shows (fqdn_of l) value then _mark_verified l
      else if presents token expected then _mark_verified l
      else not_verified "Meta tag/file not found yet. Publish the meta tag or verification file and try again."
  | Some VerificationMethod.WHOIS_EMAIL =>
      if negb (is_empty expected) && presents token expected then _mark_verified l
      else not_verified "Invalid or missing verification token."
  | None => not_verified "Verification failed."
  end.

Definition check_verification (listing_id : string) (token : option string) (r : requester) : Prog (bool * string) :=
  do l <- _get_owned_listing listing_id r;
  if l_verified l then ret (true, "Domain is already verified."%string)
  else check_method l token.

Definition confirm_with_token (listing_id token : string) : Prog (bool * string) :=
  do l <- _get_owned_listing listing_id (Requester None false);
  guard_exn (bool_decide (l_verification_method l = Some VerificationMethod.WHOIS_EMAIL))
    (AppException "Email confirmation is only for WHOIS_EMAIL verification." 400) ;;;
  let expected := default EmptyString (l_verification_token l) in
  guard_exn (negb (is_empty expected) && bool_decide (strip token = expected)) (AppException "Invalid or expired verification link." 400) ;;;
  _mark_verified l.

(** ** admin_service.py *)

Definition listing_missing : bool * string := (false, "Domain listing not found"%string).

(** The owner is told; a failure of that is passed over. *)
Definition admin_mark_domain_verified (listing_id : string) : Prog (bool * string) :=
  do found <- get_listing listing_id;
  match found with
  | None => ret listing_missing
  | Some l =>
      do now <- utc_now;
      let l := verified_at now l in
      let l := if bool_decide (l_sale_type l = SaleType.AUCTION) then l else l <| l_verification_status := DomainListingVerificationStatus.VERIFIED |> in
      save_listing l ;;;
      commit ;;;
      _notify_seller l "Domain verified" ("/domains?id=" +:+ l_id l) ;;;
      ret (true, "Domain marked as verified."%string)
  end.

Definition admin_mark_domain_unverified (listing_id : string) : Prog (bool * string) :=
  do found <- get_listing listing_id;
  match found with
  | None => ret listing_missing
  | Some l =>
      let l := l <| l_verified := false |> <| l_verified_at := None |> in
      let l := if bool_decide (l_sale_type l = SaleType.AUCTION) then l else l <| l_verification_status := DomainListingVerificationStatus.PENDING |> in
      save_listing l ;;;
      commit ;;;
      ret (true, "Domain marked as unverified."%string)
  end.
End Service.

(** ** What counts as evidence *)

Section Facts.
Context {cfg : Config} {ocfg : OwnershipConfig} {world : World}.

(** The method that was started has found its record or page, or its token is presented. *)
Definition evidence (l : DomainListing) (token : option string) : Prop :=
  exists t, l_verification_token l = Some t /\ t <> EmptyString /\
  match l_verification_method l with
  | Some VerificationMethod.DNS => domain_has_verification_txt (fqdn_of l) (_VERIFICATION_PREFIX +:+ t) = true \/ token = Some t
  | Some VerificationMethod.META_TAG => page_shows (fqdn_of l) (_VERIFICATION_PREFIX +:+ t) = true \/ token = Some t
  | Some VerificationMethod.WHOIS_EMAIL => token = Some t
  | None => False
  end.

Definition may_ask (r : requester) (l : DomainListing) : Prop := rq_admin r = true \/ match rq_actor r with Some u => owns l u = true | None => True end.

Lemma owned_cases id r s :
  (exists l, _get_owned_listing id r s = (Ok l, s) /\ alive_listing id (s_db s) = Some l /\ may_ask r l) \/ exists e, _get_owned_listing id r s = (Raise e, s).
Proof.
  unfold _get_owned_listing, get_listing, bind, gets, may_ask. destruct (alive_listing id (s_db s)) as [l|]; [|right; by eexists].
  destruct (rq_admin r || match rq_actor r with Some u => owns l u | None => true end) eqn:E; [left|right; by eexists].
  exists l. split; [done|]. split; [done|]. apply orb_true_iff in E as [E|E]; [by left|right]. by destruct (rq_actor r).
Qed.

(** Marking, where the database knows the method. *)
Lemma mark_cases l s : (_mark_verified l s = (Ok (true, "Domain ownership verified."%string),
    Prelude.Session (put_listing (verified_at (s_clock s 0%nat) l) (s_db s)) (put_listing (verified_at (s_clock s 0%nat) l) (s_db s)) (s_out s) (fun n => s_clock s (S n)) (s_ids s))) \/
  exists s', _mark_verified l s = (Raise MissingGreenlet, s') /\ s_committed s' = s_committed s.
Proof.
  unfold _mark_verified, _persist_listing, bind, utc_now. destruct (_ || _); [by left|right]. by eexists.
Qed.

Lemma presents_true token t : presents token t = true -> token = Some t.
Proof. unfold presents. by intros [_ H%bool_decide_eq_true]%andb_true_iff. Qed.

(** A listing is marked on evidence, or nothing is done. *)
Lemma method_cases l token : (exists m, check_method l token = not_verified m) \/ (evidence l token /\ check_method l token = _mark_verified l).
Proof.
  unfold check_method, evidence. destruct (l_verification_token l) as [t|]; cbn [from_option]; unfold Datatypes.id; cycle 1.
  { left. destruct (l_verification_method l) as [[]|]; eexists; reflexivity. }
  assert (Hne : is_empty t = false -> t <> EmptyString) by by intros H ->.
  destruct (l_verification_method l) as [[]|]; [| | |left; eexists; reflexivity].
  - destruct (is_empty t); [left; eexists; reflexivity|]. specialize (Hne eq_refl). destruct (domain_has_verification_txt _ _) eqn:Hp; [right; eauto 8|].
    destruct (presents token t) eqn:E; [apply presents_true in E; right; eauto 8|left; eexists; reflexivity].
  - destruct (is_empty t); [left; eexists; reflexivity|]. specialize (Hne eq_refl). destruct (page_shows _ _) eqn:Hp; [right; eauto 8|].
    destruct (presents token t) eqn:E; [apply presents_true in E; right; eauto 8|left; eexists; reflexivity].
  - destruct (is_empty t); [left; eexists; reflexivity|]. specialize (Hne eq_refl). cbn [negb andb].
    destruct (presents token t) eqn:E; [apply presents_true in E; right; eauto 8|left; eexists; reflexivity].
Qed.

(** A check verifies on evidence only.  It changes nothing, and reports a success
    only if the listing was verified before; or it marks the one listing, alive and not
    verified before, which the requester owns (or an administrator asks for), as verified
    now and its token as used, and there is evidence: the record or page of the method
    started for it shows its token, or the token was presented. *)
Theorem verified_on_evidence clock ids id token r d :
  let res := run_request clock ids (check_verification id token r) d in
  (res.2 = d /\ forall m, res.1 = Ok (true, m) -> exists l, alive_listing id d = Some l /\ l_verified l = true) \/
  (exists l, alive_listing id d = Some l /\ may_ask r l /\ l_verified l = false /\ evidence l token /\
     res.2 = put_listing (verified_at (clock 0%nat) l) d).
Proof.
  intros res. set (s := open_session clock ids d : session DB effect).
  assert (Hres : res = let '(x, s') := check_verification id token r s in (x, s_committed s')) by reflexivity. clearbody res.
  unfold check_verification, bind at 1 in Hres. destruct (owned_cases id r s) as [(l & Ho & Hl & Hm)|[e Ho]]; rewrite Ho in Hres;
    [|subst; left; split; [done|discriminate]]. cbn in Hl.
  destruct (l_verified l) eqn:Hv; [subst; left; split; [done|]; intros m _; by exists l|].
  destruct (method_cases l token) as [[m Hc]|[He Hc]]; rewrite Hc in Hres; [subst; left; split; [done|discriminate]|].
  destruct (mark_cases l s) as [Hk|(s' & Hk & Hs)]; rewrite Hk in Hres; subst; [right; by exists l|left; split; [exact Hs|discriminate]].
Qed.

(** The mailed token stays with the mailbox.  Starting a verification by mail succeeds
    only with one mail, to the override of the settings or to the registrant or
    administrative contact that RDAP names for the domain; the answer is made of that
    address, masked, and shows nothing of the token. *)
Theorem whois_token_mailed_only id method r s a s' :
  method_of_text method = Some VerificationMethod.WHOIS_EMAIL -> init_verification id method r s = (Ok a, s') ->
  exists l email, alive_listing id (s_db s) = Some l /\ may_ask r l /\
    (if is_empty (strip DOMAIN_VERIFICATION_WHOIS_EMAIL_OVERRIDE) then lookup_registrant_email (fqdn_of l) = Ok (Some email)
     else email = lower (strip DOMAIN_VERIFICATION_WHOIS_EMAIL_OVERRIDE)) /\
    s_out s' = Mail email ("Verify ownership of " +:+ fqdn_of l) :: s_out s /\
    a = InitAnswer ("Verification email sent to " +:+ mask_email email +:+ ". Open the link in that inbox to complete verification.") None None None None /\
    s_committed s' = put_listing (started VerificationMethod.WHOIS_EMAIL (s_ids s 0%nat) l <| l_whois_email := Some (mask_email email) |>) (s_db s).
Proof.
  intros Hm. unfold init_verification, bind at 1. destruct (owned_cases id r s) as [(l & -> & Hl & Hr)|[e ->]]; [|done]. rewrite Hm.
  rewrite bool_decide_eq_true_2 by done. unfold bind at 1, guard_exn at 1. destruct (negb (true && negb MAIL_CONFIGURED)); [|done]. cbn [ret].
  unfold bind at 1, guard_exn at 1. destruct (negb (true && negb _)); [|done]. cbn [ret]. unfold bind at 1, uuid4. cbn beta iota zeta.
  set (s1 := Prelude.Session _ _ _ _ _). unfold bind at 1, _resolve_whois_email.
  assert (Hmail : forall email, (if is_empty (strip DOMAIN_VERIFICATION_WHOIS_EMAIL_OVERRIDE) then lookup_registrant_email (fqdn_of l) = Ok (Some email)
     else email = lower (strip DOMAIN_VERIFICATION_WHOIS_EMAIL_OVERRIDE)) ->
    (mail_registrant id (fqdn_of l) email ;;;
      _persist_listing (started VerificationMethod.WHOIS_EMAIL (s_ids s 0%nat) l <| l_whois_email := Some (mask_email email) |>) ;;;
      ret (InitAnswer ("Verification email sent to " +:+ mask_email email +:+ ". Open the link in that inbox to complete verification.") None None None None)) s1 = (Ok a, s') ->
    exists l0 email0, alive_listing id (s_db s) = Some l0 /\ may_ask r l0 /\
    (if is_empty (strip DOMAIN_VERIFICATION_WHOIS_EMAIL_OVERRIDE) then lookup_registrant_email (fqdn_of l0) = Ok (Some email0)
     else email0 = lower (strip DOMAIN_VERIFICATION_WHOIS_EMAIL_OVERRIDE)) /\
    s_out s' = Mail email0 ("Verify ownership of " +:+ fqdn_of l0) :: s_out s /\
    a = InitAnswer ("Verification email sent to " +:+ mask_email email0 +:+ ". Open the link in that inbox to complete verification.") None None None None /\
    s_committed s' = put_listing (started VerificationMethod.WHOIS_EMAIL (s_ids s 0%nat) l0 <| l_whois_email := Some (mask_email email0) |>) (s_db s)).
  { intros email He. unfold mail_registrant, bind, _persist_listing. destruct (mail_delivered email); [|done].
    cbn [l_verification_method started]. rewrite bool_decide_eq_false_2 by done. rewrite orb_true_r. cbn.
    intros [= <- <-]. exists l, email. split_and!; done. }
  destruct (is_empty (strip DOMAIN_VERIFICATION_WHOIS_EMAIL_OVERRIDE)) eqn:E; cbn [negb].
  - unfold bind at 1, lift_res. destruct (lookup_registrant_email _) as [[email|]|] eqn:El; [|done|done].
    destruct (truthy (Some email)); [|done]. cbn [ret default]. by apply Hmail.
  - cbn [ret]. by apply Hmail.
Qed.
End Facts.

(** ** Where the service departs from what it means *)

(** The token of a verification by record or page is in the answer that starts it, and
    presenting it counts as much as the record: whatever the DNS and the web say, a
    seller verifies any domain listed, and it then counts as verified in auctions. *)
Theorem owner_verifies_alone {cfg : Config} {ocfg : OwnershipConfig} (w w' : World) clock clock' ids ids' id method m u d l :
  alive_listing id d = Some l -> l_id l = id -> owns l u = true -> l_verified l = false ->
  method_of_text method = Some m -> m <> VerificationMethod.WHOIS_EMAIL -> ids 0%nat <> EmptyString ->
  @enum_has_meta_tag w = true -> @enum_has_meta_tag w' = true ->
  exists a d1 message, run_request clock ids (init_verification (world := w) id method (by_user u)) d = (Ok a, d1) /\
    let res := run_request clock' ids' (check_verification (world := w') id (in_token a) (by_user u)) d1 in
    res.1 = Ok (true, message) /\ domain_cleared res.2 id = true.
Proof.
  intros Hl Hid Hown Hv Hm Hw Htok He He'. set (t := ids 0%nat) in *.
  assert (Halive : l_is_deleted l = false).
  { unfold alive_listing in Hl. destruct (listings d !! id) as [x|]; [|done]. destruct (l_is_deleted x) eqn:E; [done|]. by injection Hl as <-. }
  assert (Hat : forall x d0, l_id x = id -> l_is_deleted x = false -> alive_listing id (put_listing x d0) = Some x).
  { intros x d0 Hx Hx'. unfold alive_listing, put_listing. cbn. rewrite Hx, lookup_insert_eq, Hx'. done. }
  set (l1 := started m t l). set (d1 := put_listing l1 d). assert (Hd1 : alive_listing id d1 = Some l1) by by apply Hat.
  assert (Hinit : exists a, run_request clock ids (init_verification (world := w) id method (by_user u)) d = (Ok a, d1) /\ in_token a = Some t).
  { unfold run_request, init_verification, _get_owned_listing, get_listing, bind, gets, guard_exn. cbn [s_db open_session]. rewrite Hl.
    cbn [rq_admin by_user orb rq_actor]. rewrite Hown. cbn [ret]. rewrite Hm. rewrite (bool_decide_eq_false_2 (m = VerificationMethod.WHOIS_EMAIL)) by done. cbn [andb negb ret uuid4]. cbn.
    unfold _persist_listing. rewrite He. destruct m; [| |done]; by eexists. }
  destruct Hinit as (a & Hinit & Ha). exists a, d1, "Domain ownership verified."%string. split; [done|]. rewrite Ha.
  assert (Hchk : check_method (world := w') l1 (Some t) = _mark_verified (world := w') l1).
  { unfold check_method. change (l_verification_token l1) with (Some t). change (l_verification_method l1) with (Some m). cbn [from_option]. unfold Datatypes.id, is_empty. rewrite (bool_decide_eq_false_2 (t = EmptyString)) by done.
    assert (Hp : presents (Some t) t = true) by (unfold presents, truthy; by rewrite (bool_decide_eq_false_2 (t = EmptyString)), bool_decide_eq_true_2).
    rewrite Hp. destruct m; [| |done]; by case_match. }
  unfold run_request, check_verification, _get_owned_listing, get_listing, bind, gets, guard_exn. cbn [s_db open_session]. rewrite Hd1. cbn [rq_admin by_user orb rq_actor].
  change (owns l1 u) with (owns l u). rewrite Hown. cbn [ret]. change (l_verified l1) with (l_verified l). rewrite Hv, Hchk.
  unfold _mark_verified, _persist_listing, bind, utc_now. rewrite He'. cbn. split; [done|].
  unfold domain_cleared. rewrite Hat by done. apply orb_true_r.
Qed.

Import Samples Sale.

Definition unverified : DB := won_db ((listing None) <| l_verified := false |>).
Definition seller : AppUser := sample_user "seller" 0.

#[local] Instance no_override : OwnershipConfig := {| DOMAIN_VERIFICATION_WHOIS_EMAIL_OVERRIDE := ""; DOMAIN_VERIFICATION_DISABLE_WHOIS_EMAIL := false |}.

(** Nobody answers, but RDAP. *)
Definition silence (enum : bool) : World := {|
  world_net := steady (fun _ => None) hello; txt_records := fun _ => None; mail_delivered := fun _ => true; enum_has_meta_tag := enum;
  rdap_answer := fun _ => Some (JObj [("entities", JArr [JObj [("roles", JArr [JStr "registrant"]);
    ("vcardArray", JArr [JStr "vcard"; JArr [JArr [JStr "email"; JObj []; JStr "text"; JStr "owner@acme.com"]]])]])]%string) |}.

Example owner_verifies_alone_run : exists a d1 message,
  run_request sample_clock sample_ids (init_verification (world := silence true) "l1" "dns" (by_user seller)) unverified = (Ok a, d1) /\
  let res := run_request sample_clock sample_ids (check_verification (world := silence true) "l1" (in_token a) (by_user seller)) d1 in
  res.1 = Ok (true, message) /\ domain_cleared res.2 "l1" = true.
Proof.
  refine (owner_verifies_alone (silence true) (silence true) sample_clock sample_clock sample_ids sample_ids "l1" "dns" VerificationMethod.DNS seller unverified _ _ _ _ _ _ _ _ _ _);
    try (vm_compute; reflexivity); discriminate.
Qed.

Example whois_token_mailed_only_witness :
  let s := open_session sample_clock sample_ids unverified : session DB effect in
  let r := init_verification (world := silence true) "l1" "whois_email" (by_user seller) s in
  s_out r.2 = [Mail "owner@acme.com" "Verify ownership of acmecom"] /\ exists a, r.1 = Ok a /\ in_token a = None.
Proof.
  intros s r. eassert (Hr : r = (Ok _, _)) by (vm_compute; reflexivity).
  destruct (whois_token_mailed_only (world := silence true) "l1" "whois_email" (by_user seller) s _ _ eq_refl Hr) as (l & email & Hl & _ & He & Ho & Ha & _).
  vm_compute in Hl. injection Hl as <-. vm_compute in He. injection He as <-. split; [rewrite Hr; exact Ho|]. eexists. rewrite Hr. split; [reflexivity|].
  rewrite Ha. reflexivity.
Defined.

(** Where the enum of the database lacks the method, the message that says so is never
    sent: writing the log reads the listing that the rollback has expired. *)
Lemma missing_enum_unexplained :
  run_request sample_clock sample_ids (init_verification (world := silence false) "l1" "META_TAG" (by_user seller)) unverified = (Raise MissingGreenlet, unverified).
Proof. vm_compute. reflexivity. Qed.
