(* ===== verification/AuctionProtocol.v ===== *)
(** * The auction as a state machine

    An abstract machine for one auction - its status and whether a payment for
    it succeeded - and the proof that the operations of Auctions.v, Bidding.v,
    Winner.v, Lifecycle.v and AuctionPayment.v move every auction along its edges
    only.  With it goes the rule that a domain has one open auction at most. *)

From stdpp Require Import relations.
From S2P Require Import Prelude PyNum Text Sha256 BidLimits Store Gateway Settings EdgePoints AuctionFees AuctionRepo Pricing Restore Lifecycle Bidding Winner MarketTx AuctionPayment Auctions Secrets.

(** ** The abstract machine *)

Record stage := Stage { sg_status : AuctionStatus.t; sg_paid : bool }.

Inductive status_edge : AuctionStatus.t -> AuctionStatus.t -> Prop :=
| e_publish st : st ∈ [AuctionStatus.DRAFT; AuctionStatus.CANCELLED] -> status_edge st AuctionStatus.ACTIVE
| e_bid st : st ∈ LIVE_STATUSES -> status_edge st AuctionStatus.EXTENDED
| e_unsold st : st ∉ NON_RESOLVABLE -> status_edge st AuctionStatus.UNSOLD
| e_won st : st ∉ NON_RESOLVABLE -> status_edge st AuctionStatus.PAYMENT_PENDING
| e_forfeit st : st ∈ [AuctionStatus.PAYMENT_PENDING; AuctionStatus.ENDED] -> status_edge st AuctionStatus.UNSOLD
| e_cancel st : st ∉ CLOSED_FOR_GOOD -> status_edge st AuctionStatus.CANCELLED.

Inductive edge : stage -> stage -> Prop :=
| Move st st' b : status_edge st st' -> edge (Stage st b) (Stage st' b)
| Pay b : edge (Stage AuctionStatus.PAYMENT_PENDING b) (Stage AuctionStatus.COMPLETED true)
| Late b : edge (Stage AuctionStatus.COMPLETED b) (Stage AuctionStatus.COMPLETED true)
| Replay st : edge (Stage st true) (Stage AuctionStatus.COMPLETED true).

(** An auction starts as an unpaid draft. *)
Definition start : stage := Stage AuctionStatus.DRAFT false.

(** It is completed exactly when it is paid. *)
Definition sound (s : stage) : Prop := sg_status s = AuctionStatus.COMPLETED <-> sg_paid s = true.

Lemma edge_sound s s' : edge s s' -> sound s -> sound s'.
Proof.
  unfold sound. intros He [H1 H2]. destruct He as [st st' b He| | |]; cbn in *; [|done..].
  destruct b; [|split; [|done]].
  - specialize (H2 eq_refl). subst st. exfalso.
    inversion He as [? H|? H|? H|? H|? H|? H]; subst; unfold LIVE_STATUSES, NON_RESOLVABLE, CLOSED_FOR_GOOD in H; set_solver.
  - intros ->. by inversion He.
Qed.

Lemma edges_sound s s' : rtc edge s s' -> sound s -> sound s'.
Proof. induction 1 as [|s s1 s' H _ IH]; [done|]. intros Hs. by apply IH, (edge_sound s). Qed.

(** A completed auction stays completed. *)
Lemma edges_completed s s' :
  rtc edge s s' -> sound s -> sg_status s = AuctionStatus.COMPLETED -> sg_status s' = AuctionStatus.COMPLETED.
Proof.
  intros H Hs Hst. assert (sg_paid s = true) as Hp by by apply Hs.
  assert (sg_paid s' = true) as Hp'; [|by apply (edges_sound s s' H Hs)].
  clear Hs Hst. induction H as [|s s1 s' He _ IH]; [done|]. apply IH. by destruct He.
Qed.

(** ** The auctions and payments of a database *)

Abbreviation tables_t := (gmap string Auction * gmap string Payment)%type.

Definition tables (d : DB) : tables_t := (auctions d, payments d).

Definition paid (u : gmap string Payment) (k : string) : bool := existsb (is_paid_for k) (values u).

Definition blocking (a : Auction) : bool := is_status _BLOCKING_STATUSES a.

(** Two auctions of one domain, neither deleted. *)
Definition rivals (a b : Auction) : Prop :=
  a_domain_id a = a_domain_id b /\ _alive_auction a = true /\ _alive_auction b = true.

(** Rows are stored under their id, a payment belongs to an auction, and an open
    auction is newer than the other auctions of its domain. *)
Record books_ok (v : tables_t) : Prop := {
  bk_key : forall k a, v.1 !! k = Some a -> a_id a = k;
  bk_pay : forall i p, v.2 !! i = Some p -> p_id p = i /\ is_Some (v.1 !! p_auction_id p);
  bk_rivals : forall k j a b, v.1 !! k = Some a -> v.1 !! j = Some b -> k <> j -> rivals a b ->
    a_created_at a <> a_created_at b /\ (blocking a = true -> a_created_at b < a_created_at a);
}.

(** What no operation changes. *)
Record same_lot (a b : Auction) : Prop := {
  sl_id : a_id b = a_id a;
  sl_domain : a_domain_id b = a_domain_id a;
  sl_created : a_created_at b = a_created_at a;
  sl_creator : a_created_by b = a_created_by a;
  sl_deleted : a_is_deleted b = a_is_deleted a;
  sl_reserve : a_min_bid_price b = a_min_bid_price a;
}.

#[export] Instance same_lot_preorder : PreOrder same_lot.
Proof.
  split; [by constructor|]. intros a b c [] []. constructor; congruence.
Qed.

Definition stage_of (u : gmap string Payment) (k : string) (a : Auction) : stage := Stage (a_status a) (paid u k).

(** Every auction of [v0] is in [v], further along the edges; an auction that is
    only in [v] came there from the start. *)
Record advanced (v0 v : tables_t) : Prop := {
  adv_ok : books_ok v;
  adv_stage : forall k, match v0.1 !! k with
    | Some a => exists b, v.1 !! k = Some b /\ same_lot a b /\ rtc edge (stage_of v0.2 k a) (stage_of v.2 k b)
    | None => forall b, v.1 !! k = Some b -> rtc edge start (stage_of v.2 k b)
    end;
}.

Lemma ahead_refl v : books_ok v -> advanced v v.
Proof.
  intros Hv. split; [done|]. intros k. destruct (v.1 !! k) as [a|] eqn:Ha; [by exists a|].
  by intros b.
Qed.

Lemma ahead_trans v0 v1 v2 : advanced v0 v1 -> advanced v1 v2 -> advanced v0 v2.
Proof.
  intros [_ H1] [Hok H2]. split; [done|]. intros k. specialize (H1 k). specialize (H2 k).
  destruct (v0.1 !! k) as [a|].
  - destruct H1 as (b & Hb & Hab & He). rewrite Hb in H2. destruct H2 as (c & Hc & Hbc & He').
    exists c. split; [done|]. split; by etrans.
  - intros c Hc. destruct (v1.1 !! k) as [b|]; [|by apply H2].
    destruct H2 as (c' & Hc' & _ & He'). rewrite Hc in Hc'. injection Hc' as <-.
    etrans; [by apply H1|exact He'].
Qed.

(** *** Paid or not *)

Lemma paid_true u k : paid u k = true <-> exists i p, u !! i = Some p /\ is_paid_for k p = true.
Proof.
  unfold paid. rewrite existsb_exists. split.
  - intros (p & Hin & Hp). apply list_elem_of_In, elem_of_values in Hin as [i Hi]. by exists i, p.
  - intros (i & p & Hi & Hp). exists p. split; [|done]. apply list_elem_of_In, elem_of_values. by exists i.
Qed.

(** A write that makes no auction paid or unpaid. *)
Lemma paid_neutral u i p :
  (forall k, is_paid_for k p = match u !! i with Some q => is_paid_for k q | None => false end) ->
  forall k, paid (<[i := p]> u) k = paid u k.
Proof.
  intros Hp k. apply eq_bool_prop_intro. rewrite !Is_true_true, !paid_true. specialize (Hp k). split.
  - intros (j & q & [[<- <-]|[_ Hj]]%lookup_insert_Some & Hq); [|by exists j, q].
    rewrite Hq in Hp. destruct (u !! i) as [q'|] eqn:Hu; [|done]. by exists i, q'.
  - intros (j & q & Hj & Hq). destruct (decide (i = j)) as [<-|Hne].
    + rewrite Hj in Hp. exists i, p. rewrite lookup_insert_eq. split; [done|congruence].
    + exists j, q. by rewrite lookup_insert_ne.
Qed.

(** A successful payment for auction [k] is stored. *)
Lemma paid_settle u i p k :
  is_paid_for k p = true ->
  (forall q, u !! i = Some q -> p_auction_id q = k) ->
  forall j, paid (<[i := p]> u) j = if bool_decide (j = k) then true else paid u j.
Proof.
  intros Hp Hq j. assert (p_auction_id p = k) as Hk.
  { unfold is_paid_for in Hp. by apply andb_true_iff in Hp as [?%bool_decide_eq_true_1 _]. }
  case_bool_decide as Hj; [subst j; apply paid_true; exists i, p; by rewrite lookup_insert_eq|].
  assert (forall q, p_auction_id q = k -> is_paid_for j q = false) as Hother.
  { intros q H. unfold is_paid_for. rewrite bool_decide_eq_false_2; [done|congruence]. }
  apply eq_bool_prop_intro. rewrite !Is_true_true, !paid_true. split.
  - intros (x & q & [[<- <-]|[_ Hx]]%lookup_insert_Some & H); [by rewrite Hother in H|by exists x, q].
  - intros (x & q & Hx & H). exists x, q. rewrite lookup_insert_ne; [done|]. intros <-.
    by rewrite (Hother q) in H by auto.
Qed.

(** *** Moves *)

Definition opens_newest (t : gmap string Auction) (k : string) (a a' : Auction) : Prop :=
  blocking a' = true -> blocking a = true \/
    forall j b, t !! j = Some b -> k <> j -> rivals a b -> a_created_at b < a_created_at a.

Lemma books_auction t u k a a' :
  books_ok (t, u) -> t !! k = Some a -> same_lot a a' -> opens_newest t k a a' -> books_ok (<[k := a']> t, u).
Proof.
  intros [Hkey Hpay Hriv] Ha [Hid Hdom Hcr _ Hdel _] Hopen. cbn in *.
  assert (forall b, (rivals a' b -> rivals a b) /\ (rivals b a' -> rivals b a)) as Hr.
  { intros b. unfold rivals, _alive_auction. rewrite Hdom, Hdel. done. }
  split; cbn.
  - intros j b [[<- <-]|[_ Hj]]%lookup_insert_Some; [|by apply Hkey]. rewrite Hid. by apply Hkey.
  - intros i p Hp. destruct (Hpay i p Hp) as [H1 H2]. split; [done|].
    destruct (decide (k = p_auction_id p)) as [->|Hne]; [by rewrite lookup_insert_eq|by rewrite lookup_insert_ne].
  - intros i j x y Hi Hj Hne Hxy.
    apply lookup_insert_Some in Hi as [[<- <-]|[_ Hi]]; apply lookup_insert_Some in Hj as [[<- <-]|[_ Hj]]; try done.
    + apply Hr in Hxy. rewrite Hcr. destruct (Hriv _ _ _ _ Ha Hj Hne Hxy) as [H1 H2]. split; [done|].
      intros Hb. destruct (Hopen Hb) as [Ho|Ho]; [by apply H2|by apply (Ho j)].
    + apply Hr in Hxy. rewrite Hcr. by apply (Hriv i k).
    + by apply (Hriv i j).
Qed.

Lemma books_payment t u i p :
  books_ok (t, u) -> p_id p = i -> is_Some (t !! p_auction_id p) -> books_ok (t, <[i := p]> u).
Proof.
  intros [Hkey Hpay Hriv] Hid Hsome. split; cbn in *; [done| |done].
  intros j q [[<- <-]|[_ Hj]]%lookup_insert_Some; [done|by apply Hpay].
Qed.

(** Auction [k] is written and others are not; [u'] pays for no other auction. *)
Lemma advanced_write v0 t u u' k a a' :
  advanced v0 (t, u) -> t !! k = Some a -> same_lot a a' -> books_ok (<[k := a']> t, u') ->
  rtc edge (stage_of u k a) (stage_of u' k a') -> (forall j, j <> k -> paid u' j = paid u j) ->
  advanced v0 (<[k := a']> t, u').
Proof.
  intros [_ Hadv] Ha Hlot Hok He Hother. split; [done|]. intros j. specialize (Hadv j). cbn in *.
  destruct (decide (k = j)) as [<-|Hne].
  - rewrite lookup_insert_eq. rewrite Ha in Hadv. destruct (v0.1 !! k) as [z|].
    + destruct Hadv as (b & [= <-] & Hz & Hr). exists a'. split; [done|]. split; [|by etrans].
      etrans; [exact Hz|exact Hlot].
    + intros b [= <-]. etrans; [by apply Hadv|done].
  - rewrite lookup_insert_ne by done. unfold stage_of in *. by rewrite Hother by congruence.
Qed.

(** Auction [k] is written; it may be opened only when it is the newest. *)
Lemma advanced_auction v0 t u k a a' :
  advanced v0 (t, u) -> t !! k = Some a -> same_lot a a' -> rtc edge (stage_of u k a) (stage_of u k a') ->
  opens_newest t k a a' -> advanced v0 (<[k := a']> t, u).
Proof.
  intros Hadv Ha Hlot He Hopen. apply (advanced_write v0 t u u k a a'); try done.
  apply (books_auction t u k a a'); [apply Hadv|done..].
Qed.

(** The books of payments change, the auctions do not. *)
Lemma advanced_payments v0 t u i p :
  advanced v0 (t, u) -> p_id p = i -> is_Some (t !! p_auction_id p) ->
  (forall k a, t !! k = Some a -> rtc edge (stage_of u k a) (stage_of (<[i := p]> u) k a)) ->
  advanced v0 (t, <[i := p]> u).
Proof.
  intros [Hok Hadv] Hid Hsome He. split; [by apply books_payment|].
  intros j. specialize (Hadv j). cbn in *. destruct (v0.1 !! j) as [z|].
  - destruct Hadv as (b & Hb & Hlot & Hr). exists b. split; [done|]. split; [done|]. etrans; [exact Hr|by apply He].
  - intros b Hb. etrans; [by apply Hadv|by apply He].
Qed.

(** The winner pays: the payment and the auction are written together. *)
Lemma advanced_pay v0 t u k a a' i p :
  advanced v0 (t, u) -> t !! k = Some a -> same_lot a a' ->
  a_status a = AuctionStatus.PAYMENT_PENDING -> a_status a' = AuctionStatus.COMPLETED ->
  p_id p = i -> is_paid_for k p = true -> (forall q, u !! i = Some q -> p_auction_id q = k) ->
  advanced v0 (<[k := a']> t, <[i := p]> u).
Proof.
  intros Hadv Ha Hlot Hst Hst' Hid Hp Hold.
  pose proof (paid_settle u i p k Hp Hold) as Hpaid.
  assert (p_auction_id p = k) as Hk.
  { unfold is_paid_for in Hp. by apply andb_true_iff in Hp as [?%bool_decide_eq_true_1 _]. }
  assert (blocking a' = false) as Hnb.
  { unfold blocking, is_status. rewrite Hst'. by apply bool_decide_eq_false_2; unfold _BLOCKING_STATUSES; set_solver. }
  apply (advanced_write v0 t u (<[i:=p]> u) k a a'); try done.
  - apply books_payment; [|done|by rewrite Hk, lookup_insert_eq].
    apply (books_auction t u k a a'); [apply Hadv|done..|]. intros Hb. by rewrite Hnb in Hb.
  - unfold stage_of. rewrite Hpaid, bool_decide_eq_true_2, Hst, Hst' by done. apply rtc_once, Pay.
  - intros j Hj. by rewrite Hpaid, bool_decide_eq_false_2.
Qed.

(** A new draft, later than every auction there is, for a domain without an
    open auction. *)
Lemma advanced_new v0 t u k a :
  advanced v0 (t, u) -> t !! k = None -> a_id a = k -> a_status a = AuctionStatus.DRAFT ->
  (forall j b, t !! j = Some b -> a_created_at b < a_created_at a) ->
  (forall j b, t !! j = Some b -> rivals a b -> blocking b = false) ->
  advanced v0 (<[k := a]> t, u).
Proof.
  intros [[Hkey Hpay Hriv] Hadv] Hnew Hid Hst Hlate Hfree. cbn in *.
  assert (paid u k = false) as Hunpaid.
  { destruct (paid u k) eqn:Hp; [|done]. apply paid_true in Hp as (i & p & Hi & Hp).
    destruct (Hpay i p Hi) as [_ [b Hb]]. unfold is_paid_for in Hp.
    apply andb_true_iff in Hp as [Hk%bool_decide_eq_true_1 _]. by rewrite Hk, Hnew in Hb. }
  split.
  - split; cbn.
    + intros j b [[<- <-]|[_ Hj]]%lookup_insert_Some; [done|by apply Hkey].
    + intros i p Hi. destruct (Hpay i p Hi) as [H1 [b Hb]]. split; [done|].
      rewrite lookup_insert_ne by congruence. done.
    + intros i j x y Hi Hj Hne Hr.
      apply lookup_insert_Some in Hi as [[<- <-]|[_ Hi]]; apply lookup_insert_Some in Hj as [[<- <-]|[_ Hj]]; try done.
      * specialize (Hlate _ _ Hj). split; [lia|by intros].
      * specialize (Hlate _ _ Hi). split; [lia|]. intros Hb. rewrite (Hfree i x Hi) in Hb; [done|].
        destruct Hr as (H1 & H2 & H3). by repeat split.
      * by apply (Hriv i j).
  - intros j. specialize (Hadv j). cbn. destruct (decide (k = j)) as [<-|Hne].
    + rewrite lookup_insert_eq. destruct (v0.1 !! k) as [z|].
      * destruct Hadv as (b & Hb & _). by rewrite Hnew in Hb.
      * intros b [= <-]. unfold stage_of. by rewrite Hst, Hunpaid.
    + by rewrite lookup_insert_ne.
Qed.

(** ** Programs that keep the auctions on their way *)

(** Given [F] of the tables, [m] leaves every auction on its way. *)
Definition under {A} (F : tables_t -> Prop) (m : Prog A) : Prop := forall v0 s,
  good (fun d => advanced v0 (tables d)) s -> F (tables (s_db s)) -> good (fun d => advanced v0 (tables d)) (m s).2.

Abbreviation safe m := (under (fun _ => True) m).

(** The row of auction [k]. *)
Definition row (k : string) (a : Auction) (v : tables_t) : Prop := v.1 !! k = Some a.

Section Under.
Context {A B C : Type}.
Implicit Types F G : tables_t -> Prop.

Lemma still_good v0 (m : Prog A) s :
  still tables m -> good (fun d => advanced v0 (tables d)) s ->
  good (fun d => advanced v0 (tables d)) (m s).2 /\ tables (s_db (m s).2) = tables (s_db s).
Proof.
  intros Hm [Hc Hd]. destruct (Hm s) as [H1 H2]. split; [|done].
  split; [|by rewrite H1]. destruct H2 as [H2|H2]; by rewrite H2.
Qed.

Lemma under_still F (m : Prog A) : still tables m -> under F m.
Proof. intros Hm v0 s Hs _. by apply still_good. Qed.

Lemma under_bind F (m : Prog A) (f : A -> Prog B) :
  still tables m -> (forall x, under F (f x)) -> under F (bind m f).
Proof.
  intros Hm Hf v0 s Hs HF. destruct (still_good v0 m s Hm Hs) as [Hs1 Hv1]. unfold bind.
  destruct (m s) as [[x|e] s1]; [|done]. apply Hf; [done|]. cbn in Hv1. by rewrite Hv1.
Qed.

(** A read, remembered. *)
Lemma under_gets F (f : DB -> A) (k : A -> Prog B) :
  (forall x, under (fun v => F v /\ exists d, tables d = v /\ f d = x) (k x)) -> under F (bind (gets f) k).
Proof. intros Hk v0 s Hs HF. apply Hk; [done|]. split; [done|]. by exists (s_db s). Qed.

Lemma under_guard F b e (m : Prog A) : (b = true -> under F m) -> under F (guard_exn b e ;;; m).
Proof. destruct b; intros Hm v0 s Hs HF; [by apply Hm|done]. Qed.

Lemma under_assoc F (m : Prog A) (f : A -> Prog B) (g : B -> Prog C) :
  under F (bind m (fun a => bind (f a) g)) -> under F (bind (bind m f) g).
Proof. intros H v0 s Hs HF. specialize (H v0 s Hs HF). unfold bind in *. by destruct (m s) as [[a|e] s1]. Qed.

Lemma under_weaken F G (m : Prog A) : (forall v, F v -> G v) -> under G m -> under F m.
Proof. intros Hw Hm v0 s Hs HF. by apply Hm; [|apply Hw]. Qed.

(** A write of the tables, and what is known after it. *)
Lemma under_modify F G f (m : Prog A) :
  (forall v0 d, advanced v0 (tables d) -> F (tables d) -> advanced v0 (tables (f d)) /\ G (tables (f d))) ->
  under G m -> under F (modify f ;;; m).
Proof.
  intros Hf Hm v0 s [Hc Hd] HF. destruct (Hf v0 (s_db s) Hd HF) as [H1 H2]. by apply Hm.
Qed.

(** A part that moves, then the rest. *)
Lemma under_then F (m : Prog A) (f : A -> Prog B) : under F m -> (forall x, safe (f x)) -> under F (bind m f).
Proof.
  intros Hm Hf v0 s Hs HF. specialize (Hm v0 s Hs HF). unfold bind.
  destruct (m s) as [[x|e] s1]; [by apply Hf|done].
Qed.

Lemma safe_try (m : Prog A) (h : exn -> Prog A) : safe m -> (forall e, safe (h e)) -> safe (catch m h).
Proof.
  intros Hm Hh v0 s Hs _. specialize (Hm v0 s Hs I). unfold catch.
  destruct (m s) as [[x|e] s1]; [done|by apply Hh].
Qed.

Lemma safe_roll_back (m : Prog A) : safe m -> safe (rollback ;;; m).
Proof. intros Hm v0 s [Hc _] _. by apply Hm. Qed.
End Under.

Lemma safe_for_each {A} (l : list A) body : (forall x, safe (body x)) -> safe (for_each l body).
Proof.
  intros Hb. induction l as [|x l IH]; [apply under_still; still|].
  apply (under_then _ (body x) (fun _ => for_each l body)); [apply Hb|by intros _].
Qed.

Lemma safe_if b m : safe m -> safe (when b m).
Proof. destruct b; [done|]. intros _. apply under_still. still. Qed.

(** An auction loaded by its id. *)
Lemma under_load {A} F k (f : option Auction -> Prog A) :
  under F (f None) ->
  (forall a, a_id a = k -> _alive_auction a = true -> under (fun v => F v /\ row k a v) (f (Some a))) ->
  under F (bind (get_auction_by_id k) f).
Proof.
  intros Hnone Hsome v0 s Hs HF. unfold bind, get_auction_by_id, gets. cbn. unfold alive_auction.
  destruct (auctions (s_db s) !! k) as [a|] eqn:Ha; [|by apply Hnone].
  destruct (_alive_auction a) eqn:Hal; [|by apply Hnone].
  apply Hsome; [|done..]. by apply (bk_key _ (adv_ok _ _ (proj2 Hs))).
Qed.

(** Loaded again. *)
Lemma under_reload {A} F k a (f : option Auction -> Prog A) :
  (forall v, F v -> row k a v) -> _alive_auction a = true -> under F (f (Some a)) ->
  under F (bind (get_auction_by_id k) f).
Proof.
  intros HF Hal Hf v0 s Hs HFd. unfold bind, get_auction_by_id, gets. cbn. unfold alive_auction.
  pose proof (HF _ HFd) as Ha. unfold row, tables in Ha. cbn in Ha. rewrite Ha, Hal. by apply Hf.
Qed.

(** Follow an operation after its row is loaded: guards are remembered, the
    writes of the tables are left over. *)
Ltac follow :=
  repeat first
    [ progress intros
    | progress cbv zeta
    | solve [apply under_still; still]
    | apply under_guard; intros ?
    | apply under_bind; [solve [still]|intros ?]
    | lazymatch goal with |- under _ (bind (bind _ _) _) => apply under_assoc end ].

(** An auction is written and moves along an edge. *)
Lemma under_put {A} k a a' (m : Prog A) :
  a_id a = k -> same_lot a a' -> (a_status a = a_status a' \/ status_edge (a_status a) (a_status a')) ->
  (blocking a' = true -> blocking a = true) ->
  under (row k a') m -> under (row k a) (modify (put_auction a') ;;; m).
Proof.
  intros Hid Hlot He Hb Hm. eapply under_modify; [|exact Hm]. intros v0 d Hd Ha.
  assert (a_id a' = k) as Hid' by (rewrite <-Hid; apply Hlot). unfold row, tables, put_auction in *. cbn in *.
  rewrite Hid'. split; [|apply lookup_insert_eq].
  apply (advanced_auction v0 _ _ k a a'); try done; [|intros H; left; auto].
  unfold stage_of. destruct He as [->|He]; [done|]. apply rtc_once. by apply Move.
Qed.

Lemma same_lot_status a st w h :
  same_lot a (a <| a_status := st |> <| a_current_winner_id := w |> <| a_current_highest_bid := h |>).
Proof. by constructor. Qed.

Lemma statuses_apart (L L' : list AuctionStatus.t) st :
  forallb (fun x => negb (bool_decide (x ∈ L'))) L = true -> st ∈ L -> (st ∉ L' : Prop).
Proof.
  intros H Hst Hst'. rewrite forallb_forall in H. apply list_elem_of_In in Hst. specialize (H st Hst).
  by rewrite bool_decide_eq_true_2 in H.
Qed.

Lemma live_blocking a : a_status a ∈ LIVE_STATUSES -> blocking a = true.
Proof. intros H. apply bool_decide_eq_true_2. unfold _BLOCKING_STATUSES. by apply list_elem_of_further. Qed.

Lemma is_status_true ss a : is_status ss a = true -> a_status a ∈ ss.
Proof. apply bool_decide_eq_true_1. Qed.
Lemma is_status_false ss a : is_status ss a = false -> a_status a ∉ ss.
Proof. apply bool_decide_eq_false_1. Qed.

(** ** Closing an auction *)

Section Operations.
Context {cfg : Config} {cipher : Cipher}.

Lemma still_release did : still tables (release_listing_for_direct_sale did).
Proof. apply still_frame; [apply committed_release|by apply release_frame]. Qed.

Lemma still_notify_zero mail_ok a : still tables (_notify_zero_bid_seller mail_ok a).
Proof.
  unfold _notify_zero_bid_seller, find_listing, mark_zero_bid_notice_sent, get_track, get_setting, set_track,
    set_setting. still.
Qed.

Lemma still_window mail_ok a b : still tables (_start_winner_payment_window mail_ok a b).
Proof.
  unfold _start_winner_payment_window, find_listing, start_winner_window, send_win_email, mark_win_email_sent,
    get_track, get_setting, set_track, set_setting. still.
Qed.

Lemma still_notify_pending a b : still tables (_notify_payment_pending a b).
Proof.
  unfold _notify_payment_pending, find_listing, notify_winner_payment_due,
    notify_seller_auction_ended_with_winner. still.
Qed.

#[local] Hint Resolve still_release still_notify_zero still_window still_notify_pending : still.

Lemma under_resolved mail_ok k a :
  a_id a = k -> a_status a ∉ NON_RESOLVABLE ->
  under (row k a) (do b <- get_highest_bid k;
                   match b with None => _mark_unsold mail_ok a | Some b => _mark_payment_pending mail_ok a b end).
Proof.
  intros Hid Hst. unfold get_highest_bid. apply under_bind; [still|]. intros [b|].
  - unfold _mark_payment_pending, mark_winning_bid, clear_winning_flag, publish. apply under_assoc.
    apply under_bind; [still|]. intros _. apply under_bind; [still|]. intros _.
    apply under_put; [done|by constructor|right; by apply e_won|by intros|]. follow.
  - unfold _mark_unsold, publish. apply under_put; [done|by constructor|right; by apply e_unsold|by intros|].
    follow.
Qed.

Lemma safe_resolve_auction mail_ok k : safe (resolve_auction mail_ok k).
Proof.
  unfold resolve_auction. apply under_load; [follow|]. intros a Hid _.
  destruct (is_status NON_RESOLVABLE a) eqn:Hst; [follow|]. apply is_status_false in Hst. rewrite Hid.
  eapply under_weaken; [|by apply under_resolved]. by intros v [_ H].
Qed.

(** ** Placing a bid *)

Lemma with_bid_lot a now u c : same_lot a (with_bid a now u c).
Proof. destruct (with_bid_fields a now u c) as (? & _ & _ & _ & ? & ? & ? & ? & _). constructor; try done.
  unfold with_bid. by destruct (apply_anti_snipe _ _ _ _) as [[? ?] ?]. Qed.

Lemma still_consume_bid r : still tables (consume_bid_fee r).
Proof. unfold consume_bid_fee, fee_save. still. Qed.

Lemma under_record_bid k a fee payload bidder :
  a_id a = k -> a_status a ∈ LIVE_STATUSES -> under (row k a) (record_bid a fee payload bidder).
Proof.
  intros Hid Hlive. unfold record_bid, clear_winning_flag, create_bid. follow.
  eapply (under_modify _ (fun _ => True)); [|apply under_bind; [apply still_consume_bid|intros _; follow]].
  intros v0 d Hd Ha. split; [|done]. unfold row, tables in *. cbn in *. rewrite Hid.
  match goal with |- context [with_bid a ?now ?w ?c] => rewrite (alter_write_back a now w c) by done;
    pose proof (with_bid_lot a now w c) as Hlot; destruct (with_bid_fields a now w c) as (_ & _ & _ & _ & _ & _ & _ & _ & Hst);
    set (new := with_bid a now w c) in * end.
  pose proof (live_blocking a Hlive) as Hb.
  apply (advanced_auction v0 _ _ k a); [done|done|done| |by left].
  unfold stage_of. destruct Hst as [->|Hst]; [done|]. rewrite Hst. apply rtc_once, Move. by apply e_bid.
Qed.

Lemma still_confirm oid : still tables (confirm_redemption oid).
Proof. unfold confirm_redemption, add_history. still. Qed.

Lemma still_cancel oid : still tables (cancel_redemption oid).
Proof. unfold cancel_redemption. still. Qed.

#[local] Hint Resolve still_confirm still_cancel : still.

Lemma still_check aid payload bidder : still tables (check_and_verify aid payload bidder).
Proof.
  unfold check_and_verify, get_auction_by_id, _validate_auction_state, ensure_domain_verified_for_auction,
    get_listing, get_domain_alive, assert_user_can_bid_async, is_user_bidding_blocked, get_setting,
    _validate_bid_amount, verify_bid_fee_payment, get_by_order_id, fee_save. still.
Qed.

Lemma safe_place_bid payload bidder : safe (place_bid payload bidder).
Proof.
  unfold place_bid. destruct (pb_auction_id payload) as [aid|]; [|follow]. follow.
  apply under_then; [|intros [bid ev]; unfold _publish_event; follow].
  unfold bid_errors. apply safe_try.
  - intros v0 s Hs _. unfold _place_bid_locked, bind.
    destruct (still_good v0 _ s (still_check aid payload bidder) Hs) as [Hs1 Hv].
    destruct (check_and_verify aid payload bidder s) as [[[a fee]|e] s1] eqn:Hck; [|done].
    destruct (check_ok _ _ _ _ _ _ _ Hck) as [Hauc Hlive]. apply alive_auction_Some in Hauc as [Ha _].
    assert (a_id a = aid) as Hid by exact (bk_key _ (adv_ok _ _ (proj2 Hs)) _ _ Ha).
    apply (under_record_bid aid); [done|by apply is_status_true|done|].
    cbn in Hv. unfold row. by rewrite Hv.
  - intros e. repeat case_match; [apply safe_roll_back..|]; follow.
Qed.

(** ** Paying for a won auction *)

Lemma still_ensure_transfer mail_ok a p buyer : still tables (_ensure_domain_transfer mail_ok a p buyer).
Proof.
  unfold _ensure_domain_transfer, get_listing, save_listing,
    transfer_errors, create_from_payment, split_sale, get_profile, tx_create, insert_new, log_event,
    on_payment_completed, tell, mail_to, tx_save, tx_seller, tx_buyer, get_by_razorpay_payment_id,
    scalar_one_or_none. still.
Qed.

#[local] Hint Resolve still_ensure_transfer : still.

(** A payment's row. *)
Definition pay_row (p : Payment) (v : tables_t) : Prop := v.2 !! p_id p = Some p.

(** A payment is stored that was not, and is not, successful. *)
Lemma under_unpaid {B} F p p' (m : Prog B) :
  (forall v, F v -> pay_row p v) ->
  p_id p' = p_id p -> p_auction_id p' = p_auction_id p ->
  p_payment_status p <> PaymentStatus.SUCCESS -> p_payment_status p' <> PaymentStatus.SUCCESS ->
  safe m -> under F (payment_save p' ;;; m).
Proof.
  intros HF Hid Haid Hst Hst' Hm. eapply under_modify; [|exact Hm]. intros v0 d Hd HFd. split; [|done].
  apply HF in HFd. unfold tables, put_payment, pay_row in *. cbn in *. rewrite Hid.
  destruct (bk_pay _ (adv_ok _ _ Hd) _ _ HFd) as [_ Hsome]. cbn in Hsome.
  apply advanced_payments; [done|done|by rewrite Haid|].
  intros k a Ha. unfold stage_of. rewrite (paid_neutral _ (p_id p) p'); [done|].
  intros j. rewrite HFd. unfold is_paid_for. by rewrite !(bool_decide_eq_false_2 (_ = PaymentStatus.SUCCESS)), !andb_false_r.
Qed.

(** A successful payment of a completed auction. *)
Lemma under_late {B} F k a p p' (m : Prog B) :
  (forall v, F v -> row k a v /\ pay_row p v) -> p_id p' = p_id p -> p_auction_id p = k ->
  is_paid_for k p' = true -> a_status a = AuctionStatus.COMPLETED -> safe m -> under F (payment_save p' ;;; m).
Proof.
  intros HF Hid Hk Hp Hst Hm. eapply under_modify; [|exact Hm]. intros v0 d Hd HFd. split; [|done].
  apply HF in HFd as [Ha Hrow]. unfold tables, put_payment, pay_row, row in *. cbn in *. rewrite Hid.
  assert (p_auction_id p' = k) as Hk'.
  { unfold is_paid_for in Hp. by apply andb_true_iff in Hp as [?%bool_decide_eq_true_1 _]. }
  apply advanced_payments; [done|done|by rewrite Hk', Ha|].
  intros j b Hb. unfold stage_of. rewrite (paid_settle _ (p_id p) p' k Hp).
  - case_bool_decide as Hj; [|done]. subst j. rewrite Ha in Hb. injection Hb as <-. rewrite Hst. apply rtc_once, Late.
  - intros q Hq. rewrite Hrow in Hq. by injection Hq as <-.
Qed.

(** The payment and then the auction. *)
Lemma under_pay {B} F k a a' p p' (m : Prog B) :
  (forall v, F v -> row k a v /\ pay_row p v) -> a_id a = k -> p_id p' = p_id p -> p_auction_id p = k ->
  is_paid_for k p' = true -> same_lot a a' ->
  a_status a = AuctionStatus.PAYMENT_PENDING -> a_status a' = AuctionStatus.COMPLETED ->
  safe m -> under F (payment_save p' ;;; modify (put_auction a') ;;; m).
Proof.
  intros HF Hak Hid Hk Hp Hlot Hst Hst' Hm v0 s [Hc Hd] HFd.
  apply HF in HFd as [Ha Hrow]. apply Hm; [|done]. split; [done|].
  unfold tables, put_payment, put_auction, pay_row, row in *. cbn in *. rewrite Hid, (sl_id _ _ Hlot), Hak.
  apply (advanced_pay v0 _ _ k a); try done. intros q Hq. rewrite Hrow in Hq. by injection Hq as <-.
Qed.

(** A paid auction is set to completed once more. *)
Lemma under_replay {B} F k a a' p (m : Prog B) :
  (forall v, F v -> row k a v /\ pay_row p v) -> a_id a = k -> is_paid_for k p = true -> same_lot a a' ->
  a_status a' = AuctionStatus.COMPLETED -> safe m -> under F (modify (put_auction a') ;;; m).
Proof.
  intros HF Hak Hp Hlot Hst Hm. eapply under_modify; [|exact Hm]. intros v0 d Hd HFd. split; [|done].
  apply HF in HFd as [Ha Hrow]. unfold tables, put_auction, pay_row, row in *. cbn in *.
  rewrite (sl_id _ _ Hlot), Hak.
  assert (paid (payments d) k = true) as Hpaid by (apply paid_true; by exists (p_id p), p).
  apply (advanced_auction v0 _ _ k a); try done.
  - unfold stage_of. rewrite Hpaid, Hst. apply rtc_once, Replay.
  - intros Hb. unfold blocking, is_status in Hb. rewrite Hst in Hb. by vm_compute in Hb.
Qed.

Lemma selected_row v0 q d p :
  advanced v0 (tables d) -> p ∈ payments_where q d -> pay_row p (tables d) /\ q p = true.
Proof.
  intros Hd [Hq [i Hi]%elem_of_values]%elem_of_select_where. apply andb_true_iff in Hq as [_ Hq]. split; [|done].
  unfold pay_row. cbn. destruct (bk_pay _ (adv_ok _ _ Hd) i p Hi) as [<- _]. exact Hi.
Qed.

(** A payment found by its order. *)
Lemma under_order {B} F oid (f : option Payment -> Prog B) :
  under F (f None) -> (forall p, under (fun v => F v /\ pay_row p v) (f (Some p))) ->
  under F (bind (payment_by_order_id oid) f).
Proof.
  intros Hnone Hsome v0 s Hs HF. unfold payment_by_order_id, bind, gets. cbn.
  destruct (payments_where _ (s_db s)) as [|p []] eqn:Hp; [by apply Hnone| |done]. cbn.
  apply Hsome; [done|]. split; [done|].
  eapply (selected_row v0); [apply Hs|]. rewrite Hp. set_solver.
Qed.

Lemma newer_payment_strict : (forall x, newer_payment x x = false) /\
  (forall x y z, newer_payment x y = true -> newer_payment y z = true -> newer_payment x z = true).
Proof. unfold newer_payment. split; intros; [apply Z.ltb_irrefl|lia]. Qed.

(** The open payment of a user. *)
Lemma under_open {B} F aid uid (f : option Payment -> Prog B) :
  under F (f None) ->
  (forall p, p_auction_id p = aid -> p_payment_status p = PaymentStatus.PENDING ->
     under (fun v => F v /\ pay_row p v) (f (Some p))) ->
  under F (bind (get_open_for_auction_user aid uid) f).
Proof.
  intros Hnone Hsome v0 s Hs HF. unfold get_open_for_auction_user, bind, gets. cbn.
  destruct (first_by _ _) as [p|] eqn:Hp; [|by apply Hnone].
  apply first_by_Some in Hp as [Hin _]; [|apply newer_payment_strict..].
  apply (selected_row v0) in Hin as [Hrow Hq]; [|apply Hs].
  apply andb_true_iff in Hq as [[Ha%bool_decide_eq_true_1 _]%andb_true_iff Hst%bool_decide_eq_true_1].
  by apply Hsome.
Qed.

Lemma safe_verify_winner mail_ok user oid pid sig : safe (verify_winner_payment mail_ok user oid pid sig).
Proof.
  unfold verify_winner_payment. apply under_order; [follow|]. intros p. apply under_guard. intros _.
  unfold _lock_auction. apply under_assoc, under_load; [follow|]. intros a Hid _.
  match goal with |- under ?F (bind (ret ?x) ?f) => change (under F (f x)) end. cbv beta.
  case_bool_decide as Hsucc.
  - unfold replay_success. cbv zeta. apply (under_replay _ (p_auction_id p) a _ p); [|done| |by constructor|done|follow].
    + by intros v [[_ ?] ?].
    + unfold is_paid_for. by rewrite Hsucc, !bool_decide_eq_true_2.
  - apply under_bind; [still|]. intros ok. destruct ok; cbn [negb].
    + destruct (bool_decide (a_status a = AuctionStatus.PAYMENT_PENDING)) eqn:Hpp; cbn [negb].
      * unfold accept_payment, _require_winner. follow. apply bool_decide_eq_true_1 in Hpp.
        apply (under_pay _ (p_auction_id p) a _ p); [by intros v [[_ ?] ?]|done|done|done| |by constructor|done|done|].
        { unfold is_paid_for. cbn. by rewrite !bool_decide_eq_true_2. }
        unfold _record_transaction, _publish_payment_completed. follow.
      * unfold late_payment. clear Hpp. case_bool_decide as Hst; [|follow]. cbv zeta.
        apply (under_late _ (p_auction_id p) a p); [by intros v [[_ ?] ?]|done..| |done|follow].
        unfold is_paid_for. cbn. by rewrite !bool_decide_eq_true_2.
    + unfold reject_signature. apply under_bind; [still|]. intros _.
      apply (under_unpaid _ p); [by intros v [[_ ?] ?]|done..|]. unfold _record_transaction. follow.
Qed.

(** A new payment that is not paid yet. *)
Lemma under_new_payment F k a p :
  (forall v, F v -> row k a v) -> p_auction_id p = k -> p_payment_status p <> PaymentStatus.SUCCESS ->
  under F (payment_create p).
Proof.
  intros HF Hk Hst. unfold payment_create, insert_new. apply under_bind; [still|]. intros id.
  apply under_bind; [still|]. intros now. cbv zeta.
  intros v0 s [Hc Hd] HFd. apply HF in HFd. unfold bind, gets. cbn.
  destruct (payments (s_db s) !! id) eqn:Hnew; cbn; [done|]. split; [done|].
  unfold row, tables in *. cbn in *. set (p' := p <| p_id := id |> <| p_created_at := now |>).
  apply advanced_payments; [done|done|cbn; by rewrite Hk, HFd|].
  intros j b Hb. unfold stage_of. rewrite (paid_neutral _ id p'); [done|]. intros i. rewrite Hnew. unfold is_paid_for.
  change (p_payment_status p') with (p_payment_status p).
  by rewrite (bool_decide_eq_false_2 (_ = PaymentStatus.SUCCESS)), andb_false_r.
Qed.

Lemma under_store_order k a user oid amount :
  under (row k a) (store_order k user oid amount).
Proof.
  unfold store_order. apply under_open.
  - by apply (under_new_payment _ k a).
  - intros p Hk Hst. cbv zeta. apply (under_unpaid _ p); [by intros v [_ ?]|done|done|by rewrite Hst|done|follow].
Qed.

Lemma safe_winner_order api k user redeem : safe (create_winner_order api k user redeem).
Proof.
  unfold create_winner_order. apply under_guard. intros _. unfold _lock_auction.
  apply under_assoc, under_load; [follow|]. intros a _ _.
  match goal with |- under ?F (bind (ret ?x) ?f) => change (under F (f x)) end. cbv beta.
  unfold _require_winner, _require_payment_pending, get_success_for_auction, _winner_payment_amount, place_order,
    calculate_redemption, create_pending_redemption, insert_new. follow.
  all: apply (under_weaken _ (row k a)); [by intros v [_ ?]|].
  all: apply under_then; [apply under_store_order|intros; follow].
Qed.

(** ** The daily job *)

(** An auction loaded whatever its flags. *)
Lemma under_find {B} F k (f : option Auction -> Prog B) :
  under F (f None) -> (forall a, a_id a = k -> under (fun v => F v /\ row k a v) (f (Some a))) ->
  under F (bind (gets (fun d => auctions d !! k)) f).
Proof.
  intros Hnone Hsome v0 s Hs HF. unfold bind, gets. cbn.
  destruct (auctions (s_db s) !! k) as [a|] eqn:Ha; [|by apply Hnone].
  apply Hsome; [|done|done]. by apply (bk_key _ (adv_ok _ _ (proj2 Hs))).
Qed.

Lemma safe_mark_forfeited k : safe (mark_forfeited_auction k).
Proof.
  unfold mark_forfeited_auction. apply safe_try; [|intros; follow].
  apply under_find; [follow|]. intros a Hid. unfold when. destruct (is_status _ a) eqn:Hst; [|follow].
  apply is_status_true in Hst. apply (under_weaken _ (row k a)); [by intros v [_ ?]|].
  apply under_put; [done|by constructor|right; by apply e_forfeit|by intros|follow].
Qed.

Lemma still_set_setting key v : still tables (set_setting key v).
Proof. unfold set_setting. still. Qed.

Lemma still_get_setting key : still tables (get_setting key).
Proof. unfold get_setting. still. Qed.

Lemma still_set_track key t : still tables (set_track key t).
Proof. apply still_set_setting. Qed.

Lemma still_get_track ty aid : still tables (get_track ty aid).
Proof. unfold get_track, get_setting. still. Qed.

#[local] Hint Resolve still_set_setting still_get_setting still_set_track still_get_track : still.

Lemma still_refund_payment api pid amt cur : still tables (refund_payment api pid amt cur).
Proof. unfold refund_payment. still. Qed.

#[local] Hint Resolve still_refund_payment : still.

Lemma still_refund_fee api ty aid sid : still tables (refund_creation_fee_if_any api ty aid sid).
Proof. unfold refund_creation_fee_if_any. still. Qed.

Lemma still_block w r ty aid amt t : still tables (block_user w r ty aid amt t).
Proof. unfold block_user. still. Qed.

Lemma still_notify w t u : still tables (notify_user w t u).
Proof. unfold notify_user. still. Qed.

Lemma still_reminder mail_ok track : still tables (try_send_daily_reminder mail_ok track).
Proof. unfold try_send_daily_reminder. still. Qed.

#[local] Hint Resolve still_refund_fee still_block still_notify still_reminder : still.

Lemma safe_forfeit api track : safe (_forfeit_unpaid_winner api track).
Proof.
  unfold _forfeit_unpaid_winner. destruct (json_truthy _); [follow|]. cbv zeta.
  do 4 (apply under_bind; [still|]; intros ?). apply under_bind; [still|]. intros _.
  apply under_then; [|intros; follow]. destruct (bool_decide _); [apply safe_mark_forfeited|]. apply under_still. still.
Qed.

Lemma safe_daily_job mail_ok api : safe (process_reminders_and_forfeits mail_ok api).
Proof.
  unfold process_reminders_and_forfeits, list_open_tracks. apply under_bind; [still|]. intros tracks.
  apply under_then; [|intros; follow]. apply safe_for_each. intros track. unfold process_track.
  apply under_bind; [still|]. intros now. apply under_bind; [still|]. intros [n|]; [|follow].
  destruct (0 <=? n); [follow|]. apply under_then; [apply safe_forfeit|intros; follow].
Qed.

(** ** Creating, closing and reviewing *)

Lemma still_sync lid : still tables (_sync_domain_registry_verified lid).
Proof. unfold _sync_domain_registry_verified, get_domain_alive. still. Qed.

Lemma still_notify_seller l t u : still tables (_notify_seller l t u).
Proof. unfold _notify_seller. still. Qed.

Lemma still_review lid : still tables (get_review_payload lid).
Proof. unfold get_review_payload, listing_for_review, get_listing, get_auction_by_domain. still. Qed.

#[local] Hint Resolve still_sync still_notify_seller still_review : still.

Lemma safe_close mail_ok k actor force : safe (close_auction mail_ok k actor force).
Proof.
  unfold close_auction. apply under_load; [follow|]. intros a Hid Hal. unfold _require_auction_actor.
  apply under_guard. intros _. apply under_guard. intros Hst%negb_true_iff. apply is_status_false in Hst.
  destruct force; [|eapply under_weaken; [|apply safe_resolve_auction]; done].
  unfold cancel_auction, repo_close_auction, update_auction. rewrite Hid.
  apply under_assoc, (under_weaken _ (row k a)); [by intros v [_ ?]|]. apply (under_reload _ k a); [done|done|].
  apply under_assoc.
  apply under_put; [done|by constructor|right; by apply e_cancel|by intros|]. unfold get_listing, save_listing. follow.
Qed.

(** The newest auction of a domain. *)
Definition newest (a : Auction) (v : tables_t) : Prop :=
  row (a_id a) a v /\ forall j b, v.1 !! j = Some b -> a_id a <> j -> rivals a b -> a_created_at b < a_created_at a.

Lemma newer_strict : (forall x, newer x x = false) /\
  (forall x y z, newer x y = true -> newer y z = true -> newer x z = true).
Proof. unfold newer. split; intros; [apply Z.ltb_irrefl|lia]. Qed.

Lemma domain_auctions_spec did p d a :
  a ∈ domain_auctions did p d <->
  (a_domain_id a = did /\ _alive_auction a = true /\ p a = true) /\ exists k, auctions d !! k = Some a.
Proof.
  unfold domain_auctions. rewrite elem_of_select_where, elem_of_values, !andb_true_iff, bool_decide_eq_true. naive_solver.
Qed.

Lemma under_latest {B} did (f : option Auction -> Prog B) :
  safe (f None) -> (forall a, under (newest a) (f (Some a))) ->
  safe (bind (get_auction_by_domain did false) f).
Proof.
  intros Hnone Hsome v0 s Hs _. unfold get_auction_by_domain, bind, gets. cbn [fst snd].
  destruct (first_by _ _) as [a|] eqn:Ha; [|by apply Hnone].
  apply first_by_Some in Ha as [Hin Hfirst]; [|apply newer_strict..].
  apply domain_auctions_spec in Hin as [(Hdom & Hal & _) [k Hk]].
  destruct (adv_ok _ _ (proj2 Hs)) as [Hkey _ Hriv]. cbn in Hkey, Hriv.
  apply Hsome; [done|]. pose proof (Hkey _ _ Hk) as Hid. split; [unfold row; cbn; by rewrite Hid|].
  rewrite Hid. intros j b Hb Hne Hr. destruct (Hriv k j a b Hk Hb Hne Hr) as [Hcr _].
  assert (newer b a = false) as Hn.
  { apply Hfirst, domain_auctions_spec. destruct Hr as (H1 & _ & H3). split; [|by exists j].
    split_and!; [congruence|done|done]. }
  unfold newer in Hn. cbn in *. lia.
Qed.

Lemma under_publish l a admin :
  a_status a ∈ [AuctionStatus.DRAFT; AuctionStatus.CANCELLED] -> under (newest a) (publish_auction l a admin).
Proof.
  intros Hst. unfold publish_auction. apply under_bind; [still|]. intros now.
  eapply (under_modify _ (fun _ => True)); [|unfold save_listing; follow].
  intros v0 d Hd [Ha Hnew]. split; [|done]. unfold tables, put_auction, row in *. cbn in *.
  apply (advanced_auction v0 _ _ (a_id a) a); [done|done|by constructor| |by intros _; right].
  apply rtc_once, Move. by apply e_publish.
Qed.

Lemma safe_approval lid admin : safe (approve_and_go_live lid admin).
Proof.
  unfold approve_and_go_live, listing_for_review, get_listing. apply under_assoc.
  apply under_bind; [still|]. intros [l|]; [|follow].
  match goal with |- under ?F (bind (ret ?x) ?f) => change (under F (f x)) end. cbv beta.
  do 2 (apply under_guard; intros _). apply under_latest; [follow|]. intros a.
  destruct (is_status [_; _] a) eqn:Hst; [by apply under_publish, is_status_true|].
  unfold already_running, save_listing. destruct (is_status _ a); follow.
Qed.

Lemma safe_reject lid admin reason : safe (reject_verification lid admin reason).
Proof.
  unfold reject_verification, listing_for_review, get_listing. apply under_assoc.
  apply under_bind; [still|]. intros [l|]; [|follow].
  match goal with |- under ?F (bind (ret ?x) ?f) => change (under F (f x)) end. cbv beta zeta.
  do 2 (apply under_guard; intros _). apply under_latest; [unfold save_listing; follow|]. intros a.
  unfold when. destruct (is_status _BLOCKING_STATUSES a) eqn:Hst; [|unfold save_listing; follow].
  apply is_status_true in Hst. apply (under_weaken _ (row (a_id a) a)); [by intros v [? _]|].
  apply under_put; [done|by constructor| |by intros|unfold save_listing; follow].
  right. apply e_cancel. by apply (statuses_apart _BLOCKING_STATUSES).
Qed.

Lemma safe_more_information lid admin message : safe (request_more_information lid admin message).
Proof. unfold request_more_information, listing_for_review, get_listing, save_listing. follow. Qed.
End Operations.

(** ** Creating an auction *)

(** The clock is past every auction there is. *)
Definition timely (s : Session) : Prop :=
  streams (fun t => forall k b, auctions (s_db s) !! k = Some b -> a_created_at b < t) (fun _ => True) s.

Definition grows {A} (F : tables_t -> Prop) (m : Prog A) : Prop := forall v0 s,
  good (fun d => advanced v0 (tables d)) s -> F (tables (s_db s)) -> timely s ->
  good (fun d => advanced v0 (tables d)) (m s).2.

(** No open auction of the domain. *)
Definition free (did : string) (v : tables_t) : Prop :=
  forall j b, v.1 !! j = Some b -> a_domain_id b = did -> _alive_auction b = true -> blocking b = false.

Lemma grows_bind {A B} F (m : Prog A) (f : A -> Prog B) :
  still tables m -> draws m -> (forall x, grows F (f x)) -> grows F (bind m f).
Proof.
  intros Hm Hdr Hf v0 s Hs HF Ht. destruct (still_good v0 m s Hm Hs) as [Hs1 Hv]. apply Hdr in Ht.
  unfold bind. destruct (m s) as [[x|e] s1]; [|done]. cbn [snd] in *.
  apply Hf; [done|by rewrite Hv|]. unfold timely. by injection Hv as -> _.
Qed.

Lemma grows_safe {A} F (m : Prog A) : under F m -> grows F m.
Proof. intros Hm v0 s Hs HF _. by apply Hm. Qed.

Lemma grows_free {A} F did (m : Prog A) :
  grows (free did) m -> grows F (require_no_blocking did ;;; m).
Proof.
  intros Hm v0 s Hs _ Ht. unfold require_no_blocking, bind, get_blocking_auction_by_domain, gets. cbn [fst snd].
  destruct (first_by _ _) eqn:Hfirst; [done|]. apply first_by_None in Hfirst. apply Hm; [done| |done].
  intros j b Hb Hdom Hal. unfold blocking. destruct (is_status _BLOCKING_STATUSES b) eqn:Hst; [|done].
  assert (b ∈ domain_auctions did (is_status _BLOCKING_STATUSES) (s_db s)) as Hin
    by (apply domain_auctions_spec; split; [done|by exists j]).
  rewrite Hfirst in Hin. by apply not_elem_of_nil in Hin.
Qed.

Lemma grows_create {A} did price dur now actor (f : Auction -> Prog A) :
  (forall a, safe (f a)) -> grows (free did) (bind (create_auction (draft did price dur now actor)) f).
Proof.
  intros Hf v0 s Hs Hfree [Ht _]. unfold create_auction, insert_new, bind, uuid4, utc_now, gets. cbn.
  set (k := s_ids s 0%nat). destruct (auctions (s_db s) !! k) eqn:Hnew; cbn; [done|].
  apply Hf; [|done]. destruct Hs as [Hc Hd]. split; [done|]. cbn.
  unfold tables. cbn. apply (advanced_new v0 (auctions (s_db s)) (payments (s_db s))); [exact Hd|done|done|done| |].
  - intros j b Hb. cbn. by apply (Ht 0%nat j).
  - intros j b Hb (Hdom & _ & Hal). by apply (Hfree j b).
Qed.

Section Creation.
Context {cfg : Config} {cipher : Cipher}.

Lemma still_usable did actor : still tables (_require_usable_domain_for_auction did actor).
Proof.
  unfold _require_usable_domain_for_auction, get_domain_alive, get_listing, register_listing, create_domain, insert_new.
  still.
Qed.

Lemma draws_usable did actor : draws (_require_usable_domain_for_auction did actor).
Proof.
  unfold _require_usable_domain_for_auction, get_domain_alive, get_listing, register_listing, create_domain, insert_new.
  draws.
Qed.

Lemma still_consume_creation u ty oid aid : still tables (consume_creation_fee u ty oid aid).
Proof. unfold consume_creation_fee, get_completed_creation_payment, fee_save. still. Qed.

#[local] Hint Resolve still_consume_creation : still.

Lemma grows_create_request payload actor : grows (fun _ => True) (create_auction_request payload actor).
Proof.
  unfold create_auction_request. apply grows_bind; [apply still_usable|apply draws_usable|]. intros _. cbv zeta.
  apply grows_bind; [still|draws|]. intros _. apply grows_free.
  apply grows_bind; [still|draws|]. intros now. apply grows_bind; [still|draws|]. intros price.
  apply grows_create. intros a. unfold get_listing, save_listing. follow.
Qed.

Lemma grows_re_auction k payload actor : grows (fun _ => True) (re_auction k payload actor).
Proof.
  unfold re_auction, get_auction_by_id. apply grows_bind; [still|draws|]. intros [prior|]; [|apply grows_safe; follow].
  unfold _require_auction_actor. apply grows_bind; [still|draws|]. intros _.
  apply grows_bind; [apply still_usable|apply draws_usable|]. intros _.
  do 2 (apply grows_bind; [still|draws|]; intros _). apply grows_free.
  apply grows_bind; [still|draws|]. intros now. apply grows_bind; [still|draws|]. intros price.
  apply grows_create. intros a. unfold get_listing, save_listing. follow.
Qed.
End Creation.

(** ** The system *)

Section System.
Context {cfg : Config} {cipher : Cipher}.

(** One request or job about auctions, with any arguments. *)
Inductive request : forall A : Type, Prog A -> Prop :=
| q_create payload actor : request _ (create_auction_request payload actor)
| q_again k payload actor : request _ (re_auction k payload actor)
| q_close mail_ok k actor force : request _ (close_auction mail_ok k actor force)
| q_approve lid admin : request _ (approve_and_go_live lid admin)
| q_reject lid admin reason : request _ (reject_verification lid admin reason)
| q_more lid admin message : request _ (request_more_information lid admin message)
| q_bid payload bidder : request _ (place_bid payload bidder)
| q_resolve mail_ok k : request _ (resolve_auction mail_ok k)
| q_order api k user redeem : request _ (create_winner_order api k user redeem)
| q_pay mail_ok user oid pid sig : request _ (verify_winner_payment mail_ok user oid pid sig)
| q_daily mail_ok api : request _ (process_reminders_and_forfeits mail_ok api).

Lemma request_grows A (m : Prog A) : request A m -> grows (fun _ => True) m.
Proof.
  destruct 1.
  - apply grows_create_request.
  - apply grows_re_auction.
  - apply grows_safe, safe_close.
  - apply grows_safe, safe_approval.
  - apply grows_safe, safe_reject.
  - apply grows_safe, safe_more_information.
  - apply grows_safe, safe_place_bid.
  - apply grows_safe, safe_resolve_auction.
  - apply grows_safe, safe_winner_order.
  - apply grows_safe, safe_verify_winner.
  - apply grows_safe, safe_daily_job.
Qed.

(** A request runs after every auction was made. *)
Inductive step (d d' : DB) : Prop :=
| Step A (m : Prog A) clock ids :
    request A m -> (forall n k b, auctions d !! k = Some b -> a_created_at b < clock n) ->
    d' = (run_request clock ids m d).2 -> step d d'.

Lemma step_advances d d' : step d d' -> books_ok (tables d) -> advanced (tables d) (tables d').
Proof.
  intros [A m clock ids Hm Hclock ->] Hd.
  pose proof (request_grows A m Hm (tables d) (open_session clock ids d)) as H.
  unfold run_request. destruct (m _) as [r s]. apply H; [by split; apply ahead_refl|done|].
  split; [|done]. intros n k b Hb. by apply (Hclock n k).
Qed.

Lemma auction_steps_advance d d' : rtc step d d' -> books_ok (tables d) -> advanced (tables d) (tables d').
Proof.
  induction 1 as [d|d d1 d2 Hs _ IH]; intros Hd; [by apply ahead_refl|].
  pose proof (step_advances d d1 Hs Hd) as H1. eapply ahead_trans; [exact H1|]. by apply IH, H1.
Qed.

(** C33. The program refines the abstract auction: after any requests and jobs
    every auction is the same lot, at the same stage or further along the edges,
    and every new auction got to its stage from an unpaid draft. *)
Theorem auction_refines d d' :
  rtc step d d' -> books_ok (tables d) ->
  forall k, match auctions d !! k with
            | Some a => exists b, auctions d' !! k = Some b /\ same_lot a b /\
                          rtc edge (stage_of (payments d) k a) (stage_of (payments d') k b)
            | None => forall b, auctions d' !! k = Some b -> rtc edge start (stage_of (payments d') k b)
            end.
Proof. intros H Hd. apply (adv_stage _ _ (auction_steps_advance d d' H Hd)). Qed.

(** C34. Of the auctions of one domain at most one is open - a draft, active or
    extended - and it is the newest; and an auction is completed exactly when a
    payment for it succeeded.  Both hold after any requests and jobs. *)
Theorem one_open_auction d d' :
  rtc step d d' -> books_ok (tables d) ->
  (forall k a, auctions d !! k = Some a -> sound (stage_of (payments d) k a)) ->
  (forall k j a b, auctions d' !! k = Some a -> auctions d' !! j = Some b -> rivals a b ->
     blocking a = true -> k = j \/ (blocking b = false /\ a_created_at b < a_created_at a)) /\
  (forall k a, auctions d' !! k = Some a -> a_status a = AuctionStatus.COMPLETED <-> paid (payments d') k = true).
Proof.
  intros H Hd Hsound. destruct (auction_steps_advance d d' H Hd) as [[_ _ Hriv] Hst]. cbn in Hriv, Hst. split.
  - intros k j a b Ha Hb Hr Hopen. destruct (decide (k = j)) as [->|Hne]; [by left|right].
    destruct (Hriv k j a b Ha Hb Hne Hr) as [_ H1]. specialize (H1 Hopen). split; [|done].
    destruct (blocking b) eqn:Hbo; [|done]. exfalso.
    assert (rivals b a) as Hr' by (destruct Hr as (? & ? & ?); by repeat split).
    destruct (Hriv j k b a Hb Ha (not_eq_sym Hne) Hr') as [_ H2]. specialize (H2 Hbo). lia.
  - intros k b Hb. specialize (Hst k). change (sound (stage_of (payments d') k b)).
    destruct (auctions d !! k) as [a|] eqn:Ha.
    + destruct Hst as (b' & Hb' & _ & He). rewrite Hb in Hb'. injection Hb' as <-.
      by apply (edges_sound _ _ He), Hsound.
    + by apply (edges_sound _ _ (Hst b Hb)).
Qed.
End System.

(** ** Cases *)

Module Life.
Import Samples Sale.

(** The sample listing, not auctioned yet, and an administrator. *)
Definition offered : DB := Samples.db <| auctions := ∅ |> <| fee_payments := ∅ |>
  <| listings := {[ "l1" := listing None ]} |>.

Definition proposal (fee : option string) : CreateAuctionRequest :=
  MkCreateRequest (Some "l1"%string) (Dec 100 0) AuctionDuration.ONE_DAY fee.

Definition create_by (who : AppUser) (fee : option string) : Prog Auction :=
  create_auction_request (proposal fee) who.

Definition at_day {A} (n : Z) (ids : string) (m : Prog A) (d : DB) : DB :=
  (run_request (fun i => days n + Z.of_nat i) (fun i => (ids +:+ pretty i)%string) m d).2.

Definition drafted : DB := at_day 3 "c" (create_by admin None) offered.
Definition live : DB := at_day 4 "v" (approve_and_go_live "l1" admin) drafted.

Definition statuses (d : DB) := map (fun a => (a_domain_id a, a_status a)) (values (auctions d)).

(** The seller of the sold sample auction, with a paid creation fee. *)
Definition seller : AppUser := sample_user "seller" 0.
Definition creation_fee : AuctionFeePayment :=
  MkFee (Some "f9"%string) Kind.CREATION FeeType.DOMAIN "seller" None None None (fl_of_Z 100) "o9" (Some "p9"%string)
    FeeStatus.COMPLETED 0.
Definition sold : DB := (paid (listing None)).2 <| fee_payments ::= <["o9" := creation_fee]> |>.
Definition again : DB := at_day 9 "n" (create_by seller (Some "o9"%string)) sold.
Definition again_live : DB := at_day 10 "w" (approve_and_go_live "l1" admin) again.
End Life.

Import Samples Sale Life.

Lemma past_clock d n :
  forallb (fun a => a_created_at a <? days n) (values (auctions d)) = true ->
  forall i k b, auctions d !! k = Some b -> a_created_at b < days n + Z.of_nat i.
Proof.
  intros H i k b Hb. rewrite forallb_forall in H.
  assert (b ∈ values (auctions d)) as Hin by (apply elem_of_values; by exists k).
  apply list_elem_of_In, H, Z.ltb_lt in Hin. lia.
Qed.

Lemma day_step {A} n ids (m : Prog A) d :
  request A m -> forallb (fun a => a_created_at a <? days n) (values (auctions d)) = true ->
  step d (at_day n ids m d).
Proof. intros Hm Hd. econstructor; [exact Hm|by apply past_clock|reflexivity]. Qed.

Lemma offered_live : rtc step offered live.
Proof.
  eapply rtc_l; [|apply rtc_once].
  - apply (day_step 3 "c" (create_by admin None)); [apply q_create|vm_compute; reflexivity].
  - apply (day_step 4 "v" (approve_and_go_live "l1" admin)); [apply q_approve|vm_compute; reflexivity].
Qed.

Lemma offered_books : books_ok (tables offered).
Proof. by split. Qed.

Lemma auction_refines_witness :
  statuses live = [("l1"%string, AuctionStatus.ACTIVE)] /\
  forall k b, auctions live !! k = Some b -> rtc edge start (stage_of (payments live) k b).
Proof.
  split; [vm_compute; reflexivity|]. intros k. exact (auction_refines offered live offered_live offered_books k).
Defined.

Lemma one_open_auction_witness :
  statuses live = [("l1"%string, AuctionStatus.ACTIVE)] /\
  forall k j a b, auctions live !! k = Some a -> auctions live !! j = Some b -> rivals a b ->
    blocking a = true -> k = j \/ (blocking b = false /\ a_created_at b < a_created_at a).
Proof.
  split; [vm_compute; reflexivity|].
  apply (one_open_auction offered live offered_live offered_books). intros k a Ha. discriminate Ha.
Defined.

(** A domain that was sold at auction and paid for can be
    put up for auction again by the seller who sold it: neither creating an
    auction nor approving it asks whether the listing is sold. *)
Theorem sold_domain_auctioned_again :
  let of_listing d := option_map (fun l => (l_domain_status l, l_purchased_by_user_id l)) (listings d !! "l1"%string) in
  statuses Life.sold = [("l1"%string, AuctionStatus.COMPLETED)] /\
  of_listing Life.sold = Some (DomainListingStatus.SOLD, Some "u2"%string) /\
  statuses again_live = [("l1"%string, AuctionStatus.COMPLETED); ("l1"%string, AuctionStatus.ACTIVE)] /\
  of_listing again_live = Some (DomainListingStatus.SOLD, Some "u2"%string).
Proof. split_and!; vm_compute; reflexivity. Qed.

