(* ===== verification/Rooms.v ===== *)
(** * The rooms of the auction sockets

    app/websocket/manager.py: who gets what is broadcast.  Connections are objects
    with an identity and a room that may change ([c_auction]), shared by the
    indexes of the manager; [h_objects] is the store of these objects.  Every
    operation runs under the manager's lock, so what other tasks do falls between
    operations: a broadcast takes a snapshot, sends outside the lock, and then
    disconnects the sockets that failed. *)

From stdpp Require Import relations.
From S2P Require Import Prelude Text.

(** ** The manager *)

(** app/websocket/connection.py *)
Record WebSocketConnection := Connection { c_auction : string; c_user : option string }.

(** [inl] is a connection of a room, [inr] a socket for notifications. *)
Record hub := Hub {
  h_objects : gmap string WebSocketConnection;
  h_rooms : gmap string (gset string);
  h_user_index : gmap string (gset string);
  h_user_connections : gmap string (list string);
  h_active : gset (string + string);
}.

#[export] Instance hub_eta : Settable hub := fun h =>
  Hub (h_objects h) (h_rooms h) (h_user_index h) (h_user_connections h) (h_active h).

Definition no_sockets : hub := Hub ∅ ∅ ∅ ∅ ∅.

(** The members of a key of a [defaultdict(set)]; [.get(k, set())]. *)
Definition members (m : gmap string (gset string)) (k : string) : gset string := default ∅ (m !! k).

Definition add_member (m : gmap string (gset string)) (k c : string) : gmap string (gset string) :=
  <[k := members m k ∪ {[c]}]> m.

(** [discard], and [pop] of a key that is left empty. *)
Definition discard_member (m : gmap string (gset string)) (k c : string) : gmap string (gset string) :=
  match m !! k with
  | None => m
  | Some s =>
      if bool_decide (s = ∅) then m
      else let s' := s ∖ {[c]} in if bool_decide (s' = ∅) then delete k m else <[k := s']> m
  end.

Definition _add_to_user_index (c : string) (o : WebSocketConnection) (m : gmap string (gset string)) :=
  match c_user o with None => m | Some u => add_member m u c end.

Definition _remove_from_user_index (c : string) (o : WebSocketConnection) (m : gmap string (gset string)) :=
  match c_user o with None => m | Some u => discard_member m u c end.

(** A new socket, under a new identity. *)
Definition new_connection (c auction_id : string) (user_id : option string) (h : hub) : hub :=
  match h_objects h !! c with
  | Some _ => h
  | None => h <| h_objects ::= <[c := Connection auction_id user_id]> |>
  end.

(** The operations on a connection read its fields from the object. *)
Definition on_object (c : string) (f : WebSocketConnection -> hub -> hub) (h : hub) : hub :=
  match h_objects h !! c with Some o => f o h | None => h end.

Definition connect (c : string) : hub -> hub := on_object c (fun o h =>
  h <| h_rooms ::= fun m => add_member m (c_auction o) c |>
    <| h_user_index ::= _add_to_user_index c o |>
    <| h_active ::= fun s => s ∪ {[ inl c ]} |>).

Definition disconnect (c : string) : hub -> hub := on_object c (fun o h =>
  h <| h_rooms ::= fun m => discard_member m (c_auction o) c |>
    <| h_user_index ::= _remove_from_user_index c o |>
    <| h_active ::= fun s => s ∖ {[ inl c ]} |>).

Definition join_room (c auction_id : string) : hub -> hub := on_object c (fun o h =>
  if bool_decide (c_auction o = auction_id) then h
  else h <| h_rooms ::= fun m => add_member (discard_member m (c_auction o) c) auction_id c |>
         <| h_objects ::= <[c := Connection auction_id (c_user o)]> |>).

Definition leave_room (c : string) : hub -> hub := on_object c (fun o h =>
  h <| h_rooms ::= fun m => discard_member m (c_auction o) c |>).

Definition room_size (auction_id : string) (h : hub) : nat := size (members (h_rooms h) auction_id).

(** ** Broadcasts *)

Definition user_of (h : hub) (c : string) : option string :=
  match h_objects h !! c with Some o => c_user o | None => None end.

(** [connection.user_id and connection.user_id in exclude_set] *)
Definition excluded (exclude : gset string) (h : hub) (c : string) : bool :=
  match user_of h c with Some u => bool_decide (u ∈ exclude) | None => false end.

(** The sends to a snapshot: who got the payload and whose socket failed.
    [ok] tells which sockets take what is sent. *)
Fixpoint send_all (ok : string -> bool) (cs : list string) : list string * list string :=
  match cs with
  | [] => ([], [])
  | c :: cs' => let '(sent, dead) := send_all ok cs' in if ok c then (c :: sent, dead) else (sent, c :: dead)
  end.

Definition drop (cs : list string) (h : hub) : hub := foldl (fun h c => disconnect c h) h cs.

(** The number of sockets that got it, who they are, and the hub afterwards.
    [h] is the hub of the snapshot and [h1] what the other tasks have made of it
    when the sends are over. *)
Definition broadcast_to_auction (ok : string -> bool) (auction_id : string) (exclude : gset string) (h h1 : hub)
    : nat * list string * hub :=
  let snapshot := List.filter (fun c => negb (excluded exclude h c)) (elements (members (h_rooms h) auction_id)) in
  let '(sent, dead) := send_all ok snapshot in
  (length sent, sent, drop dead h1).

(** ** Notification sockets *)

Definition sockets_of (h : hub) (u : string) : list string := default [] (h_user_connections h !! u).

Definition connect_user (u w : string) (h : hub) : hub :=
  h <| h_user_connections ::= <[u := sockets_of h u ++ [w]]> |> <| h_active ::= fun s => s ∪ {[ inr w ]} |>.

(** [list.remove]: the first one. *)
Fixpoint remove_first (w : string) (l : list string) : list string :=
  match l with
  | [] => []
  | x :: l' => if bool_decide (x = w) then l' else x :: remove_first w l'
  end.

Definition disconnect_user (u w : string) (h : hub) : hub :=
  match sockets_of h u with
  | [] => h
  | l =>
      let l' := remove_first w l in
      h <| h_user_connections ::= if bool_decide (l' = []) then delete u else <[u := l']> |>
        <| h_active ::= fun s => s ∖ {[ inr w ]} |>
  end.

(** To the notification sockets and to the room sockets of the user. *)
Definition send_personal_notification (ok_socket ok : string -> bool) (u : string) (h h1 : hub)
    : nat * (list string * list string) * hub :=
  let '(sent1, dead1) := send_all ok_socket (sockets_of h u) in
  let '(sent2, dead2) := send_all ok (elements (members (h_user_index h) u)) in
  ((length sent1 + length sent2)%nat, (sent1, sent2),
   drop dead2 (foldl (fun h w => disconnect_user u w h) h1 dead1)).

(** ** Lemmas *)

Implicit Types (m : gmap string (gset string)) (h : hub).

Definition no_empty m : Prop := forall k s, m !! k = Some s -> s <> ∅.

Lemma elem_of_add_member m k c k' c' :
  c' ∈ members (add_member m k c) k' <-> c' ∈ members m k' \/ (k' = k /\ c' = c).
Proof.
  unfold add_member, members at 1. destruct (decide (k = k')) as [<-|Hne].
  - rewrite lookup_insert_eq. cbn. set_solver.
  - rewrite lookup_insert_ne by done. unfold members. naive_solver.
Qed.

Lemma no_empty_add m k c : no_empty m -> no_empty (add_member m k c).
Proof. unfold add_member. intros Hm j s [[<- <-]|[_ Hj]]%lookup_insert_Some; [set_solver|by apply (Hm j)]. Qed.

Lemma elem_of_discard_member m k c k' c' :
  c' ∈ members (discard_member m k c) k' <-> c' ∈ members m k' /\ ~ (k' = k /\ c' = c).
Proof.
  unfold discard_member. destruct (m !! k) as [s|] eqn:Hk.
  - assert (members m k = s) as Hs by (unfold members; by rewrite Hk).
    destruct (decide (k = k')) as [<-|Hne].
    + case_bool_decide as He; [rewrite Hs; set_solver|]. cbn zeta. case_bool_decide as He'.
      * unfold members at 1. rewrite lookup_delete_eq, Hs. cbn. set_solver.
      * unfold members at 1. rewrite lookup_insert_eq, Hs. cbn. set_solver.
    + match goal with |- c' ∈ ?x <-> _ => assert (x = members m k') as -> end.
      { case_bool_decide; [done|]. cbn zeta. unfold members.
        case_bool_decide; by rewrite ?lookup_delete_ne, ?lookup_insert_ne. }
      naive_solver.
  - split; [|naive_solver]. intros H. split; [done|]. intros [-> ->]. unfold members in H. rewrite Hk in H. set_solver.
Qed.

Lemma no_empty_discard m k c : no_empty m -> no_empty (discard_member m k c).
Proof.
  intros Hm j s. unfold discard_member. destruct (m !! k); [|by apply Hm].
  case_bool_decide; [by apply Hm|]. cbn zeta. case_bool_decide.
  - intros [_ H1]%lookup_delete_Some. by apply (Hm j).
  - intros [[<- <-]|[_ H1]]%lookup_insert_Some; [done|by apply (Hm j)].
Qed.

(** A connection is in its own room or in none; the sockets of a user are his
    active connections; no key is left without members. *)
Record hub_ok h : Prop := {
  ho_rooms : forall r c, c ∈ members (h_rooms h) r -> exists o, h_objects h !! c = Some o /\ c_auction o = r;
  ho_index : forall u c, c ∈ members (h_user_index h) u <-> inl c ∈ h_active h /\ user_of h c = Some u;
  ho_tidy : no_empty (h_rooms h) /\ no_empty (h_user_index h);
  ho_sockets : forall u l, h_user_connections h !! u = Some l -> l <> [];
  ho_known : forall c, inl c ∈ h_active h -> is_Some (h_objects h !! c);
}.

Lemma no_sockets_ok : hub_ok no_sockets.
Proof.
  split; unfold members, no_sockets; cbn.
  - intros r c. rewrite lookup_empty. set_solver.
  - intros u c. rewrite lookup_empty. set_solver.
  - by split.
  - done.
  - set_solver.
Qed.

Lemma new_connection_ok c r u h : hub_ok h -> hub_ok (new_connection c r u h).
Proof.
  intros [Hr Hi Ht Hs Hk]. unfold new_connection. destruct (h_objects h !! c) eqn:Hc; [done|].
  assert (forall c', inl c' ∈ h_active h -> c' <> c) as Hne.
  { intros c' Ha ->. apply Hk in Ha as [? Ha]. by rewrite Hc in Ha. }
  split; cbn; try done.
  - intros r' c' Hin. destruct (Hr r' c' Hin) as (o & Ho & Har). exists o. rewrite lookup_insert_ne; [done|].
    intros <-. by rewrite Hc in Ho.
  - intros u' c'. rewrite Hi. unfold user_of. cbn. split; intros [Ha Hu]; split; try done;
      [rewrite lookup_insert_ne|rewrite lookup_insert_ne in Hu]; try done; by apply not_eq_sym, Hne.
  - intros c' Ha. rewrite lookup_insert_ne; [by apply Hk|by apply not_eq_sym, Hne].
Qed.

Lemma user_of_object h c o : h_objects h !! c = Some o -> user_of h c = c_user o.
Proof. unfold user_of. by intros ->. Qed.

Lemma connect_ok c h : hub_ok h -> hub_ok (connect c h).
Proof.
  intros [Hr Hi [Ht1 Ht2] Hs Hk]. unfold connect, on_object. destruct (h_objects h !! c) as [o|] eqn:Hc; [|done].
  split; cbn; try done.
  - intros r' c' [H|[-> ->]]%elem_of_add_member; [by apply Hr|by exists o].
  - intros u' c'. change (user_of _ c') with (user_of h c'). unfold _add_to_user_index.
    pose proof (user_of_object h c o Hc) as Hu. destruct (c_user o) as [u|].
    + rewrite elem_of_add_member, Hi. set_unfold. naive_solver congruence.
    + rewrite Hi. set_unfold. naive_solver congruence.
  - split; [by apply no_empty_add|]. unfold _add_to_user_index. destruct (c_user o); [by apply no_empty_add|done].
  - intros c' [H|[= ->]%elem_of_singleton]%elem_of_union; [by apply Hk|by exists o].
Qed.

Lemma disconnect_ok c h : hub_ok h -> hub_ok (disconnect c h).
Proof.
  intros [Hr Hi [Ht1 Ht2] Hs Hk]. unfold disconnect, on_object. destruct (h_objects h !! c) as [o|] eqn:Hc; [|done].
  split; cbn; try done.
  - intros r' c' [H _]%elem_of_discard_member. by apply Hr.
  - intros u' c'. change (user_of _ c') with (user_of h c'). unfold _remove_from_user_index.
    pose proof (user_of_object h c o Hc) as Hu. destruct (c_user o) as [u|].
    + rewrite elem_of_discard_member, Hi. set_unfold. naive_solver congruence.
    + rewrite Hi. set_unfold. naive_solver congruence.
  - split; [by apply no_empty_discard|]. unfold _remove_from_user_index.
    destruct (c_user o); [by apply no_empty_discard|done].
  - intros c' [H _]%elem_of_difference. by apply Hk.
Qed.

Lemma leave_ok c h : hub_ok h -> hub_ok (leave_room c h).
Proof.
  intros [Hr Hi [Ht1 Ht2] Hs Hk]. unfold leave_room, on_object. destruct (h_objects h !! c) as [o|] eqn:Hc; [|done].
  split; cbn; try done.
  - intros r' c' [H _]%elem_of_discard_member. by apply Hr.
  - split; [by apply no_empty_discard|done].
Qed.

Lemma join_ok c r h : hub_ok h -> hub_ok (join_room c r h).
Proof.
  intros [Hr Hi [Ht1 Ht2] Hs Hk]. unfold join_room, on_object. destruct (h_objects h !! c) as [o|] eqn:Hc; [|done].
  case_bool_decide as Hsame; [done|]. set (o' := Connection r (c_user o)).
  assert (forall c', user_of (h <| h_objects ::= <[c := o']> |>) c' = user_of h c') as Hu.
  { intros c'. unfold user_of. cbn. destruct (decide (c = c')) as [<-|Hne].
    - by rewrite lookup_insert_eq, Hc.
    - by rewrite lookup_insert_ne. }
  split; cbn; try done.
  - intros r' c' [[H Hne]%elem_of_discard_member|[-> ->]]%elem_of_add_member.
    + destruct (Hr r' c' H) as (o1 & Ho1 & Har). exists o1. rewrite lookup_insert_ne; [done|].
      intros <-. rewrite Hc in Ho1. injection Ho1 as <-. by apply Hne.
    + exists o'. by rewrite lookup_insert_eq.
  - intros u' c'. specialize (Hu c'). unfold user_of in *. cbn in *. rewrite Hu. apply Hi.
  - split; [by apply no_empty_add, no_empty_discard|done].
  - intros c' H. destruct (decide (c = c')) as [<-|Hne]; [by rewrite lookup_insert_eq|].
    rewrite lookup_insert_ne by done. by apply Hk.
Qed.

Lemma connect_user_ok u w h : hub_ok h -> hub_ok (connect_user u w h).
Proof.
  intros [Hr Hi Ht Hs Hk]. unfold connect_user. split; cbn; try done.
  - intros u' c. rewrite Hi. change (user_of _ c) with (user_of h c). set_solver.
  - intros u' l [[<- <-]|[_ H]]%lookup_insert_Some; [by destruct (sockets_of h u)|by apply (Hs u')].
  - intros c Hc. apply Hk. set_solver.
Qed.

Lemma disconnect_user_ok u w h : hub_ok h -> hub_ok (disconnect_user u w h).
Proof.
  intros [Hr Hi Ht Hs Hk]. unfold disconnect_user. destruct (sockets_of h u) as [|x l]; [done|].
  split; cbn -[remove_first]; try done.
  - intros u' c. rewrite Hi. change (user_of _ c) with (user_of h c). set_solver.
  - intros u' l'. case_bool_decide; [intros [_ H']%lookup_delete_Some; by apply (Hs u')|].
    intros [[<- <-]|[_ H']]%lookup_insert_Some; [done|by apply (Hs u')].
  - intros c Hc. apply Hk. set_solver.
Qed.

Lemma one_room h c r1 r2 : hub_ok h -> c ∈ members (h_rooms h) r1 -> c ∈ members (h_rooms h) r2 -> r1 = r2.
Proof.
  intros Hh (o1 & Ho1 & <-)%(ho_rooms h Hh) (o2 & Ho2 & <-)%(ho_rooms h Hh). congruence.
Qed.

(** ** What tasks may do, in any order *)

Inductive step h : hub -> Prop :=
| s_new c r u : step h (new_connection c r u h)
| s_connect c : step h (connect c h)
| s_disconnect c : step h (disconnect c h)
| s_join c r : step h (join_room c r h)
| s_leave c : step h (leave_room c h)
| s_listen u w : step h (connect_user u w h)
| s_unlisten u w : step h (disconnect_user u w h).

Lemma step_ok h h' : step h h' -> hub_ok h -> hub_ok h'.
Proof.
  destruct 1; [apply new_connection_ok|apply connect_ok|apply disconnect_ok|apply join_ok|apply leave_ok
    |apply connect_user_ok|apply disconnect_user_ok].
Qed.

Lemma steps_ok h h' : rtc step h h' -> hub_ok h -> hub_ok h'.
Proof. induction 1 as [|h h1 h' H _ IH]; [done|]. intros Hh. by apply IH, (step_ok h). Qed.

Lemma drop_steps cs h : rtc step h (drop cs h).
Proof.
  revert h. induction cs as [|c cs IH]; intros h; [done|].
  eapply rtc_l; [apply (s_disconnect h c)|apply IH].
Qed.

Lemma send_all_spec ok cs :
  send_all ok cs = (List.filter ok cs, List.filter (fun c => negb (ok c)) cs).
Proof. induction cs as [|c cs IH]; [done|]. cbn. rewrite IH. by destruct (ok c). Qed.

Lemma objects_disconnect c h : h_objects (disconnect c h) = h_objects h.
Proof. unfold disconnect, on_object. by destruct (h_objects h !! c). Qed.

(** A socket that is disconnected is gone from every room and from its user. *)
Lemma disconnect_members c h :
  hub_ok h ->
  (forall r c', c' ∈ members (h_rooms (disconnect c h)) r <-> c' ∈ members (h_rooms h) r /\ c' <> c) /\
  (forall u c', c' ∈ members (h_user_index (disconnect c h)) u <-> c' ∈ members (h_user_index h) u /\ c' <> c).
Proof.
  intros Hh. pose proof Hh as [Hr Hi _ _ Hk].
  assert (h_objects h !! c = None -> forall r, c ∉ members (h_rooms h) r /\ c ∉ members (h_user_index h) r) as Hnone.
  { intros Hc r. split; intros Hin.
    - destruct (Hr r c Hin) as (o & Ho & _). by rewrite Hc in Ho.
    - apply Hi in Hin as [Ha _]. apply Hk in Ha as [o Ho]. by rewrite Hc in Ho. }
  unfold disconnect, on_object. destruct (h_objects h !! c) as [o|] eqn:Hc.
  - split; intros k c'; cbn.
    + rewrite elem_of_discard_member. split; intros [H1 H2]; (split; [done|]); [|naive_solver].
      intros ->. apply H2. split; [|done]. destruct (Hr k c H1) as (o' & Ho' & <-). rewrite Hc in Ho'. by injection Ho' as <-.
    + unfold _remove_from_user_index. pose proof (user_of_object h c o Hc) as Hu.
      destruct (c_user o) as [u|]; [rewrite elem_of_discard_member|]; split.
      * intros [H1 H2]. split; [done|]. intros ->. apply H2. split; [|done]. apply Hi in H1 as [_ H1]. congruence.
      * intros [H1 H2]. split; [done|]. naive_solver.
      * intros H1. split; [done|]. intros ->. apply Hi in H1 as [_ H1]. congruence.
      * by intros [H1 _].
  - split; intros k c'; (split; [|by intros [? _]]); intros H1; (split; [done|]); intros ->; by destruct (Hnone eq_refl k).
Qed.

Lemma drop_members cs h :
  hub_ok h ->
  (forall r c', c' ∈ members (h_rooms (drop cs h)) r <-> c' ∈ members (h_rooms h) r /\ c' ∉ cs) /\
  (forall u c', c' ∈ members (h_user_index (drop cs h)) u <-> c' ∈ members (h_user_index h) u /\ c' ∉ cs).
Proof.
  revert h. induction cs as [|c cs IH]; intros h Hh; [set_solver|].
  destruct (disconnect_members c h Hh) as [H1 H2]. destruct (IH (disconnect c h) (disconnect_ok c h Hh)) as [H3 H4].
  split; intros k c'; cbn.
  - rewrite H3, H1, not_elem_of_cons. tauto.
  - rewrite H4, H2, not_elem_of_cons. tauto.
Qed.

(** C35. Whatever sockets came, moved and went before and while it was sent, a
    broadcast reaches each socket that was in the room at its start once - those
    of excluded users and broken ones apart - and nobody else; the sockets that
    failed are afterwards in no room and under no user, wherever they have moved
    meanwhile, and every other socket is where the other tasks put it. *)
Theorem broadcast_delivers ok r exclude h h1 :
  rtc step no_sockets h -> rtc step h h1 ->
  let '(n, sent, h') := broadcast_to_auction ok r exclude h h1 in
  let target c := c ∈ members (h_rooms h) r /\ excluded exclude h c = false in
  (n = length sent /\ NoDup sent /\ forall c, c ∈ sent <-> target c /\ ok c = true) /\
  (forall r' c, c ∈ members (h_rooms h') r' <-> c ∈ members (h_rooms h1) r' /\ ~ (target c /\ ok c = false)) /\
  (forall u c, c ∈ members (h_user_index h') u <-> c ∈ members (h_user_index h1) u /\ ~ (target c /\ ok c = false)) /\
  (forall c r1 r2, c ∈ members (h_rooms h') r1 -> c ∈ members (h_rooms h') r2 -> r1 = r2) /\
  rtc step no_sockets h'.
Proof.
  intros Hrun Hrun1. assert (hub_ok h1) as Hh.
  { apply (steps_ok h); [done|]. exact (steps_ok _ _ Hrun no_sockets_ok). }
  unfold broadcast_to_auction. rewrite send_all_spec.
  set (snap := List.filter _ (elements _)).
  assert (forall c, c ∈ snap <-> c ∈ members (h_rooms h) r /\ excluded exclude h c = false) as Hsnap.
  { intros c. unfold snap. rewrite list_elem_of_In, filter_In, <-list_elem_of_In, elem_of_elements, negb_true_iff. done. }
  assert (NoDup snap) as Hnd.
  { apply NoDup_ListNoDup, List.NoDup_filter, NoDup_ListNoDup, NoDup_elements. }
  destruct (drop_members (List.filter (fun c => negb (ok c)) snap) h1 Hh) as [H1 H2].
  assert (forall c, c ∈ List.filter (fun c => negb (ok c)) snap
            <-> (c ∈ members (h_rooms h) r /\ excluded exclude h c = false) /\ ok c = false) as Hdead.
  { intros c. by rewrite list_elem_of_In, filter_In, <-list_elem_of_In, Hsnap, negb_true_iff. }
  split_and!.
  - done.
  - by apply NoDup_ListNoDup, List.NoDup_filter, NoDup_ListNoDup.
  - intros c. by rewrite list_elem_of_In, filter_In, <-list_elem_of_In, Hsnap.
  - intros r' c. by rewrite H1, Hdead.
  - intros u c. by rewrite H2, Hdead.
  - intros c r1 r2 [Hr1 _]%H1 [Hr2 _]%H1. by apply (one_room h1 c).
  - etrans; [exact Hrun|]. etrans; [exact Hrun1|apply drop_steps].
Qed.

(** A socket that left its room cannot come back to it: its room is still noted
    on the connection, so joining does nothing. *)
Lemma rejoin_does_nothing c r h o :
  hub_ok h -> h_objects h !! c = Some o -> c_auction o = r ->
  join_room c r (leave_room c h) = leave_room c h /\ (c ∉ members (h_rooms (leave_room c h)) r).
Proof.
  intros _ Ho Hr. unfold leave_room, join_room, on_object. rewrite Ho. cbn. rewrite Ho.
  rewrite bool_decide_eq_true_2 by done. split; [done|]. rewrite elem_of_discard_member. naive_solver.
Qed.

(** ** Cases *)

Module Hall.

(** Three sockets of two users in a room, and one in another. *)
Definition opened : hub :=
  foldl (fun h x => let '(c, r, u) := x in connect c (new_connection c r (Some u) h)) no_sockets
    [("c1", "a1", "u1"); ("c2", "a1", "u1"); ("c3", "a1", "u2"); ("c4", "a2", "u2")]%string.

Definition flaky (c : string) : bool := negb (bool_decide (c = "c2"%string)).

(** While the payload is sent, the second socket moves to the other room. *)
Definition moved : hub := join_room "c2" "a2" opened.

Lemma opened_run : rtc step no_sockets opened.
Proof. unfold opened. cbn [foldl]. repeat (eapply rtc_r; [|apply s_connect]; eapply rtc_r; [|apply s_new]). done. Qed.

Lemma moved_run : rtc step opened moved.
Proof. apply rtc_once, s_join. Qed.

Definition cast : nat * list string * hub := broadcast_to_auction flaky "a1" {["u2"%string]} opened moved.
End Hall.

Lemma broadcast_delivers_witness :
  (Hall.cast.1.1 = 1%nat /\ Hall.cast.1.2 = ["c1"%string]) /\
  ("c2"%string ∈ members (h_rooms Hall.moved) "a2") /\ ("c2"%string ∉ members (h_rooms (Hall.cast.2)) "a2").
Proof.
  pose proof (broadcast_delivers Hall.flaky "a1" {["u2"%string]} Hall.opened Hall.moved Hall.opened_run Hall.moved_run) as H.
  fold Hall.cast in H. split; [split; vm_compute; reflexivity|].
  split; [apply (bool_decide_unpack _); vm_compute; exact I|].
  destruct Hall.cast as [[n sent] h']. destruct H as (_ & H & _). cbn. rewrite H. intros [_ Hnot].
  apply Hnot. split; [|reflexivity]. split; [|vm_compute; reflexivity].
  apply (bool_decide_unpack _). vm_compute. exact I.
Defined.
