(* ===== verification/TaxInvoice.v ===== *)
(** * Tax invoice numbers

    app/service/domain/tax_invoice_number_service.py with the order repository
    that calls it.  The advisory lock makes allocations sequential; here each
    request runs on its own, so it has no other effect. *)

From stdpp Require Import relations.
From S2P Require Import Prelude PyNum Text Numerals Store.

(** ** tax_invoice_number_service.py *)

Definition INVOICE_PREFIX : string := "AI".

Definition format_tax_invoice_number (year sequence : Z) : string :=
  (INVOICE_PREFIX +:+ str_last 2 (pretty year) +:+ zero_padded 5 sequence)%string.

(** [str(...).strip().upper().replace(" ", "")] *)
Definition invoice_text (s : string) : string :=
  keep_ascii (fun c => negb (Ascii.nat_of_ascii c =? 32)%nat) (upper (strip s)).

Definition BAD_INVOICE : exn :=
  AppException "Invalid invoice number. Use format AI + year + 5 digits (e.g. AI2600001)." 400.

(** [_INVOICE_RE.fullmatch]: the texts of the two groups. *)
Definition invoice_groups (raw : string) : option (string * string) :=
  match raw with
  | String a (String i (String c1 (String c2 rest))) =>
      if (Ascii.nat_of_ascii a =? 65)%nat && (Ascii.nat_of_ascii i =? 73)%nat && is_digit c1 && is_digit c2 && all_chars is_digit rest && (String.length rest =? 5)%nat
      then Some (String c1 (String c2 EmptyString), rest) else None
  | _ => None
  end.

Definition parse_tax_invoice_number (invoice_number : string) : res (Z * Z) :=
  match invoice_groups (invoice_text invoice_number) with
  | None => Raise BAD_INVOICE
  | Some (yy, rest) =>
      let seq := dec_value 0 rest in
      if seq <? 1 then Raise (AppException "Invoice sequence must be at least 00001." 400)
      else Ok (2000 + dec_value 0 yy, seq)
  end.

(** The year of a datetime, as CPython's [_ord2ymd] computes it from the day
    number (day 0 is 0001-01-01). *)
Definition year_of_ordinal (n : Z) : Z :=
  let n400 := n / 146097 in let r400 := n mod 146097 in
  let n100 := r400 / 36524 in let r100 := r400 mod 36524 in
  let n4 := r100 / 1461 in let r4 := r100 mod 1461 in
  let n1 := r4 / 365 in
  let year := n400 * 400 + n100 * 100 + n4 * 4 + n1 + 1 in
  if (n1 =? 4) || (n100 =? 4) then year - 1 else year.

Definition utc_year (t : Z) : Z := year_of_ordinal (t / days 1 + 719162).

(** An order that is not flushed yet has no [created_at]. *)
Definition _invoice_year_for_order (o : DomainRegistrationOrder) : Prog Z :=
  match ro_completed_at o, ro_created_at o with
  | Some t, _ | None, Some t => ret (utc_year t)
  | None, None => do now <- utc_now; ret (utc_year now)
  end.

Definition set_counter (year seq : Z) : Prog unit := modify (fun d => d <| invoice_counters ::= <[year := seq]> |>).

(** INSERT ... ON CONFLICT DO NOTHING, then SELECT ... FOR UPDATE. *)
Definition last_seq (year : Z) (d : DB) : Z := default 0 (invoice_counters d !! year).

(** Returns the order with its number; [None] when it gets none. *)
Definition ensure_tax_invoice_number (o : DomainRegistrationOrder)
    : Prog (DomainRegistrationOrder * option string) :=
  if negb (bool_decide (ro_status o = RegistrationOrderStatus.ACTIVE)) then ret (o, None)
  else if truthy (ro_tax_invoice_number o) then ret (o, ro_tax_invoice_number o)
  else
    do year <- _invoice_year_for_order o;
    do last <- gets (last_seq year);
    let number := format_tax_invoice_number year (last + 1) in
    set_counter year (last + 1) ;;;
    ret (o <| ro_tax_invoice_number := Some number |>, Some number).

(** ** domain_registration_order_repository.py *)

Definition put_order (o : DomainRegistrationOrder) (d : DB) : DB := d <| reg_orders ::= <[ro_id o := o]> |>.

(** Another order has the number (the column is unique). *)
Definition number_taken (o : DomainRegistrationOrder) (d : DB) : bool :=
  match ro_tax_invoice_number o with
  | None => false
  | Some n => existsb (fun q => bool_decide (ro_tax_invoice_number q = Some n) && negb (bool_decide (ro_id q = ro_id o)))
                (values (reg_orders d))
  end.

(** The flush of a changed order. *)
Definition order_flush (o : DomainRegistrationOrder) : Prog unit :=
  do taken <- gets (number_taken o);
  guard_exn (negb taken) (IntegrityError "domain_registration_orders") ;;;
  modify (put_order o).

(** The INSERT of a new order: id and [created_at] are filled in. *)
Definition order_insert (o : DomainRegistrationOrder) : Prog DomainRegistrationOrder :=
  do id <- uuid4;
  do now <- utc_now;
  let stored := o <| ro_id := id |> <| ro_created_at := Some now |> in
  do taken <- gets (number_taken stored);
  guard_exn (negb taken) (IntegrityError "domain_registration_orders") ;;;
  insert_new reg_orders (fun t => set reg_orders (fun _ => t)) "domain_registration_orders" id stored ;;;
  ret stored.

Definition order_create (o : DomainRegistrationOrder) : Prog DomainRegistrationOrder :=
  do (o', _) <- ensure_tax_invoice_number o;
  order_insert o'.

Definition order_save (o : DomainRegistrationOrder) : Prog DomainRegistrationOrder :=
  do (o', _) <- ensure_tax_invoice_number o;
  order_flush o' ;;;
  ret o'.

(** ** The administrator's change *)

Record set_answer := SetAnswer { sa_number : string; sa_previous : option string; sa_unchanged : bool }.

(** GREATEST(last_seq, seq) on conflict. *)
Definition bump_counter (year seq : Z) : Prog unit :=
  modify (fun d => d <| invoice_counters ::= fun t =>
    <[year := match t !! year with Some last => Z.max last seq | None => seq end]> t |>).

Definition admin_set_tax_invoice_number (order_id new_number : string) : Prog set_answer :=
  do (year, seq) <- lift_res (parse_tax_invoice_number new_number);
  let number := format_tax_invoice_number year seq in
  do found <- gets (fun d => reg_orders d !! order_id);
  match found with
  | None => raise (AppException "Domain registration order not found." 404)
  | Some o =>
      guard_exn (bool_decide (ro_status o = RegistrationOrderStatus.ACTIVE))
        (AppException "Invoice numbers can only be set on ACTIVE (successfully registered) orders." 400) ;;;
      let existing := upper (strip (default EmptyString (ro_tax_invoice_number o))) in
      if bool_decide (existing = number) then ret (SetAnswer number None true)
      else
        let o' := o <| ro_tax_invoice_number := Some number |> in
        do taken <- gets (number_taken o');
        guard_exn (negb taken)
          (AppException ("Invoice number " +:+ number +:+ " is already used by another order.")%string 409) ;;;
        bump_counter year seq ;;;
        order_flush o' ;;;
        ret (SetAnswer number (if is_empty existing then None else Some existing) false)
  end.

(** DomainRegistrationOpsService.admin_set_tax_invoice *)
Definition admin_set_tax_invoice (order_id tax_invoice_number : string) : Prog set_answer :=
  do payload <- admin_set_tax_invoice_number order_id tax_invoice_number;
  commit ;;;
  ret payload.

(** ** Reading and printing numbers *)

Lemma year_suffix y : 2000 <= y < 2100 -> str_last 2 (pretty y) = last_digits 2 (y - 2000) EmptyString.
Proof.
  intros Hy.
  assert (forallb (fun i => String.eqb (str_last 2 (pretty (2000 + Z.of_nat i)))
    (last_digits 2 (Z.of_nat i) EmptyString)) (seq 0 100) = true) as Hall by (vm_compute; reflexivity).
  rewrite forallb_forall in Hall. specialize (Hall (Z.to_nat (y - 2000))).
  rewrite in_seq in Hall. specialize (Hall ltac:(lia)). apply String.eqb_eq in Hall.
  by replace (2000 + Z.of_nat (Z.to_nat (y - 2000))) with y in Hall by lia; rewrite Z2Nat.id in Hall by lia.
Qed.

Lemma invoice_text_plain s : all_chars plain s = true -> invoice_text s = s.
Proof.
  intros Hs. unfold invoice_text. rewrite strip_plain, upper_plain by done.
  induction s as [|c s IH]; [done|]. cbn in *. apply andb_true_iff in Hs as [Hc Hs].
  destruct (plain_inv c Hc) as (_ & _ & ->). cbn. by rewrite IH.
Qed.

Lemma format_shape y s : 2000 <= y < 2100 -> 0 <= s < 100000 ->
  format_tax_invoice_number y s
  = String (Ascii.ascii_of_nat 65) (String (Ascii.ascii_of_nat 73)
      (last_digits 2 (y - 2000) (last_digits 5 s EmptyString))).
Proof.
  intros Hy Hs. unfold format_tax_invoice_number, zero_padded.
  rewrite (year_suffix y Hy), (proj2 (Z.ltb_lt s (10 ^ Z.of_nat 5))) by (cbn; lia). reflexivity.
Qed.

Lemma format_plain y s : 2000 <= y < 2100 -> 0 <= s < 100000 ->
  invoice_text (format_tax_invoice_number y s) = format_tax_invoice_number y s.
Proof.
  intros Hy Hs. rewrite (format_shape y s Hy Hs). apply invoice_text_plain. cbn [all_chars].
  rewrite (all_chars_mono _ _ _ digit_plain); [done|]. by rewrite !last_digits_all.
Qed.

Lemma groups_format y s : 2000 <= y < 2100 -> 0 <= s < 100000 ->
  invoice_groups (format_tax_invoice_number y s)
  = Some (last_digits 2 (y - 2000) EmptyString, last_digits 5 s EmptyString).
Proof.
  intros Hy Hs. rewrite (format_shape y s Hy Hs). cbn [last_digits]. unfold invoice_groups.
  pose proof (fun n => proj1 (digit_char_spec _ (mod10 n))) as Hd.
  cbn [all_chars String.length]. by rewrite !Hd.
Qed.

Lemma groups_inv raw yy rest : invoice_groups raw = Some (yy, rest) ->
  raw = String (Ascii.ascii_of_nat 65) (String (Ascii.ascii_of_nat 73) (yy +:+ rest)) /\
  all_chars is_digit yy = true /\ String.length yy = 2%nat /\
  all_chars is_digit rest = true /\ String.length rest = 5%nat.
Proof.
  unfold invoice_groups. destruct raw as [|a [|i [|c1 [|c2 r]]]]; try done.
  destruct (_ && _) eqn:H; [|done]. intros [= <- <-].
  apply andb_true_iff in H as [[[[[Ha%Nat.eqb_eq Hi%Nat.eqb_eq]%andb_true_iff H1]%andb_true_iff
    H2]%andb_true_iff H3]%andb_true_iff H4%Nat.eqb_eq].
  assert (a = Ascii.ascii_of_nat 65) as -> by (rewrite <-(Ascii.ascii_nat_embedding a); by f_equal).
  assert (i = Ascii.ascii_of_nat 73) as -> by (rewrite <-(Ascii.ascii_nat_embedding i); by f_equal).
  cbn [all_chars]. by rewrite H1, H2.
Qed.

Lemma parse_format t y s : 2000 <= y < 2100 -> 1 <= s < 100000 ->
  invoice_text t = format_tax_invoice_number y s -> parse_tax_invoice_number t = Ok (y, s).
Proof.
  intros Hy Hs Ht. unfold parse_tax_invoice_number. rewrite Ht, groups_format by lia.
  pose proof (last_digits_value 5 s EmptyString) as H5. pose proof (last_digits_value 2 (y - 2000) EmptyString) as H2.
  rewrite Z.div_small in H5, H2 by (cbn; lia). rewrite H5, H2. cbn [dec_value].
  rewrite (proj2 (Z.ltb_ge s 1)) by lia. do 2 f_equal. lia.
Qed.

Lemma parse_inv t y s : parse_tax_invoice_number t = Ok (y, s) ->
  2000 <= y < 2100 /\ 1 <= s < 100000 /\ invoice_text t = format_tax_invoice_number y s.
Proof.
  unfold parse_tax_invoice_number. destruct (invoice_groups (invoice_text t)) as [[yy rest]|] eqn:Hg; [|done].
  destruct (Z.ltb_spec (dec_value 0 rest) 1); [done|]. intros [= <- <-].
  apply groups_inv in Hg as (Hraw & Hy1 & Hy2 & Hr1 & Hr2).
  destruct (pad_dec_value 2 yy Hy1 Hy2) as [Hyb Hyp]. destruct (pad_dec_value 5 rest Hr1 Hr2) as [Hrb Hrp].
  change (10 ^ Z.of_nat 2) with 100 in *. change (10 ^ Z.of_nat 5) with 100000 in *.
  split_and!; [lia..|]. rewrite format_shape by lia. rewrite Hrp.
  replace (2000 + dec_value 0 yy - 2000) with (dec_value 0 yy) by lia.
  rewrite Hraw. do 2 f_equal. rewrite <-Hyp at 1. cbn. done.
Qed.

(** A text is read as the number (year, sequence) exactly when, without
    blanks and in capitals, it is the number printed for them, the year is in
    2000-2099 and the sequence has five digits; so reading gives back what
    was printed. *)
Theorem invoice_number_round_trip t y s :
  (parse_tax_invoice_number t = Ok (y, s) <->
   2000 <= y < 2100 /\ 1 <= s < 100000 /\ invoice_text t = format_tax_invoice_number y s) /\
  (2000 <= y < 2100 -> 1 <= s < 100000 ->
   parse_tax_invoice_number (format_tax_invoice_number y s) = Ok (y, s)).
Proof.
  split; [split; [apply parse_inv|intros (Hy & Hs & Ht); by apply parse_format]|].
  intros Hy Hs. apply parse_format; [done..|apply format_plain; lia].
Qed.

(** ** Numbers are given once *)

Lemma format_chars y s : 2000 <= y < 2100 ->
  format_tax_invoice_number y s
  = String (Ascii.ascii_of_nat 65) (String (Ascii.ascii_of_nat 73)
      (String (digit_char ((y - 2000) / 10 mod 10)) (String (digit_char ((y - 2000) mod 10)) (zero_padded 5 s)))).
Proof. intros Hy. unfold format_tax_invoice_number. by rewrite year_suffix. Qed.

Lemma format_inj y s y' s' : 2000 <= y < 2100 -> 2000 <= y' < 2100 -> 0 <= s -> 0 <= s' ->
  format_tax_invoice_number y s = format_tax_invoice_number y' s' -> y = y' /\ s = s'.
Proof.
  intros Hy Hy' Hs Hs'. rewrite !format_chars by done. intros [= H1 H2 H3].
  split; [|by apply (zero_padded_inj 5)].
  apply (f_equal digit_value) in H1, H2.
  rewrite !(proj2 (digit_char_spec _ (mod10 _))) in H1. rewrite !(proj2 (digit_char_spec _ (mod10 _))) in H2.
  rewrite !Z.mod_small in H1 by (split; [apply Z.div_pos; lia|apply Z.div_lt_upper_bound; lia]).
  pose proof (Z.div_mod (y - 2000) 10 ltac:(lia)). pose proof (Z.div_mod (y' - 2000) 10 ltac:(lia)). lia.
Qed.

(** The numbers of a database: every number on an order was counted, no two
    orders have the same. *)
Record invoices_ok (d : DB) : Prop := {
  io_key : forall k o, reg_orders d !! k = Some o -> ro_id o = k;
  io_count : forall y, 0 <= last_seq y d;
  io_known : forall k o n, reg_orders d !! k = Some o -> ro_tax_invoice_number o = Some n ->
    exists y s, 2000 <= y < 2100 /\ 1 <= s <= last_seq y d /\ n = format_tax_invoice_number y s;
  io_unique : forall k k' o o' n, reg_orders d !! k = Some o -> reg_orders d !! k' = Some o' ->
    ro_tax_invoice_number o = Some n -> ro_tax_invoice_number o' = Some n -> k = k';
}.

Definition in_window (t : Z) : Prop := 2000 <= utc_year t < 2100.

(** All dates the year of the order's number can come from are in the century. *)
Definition dated (o : DomainRegistrationOrder) : Prop :=
  forall t, ro_completed_at o = Some t \/ ro_created_at o = Some t -> in_window t.

(** No order has the number. *)
Definition unused (n : string) (d : DB) : Prop :=
  forall k o, reg_orders d !! k = Some o -> ro_tax_invoice_number o <> Some n.

Lemma unused_next y d : invoices_ok d -> 2000 <= y < 2100 ->
  unused (format_tax_invoice_number y (last_seq y d + 1)) d.
Proof.
  intros Hd Hy k o Ho Hn. destruct (io_known d Hd k o _ Ho Hn) as (y' & s & Hy' & Hs & Heq).
  pose proof (io_count d Hd y). apply format_inj in Heq as [-> Heq]; lia.
Qed.

Lemma last_seq_counter y y' s d :
  last_seq y' (d <| invoice_counters ::= <[y := s]> |>) = if decide (y = y') then s else last_seq y' d.
Proof. unfold last_seq. cbn. rewrite lookup_insert. by case_decide. Qed.

(** Raising a counter keeps everything. *)
Lemma counter_ok y s d : invoices_ok d -> last_seq y d <= s -> invoices_ok (d <| invoice_counters ::= <[y := s]> |>).
Proof.
  intros Hd Hs. assert (forall z, last_seq z d <= last_seq z (d <| invoice_counters ::= <[y := s]> |>)) as Hmono.
  { intros z. rewrite last_seq_counter. case_decide; [by subst|done]. }
  split; [apply (io_key d Hd)| | |apply (io_unique d Hd)].
  - intros z. specialize (Hmono z). pose proof (io_count d Hd z). lia.
  - intros k o n Ho Hn. destruct (io_known d Hd k o n Ho Hn) as (z & q & Hz & Hq & ->).
    exists z, q. specialize (Hmono z). split_and!; [lia..|done].
Qed.

Lemma taken_false o n d :
  number_taken o d = false -> ro_tax_invoice_number o = Some n ->
  forall k q, reg_orders d !! k = Some q -> ro_tax_invoice_number q = Some n -> ro_id q = ro_id o.
Proof.
  unfold number_taken. intros H Ho k q Hq Hn. rewrite Ho in H. apply not_true_iff_false in H.
  destruct (decide (ro_id q = ro_id o)) as [|Hne]; [done|]. exfalso. apply H, existsb_exists. exists q. split.
  - apply list_elem_of_In. unfold values. apply list_elem_of_fmap. exists (k, q). split; [done|].
    by apply elem_of_map_to_list.
  - by rewrite (bool_decide_eq_true_2 _ Hn), (bool_decide_eq_false_2 _ Hne).
Qed.

Lemma taken_unused o d :
  (forall k q, reg_orders d !! k = Some q -> ro_id q = k) ->
  (forall n, ro_tax_invoice_number o = Some n ->
     forall k q, reg_orders d !! k = Some q -> ro_tax_invoice_number q = Some n -> k = ro_id o) ->
  number_taken o d = false.
Proof.
  intros Hkey H. unfold number_taken. destruct (ro_tax_invoice_number o) as [n|]; [|done].
  apply not_true_iff_false. intros (q & Hq & Ht)%existsb_exists.
  apply list_elem_of_In in Hq. unfold values in Hq. apply list_elem_of_fmap in Hq as ([k q'] & -> & Hk%elem_of_map_to_list).
  cbn in Ht. apply andb_true_iff in Ht as [Hn%bool_decide_eq_true Hne%negb_true_iff].
  apply bool_decide_eq_false in Hne. apply Hne. rewrite (Hkey k q' Hk). by eapply H.
Qed.

(** Writing an order whose number was counted and that no other order has. *)
Lemma order_write_ok o d :
  invoices_ok d -> number_taken o d = false ->
  (forall n, ro_tax_invoice_number o = Some n ->
     exists y s, 2000 <= y < 2100 /\ 1 <= s <= last_seq y d /\ n = format_tax_invoice_number y s) ->
  invoices_ok (put_order o d).
Proof.
  intros Hd Ht Hn.
  assert (forall k q, reg_orders (put_order o d) !! k = Some q ->
    (k = ro_id o /\ q = o) \/ (k <> ro_id o /\ reg_orders d !! k = Some q)) as Hput.
  { intros k q Hq. cbn in Hq. apply lookup_insert_Some in Hq as [[<- <-]|[Hk Hq]]; [by left|by right]. }
  split.
  - intros k q [[-> ->]|[_ Hq]]%Hput; [done|by apply (io_key d Hd)].
  - apply (io_count d Hd).
  - intros k q n [[-> ->]|[_ Hq]]%Hput; [apply Hn|by apply (io_known d Hd k)].
  - intros k k' q q' n [[-> ->]|[Hk Hq]]%Hput [[-> ->]|[Hk' Hq']]%Hput H1 H2; [done| | |].
    + pose proof (taken_false o n d Ht H1 k' q' Hq' H2) as H. by rewrite (io_key d Hd k' q' Hq') in H.
    + pose proof (taken_false o n d Ht H2 k q Hq H1) as H. by rewrite (io_key d Hd k q Hq) in H.
    + by eapply (io_unique d Hd).
Qed.

(** The clock of a session stays in the century. *)
Definition clock_ok (s : Session) : Prop := forall n, in_window (s_clock s n).

Lemma invoice_year_run o (s : Session) : dated o -> clock_ok s ->
  exists y s', _invoice_year_for_order o s = (Ok y, s') /\ 2000 <= y < 2100 /\
    s_db s' = s_db s /\ s_committed s' = s_committed s /\ s_ids s' = s_ids s /\ clock_ok s'.
Proof.
  intros Ho Hs. unfold _invoice_year_for_order.
  destruct (ro_completed_at o) as [t|] eqn:Hc; [|destruct (ro_created_at o) as [t|] eqn:Hr].
  - exists (utc_year t), s. split_and!; try done; apply Ho; by left.
  - exists (utc_year t), s. split_and!; try done; apply Ho; by right.
  - eexists _, _. split; [reflexivity|]. cbn. split_and!; try done; try apply Hs. intros n. apply Hs.
Qed.

(** What becomes of the number of an order: kept, or the next of its year. *)
Definition numbered (o o' : DomainRegistrationOrder) (d d' : DB) : Prop :=
  (o' = o /\ d' = d /\ (ro_status o = RegistrationOrderStatus.ACTIVE -> truthy (ro_tax_invoice_number o) = true)) \/
  exists y, 2000 <= y < 2100 /\ ro_status o = RegistrationOrderStatus.ACTIVE /\
    truthy (ro_tax_invoice_number o) = false /\
    o' = o <| ro_tax_invoice_number := Some (format_tax_invoice_number y (last_seq y d + 1)) |> /\
    d' = d <| invoice_counters ::= <[y := last_seq y d + 1]> |>.

Lemma ensure_run o (s : Session) : dated o -> clock_ok s ->
  exists o' num s', ensure_tax_invoice_number o s = (Ok (o', num), s') /\
    numbered o o' (s_db s) (s_db s') /\
    s_committed s' = s_committed s /\ s_ids s' = s_ids s /\ clock_ok s'.
Proof.
  intros Ho Hs. unfold ensure_tax_invoice_number. case_bool_decide as Hst; cbn [negb].
  2:{ exists o, None, s. split; [reflexivity|]. by split_and!; [left|..]. }
  destruct (truthy (ro_tax_invoice_number o)) eqn:Htr.
  { exists o, (ro_tax_invoice_number o), s. split; [reflexivity|]. by split_and!; [left|..]. }
  destruct (invoice_year_run o s Ho Hs) as (y & s1 & Hrun & Hy & Hd & Hc & Hi & Hk).
  unfold bind at 1. rewrite Hrun. unfold bind, gets, set_counter, modify. cbn. rewrite Hd.
  eexists _, _, _. split; [reflexivity|]. cbn. split_and!; try done. right. by exists y.
Qed.

Lemma numbered_ok o o' d d' : invoices_ok d -> numbered o o' d d' ->
  invoices_ok d' /\ reg_orders d' = reg_orders d /\ ro_id o' = ro_id o.
Proof.
  intros Hd [(-> & -> & _)|(y & Hy & _ & _ & -> & ->)]; [done|]. split_and!; [|done..].
  apply counter_ok; [done|lia].
Qed.

(** The numbers an order may carry: none, or a counted one of its own. *)
Definition own_number (o : DomainRegistrationOrder) (d : DB) : Prop :=
  forall n, ro_tax_invoice_number o = Some n ->
    exists q, reg_orders d !! ro_id o = Some q /\ ro_tax_invoice_number q = Some n.

Lemma numbered_writable o o' d d' : invoices_ok d -> own_number o d -> numbered o o' d d' ->
  number_taken o' d' = false /\ invoices_ok (put_order o' d').
Proof.
  intros Hd Hown H. pose proof (numbered_ok _ _ _ _ Hd H) as (Hd' & Hrows & Hid).
  assert (number_taken o' d' = false) as Ht.
  { apply taken_unused; [apply (io_key d' Hd')|]. rewrite Hrows, Hid. intros n Hn k q Hq Hqn.
    destruct H as [(-> & -> & _)|(y & Hy & _ & _ & -> & ->)].
    - destruct (Hown n Hn) as (q' & Hq' & Hqn'). by eapply (io_unique d Hd).
    - cbn in Hn. injection Hn as <-. by destruct (unused_next y d Hd Hy k q Hq). }
  split; [done|]. apply order_write_ok; [done..|]. intros n Hn.
  destruct H as [(-> & -> & _)|(y & Hy & _ & _ & -> & ->)].
  - destruct (Hown n Hn) as (q' & Hq' & Hqn'). by eapply (io_known d Hd).
  - cbn in Hn. injection Hn as <-. exists y, (last_seq y d + 1). rewrite last_seq_counter, decide_True by done.
    pose proof (io_count d Hd y). split_and!; [lia..|done].
Qed.

Lemma order_save_run o (s : Session) : invoices_ok (s_db s) -> own_number o (s_db s) -> dated o -> clock_ok s ->
  exists o' s', order_save o s = (Ok o', s') /\ invoices_ok (s_db s') /\ s_committed s' = s_committed s /\
    reg_orders (s_db s') = <[ro_id o := o']> (reg_orders (s_db s)) /\
    exists d1, numbered o o' (s_db s) d1 /\ invoice_counters (s_db s') = invoice_counters d1.
Proof.
  intros Hd Hown Ho Hs. destruct (ensure_run o s Ho Hs) as (o' & num & s1 & Hrun & Hnum & Hc & _).
  destruct (numbered_writable _ _ _ _ Hd Hown Hnum) as [Ht Hok].
  pose proof (numbered_ok _ _ _ _ Hd Hnum) as (_ & Hrows & Hid).
  exists o'. unfold order_save, bind at 1. rewrite Hrun. unfold order_flush, bind, gets. cbn. rewrite Ht. cbn.
  eexists. split; [reflexivity|]. cbn. split_and!; try done; [by rewrite Hrows, Hid|]. by exists (s_db s1).
Qed.

Lemma order_create_keeps o (s : Session) : good invoices_ok s -> ro_tax_invoice_number o = None -> dated o -> clock_ok s ->
  good invoices_ok (order_create o s).2.
Proof.
  intros [Hc0 Hd] Hnone Ho Hs. destruct (ensure_run o s Ho Hs) as (o' & num & s1 & Hrun & Hnum & Hc & Hi & _).
  pose proof (numbered_ok _ _ _ _ Hd Hnum) as (Hd1 & Hrows & Hid).
  unfold order_create, bind at 1. rewrite Hrun. unfold order_insert, bind, uuid4, utc_now, gets. cbn.
  destruct (number_taken _ _) eqn:Ht; cbn; [split; cbn; [by rewrite Hc|done]|].
  unfold insert_new, bind, gets. cbn. destruct (reg_orders (s_db s1) !! s_ids s1 0%nat) as [q|] eqn:Hq; cbn;
    (split; cbn; [by rewrite Hc|]); [done|].
  match goal with |- invoices_ok ?d => change d with (put_order (o' <| ro_id := s_ids s1 0%nat |>
    <| ro_created_at := Some (s_clock s1 0%nat) |>) (s_db s1)) end.
  apply order_write_ok; [done..|]. cbn. intros n Hn.
  destruct Hnum as [(-> & _)|(y & Hy & _ & _ & -> & ->)]; [congruence|].
  cbn in Hn. injection Hn as <-. exists y, (last_seq y (s_db s) + 1). rewrite last_seq_counter, decide_True by done.
  pose proof (io_count _ Hd y). split_and!; [lia..|done].
Qed.

Lemma bump_ok y s d : invoices_ok d -> 0 <= s ->
  invoices_ok (d <| invoice_counters ::= fun t =>
    <[y := match t !! y with Some last => Z.max last s | None => s end]> t |>).
Proof.
  intros Hd Hs.
  assert (last_seq y d <= match invoice_counters d !! y with Some last => Z.max last s | None => s end) as Hle.
  { unfold last_seq. destruct (invoice_counters d !! y); cbn; lia. }
  exact (counter_ok y _ d Hd Hle).
Qed.

Lemma good_same (I : DB -> Prop) d out clock ids : I d -> good I ({| s_committed := d; s_db := d; s_out := out; s_clock := clock; s_ids := ids |} : Session).
Proof. by split. Qed.

Lemma admin_set_keeps id n (s : Session) : good invoices_ok s -> good invoices_ok (admin_set_tax_invoice id n s).2.
Proof.
  intros Hs. change (wp (admin_set_tax_invoice id n) (fun _ => good invoices_ok) s).
  unfold admin_set_tax_invoice, admin_set_tax_invoice_number, order_flush, bump_counter.
  wp_steps. destruct (parse_tax_invoice_number n) as [[y q]|e] eqn:Hp; [|done]. apply parse_inv in Hp as (Hy & Hq & _).
  wp_steps. destruct (reg_orders (s_db s) !! id) as [o|] eqn:Ho; [|done].
  wp_steps; [|done]. destruct (bool_decide (upper _ = _)); [wp_steps; destruct Hs; by split|]. wp_steps;
    [|match goal with Ht : negb _ = true, Hf : negb _ = false |- _ => discriminate (eq_trans (eq_sym Hf) Ht) end|done].
  apply good_same.
  destruct Hs as [_ Hd]. apply order_write_ok; [apply bump_ok; [done|lia]|by apply negb_true_iff|].
  cbn. intros m [= <-]. exists y, q. split; [done|]. split; [|done].
  split; [lia|]. unfold last_seq. cbn. rewrite lookup_insert_eq. cbn. destruct (_ !! y); lia.
Qed.

(** A new order, a changed order being saved, or the administrator's change,
    with any other columns, at times of the century. *)
Inductive invoice_step (d : DB) : DB -> Prop :=
| Created_order clock ids o : ro_tax_invoice_number o = None -> dated o -> (forall n, in_window (clock n)) ->
    invoice_step d (run_request clock ids (order_create o ;;; commit) d).2
| Saved_order clock ids o : own_number o d -> dated o -> (forall n, in_window (clock n)) ->
    invoice_step d (run_request clock ids (order_save o ;;; commit) d).2
| Changed_number clock ids id n : invoice_step d (run_request clock ids (admin_set_tax_invoice id n) d).2.

Lemma good_commit (m : Prog DomainRegistrationOrder) I (s : Session) :
  good I (m s).2 -> good I ((m ;;; commit) s).2.
Proof. unfold bind. destruct (m s) as [[a|e] s']; [|done]. by intros [_ H]. Qed.

Lemma run_good {A} clock ids (m : Prog A) I d : good I (m (open_session clock ids d)).2 -> I (run_request clock ids m d).2.
Proof. unfold run_request. destruct (m _) as [r s]. by intros [H _]. Qed.

Lemma invoice_step_ok d d' : invoice_step d d' -> invoices_ok d -> invoices_ok d'.
Proof.
  intros [clock ids o H1 H2 H3|clock ids o H1 H2 H3|clock ids id n] Hd; apply run_good.
  - apply good_commit. by apply order_create_keeps.
  - apply good_commit. destruct (order_save_run o (open_session clock ids d) Hd H1 H2 H3) as (o' & s' & Hrun & Hok & Hc & _).
    rewrite Hrun. split; [cbn; by rewrite Hc|done].
  - by apply admin_set_keeps.
Qed.

(** C31. Invoice numbers stay unique: whatever orders are made, saved or given a
    number by hand, no two orders ever have the same number, and every number
    was counted, so that it is not given again. *)
Theorem invoice_numbers_unique d d' :
  rtc invoice_step d d' -> invoices_ok d ->
  (forall k k' o o' n, reg_orders d' !! k = Some o -> reg_orders d' !! k' = Some o' ->
     ro_tax_invoice_number o = Some n -> ro_tax_invoice_number o' = Some n -> k = k') /\
  (forall k o n, reg_orders d' !! k = Some o -> ro_tax_invoice_number o = Some n ->
     exists y s, 1 <= s <= last_seq y d' /\ n = format_tax_invoice_number y s).
Proof.
  intros H Hd. assert (invoices_ok d') as Hok.
  { induction H as [|d d1 d' Hstep _ IH]; [done|]. by apply IH, (invoice_step_ok d). }
  split; [apply (io_unique d' Hok)|]. intros k o n Ho Hn.
  destruct (io_known d' Hok k o n Ho Hn) as (y & s & _ & Hs & ->). by exists y, s.
Qed.

(** Saving an active order that has no number always succeeds and gives it
    the next number of its year, which no order had; an order with a number, or
    one that is not active, is saved as it is. *)
Theorem order_save_numbers clock ids o d :
  invoices_ok d -> own_number o d -> dated o -> (forall n, in_window (clock n)) ->
  exists o' d', run_request clock ids (order_save o ;;; commit) d = (Ok tt, d') /\
    reg_orders d' = <[ro_id o := o']> (reg_orders d) /\
    if bool_decide (ro_status o = RegistrationOrderStatus.ACTIVE) && negb (truthy (ro_tax_invoice_number o))
    then exists y, o' = o <| ro_tax_invoice_number := Some (format_tax_invoice_number y (last_seq y d + 1)) |> /\
           unused (format_tax_invoice_number y (last_seq y d + 1)) d /\ last_seq y d' = last_seq y d + 1
    else o' = o /\ invoice_counters d' = invoice_counters d.
Proof.
  intros Hd Hown Ho Hclock.
  destruct (order_save_run o (open_session clock ids d) Hd Hown Ho Hclock)
    as (o' & s' & Hrun & _ & _ & Hrows & d1 & Hnum & Hcount).
  exists o', (s_db s'). unfold run_request, bind. rewrite Hrun. split; [reflexivity|]. split; [exact Hrows|].
  destruct (bool_decide _ && _) eqn:Hact.
  - apply andb_true_iff in Hact as [Hst%bool_decide_eq_true Htr%negb_true_iff].
    destruct Hnum as [(-> & -> & Hnum)|(y & Hy & _ & _ & -> & ->)].
    + exfalso. rewrite (Hnum Hst) in Htr. discriminate.
    + exists y. split_and!; [done|by apply unused_next|].
      unfold last_seq. rewrite Hcount. change (last_seq y (d <| invoice_counters ::= <[y := last_seq y d + 1]> |>) = last_seq y d + 1).
      by rewrite last_seq_counter, decide_True.
  - destruct Hnum as [(-> & -> & _)|(y & Hy & Hst & Htr & -> & ->)]; [done|].
    by rewrite (bool_decide_eq_true_2 _ Hst), Htr in Hact.
Qed.

(** ** Cases *)

(** After 99999 numbers of a year the numbers leave their format: the next one
    has six digits, and an administrator cannot enter it. *)
Lemma number_overflow :
  format_tax_invoice_number 2026 100000 = "AI26100000"%string /\
  parse_tax_invoice_number "AI26100000" = Raise BAD_INVOICE.
Proof. split; vm_compute; reflexivity. Qed.

Example year_2024 : utc_year (days 19723) = 2024 /\ utc_year (days 19723 - 1) = 2023.
Proof. split; vm_compute; reflexivity. Qed.

(** *** Witnesses *)

Module Invoices.

(** Midnight of 2026-01-01 and on. *)
Definition clock_2026 : nat -> Z := fun n => days 20454 + Z.of_nat n mod days 300.
Definition ids_of (p : string) : nat -> string := fun n => (p +:+ pretty n)%string.

Definition order (id : string) : DomainRegistrationOrder :=
  MkOrder id "acme" ".com" "u1" None None None 1 None None (fl_of_Z 118) None None RegistrationOrderStatus.ACTIVE
    None None None None 0 (Some (days 20454)) None.

Definition db : DB := empty_db <| reg_orders := {[ "o1" := order "o1"; "o2" := order "o2" ]} |>.

Definition save (id : string) (d : DB) : DB := (run_request clock_2026 (ids_of "n") (order_save (order id) ;;; commit) d).2.
Definition renumber (id n : string) (d : DB) : DB := (run_request clock_2026 (ids_of "n") (admin_set_tax_invoice id n) d).2.
Definition number_of (id : string) (d : DB) : option string :=
  match reg_orders d !! id with Some o => ro_tax_invoice_number o | None => None end.
End Invoices.

Import Invoices.

Lemma days_mul n : days n = n * 86400000000.
Proof. unfold days, hours, minutes, seconds. lia. Qed.

Lemma day_in_window n : 0 <= n < 300 * 86400000000 -> in_window (days 20454 + n).
Proof.
  intros Hn. unfold in_window, utc_year. rewrite !days_mul, Z.mul_1_l, Z.add_comm, Z.add_comm, Z.div_add_l by lia.
  assert (0 <= n / 86400000000 < 300) as Hq.
  { split; [by apply Z.div_pos; lia|by apply Z.div_lt_upper_bound; lia]. }
  assert (forallb (fun i => year_of_ordinal (20454 + Z.of_nat i + 719162) =? 2026) (seq 0 300) = true) as Hall
    by (vm_compute; reflexivity).
  rewrite forallb_forall in Hall. specialize (Hall (Z.to_nat (n / 86400000000))). rewrite in_seq in Hall.
  specialize (Hall ltac:(lia)). apply Z.eqb_eq in Hall. rewrite Z2Nat.id in Hall by lia. rewrite Hall. lia.
Qed.

Lemma clock_in_window n : in_window (clock_2026 n).
Proof.
  apply day_in_window. replace (300 * 86400000000) with (days 300) by reflexivity.
  apply Z.mod_pos_bound. reflexivity.
Qed.

Lemma order_dated id : dated (order id).
Proof. intros t [H|H]; [discriminate H|]. injection H as <-. by apply (day_in_window 0). Qed.

Lemma order_own id d : own_number (order id) d.
Proof. intros n H. discriminate H. Qed.

Lemma db_ok : invoices_ok db.
Proof.
  assert (forall k o, reg_orders db !! k = Some o -> o = order k) as Hdb.
  { intros k o Ho. cbn in Ho. apply lookup_insert_Some in Ho as [[<- <-]|[_ Ho]]; [done|].
    by apply lookup_singleton_Some in Ho as [<- <-]. }
  split.
  - intros k o Ho. by rewrite (Hdb k o Ho).
  - intros y. unfold last_seq. cbn. by rewrite lookup_empty.
  - intros k o n Ho Hn. rewrite (Hdb k o Ho) in Hn. discriminate Hn.
  - intros k k' o o' n Ho _ Hn. rewrite (Hdb k o Ho) in Hn. discriminate Hn.
Qed.

Lemma invoice_numbers_unique_witness :
  number_of "o1" (save "o2" (renumber "o1" " ai26 00041" (save "o1" db))) = Some "AI2600041"%string /\
  number_of "o2" (save "o2" (renumber "o1" " ai26 00041" (save "o1" db))) <> Some "AI2600041"%string.
Proof.
  set (d' := save "o2" _). assert (rtc invoice_step db d') as Hrun.
  { eapply rtc_l; [apply (Saved_order db clock_2026 (ids_of "n") (order "o1"));
      [apply order_own|apply order_dated|apply clock_in_window]|].
    eapply rtc_l; [apply (Changed_number _ clock_2026 (ids_of "n") "o1" " ai26 00041")|].
    eapply rtc_l; [apply (Saved_order _ clock_2026 (ids_of "n") (order "o2"));
      [apply order_own|apply order_dated|apply clock_in_window]|apply rtc_refl]. }
  destruct (invoice_numbers_unique db d' Hrun db_ok) as [Huniq _].
  assert (number_of "o1" d' = Some "AI2600041"%string) as H1 by (vm_compute; reflexivity).
  split; [exact H1|]. intros H2. unfold number_of in H1, H2.
  destruct (reg_orders d' !! "o1"%string) as [o1|] eqn:Ho1; [|discriminate H1].
  destruct (reg_orders d' !! "o2"%string) as [o2|] eqn:Ho2; [|discriminate H2].
  discriminate (Huniq _ _ o1 o2 _ Ho1 Ho2 H1 H2).
Defined.

Lemma order_save_numbers_witness :
  number_of "o2" (save "o2" (renumber "o1" "AI2600041" db)) = Some "AI2600042"%string /\
  exists o', is_Some (ro_tax_invoice_number o') /\
    reg_orders (save "o1" db) = <["o1"%string := o']> (reg_orders db).
Proof.
  split; [vm_compute; reflexivity|].
  destruct (order_save_numbers clock_2026 (ids_of "n") (order "o1") db db_ok (order_own _ _) (order_dated _)
    clock_in_window) as (o' & d' & Hrun & Hrows & Hnum).
  cbn [bool_decide andb negb truthy order ro_status ro_tax_invoice_number] in Hnum.
  destruct Hnum as (y & -> & _). eexists. split; [|unfold save; rewrite Hrun; exact Hrows]. by eexists.
Defined.
