(* ===== verification/RevealOtp.v ===== *)
(** * The one-time code in front of the auth code

    app/service/auth/transfer_auth_reveal_otp_service.py over
    transfer_auth_reveal_otp_cache.py.  The cache is the process memory (Redis
    keeps the same entries): it is not part of the database transaction, so
    every operation returns the new cache next to its result. *)

From Stdlib Require Import Sorting.Sorted.
From S2P Require Import Prelude PyNum Text Sha256 Store Gateway EdgePoints.

Definition _OTP_TTL : Z := seconds 600.
Definition _MAX_ATTEMPTS : Z := 5.

Record otp_entry := OtpEntry { oe_hash : string; oe_attempts : Z }.

(** Key -> (expiry, entry).  An expired entry counts as absent (the code drops
    it when it meets it). *)
Abbreviation otp_cache := (gmap string (Z * otp_entry)).

Definition cache_get (now : Z) (key : string) (c : otp_cache) : option otp_entry :=
  match c !! key with
  | Some (expires_at, e) => if expires_at <=? now then None else Some e
  | None => None
  end.

Definition cache_set (now : Z) (key : string) (e : otp_entry) (c : otp_cache) : otp_cache :=
  <[key := (now + _OTP_TTL, e)]> c.

Section Otp.
Context {cfg : Config}.

(** core/security.py: HMAC-SHA-256 under the token pepper. *)
Definition hash_otp_code (raw_code : string) : string := hmac_hexdigest JWT_REFRESH_TOKEN_PEPPER raw_code.

Definition _key (transaction_id buyer_id : string) : string :=
  ("transfer_reveal:" +:+ transaction_id +:+ ":" +:+ buyer_id)%string.

(** [otp] is the six-digit code drawn by [secrets]; [mail] the outcome of the mail. *)
Definition send_otp (now : Z) (mail : res unit) (otp transaction_id : string) (buyer : AppUser) (c : otp_cache)
    : res unit * otp_cache :=
  if negb MAIL_CONFIGURED then (Raise (AppException "Email is not configured." 503), c)
  else (mail, cache_set now (_key transaction_id (u_id buyer)) (OtpEntry (hash_otp_code otp) 0) c).

Definition verify_otp (now : Z) (transaction_id : string) (buyer : AppUser) (otp : string) (c : otp_cache)
    : res unit * otp_cache :=
  let key := _key transaction_id (u_id buyer) in
  match cache_get now key c with
  | None => (Raise (AppException "OTP expired or not sent. Request a new code." 400), c)
  | Some e =>
      if _MAX_ATTEMPTS <=? oe_attempts e then
        (Raise (AppException "Too many attempts. Request a new code." 429), c)
      else if negb (bool_decide (hash_otp_code (strip otp) = oe_hash e)) then
        (Raise (AppException "Invalid OTP." 400),
         cache_set now key (OtpEntry (oe_hash e) (oe_attempts e + 1)) c)
      else (Ok tt, delete key c)
  end.

Definition has_pending_otp (now : Z) (transaction_id buyer_id : string) (c : otp_cache) : bool :=
  match cache_get now (_key transaction_id buyer_id) c with Some _ => true | None => false end.

(** A series of guesses at given times. *)
Fixpoint guesses (transaction_id : string) (buyer : AppUser) (l : list (Z * string)) (c : otp_cache)
    : list (res unit) * otp_cache :=
  match l with
  | [] => ([], c)
  | (now, otp) :: l' =>
      let '(r, c1) := verify_otp now transaction_id buyer otp c in
      let '(rs, c2) := guesses transaction_id buyer l' c1 in
      (r :: rs, c2)
  end.
End Otp.

(** ** Lemmas *)

Section Lemmas.
Context {cfg : Config}.

(** A guess that does not match the hash [h]. *)
Definition wrong (h otp : string) : Prop := hash_otp_code (strip otp) <> h.

(** From time [m] on, the entry under [key] has at most [_MAX_ATTEMPTS - k] guesses left. *)
Definition worn (key h : string) (m k : Z) (c : otp_cache) : Prop :=
  match c !! key with
  | Some (t, e) => (k <= oe_attempts e /\ oe_hash e = h) \/ t <= m
  | None => True
  end.

Lemma verify_worn now m k tid buyer otp h c :
  worn (_key tid (u_id buyer)) h m k c -> m <= now -> k + 1 <= _MAX_ATTEMPTS -> wrong h otp ->
  is_ok (verify_otp now tid buyer otp c).1 = false /\
  worn (_key tid (u_id buyer)) h now (k + 1) (verify_otp now tid buyer otp c).2.
Proof.
  unfold worn, verify_otp, cache_get. set (key := _key tid (u_id buyer)). intros Hw Hm Hk Hwrong.
  destruct (c !! key) as [[t e]|] eqn:Hc; [|split; [done|]; cbn; by rewrite Hc].
  destruct (Z.leb_spec t now) as [Ht|Ht].
  { split; [done|]. cbn. rewrite Hc. by right. }
  destruct Hw as [[Hn Hh]|?]; [|lia]. subst h. destruct (Z.leb_spec _MAX_ATTEMPTS (oe_attempts e)).
  { split; [done|]. cbn. rewrite Hc. left. split; [lia|done]. }
  rewrite bool_decide_eq_false_2 by done. split; [done|]. cbn. unfold cache_set.
  rewrite lookup_insert_eq. left. cbn. split; [lia|done].
Qed.

Lemma verify_used now m tid buyer otp h c :
  worn (_key tid (u_id buyer)) h m _MAX_ATTEMPTS c -> m <= now ->
  exists e, verify_otp now tid buyer otp c = (Raise e, c).
Proof.
  unfold worn, verify_otp, cache_get. intros Hw Hm.
  destruct (c !! _) as [[t e]|]; [|by eexists].
  destruct (Z.leb_spec t now) as [Ht|Ht]; [by eexists|].
  destruct Hw as [[Hn _]|?]; [|lia]. rewrite (proj2 (Z.leb_le _ _) Hn). by eexists.
Qed.

Lemma guesses_used tid buyer h l : forall m c,
  worn (_key tid (u_id buyer)) h m _MAX_ATTEMPTS c -> StronglySorted Z.le (m :: map fst l) ->
  Forall (fun r => is_ok r = false) (guesses tid buyer l c).1.
Proof.
  induction l as [|[now otp] l IH]; intros m c Hc Hs; [done|]. cbn in *.
  apply StronglySorted_inv in Hs as [Hs Hall]. apply Forall_cons in Hall as [Hm Hall].
  destruct (verify_used now m tid buyer otp h c Hc Hm) as [e ->].
  specialize (IH m c Hc). destruct (guesses tid buyer l c) as [rs c2]. cbn in *.
  constructor; [done|]. apply IH. apply StronglySorted_inv in Hs as [Hs _]. by constructor.
Qed.

Lemma guesses_wrong tid buyer h l l' : forall m k c,
  worn (_key tid (u_id buyer)) h m k c -> k + Z.of_nat (length l) = _MAX_ATTEMPTS ->
  StronglySorted Z.le (m :: map fst (l ++ l')) -> Forall (fun g => wrong h g.2) l ->
  Forall (fun r => is_ok r = false) (guesses tid buyer (l ++ l') c).1.
Proof.
  induction l as [|[now otp] l IH]; intros m k c Hc Hk Hs Hall.
  { eapply guesses_used; [|exact Hs]. cbn in Hk. by replace _MAX_ATTEMPTS with k by lia. }
  cbn in *. apply Forall_cons in Hall as [Hw Hall].
  apply StronglySorted_inv in Hs as [Hs Hm]. apply Forall_cons in Hm as [Hm _].
  destruct (verify_worn now m k tid buyer otp h c) as [Hr Hc']; [done..|lia|done|].
  destruct (verify_otp now tid buyer otp c) as [r c1]. cbn in *.
  specialize (IH now (k + 1) c1 Hc'). destruct (guesses tid buyer (l ++ l') c1) as [rs c2].
  constructor; [done|]. apply IH; [lia|done|done].
Qed.

(** C27. Five wrong guesses use a code up: in a series of attempts in the order
    of time that starts with five wrong ones, no attempt is accepted, also
    those with the right code. *)
Theorem five_wrong_guesses tid buyer otp mail now l l' c r c1 :
  send_otp now mail otp tid buyer c = (r, c1) -> MAIL_CONFIGURED = true ->
  length l = 5%nat -> Forall (fun g => wrong (hash_otp_code otp) g.2) l ->
  StronglySorted Z.le (map fst (l ++ l')) ->
  Forall (fun r => is_ok r = false) (guesses tid buyer (l ++ l') c1).1.
Proof.
  unfold send_otp. intros Hsend Hmail Hlen Hw Hs. rewrite Hmail in Hsend. injection Hsend as <- <-.
  destruct l as [|[t0 g0] l]; [done|].
  apply (guesses_wrong tid buyer (hash_otp_code otp) ((t0, g0) :: l) l' t0 0).
  - unfold worn, cache_set. rewrite lookup_insert_eq. by left.
  - rewrite Hlen. done.
  - constructor; [done|]. cbn in *. apply StronglySorted_inv in Hs as [_ Hall]. by constructor.
  - done.
Qed.

(** The code that was sent is accepted once within its ten minutes,
    blanks around it ignored, and not a second time. *)
Theorem otp_accepted_once tid buyer otp now c r c1 now' guess :
  send_otp now (Ok tt) otp tid buyer c = (r, c1) -> MAIL_CONFIGURED = true ->
  now' < now + _OTP_TTL -> strip guess = otp ->
  let '(r1, c2) := verify_otp now' tid buyer guess c1 in
  r1 = Ok tt /\ c2 = delete (_key tid (u_id buyer)) c /\
  forall now'' guess', is_ok (verify_otp now'' tid buyer guess' c2).1 = false.
Proof.
  unfold send_otp, cache_set. intros Hsend Hmail Ht Hg. rewrite Hmail in Hsend. injection Hsend as <- <-.
  unfold verify_otp, cache_get. rewrite lookup_insert_eq, (proj2 (Z.leb_gt _ _) Ht). cbn.
  rewrite Hg, bool_decide_eq_true_2 by done. cbn. split_and!; [done| |].
  - apply delete_insert_eq.
  - intros now'' guess'. by rewrite lookup_delete_eq.
Qed.
End Lemmas.

(** ** Witnesses *)

Import Production.

Definition otp_buyer : AppUser := sample_user "b1" 0.

Definition sent_at_0 : otp_cache := (send_otp 0 (Ok tt) "123456" "tx1" otp_buyer ∅).2.

Definition five_guesses : list (Z * string) :=
  [(1, "000000"); (2, "000001"); (3, "000002"); (4, "000003"); (5, "000004")]%string.

Lemma five_wrong_guesses_witness :
  (guesses "tx1" otp_buyer (five_guesses ++ [(6, "123456"%string)]) sent_at_0).1
  = replicate 5 (Raise (AppException "Invalid OTP." 400))
    ++ [Raise (AppException "Too many attempts. Request a new code." 429)] /\
  Forall (fun r => is_ok r = false)
    (guesses "tx1" otp_buyer (five_guesses ++ [(6, "123456"%string)]) sent_at_0).1.
Proof.
  split; [vm_compute; reflexivity|].
  apply (five_wrong_guesses "tx1" otp_buyer "123456" (Ok tt) 0 five_guesses [(6, "123456"%string)] ∅ (Ok tt));
    [reflexivity|reflexivity|reflexivity| |].
  - repeat constructor; intros H; vm_compute in H; discriminate.
  - cbn. repeat first [apply SSorted_nil | apply SSorted_cons | constructor; [lia|] | constructor].
Defined.

Lemma otp_accepted_once_witness :
  is_ok (verify_otp 7 "tx1" otp_buyer " 123456 " sent_at_0).1 = true /\
  (verify_otp 7 "tx1" otp_buyer " 123456 " sent_at_0).2 = ∅.
Proof.
  pose proof (otp_accepted_once "tx1" otp_buyer "123456" 0 ∅ (Ok tt) sent_at_0 7 " 123456 "
    eq_refl eq_refl ltac:(vm_compute; reflexivity) ltac:(vm_compute; reflexivity)) as H.
  destruct (verify_otp 7 "tx1" otp_buyer " 123456 " sent_at_0) as [r c2].
  destruct H as (-> & -> & _). split; reflexivity.
Defined.
