(* ===== verification/Transfer.v ===== *)
(** * The transfer of a sold domain and its escrow

    app/service/domain/domain_transfer_seller_service.py, _buyer_service.py,
    _payout_service.py, _escrow_service.py, _dispute_service.py, _whois_service.py
    and _ops_service.py, with the instruction and dispute repositories they use.
    Uploaded files are [option (res string)]: the result of the upload, if a file
    was sent.  [rdap] is the registrar RDAP tells for a domain. *)

From S2P Require Import Prelude PyNum Text Store Gateway RevealOtp AuctionRepo MarketTx Secrets.

(** ** Shared steps *)

Definition NOT_FOUND : exn := AppException "Transfer transaction not found." 404.
Definition FORBIDDEN : exn := AppException "Forbidden." 403.

Definition require_tx (tx_id : string) : Prog DomainMarketplaceTransaction :=
  do tx <- get_tx tx_id;
  match tx with Some x => ret x | None => raise NOT_FOUND end.

Definition tx_in (statuses : list TStatus.t) (x : DomainMarketplaceTransaction) : bool :=
  bool_decide (x_transfer_status x ∈ statuses).

(** A failed upload raises; no file, no url. *)
Definition uploaded (file : option (res string)) : Prog (option string) :=
  match file with
  | Some r => do url <- lift_res r; ret (Some url)
  | None => ret None
  end.

(** ** domain_transfer_seller_service.py *)

Section Seller.
Context {cfg : Config} {cipher : Cipher}.

Definition with_auth_code (x : DomainMarketplaceTransaction) (registrar_name code : string) (now later : Z)
    : DomainMarketplaceTransaction :=
  x <| x_seller_registrar_name := strip_or_none (Some registrar_name) |>
    <| x_auth_code_ciphertext := Some (encrypt_secret code) |>
    <| x_auth_code_submitted_at := Some now |>
    <| x_transfer_status := TStatus.AUTH_CODE_AVAILABLE |>
    <| x_buyer_deadline_at := Some (later + days DOMAIN_TRANSFER_BUYER_DEADLINE_DAYS) |>.

Definition with_proof (x : DomainMarketplaceTransaction) (url : option string) : DomainMarketplaceTransaction :=
  match url with Some u => x <| x_proof_storage_key := Some u |> | None => x end.

Definition submit_auth_code (mail_ok : string -> bool) (tx_id : string) (seller : AppUser)
    (registrar_name auth_code : string) (proof_file : option (res string)) : Prog unit :=
  do x <- require_tx tx_id;
  guard_exn (bool_decide (x_seller_id x = u_id seller)) FORBIDDEN ;;;
  guard_exn (tx_in [TStatus.AWAITING_AUTH_CODE; TStatus.ADMIN_REVIEW_REQUIRED] x)
    (AppException "Auth code cannot be submitted in the current state." 400) ;;;
  let code := strip auth_code in
  guard_exn (4 <=? Z.of_nat (String.length code)) (AppException "Auth code is too short." 400) ;;;
  do now <- utc_now;
  do later <- utc_now;
  do url <- uploaded proof_file;
  let x' := with_proof (with_auth_code x registrar_name code now later) url in
  tx_save x' ;;;
  log_event (x_id x) TEvent.AUTH_SUBMITTED (Some (u_id seller)) "SELLER"
    [("registrar"%string, json_opt_str (x_seller_registrar_name x'))] ;;;
  on_auth_code_available mail_ok x' ;;;
  commit.

Definition upload_proof (tx_id : string) (seller : AppUser) (proof_file : res string) : Prog unit :=
  do x <- require_tx tx_id;
  guard_exn (bool_decide (x_seller_id x = u_id seller)) FORBIDDEN ;;;
  do url <- lift_res proof_file;
  tx_save (x <| x_proof_storage_key := Some url |>) ;;;
  commit.
End Seller.

(** ** domain_transfer_instruction_service.py *)

Definition _REGISTRAR_KEYS : list string :=
  ["godaddy"; "namecheap"; "hostinger"; "cloudflare"; "dynadot"; "porkbun"; "name.com"]%string.

Definition first_key_in (n : string) : option string :=
  head (filter (fun key => contains key n = true) _REGISTRAR_KEYS).

Definition normalize_registrar_key (name : string) : string :=
  default "default"%string (first_key_in (lower (strip name))).

(** ** domain_dispute_repository.py *)

Definition put_dispute (x : DomainDispute) (d : DB) : DB := d <| disputes ::= <[dd_id x := x]> |>.

Definition is_open (x : DomainDispute) : bool := bool_decide (dd_status x ∈ ["OPEN"; "UNDER_REVIEW"]%string).

Definition get_open_by_transaction (tx_id : string) : Prog (option DomainDispute) :=
  do rows <- gets (fun d => select_where (fun x => bool_decide (dd_transaction_id x = tx_id) && is_open x)
                              (values (disputes d)));
  scalar_one_or_none rows.

Definition dispute_create (x : DomainDispute) : Prog DomainDispute :=
  do id <- uuid4;
  let stored := x <| dd_id := id |> in
  insert_new disputes (fun t => set disputes (fun _ => t)) "domain_disputes" id stored ;;;
  ret stored.

Definition add_evidence (e : DomainDisputeEvidence) : Prog unit :=
  modify (fun d => d <| dispute_evidence ::= fun t => t ++ [e] |>).

(** ** domain_transfer_buyer_service.py *)

Section Buyer.
Context {cfg : Config} {cipher : Cipher}.

Definition require_buyer (tx_id : string) (buyer : AppUser) : Prog DomainMarketplaceTransaction :=
  do x <- require_tx tx_id;
  guard_exn (bool_decide (x_buyer_id x = u_id buyer)) FORBIDDEN ;;;
  ret x.

Definition WITH_AUTH_CODE : list TStatus.t :=
  [TStatus.AUTH_CODE_AVAILABLE; TStatus.AUTH_CODE_RECEIVED; TStatus.AUTH_CODE_VIEWED].

Definition choose_self_transfer (tx_id : string) (buyer : AppUser) (buyer_target_registrar : string)
    : Prog unit :=
  do x <- require_buyer tx_id buyer;
  guard_exn (tx_in WITH_AUTH_CODE x) (AppException "Cannot choose transfer path in the current state." 400) ;;;
  tx_save (x <| x_transfer_method := Some TransferMethod.SELF |>
             <| x_buyer_target_registrar := strip_or_none (Some buyer_target_registrar) |>) ;;;
  log_event (x_id x) TEvent.TRANSFER_STARTED (Some (u_id buyer)) "BUYER"
    [("transferMethod"%string, JStr (TransferMethod.value TransferMethod.SELF))] ;;;
  commit.

Definition request_assistance (tx_id : string) (buyer : AppUser) : Prog unit :=
  do x <- require_buyer tx_id buyer;
  guard_exn (tx_in (WITH_AUTH_CODE ++ [TStatus.TRANSFER_IN_PROGRESS]) x)
    (AppException "Cannot request assistance in the current state." 400) ;;;
  do now <- utc_now;
  tx_save (x <| x_transfer_method := Some TransferMethod.COBROTHER_ASSISTED |>
             <| x_assistance_requested_at := Some now |>) ;;;
  log_event (x_id x) TEvent.ASSISTANCE_REQUESTED (Some (u_id buyer)) "BUYER" [] ;;;
  commit.

(** The registrar whose instructions are shown, with its key. *)
Definition get_instructions (tx_id : string) (buyer : AppUser) : Prog (string * string) :=
  do x <- require_buyer tx_id buyer;
  let registrar := str_or (x_buyer_target_registrar x) (str_or (x_seller_registrar_name x) EmptyString) in
  ret (registrar, normalize_registrar_key registrar).

Definition NO_AUTH_CODE : exn := AppException "Auth code is not available yet." 400.

(** The checks of [send_reveal_otp]. *)
Definition may_send_otp (tx_id : string) (buyer : AppUser) : Prog unit :=
  do x <- require_buyer tx_id buyer;
  guard_exn (truthy (x_auth_code_ciphertext x)) NO_AUTH_CODE ;;;
  guard_exn (tx_in (WITH_AUTH_CODE ++ [TStatus.TRANSFER_IN_PROGRESS]) x)
    (AppException "Auth code cannot be revealed in the current state." 400).

Definition send_reveal_otp (now : Z) (mail : res unit) (otp tx_id : string) (buyer : AppUser) (c : otp_cache)
    (s : Session) : res unit * Session * otp_cache :=
  match may_send_otp tx_id buyer s with
  | (Ok _, s') => let '(r, c') := send_otp now mail otp tx_id buyer c in (r, s', c')
  | (Raise e, s') => (Raise e, s', c)
  end.

(** The checks of [verify_reveal_otp] before the code is looked at. *)
Definition may_reveal (tx_id : string) (buyer : AppUser) : Prog (DomainMarketplaceTransaction * string) :=
  do x <- require_buyer tx_id buyer;
  match x_auth_code_ciphertext x with
  | Some c => guard_exn (negb (is_empty c)) NO_AUTH_CODE ;;; ret (x, c)
  | None => raise NO_AUTH_CODE
  end.

Definition viewed (x : DomainMarketplaceTransaction) (now : Z) : DomainMarketplaceTransaction :=
  let x1 := match x_auth_code_viewed_at x with
            | None => x <| x_auth_code_viewed_at := Some now |>
            | Some _ => x
            end in
  if tx_in [TStatus.AUTH_CODE_AVAILABLE; TStatus.AUTH_CODE_RECEIVED] x
  then x1 <| x_transfer_status := TStatus.AUTH_CODE_VIEWED |> else x1.

(** What follows an accepted code. *)
Definition reveal (x : DomainMarketplaceTransaction) (ciphertext : string) (buyer : AppUser) : Prog string :=
  do plain <- lift_res
    match decrypt_secret ciphertext with
    | Raise (ValueError _) => Raise (AppException "Unable to decrypt auth code. Please contact support." 503)
    | r => r
    end;
  do now <- utc_now;
  tx_save (viewed x now) ;;;
  log_event (x_id x) TEvent.OTP_REVEAL (Some (u_id buyer)) "BUYER" [] ;;;
  commit ;;;
  ret plain.

Definition verify_reveal_otp (now : Z) (tx_id : string) (buyer : AppUser) (otp : string) (c : otp_cache)
    (s : Session) : res string * Session * otp_cache :=
  match may_reveal tx_id buyer s with
  | (Ok (x, ciphertext), s1) =>
      match verify_otp now tx_id buyer otp c with
      | (Ok _, c') => (reveal x ciphertext buyer s1, c')
      | (Raise e, c') => (Raise e, s1, c')
      end
  | (Raise e, s1) => (Raise e, s1, c)
  end.

Definition mark_transfer_started (tx_id : string) (buyer : AppUser) : Prog unit :=
  do x <- require_buyer tx_id buyer;
  guard_exn (tx_in WITH_AUTH_CODE x) (AppException "Cannot start transfer in the current state." 400) ;;;
  do now <- utc_now;
  tx_save (x <| x_transfer_status := TStatus.TRANSFER_IN_PROGRESS |> <| x_transfer_started_at := Some now |>) ;;;
  log_event (x_id x) TEvent.TRANSFER_STARTED (Some (u_id buyer)) "BUYER" [] ;;;
  commit.

(** The row once the transfer is confirmed. *)
Definition confirmed (x : DomainMarketplaceTransaction) (now : Z) (by_ : TransferVerifiedBy.t)
    : DomainMarketplaceTransaction :=
  x <| x_transfer_confirmed_at := Some now |> <| x_transfer_verified_at := Some now |>
    <| x_transfer_verified_by := Some by_ |> <| x_transfer_status := TStatus.PAYOUT_PENDING |>.

Definition confirm_transfer (tx_id : string) (buyer : AppUser) : Prog unit :=
  do x <- require_buyer tx_id buyer;
  guard_exn (tx_in [TStatus.TRANSFER_IN_PROGRESS; TStatus.AUTH_CODE_VIEWED] x)
    (AppException "Cannot confirm transfer in the current state." 400) ;;;
  do now <- utc_now;
  tx_save (confirmed x now TransferVerifiedBy.BUYER) ;;;
  log_event (x_id x) TEvent.TRANSFER_CONFIRMED (Some (u_id buyer)) "BUYER" [] ;;;
  log_event (x_id x) TEvent.PAYOUT_PENDING None "SYSTEM"
    [("reason", JStr "Transfer confirmed; seller payout is ready for admin review.")]%string ;;;
  commit.

Definition CLOSED_STATUSES : list TStatus.t :=
  [TStatus.SELLER_PAID; TStatus.PAYOUT_RELEASED; TStatus.COMPLETED; TStatus.REFUNDED; TStatus.CANCELLED].

(** The evidence sent with a dispute. *)
Definition store_evidence (dispute : DomainDispute) (buyer : AppUser) (file : option (res string * option string))
    : Prog unit :=
  match file with
  | Some (r, content_type) =>
      do url <- lift_res r;
      add_evidence (MkEvidence (dd_id dispute) (u_id buyer) url content_type)
  | None => ret tt
  end.

Definition open_dispute (tx_id : string) (buyer : AppUser) (reason : DisputeReason.t) (description : option string)
    (evidence_file : option (res string * option string)) : Prog unit :=
  do x <- require_buyer tx_id buyer;
  guard_exn (negb (tx_in CLOSED_STATUSES x))
    (AppException "Cannot open a dispute for a closed transaction." 400) ;;;
  do existing <- get_open_by_transaction tx_id;
  guard_exn (match existing with Some _ => false | None => true end)
    (AppException "A dispute is already open for this transaction." 409) ;;;
  do dispute <- dispute_create
    (MkDispute EmptyString tx_id (u_id buyer) reason (strip_or_none description) "OPEN" None None None);
  store_evidence dispute buyer evidence_file ;;;
  tx_save (x <| x_dispute_status := DStatus.OPEN |> <| x_transfer_status := TStatus.DISPUTED |>) ;;;
  log_event (x_id x) TEvent.DISPUTE_OPENED (Some (u_id buyer)) "BUYER"
    [("reason"%string, JStr (DisputeReason.value reason))] ;;;
  commit.
End Buyer.

(** ** domain_transfer_payout_service.py *)

Section Payout.
Context {cfg : Config} {cipher : Cipher}.

Definition _require_complete_profile (seller_id : string) : Prog SellerPayoutProfile :=
  do profile <- get_profile seller_id;
  match profile with
  | Some p =>
      guard_exn (is_complete (Some p))
        (AppException "Cannot approve payout. Seller payout profile is incomplete." 400) ;;;
      ret p
  | None => raise (AppException "Cannot approve payout. Seller payout profile is incomplete." 400)
  end.

Definition with_approval (x : DomainMarketplaceTransaction) (p : SellerPayoutProfile) (admin_id : string) (now : Z)
    : DomainMarketplaceTransaction :=
  x <| x_payout_profile_id := Some (pp_id p) |>
    <| x_payout_approved_by_user_id := Some admin_id |>
    <| x_payout_approved_at := Some now |>
    <| x_transfer_status := TStatus.PAYOUT_APPROVED |>
    <| x_payout_snapshot := Some (snapshot p now "PAYOUT_APPROVAL") |>.

Definition approval_payload (x : DomainMarketplaceTransaction) (p : SellerPayoutProfile) : dict :=
  [("approved", JBool true); ("payoutProfileId", JStr (pp_id p));
   ("payoutMethod", JStr (PayoutMethod.value (pp_payout_method p)));
   ("accountHolderName", json_opt_str (pp_account_holder_name p));
   ("bankName", json_opt_str (pp_bank_name p)); ("bankIfsc", json_opt_str (pp_bank_ifsc p));
   ("accountNumberLast4", json_opt_str (pp_account_number_last4 p));
   ("sellerPayoutInr", JNum (x_seller_payout_inr x)); ("sellerId", JStr (x_seller_id x))]%string.

(** Returns [payoutApprovedAt]. *)
Definition approve_payout (tx_id : string) (admin : AppUser) : Prog Z :=
  do x <- require_tx tx_id;
  guard_exn (negb (tx_in [TStatus.REFUNDED; TStatus.CANCELLED] x))
    (AppException "Transaction has been refunded/cancelled; payout is not eligible." 409) ;;;
  guard_exn (negb (bool_decide (x_escrow_status x = Escrow.REFUNDED)))
    (AppException "Escrow has been refunded; payout is not eligible." 409) ;;;
  guard_exn (tx_in [TStatus.TRANSFER_COMPLETED; TStatus.PAYOUT_PENDING] x)
    (AppException "Transfer must be completed before payout approval." 400) ;;;
  guard_exn (bool_decide (x_escrow_status x = Escrow.HELD))
    (AppException "Escrow is not held; cannot approve payout." 409) ;;;
  do p <- _require_complete_profile (x_seller_id x);
  do now <- utc_now;
  tx_save (with_approval x p (u_id admin) now) ;;;
  log_event (x_id x) TEvent.PAYOUT_APPROVED (Some (u_id admin)) "ADMIN" (approval_payload x p) ;;;
  commit ;;;
  ret now.

Definition paid_out (x : DomainMarketplaceTransaction) (p : SellerPayoutProfile) (now : Z)
    : DomainMarketplaceTransaction :=
  x <| x_payout_profile_id := Some (pp_id p) |> <| x_escrow_status := Escrow.RELEASED |>
    <| x_transfer_status := TStatus.COMPLETED |> <| x_seller_paid_at := Some now |>.

(** [(transaction_reference_number or "").strip() or f"manual-{tx.id}"] *)
Definition payout_reference (given : option string) (tx_id : string) : string :=
  default ("manual-" +:+ tx_id)%string (strip_or_none given).

(** Returns [sellerPaidAt] and the status. *)
Definition release_payout (tx_id : string) (admin : AppUser) (payout_method_used : string)
    (transaction_reference_number notes : option string) : Prog (Z * TStatus.t) :=
  do x <- require_tx tx_id;
  guard_exn (negb (tx_in [TStatus.REFUNDED; TStatus.CANCELLED] x))
    (AppException "Transaction has been refunded/cancelled; payout cannot be released." 409) ;;;
  guard_exn (negb (bool_decide (x_escrow_status x = Escrow.REFUNDED)))
    (AppException "Escrow has been refunded; payout cannot be released." 409) ;;;
  guard_exn (tx_in [TStatus.PAYOUT_APPROVED] x)
    (AppException "Payout must be approved before release." 400) ;;;
  guard_exn (match x_payout_approved_at x with Some _ => true | None => false end)
    (AppException "Payout must be approved before release." 400) ;;;
  guard_exn (bool_decide (x_escrow_status x = Escrow.HELD)) (AppException "Escrow is not held." 400) ;;;
  let reference := payout_reference transaction_reference_number (x_id x) in
  do p <- _require_complete_profile (x_seller_id x);
  do now <- utc_now;
  do id <- uuid4;
  let x' := paid_out x p now in
  modify (fun d => d <| payouts ::= fun t =>
    t ++ [MkPayout id (Some (x_id x)) (Some (pp_id p)) (Some (x_seller_id x)) (x_seller_payout_inr x)
            SellerPayoutStatus.SENT (Some payout_method_used) (Some reference) (strip_or_none notes)
            (Some (u_id admin)) (Some now)] |>) ;;;
  tx_save x' ;;;
  log_event (x_id x) TEvent.PAYOUT_RELEASED (Some (u_id admin)) "ADMIN"
    [("sellerPayoutInr", JNum (x_seller_payout_inr x)); ("methodUsed", JStr payout_method_used);
     ("referenceNumber", JStr reference)]%string ;;;
  on_payout_released x' ;;;
  commit ;;;
  ret (now, x_transfer_status x').
End Payout.

(** ** domain_transfer_escrow_service.py *)

Section EscrowService.
Context {cfg : Config} {cipher : Cipher}.

Definition available_again (l : DomainListing) : DomainListing :=
  l <| l_domain_status := DomainListingStatus.AVAILABLE |> <| l_payment_status := None |>
    <| l_purchased_by_user_id := None |> <| l_active_transaction_id := None |> <| l_sold_at := None |>.

Definition _restore_listing (listing_id : string) : Prog unit :=
  do listing <- get_listing listing_id;
  match listing with
  | None => ret tt
  | Some l => save_listing (available_again l)
  end.

Definition _compute_gst_inclusive_amount (x : DomainMarketplaceTransaction) : py_float :=
  let base := x_gross_amount_inr x in
  if fl_ltb fl_zero base then py_round2 (fl_mul base (fl_of_dec (Dec 118 (-2)))) else fl_zero.

(** [round(paise / 100.0, 2)] *)
Definition rupees (paise : Z) : py_float := py_round2 (fl_div (fl_of_Z paise) (fl_of_Z 100)).

Record refund_answer := RefundAnswer { ra_refundId : option string; ra_refundAmountInr : py_float }.

(** [str(exc)] of the exceptions the refund call raises. *)
Definition exn_text (e : exn) : string :=
  match e with
  | ValueError m | RuntimeError m | OtherError m | SQLAlchemyError m | AppException m _ => m
  | HTTPException m _ => m
  | InvalidOperation => "InvalidOperation"
  | IntegrityError t => t
  | AlreadyFullyRefunded _ _ _ => "Payment is already fully refunded."
  end.

Definition refund_hint (payment_id : string) : string :=
  let environment := default "UNKNOWN"%string get_environment in
  if bool_decide (environment = "TEST"%string) then
    ("Razorpay " +:+ environment +:+ " mode rejected the refund for payment " +:+ payment_id
     +:+ ". In TEST mode, some payment methods have refund limitations. Refund manually via the Razorpay Dashboard, then click 'Sync Refund Status' to synchronize.")%string
  else
    ("Razorpay rejected the refund request for payment " +:+ payment_id
     +:+ ". Check the payment status and refundable amount.")%string.

Definition newline : string := String (Ascii.ascii_of_nat 10) EmptyString.

(** How a failed refund call is answered. *)
Definition refund_error (payment_id : string) (e : exn) : exn :=
  match e with
  | ValueError msg =>
      let m := lower msg in
      if contains "already" m && (contains "fully" m || contains "nothing left" m) then AppException msg 409
      else if contains "cannot refund payment in" m then AppException msg 409
      else if contains "invalid request" m then
        AppException (msg +:+ newline +:+ newline +:+ refund_hint payment_id)%string 400
      else AppException msg 400
  | AppException _ _ => e
  | _ => AppException ("Razorpay refund failed: " +:+ exn_text e)%string 502
  end.

Definition refunded (x : DomainMarketplaceTransaction) (refund_id : option string) (now : Z)
    : DomainMarketplaceTransaction :=
  x <| x_razorpay_refund_id := refund_id |> <| x_escrow_status := Escrow.REFUNDED |>
    <| x_transfer_status := TStatus.REFUNDED |> <| x_refund_completed_at := Some now |>.

(** The books of a refund: the row, the listing, the log and the mail. *)
Definition book_refund (x : DomainMarketplaceTransaction) (refund_id : option string) (admin_id : string)
    (payload : dict) : Prog unit :=
  do now <- utc_now;
  let x' := refunded x refund_id now in
  tx_save x' ;;;
  _restore_listing (x_domain_listing_id x) ;;;
  log_event (x_id x) TEvent.REFUNDED (Some admin_id) "ADMIN" payload ;;;
  on_refund x'.

Definition REFUND_TERMINAL : list TStatus.t :=
  [TStatus.PAYOUT_APPROVED; TStatus.PAYOUT_RELEASED; TStatus.COMPLETED; TStatus.SELLER_PAID].

Definition track_refund (x : DomainMarketplaceTransaction) : Prog unit :=
  emit (TrackRecord ("TRK-MKT-REFUND-" +:+ x_id x)).

(** Already refunded: only a missing refund id is fetched. *)
Definition refund_again (api : rzp_api) (x : DomainMarketplaceTransaction) : Prog refund_answer :=
  let amount := _compute_gst_inclusive_amount x in
  if truthy (x_razorpay_refund_id x) then ret (RefundAnswer (x_razorpay_refund_id x) amount)
  else
    match x_razorpay_payment_id x with
    | Some pid =>
        if is_empty pid then ret (RefundAnswer (x_razorpay_refund_id x) amount)
        else
          let refund_id := _fetch_existing_refund_id api pid in
          when (truthy refund_id) (tx_save (x <| x_razorpay_refund_id := refund_id |>) ;;; commit) ;;;
          ret (RefundAnswer refund_id amount)
    | None => ret (RefundAnswer (x_razorpay_refund_id x) amount)
    end.

(** The gateway call and what it says: the refund made, or the one it already had. *)
Inductive refund_reply := Refunded_now (r : rzp_refund) | Refunded_before (refund_id : option string) (paise : Z).

Definition call_refund (api : rzp_api) (payment_id : string) (amount : py_float) : Prog refund_reply :=
  catch (do r <- refund_payment api payment_id amount "INR"; ret (Refunded_now r))
    (fun e =>
       match e with
       | AlreadyFullyRefunded refund_id paise _ => ret (Refunded_before refund_id paise)
       | _ => raise (refund_error payment_id e)
       end).

Definition refund_payload (note refund_id : option string) (paise : Z) : dict :=
  [("note", json_opt_str note); ("refundId", json_opt_str refund_id);
   ("refundAmountInr", JNum (rupees paise)); ("previousEscrowStatus", JStr "HELD")]%string.

Definition refund_held (api : rzp_api) (x : DomainMarketplaceTransaction) (payment_id : string) (admin : AppUser)
    (note : option string) : Prog refund_answer :=
  do reply <- call_refund api payment_id (_compute_gst_inclusive_amount x);
  match reply with
  | Refunded_before refund_id paise =>
      book_refund x refund_id (u_id admin)
        (refund_payload (Some (str_or note "Payment already fully refunded on Razorpay. DB synced."))
           refund_id paise) ;;;
      commit ;;;
      ret (RefundAnswer refund_id (rupees paise))
  | Refunded_now r =>
      guard_exn match rfn_id r with Some id => startswith id "rfnd_" | None => false end
        (AppException "Razorpay returned an unexpected refund response." 502) ;;;
      book_refund x (rfn_id r) (u_id admin) (refund_payload note (rfn_id r) (rfn_amount r)) ;;;
      track_refund x ;;;
      commit ;;;
      ret (RefundAnswer (rfn_id r) (rupees (rfn_amount r)))
  end.

Definition is_refunded (x : DomainMarketplaceTransaction) : bool :=
  bool_decide (x_escrow_status x = Escrow.REFUNDED) || tx_in [TStatus.REFUNDED] x.

Definition refund (api : rzp_api) (tx_id : string) (admin : AppUser) (note : option string)
    : Prog refund_answer :=
  do x <- require_tx tx_id;
  if is_refunded x then refund_again api x
  else
    guard_exn (truthy (x_razorpay_payment_id x)) (AppException "No payment to refund." 400) ;;;
    guard_exn (negb (bool_decide (x_escrow_status x = Escrow.RELEASED)))
      (AppException "Escrow already released (seller paid). Cannot refund." 409) ;;;
    guard_exn (negb (tx_in REFUND_TERMINAL x))
      (AppException ("Transaction is in terminal state '" +:+ TStatus.value (x_transfer_status x)
                     +:+ "'; cannot refund.") 409) ;;;
    refund_held api x (default EmptyString (x_razorpay_payment_id x)) admin note.

Inductive sync_answer :=
| AlreadySynced (refund_id : option string)
| NoFullRefund (payment_status : string) (captured refunded_ : py_float)
| Synced (refund_id : option string) (amount : py_float).

(** Is the payment fully refunded on Razorpay? *)
Definition is_fully_refunded (payment : rzp_payment) (refund_id : option string) : bool :=
  bool_decide (lower (pay_status payment) = "refunded"%string)
  || ((0 <? default 0 (pay_amount payment))
      && (default 0 (pay_amount payment) <=? pay_amount_refunded payment)
      && match refund_id with Some _ => true | None => false end).

Definition sync_payload (x : DomainMarketplaceTransaction) (refund_id : option string) (paise : Z) : dict :=
  [("note", JStr "Refund synchronized from Razorpay Dashboard."); ("refundId", json_opt_str refund_id);
   ("refundAmountInr", JNum (rupees paise));
   ("previousEscrowStatus", JStr (Escrow.value (x_escrow_status x)));
   ("previousTransferStatus", JStr (TStatus.value (x_transfer_status x)))]%string.

Definition sync_refund_from_razorpay (api : rzp_api) (tx_id : string) (admin : AppUser) : Prog sync_answer :=
  do x <- require_tx tx_id;
  guard_exn (truthy (x_razorpay_payment_id x)) (AppException "No Razorpay payment ID on this transaction." 400) ;;;
  if bool_decide (x_escrow_status x = Escrow.REFUNDED)
     && match x_razorpay_refund_id x with Some r => startswith r "rfnd_" | None => false end
  then ret (AlreadySynced (x_razorpay_refund_id x))
  else
    let pid := default EmptyString (x_razorpay_payment_id x) in
    do payment <- catch (lift_res (fetch_payment api pid))
      (fun e => raise (AppException ("Could not fetch payment from Razorpay: " +:+ exn_text e) 502));
    let refund_id := _fetch_existing_refund_id api pid in
    let paise := pay_amount_refunded payment in
    if negb (is_fully_refunded payment refund_id) then
      ret (NoFullRefund (lower (pay_status payment)) (rupees (default 0 (pay_amount payment))) (rupees paise))
    else
      book_refund x refund_id (u_id admin) (sync_payload x refund_id paise) ;;;
      track_refund x ;;;
      commit ;;;
      ret (Synced refund_id (rupees paise)).

Inductive review_action := Review_refund | Extend_deadline | Cancel.

Inductive review_answer :=
| OpenRazorpay (payment_id environment : string)
| Extended
| Cancelled_ (payment_id : option string).

Definition CANCEL_TERMINAL : list TStatus.t :=
  [TStatus.REFUNDED; TStatus.CANCELLED; TStatus.COMPLETED; TStatus.SELLER_PAID; TStatus.PAYOUT_APPROVED;
   TStatus.PAYOUT_RELEASED].

(** [hours or default]: 0 counts as not given. *)
Definition hours_or (given : option Z) (dflt : Z) : Z :=
  match given with Some h => if h =? 0 then dflt else h | None => dflt end.

Definition extend_deadline (x : DomainMarketplaceTransaction) (admin : AppUser) (extension_hours : option Z)
    : Prog review_answer :=
  let n := hours_or extension_hours DOMAIN_TRANSFER_SELLER_DEADLINE_HOURS in
  do now <- utc_now;
  tx_save (x <| x_transfer_status := TStatus.AWAITING_AUTH_CODE |>
             <| x_seller_deadline_at := now + hours n |>
             <| x_admin_review_required_at := None |> <| x_admin_review_reason := None |>
             <| x_email_seller_reminder_12h_sent := false |>
             <| x_email_seller_reminder_6h_sent := false |> <| x_email_admin_review_sent := false |>) ;;;
  log_event (x_id x) TEvent.ADMIN_REVIEW (Some (u_id admin)) "ADMIN"
    [("action", JStr "extend_deadline"); ("hours", JInt n)]%string ;;;
  commit ;;;
  ret Extended.

Definition cancel_tx (x : DomainMarketplaceTransaction) (admin : AppUser) : Prog review_answer :=
  tx_save (x <| x_transfer_status := TStatus.CANCELLED |>) ;;;
  _restore_listing (x_domain_listing_id x) ;;;
  log_event (x_id x) TEvent.ADMIN_REVIEW (Some (u_id admin)) "ADMIN"
    [("action", JStr "cancel"); ("note", JStr "Transaction cancelled by admin.")]%string ;;;
  commit ;;;
  ret (Cancelled_ (x_razorpay_payment_id x)).

Definition resolve_admin_review (tx_id : string) (admin : AppUser) (action : review_action)
    (extension_hours : option Z) : Prog review_answer :=
  do x <- require_tx tx_id;
  match action with
  | Cancel =>
      guard_exn (negb (tx_in CANCEL_TERMINAL x))
        (AppException ("Cannot cancel transaction in terminal state '"
                       +:+ TStatus.value (x_transfer_status x) +:+ "'.") 409) ;;;
      cancel_tx x admin
  | _ =>
      guard_exn (tx_in [TStatus.ADMIN_REVIEW_REQUIRED] x)
        (AppException "Transaction is not awaiting admin review." 400) ;;;
      match action with
      | Review_refund =>
          if truthy (x_razorpay_payment_id x) then
            commit ;;;
            ret (OpenRazorpay (default EmptyString (x_razorpay_payment_id x))
                   (default "TEST"%string get_environment))
          else raise (AppException "No Razorpay payment ID for this transaction." 400)
      | _ => extend_deadline x admin extension_hours
      end
  end.

Definition force_complete (tx_id : string) (admin : AppUser) (reason : option string) : Prog unit :=
  do x <- require_tx tx_id;
  guard_exn (negb (tx_in CLOSED_STATUSES x)) (AppException "Transaction is already closed." 409) ;;;
  let why := strip (default EmptyString reason) in
  guard_exn (negb (is_empty why))
    (AppException "A reason is required to force-complete a transfer." 400) ;;;
  do now <- utc_now;
  tx_save (confirmed x now TransferVerifiedBy.ADMIN) ;;;
  log_event (x_id x) TEvent.TRANSFER_CONFIRMED (Some (u_id admin)) "ADMIN"
    [("forced", JBool true); ("reason", JStr why);
     ("previousStatus", JStr (TStatus.value (x_transfer_status x)))]%string ;;;
  log_event (x_id x) TEvent.PAYOUT_PENDING None "SYSTEM"
    [("reason", JStr "Transfer completed by admin verification."); ("adminReason", JStr why)]%string ;;;
  commit.
End EscrowService.

(** ** domain_transfer_dispute_service.py *)

Section Disputes.
Context {cfg : Config} {cipher : Cipher}.

Inductive resolution := For_refund | For_payout.

Definition resolved_dispute (x : DomainDispute) (r : resolution) (note : option string) (admin_id : string)
    (now : Z) : DomainDispute :=
  x <| dd_status := match r with For_refund => "RESOLVED_REFUND" | For_payout => "RESOLVED_PAYOUT" end |>
    <| dd_resolution_note := strip_or_none note |>
    <| dd_resolved_by_user_id := Some admin_id |> <| dd_resolved_at := Some now |>.

Inductive resolve_answer := By_refund (a : refund_answer) | By_payout (paid_at : Z) (status : TStatus.t).

(** The decision itself, committed before it is carried out. *)
Definition record_resolution (tx_id dispute_id : string) (admin : AppUser) (r : resolution) (note : option string)
    : Prog DomainMarketplaceTransaction :=
  do x <- require_tx tx_id;
  do dispute <- gets (fun d => disputes d !! dispute_id);
  match dispute with
  | None => raise (AppException "Dispute not found." 404)
  | Some dis =>
      guard_exn (bool_decide (dd_transaction_id dis = tx_id)) (AppException "Dispute not found." 404) ;;;
      guard_exn (is_open dis) (AppException "Dispute is already resolved." 400) ;;;
      do now <- utc_now;
      modify (put_dispute (resolved_dispute dis r note (u_id admin) now)) ;;;
      let x' := x <| x_dispute_status :=
        match r with For_refund => DStatus.RESOLVED_REFUND | For_payout => DStatus.RESOLVED_PAYOUT end |> in
      tx_save x' ;;;
      log_event (x_id x) TEvent.DISPUTE_RESOLVED (Some (u_id admin)) "ADMIN"
        [("resolution"%string, JStr match r with For_refund => "refund" | For_payout => "payout" end)] ;;;
      commit ;;;
      ret x'
  end.

(** The sale is taken for transferred, whatever state it is in. *)
Definition reopen_for_payout (tx_id : string) (x : DomainMarketplaceTransaction) : Prog unit :=
  if tx_in [TStatus.TRANSFER_COMPLETED; TStatus.PAYOUT_PENDING; TStatus.PAYOUT_APPROVED] x then ret tt
  else
    do locked <- get_tx tx_id;
    match locked with
    | Some y => tx_save (y <| x_transfer_status := TStatus.TRANSFER_COMPLETED |>) ;;; commit
    | None => ret tt
    end.

Definition resolve (api : rzp_api) (tx_id dispute_id : string) (admin : AppUser) (r : resolution)
    (note : option string) : Prog resolve_answer :=
  do x <- record_resolution tx_id dispute_id admin r note;
  match r with
  | For_refund => do a <- refund api tx_id admin note; ret (By_refund a)
  | For_payout =>
      reopen_for_payout tx_id x ;;;
      do _ <- approve_payout tx_id admin;
      do (paid_at, status) <- release_payout tx_id admin "MANUAL" None None;
      ret (By_payout paid_at status)
  end.
End Disputes.

(** ** domain_transfer_whois_service.py *)

Definition is_lower_alnum (c : Ascii.ascii) : bool :=
  let n := Ascii.nat_of_ascii c in
  (97 <=? Z.of_nat n) && (Z.of_nat n <=? 122) || (48 <=? Z.of_nat n) && (Z.of_nat n <=? 57).

Definition _normalize_registrar_name (value : string) : string := keep_ascii is_lower_alnum (lower value).

(** Does the registrar on record look like the one the buyer named? *)
Definition registrars_match (registrar target : string) : bool :=
  let target_key := normalize_registrar_key target in
  let snap_key := normalize_registrar_key registrar in
  contains target_key snap_key || contains snap_key target_key
  || bool_decide (_normalize_registrar_name registrar = _normalize_registrar_name target).

Definition supports_transfer (registrar target : option string) : option bool :=
  if truthy registrar && truthy target
  then Some (registrars_match (default EmptyString registrar) (default EmptyString target)) else None.

Definition opt_bool (b : option bool) : json := match b with Some b => JBool b | None => JNull end.

Section Whois.
Context {cfg : Config}.

(** Checked less than [poll_hours] ago. *)
Definition fresh_check (x : DomainMarketplaceTransaction) (now : Z) : bool :=
  match x_whois_last_checked_at x with
  | Some t => now - hours DOMAIN_TRANSFER_WHOIS_POLL_HOURS <? t
  | None => false
  end.

Definition _check_tx (rdap : string -> option string) (x : DomainMarketplaceTransaction) (force : bool)
    : Prog (option bool * option string) :=
  do now <- utc_now;
  if negb force && fresh_check x now then ret (x_whois_supports_transfer x, x_whois_registrar_snapshot x)
  else
    let registrar := rdap (lower (strip (x_domain_fqdn x))) in
    let supports := supports_transfer registrar (x_buyer_target_registrar x) in
    tx_save (x <| x_whois_last_checked_at := Some now |> <| x_whois_registrar_snapshot := registrar |>
               <| x_whois_supports_transfer := supports |>) ;;;
    log_event (x_id x) TEvent.WHOIS_CHECK None "SYSTEM"
      [("registrar", json_opt_str registrar); ("supportsTransfer", opt_bool supports)]%string ;;;
    ret (supports, registrar).

(** The route that calls it commits nothing. *)
Definition sync_transaction (rdap : string -> option string) (tx_id : string)
    : Prog (option bool * option string) :=
  do x <- get_tx tx_id;
  match x with
  | None => ret (None, None)
  | Some x => _check_tx rdap x true
  end.

Definition txs_where (p : DomainMarketplaceTransaction -> bool) (limit : nat) (d : DB)
    : list DomainMarketplaceTransaction :=
  take limit (select_where p (values (mkt_txs d))).

(** A row checked after [cutoff] is passed over. *)
Definition due_check (cutoff : Z) (x : DomainMarketplaceTransaction) : bool :=
  negb match x_whois_last_checked_at x with Some t => cutoff <? t | None => false end.

Definition poll_in_progress (rdap : string -> option string) (limit : nat) : Prog Z :=
  do now <- utc_now;
  do rows <- gets (txs_where (tx_in [TStatus.TRANSFER_IN_PROGRESS; TStatus.AUTH_CODE_VIEWED]) limit);
  let due := select_where (due_check (now - hours DOMAIN_TRANSFER_WHOIS_POLL_HOURS)) rows in
  for_each due (fun x => do _ <- _check_tx rdap x false; ret tt) ;;;
  ret (Z.of_nat (length due)).

(** ** domain_transfer_ops_service.py *)

Definition overdue (now : Z) (x : DomainMarketplaceTransaction) : bool :=
  tx_in [TStatus.AWAITING_AUTH_CODE] x && (x_seller_deadline_at x <=? now).

(** [list_reminder_candidates]: the deadline is [hours_before] to [hours_before + 1] hours away. *)
Definition due_in (now hours_before : Z) (x : DomainMarketplaceTransaction) : bool :=
  tx_in [TStatus.AWAITING_AUTH_CODE] x
  && (now + hours hours_before <=? x_seller_deadline_at x)
  && (x_seller_deadline_at x <? now + hours hours_before + hours 1).

Definition escalate (now : Z) (x : DomainMarketplaceTransaction) : Prog unit :=
  let x' := x <| x_transfer_status := TStatus.ADMIN_REVIEW_REQUIRED |>
              <| x_admin_review_required_at := Some now |>
              <| x_admin_review_reason := Some "SELLER_AUTH_CODE_TIMEOUT"%string |> in
  tx_save x' ;;;
  log_event (x_id x) TEvent.ADMIN_REVIEW None "SYSTEM" [("reason", JStr "SELLER_AUTH_CODE_TIMEOUT")]%string ;;;
  on_admin_review_required x'.

Definition remind (mail_ok : string -> bool) (mark : DomainMarketplaceTransaction -> DomainMarketplaceTransaction)
    (x : DomainMarketplaceTransaction) : Prog unit :=
  do seller <- tx_seller x;
  match seller with Some u => mail_to mail_ok u "domain_transfer_seller_reminder" | None => ret tt end ;;;
  tx_save (mark x).

Definition mark_12h (x : DomainMarketplaceTransaction) := x <| x_email_seller_reminder_12h_sent := true |>.
Definition mark_6h (x : DomainMarketplaceTransaction) := x <| x_email_seller_reminder_6h_sent := true |>.

(** The rows a reminder goes to: those in the window that have none yet. *)
Definition reminder_rows (now hours_before : Z) (sent : DomainMarketplaceTransaction -> bool) (limit : nat) (d : DB)
    : list DomainMarketplaceTransaction :=
  select_where (fun x => negb (sent x)) (txs_where (due_in now hours_before) limit d).

Record tick_stats := TickStats { ts_timeouts : Z; ts_12h : Z; ts_6h : Z; ts_whois : Z }.

Definition any_work (t : tick_stats) : bool :=
  negb ((ts_timeouts t =? 0) && (ts_12h t =? 0) && (ts_6h t =? 0) && (ts_whois t =? 0)).

Definition run_tick (mail_ok : string -> bool) (rdap : string -> option string) : Prog tick_stats :=
  let limit := DOMAIN_TRANSFER_OPS_BATCH_LIMIT in
  do now <- utc_now;
  do late <- gets (txs_where (overdue now) limit);
  for_each late (escalate now) ;;;
  do rows12 <- gets (reminder_rows now 12 x_email_seller_reminder_12h_sent limit);
  for_each rows12 (remind mail_ok mark_12h) ;;;
  do rows6 <- gets (reminder_rows now 6 x_email_seller_reminder_6h_sent limit);
  for_each rows6 (remind mail_ok mark_6h) ;;;
  do whois <- poll_in_progress rdap limit;
  let stats := TickStats (Z.of_nat (length late)) (Z.of_nat (length rows12)) (Z.of_nat (length rows6)) whois in
  when (any_work stats) commit ;;;
  ret stats.
End Whois.
