(* ===== verification/DirectSale.v ===== *)
(** * Buying a listed domain

    app/service/domain/marketplace_payment_service.py with the GST breakdown
    (app/utils/domain_gst.py), the buyer's phone (app/utils/field_validators.py)
    and the add-on services (app/utils/addon_services.py) it uses.  [convert] is
    the currency conversion of the moment, an argument. *)

From stdpp Require Import sorting.
From S2P Require Import Prelude PyNum Text Numerals Store Gateway Settings EdgePoints AuctionFees AuctionRepo Pricing Bidding Winner MarketTx AuctionPayment TaxInvoice Transfer Secrets.

(** ** app/utils/domain_gst.py *)

Section Gst.
Context {cfg : Config}.

Record price_breakdown := PriceBreakdown {
  pb_subtotalInr : py_float;
  pb_gstInr : py_float;
  pb_totalInr : py_float;
  pb_gstRate : option py_float;
}.

Definition domain_gst_enabled : bool := DOMAIN_GST_ENABLED && fl_ltb fl_zero DOMAIN_GST_RATE.

Definition domain_price_breakdown (unit_base_inr : py_float) (years : Z) : res price_breakdown :=
  try! subtotal <- round_money (Some (fl_mul unit_base_inr (fl_of_Z (Z.max 1 years))));
  if negb domain_gst_enabled then Ok (PriceBreakdown subtotal fl_zero subtotal None)
  else if DOMAIN_PRICE_GST_INCLUSIVE then
    try! gst <- round_money (Some (fl_sub subtotal
      (fl_div subtotal (fl_add (fl_of_Z 1) (fl_div DOMAIN_GST_RATE (fl_of_Z 100))))));
    try! net <- round_money (Some (fl_sub subtotal gst));
    Ok (PriceBreakdown net gst subtotal (Some DOMAIN_GST_RATE))
  else
    try! gst <- round_money (Some (fl_div (fl_mul subtotal DOMAIN_GST_RATE) (fl_of_Z 100)));
    try! total <- round_money (Some (fl_add subtotal gst));
    Ok (PriceBreakdown subtotal gst total (Some DOMAIN_GST_RATE)).

Definition gst_inclusive_total_inr (unit_base_inr : py_float) : res py_float :=
  try! b <- domain_price_breakdown unit_base_inr 1; Ok (pb_totalInr b).
End Gst.

(** ** app/utils/field_validators.py *)

Definition blank_to_none (value : option string) : option string := strip_or_none value.

(** [re.sub(r"[\s\-().]", "", s)] *)
Definition compact_phone (s : string) : string :=
  keep_ascii (fun c => negb (is_space c || bool_decide (Ascii.nat_of_ascii c ∈ [45; 40; 41; 46]%nat))) s.

(** [E164_PHONE_RE] *)
Definition is_e164 (s : string) : bool :=
  match s with
  | String p (String d rest) =>
      (Ascii.nat_of_ascii p =? 43)%nat && is_digit d && negb (digit_value d =? 0)
      && all_chars is_digit rest && (7 <=? String.length rest)%nat && (String.length rest <=? 14)%nat
  | _ => false
  end.

Definition normalize_e164_phone (value : option string) : res (option string) :=
  match blank_to_none value with
  | None => Ok None
  | Some v =>
      let compact := compact_phone v in
      if is_e164 compact then Ok (Some compact)
      else Raise (ValueError "phone_number must be in E.164 format (e.g. +919876543210)")
  end.

Definition normalize_profile_phone (value : option string) : res (option string) :=
  match blank_to_none value with
  | None => Ok None
  | Some v =>
      let compact := compact_phone v in
      normalize_e164_phone (Some
        (if all_chars is_digit compact && (String.length compact =? 10)%nat then "+91" +:+ compact else compact)%string)
  end.

(** ** app/utils/addon_services.py *)

Definition resolve_buyer_phone (raw : option string) (user : AppUser) : res string :=
  try! phone <- normalize_profile_phone raw;
  let phone := if truthy phone then phone else u_phone_number user in
  if truthy phone then Ok (default EmptyString phone)
  else Raise (AppException "A valid 10-digit phone number is required." 400).

(** The keys of a comma-separated list. *)
Definition _addon_keys (addon_services : string) : list string :=
  filter (fun k => is_empty k = false) (map strip (split_char (Ascii.ascii_of_nat 44) addon_services)).

(** The live services the keys name, by id or by skill (the last of equal skills). *)
Definition live_compliance (keys : list string) (x : OperationsService) : bool :=
  negb (os_is_deleted x) && os_is_available x && bool_decide (os_service_type x = "compliance"%string)
  && (bool_decide (os_id x ∈ keys) || match os_skills x with Some k => bool_decide (k ∈ keys) | None => false end).

Definition service_for (services : list OperationsService) (key : string) : option OperationsService :=
  match List.find (fun x => bool_decide (os_id x = key)) services with
  | Some x => Some x
  | None => List.find (fun x => bool_decide (os_skills x = Some key)) (rev services)
  end.

(** In the order of the keys, every service once. *)
Fixpoint ordered_services (services : list OperationsService) (keys seen : list string) : list OperationsService :=
  match keys with
  | [] => []
  | key :: keys' =>
      match service_for services key with
      | Some x =>
          if bool_decide (os_id x ∈ seen) then ordered_services services keys' seen
          else x :: ordered_services services keys' (os_id x :: seen)
      | None => ordered_services services keys' seen
      end
  end.

Definition resolve_live_compliance_addon_services (addon_services : string) : Prog (list OperationsService) :=
  let keys := _addon_keys addon_services in
  if bool_decide (keys = []) then ret []
  else
    do services <- gets (fun d => select_where (live_compliance keys) (values (ops_services d)));
    ret (ordered_services services keys []).

Definition or_dash (s : string) : string := default "—"%string (strip_or_none (Some s)).

Definition pending_request (user_id service_id : string) (r : OperationsServiceRequest) : bool :=
  bool_decide (or_user_id r = user_id) && bool_decide (or_operations_service_id r = service_id)
  && bool_decide (or_status r = "PENDING"%string).

(** A phone that is [None] has no [strip]. *)
Definition request_addon (user_id buyer_name buyer_email : string) (buyer_phone : option string)
    (service : OperationsService) : Prog unit :=
  do rows <- gets (fun d => select_where (pending_request user_id (os_id service)) (ops_requests d));
  do existing <- scalar_one_or_none rows;
  match existing with
  | Some _ => ret tt
  | None =>
      match buyer_phone with
      | None => raise (OtherError "AttributeError")
      | Some phone =>
          modify (fun d => d <| ops_requests ::= fun t =>
            t ++ [MkServiceRequest (os_id service) user_id (os_service_type service) (os_name service)
                    (os_price service) (or_dash buyer_name) (or_dash buyer_email) (or_dash phone) "PENDING"] |>)
      end
  end.

Definition create_addon_operations_requests (user_id buyer_name buyer_email : string) (buyer_phone : option string)
    (addon_services_csv : option string) : Prog unit :=
  if truthy addon_services_csv then
    do services <- resolve_live_compliance_addon_services (default EmptyString addon_services_csv);
    for_each services (request_addon user_id buyer_name buyer_email buyer_phone)
  else ret tt.

(** ** marketplace_payment_service.py *)

Section MarketplacePayment.
Context {cfg : Config} {cipher : Cipher}.

Definition PREMIUM_MARKETPLACE_MIN_PRICE_INR : py_float := fl_of_Z 500000.

(** domain_enquiry_service.py *)
Definition is_premium_marketplace_listing (l : DomainListing) : bool :=
  negb (bool_decide (l_sale_type l = SaleType.AUCTION)) && fl_ltb PREMIUM_MARKETPLACE_MIN_PRICE_INR (l_asking_price l).

(** May the buyer open an order for the listing? *)
Definition check_buyable (l : DomainListing) (buyer : AppUser) : Prog unit :=
  guard_exn (negb (bool_decide (l_listed_by_user_id l = Some (u_id buyer))))
    (AppException "You cannot buy your own domain." 400) ;;;
  guard_exn (negb (bool_decide (l_domain_status l = DomainListingStatus.SOLD)))
    (AppException "This domain has already been sold." 409) ;;;
  guard_exn (negb (bool_decide (l_domain_status l = DomainListingStatus.UNDER_REVIEW)))
    (AppException "This domain is currently under review for premium acquisition." 409) ;;;
  guard_exn (negb (bool_decide (l_domain_status l = DomainListingStatus.PENDING))
             || bool_decide (l_purchased_by_user_id l = Some (u_id buyer)))
    (AppException "Another buyer is completing payment for this domain." 409) ;;;
  guard_exn (bool_decide (l_domain_status l ∈ [DomainListingStatus.PENDING; DomainListingStatus.AVAILABLE]))
    (AppException "Domain is not available for purchase." 400) ;;;
  guard_exn (negb (is_premium_marketplace_listing l || fl_ltb PREMIUM_MARKETPLACE_MIN_PRICE_INR (l_asking_price l)))
    (AppException "Premium marketplace domains cannot be purchased online. Add to cart and submit an acquisition request." 400).

(** What is charged and shown: the amounts in the buyer's currency, or in
    rupees when a conversion fails. *)
Record charge := Charge { ch_amount : py_float; ch_currency : string; ch_domain : py_float; ch_addon : py_float }.

Definition in_currency (convert : py_float -> string -> res py_float) (order_amount domain_price addon_amount : py_float)
    (currency : string) : charge :=
  let inr := Charge order_amount "INR" domain_price addon_amount in
  if negb (is_empty currency) && negb (bool_decide (upper currency = "INR"%string)) then
    match (try! a <- convert order_amount currency;
           try! d <- convert domain_price currency;
           try! s <- convert addon_amount currency;
           Ok (Charge a (upper currency) d s)) with
    | Ok c => c
    | Raise _ => inr
    end
  else inr.

(** The buyer's details on the listing. *)
Definition with_buyer (l : DomainListing) (buyer : AppUser) (name email phone addons : string) : DomainListing :=
  l <| l_purchase_buyer_name := strip_or_none (Some name) |>
    <| l_purchase_buyer_email := strip_or_none (Some (if is_empty email then u_email buyer else email)) |>
    <| l_purchase_buyer_phone := Some phone |>
    <| l_purchase_addon_services := strip_or_none (Some addons) |>.

Definition full_name (u : AppUser) : string :=
  strip (default EmptyString (u_firstname u) +:+ " " +:+ default EmptyString (u_lastname u)).

(** [" ".join(p for p in (firstname, lastname) if p).strip()] *)
Definition joined_name (u : AppUser) : string :=
  match truthy (u_firstname u), truthy (u_lastname u) with
  | true, true => strip (default EmptyString (u_firstname u) +:+ " " +:+ default EmptyString (u_lastname u))
  | true, false => strip (default EmptyString (u_firstname u))
  | false, true => strip (default EmptyString (u_lastname u))
  | false, false => EmptyString
  end.

(** (name, email, phone) of the purchase, for the add-on requests and the order. *)
Definition buyer_contact (l : DomainListing) (buyer : AppUser) : string * string * option string :=
  (str_or (l_purchase_buyer_name l) (joined_name buyer), str_or (l_purchase_buyer_email l) (u_email buyer),
   if truthy (l_purchase_buyer_phone l) then l_purchase_buyer_phone l else u_phone_number buyer).

Definition request_addons (l : DomainListing) (buyer : AppUser) : Prog unit :=
  let '(name, email, phone) := buyer_contact l buyer in
  create_addon_operations_requests (u_id buyer) name email phone (l_purchase_addon_services l).

Record purchase_order := PurchaseOrder {
  od_orderId : option string; od_amount : py_float; od_domainPrice : py_float; od_addonAmount : py_float;
  od_currency : string;
}.

(** Nothing to pay, only services asked for. *)
Definition contact_purchase (l : DomainListing) (buyer : AppUser) (currency : string) : Prog purchase_order :=
  do now <- utc_now;
  let l' := l <| l_domain_status := DomainListingStatus.SOLD |>
              <| l_payment_status := Some MarketplacePaymentStatus.CONTACT_PENDING |>
              <| l_purchased_by_user_id := Some (u_id buyer) |> <| l_sold_at := Some now |> in
  save_listing l' ;;;
  request_addons l' buyer ;;;
  commit ;;;
  ret (PurchaseOrder None fl_zero fl_zero fl_zero currency).

(** How a failed order is answered. *)
Definition order_error (e : exn) : exn :=
  let detail := exn_text e in
  match e with
  | ValueError _ => if is_empty detail then AppException "Could not create payment order. Please try again." 502
                    else AppException detail 400
  | _ =>
      if contains "maximum amount" (lower detail) || contains "amount exceeds" (lower detail) then
        AppException "This purchase amount exceeds the payment gateway limit for instant checkout. Please use Add to Cart or contact support for assisted purchase." 400
      else AppException "Could not create payment order. Please try again." 502
  end.

(** The gateway order and the reservation of the points spent on it. *)
Definition open_order (api : rzp_api) (listing_id : string) (buyer : AppUser) (amount : py_float) (currency : string)
    (points : Z) : Prog string :=
  catch
    (do order_id <- lift_res (create_order api amount
       ("dl_" +:+ str_take 20 (remove_all "-" listing_id))%string currency);
     when (0 <? points) (create_pending_redemption (u_id buyer) order_id points) ;;;
     ret order_id)
    (fun e => raise (order_error e)).

Definition create_purchase_order (api : rzp_api) (convert : py_float -> string -> res py_float)
    (listing_id : string) (buyer : AppUser) (buyer_name buyer_email buyer_phone : string)
    (addon_amount : py_float) (selected_addon_services currency : string) (redeem_points : bool)
    : Prog purchase_order :=
  guard_exn is_configured (AppException "Payment gateway is not configured." 503) ;;;
  do listing <- get_listing listing_id;
  match listing with
  | None => raise (AppException "Domain listing not found." 404)
  | Some l0 =>
      check_buyable l0 buyer ;;;
      let domain_price := l_asking_price l0 in
      do pricing <- lift_res (domain_price_breakdown (fl_add domain_price addon_amount) 1);
      let order_amount := pb_totalInr pricing in
      let ch := in_currency convert order_amount domain_price addon_amount currency in
      do phone <- lift_res (resolve_buyer_phone (Some buyer_phone) buyer);
      let l := with_buyer l0 buyer buyer_name buyer_email phone selected_addon_services in
      modify (put_listing l) ;;;
      let contact_only := negb (is_empty selected_addon_services) && fl_leb addon_amount fl_zero
                          && fl_leb domain_price fl_zero in
      guard_exn (negb (fl_leb order_amount fl_zero && negb contact_only))
        (AppException "Invalid listing price for payment." 400) ;;;
      if contact_only then contact_purchase l buyer (ch_currency ch)
      else
        do (amount, points) <-
          (if bool_decide (ch_currency ch = "INR"%string) && fl_ltb fl_zero (ch_amount ch)
           then calculate_redemption buyer (ch_amount ch) redeem_points else ret (ch_amount ch, 0));
        do order_id <- open_order api listing_id buyer amount (ch_currency ch) points;
        save_listing (l <| l_domain_status := DomainListingStatus.PENDING |>
                        <| l_razorpay_order_id := Some order_id |>
                        <| l_payment_status := Some MarketplacePaymentStatus.CREATED |>
                        <| l_purchased_by_user_id := Some (u_id buyer) |>) ;;;
        commit ;;;
        ret (PurchaseOrder (Some order_id) amount (ch_domain ch) (ch_addon ch) (ch_currency ch))
  end.

(** ** Verifying the payment *)

Record purchase_verified := PurchaseVerified { pv_transactionId : string; pv_transferStatus : TStatus.t }.

Definition verified_as (x : DomainMarketplaceTransaction) : purchase_verified :=
  PurchaseVerified (x_id x) (x_transfer_status x).

(** track_record_service.py: the records of paid registration orders are renewed. *)
Definition orders_where (p : DomainRegistrationOrder -> bool) (d : DB) : list DomainRegistrationOrder :=
  merge_sort (by_asc (fun o => default 0 (ro_created_at o))) (select_where p (values (reg_orders d))).

Definition backfill_from_registration_orders (razorpay_order_id razorpay_payment_id : string) : Prog unit :=
  do by_order <- gets (fun d => if is_empty razorpay_order_id then []
    else orders_where (fun o => bool_decide (ro_razorpay_order_id o = Some razorpay_order_id)) d);
  do by_payment <- gets (fun d => if is_empty razorpay_payment_id then []
    else orders_where (fun o => bool_decide (ro_razorpay_payment_id o = Some razorpay_payment_id)) d);
  for_each (if bool_decide (by_order = []) then by_payment else by_order) (fun o =>
    when (truthy (ro_razorpay_payment_id o)) (emit (TrackRecord ("TRK-REG-" +:+ ro_id o)))).

(** The listing is free again. *)
Definition payment_failed (l : DomainListing) : DomainListing :=
  l <| l_domain_status := DomainListingStatus.AVAILABLE |>
    <| l_payment_status := Some MarketplacePaymentStatus.FAILED |>
    <| l_purchased_by_user_id := None |> <| l_razorpay_order_id := None |>.

Definition refuse_signature (l : DomainListing) (razorpay_order_id : string) : Prog purchase_verified :=
  cancel_redemption razorpay_order_id ;;;
  save_listing (payment_failed l) ;;;
  emit (TrackRecord ("TRK-MKT-" +:+ razorpay_order_id)) ;;;
  commit ;;;
  raise (AppException "Payment verification failed." 400).

Definition bought (l : DomainListing) (buyer_id payment_id : string) (now : Z) : DomainListing :=
  l <| l_domain_status := DomainListingStatus.SOLD |>
    <| l_payment_status := Some MarketplacePaymentStatus.COMPLETED |>
    <| l_razorpay_payment_id := Some payment_id |> <| l_purchased_by_user_id := Some buyer_id |>
    <| l_sold_at := Some now |>.

(** The name and extension of the order: the listing's extension is not looked at. *)
Definition split_name (domain_name : string) : string * string :=
  let domain_full := lower (strip domain_name) in
  match cut_char (Ascii.ascii_of_nat 46) domain_full with
  | Some (name, ext) => (name, "." +:+ ext)%string
  | None => (domain_full, ".com"%string)
  end.

(** [a or b] on texts. *)
Definition text_or (a b : string) : string := if is_empty a then b else a.

Definition sale_order (l : DomainListing) (buyer : AppUser) (tax : price_breakdown) (order_id payment_id : string)
    : DomainRegistrationOrder :=
  let '(name, email, phone) := buyer_contact l buyer in
  let '(stem, ext) := split_name (l_domain_name l) in
  {| ro_id := EmptyString; ro_domain_name := stem; ro_domain_extension := ext; ro_buyer_id := u_id buyer;
     ro_buyer_full_name := Some (text_or name (text_or (full_name buyer) email));
     ro_buyer_email := Some (text_or email (u_email buyer));
     ro_buyer_phone := if truthy phone then phone else u_phone_number buyer;
     ro_period_years := 1; ro_subtotal_inr := Some (pb_subtotalInr tax); ro_gst_inr := Some (pb_gstInr tax);
     ro_price_inr := pb_totalInr tax; ro_quoted_unit_price_inr := Some (l_asking_price l);
     ro_price_source := Some "marketplace"%string; ro_status := RegistrationOrderStatus.ACTIVE;
     ro_razorpay_order_id := Some order_id; ro_razorpay_payment_id := Some payment_id;
     ro_tax_invoice_number := None;
     ro_provision_message := Some "Direct marketplace domain purchase completed."%string;
     ro_provision_attempts := 1; ro_created_at := None; ro_completed_at := None |}.

(** The order behind the invoice, with its number. *)
Definition invoice_sale (l : DomainListing) (buyer : AppUser) (order_id payment_id : string)
    : Prog DomainRegistrationOrder :=
  do tax <- lift_res (domain_price_breakdown (l_asking_price l) 1);
  do o <- order_insert (sale_order l buyer tax order_id payment_id);
  do (o', _) <- ensure_tax_invoice_number o;
  order_flush o' ;;;
  ret o'.

(** What is done once the listing is marked as sold. *)
Definition open_sale (mail_ok : string -> bool) (l : DomainListing) (buyer : AppUser) (order_id payment_id : string)
    : Prog DomainMarketplaceTransaction :=
  do tx <- create_from_payment l buyer order_id payment_id None None;
  on_payment_completed mail_ok tx ;;;
  do o <- invoice_sale l buyer order_id payment_id;
  emit (TrackRecord ("TRK-MKT-" +:+ order_id)) ;;;
  commit ;;;
  ret tx.

(** A concurrent request for the same payment won the race: its sale is answered. *)
Definition sale_replay (payment_id : string) (e : exn) : Prog DomainMarketplaceTransaction :=
  match e with
  | IntegrityError _ =>
      rollback ;;;
      do replay <- get_by_razorpay_payment_id payment_id;
      match replay with Some x => ret x | None => raise e end
  | _ => raise e
  end.

Definition verify_payment (mail_ok : string -> bool) (listing_id razorpay_payment_id razorpay_order_id
    razorpay_signature : string) (buyer : AppUser) : Prog purchase_verified :=
  do existing <- get_by_razorpay_payment_id razorpay_payment_id;
  match existing with
  | Some x =>
      backfill_from_registration_orders razorpay_order_id razorpay_payment_id ;;;
      commit ;;;
      ret (verified_as x)
  | None =>
      do listing <- get_listing listing_id;
      match listing with
      | None => raise (AppException "Domain listing not found." 404)
      | Some l =>
          guard_exn match l_purchased_by_user_id l with
                    | Some u => bool_decide (u = u_id buyer)
                    | None => true
                    end (AppException "This purchase order belongs to another user." 403) ;;;
          do ok <- lift_res (verify_payment_signature razorpay_order_id razorpay_payment_id razorpay_signature);
          if negb ok then refuse_signature l razorpay_order_id
          else
            do now <- utc_now;
            let l' := bought l (u_id buyer) razorpay_payment_id now in
            save_listing l' ;;;
            confirm_redemption razorpay_order_id ;;;
            request_addons l' buyer ;;;
            do tx <- catch (open_sale mail_ok l' buyer razorpay_order_id razorpay_payment_id)
                       (sale_replay razorpay_payment_id);
            ret (verified_as tx)
      end
  end.

(** Reported by any user, for any listing. *)
Definition handle_payment_failure (listing_id : string) : Prog unit :=
  do listing <- get_listing listing_id;
  match listing with
  | None => raise (AppException "Domain listing not found." 404)
  | Some l =>
      when (truthy (l_razorpay_order_id l)) (cancel_redemption (default EmptyString (l_razorpay_order_id l))) ;;;
      save_listing (payment_failed l) ;;;
      commit
  end.
End MarketplacePayment.

(** ** Lemmas *)

Section Lemmas.
Context {cfg : Config} {cipher : Cipher}.

(** Everything but the registration orders and their numbers. *)
Definition sans_orders (d : DB) : DB := d <| reg_orders := ∅ |> <| invoice_counters := ∅ |>.

(** The order that was added, with the next number of its year. *)
Definition order_added (o : DomainRegistrationOrder) (d d' : DB) : Prop :=
  reg_orders d' = <[ro_id o := o]> (reg_orders d) /\ reg_orders d !! ro_id o = None /\
  exists y, ro_tax_invoice_number o = Some (format_tax_invoice_number y (last_seq y d + 1)) /\
            unused (format_tax_invoice_number y (last_seq y d + 1)) d /\ last_seq y d' = last_seq y d + 1.

Lemma order_insert_run o (s : Session) :
  ro_tax_invoice_number o = None -> reg_orders (s_db s) !! s_ids s 0%nat = None ->
  let stored := o <| ro_id := s_ids s 0%nat |> <| ro_created_at := Some (s_clock s 0%nat) |> in
  order_insert o s = (Ok stored, Prelude.Session (s_committed s) (put_order stored (s_db s)) (s_out s)
                                   (fun n => s_clock s (S n)) (fun n => s_ids s (S n))).
Proof.
  intros Hnone Hnew stored. unfold order_insert, bind, uuid4, utc_now, gets. cbn [s_db s_clock s_ids fst snd]. fold stored.
  assert (number_taken stored (s_db s) = false) as -> by (unfold number_taken; cbn; by rewrite Hnone).
  cbn [negb guard_exn ret].
  unfold insert_new, bind, gets. cbn [s_db]. by rewrite Hnew.
Qed.

Lemma invoice_sale_run l buyer oid pid tax (s : Session) :
  invoices_ok (s_db s) -> streams in_window (fun i => reg_orders (s_db s) !! i = None) s ->
  domain_price_breakdown (l_asking_price l) 1 = Ok tax ->
  exists o s', invoice_sale l buyer oid pid s = (Ok o, s') /\ order_added o (s_db s) (s_db s') /\
    ro_price_inr o = pb_totalInr tax /\ ro_razorpay_payment_id o = Some pid /\ ro_buyer_id o = u_id buyer /\
    sans_orders (s_db s') = sans_orders (s_db s) /\ s_committed s' = s_committed s.
Proof.
  intros Hok [Hclock Hids] Htax. unfold invoice_sale, bind at 1, lift_res. rewrite Htax. unfold bind at 1.
  set (o0 := sale_order l buyer tax oid pid).
  assert (ro_tax_invoice_number o0 = None /\ ro_status o0 = RegistrationOrderStatus.ACTIVE /\
    ro_completed_at o0 = None /\ ro_price_inr o0 = pb_totalInr tax /\ ro_razorpay_payment_id o0 = Some pid /\
    ro_buyer_id o0 = u_id buyer) as (Hnone & Hact & Hcomp & Hprice & Hpid & Hbuyer).
  { unfold o0, sale_order. destruct (buyer_contact l buyer) as [[name email] phone].
    by destruct (split_name (l_domain_name l)). }
  clearbody o0. rewrite (order_insert_run o0 s Hnone (Hids 0%nat)).
  set (o1 := o0 <| ro_id := _ |> <| ro_created_at := _ |>). set (s1 := Prelude.Session _ _ _ _ _).
  assert (invoices_ok (s_db s1)) as Hok1.
  { apply order_write_ok; [done|unfold number_taken; cbn; by rewrite Hnone|]. cbn. rewrite Hnone. done. }
  assert (dated o1) as Hdated.
  { intros t [H|H]; cbn in H; [congruence|]. injection H as <-. apply Hclock. }
  destruct (ensure_run o1 s1 Hdated) as (o2 & num & s2 & Hrun & Hnum & Hc & _); [intros n; apply Hclock|].
  destruct (numbered_writable o1 o2 (s_db s1) (s_db s2) Hok1) as [Htaken _]; [|exact Hnum|].
  { intros n H. cbn in H. congruence. }
  unfold bind at 1. rewrite Hrun. unfold order_flush, bind, gets. cbn. rewrite Htaken. cbn.
  destruct Hnum as [(_ & _ & H)|(y & Hy & _ & _ & -> & Hs2)].
  { specialize (H Hact). cbn in H. by rewrite Hnone in H. }
  eexists _, _. split; [reflexivity|]. cbn [s_db s_committed]. rewrite Hs2. split_and!; try done.
  - unfold order_added. cbn. split_and!; [exact (insert_insert_eq _ _ _ _)|apply Hids|].
    exists y. split_and!; [done| |].
    + by apply unused_next.
    + unfold last_seq. cbn. by rewrite lookup_insert_eq.
Qed.

Lemma draws_confirm oid : draws (confirm_redemption oid).
Proof. unfold confirm_redemption, add_history. draws. Qed.

Lemma draws_split_sale l c g : draws (split_sale l c g).
Proof. intros C I s Hs. by destruct (split_sale_run l c g s) as (fee & payout & ->). Qed.

Lemma draws_create_from_payment l buyer oid pid c g : draws (create_from_payment l buyer oid pid c g).
Proof.
  unfold create_from_payment, get_by_razorpay_payment_id, scalar_one_or_none, get_profile, tx_create, insert_new,
    save_listing, log_event.
  draws. all: apply draws_split_sale.
Qed.

Lemma draws_payment_completed mail_ok tx : draws (on_payment_completed mail_ok tx).
Proof. unfold on_payment_completed, tell, mail_to, tx_save, tx_seller, tx_buyer. draws. Qed.

Lemma confirm_run oid (s : Session) :
  (forall r, get_pending_redemption oid (s_db s) = Some r -> is_Some (users (s_db s) !! rd_user_id r)) ->
  exists s', confirm_redemption oid s = (Ok tt, s') /\ sans_wallet (s_db s') = sans_wallet (s_db s).
Proof.
  intros Hfk. unfold confirm_redemption, bind, gets.
  destruct (get_pending_redemption oid (s_db s)) as [r|]; [|by exists s].
  destruct (Hfk r eq_refl) as [u Hu]. cbn. rewrite Hu. cbn. eexists. by split.
Qed.

(** A listing a payment can be verified for: the payment is new and signed, the
    listing no one else's, its price has a tax, and no add-on was chosen. *)
Record payable (d : DB) (lid pid oid sig : string) (buyer : AppUser) (l : DomainListing) (seller : string)
    (tax : price_breakdown) : Prop := {
  pb_new : txs_paid_by pid d = [];
  pb_listing : alive_listing lid d = Some l /\ l_listed_by_user_id l = Some seller;
  pb_free : l_purchased_by_user_id l = None \/ l_purchased_by_user_id l = Some (u_id buyer);
  pb_signed : verify_payment_signature oid pid sig = Ok true;
  pb_tax : domain_price_breakdown (l_asking_price l) 1 = Ok tax;
  pb_addons : truthy (l_purchase_addon_services l) = false;
  pb_points : forall r, get_pending_redemption oid d = Some r -> is_Some (users d !! rd_user_id r);
  pb_numbers : invoices_ok d;
}.

(** The identifiers to come are new, and the clock is in the century. *)
Definition supplied (clock : nat -> Z) (ids : nat -> string) (d : DB) : Prop :=
  forall n, in_window (clock n) /\ mkt_txs d !! ids n = None /\ reg_orders d !! ids n = None.

Lemma open_sale_run mail_ok l buyer oid pid seller tax (s : Session) :
  txs_paid_by pid (s_db s) = [] -> l_listed_by_user_id l = Some seller ->
  domain_price_breakdown (l_asking_price l) 1 = Ok tax -> invoices_ok (s_db s) ->
  streams in_window (fun i => mkt_txs (s_db s) !! i = None /\ reg_orders (s_db s) !! i = None) s ->
  exists tx tx' o s', open_sale mail_ok l buyer oid pid s = (Ok tx, s') /\ s_committed s' = s_db s' /\
    x_id tx' = x_id tx /\ x_transfer_status tx = TStatus.AWAITING_AUTH_CODE /\
    mkt_txs (s_db s) !! x_id tx' = None /\
    opened l (u_id buyer) seller oid pid (listing_gross l) tx' /\
    mkt_txs (s_db s') = <[x_id tx := tx']> (mkt_txs (s_db s)) /\
    listings (s_db s') = <[l_id l := l <| l_active_transaction_id := Some (x_id tx) |>]> (listings (s_db s)) /\
    order_added o (s_db s) (s_db s') /\ ro_price_inr o = pb_totalInr tax /\
    ro_razorpay_payment_id o = Some pid /\ ro_buyer_id o = u_id buyer.
Proof.
  intros Hpid Hseller Htax Hok Hs.
  destruct (create_from_payment_new l buyer oid pid None (listing_gross l) seller s Hpid Hseller
    (proj1 (proj2 Hs 0%nat))) as (tx & s1 & Hcreate & Hid & Hop & Hm & Hli & Hsans).
  change (create_from_payment l buyer oid pid None None s = (Ok tx, s1)) in Hcreate.
  pose proof (draws_run _ _ _ _ _ _ (draws_create_from_payment l buyer oid pid None None) Hs Hcreate) as Hs1.
  destruct (on_payment_completed_run mail_ok tx s1) as (s2 & b1 & b2 & Hrun & Hs2).
  pose proof (draws_run _ _ _ _ _ _ (draws_payment_completed mail_ok tx) Hs1 Hrun) as Hs2s.
  assert (forall T (view : DB -> T), (forall d, view (sans_sales d) = view d) -> view (s_db s2) = view (s_db s)) as Hview.
  { intros T view Hv. rewrite Hs2. transitivity (view (sans_sales (s_db s1))); [exact (eq_sym (Hv (put_tx _ (s_db s1))))|].
    rewrite Hsans. apply Hv. }
  assert (reg_orders (s_db s2) = reg_orders (s_db s)) as Hro by (by apply Hview).
  assert (invoice_counters (s_db s2) = invoice_counters (s_db s)) as Hic by (by apply Hview).
  assert (invoices_ok (s_db s2)) as Hok2.
  { destruct Hok as [H1 H2 H3 H4]. split; unfold last_seq in *; rewrite ?Hro, ?Hic; assumption. }
  destruct (invoice_sale_run l buyer oid pid tax s2 Hok2) as (o & s3 & Hinv & Hadd & Hprice & Hopid & Hobuyer & Hsans3 & _).
  { destruct Hs2s as [Hc Hi]. split; [exact Hc|]. intros n. rewrite Hro. apply Hi. }
  { done. }
  unfold open_sale, bind at 1. rewrite Hcreate. unfold bind at 1. rewrite Hrun. unfold bind at 1. rewrite Hinv.
  exists tx, (tx <| x_email_sale_seller_sent := b1 |> <| x_email_sale_buyer_sent := b2 |>), o.
  eexists. split; [reflexivity|]. cbn [s_db s_committed]. split; [reflexivity|]. split; [reflexivity|].
  split; [apply Hop|]. split; [cbn; rewrite Hid; apply Hs|]. split; [by destruct Hop; constructor|].
  assert (mkt_txs (s_db s3) = mkt_txs (s_db s2)) as -> by exact (f_equal mkt_txs Hsans3).
  assert (listings (s_db s3) = listings (s_db s2)) as -> by exact (f_equal listings Hsans3).
  split_and!; try done.
  - rewrite Hs2. cbn. rewrite Hm. apply insert_insert_eq.
  - rewrite Hs2. cbn. exact Hli.
  - unfold order_added, unused, last_seq in *. by rewrite Hro, Hic in Hadd.
Qed.

Lemma request_addons_none l buyer (s : Session) :
  truthy (l_purchase_addon_services l) = false -> request_addons l buyer s = (Ok tt, s).
Proof.
  intros H. unfold request_addons, create_addon_operations_requests, buyer_contact.
  by rewrite H.
Qed.

(** C32. A signed payment buys the listing: it is marked as sold to the buyer, one
    sale opens with the money held for the seller, one order with the next
    invoice number is stored, and all of it is committed. *)
Theorem purchase_completes mail_ok clock ids d lid pid oid sig buyer l seller tax :
  payable d lid pid oid sig buyer l seller tax -> supplied clock ids d ->
  exists tx tx' o d',
    run_request clock ids (verify_payment mail_ok lid pid oid sig buyer) d
      = (Ok (PurchaseVerified (x_id tx) TStatus.AWAITING_AUTH_CODE), d') /\
    listings d' = <[l_id l := (bought l (u_id buyer) pid (clock 0%nat)) <| l_active_transaction_id := Some (x_id tx) |>]>
                    (listings d) /\
    mkt_txs d !! x_id tx = None /\ mkt_txs d' = <[x_id tx := tx']> (mkt_txs d) /\
    opened (bought l (u_id buyer) pid (clock 0%nat)) (u_id buyer) seller oid pid (listing_gross l) tx' /\
    order_added o d d' /\ ro_price_inr o = pb_totalInr tax /\ ro_razorpay_payment_id o = Some pid /\
    ro_buyer_id o = u_id buyer.
Proof.
  intros [Hnew [Hl Hseller] Hfree Hsig Htax Haddons Hfk Hnum] Hsup.
  set (l' := bought l (u_id buyer) pid (clock 0%nat)).
  set (s1 := Prelude.Session d (put_listing l' d) [] (fun n => clock (S n)) ids : Session).
  destruct (confirm_run oid s1) as (s2 & Hconf & Hw).
  { intros r Hr. exact (Hfk r Hr). }
  assert (streams in_window (fun i => mkt_txs d !! i = None /\ reg_orders d !! i = None) s1) as Hs1.
  { split; intros n; [apply (Hsup (S n))|apply (Hsup n)]. }
  pose proof (draws_run _ _ _ _ _ _ (draws_confirm oid) Hs1 Hconf) as Hs2.
  assert (forall T (view : DB -> T), (forall d, view (sans_wallet d) = view d) -> view (s_db s2) = view (put_listing l' d))
    as Hview.
  { intros T view Hv. rewrite <-(Hv (s_db s2)), Hw. apply Hv. }
  pose proof (Hview _ mkt_txs (fun _ => eq_refl)) as Htxs. pose proof (Hview _ reg_orders (fun _ => eq_refl)) as Hro.
  pose proof (Hview _ listings (fun _ => eq_refl)) as Hli.
  pose proof (Hview _ invoice_counters (fun _ => eq_refl)) as Hic.
  cbn in Htxs, Hro, Hli, Hic.
  destruct (open_sale_run mail_ok l' buyer oid pid seller tax s2) as
    (tx & tx' & o & s' & Hrun & Hc & Hid & Hst & Hfresh & Hop & Hmk & Hli' & Hadd & Ho); try done.
  { unfold txs_paid_by. by rewrite Htxs. }
  { destruct Hnum as [H1 H2 H3 H4]. split; unfold last_seq in *; rewrite ?Hro, ?Hic; assumption. }
  { destruct Hs2 as [Hc Hi]. split; [exact Hc|]. intros n. rewrite Htxs, Hro. apply Hi. }
  exists tx, tx', o, (s_db s'). split.
  - unfold run_request, verify_payment, bind at 1, get_by_razorpay_payment_id, gets, bind at 1. cbn [open_session s_db].
    rewrite Hnew. cbn [scalar_one_or_none ret]. unfold bind at 1, get_listing, gets. cbn [s_db open_session]. rewrite Hl.
    assert (match l_purchased_by_user_id l with Some u => bool_decide (u = u_id buyer) | None => true end = true) as ->.
    { destruct Hfree as [->| ->]; [done|]. by apply bool_decide_eq_true_2. }
    cbn [guard_exn]. unfold bind at 1, ret at 1. rewrite Hsig. unfold bind at 1, lift_res. cbn [negb].
    unfold bind at 1, utc_now. cbn [s_clock open_session]. fold l'. unfold bind at 1, save_listing, modify.
    cbn [s_committed s_db s_out s_ids open_session].
    match goal with |- context [_ (Prelude.Session ?a ?b ?c ?f ?g)] => change (Prelude.Session a b c f g) with s1 end.
    unfold bind at 1. rewrite Hconf. unfold bind at 1. rewrite request_addons_none by done.
    unfold bind at 1, catch. rewrite Hrun. unfold ret. rewrite Hc. unfold verified_as. by rewrite Hst.
  - rewrite <-Htxs, <-Hid. split_and!; try done; try apply Ho.
    + rewrite Hid, Hli', Hli. apply insert_insert_eq.
    + by rewrite Hid, Hmk.
    + unfold order_added, unused, last_seq in *. by rewrite Hro, Hic in Hadd.
Qed.

(** Whoever reports that a payment failed makes the listing available again:
    neither the buyer nor the state of the sale is looked at, so a listing that
    was sold and paid for goes back on sale. *)
Theorem payment_failure_reopens clock ids d lid l :
  alive_listing lid d = Some l ->
  exists d', run_request clock ids (handle_payment_failure lid) d = (Ok tt, d') /\
    listings d' = <[l_id l := payment_failed l]> (listings d) /\
    l_domain_status (payment_failed l) = DomainListingStatus.AVAILABLE /\
    l_purchased_by_user_id (payment_failed l) = None /\
    sans_wallet (d' <| listings := listings d |>) = sans_wallet d.
Proof.
  intros Hl. unfold run_request, handle_payment_failure, bind at 1, get_listing, gets. cbn [open_session s_db].
  rewrite Hl. unfold when. destruct (truthy (l_razorpay_order_id l)); [|eexists; by split].
  set (oid := default EmptyString (l_razorpay_order_id l)). set (s0 := open_session clock ids d).
  unfold bind at 1. pose proof (cancel_cases oid s0) as Hc.
  assert (exists s1, cancel_redemption oid s0 = (Ok tt, s1) /\ sans_wallet (s_db s1) = sans_wallet d) as (s1 & -> & Hw).
  { destruct (get_pending_redemption oid (s_db s0)); [|by exists s0].
    destruct Hc as (s1 & Hrun & Hw & _). by exists s1. }
  eexists. split; [reflexivity|]. cbn [s_committed].
  assert (listings (s_db s1) = listings d) as Hli by exact (f_equal listings Hw).
  split_and!; try done; cbn; [by rewrite Hli|].
  change ((sans_wallet (s_db s1)) <| listings := listings d |> = sans_wallet d). by rewrite Hw.
Qed.
End Lemmas.

(** ** Cases *)

Module Shop.
Import Samples Sale Invoices.

(** The sample listing, offered for 100 rupees; no order was opened for it.
    ["o2"] is the sample order of a 20 rupee bid fee. *)
Definition offer : DomainListing := (listing None) <| l_sale_type := SaleType.ONE_TIME |>.
Definition db : DB := Samples.db <| listings := {[ "l1" := offer ]} |>.

Definition buy (lid : string) (buyer : AppUser) : Prog purchase_verified :=
  verify_payment mails_sent lid "pay" "o2" (sign "o2" "pay") buyer.
Definition buy_ids : nat -> string := ids_of "s".
Definition sold : DB := (run_request clock_2026 buy_ids (buy "l1" winner) db).2.

Definition of_offer (d : DB) :=
  option_map (fun l => (l_domain_status l, l_purchased_by_user_id l)) (listings d !! "l1").
End Shop.

Import Samples Sale Invoices.

Lemma empty_invoices_ok d : reg_orders d = ∅ -> invoice_counters d = ∅ -> invoices_ok d.
Proof.
  intros Hr Hi. split; intros; unfold last_seq in *; rewrite ?Hr, ?Hi, ?lookup_empty in *; try done.
Qed.

Lemma offer_payable : exists tax,
  payable Shop.db "l1" "pay" "o2" (sign "o2" "pay") winner Shop.offer "seller" tax.
Proof.
  destruct (domain_price_breakdown (l_asking_price Shop.offer) 1) as [tax|e] eqn:Htax.
  - exists tax. constructor.
    + vm_compute. reflexivity.
    + split; [vm_compute; reflexivity|reflexivity].
    + by left.
    + vm_compute. reflexivity.
    + exact Htax.
    + reflexivity.
    + intros r Hr. vm_compute in Hr. discriminate.
    + by apply empty_invoices_ok.
  - exfalso. assert (is_ok (domain_price_breakdown (l_asking_price Shop.offer) 1) = true) as H by (vm_compute; reflexivity).
    by rewrite Htax in H.
Qed.

Lemma shop_supplied : supplied clock_2026 Shop.buy_ids Shop.db.
Proof. intros n. split; [apply clock_in_window|done]. Qed.

Lemma purchase_completes_witness :
  exists tx d', run_request clock_2026 Shop.buy_ids (Shop.buy "l1" winner) Shop.db = (Ok tx, d') /\
    pv_transferStatus tx = TStatus.AWAITING_AUTH_CODE /\
    l_razorpay_order_id Shop.offer = None /\
    option_map l_domain_status (listings d' !! "l1"%string) = Some DomainListingStatus.SOLD.
Proof.
  destruct offer_payable as [tax Hpay].
  destruct (purchase_completes mails_sent clock_2026 Shop.buy_ids Shop.db "l1" "pay" "o2" (sign "o2" "pay") winner
    Shop.offer "seller" tax Hpay shop_supplied) as (tx & tx' & o & d' & Hrun & Hl & _).
  exists (PurchaseVerified (x_id tx) TStatus.AWAITING_AUTH_CODE), d'. split; [exact Hrun|].
  split; [reflexivity|]. split; [reflexivity|]. rewrite Hl.
  change (l_id Shop.offer) with "l1"%string. by rewrite lookup_insert_eq.
Defined.

(** What was paid with the order that bought the offer: a 20 rupee bid fee of
    another auction. *)
Lemma bid_fee_buys_listing :
  option_map (fun r => (fp_payment_kind r, fp_fee_amount_inr r)) (fee_payments Shop.db !! "o2"%string)
    = Some (AuctionFeePaymentKind.BID, fl_of_Z 20) /\
  l_asking_price Shop.offer = fl_of_Z 100 /\
  Shop.of_offer Shop.sold = Some (DomainListingStatus.SOLD, Some "u2"%string).
Proof. split_and!; vm_compute; reflexivity. Qed.

Lemma payment_failure_reopens_witness :
  Shop.of_offer Shop.sold = Some (DomainListingStatus.SOLD, Some "u2"%string) /\
  exists d', run_request clock_2026 Shop.buy_ids (handle_payment_failure "l1") Shop.sold = (Ok tt, d') /\
    Shop.of_offer d' = Some (DomainListingStatus.AVAILABLE, None).
Proof.
  assert (Shop.of_offer Shop.sold = Some (DomainListingStatus.SOLD, Some "u2"%string)) as H by (vm_compute; reflexivity).
  split; [exact H|].
  destruct (alive_listing "l1" Shop.sold) as [l|] eqn:Hl.
  - destruct (payment_failure_reopens clock_2026 Shop.buy_ids Shop.sold "l1" l Hl) as (d' & Hrun & Hli & Hst & Hby & _).
    exists d'. split; [exact Hrun|]. unfold Shop.of_offer. rewrite Hli.
    assert (l_id l = "l1"%string) as ->.
    { assert (option_map l_id (alive_listing "l1" Shop.sold) = Some "l1"%string) as Hid by (vm_compute; reflexivity).
      rewrite Hl in Hid. by injection Hid. }
    rewrite lookup_insert_eq. cbn [option_map]. by rewrite Hst, Hby.
  - exfalso. assert (is_Some (alive_listing "l1" Shop.sold)) as [? H'] by (vm_compute; eauto).
    by rewrite Hl in H'.
Defined.

(** The order, and with it the invoice, of a sold listing names the domain with
    the extension .com, whatever the listing's extension. *)
Lemma invoice_names_com :
  let l := Shop.offer <| l_domain_extension := ".io" |> in
  fqdn_of l = "acme.io"%string /\ split_name (l_domain_name l) = ("acme", ".com")%string.
Proof. split; vm_compute; reflexivity. Qed.
