(* ===== verification/TransferProtocol.v ===== *)
(** * The transfer as a state machine

    An abstract machine for one sale - its escrow, its transfer status and the
    number of payouts made - and the proof that every operation of Transfer.v
    moves every sale along its edges only.  A sale opens with the payment of a
    winner (AuctionPayment.v) or of a direct purchase (DirectSale.v). *)

From stdpp Require Import relations.
From S2P Require Import Prelude PyNum Text Store Gateway RevealOtp AuctionRepo MarketTx Transfer EdgePoints Lifecycle Winner AuctionPayment TaxInvoice DirectSale Secrets.

(** ** The abstract machine *)

Record phase := Phase { ph_escrow : Escrow.t; ph_status : TStatus.t; ph_payouts : nat }.

(** A move of the status alone, whatever the escrow. *)
Inductive status_edge : TStatus.t -> TStatus.t -> Prop :=
| e_submit st : st ∈ [TStatus.AWAITING_AUTH_CODE; TStatus.ADMIN_REVIEW_REQUIRED] ->
    status_edge st TStatus.AUTH_CODE_AVAILABLE
| e_view st : st ∈ [TStatus.AUTH_CODE_AVAILABLE; TStatus.AUTH_CODE_RECEIVED] ->
    status_edge st TStatus.AUTH_CODE_VIEWED
| e_start st : st ∈ WITH_AUTH_CODE -> status_edge st TStatus.TRANSFER_IN_PROGRESS
| e_confirm st : st ∈ [TStatus.TRANSFER_IN_PROGRESS; TStatus.AUTH_CODE_VIEWED] ->
    status_edge st TStatus.PAYOUT_PENDING
| e_dispute st : st ∉ CLOSED_STATUSES -> status_edge st TStatus.DISPUTED
| e_force st : st ∉ CLOSED_STATUSES -> status_edge st TStatus.PAYOUT_PENDING
| e_timeout : status_edge TStatus.AWAITING_AUTH_CODE TStatus.ADMIN_REVIEW_REQUIRED
| e_extend : status_edge TStatus.ADMIN_REVIEW_REQUIRED TStatus.AWAITING_AUTH_CODE
| e_cancel st : st ∉ CANCEL_TERMINAL -> status_edge st TStatus.CANCELLED
| e_reopen st : st ∉ [TStatus.TRANSFER_COMPLETED; TStatus.PAYOUT_PENDING; TStatus.PAYOUT_APPROVED] ->
    status_edge st TStatus.TRANSFER_COMPLETED.

(** [sync] tells whether refunds made outside the program are synchronised. *)
Inductive edge (sync : bool) : phase -> phase -> Prop :=
| Move e st st' n : status_edge st st' -> edge sync (Phase e st n) (Phase e st' n)
| Approve st n : st ∈ [TStatus.TRANSFER_COMPLETED; TStatus.PAYOUT_PENDING] ->
    edge sync (Phase Escrow.HELD st n) (Phase Escrow.HELD TStatus.PAYOUT_APPROVED n)
| Release n : edge sync (Phase Escrow.HELD TStatus.PAYOUT_APPROVED n) (Phase Escrow.RELEASED TStatus.COMPLETED (S n))
| Refund st n : st ∉ REFUND_TERMINAL -> st <> TStatus.REFUNDED ->
    edge sync (Phase Escrow.HELD st n) (Phase Escrow.REFUNDED TStatus.REFUNDED n)
| Sync e st n : sync = true -> edge sync (Phase e st n) (Phase Escrow.REFUNDED TStatus.REFUNDED n).

(** A sale starts with the money held. *)
Definition start : phase := Phase Escrow.HELD TStatus.AWAITING_AUTH_CODE 0.

Definition attainable (sync : bool) (p : phase) : Prop := rtc (edge sync) start p.

(** Held money was not paid out; released money was paid out once; at most one payout ever. *)
Definition paid_fairly (p : phase) : Prop :=
  match ph_escrow p with
  | Escrow.HELD => ph_payouts p = 0%nat
  | Escrow.RELEASED => ph_payouts p = 1%nat
  | Escrow.REFUNDED => (ph_payouts p <= 1)%nat
  end.

Lemma attainable_paid_fairly sync p : attainable sync p -> paid_fairly p.
Proof.
  intros H. apply (rtc_ind_r (R := edge sync) paid_fairly start); [done| |exact H].
  intros q r _ Hqr Hq. unfold paid_fairly in *. destruct Hqr; cbn in *; try done; try lia.
  destruct e; cbn in *; lia.
Qed.

(** Without outside refunds the money goes one way only. *)
Lemma attainable_exclusive p :
  attainable false p -> ph_escrow p = Escrow.REFUNDED -> ph_payouts p = 0%nat.
Proof.
  intros H. apply (rtc_ind_r (R := edge false) (fun p => ph_escrow p = Escrow.REFUNDED -> ph_payouts p = 0%nat) start);
    [done| |exact H].
  intros q r Hq Hqr IH. destruct Hqr; cbn in *; try done.
  intros _. apply attainable_paid_fairly in Hq. exact Hq.
Qed.

(** ** The phases of a database *)

Definition payouts_of (k : string) (d : DB) : list SellerPayout :=
  select_where (fun p => bool_decide (po_transaction_id p = Some k)) (payouts d).

Definition phase_of (k : string) (d : DB) : option phase :=
  match mkt_txs d !! k with
  | Some x => Some (Phase (x_escrow_status x) (x_transfer_status x) (length (payouts_of k d)))
  | None => None
  end.

(** Rows are stored under their id, and payouts belong to a sale. *)
Record txs_ok (d : DB) : Prop := {
  ok_key : forall k x, mkt_txs d !! k = Some x -> x_id x = k;
  ok_payouts : forall k, mkt_txs d !! k = None -> payouts_of k d = [];
}.

(** Every sale of [d0] is in [d], further along the edges; a sale that is only
    in [d] came there from the start. *)
Record advanced (sync : bool) (d0 d : DB) : Prop := {
  adv_ok : txs_ok d;
  adv_phase : forall k, match phase_of k d0 with
                        | Some p => exists q, phase_of k d = Some q /\ rtc (edge sync) p q
                        | None => forall q, phase_of k d = Some q -> attainable sync q
                        end;
}.

Lemma advanced_refl sync d : txs_ok d -> advanced sync d d.
Proof. intros Hk. split; [done|]. intros k. destruct (phase_of k d) as [p|]; [by exists p|done]. Qed.

Lemma advanced_trans sync d0 d1 d2 : advanced sync d0 d1 -> advanced sync d1 d2 -> advanced sync d0 d2.
Proof.
  intros [_ H1] [Hk H2]. split; [done|]. intros k. specialize (H1 k). specialize (H2 k).
  destruct (phase_of k d0) as [p|].
  - destruct H1 as (q & Hq & Hpq). rewrite Hq in H2. destruct H2 as (r & Hr & Hqr).
    exists r. split; [done|]. by etrans.
  - intros r Hr. destruct (phase_of k d1) as [q|]; [|by apply H2].
    destruct H2 as (r' & Hr' & Hqr). rewrite Hr in Hr'. injection Hr' as <-.
    unfold attainable. etrans; [by apply H1|exact Hqr].
Qed.

(** ** Programs that move one sale *)

(** [d'] has the sales of [d] in the same phases. *)
Record same_phases (d d' : DB) : Prop := {
  sp_keyed : txs_ok d -> txs_ok d';
  sp_phase : forall k, phase_of k d' = phase_of k d;
}.

Lemma same_phases_refl d : same_phases d d.
Proof. by split. Qed.

Lemma same_phases_trans d d1 d2 : same_phases d d1 -> same_phases d1 d2 -> same_phases d d2.
Proof. intros [H1 H2] [H3 H4]. split; [by auto|]. intros k. by rewrite H4. Qed.

Lemma same_phases_tables d d' : mkt_txs d' = mkt_txs d -> payouts d' = payouts d -> same_phases d d'.
Proof.
  intros Hm Hp. split.
  - intros [H1 H2]. split; unfold payouts_of in *; by rewrite Hm, ?Hp.
  - intros k. unfold phase_of, payouts_of. by rewrite Hm, Hp.
Qed.

Lemma advanced_same sync d0 d d' : same_phases d d' -> advanced sync d0 d -> advanced sync d0 d'.
Proof.
  intros [Hk' Hp'] [Hk Hp]. split; [by auto|]. intros k. specialize (Hp k). by rewrite Hp'.
Qed.

(** A condition on the database that only depends on the phases. *)
Class Stable (P : DB -> Prop) := stable : forall d d', same_phases d d' -> P d -> P d'.

Definition at_phase (k : string) (p : phase) (d : DB) : Prop := txs_ok d /\ phase_of k d = Some p.

#[export] Instance at_phase_stable k p : Stable (at_phase k p).
Proof. intros d d' [H1 H2] [H3 H4]. split; [by auto|]. by rewrite H2. Qed.

Definition anything (d : DB) : Prop := True.

#[export] Instance anything_stable : Stable anything.
Proof. by intros d d' _ _. Qed.

(** [m] leaves every phase alone, given [P]. *)
Definition calm {A} (P : DB -> Prop) (m : Prog A) : Prop := forall s, P (s_db s) ->
  same_phases (s_db s) (s_db (m s).2) /\
  (s_committed (m s).2 = s_committed s \/ same_phases (s_db s) (s_committed (m s).2)).

Section Calm.
Context (P : DB -> Prop) {HP : Stable P}.

Lemma calm_bind {A B} (m : Prog A) (f : A -> Prog B) :
  calm P m -> (forall a, calm P (f a)) -> calm P (bind m f).
Proof using HP.
  intros Hm Hf s Hs. unfold bind. destruct (Hm s Hs) as [H1 H2].
  destruct (m s) as [[a|e] s1]; [|done]. cbn in *.
  destruct (Hf a s1 (stable _ _ H1 Hs)) as [H3 H4].
  split; [by eapply same_phases_trans|].
  destruct H4 as [H4|H4]; [rewrite H4; exact H2|]. right. by eapply same_phases_trans.
Qed.

Lemma calm_catch {A} (m : Prog A) (h : exn -> Prog A) :
  calm P m -> (forall e, calm P (h e)) -> calm P (catch m h).
Proof using HP.
  intros Hm Hh s Hs. unfold catch. destruct (Hm s Hs) as [H1 H2].
  destruct (m s) as [[a|e] s1]; [done|]. cbn in *.
  destruct (Hh e s1 (stable _ _ H1 Hs)) as [H3 H4].
  split; [by eapply same_phases_trans|].
  destruct H4 as [H4|H4]; [rewrite H4; exact H2|]. right. by eapply same_phases_trans.
Qed.

Lemma calm_frame {A} (m : Prog A) :
  keeps_committed m -> preserves (db_view (fun d => (mkt_txs d, payouts d))) m -> calm P m.
Proof.
  intros Hc Hd s _. specialize (Hd s). injection Hd as Hm Hp.
  split; [by apply same_phases_tables|]. left. apply Hc.
Qed.

Lemma calm_ret {A} (a : A) : calm P (ret a).
Proof. by apply calm_frame. Qed.
Lemma calm_raise {A} e : calm P (raise e : Prog A).
Proof. by apply calm_frame. Qed.
Lemma calm_lift_res {A} (r : res A) : calm P (lift_res r).
Proof. by apply calm_frame. Qed.
Lemma calm_gets {A} (f : DB -> A) : calm P (gets f).
Proof. by apply calm_frame. Qed.
Lemma calm_emit e : calm P (emit e).
Proof. by apply calm_frame. Qed.
Lemma calm_utc_now : calm P utc_now.
Proof. by apply calm_frame. Qed.
Lemma calm_uuid4 : calm P uuid4.
Proof. by apply calm_frame. Qed.
Lemma calm_guard b e : calm P (guard_exn b e).
Proof. destruct b; [apply calm_ret|apply calm_raise]. Qed.
Lemma calm_when b m : calm P m -> calm P (when b m).
Proof. destruct b; [done|]. intros _. apply calm_ret. Qed.
Lemma calm_modify f :
  (forall d, mkt_txs (f d) = mkt_txs d /\ payouts (f d) = payouts d) -> calm P (modify f).
Proof.
  intros Hf. apply calm_frame; [done|]. intros s. unfold db_view. cbn. by destruct (Hf (s_db s)) as [-> ->].
Qed.
Lemma calm_commit : calm P commit.
Proof. intros s _. split; [apply same_phases_refl|]. right. apply same_phases_refl. Qed.

End Calm.

Lemma phase_of_put x d j :
  phase_of j (put_tx x d)
  = if bool_decide (j = x_id x)
    then Some (Phase (x_escrow_status x) (x_transfer_status x) (length (payouts_of j d)))
    else phase_of j d.
Proof.
  unfold phase_of. cbn. destruct (decide (j = x_id x)) as [->|Hne].
  - by rewrite bool_decide_eq_true_2, lookup_insert_eq.
  - by rewrite bool_decide_eq_false_2, lookup_insert_ne.
Qed.

Lemma keyed_put x d : txs_ok d -> txs_ok (put_tx x d).
Proof.
  intros [Hk Hp]. split; cbn.
  - intros j y [[<- <-]|[_ H]]%lookup_insert_Some; [done|by apply Hk].
  - intros j [H _]%lookup_insert_None. by apply Hp.
Qed.

Lemma phase_of_payouts k d q : phase_of k d = Some q -> ph_payouts q = length (payouts_of k d).
Proof. unfold phase_of. destruct (mkt_txs d !! k); [|done]. by intros [= <-]. Qed.

(** Saving a row whose escrow and status are those of the phase. *)
Lemma calm_save k p x :
  x_id x = k -> x_escrow_status x = ph_escrow p -> x_transfer_status x = ph_status p ->
  calm (at_phase k p) (tx_save x).
Proof.
  intros Hid He Hst s [Hk Hp]. split; [|by left]. split; [by intros; apply keyed_put|]. intros j. cbn.
  rewrite phase_of_put. case_bool_decide as Hj; [|done]. subst j. rewrite Hid, Hp, He, Hst.
  rewrite <-(phase_of_payouts _ _ _ Hp). by destruct p.
Qed.

Create HintDb calm.
#[export] Hint Resolve calm_ret calm_raise calm_lift_res calm_gets calm_emit calm_utc_now calm_uuid4
  calm_guard calm_commit at_phase_stable anything_stable : calm.

(** [calm] goals: follow the program. *)
Ltac calm :=
  repeat first
    [ progress intros
    | solve [eauto with calm nocore]
    | solve [apply calm_save; done]
    | apply calm_bind
    | apply calm_catch
    | apply calm_when
    | solve [apply calm_modify; intros; done]
    | case_match ].

(** ** Programs that move one sale along the edges *)

Section Walks.
Context (sync : bool).

Definition walks {A} (k : string) (p : phase) (m : Prog A) : Prop := forall d0 s,
  good (advanced sync d0) s -> phase_of k (s_db s) = Some p -> good (advanced sync d0) (m s).2.

(** An operation keeps every sale on its way. *)
Definition safe {A} (m : Prog A) : Prop := forall d0 s,
  good (advanced sync d0) s -> good (advanced sync d0) (m s).2.

Lemma calm_good {A} k p (m : Prog A) d0 s :
  calm (at_phase k p) m -> good (advanced sync d0) s -> phase_of k (s_db s) = Some p ->
  good (advanced sync d0) (m s).2 /\ phase_of k (s_db (m s).2) = Some p.
Proof.
  intros Hm [Hc Hd] Hp. destruct (Hm s) as [H1 H2]; [by split; [apply Hd|]|].
  split; [|by rewrite (sp_phase _ _ H1)]. split; [|by eapply advanced_same].
  destruct H2 as [H2|H2]; [by rewrite H2|by eapply advanced_same].
Qed.

Lemma walks_calm {A} k p (m : Prog A) : calm (at_phase k p) m -> walks k p m.
Proof. intros Hm d0 s Hs Hp. by apply (calm_good k p m d0 s). Qed.

Lemma walks_bind {A B} k p (m : Prog A) (f : A -> Prog B) :
  calm (at_phase k p) m -> (forall a, walks k p (f a)) -> walks k p (bind m f).
Proof.
  intros Hm Hf d0 s Hs Hp. destruct (calm_good k p m d0 s Hm Hs Hp) as [Hs1 Hp1].
  unfold bind. destruct (m s) as [[a|e] s1]; [by apply Hf|done].
Qed.

Lemma walks_assoc {A B C} k p (m : Prog A) (f : A -> Prog B) (g : B -> Prog C) :
  walks k p (bind m (fun a => bind (f a) g)) -> walks k p (bind (bind m f) g).
Proof.
  intros H d0 s Hs Hp. specialize (H d0 s Hs Hp). unfold bind in *. by destruct (m s) as [[a|e] s1].
Qed.

Lemma walks_guard {A} k p b e (m : Prog A) : (b = true -> walks k p m) -> walks k p (guard_exn b e ;;; m).
Proof. destruct b; intros Hm d0 s Hs Hp; [by apply Hm|done]. Qed.

Lemma advanced_move d0 d d' k p q :
  advanced sync d0 d -> phase_of k d = Some p -> edge sync p q -> txs_ok d' ->
  phase_of k d' = Some q -> (forall j, j <> k -> phase_of j d' = phase_of j d) -> advanced sync d0 d'.
Proof.
  intros [_ Had] Hp Hpq Hk' Hq Hother. split; [done|]. intros j. specialize (Had j).
  destruct (decide (j = k)) as [->|Hne]; [|by rewrite Hother].
  rewrite Hp in Had. destruct (phase_of k d0) as [p0|].
  - destruct Had as (p1 & [= ->] & Hr). exists q. split; [done|]. by eapply rtc_r.
  - intros r Hr. rewrite Hq in Hr. injection Hr as <-. eapply rtc_r; [by apply Had|done].
Qed.

(** The move: a row saved with another escrow or status. *)
Lemma walks_save {A} k p x (m : Prog A) :
  x_id x = k -> edge sync p (Phase (x_escrow_status x) (x_transfer_status x) (ph_payouts p)) ->
  walks k (Phase (x_escrow_status x) (x_transfer_status x) (ph_payouts p)) m ->
  walks k p (tx_save x ;;; m).
Proof.
  intros <- Hedge Hm d0 s [Hc Hd] Hp. unfold bind, tx_save, modify. cbn [fst snd].
  assert (phase_of (x_id x) (put_tx x (s_db s))
          = Some (Phase (x_escrow_status x) (x_transfer_status x) (ph_payouts p))) as Hq.
  { rewrite phase_of_put, bool_decide_eq_true_2 by done. by rewrite (phase_of_payouts _ _ _ Hp). }
  apply Hm; [|done]. split; [done|]. cbn [s_db].
  eapply advanced_move; [exact Hd|exact Hp|exact Hedge|apply keyed_put, Hd|exact Hq|].
  intros j Hj. by rewrite phase_of_put, bool_decide_eq_false_2.
Qed.

(** The payout: a row saved and a payout recorded for it. *)
Lemma walks_pay {A} k p x row (m : Prog A) :
  x_id x = k -> po_transaction_id row = Some k ->
  edge sync p (Phase (x_escrow_status x) (x_transfer_status x) (S (ph_payouts p))) ->
  walks k (Phase (x_escrow_status x) (x_transfer_status x) (S (ph_payouts p))) m ->
  walks k p (modify (fun d => d <| payouts ::= fun t => t ++ [row] |>) ;;; tx_save x ;;; m).
Proof.
  intros <- Hrow Hedge Hm d0 s [Hc Hd] Hp. unfold bind, tx_save, modify. cbn [fst snd s_db s_committed].
  set (d1 := (s_db s) <| payouts ::= fun t => t ++ [row] |>).
  assert (forall j, payouts_of j d1 = payouts_of j (s_db s) ++ (if bool_decide (j = x_id x) then [row] else []))
    as Hpay.
  { intros j. unfold payouts_of, select_where. cbn. rewrite filter_app. f_equal.
    case_bool_decide as Hj; [rewrite filter_cons_True|rewrite filter_cons_False]; try done.
    - apply bool_decide_eq_true_2. by rewrite Hrow, Hj.
    - rewrite Hrow, bool_decide_eq_false_2; [done|]. congruence. }
  assert (phase_of (x_id x) (put_tx x d1)
          = Some (Phase (x_escrow_status x) (x_transfer_status x) (S (ph_payouts p)))) as Hq.
  { rewrite phase_of_put, bool_decide_eq_true_2 by done. rewrite Hpay, bool_decide_eq_true_2 by done.
    rewrite length_app, (phase_of_payouts _ _ _ Hp). cbn. by rewrite Nat.add_1_r. }
  apply Hm; [|done]. split; [done|]. cbn [s_db].
  eapply advanced_move; [exact Hd|exact Hp|exact Hedge| |exact Hq|].
  - pose proof (adv_ok _ _ _ Hd) as [Hk Hnone]. split; cbn.
    + intros j y [[<- <-]|[_ Hj]]%lookup_insert_Some; [done|by apply Hk].
    + intros j [Hj Hne]%lookup_insert_None. change (payouts_of j d1 = []).
      by rewrite Hpay, bool_decide_eq_false_2, app_nil_r by congruence; apply Hnone.
  - intros j Hj. rewrite phase_of_put, bool_decide_eq_false_2 by done. unfold phase_of.
    rewrite Hpay, bool_decide_eq_false_2 by done. by rewrite app_nil_r.
Qed.

Definition start_of (x : DomainMarketplaceTransaction) (n : nat) : phase :=
  Phase (x_escrow_status x) (x_transfer_status x) n.

Lemma safe_require {A} k (f : DomainMarketplaceTransaction -> Prog A) :
  (forall x n, x_id x = k -> walks k (start_of x n) (f x)) -> safe (bind (require_tx k) f).
Proof.
  intros Hf d0 s Hs. unfold bind, require_tx, get_tx, gets. cbn.
  destruct (mkt_txs (s_db s) !! k) as [x|] eqn:Hx; cbn; [|done].
  apply (Hf x (length (payouts_of k (s_db s)))); [by apply Hs|done|]. unfold phase_of. by rewrite Hx.
Qed.

Lemma safe_require_buyer {A} k buyer (f : DomainMarketplaceTransaction -> Prog A) :
  (forall x n, x_id x = k -> walks k (start_of x n) (f x)) -> safe (bind (require_buyer k buyer) f).
Proof.
  intros Hf d0 s Hs. unfold require_buyer, bind, require_tx, get_tx, gets. cbn.
  destruct (mkt_txs (s_db s) !! k) as [x|] eqn:Hx; cbn; [|done].
  unfold guard_exn. destruct (bool_decide _); cbn; [|done].
  apply (Hf x (length (payouts_of k (s_db s)))); [by apply Hs|done|]. unfold phase_of. by rewrite Hx.
Qed.

Lemma safe_bind {A B} (m : Prog A) (f : A -> Prog B) : safe m -> (forall a, safe (f a)) -> safe (bind m f).
Proof.
  intros Hm Hf d0 s Hs. apply (Hm d0) in Hs. unfold bind. destruct (m s) as [[a|e] s1]; [by apply Hf|done].
Qed.

Lemma safe_ret {A} (a : A) : safe (ret a).
Proof. by intros d0 s. Qed.
End Walks.

(** ** The parts of the operations that move nothing *)

Section Parts.
Context {cfg : Config} {cipher : Cipher} (P : DB -> Prop) {HP : Stable P}.
Set Default Proof Using "HP".

Lemma calm_log tid ev actor role payload : calm P (log_event tid ev actor role payload).
Proof. unfold log_event. calm. Qed.

Lemma calm_restore_listing lid : calm P (_restore_listing lid).
Proof. unfold _restore_listing, get_listing, save_listing. calm. Qed.

Lemma calm_mail mail_ok user subject : calm P (mail_to mail_ok user subject).
Proof. unfold mail_to. calm. Qed.

Lemma calm_profile sid : calm P (_require_complete_profile sid).
Proof. unfold _require_complete_profile, get_profile. calm. Qed.

Lemma calm_call_refund api pid amt : calm P (call_refund api pid amt).
Proof. unfold call_refund, refund_payment. calm. Qed.

Lemma calm_uploaded f : calm P (uploaded f).
Proof. unfold uploaded. calm. Qed.

Lemma calm_dispute_create x : calm P (dispute_create x).
Proof. unfold dispute_create, insert_new. calm. Qed.

Lemma calm_evidence x buyer f : calm P (store_evidence x buyer f).
Proof. unfold store_evidence, add_evidence. calm. Qed.

Lemma calm_get_open tid : calm P (get_open_by_transaction tid).
Proof. unfold get_open_by_transaction, scalar_one_or_none. calm. Qed.
Set Default Proof Using "Type".
End Parts.

#[export] Hint Resolve calm_log calm_mail : calm.

Section Rows.
Context {cfg : Config} {cipher : Cipher} (k : string) (p : phase).

Lemma calm_auth_available mail_ok x :
  x_id x = k -> x_escrow_status x = ph_escrow p -> x_transfer_status x = ph_status p ->
  calm (at_phase k p) (on_auth_code_available mail_ok x).
Proof. unfold on_auth_code_available, tx_buyer. intros. calm. Qed.

Lemma calm_review x :
  x_id x = k -> x_escrow_status x = ph_escrow p -> x_transfer_status x = ph_status p ->
  calm (at_phase k p) (on_admin_review_required x).
Proof. unfold on_admin_review_required, tx_buyer, tx_seller. intros. calm. Qed.

Lemma calm_payout_released x :
  x_id x = k -> x_escrow_status x = ph_escrow p -> x_transfer_status x = ph_status p ->
  calm (at_phase k p) (on_payout_released x).
Proof. unfold on_payout_released, tx_seller. intros. calm. Qed.

Lemma calm_on_refund x :
  x_id x = k -> x_escrow_status x = ph_escrow p -> x_transfer_status x = ph_status p ->
  calm (at_phase k p) (on_refund x).
Proof. unfold on_refund, tx_buyer. intros. calm. Qed.

Lemma calm_payment_completed mail_ok x :
  x_id x = k -> x_escrow_status x = ph_escrow p -> x_transfer_status x = ph_status p ->
  calm (at_phase k p) (on_payment_completed mail_ok x).
Proof. unfold on_payment_completed, tx_buyer, tx_seller, tell. intros. calm. Qed.
End Rows.

#[export] Hint Resolve calm_restore_listing calm_profile calm_call_refund calm_uploaded
  calm_dispute_create calm_evidence calm_get_open : calm.
#[export] Hint Extern 1 (calm _ (on_auth_code_available _ _)) => apply calm_auth_available; done : calm.
#[export] Hint Extern 1 (calm _ (on_admin_review_required _)) => apply calm_review; done : calm.
#[export] Hint Extern 1 (calm _ (on_payout_released _)) => apply calm_payout_released; done : calm.
#[export] Hint Extern 1 (calm _ (on_refund _)) => apply calm_on_refund; done : calm.

(** Follow an operation after its row is loaded: guards are remembered, the
    move itself is left over. *)
Ltac walk :=
  repeat first
    [ progress intros
    | progress cbv zeta
    | solve [apply walks_calm; calm]
    | apply walks_guard; intros ?
    | apply walks_bind; [solve [calm]|intros ?]
    | lazymatch goal with |- walks _ _ _ (bind (bind _ _) _) => apply walks_assoc end ].

Lemma tx_in_true l x : tx_in l x = true -> x_transfer_status x ∈ l.
Proof. apply bool_decide_eq_true_1. Qed.
Lemma tx_in_false l x : negb (tx_in l x) = true -> x_transfer_status x ∉ l.
Proof. intros H%negb_true_iff. by apply bool_decide_eq_false_1 in H. Qed.

(** The guards passed, as propositions. *)
Ltac passed :=
  repeat match goal with
    | H : tx_in _ _ = true |- _ => apply tx_in_true in H
    | H : negb (tx_in _ _) = true |- _ => apply tx_in_false in H
    | H : bool_decide _ = true |- _ => apply bool_decide_eq_true_1 in H
    | H : negb (bool_decide _) = true |- _ => apply negb_true_iff, bool_decide_eq_false_1 in H
    end.

(** A move of the status: the edge, then the rest. *)
Ltac edge_move e :=
  apply walks_save; [done|apply Move; apply e; by (apply tx_in_true || apply tx_in_false)|walk].

Section Operations.
Context {cfg : Config} {cipher : Cipher} (sync : bool).

Lemma safe_submit_auth_code mail_ok tid seller reg code f :
  safe sync (submit_auth_code mail_ok tid seller reg code f).
Proof. apply safe_require. walk. destruct a1; edge_move e_submit. Qed.

Lemma safe_upload_proof tid seller f : safe sync (upload_proof tid seller f).
Proof. apply safe_require. walk. Qed.

Lemma safe_choose_self tid buyer reg : safe sync (choose_self_transfer tid buyer reg).
Proof. apply safe_require_buyer. walk. Qed.

Lemma safe_request_assistance tid buyer : safe sync (request_assistance tid buyer).
Proof. apply safe_require_buyer. walk. Qed.

Lemma safe_mark_started tid buyer : safe sync (mark_transfer_started tid buyer).
Proof. apply safe_require_buyer. walk. edge_move e_start. Qed.

Lemma safe_confirm tid buyer : safe sync (confirm_transfer tid buyer).
Proof. apply safe_require_buyer. walk. edge_move e_confirm. Qed.

Lemma safe_open_dispute tid buyer reason desc ev : safe sync (open_dispute tid buyer reason desc ev).
Proof. apply safe_require_buyer. walk. edge_move e_dispute. Qed.

Lemma safe_force_complete tid admin reason : safe sync (force_complete tid admin reason).
Proof. apply safe_require. walk. edge_move e_force. Qed.

(** The phase of a row whose escrow is known. *)
Lemma start_held x n : x_escrow_status x = Escrow.HELD -> start_of x n = Phase Escrow.HELD (x_transfer_status x) n.
Proof. unfold start_of. by intros ->. Qed.

Lemma safe_approve tid admin : safe sync (approve_payout tid admin).
Proof.
  apply safe_require. intros x n Hx. walk. passed. rewrite start_held by done.
  apply walks_save; [done| |walk].
  assert (x_escrow_status (with_approval x a (u_id admin) a0) = Escrow.HELD) as -> by done.
  by apply Approve.
Qed.

Lemma safe_resolve_review tid admin action n : safe sync (resolve_admin_review tid admin action n).
Proof.
  apply safe_require. intros x m Hx. destruct action; walk.
  - passed. apply list_elem_of_singleton in H. unfold extend_deadline. walk.
    apply walks_save; [done| |walk]. apply Move. cbn. rewrite H. apply e_extend.
  - unfold cancel_tx. edge_move e_cancel.
Qed.

Lemma safe_release tid admin method_used reference notes :
  safe sync (release_payout tid admin method_used reference notes).
Proof.
  apply safe_require. intros x n Hx. walk. passed. apply list_elem_of_singleton in H1.
  rewrite start_held, H1 by done. apply walks_pay; [done|cbn; congruence|apply Release|walk].
Qed.

(** The books of a refund move the sale to refunded. *)
Lemma walks_book_refund {A} k p x refund_id aid payload (m : Prog A) :
  x_id x = k -> edge sync p (Phase Escrow.REFUNDED TStatus.REFUNDED (ph_payouts p)) ->
  (forall q, calm (at_phase k q) m) -> walks sync k p (book_refund x refund_id aid payload ;;; m).
Proof.
  intros Hx Hedge Hm. unfold book_refund. apply walks_assoc, walks_bind; [calm|]. intros now.
  apply walks_assoc, walks_save; [done|exact Hedge|]. apply walks_calm. calm.
Qed.

Lemma safe_refund api tid admin note : safe sync (refund api tid admin note).
Proof.
  apply safe_require. intros x n Hx. unfold is_refunded, refund_again, refund_held, track_refund.
  case_match eqn:Href; [walk|]. apply orb_false_iff in Href as [He Hst].
  apply bool_decide_eq_false_1 in He, Hst. walk. passed.
  assert (x_escrow_status x = Escrow.HELD) as Hheld by (by destruct (x_escrow_status x)).
  rewrite start_held by done. case_match.
  - walk. apply walks_book_refund; [done| |intros; calm]. apply Refund; [done|set_solver].
  - apply walks_book_refund; [done| |intros; calm]. apply Refund; [done|set_solver].
Qed.

Lemma safe_sync api tid admin : sync = true -> safe sync (sync_refund_from_razorpay api tid admin).
Proof.
  intros Hsync. apply safe_require. intros x n Hx. unfold track_refund. walk.
  destruct (bool_decide _ && _); [walk|]. walk. destruct (negb _); [walk|].
  apply walks_book_refund; [done|by apply Sync|intros; calm].
Qed.

(** *** Resolving a dispute *)

(** The decision moves nothing, and its answer is the sale's row as it is now. *)
Lemma record_resolution_row tid did admin r note d0 (s : Session) :
  good (advanced sync d0) s ->
  good (advanced sync d0) (record_resolution tid did admin r note s).2 /\
  forall x, (record_resolution tid did admin r note s).1 = Ok x ->
    mkt_txs (s_db (record_resolution tid did admin r note s).2) !! tid = Some x.
Proof.
  intros Hs. split.
  - revert d0 s Hs. apply safe_require. walk.
  - intros x. destruct (record_resolution tid did admin r note s) as [[y|e] s'] eqn:H; [|done].
    intros [= ->]. unfold record_resolution, require_tx, get_tx in H. ok_inv_step H. ok_inv_step Hr.
    destruct (mkt_txs (s_db s) !! tid) as [y|] eqn:Hy; [|done]. ok_inv Hr.
    assert (x_id y = tid) as Hid by (by apply (ok_key _ (adv_ok _ _ _ (proj2 Hs)))).
    ok_inv_step H. destruct (disputes _ !! did) as [dis|]; [|done].
    unfold tx_save, log_event in H. ok_inv H. ok_inv Hr1.
    apply lookup_insert_eq.
Qed.

Lemma safe_resolve api tid did admin r note : safe sync (resolve api tid did admin r note).
Proof.
  intros d0 s Hs. unfold resolve, bind at 1.
  destruct (record_resolution_row tid did admin r note d0 s Hs) as [Hg Hrow].
  destruct (record_resolution tid did admin r note s) as [[x|e] s1]; [|done]. cbn [fst snd] in *.
  specialize (Hrow x eq_refl). destruct r.
  - revert Hg. apply safe_bind; [apply safe_refund|]. intros. apply safe_ret.
  - assert (good (advanced sync d0) (reopen_for_payout tid x s1).2) as Hg2.
    { unfold reopen_for_payout. destruct (tx_in _ x) eqn:Hx; [done|]. unfold bind at 1, get_tx, gets. cbn.
      rewrite Hrow. assert (phase_of tid (s_db s1) = Some (start_of x (length (payouts_of tid (s_db s1)))))
        as Hp by (unfold phase_of; by rewrite Hrow).
      apply (walks_save sync tid (start_of x (length (payouts_of tid (s_db s1))))); [| | |done|done].
      - exact (ok_key _ (adv_ok _ _ _ (proj2 Hg)) _ _ Hrow).
      - apply Move, e_reopen. by apply bool_decide_eq_false_1 in Hx.
      - apply walks_calm. calm. }
    unfold bind at 1. destruct (reopen_for_payout tid x s1) as [[[]|e] s2]; [|done]. revert Hg2.
    apply safe_bind; [apply safe_approve|]. intros _. apply safe_bind; [apply safe_release|].
    intros []. apply safe_ret.
Qed.

(** *** Revealing the auth code *)

Lemma may_reveal_row tid buyer (s s1 : Session) x c :
  may_reveal tid buyer s = (Ok (x, c), s1) ->
  s1 = s /\ mkt_txs (s_db s) !! tid = Some x /\ x_buyer_id x = u_id buyer /\ x_auth_code_ciphertext x = Some c.
Proof.
  unfold may_reveal, require_buyer, require_tx, get_tx. intros H.
  ok_inv_step H. ok_inv_step Hr. ok_inv_step Hr0.
  destruct (mkt_txs (s_db s) !! tid) as [y|] eqn:Hy; [|done]. ok_inv Hr0. ok_inv Hr.
  destruct (x_auth_code_ciphertext y) as [c'|] eqn:Hc; [|done]. ok_inv H. simplify_eq.
  by apply bool_decide_eq_true_1 in Hr0.
Qed.

Lemma may_reveal_silent tid buyer : silent (may_reveal tid buyer).
Proof. unfold may_reveal, require_buyer, require_tx, get_tx. frame. Qed.

Lemma walks_reveal k n x c buyer : x_id x = k -> walks sync k (start_of x n) (reveal x c buyer).
Proof.
  intros Hx. unfold reveal. walk. destruct (tx_in [TStatus.AUTH_CODE_AVAILABLE; TStatus.AUTH_CODE_RECEIVED] x)
    eqn:Hin; unfold viewed; rewrite Hin; destruct (x_auth_code_viewed_at x); walk; edge_move e_view.
Qed.

Lemma safe_verify_reveal now tid buyer otp c d0 (s : Session) :
  good (advanced sync d0) s -> good (advanced sync d0) (verify_reveal_otp now tid buyer otp c s).1.2.
Proof.
  intros Hs. unfold verify_reveal_otp. pose proof (may_reveal_silent tid buyer s) as Hsil.
  destruct (may_reveal tid buyer s) as [[[x cipher']|e] s1] eqn:H; cbn in Hsil; subst s1; [|done].
  apply may_reveal_row in H as (_ & Hx & _). destruct (verify_otp _ _ _ _ _) as [[[]|e] c']; [|done]. cbn.
  apply (walks_reveal tid (length (payouts_of tid (s_db s))) x); [|done|].
  - exact (ok_key _ (adv_ok _ _ _ (proj2 Hs)) _ _ Hx).
  - unfold phase_of. by rewrite Hx.
Qed.

(** *** Jobs over many sales *)

(** Rows of the table, each once. *)
Definition rows_of (d : DB) (l : list DomainMarketplaceTransaction) : Prop :=
  NoDup (map x_id l) /\ forall x, x ∈ l -> mkt_txs d !! x_id x = Some x.

(** [m] leaves the other sales' rows alone. *)
Definition touches {A} (k : string) (m : Prog A) : Prop :=
  forall j, j <> k -> preserves (db_view (fun d => mkt_txs d !! j)) m.

Lemma touches_save x j : j <> x_id x -> preserves (db_view (fun d => mkt_txs d !! j)) (tx_save x).
Proof. intros Hj s. unfold db_view. cbn. by rewrite lookup_insert_ne. Qed.

Lemma rows_of_values d : txs_ok d -> rows_of d (values (mkt_txs d)).
Proof.
  intros Hk. unfold rows_of, values. split.
  - rewrite map_map. replace (map _ (map_to_list (mkt_txs d))) with (map_to_list (mkt_txs d)).*1;
      [apply NoDup_fst_map_to_list|].
    apply map_ext_in. intros [k x] Hin. cbn. symmetry. apply (ok_key _ Hk). by apply elem_of_map_to_list, list_elem_of_In.
  - intros x (k & Hx)%elem_of_values. by rewrite (ok_key _ Hk k x Hx).
Qed.

Lemma sublist_map {A B} (f : A -> B) l l' : sublist l' l -> sublist (map f l') (map f l).
Proof. induction 1; cbn; by constructor. Qed.

Lemma rows_of_sublist d l l' : sublist l' l -> rows_of d l -> rows_of d l'.
Proof.
  intros Hsub [Hnd Hl]. split.
  - eapply sublist_NoDup; [done|by apply (sublist_map x_id)].
  - intros x Hx. apply Hl. by eapply elem_of_sublist.
Qed.

Lemma rows_of_txs_where d p limit : txs_ok d -> rows_of d (txs_where p limit d).
Proof.
  intros Hk. eapply rows_of_sublist; [|by apply rows_of_values].
  unfold txs_where, select_where. etrans; [apply sublist_take|apply sublist_filter].
Qed.

Lemma rows_of_select d p l : rows_of d l -> rows_of d (select_where p l).
Proof. apply rows_of_sublist, sublist_filter. Qed.

(** A loop that moves each of its rows and leaves the others alone. *)
Lemma safe_rows body l d0 : forall (s : Session),
  (forall x n, x ∈ l -> walks sync (x_id x) (start_of x n) (body x)) ->
  (forall x, x ∈ l -> touches (x_id x) (body x)) ->
  good (advanced sync d0) s -> rows_of (s_db s) l -> good (advanced sync d0) (for_each l body s).2.
Proof.
  induction l as [|x l IH]; intros s Hw Ht Hs [Hnd Hl]; [done|]. cbn.
  apply NoDup_cons in Hnd as [Hx Hnd].
  assert (good (advanced sync d0) (body x s).2) as Hs1.
  { apply (Hw x (length (payouts_of (x_id x) (s_db s)))); [set_solver|done|].
    unfold phase_of. by rewrite (Hl x) by set_solver. }
  assert (rows_of (s_db (body x s).2) l) as Hrows.
  { split; [done|]. intros y Hy. rewrite <-(Hl y) by set_solver.
    apply (Ht x); [set_solver|]. intros Heq. apply Hx. rewrite <-Heq.
    rewrite list_elem_of_In. by apply in_map, list_elem_of_In. }
  unfold bind. destruct (body x s) as [[[]|e] s1]; [|done]. cbn in *.
  apply IH; [| |done|done]; intros; [apply Hw|apply Ht]; set_solver.
Qed.

(** A stage of a job: select rows, work on each, go on. *)
Lemma safe_stage {A} (sel : DB -> list DomainMarketplaceTransaction) (P : DomainMarketplaceTransaction -> Prop)
    body (k : list DomainMarketplaceTransaction -> Prog A) :
  (forall d, txs_ok d -> rows_of d (sel d)) -> (forall d x, x ∈ sel d -> P x) ->
  (forall x n, P x -> walks sync (x_id x) (start_of x n) (body x)) ->
  (forall x, touches (x_id x) (body x)) -> (forall l, safe sync (k l)) ->
  safe sync (do rows <- gets sel; for_each rows body ;;; k rows).
Proof.
  intros Hsel HP Hw Ht Hk d0 s Hs. unfold bind at 1, gets. cbn.
  assert (good (advanced sync d0) (for_each (sel (s_db s)) body s).2) as H1.
  { apply safe_rows; [|by intros; apply Ht|done|].
    - intros x n Hx. apply Hw. by eapply HP.
    - apply Hsel, (adv_ok _ _ _ (proj2 Hs)). }
  unfold bind. destruct (for_each _ _ _) as [[[]|e] s1]; [by apply Hk|done].
Qed.

Lemma safe_utc_now : safe sync utc_now.
Proof. by intros d0 s. Qed.

Lemma safe_commit : safe sync commit.
Proof. by intros d0 s [_ H]. Qed.

Lemma safe_when b m : safe sync m -> safe sync (when b m).
Proof. destruct b; [done|]. intros _. by intros d0 s. Qed.

Lemma touches_bind {A B} k (m : Prog A) (f : A -> Prog B) :
  touches k m -> (forall a, touches k (f a)) -> touches k (bind m f).
Proof. intros Hm Hf j Hj. apply preserves_bind; [by apply Hm|]. intros a. by apply Hf. Qed.

Lemma touches_tx_save k x : x_id x = k -> touches k (tx_save x).
Proof. intros <- j Hj. by apply touches_save. Qed.

Lemma touches_log k tid ev actor role payload : touches k (log_event tid ev actor role payload).
Proof. intros j Hj. unfold log_event. frame. by apply db_view_modify. Qed.

Lemma touches_mail k mail_ok user subject : touches k (mail_to mail_ok user subject).
Proof. intros j Hj. unfold mail_to. frame. Qed.

Lemma touches_review k x : x_id x = k -> touches k (on_admin_review_required x).
Proof.
  intros Hx j Hj. unfold on_admin_review_required, tx_seller, tx_buyer. frame. by apply touches_tx_save with k.
Qed.

Lemma touches_escalate now x : touches (x_id x) (escalate now x).
Proof.
  unfold escalate. apply touches_bind; [by apply touches_tx_save|]. intros _.
  apply touches_bind; [apply touches_log|]. intros _. by apply touches_review.
Qed.

Lemma touches_remind mail_ok mark x : x_id (mark x) = x_id x -> touches (x_id x) (remind mail_ok mark x).
Proof.
  intros Hm. unfold remind, tx_seller. apply touches_bind; [by intros j _ s|]. intros u.
  apply touches_bind; [destruct u; [apply touches_mail|by intros j _ s]|]. intros _. by apply touches_tx_save.
Qed.

Lemma touches_check rdap x force : touches (x_id x) (_check_tx rdap x force).
Proof.
  unfold _check_tx. apply touches_bind; [by intros j _ s|]. intros now. case_match; [by intros j _ s|].
  apply touches_bind; [by apply touches_tx_save|]. intros _.
  apply touches_bind; [apply touches_log|]. by intros _ j _ s.
Qed.

Lemma walks_escalate now x n :
  x_transfer_status x = TStatus.AWAITING_AUTH_CODE -> walks sync (x_id x) (start_of x n) (escalate now x).
Proof.
  intros Hx. unfold escalate. cbv zeta. apply walks_save; [done| |walk].
  unfold start_of. cbn. rewrite Hx. apply Move, e_timeout.
Qed.

Lemma calm_check rdap x force k p :
  x_id x = k -> x_escrow_status x = ph_escrow p -> x_transfer_status x = ph_status p ->
  calm (at_phase k p) (_check_tx rdap x force).
Proof. intros. unfold _check_tx. calm. Qed.

Lemma safe_poll rdap limit : safe sync (poll_in_progress rdap limit).
Proof.
  unfold poll_in_progress. apply safe_bind; [apply safe_utc_now|]. intros now.
  intros d0 s Hs.
  refine (safe_stage (fun d => select_where _ (txs_where _ limit d)) (fun _ => True) _
    (fun l => ret (Z.of_nat (length l))) _ _ _ _ _ d0 s Hs).
  - intros d Hk. by apply rows_of_select, rows_of_txs_where.
  - done.
  - intros x n _. apply walks_bind; [by apply calm_check|]. intros. apply walks_calm. calm.
  - intros x. apply touches_bind; [apply touches_check|]. by intros _ j _ s'.
  - intros l. apply safe_ret.
Qed.

Lemma walks_remind mail_ok mark x n :
  x_id (mark x) = x_id x -> x_escrow_status (mark x) = x_escrow_status x ->
  x_transfer_status (mark x) = x_transfer_status x ->
  walks sync (x_id x) (start_of x n) (remind mail_ok mark x).
Proof.
  intros H1 H2 H3. apply walks_calm. unfold remind, tx_seller. calm.
Qed.

Lemma rows_of_reminders d now h sent limit : txs_ok d -> rows_of d (reminder_rows now h sent limit d).
Proof. intros Hk. by apply rows_of_select, rows_of_txs_where. Qed.

Lemma txs_where_holds p limit d x : x ∈ txs_where p limit d -> p x = true.
Proof.
  intros Hx. assert (x ∈ select_where p (values (mkt_txs d))) as H
    by (eapply elem_of_sublist; [exact Hx|apply sublist_take]).
  by apply elem_of_select_where in H as [? _].
Qed.

Lemma overdue_awaiting now x : overdue now x = true -> x_transfer_status x = TStatus.AWAITING_AUTH_CODE.
Proof. intros [H _]%andb_true_iff. by apply tx_in_true, list_elem_of_singleton in H. Qed.

Lemma safe_run_tick mail_ok rdap : safe sync (run_tick mail_ok rdap).
Proof.
  unfold run_tick. apply safe_bind; [apply safe_utc_now|]. intros now.
  apply (safe_stage _ (fun x => x_transfer_status x = TStatus.AWAITING_AUTH_CODE));
    [intros; by apply rows_of_txs_where| |intros; by apply walks_escalate|apply touches_escalate|intros late].
  { intros d x Hx%txs_where_holds. by eapply overdue_awaiting. }
  apply (safe_stage _ (fun _ => True));
    [intros; by apply rows_of_reminders|done|intros; by apply walks_remind|intros; by apply touches_remind|intros rows12].
  apply (safe_stage _ (fun _ => True));
    [intros; by apply rows_of_reminders|done|intros; by apply walks_remind|intros; by apply touches_remind|intros rows6].
  apply safe_bind; [apply safe_poll|]. intros whois.
  apply safe_bind; [apply safe_when, safe_commit|]. intros _. apply safe_ret.
Qed.

Lemma safe_sync_transaction rdap tid : safe sync (sync_transaction rdap tid).
Proof.
  intros d0 s Hs. unfold sync_transaction, get_tx, gets, bind. cbn.
  destruct (mkt_txs (s_db s) !! tid) as [x|] eqn:Hx; [|done].
  pose proof (ok_key _ (adv_ok _ _ _ (proj2 Hs)) _ _ Hx) as Hid.
  apply (walks_calm sync tid (start_of x (length (payouts_of tid (s_db s))))); [by apply calm_check|done|].
  unfold phase_of. by rewrite Hx.
Qed.

(** Sending a code and reading a sale or its instructions change no table. *)
Lemma send_reveal_otp_db now mail otp tid buyer c (s : Session) :
  (send_reveal_otp now mail otp tid buyer c s).1.2 = s.
Proof.
  unfold send_reveal_otp. assert (silent (may_send_otp tid buyer)) as H.
  { unfold may_send_otp, require_buyer, require_tx, get_tx. frame. }
  specialize (H s). destruct (may_send_otp tid buyer s) as [[[]|e] s']; cbn in H; subst; [|done].
  by destruct (send_otp _ _ _ _ _ _).
Qed.
End Operations.

(** ** Opening a sale *)

Section Opening.
Context {cfg : Config} {cipher : Cipher} (sync : bool).

Lemma safe_calm {A} (m : Prog A) : calm anything m -> safe sync m.
Proof.
  intros Hm d0 s [Hc Hd]. destruct (Hm s I) as [H1 H2]. split; [|by eapply advanced_same].
  destruct H2 as [H2|H2]; [by rewrite H2|by eapply advanced_same].
Qed.

Lemma safe_catch {A} (m : Prog A) (h : exn -> Prog A) :
  safe sync m -> (forall e, safe sync (h e)) -> safe sync (catch m h).
Proof.
  intros Hm Hh d0 s Hs. apply (Hm d0) in Hs. unfold catch. destruct (m s) as [[a|e] s1]; [done|by apply Hh].
Qed.

Lemma calm_silent {A} P (m : Prog A) : silent m -> calm P m.
Proof. intros Hm. apply calm_frame; intros s; unfold db_view; by rewrite (Hm s). Qed.

Lemma silent_split_sale l c g : silent (split_sale l c g).
Proof. intros s. by destruct (split_sale_run l c g s) as (fee & payout & ->). Qed.

(** A new row starts at the start. *)
Lemma safe_tx_create x :
  x_escrow_status x = Escrow.HELD -> x_transfer_status x = TStatus.AWAITING_AUTH_CODE ->
  safe sync (tx_create x).
Proof.
  intros He Hst d0 s Hs. unfold tx_create, bind, uuid4, gets, guard_exn. cbn.
  match goal with |- context [if negb ?b then _ else _] => destruct b end; cbn; [done|].
  unfold insert_new, bind, gets. cbn. destruct (mkt_txs (s_db s) !! s_ids s 0%nat) eqn:Hnew; cbn; [done|].
  destruct Hs as [Hc Hd]. split; [done|]. cbn. set (x' := x <| x_id := s_ids s 0%nat |>).
  change (advanced sync d0 (put_tx x' (s_db s))). split; [by apply keyed_put, Hd|].
  intros j. pose proof (adv_phase _ _ _ Hd j) as Hj. rewrite phase_of_put.
  case_bool_decide as Hid; [|done]. subst j. change (x_id x') with (s_ids s 0%nat) in *.
  assert (phase_of (s_ids s 0%nat) (s_db s) = None) as Hnone by (unfold phase_of; by rewrite Hnew).
  rewrite Hnone in Hj. destruct (phase_of _ d0) as [p|]; [by destruct Hj as (? & ? & _)|].
  intros q [= <-]. rewrite (ok_payouts _ (adv_ok _ _ _ Hd) _ Hnew). cbn.
  change (x_escrow_status x') with (x_escrow_status x). change (x_transfer_status x') with (x_transfer_status x).
  rewrite He, Hst. unfold attainable. reflexivity.
Qed.

Lemma tx_create_row x y (s s' : Session) : tx_create x s = (Ok y, s') -> mkt_txs (s_db s') !! x_id y = Some y.
Proof.
  unfold tx_create, insert_new. intros H. ok_inv_step H. ok_inv_step H. ok_inv_step H. ok_inv_step H.
  ok_inv_step Hr0. destruct (_ !! _); [done|]. ok_inv Hr0. ok_inv H. apply lookup_insert_eq.
Qed.

(** The sale of the answer is in the table. *)
Lemma create_from_payment_row l buyer oid pid c g d0 (s : Session) :
  good (advanced sync d0) s ->
  good (advanced sync d0) (create_from_payment l buyer oid pid c g s).2 /\
  forall x, (create_from_payment l buyer oid pid c g s).1 = Ok x ->
    mkt_txs (s_db (create_from_payment l buyer oid pid c g s).2) !! x_id x = Some x.
Proof.
  intros Hs. split.
  - revert d0 s Hs. unfold create_from_payment. apply safe_bind; [apply safe_calm; unfold get_by_razorpay_payment_id, scalar_one_or_none; calm|].
    intros [x|]; [apply safe_ret|]. destruct (l_listed_by_user_id l) as [seller|]; [|by apply safe_calm; calm].
    apply safe_bind; [apply safe_calm, calm_silent, silent_split_sale|]. intros [fee payout].
    apply safe_bind; [apply safe_utc_now|]. intros now.
    apply safe_bind; [apply safe_calm; unfold get_profile; calm|]. intros profile.
    apply safe_bind; [apply safe_tx_create; by destruct profile as [pr|]; [destruct (is_complete (Some pr))|]|]. intros tx.
    apply safe_calm. unfold save_listing. calm.
  - intros x. destruct (create_from_payment l buyer oid pid c g s) as [[y|e] s'] eqn:H; [|done].
    intros [= ->]. unfold create_from_payment, get_by_razorpay_payment_id in H.
    ok_inv_step H. ok_inv_step Hr. destruct x0 as [y|].
    + ok_inv H. destruct (txs_paid_by pid (s_db s)) as [|z []] eqn:Hz; [done| |done]. ok_inv Hr. simplify_eq.
      assert (z ∈ txs_paid_by pid (s_db s)) as Hin by (rewrite Hz; set_solver).
      apply elem_of_select_where in Hin as [_ (k & Hk)%elem_of_values]. cbn.
      pose proof (ok_key _ (adv_ok _ _ _ (proj2 Hs)) _ _ Hk).
      injection Hr as -> <-. by subst.
    + destruct (l_listed_by_user_id l) as [seller|]; [|done].
      ok_inv_step H. destruct x0 as [fee payout]. do 2 ok_inv_step H. ok_inv_step H.
      apply tx_create_row in Hr2. unfold save_listing, log_event in H. ok_inv H. ok_inv Hr3. exact Hr2.
Qed.

(** A sale is opened and its parties are told. *)
Lemma safe_opened {A} mail_ok l buyer oid pid c g (k : DomainMarketplaceTransaction -> Prog A) :
  (forall x, safe sync (k x)) ->
  safe sync (do x <- create_from_payment l buyer oid pid c g; on_payment_completed mail_ok x ;;; k x).
Proof.
  intros Hk d0 s Hs. unfold bind at 1.
  destruct (create_from_payment_row l buyer oid pid c g d0 s Hs) as [Hg Hrow].
  destruct (create_from_payment _ _ _ _ _ _ s) as [[x|e] s1]; [|done]. cbn in *. specialize (Hrow x eq_refl).
  assert (good (advanced sync d0) (on_payment_completed mail_ok x s1).2) as Hg1.
  { apply (walks_calm sync (x_id x) (start_of x (length (payouts_of (x_id x) (s_db s1)))));
      [by apply calm_payment_completed|done|]. unfold phase_of. by rewrite Hrow. }
  unfold bind. destruct (on_payment_completed mail_ok x s1) as [[[]|e] s2]; [by apply Hk|done].
Qed.

Lemma safe_ensure mail_ok a p buyer : safe sync (_ensure_domain_transfer mail_ok a p buyer).
Proof.
  unfold _ensure_domain_transfer. destruct (p_razorpay_payment_id p) as [pid|]; [|apply safe_ret].
  destruct (is_empty pid); [apply safe_ret|].
  apply safe_bind; [apply safe_calm; unfold get_by_razorpay_payment_id, scalar_one_or_none; calm|].
  intros [x|]; [apply safe_ret|].
  apply safe_bind; [apply safe_calm; unfold get_listing; calm|]. intros [l|]; [|apply safe_ret].
  cbv zeta. destruct (fl_leb _ _); [apply safe_ret|].
  apply safe_bind; [apply safe_utc_now|]. intros now.
  apply safe_bind; [apply safe_calm; unfold save_listing; calm|]. intros _.
  unfold transfer_errors. apply safe_catch; [|intros e; apply safe_calm; calm].
  apply safe_opened. intros x. apply safe_ret.
Qed.

Lemma safe_confirm_redemption oid : safe sync (confirm_redemption oid).
Proof. apply safe_calm. unfold confirm_redemption, add_history. calm. Qed.

Lemma safe_verify_winner_payment mail_ok user oid pid sig :
  safe sync (verify_winner_payment mail_ok user oid pid sig).
Proof.
  unfold verify_winner_payment.
  apply safe_bind; [apply safe_calm; unfold payment_by_order_id, scalar_one_or_none; calm|].
  intros [p|]; [|by apply safe_calm; calm]. apply safe_bind; [apply safe_calm; calm|]. intros _.
  apply safe_bind; [apply safe_calm; unfold _lock_auction, get_auction_by_id; calm|]. intros a.
  case_bool_decide.
  { unfold replay_success. cbv zeta. apply safe_bind; [apply safe_calm; calm|]. intros _.
    apply safe_bind; [apply safe_ensure|]. intros x. apply safe_bind; [apply safe_commit|]. intros _.
    apply safe_bind; [apply safe_confirm_redemption|]. intros. apply safe_ret. }
  apply safe_bind; [apply safe_calm; calm|]. intros ok. destruct (negb ok).
  { apply safe_calm. unfold reject_signature, cancel_redemption, payment_save, _record_transaction. calm. }
  destruct (negb _).
  { unfold late_payment. case_bool_decide; [|by apply safe_calm; calm]. cbv zeta.
    apply safe_bind; [apply safe_calm; unfold payment_save; calm|]. intros _.
    apply safe_bind; [apply safe_ensure|]. intros x. apply safe_calm. calm. }
  unfold accept_payment, _require_winner, payment_save, _record_transaction. cbv zeta.
  apply safe_bind; [apply safe_calm; calm|]. intros _. apply safe_bind; [apply safe_utc_now|]. intros now.
  do 3 (apply safe_bind; [apply safe_calm; calm|]; intros _).
  apply safe_bind; [apply safe_ensure|]. intros x. apply safe_bind; [apply safe_commit|]. intros _.
  apply safe_bind; [apply safe_confirm_redemption|]. intros _. apply safe_calm.
  unfold _publish_payment_completed. calm.
Qed.

(** *** Buying a listed domain *)

Lemma calm_for_each {A} P {HP : Stable P} (l : list A) (body : A -> Prog unit) :
  (forall x, calm P (body x)) -> calm P (for_each l body).
Proof.
  intros Hb. induction l as [|x l IH]; [apply (calm_ret P)|].
  apply (calm_bind P (body x) (fun _ => for_each l body)); [apply Hb|]. intros _. exact IH.
Qed.

Lemma calm_request_addons l buyer : calm anything (request_addons l buyer).
Proof.
  unfold request_addons. destruct (buyer_contact l buyer) as [[name email] phone].
  unfold create_addon_operations_requests, resolve_live_compliance_addon_services. destruct (truthy _); [|calm].
  apply (calm_bind _); [calm|]. intros services. apply (calm_for_each _). intros x.
  unfold request_addon, scalar_one_or_none. calm.
Qed.

Lemma calm_invoice_sale l buyer oid pid : calm anything (invoice_sale l buyer oid pid).
Proof.
  unfold invoice_sale, order_insert, ensure_tax_invoice_number, _invoice_year_for_order, order_flush, set_counter,
    insert_new. calm.
Qed.

Lemma calm_backfill oid pid : calm anything (backfill_from_registration_orders oid pid).
Proof.
  unfold backfill_from_registration_orders. do 2 (apply (calm_bind _); [calm|]; intros ?).
  apply (calm_for_each _). intros o. calm.
Qed.

Lemma safe_rollback {A} (m : Prog A) : safe sync m -> safe sync (rollback ;;; m).
Proof. intros Hm d0 s [Hc _]. apply Hm. by split. Qed.

Lemma safe_purchase mail_ok lid pid oid sig buyer : safe sync (verify_payment mail_ok lid pid oid sig buyer).
Proof.
  unfold verify_payment.
  apply safe_bind; [apply safe_calm; unfold get_by_razorpay_payment_id, scalar_one_or_none; calm|].
  intros [x|].
  { apply safe_bind; [apply safe_calm, calm_backfill|]. intros _. apply safe_bind; [apply safe_commit|]. intros _.
    apply safe_ret. }
  apply safe_bind; [apply safe_calm; unfold get_listing; calm|]. intros [l|]; [|apply safe_calm; calm].
  apply safe_bind; [apply safe_calm; calm|]. intros _. apply safe_bind; [apply safe_calm; calm|]. intros ok.
  destruct (negb ok); [apply safe_calm; unfold refuse_signature, cancel_redemption, save_listing; calm|].
  apply safe_bind; [apply safe_utc_now|]. intros now. cbv zeta.
  apply safe_bind; [apply safe_calm; unfold save_listing; calm|]. intros _.
  apply safe_bind; [apply safe_confirm_redemption|]. intros _.
  apply safe_bind; [apply safe_calm, calm_request_addons|]. intros _.
  apply safe_bind; [|intros tx; apply safe_ret]. apply safe_catch.
  - unfold open_sale. apply safe_opened. intros x. apply safe_bind; [apply safe_calm, calm_invoice_sale|]. intros o.
    apply safe_calm. calm.
  - intros e. destruct e; try solve [apply safe_calm; unfold sale_replay; calm].
    unfold sale_replay. refine (safe_rollback _ _). apply safe_calm. unfold get_by_razorpay_payment_id, scalar_one_or_none. calm.
Qed.

Lemma safe_purchase_order api convert lid buyer name email phone amount addons cur redeem :
  safe sync (create_purchase_order api convert lid buyer name email phone amount addons cur redeem).
Proof.
  unfold create_purchase_order, get_listing, check_buyable. apply safe_bind; [apply safe_calm; calm|]. intros _.
  apply safe_bind; [apply safe_calm; calm|]. intros [l|]; [|apply safe_calm; calm].
  apply safe_calm. unfold contact_purchase, save_listing, calculate_redemption, open_order, create_pending_redemption.
  repeat first [progress intros|progress cbv zeta|solve [apply calm_request_addons]|solve [calm]|apply (calm_bind _)
    |match goal with |- calm _ (if ?b then _ else _) => destruct b end].
Qed.

Lemma safe_payment_failure lid : safe sync (handle_payment_failure lid).
Proof.
  apply safe_calm. unfold handle_payment_failure, get_listing, cancel_redemption, save_listing. calm.
Qed.
End Opening.

(** ** The system *)

Section System.
Context {cfg : Config} {cipher : Cipher}.

(** One request, job or administrator's action about a sale, or the payment
    that opens one, with any arguments, clock and identifiers.  [sync] allows
    the synchronisation of refunds made in the gateway's dashboard. *)
Inductive request (sync : bool) : forall A : Type, Prog A -> Prop :=
| r_pay mail_ok user oid pid sig : request sync _ (verify_winner_payment mail_ok user oid pid sig)
| r_order api convert lid buyer name email phone amount addons cur redeem :
    request sync _ (create_purchase_order api convert lid buyer name email phone amount addons cur redeem)
| r_buy mail_ok lid pid oid sig buyer : request sync _ (verify_payment mail_ok lid pid oid sig buyer)
| r_failure lid : request sync _ (handle_payment_failure lid)
| r_submit mail_ok tid seller reg code f : request sync _ (submit_auth_code mail_ok tid seller reg code f)
| r_proof tid seller f : request sync _ (upload_proof tid seller f)
| r_self tid buyer reg : request sync _ (choose_self_transfer tid buyer reg)
| r_assist tid buyer : request sync _ (request_assistance tid buyer)
| r_reveal now tid buyer otp c : request sync _ (fun s => (verify_reveal_otp now tid buyer otp c s).1)
| r_start tid buyer : request sync _ (mark_transfer_started tid buyer)
| r_confirm tid buyer : request sync _ (confirm_transfer tid buyer)
| r_dispute tid buyer reason desc ev : request sync _ (open_dispute tid buyer reason desc ev)
| r_resolve api tid did admin r note : request sync _ (resolve api tid did admin r note)
| r_approve tid admin : request sync _ (approve_payout tid admin)
| r_release tid admin how reference notes : request sync _ (release_payout tid admin how reference notes)
| r_refund api tid admin note : request sync _ (refund api tid admin note)
| r_review tid admin action n : request sync _ (resolve_admin_review tid admin action n)
| r_force tid admin reason : request sync _ (force_complete tid admin reason)
| r_tick mail_ok rdap : request sync _ (run_tick mail_ok rdap)
| r_whois rdap tid : request sync _ (sync_transaction rdap tid)
| r_sync api tid admin : sync = true -> request sync _ (sync_refund_from_razorpay api tid admin).

Lemma request_safe sync A (m : Prog A) : request sync A m -> safe sync m.
Proof.
  destruct 1.
  - apply safe_verify_winner_payment.
  - apply safe_purchase_order.
  - apply safe_purchase.
  - apply safe_payment_failure.
  - apply safe_submit_auth_code.
  - apply safe_upload_proof.
  - apply safe_choose_self.
  - apply safe_request_assistance.
  - intros d0 s. apply safe_verify_reveal.
  - apply safe_mark_started.
  - apply safe_confirm.
  - apply safe_open_dispute.
  - apply safe_resolve.
  - apply safe_approve.
  - apply safe_release.
  - apply safe_refund.
  - apply safe_resolve_review.
  - apply safe_force_complete.
  - apply safe_run_tick.
  - apply safe_sync_transaction.
  - by apply safe_sync.
Qed.

Lemma request_advances sync A (m : Prog A) clock ids d :
  request sync A m -> txs_ok d -> advanced sync d (run_request clock ids m d).2.
Proof.
  intros Hm Hd. pose proof (request_safe sync A m Hm d (open_session clock ids d)) as Hs.
  unfold run_request. destruct (m _) as [r s]. apply Hs. by split; apply advanced_refl.
Qed.

Inductive step (sync : bool) (d d' : DB) : Prop :=
| Step A (m : Prog A) clock ids : request sync A m -> d' = (run_request clock ids m d).2 -> step sync d d'.

Lemma steps_advance sync d d' : rtc (step sync) d d' -> txs_ok d -> advanced sync d d'.
Proof.
  induction 1 as [d|d d1 d2 [A m clock ids Hm ->] _ IH]; intros Hd; [by apply advanced_refl|].
  pose proof (request_advances sync A m clock ids d Hm Hd) as H1.
  eapply advanced_trans; [exact H1|]. apply IH. by destruct H1.
Qed.

(** C22. The program refines the abstract machine: after any sequence of
    requests and jobs every sale is where it was or further along the machine's
    edges, and every new sale got there from the start. *)
Theorem transfer_refines sync d d' :
  rtc (step sync) d d' -> txs_ok d ->
  forall k, match phase_of k d with
            | Some p => exists q, phase_of k d' = Some q /\ rtc (edge sync) p q
            | None => forall q, phase_of k d' = Some q -> attainable sync q
            end.
Proof. intros H Hd. by apply (adv_phase sync d d'), steps_advance. Qed.

(** A database whose sales all came from the start. *)
Definition sales_attainable (sync : bool) (d : DB) : Prop :=
  txs_ok d /\ forall k p, phase_of k d = Some p -> attainable sync p.

Lemma steps_attainable sync d d' :
  rtc (step sync) d d' -> sales_attainable sync d -> sales_attainable sync d'.
Proof.
  intros H [Hd Hatt]. destruct (steps_advance sync d d' H Hd) as [Hok Had]. split; [done|].
  intros k q Hq. specialize (Had k). destruct (phase_of k d) as [p|] eqn:Hp; [|by apply Had].
  destruct Had as (q' & Hq' & Hpq). rewrite Hq in Hq'. injection Hq' as <-.
  unfold attainable. etrans; [exact (Hatt k p Hp)|exact Hpq].
Qed.

(** C23. Whatever happens, the seller of a sale is paid at most once: while the
    money is held there is no payout, when it is released there is one. *)
Theorem seller_paid_at_most_once sync d d' k x :
  rtc (step sync) d d' -> sales_attainable sync d -> mkt_txs d' !! k = Some x ->
  (length (payouts_of k d') <= 1)%nat /\
  (x_escrow_status x = Escrow.HELD -> payouts_of k d' = []) /\
  (x_escrow_status x = Escrow.RELEASED -> length (payouts_of k d') = 1%nat).
Proof.
  intros H Hd Hx. destruct (steps_attainable sync d d' H Hd) as [_ Hatt].
  specialize (Hatt k (start_of x (length (payouts_of k d')))). unfold phase_of in Hatt. rewrite Hx in Hatt.
  specialize (Hatt eq_refl). apply attainable_paid_fairly in Hatt. unfold paid_fairly in Hatt. cbn in Hatt.
  destruct (x_escrow_status x); split_and!; intros; try done; try lia. by apply length_zero_iff_nil.
Qed.

(** C24. As long as no refund from the gateway's dashboard is synchronised, the
    money of a sale is never both refunded to the buyer and paid to the seller. *)
Theorem refunded_not_paid d d' k x :
  rtc (step false) d d' -> sales_attainable false d -> mkt_txs d' !! k = Some x ->
  x_escrow_status x = Escrow.REFUNDED -> payouts_of k d' = [].
Proof.
  intros H Hd Hx He. destruct (steps_attainable false d d' H Hd) as [_ Hatt].
  specialize (Hatt k (start_of x (length (payouts_of k d')))). unfold phase_of in Hatt. rewrite Hx in Hatt.
  specialize (Hatt eq_refl). apply attainable_exclusive in Hatt; [|done]. by apply length_zero_iff_nil.
Qed.
End System.
