(* ===== verification/Settlement.v ===== *)
(** * Single operations of the transfer, and cases

    What the payout, the auth code, the refund and the seller's deadline do
    exactly, and runs of the whole transfer: the witnesses of
    TransferProtocol.v's theorems and the cases in which the program departs
    from what it means to do. *)

From stdpp Require Import relations.
From S2P Require Import Prelude PyNum Text Sha256 Store Gateway RevealOtp EdgePoints AuctionFees AuctionRepo Bidding Winner MarketTx AuctionPayment Transfer TransferProtocol Secrets.

Section Operations.
Context {cfg : Config} {cipher : Cipher}.

(** ** Releasing a payout *)

(** Telling the seller only records in the row that it was told. *)
Lemma on_payout_released_run x (s : Session) :
  exists s' b, on_payout_released x s = (Ok tt, s') /\
    (s_db s' = s_db s \/ s_db s' = put_tx (x <| x_email_payout_released_sent := b |>) (s_db s)).
Proof.
  unfold on_payout_released, tx_seller, bind, gets, when, emit, tx_save, modify. cbn.
  destruct (users (s_db s) !! x_seller_id x) as [u|]; [|eexists _, true; by eauto].
  destruct (negb _); cbn; [eexists _, true; split; [reflexivity|by right]|eexists _, true; by eauto].
Qed.

(** A sale whose payout was approved. *)
Record releasable (d : DB) (k : string) (x : DomainMarketplaceTransaction) (p : SellerPayoutProfile) : Prop := {
  rl_row : mkt_txs d !! k = Some x /\ x_id x = k;
  rl_state : x_escrow_status x = Escrow.HELD /\ x_transfer_status x = TStatus.PAYOUT_APPROVED /\
             is_Some (x_payout_approved_at x);
  rl_profile : profiles d !! x_seller_id x = Some p /\ is_complete (Some p) = true;
}.

(** Releasing an approved payout pays the seller the share fixed when the
    sale was opened, to the profile of the moment, closes the sale and takes
    the money out of escrow; the reference is the given one or names the sale. *)
Theorem release_pays_seller clock ids d k x p admin how reference notes :
  releasable d k x p ->
  exists d' row y,
    run_request clock ids (release_payout k admin how reference notes) d
    = (Ok (clock 0%nat, TStatus.COMPLETED), d') /\
    payouts d' = payouts d ++ [row] /\
    po_transaction_id row = Some k /\ po_amount_inr row = x_seller_payout_inr x /\
    po_seller_id row = Some (x_seller_id x) /\ po_payout_profile_id row = Some (pp_id p) /\
    po_reference_number row = Some (payout_reference reference k) /\
    mkt_txs d' = <[k := y]> (mkt_txs d) /\
    x_escrow_status y = Escrow.RELEASED /\ x_transfer_status y = TStatus.COMPLETED /\
    x_seller_paid_at y = Some (clock 0%nat).
Proof.
  intros [[Hx Hid] (He & Hst & [t Ht]) [Hp Hc]].
  assert (tx_in [TStatus.REFUNDED; TStatus.CANCELLED] x = false /\ tx_in [TStatus.PAYOUT_APPROVED] x = true)
    as [Hin1 Hin2] by (unfold tx_in; by rewrite Hst).
  unfold run_request, release_payout, require_tx, get_tx, _require_complete_profile, get_profile,
    bind, gets, open_session.
  cbn [s_db]. rewrite Hx. cbn [ret s_db]. rewrite Hin1, Hin2, Ht, He. cbn [negb guard_exn ret].
  change (bool_decide (Escrow.HELD = Escrow.REFUNDED)) with false.
  change (bool_decide (Escrow.HELD = Escrow.HELD)) with true. cbn [negb guard_exn ret s_db].
  rewrite Hp, Hc. unfold utc_now, uuid4, modify, tx_save, log_event, bind, modify, uuid4.
  cbn [guard_exn ret fst snd s_db s_committed s_out s_clock s_ids].
  match goal with |- context [on_payout_released ?x' ?s1] =>
    destruct (on_payout_released_run x' s1) as (s2 & b & -> & Hs2) end.
  cbn [fst snd s_db s_committed s_out s_clock s_ids commit ret] in *.
  assert (payouts (s_db s2) = payouts d ++ [MkPayout (ids 0%nat) (Some (x_id x)) (Some (pp_id p))
    (Some (x_seller_id x)) (x_seller_payout_inr x) SellerPayoutStatus.SENT (Some how)
    (Some (payout_reference reference (x_id x))) (strip_or_none notes) (Some (u_id admin)) (Some (clock 0%nat))])
    as Hpay by (by destruct Hs2 as [->| ->]).
  assert (exists y, mkt_txs (s_db s2) = <[x_id x := y]> (mkt_txs d) /\
    x_escrow_status y = Escrow.RELEASED /\ x_transfer_status y = TStatus.COMPLETED /\
    x_seller_paid_at y = Some (clock 0%nat)) as (y & Hm & Hy1 & Hy2 & Hy3).
  { destruct Hs2 as [->| ->]; [by exists (paid_out x p (clock 0%nat))|].
    exists ((paid_out x p (clock 0%nat)) <| x_email_payout_released_sent := b |>).
    split; [exact (insert_insert_eq _ _ _ _)|done]. }
  subst k. eexists _, _, y. split; [reflexivity|]. by split_and!.
Qed.

(** ** The auth code *)

Lemma on_auth_code_available_run mail_ok x (s : Session) :
  exists s' b, on_auth_code_available mail_ok x s = (Ok tt, s') /\
    (s_db s' = s_db s \/ s_db s' = put_tx (x <| x_email_auth_available_sent := b |>) (s_db s)).
Proof.
  unfold on_auth_code_available, tx_buyer, mail_to, bind, gets, when. cbn.
  destruct (users (s_db s) !! x_buyer_id x) as [u|]; [|eexists _, true; by eauto].
  destruct (negb _); [|eexists _, true; by eauto]. cbn.
  destruct (_ && _); cbn; eexists _, true; (split; [reflexivity|by right]).
Qed.

(** The row a successful submission leaves. *)
Lemma submit_auth_code_row mail_ok k seller reg code f x (s s' : Session) r :
  mkt_txs (s_db s) !! k = Some x -> x_id x = k ->
  submit_auth_code mail_ok k seller reg code f s = (Ok r, s') ->
  exists y, mkt_txs (s_committed s') !! k = Some y /\ x_buyer_id y = x_buyer_id x /\
    x_auth_code_ciphertext y = Some (encrypt_secret (strip code)) /\
    x_seller_id x = u_id seller /\ (4 <= String.length (strip code))%nat.
Proof.
  intros Hx Hid H. unfold submit_auth_code, require_tx, get_tx in H. ok_inv_step H. ok_inv_step Hr.
  rewrite Hx in Hr. ok_inv Hr. do 5 ok_inv_step H. ok_inv_step H.
  match type of H with context [tx_save ?y] => set (y0 := y) in H end.
  assert (x_id y0 = x_id x /\ x_buyer_id y0 = x_buyer_id x /\
    x_auth_code_ciphertext y0 = Some (encrypt_secret (strip code))) as (Hid & Hb & Hcode) by (by destruct x3).
  clearbody y0. clear Hr2. unfold tx_save, log_event in H. ok_inv_step H. ok_inv_step H. ok_inv Hr2.
  ok_inv_step H. match type of Hr2 with on_auth_code_available _ _ ?s1 = _ =>
    destruct (on_auth_code_available_run mail_ok y0 s1) as (s3 & b & Hrun & Hs3) end.
  rewrite Hrun in Hr2. injection Hr2 as <-. ok_inv H.
  apply bool_decide_eq_true_1 in Hr. apply Z.leb_le in Hr1.
  destruct Hs3 as [->| ->]; cbn; rewrite Hid, lookup_insert_eq; eexists; (split; [reflexivity|]);
    cbn; split_and!; try done; lia.
Qed.

(** The auth code the seller hands in is the one the buyer is shown, blanks
    around it removed: a buyer of the sale whose one-time code is accepted gets
    exactly the code of the last submission. *)
Theorem auth_code_round_trip mail_ok clock ids k seller reg code f x d d1 r :
  mkt_txs d !! k = Some x -> x_id x = k ->
  run_request clock ids (submit_auth_code mail_ok k seller reg code f) d = (Ok r, d1) ->
  forall clock' ids' now buyer otp c,
    u_id buyer = x_buyer_id x -> (verify_otp now k buyer otp c).1 = Ok tt ->
    (verify_reveal_otp now k buyer otp c (open_session clock' ids' d1)).1.1 = Ok (strip code).
Proof.
  intros Hx Hid Hrun clock' ids' now buyer otp c Hb Hotp. unfold run_request in Hrun.
  destruct (submit_auth_code _ _ _ _ _ _ _) as [r0 s'] eqn:H. injection Hrun as -> <-.
  eapply submit_auth_code_row in H as (y & Hy & Hby & Hcode & _); [|done..].
  unfold verify_reveal_otp, may_reveal, require_buyer, require_tx, get_tx, bind, gets. cbn [open_session s_db].
  rewrite Hy. cbn [ret]. rewrite bool_decide_eq_true_2 by congruence. cbn [guard_exn ret]. rewrite Hcode.
  replace (is_empty (encrypt_secret (strip code))) with false.
  2:{ symmetry. apply not_true_iff_false. rewrite is_empty_true. apply encrypt_nonempty. }
  cbn [negb guard_exn ret]. destruct (verify_otp now k buyer otp c) as [ro c']. cbn in Hotp. subst ro.
  unfold reveal, bind, lift_res. by rewrite decrypt_encrypt.
Qed.

(** C25. The auth code is only shown to the buyer of the sale, for the one-time
    code sent to them; any other attempt changes no table. *)
Theorem reveal_guarded now k buyer otp c (s s' : Session) c' r :
  verify_reveal_otp now k buyer otp c s = (r, s', c') ->
  match r with
  | Ok plain =>
      exists x, mkt_txs (s_db s) !! k = Some x /\ x_buyer_id x = u_id buyer /\
        (verify_otp now k buyer otp c).1 = Ok tt /\
        exists t, x_auth_code_ciphertext x = Some t /\ decrypt_secret t = Ok plain
  | Raise _ => s_committed s' = s_committed s /\ s_db s' = s_db s
  end.
Proof.
  unfold verify_reveal_otp. pose proof (may_reveal_silent k buyer s) as Hsil.
  destruct (may_reveal k buyer s) as [[[x t]|e] s1] eqn:H; cbn in Hsil; subst s1; [|by intros [= <- <- <-]].
  apply may_reveal_row in H as (_ & Hx & Hb & Hc).
  destruct (verify_otp now k buyer otp c) as [[[]|e] c1] eqn:Ho; [|by intros [= <- <- <-]].
  unfold reveal, bind, lift_res. destruct (decrypt_secret t) as [plain|e] eqn:Hd.
  - intros [= <- <- <-]. exists x. split_and!; [done..|]. by exists t.
  - rewrite (decrypt_error t e Hd). by intros [= <- <- <-].
Qed.

(** ** Refunds *)

(** The refunds asked of the gateway, answered or not, the latest first. *)
Definition refunds_in (l : list effect) : list (string * Z) :=
  omap (fun e => match e with RazorpayRefund pid paise => Some (pid, paise) | _ => None end) l.

Definition asked (s : Session) : list (string * Z) := refunds_in (s_out s).

Lemma asked_emit e : refunds_in [e] = [] -> preserves asked (emit e).
Proof. intros He s. unfold asked, refunds_in in *. cbn in *. by destruct e. Qed.

Lemma asked_modify f : preserves asked (modify f).
Proof. by intros s. Qed.
Lemma asked_commit : preserves asked commit.
Proof. by intros s. Qed.
Lemma asked_utc_now : preserves asked utc_now.
Proof. by intros s. Qed.
Lemma asked_uuid4 : preserves asked uuid4.
Proof. by intros s. Qed.
End Operations.

#[export] Hint Resolve asked_modify asked_commit asked_utc_now asked_uuid4 : frame.
#[export] Hint Extern 1 (preserves asked (emit _)) => apply asked_emit; reflexivity : frame.

Section Refunds.
Context {cfg : Config} {cipher : Cipher}.

Lemma asked_book_refund x rid aid payload : preserves asked (book_refund x rid aid payload).
Proof.
  unfold book_refund, tx_save, _restore_listing, get_listing, save_listing, log_event, on_refund, tx_buyer. frame.
Qed.

(** What [refund_payment] asks for: nothing, or one refund within what is left. *)
Lemma asked_refund_payment api pid amt cur (s : Session) :
  asked (refund_payment api pid amt cur s).2 = asked s \/
  exists payment paise, api_payment_fetch api pid = Reply payment /\
    0 < paise <= default 0 (pay_amount payment) - pay_amount_refunded payment /\
    asked (refund_payment api pid amt cur s).2 = (pid, paise) :: asked s.
Proof.
  destruct (refund_payment api pid amt cur s) as [r s'] eqn:H. cbn [snd].
  unfold refund_payment, bind, lift_res in H.
  destruct is_configured; [cbn [guard_exn ret] in H|by injection H as <- <-; left].
  destruct (api_payment_fetch api pid) as [p| | | |] eqn:Hp; try by (injection H as <- <-; left).
  destruct (bool_decide (lower (pay_status p) = "refunded"%string) || _); [by injection H as <- <-; left|].
  destruct (bool_decide (lower (pay_status p) ∈ _)); [cbn [guard_exn ret] in H|by injection H as <- <-; left].
  destruct (_to_smallest_unit amt (upper cur)) as [req|]; [|by injection H as <- <-; left].
  set (a := Z.min req _) in H. destruct (Z.ltb_spec 0 a); [cbn [guard_exn ret] in H|by injection H as <- <-; left].
  right. exists p, a. split; [done|]. split; [subst a; lia|].
  unfold emit in H. destruct (api_refund api pid a) as [rf| | | |]; try by (injection H as <- <-).
  by destruct (match rfn_id rf with Some id => startswith id "rfnd_" | None => false end); injection H as <- <-.
Qed.

(** The gateway is only spoken to in the call itself. *)
Lemma asked_refund_held api x pid admin note (s : Session) :
  asked (refund_held api x pid admin note s).2
  = asked (refund_payment api pid (_compute_gst_inclusive_amount x) "INR" s).2.
Proof.
  unfold refund_held, call_refund, bind at 1, catch.
  transitivity (asked (bind (refund_payment api pid (_compute_gst_inclusive_amount x) "INR")
    (fun r => ret (Refunded_now r)) s).2).
  2:{ unfold bind. by destruct (refund_payment _ _ _ _ s) as [[r|e] s']. }
  destruct (bind _ _ s) as [[r|e] s1] eqn:H.
  - assert (exists r', r = Refunded_now r') as [r' ->].
    { unfold bind in H. destruct (refund_payment _ _ _ _ s) as [[r'|e] s']; [|done].
      injection H as <- _. by exists r'. }
    cbn [snd]. match goal with |- asked (?m s1).2 = _ => assert (preserves asked m) as Hm end; [|apply Hm].
    frame.
  - assert (forall m : Prog refund_answer, preserves asked m -> asked (m s1).2 = asked s1) as Hframe
      by (intros m Hm; apply Hm).
    cbn [snd]. destruct e; try reflexivity. cbn [ret]. apply Hframe. frame.
Qed.

(** C26. A refund asks the gateway at most once, and only when the sale's money
    is held and its payout neither approved nor made; what it asks for is
    positive and no more than what is left of the captured payment. *)
Theorem refund_within_payment api k admin note (s : Session) :
  asked (refund api k admin note s).2 = asked s \/
  exists x pid payment paise,
    mkt_txs (s_db s) !! k = Some x /\ x_escrow_status x = Escrow.HELD /\
    (x_transfer_status x ∉ REFUND_TERMINAL) /\ x_razorpay_payment_id x = Some pid /\
    api_payment_fetch api pid = Reply payment /\
    0 < paise <= default 0 (pay_amount payment) - pay_amount_refunded payment /\
    asked (refund api k admin note s).2 = (pid, paise) :: asked s.
Proof.
  unfold refund, require_tx, get_tx, bind, gets. cbn.
  destruct (mkt_txs (s_db s) !! k) as [x|] eqn:Hx; [|by left]. cbn [ret].
  destruct (is_refunded x) eqn:Href.
  { left. unfold refund_again. repeat (case_match; try done). unfold bind, when.
    by destruct (truthy (_fetch_existing_refund_id api _)). }
  apply orb_false_iff in Href as [He Hst]. apply bool_decide_eq_false_1 in He.
  destruct (x_razorpay_payment_id x) as [pid|] eqn:Hpid; [|by left].
  destruct (truthy (Some pid)); cbn [guard_exn]; [|by left]. cbn [ret].
  destruct (bool_decide (x_escrow_status x = Escrow.RELEASED)) eqn:Hrel; cbn [negb guard_exn]; [by left|].
  cbn [ret]. apply bool_decide_eq_false_1 in Hrel.
  destruct (tx_in REFUND_TERMINAL x) eqn:Hterm; cbn [negb guard_exn]; [by left|]. cbn [ret].
  assert (x_escrow_status x = Escrow.HELD) as Hheld by (by destruct (x_escrow_status x)).
  rewrite asked_refund_held. cbn [default from_option id].
  destruct (asked_refund_payment api pid (_compute_gst_inclusive_amount x) "INR" s) as [H|H]; [by left|right].
  destruct H as (payment & paise & Hp & Hle & Ha). exists x, pid, payment, paise.
  apply bool_decide_eq_false_1 in Hterm. destruct Hle. by split_and!.
Qed.
End Refunds.

(** ** Cases *)

Module Deal.
Import Samples Sale.

(** The sample auction, won by u2; the seller's payout profile is complete. *)
Definition profile : SellerPayoutProfile := {|
  pp_id := "pp1"; pp_user_id := "seller"; pp_payout_method := PayoutMethod.BANK_ACCOUNT;
  pp_account_holder_name := Some "A Seller"%string; pp_bank_name := Some "Bank"%string;
  pp_account_number := Some "12345678"%string; pp_account_number_last4 := Some "5678"%string;
  pp_bank_ifsc := Some "IFSC0001"%string; pp_upi_id_encrypted := None |}.

Definition funded : DB := (won_db (listing None)) <| profiles := {[ "seller" := profile ]} |>.

Definition seller : AppUser := sample_user "seller" 0.

(** One sale with the money held, as the winner's payment leaves it. *)
Definition pay : Prog winner_verified := verify_winner_payment mails_sent winner "o4" "pay" (sign "o4" "pay").
Definition sold : DB := (run_request pay_clock pay_ids pay funded).2.
Definition sale_id : string := match values (mkt_txs sold) with x :: _ => x_id x | [] => EmptyString end.

Definition later (n : Z) : nat -> Z := fun i => days n + Z.of_nat i.
Definition ids_of (n : Z) : nat -> string := fun i => ("r" +:+ pretty n +:+ "-" +:+ pretty i)%string.
Definition at_day {A} (n : Z) (m : Prog A) (d : DB) : DB := (run_request (later n) (ids_of n) m d).2.

Definition submit : Prog unit := submit_auth_code mails_sent sale_id seller "GoDaddy" " secret " None.
Definition transferred (d : DB) : DB :=
  at_day 5 (confirm_transfer sale_id winner) (at_day 4 (mark_transfer_started sale_id winner) (at_day 3 submit d)).
Definition approved (d : DB) : DB := at_day 6 (approve_payout sale_id admin) (transferred d).
Definition settled (d : DB) : DB := at_day 7 (release_payout sale_id admin "NEFT" None None) (approved d).

(** A gateway that captured 177 rupees, the price and its GST, and refunds what it is asked. *)
Definition refunding (status : string) (already : Z) : rzp_api := {|
  api_order_create := fun _ _ _ => ConnectionErr;
  api_payment_fetch := fun _ => Reply (RzpPayment status "o4" (Some 17700) "INR" already);
  api_order_fetch := fun _ => ConnectionErr;
  api_refund_list := fun _ => Reply [Some "rfnd_1"%string];
  api_refund := fun _ paise => Reply (RzpRefund (Some "rfnd_1"%string) paise) |}.
End Deal.

Import Samples Sale Deal.

Lemma funded_ok sync : sales_attainable sync funded.
Proof.
  assert (mkt_txs funded = ∅) as Hm by (vm_compute; reflexivity).
  assert (payouts funded = []) as Hp by (vm_compute; reflexivity).
  assert (forall j p, phase_of j funded <> Some p) as Hnone.
  { intros j p. unfold phase_of. by rewrite Hm, lookup_empty. }
  split; [split|].
  - intros j x. by rewrite Hm, lookup_empty.
  - intros j _. unfold payouts_of. by rewrite Hp.
  - intros j p H. exfalso. exact (Hnone j p H).
Qed.

(** One more request of the run. *)
Lemma run_on sync {A} (m : Prog A) clock ids d0 d :
  request sync A m -> rtc (step sync) d0 d -> rtc (step sync) d0 (run_request clock ids m d).2.
Proof. intros Hm H. eapply rtc_r; [exact H|]. by eapply Step. Qed.

Lemma run_settled sync : rtc (step sync) funded (settled sold).
Proof.
  unfold settled, approved, transferred, at_day, sold.
  repeat apply run_on; constructor.
Qed.

Lemma transfer_refines_witness :
  attainable false (Phase Escrow.RELEASED TStatus.COMPLETED 1).
Proof.
  pose proof (transfer_refines false funded (settled sold) (run_settled false) (proj1 (funded_ok false)) sale_id) as H.
  assert (phase_of sale_id funded = None) as Hn by (vm_compute; reflexivity).
  rewrite Hn in H. apply H. vm_compute. reflexivity.
Defined.

(** The sale at the end of the run. *)
Lemma settled_sale : exists x, mkt_txs (settled sold) !! sale_id = Some x /\ x_escrow_status x = Escrow.RELEASED.
Proof.
  destruct (mkt_txs (settled sold) !! sale_id) as [x|] eqn:Hx; [|exfalso; by vm_compute in Hx].
  exists x. split; [done|]. vm_compute in Hx. by injection Hx as <-.
Qed.

Lemma seller_paid_at_most_once_witness : length (payouts_of sale_id (settled sold)) = 1%nat.
Proof.
  destruct settled_sale as (x & Hx & He).
  exact (proj2 (proj2 (seller_paid_at_most_once false funded (settled sold) sale_id x (run_settled false)
    (funded_ok false) Hx)) He).
Defined.

(** Refunded instead of approved. *)
Definition refunded_db : DB := at_day 6 (refund (refunding "captured" 0) sale_id admin None) (transferred sold).

Lemma refunded_not_paid_witness : payouts_of sale_id refunded_db = [].
Proof.
  destruct (mkt_txs refunded_db !! sale_id) as [x|] eqn:Hx; [|exfalso; by vm_compute in Hx].
  apply (refunded_not_paid funded refunded_db sale_id x); [|apply funded_ok|exact Hx|].
  - unfold refunded_db, transferred, at_day, sold. repeat apply run_on; constructor.
  - vm_compute in Hx. by injection Hx as <-.
Defined.

Lemma release_pays_seller_witness :
  exists row, payouts (settled sold) = [row] /\
    po_reference_number row = Some (payout_reference None sale_id).
Proof.
  destruct (mkt_txs (approved sold) !! sale_id) as [x|] eqn:Hx; [|exfalso; by vm_compute in Hx].
  destruct (release_pays_seller (later 7) (ids_of 7) (approved sold) sale_id x profile admin "NEFT" None None)
    as (d' & row & y & Hrun & Hpay & _ & _ & _ & _ & Href & _).
  - vm_compute in Hx. injection Hx as <-. constructor.
    + split; vm_compute; reflexivity.
    + split_and!; try (vm_compute; reflexivity). by eexists.
    + split; vm_compute; reflexivity.
  - exists row. unfold settled, at_day. rewrite Hrun. cbn [snd]. rewrite Hpay.
    split; [|exact Href]. replace (payouts (approved sold)) with (@nil SellerPayout) by (vm_compute; reflexivity).
    reflexivity.
Defined.

(** The database the seller's submission leaves, and a code sent to the buyer. *)
Definition code_db : DB := at_day 3 submit sold.
Definition code_sent : otp_cache := (send_otp (days 3) (Ok tt) "123456" sale_id winner ∅).2.

Lemma auth_code_round_trip_witness :
  (verify_reveal_otp (days 3 + 5) sale_id winner "123456" code_sent (open_session (later 4) (ids_of 4) code_db)).1.1
  = Ok "secret"%string.
Proof.
  destruct (mkt_txs sold !! sale_id) as [x|] eqn:Hx; [|exfalso; by vm_compute in Hx].
  assert (x_id x = sale_id /\ x_buyer_id x = "u2"%string) as [Hid Hb]
    by (vm_compute in Hx; injection Hx as <-; split; vm_compute; reflexivity).
  unfold code_db, at_day. destruct (run_request (later 3) (ids_of 3) submit sold) as [[[]|e] d1] eqn:H;
    [|exfalso; by vm_compute in H].
  unfold submit in H. cbn [snd]. transitivity (Ok (strip " secret ")); [|reflexivity].
  assert (u_id winner = x_buyer_id x) as Hu by (rewrite Hb; reflexivity).
  assert ((verify_otp (days 3 + 5) sale_id winner "123456" code_sent).1 = Ok tt) as Hotp by (vm_compute; reflexivity).
  pose proof (auth_code_round_trip mails_sent (later 3) (ids_of 3) sale_id seller "GoDaddy" " secret " None x sold d1 tt
    Hx Hid) as G1.
  specialize (G1 H).
  specialize (G1 (later 4) (ids_of 4) (days 3 + 5) winner "123456"%string code_sent Hu).
  exact (G1 Hotp).
Defined.

Lemma reveal_guarded_witness :
  exists x, mkt_txs code_db !! sale_id = Some x /\ x_buyer_id x = u_id winner.
Proof.
  set (run := verify_reveal_otp (days 3 + 5) sale_id winner "123456" code_sent
    (open_session (later 4) (ids_of 4) code_db)).
  assert (is_ok run.1.1 = true) as Hok by (vm_compute; reflexivity).
  destruct run as [[r s'] c'] eqn:H. cbn [fst] in Hok. pose proof (reveal_guarded _ _ _ _ _ _ _ _ _ H) as G.
  destruct r as [plain|e]; [|discriminate Hok]. destruct G as (x & Hx & Hb & _).
  exists x. split; [exact Hx|exact Hb].
Defined.

(** ** Where the program departs from what it means to do *)

(** Synchronising a refund made in the gateway's dashboard does not ask
    whether the seller was paid: the sale ends up refunded to the buyer and
    paid to the seller, and the listing is for sale again. *)
Theorem refund_synced_after_payout :
  phase_of sale_id (at_day 8 (sync_refund_from_razorpay (refunding "refunded" 17700) sale_id admin) (settled sold))
  = Some (Phase Escrow.REFUNDED TStatus.REFUNDED 1) /\
  fmap l_domain_status (listings (at_day 8 (sync_refund_from_razorpay (refunding "refunded" 17700) sale_id admin)
    (settled sold)) !! "l1"%string) = Some DomainListingStatus.AVAILABLE.
Proof. split; vm_compute; reflexivity. Qed.

(** A dispute is opened, the administrator cancels the sale - the listing is
    for sale again - and then resolves the dispute. *)
Definition disputed : DB := at_day 4 (open_dispute sale_id winner DisputeReason.TRANSFER_ISSUE None None) code_db.
Definition cancelled : DB := at_day 5 (resolve_admin_review sale_id admin Cancel None) disputed.
Definition dispute_id : string := match values (disputes disputed) with x :: _ => dd_id x | [] => EmptyString end.

(** Resolving a dispute for the seller pays the seller of a sale that was
    cancelled, while the domain is for sale again. *)
Theorem cancelled_sale_paid_out :
  let paid_db := at_day 6 (resolve (refunding "captured" 0) sale_id dispute_id admin For_payout None) cancelled in
  phase_of sale_id cancelled = Some (Phase Escrow.HELD TStatus.CANCELLED 0) /\
  phase_of sale_id paid_db = Some (Phase Escrow.RELEASED TStatus.COMPLETED 1) /\
  fmap l_domain_status (listings paid_db !! "l1"%string) = Some DomainListingStatus.AVAILABLE.
Proof. cbv zeta. split_and!; vm_compute; reflexivity. Qed.

(** Two registrars none of the instructions are for count as the same one: the
    sale is marked as supporting the transfer, whatever they are. *)
Lemma unknown_registrars_match registrar target :
  normalize_registrar_key registrar = "default"%string -> normalize_registrar_key target = "default"%string ->
  registrars_match registrar target = true.
Proof. unfold registrars_match. by intros -> ->. Qed.

Example gandi_matches_ovh : registrars_match "Gandi SAS" "OVH" = true.
Proof. vm_compute. reflexivity. Qed.

(** The administrator's registrar check is lost: nothing commits it. *)
Lemma registrar_check_not_kept rdap k clock ids d :
  (run_request clock ids (sync_transaction rdap k) d).2 = d.
Proof.
  apply run_request_raise. unfold sync_transaction, _check_tx, get_tx, tx_save, log_event. frame.
Qed.
