(* ===== verification/VirtualAssistant.v ===== *)
(** * Applications of virtual assistants

    app/service/virtual_assistant: the numbers an application gets
    (reference_number_service.py), the checks of its links and its photo
    (va_media.py) and the request that stores it (virtual_assistant_service.py),
    with the roles the controller takes from the form.  The tables are those of
    this component; the sequence is not transactional: what it has counted stays
    counted when the transaction is rolled back.  Widths of text columns are not
    modelled. *)

From S2P Require Import Prelude Text Numerals.

(** ** Tables *)

(** overall_status_enum *)
Inductive overall_status := Pending | PartiallyApproved | Approved | Rejected.
#[export] Instance overall_status_eq : EqDecision overall_status.
Proof. solve_decision. Defined.

Definition status_text (s : overall_status) : string :=
  match s with
  | Pending => "pending" | PartiallyApproved => "partially_approved"
  | Approved => "approved" | Rejected => "rejected"
  end.

(** What the form gives an application. *)
Record details := Details {
  f_full_name : string; f_phone_number : string; f_location : option string;
  f_short_bio : option string; f_skills : option string; f_years_experience : option string;
  f_languages_known : option string; f_portfolio_url : option string; f_availability : option string;
  f_hours_per_week : option string; f_expected_compensation : option string;
  f_resume_url : string; f_linkedin_url : string; f_profile_photo_key : string;
  f_consents : bool * bool * bool;
}.

Record VirtualAssistantApplication := Application {
  va_id : string;
  va_application_number : Z;
  va_reference_number : string;
  va_user_id : option string;
  va_email : string;
  va_roles : string;
  va_details : details;
  va_overall_status : overall_status;
  va_is_deleted : bool;
}.

Record ApplicationRole := Role { ar_id : string; ar_application_id : string; ar_role_name : string; ar_status : overall_status }.

Record VANotification := Notification {
  vn_id : string; vn_va_id : string; vn_application_id : string; vn_type : string; vn_title : string; vn_message : string }.

Record va_db := VaDb {
  va_apps : gmap string VirtualAssistantApplication;
  va_app_roles : gmap string ApplicationRole;
  va_notes : gmap string VANotification;
  va_last_value : Z;
  va_is_called : bool;
}.

#[export] Instance va_db_eta : Settable va_db := fun d =>
  VaDb (va_apps d) (va_app_roles d) (va_notes d) (va_last_value d) (va_is_called d).

Inductive va_effect :=
| PhotoStored (key : string)
| ConfirmationMail (to_email reference : string)
| SupportMail (to_email reference : string).

Abbreviation VA A := (M va_db va_effect A).

(** ** reference_number_service.py *)

Definition VA_REFERENCE_PREFIX : string := "CB-VA-".

(** For numbers of the sequence, which are positive. *)
Definition format_reference_number (application_number : Z) : string :=
  (VA_REFERENCE_PREFIX +:+ zero_padded 6 application_number)%string.

Definition format_application_number_display (n : option Z) : option string :=
  match n with
  | None => None
  | Some n => Some (if n <? 0 then pretty n else zero_padded 2 n)
  end.

Definition parse_application_number_from_reference (reference_number : option string) : option Z :=
  if negb (truthy reference_number) then None
  else
    let normalized := upper (strip (default EmptyString reference_number)) in
    match after VA_REFERENCE_PREFIX normalized with
    | Some suffix => if negb (is_empty suffix) && all_chars is_digit suffix then Some (dec_value 0 suffix) else None
    | None => None
    end.

(** The column is not nullable. *)
Definition resolve_application_number (row : VirtualAssistantApplication) : option Z := Some (va_application_number row).

Definition application_number_fields (row : VirtualAssistantApplication) : option Z * option string :=
  let number := resolve_application_number row in (number, format_application_number_display number).

(** What the sequence does is seen by everyone at once. *)
Definition on_sequence (f : va_db -> va_db) : VA unit := fun s =>
  (Ok tt, Session (f (s_committed s)) (f (s_db s)) (s_out s) (s_clock s) (s_ids s)).

Definition SEQUENCE_MAX : Z := 2 ^ 63 - 1.

Definition setval (v : Z) : VA unit :=
  guard_exn ((1 <=? v) && (v <=? SEQUENCE_MAX)) (SQLAlchemyError "setval: value is out of bounds") ;;;
  on_sequence (fun d => d <| va_last_value := v |> <| va_is_called := true |>).

Definition nextval : VA Z :=
  do d <- gets (fun d => d);
  if negb (va_is_called d) then on_sequence (fun d => d <| va_is_called := true |>) ;;; ret (va_last_value d)
  else
    guard_exn (va_last_value d <? SEQUENCE_MAX) (SQLAlchemyError "nextval: reached maximum value of sequence") ;;;
    on_sequence (fun d' => d' <| va_last_value := va_last_value d + 1 |>) ;;;
    ret (va_last_value d + 1).

(** MAX of a column, NULL of an empty table. *)
Definition max_of (l : list Z) : option Z :=
  match l with [] => None | x :: l' => Some (foldr Z.max x l') end.

Definition max_number (d : va_db) : Z := default 0 (max_of (map va_application_number (values (va_apps d)))).

Definition _sync_sequence : VA unit :=
  do v <- gets (fun d => Z.max (max_number d) (va_last_value d));
  setval v.

Definition number_in_use (n : Z) (d : va_db) : bool :=
  existsb (fun a => bool_decide (va_reference_number a = format_reference_number n) || (va_application_number a =? n))
    (values (va_apps d)).

Definition NO_NUMBER : exn :=
  HTTPException "Unable to generate a unique reference number. Please try again." 503.

(** [for attempt in range(...)] *)
Fixpoint attempt_numbers (attempts : nat) : VA (Z * string) :=
  match attempts with
  | O => raise NO_NUMBER
  | S attempts' =>
      do n <- nextval;
      do taken <- gets (number_in_use n);
      if negb taken then ret (n, format_reference_number n) else attempt_numbers attempts'
  end.

Definition ALLOCATION_ATTEMPTS : nat := 20.

Definition allocate_application_numbers : VA (Z * string) := _sync_sequence ;;; attempt_numbers ALLOCATION_ATTEMPTS.

(** ** va_media.py and the checks of the service *)

Definition _PLACEHOLDER_FRAGMENTS : list string :=
  ["example.com"; "storage.example.com"; "placeholder"; "test.com"; "dummy"].

Definition some_fragment (fragments : list string) (s : string) : bool := existsb (fun f => contains f s) fragments.

Definition has_scheme (s : string) : bool := startswith s "http://" || startswith s "https://".

Definition bad_request {A} (detail : string) : res A := Raise (HTTPException detail 400).

Definition validate_resume_link (url : option string) : res string :=
  let cleaned := strip (default EmptyString url) in
  if is_empty cleaned then bad_request "Resume link is required."
  else if (500 <? String.length cleaned)%nat then bad_request "Resume link must be 500 characters or fewer."
  else if negb (has_scheme cleaned) then bad_request "Resume link must be a valid URL starting with http:// or https://"
  else if some_fragment _PLACEHOLDER_FRAGMENTS (lower cleaned) then bad_request "Resume link is invalid."
  else Ok cleaned.

Definition _INVALID_LINKEDIN_PATH_FRAGMENTS : list string :=
  ["linkedin.com/oauth"; "linkedin.com/login"; "linkedin.com/uas"; "linkedin.com/checkpoint"; "linkedin.com/legal";
   "linkedin.com/help"; "linkedin.com/authwall"; "linkedin.com/sharing"].

Definition after_or_same (p s : string) : string := default s (after p s).

(** [[\w%-]] of a text in lower case *)
Definition profile_char (c : Ascii.ascii) : bool :=
  is_digit c || (let n := Ascii.nat_of_ascii c in ((97 <=? n) && (n <=? 122))%nat)
  || bool_decide (String c EmptyString ∈ ["_"; "%"; "-"]%string).

Definition without_last_slash (s : string) : string :=
  let n := (String.length s - 1)%nat in
  if bool_decide (String.substring n 1 s = "/"%string) then str_take n s else s.

(** [_LINKEDIN_PROFILE_URL_RE.match] of a text without a line break at its end. *)
Definition _LINKEDIN_PROFILE_URL_RE (candidate : string) : bool :=
  let l := lower candidate in
  match (match after "https://" l with Some r => Some r | None => after "http://" l end) with
  | None => false
  | Some host =>
      match after "linkedin.com/in/" (after_or_same "www." host) with
      | None => false
      | Some name => let name := without_last_slash name in negb (is_empty name) && all_chars profile_char name
      end
  end.

(** [s.lstrip("/")] *)
Fixpoint lstrip_slash (s : string) : string :=
  match s with
  | String c s' => if bool_decide (String c EmptyString = "/"%string) then lstrip_slash s' else s
  | EmptyString => EmptyString
  end.

Definition validate_linkedin_profile_url (url : option string) : res string :=
  let cleaned := strip (default EmptyString url) in
  if is_empty cleaned then bad_request "LinkedIn Profile URL is required."
  else if (500 <? String.length cleaned)%nat then bad_request "LinkedIn Profile URL must be 500 characters or fewer."
  else
    let candidate := if has_scheme (lower cleaned) then cleaned else ("https://" +:+ lstrip_slash cleaned)%string in
    if some_fragment _PLACEHOLDER_FRAGMENTS (lower candidate)
       || some_fragment _INVALID_LINKEDIN_PATH_FRAGMENTS (lower candidate)
       || negb (_LINKEDIN_PROFILE_URL_RE candidate)
    then bad_request "Please enter a valid LinkedIn profile URL."
    else Ok candidate.

(** [uf_guessed] is what [mimetypes.guess_type] says of the name. *)
Record UploadFile := Upload { uf_filename : option string; uf_content_type : option string; uf_size : option Z; uf_guessed : option string }.

Definition PROFILE_PHOTO_ALLOWED_EXTENSIONS : list string := [".jpg"; ".jpeg"; ".png"; ".webp"].
Definition PROFILE_PHOTO_ALLOWED_MIME_TYPES : list string := ["image/jpeg"; "image/png"; "image/webp"].

(** ["." + filename.rsplit(".", 1)[-1] if "." in filename else ""] *)
Definition extension_of (filename : string) : string :=
  if contains "." filename then ("." +:+ List.last (split_char (Ascii.ascii_of_nat 46) filename) EmptyString)%string else EmptyString.

Definition _validate_profile_photo (file : UploadFile) : res unit :=
  let filename := lower (default EmptyString (uf_filename file)) in
  let content_type := lower (default EmptyString (uf_content_type file)) in
  let allowed := bool_decide (extension_of filename ∈ PROFILE_PHOTO_ALLOWED_EXTENSIONS)
    || bool_decide (content_type ∈ PROFILE_PHOTO_ALLOWED_MIME_TYPES)
    || (truthy (uf_guessed file) && bool_decide (default EmptyString (uf_guessed file) ∈ PROFILE_PHOTO_ALLOWED_MIME_TYPES)) in
  if negb allowed then bad_request "Unsupported profile photo type. Allowed formats: JPG, PNG, WEBP."
  else if 5 * 1024 * 1024 <? default 0 (uf_size file) then bad_request "Profile photo must be under 5MB."
  else Ok tt.

Definition VA_ROLE_OTHER_SENTINEL : string := "Other (Specify Your Role)".
Definition VA_ROLE_MAX_LEN : nat := 100.

Definition normalize_va_role_name (role : option string) : res string :=
  let role_name := strip (default EmptyString role) in
  if is_empty role_name then bad_request "Exactly one Virtual Assistant role is required per application."
  else if bool_decide (role_name = VA_ROLE_OTHER_SENTINEL) then bad_request "Please provide a specific role name instead of Other."
  else if contains "," role_name then bad_request "Role cannot contain commas."
  else if (VA_ROLE_MAX_LEN <? String.length role_name)%nat then bad_request "Role must be 100 characters or fewer."
  else Ok role_name.

(** ** virtual_assistant_service.py *)

Definition _integrity_error_message (orig : string) : string :=
  let orig := strip orig in
  let lowered := lower orig in
  if contains "phone_number" lowered && contains "not-null" lowered then "Phone number is required."
  else if contains "reference_number" lowered || contains "application_number" lowered
  then "Unable to allocate a unique application reference. Please try again."
  else if negb (is_empty orig) then orig
  else "Unable to save application. Please check your details and try again.".

Definition _is_reference_collision (orig : string) : bool :=
  let orig := lower orig in
  if contains "uq_virtual_assistant_applications_email" orig then false
  else if contains "email" orig && contains "unique" orig && contains "virtual_assistant_applications" orig then false
  else contains "reference_number" orig || contains "application_number" orig || contains "duplicate key" orig
       || contains "unique constraint" orig.

(** The controller's [roles.split(",")], trimmed. *)
Definition role_list (roles : string) : list string :=
  List.filter (fun r => negb (is_empty r)) (map strip (split_char (Ascii.ascii_of_nat 44) roles)).

(** The form as it arrives. *)
Record form := Form {
  i_full_name : string; i_email : string; i_phone_number : string; i_location : string;
  i_profile_photo : option UploadFile; i_resume_url : option string; i_bio : string; i_roles : list string;
  i_skills : string; i_years_of_experience : string; i_languages : string; i_linkedin_url : string;
  i_portfolio_url : string; i_availability : string; i_hours_per_week : string; i_expected_compensation : string;
  i_consents : bool * bool * bool; i_user_id : option string;
}.

Definition email_normalized (i : form) : string := lower (strip (i_email i)).

Definition ROLE_REQUIRED : exn := HTTPException "Exactly one Virtual Assistant role is required per application." 400.

(** The role the checks are about. *)
Definition checked_role (roles : list string) : res string :=
  match roles with
  | [r] => if is_empty (strip r) then Raise ROLE_REQUIRED else normalize_va_role_name (Some r)
  | _ => Raise ROLE_REQUIRED
  end.

Definition undecided (email role : string) (a : VirtualAssistantApplication) : bool :=
  bool_decide (va_email a = email) && bool_decide (va_roles a = role) && negb (va_is_deleted a)
  && bool_decide (va_overall_status a ∈ [Pending; Approved]).

Definition existing_application (email role : string) (d : va_db) : option VirtualAssistantApplication :=
  List.find (undecided email role) (values (va_apps d)).

(** The form's columns of the new row. *)
Definition _details (i : form) (key resume linkedin : string) : details :=
  let text s := strip_or_none (Some s) in
  Details (strip (i_full_name i)) (strip (i_phone_number i)) (text (i_location i)) (text (i_bio i)) (text (i_skills i))
    (text (i_years_of_experience i)) (text (i_languages i)) (text (i_portfolio_url i)) (text (i_availability i))
    (text (i_hours_per_week i)) (text (i_expected_compensation i)) resume linkedin key (i_consents i).

Definition _build_application (i : form) (c : details) (role_name reference : string) (number : Z) (id : string)
    : VirtualAssistantApplication :=
  Application id number reference (i_user_id i) (email_normalized i) role_name c Pending false.

(** The roles of the batch, each once. *)
Fixpoint unique_roles (seen roles : list string) : list string :=
  match roles with
  | [] => []
  | r :: roles' =>
      if negb (is_empty r) && negb (bool_decide (r ∈ seen)) then r :: unique_roles (r :: seen) roles'
      else unique_roles seen roles'
  end.

Definition duplicate_key (index : string) : exn :=
  IntegrityError ("duplicate key value violates unique constraint " +:+ index)%string.

(** The INSERT of an application: a 32-bit number, unique number and reference. *)
Definition insert_application (a : VirtualAssistantApplication) : VA unit :=
  do d <- gets (fun d => d);
  guard_exn ((- 2 ^ 31 <=? va_application_number a) && (va_application_number a <? 2 ^ 31))
    (SQLAlchemyError "integer out of range") ;;;
  guard_exn (bool_decide (va_apps d !! va_id a = None)) (duplicate_key "pk_virtual_assistant_applications") ;;;
  guard_exn (negb (existsb (fun b => va_application_number b =? va_application_number a) (values (va_apps d))))
    (duplicate_key "ix_virtual_assistant_applications_application_number") ;;;
  guard_exn (negb (existsb (fun b => bool_decide (va_reference_number b = va_reference_number a)) (values (va_apps d))))
    (duplicate_key "ix_virtual_assistant_applications_reference_number") ;;;
  modify (fun d => d <| va_apps ::= <[va_id a := a]> |>).

Definition insert_app_role (r : ApplicationRole) : VA unit :=
  do d <- gets (fun d => d);
  guard_exn (bool_decide (va_app_roles d !! ar_id r = None)) (duplicate_key "pk_virtual_assistant_application_roles") ;;;
  modify (fun d => d <| va_app_roles ::= <[ar_id r := r]> |>).

Definition insert_notification (n : VANotification) : VA unit :=
  do d <- gets (fun d => d);
  guard_exn (bool_decide (va_notes d !! vn_id n = None)) (duplicate_key "pk_va_notifications") ;;;
  modify (fun d => d <| va_notes ::= <[vn_id n := n]> |>).

(** One row and its role, committed. *)
Definition store_application (build : string -> VirtualAssistantApplication) (role_name : string)
    : VA VirtualAssistantApplication :=
  do id <- uuid4;
  insert_application (build id) ;;;
  do rid <- uuid4;
  insert_app_role (Role rid id role_name Pending) ;;;
  commit ;;;
  ret (build id).

(** [for insert_attempt in range(5)]; [last] is the text of the last conflict. *)
Fixpoint insert_attempts (attempts : nat) (last : string) (i : form) (c : details) (role_name : string)
    : VA VirtualAssistantApplication :=
  match attempts with
  | O => raise (HTTPException (_integrity_error_message last) 503)
  | S attempts' =>
      do (number, reference) <- allocate_application_numbers;
      do r <- catch (do a <- store_application (_build_application i c role_name reference number) role_name; ret (inl a))
        (fun e => match e with
         | IntegrityError orig =>
             rollback ;;;
             guard_exn (_is_reference_collision orig) (HTTPException (_integrity_error_message orig) 400) ;;;
             ret (inr orig)
         | _ => raise e
         end);
      match r with
      | inl a => ret a
      | inr orig => insert_attempts attempts' orig i c role_name
      end
  end.

Definition INSERT_ATTEMPTS : nat := 5.

Fixpoint insert_roles (i : form) (c : details) (roles : list string) : VA (list VirtualAssistantApplication) :=
  match roles with
  | [] => ret []
  | r :: roles' =>
      do a <- insert_attempts INSERT_ATTEMPTS "None" i c r;
      do rows <- insert_roles i c roles';
      ret (a :: rows)
  end.

Definition submitted_note (user : string) (a : VirtualAssistantApplication) (id : string) : VANotification :=
  Notification id user (va_id a) "application_submitted" "Application Submitted"
    ("Your application (" +:+ va_reference_number a +:+ ") for " +:+ va_roles a +:+ " has been submitted successfully.")%string.

(** The notes of a signed-in applicant; their failure is only logged. *)
Definition notify_applicant (user : option string) (rows : list VirtualAssistantApplication) : VA unit :=
  match user with
  | None => ret tt
  | Some u =>
      when (negb (is_empty u))
        (catch (for_each rows (fun a => do id <- uuid4; insert_notification (submitted_note u a id)) ;;; commit)
          (fun _ => rollback))
  end.

Record answer := Answer { an_reference_number : string; an_email : string; an_new_roles : list string; an_reference_numbers : list string }.

Definition answer_of (primary : VirtualAssistantApplication) (rows : list VirtualAssistantApplication) : answer :=
  Answer (va_reference_number primary) (va_email primary) (map va_roles rows) (map va_reference_number rows).

Definition send_mails (mail_configured : bool) (inbox : string) (primary : VirtualAssistantApplication)
    (rows : list VirtualAssistantApplication) : VA unit :=
  when mail_configured
    (emit (ConfirmationMail (va_email primary) (va_reference_number primary)) ;;;
     when (negb (is_empty inbox)) (for_each rows (fun a => emit (SupportMail inbox (va_reference_number a))))).

(** The photo is stored before the links are checked. *)
Definition stored_photo (upload : UploadFile -> res string) (photo : option UploadFile) : VA string :=
  match photo with
  | None => raise (HTTPException "Profile photo is required and could not be stored." 400)
  | Some file =>
      lift_res (_validate_profile_photo file) ;;;
      do key <- lift_res (upload file);
      emit (PhotoStored key) ;;;
      guard_exn (negb (is_empty key)) (HTTPException "Profile photo is required and could not be stored." 400) ;;;
      ret key
  end.

(** [upload] is the object storage, [mail_configured] and [inbox] the settings of
    the mails. *)
Definition submit_application (upload : UploadFile -> res string) (mail_configured : bool) (inbox : string) (i : form)
    : VA answer :=
  do role_name <- lift_res (checked_role (i_roles i));
  do found <- gets (existing_application (email_normalized i) role_name);
  match found with
  | Some a =>
      raise (HTTPException ("You already have a " +:+ status_text (va_overall_status a) +:+ " application for "
        +:+ role_name +:+ ".")%string 409)
  | None =>
      do key <- stored_photo upload (i_profile_photo i);
      do resume <- lift_res (validate_resume_link (i_resume_url i));
      do linkedin <- lift_res (validate_linkedin_profile_url (Some (i_linkedin_url i)));
      do rows <- insert_roles i (_details i key resume linkedin) (unique_roles [] (i_roles i));
      match rows with
      | [] => raise (HTTPException "At least one Virtual Assistant role is required." 400)
      | primary :: _ =>
          notify_applicant (va_user_id primary) rows ;;;
          send_mails mail_configured inbox primary rows ;;;
          ret (answer_of primary rows)
      end
  end.

(** ** Numbers *)

Implicit Types (d : va_db) (n : Z).

Lemma parse_format_reference n :
  0 <= n -> parse_application_number_from_reference (Some (format_reference_number n)) = Some n.
Proof.
  intros Hn. unfold parse_application_number_from_reference, format_reference_number.
  assert (all_chars is_digit (zero_padded 6 n) = true) as Hd by (by apply zero_padded_digits).
  assert (is_empty (zero_padded 6 n) = false) as He by (by apply bool_decide_eq_false, zero_padded_nonempty).
  assert (all_chars plain (VA_REFERENCE_PREFIX +:+ zero_padded 6 n)%string = true) as Hp.
  { cbn. exact (all_chars_mono _ _ _ digit_plain Hd). }
  cbn [default truthy negb from_option id]. rewrite strip_plain, upper_plain by done.
  cbn [id]. rewrite after_app, He, Hd. cbn [negb andb]. by rewrite zero_padded_value.
Qed.

Lemma format_reference_inj n m :
  0 <= n -> 0 <= m -> format_reference_number n = format_reference_number m -> n = m.
Proof.
  intros Hn Hm H. apply (f_equal (fun r => parse_application_number_from_reference (Some r))) in H.
  rewrite !parse_format_reference in H by done. congruence.
Qed.

(** What the component keeps true of its tables. *)
Record va_ok d : Prop := {
  vo_sequence : 1 <= va_last_value d <= SEQUENCE_MAX;
  vo_keyed : forall k a, va_apps d !! k = Some a -> va_id a = k /\ 0 <= va_application_number a;
  vo_unique : forall k k' a a', va_apps d !! k = Some a -> va_apps d !! k' = Some a' ->
    va_application_number a = va_application_number a' \/ va_reference_number a = va_reference_number a' -> k = k';
}.

Definition is_foreign (a : VirtualAssistantApplication) : bool :=
  negb (bool_decide (va_reference_number a = format_reference_number (va_application_number a))).

(** The applications whose reference is not the one of their number. *)
Definition foreign d : list VirtualAssistantApplication := select_where is_foreign (values (va_apps d)).

(** The last number that is taken before an allocation. *)
Definition last_number d : Z := Z.max (max_number d) (va_last_value d).

(** The sequence after [n] was given out. *)
Definition counted n d : va_db := d <| va_last_value := n |> <| va_is_called := true |>.

Lemma max_of_le l x : x ∈ l -> x <= default 0 (max_of l).
Proof.
  destruct l as [|y l]; [set_solver|]. cbn. intros Hx.
  assert (y <= foldr Z.max y l /\ forall z, z ∈ l -> z <= foldr Z.max y l) as [H1 H2].
  { clear Hx. induction l as [|z l [IH1 IH2]]; [split; [done|set_solver]|]. cbn. split; [lia|].
    intros t [->|Ht%IH2]%elem_of_cons; lia. }
  apply elem_of_cons in Hx as [->|Hx]; auto.
Qed.

Lemma max_of_lub l m : 0 <= m -> (forall x, x ∈ l -> x <= m) -> default 0 (max_of l) <= m.
Proof.
  intros Hm. destruct l as [|y l]; [done|]. cbn. intros H.
  pose proof (H y (list_elem_of_here _ _)). assert (forall x, x ∈ l -> x <= m) as Hl by (intros x Hx; apply H; by right).
  clear H. induction l as [|z l IH]; cbn; [done|]. apply Z.max_lub; [apply Hl; by left|]. apply IH. intros x Hx. apply Hl. by right.
Qed.

Lemma max_number_le d k a : va_apps d !! k = Some a -> va_application_number a <= max_number d.
Proof.
  intros Ha. apply max_of_le, list_elem_of_In, in_map, list_elem_of_In, elem_of_values. by exists k.
Qed.

Lemma number_in_use_true n d :
  number_in_use n d = true <->
  exists k a, va_apps d !! k = Some a /\ (va_reference_number a = format_reference_number n \/ va_application_number a = n).
Proof.
  unfold number_in_use. rewrite existsb_exists. split.
  - intros (a & [k Hk]%list_elem_of_In%elem_of_values & [H%bool_decide_eq_true|H%Z.eqb_eq]%orb_true_iff); eauto.
  - intros (k & a & Hk & H). exists a. split; [apply list_elem_of_In, elem_of_values; eauto|].
    rewrite orb_true_iff, bool_decide_eq_true, Z.eqb_eq. exact H.
Qed.

(** Beyond all numbers only a foreign reference can be in the way. *)
Lemma in_use_foreign n d :
  va_ok d -> max_number d < n -> number_in_use n d = true ->
  format_reference_number n ∈ map va_reference_number (foreign d).
Proof.
  intros Hd Hn (k & a & Ha & H)%number_in_use_true. pose proof (max_number_le _ _ _ Ha) as Hle.
  destruct (vo_keyed d Hd k a Ha) as [_ Hnn]. destruct H as [H|H]; [|lia].
  apply list_elem_of_In, in_map_iff. exists a. split; [done|]. apply list_elem_of_In, elem_of_select_where. split.
  2: { apply elem_of_values. by exists k. }
  unfold is_foreign. apply negb_true_iff, bool_decide_eq_false. rewrite H. intros Heq%format_reference_inj; lia.
Qed.

(** [j] numbers in a row that are in use make [j] foreign references. *)
Lemma run_in_use m j d :
  va_ok d -> max_number d <= m -> 0 <= m ->
  (forall i, (i < j)%nat -> number_in_use (m + 1 + Z.of_nat i) d = true) -> (j <= length (foreign d))%nat.
Proof.
  intros Hd Hm Hm0 Hj.
  set (refs := map (fun i => format_reference_number (m + 1 + Z.of_nat i)) (seq 0 j)).
  assert (NoDup refs) as Hnd.
  { apply NoDup_fmap_2_strong; [|apply NoDup_seq]. intros i i' _ _ H%format_reference_inj; lia. }
  assert (refs ⊆ map va_reference_number (foreign d)) as Hsub.
  { intros r (i & <- & Hi%in_seq)%list_elem_of_In%in_map_iff. apply in_use_foreign; [done|lia|]. apply Hj. lia. }
  pose proof (submseteq_length _ _ (NoDup_submseteq _ _ Hnd Hsub)) as H.
  unfold refs in H. by rewrite !length_map, length_seq in H.
Qed.

(** ** Allocation *)

Abbreviation Session := (session va_db va_effect).

(** [s] after the sequence has given out [n]. *)
Definition seq_moved n (s : Session) : Session :=
  Prelude.Session (counted n (s_committed s)) (counted n (s_db s)) (s_out s) (s_clock s) (s_ids s).

Lemma nextval_run m (s : Session) : m < SEQUENCE_MAX -> nextval (seq_moved m s) = (Ok (m + 1), seq_moved (m + 1) s).
Proof. intros Hm. unfold nextval, bind, gets, guard_exn. cbn. by rewrite (proj2 (Z.ltb_lt _ _) Hm). Qed.

Lemma number_in_use_counted n m d : number_in_use n (counted m d) = number_in_use n d.
Proof. done. Qed.

(** Either the first unused number of those tried is given out, or all are used. *)
Lemma attempt_numbers_run j : forall m (s : Session), m + Z.of_nat j <= SEQUENCE_MAX ->
  (exists i, (i < j)%nat /\ (forall i', (i' < i)%nat -> number_in_use (m + 1 + Z.of_nat i') (s_db s) = true) /\
     let n := m + 1 + Z.of_nat i in
     number_in_use n (s_db s) = false /\
     attempt_numbers j (seq_moved m s) = (Ok (n, format_reference_number n), seq_moved n s)) \/
  ((forall i, (i < j)%nat -> number_in_use (m + 1 + Z.of_nat i) (s_db s) = true) /\
   attempt_numbers j (seq_moved m s) = (Raise NO_NUMBER, seq_moved (m + Z.of_nat j) s)).
Proof.
  induction j as [|j IH]; intros m s Hj.
  { right. split; [lia|]. by replace (m + Z.of_nat 0) with m by lia. }
  cbn [attempt_numbers]. unfold bind at 1 3. rewrite nextval_run by lia. unfold bind, gets. cbn [s_db seq_moved].
  rewrite number_in_use_counted. destruct (number_in_use (m + 1) (s_db s)) eqn:Hu; cbn [negb].
  - assert (forall i, (forall i', (i' < i)%nat -> number_in_use (m + 1 + 1 + Z.of_nat i') (s_db s) = true) ->
      forall i', (i' < S i)%nat -> number_in_use (m + 1 + Z.of_nat i') (s_db s) = true) as Hshift.
    { intros i Hi [|i'] H'; [by replace (m + 1 + Z.of_nat 0) with (m + 1) by lia|].
      replace (m + 1 + Z.of_nat (S i')) with (m + 1 + 1 + Z.of_nat i') by lia. apply Hi. lia. }
    destruct (IH (m + 1) s) as [(i & Hi & Hall & Hn & Hrun)|[Hall Hrun]]; [lia|left|right].
    + exists (S i). split; [lia|]. split; [by apply Hshift|].
      replace (m + 1 + Z.of_nat (S i)) with (m + 1 + 1 + Z.of_nat i) by lia. by split.
    + split; [by apply Hshift|]. rewrite Hrun. do 2 f_equal. lia.
  - left. exists 0%nat. split; [lia|]. split; [lia|]. replace (m + 1 + Z.of_nat 0) with (m + 1) by lia. by split.
Qed.

Lemma sync_run (s : Session) :
  1 <= last_number (s_db s) <= SEQUENCE_MAX -> _sync_sequence s = (Ok tt, seq_moved (last_number (s_db s)) s).
Proof.
  unfold last_number. intros [H1 H2]. unfold _sync_sequence, setval, bind, gets, guard_exn.
  by rewrite (proj2 (Z.leb_le _ _) H1), (proj2 (Z.leb_le _ _) H2).
Qed.

Lemma allocation_cases (s : Session) :
  va_ok (s_db s) -> last_number (s_db s) + Z.of_nat ALLOCATION_ATTEMPTS <= SEQUENCE_MAX ->
  (exists n, last_number (s_db s) < n <= last_number (s_db s) + 1 + Z.of_nat (length (foreign (s_db s))) /\
     number_in_use n (s_db s) = false /\
     (forall n', last_number (s_db s) < n' < n -> number_in_use n' (s_db s) = true) /\
     allocate_application_numbers s = (Ok (n, format_reference_number n), seq_moved n s)) \/
  (ALLOCATION_ATTEMPTS <= length (foreign (s_db s)))%nat /\ (allocate_application_numbers s).1 = Raise NO_NUMBER.
Proof.
  set (d := s_db s). intros Hd Hmax. pose proof (vo_sequence d Hd) as Hseq.
  assert (1 <= last_number d) as H1 by (unfold last_number; lia).
  assert (max_number d <= last_number d) as Hle by (unfold last_number; lia).
  assert (allocate_application_numbers s = attempt_numbers ALLOCATION_ATTEMPTS (seq_moved (last_number d) s)) as ->.
  { unfold allocate_application_numbers, bind. rewrite sync_run; [done|]. fold d. lia. }
  destruct (attempt_numbers_run ALLOCATION_ATTEMPTS (last_number d) s Hmax) as [(i & Hi & Hall & Hn & Hrun)|[Hall Hrun]].
  - pose proof (run_in_use (last_number d) i d Hd Hle ltac:(lia) Hall).
    left. exists (last_number d + 1 + Z.of_nat i). split_and!; [lia|lia|exact Hn| |exact Hrun].
    intros n' Hn'. specialize (Hall (Z.to_nat (n' - last_number d - 1)) ltac:(lia)). rewrite Z2Nat.id in Hall by lia.
    by replace (last_number d + 1 + (n' - last_number d - 1)) with n' in Hall by lia.
  - right. split; [|by rewrite Hrun]. apply (run_in_use (last_number d)); [exact Hd|exact Hle|lia|exact Hall].
Qed.

(** C36. The loop of 20 attempts gives out the first number beyond all earlier
    ones that no application uses, with a reference that reads back as it, and
    advances the sequence to it; it only gives up when at least 20 applications
    carry a reference that is not the one of their number. *)
Theorem allocation_ends (s : Session) :
  let d := s_db s in
  va_ok d -> last_number d + Z.of_nat ALLOCATION_ATTEMPTS <= SEQUENCE_MAX ->
  match (allocate_application_numbers s).1 with
  | Ok (n, reference) =>
      last_number d < n <= last_number d + 1 + Z.of_nat (length (foreign d)) /\
      number_in_use n d = false /\ (forall n', last_number d < n' < n -> number_in_use n' d = true) /\
      parse_application_number_from_reference (Some reference) = Some n /\
      (allocate_application_numbers s).2 = seq_moved n s
  | Raise e => e = NO_NUMBER /\ (ALLOCATION_ATTEMPTS <= length (foreign d))%nat
  end.
Proof.
  intros d Hd Hmax. destruct (allocation_cases s Hd Hmax) as [(n & Hn & Hu & Hall & ->)|[Hf ->]]; [|by split].
  pose proof (vo_sequence d Hd). assert (va_last_value d <= last_number d) by (unfold last_number; lia). fold d in Hn.
  split_and!; [lia|lia|exact Hu|exact Hall|apply parse_format_reference; lia|done].
Qed.

(** ** Submission *)

Lemma existsb_numbers n d :
  number_in_use n d = false ->
  existsb (fun b => va_application_number b =? n) (values (va_apps d)) = false /\
  existsb (fun b => bool_decide (va_reference_number b = format_reference_number n)) (values (va_apps d)) = false.
Proof.
  unfold number_in_use. induction (values (va_apps d)) as [|a l IH]; [done|]. cbn.
  intros [[H1 H2]%orb_false_iff H%IH]%orb_false_iff. by rewrite H1, H2.
Qed.

(** The tables with the new row and its role. *)
Definition submitted (a : VirtualAssistantApplication) (rid : string) d : va_db :=
  d <| va_apps ::= <[va_id a := a]> |> <| va_app_roles ::= <[rid := Role rid (va_id a) (va_roles a) Pending]> |>.

Lemma store_run i c role n (s : Session) :
  number_in_use n (s_db s) = false -> 0 <= n < 2 ^ 31 ->
  va_apps (s_db s) !! s_ids s 0%nat = None -> va_app_roles (s_db s) !! s_ids s 1%nat = None ->
  let a := _build_application i c role (format_reference_number n) n (s_ids s 0%nat) in
  let d' := submitted a (s_ids s 1%nat) (s_db s) in
  store_application (_build_application i c role (format_reference_number n) n) role s
  = (Ok a, Prelude.Session d' d' (s_out s) (s_clock s) (fun k => s_ids s (S (S k)))).
Proof.
  intros [H1 H2]%existsb_numbers Hn Hid Hrid. unfold store_application, insert_application, insert_app_role, bind, gets, uuid4.
  cbn [s_db s_ids va_application_number va_id va_reference_number _build_application guard_exn].
  assert ((- 2 ^ 31 <=? n) && (n <? 2 ^ 31) = true) as -> by (apply andb_true_iff; lia).
  unfold guard_exn. rewrite H1, H2, Hid, (bool_decide_eq_true_2 (None = None)) by done. cbn.
  rewrite Hrid, (bool_decide_eq_true_2 (None = None)) by done. done.
Qed.

Lemma insert_run i c role (s : Session) :
  va_ok (s_db s) -> (length (foreign (s_db s)) < ALLOCATION_ATTEMPTS)%nat -> last_number (s_db s) + 21 < 2 ^ 31 ->
  (forall k, va_apps (s_db s) !! s_ids s k = None /\ va_app_roles (s_db s) !! s_ids s k = None) ->
  exists n, last_number (s_db s) < n <= last_number (s_db s) + 1 + Z.of_nat (length (foreign (s_db s))) /\
    number_in_use n (s_db s) = false /\
    let a := _build_application i c role (format_reference_number n) n (s_ids s 0%nat) in
    let d' := submitted a (s_ids s 1%nat) (counted n (s_db s)) in
    insert_attempts INSERT_ATTEMPTS "None" i c role s
    = (Ok a, Prelude.Session d' d' (s_out s) (s_clock s) (fun k => s_ids s (S (S k)))).
Proof.
  intros Hd Hf Hb Hids. pose proof (vo_sequence _ Hd) as Hseq.
  assert (1 <= last_number (s_db s)) as H1 by (unfold last_number; lia).
  destruct (allocation_cases s Hd) as [(n & Hn & Hu & _ & Hrun)|[Hmany _]];
    [unfold SEQUENCE_MAX, ALLOCATION_ATTEMPTS; lia| |lia].
  exists n. split; [exact Hn|]. split; [exact Hu|]. unfold INSERT_ATTEMPTS. cbn [insert_attempts].
  unfold bind at 1. rewrite Hrun. unfold bind at 1, catch at 1, bind at 1.
  rewrite store_run; [done|exact Hu|unfold ALLOCATION_ATTEMPTS in *; lia|apply (Hids 0%nat)|apply (Hids 1%nat)].
Qed.

Lemma values_insert k a d :
  va_apps d !! k = None -> values (<[k := a]> (va_apps d)) ≡ₚ a :: values (va_apps d).
Proof. intros Hk. unfold values. by rewrite map_to_list_insert. Qed.

Lemma foreign_submitted a rid n d :
  va_apps d !! va_id a = None -> is_foreign a = false ->
  length (foreign (submitted a rid (counted n d))) = length (foreign d).
Proof.
  intros Ha Hown. unfold foreign, submitted, counted. cbn.
  unfold select_where. rewrite (values_insert _ a d Ha), filter_cons_False; [done|]. by rewrite Hown.
Qed.

Lemma submitted_ok a rid d :
  let n := va_application_number a in
  va_ok d -> last_number d < n <= SEQUENCE_MAX -> number_in_use n d = false ->
  va_reference_number a = format_reference_number n -> va_apps d !! va_id a = None ->
  va_ok (submitted a rid (counted n d)).
Proof.
  intros n [Hs Hk Hu] Hn Hfree Href Hid.
  assert (1 <= n) as Hn0 by (unfold last_number in Hn; lia).
  assert (forall k b, va_apps d !! k = Some b -> va_application_number b <> n /\ va_reference_number b <> format_reference_number n) as Hnew.
  { intros k b Hb. split; intros He; (enough (number_in_use n d = true) by congruence); apply number_in_use_true; eauto. }
  split; cbn; fold n.
  - lia.
  - intros k b [[<- <-]|[_ Hb]]%lookup_insert_Some; [fold n; split; [done|lia]|by apply Hk].
  - intros k k' b b' [[<- <-]|[_ Hb]]%lookup_insert_Some [[<- <-]|[_ Hb']]%lookup_insert_Some.
    + done.
    + destruct (Hnew _ _ Hb'). fold n. rewrite ?Href. intros [He|He]; congruence.
    + destruct (Hnew _ _ Hb). fold n. rewrite ?Href. intros [He|He]; congruence.
    + by apply Hu.
Qed.

Lemma last_submitted a rid d :
  va_ok (submitted a rid (counted (va_application_number a) d)) -> last_number d < va_application_number a ->
  last_number (submitted a rid (counted (va_application_number a) d)) = va_application_number a.
Proof.
  intros [Hs _ _] Hn. unfold last_number in *. cbn in *. apply Z.max_r, max_of_lub; [lia|].
  intros x (b & <- & [k Hb]%list_elem_of_In%elem_of_values)%list_elem_of_In%in_map_iff. cbn in Hb.
  apply lookup_insert_Some in Hb as [[_ <-]|[_ Hb]]; [done|]. pose proof (max_number_le _ _ _ Hb). lia.
Qed.

(** The tables the mails and the notes leave alone. *)
Definition core d := (va_apps d, va_app_roles d, va_last_value d, va_is_called d).

Lemma notify_runs user rows : never_raises (notify_applicant user rows) /\ keeps core (notify_applicant user rows).
Proof.
  unfold notify_applicant, insert_notification. split.
  - destruct user as [u|]; [|done]. intros s. destruct (is_empty u); [done|].
    apply never_raises_catch. by intros e s'.
  - keeps.
Qed.

Lemma mails_run mail inbox primary rows :
  never_raises (send_mails mail inbox primary rows) /\ keeps core (send_mails mail inbox primary rows).
Proof.
  split; [|unfold send_mails; keeps]. intros s. unfold send_mails. destruct mail; [|done].
  destruct (is_empty inbox); [done|]. cbn. unfold bind. cbn.
  match goal with |- is_ok (for_each _ _ ?s0).1 = true => generalize s0 end.
  induction rows as [|a rows IH]; [done|]. intros s'. apply IH.
Qed.

Lemma run_request_core {A} clock ids (m : VA A) d (b : A) K :
  (exists s', m (open_session clock ids d) = (Ok b, s') /\ good (fun d' => core d' = K) s') ->
  (run_request clock ids m d).1 = Ok b /\ core (run_request clock ids m d).2 = K.
Proof. intros (s' & H & Hc & _). unfold run_request. by rewrite H. Qed.

Lemma existing_submitted email a rid n d :
  va_apps d !! va_id a = None -> undecided email (va_roles a) a = true ->
  is_Some (existing_application email (va_roles a) (submitted a rid (counted n d))).
Proof.
  intros Ha Hu. unfold existing_application. destruct (List.find _ _) eqn:Hf; [by eexists|]. exfalso.
  pose proof (find_none _ _ Hf a) as Hn. rewrite Hu in Hn. enough (true = false) by done. apply Hn.
  apply list_elem_of_In, elem_of_values. exists (va_id a).
  cbn. by rewrite lookup_insert_eq.
Qed.

Section Submission.
Context (upload : UploadFile -> res string) (mail_configured : bool) (inbox : string).
Context (clock : nat -> Z) (ids : nat -> string) (i : form) (d : va_db).
Context (role key resume linkedin : string) (file : UploadFile).

(** A form that passes every check. *)
Record form_ok : Prop := {
  fo_roles : i_roles i = [role] /\ checked_role [role] = Ok role;
  fo_photo : i_profile_photo i = Some file /\ _validate_profile_photo file = Ok tt;
  fo_stored : upload file = Ok key /\ key <> EmptyString;
  fo_links : validate_resume_link (i_resume_url i) = Ok resume /\
    validate_linkedin_profile_url (Some (i_linkedin_url i)) = Ok linkedin;
}.

Lemma insert_one c (s : Session) a s' :
  insert_attempts INSERT_ATTEMPTS "None" i c role s = (Ok a, s') ->
  insert_roles i c (unique_roles [] [role]) s = (if is_empty role then (Ok [], s) else (Ok [a], s')).
Proof.
  intros H. cbn [unique_roles]. destruct (is_empty role); [done|]. cbn [negb andb].
  rewrite bool_decide_eq_false_2 by set_solver. cbn [negb insert_roles unique_roles]. unfold bind. by rewrite H.
Qed.

Lemma checked_role_nonempty : checked_role [role] = Ok role -> is_empty role = false.
Proof.
  unfold checked_role, normalize_va_role_name. change (default EmptyString (Some role)) with role.
  destruct (is_empty (strip role)) eqn:He; [done|].
  repeat (match goal with |- (if ?b then _ else _) = _ -> _ => destruct b end; [done|]).
  intros [= H]. by rewrite H in He.
Qed.

(** A submission that is not refused comes down to its row, notes and mails. *)
Lemma submission_run :
  va_ok d -> (length (foreign d) < ALLOCATION_ATTEMPTS)%nat -> last_number d + 21 < 2 ^ 31 ->
  (forall k, va_apps d !! ids k = None /\ va_app_roles d !! ids k = None) ->
  form_ok -> existing_application (email_normalized i) role d = None ->
  exists n, last_number d < n <= last_number d + 1 + Z.of_nat (length (foreign d)) /\ number_in_use n d = false /\
    let a := _build_application i (_details i key resume linkedin) role (format_reference_number n) n (ids 0%nat) in
    let d' := submitted a (ids 1%nat) (counted n d) in
    submit_application upload mail_configured inbox i (open_session clock ids d)
    = (notify_applicant (i_user_id i) [a] ;;; send_mails mail_configured inbox a [a] ;;; ret (answer_of a [a]))
        (Prelude.Session d' d' [PhotoStored key] clock (fun k => ids (S (S k)))).
Proof.
  intros Hd Hf Hb Hids [[Hroles Hrole] [Hphoto Hvalid] [Hup Hkey] [Hres Hlink]] Hex.
  set (s1 := Prelude.Session d d [PhotoStored key] clock ids : Session).
  destruct (insert_run i (_details i key resume linkedin) role s1 Hd Hf Hb Hids) as (n & Hn & Hu & Hrun).
  exists n. split; [exact Hn|]. split; [exact Hu|]. cbn zeta in *. apply insert_one in Hrun.
  rewrite (checked_role_nonempty Hrole) in Hrun.
  unfold submit_application, stored_photo. rewrite Hroles, Hrole, Hphoto, Hres, Hlink, Hvalid, Hup.
  unfold bind at 1 2 3, lift_res at 1, gets, open_session. cbn [s_db]. rewrite Hex.
  unfold bind at 1 2 3 4 5, lift_res, emit, guard_exn. unfold is_empty at 1. rewrite (bool_decide_eq_false_2 (key = EmptyString)) by done. cbn [negb].
  unfold ret at 1, bind at 1 2 3. cbn [s_committed s_db s_out s_clock s_ids]. fold s1. unfold ret at 1. rewrite Hrun. reflexivity.
Qed.

(** An applicant whose form passes the checks is refused while an application
    of his for the role waits or is approved; otherwise the request succeeds,
    whatever becomes of the mails: one application is stored under the first
    free number with the reference of that number, with its role, and from then
    on the same applicant and role are refused.  Fewer than 20 references that
    do not belong to their number are enough for that, and no new one comes. *)
Theorem submission_accepted :
  va_ok d -> (length (foreign d) < ALLOCATION_ATTEMPTS)%nat -> last_number d + 21 < 2 ^ 31 ->
  (forall k, va_apps d !! ids k = None /\ va_app_roles d !! ids k = None) ->
  form_ok ->
  let r := run_request clock ids (submit_application upload mail_configured inbox i) d in
  match existing_application (email_normalized i) role d with
  | Some a => (exists text, r.1 = Raise (HTTPException text 409)) /\ r.2 = d
  | None =>
      exists n, last_number d < n <= last_number d + 1 + Z.of_nat (length (foreign d)) /\
        number_in_use n d = false /\
        let reference := format_reference_number n in
        let a := _build_application i (_details i key resume linkedin) role reference n (ids 0%nat) in
        r.1 = Ok (Answer reference (email_normalized i) [role] [reference]) /\
        va_apps r.2 = <[ids 0%nat := a]> (va_apps d) /\
        va_app_roles r.2 = <[ids 1%nat := Role (ids 1%nat) (ids 0%nat) role Pending]> (va_app_roles d) /\
        va_ok r.2 /\ last_number r.2 = n /\ length (foreign r.2) = length (foreign d) /\
        is_Some (existing_application (email_normalized i) role r.2)
  end.
Proof.
  intros Hd Hf Hb Hids Hform. cbn zeta.
  destruct (existing_application (email_normalized i) role d) as [a|] eqn:Hex.
  { destruct Hform as [[Hroles Hrole] _ _ _]. unfold submit_application. rewrite Hroles, Hrole.
    unfold run_request, bind, lift_res, gets, open_session. cbn [s_db]. rewrite Hex. cbn. split; [by eexists|done]. }
  destruct (submission_run Hd Hf Hb Hids Hform Hex) as (n & Hn & Hu & Hrun). exists n. split; [exact Hn|]. split; [exact Hu|].
  cbn zeta in *. set (a := _build_application _ _ _ _ _ _) in *. set (d' := submitted _ _ _) in *.
  destruct (notify_runs (i_user_id i) [a]) as [Hn1 Hk1]. destruct (mails_run mail_configured inbox a [a]) as [Hn2 Hk2].
  destruct (run_request_core clock ids (submit_application upload mail_configured inbox i) d (answer_of a [a]) (core d'))
    as [Hok Hcore].
  { rewrite Hrun. apply run_follow; [done..|by split|]. intros _ s1 Hs1.
    apply run_follow; [done..|]. intros _ s2 Hs2. by exists s2. }
  destruct (run_request _ _ _ _) as [r dr]. cbn [fst snd] in *. injection Hcore as H1 H2 H3 H4.
  assert (va_apps d !! va_id a = None) as Hfresh by apply (Hids 0%nat).
  assert (n <= SEQUENCE_MAX) as Hmax by (unfold SEQUENCE_MAX, ALLOCATION_ATTEMPTS in *; lia).
  pose proof (submitted_ok a (ids 1%nat) d Hd (conj (proj1 Hn) Hmax) Hu eq_refl Hfresh) as Hd'.
  assert (va_ok dr) as Hdr.
  { destruct Hd' as [Hs Hk Hq]. split; [by rewrite H3|rewrite H1; exact Hk|rewrite H1; exact Hq]. }
  assert (is_foreign a = false) as Hown by (unfold is_foreign; by rewrite bool_decide_eq_true_2).
  split_and!; [by rewrite Hok|by rewrite H1|by rewrite H2|exact Hdr|..].
  - pose proof (last_submitted a (ids 1%nat) d Hd' (proj1 Hn)) as Hl.
    unfold last_number, max_number in *. rewrite H1, H3. exact Hl.
  - unfold foreign. rewrite H1. exact (foreign_submitted a (ids 1%nat) n d Hfresh Hown).
  - unfold existing_application. rewrite H1. apply (existing_submitted (email_normalized i) a (ids 1%nat) n d Hfresh).
    unfold undecided. cbn. by rewrite !bool_decide_eq_true_2 by set_solver.
Qed.
End Submission.

(** ** Cases *)

Module Desk.

Definition no_text : details :=
  Details "Ravi" "" None None None None None None None None None "https://cv.in/r" "https://linkedin.com/in/ravi" "k" (true, true, true).

(** An imported application carries the reference of the number after its own. *)
Definition imported : VirtualAssistantApplication :=
  Application "a1" 4 "CB-VA-000005" None "ravi@mail.in" "Tutor" no_text Approved false.

Definition db : va_db := VaDb {["a1"%string := imported]} ∅ ∅ 4 true.

Definition clock (k : nat) : Z := Z.of_nat k.
Definition ids (k : nat) : string := ("id" +:+ pretty (Z.of_nat k))%string.

Definition photo : UploadFile := Upload (Some "me.PNG"%string) None (Some 70000) None.
Definition stored (f : UploadFile) : res string := Ok "virtual-assistants/profile-photos/me.png"%string.

Definition asha : form :=
  Form " Asha " "Asha@Mail.in" "" "" (Some photo) (Some "https://drive.google.com/cv"%string) "" (role_list " Bookkeeper ") "" "" ""
    "www.linkedin.com/in/asha-k/" "" "" "" "" (true, true, true) None.

Lemma desk_ok : va_ok db.
Proof.
  split; [done|..]; cbn.
  - intros k a [<- <-]%lookup_singleton_Some. done.
  - intros k k' a a' [<- _]%lookup_singleton_Some [<- _]%lookup_singleton_Some. done.
Qed.

Lemma ids_new k : va_apps db !! ids k = None /\ va_app_roles db !! ids k = None.
Proof. split; [|done]. by apply lookup_singleton_None. Qed.

Lemma asha_ok :
  form_ok stored asha "Bookkeeper" "virtual-assistants/profile-photos/me.png" "https://drive.google.com/cv"
    "https://www.linkedin.com/in/asha-k/" photo.
Proof. split; split; done. Qed.

End Desk.

Lemma allocation_ends_witness :
  (allocate_application_numbers (open_session Desk.clock Desk.ids Desk.db)).1 = Ok (6, "CB-VA-000006"%string) /\
  number_in_use 5 Desk.db = true.
Proof.
  pose proof (allocation_ends (open_session Desk.clock Desk.ids Desk.db) Desk.desk_ok) as H.
  assert ((allocate_application_numbers (open_session Desk.clock Desk.ids Desk.db)).1 = Ok (6, "CB-VA-000006"%string)) as Hrun
    by (vm_compute; reflexivity).
  rewrite Hrun in H. split; [exact Hrun|]. destruct H as (_ & _ & Hall & _); [vm_compute; discriminate|].
  apply Hall. vm_compute. split; reflexivity.
Defined.

Lemma submission_accepted_witness :
  (run_request Desk.clock Desk.ids (submit_application Desk.stored true "help@mail.in" Desk.asha) Desk.db).1
    = Ok (Answer "CB-VA-000006" "asha@mail.in" ["Bookkeeper"%string] ["CB-VA-000006"%string]) /\
  va_ok (run_request Desk.clock Desk.ids (submit_application Desk.stored true "help@mail.in" Desk.asha) Desk.db).2.
Proof.
  pose proof (submission_accepted Desk.stored true "help@mail.in" Desk.clock Desk.ids Desk.asha Desk.db "Bookkeeper"
    _ _ _ Desk.photo Desk.desk_ok ltac:(vm_compute; lia) ltac:(vm_compute; reflexivity) Desk.ids_new Desk.asha_ok) as H.
  split; [vm_compute; reflexivity|].
  assert (existing_application (email_normalized Desk.asha) "Bookkeeper" Desk.db = None) as Hex by (vm_compute; reflexivity).
  rewrite Hex in H. destruct H as (n & _ & _ & _ & _ & _ & Hok & _). exact Hok.
Defined.

(** The first number a new sequence gives out is 2: setval marks its start as used. *)
Lemma first_number_is_two clock ids :
  (allocate_application_numbers (open_session clock ids (VaDb ∅ ∅ ∅ 1 false))).1 = Ok (2, "CB-VA-000002"%string).
Proof. reflexivity. Qed.
