(* ===== verification/SignIn.v ===== *)
(** * Sessions and passwords

    The sign-in sessions of app/service/auth/auth_service.py with
    app/repository/refresh_token_repository.py,
    password_reset_token_repository.py, app/core/security.py and the check of the
    access token in app/core/dependencies.py.  A session is a chain of refresh
    tokens that replace one another; an access token names its session.

    The users here are the columns of sign-in.  Random texts ([secrets], [uuid4])
    come from the supply of the session monad.  passlib's hashes and jose's signed
    tokens are third-party code: classes with the laws the code relies on.  The
    exceptions of auth_exceptions.py carry a message and a status like an
    [HTTPException].  Address and browser of a client are not kept. *)

From S2P Require Import Prelude Text Sha256.

(** ** Tables *)

Inductive AuthProvider := OAUTH | PHONE_OTP | EMAIL.
Inductive RevocationReason := ROTATED | LOGOUT | ADMIN_REVOKED | REUSE_DETECTED | PASSWORD_CHANGED | USER_DELETED.

#[export] Instance provider_eq : EqDecision AuthProvider.
Proof. solve_decision. Defined.
#[export] Instance reason_eq : EqDecision RevocationReason.
Proof. solve_decision. Defined.

Record AppUser := User {
  u_id : string; u_email : string; u_password : option string; u_active : bool; u_is_deleted : bool;
  u_email_verified : bool; u_auth_provider : AuthProvider; u_oauth_provider : option string;
  u_password_changed_at : option Z; u_role : string;
}.

Record RefreshToken := Token {
  t_id : string; t_user_id : string; t_token_hash : string; t_session_public_id : string;
  t_parent_token_id : option string; t_replaced_by_token_id : option string; t_expires_at : Z;
  t_revoked : bool; t_revoked_at : option Z; t_revocation_reason : option RevocationReason; t_device_name : option string;
}.

Record PasswordResetToken := ResetToken {
  r_id : string; r_user_id : string; r_token_hash : string; r_expires_at : Z; r_used_at : option Z }.

Record au_db := AuDb {
  au_users : gmap string AppUser;
  au_tokens : gmap string RefreshToken;
  au_resets : gmap string PasswordResetToken;
}.

#[export] Instance au_db_eta : Settable au_db := fun d => AuDb (au_users d) (au_tokens d) (au_resets d).
#[export] Instance user_eta : Settable AppUser := fun u =>
  User (u_id u) (u_email u) (u_password u) (u_active u) (u_is_deleted u) (u_email_verified u) (u_auth_provider u)
    (u_oauth_provider u) (u_password_changed_at u) (u_role u).
#[export] Instance token_eta : Settable RefreshToken := fun t =>
  Token (t_id t) (t_user_id t) (t_token_hash t) (t_session_public_id t) (t_parent_token_id t) (t_replaced_by_token_id t)
    (t_expires_at t) (t_revoked t) (t_revoked_at t) (t_revocation_reason t) (t_device_name t).
#[export] Instance reset_eta : Settable PasswordResetToken := fun r =>
  ResetToken (r_id r) (r_user_id r) (r_token_hash r) (r_expires_at r) (r_used_at r).

Inductive au_effect := ResetMail (to_email raw_token : string).

Abbreviation AU A := (M au_db au_effect A).
Abbreviation Session := (session au_db au_effect).

(** ** Settings and third parties *)

(** The settings sign-in reads (app/core/config.py). *)
Class AuthConfig := {
  JWT_REFRESH_TOKEN_PEPPER : string;
  JWT_ACCESS_TOKEN_EXPIRE_MS : Z;
  JWT_REFRESH_TOKEN_EXPIRE_MS : Z;
  SESSION_SCOPE : option string;
  ENVIRONMENT : option string;
}.

(** The payload of an access token; a signed token of another origin may lack
    fields. *)
Record payload := Payload {
  c_sub : option string; c_role : string; c_token_type : option string; c_session_public_id : option string;
  c_exp : Z; c_iat : option Z }.

(** jose: what was signed is read back until it expires, to the second. *)
Class Jwt := {
  jwt : Type;
  jwt_encode : payload -> jwt;
  jwt_decode : Z -> jwt -> option payload;
  jwt_decode_encode now p : jwt_decode now (jwt_encode p) = if now / 1000000 <=? c_exp p then Some p else None;
}.

(** passlib: a salted hash that the same password verifies. *)
Class Passwords := {
  pw_hash : string -> string -> string;
  pw_verify : string -> string -> bool;
  pw_verify_hash salt p : pw_verify p (pw_hash salt p) = true;
  pw_hash_nonempty salt p : pw_hash salt p <> EmptyString;
}.

Section SignIn.
Context `{Cfg : AuthConfig, J : Jwt, PW : Passwords}.

Definition milliseconds (n : Z) : Z := n * 1000.

(** [(s or default).strip().lower()[:255]] *)
Definition resolved_session_scope : string :=
  let explicit := lower (strip (default EmptyString SESSION_SCOPE)) in
  str_take 255 (if negb (is_empty explicit) then explicit else lower (strip (str_or ENVIRONMENT "development"))).

Definition InvalidCredentialsException (message : string) : exn := HTTPException message 401.
Definition EmailNotVerifiedException (message : string) : exn := HTTPException message 403.
Definition AccountInactiveException (message : string) : exn := HTTPException message 403.
Definition InvalidPasswordResetTokenException (message : string) : exn := HTTPException message 400.

(** ** core/security.py *)

Definition ACCESS_TOKEN_TYPE : string := "access".

(** [secrets.token_urlsafe], and the salt of a password hash *)
Definition random_text : AU string := uuid4.

Definition _hash_opaque_token (raw_token : string) : string := hmac_hexdigest JWT_REFRESH_TOKEN_PEPPER raw_token.
Definition hash_refresh_token (raw_token : string) : string := hmac_hexdigest JWT_REFRESH_TOKEN_PEPPER raw_token.
Definition hash_reset_token (raw_token : string) : string := _hash_opaque_token raw_token.

Definition hash_password (password : string) : AU string := do salt <- random_text; ret (pw_hash salt password).
Definition verify_password (plain hashed : string) : bool := pw_verify plain hashed.

(** [expires_delta] is never given.  The clock is read twice. *)
Definition create_access_token (subject role session_public_id : string) : AU jwt :=
  do t0 <- utc_now;
  do now <- utc_now;
  ret (jwt_encode (Payload (Some subject) role (Some ACCESS_TOKEN_TYPE) (Some session_public_id)
    ((t0 + milliseconds JWT_ACCESS_TOKEN_EXPIRE_MS) / 1000000) (Some (now / 1000000)))).

Definition access_token_invalidated_by_password_change (p : payload) (u : AppUser) : bool :=
  match u_password_changed_at u, c_iat p with
  | Some changed, Some iat => seconds iat <? changed
  | _, _ => false
  end.

Definition validate_token_type (p : payload) (expected_type : string) : res unit :=
  if bool_decide (c_token_type p = Some expected_type) then Ok tt else Raise (HTTPException "Invalid token type" 401).

(** ** Repositories *)

Definition find_by_id (id : string) (d : au_db) : option RefreshToken := au_tokens d !! id.

(** The hash is unique. *)
Definition find_by_token_hash (h : string) (d : au_db) : option RefreshToken :=
  List.find (fun t => bool_decide (t_token_hash t = h)) (values (au_tokens d)).

Definition find_active_by_session (session : string) (now : Z) (d : au_db) : list RefreshToken :=
  select_where (fun t => bool_decide (t_session_public_id t = session) && negb (t_revoked t) && (now <? t_expires_at t))
    (values (au_tokens d)).

Definition find_by_email (email : string) (d : au_db) : option AppUser :=
  List.find (fun u => bool_decide (u_email u = email) && negb (u_is_deleted u)) (values (au_users d)).

(** The INSERT of a token. *)
Definition insert_token (t : RefreshToken) : AU unit :=
  do d <- gets (fun d => d);
  guard_exn (bool_decide (au_tokens d !! t_id t = None)) (IntegrityError "refresh_tokens") ;;;
  guard_exn (negb (existsb (fun u => bool_decide (t_token_hash u = t_token_hash t)) (values (au_tokens d))))
    (IntegrityError "refresh_tokens") ;;;
  modify (fun d => d <| au_tokens ::= <[t_id t := t]> |>).

Definition save (t : RefreshToken) : AU unit := insert_token t ;;; commit.

Definition revoke (now : Z) (reason : RevocationReason) (t : RefreshToken) : RefreshToken :=
  t <| t_revoked := true |> <| t_revoked_at := Some now |> <| t_revocation_reason := Some reason |>.

(** The unrevoked tokens that [p] picks are revoked. *)
Definition revoke_where (p : RefreshToken -> bool) (now : Z) (reason : RevocationReason) (d : au_db) : au_db :=
  d <| au_tokens ::= fmap (fun t => if p t && negb (t_revoked t) then revoke now reason t else t) |>.

Definition revoke_session_chain (session : string) (reason : RevocationReason) : AU unit :=
  do now <- utc_now;
  modify (revoke_where (fun t => bool_decide (t_session_public_id t = session)) now reason) ;;;
  commit.

Definition revoke_all_user_tokens (user_id : string) (reason : RevocationReason) (with_commit : bool) (scope : option string)
    : AU unit :=
  do now <- utc_now;
  modify (revoke_where (fun t => bool_decide (t_user_id t = user_id)
    && match scope with None => true | Some s => bool_decide (t_device_name t = Some s) end) now reason) ;;;
  when with_commit commit.

Definition find_reset_by_hash (h : string) (d : au_db) : option PasswordResetToken :=
  List.find (fun r => bool_decide (r_token_hash r = h)) (values (au_resets d)).

Definition add_reset (r : PasswordResetToken) : AU unit :=
  do d <- gets (fun d => d);
  guard_exn (bool_decide (au_resets d !! r_id r = None)) (IntegrityError "password_reset_tokens") ;;;
  guard_exn (negb (existsb (fun q => bool_decide (r_token_hash q = r_token_hash r)) (values (au_resets d))))
    (IntegrityError "password_reset_tokens") ;;;
  modify (fun d => d <| au_resets ::= <[r_id r := r]> |>).

(** DELETE of the rows that [p] picks. *)
Definition delete_resets (p : PasswordResetToken -> bool) : AU unit :=
  modify (fun d => d <| au_resets ::= filter (fun kr => p kr.2 = false) |>).

Definition delete_unused_for_user (user_id : string) : AU unit :=
  delete_resets (fun r => bool_decide (r_user_id r = user_id) && bool_decide (r_used_at r = None)).

Definition delete_all_except (user_id keep_id : string) : AU unit :=
  delete_resets (fun r => bool_decide (r_user_id r = user_id) && negb (bool_decide (r_id r = keep_id))).

Definition delete_all_for_user (user_id : string) : AU unit :=
  delete_resets (fun r => bool_decide (r_user_id r = user_id)).

Definition mark_used (r : PasswordResetToken) (used_at : Z) : AU unit :=
  modify (fun d => d <| au_resets ::= <[r_id r := r <| r_used_at := Some used_at |>]> |>).

(** ** Signing in *)

Definition _assert_user_may_authenticate (u : AppUser) : res unit :=
  if u_is_deleted u then Raise (InvalidCredentialsException "Account no longer exists")
  else if negb (u_active u) then Raise (AccountInactiveException "Account is deactivated")
  else Ok tt.

Definition _is_eligible_for_password_reset (u : AppUser) : bool :=
  u_active u && negb (u_is_deleted u) && u_email_verified u.

(** What the answers carry: the access token, and the refresh token unless it
    stays as it is. *)
Record answer := Answer { an_access : jwt; an_refresh : option string }.

Definition role_claim (u : AppUser) : string := ("ROLE_" +:+ u_role u)%string.

Definition _create_authenticated_session (u : AppUser) (device_name : option string) : AU answer :=
  let session_scope := resolved_session_scope in
  revoke_all_user_tokens (u_id u) LOGOUT true (Some session_scope) ;;;
  do session <- uuid4;
  do raw <- random_text;
  do now <- utc_now;
  do id <- uuid4;
  save (Token id (u_id u) (hash_refresh_token raw) session None None (now + milliseconds JWT_REFRESH_TOKEN_EXPIRE_MS)
    false None None (Some (str_or device_name session_scope))) ;;;
  do access <- create_access_token (u_email u) (role_claim u) session;
  ret (Answer access (Some raw)).

Definition login (email password : string) (device_name : option string) : AU answer :=
  do found <- gets (find_by_email (strip (lower email)));
  match found with
  | None => raise (InvalidCredentialsException "Invalid email or password")
  | Some u =>
      if negb (truthy (u_password u)) then
        raise (InvalidCredentialsException
          (if truthy (u_oauth_provider u) || bool_decide (u_auth_provider u = OAUTH)
           then "This account uses Google sign-in. Use Continue with Google, or choose Forgot Password to set an email password."
           else "Invalid email or password"))
      else
        guard_exn (verify_password password (default EmptyString (u_password u)))
          (InvalidCredentialsException "Invalid email or password") ;;;
        guard_exn (u_email_verified u) (EmailNotVerifiedException "Please verify your email before signing in.") ;;;
        lift_res (_assert_user_may_authenticate u) ;;;
        _create_authenticated_session u device_name
  end.

(** ** Refreshing *)

Definition REFRESH_REUSE_GRACE : Z := seconds 30.

(** The walk along the links; [None] when [fuel] runs out. *)
Fixpoint follow (fuel : nat) (seen : gset string) (current : option string) (d : au_db) : option (option RefreshToken) :=
  match current with
  | None => Some None
  | Some id =>
      if bool_decide (id ∈ seen) then Some None
      else match fuel with
        | O => None
        | S fuel' =>
            match find_by_id id d with
            | None => Some None
            | Some t => if negb (t_revoked t) then Some (Some t) else follow fuel' ({[id]} ∪ seen) (t_replaced_by_token_id t) d
            end
        end
  end.

(** One step more than there are tokens. *)
Definition walk_fuel (d : au_db) : nat := S (size (au_tokens d)).

Definition _latest_active_descendant (token_id : option string) : AU (option RefreshToken) :=
  do d <- gets (fun d => d);
  match follow (walk_fuel d) ∅ token_id d with
  | None => raise (OtherError "out of fuel")
  | Some None => ret None
  | Some (Some t) => do now <- utc_now; ret (if t_expires_at t <=? now then None else Some t)
  end.

Definition _access_payload_for_session (u : AppUser) (session : string) : AU answer :=
  do access <- create_access_token (u_email u) (role_claim u) session;
  ret (Answer access None).

Definition _inflight_rotated_refresh (stored : RefreshToken) : AU (option answer) :=
  match t_replaced_by_token_id stored with
  | None => ret None
  | Some child_id =>
      if bool_decide (t_revocation_reason stored ∈ [None; Some ROTATED]) then
        match t_revoked_at stored with
        | None => ret None
        | Some revoked_at =>
            do now <- utc_now;
            if REFRESH_REUSE_GRACE <? now - revoked_at then ret None
            else
              do child <- _latest_active_descendant (Some child_id);
              match child with
              | None => ret None
              | Some c =>
                  if negb (bool_decide (t_session_public_id c = t_session_public_id stored)) then ret None
                  else
                    do d <- gets (fun d => d);
                    match (match au_users d !! t_user_id stored with Some u => Some u | None => au_users d !! t_user_id c end) with
                    | None => ret None
                    | Some u =>
                        if u_is_deleted u || negb (u_active u) then ret None
                        else do a <- _access_payload_for_session u (t_session_public_id stored); ret (Some a)
                    end
              end
        end
      else ret None
  end.

(** The new token of the chain and the end of the old one, in one commit, then
    the link from the old to the new. *)
Definition rotate (stored : RefreshToken) (raw : string) (expires_at : Z) : AU RefreshToken :=
  do id <- uuid4;
  do now <- utc_now;
  insert_token (Token id (t_user_id stored) (hash_refresh_token raw) (t_session_public_id stored) (Some (t_id stored)) None
    expires_at false None None (t_device_name stored)) ;;;
  let old := revoke now ROTATED stored in
  modify (fun d => d <| au_tokens ::= <[t_id stored := old]> |>) ;;;
  commit ;;;
  let linked := old <| t_replaced_by_token_id := Some id |> in
  modify (fun d => d <| au_tokens ::= <[t_id stored := linked]> |>) ;;;
  commit ;;;
  ret linked.

Definition refresh_access_token (raw_refresh_token : string) : AU answer :=
  do found <- gets (find_by_token_hash (hash_refresh_token raw_refresh_token));
  match found with
  | None => raise (InvalidCredentialsException "Invalid refresh token")
  | Some stored =>
      if t_revoked stored then
        do inflight <- _inflight_rotated_refresh stored;
        match inflight with
        | Some a => ret a
        | None =>
            when (negb (bool_decide (t_replaced_by_token_id stored = None)))
              (revoke_session_chain (t_session_public_id stored) REUSE_DETECTED) ;;;
            raise (InvalidCredentialsException "Refresh token revoked")
        end
      else
        do now <- utc_now;
        guard_exn (negb (t_expires_at stored <? now)) (InvalidCredentialsException "Refresh token expired") ;;;
        do d <- gets (fun d => d);
        match au_users d !! t_user_id stored with
        | None => raise (OtherError "AttributeError")
        | Some u =>
            if u_is_deleted u then
              revoke_session_chain (t_session_public_id stored) LOGOUT ;;;
              raise (InvalidCredentialsException "Invalid refresh token")
            else if negb (u_active u) then
              revoke_session_chain (t_session_public_id stored) LOGOUT ;;;
              raise (AccountInactiveException "Account is deactivated")
            else
              do raw <- random_text;
              do t0 <- utc_now;
              do linked <- rotate stored raw (t0 + milliseconds JWT_REFRESH_TOKEN_EXPIRE_MS);
              do access <- create_access_token (u_email u) (role_claim u) (t_session_public_id linked);
              ret (Answer access (Some raw))
        end
  end.

Definition logout (raw_refresh_token : option string) : AU unit :=
  if negb (truthy raw_refresh_token) then ret tt
  else
    do found <- gets (find_by_token_hash (hash_refresh_token (default EmptyString raw_refresh_token)));
    match found with
    | Some t => when (negb (t_revoked t)) (revoke_session_chain (t_session_public_id t) LOGOUT)
    | None => ret tt
    end.

(** ** Passwords *)

Definition PASSWORD_RESET_EXPIRY_MINUTES : Z := 30.
Definition INVALID_RESET_LINK : exn := InvalidPasswordResetTokenException "Invalid or expired reset link.".

Definition put_user (u : AppUser) (d : au_db) : au_db := d <| au_users ::= <[u_id u := u]> |>.

(** The answer is the same whatever happens.  [mail_ok] tells whether the mail
    can be sent. *)
Definition forgot_password (mail_ok : string -> bool) (email : string) : AU unit :=
  do found <- gets (find_by_email (strip (lower email)));
  match found with
  | None => ret tt
  | Some u =>
      when (_is_eligible_for_password_reset u) (
        do raw <- random_text;
        do now <- utc_now;
        catch (
          delete_unused_for_user (u_id u) ;;;
          (if mail_ok (u_email u) then emit (ResetMail (u_email u) raw) else raise (OtherError "SMTPException")) ;;;
          do id <- uuid4;
          add_reset (ResetToken id (u_id u) (hash_reset_token raw) (now + minutes PASSWORD_RESET_EXPIRY_MINUTES) None) ;;;
          commit)
          (fun _ => rollback))
  end.

Definition reset_password (raw_token new_password : string) : AU unit :=
  do found <- gets (find_reset_by_hash (hash_reset_token raw_token));
  match found with
  | None => raise INVALID_RESET_LINK
  | Some r =>
      do now <- utc_now;
      guard_exn (bool_decide (r_used_at r = None)) INVALID_RESET_LINK ;;;
      guard_exn (negb (r_expires_at r <? now)) INVALID_RESET_LINK ;;;
      do d <- gets (fun d => d);
      match au_users d !! r_user_id r with
      | None => raise INVALID_RESET_LINK
      | Some u =>
          guard_exn (_is_eligible_for_password_reset u) INVALID_RESET_LINK ;;;
          catch (
            do hashed <- hash_password new_password;
            modify (put_user (u <| u_password := Some hashed |> <| u_password_changed_at := Some now |>
              <| u_auth_provider := if bool_decide (u_auth_provider u = OAUTH) then EMAIL else u_auth_provider u |>)) ;;;
            mark_used r now ;;;
            delete_all_except (u_id u) (r_id r) ;;;
            revoke_all_user_tokens (u_id u) PASSWORD_CHANGED false None ;;;
            commit)
            (fun _ => rollback ;;; raise INVALID_RESET_LINK)
      end
  end.

(** [u] is the user the request was authenticated as, an object that belongs to
    no session any more (core/dependencies.py expunges it): what is assigned to it
    is not written to its row. *)
Definition forget_sessions (u : AppUser) (new_password failure : string) : AU AppUser :=
  do now <- utc_now;
  catch (
    do hashed <- hash_password new_password;
    delete_all_for_user (u_id u) ;;;
    revoke_all_user_tokens (u_id u) PASSWORD_CHANGED false None ;;;
    commit ;;;
    ret (u <| u_password := Some hashed |> <| u_password_changed_at := Some now |>))
    (fun _ => rollback ;;; raise (InvalidCredentialsException failure)).

(** The answer is the object as it is left. *)
Definition change_password (u : AppUser) (current_password new_password : string) : AU AppUser :=
  guard_exn (truthy (u_password u))
    (InvalidCredentialsException "Use set-password to create a password for this account") ;;;
  guard_exn (verify_password current_password (default EmptyString (u_password u)))
    (InvalidCredentialsException "Current password is incorrect") ;;;
  forget_sessions u new_password "Unable to change password".

Definition set_password (u : AppUser) (new_password : string) : AU AppUser :=
  guard_exn (bool_decide (u_password u = None))
    (InvalidCredentialsException "Password already set. Use Change Password instead.") ;;;
  forget_sessions u new_password "Unable to set password".

(** ** core/dependencies.py *)

Definition SESSION_EXPIRED : exn := HTTPException "Session expired. Please sign in again." 401.

(** A session id that is no uuid is no key of the table. *)
Definition _resolve_current_user (token : jwt) : AU AppUser :=
  do t0 <- utc_now;
  match jwt_decode t0 token with
  | None => raise (HTTPException "Invalid token." 401)
  | Some p =>
      lift_res (validate_token_type p ACCESS_TOKEN_TYPE) ;;;
      match c_sub p with
      | None => raise (HTTPException "Invalid token." 401)
      | Some email =>
          guard_exn (truthy (c_session_public_id p)) SESSION_EXPIRED ;;;
          do now <- utc_now;
          do active_sessions <- gets (find_active_by_session (default EmptyString (c_session_public_id p)) now);
          guard_exn (negb (bool_decide (active_sessions = []))) SESSION_EXPIRED ;;;
          do found <- gets (find_by_email email);
          match found with
          | None => raise (HTTPException "User not found" 401)
          | Some u =>
              guard_exn (u_active u) (HTTPException "Account is deactivated" 401) ;;;
              guard_exn (negb (u_is_deleted u)) (HTTPException "Account no longer exists" 401) ;;;
              guard_exn (negb (access_token_invalidated_by_password_change p u)) SESSION_EXPIRED ;;;
              guard_exn (bool_decide (u_id u ∈ map t_user_id active_sessions)) SESSION_EXPIRED ;;;
              ret u
          end
      end
  end.

(** ** The requests *)

(** [SignedInAs] stands for the other ways to sign in (Google, a mailed code, the
    confirmation of an address), which end in a session for a stored user;
    [NewPassword] for a change by a signed-in user. *)
Inductive request :=
| Login (email password : string) (device_name : option string)
| SignedInAs (user_id : string) (device_name : option string)
| Refresh (raw : string)
| Logout (raw : option string)
| ForgotPassword (mail_ok : string -> bool) (email : string)
| ResetPassword (raw new_password : string)
| NewPassword (token : jwt) (current : option string) (new_password : string)
| Authenticate (token : jwt).

Definition handle (r : request) : AU unit :=
  match r with
  | Login e p dn => login e p dn ;;; ret tt
  | SignedInAs k dn =>
      do found <- gets (fun d => au_users d !! k);
      match found with None => ret tt | Some u => _create_authenticated_session u dn ;;; ret tt end
  | Refresh raw => refresh_access_token raw ;;; ret tt
  | Logout raw => logout raw
  | ForgotPassword ok e => forgot_password ok e
  | ResetPassword raw p => reset_password raw p
  | NewPassword token current p =>
      do u <- _resolve_current_user token;
      (match current with Some c => change_password u c p | None => set_password u p end) ;;; ret tt
  | Authenticate token => _resolve_current_user token ;;; ret tt
  end.
End SignIn.

(** ** Sessions and what may happen to them *)

Implicit Types (d : au_db) (t : RefreshToken) (sid : string).

Definition session_known d sid : Prop := exists k t, au_tokens d !! k = Some t /\ t_session_public_id t = sid.

(** No token of the session is left unrevoked. *)
Definition session_dead d sid : Prop :=
  forall k t, au_tokens d !! k = Some t -> t_session_public_id t = sid -> t_revoked t = true.

(** Tokens have their keys; a session belongs to one user and has one unrevoked
    token at most. *)
Record sessions_ok d : Prop := {
  so_keyed : forall k t, au_tokens d !! k = Some t -> t_id t = k;
  so_owner : forall k k' t t', au_tokens d !! k = Some t -> au_tokens d !! k' = Some t' ->
    t_session_public_id t = t_session_public_id t' -> t_user_id t = t_user_id t';
  so_one : forall k k' t t', au_tokens d !! k = Some t -> au_tokens d !! k' = Some t' ->
    t_session_public_id t = t_session_public_id t' -> t_revoked t = false -> t_revoked t' = false -> k = k';
}.

Definition same_token t t' : Prop :=
  t_id t' = t_id t /\ t_user_id t' = t_user_id t /\ t_session_public_id t' = t_session_public_id t /\
  t_token_hash t' = t_token_hash t /\ (t_revoked t = true -> t_revoked t' = true).

(** Tokens stay and are revoked for good; a new one starts a session or goes on
    with one that is alive. *)
Record session_edge d d' : Prop := {
  se_old : forall k t, au_tokens d !! k = Some t -> exists t', au_tokens d' !! k = Some t' /\ same_token t t';
  se_new : forall k t', au_tokens d' !! k = Some t' -> au_tokens d !! k = None ->
    ~ session_known d (t_session_public_id t') \/ ~ session_dead d (t_session_public_id t');
}.

Lemma same_token_refl t : same_token t t.
Proof. by repeat split. Qed.

Lemma same_token_trans t1 t2 t3 : same_token t1 t2 -> same_token t2 t3 -> same_token t1 t3.
Proof. unfold same_token. intuition congruence. Qed.

Lemma edge_refl d : session_edge d d.
Proof. split; [eauto using same_token_refl|congruence]. Qed.

Lemma edge_known d d' sid : session_edge d d' -> session_known d sid -> session_known d' sid.
Proof.
  intros Hd (k & t & Hk & <-). destruct (se_old _ _ Hd k t Hk) as (t' & Hk' & _ & _ & Hs & _). by exists k, t'.
Qed.

(** A dead session stays dead. *)
Lemma edge_dead d d' sid : session_edge d d' -> session_known d sid -> session_dead d sid -> session_dead d' sid.
Proof.
  intros Hd Hknown Hdead k t' Hk' Hs. destruct (au_tokens d !! k) as [t|] eqn:Hk.
  - destruct (se_old _ _ Hd k t Hk) as (t1 & Hk1 & _ & _ & Hs1 & _ & Hr). rewrite Hk' in Hk1. injection Hk1 as <-.
    apply Hr, (Hdead k t Hk). congruence.
  - destruct (se_new _ _ Hd k t' Hk' Hk) as [Hn|Hn]; rewrite Hs in Hn; contradiction.
Qed.

Lemma decide_known d sid : session_known d sid \/ ~ session_known d sid.
Proof.
  destruct (List.find (fun t => bool_decide (t_session_public_id t = sid)) (values (au_tokens d))) as [t|] eqn:Hf.
  - left. apply find_some in Hf as [[k Hk]%list_elem_of_In%elem_of_values Hs%bool_decide_eq_true]. by exists k, t.
  - right. intros (k & t & Hk & Hs). pose proof (find_none _ _ Hf t) as H. cbn beta in H.
    rewrite bool_decide_eq_true_2 in H by done. enough (true = false) by done. apply H, list_elem_of_In, elem_of_values. eauto.
Qed.

Lemma edge_trans d1 d2 d3 : session_edge d1 d2 -> session_edge d2 d3 -> session_edge d1 d3.
Proof.
  intros H12 H23. split.
  - intros k t Hk. destruct (se_old _ _ H12 k t Hk) as (t2 & Hk2 & Hs2).
    destruct (se_old _ _ H23 k t2 Hk2) as (t3 & Hk3 & Hs3). exists t3. eauto using same_token_trans.
  - intros k t3 Hk3 Hk1. destruct (au_tokens d2 !! k) as [t2|] eqn:Hk2.
    + destruct (se_old _ _ H23 k t2 Hk2) as (t3' & Hk3' & _ & _ & Hs & _). rewrite Hk3 in Hk3'. injection Hk3' as <-.
      rewrite Hs. by apply (se_new _ _ H12 k).
    + destruct (se_new _ _ H23 k t3 Hk3 Hk2) as [Hn|Hn].
      * left. intros Hk. apply Hn. by apply (edge_known d1).
      * destruct (decide_known d1 (t_session_public_id t3)) as [Hk|Hk]; [|by left].
        right. intros Hdead. apply Hn. by apply (edge_dead d1).
Qed.

(** *** Programs that keep to the edges *)

Definition trail d0 d : Prop := sessions_ok d /\ session_edge d0 d.

(** The texts still to come name no session. *)
Definition fresh (s : Session) : Prop :=
  (forall n, ~ session_known (s_db s) (s_ids s n) /\ ~ session_known (s_committed s) (s_ids s n)) /\
  (forall n m, s_ids s n = s_ids s m -> n = m).

(** Started in [Q], the program keeps to the edges. *)
Definition under (Q : Session -> Prop) {A} (m : AU A) : Prop := forall d0 s,
  Q s -> good (trail d0) s -> fresh s -> good (trail d0) (m s).2 /\ fresh (m s).2.

Definition obeys {A} (m : AU A) : Prop := under (fun _ => True) m.

Lemma obeys_under (Q : Session -> Prop) {A} (m : AU A) : obeys m -> under Q m.
Proof. intros Hm d0 s _. by apply Hm. Qed.

Lemma started_weaken (Q Q' : Session -> Prop) {A} (m : AU A) : (forall s, Q s -> Q' s) -> under Q' m -> under Q m.
Proof. intros Hq Hm d0 s Hs. apply Hm. by apply Hq. Qed.

Lemma started_bind (Q Q' : Session -> Prop) {A B} (m : AU A) (f : A -> AU B) :
  under Q m -> (forall a s s', Q s -> m s = (Ok a, s') -> Q' s') -> (forall a, under Q' (f a)) -> under Q (bind m f).
Proof.
  intros Hm Hq Hf d0 s Hs Hg Hfr. destruct (Hm d0 s Hs Hg Hfr) as [Hg' Hfr']. unfold bind.
  destruct (m s) as [[a|e] s'] eqn:Hms; [|done]. apply Hf; [by apply (Hq a s)|done..].
Qed.

Lemma obeys_bind {A B} (m : AU A) (f : A -> AU B) : obeys m -> (forall a, obeys (f a)) -> obeys (bind m f).
Proof. intros Hm Hf. by apply (started_bind _ (fun _ => True)). Qed.

Lemma started_gets (Q : Session -> Prop) {A B} (g : au_db -> A) (f : A -> AU B) :
  (forall a, under (fun s => Q s /\ g (s_db s) = a) (f a)) -> under Q (bind (gets g) f).
Proof. intros Hf d0 s Hs. unfold bind. cbn. by apply (Hf (g (s_db s))). Qed.

Lemma obeys_catch {A} (m : AU A) (h : exn -> AU A) : obeys m -> (forall e, obeys (h e)) -> obeys (catch m h).
Proof.
  intros Hm Hh d0 s Hs Hg Hfr. destruct (Hm d0 s Hs Hg Hfr) as [Hg' Hfr']. unfold catch.
  destruct (m s) as [[a|e] s']; [done|]. by apply Hh.
Qed.

Lemma obeys_silent {A} (m : AU A) : silent m -> obeys m.
Proof. intros Hm d0 s _. by rewrite Hm. Qed.
Lemma obeys_ret {A} (a : A) : obeys (ret a).
Proof. by apply obeys_silent. Qed.
Lemma obeys_raise {A} e : obeys (raise e : AU A).
Proof. by apply obeys_silent. Qed.
Lemma obeys_lift {A} (r : res A) : obeys (lift_res r).
Proof. by apply obeys_silent. Qed.
Lemma obeys_gets {A} (f : au_db -> A) : obeys (gets f).
Proof. by apply obeys_silent. Qed.
Lemma obeys_guard b e : obeys (guard_exn b e).
Proof. destruct b; [apply obeys_ret|apply obeys_raise]. Qed.
Lemma obeys_when b (m : AU unit) : obeys m -> obeys (when b m).
Proof. destruct b; [done|]. intros _. apply obeys_ret. Qed.
Lemma obeys_emit e : obeys (emit e).
Proof. by intros d0 s _. Qed.
Lemma obeys_now : obeys utc_now.
Proof. by intros d0 s _. Qed.
Lemma obeys_uuid4 : obeys uuid4.
Proof. intros d0 s _ Hg [Hf Hinj]. split; [done|]. split; [intros n; apply Hf|]. intros n m Hnm. apply Hinj in Hnm. congruence. Qed.
Lemma obeys_commit : obeys commit.
Proof. intros d0 s _ [_ Hg] [Hf Hinj]. split; [done|]. split; [|done]. intros n. destruct (Hf n). done. Qed.
Lemma obeys_rollback : obeys rollback.
Proof. intros d0 s _ [Hg _] [Hf Hinj]. split; [done|]. split; [|done]. intros n. destruct (Hf n). done. Qed.

(** A write to the tokens that starts no session. *)
Record tame (f : au_db -> au_db) d : Prop := {
  tm_ok : sessions_ok (f d);
  tm_edge : session_edge d (f d);
  tm_known : forall sid, session_known (f d) sid -> session_known d sid;
}.

Lemma started_modify (Q : Session -> Prop) f :
  (forall s, Q s -> sessions_ok (s_db s) -> tame f (s_db s)) -> under Q (modify f).
Proof.
  intros Hf d0 s Hs [Hc [Hok He]] [Hfr Hinj]. destruct (Hf s Hs Hok) as [H1 H2 H3]. split; split; cbn; try done.
  - split; [done|]. by apply (edge_trans d0 (s_db s)).
  - intros n. destruct (Hfr n) as [Hn1 Hn2]. split; [|done]. intros Hk. by apply Hn1, H3.
Qed.

Lemma tame_same f d : au_tokens (f d) = au_tokens d -> sessions_ok d -> tame f d.
Proof.
  intros Hf [H1 H2 H3]. split.
  - split; by rewrite Hf.
  - split; rewrite Hf; [eauto using same_token_refl|congruence].
  - intros sid. unfold session_known. by rewrite Hf.
Qed.

Lemma obeys_modify f : (forall d, au_tokens (f d) = au_tokens d) -> obeys (modify f).
Proof. intros Hf. apply started_modify. intros s _. by apply tame_same. Qed.

Lemma tame_revoke p now reason d : sessions_ok d -> tame (revoke_where p now reason) d.
Proof.
  intros [H1 H2 H3]. set (g t := if p t && negb (t_revoked t) then revoke now reason t else t).
  assert (forall t, same_token t (g t)) as Hg.
  { intros t. unfold g. destruct (p t && negb (t_revoked t)); [by repeat split|apply same_token_refl]. }
  assert (forall t, t_revoked (g t) = false -> t_revoked t = false) as Hlive.
  { intros t Ht. destruct (t_revoked t) eqn:Hr; [|done]. destruct (Hg t) as (_ & _ & _ & _ & Hk). by rewrite Hk in Ht. }
  assert (forall k t', au_tokens (revoke_where p now reason d) !! k = Some t' -> exists t, au_tokens d !! k = Some t /\ t' = g t) as Hinv.
  { intros k t'. cbn. rewrite lookup_fmap, fmap_Some. intros (t & Ht & ->). by exists t. }
  split; [split|split|].
  - intros k t' (t & Ht & ->)%Hinv. destruct (Hg t) as (-> & _). by apply H1.
  - intros k k' a b (a0 & Ha & ->)%Hinv (b0 & Hb & ->)%Hinv.
    destruct (Hg a0) as (_ & -> & -> & _), (Hg b0) as (_ & -> & -> & _). by apply (H2 k k').
  - intros k k' a b (a0 & Ha & ->)%Hinv (b0 & Hb & ->)%Hinv Hs La%Hlive Lb%Hlive.
    destruct (Hg a0) as (_ & _ & Hs1 & _), (Hg b0) as (_ & _ & Hs2 & _). apply (H3 k k' a0 b0); congruence.
  - intros k t Hk. exists (g t). split; [|apply Hg]. cbn. by rewrite lookup_fmap, Hk.
  - intros k t' (t & Ht & _)%Hinv Hk. by rewrite Ht in Hk.
  - intros sid (k & t' & (t & Ht & ->)%Hinv & <-). exists k, t. split; [done|]. by destruct (Hg t) as (_ & _ & -> & _).
Qed.

Lemma obeys_revoke p now reason : obeys (modify (revoke_where p now reason)).
Proof. apply started_modify. intros s _. apply tame_revoke. Qed.

Create HintDb obeys.
#[export] Hint Resolve obeys_ret obeys_raise obeys_lift obeys_gets obeys_guard obeys_emit obeys_now obeys_uuid4
  obeys_commit obeys_rollback obeys_revoke : obeys.

(** [obeys] goals: follow the program's structure; special writes are left over. *)
Ltac obeys :=
  repeat first
    [ progress intros
    | solve [eauto with obeys nocore]
    | apply obeys_bind
    | apply obeys_catch
    | apply obeys_when
    | solve [apply obeys_modify; intros; done]
    | case_match ].

(** A row that is not in the table yet: its key is new. *)
Lemma insert_token_run t (s : Session) :
  ((exists e, insert_token t s = (Raise e, s)) /\
   ~ (au_tokens (s_db s) !! t_id t = None /\ forall k u, au_tokens (s_db s) !! k = Some u -> t_token_hash u <> t_token_hash t)) \/
  (au_tokens (s_db s) !! t_id t = None /\
   (forall k u, au_tokens (s_db s) !! k = Some u -> t_token_hash u <> t_token_hash t) /\
   insert_token t s = modify (fun d => d <| au_tokens ::= <[t_id t := t]> |>) s).
Proof.
  set (used := existsb (fun u => bool_decide (t_token_hash u = t_token_hash t)) (values (au_tokens (s_db s)))).
  assert (insert_token t s = if bool_decide (au_tokens (s_db s) !! t_id t = None)
    then if used then (Raise (IntegrityError "refresh_tokens"), s) else modify (fun d => d <| au_tokens ::= <[t_id t := t]> |>) s
    else (Raise (IntegrityError "refresh_tokens"), s)) as ->.
  { unfold insert_token, bind, gets, used. destruct (bool_decide _); [|done]. by destruct (existsb _ _). }
  case_bool_decide as Hn; [|left; split; [by eexists|by intros [Hn' _]]]. destruct used eqn:Hu.
  { left. split; [by eexists|]. intros [_ Hno]. apply existsb_exists in Hu as (u & [k Hk]%list_elem_of_In%elem_of_values & Hh%bool_decide_eq_true).
    by apply (Hno k u). }
  right.
  split; [done|]. split; [|done]. intros k u Hk He.
  assert (used = true) as Ht; [|congruence]. apply existsb_exists. exists u. split; [|by apply bool_decide_eq_true].
  apply list_elem_of_In, elem_of_values. by exists k.
Qed.

(** The first token of a session nobody knows. *)
Lemma started_first_token t :
  under (fun s => ~ session_known (s_db s) (t_session_public_id t) /\ forall n, s_ids s n <> t_session_public_id t)
    (insert_token t).
Proof.
  intros d0 s [Hnew Hids] Hg Hfr. destruct (insert_token_run t s) as [[[e ->] _]|(Hn & _ & ->)]; [done|].
  destruct Hg as [Hc [[H1 H2 H3] He]], Hfr as [Hfr Hinj]. cbn. set (d := s_db s) in *.
  assert (forall k u, <[t_id t := t]> (au_tokens d) !! k = Some u ->
    k = t_id t /\ u = t \/ au_tokens d !! k = Some u /\ t_session_public_id u <> t_session_public_id t) as Hrow.
  { intros k u [[<- <-]|[_ Hk]]%lookup_insert_Some; [by left|right]. split; [done|]. intros Hs. apply Hnew. by exists k, u. }
  split; split; cbn; try done.
  - split; [split|].
    + intros k u [[-> ->]|[Hk _]]%Hrow; [done|by apply H1].
    + intros k k' a b [[-> ->]|[Ha Hsa]]%Hrow [[-> ->]|[Hb Hsb]]%Hrow Hs; try congruence. by apply (H2 k k').
    + intros k k' a b [[-> ->]|[Ha Hsa]]%Hrow [[-> ->]|[Hb Hsb]]%Hrow Hs; try congruence. by apply (H3 k k').
    + apply (edge_trans d0 d); [done|]. split; cbn.
      * intros k u Hk. exists u. split; [|apply same_token_refl]. rewrite lookup_insert_ne; [done|]. intros <-. by rewrite Hn in Hk.
      * intros k u [[-> ->]|[Hk _]]%Hrow Hno; [by left|]. by rewrite Hk in Hno.
  - intros n. destruct (Hfr n) as [Hn1 Hn2]. split; [|done]. intros (k & u & [[-> ->]|[Hk _]]%Hrow & Hs).
    + by apply (Hids n).
    + apply Hn1. by exists k, u.
Qed.

(** The fields of a given state. *)
Ltac fields := cbn [open_session s_clock s_db s_ids s_out s_committed].

Section Handlers.
Context `{Cfg : AuthConfig, J : Jwt, PW : Passwords}.

Lemma obeys_access subject role session : obeys (create_access_token subject role session).
Proof. unfold create_access_token. obeys. Qed.

Lemma obeys_chain session reason : obeys (revoke_session_chain session reason).
Proof. unfold revoke_session_chain. obeys. Qed.

Lemma obeys_all u reason b scope : obeys (revoke_all_user_tokens u reason b scope).
Proof. unfold revoke_all_user_tokens. obeys. Qed.

Lemma obeys_random : obeys random_text.
Proof. apply obeys_uuid4. Qed.
#[local] Hint Resolve obeys_access obeys_chain obeys_all obeys_random : obeys.

Lemma obeys_session u device : obeys (_create_authenticated_session u device).
Proof.
  unfold _create_authenticated_session. apply obeys_bind; [obeys|]. intros _.
  set (unknown sid (s : Session) := ~ session_known (s_db s) sid /\ forall n, s_ids s n <> sid).
  assert (forall sid {A B} (m : AU A) (f : A -> AU B), obeys m -> (forall s, s_db (m s).2 = s_db s) ->
    (forall s, exists i, forall n, s_ids (m s).2 n = s_ids s (i + n)%nat) ->
    (forall a, under (unknown sid) (f a)) -> under (unknown sid) (bind m f)) as Hstep.
  { intros sid A B m f Hm Hdb Hids Hf. apply (started_bind _ (unknown sid)); [by apply obeys_under| |done].
    intros a s s' [Hs1 Hs2] Hms. specialize (Hdb s). destruct (Hids s) as [i Hi]. rewrite Hms in Hdb, Hi. cbn in *.
    split; [by rewrite Hdb|]. intros n. rewrite Hi. apply Hs2. }
  intros d0 s _ Hg Hfr. set (sid := s_ids s 0%nat).
  match goal with |- context [bind uuid4 ?k] => assert (forall a, a = sid -> under (unknown sid) (k a)) as Hrest end.
  { intros a ->. apply Hstep; [obeys|done|by exists 1%nat|]. intros raw.
    apply Hstep; [obeys|done|by exists 0%nat|]. intros now. apply Hstep; [obeys|done|by exists 1%nat|]. intros id.
    apply (started_bind _ (fun _ => True)); [|done|intros _; apply obeys_bind; [obeys|]; intros x; obeys].
    unfold save. apply (started_bind _ (fun _ => True)); [|done|intros _; apply obeys_commit]. eapply started_weaken; [|apply started_first_token]. done. }
  destruct (obeys_uuid4 d0 s I Hg Hfr) as [Hg' Hfr']. unfold bind at 1. cbn [uuid4]. apply (Hrest _ eq_refl); [|done..].
  destruct Hfr as [Hfr Hinj]. split; [apply (Hfr 0%nat)|]. intros n Hn. by apply Hinj in Hn.
Qed.
#[local] Hint Resolve obeys_session : obeys.

(** The next token of a chain that is alive; the old one ends with it. *)
Lemma tame_successor old new (t : RefreshToken) d :
  sessions_ok d -> au_tokens d !! t_id t = Some t -> t_revoked t = false -> au_tokens d !! t_id new = None ->
  t_session_public_id new = t_session_public_id t -> t_user_id new = t_user_id t ->
  same_token t old -> t_revoked old = true ->
  tame (fun d => d <| au_tokens ::= fun m => <[t_id t := old]> (<[t_id new := new]> m) |>) d.
Proof.
  intros [H1 H2 H3] Ht Hlive Hnew Hs Hu Hsame Hrev. pose proof Hsame as (Hi & Hou & Hos & _ & _).
  assert (t_id new <> t_id t) as Hne by (intros He; rewrite He, Ht in Hnew; done).
  assert (forall k u, <[t_id t := old]> (<[t_id new := new]> (au_tokens d)) !! k = Some u ->
    (k = t_id t /\ u = old) \/ (k = t_id new /\ u = new) \/ (k <> t_id t /\ au_tokens d !! k = Some u)) as Hrow.
  { intros k u [[<- <-]|[Hk [[<- <-]|[_ Hu']]%lookup_insert_Some]]%lookup_insert_Some; auto. }
  assert (forall k u, k <> t_id t -> au_tokens d !! k = Some u -> t_session_public_id u = t_session_public_id t ->
    t_revoked u = true) as Hothers.
  { intros k u Hk Hku Hsu. destruct (t_revoked u) eqn:Hr; [done|]. destruct Hk. by apply (H3 k (t_id t) u t). }
  split; [split|split|]; cbn.
  - intros k u [[-> ->]|[[-> ->]|[_ Hk]]]%Hrow; [done|done|by apply H1].
  - intros k k' a b [[-> ->]|[[-> ->]|[Hk Ha]]]%Hrow [[-> ->]|[[-> ->]|[Hk' Hb]]]%Hrow Hab; try congruence.
    + transitivity (t_user_id t); [done|]. by apply (H2 _ _ t b Ht Hb); congruence.
    + transitivity (t_user_id t); [done|]. by apply (H2 _ _ t b Ht Hb); congruence.
    + transitivity (t_user_id t); [|done]. by apply (H2 _ _ a t Ha Ht); congruence.
    + transitivity (t_user_id t); [|done]. by apply (H2 _ _ a t Ha Ht); congruence.
    + by apply (H2 k k').
  - intros k k' a b [[-> ->]|[[-> ->]|[Hk Ha]]]%Hrow [[-> ->]|[[-> ->]|[Hk' Hb]]]%Hrow Hab La Lb; try congruence.
    + rewrite (Hothers k' b) in Lb; congruence.
    + rewrite (Hothers k a) in La; congruence.
    + by apply (H3 k k' a b).
  - intros k u Hk. destruct (decide (k = t_id t)) as [->|Hkt].
    + exists old. rewrite lookup_insert_eq. split; [done|]. rewrite Ht in Hk. by injection Hk as <-.
    + exists u. split; [|apply same_token_refl]. rewrite !lookup_insert_ne; [done| |done]. intros <-. by rewrite Hnew in Hk.
  - intros k u [[-> ->]|[[-> ->]|[_ Hk]]]%Hrow Hno; [by rewrite Ht in Hno| |by rewrite Hk in Hno].
    right. rewrite Hs. intros Hdead. rewrite (Hdead _ _ Ht eq_refl) in Hlive. done.
  - intros sid (k & u & [[-> ->]|[[-> ->]|[_ Hk]]]%Hrow & <-); [exists (t_id t), t|exists (t_id t), t|by exists k, u];
      split; congruence.
Qed.

Definition stored_live (t : RefreshToken) (s : Session) : Prop :=
  au_tokens (s_db s) !! t_id t = Some t /\ t_revoked t = false.

(** A rotation, step by step: refused with nothing done, or done. *)
Definition successor (t : RefreshToken) (raw id : string) (expires_at : Z) : RefreshToken :=
  Token id (t_user_id t) (hash_refresh_token raw) (t_session_public_id t) (Some (t_id t)) None
    expires_at false None None (t_device_name t).

Definition retired (t : RefreshToken) (now : Z) (id : string) : RefreshToken :=
  revoke now ROTATED t <| t_replaced_by_token_id := Some id |>.

(** A hash no token has. *)
Definition hash_unused (raw : string) d : Prop :=
  forall k t, au_tokens d !! k = Some t -> t_token_hash t <> hash_refresh_token raw.

Lemma rotate_run t raw e (s : Session) :
  let id := s_ids s 0%nat in let now := s_clock s 0%nat in
  let s1 : Session := Prelude.Session (s_committed s) (s_db s) (s_out s) (fun n => s_clock s (S n)) (fun n => s_ids s (S n)) in
  let d' := (s_db s) <| au_tokens ::= fun m => <[t_id t := retired t now id]> (<[id := successor t raw id e]> m) |> in
  ((exists ex, rotate t raw e s = (Raise ex, s1)) /\ ~ (au_tokens (s_db s) !! id = None /\ hash_unused raw (s_db s))) \/
  (au_tokens (s_db s) !! id = None /\ hash_unused raw (s_db s) /\
   rotate t raw e s = (Ok (retired t now id),
     Prelude.Session d' d' (s_out s) (fun n => s_clock s (S n)) (fun n => s_ids s (S n)))).
Proof.
  intros id now s1 d'.
  assert (rotate t raw e s = (insert_token (successor t raw id e) ;;;
    modify (fun d => d <| au_tokens ::= <[t_id t := revoke now ROTATED t]> |>) ;;; commit ;;;
    modify (fun d => d <| au_tokens ::= <[t_id t := retired t now id]> |>) ;;; commit ;;; ret (retired t now id)) s1) as ->
    by reflexivity.
  destruct (insert_token_run (successor t raw id e) s1) as [[[ex Hr] Hno]|(Hn & Hh & Hr)].
  - left. split; [exists ex; unfold bind at 1; by rewrite Hr|exact Hno].
  - right. split; [exact Hn|]. split; [exact Hh|]. unfold bind at 1. rewrite Hr. unfold modify, bind, commit, ret, d'. cbn -[hash_refresh_token].
    by rewrite insert_insert_eq.
Qed.

Lemma tame_rotated t raw id now e d :
  sessions_ok d -> au_tokens d !! t_id t = Some t -> t_revoked t = false -> au_tokens d !! id = None ->
  tame (fun d => d <| au_tokens ::= fun m => <[t_id t := retired t now id]> (<[id := successor t raw id e]> m) |>) d.
Proof. intros Hok Ht Hl Hn. by apply (tame_successor (retired t now id) (successor t raw id e)). Qed.

Lemma started_rotate t raw e : under (stored_live t) (rotate t raw e).
Proof.
  intros d0 s [Ht Hlive] Hg [Hfr Hinj].
  assert (forall n m, s_ids s (S n) = s_ids s (S m) -> n = m) as Hinj' by (intros n m Hnm; apply Hinj in Hnm; congruence).
  destruct (rotate_run t raw e s) as [[[ex ->] _]|(Hn & _ & ->)].
  - split; [exact Hg|]. split; [intros n; apply Hfr|exact Hinj'].
  - destruct Hg as [_ [Hok He]].
    destruct (tame_rotated t raw (s_ids s 0%nat) (s_clock s 0%nat) e (s_db s) Hok Ht Hlive Hn) as [H1 H2 H3].
    pose proof (edge_trans _ _ _ He H2) as H4. split; [split; (split; [exact H1|exact H4])|]. split; [|exact Hinj'].
    intros n. destruct (Hfr (S n)) as [Hf _]. split; intros Hk; by apply Hf, H3.
Qed.

Lemma obeys_descendant id : obeys (_latest_active_descendant id).
Proof. unfold _latest_active_descendant. obeys. Qed.
#[local] Hint Resolve obeys_descendant : obeys.

Lemma obeys_inflight t : obeys (_inflight_rotated_refresh t).
Proof. unfold _inflight_rotated_refresh, _access_payload_for_session. obeys. Qed.
#[local] Hint Resolve obeys_inflight : obeys.

(** The row found by its hash is the row at its key. *)
Lemma find_by_token_hash_Some h d t :
  sessions_ok d -> find_by_token_hash h d = Some t -> au_tokens d !! t_id t = Some t /\ t_token_hash t = h.
Proof.
  intros Hok [[k Hk]%list_elem_of_In%elem_of_values Hh%bool_decide_eq_true]%find_some.
  by rewrite (so_keyed d Hok k t Hk).
Qed.

Lemma obeys_refresh raw : obeys (refresh_access_token raw).
Proof.
  unfold refresh_access_token. apply started_gets. intros [t|]; [|apply obeys_under; obeys].
  destruct (t_revoked t) eqn:Hr; [apply obeys_under; obeys|].
  intros d0 s [_ Hf] Hg Hfr. destruct Hg as [Hc [Hok He]].
  destruct (find_by_token_hash_Some _ _ _ Hok Hf) as [Ht _].
  assert (forall {A B} (m : AU A) (f : A -> AU B), obeys m -> (forall s, s_db (m s).2 = s_db s) ->
    (forall a, under (stored_live t) (f a)) -> under (stored_live t) (bind m f)) as Hstep.
  { intros A B m f Hm Hdb Hfa. apply (started_bind _ (stored_live t)); [by apply obeys_under| |done].
    intros a s1 s2 [H1 H2] Hms. specialize (Hdb s1). rewrite Hms in Hdb. cbn in Hdb. split; [by rewrite Hdb|done]. }
  match goal with |- good _ (?m s).2 /\ _ => assert (under (stored_live t) m) as Hm end; [|by apply Hm].
  apply Hstep; [obeys|done|]. intros now. apply Hstep; [obeys|by intros s1; destruct (negb _)|]. intros _.
  apply Hstep; [obeys|done|]. intros d. case_match; [|apply obeys_under; obeys].
  case_match; [apply obeys_under; obeys|]. case_match; [apply obeys_under; obeys|].
  apply Hstep; [obeys|done|]. intros raw'. apply Hstep; [obeys|done|]. intros t0.
  apply (started_bind _ (fun _ => True)); [apply started_rotate|done|]. intros linked.
  apply obeys_bind; [obeys|]. intros access. obeys.
Qed.
#[local] Hint Resolve obeys_refresh : obeys.

Lemma obeys_resolve token : obeys (_resolve_current_user token).
Proof. unfold _resolve_current_user. obeys. Qed.
#[local] Hint Resolve obeys_resolve : obeys.

Lemma obeys_handle r : obeys (handle r).
Proof.
  destruct r; unfold handle, login, logout, forgot_password, reset_password, change_password, set_password, forget_sessions,
    delete_unused_for_user, delete_all_except, delete_all_for_user, delete_resets, mark_used, add_reset, hash_password; obeys.
Qed.

(** ** Runs *)

(** One request, on texts that name no session yet. *)
Inductive step d : au_db -> Prop :=
| step_request clock ids r :
    (forall n, ~ session_known d (ids n)) -> (forall n m, ids n = ids m -> n = m) ->
    step d (run_request clock ids (handle r) d).2.

Lemma step_trail d d' : sessions_ok d -> step d d' -> trail d d'.
Proof.
  intros Hok [clock ids r Hf Hinj]. unfold run_request.
  destruct (obeys_handle r d (open_session clock ids d)) as [[Hg _] _].
  - done.
  - split; (split; [exact Hok|apply edge_refl]).
  - split; [intros n; split; apply Hf|exact Hinj].
  - by destruct (handle r _) as [x s'].
Qed.

Lemma steps_trail d d' : sessions_ok d -> rtc step d d' -> trail d d'.
Proof.
  intros Hok Hrun. induction Hrun as [d|d d1 d2 Hs _ IH]; [split; [done|apply edge_refl]|].
  destruct (step_trail d d1 Hok Hs) as [Hok1 He1]. destruct (IH Hok1) as [Hok2 He2]. split; [done|]. by apply (edge_trans d d1).
Qed.

(** ** The walk along the links *)

Lemma follow_ends d : forall fuel seen current,
  seen ⊆ dom (au_tokens d) -> (size (au_tokens d) < fuel + size seen)%nat -> follow fuel seen current d <> None.
Proof.
  induction fuel as [|fuel IH]; intros seen [id|] Hsub Hsize; [|done| |done]; cbn [follow].
  - case_bool_decide; [done|]. exfalso. pose proof (subseteq_size _ _ Hsub) as Hle. rewrite size_dom in Hle. lia.
  - case_bool_decide as Hin; [done|]. unfold find_by_id. destruct (au_tokens d !! id) as [t|] eqn:Hid; [|done].
    destruct (t_revoked t); cbn [negb]; [|done]. apply IH.
    + apply union_subseteq. split; [|done]. apply singleton_subseteq_l, elem_of_dom. by exists t.
    + rewrite size_union, size_singleton by set_solver. lia.
Qed.

(** What the walk finds is stored and not revoked. *)
Lemma follow_live d t : forall fuel seen current,
  follow fuel seen current d = Some (Some t) -> t_revoked t = false /\ exists k, au_tokens d !! k = Some t.
Proof.
  induction fuel as [|fuel IH]; intros seen [id|]; cbn [follow]; [by case_bool_decide|done| |done].
  case_bool_decide; [done|]. unfold find_by_id. destruct (au_tokens d !! id) as [u|] eqn:Hid; [|done].
  destruct (t_revoked u) eqn:Hr; cbn [negb]; [apply IH|]. intros [= <-]. split; [done|]. by exists id.
Qed.

(** The walk along the links of a chain ends whatever the links say, a cycle
    included: one step more than there are tokens is enough.  The request
    therefore has an answer, which is an unrevoked and unexpired token or none. *)
Theorem descendant_walk_ends id (s : Session) :
  follow (walk_fuel (s_db s)) ∅ id (s_db s) <> None /\
  exists r, (_latest_active_descendant id s).1 = Ok r /\
    match r with Some t => t_revoked t = false /\ s_clock s 0%nat < t_expires_at t | None => True end.
Proof.
  assert (follow (walk_fuel (s_db s)) ∅ id (s_db s) <> None) as Hend.
  { apply follow_ends; [set_solver|]. unfold walk_fuel. lia. }
  split; [done|]. unfold _latest_active_descendant, bind, gets.
  destruct (follow _ _ _ _) as [[t|]|] eqn:Hf; [|by exists None|done]. cbn.
  destruct (Z.leb_spec (t_expires_at t) (s_clock s 0%nat)); [by exists None|]. exists (Some t).
  split; [done|]. split; [|lia]. by apply follow_live in Hf as [? _].
Qed.

(** ** Dead sessions *)

(** Two states of a session that have the same tables. *)
Definition same_db (s s' : Session) : Prop := s_db s' = s_db s /\ s_committed s' = s_committed s.

Lemma descendant_run id (s : Session) :
  exists r s', _latest_active_descendant id s = (Ok r, s') /\ same_db s s' /\
    match r with Some t => t_revoked t = false /\ exists k, au_tokens (s_db s) !! k = Some t | None => True end.
Proof.
  assert (follow (walk_fuel (s_db s)) ∅ id (s_db s) <> None) as Hend.
  { apply follow_ends; [set_solver|]. unfold walk_fuel. lia. }
  unfold _latest_active_descendant, bind, gets. destruct (follow _ _ _ _) as [[t|]|] eqn:Hf; [| |done].
  - apply follow_live in Hf. cbn. eexists _, _. split; [done|]. split; [by split|]. by destruct (_ <=? _).
  - by exists None, s.
Qed.

(** A duplicate is only answered for a chain that is alive, and soon after the
    rotation. *)
Lemma inflight_run t (s : Session) :
  exists r s', _inflight_rotated_refresh t s = (Ok r, s') /\ same_db s s' /\
    (is_Some r -> (exists k c, au_tokens (s_db s) !! k = Some c /\ t_session_public_id c = t_session_public_id t /\ t_revoked c = false) /\
       t_revocation_reason t ∈ [None; Some ROTATED] /\
       exists at_, t_revoked_at t = Some at_ /\ s_clock s 0%nat - at_ <= REFRESH_REUSE_GRACE).
Proof.
  match goal with |- exists r s', _ = _ /\ _ /\ (_ -> ?P) =>
    assert (forall s', same_db s s' -> exists (r : option answer) s0, (Ok None, s') = (Ok r, s0) /\ same_db s s0 /\ (is_Some r -> P)) as Hno end.
  { intros s' Hs'. exists None, s'. split; [done|]. split; [done|]. by intros []. }
  unfold _inflight_rotated_refresh. destruct (t_replaced_by_token_id t) as [child|]; [|by apply Hno].
  case_bool_decide as Hreason; [|by apply Hno]. destruct (t_revoked_at t) as [at_|]; [|by apply Hno].
  unfold bind at 1, utc_now. set (s1 := Prelude.Session _ _ _ _ _ : Session).
  destruct (Z.ltb_spec REFRESH_REUSE_GRACE (s_clock s 0%nat - at_)) as [Hl|Hl]; [by apply Hno|].
  unfold bind at 1. destruct (descendant_run (Some child) s1) as (r & s2 & -> & Hd & Hr).
  destruct r as [c|]; [|by apply Hno]. destruct Hr as [Hrev [k Hk]].
  case_bool_decide as Hs; cbn [negb]; [|by apply Hno].
  unfold bind at 1, gets. destruct (match au_users (s_db s2) !! t_user_id t with Some _ => _ | None => _ end) as [u|]; [|by apply Hno].
  destruct (u_is_deleted u || negb (u_active u)); [by apply Hno|].
  eexists _, _. split; [reflexivity|]. split; [exact Hd|]. intros _. split; [by exists k, c|]. split; [done|]. by exists at_.
Qed.

Lemma refresh_dead raw t (s : Session) :
  find_by_token_hash (hash_refresh_token raw) (s_db s) = Some t -> t_revoked t = true ->
  session_dead (s_db s) (t_session_public_id t) ->
  (refresh_access_token raw s).1 = Raise (InvalidCredentialsException "Refresh token revoked").
Proof.
  intros Hf Hr Hdead. unfold refresh_access_token, bind at 1, gets. rewrite Hf, Hr.
  unfold bind at 1. destruct (inflight_run t s) as (r & s' & -> & _ & Hsome). destruct r as [a|].
  - destruct Hsome as [(k & c & Hk & Hs & Hl) _]; [done|]. by rewrite (Hdead k c Hk Hs) in Hl.
  - unfold bind. by destruct (when _ _ s') as [[[]|e] s''] eqn:Hw; [|destruct (negb _); discriminate Hw].
Qed.

Lemma no_active_dead d sid now : session_dead d sid -> find_active_by_session sid now d = [].
Proof.
  intros Hdead. unfold find_active_by_session. apply select_none. intros t (k & Hk)%elem_of_values.
  destruct (bool_decide_reflect (t_session_public_id t = sid)) as [Hs|]; [|done]. by rewrite (Hdead k t Hk Hs).
Qed.

(** A request authenticated for a dead session is refused. *)
Lemma resolve_dead token p sid (s : Session) :
  jwt_decode (s_clock s 0%nat) token = Some p -> c_session_public_id p = Some sid -> session_dead (s_db s) sid ->
  exists detail s', _resolve_current_user token s = (Raise (HTTPException detail 401), s') /\ same_db s s'.
Proof.
  intros Hp Hsid Hdead. unfold _resolve_current_user, bind at 1, utc_now. rewrite Hp, Hsid. set (s1 := Prelude.Session _ _ _ _ _ : Session).
  unfold validate_token_type. case_bool_decide; [|eexists _, s1; by split]. unfold bind at 1, lift_res.
  destruct (c_sub p) as [email|]; [|eexists _, s1; by split]. unfold bind at 1.
  destruct (truthy (Some sid)); [|eexists _, s1; by split]. cbn [guard_exn ret default from_option id].
  unfold bind, gets. cbn. rewrite no_active_dead by exact Hdead. eexists _, _. by split.
Qed.

(** C38. A session without an unrevoked token stays so, whatever requests follow:
    its access tokens are refused and none of its refresh tokens is exchanged. *)
Theorem dead_session_stays_dead d d' sid :
  sessions_ok d -> rtc step d d' -> session_known d sid -> session_dead d sid ->
  (forall clock ids token p, jwt_decode (clock 0%nat) token = Some p -> c_session_public_id p = Some sid ->
     exists detail, run_request clock ids (_resolve_current_user token) d' = (Raise (HTTPException detail 401), d')) /\
  (forall clock ids raw t, find_by_token_hash (hash_refresh_token raw) d' = Some t -> t_session_public_id t = sid ->
     (run_request clock ids (refresh_access_token raw) d').1 = Raise (InvalidCredentialsException "Refresh token revoked")).
Proof.
  intros Hok Hrun Hk Hdead. destruct (steps_trail d d' Hok Hrun) as [Hok' He].
  pose proof (edge_dead d d' sid He Hk Hdead) as Hdead'. split.
  - intros clock ids token p Hp Hsid. unfold run_request.
    destruct (resolve_dead token p sid (open_session clock ids d') Hp Hsid Hdead') as (detail & s' & -> & _ & ->). by exists detail.
  - intros clock ids raw t Hf Hs. unfold run_request. destruct (find_by_token_hash_Some _ _ _ Hok' Hf) as [Ht _].
    pose proof (refresh_dead raw t (open_session clock ids d') Hf (Hdead' _ t Ht Hs)) as H.
    rewrite Hs in H. specialize (H Hdead'). by destruct (refresh_access_token _ _) as [r s'].
Qed.

(** C37. Whatever requests run on a database whose tokens are in order - an empty
    one is - each session has one unrevoked refresh token at most, all its tokens
    are of one user, and tokens are only ever added, or revoked for good. *)
Theorem one_live_token d d' :
  sessions_ok d -> rtc step d d' ->
  (forall k k' t t', au_tokens d' !! k = Some t -> au_tokens d' !! k' = Some t' ->
     t_session_public_id t = t_session_public_id t' ->
     t_user_id t = t_user_id t' /\ (t_revoked t = false -> t_revoked t' = false -> t = t')) /\
  (forall k t, au_tokens d !! k = Some t -> exists t', au_tokens d' !! k = Some t' /\ same_token t t').
Proof.
  intros Hok Hrun. destruct (steps_trail d d' Hok Hrun) as [[H1 H2 H3] He]. split; [|apply (se_old _ _ He)].
  intros k k' t t' Ht Ht' Hs. split; [by apply (H2 k k')|]. intros Hl Hl'.
  assert (k = k') as -> by (by apply (H3 k k' t t')). congruence.
Qed.

(** ** Reuse of a token *)

Lemma revoked_where p now reason d k t :
  au_tokens (revoke_where p now reason d) !! k = Some t <->
  exists u, au_tokens d !! k = Some u /\ t = if p u && negb (t_revoked u) then revoke now reason u else u.
Proof. cbn. rewrite lookup_fmap, fmap_Some. naive_solver. Qed.

Lemma revoke_where_dead (p : RefreshToken -> bool) now reason d sid :
  (forall u, t_session_public_id u = sid -> p u = true) -> session_dead (revoke_where p now reason d) sid.
Proof.
  intros Hp k t (u & _ & ->)%revoked_where Hs. destruct (p u && negb (t_revoked u)) eqn:Hr; [done|].
  rewrite Hp in Hr by done. by apply negb_false_iff in Hr.
Qed.

Lemma revoke_where_other (p : RefreshToken -> bool) now reason d k u :
  au_tokens d !! k = Some u -> p u = false -> au_tokens (revoke_where p now reason d) !! k = Some u.
Proof. intros Hk Hp. apply revoked_where. exists u. by rewrite Hp. Qed.

(** C39. Presenting a refresh token that was replaced, other than as a duplicate
    within 30 seconds of a rotation, is refused and ends the whole session: no
    token of it is left unrevoked, and no other session is touched. *)
Theorem reuse_kills_session clock ids raw t d :
  find_by_token_hash (hash_refresh_token raw) d = Some t -> t_revoked t = true -> t_replaced_by_token_id t <> None ->
  (forall at_, t_revoked_at t = Some at_ -> t_revocation_reason t ∈ [None; Some ROTATED] ->
     REFRESH_REUSE_GRACE < clock 0%nat - at_) ->
  let r := run_request clock ids (refresh_access_token raw) d in
  r.1 = Raise (InvalidCredentialsException "Refresh token revoked") /\
  session_dead r.2 (t_session_public_id t) /\
  (forall k u, au_tokens d !! k = Some u -> t_session_public_id u <> t_session_public_id t -> au_tokens r.2 !! k = Some u) /\
  au_users r.2 = au_users d.
Proof.
  intros Hf Hr Hrep Hlate.
  assert (exists now, run_request clock ids (refresh_access_token raw) d = (Raise (InvalidCredentialsException "Refresh token revoked"),
    revoke_where (fun u => bool_decide (t_session_public_id u = t_session_public_id t)) now REUSE_DETECTED d)) as [now ->].
  { unfold run_request, refresh_access_token, bind at 1, gets. cbn [open_session s_db]. rewrite Hf, Hr.
    unfold bind at 1. destruct (inflight_run t (open_session clock ids d)) as (r & s' & Hi & [Hdb Hc] & Hsome).
    rewrite Hi. destruct r as [a|].
    { destruct Hsome as (_ & Hreason & at_ & Hat & Hle); [done|]. specialize (Hlate at_ Hat Hreason). cbn in Hle. lia. }
    rewrite (bool_decide_eq_false_2 _ Hrep). cbn in Hdb. exists (s_clock s' 0%nat). cbn -[revoke_where]. by rewrite Hdb. }
  cbn [fst snd]. split; [done|]. split_and!.
  - apply revoke_where_dead. intros u Hu. by apply bool_decide_eq_true.
  - intros k u Hk Hne. apply revoke_where_other; [done|]. by apply bool_decide_eq_false.
  - done.
Qed.

(** ** What a sign-in gives *)

(** The access token names the user until [lasts] (seconds) and while a refresh
    token of its session lives, until [expires]. *)
Definition accepted d (access : jwt) (u : AppUser) (lasts expires : Z) : Prop := forall clock ids,
  clock 0%nat / 1000000 <= lasts -> clock 1%nat < expires ->
  run_request clock ids (_resolve_current_user access) d = (Ok u, d).

Lemma accepted_intro d u sid k t lasts iat :
  sid <> EmptyString -> find_by_email (u_email u) d = Some u -> u_active u = true -> u_is_deleted u = false ->
  match u_password_changed_at u with Some c => c <= seconds iat | None => True end ->
  au_tokens d !! k = Some t -> t_session_public_id t = sid -> t_revoked t = false -> t_user_id t = u_id u ->
  accepted d (jwt_encode (Payload (Some (u_email u)) (role_claim u) (Some ACCESS_TOKEN_TYPE) (Some sid) lasts (Some iat)))
    u lasts (t_expires_at t).
Proof.
  intros Hsid Hu Ha Hdel Hch Hk Hs Hl Hown clock ids H1 H2. unfold run_request, _resolve_current_user, bind at 1, utc_now.
  cbn [open_session s_clock s_db s_ids s_out s_committed]. rewrite jwt_decode_encode. cbn [c_exp]. rewrite (proj2 (Z.leb_le _ _) H1). cbn [c_sub c_token_type c_session_public_id validate_token_type].
  unfold validate_token_type. cbn [c_token_type]. rewrite bool_decide_eq_true_2 by done.
  unfold bind at 1, lift_res. unfold truthy. rewrite (bool_decide_eq_false_2 (sid = EmptyString)) by done.
  cbn [negb guard_exn default from_option id]. unfold bind at 1, ret at 1. unfold bind at 1, utc_now.
  set (act := find_active_by_session sid (clock 1%nat) d).
  assert (t ∈ act) as Hin.
  { apply elem_of_select_where. split; [|apply elem_of_values; by exists k].
    rewrite (bool_decide_eq_true_2 _ Hs), Hl. by apply Z.ltb_lt. }
  unfold bind at 1, gets at 1. cbn [s_db s_clock]. fold act.
  rewrite (bool_decide_eq_false_2 (act = [])) by (intros He; rewrite He in Hin; set_solver).
  cbn [negb guard_exn]. unfold bind at 1, ret at 1. unfold bind at 1, gets. cbn [s_db]. rewrite Hu, Ha, Hdel.
  assert (access_token_invalidated_by_password_change
    (Payload (Some (u_email u)) (role_claim u) (Some ACCESS_TOKEN_TYPE) (Some sid) lasts (Some iat)) u = false) as ->.
  { unfold access_token_invalidated_by_password_change. cbn. destruct (u_password_changed_at u); [|done]. by apply Z.ltb_ge. }
  rewrite (bool_decide_eq_true_2 (u_id u ∈ map t_user_id act)); [done|].
  rewrite <-Hown. apply list_elem_of_In, in_map, list_elem_of_In, Hin.
Qed.

Lemma find_unique_hash d k t :
  au_tokens d !! k = Some t -> (forall k' u, au_tokens d !! k' = Some u -> t_token_hash u = t_token_hash t -> u = t) ->
  find_by_token_hash (t_token_hash t) d = Some t.
Proof.
  intros Hk Huniq. unfold find_by_token_hash. destruct (List.find _ _) as [u|] eqn:Hf.
  - apply find_some in Hf as [[k' Hk']%list_elem_of_In%elem_of_values Hh%bool_decide_eq_true]. f_equal. by apply (Huniq k').
  - pose proof (find_none _ _ Hf t) as Hn. cbn beta in Hn. rewrite bool_decide_eq_true_2 in Hn by done.
    enough (true = false) by done. apply Hn, list_elem_of_In, elem_of_values. by exists k.
Qed.

Definition may_sign_in (u : AppUser) d : Prop :=
  find_by_email (u_email u) d = Some u /\ u_active u = true /\ u_is_deleted u = false.

(** The second an access token issued at [now] lasts to. *)
Definition access_lasts (now : Z) : Z := (now + milliseconds JWT_ACCESS_TOKEN_EXPIRE_MS) / 1000000.

(** No password was set after the second of [now] began. *)
Definition password_older (u : AppUser) (now : Z) : Prop :=
  match u_password_changed_at u with Some c => c <= seconds (now / 1000000) | None => True end.

Lemma successor_accepted d t u raw id now e lasts iat :
  sessions_ok d -> au_tokens d !! t_id t = Some t -> au_tokens d !! id = None -> hash_unused raw d ->
  t_user_id t = u_id u -> t_session_public_id t <> EmptyString -> may_sign_in u d ->
  match u_password_changed_at u with Some c => c <= seconds iat | None => True end ->
  let d' := d <| au_tokens ::= fun m => <[t_id t := retired t now id]> (<[id := successor t raw id e]> m) |> in
  accepted d' (jwt_encode (Payload (Some (u_email u)) (role_claim u) (Some ACCESS_TOKEN_TYPE) (Some (t_session_public_id t)) lasts (Some iat)))
    u lasts e /\
  find_by_token_hash (hash_refresh_token raw) d' = Some (successor t raw id e) /\
  au_tokens d' !! t_id t = Some (retired t now id).
Proof.
  intros Hok Ht Hid Hraw Hown Hsid (Hu & Ha & Hdel) Hpw d'.
  assert (id <> t_id t) as Hne by (intros ->; by rewrite Ht in Hid).
  assert (au_tokens d' !! id = Some (successor t raw id e)) as Hnew by (cbn; by rewrite lookup_insert_ne, lookup_insert_eq).
  assert (au_tokens d' !! t_id t = Some (retired t now id)) as Hold by (cbn; by rewrite lookup_insert_eq).
  assert (t_token_hash t <> hash_refresh_token raw) as Hth by exact (Hraw _ _ Ht).
  split; [|split].
  - change e with (t_expires_at (successor t raw id e)). by apply (accepted_intro d' u _ id (successor t raw id e)).
  - apply (find_unique_hash d' id (successor t raw id e) Hnew). intros k v Hk Hh. cbn -[hash_refresh_token] in Hk, Hh.
    apply lookup_insert_Some in Hk as [[<- <-]|[_ [[<- <-]|[_ Hk]]%lookup_insert_Some]]; [done|done|]. by apply Hraw in Hk.
  - exact Hold.
Qed.

(** A live refresh token is exchanged once: the answer carries a new refresh
    token of the same session, which is stored in place of the old, and an access
    token that is accepted while it lasts; the old token is retired with a link
    to the new. *)
Theorem refresh_rotates clock ids raw t u d :
  sessions_ok d -> find_by_token_hash (hash_refresh_token raw) d = Some t -> t_revoked t = false ->
  clock 0%nat <= t_expires_at t -> au_users d !! t_user_id t = Some u -> u_id u = t_user_id t -> may_sign_in u d ->
  t_session_public_id t <> EmptyString -> hash_unused (ids 0%nat) d -> au_tokens d !! ids 1%nat = None ->
  password_older u (clock 4%nat) ->
  let expires := clock 1%nat + milliseconds JWT_REFRESH_TOKEN_EXPIRE_MS in
  exists access d', run_request clock ids (refresh_access_token raw) d = (Ok (Answer access (Some (ids 0%nat))), d') /\
    accepted d' access u (access_lasts (clock 3%nat)) expires /\
    find_by_token_hash (hash_refresh_token (ids 0%nat)) d' = Some (successor t (ids 0%nat) (ids 1%nat) expires) /\
    au_tokens d' !! t_id t = Some (retired t (clock 2%nat) (ids 1%nat)) /\
    au_users d' = au_users d.
Proof.
  intros Hok Hf Hr Hexp Hu Hown Hmay Hsid Hraw Hid Hpw expires. destruct (find_by_token_hash_Some _ _ _ Hok Hf) as [Ht _].
  pose proof Hmay as (_ & Ha & Hdel).
  set (d' := d <| au_tokens ::= fun m => <[t_id t := retired t (clock 2%nat) (ids 1%nat)]> (<[ids 1%nat := successor t (ids 0%nat) (ids 1%nat) expires]> m) |>).
  eexists _, d'. split.
  - unfold run_request, refresh_access_token, bind at 1, gets. fields. rewrite Hf, Hr.
    unfold bind at 1, utc_now at 1. fields. rewrite (proj2 (Z.ltb_ge _ _) Hexp). cbn [negb guard_exn].
    unfold bind at 1, ret at 1. unfold bind at 1. fields. rewrite Hu, Hdel, Ha. cbn [negb].
    unfold bind at 1, random_text, uuid4 at 1. unfold bind at 1, utc_now at 1. fields.
    unfold bind at 1. match goal with |- context [rotate t ?r ?e ?s] =>
      destruct (rotate_run t r e s) as [[_ Hno]|(_ & _ & Hrun)] end; [by destruct Hno|].
    rewrite Hrun. reflexivity.
  - destruct (successor_accepted d t u (ids 0%nat) (ids 1%nat) (clock 2%nat) expires (access_lasts (clock 3%nat)) (clock 4%nat / 1000000)) as (H1 & H2 & H3); [done..|].
    split_and!; [exact H1|exact H2|exact H3|done].
Qed.

(** The first token of a session of [u]. *)
Definition first_token (u : AppUser) (device : option string) (raw session id : string) (expires : Z) : RefreshToken :=
  Token id (u_id u) (hash_refresh_token raw) session None None expires false None None
    (Some (str_or device resolved_session_scope)).

Definition of_deployment (u : AppUser) (t : RefreshToken) : bool :=
  bool_decide (t_user_id t = u_id u) && bool_decide (t_device_name t = Some resolved_session_scope).

Lemma session_run u device clock ids d :
  hash_unused (ids 1%nat) d -> au_tokens d !! ids 2%nat = None ->
  let expires := clock 1%nat + milliseconds JWT_REFRESH_TOKEN_EXPIRE_MS in
  let t := first_token u device (ids 1%nat) (ids 0%nat) (ids 2%nat) expires in
  let d' := (revoke_where (of_deployment u) (clock 0%nat) LOGOUT d) <| au_tokens ::= <[ids 2%nat := t]> |> in
  exists s', _create_authenticated_session u device (open_session clock ids d)
    = (Ok (Answer (jwt_encode (Payload (Some (u_email u)) (role_claim u) (Some ACCESS_TOKEN_TYPE) (Some (ids 0%nat))
        (access_lasts (clock 2%nat)) (Some (clock 3%nat / 1000000)))) (Some (ids 1%nat))), s') /\ s_committed s' = d'.
Proof.
  intros Hraw Hid expires t d'. set (d1 := revoke_where (of_deployment u) (clock 0%nat) LOGOUT d).
  set (s1 := Prelude.Session d1 d1 [] (fun n => clock (S (S n))) (fun n => ids (S (S (S n)))) : Session).
  assert (_create_authenticated_session u device (open_session clock ids d)
    = (insert_token t ;;; commit ;;; do access <- create_access_token (u_email u) (role_claim u) (ids 0%nat);
       ret (Answer access (Some (ids 1%nat)))) s1) as ->.
  { unfold _create_authenticated_session, save. unfold bind at 1. cbn -[revoke_where hash_refresh_token insert_token].
    unfold bind. cbn -[revoke_where hash_refresh_token insert_token]. 
    match goal with |- (let (_, _) := (let (_, _) := ?x in _) in _) = _ => change x with (insert_token t s1) end.
    by destruct (insert_token t s1) as [[[]|e] s2]. }
  unfold bind at 1. destruct (insert_token_run t s1) as [[_ Hno]|(_ & _ & Hrun)].
  - destruct Hno. cbn -[hash_refresh_token revoke_where]. split.
    + cbn. by rewrite lookup_fmap, Hid.
    + intros k v (v0 & Hv & ->)%revoked_where. apply Hraw in Hv. by destruct (_ && _).
  - rewrite Hrun. eexists. split; [reflexivity|]. reflexivity.
Qed.

(** A correct password of an account in order opens a session: its refresh
    token is stored, its access token is accepted while it lasts, and no other
    session of the user at this deployment is left alive. *)
Theorem login_opens_session email password device hashed u clock ids d :
  find_by_email (strip (lower email)) d = Some u -> may_sign_in u d -> u_email_verified u = true ->
  u_password u = Some hashed -> hashed <> EmptyString -> verify_password password hashed = true ->
  ids 0%nat <> EmptyString -> hash_unused (ids 1%nat) d -> au_tokens d !! ids 2%nat = None -> password_older u (clock 3%nat) ->
  let expires := clock 1%nat + milliseconds JWT_REFRESH_TOKEN_EXPIRE_MS in
  let t := first_token u device (ids 1%nat) (ids 0%nat) (ids 2%nat) expires in
  exists access d', run_request clock ids (login email password device) d = (Ok (Answer access (Some (ids 1%nat))), d') /\
    accepted d' access u (access_lasts (clock 2%nat)) expires /\
    find_by_token_hash (hash_refresh_token (ids 1%nat)) d' = Some t /\
    (forall k v, au_tokens d' !! k = Some v -> of_deployment u v = true -> t_revoked v = true \/ v = t) /\
    (forall k v, au_tokens d !! k = Some v -> of_deployment u v = false -> au_tokens d' !! k = Some v).
Proof.
  intros Hf Hmay Hver Hpass Hne Hok Hsid Hraw Hid Hpw expires t. pose proof Hmay as (Hu & Ha & Hdel).
  destruct (session_run u device clock ids d Hraw Hid) as (s' & Hrun & Hc). fold expires t in Hrun, Hc.
  eexists _, (s_committed s'). split.
  { unfold run_request, login, bind at 1, gets. fields. rewrite Hf, Hpass. unfold truthy at 1.
    rewrite (bool_decide_eq_false_2 _ Hne). cbn [negb default from_option id]. rewrite Hok, Hver. unfold guard_exn, bind at 1 2, ret at 1 2.
    unfold _assert_user_may_authenticate. rewrite Ha, Hdel. unfold bind at 1, lift_res. cbn [negb]. rewrite Hrun. reflexivity. }
  rewrite Hc. set (d' := (revoke_where _ _ _ d) <| au_tokens ::= _ |>).
  assert (au_tokens d' !! ids 2%nat = Some t) as Ht by (cbn; by rewrite lookup_insert_eq).
  assert (forall k v, au_tokens d' !! k = Some v -> v = t \/ exists v0, au_tokens d !! k = Some v0 /\
    v = if of_deployment u v0 && negb (t_revoked v0) then revoke (clock 0%nat) LOGOUT v0 else v0) as Hrow.
  { intros k v Hk. unfold d' in Hk. cbn -[revoke_where] in Hk. apply lookup_insert_Some in Hk as [[_ <-]|[_ Hk]]; [by left|right].
    by apply revoked_where in Hk. }
  split_and!.
  - change expires with (t_expires_at t). by apply (accepted_intro d' u _ (ids 2%nat) t).
  - apply (find_unique_hash d' (ids 2%nat) t Ht). intros k v [->|(v0 & Hv & ->)]%Hrow Hh; [done|].
    apply Hraw in Hv. destruct Hv. by destruct (_ && _).
  - intros k v [->|(v0 & Hv & ->)]%Hrow Hdep; [by right|left].
    destruct (of_deployment u v0) eqn:Hd; [by destruct (t_revoked v0) eqn:Hr; cbn [andb negb]|]. cbn [andb] in Hdep. by rewrite Hd in Hdep.
  - intros k v Hk Hd. unfold d'. cbn -[revoke_where]. rewrite lookup_insert_ne by (intros <-; by rewrite Hid in Hk).
    by apply revoke_where_other.
Qed.

(** ** Passwords: what a change does *)

(** Rows have their keys. *)
Record rows_keyed d : Prop := {
  rk_users : forall k u, au_users d !! k = Some u -> u_id u = k;
  rk_resets : forall k r, au_resets d !! k = Some r -> r_id r = k;
}.

Definition signed_out d (user_id : string) : Prop :=
  forall k t, au_tokens d !! k = Some t -> t_user_id t = user_id -> t_revoked t = true.

Lemma signed_out_revoke d user_id now reason (p : RefreshToken -> bool) :
  (forall t, t_user_id t = user_id -> p t = true) -> signed_out (revoke_where p now reason d) user_id.
Proof.
  intros Hp k t (u & _ & ->)%revoked_where Hu. destruct (p u && negb (t_revoked u)) eqn:Hr; [done|].
  rewrite Hp in Hr by done. by apply negb_false_iff in Hr.
Qed.

Lemma find_reset_Some h d r :
  rows_keyed d -> find_reset_by_hash h d = Some r -> au_resets d !! r_id r = Some r /\ r_token_hash r = h.
Proof.
  intros Hd [[k Hk]%list_elem_of_In%elem_of_values Hh%bool_decide_eq_true]%find_some. by rewrite (rk_resets d Hd k r Hk).
Qed.

(** The row, the link and the sessions after a reset. *)
Definition after_reset (r : PasswordResetToken) (u : AppUser) (hashed : string) (now t1 : Z) d : au_db :=
  revoke_where (fun t => bool_decide (t_user_id t = u_id u) && true) t1 PASSWORD_CHANGED
    ((put_user (u <| u_password := Some hashed |> <| u_password_changed_at := Some now |>
        <| u_auth_provider := if bool_decide (u_auth_provider u = OAUTH) then EMAIL else u_auth_provider u |>) d)
     <| au_resets ::= fun m => filter (fun kr => bool_decide (r_user_id kr.2 = u_id u) && negb (bool_decide (r_id kr.2 = r_id r)) = false)
          (<[r_id r := r <| r_used_at := Some now |>]> m) |>).

Lemma reset_password_run clock ids raw new_password d :
  (exists r u, find_reset_by_hash (hash_reset_token raw) d = Some r /\ r_used_at r = None /\ clock 0%nat <= r_expires_at r /\
     au_users d !! r_user_id r = Some u /\ _is_eligible_for_password_reset u = true /\
     run_request clock ids (reset_password raw new_password) d
     = (Ok tt, after_reset r u (pw_hash (ids 0%nat) new_password) (clock 0%nat) (clock 1%nat) d)) \/
  run_request clock ids (reset_password raw new_password) d = (Raise INVALID_RESET_LINK, d).
Proof.
  destruct (run_request clock ids (reset_password raw new_password) d) as [x d'] eqn:Hrun. revert Hrun.
  unfold run_request, reset_password, bind at 1, gets. fields.
  destruct (find_reset_by_hash (hash_reset_token raw) d) as [r|] eqn:Hf; [|intros [= <- <-]; by right].
  unfold bind, utc_now. fields. destruct (decide (r_used_at r = None)) as [Hu|Hu];
    [rewrite (bool_decide_eq_true_2 _ Hu)|rewrite (bool_decide_eq_false_2 _ Hu); intros [= <- <-]; by right].
  cbn [guard_exn ret]. destruct (Z.ltb_spec (r_expires_at r) (clock 0%nat)) as [He|He]; [intros [= <- <-]; by right|].
  cbn [negb guard_exn ret]. fields.
  destruct (au_users d !! r_user_id r) as [u|] eqn:Hk; [|intros [= <- <-]; by right].
  destruct (_is_eligible_for_password_reset u) eqn:Hel; [|intros [= <- <-]; by right].
  intros [= <- <-]. left. exists r, u. by repeat (split; [done|]).
Qed.

(** A password reset that succeeds used an unused and unexpired link of the
    user: their row then has a hash the new password verifies, every session of
    theirs is revoked, and no link of theirs is accepted again.  A reset that
    fails changes nothing. *)
Theorem password_reset_once clock ids raw new_password d :
  rows_keyed d ->
  match run_request clock ids (reset_password raw new_password) d with
  | (Ok _, d') =>
      exists r u, find_reset_by_hash (hash_reset_token raw) d = Some r /\ r_used_at r = None /\ clock 0%nat <= r_expires_at r /\
        au_users d !! r_user_id r = Some u /\
        (exists u' hashed, au_users d' !! r_user_id r = Some u' /\ u_password u' = Some hashed /\
           verify_password new_password hashed = true /\ u_email u' = u_email u) /\
        signed_out d' (r_user_id r) /\
        (forall clock' ids' raw' again r', find_reset_by_hash (hash_reset_token raw') d' = Some r' -> r_user_id r' = r_user_id r ->
           run_request clock' ids' (reset_password raw' again) d' = (Raise INVALID_RESET_LINK, d'))
  | (Raise e, d') => e = INVALID_RESET_LINK /\ d' = d
  end.
Proof.
  intros Hd. destruct (reset_password_run clock ids raw new_password d) as [(r & u & Hf & Hused & Hexp & Hk & _ & ->)| ->]; [|by split].
  pose proof (rk_users d Hd _ _ Hk) as Hid. destruct (find_reset_Some _ _ _ Hd Hf) as [Hr _].
  exists r, u. split_and!; [done..| | |].
  - eexists _, _. cbn. rewrite <-Hid, lookup_insert_eq. split; [done|]. cbn. split; [done|]. split; [apply pw_verify_hash|done].
  - rewrite <-Hid. apply signed_out_revoke. intros t Ht. by rewrite (bool_decide_eq_true_2 _ Ht).
  - intros clock' ids' raw' again r' Hf' Hu'.
    destruct (reset_password_run clock' ids' raw' again (after_reset r u (pw_hash (ids 0%nat) new_password) (clock 0%nat) (clock 1%nat) d))
      as [(r1 & u1 & Hf1 & Hused1 & _)| ->]; [|done]. rewrite Hf' in Hf1. injection Hf1 as <-. exfalso.
    apply find_some in Hf' as [[k Hin]%list_elem_of_In%elem_of_values _]. unfold after_reset in Hin. cbn in Hin.
    apply map_lookup_filter_Some in Hin as [Hin Hkeep]. cbn in Hkeep. rewrite Hu', <-Hid, bool_decide_eq_true_2 in Hkeep by done.
    apply negb_false_iff, bool_decide_eq_true in Hkeep.
    apply lookup_insert_Some in Hin as [[_ <-]|[Hne Hin]]; [done|]. apply Hne. by rewrite <-(rk_resets d Hd k r' Hin).
Qed.

(** A signed-in user who changes the password is told so and signed out
    everywhere, but the row keeps the old password: the new one is assigned to an
    object that belongs to no session, and no user row changes. *)
Theorem changed_password_lost clock ids u current new_password d :
  truthy (u_password u) = true -> verify_password current (default EmptyString (u_password u)) = true ->
  let r := run_request clock ids (change_password u current new_password) d in
  (exists u', r.1 = Ok u' /\ u_password u' = Some (pw_hash (ids 0%nat) new_password)) /\
  au_users r.2 = au_users d /\ signed_out r.2 (u_id u).
Proof.
  intros Hp Hv.
  assert (exists u' d1, run_request clock ids (change_password u current new_password) d
    = (Ok u', revoke_where (fun t => bool_decide (t_user_id t = u_id u) && true) (clock 1%nat) PASSWORD_CHANGED d1) /\
    u_password u' = Some (pw_hash (ids 0%nat) new_password) /\ au_users d1 = au_users d) as (u' & d1 & -> & Hu' & Hd1).
  { unfold run_request, change_password. rewrite Hp, Hv. eexists _, _. split; [reflexivity|]. by split. }
  cbn [fst snd]. split; [by exists u'|]. split; [exact Hd1|]. apply signed_out_revoke. intros t Ht. by rewrite (bool_decide_eq_true_2 _ Ht).
Qed.
End Handlers.

(** ** Cases *)

Module Gatehouse.

#[export] Instance config : AuthConfig := {|
  JWT_REFRESH_TOKEN_PEPPER := "a pepper of thirty-two characters";
  JWT_ACCESS_TOKEN_EXPIRE_MS := 900000;
  JWT_REFRESH_TOKEN_EXPIRE_MS := 604800000;
  SESSION_SCOPE := None;
  ENVIRONMENT := Some "Production"%string;
|}.

(** Tokens that are their payload, and hashes that show the password. *)
#[export] Program Instance plain_jwt : Jwt := {|
  jwt := payload;
  jwt_encode p := p;
  jwt_decode now p := if now / 1000000 <=? c_exp p then Some p else None;
|}.
Next Obligation. done. Qed.

#[export] Program Instance shown_passwords : Passwords := {|
  pw_hash _ p := ("h:" +:+ p)%string;
  pw_verify p h := bool_decide (h = ("h:" +:+ p)%string);
|}.
Next Obligation. intros salt p. by apply bool_decide_eq_true. Qed.
Next Obligation. done. Qed.

Definition asha : AppUser := User "u1" "asha@mail.in" (Some "h:secret"%string) true false true EMAIL None None "SELLER".

Definition d0 : au_db := AuDb {["u1"%string := asha]} ∅ ∅.

(** The texts and the clock of the request [name], begun at second [t]. *)
Definition ids (name : string) (n : nat) : string := (name +:+ pretty n)%string.
Definition clock (t : Z) (n : nat) : Z := seconds t + Z.of_nat n.

Definition after (name : string) (t : Z) (r : request) (d : au_db) : au_db := (run_request (clock t) (ids name) (handle r) d).2.

Definition d1 : au_db := Eval vm_compute in after "a" 100 (Login "Asha@mail.in " "secret" None) d0.
Definition d2 : au_db := Eval vm_compute in after "b" 200 (Refresh "a1") d1.
Definition d3 : au_db := Eval vm_compute in after "c" 300 (Logout (Some "b0"%string)) d2.
Definition d4 : au_db := Eval vm_compute in after "d" 400 (Login "asha@mail.in" "secret" None) d3.
Definition d5 : au_db := Eval vm_compute in after "e" 500 (ForgotPassword (fun _ => true) "asha@mail.in") d4.

Lemma d0_ok : sessions_ok d0.
Proof. split; intros *; cbn; by rewrite lookup_empty. Qed.

(** Texts with a prefix that no session has. *)
Lemma new_names name d :
  forallb (fun t => negb (startswith (t_session_public_id t) name)) (values (au_tokens d)) = true ->
  (forall n, ~ session_known d (ids name n)) /\ (forall n m, ids name n = ids name m -> n = m).
Proof.
  intros Hall. split.
  - intros n (k & t & Hk & Hs). rewrite forallb_forall in Hall. specialize (Hall t).
    assert (negb (startswith (t_session_public_id t) name) = true) as H.
    { apply Hall, list_elem_of_In, elem_of_values. by exists k. }
    apply negb_true_iff in H. rewrite Hs in H. unfold ids, startswith in H.
    by rewrite prefix_append in H.
  - intros n m. unfold ids. by intros H%(inj _)%(inj _).
Qed.

Lemma step_to name (sec : Z) r d d' :
  forallb (fun t => negb (startswith (t_session_public_id t) name)) (values (au_tokens d)) = true ->
  after name sec r d = d' -> step d d'.
Proof. intros [Hf Hi]%new_names <-. by apply (step_request d (clock sec) (ids name) r). Qed.

Lemma run_1 : rtc step d0 d1.
Proof. apply rtc_once, (step_to "a" 100 (Login "Asha@mail.in " "secret" None)); vm_compute; reflexivity. Qed.
Lemma run_2 : rtc step d0 d2.
Proof. eapply rtc_r; [exact run_1|]. apply (step_to "b" 200 (Refresh "a1")); vm_compute; reflexivity. Qed.
Lemma run_3 : rtc step d0 d3.
Proof. eapply rtc_r; [exact run_2|]. apply (step_to "c" 300 (Logout (Some "b0"%string))); vm_compute; reflexivity. Qed.
Lemma run_34 : rtc step d3 d4.
Proof. apply rtc_once, (step_to "d" 400 (Login "asha@mail.in" "secret" None)); vm_compute; reflexivity. Qed.

Lemma d1_ok : sessions_ok d1.
Proof. exact (proj1 (steps_trail d0 d1 d0_ok run_1)). Qed.
Lemma d2_ok : sessions_ok d2.
Proof. exact (proj1 (steps_trail d0 d2 d0_ok run_2)). Qed.
Lemma d3_ok : sessions_ok d3.
Proof. exact (proj1 (steps_trail d0 d3 d0_ok run_3)). Qed.

Lemma dead_check d sid :
  forallb (fun t => negb (bool_decide (t_session_public_id t = sid)) || t_revoked t) (values (au_tokens d)) = true ->
  session_dead d sid.
Proof.
  rewrite forallb_forall. intros Hall k t Hk Hs. specialize (Hall t).
  rewrite (bool_decide_eq_true_2 _ Hs) in Hall. apply Hall, list_elem_of_In, elem_of_values. by exists k.
Qed.

Lemma unused_check raw d :
  forallb (fun t => negb (bool_decide (t_token_hash t = hash_refresh_token raw))) (values (au_tokens d)) = true ->
  hash_unused raw d.
Proof.
  rewrite forallb_forall. intros Hall k t Hk Hh. specialize (Hall t).
  rewrite (bool_decide_eq_true_2 _ Hh) in Hall. enough (false = true) by done. apply Hall, list_elem_of_In, elem_of_values. by exists k.
Qed.

Lemma d5_keyed : rows_keyed d5.
Proof.
  split.
  - intros k u Hk. assert (au_users d5 = {["u1"%string := asha]}) as He by (vm_compute; reflexivity).
    rewrite He in Hk. by apply lookup_singleton_Some in Hk as [<- <-].
  - intros k r Hk. assert (exists r0, au_resets d5 = {["e1"%string := r0]} /\ r_id r0 = "e1"%string) as (r0 & He & Hr0)
      by (eexists; split; [vm_compute; reflexivity|reflexivity]).
    rewrite He in Hk. by apply lookup_singleton_Some in Hk as [<- <-].
Qed.

(** The two tokens of the first session, before and after the rotation. *)
Definition first : RefreshToken := Eval vm_compute in default (Token "" "" "" "" None None 0 true None None None) (au_tokens d1 !! "a2"%string).
Definition replaced : RefreshToken := Eval vm_compute in default (Token "" "" "" "" None None 0 true None None None) (au_tokens d2 !! "a2"%string).
Definition second : RefreshToken := Eval vm_compute in default (Token "" "" "" "" None None 0 true None None None) (au_tokens d2 !! "b1"%string).

End Gatehouse.

#[local] Existing Instances Gatehouse.config Gatehouse.plain_jwt Gatehouse.shown_passwords.

Lemma dead_session_stays_dead_witness :
  (run_request (Gatehouse.clock 450) (Gatehouse.ids "x") (refresh_access_token "b0") Gatehouse.d4).1
  = Raise (InvalidCredentialsException "Refresh token revoked").
Proof.
  destruct (dead_session_stays_dead Gatehouse.d3 Gatehouse.d4 "a0" Gatehouse.d3_ok Gatehouse.run_34) as [_ H].
  - exists "a2"%string. eexists. split; vm_compute; reflexivity.
  - apply Gatehouse.dead_check. vm_compute. reflexivity.
  - eapply H; vm_compute; reflexivity.
Defined.

Lemma one_live_token_witness :
  t_user_id Gatehouse.replaced = t_user_id Gatehouse.second /\ t_revoked Gatehouse.replaced = true /\
  t_revoked Gatehouse.second = false.
Proof.
  destruct (one_live_token Gatehouse.d0 Gatehouse.d2 Gatehouse.d0_ok Gatehouse.run_2) as [H _].
  split; [|split; reflexivity].
  apply (H "a2"%string "b1"%string); [vm_compute; reflexivity|vm_compute; reflexivity|reflexivity].
Defined.

Lemma reuse_kills_session_witness :
  session_dead (run_request (Gatehouse.clock 260) (Gatehouse.ids "x") (refresh_access_token "a1") Gatehouse.d2).2 "a0".
Proof.
  destruct (reuse_kills_session (Gatehouse.clock 260) (Gatehouse.ids "x") "a1" Gatehouse.replaced Gatehouse.d2) as (_ & H & _).
  - vm_compute. reflexivity.
  - reflexivity.
  - discriminate.
  - intros at_ [= <-] _. vm_compute. reflexivity.
  - exact H.
Defined.

Lemma refresh_rotates_witness :
  exists access d', run_request (Gatehouse.clock 200) (Gatehouse.ids "b") (refresh_access_token "a1") Gatehouse.d1
    = (Ok (Answer access (Some "b0"%string)), d').
Proof.
  destruct (refresh_rotates (Gatehouse.clock 200) (Gatehouse.ids "b") "a1" Gatehouse.first Gatehouse.asha Gatehouse.d1)
    as (access & d' & H & _).
  - exact Gatehouse.d1_ok.
  - vm_compute. reflexivity.
  - reflexivity.
  - vm_compute. discriminate.
  - vm_compute. reflexivity.
  - reflexivity.
  - split; [vm_compute; reflexivity|split; reflexivity].
  - discriminate.
  - apply Gatehouse.unused_check. vm_compute. reflexivity.
  - vm_compute. reflexivity.
  - exact I.
  - exists access, d'. exact H.
Defined.

Lemma login_opens_session_witness :
  exists access d', run_request (Gatehouse.clock 100) (Gatehouse.ids "a") (login "Asha@mail.in " "secret" None) Gatehouse.d0
    = (Ok (Answer access (Some "a1"%string)), d').
Proof.
  destruct (login_opens_session "Asha@mail.in " "secret" None "h:secret" Gatehouse.asha (Gatehouse.clock 100) (Gatehouse.ids "a") Gatehouse.d0)
    as (access & d' & H & _).
  - vm_compute. reflexivity.
  - split; [vm_compute; reflexivity|split; reflexivity].
  - reflexivity.
  - reflexivity.
  - discriminate.
  - vm_compute. reflexivity.
  - discriminate.
  - apply Gatehouse.unused_check. vm_compute. reflexivity.
  - vm_compute. reflexivity.
  - exact I.
  - exists access, d'. exact H.
Defined.

Lemma password_reset_once_witness :
  exists d', run_request (Gatehouse.clock 600) (Gatehouse.ids "x") (reset_password "e0" "fresh") Gatehouse.d5 = (Ok tt, d') /\
    signed_out d' "u1".
Proof.
  pose proof (password_reset_once (Gatehouse.clock 600) (Gatehouse.ids "x") "e0" "fresh" Gatehouse.d5 Gatehouse.d5_keyed) as H.
  destruct (run_request (Gatehouse.clock 600) (Gatehouse.ids "x") (reset_password "e0" "fresh") Gatehouse.d5) as [[[]|e] d'] eqn:Hrun.
  - exists d'. split; [reflexivity|]. destruct H as (r & u & Hf & _ & _ & _ & _ & Hout & _).
    assert (r_user_id r = "u1"%string) as <-; [|exact Hout].
    assert (option_map r_user_id (find_reset_by_hash (hash_reset_token "e0") Gatehouse.d5) = Some "u1"%string) as Hu
      by (vm_compute; reflexivity).
    rewrite Hf in Hu. injection Hu as Hu. exact Hu.
  - exfalso. assert (is_ok (run_request (Gatehouse.clock 600) (Gatehouse.ids "x") (reset_password "e0" "fresh") Gatehouse.d5).1 = true) as Hok
      by (vm_compute; reflexivity).
    rewrite Hrun in Hok. discriminate Hok.
Defined.

Lemma changed_password_lost_witness :
  au_users (run_request (Gatehouse.clock 600) (Gatehouse.ids "x") (change_password Gatehouse.asha "secret" "fresh") Gatehouse.d1).2
  = au_users Gatehouse.d1.
Proof.
  apply (changed_password_lost (Gatehouse.clock 600) (Gatehouse.ids "x") Gatehouse.asha "secret" "fresh" Gatehouse.d1);
    vm_compute; reflexivity.
Defined.

(** Signing out with a token that was just replaced leaves the session alive. *)
Lemma logout_of_replaced_token :
  run_request (Gatehouse.clock 210) (Gatehouse.ids "x") (logout (Some "a1"%string)) Gatehouse.d2 = (Ok tt, Gatehouse.d2).
Proof. vm_compute. reflexivity. Qed.

(** An access token is stamped in whole seconds: one that is issued in the second
    of a password reset, after it, is refused. *)
Lemma same_second_refused :
  let u := Gatehouse.asha <| u_password_changed_at := Some 100500000 |> in
  let d := Gatehouse.d0 <| au_users := {["u1"%string := u]} |> in
  let clock n := 100700000 + Z.of_nat n in
  match run_request clock (Gatehouse.ids "a") (login "asha@mail.in" "secret" None) d with
  | (Ok a, d') => (run_request clock (Gatehouse.ids "x") (_resolve_current_user (an_access a)) d').1 = Raise SESSION_EXPIRED
  | _ => False
  end.
Proof. vm_compute. reflexivity. Qed.
