(* ===== verification/TrackRecords.v ===== *)
(** * Track records

    app/service/platform/track_record_service.py, the two operations every payment
    path records its progress with: [record_paid_attempt] and
    [update_fulfillment].  Amounts are hundredths.  The table belongs to whoever
    uses it: a database with track records is a [TrackTable]. *)

From S2P Require Import Prelude Text Numerals PyJson.

Module TrackRecordCategory.
Definition TECHNOLOGY_PURCHASE : string := "Technology Purchase".
Definition TECHNOLOGY_SERVICES : string := "Technology Services".
Definition OTHER : string := "Other".
End TrackRecordCategory.

Module OverallStatus.
Definition SUCCESS : string := "Success".
Definition FAILED : string := "Failed".
Definition PENDING : string := "Pending".
Definition PARTIAL : string := "Partial".
Definition REFUNDED : string := "Refunded".
Definition EXPIRED : string := "Expired".
Definition CANCELLED : string := "Cancelled".
End OverallStatus.

Module TrackPayment.
Definition AUTHORIZED : string := "AUTHORIZED".
Definition CAPTURED : string := "CAPTURED".
Definition FAILED : string := "FAILED".
Definition REFUNDED : string := "REFUNDED".
Definition PENDING : string := "PENDING".
End TrackPayment.

Module FulfillmentStatus.
Definition NOT_STARTED : string := "NOT_STARTED".
Definition IN_PROGRESS : string := "IN_PROGRESS".
Definition PROVISIONED : string := "PROVISIONED".
Definition FAILED : string := "FAILED".
Definition PARTIAL : string := "PARTIAL".
End FulfillmentStatus.

Record TrackRecord := Track {
  tr_id : string;
  tr_internal_order_id : string;
  tr_cart_batch_id : option string;
  tr_category : string;
  tr_provider_subcategory : option string;
  tr_item_name : string;
  tr_item_id : option string;
  tr_quantity_years : Z;
  tr_buyer : option string * option string * option string;
  tr_buyer_user_id : option string;
  tr_amount_charged : Z;
  tr_currency : string;
  tr_net_and_gst : option Z * option Z;
  tr_payment_status : string;
  tr_razorpay_order_id : option string;
  tr_razorpay_payment_id : option string;
  tr_razorpay_refund_id : option string;
  tr_fulfillment_status : string;
  tr_overall_status : string;
  tr_openprovider_domain_id : option string;
  tr_provision_attempts : Z;
  tr_error_code : option string;
  tr_error_message : option string;
  tr_error_source : option string;
  tr_notes : option string;
  tr_admin_deep_link : option string;
  tr_created_at : Z;
}.

#[export] Instance track_eta : Settable TrackRecord := fun r =>
  Track (tr_id r) (tr_internal_order_id r) (tr_cart_batch_id r) (tr_category r) (tr_provider_subcategory r) (tr_item_name r)
    (tr_item_id r) (tr_quantity_years r) (tr_buyer r) (tr_buyer_user_id r) (tr_amount_charged r) (tr_currency r)
    (tr_net_and_gst r) (tr_payment_status r) (tr_razorpay_order_id r) (tr_razorpay_payment_id r) (tr_razorpay_refund_id r)
    (tr_fulfillment_status r) (tr_overall_status r) (tr_openprovider_domain_id r) (tr_provision_attempts r) (tr_error_code r)
    (tr_error_message r) (tr_error_source r) (tr_notes r) (tr_admin_deep_link r) (tr_created_at r).

(** The keyword arguments of [record_paid_attempt]. *)
Record paid_attempt := PaidAttempt {
  pa_internal_order_id : option string;
  pa_cart_batch_id : option string;
  pa_category : string;
  pa_provider_subcategory : option string;
  pa_item_name : string;
  pa_item_id : option string;
  pa_quantity_years : Z;
  pa_buyer : option string * option string * option string;
  pa_buyer_user_id : option string;
  pa_amount_charged : Z;
  pa_currency : string;
  pa_net_and_gst : option Z * option Z;
  pa_payment_status : string;
  pa_razorpay_order_id : option string;
  pa_razorpay_payment_id : option string;
  pa_razorpay_refund_id : option string;
  pa_fulfillment_status : string;
  pa_overall_status : string;
  pa_openprovider_domain_id : option string;
  pa_error_code : option string;
  pa_error_message : option string;
  pa_error_source : option string;
  pa_notes : option string;
  pa_admin_deep_link : option string;
  pa_created_at : option Z;
  pa_clear_errors : bool;
}.

(** ** The status of a record *)

Definition some_token (tokens : list string) (s : string) : bool := existsb (fun t => contains t s) tokens.

(** The overall status the payment, the fulfillment and the error make. *)
Definition derived_overall (r : TrackRecord) : string :=
  let pay_st := upper (tr_payment_status r) in
  let ful_st := upper (tr_fulfillment_status r) in
  if truthy (tr_razorpay_refund_id r) || contains "REFUND" pay_st then OverallStatus.REFUNDED
  else if contains "FAIL" pay_st || contains "FAIL" ful_st || truthy (tr_error_code r) then OverallStatus.FAILED
  else if some_token ["CAPTURED"; "PAID"; "SUCCESS"]%string pay_st then
    if some_token ["PROVISIONED"; "COMPLETED"; "SUCCESS"; "ACTIVE"]%string ful_st then OverallStatus.SUCCESS
    else if contains "PARTIAL" ful_st then OverallStatus.PARTIAL
    else if contains "FAIL" ful_st then OverallStatus.FAILED
    else OverallStatus.PENDING
  else OverallStatus.PENDING.

Definition terminal_overall (s : string) : bool := some_token ["EXPIRED"; "CANCELLED"; "REFUND"]%string (upper s).

(** ** [record_paid_attempt] *)

Definition is_generic_name (s : string) : bool :=
  startswith s "Payment #" || startswith s "Unprovisioned" || bool_decide (s ∈ ["Item"; "Domain listing"]%string).

(** [if new: old = new] *)
Definition if_given (new old : option string) : option string := if truthy new then new else old.
Definition if_text (new old : string) : string := if is_empty new then old else new.

Definition merged_name (new old : string) : string :=
  if is_empty new then old
  else if is_empty old || is_generic_name old || negb (is_generic_name new) then new else old.

Definition _prev_success (r : TrackRecord) : bool :=
  some_token ["PROVISIONED"; "ACTIVE"; "COMPLETED"]%string (upper (tr_fulfillment_status r))
  && contains "SUCCESS" (upper (tr_overall_status r)).

Definition _keep_success (a : paid_attempt) (r : TrackRecord) : bool :=
  _prev_success r
  && bool_decide (upper (pa_fulfillment_status a) ∈ ["IN_PROGRESS"; "NOT_STARTED"; "PENDING"]%string)
  && negb (truthy (pa_error_code a))
  && negb (some_token ["REFUND"; "CANCEL"; "EXPIRED"; "FAIL"]%string (upper (pa_overall_status a))).

(** The error fields after an attempt: written as passed when [clear_errors], and
    wiped by a provisioned attempt without an error. *)
Definition merged_errors (a : paid_attempt) (r : TrackRecord) : TrackRecord :=
  let r1 :=
    if pa_clear_errors a then
      r <| tr_error_code := pa_error_code a |> <| tr_error_message := pa_error_message a |>
        <| tr_error_source := pa_error_source a |>
    else
      r <| tr_error_code := if_given (pa_error_code a) (tr_error_code r) |>
        <| tr_error_message := if_given (pa_error_message a) (tr_error_message r) |>
        <| tr_error_source := if_given (pa_error_source a) (tr_error_source r) |> in
  if contains "PROVISIONED" (upper (pa_fulfillment_status a)) && negb (truthy (pa_error_code a))
  then r1 <| tr_error_code := None |> <| tr_error_message := None |> <| tr_error_source := None |>
  else r1.

Definition merged_buyer (a : paid_attempt) (r : TrackRecord) : option string * option string * option string :=
  let '(n, e, p) := pa_buyer a in
  let '(n', e', p') := tr_buyer r in (if_given n n', if_given e e', if_given p p').

(** What an attempt does to the record it belongs to. *)
Definition merged_attempt (a : paid_attempt) (r : TrackRecord) : TrackRecord :=
  let keep := _keep_success a r in
  let r := r
    <| tr_created_at := default (tr_created_at r) (pa_created_at a) |>
    <| tr_cart_batch_id := if_given (pa_cart_batch_id a) (tr_cart_batch_id r) |>
    <| tr_category := if_text (pa_category a) (tr_category r) |>
    <| tr_provider_subcategory := if_given (pa_provider_subcategory a) (tr_provider_subcategory r) |>
    <| tr_item_name := merged_name (pa_item_name a) (tr_item_name r) |>
    <| tr_item_id := if_given (pa_item_id a) (tr_item_id r) |>
    <| tr_buyer := merged_buyer a r |>
    <| tr_buyer_user_id := if_given (pa_buyer_user_id a) (tr_buyer_user_id r) |>
    <| tr_amount_charged := if 0 <? pa_amount_charged a then pa_amount_charged a else tr_amount_charged r |>
    <| tr_payment_status := if_text (pa_payment_status a) (tr_payment_status r) |>
    <| tr_razorpay_order_id := if_given (pa_razorpay_order_id a) (tr_razorpay_order_id r) |>
    <| tr_razorpay_payment_id := if_given (pa_razorpay_payment_id a) (tr_razorpay_payment_id r) |>
    <| tr_razorpay_refund_id := if_given (pa_razorpay_refund_id a) (tr_razorpay_refund_id r) |>
    <| tr_fulfillment_status := if keep then tr_fulfillment_status r else if_text (pa_fulfillment_status a) (tr_fulfillment_status r) |>
    <| tr_overall_status := if keep then tr_overall_status r else if_text (pa_overall_status a) (tr_overall_status r) |>
    <| tr_openprovider_domain_id := if_given (pa_openprovider_domain_id a) (tr_openprovider_domain_id r) |>
    <| tr_notes := if_given (pa_notes a) (tr_notes r) |> in
  merged_errors a r.

(** The row of a first attempt. *)
Definition first_attempt (a : paid_attempt) (id internal_order_id : string) (now : Z) : TrackRecord :=
  Track id internal_order_id (pa_cart_batch_id a) (pa_category a) (pa_provider_subcategory a) (pa_item_name a)
    (if truthy (pa_item_id a) then pa_item_id a else None) (pa_quantity_years a) (pa_buyer a) (pa_buyer_user_id a)
    (pa_amount_charged a) (pa_currency a) (pa_net_and_gst a) (pa_payment_status a) (pa_razorpay_order_id a)
    (pa_razorpay_payment_id a) (pa_razorpay_refund_id a) (pa_fulfillment_status a) (pa_overall_status a)
    (pa_openprovider_domain_id a) 1 (pa_error_code a) (pa_error_message a) (pa_error_source a) (pa_notes a)
    (pa_admin_deep_link a) (default now (pa_created_at a)).

(** The overall status an attempt leaves. *)
Definition settle (passed_overall : string) (r : TrackRecord) : TrackRecord :=
  r <| tr_overall_status := if terminal_overall passed_overall then passed_overall else derived_overall r |>.

(** A database with a table of track records. *)
Class TrackTable (D : Type) := {
  tracks : D -> gmap string TrackRecord;
  set_tracks : gmap string TrackRecord -> D -> D;
  tracks_set : forall t d, tracks (set_tracks t d) = t;
}.

Section Service.
Context {D E : Type} {TT : TrackTable D}.

Definition find_by_internal_order_id (id : string) : M D E (option TrackRecord) :=
  gets (fun d => List.find (fun r => bool_decide (tr_internal_order_id r = id)) (values (tracks d))).

Definition find_by_razorpay_payment_id (id : string) : M D E (option TrackRecord) :=
  gets (fun d => List.find (fun r => bool_decide (tr_razorpay_payment_id r = Some id)) (values (tracks d))).

Definition find_by_razorpay_order_id (id : string) : M D E (option TrackRecord) :=
  gets (fun d => List.find (fun r => bool_decide (tr_razorpay_order_id r = Some id)) (values (tracks d))).

(** [save]: the number of a record is unique. *)
Definition track_save (r : TrackRecord) : M D E unit :=
  do d <- gets (fun d => d);
  guard_exn (negb (existsb (fun r' => bool_decide (tr_internal_order_id r' = tr_internal_order_id r) && negb (bool_decide (tr_id r' = tr_id r)))
    (values (tracks d)))) (IntegrityError "track_records") ;;;
  modify (fun d => set_tracks (<[tr_id r := r]> (tracks d)) d).

(** [f"TRK-{now:%Y%m%d%H%M%S}-{uuid4().hex[:6].upper()}"] *)
Definition generate_internal_order_id : M D E string :=
  do now <- utc_now;
  do id <- uuid4;
  let '(y, m, day) := civil (now / days 1) in
  let sec := now mod days 1 / seconds 1 in
  let stamp := [zero_padded 4 y; zero_padded 2 m; zero_padded 2 day;
                zero_padded 2 (sec / 3600); zero_padded 2 (sec / 60 mod 60); zero_padded 2 (sec mod 60)] in
  ret ("TRK-" +:+ join EmptyString stamp +:+ "-" +:+ upper (str_take 6 (remove_all "-" id)))%string.

Definition record_paid_attempt (a : paid_attempt) : M D E TrackRecord :=
  do found <- (match pa_internal_order_id a with
               | Some i => if is_empty i then ret None else find_by_internal_order_id i
               | None => ret None
               end);
  do found <- (match found with
               | Some r => ret (Some r)
               | None => if truthy (pa_razorpay_payment_id a) && negb (truthy (pa_internal_order_id a))
                         then find_by_razorpay_payment_id (default EmptyString (pa_razorpay_payment_id a)) else ret None
               end);
  do r <- (match found with
           | Some r => ret (merged_attempt a r)
           | None =>
               do number <- (if truthy (pa_internal_order_id a) then ret (default EmptyString (pa_internal_order_id a))
                             else generate_internal_order_id);
               do id <- uuid4;
               do now <- utc_now;
               ret (first_attempt a id number now)
           end);
  let r := settle (pa_overall_status a) r in
  track_save r ;;;
  ret r.

(** The argument [overall_status] is not read by the code. *)
Definition update_fulfillment (internal_order_id fulfillment_status : string)
    (openprovider_domain_id error_code error_message error_source notes : option string) : M D E (option TrackRecord) :=
  catch (
  do found <- find_by_internal_order_id internal_order_id;
  match found with
  | None => ret None
  | Some r =>
      let r := r <| tr_fulfillment_status := fulfillment_status |>
        <| tr_provision_attempts := tr_provision_attempts r + 1 |>
        <| tr_openprovider_domain_id := if_given openprovider_domain_id (tr_openprovider_domain_id r) |>
        <| tr_error_code := if_given error_code (tr_error_code r) |>
        <| tr_error_message := if_given error_message (tr_error_message r) |>
        <| tr_error_source := if_given error_source (tr_error_source r) |>
        <| tr_notes := if_given notes (tr_notes r) |> in
      let r := r <| tr_overall_status := derived_overall r |> in
      track_save r ;;;
      ret (Some r)
  end) (fun _ => ret None).
End Service.

(** ** What the operations keep *)

(** The overall status is what payment, fulfillment and error make it, or a final
    one that was recorded as such. *)
Definition settled (r : TrackRecord) : Prop :=
  tr_overall_status r = derived_overall r \/ terminal_overall (tr_overall_status r) = true.

Lemma settle_settled passed r : settled (settle passed r).
Proof. unfold settled, settle. destruct (terminal_overall passed) eqn:E; [by right|by left]. Qed.

Section Kept.
Context {D E : Type} {TT : TrackTable D}.

Definition all_settled (d : D) : Prop := forall k r, tracks d !! k = Some r -> settled r.

Lemma upholds_track_save (r : TrackRecord) : settled r -> upholds all_settled (track_save r : M D E unit).
Proof.
  intros Hr. unfold track_save. do 2 (apply upholds_bind; [upholds|intros ?]). apply upholds_modify. intros d' Hd k r'.
  rewrite tracks_set, lookup_insert_Some. intros [[_ <-]|[_ Hk]]; [done|]. by apply (Hd k).
Qed.

Lemma settled_derived (r : TrackRecord) : settled (r <| tr_overall_status := derived_overall r |>).
Proof. by left. Qed.

#[local] Hint Resolve upholds_track_save settle_settled settled_derived : upholds.

Lemma upholds_update_fulfillment number st dom e1 e2 e3 notes :
  upholds all_settled (update_fulfillment number st dom e1 e2 e3 notes : M D E _).
Proof.
  unfold update_fulfillment, find_by_internal_order_id. by upholds.
Qed.

Lemma upholds_record_paid_attempt (a : paid_attempt) : upholds all_settled (record_paid_attempt a : M D E _).
Proof.
  unfold record_paid_attempt, find_by_internal_order_id, find_by_razorpay_payment_id, generate_internal_order_id.
  by upholds.
Qed.

(** Every track record that requests of the two operations leave behind has the
    overall status its payment, refund, fulfillment and error code determine, unless
    a final status was passed, if the records were so before: in the session as in
    what is committed, whether the operation succeeds or not. *)
Theorem track_records_settled (d : D) clock ids (a : paid_attempt) number st dom e1 e2 e3 notes :
  all_settled d ->
  all_settled (run_request clock ids (record_paid_attempt a ;;; commit : M D E _) d).2 /\
  all_settled (run_request clock ids (update_fulfillment number st dom e1 e2 e3 notes ;;; commit : M D E _) d).2.
Proof.
  intros Hd. split; apply run_request_upholds; try done; (apply upholds_bind; [|intros _; apply upholds_commit]);
    [apply upholds_record_paid_attempt|apply upholds_update_fulfillment].
Qed.
End Kept.

(** ** A success is not taken back *)

Lemma prefix_trans p q s : String.prefix p q = true -> String.prefix q s = true -> String.prefix p s = true.
Proof.
  revert q s. induction p as [|a p IH]; intros q s; [by destruct s|].
  destruct q as [|b q]; [done|]. destruct s as [|c s]; cbn; [done|].
  destruct (Ascii.ascii_dec a b), (Ascii.ascii_dec b c), (Ascii.ascii_dec a c); try done; [|congruence]. apply IH.
Qed.

Lemma contains_prefix p q s : String.prefix p q = true -> contains q s = true -> contains p s = true.
Proof.
  intros Hp. induction s as [|c s IH]; cbn [contains]; intros [H|H]%orb_true_iff; apply orb_true_iff; try done;
    [by left; apply (prefix_trans p q)..|right; by apply IH].
Qed.

Definition captured_text (s : string) : bool :=
  negb (contains "REFUND" (upper s)) && negb (contains "FAIL" (upper s))
  && some_token ["CAPTURED"; "PAID"; "SUCCESS"]%string (upper s).

Definition fulfilled_text (s : string) : bool :=
  negb (contains "FAIL" (upper s)) && some_token ["PROVISIONED"; "COMPLETED"; "SUCCESS"; "ACTIVE"]%string (upper s).

(** What a derived success says. *)
Lemma derived_success r : derived_overall r = OverallStatus.SUCCESS <->
  truthy (tr_razorpay_refund_id r) = false /\ truthy (tr_error_code r) = false /\
  captured_text (tr_payment_status r) = true /\ fulfilled_text (tr_fulfillment_status r) = true.
Proof.
  unfold derived_overall, captured_text, fulfilled_text.
  destruct (truthy (tr_razorpay_refund_id r)), (truthy (tr_error_code r)); cbn [orb];
    destruct (contains "REFUND" (upper (tr_payment_status r))), (contains "FAIL" (upper (tr_payment_status r))); cbn [orb negb andb];
    destruct (contains "FAIL" (upper (tr_fulfillment_status r))); cbn [orb negb andb];
    destruct (some_token ["CAPTURED"; "PAID"; "SUCCESS"]%string (upper (tr_payment_status r))),
      (some_token ["PROVISIONED"; "COMPLETED"; "SUCCESS"; "ACTIVE"]%string (upper (tr_fulfillment_status r)));
    try destruct (contains "PARTIAL" _); (split; [intros H; first [discriminate H|done]|by intros (? & ? & ? & ?)]).
Qed.

Lemma not_terminal s : some_token ["REFUND"; "CANCEL"; "EXPIRED"; "FAIL"]%string s = false ->
  some_token ["EXPIRED"; "CANCELLED"; "REFUND"]%string s = false.
Proof.
  cbn. rewrite !orb_false_iff. intros (H1 & H2 & H3 & _). split_and!; try done.
  destruct (contains "CANCELLED" s) eqn:E; [|done]. by rewrite (contains_prefix "CANCEL" "CANCELLED" s) in H2.
Qed.

(** The errors touch nothing else. *)
Lemma merged_errors_fields a r :
  tr_fulfillment_status (merged_errors a r) = tr_fulfillment_status r /\
  tr_payment_status (merged_errors a r) = tr_payment_status r /\
  tr_razorpay_refund_id (merged_errors a r) = tr_razorpay_refund_id r /\
  (truthy (pa_error_code a) = false -> truthy (tr_error_code r) = false -> truthy (tr_error_code (merged_errors a r)) = false).
Proof.
  unfold merged_errors, if_given. destruct (contains _ _), (truthy (pa_error_code a)) eqn:E, (pa_clear_errors a); cbn;
    split_and!; intros; try done; congruence.
Qed.

(** A record of a confirmed success keeps its success and its fulfillment when
    a later attempt only brings an intermediate state: whatever else it carries, as
    long as it has no error, no refund and no failed or final status, and does not
    claim that the payment is not captured. *)
Theorem success_is_kept r a :
  settled r -> tr_overall_status r = OverallStatus.SUCCESS -> _keep_success a r = true ->
  truthy (pa_razorpay_refund_id a) = false -> pa_payment_status a ∈ [EmptyString; TrackPayment.CAPTURED] ->
  let r' := settle (pa_overall_status a) (merged_attempt a r) in
  tr_overall_status r' = OverallStatus.SUCCESS /\ tr_fulfillment_status r' = tr_fulfillment_status r /\
  truthy (tr_error_code r') = false.
Proof.
  intros [Hs|Hs] Hr Hk Href Hpay; [|by rewrite Hr in Hs].
  rewrite Hr in Hs. symmetry in Hs. apply derived_success in Hs as (H1 & H2 & H3 & H4).
  pose proof Hk as ([[_ _]%andb_true_iff Herr%negb_true_iff]%andb_true_iff & Hov%negb_true_iff)%andb_true_iff.
  unfold merged_attempt. rewrite Hk.
  match goal with |- context [merged_errors a ?x] => set (x' := x) end.
  destruct (merged_errors_fields a x') as (E1 & E2 & E3 & E4).
  cbn zeta. unfold settle, terminal_overall. rewrite (not_terminal _ Hov). cbn.
  split_and!; [|by rewrite E1|by apply E4]. apply derived_success. rewrite E1, E2, E3. split_and!.
  - cbn. unfold if_given. by rewrite Href.
  - by apply E4.
  - cbn. by apply elem_of_cons in Hpay as [->|[->|[]%elem_of_nil]%elem_of_cons].
  - done.
Qed.

(** A record as the payment of a cart item leaves it. *)
Definition example_attempt (st overall : string) (error : option string) : paid_attempt :=
  PaidAttempt (Some "TRK-1"%string) None "Domain Registration (OpenProvider)" (Some "OpenProvider"%string) "a.com" None 1 (None, None, None) None
    99900 "INR" (None, None) TrackPayment.CAPTURED (Some "order_1"%string) (Some "pay_1"%string) None st overall None error None None None
    None None false.

Definition example_success : TrackRecord :=
  settle "Success" (first_attempt (example_attempt FulfillmentStatus.PROVISIONED OverallStatus.SUCCESS None) "t1" "TRK-1" 0).

Example success_is_kept_witness :
  let r' := settle "Pending" (merged_attempt (example_attempt FulfillmentStatus.IN_PROGRESS OverallStatus.PENDING None) example_success) in
  tr_overall_status r' = OverallStatus.SUCCESS /\ tr_fulfillment_status r' = FulfillmentStatus.PROVISIONED.
Proof.
  destruct (success_is_kept example_success (example_attempt FulfillmentStatus.IN_PROGRESS OverallStatus.PENDING None))
    as (H1 & H2 & _); [left; vm_compute; reflexivity|reflexivity|vm_compute; reflexivity|reflexivity|right; left|].
  split; [exact H1|exact H2].
Defined.

(** An attempt that reports the payment as pending takes the success back. *)
Lemma success_lost_to_pending_payment :
  let a := example_attempt FulfillmentStatus.IN_PROGRESS OverallStatus.PENDING None in
  let a' := PaidAttempt (pa_internal_order_id a) None (pa_category a) None (pa_item_name a) None 1 (None, None, None) None 0 "INR"
    (None, None) TrackPayment.PENDING None None None FulfillmentStatus.IN_PROGRESS OverallStatus.PENDING None None None None None None
    None false in
  _keep_success a' example_success = true /\
  tr_overall_status example_success = OverallStatus.SUCCESS /\
  tr_overall_status (settle (pa_overall_status a') (merged_attempt a' example_success)) = OverallStatus.PENDING.
Proof. vm_compute. done. Qed.

#[export] Instance tracks_alone : TrackTable (gmap string TrackRecord) :=
  {| tracks t := t; set_tracks t _ := t; tracks_set _ _ := eq_refl |}.

Example track_records_settled_witness :
  all_settled (run_request (E := unit) (fun _ => 0) (fun _ => "n"%string)
    (record_paid_attempt (example_attempt FulfillmentStatus.FAILED OverallStatus.PENDING (Some "E1"%string)) ;;; commit)
    {["t1"%string := example_success]}).2.
Proof.
  apply (track_records_settled (E := unit) {["t1"%string := example_success]} (fun _ => 0) (fun _ => "n"%string) _
    EmptyString EmptyString None None None None None).
  intros k r H. change (({["t1"%string := example_success]} : gmap string TrackRecord) !! k = Some r) in H. apply lookup_singleton_Some in H as [_ <-]. left. vm_compute. reflexivity.
Defined.
