(* ===== verification/TechStore.v ===== *)
(** * Technology subscriptions: tables, settings, the provider, the session

    app/entity/technology_services, the settings of core/config.py the technology
    services read, and what a handler can do: query and flush, send mails, call
    the provider.

    The provider (ResellPortal) is third-party code: a [Portal] answers a request
    knowing all requests sent to it before.  What was sent stays sent when the
    transaction is rolled back.  Columns of a text or a datetime may be assigned
    anything a JSON answer holds; the flush then fails, and as in SQLAlchemy the
    transaction is lost: every further query, flush, commit or read of an expired
    attribute raises until the session is closed.  Widths of text columns and
    [updated_at] are not modelled. *)

From S2P Require Import Prelude Text PyNum PyJson TrackRecords.

(** ** Tables *)

Record TechnologySubscription := TechSub {
  ts_id : string;
  ts_user_id : string;
  ts_service_slug : string;
  ts_service_name : string;
  ts_plan_code : string;
  ts_billing_cycle : string;
  ts_price : py_float;
  ts_currency : string;
  ts_status : string;
  ts_payment_status : string;
  ts_provider_subscription_id : option string;
  ts_provider_order_id : json;
  ts_credentials_json : option string;
  ts_current_period_start : json;
  ts_current_period_end : json;
  ts_auto_renew : bool;
  ts_email_sent : bool;
  ts_confirmation_sent : bool;
  ts_access_email_sent : bool;
  ts_access_email_status : string;
  ts_idempotency_key : option string;
  ts_provision_attempts : Z;
  ts_last_provision_attempt_at : option Z;
  ts_last_provider_status : option string;
  ts_last_provider_error : option string;
  ts_next_retry_at : option Z;
  ts_razorpay_order_id : option string;
  ts_razorpay_payment_id : option string;
  ts_needs_review : bool;
  ts_provision_input : option string;
  ts_is_deleted : bool;
  ts_created_at : Z;
}.

#[export] Instance tech_sub_eta : Settable TechnologySubscription := fun s =>
  TechSub (ts_id s) (ts_user_id s) (ts_service_slug s) (ts_service_name s) (ts_plan_code s) (ts_billing_cycle s) (ts_price s)
    (ts_currency s) (ts_status s) (ts_payment_status s) (ts_provider_subscription_id s) (ts_provider_order_id s)
    (ts_credentials_json s) (ts_current_period_start s) (ts_current_period_end s) (ts_auto_renew s) (ts_email_sent s)
    (ts_confirmation_sent s) (ts_access_email_sent s) (ts_access_email_status s) (ts_idempotency_key s)
    (ts_provision_attempts s) (ts_last_provision_attempt_at s) (ts_last_provider_status s) (ts_last_provider_error s)
    (ts_next_retry_at s) (ts_razorpay_order_id s) (ts_razorpay_payment_id s) (ts_needs_review s) (ts_provision_input s)
    (ts_is_deleted s) (ts_created_at s).

(** The columns of the catalogue the modelled code reads. *)
Record TechnologyService := TechService {
  sv_id : string; sv_slug : string; sv_name : string; sv_provider_product_key : option string; sv_plans_json : option string;
  sv_price_override_monthly : option py_float; sv_price_override_annually : option py_float; sv_is_deleted : bool }.

(** The columns of a user the modelled code reads. *)
Record TechUser := MkTechUser {
  tu_id : string; tu_email : string; tu_username : option string; tu_firstname : option string; tu_lastname : option string;
  tu_phone_number : option string }.

(** ** What surrounds a purchase: the cart, invoices, requests, add-ons *)

Inductive CartProductType := DOMAIN_LISTING | TECHNOLOGY | DOMAIN_REGISTRATION | VENTURE_DEAL.
#[export] Instance cart_product_type_eq_dec : EqDecision CartProductType.
Proof. solve_decision. Defined.

Record CartItem := MkCartItem {
  ci_id : string; ci_user_id : string; ci_product_type : CartProductType; ci_product_id : string;
  ci_selected_plan : option string; ci_addon_services : option string; ci_metadata_json : option dict; ci_created_at : Z }.

#[export] Instance cart_item_eta : Settable CartItem := fun i =>
  MkCartItem (ci_id i) (ci_user_id i) (ci_product_type i) (ci_product_id i) (ci_selected_plan i) (ci_addon_services i)
    (ci_metadata_json i) (ci_created_at i).

(** technology_subscription_invoices *)
Record SubscriptionInvoice := SubInvoice {
  si_id : string; si_subscription_id : string; si_user_id : string; si_invoice_number : string; si_amount : py_float;
  si_currency : string; si_status : string; si_billing_period : json * json; si_payment_method : option string; si_created_at : Z }.

#[export] Instance sub_invoice_eta : Settable SubscriptionInvoice := fun i =>
  SubInvoice (si_id i) (si_subscription_id i) (si_user_id i) (si_invoice_number i) (si_amount i) (si_currency i) (si_status i)
    (si_billing_period i) (si_payment_method i) (si_created_at i).

(** The columns of a cobrother_requests row the modelled code writes or reads. *)
Record CoBrotherRequest := CoBroRequest {
  cr_id : string; cr_entity_id : string; cr_entity_snapshot : option string; cr_lister_id : option string;
  cr_razorpay_order_id : option string; cr_razorpay_payment_id : option string; cr_status : string }.

#[export] Instance cobro_request_eta : Settable CoBrotherRequest := fun r =>
  CoBroRequest (cr_id r) (cr_entity_id r) (cr_entity_snapshot r) (cr_lister_id r) (cr_razorpay_order_id r)
    (cr_razorpay_payment_id r) (cr_status r).

(** An add-on a buyer can tick, and the request made of it. *)
Record OperationsService := MkOpsService {
  os_id : string; os_name : string; os_service_type : string; os_skills : option string; os_is_available : bool; os_is_deleted : bool }.

Record OperationsServiceRequest := MkOpsRequest {
  or_id : string; or_service_id : string; or_user_id : string; or_contact : string * string * string; or_status : string }.

(** [sh_begun]: the session is in a transaction; [sh_expired]: the rows it had
    loaded were expired by a rollback and not read again. *)
Record shop := Shop {
  sh_items : gmap string CartItem;
  sh_invoices : gmap string SubscriptionInvoice;
  sh_requests : gmap string CoBrotherRequest;
  sh_purchases : list (string * string);
  sh_ops_services : gmap string OperationsService;
  sh_ops_requests : gmap string OperationsServiceRequest;
  sh_begun : bool;
  sh_expired : bool;
}.

#[export] Instance shop_eta : Settable shop := fun h =>
  Shop (sh_items h) (sh_invoices h) (sh_requests h) (sh_purchases h) (sh_ops_services h) (sh_ops_requests h) (sh_begun h) (sh_expired h).

Definition empty_shop : shop := Shop ∅ ∅ ∅ [] ∅ ∅ false false.

(** A request to the provider. *)
Record portal_request := PortalRequest { pq_method : string; pq_endpoint : string; pq_json : dict; pq_params : dict }.

(** What comes back: a body, an HTTP error, or an exception of the given class. *)
Inductive portal_answer :=
| Body (j : json)
| HttpError (status_code : Z)
| Failure (class_name : string).

Record tech_db := TechDb {
  tb_subs : gmap string TechnologySubscription;
  tb_services : gmap string TechnologyService;
  tb_users : gmap string TechUser;
  tb_tracks : gmap string TrackRecord;
  tb_portal : list portal_request;
  tb_failed : bool;
  tb_shop : shop;
}.

#[export] Instance tech_db_eta : Settable tech_db := fun d =>
  TechDb (tb_subs d) (tb_services d) (tb_users d) (tb_tracks d) (tb_portal d) (tb_failed d) (tb_shop d).

#[export] Instance tech_tracks : TrackTable tech_db :=
  {| tracks := tb_tracks; set_tracks t d := d <| tb_tracks := t |>; tracks_set _ _ := eq_refl |}.

(** ** Mails *)

Record access_field := AccessField { af_key : string; af_label : string; af_value : string; af_section : string }.

Record access_payload := AccessPayload {
  ap_customer_name : string; ap_service_name : string; ap_plan_name : string; ap_billing_cycle : string;
  ap_activated_at : json; ap_purchase_date : json; ap_fields : list access_field; ap_access_url : option string }.

Inductive tech_effect :=
| ConfirmationMail (to_email sub service plan : string) (provider_info : string)
| PendingMail (to_email sub service plan reason : string)
| FailedMail (to_email sub service plan reason : string)
| AccessMail (to_email : string) (payload : access_payload).

Abbreviation Tech A := (M tech_db tech_effect A).

(** ** Settings and third-party code *)

Class TechConfig := {
  TECH_ENVIRONMENT : string;
  RESELLPORTAL_API_KEY : string;
  RESELLPORTAL_API_SECRET : string;
  RESELLPORTAL_TEST_MODE : bool;
  RESELLPORTAL_ALLOW_LIVE : bool;
  TECH_SUBSCRIPTION_MAX_RETRIES : Z;
  tech_mail_ok : tech_effect -> bool;
}.

Class Portal := portal_answers : list portal_request -> portal_request -> portal_answer.

Section Operations.
Context {cfg : TechConfig} {portal : Portal}.

Definition resellportal_configured : bool :=
  negb (is_empty (strip RESELLPORTAL_API_KEY)) && negb (is_empty (strip RESELLPORTAL_API_SECRET)).

Definition resellportal_test_mode : bool := negb (RESELLPORTAL_ALLOW_LIVE && negb RESELLPORTAL_TEST_MODE).

(** A request leaves, whatever becomes of the transaction. *)
Definition portal_call (q : portal_request) : Tech portal_answer := fun s =>
  let log := tb_portal (s_db s) in
  let sent := fun d : tech_db => d <| tb_portal := q :: log |> in
  (Ok (portal_answers log q), Session (sent (s_committed s)) (sent (s_db s)) (s_out s) (s_clock s) (s_ids s)).

(** A mail is sent, or its sending raises. *)
Definition send_mail (m : tech_effect) : Tech unit :=
  guard_exn (tech_mail_ok m) (OtherError "MailException") ;;; emit m.
End Operations.

Definition PendingRollbackError : exn := SQLAlchemyError "PendingRollbackError".

(** The transaction is still usable. *)
Definition usable : Tech unit := do failed <- gets tb_failed; guard_exn (negb failed) PendingRollbackError.

Definition query {A} (f : tech_db -> A) : Tech A := usable ;;; gets f.

Definition tech_commit : Tech unit := usable ;;; commit.

(** The attributes of the row, [NoResultFound] never being raised for the rows the code holds. *)
Definition sub_of (id : string) : Tech TechnologySubscription :=
  usable ;;;
  do found <- gets (fun d => tb_subs d !! id);
  match found with Some s => ret s | None => raise (OtherError "NoResultFound") end.

Definition on_sub (id : string) (f : TechnologySubscription -> TechnologySubscription) : Tech unit :=
  modify (fun d => d <| tb_subs ::= alter f id |>).

(** What the driver accepts for the columns. *)
Definition text_or_null (v : json) : bool := match v with JNull | JStr _ => true | _ => false end.
Definition date_or_null (v : json) : bool := match v with JNull | JDate _ => true | _ => false end.

Definition bindable (s : TechnologySubscription) : bool :=
  text_or_null (ts_provider_order_id s) && date_or_null (ts_current_period_start s) && date_or_null (ts_current_period_end s).

(** [session.flush()] of what was assigned to a row. *)
Definition flush_sub (id : string) : Tech unit :=
  usable ;;;
  do found <- gets (fun d => tb_subs d !! id);
  match found with
  | Some s => if bindable s then ret tt
              else modify (fun d => d <| tb_failed := true |>) ;;; raise (SQLAlchemyError "DBAPIError")
  | None => ret tt
  end.

(** The rows of a closed session are those of the last commit. *)
Definition tech_request {A} (clock : nat -> Z) (ids : nat -> string) (m : Tech A) (d : tech_db) : res A * tech_db :=
  run_request clock ids m d.
