(* ===== verification/TechStatus.v ===== *)
(** * What a customer and the administrators see of a technology subscription

    app/service/technology/technology_purchase_status.py. *)

From S2P Require Import Prelude Text PyNum PyJson TrackRecords TechStore.

Definition PAID_PAYMENT_STATUSES : list string := ["CAPTURED"; "COMPLETED"; "PAID"; "SUCCESS"]%string.
Definition FAILED_PAYMENT_STATUSES : list string := ["FAILED"; "CANCELLED"; "REFUNDED"]%string.
Definition RETRYABLE_PROVISIONING_STATUSES : list string :=
  ["PENDING"; "PROVISIONING_FAILED"; "PAYMENT_CAPTURED"; "PROVISIONING"]%string.

Definition _upper (value : string) : string := upper (strip value).

(** The configured limit, 5 for a missing or zero one. *)
Definition _max_retries {cfg : TechConfig} : Z :=
  Z.max 1 (if TECH_SUBSCRIPTION_MAX_RETRIES =? 0 then 5 else TECH_SUBSCRIPTION_MAX_RETRIES).

Definition is_paid_payment (payment_status : string) : bool := bool_decide (_upper payment_status ∈ PAID_PAYMENT_STATUSES).

Definition is_failed_provisioning_queue_item (sub : TechnologySubscription) : bool :=
  negb (ts_is_deleted sub) && is_paid_payment (ts_payment_status sub)
  && bool_decide (_upper (ts_status sub) ∈ RETRYABLE_PROVISIONING_STATUSES).

Record activation_view := View {
  v_payment_status : string; v_activation_status : string; v_activation_status_label : string;
  v_completion_status : string; v_provisioning_status : option string }.

Definition text_or_none (s : string) : option string := if is_empty s then None else Some s.

Definition customer_activation_view (limit : Z) (sub : TechnologySubscription) : activation_view :=
  let payment := _upper (ts_payment_status sub) in
  let status := _upper (ts_status sub) in
  let limit := Z.max 1 limit in
  if bool_decide (payment ∈ FAILED_PAYMENT_STATUSES)
  then View payment "PAYMENT_FAILED" "Payment Failed" "PENDING" (text_or_none status)
  else
    let payment_out := if is_paid_payment payment then "COMPLETED"%string else if is_empty payment then "PENDING"%string else payment in
    if bool_decide (status = "ACTIVE"%string) then View payment_out "ACTIVE" "Active" "ACTIVE" (Some status)
    else if bool_decide (status = "TEST_SIMULATED"%string)
    then View payment_out "TEST_SIMULATED" "Test Mode Simulation" "PENDING" (Some status)
    else
      let terminal := ts_needs_review sub
        || (bool_decide (status = "PROVISIONING_FAILED"%string) && (limit <=? ts_provision_attempts sub)) in
      if is_paid_payment payment && terminal then View payment_out "ACTIVATION_ISSUE" "Activation Issue" "PENDING" (Some status)
      else if is_paid_payment payment then View payment_out "PENDING_ACTIVATION" "Pending Activation" "PENDING" (Some status)
      else View payment_out "PAYMENT_PENDING" "Payment Pending" "PENDING" (text_or_none status).

(** The keys of the card that are computed; the rest are columns of the row. *)
Record failed_item := FailedItem {
  fi_sub : TechnologySubscription; fi_user_email : string; fi_error_reason : string; fi_max_retries : Z; fi_retry_eligible : bool;
  fi_attempted_at : Z }.

Definition serialize_failed_provisioning_item (limit : Z) (user_email : option string) (sub : TechnologySubscription) : failed_item :=
  let limit := Z.max 1 limit in
  let terminal := ts_needs_review sub || (limit <=? ts_provision_attempts sub) in
  FailedItem sub (str_or user_email (ts_user_id sub)) (default EmptyString (ts_last_provider_error sub)) limit
    (is_paid_payment (ts_payment_status sub) && negb terminal) (default (ts_created_at sub) (ts_last_provision_attempt_at sub)).

Definition success_outcomes : list string :=
  ["activated"; "adopted"; "pending"; "email"; "access"; "already_active"; "needs_input"; "test_simulated"]%string.

(** The answer to a retry; the columns of the row are left out. *)
Record retry_result := RetryResult { rr_success : bool; rr_outcome : string; rr_sub : TechnologySubscription; rr_error : option string }.

Definition retry_result_payload (sub : TechnologySubscription) (outcome : string) (error : option string) : retry_result :=
  RetryResult (bool_decide (outcome ∈ success_outcomes)) outcome sub error.

(** ** What the views promise *)

(** The statuses of a captured payment are among four. *)
Lemma paid_cases s : is_paid_payment s = true ->
  is_paid_payment (_upper s) = true /\ bool_decide (_upper s ∈ FAILED_PAYMENT_STATUSES) = false.
Proof.
  unfold is_paid_payment. intros H%bool_decide_eq_true.
  repeat (apply elem_of_cons in H as [->|H]; [done|]). by apply elem_of_nil in H.
Qed.

(** A captured payment is never shown as failed or pending, whatever became of
    the activation; exactly an active row is shown as active; a row that is neither
    active nor simulated is shown with an activation issue exactly when it waits for
    a review or its attempts are used up; and whether the queue of the
    administrators has it does not depend on the identifiers of the provider. *)
Theorem paid_never_shown_as_unpaid limit sub pid oid :
  is_paid_payment (ts_payment_status sub) = true ->
  let v := customer_activation_view limit sub in
  v_payment_status v = "COMPLETED"%string /\
  v_activation_status v ∈ ["ACTIVE"; "TEST_SIMULATED"; "ACTIVATION_ISSUE"; "PENDING_ACTIVATION"]%string /\
  (v_activation_status v = "ACTIVE"%string <-> _upper (ts_status sub) = "ACTIVE"%string) /\
  (v_activation_status v = "ACTIVATION_ISSUE"%string <->
   (_upper (ts_status sub) ∉ ["ACTIVE"; "TEST_SIMULATED"]%string) /\
   (ts_needs_review sub = true \/ (_upper (ts_status sub) = "PROVISIONING_FAILED"%string /\ Z.max 1 limit <= ts_provision_attempts sub))) /\
  is_failed_provisioning_queue_item (sub <| ts_provider_subscription_id := pid |> <| ts_provider_order_id := oid |>)
  = is_failed_provisioning_queue_item sub.
Proof.
  intros Hp. destruct (paid_cases _ Hp) as [Hp' Hf]. unfold customer_activation_view. rewrite Hf, Hp'. cbn zeta.
  split; [by repeat case_match|]. split; [by repeat case_match; cbn; set_solver|].
  destruct (bool_decide_reflect (_upper (ts_status sub) = "ACTIVE"%string)) as [Ha|Ha]; [split; [done|split; [|done]]; split; [done|intros [H _]; destruct H; rewrite Ha; by left]|].
  destruct (bool_decide_reflect (_upper (ts_status sub) = "TEST_SIMULATED"%string)) as [Ht|Ht]; [split; [done|split; [|done]]; split; [done|intros [H _]; destruct H; rewrite Ht; right; by left]|].
  cbn [andb]. split; [by case_match|]. split; [|done].
  destruct (ts_needs_review sub); cbn [orb].
  - split; [|done]. intros _. split; [|by left]. set_solver.
  - destruct (bool_decide_reflect (_upper (ts_status sub) = "PROVISIONING_FAILED"%string)) as [Hs|Hs]; cbn [andb].
    + destruct (Z.leb_spec (Z.max 1 limit) (ts_provision_attempts sub)); cbn.
      * split; [|done]. intros _. split; [set_solver|by right].
      * split; [done|]. intros [_ [?|[_ ?]]]; [done|lia].
    + split; [done|]. intros [_ [?|[? _]]]; done.
Qed.

Definition example_sub (payment status : string) (attempts : Z) : TechnologySubscription :=
  TechSub "s1" "u1" "vpn" "VPN" "basic_plan" "monthly" (fl_of_Z 499) "INR" status payment None JNull None JNull JNull true false false
    false "PENDING" None attempts None None None None (Some "order_1"%string) (Some "pay_1"%string) false None false 0.

Example paid_never_shown_as_unpaid_witness :
  let v := customer_activation_view 5 (example_sub " captured" "Provisioning_Failed" 5) in
  v_payment_status v = "COMPLETED"%string /\ v_activation_status v = "ACTIVATION_ISSUE"%string.
Proof.
  destruct (paid_never_shown_as_unpaid 5 (example_sub " captured" "Provisioning_Failed" 5) None JNull) as (H1 & _ & _ & H2 & _);
    [reflexivity|]. split; [exact H1|]. apply H2. split; [|right; split; [reflexivity|cbn; lia]].
  apply (bool_decide_unpack _). reflexivity.
Defined.
