(* ===== verification/TechAccess.v ===== *)
(** * What a customer gets to see of the provider

    app/service/technology/provider_access.py: the identifiers and credentials in
    the provider's answers, the encrypted blob they are stored in, the URLs and
    fields that may be mailed to a customer, and who may manage a service. *)

From S2P Require Import Prelude Text Numerals PyNum PyJson Urls Secrets TrackRecords TechStore TechStatus.

Definition CREDENTIALS_ENC_PREFIX : string := "enc:v1:".
Definition PROVIDER_CLIENT_ID_KEY : string := "provider_client_id".
Definition SENSITIVE_CREDENTIAL_KEYS : list string :=
  ["access_token"; "token"; "api_token"; "api_key"; "secret"; "password"; "client_secret"; "refresh_token"]%string.
Definition SECRET_QUERY_KEYS : list string := ["access_token"; "token"; "api_token"; "api_key"]%string.
Definition CUSTOMER_STOREFRONT_HOST : string := "deltaosportal.deltapreneur.com".
Definition BLOCKED_PROVIDER_HOSTS : list string :=
  ["technologies.cobrother.com"; "workspace.cobrother.com"; "panel.resellportal.com"; "resellportal.com";
   "www.resellportal.com"]%string.
Definition CUSTOMER_EMAIL_BLOCKED_KEYS : list string :=
  ["access_token"; "token"; "api_token"; "api_key"; "client_secret"; "refresh_token"; "secret"; "secret_key"; "bearer";
   "bearer_token"; "service_id"; "subscription_id"; "provider_subscription_id"; "provider_order_id"; "order_id"; "client_id";
   PROVIDER_CLIENT_ID_KEY; "account_id"; "instance_id"; "user_id"; "is_mock"; "test_mode"; "configured"; "fallback"]%string.
Definition CUSTOMER_ACCESS_URL_KEYS : list string :=
  ["client_access_url"; "access_url"; "url"; "login_url"; "manage_url"; "cpanel_url"; "dashboard_url"; "portal_url";
   "webmail_url"; "activation_url"; "qr_code_url"; "bio_url"; "logo_url"; "account_portal_url"; "loginurl"; "accessurl"]%string.
Definition URL_KEY_PREFERENCE : list string :=
  ["account_portal_url"; "client_access_url"; "login_url"; "loginurl"; "access_url"; "accessurl"; "dashboard_url"; "cpanel_url";
   "portal_url"; "webmail_url"; "qr_code_url"; "activation_url"; "bio_url"; "url"; "manage_url"]%string.
Definition PLACEHOLDER_URL_HOSTS : list string :=
  ["example.com"; "www.example.com"; "example.net"; "www.example.net"; "example.org"; "www.example.org"; "example.test";
   "technologies.cobrother.com"; "workspace.cobrother.com"; "localhost"; "127.0.0.1"]%string.
Definition EMAIL_SKIP_METADATA_KEYS : list string :=
  ["custom_domain_supported"; "provisioned_at"; "created_at"; "updated_at"; "configured"; "fallback"; "is_mock"; "test_mode";
   "test_only"]%string.
Definition PLACEHOLDER_VALUE_KEYS : list string := ["package_code"; "package"; "link"; "server_id"; "port_id"; "server"; "port"]%string.
Definition PLACEHOLDER_FIELD_VALUES : list string :=
  ["test-starter"; "default"; "placeholder"; "n/a"; "na"; "todo"; "tbd"; "none"; "null"; "https://example.com";
   "http://example.com"]%string.

Definition among (s : string) (l : list string) : bool := bool_decide (s ∈ l).

(** ** Identifiers *)

Definition _nonempty_str (value : json) : option string :=
  match value with
  | JNull => None
  | v => let text := strip (py_str v) in if is_empty text then None else Some text
  end.

(** [s.replace("_", "-")] and the like *)
Definition replace_char (a b : Ascii.ascii) (s : string) : string := map_ascii (fun c => if Ascii.eqb c a then b else c) s.

Definition is_link_in_bio (service_slug : string) : bool :=
  bool_decide (replace_char (ch 95) (ch 45) (lower (strip service_slug)) = "link-in-bio"%string).

Definition is_fabricated_provider_id (value user_id : string) : bool :=
  let text := strip value in
  let uid := strip user_id in
  if is_empty text || is_empty uid then false
  else among text [("RSP-ORD-" +:+ str_take 8 uid)%string; ("RSP-SUB-" +:+ str_take 8 uid)%string].

(** The first of the keys with an identifier that was not made up here. *)
Fixpoint real_id (keys : list string) (payload : dict) (user_id : string) : option string :=
  match keys with
  | [] => None
  | k :: keys' =>
      match _nonempty_str (dget k payload) with
      | Some candidate => if is_fabricated_provider_id candidate user_id then real_id keys' payload user_id else Some candidate
      | None => real_id keys' payload user_id
      end
  end.

Definition real_provider_service_id (payload : dict) (user_id : string) : option string :=
  real_id ["service_id"; "provider_subscription_id"; "subscription_id"]%string payload user_id.

Definition real_provider_order_id (payload : dict) (user_id : string) : option string :=
  real_id ["provider_order_id"; "order_id"]%string payload user_id.

(** ** URLs a customer may be given *)

Definition some_in (words : list string) (s : string) : bool := existsb (fun w => contains w s) words.

Definition endswith (s p : string) : bool :=
  let n := (String.length s - String.length p)%nat in
  (String.length p <=? String.length s)%nat && bool_decide (String.substring n (String.length p) s = p).

(** [(netloc or "").lower().split(":", 1)[0]] *)
Definition host_of (netloc : string) : string := (split_at 58 (lower netloc)).1.

Definition unsafe_host (host : string) : bool :=
  among host BLOCKED_PROVIDER_HOSTS || among host PLACEHOLDER_URL_HOSTS
  || endswith host ".example.com" || endswith host ".example.test" || endswith host ".resellportal.com"
  || endswith host ".cobrother.com" || bool_decide (host = "cobrother.com"%string).

Definition is_safe_customer_url (url : json) : res bool :=
  match _nonempty_str url with
  | None => Ok false
  | Some text =>
      let lower_text := lower text in
      if contains "resellportal" lower_text then Ok false
      else if some_in ["access_token="; "api_token="; "api_key="]%string lower_text then Ok false
      else
        try! parts <- urlsplit text;
        let host := host_of (u_netloc parts) in
        if negb (bool_decide (u_scheme parts = "https"%string)) || is_empty (u_netloc parts) then Ok false
        else if unsafe_host host then Ok false
        else if negb (bool_decide (host = CUSTOMER_STOREFRONT_HOST)) then Ok false
        else if some_in ["access_token"; "api_token"; "api_key"; "token"; "secret"]%string (lower (u_path parts)) then Ok false
        else Ok (negb (existsb (fun kv => among (lower kv.1) SECRET_QUERY_KEYS) (parse_qsl (u_query parts))))
  end.

Definition _strip_secret_query (url : string) : res (option string) :=
  try! parts <- urlsplit url;
  let host := lower (u_netloc parts) in
  let pairs := parse_qsl (u_query parts) in
  if contains "resellportal" host || contains "resellportal" (lower url) then Ok None
  else if existsb (fun kv => among (lower kv.1) SECRET_QUERY_KEYS) pairs then Ok None
  else
    let kept := List.filter (fun kv => negb (among (lower kv.1) SECRET_QUERY_KEYS)) pairs in
    let cleaned := urlunsplit (Split (u_scheme parts) (u_netloc parts) (u_path parts) (urlencode kept) (u_fragment parts)) in
    try! safe <- is_safe_customer_url (JStr cleaned);
    Ok (if safe then Some cleaned else None).

(** ** Credentials in the provider's answers *)

(** Whether an item of a section is taken over. *)
Definition takes_item (key : string) (value : json) : res bool :=
  let key_lower := lower key in
  if is_empty key || among key_lower CUSTOMER_EMAIL_BLOCKED_KEYS then Ok false
  else if among key_lower SENSITIVE_CREDENTIAL_KEYS && negb (bool_decide (key_lower = "password"%string)) then Ok false
  else match value with
  | JStr _ => if among key_lower CUSTOMER_ACCESS_URL_KEYS then is_safe_customer_url value else Ok true
  | _ => Ok true
  end.

(** The inner [merge] for a section and its prefix. *)
Fixpoint merge_items (prefix : option string) (items out : dict) : res dict :=
  match items with
  | [] => Ok out
  | (raw_key, value) :: items' =>
      let key := strip raw_key in
      try! take <- takes_item key value;
      let target := match prefix with Some p => (p +:+ "_" +:+ key)%string | None => key end in
      merge_items prefix items' (if take then dset target value out else out)
  end.

Definition merge_section (prefix : option string) (section : json) (out : dict) : res dict :=
  match section with JObj items => merge_items prefix items out | _ => Ok out end.

(** An URL of the answer under its own name. *)
Definition put_safe_url (key : string) (value : json) (out : dict) : res dict :=
  match _nonempty_str value with
  | None => Ok out
  | Some u => try! safe <- is_safe_customer_url (JStr u); Ok (if safe then dset key (JStr u) out else out)
  end.

(** The sections and the keys taken from them; the sets are taken in this order. *)
Definition nested_sections : list (string * list string) :=
  [("bio", ["slug"; "bio_url"]); ("esim_details", ["qr_code_url"; "activation_url"; "iccid"; "esim_status"]);
   ("plugin", ["name"; "description"; "author"; "license_key"]); ("hosting", ["username"; "domain"; "password"]);
   ("phone", ["phone_number"; "country"; "status"]); ("storage", ["plan"; "quota"; "used"; "status"]);
   ("email_marketing", ["sending_plan"; "status"])]%string.

Fixpoint take_keys (keys : list string) (section out : dict) : res dict :=
  match keys with
  | [] => Ok out
  | k :: keys' =>
      let value := dget k section in
      if is_blank value then take_keys keys' section out
      else
        try! safe <- (if among k CUSTOMER_ACCESS_URL_KEYS then is_safe_customer_url value else Ok true);
        take_keys keys' section (if safe then dset k value out else out)
  end.

Fixpoint take_sections (sections : list (string * list string)) (data out : dict) : res dict :=
  match sections with
  | [] => Ok out
  | (name, allowed) :: sections' =>
      try! out <- (match dget name data with JObj section => take_keys allowed section out | _ => Ok out end);
      take_sections sections' data out
  end.

Definition extract_provider_credentials (data : dict) : res dict :=
  try! out <- merge_section None (dget "credentials" data) [];
  try! out <- merge_section (Some "product"%string) (dget "client_credentials" data) out;
  try! out <- merge_section None (dget "vpn_credentials" data) out;
  try! out <- merge_section (Some "portal"%string) (dget "portal_credentials" data) out;
  try! out <- put_safe_url "client_access_url" (dget "client_access_url" data) out;
  try! out <- put_safe_url "account_portal_url" (dget "portal_login_url" data) out;
  take_sections nested_sections data out.

Definition put_given (key : string) (value : json) (out : dict) : dict :=
  match _nonempty_str value with Some t => dset key (JStr t) out | None => out end.

Definition portal_account_from_provider_client (data : dict) : res dict :=
  let out := put_given PROVIDER_CLIENT_ID_KEY (py_or (dget PROVIDER_CLIENT_ID_KEY data) (dget "client_id" data)) [] in
  try! out <- put_safe_url "account_portal_url" (dget "portal_login_url" data) out;
  let out := match dget "portal_credentials" data with
             | JObj c => put_given "portal_password" (dget "password" c) (put_given "portal_email" (dget "email" c) out)
             | _ => out
             end in
  Ok (foldl (fun acc k => if has_key k data then dset k (JBool (truth (dget k data))) acc else acc) out
        ["is_mock"; "test_mode"; "test_only"]%string).

Definition merge_provider_credentials (parts : list dict) : dict :=
  foldl (fun acc part => foldl (fun acc kv => if is_blank kv.2 then acc else dset kv.1 kv.2 acc) acc part) [] parts.

(** ** The stored blob *)

Section Blob.
Context {cipher : Cipher}.

Definition dump_provider_credentials (creds : dict) : res string :=
  try! payload <- dumps compact_sorted (JObj creds);
  Ok (CREDENTIALS_ENC_PREFIX +:+ encrypt_secret payload)%string.

Definition load_provider_credentials (raw : option string) : dict :=
  match raw with
  | None => []
  | Some raw =>
      let text := strip raw in
      if is_empty text || among text ["{}"; "null"]%string then []
      else match after CREDENTIALS_ENC_PREFIX text with
      | Some token => match (try! decrypted <- decrypt_secret token; loads decrypted) with Ok (JObj d) => d | _ => [] end
      | None => match loads text with Ok (JObj d) => d | _ => [] end
      end
  end.

Definition stored_provider_client_id (creds : dict) : option string := _nonempty_str (dget PROVIDER_CLIENT_ID_KEY creds).

(** The row with the credentials of the parts merged into what it has, and the merged credentials. *)
Definition merged_credentials (sub : TechnologySubscription) (creds : dict) : dict :=
  merge_provider_credentials [load_provider_credentials (ts_credentials_json sub); creds].

Definition merge_subscription_credentials (id : string) (creds : dict) : Tech dict :=
  do sub <- sub_of id;
  let merged := merged_credentials sub creds in
  do blob <- lift_res (dump_provider_credentials merged);
  on_sub id (fun s => s <| ts_credentials_json := Some blob |>) ;;;
  ret merged.
End Blob.

(** ** Fields of the access mail *)

Definition CREDENTIAL_FIELD_LABELS : list (string * string) :=
  [("client_access_url", "Service Access"); ("account_portal_url", "Portal URL"); ("portal_email", "Portal Email");
   ("portal_password", "Portal Password"); ("product_email", "Product Email"); ("product_password", "Product Password");
   ("product_username", "Product Username"); ("product_url", "Product URL"); ("product_login_url", "Product Login URL");
   ("email", "Product Email"); ("password", "Product Password"); ("username", "Username"); ("user_name", "Username");
   ("access_url", "Login URL"); ("login_url", "Login URL"); ("url", "Login URL"); ("manage_url", "Login URL");
   ("cpanel_url", "cPanel URL"); ("cpanel_username", "cPanel Username"); ("dashboard_url", "Dashboard URL");
   ("portal_url", "Portal URL"); ("webmail_url", "Webmail URL"); ("phone_number", "Phone Number"); ("server", "Server");
   ("port", "Port"); ("iccid", "ICCID"); ("lpa_string", "LPA / Activation String"); ("smdp_address", "SM-DP+ Address");
   ("license_key", "License Key"); ("activation_code", "Activation Code"); ("activation_key", "Activation Key");
   ("access_token", "Access Token"); ("api_key", "API Key"); ("api_token", "API Token"); ("qr", "QR / Activation Information");
   ("qr_code", "QR Code"); ("qr_code_url", "QR Installation URL"); ("activation_url", "Activation URL");
   ("bio_url", "Public Page"); ("esim_status", "eSIM Status"); ("slug", "Slug"); ("domain", "Domain"); ("country", "Country");
   ("status", "Status"); ("sending_plan", "Sending Plan")]%string.

(** [s.title()]: [up] tells that the next letter starts a word. *)
Fixpoint title_go (up : bool) (s : string) : string :=
  match s with
  | EmptyString => EmptyString
  | String c s' => ((if up then upper (chr c) else lower (chr c)) +:+ title_go (negb (is_alpha c)) s')%string
  end.
Definition title (s : string) : string := title_go true s.

(** [s.replace("_", " ")] *)
Definition spaced (s : string) : string := replace_char (ch 95) (ch 32) s.

Definition humanize_credential_key (key : string) : string :=
  let text := strip key in
  if is_empty text then "Field"%string
  else match List.find (fun kv => bool_decide (kv.1 = lower text)) CREDENTIAL_FIELD_LABELS with
  | Some kv => kv.2
  | None => title (replace_char (ch 45) (ch 32) (spaced text))
  end.

Definition is_sensitive_credential_key (key : string) : bool :=
  let lowered := lower (strip key) in
  among lowered SENSITIVE_CREDENTIAL_KEYS
  || among lowered ["license_key"; "activation_code"; "activation_key"; "secret_key"]%string
  || endswith lowered "_token" || endswith lowered "_secret" || endswith lowered "_password".

Definition with_default_str : dump_options := DumpOptions ", " ": " false true.

Definition _stringify_credential_value (value : json) : string :=
  match value with
  | JObj _ | JArr _ => dump_text with_default_str value
  | JBool b => if b then "true" else "false"
  | v => py_str v
  end.

(** Values the field lists leave out. *)
Definition no_value (value : json) : bool :=
  match value with JNull | JArr [] | JObj [] => true | JStr s => is_empty (strip s) | _ => false end.

Record admin_field := AdminField { df_key : string; df_label : string; df_value : string; df_sensitive : bool }.

Definition admin_access_detail_fields (creds : dict) : list admin_field :=
  map (fun kv => AdminField kv.1 (humanize_credential_key kv.1) (_stringify_credential_value kv.2) (is_sensitive_credential_key kv.1))
    (List.filter (fun kv => negb (no_value kv.2)) creds).

Definition customer_display_name (user : option TechUser) : option string :=
  match user with
  | None => None
  | Some u =>
      let text s := match s with Some s => _nonempty_str (JStr s) | None => None end in
      let parts := omap text [tu_firstname u; tu_lastname u] in
      match parts with
      | [] => match text (tu_username u) with Some n => Some n | None => _nonempty_str (JStr (tu_email u)) end
      | _ => Some (join " " parts)
      end
  end.

Definition credentials_blob_present (raw : option string) : bool :=
  match raw with
  | None => false
  | Some raw => let text := strip raw in negb (is_empty text || among (lower text) ["{}"; "null"; "[]"; "none"]%string)
  end.

Definition is_captured_payment (payment_status : string) : bool := bool_decide (upper (strip payment_status) = "CAPTURED"%string).

Definition _is_blocked_email_key (key_lower : string) : bool :=
  among key_lower CUSTOMER_EMAIL_BLOCKED_KEYS || among key_lower EMAIL_SKIP_METADATA_KEYS
  || endswith key_lower "_token" || endswith key_lower "_secret" || endswith key_lower "_api_key".

Definition _is_placeholder_credential (key_lower rendered : string) : bool :=
  let l := lower (strip rendered) in
  (among key_lower PLACEHOLDER_VALUE_KEYS
   && (among l PLACEHOLDER_FIELD_VALUES || contains "example.com" l || contains "example.test" l))
  || (among key_lower ["server_id"; "port_id"; "server"; "port"]%string && among l ["0"; "test"]%string).

Definition section_for (key_lower : string) : string :=
  if startswith key_lower "portal_" || bool_decide (key_lower = "account_portal_url"%string) then "Portal login" else "Product access".

(** [for key in URL_KEY_PREFERENCE], or the first candidate. *)
Definition _pick_login_url (candidates : list (string * string)) : option string :=
  let named k := option_map snd (List.find (fun kv => bool_decide (kv.1 = k)) candidates) in
  match omap named URL_KEY_PREFERENCE with
  | u :: _ => Some u
  | [] => option_map snd (head candidates)
  end.

(** [candidates[k] = v] *)
Fixpoint put_candidate (k v : string) (l : list (string * string)) : list (string * string) :=
  match l with
  | [] => [(k, v)]
  | kv :: l' => if bool_decide (kv.1 = k) then (k, v) :: l' else kv :: put_candidate k v l'
  end.

Section Mail.
Context {cfg : TechConfig}.

Definition _strict_production_email_filter : bool := bool_decide (lower (strip TECH_ENVIRONMENT) = "production"%string).

Definition _is_test_only_production_value (rendered : string) : bool :=
  _strict_production_email_filter
  && some_in ["@example.com"; "@example.test"; "test-starter"]%string (lower (strip rendered)).

(** What the loop has collected: fields (latest first), URL candidates, URLs seen. *)
Definition collected : Type := list access_field * list (string * string) * list string.

(** The checks before the URL rule; [None] skips the item. *)
Definition rendered_value (key : string) (value : json) : option string :=
  let key_text := strip key in
  let rendered := _stringify_credential_value value in
  if is_empty key_text || _is_blocked_email_key (lower key_text) || no_value value
     || startswith (lower rendered) "bearer " || contains "resellportal" (lower rendered)
     || _is_placeholder_credential (lower key_text) rendered || _is_test_only_production_value rendered
  then None else Some rendered.

Definition field_of (key rendered : string) : access_field :=
  let key_text := strip key in AccessField key_text (humanize_credential_key key_text) rendered (section_for (lower key_text)).

Definition collect_field (kv : string * json) (acc : collected) : res collected :=
  let '(fields, urls, seen) := acc in
  let key_lower := lower (strip kv.1) in
  match rendered_value kv.1 kv.2 with
  | None => Ok acc
  | Some rendered =>
      if among key_lower CUSTOMER_ACCESS_URL_KEYS then
        try! cleaned <- _strip_secret_query rendered;
        match cleaned with
        | None => Ok acc
        | Some u =>
            let urls := put_candidate key_lower u urls in
            if among (lower u) seen then Ok (fields, urls, seen)
            else Ok (field_of kv.1 u :: fields, urls, lower u :: seen)
        end
      else Ok (field_of kv.1 rendered :: fields, urls, seen)
  end.

Fixpoint collect_fields (items : dict) (acc : collected) : res collected :=
  match items with
  | [] => Ok acc
  | kv :: items' => try! acc <- collect_field kv acc; collect_fields items' acc
  end.

Definition customer_access_email_fields (creds : dict) : res (list access_field * option string) :=
  try! (fields, urls, _) <- collect_fields creds ([], [], []);
  Ok (rev fields, _pick_login_url urls).

Definition simulated_credentials (creds : dict) : bool :=
  existsb (fun k => truth (dget k creds)) ["is_mock"; "test_mode"; "test_only"; "simulated"]%string.

Context {cipher : Cipher}.

(** [None] when there is nothing to mail. *)
Definition access_email_payload (sub : TechnologySubscription) (customer_name : option string) (allow_already_sent : bool)
    : res (option access_payload) :=
  if (ts_access_email_sent sub && negb allow_already_sent) || ts_is_deleted sub
     || negb (bool_decide (upper (strip (ts_status sub)) = "ACTIVE"%string)) || negb (is_captured_payment (ts_payment_status sub))
  then Ok None
  else
    let creds := load_provider_credentials (ts_credentials_json sub) in
    if simulated_credentials creds then Ok None
    else
      try! (fields, access_url) <- customer_access_email_fields creds;
      match fields with
      | [] => Ok None
      | _ =>
          let plan := title (spaced (ts_plan_code sub)) in
          Ok (Some (AccessPayload (str_or customer_name "Customer")
            (if is_empty (ts_service_name sub) then "Technology Service" else ts_service_name sub)
            (if is_empty plan then "Plan" else plan) (ts_billing_cycle sub)
            (ts_current_period_start sub) (JDate (ts_created_at sub)) fields access_url))
      end.

Definition access_email_resend_block_reason (sub : option TechnologySubscription) (user : option TechUser) : option string :=
  match sub with
  | None => Some "Subscription not found"%string
  | Some sub =>
      if ts_is_deleted sub then Some "Subscription not found"%string
      else if negb (bool_decide (upper (strip (ts_status sub)) = "ACTIVE"%string))
      then Some "Access email can only be sent for an active subscription."%string
      else if negb (is_captured_payment (ts_payment_status sub))
      then Some "Access email can only be sent after payment is captured."%string
      else if negb (credentials_blob_present (ts_credentials_json sub)) then Some "Access information is not available."%string
      else if simulated_credentials (load_provider_credentials (ts_credentials_json sub))
      then Some "Access email is not available for simulated test-mode provisioning."%string
      else match user with
      | Some u => if is_empty (strip (tu_email u)) then Some "Customer email is not available."%string else None
      | None => Some "Customer email is not available."%string
      end
  end.

Definition mark_access_email_sent (sub : TechnologySubscription) : TechnologySubscription :=
  sub <| ts_access_email_sent := true |> <| ts_access_email_status := "SENT"%string |>.

Definition mark_access_email_failed (sub : TechnologySubscription) : TechnologySubscription :=
  if ts_access_email_sent sub then sub else sub <| ts_access_email_status := "FAILED"%string |>.

Definition access_email_delivery_status (sub : TechnologySubscription) : string :=
  if ts_access_email_sent sub then "SENT"
  else if bool_decide (upper (strip (ts_access_email_status sub)) = "FAILED"%string) then "FAILED" else "PENDING".

(** The answer: success, error or message, the delivery status. *)
Definition deliver_admin_access_email (id : string) (user : option TechUser) (allow_already_sent : bool)
    : Tech (bool * string * string) :=
  do found <- gets (fun d => tb_subs d !! id);
  match access_email_resend_block_reason found user, found with
  | Some reason, _ => ret (false, reason, match found with Some s => access_email_delivery_status s | None => "PENDING"%string end)
  | None, None => ret (false, "Subscription not found"%string, "PENDING"%string)
  | None, Some sub =>
      let to_email := match user with Some u => _nonempty_str (JStr (tu_email u)) | None => None end in
      do payload <- lift_res (access_email_payload sub (Some (str_or (customer_display_name user) (default EmptyString to_email)))
                                allow_already_sent);
      match payload with
      | None => ret (false, "Access information is not available to email."%string, access_email_delivery_status sub)
      | Some p =>
          do sent <- catch (send_mail (AccessMail (default EmptyString to_email) p) ;;; ret true) (fun _ => ret false);
          if sent then on_sub id mark_access_email_sent ;;; ret (true, "Access email sent."%string, "SENT"%string)
          else
            on_sub id mark_access_email_failed ;;;
            do sub' <- sub_of id;
            ret (false, "Unable to send access email."%string, access_email_delivery_status sub')
      end
  end.

(** ** Managing a link-in-bio service *)

(** [inr] is the service, [inl] the status and detail of the refusal. *)
Definition evaluate_link_in_bio_access (sub : option TechnologySubscription) (requester_user_id : string)
    : (Z * string) + TechnologySubscription :=
  match sub with
  | None => inl (404, "Service not found"%string)
  | Some s =>
      if ts_is_deleted s || negb (is_link_in_bio (ts_service_slug s)) || negb (bool_decide (ts_user_id s = requester_user_id))
      then inl (404, "Service not found"%string)
      else if negb (is_paid_payment (ts_payment_status s)) || negb (bool_decide (upper (strip (ts_status s)) = "ACTIVE"%string))
      then inl (403, "This Link in Bio service is not available to manage."%string)
      else inr s
  end.

Definition load_link_in_bio_subscription_by_service_id (service_id : string) (d : tech_db) : option TechnologySubscription :=
  match _nonempty_str (JStr service_id) with
  | None => None
  | Some sid =>
      List.find (fun s => is_link_in_bio (ts_service_slug s))
        (select_where (fun s => bool_decide (ts_provider_subscription_id s = Some sid) && negb (ts_is_deleted s)) (values (tb_subs d)))
  end.

(** The answer is made of columns of the service, which is returned here. *)
Definition resolve_link_in_bio_access (user_id service_id : string) : Tech TechnologySubscription :=
  match _nonempty_str (JStr service_id) with
  | None => raise (HTTPException "service_id is required" 400)
  | Some sid =>
      do sub <- query (load_link_in_bio_subscription_by_service_id sid);
      match evaluate_link_in_bio_access sub user_id with
      | inl (code, detail) => raise (HTTPException detail code)
      | inr s => ret s
      end
  end.

(** ** Customer payloads *)

Definition public_credentials (creds : dict) (service_slug : string) : res dict :=
  try! out <- (fix go items out := match items with
     | [] => Ok out
     | (key, value) :: items' =>
         if among (lower key) SENSITIVE_CREDENTIAL_KEYS then go items' out
         else match value with
         | JStr s =>
             if contains "resellportal" (lower s) then go items' out
             else if among (lower key) CUSTOMER_ACCESS_URL_KEYS then
               try! cleaned <- _strip_secret_query s;
               go items' (match cleaned with
                          | Some u => if is_empty u then out else dset key (JStr u) out
                          | None => out
                          end)
             else go items' (dset key value out)
         | _ => go items' (dset key value out)
         end
     end) creds ([] : dict);
  Ok (if is_link_in_bio service_slug then foldl (fun acc k => dpop k acc) out
        ["access_url"; "url"; "login_url"; "manage_url"; "managePath"]%string else out).
End Mail.

(** ** Credentials in and out *)

Definition no_space (c : Ascii.ascii) : bool := negb (is_space c).

Lemma strip_no_space s : all_chars no_space s = true -> strip s = s.
Proof.
  intros Hs. unfold strip.
  assert (lstrip s = s) as ->.
  { destruct s as [|c s]; [done|]. apply andb_true_iff in Hs as [Hc%negb_true_iff _]. cbn. by rewrite Hc. }
  induction s as [|c s IH]; [done|]. apply andb_true_iff in Hs as [Hc%negb_true_iff Hs]. cbn. by rewrite Hc, IH.
Qed.

(** A token is URL-safe base64: it has no blanks. *)
Definition tokens_without_blanks (cipher : Cipher) : Prop := forall s, all_chars no_space (encrypt_secret s) = true.

(** C29. What is stored as the credentials of a subscription is read back: under
    every key the value that was stored, with the keys of nested dictionaries in
    order, and no other key.  The credentials are built of ASCII texts, whole
    numbers, booleans, null, lists and dictionaries ([plain_json]): fractions, dates
    and other characters are not covered. *)
Theorem credentials_round_trip {cipher : Cipher} creds :
  tokens_without_blanks cipher -> plain_json (JObj creds) = true ->
  exists blob, dump_provider_credentials creds = Ok blob /\
    (forall k, dlookup k (load_provider_credentials (Some blob)) = option_map sort_json (dlookup k creds)) /\
    startswith blob CREDENTIALS_ENC_PREFIX = true.
Proof.
  intros Htok Hp. pose proof (loads_dumps (JObj creds) Hp) as H.
  unfold dump_provider_credentials. destruct (dumps compact_sorted (JObj creds)) as [t|e] eqn:E; [|done]. cbn [res_bind] in *.
  eexists. split; [done|]. split; [|apply prefix_append]. intros k.
  assert (strip (CREDENTIALS_ENC_PREFIX +:+ encrypt_secret t)%string = (CREDENTIALS_ENC_PREFIX +:+ encrypt_secret t)%string) as Hs.
  { apply strip_no_space. exact (Htok t). }
  unfold load_provider_credentials. rewrite Hs. change (is_empty _ || _) with false. cbn iota.
  rewrite after_app, decrypt_encrypt. cbn [res_bind]. rewrite H.
  assert (NoDup (map fst creds)) as Hn by (apply andb_true_iff in Hp as [_ Hn]; by apply bool_decide_eq_true in Hn).
  exact (sorted_lookup creds k Hn).
Qed.

Lemma dlookup_dset k k' v d : dlookup k (dset k' v d) = if bool_decide (k = k') then Some v else dlookup k d.
Proof.
  unfold dlookup. induction d as [|[k2 w] d IH]; cbn.
  - case_bool_decide; subst; cbn; by repeat case_bool_decide.
  - destruct (bool_decide_reflect (k2 = k')) as [->|H2]; cbn.
    + destruct (bool_decide_reflect (k' = k)) as [->|H3]; cbn; [by rewrite bool_decide_eq_true_2|].
      by rewrite bool_decide_eq_false_2 by congruence.
    + destruct (bool_decide_reflect (k2 = k)) as [->|H3]; cbn; [by rewrite bool_decide_eq_false_2|exact IH].
Qed.

(** The last value of a part that is not blank. *)
Definition given (k : string) (part : dict) : option json :=
  option_map snd (last (filter (fun kv => kv.1 = k /\ is_blank kv.2 = false) part)).

Lemma merge_part k part : forall acc,
  dlookup k (foldl (fun acc kv => if is_blank kv.2 then acc else dset kv.1 kv.2 acc) acc part)
  = match given k part with Some v => Some v | None => dlookup k acc end.
Proof.
  unfold given. induction part as [|[k' v] part IH] using rev_ind; intros acc; [done|].
  rewrite foldl_app, filter_app. cbn [foldl fst snd]. rewrite filter_cons. cbn [fst snd].
  destruct (is_blank v) eqn:Hb.
  - rewrite decide_False by (by intros [_ ?]). rewrite filter_nil, app_nil_r. apply IH.
  - rewrite dlookup_dset. destruct (decide (k' = k)) as [->|Hk].
    + rewrite decide_True by done. rewrite filter_nil, last_snoc. cbn. by rewrite bool_decide_eq_true_2.
    + rewrite decide_False by (by intros [? _]). rewrite filter_nil, app_nil_r, bool_decide_eq_false_2 by congruence. apply IH.
Qed.

(** Merged credentials have under every key the value of the last part that has
    one which is not blank: a blank value never displaces what is stored. *)
Theorem merged_credentials_lookup k stored new :
  dlookup k (merge_provider_credentials [stored; new])
  = match given k new with Some v => Some v | None => given k stored end.
Proof. unfold merge_provider_credentials. cbn [foldl]. rewrite !merge_part. by destruct (given k new), (given k stored). Qed.

(** ** What a mail to a customer may contain *)

Definition customer_url (u : string) : Prop := is_safe_customer_url (JStr u) = Ok true.

(** The key is not blocked; a URL is safe for the customer; anything else names
    neither the provider nor a bearer token. *)
Definition mailable (f : access_field) : Prop :=
  _is_blocked_email_key (lower (af_key f)) = false /\
  if among (lower (af_key f)) CUSTOMER_ACCESS_URL_KEYS then customer_url (af_value f)
  else contains "resellportal" (lower (af_value f)) = false /\ startswith (lower (af_value f)) "bearer " = false.

Lemma strip_secret_query_safe url u : _strip_secret_query url = Ok (Some u) -> customer_url u.
Proof.
  unfold _strip_secret_query, customer_url. destruct (urlsplit url) as [parts|e]; [|done]. cbn [res_bind].
  do 2 (case_match; [done|]). destruct (is_safe_customer_url _) as [[]|e] eqn:E; cbn [res_bind]; intros [= <-]. done.
Qed.

Section Mailable.
Context {cfg : TechConfig}.

(** The lower case of a key does not change when it is taken again. *)
Lemma rendered_inv key value r : rendered_value key value = Some r ->
  _is_blocked_email_key (lower (strip key)) = false /\ contains "resellportal" (lower r) = false /\
  startswith (lower r) "bearer " = false.
Proof.
  unfold rendered_value. case_match; [done|]. intros [= <-]. by rewrite !orb_false_iff in * by done; naive_solver.
Qed.

Definition urls_ok (acc : collected) : Prop :=
  Forall mailable acc.1.1 /\ Forall (fun kv => customer_url kv.2) acc.1.2.

Lemma put_candidate_ok k u l : customer_url u -> Forall (fun kv => customer_url kv.2) l ->
  Forall (fun kv => customer_url kv.2) (put_candidate k u l).
Proof.
  intros Hu. induction 1 as [|kv l Hkv Hl IH]; cbn; [by repeat constructor|].
  case_bool_decide; by constructor.
Qed.

Lemma collect_field_ok kv acc acc' : urls_ok acc -> collect_field kv acc = Ok acc' -> urls_ok acc'.
Proof.
  destruct acc as [[fields urls] seen]. intros [Hf Hu]. unfold collect_field.
  destruct (rendered_value kv.1 kv.2) as [r|] eqn:Hr; [|by intros [= <-]].
  apply rendered_inv in Hr as (H1 & H2 & H3). destruct (among (lower (strip kv.1)) _) eqn:Ha.
  - destruct (_strip_secret_query r) as [[u|]|e] eqn:Hc; cbn [res_bind]; [|by intros [= <-]|done].
    apply strip_secret_query_safe in Hc.
    case_match; intros [= <-]; split; cbn; try by apply put_candidate_ok; try done.
    + done.
    + constructor; [|done]. split; [done|]. cbn [af_key af_value field_of]. by rewrite Ha.
  - intros [= <-]. split; [|done]. constructor; [|done]. split; [done|]. cbn [af_key af_value field_of]. by rewrite Ha.
Qed.

Lemma collect_fields_ok items : forall acc acc', urls_ok acc -> collect_fields items acc = Ok acc' -> urls_ok acc'.
Proof.
  induction items as [|kv items IH]; intros acc acc' Hacc; cbn; [by intros [= <-]|].
  destruct (collect_field kv acc) as [acc1|e] eqn:E; cbn [res_bind]; [|done]. apply IH. by eapply collect_field_ok.
Qed.

Lemma pick_login_url_in l u : _pick_login_url l = Some u -> exists k, (k, u) ∈ l.
Proof.
  unfold _pick_login_url. destruct (omap _ URL_KEY_PREFERENCE) as [|x xs] eqn:E.
  - destruct l as [|[k v] l]; [done|]. intros [= <-]. exists k. by left.
  - intros [= <-]. assert (x ∈ omap (fun k => option_map snd (List.find (fun kv : string * string => bool_decide (kv.1 = k)) l)) URL_KEY_PREFERENCE) as Hx
      by (rewrite E; by left).
    apply list_elem_of_omap in Hx as (k & _ & Hk). destruct (List.find _ l) as [[k' v]|] eqn:Hf; [|done].
    cbn in Hk. simplify_eq. apply find_some in Hf as [Hf _]. exists k'. by apply list_elem_of_In.
Qed.

(** An access mail is only made for an active, captured, undeleted subscription
    whose credentials are not a simulation, and not twice unless that is asked for;
    then it has a field, none under a blocked key, every URL in it and the login
    link are safe for customers, and no other field names the provider or carries a
    bearer token. *)
Theorem access_mail_safe {cipher : Cipher} sub name again p :
  access_email_payload sub name again = Ok (Some p) ->
  upper (strip (ts_status sub)) = "ACTIVE"%string /\ is_captured_payment (ts_payment_status sub) = true /\
  ts_is_deleted sub = false /\ (ts_access_email_sent sub = true -> again = true) /\
  simulated_credentials (load_provider_credentials (ts_credentials_json sub)) = false /\
  ap_fields p <> [] /\ Forall mailable (ap_fields p) /\ (forall u, ap_access_url p = Some u -> customer_url u).
Proof.
  unfold access_email_payload. case_match eqn:Hg; [done|].
  apply orb_false_iff in Hg as [[[Hsent Hdel]%orb_false_iff Hst%negb_false_iff]%orb_false_iff Hpay%negb_false_iff].
  apply bool_decide_eq_true in Hst. destruct (simulated_credentials _) eqn:Hsim; [done|].
  unfold customer_access_email_fields.
  destruct (collect_fields _ _) as [[[fields urls] seen]|e] eqn:Hc; [|done]. cbn [res_bind].
  assert (urls_ok (fields, urls, seen)) as [Hf Hu] by (eapply collect_fields_ok; [|exact Hc]; by split; constructor).
  cbn in Hf, Hu. destruct (rev fields) as [|f fs] eqn:Hrev; [done|]. intros [= <-]. cbn [ap_fields ap_access_url].
  split_and!; try done.
  - intros Hs. rewrite Hs in Hsent. by destruct again.
  - rewrite <-Hrev. by apply Forall_rev.
  - intros u [k Hk]%pick_login_url_in. rewrite Forall_forall in Hu. by apply (Hu (k, u)).
Qed.
End Mailable.

(** *** Where the checks of a URL stop short *)

(** The host is taken from before the first colon: a URL whose user part is the
    host of the portal passes, and leads elsewhere. *)
Lemma userinfo_passes_as_host :
  is_safe_customer_url (JStr "https://deltaosportal.deltapreneur.com:x@evil.example/") = Ok true /\
  urlsplit "https://deltaosportal.deltapreneur.com:x@evil.example/"
  = Ok (Split "https" "deltaosportal.deltapreneur.com:x@evil.example" "/" "" "").
Proof. vm_compute. done. Qed.

Definition plain_config : TechConfig := {|
  TECH_ENVIRONMENT := "production"; RESELLPORTAL_API_KEY := "key"; RESELLPORTAL_API_SECRET := "secret";
  RESELLPORTAL_TEST_MODE := false; RESELLPORTAL_ALLOW_LIVE := true; TECH_SUBSCRIPTION_MAX_RETRIES := 5;
  tech_mail_ok := fun _ => true |}.

(** A token inside a nested value is mailed with it. *)
Lemma nested_token_mailed :
  let cfg := plain_config in
  exists f, customer_access_email_fields [("account", JObj [("access_token", JStr "s3cret")])]%string = Ok ([f], None) /\
    contains "access_token" (af_value f) = true /\ contains "s3cret" (af_value f) = true.
Proof. eexists. split; [vm_compute; reflexivity|]. by vm_compute. Qed.

(** ** Examples *)

(** Hexadecimal digits as a cipher. *)
Fixpoint hex_encode (s : string) : string :=
  match s with EmptyString => EmptyString | String c s' => (hex_digits 2 (code c) EmptyString +:+ hex_encode s')%string end.

Fixpoint hex_decode (s : string) : res string :=
  match s with
  | EmptyString => Ok EmptyString
  | String a (String b s') =>
      match hex_value a, hex_value b with
      | Some x, Some y => try! r <- hex_decode s'; Ok (String (Ascii.ascii_of_nat (Z.to_nat (16 * x + y))) r)
      | _, _ => Raise (ValueError "Could not decrypt secret.")
      end
  | _ => Raise (ValueError "Could not decrypt secret.")
  end.

Lemma hex_decode_char c s : hex_decode (hex_digits 2 (code c) EmptyString +:+ s)%string
  = (try! r <- hex_decode s; Ok (String c r)).
Proof. by destruct c as [[] [] [] [] [] [] [] []]. Qed.

Lemma hex_decode_encode s : hex_decode (hex_encode s) = Ok s.
Proof. induction s as [|c s IH]; [done|]. cbn [hex_encode]. by rewrite hex_decode_char, IH. Qed.

Lemma hex_decode_error s e : hex_decode s = Raise e -> e = ValueError "Could not decrypt secret.".
Proof.
  enough (forall n s, (String.length s <= n)%nat -> hex_decode s = Raise e -> e = ValueError "Could not decrypt secret.") as H
    by (by apply (H (String.length s))).
  clear s. induction n as [|n IH]; intros [|a [|b s]] Hn; cbn in *; try done; try lia; try by intros [= <-].
  destruct (hex_value a), (hex_value b); try by intros [= <-].
  destruct (hex_decode s) as [r|e'] eqn:E; cbn [res_bind]; [done|]. intros [= ->]. apply (IH s); [lia|done].
Qed.

#[export] Instance hex_cipher : Cipher.
Proof.
  refine {| encrypt_secret s := ("x" +:+ hex_encode s)%string;
            decrypt_secret s := match after "x" s with Some r => hex_decode r | None => Raise (ValueError "Could not decrypt secret.") end |}.
  - intros s. by rewrite after_app, hex_decode_encode.
  - done.
  - intros s e. destruct (after "x" s); [apply hex_decode_error|by intros [= <-]].
Defined.

Lemma hex_without_blanks : tokens_without_blanks hex_cipher.
Proof.
  intros s. change (all_chars no_space (hex_encode s) = true). induction s as [|c s IH]; [done|].
  cbn [hex_encode]. destruct c as [[] [] [] [] [] [] [] []]; exact IH.
Qed.

Definition example_credentials : dict :=
  [("username", JStr "asha@mail.in"); ("client_access_url", JStr "https://deltaosportal.deltapreneur.com/vpn?a=1");
   ("access_token", JStr "t0ken"); ("quota", JObj [("used", JInt 3); ("max", JInt (-1))])]%string.

Example credentials_round_trip_witness :
  exists blob, dump_provider_credentials example_credentials = Ok blob /\
    dlookup "quota" (load_provider_credentials (Some blob)) = Some (JObj [("max", JInt (-1)); ("used", JInt 3)]%string).
Proof.
  destruct (credentials_round_trip example_credentials hex_without_blanks) as (blob & H1 & H2 & _); [vm_compute; reflexivity|].
  exists blob. split; [exact H1|]. rewrite H2. vm_compute. reflexivity.
Defined.

Definition active_sub : TechnologySubscription :=
  (example_sub "CAPTURED" "ACTIVE" 1)
    <| ts_credentials_json := match dump_provider_credentials example_credentials with Ok b => Some b | Raise _ => None end |>.

Example access_mail_safe_witness :
  let cfg := plain_config in
  exists p, access_email_payload active_sub (Some "Asha"%string) false = Ok (Some p) /\ Forall mailable (ap_fields p).
Proof.
  intros cfg. eexists. split; [vm_compute; reflexivity|].
  eapply (access_mail_safe active_sub (Some "Asha"%string) false). vm_compute. reflexivity.
Defined.
