(* ===== verification/ProductMapper.v ===== *)
(** * Orders for the provider of the technology services

    app/service/resellportal/product_mapper.py: the product of a catalogue entry,
    what the customer must give before an order, and the parameters of the order
    made from it.  What the customer gives is a dictionary of JSON values. *)

From stdpp Require Import sorting.
From S2P Require Import Prelude Text Numerals PyNum PyJson.

(** [str(v or "").strip()] *)
Definition text_of (v : json) : string := strip (py_str (py_or v (JStr EmptyString))).

Definition _MULTI_LABEL_TLDS : list string :=
  ["co.in"; "co.uk"; "co.jp"; "co.nz"; "co.za"; "com.au"; "com.br"; "com.cn";
   "com.hk"; "com.mx"; "com.sg"; "com.tr"; "net.au"; "net.nz"; "org.uk";
   "org.au"; "org.nz"; "gov.uk"; "ac.uk"; "co.kr"; "com.tw"; "com.vn";
   "com.my"; "com.ph"; "com.pk"; "com.eg"; "com.sa"; "co.ke"; "co.tz";
   "com.ng"; "com.ar"; "com.co"; "com.pe"; "com.uy"; "com.ve"; "com.ec";
   "com.gt"; "com.ni"; "com.do"; "com.pr"; "com.jm"; "com.tt"; "com.lk"]%string.

Definition cpanel_char (c : Ascii.ascii) : bool :=
  let n := code c in ((97 <=? n) && (n <=? 122)) || ((48 <=? n) && (n <=? 57)).

Definition _CPANEL_MAX_LEN : nat := 20.

Definition REQUIRED_INPUT_KEYS (slug : string) : list (list string) :=
  if bool_decide (slug = "ai-business-suite") then [["aiTools"]]
  else if bool_decide (slug = "business-phone") then [["areaCode"]; ["phoneNumber"]]
  else if bool_decide (slug = "cloud-storage") then [["storagePlan"]]
  else if bool_decide (slug = "document-signer") then [["companyName"]]
  else if bool_decide (slug = "email-marketing") then [["sendingPlan"]; ["selectedPlan"]; ["planCode"]]
  else if bool_decide (slug = "invoice-ai") then [["subdomain"]]
  else if bool_decide (slug = "appointment-booking") then [["subdomain"]]
  else if bool_decide (slug = "smm-growth") then [["serviceId"; "link"; "quantity"]]
  else if bool_decide (slug = "esim") then [["packageCode"]]
  else if bool_decide (slug = "web-hosting") then [["primaryDomain"]]
  else if bool_decide (slug = "wordpress-plugin-pack") then [["pluginName"; "author"; "description"; "logoUrl"]]
  else []%string.

Definition PRODUCT_KEY_MAP : list (string * string) :=
  [("ai-business-suite", "ai_business_tools"); ("website-builder", "website_builder"); ("web-hosting", "web_hosting");
   ("cloud-storage", "cloud_storage"); ("email-marketing", "email_marketing"); ("esim", "esim"); ("smm-growth", "smm");
   ("vpn", "vpn"); ("crm", "crm"); ("invoice-ai", "invoice_ai"); ("appointment-booking", "appointments");
   ("document-signer", "docsign"); ("business-phone", "business_phone");
   ("social-media-automation", "social_media_automation"); ("reputation-management", "reputation_management");
   ("link-in-bio", "link_in_bio"); ("wordpress-plugin-pack", "wp_plugin_installer")]%string.

Definition CONFIRMED_PRODUCT_KEYS : list string := map snd PRODUCT_KEY_MAP.

Definition _EMAIL_MARKETING_PLANS : list string := ["starter"; "growth"; "pro"; "business"]%string.
Definition _CLOUD_STORAGE_PLANS : list string := ["50gb"; "100gb"; "200gb"; "500gb"; "1tb"; "2tb"]%string.

Definition _coerce_str_list (value : json) : list string :=
  match value with
  | JStr s => if is_empty (strip s) then [] else [strip s]
  | JArr l => map (fun v => strip (py_str v)) (List.filter (fun v => negb (is_empty (text_of v))) l)
  | _ => []
  end.

(** [None] when no key has a value. *)
Fixpoint _metadata_value (meta : dict) (keys : list string) : json :=
  match keys with
  | [] => JNull
  | k :: keys' =>
      match dget k meta with
      | JNull => _metadata_value meta keys'
      | v => if is_empty (strip (py_str v)) then _metadata_value meta keys' else v
      end
  end.

Definition _email_marketing_plan (plan_code : string) (meta : dict) : string :=
  let v := _metadata_value meta ["sendingPlan"; "sending_plan"; "planCode"; "selectedPlan"; "plan_code"]%string in
  let sending_plan := lower (text_of (py_or v (JStr plan_code))) in
  if bool_decide (sending_plan ∈ _EMAIL_MARKETING_PLANS) then sending_plan else EmptyString.

(** [params[k] = s] if the text is not empty *)
Definition put_text (k s : string) (params : dict) : dict := if is_empty s then params else dset k (JStr s) params.

(** The texts of [meta] under the keys of the provider, the blank ones left out. *)
Definition put_texts (keys : list (string * string)) (meta params : dict) : dict :=
  foldl (fun acc k => put_text k.2 (text_of (dget k.1 meta)) acc) params keys.

(** ** The parameters of an order *)

Definition _build_ai_business_tools_params (meta : dict) : dict :=
  match _coerce_str_list (py_or (dget "aiTools" meta) (dget "ai_tools" meta)) with
  | [] => []
  | l => [("ai_tools", JArr (map JStr l))]%string
  end.

(** [re.sub(r"^[a-z]+://", "", domain)] *)
Fixpoint lower_prefix (s : string) : string * string :=
  match s with
  | String c s' => let n := code c in
      if (97 <=? n) && (n <=? 122) then let '(a, b) := lower_prefix s' in (String c a, b) else (EmptyString, s)
  | EmptyString => (EmptyString, EmptyString)
  end.
Definition strip_scheme (s : string) : string :=
  let '(scheme, rest) := lower_prefix s in
  if is_empty scheme then s else default s (after "://" rest).

Fixpoint rstrip_dots (s : string) : string :=
  match s with
  | EmptyString => EmptyString
  | String c s' =>
      let r := rstrip_dots s' in
      if is_empty r && Ascii.eqb c (Ascii.ascii_of_nat 46) then EmptyString else String c r
  end.

Definition derive_cpanel_username (primary_domain : string) : string :=
  let domain := strip_scheme (lower (strip primary_domain)) in
  let domain := match cut_char (Ascii.ascii_of_nat 47) domain with Some (a, _) => a | None => domain end in
  let domain := rstrip_dots domain in
  if is_empty domain || negb (contains "." domain) then EmptyString
  else
    let labels := split_char (Ascii.ascii_of_nat 46) domain in
    let n := length labels in
    let base_labels :=
      if (3 <=? n)%nat && bool_decide (join "." (drop (n - 2) labels) ∈ _MULTI_LABEL_TLDS)
      then take (n - 2) labels else take (n - 1) labels in
    str_take _CPANEL_MAX_LEN (keep_ascii cpanel_char (List.last base_labels EmptyString)).

Definition _build_web_hosting_params (plan_code : string) (meta : dict) : dict :=
  let primary_domain := lower (text_of (dget "primaryDomain" meta)) in
  let params := put_text "primary_domain" primary_domain [] in
  let cpanel_username := text_of (dget "cpanelUsername" meta) in
  let params :=
    if negb (is_empty cpanel_username) then dset "cpanel_username" (JStr cpanel_username) params
    else if negb (is_empty primary_domain) then put_text "cpanel_username" (derive_cpanel_username primary_domain) params
    else params in
  let plan := lower (text_of (py_or (dget "plan" meta) (JStr plan_code))) in
  if negb (is_empty primary_domain) && negb (is_empty plan) then dset "plan" (JStr plan) params else params.

Definition storage_plan_of (meta : dict) : string :=
  lower (text_of (py_or (dget "storagePlan" meta) (dget "storage_plan" meta))).

Definition _build_cloud_storage_params (meta : dict) : dict :=
  if bool_decide (storage_plan_of meta ∈ _CLOUD_STORAGE_PLANS) then [("storage_plan", JStr (storage_plan_of meta))]%string else [].

Definition _build_email_marketing_params (plan_code : string) (meta : dict) : dict :=
  put_text "sending_plan" (_email_marketing_plan plan_code meta) [].

Definition _build_esim_params (meta : dict) : dict := put_texts [("packageCode", "package_code")]%string meta [].

(** [int(...)] with [TypeError] and [ValueError] read as 0. *)
Definition quantity_of (meta : dict) : res Z :=
  match py_int (py_or (dget "quantity" meta) (JInt 0)) with
  | Raise (ValueError _) | Raise (OtherError "TypeError") => Ok 0
  | r => r
  end.

Definition _build_smm_params (meta : dict) : res dict :=
  try! quantity <- quantity_of meta;
  let params := put_texts [("serviceId", "service_id"); ("link", "link")]%string meta [] in
  Ok (if 0 <? quantity then dset "quantity" (JInt quantity) params else params).

Definition _build_vpn_params (meta : dict) : dict := put_texts [("vpnUsername", "vpn_username")]%string meta [].
Definition _build_crm_params (meta : dict) : dict := put_texts [("businessName", "business_name")]%string meta [].

Definition _build_invoice_ai_params (meta : dict) : dict :=
  put_texts [("subdomain", "subdomain"); ("businessName", "business_name"); ("logoUrl", "logo_url");
             ("primaryColor", "primary_color")]%string meta [].

Definition _build_appointments_params (meta : dict) : dict :=
  put_texts [("subdomain", "subdomain"); ("businessName", "business_name"); ("logoUrl", "logo_url");
             ("primaryColor", "primary_color"); ("secondaryColor", "secondary_color")]%string meta [].

Definition _build_docsign_params (meta : dict) : dict :=
  put_text "company_name" (text_of (py_or (dget "companyName" meta) (dget "company_name" meta))) [].

Definition _build_business_phone_params (meta : dict) : dict :=
  let phone_number := text_of (dget "phoneNumber" meta) in
  if negb (is_empty phone_number) then [("phone_number", JStr phone_number)]%string
  else put_text "area_code" (text_of (dget "areaCode" meta)) [].

Definition _build_wp_plugin_installer_params (meta : dict) : dict :=
  put_texts [("pluginName", "plugin_name"); ("author", "author"); ("description", "description"); ("logoUrl", "logo_url")]%string
    meta [].

(** PARAM_BUILDERS *)
Definition PARAM_BUILDERS (product_key : string) : option (string -> dict -> res dict) :=
  let plain f := Some (fun (_ : string) (meta : dict) => Ok (f meta : dict)) in
  if bool_decide (product_key = "ai_business_tools") then plain _build_ai_business_tools_params
  else if bool_decide (product_key = "web_hosting") then Some (fun plan meta => Ok (_build_web_hosting_params plan meta))
  else if bool_decide (product_key = "cloud_storage") then plain _build_cloud_storage_params
  else if bool_decide (product_key = "email_marketing") then Some (fun plan meta => Ok (_build_email_marketing_params plan meta))
  else if bool_decide (product_key = "esim") then plain _build_esim_params
  else if bool_decide (product_key = "smm") then Some (fun _ meta => _build_smm_params meta)
  else if bool_decide (product_key = "vpn") then plain _build_vpn_params
  else if bool_decide (product_key = "crm") then plain _build_crm_params
  else if bool_decide (product_key = "invoice_ai") then plain _build_invoice_ai_params
  else if bool_decide (product_key = "appointments") then plain _build_appointments_params
  else if bool_decide (product_key = "docsign") then plain _build_docsign_params
  else if bool_decide (product_key = "business_phone") then plain _build_business_phone_params
  else if bool_decide (product_key = "wp_plugin_installer") then plain _build_wp_plugin_installer_params
  else if bool_decide (product_key ∈ ["website_builder"; "social_media_automation"; "reputation_management"; "link_in_bio"]%string)
  then plain (fun _ => []) else None.

(** ** Public functions *)

Definition get_product_key (service_slug : string) : option string :=
  option_map snd (List.find (fun kv => bool_decide (kv.1 = service_slug)) PRODUCT_KEY_MAP).

Definition is_confirmed_product_key (product_key : option string) : bool :=
  bool_decide (strip (default EmptyString product_key) ∈ CONFIRMED_PRODUCT_KEYS).

Definition resolve_product_key (service_slug : string) (configured_product_key : option string) : option string :=
  match get_product_key service_slug with
  | Some k => Some k
  | None => if is_confirmed_product_key configured_product_key then Some (strip (default EmptyString configured_product_key)) else None
  end.

Definition build_order_parameters (product_key plan_code : string) (meta : dict) : res dict :=
  match PARAM_BUILDERS product_key with
  | None => Ok []
  | Some builder => builder plan_code meta
  end.

Definition is_provider_mapped (service_slug : string) : bool := bool_decide (service_slug ∈ map fst PRODUCT_KEY_MAP).

Definition text_le (a b : string) : Prop := String.leb a b = true.
#[export] Instance text_le_dec : RelDecision text_le.
Proof. intros a b. unfold text_le. apply _. Defined.

(** [min(groups, key=len)]: the first of the shortest. *)
Definition shortest (groups : list (list string)) : list string :=
  match groups with
  | [] => []
  | g :: groups' => foldl (fun acc x => if (length x <? length acc)%nat then x else acc) g groups'
  end.

Definition group_given (meta : dict) (group : list string) : bool :=
  forallb (fun k => negb (is_empty (text_of (_metadata_value meta [k])))) group.

Definition validate_order_input (service_slug : string) (meta : dict) : bool * list string :=
  if bool_decide (service_slug = "ai-business-suite") then
    match _coerce_str_list (py_or (dget "aiTools" meta) (dget "ai_tools" meta)) with
    | [] => (false, ["aiTools"]) | _ => (true, [])
    end%string
  else if bool_decide (service_slug = "cloud-storage") then
    if bool_decide (storage_plan_of meta ∈ _CLOUD_STORAGE_PLANS) then (true, []) else (false, ["storagePlan"]%string)
  else if bool_decide (service_slug = "email-marketing") then
    if is_empty (_email_marketing_plan EmptyString meta) then (false, ["sendingPlan"]%string) else (true, [])
  else match REQUIRED_INPUT_KEYS service_slug with
  | [] => (true, [])
  | groups =>
      if existsb (group_given meta) groups then (true, []) else (false, merge_sort text_le (shortest groups))
  end.

Definition get_mapped_services : list string := map fst PRODUCT_KEY_MAP.

(** ** What the check of the input promises *)

(** The parameters the provider needs for a catalogue entry, in alternatives. *)
Definition required_parameters (slug : string) : list (list string) :=
  (if bool_decide (slug = "ai-business-suite") then [["ai_tools"]]
   else if bool_decide (slug = "business-phone") then [["area_code"]; ["phone_number"]]
   else if bool_decide (slug = "cloud-storage") then [["storage_plan"]]
   else if bool_decide (slug = "document-signer") then [["company_name"]]
   else if bool_decide (slug = "email-marketing") then [["sending_plan"]]
   else if bool_decide (slug = "invoice-ai") then [["subdomain"]]
   else if bool_decide (slug = "appointment-booking") then [["subdomain"]]
   else if bool_decide (slug = "smm-growth") then [["service_id"; "link"; "quantity"]]
   else if bool_decide (slug = "esim") then [["package_code"]]
   else if bool_decide (slug = "web-hosting") then [["primary_domain"]]
   else if bool_decide (slug = "wordpress-plugin-pack") then [["plugin_name"; "author"; "description"; "logo_url"]]
   else [])%string.

Definition has_value (params : dict) (k : string) : bool :=
  match dlookup k params with Some v => negb (is_blank v) | None => false end.

Definition complete (slug : string) (params : dict) : bool :=
  match required_parameters slug with [] => true | gs => existsb (forallb (has_value params)) gs end.

Lemma text_of_blank v : is_empty (strip (py_str v)) = true -> text_of v = EmptyString.
Proof. intros H%is_empty_true. unfold text_of, py_or. by destruct (truth v). Qed.

(** A key is given exactly when its text is not blank. *)
Lemma key_given meta k : text_of (_metadata_value meta [k]) = text_of (dget k meta).
Proof.
  cbn [_metadata_value]. destruct (dget k meta) as [ |b|n|x|s|l|d|t] eqn:E; [done|..];
    (destruct (is_empty _) eqn:Hs; [by rewrite (text_of_blank _ Hs)|done]).
Qed.

Lemma put_text_value k s d : has_value (put_text k s d) k = negb (is_empty s) || has_value d k.
Proof.
  unfold put_text. destruct (is_empty s) eqn:E; [done|]. cbn. unfold has_value.
  assert (dlookup k (dset k (JStr s) d) = Some (JStr s)) as ->; [|cbn; by rewrite E].
  clear E. induction d as [|[k' v] d IH]; cbn; unfold dlookup; cbn; [by rewrite bool_decide_eq_true_2|].
  case_bool_decide as Hk; cbn; [by rewrite bool_decide_eq_true_2|]. by rewrite bool_decide_eq_false_2.
Qed.

Lemma has_value_other k k' v d : k <> k' -> has_value (dset k' v d) k = has_value d k.
Proof.
  intros Hk. unfold has_value.
  assert (dlookup k (dset k' v d) = dlookup k d) as ->; [|done].
  unfold dlookup. induction d as [|[k2 w] d IH]; cbn; [by rewrite bool_decide_eq_false_2|].
  case_bool_decide as H2; cbn; [subst; by rewrite !bool_decide_eq_false_2|]. case_bool_decide; [done|]. apply IH.
Qed.

Lemma put_text_other k k' s d : k <> k' -> has_value (put_text k' s d) k = has_value d k.
Proof. intros Hk. unfold put_text. destruct (is_empty s); [done|]. by apply has_value_other. Qed.

Lemma put_texts_value keys meta : NoDup (map snd keys) -> forall k d, has_value d k.2 = false -> k ∈ keys ->
  has_value (put_texts keys meta d) k.2 = negb (is_empty (text_of (dget k.1 meta))).
Proof.
  unfold put_texts. induction keys as [|k0 keys IH]; intros Hn k d Hd Hk; [set_solver|].
  cbn in Hn. apply NoDup_cons in Hn as [H0 Hn]. cbn [foldl].
  destruct (decide (k ∈ keys)) as [Hin|Hin].
  - apply IH; [done| |done]. rewrite put_text_other; [done|]. intros E. apply H0. rewrite <-E. by apply list_elem_of_fmap_2.
  - assert (k = k0) as <- by set_solver. clear IH Hk Hin Hn.
    assert (forall e, has_value (foldl (fun acc k => put_text k.2 (text_of (dget k.1 meta)) acc) e keys) k.2 = has_value e k.2) as ->.
    { induction keys as [|k1 keys IH]; intros e; [done|]. cbn in *. apply not_elem_of_cons in H0 as [H1 H0].
      by rewrite IH, put_text_other. }
    by rewrite put_text_value, Hd, orb_false_r.
Qed.

(** Comparisons of literals. *)
Ltac literals :=
  repeat match goal with
  | |- context [bool_decide (String ?c ?a = ?b)] =>
      let v := eval vm_compute in (bool_decide (String c a = b)) in change (bool_decide (String c a = b)) with v
  | |- context [bool_decide (String ?c ?a ∈ ?b)] =>
      let v := eval vm_compute in (bool_decide (String c a ∈ b)) in change (bool_decide (String c a ∈ b)) with v
  end; cbv iota beta.

Lemma group_of_texts keys meta :
  NoDup (map snd keys) ->
  forallb (has_value (put_texts keys meta [])) (map snd keys) = group_given meta (map fst keys).
Proof.
  intros Hn. unfold group_given.
  assert (forall l, (forall k, k ∈ l -> k ∈ keys) ->
    forallb (has_value (put_texts keys meta [])) (map snd l)
    = forallb (fun k => negb (is_empty (text_of (_metadata_value meta [k])))) (map fst l)) as H; [|by apply H].
  induction l as [|k l IH]; intros Hl; [done|]. cbn [map forallb]. rewrite IH by set_solver.
  by rewrite key_given, (put_texts_value keys meta Hn k) by set_solver.
Qed.

Lemma put_text_one k s : has_value (put_text k s []) k = negb (is_empty s).
Proof. by rewrite put_text_value, orb_false_r. Qed.

Lemma lower_empty s : is_empty (lower s) = is_empty s.
Proof. by destruct s. Qed.

Lemma hosting_domain plan meta :
  has_value (_build_web_hosting_params plan meta) "primary_domain" = negb (is_empty (text_of (dget "primaryDomain" meta))).
Proof.
  unfold _build_web_hosting_params. rewrite <-(lower_empty (text_of (dget "primaryDomain" meta))).
  set (domain := lower (text_of (dget "primaryDomain" meta))).
  match goal with |- context [if ?b then dset _ _ ?d else _] => transitivity (has_value d "primary_domain") end.
  { case_match; [by apply has_value_other|done]. }
  transitivity (has_value (put_text "primary_domain" domain []) "primary_domain"); [|apply put_text_one].
  destruct (negb (is_empty (text_of (dget "cpanelUsername" meta)))); [by apply has_value_other|].
  destruct (negb (is_empty domain)); [by apply put_text_other|done].
Qed.

Lemma email_plan_given plan meta : is_empty (_email_marketing_plan EmptyString meta) = false ->
  _email_marketing_plan plan meta = _email_marketing_plan EmptyString meta.
Proof.
  unfold _email_marketing_plan, py_or. set (v := _metadata_value _ _). destruct (truth v); [done|].
  intros H. vm_compute in H. discriminate H.
Qed.

Lemma single_given meta k : group_given meta [k] = negb (is_empty (text_of (dget k meta))).
Proof. unfold group_given. cbn [forallb]. by rewrite key_given, andb_true_r. Qed.

Lemma text_of_or a b : is_empty (text_of a) = false -> py_or a b = a.
Proof. unfold text_of, py_or. by destruct (truth a). Qed.

Lemma storage_given meta :
  has_value (_build_cloud_storage_params meta) "storage_plan" = bool_decide (storage_plan_of meta ∈ _CLOUD_STORAGE_PLANS).
Proof.
  unfold _build_cloud_storage_params. generalize (storage_plan_of meta). intros p.
  case_bool_decide as Hp; [|done]. repeat (apply elem_of_cons in Hp as [->|Hp]; [done|]). by apply elem_of_nil in Hp.
Qed.

Lemma phone_given meta :
  has_value (_build_business_phone_params meta) "area_code" || has_value (_build_business_phone_params meta) "phone_number"
  = group_given meta ["areaCode"%string] || group_given meta ["phoneNumber"%string].
Proof.
  rewrite !single_given. unfold _build_business_phone_params.
  destruct (is_empty (text_of (dget "phoneNumber" meta))) eqn:Hp; cbn [negb].
  - rewrite put_text_one, put_text_other by done. done.
  - rewrite orb_true_r. change (has_value _ "phone_number") with (negb (is_empty (text_of (dget "phoneNumber" meta)))).
    by rewrite Hp, orb_true_r.
Qed.

Lemma tools_given meta : has_value (_build_ai_business_tools_params meta) "ai_tools"
  = match _coerce_str_list (py_or (dget "aiTools" meta) (dget "ai_tools" meta)) with [] => false | _ => true end.
Proof. unfold _build_ai_business_tools_params. by destruct (_coerce_str_list _). Qed.

Lemma given_text keys meta k k' : NoDup (map snd keys) -> (k, k') ∈ keys ->
  has_value (put_texts keys meta []) k' = negb (is_empty (text_of (dget k meta))).
Proof. intros Hn Hk. by apply (put_texts_value keys meta Hn (k, k')). Qed.

(** Entries whose parameters may come from more than the checked input. *)
Definition other_sources : list string := ["email-marketing"; "document-signer"]%string.

(** For every entry of the catalogue except smm-growth: an order whose input
    passes the check has every parameter its product needs (one full alternative
    of them), and an input that is refused would have left some of them out, but
    for the two entries whose builder reads another key or the purchased plan. *)
Theorem validated_orders_complete slug key plan meta :
  get_product_key slug = Some key -> slug <> "smm-growth"%string ->
  exists params, build_order_parameters key plan meta = Ok params /\
    ((validate_order_input slug meta).1 = true -> complete slug params = true) /\
    (slug ∉ other_sources -> complete slug params = (validate_order_input slug meta).1).
Proof.
  intros Hk Hs.
  assert (exists params, build_order_parameters key plan meta = Ok params /\
    if bool_decide (slug ∈ other_sources)
    then (validate_order_input slug meta).1 = true -> complete slug params = true
    else complete slug params = (validate_order_input slug meta).1) as (params & H1 & H2).
  2:{ exists params. split; [done|]. case_bool_decide; [done|]. split; [by intros <-|done]. }
  unfold get_product_key, PRODUCT_KEY_MAP in Hk. cbn [List.find fst] in Hk.
  repeat (case_bool_decide as Heq; [first [by exfalso; apply Hs; cbn in Heq|
    cbn in Hk; simplify_eq; unfold build_order_parameters, PARAM_BUILDERS, complete, required_parameters,
      validate_order_input, REQUIRED_INPUT_KEYS; literals; eexists; split; [reflexivity|]]|clear Heq]); try done.
  all: cbn [existsb forallb]; rewrite ?orb_false_r, ?andb_true_r.
  - rewrite tools_given. by destruct (_coerce_str_list _).
  - rewrite hosting_domain, single_given. by case_match.
  - rewrite storage_given. by case_match.
  - destruct (is_empty (_email_marketing_plan EmptyString meta)) eqn:He; [done|]. intros _.
    unfold _build_email_marketing_params. by rewrite put_text_one, email_plan_given, He.
  - unfold _build_esim_params. rewrite single_given. rewrite (given_text _ _ "packageCode") by (apply (bool_decide_unpack _); reflexivity). by case_match.
  - unfold _build_invoice_ai_params. rewrite single_given. rewrite (given_text _ _ "subdomain") by (apply (bool_decide_unpack _); reflexivity). by case_match.
  - unfold _build_appointments_params. rewrite single_given. rewrite (given_text _ _ "subdomain") by (apply (bool_decide_unpack _); reflexivity). by case_match.
  - rewrite single_given. destruct (is_empty (text_of (dget "companyName" meta))) eqn:He; [done|]. intros _.
    unfold _build_docsign_params. by rewrite put_text_one, text_of_or, He.
  - rewrite phone_given. by case_match.
  - rewrite <-(group_of_texts [("pluginName", "plugin_name"); ("author", "author"); ("description", "description"); ("logoUrl", "logo_url")]%string).
    + cbn [map snd forallb]. rewrite andb_true_r. by case_match.
    + by apply (bool_decide_unpack _).
Qed.

Example validated_orders_complete_witness :
  let meta := [("phoneNumber", JInt 4420712345)]%string in
  exists params, build_order_parameters "business_phone" "basic" meta = Ok params /\
    complete "business-phone" params = true.
Proof.
  intros meta. destruct (validated_orders_complete "business-phone" "business_phone" "basic" meta) as (params & H1 & H2 & _);
    [reflexivity|discriminate|]. exists params. split; [exact H1|apply H2; vm_compute; reflexivity].
Defined.

(** An order of smm-growth passes the check with a quantity that is no number,
    and leaves without one. *)
Lemma smm_quantity_lost :
  let meta := [("serviceId", JInt 7); ("link", JStr "https://a.b"); ("quantity", JStr "ten")]%string in
  validate_order_input "smm-growth" meta = (true, []) /\
  build_order_parameters "smm" "basic" meta = Ok [("service_id", JStr "7"); ("link", JStr "https://a.b")]%string.
Proof. vm_compute. done. Qed.

(** ** Product keys *)

Lemma mapped_keys_confirmed slug k : get_product_key slug = Some k -> k ∈ CONFIRMED_PRODUCT_KEYS.
Proof.
  unfold get_product_key. intros H. destruct (List.find _ _) as [kv|] eqn:E; [|done]. cbn in H. simplify_eq.
  apply find_some in E as [E _]. by apply list_elem_of_fmap_2, list_elem_of_In.
Qed.

(** C40. What the resolver gives is total and confirmed: a service of the code's
    mapping gets its key there, whatever is configured for its row; another service
    gets the key configured for its row, without blanks around it, when that is one
    of the contract with the provider, and none otherwise.  So every key given is
    one of the contract.  (The comment above the mapping has the precedence the
    other way round; the resolver's docstring agrees with the code.) *)
Theorem resolved_keys_confirmed slug configured :
  (forall k, resolve_product_key slug configured = Some k -> k ∈ CONFIRMED_PRODUCT_KEYS) /\
  (forall k, (slug, k) ∈ PRODUCT_KEY_MAP -> resolve_product_key slug configured = Some k) /\
  (slug ∉ map fst PRODUCT_KEY_MAP ->
     (forall text, configured = Some text -> strip text ∈ CONFIRMED_PRODUCT_KEYS ->
        resolve_product_key slug configured = Some (strip text)) /\
     (configured = None \/ (exists text, configured = Some text /\ strip text ∉ CONFIRMED_PRODUCT_KEYS) ->
        resolve_product_key slug configured = None)) /\
  (is_provider_mapped slug = true <-> slug ∈ map fst PRODUCT_KEY_MAP).
Proof.
  assert (Hno : slug ∉ map fst PRODUCT_KEY_MAP -> get_product_key slug = None).
  { intros Hs. unfold get_product_key. destruct (List.find _ _) as [kv|] eqn:Hf; [|done].
    apply find_some in Hf as [Hin Hk]. apply bool_decide_eq_true_1 in Hk. subst slug. destruct Hs. by apply list_elem_of_fmap_2, list_elem_of_In. }
  split_and!.
  - unfold resolve_product_key, is_confirmed_product_key. intros k.
    destruct (get_product_key slug) as [k'|] eqn:E; [intros [= <-]; by eapply mapped_keys_confirmed|].
    case_bool_decide; [|done]. by intros [= <-].
  - intros k Hin.
    assert (Hall : forallb (fun kv => bool_decide (get_product_key kv.1 = Some kv.2)) PRODUCT_KEY_MAP = true) by (vm_compute; reflexivity).
    rewrite forallb_forall in Hall. apply list_elem_of_In, Hall, bool_decide_eq_true_1 in Hin.
    unfold resolve_product_key. change (slug, k).1 with slug in Hin. by rewrite Hin.
  - intros Hs. unfold resolve_product_key, is_confirmed_product_key. rewrite (Hno Hs). split.
    + intros text -> Hc. cbn [default from_option id]. by rewrite bool_decide_eq_true_2.
    + intros [->|(text & -> & Hc)]; [by vm_compute|]. cbn [default from_option id]. by rewrite bool_decide_eq_false_2.
  - unfold is_provider_mapped. by rewrite bool_decide_eq_true.
Qed.

(** ** The name of a hosting account *)

Lemma keep_ascii_all p s : all_chars p (keep_ascii p s) = true.
Proof. induction s as [|c s IH]; [done|]. cbn. destruct (p c) eqn:E; [|done]. cbn. by rewrite E. Qed.

Lemma str_take_prefix p n : forall s, all_chars p s = true ->
  all_chars p (str_take n s) = true /\ (String.length (str_take n s) <= n)%nat.
Proof.
  unfold str_take. induction n as [|n IH]; intros [|c s]; cbn; try done; [split; [done|lia]|].
  intros [Hc Hs]%andb_true_iff. destruct (IH s Hs) as [H1 H2]. rewrite Hc, H1. split; [done|lia].
Qed.

(** A derived account name has at most 20 characters, all of them lower case
    letters or digits, whatever the domain. *)
Theorem cpanel_username_valid domain :
  all_chars cpanel_char (derive_cpanel_username domain) = true /\
  (String.length (derive_cpanel_username domain) <= _CPANEL_MAX_LEN)%nat.
Proof.
  unfold derive_cpanel_username. case_match; [by split; [|cbn; lia]|]. apply str_take_prefix, keep_ascii_all.
Qed.

Example cpanel_examples :
  map derive_cpanel_username ["example.com"; "my-business.co.in"; "sub.example.com.au"; "https://Shop.example.org/x"; "localhost"]%string
  = ["example"; "mybusiness"; "example"; "example"; ""]%string.
Proof. vm_compute. done. Qed.

(** Different domains get the same name. *)
Lemma cpanel_collision :
  derive_cpanel_username "a-b.com" = derive_cpanel_username "ab.com" /\
  derive_cpanel_username "ab.com" = derive_cpanel_username "ab.org".
Proof. vm_compute. done. Qed.
