(* ===== verification/ResellPortal.v ===== *)
(** * The client of the provider

    app/integrations/resellportal/client.py and the order and client mocks of
    mock_resellportal_api.py.  An answer is the dictionary the code makes of it; the
    random texts of the mock come from the supply of identifiers.  The wallet, the
    catalogue and the health check, which only pass an answer on, are left out. *)

From S2P Require Import Prelude Text Numerals PyNum PyJson Urls Secrets TrackRecords TechStore TechStatus TechAccess ProductMapper.

Section Client.
Context {cfg : TechConfig} {portal : Portal}.

Definition _production_environment : bool := bool_decide (lower (strip TECH_ENVIRONMENT) = "production"%string).

Definition _production_live_resellportal_enabled : bool :=
  negb _production_environment || (RESELLPORTAL_ALLOW_LIVE && negb RESELLPORTAL_TEST_MODE).

Definition opt_str (s : option string) : json := match s with Some s => JStr s | None => JNull end.

(** What the refusals and incomplete answers have in common. *)
Definition pending_response (order_id : json) (error : json) (configured : bool) : dict :=
  [("success", JBool false); ("status", JStr "PROVISIONING_PENDING"); ("provider_order_id", order_id);
   ("provider_subscription_id", JNull); ("service_id", JNull); ("current_period_start", JNull); ("current_period_end", JNull);
   ("credentials", JObj []); ("error", error); ("needs_reconciliation", JBool true); ("configured", JBool configured)]%string.

Definition _production_live_disabled_response : dict :=
  [("success", JBool false); ("status", JStr "PROVISIONING_PENDING"); ("provider_order_id", JNull);
   ("provider_subscription_id", JNull); ("service_id", JNull); ("credentials", JObj []);
   ("error", JStr "Live ResellPortal provisioning is not enabled for production."); ("needs_reconciliation", JBool true);
   ("configured", JBool resellportal_configured)]%string.

Definition _simulated_test_order_response (res : dict) (user_id : string) : dict :=
  let service_id := opt_str (real_provider_service_id res user_id) in
  [("success", JBool true); ("status", JStr "TEST_SIMULATED");
   ("provider_order_id", opt_str (real_provider_order_id res user_id)); ("provider_subscription_id", service_id);
   ("service_id", service_id); ("current_period_start", JNull); ("current_period_end", JNull); ("credentials", JObj []);
   ("message", JStr "ResellPortal test_mode order was simulated by the provider; no real service is customer-accessible.");
   ("needs_reconciliation", JBool false); ("configured", JBool true); ("test_mode", JBool true); ("test_only", JBool true);
   ("simulated", JBool true)]%string.

Definition period_days (billing_cycle : string) : Z := if bool_decide (billing_cycle = "annually"%string) then 365 else 30.

Definition AttributeError : exn := OtherError "AttributeError".

Definition normalize_provision_response (res : json) (user_id billing_cycle : string) (request_test_mode : bool) : Tech dict :=
  match res with
  | JObj res =>
      if negb (truth (dget "success" res)) || truth (dget "fallback" res) then
        ret (pending_response (opt_str (real_provider_order_id res user_id))
               (py_or (dget "error" res) (JStr "ResellPortal request did not confirm provisioning.")) true)
      else if request_test_mode || truth (dget "test_mode" res) then ret (_simulated_test_order_response res user_id)
      else
        let service_id := real_provider_service_id res user_id in
        let order_id := real_provider_order_id res user_id in
        do credentials <- lift_res (extract_provider_credentials res);
        let status := upper (text_of (dget "status" res)) in
        let status := if is_empty status then "PROVISIONING_PENDING"%string else status in
        if bool_decide (status = "ACTIVE"%string) && bool_decide (service_id = None)
        then ret (pending_response (opt_str order_id) (JStr "Provider did not return a real service_id.") true)
        else
          do start <- (if truth (dget "current_period_start" res) then ret (dget "current_period_start" res)
                       else do now <- utc_now; ret (JDate now));
          do end_ <- (if truth (dget "current_period_end" res) then ret (dget "current_period_end" res)
                      else do now <- utc_now; ret (JDate (now + days (period_days billing_cycle))));
          ret [("success", JBool true); ("status", JStr status); ("provider_order_id", opt_str order_id);
               ("provider_subscription_id", opt_str service_id); ("service_id", opt_str service_id);
               ("current_period_start", start); ("current_period_end", end_); ("credentials", JObj credentials);
               ("configured", JBool true)]%string
  | _ => raise AttributeError
  end.

(** ** mock_resellportal_api.py *)

(** [secrets.token_hex], [secrets.token_urlsafe] *)
Definition secret_text : Tech string := uuid4.

Definition mock_create_client (user_email : string) (test_mode : bool) : Tech dict :=
  do id <- secret_text;
  do password <- secret_text;
  ret [("success", JBool true); ("client_id", JStr ("mock_cli_" +:+ id));
       ("portal_login_url", JStr "https://deltaosportal.deltapreneur.com/account");
       ("portal_credentials", JObj [("email", JStr user_email); ("password", JStr ("mock_portal_" +:+ password))]);
       ("test_mode", JBool test_mode); ("test_only", JBool true); ("is_mock", JBool true)]%string.

Definition path_by_product : list (string * string) :=
  [("ai-business-suite", "ai"); ("website-builder", "sites"); ("appointment-booking", "appointments"); ("document-signer", "docsign");
   ("cloud-storage", "storage"); ("business-phone", "phone"); ("email-marketing", "email-marketing");
   ("social-media-automation", "social"); ("reputation-management", "reputation"); ("link-in-bio", "link-in-bio");
   ("web-hosting", "hosting"); ("wordpress-plugin-pack", "plugins"); ("ai_business_tools", "ai"); ("website_builder", "sites");
   ("crm", "crm"); ("invoice_ai", "invoice"); ("appointments", "appointments"); ("docsign", "docsign"); ("cloud_storage", "storage");
   ("business_phone", "phone"); ("vpn", "vpn"); ("email_marketing", "email-marketing"); ("social_media_automation", "social");
   ("reputation_management", "reputation"); ("link_in_bio", "link-in-bio"); ("web_hosting", "hosting");
   ("wp_plugin_installer", "plugins")]%string.

Definition mock_provision_service (service_slug service_name billing_cycle user_email user_id product_key : string)
    (test_mode : bool) (order_parameters : dict) : Tech dict :=
  do order_token <- secret_text;
  do service_id <- secret_text;
  do access_token <- secret_text;
  do _ <- secret_text;
  let key := if is_empty product_key then service_slug else product_key in
  let access_path := match List.find (fun kv => bool_decide (kv.1 = key)) path_by_product with Some kv => kv.2 | None => service_slug end in
  let white_label_url := ("https://deltaosportal.deltapreneur.com/" +:+ access_path)%string in
  do provisioned_at <- utc_now;
  let credentials := [("username", JStr user_email); ("access_token", JStr access_token);
    ("client_access_url", JStr white_label_url); ("custom_domain_supported", JBool true);
    ("provisioned_at", JStr (isoformat "T" provisioned_at));
    ("instructions", JStr ("Access your white-labelled " +:+ service_name +:+ " dashboard via Deltapreneur."))]%string in
  let credentials := if is_link_in_bio service_slug then credentials
                     else dset "account_id" (JStr ("cb_" +:+ str_take 8 user_id)%string) credentials in
  do start <- utc_now;
  ret [("success", JBool true); ("product_key", JStr key); ("order_parameters", JObj order_parameters);
       ("service_id", JStr service_id); ("provider_order_id", JStr ("RSP-ORD-" +:+ upper order_token));
       ("provider_subscription_id", JStr service_id); ("status", JStr (if test_mode then "TEST_SIMULATED" else "ACTIVE"));
       ("current_period_start", JDate start); ("current_period_end", JDate (start + days (period_days billing_cycle)));
       ("client_access_url", JStr white_label_url); ("credentials", JObj credentials); ("test_mode", JBool test_mode);
       ("test_only", JBool test_mode); ("simulated", JBool test_mode); ("is_mock", JBool true)]%string.

(** ** Requests *)

Definition exn_name (e : exn) : string :=
  match e with
  | ValueError _ => "ValueError" | RuntimeError _ => "RuntimeError" | OtherError n => n
  | InvalidOperation => "InvalidOperation" | AppException _ _ => "AppException" | HTTPException _ _ => "HTTPException"
  | SQLAlchemyError n => n | IntegrityError _ => "IntegrityError" | AlreadyFullyRefunded _ _ _ => "AlreadyFullyRefunded"
  end.

(** [s.strip("/").lower()] of an endpoint that does not start with a slash *)
Definition is_orders (endpoint : string) : bool := bool_decide (lower (rstrip_slash endpoint) = "orders"%string).

Definition fallback_response (error : string) : json :=
  JObj [("success", JBool false); ("error", JStr error); ("configured", JBool resellportal_configured); ("fallback", JBool true)]%string.

(** The body a request leaves with. *)
Definition request_body (method endpoint : string) (json_data : dict) : dict :=
  let data := if among method ["POST"; "DELETE"]%string && resellportal_test_mode then dset "test_mode" (JBool true) json_data else json_data in
  let data := if bool_decide (method = "POST"%string) && is_orders endpoint then dset "skip_client_email" (JBool true) data else data in
  if among method ["POST"; "PUT"; "PATCH"; "DELETE"]%string then data else [].

(** [_make_request]; methods are written in upper case by all callers. *)
Definition _make_request (method endpoint : string) (json_data params : dict) : Tech json :=
  do answer <- portal_call (PortalRequest method endpoint (request_body method endpoint json_data) params);
  ret (match answer with
       | Body (JObj d) => JObj (dset "configured" (JBool true) d)
       | Body j => j
       | HttpError code => fallback_response ("HTTP " +:+ pretty code)%string
       | Failure name => fallback_response name
       end).

Definition create_portal_client (user_email user_id : string) : Tech dict :=
  if negb resellportal_configured then
    if _production_environment then
      ret [("success", JBool false); ("error", JStr "ResellPortal API credentials are not configured."); ("configured", JBool false)]%string
    else
      do res <- mock_create_client user_email resellportal_test_mode;
      do normalized <- lift_res (portal_account_from_provider_client res);
      ret (dupdate normalized [("success", JBool (truth (dget "provider_client_id" normalized))); ("configured", JBool false);
             ("is_mock", JBool true); ("test_mode", JBool resellportal_test_mode); ("test_only", JBool true)]%string)
  else if negb _production_live_resellportal_enabled then
    ret [("success", JBool false); ("error", JStr "Live ResellPortal client creation is not enabled for production.");
         ("configured", JBool true)]%string
  else
    let failed name := [("success", JBool false); ("error", JStr name); ("configured", JBool true)]%string in
    do answer <- portal_call (PortalRequest "POST" "clients" [("name", JStr user_email); ("email", JStr user_email)]%string []);
    match answer with
    | HttpError _ => ret (failed "HTTPStatusError"%string)
    | Failure name => ret (failed name)
    | Body j =>
        match portal_account_from_provider_client (as_dict j) with
        | Raise e => ret (failed (exn_name e))
        | Ok normalized =>
            let ok := truth (dget "provider_client_id" normalized) in
            let normalized := dupdate normalized [("success", JBool ok); ("configured", JBool true)]%string in
            ret (if ok then normalized
                 else dset "error" (JStr "ResellPortal did not return a client_id from POST /clients.") normalized)
        end
    end.

(** [list(v)] of an answer *)
Definition py_list (v : json) : res (list json) :=
  match v with
  | JArr l => Ok l
  | JObj kvs => Ok (map (fun kv => JStr kv.1) kvs)
  | JStr s => Ok (map (fun c => JStr (chr c)) (String.list_ascii_of_string s))
  | _ => Raise (OtherError "TypeError")
  end.

Definition list_orders (user_id product_key : string) : Tech (list json) :=
  if negb resellportal_configured then ret []
  else
    let params := (if is_empty user_id then [] else [("user_id", JStr user_id)])
      ++ (if is_empty product_key then [] else [("product_key", JStr product_key)]) in
    do res <- _make_request "GET" "orders" [] params%string;
    match res with
    | JObj d => if truth (dget "orders" d) then lift_res (py_list (dget "orders" d)) else ret []
    | JArr l => ret l
    | _ => ret []
    end.

(** [str(order.get(k) or "").lower() == s.lower()] *)
Definition same_text (order : dict) (k s : string) : bool :=
  bool_decide (lower (py_str (py_or (dget k order) (JStr EmptyString))) = lower s).

(** An empty text is no criterion. *)
Definition matches (order : dict) (k s : string) : bool := is_empty s || same_text order k s.

Definition order_candidate (product_key service_slug user_email : string) (order : dict) : bool :=
  matches order "product_key" product_key && matches order "service_slug" service_slug && matches order "user_email" user_email.

Fixpoint candidate_orders (p : dict -> bool) (orders : list json) : res (list dict) :=
  match orders with
  | [] => Ok []
  | JObj order :: orders' => try! rest <- candidate_orders p orders'; Ok (if p order then order :: rest else rest)
  | _ :: _ => Raise AttributeError
  end.

Definition find_matching_order (service_slug user_id product_key user_email plan_code billing_cycle : string) : Tech (option dict) :=
  do orders <- list_orders user_id product_key;
  do candidates <- lift_res (candidate_orders (order_candidate product_key service_slug user_email) orders);
  ret (match candidates with
       | [] => None
       | first :: _ =>
           if is_empty plan_code && is_empty billing_cycle then Some first
           else match List.find (fun o => matches o "plan_code" plan_code && matches o "billing_cycle" billing_cycle) candidates with
                | Some o => Some o
                | None => Some first
                end
       end).

Definition _unreconciled : dict :=
  [("success", JBool false); ("status", JStr "PROVISIONING_PENDING"); ("needs_reconciliation", JBool true);
   ("provider_order_id", JNull); ("provider_subscription_id", JNull); ("reconciled", JBool false)]%string.

Definition reconcile_pending_provisioning (service_slug user_id product_key user_email plan_code billing_cycle : string) : Tech dict :=
  if negb resellportal_configured then ret _unreconciled
  else
    do found <- find_matching_order service_slug user_id product_key user_email plan_code billing_cycle;
    match found with
    | Some ((_ :: _) as order) =>
        let status := upper (py_str (py_or (dget "status" order) (JStr "PENDING"))) in
        let service_id := opt_str (real_provider_service_id order user_id) in
        do credentials <- lift_res (extract_provider_credentials order);
        ret [("success", JBool (among status ["ACTIVE"; "PENDING"; "PROVISIONING_PENDING"])); ("status", JStr status);
             ("needs_reconciliation", JBool true); ("provider_order_id", opt_str (real_provider_order_id order user_id));
             ("provider_subscription_id", service_id); ("service_id", service_id); ("credentials", JObj credentials);
             ("reconciled", JBool true)]%string
    | _ => ret _unreconciled
    end.

(** The credentials of the answer merged over those of the account, with the marks of a simulation. *)
Definition with_simulation_marks (normalized : dict) : dict :=
  if truth (dget "simulated" normalized) && is_dict (dget "credentials" normalized) then
    dset "credentials" (JObj (merge_provider_credentials [as_dict (dget "credentials" normalized);
      [("test_mode", JBool true); ("test_only", JBool true); ("simulated", JBool true)]%string])) normalized
  else normalized.

Definition with_account (portal_account normalized : dict) : dict :=
  dset "credentials" (JObj (merge_provider_credentials [portal_account; as_dict (dget "credentials" normalized)])) normalized.

(** [payload["ai_tools"] = [payload["ai_tools"]]] of a text *)
Definition tools_as_list (payload : dict) : dict :=
  match dlookup "ai_tools" payload with Some (JStr s) => dset "ai_tools" (JArr [JStr s]) payload | _ => payload end.

Definition provision_service (service_slug service_name plan_code billing_cycle user_email user_id product_key : string)
    (order_parameters : dict) (provider_client_id : option string) (portal_account : dict) : Tech dict :=
  if negb resellportal_configured then
    if _production_environment then
      ret [("success", JBool false); ("status", JStr "PROVISIONING_PENDING"); ("provider_order_id", JNull);
           ("provider_subscription_id", JNull); ("service_id", JNull); ("credentials", JObj []);
           ("error", JStr "ResellPortal API credentials are not configured."); ("needs_reconciliation", JBool true);
           ("configured", JBool false)]%string
    else
      do res <- mock_provision_service service_slug service_name billing_cycle user_email user_id product_key resellportal_test_mode
                  order_parameters;
      do normalized <- normalize_provision_response (JObj res) user_id billing_cycle resellportal_test_mode;
      let normalized := with_simulation_marks (with_account portal_account normalized) in
      ret (dset "test_mode" (JBool resellportal_test_mode) (dset "configured" (JBool false) normalized))
  else if negb _production_live_resellportal_enabled then ret _production_live_disabled_response
  else match provider_client_id with
  | None =>
      ret [("success", JBool false); ("status", JStr "PROVISIONING_PENDING"); ("provider_order_id", JNull);
           ("provider_subscription_id", JNull); ("service_id", JNull); ("credentials", JObj []);
           ("error", JStr "ResellPortal client_id is required before order provisioning."); ("needs_reconciliation", JBool true);
           ("configured", JBool true)]%string
  | Some client =>
      let payload := [("product_key", JStr (if is_empty product_key then service_slug else product_key));
        ("service_slug", JStr service_slug); ("service_name", JStr service_name); ("plan_code", JStr plan_code);
        ("billing_cycle", JStr billing_cycle); ("user_email", JStr user_email); ("user_id", JStr user_id); ("client_id", JStr client)]%string in
      let payload := tools_as_list (dupdate payload order_parameters) in
      do res <- _make_request "POST" "orders" payload [];
      do normalized <- normalize_provision_response res user_id billing_cycle resellportal_test_mode;
      let normalized :=
        if truth (dget "credentials" normalized) || negb (bool_decide (length portal_account = 0%nat))
        then with_account portal_account normalized else normalized in
      ret (with_simulation_marks normalized)
  end.

(** Renewal, change of plan and cancellation: [what] names them in the refusal. *)
Definition subscription_call (method endpoint what : string) (json_data : dict) (mock : Tech dict) : Tech json :=
  if negb resellportal_configured then
    if _production_environment then
      ret (JObj [("success", JBool false); ("error", JStr "ResellPortal API credentials are not configured."); ("configured", JBool false)]%string)
    else do res <- mock; ret (JObj (dset "configured" (JBool false) res))
  else if negb _production_live_resellportal_enabled then
    ret (JObj [("success", JBool false); ("error", JStr ("Live ResellPortal " +:+ what +:+ " are not enabled for production."));
               ("configured", JBool true)]%string)
  else _make_request method endpoint json_data [].

Definition renew_subscription (provider_sub_id billing_cycle : string) : Tech json :=
  subscription_call "POST" ("subscriptions/" +:+ provider_sub_id +:+ "/renew") "renewals" [("billing_cycle", JStr billing_cycle)]%string
    (do now <- utc_now;
     do renewed_at <- utc_now;
     ret [("success", JBool true); ("provider_subscription_id", JStr provider_sub_id); ("status", JStr "ACTIVE");
          ("current_period_end", JDate (now + days (period_days billing_cycle))); ("renewed_at", JStr (isoformat "T" renewed_at));
          ("test_mode", JBool resellportal_test_mode); ("is_mock", JBool true)]%string).

Definition upgrade_subscription (provider_sub_id new_plan_code : string) : Tech json :=
  subscription_call "POST" ("subscriptions/" +:+ provider_sub_id +:+ "/upgrade") "upgrades" [("new_plan_code", JStr new_plan_code)]%string
    (do upgraded_at <- utc_now;
     ret [("success", JBool true); ("provider_subscription_id", JStr provider_sub_id); ("plan_code", JStr new_plan_code);
          ("status", JStr "ACTIVE"); ("upgraded_at", JStr (isoformat "T" upgraded_at));
          ("test_mode", JBool resellportal_test_mode); ("is_mock", JBool true)]%string).

Definition cancel_subscription (provider_sub_id : string) : Tech json :=
  subscription_call "DELETE" ("subscriptions/" +:+ provider_sub_id) "cancellations" []
    (do cancelled_at <- utc_now;
     ret [("success", JBool true); ("provider_subscription_id", JStr provider_sub_id); ("status", JStr "CANCELLED");
          ("cancelled_at", JStr (isoformat "T" cancelled_at)); ("test_mode", JBool resellportal_test_mode); ("is_mock", JBool true)]%string).
End Client.

(** ** What an active answer stands for *)

Lemma real_id_real keys payload uid i : real_id keys payload uid = Some i ->
  is_fabricated_provider_id i uid = false /\ exists k, k ∈ keys /\ _nonempty_str (dget k payload) = Some i.
Proof.
  induction keys as [|k keys IH]; [done|]. cbn [real_id].
  assert (Hrest : real_id keys payload uid = Some i ->
    is_fabricated_provider_id i uid = false /\ exists k', k' ∈ k :: keys /\ _nonempty_str (dget k' payload) = Some i).
  { intros H. destruct (IH H) as (? & k' & ? & ?). split; [done|]. exists k'. split; [by right|done]. }
  destruct (_nonempty_str (dget k payload)) as [c|] eqn:E; [|done].
  destruct (is_fabricated_provider_id c uid) eqn:F; [done|]. intros [= <-]. split; [done|]. exists k. split; [by left|done].
Qed.

(** What [normalize_provision_response] needs of an answer to call it active. *)
Definition confirmed_active (uid : string) (d : dict) (i : string) : Prop :=
  truth (dget "success" d) = true /\ truth (dget "fallback" d) = false /\ truth (dget "test_mode" d) = false /\
  upper (text_of (dget "status" d)) = "ACTIVE"%string /\ is_fabricated_provider_id i uid = false /\
  exists k, k ∈ ["service_id"; "provider_subscription_id"; "subscription_id"]%string /\ _nonempty_str (dget k d) = Some i.

Lemma upper_upper s : upper (upper s) = upper s.
Proof.
  unfold upper, map_ascii. rewrite String.list_ascii_of_string_of_list_ascii, map_map. f_equal. apply map_ext.
  intros []. repeat match goal with b : bool |- _ => destruct b end; vm_compute; reflexivity.
Qed.

(** The status of a successful answer, and what stands behind an active one. *)
Lemma active_answer_spec res uid cycle tm (s : session tech_db tech_effect) out s' :
  normalize_provision_response res uid cycle tm s = (Ok out, s') -> truth (dget "success" out) = true ->
  exists st, dget "status" out = JStr st /\ upper st = st /\
    (st = "ACTIVE"%string -> tm = false /\ exists d i, res = JObj d /\ confirmed_active uid d i /\
       dget "service_id" out = JStr i /\ dget "provider_subscription_id" out = JStr i).
Proof.
  destruct res as [| | | | | |d|]; try (intros; discriminate). unfold normalize_provision_response.
  destruct (truth (dget "success" d)) eqn:Hs; [|by intros [= <- _]].
  destruct (truth (dget "fallback" d)) eqn:Hf; [by intros [= <- _]|]. cbn [negb orb].
  assert (Hsim : forall out : dict, _simulated_test_order_response d uid = out -> exists st, dget "status" out = JStr st /\ upper st = st /\
    (st = "ACTIVE"%string -> False)) by (intros ? <-; by exists "TEST_SIMULATED"%string).
  destruct (tm || truth (dget "test_mode" d)) eqn:Ht.
  { intros [= Ho _] _. destruct (Hsim _ Ho) as (st & H1 & H2 & H3). exists st. split_and!; [done..|]. by intros ?%H3. }
  apply orb_false_iff in Ht as [-> Ht].
  set (st := if is_empty _ then _ else _).
  assert (Hact : st = "ACTIVE"%string -> upper (text_of (dget "status" d)) = "ACTIVE"%string) by (unfold st; by destruct (is_empty _)).
  assert (Hup : upper st = st) by (unfold st; destruct (is_empty _); [done|apply upper_upper]).
  intros H Hok. ok_inv H. cbn zeta in H. fold st in H.
  destruct (bool_decide (st = "ACTIVE"%string) && bool_decide (real_provider_service_id d uid = None)) eqn:E.
  { ok_inv H. discriminate Hok. }
  ok_inv H. exists st. split_and!; [done..|]. intros Hst. rewrite Hst in E. cbn [bool_decide] in E.
  destruct (real_provider_service_id d uid) as [i|] eqn:Hi; [|discriminate E].
  split; [done|]. exists d, i. split; [done|]. apply real_id_real in Hi as [Hi1 Hi2].
  split; [|done]. repeat (split; [done|]). split; [by apply Hact|done].
Qed.

(** An answer that normalises to a confirmed active service was one: the request
    was not a test, the body says success and active and neither fallback nor test
    mode, and the identifier stored for it is one the body names that is not of the
    shape this code once made up from the user's own. *)
Theorem active_answer_real res uid cycle tm (s : session tech_db tech_effect) out s' :
  normalize_provision_response res uid cycle tm s = (Ok out, s') ->
  truth (dget "success" out) = true -> dget "status" out = JStr "ACTIVE" ->
  tm = false /\ exists d i, res = JObj d /\ confirmed_active uid d i /\
    dget "service_id" out = JStr i /\ dget "provider_subscription_id" out = JStr i.
Proof.
  intros H Hok Hst. destruct (active_answer_spec _ _ _ _ _ _ _ H Hok) as (st & Hst' & _ & Hact). apply Hact. congruence.
Qed.

(** ** Finding an order *)

Lemma candidate_orders_filter p orders l : candidate_orders p orders = Ok l ->
  forall o, o ∈ l <-> JObj o ∈ orders /\ p o = true.
Proof.
  revert l. induction orders as [|j orders IH]; intros l H o.
  - injection H as <-. set_solver.
  - destruct j as [| | | | | |d|]; try discriminate H. cbn in H. destruct (candidate_orders p orders) as [rest|]; [|discriminate H].
    injection H as <-. specialize (IH rest eq_refl o).
    rewrite (elem_of_cons orders). destruct (p d) eqn:Hp; rewrite ?elem_of_cons, IH; (split;
      [intros Ho; destruct_or?; simplify_eq; tauto|intros [[[= ->]|?] ?]; (congruence || tauto)]).
Qed.

Definition same_plan (plan_code billing_cycle : string) (o : dict) : bool :=
  matches o "plan_code" plan_code && matches o "billing_cycle" billing_cycle.

Lemma find_matching_spec {cfg : TechConfig} {portal : Portal} slug uid key mail plan cycle (s : session tech_db tech_effect) o s' :
  find_matching_order slug uid key mail plan cycle s = (Ok o, s') ->
  exists orders, list_orders uid key s = (Ok orders, s') /\
    match o with
    | Some d => JObj d ∈ orders /\ order_candidate key slug mail d = true /\
        forall d', JObj d' ∈ orders -> order_candidate key slug mail d' = true -> same_plan plan cycle d' = true ->
          same_plan plan cycle d = true
    | None => forall d, JObj d ∈ orders -> order_candidate key slug mail d = false
    end.
Proof.
  intros H. unfold find_matching_order in H. ok_inv H. rename x into orders, x0 into cands, Hr0 into Hc.
  exists orders. split; [done|]. pose proof (candidate_orders_filter _ _ _ Hc) as Hin.
  destruct cands as [|first rest].
  - intros d Hd. apply not_true_is_false. intros Ht. by eapply not_elem_of_nil, Hin.
  - destruct (is_empty plan && is_empty cycle) eqn:He.
    + apply andb_true_iff in He as [H1 H2]. split_and!; [apply Hin; left..|].
      intros. unfold same_plan, matches. by rewrite H1, H2.
    + destruct (List.find _ (first :: rest)) as [d|] eqn:Hf.
      * apply find_some in Hf as [H1%list_elem_of_In%Hin H2]. naive_solver.
      * split_and!; [apply Hin; left..|]. intros d' H1 H2 H3.
        pose proof (find_none _ _ Hf d' ltac:(apply list_elem_of_In, Hin; done)) as H4. cbn beta in H4.
        unfold same_plan in H3. congruence.
Qed.

(** The order found for a subscription is one of those the provider lists and
    agrees with the product, the service and the mail address asked for, as far as
    these are given; it has the plan and the billing cycle whenever one such order
    has; and no order is found only when none that is listed agrees. *)
Theorem found_order_matches {cfg : TechConfig} {portal : Portal} slug uid key mail plan cycle (s : session tech_db tech_effect) o s' :
  find_matching_order slug uid key mail plan cycle s = (Ok o, s') ->
  exists orders, list_orders uid key s = (Ok orders, s') /\
    match o with
    | Some d => JObj d ∈ orders /\ order_candidate key slug mail d = true /\
        forall d', JObj d' ∈ orders -> order_candidate key slug mail d' = true -> same_plan plan cycle d' = true ->
          same_plan plan cycle d = true
    | None => forall d, JObj d ∈ orders -> order_candidate key slug mail d = false
    end.
Proof. apply find_matching_spec. Qed.

(** ** What leaves for the provider *)

Definition logged (P : portal_request -> Prop) (d : tech_db) : Prop := Forall P (tb_portal d).

(** Everything that was sent but the readings. *)
Definition writes_sent (d : tech_db) : list portal_request :=
  List.filter (fun q => negb (bool_decide (pq_method q = "GET"%string))) (tb_portal d).

(** In test mode an order, renewal, change or cancellation is marked as a test. *)
Definition marked (q : portal_request) : Prop :=
  pq_method q ∈ ["POST"; "DELETE"]%string -> pq_endpoint q <> "clients"%string -> dget "test_mode" (pq_json q) = JBool true.

Lemma dget_dset_same k v d : dget k (dset k v d) = v.
Proof. unfold dget. by rewrite dlookup_dset, bool_decide_true. Qed.

Lemma dget_dset_other k k' v d : k <> k' -> dget k (dset k' v d) = dget k d.
Proof. intros H. unfold dget. by rewrite dlookup_dset, bool_decide_false. Qed.

Section Sent.
Context {cfg : TechConfig} {portal : Portal}.

Lemma upholds_portal_call P q : P q -> upholds (logged P) (portal_call q).
Proof. intros Hq s [_ Hd]. by split; constructor. Qed.

Lemma keeps_reading q : pq_method q = "GET"%string -> keeps writes_sent (portal_call q).
Proof. intros Hq K s [_ Hd]. unfold portal_call. split; cbn; unfold writes_sent; cbn; by rewrite bool_decide_true. Qed.

Lemma request_body_marked m endpoint j :
  resellportal_test_mode = true -> marked (PortalRequest m endpoint (request_body m endpoint j) []).
Proof.
  intros Ht Hm _. cbn [pq_method pq_json] in *. unfold request_body. rewrite Ht.
  unfold among. rewrite (bool_decide_true (m ∈ ["POST"; "DELETE"]%string)) by done.
  rewrite bool_decide_true by set_solver. cbn [andb].
  case_match; rewrite ?dget_dset_other by done; apply dget_dset_same.
Qed.

Lemma upholds_marked_request m endpoint j ps :
  resellportal_test_mode = true -> upholds (logged marked) (_make_request m endpoint j ps).
Proof.
  intros Ht. apply upholds_bind; [|upholds]. apply upholds_portal_call. intros H1 H2.
  by apply (request_body_marked m endpoint j Ht).
Qed.

Lemma upholds_marked_client e u : upholds (logged marked) (create_portal_client e u).
Proof. unfold create_portal_client, mock_create_client, secret_text. upholds.
  apply upholds_portal_call. by intros _ [].
Qed.

#[local] Hint Resolve upholds_marked_request : upholds.

Lemma upholds_normalize I res uid cycle tm : upholds I (normalize_provision_response res uid cycle tm).
Proof. unfold normalize_provision_response. upholds. Qed.
#[local] Hint Resolve upholds_normalize : upholds.

Lemma upholds_marked_provision slug name plan cycle e u key ps client acc :
  resellportal_test_mode = true -> upholds (logged marked) (provision_service slug name plan cycle e u key ps client acc).
Proof. intros Ht. unfold provision_service, mock_provision_service, secret_text. upholds. Qed.

Lemma upholds_marked_find slug uid key mail plan cycle :
  resellportal_test_mode = true -> upholds (logged marked) (find_matching_order slug uid key mail plan cycle).
Proof. intros Ht. unfold find_matching_order, list_orders. upholds. Qed.

(** Nothing but readings leaves when live orders are off in production. *)
Definition live_off : Prop := _production_environment = true /\ _production_live_resellportal_enabled = false.

Lemma keeps_writes_find slug uid key mail plan cycle : keeps writes_sent (find_matching_order slug uid key mail plan cycle).
Proof.
  unfold find_matching_order, list_orders, _make_request. keeps; by apply keeps_reading.
Qed.

Lemma keeps_client_off {T} (view : tech_db -> T) e u : live_off -> keeps view (create_portal_client e u).
Proof. intros [H1 H2]. unfold create_portal_client. rewrite H1, H2. keeps. Qed.

Lemma keeps_provision_off {T} (view : tech_db -> T) slug name plan cycle e u key ps client acc :
  live_off -> keeps view (provision_service slug name plan cycle e u key ps client acc).
Proof. intros [H1 H2]. unfold provision_service. rewrite H1, H2. keeps. Qed.
End Sent.

(** ** Examples *)

Definition example_session (d : tech_db) : session tech_db tech_effect :=
  open_session (fun n => Z.of_nat n) (fun n => ("id" +:+ pretty (Z.of_nat n))%string) d.

Definition active_body : dict :=
  [("success", JBool true); ("status", JStr "active"); ("service_id", JInt 812); ("order_id", JStr "RSP-ORD-u1")]%string.

Example active_answer_real_witness :
  let out := (normalize_provision_response (JObj active_body) "u1" "annually" false (example_session (TechDb ∅ ∅ ∅ ∅ [] false empty_shop))).1 in
  exists d, out = Ok d /\ dget "service_id" d = JStr "812" /\ dget "provider_order_id" d = JNull.
Proof.
  eexists. split; [vm_compute; reflexivity|].
  edestruct (active_answer_real (JObj active_body) "u1" "annually" false (example_session (TechDb ∅ ∅ ∅ ∅ [] false empty_shop)))
    as (_ & d & i & [= <-] & Hc & Hi & _); [vm_compute; reflexivity..|].
  split; vm_compute; reflexivity.
Defined.

Definition listed (cycle status : string) : json :=
  JObj [("product_key", JStr "VPN"); ("service_slug", JStr "vpn"); ("user_email", JStr "a@b.in"); ("plan_code", JStr "basic_plan");
        ("billing_cycle", JStr cycle); ("status", JStr status); ("order_id", JStr "77"); ("service_id", JStr "s77")]%string.

(** A provider that lists the orders it is given and confirms every new one. *)
Definition listing (orders : list json) : Portal := fun _ q =>
  if bool_decide (pq_method q = "GET"%string) then Body (JObj [("orders", JArr orders)]%string)
  else Body (JObj [("success", JBool true); ("client_id", JInt 9); ("status", JStr "ACTIVE"); ("service_id", JStr "s1");
                   ("order_id", JStr "o1")]%string).

Definition empty_tech : tech_db := TechDb ∅ ∅ ∅ ∅ [] false empty_shop.

Example found_order_matches_witness :
  let cfg := plain_config in let portal := listing [listed "monthly" "ACTIVE"; listed "annually" "PENDING"] in
  exists o, (find_matching_order "vpn" "u1" "vpn" "a@b.in" "basic_plan" "annually" (example_session empty_tech)).1 = Ok (Some o) /\
    same_plan "basic_plan" "annually" o = true.
Proof.
  intros cfg portal. eexists. split; [vm_compute; reflexivity|].
  eassert (Hf : find_matching_order "vpn" "u1" "vpn" "a@b.in" "basic_plan" "annually" (example_session empty_tech) = (Ok (Some _), _))
    by (vm_compute; reflexivity).
  destruct (found_order_matches _ _ _ _ _ _ _ _ _ Hf) as (orders & Hl & _ & _ & Hp).
  vm_compute in Hl. injection Hl as <-. eapply (Hp _); [right; left|vm_compute; reflexivity..].
Defined.

(** The docstring matches on every identifier, the billing cycle among them; without
    an order of that cycle one of another cycle is found. *)
Lemma other_cycle_found :
  let cfg := plain_config in let portal := listing [listed "monthly" "CANCELLED"] in
  exists o, (find_matching_order "vpn" "u1" "vpn" "a@b.in" "basic_plan" "annually" (example_session empty_tech)).1 = Ok (Some o) /\
    same_plan "basic_plan" "annually" o = false.
Proof. eexists. split; [vm_compute; reflexivity|]. vm_compute. reflexivity. Qed.

(** A failed [GET /orders] reads as a customer without orders. *)
Lemma failure_reads_as_no_order :
  let cfg := plain_config in let portal : Portal := fun _ _ => Failure "ReadTimeout" in
  (find_matching_order "vpn" "u1" "vpn" "a@b.in" "basic_plan" "annually" (example_session empty_tech)).1 = Ok None.
Proof. vm_compute. reflexivity. Qed.
