(* ===== verification/TechRetry.v ===== *)
(** * The worker that retries paid technology subscriptions

    app/service/technology/technology_subscription_retry_service.py, and the two
    routes of technology_services_controller.py with which an administrator calls
    it.  A subscription is known by its id; its columns are read from and written
    to the session.  Rows another worker has locked are an argument.  The mails
    carry the address, the names of service and plan and the reason; the payment
    columns repeated in them are left out. *)

From stdpp Require Import sorting.
From S2P Require Import Prelude Text Numerals PyNum PyJson Urls Secrets TrackRecords TechStore TechStatus TechAccess ProductMapper ResellPortal.

Definition BACKOFF_MINUTES : list Z := [5; 15; 60; 360; 1440].
Definition RETRYABLE_STATUSES : list string := ["PENDING"; "PROVISIONING_FAILED"; "PAYMENT_CAPTURED"; "PROVISIONING"]%string.

Definition _backoff_delay (attempt_number : Z) : Z :=
  let idx := Z.min (Z.max (attempt_number - 1) 0) (Z.of_nat (length BACKOFF_MINUTES) - 1) in
  minutes (nth (Z.to_nat idx) BACKOFF_MINUTES 0).

Definition _sub_periods (billing_cycle : string) : Tech (json * json) :=
  do now <- utc_now;
  let n := if startswith (lower billing_cycle) "ann" then 365 else 30 in
  ret (JDate now, JDate (now + days n)).

(** [v is True] *)
Definition is_True (v : json) : bool := match v with JBool true => true | _ => false end.

(** [sub.plan_code.replace("_", " ").title()] *)
Definition plan_title (sub : TechnologySubscription) : string := title (spaced (ts_plan_code sub)).

Section Worker.
Context {cfg : TechConfig} {portal : Portal} {cipher : Cipher}.

Definition retry_limit : Z := Z.max 1 TECH_SUBSCRIPTION_MAX_RETRIES.

(** ** Mails *)

Definition confirmation_failed : string := "Activation succeeded; confirmation email could not be sent.".

Definition _send_confirmation_email (id user_email : string) : Tech bool :=
  do sub <- sub_of id;
  if ts_confirmation_sent sub then ret true
  else
    catch (
      send_mail (ConfirmationMail user_email (ts_id sub) (ts_service_name sub) (plan_title sub)
        ("Service ID: " +:+ str_or (ts_provider_subscription_id sub) "N/A")%string) ;;;
      on_sub id (fun s => s <| ts_email_sent := true |> <| ts_confirmation_sent := true |>
        <| ts_last_provider_error :=
             if startswith (default EmptyString (ts_last_provider_error s)) "Activation succeeded; confirmation email" then None
             else ts_last_provider_error s |>) ;;;
      flush_sub id ;;;
      ret true)
    (fun _ =>
      do sub <- sub_of id;
      when (bool_decide (upper (ts_status sub) = "ACTIVE"%string))
        (on_sub id (fun s => s <| ts_last_provider_error := Some confirmation_failed |>) ;;; flush_sub id) ;;;
      ret false).

Definition _send_access_email (id user_email : string) (user : option TechUser) : Tech (option bool) :=
  do sub <- sub_of id;
  do payload <- lift_res (access_email_payload sub (Some (str_or (customer_display_name user) user_email)) false);
  match payload with
  | None => ret None
  | Some p =>
      catch (
        send_mail (AccessMail user_email p) ;;;
        on_sub id (fun s => s <| ts_access_email_sent := true |> <| ts_access_email_status := "SENT"%string |>) ;;;
        flush_sub id ;;;
        ret (Some true))
      (fun _ =>
        on_sub id (fun s => s <| ts_access_email_status := "FAILED"%string |>) ;;;
        flush_sub id ;;;
        ret (Some false))
  end.

(** A mail that is sent once per subscription and whose failure is only logged. *)
Definition send_once (id : string) (mail : TechnologySubscription -> tech_effect) : Tech unit :=
  do sub <- sub_of id;
  if ts_email_sent sub then ret tt
  else catch (send_mail (mail sub) ;;; on_sub id (fun s => s <| ts_email_sent := true |>) ;;; flush_sub id) (fun _ => ret tt).

Definition _send_pending_email (id user_email : string) (needs_input : bool) : Tech unit :=
  send_once id (fun sub => PendingMail user_email (ts_id sub) (ts_service_name sub) (plan_title sub)
    (if needs_input then
       ("Additional information is required to activate this service. " +:+ default EmptyString (ts_last_provider_error sub)
        +:+ " Your payment is safe — no further charge will be made.")%string
     else "Automatic activation is in progress and will be retried shortly. You will receive a confirmation email once your service is active.")).

Definition _send_failed_email (id user_email : string) : Tech unit :=
  send_once id (fun sub => FailedMail user_email (ts_id sub) (ts_service_name sub) (plan_title sub)
    (str_or (ts_last_provider_error sub) "Provider provisioning failed.")).

Definition _send_simulated_email (id user_email : string) : Tech unit :=
  send_once id (fun sub => PendingMail user_email (ts_id sub) (ts_service_name sub) (plan_title sub)
    "This was processed in ResellPortal test mode. The provider simulated the order, so no customer-accessible service was created in the portal.").

(** ** Helpers *)

Definition _next_retry (id : string) : Tech (option Z) :=
  do sub <- sub_of id;
  if retry_limit <=? ts_provision_attempts sub then
    on_sub id (fun s => s <| ts_needs_review := true |>) ;;; ret None
  else do now <- utc_now; ret (Some (now + _backoff_delay (ts_provision_attempts sub))).

(** [sub.next_retry_at = self._next_retry(sub)] *)
Definition schedule (id : string) : Tech unit :=
  do at_ <- _next_retry id; on_sub id (fun s => s <| ts_next_retry_at := at_ |>).

Definition _service_for (slug : string) : Tech (option TechnologyService) :=
  query (fun d => List.find (fun v => bool_decide (sv_slug v = slug) && negb (sv_is_deleted v)) (values (tb_services d))).

Definition _user_for (user_id : string) : Tech (option TechUser) :=
  catch (query (fun d => tb_users d !! user_id)) (fun _ => ret None).

Definition email_or_id (user : option TechUser) (user_id : string) : string :=
  match user with Some u => tu_email u | None => user_id end.

Definition _stored_portal_account_for_user (user_id : string) : Tech (option dict) :=
  do rows <- catch (do rows <- query (fun d => merge_sort (by_asc ts_created_at)
      (select_where (fun s => bool_decide (ts_user_id s = user_id) && bool_decide (is_Some (ts_credentials_json s)) && negb (ts_is_deleted s))
        (values (tb_subs d)))); ret (Some rows)) (fun _ => ret None);
  ret (match rows with
       | None => None
       | Some rows => List.find (fun creds => bool_decide (is_Some (stored_provider_client_id creds)))
                        (map (fun s => load_provider_credentials (ts_credentials_json s)) rows)
       end).

(** The client id, the account and, instead of them, an error. *)
Definition _ensure_portal_account (id user_email : string) : Tech (option string * dict * option string) :=
  do sub <- sub_of id;
  let current := load_provider_credentials (ts_credentials_json sub) in
  match stored_provider_client_id current with
  | Some client_id => ret (Some client_id, current, None)
  | None =>
      do existing <- _stored_portal_account_for_user (ts_user_id sub);
      match existing with
      | Some ((_ :: _) as account) =>
          do merged <- merge_subscription_credentials id account;
          flush_sub id ;;;
          ret (stored_provider_client_id merged, merged, None)
      | _ =>
          do created <- create_portal_client user_email (ts_user_id sub);
          if negb (is_True (dget "success" created)) || bool_decide (stored_provider_client_id created = None) then
            ret (None, current, Some (py_str (py_or (dget "error" created) (JStr "Provider client creation failed."))))
          else
            do merged <- merge_subscription_credentials id created;
            flush_sub id ;;;
            ret (stored_provider_client_id merged, merged, None)
      end
  end.

Definition _subscription_metadata (sub : TechnologySubscription) : dict :=
  match ts_provision_input sub with
  | Some raw => if is_empty raw then [] else match loads raw with Ok (JObj stored) => dupdate [] stored | _ => [] end
  | None => []
  end.

(** Failures are logged. *)
Definition _update_track (id fulfillment_status overall_status : string) (error_code error_message : option string) : Tech unit :=
  do sub <- sub_of id;
  catch (
    usable ;;;
    do found <- (if truthy (ts_razorpay_payment_id sub)
                 then find_by_razorpay_payment_id (default EmptyString (ts_razorpay_payment_id sub)) else ret None);
    do found <- (match found with
                 | Some r => ret (Some r)
                 | None => if truthy (ts_razorpay_order_id sub)
                           then find_by_razorpay_order_id (default EmptyString (ts_razorpay_order_id sub)) else ret None
                 end);
    match found with
    | None => ret tt
    | Some r =>
        do _ <- record_paid_attempt {|
          pa_internal_order_id := Some (tr_internal_order_id r); pa_cart_batch_id := None;
          pa_category := if_text (tr_category r) TrackRecordCategory.TECHNOLOGY_PURCHASE;
          pa_provider_subcategory := Some "ResellPortal"%string; pa_item_name := if_text (tr_item_name r) (ts_service_name sub);
          pa_item_id := None; pa_quantity_years := 1; pa_buyer := (None, None, None); pa_buyer_user_id := None;
          pa_amount_charged := tr_amount_charged r; pa_currency := "INR"; pa_net_and_gst := (None, None);
          pa_payment_status := TrackPayment.CAPTURED; pa_razorpay_order_id := tr_razorpay_order_id r;
          pa_razorpay_payment_id := tr_razorpay_payment_id r; pa_razorpay_refund_id := None;
          pa_fulfillment_status := fulfillment_status; pa_overall_status := overall_status; pa_openprovider_domain_id := None;
          pa_error_code := error_code; pa_error_message := error_message;
          pa_error_source := if truthy error_code then Some "RESELLPORTAL_OR_BACKEND"%string else None; pa_notes := None;
          pa_admin_deep_link := None; pa_created_at := None; pa_clear_errors := true |};
        ret tt
    end) (fun _ => ret tt).

(** ** Outcomes *)

Definition or_column (v : json) (old : json) : json := py_or v old.

(** [if prov_res.get("credentials"): merge_subscription_credentials(...)] *)
Definition merge_answered (id : string) (prov_res : dict) : Tech unit :=
  when (truth (dget "credentials" prov_res))
    (do _ <- merge_subscription_credentials id (as_dict (dget "credentials" prov_res)); ret tt).

Definition _mark_active (id : string) (prov_res : dict) (user_email : string) (user : option TechUser) : Tech string :=
  on_sub id (fun s => s <| ts_status := "ACTIVE"%string |>
    <| ts_provider_order_id := or_column (dget "provider_order_id" prov_res) (ts_provider_order_id s) |>
    <| ts_provider_subscription_id :=
         match real_provider_service_id prov_res (ts_user_id s) with Some i => Some i | None => ts_provider_subscription_id s end |>) ;;;
  do _ <- merge_subscription_credentials id (as_dict (dget "credentials" prov_res));
  do sub <- sub_of id;
  let start := dget "current_period_start" prov_res in
  let end_ := dget "current_period_end" prov_res in
  do period <- (match start, end_ with
                | JNull, _ | _, JNull => _sub_periods (ts_billing_cycle sub)
                | _, _ => ret (start, end_)
                end);
  on_sub id (fun s => s <| ts_current_period_start := period.1 |> <| ts_current_period_end := period.2 |>
    <| ts_next_retry_at := None |> <| ts_needs_review := false |> <| ts_last_provider_error := None |>) ;;;
  flush_sub id ;;;
  _update_track id FulfillmentStatus.PROVISIONED OverallStatus.SUCCESS None None ;;;
  do _ <- _send_confirmation_email id user_email;
  do _ <- _send_access_email id user_email user;
  ret "activated"%string.

(** The identifiers of an answer that is not active. *)
Definition take_identifiers (status : string) (prov_res : dict) (s : TechnologySubscription) : TechnologySubscription :=
  s <| ts_status := status |>
    <| ts_provider_order_id := or_column (dget "provider_order_id" prov_res) (ts_provider_order_id s) |>
    <| ts_provider_subscription_id :=
         match real_provider_service_id prov_res (ts_user_id s) with Some i => Some i | None => ts_provider_subscription_id s end |>.

Definition _mark_pending (id : string) (prov_res : dict) (user_email : string) : Tech string :=
  on_sub id (take_identifiers "PENDING" prov_res) ;;;
  merge_answered id prov_res ;;;
  schedule id ;;;
  flush_sub id ;;;
  _update_track id FulfillmentStatus.IN_PROGRESS OverallStatus.PENDING None None ;;;
  _send_pending_email id user_email false ;;;
  ret "pending"%string.

Definition _mark_simulated (id : string) (prov_res : dict) (user_email : string) : Tech string :=
  on_sub id (take_identifiers "TEST_SIMULATED" prov_res) ;;;
  merge_answered id prov_res ;;;
  let message := py_str (py_or (dget "message" prov_res)
    (JStr "ResellPortal test-mode order was simulated and is not customer-accessible.")) in
  on_sub id (fun s => s <| ts_next_retry_at := None |> <| ts_needs_review := false |>
    <| ts_last_provider_status := Some "TEST_SIMULATED"%string |> <| ts_last_provider_error := Some message |>) ;;;
  flush_sub id ;;;
  _update_track id FulfillmentStatus.IN_PROGRESS OverallStatus.PENDING None (Some message) ;;;
  _send_simulated_email id user_email ;;;
  ret "test_simulated"%string.

(** [if attempts >= limit: PROVISIONING_FAILED, needs_review; else: PENDING] *)
Definition give_up_or_wait (id : string) : Tech bool :=
  do sub <- sub_of id;
  let terminal := retry_limit <=? ts_provision_attempts sub in
  (if terminal then on_sub id (fun s => s <| ts_status := "PROVISIONING_FAILED"%string |> <| ts_needs_review := true |>)
   else on_sub id (fun s => s <| ts_status := "PENDING"%string |>)) ;;;
  ret terminal.

Definition _mark_failed (id : string) (prov_res : dict) (user_email : string) : Tech string :=
  let error := py_str (py_or (dget "error" prov_res) (py_or (dget "message" prov_res) (JStr "Provider provisioning failed."))) in
  on_sub id (fun s => s <| ts_last_provider_error := Some error |> <| ts_last_provider_status := Some "PROVISIONING_PENDING"%string |>) ;;;
  schedule id ;;;
  do terminal <- give_up_or_wait id;
  flush_sub id ;;;
  _update_track id FulfillmentStatus.IN_PROGRESS OverallStatus.PENDING (Some "PROVISIONING_ERROR"%string) (Some error) ;;;
  if terminal then _send_failed_email id user_email ;;; ret "failed"%string
  else _send_pending_email id user_email false ;;; ret "pending"%string.

Definition _adopt_existing_order (id : string) (existing : dict) (user_email : string) : Tech string :=
  on_sub id (fun s => s
    <| ts_provider_order_id := or_column (dget "provider_order_id" existing) (or_column (dget "order_id" existing) (ts_provider_order_id s)) |>
    <| ts_provider_subscription_id :=
         match real_provider_service_id existing (ts_user_id s) with Some i => Some i | None => ts_provider_subscription_id s end |>) ;;;
  do adopted <- lift_res (extract_provider_credentials existing);
  when (negb (bool_decide (length adopted = 0%nat))) (do _ <- merge_subscription_credentials id adopted; ret tt) ;;;
  let provider_status := upper (py_str (py_or (dget "status" existing) (JStr "PENDING"))) in
  on_sub id (fun s => s <| ts_last_provider_status := Some provider_status |>) ;;;
  do sub <- sub_of id;
  if bool_decide (provider_status = "ACTIVE"%string) && truthy (ts_provider_subscription_id sub) then
    on_sub id (fun s => s <| ts_status := "ACTIVE"%string |> <| ts_next_retry_at := None |> <| ts_needs_review := false |>
      <| ts_last_provider_error := None |>) ;;;
    (match ts_current_period_start sub, ts_current_period_end sub with
     | JNull, _ | _, JNull =>
         do period <- _sub_periods (ts_billing_cycle sub);
         on_sub id (fun s => s <| ts_current_period_start := period.1 |> <| ts_current_period_end := period.2 |>)
     | _, _ => ret tt
     end) ;;;
    flush_sub id ;;;
    _update_track id FulfillmentStatus.PROVISIONED OverallStatus.SUCCESS None None ;;;
    do user <- _user_for (ts_user_id sub);
    do _ <- _send_confirmation_email id user_email;
    do _ <- _send_access_email id user_email user;
    ret "adopted"%string
  else
    on_sub id (fun s => s <| ts_status := "PENDING"%string |>) ;;;
    schedule id ;;;
    flush_sub id ;;;
    _update_track id FulfillmentStatus.IN_PROGRESS OverallStatus.PENDING None None ;;;
    ret "pending"%string.

Definition manual_error : string := "This service has no automated provider mapping. Manual fulfillment required.".

Definition _mark_manual_fulfillment (id : string) : Tech string :=
  on_sub id (fun s => s <| ts_status := "PENDING"%string |> <| ts_needs_review := true |>
    <| ts_last_provider_status := Some "MANUAL_FULFILLMENT_REQUIRED"%string |> <| ts_last_provider_error := Some manual_error |>
    <| ts_next_retry_at := None |> <| ts_provision_attempts := retry_limit |>) ;;;
  flush_sub id ;;;
  _update_track id FulfillmentStatus.IN_PROGRESS OverallStatus.PENDING None (Some manual_error) ;;;
  ret "needs_input"%string.

(** ** One subscription *)

(** The mails an active subscription still owes. *)
Definition process_active (id : string) (sub : TechnologySubscription) : Tech string :=
  do user <- _user_for (ts_user_id sub);
  let user_email := email_or_id user (ts_user_id sub) in
  do email_sent <- _send_confirmation_email id user_email;
  do access_result <- _send_access_email id user_email user;
  ret (if negb (ts_confirmation_sent sub) then (if email_sent then "email" else "email_failed")%string
       else match access_result with Some true => "access" | Some false => "access_failed" | None => "already_active" end)%string.

(** What is done with the answer to an order. *)
Definition conclude (id : string) (prov_res : dict) (user_email : string) (user : option TechUser) : Tech string :=
  let provider_success := is_True (dget "success" prov_res) in
  let provider_status := upper (py_str (py_or (dget "status" prov_res) (JStr "PENDING"))) in
  on_sub id (fun s => s <| ts_last_provider_status := Some provider_status |>
    <| ts_last_provider_error :=
         if provider_success then None else Some (py_str (py_or (dget "error" prov_res) (JStr EmptyString))) |>) ;;;
  do sub <- sub_of id;
  if provider_success && bool_decide (provider_status = "ACTIVE"%string) then
    match real_provider_service_id prov_res (ts_user_id sub) with
    | None =>
        _mark_pending id (dset "error" (JStr "Provider did not return a real service_id.")
          (dset "status" (JStr "PROVISIONING_PENDING") (dset "success" (JBool false) prov_res))) user_email
    | Some _ => _mark_active id prov_res user_email user
    end
  else if provider_success && bool_decide (provider_status = "TEST_SIMULATED"%string) then _mark_simulated id prov_res user_email
  else if provider_success && among provider_status ["PENDING"; "PROVISIONING_PENDING"]%string then _mark_pending id prov_res user_email
  else _mark_failed id prov_res user_email.

Definition missing_input (sub : TechnologySubscription) (missing : list string) : string :=
  (ts_service_name sub +:+ " requires: " +:+ join ", " missing +:+ ". Please provide the required information to activate.")%string.

(** The stored input with the plan filled in. *)
Definition order_metadata (sub : TechnologySubscription) : dict :=
  dsetdefault "planCode" (JStr (ts_plan_code sub)) (dsetdefault "selectedPlan" (JStr (ts_plan_code sub)) (_subscription_metadata sub)).

(** The order, once no existing one was found. *)
Definition place_order (id product_key user_email : string) (user : option TechUser) (client_id : option string) (account : dict)
    (sub : TechnologySubscription) : Tech string :=
  let metadata := order_metadata sub in
  let '(ok, missing) := validate_order_input (ts_service_slug sub) metadata in
  if negb ok then
    let error := missing_input sub missing in
    on_sub id (fun s => s <| ts_status := "PENDING"%string |> <| ts_needs_review := true |> <| ts_last_provider_error := Some error |>) ;;;
    flush_sub id ;;;
    _update_track id FulfillmentStatus.IN_PROGRESS OverallStatus.PENDING None (Some error) ;;;
    _send_pending_email id user_email true ;;;
    ret "needs_input"%string
  else
    do order_parameters <- lift_res (build_order_parameters product_key (ts_plan_code sub) metadata);
    do now <- utc_now;
    on_sub id (fun s => s <| ts_status := "PROVISIONING"%string |> <| ts_last_provision_attempt_at := Some now |>
      <| ts_provision_attempts := ts_provision_attempts s + 1 |> <| ts_last_provider_status := None |>
      <| ts_last_provider_error := None |>) ;;;
    flush_sub id ;;;
    do prov_res <- provision_service (ts_service_slug sub) (ts_service_name sub) (ts_plan_code sub) (ts_billing_cycle sub) user_email
      (ts_user_id sub) product_key order_parameters client_id account;
    conclude id prov_res user_email user.

(** Once the portal account is known, or why there is none: existing orders first. *)
Definition reconcile_or_order (id product_key user_email : string) (user : option TechUser) (sub : TechnologySubscription)
    (found : option string * dict * option string) : Tech string :=
  let '(client_id, account, portal_error) := found in
  if truthy portal_error then
    on_sub id (fun s => s <| ts_status := "PENDING"%string |> <| ts_last_provider_status := Some "PROVISIONING_PENDING"%string |>
      <| ts_last_provider_error := portal_error |>) ;;;
    schedule id ;;;
    flush_sub id ;;;
    _update_track id FulfillmentStatus.IN_PROGRESS OverallStatus.PENDING (Some "PROVIDER_CLIENT_ERROR"%string) portal_error ;;;
    _send_pending_email id user_email false ;;;
    ret "pending"%string
  else
    do existing <- find_matching_order (ts_service_slug sub) (ts_user_id sub) product_key user_email (ts_plan_code sub)
      (ts_billing_cycle sub);
    match existing with
    | Some order => _adopt_existing_order id order user_email
    | None => do sub <- sub_of id; place_order id product_key user_email user client_id account sub
    end.

Definition key_of (service : option TechnologyService) (sub : TechnologySubscription) : option string :=
  match service with
  | Some v => resolve_product_key (sv_slug v) (sv_provider_product_key v)
  | None => resolve_product_key (ts_service_slug sub) None
  end.

Definition provision_steps (id : string) (sub : TechnologySubscription) : Tech string :=
  do service <- _service_for (ts_service_slug sub);
  match key_of service sub with
  | None => _mark_manual_fulfillment id
  | Some product_key =>
      if is_empty product_key || negb (is_provider_mapped (ts_service_slug sub)) then _mark_manual_fulfillment id
      else
        do user <- _user_for (ts_user_id sub);
        let user_email := email_or_id user (ts_user_id sub) in
        do found <- _ensure_portal_account id user_email;
        reconcile_or_order id product_key user_email user sub found
  end.

(** The handler of every exception; it raises itself when the transaction is lost. *)
Definition process_failed (id : string) : Tech string :=
  do sub <- sub_of id;
  on_sub id (fun s => s <| ts_last_provider_error := Some "Unexpected error during provisioning retry."%string |>
    <| ts_last_provider_status := Some "PROVISIONING_PENDING"%string |>
    <| ts_provision_attempts := Z.max (ts_provision_attempts s) 1 |>) ;;;
  schedule id ;;;
  do _ <- give_up_or_wait id;
  flush_sub id ;;;
  ret "failed"%string.

Definition _process (id : string) : Tech string :=
  catch (do sub <- sub_of id;
         if bool_decide (ts_status sub = "ACTIVE"%string) then process_active id sub else provision_steps id sub)
    (fun _ => process_failed id).

(** ** The worker and the manual retry *)

(** Rows the worker takes: due for a retry, or active with a mail outstanding. *)
Definition due (now : Z) (s : TechnologySubscription) : bool :=
  bool_decide (ts_status s ∈ RETRYABLE_STATUSES) && (ts_provision_attempts s <? retry_limit)
  && match ts_next_retry_at s with None => true | Some t => t <=? now end.

Definition owes_mail (s : TechnologySubscription) : bool :=
  bool_decide (ts_status s = "ACTIVE"%string) && (negb (ts_confirmation_sent s) || negb (ts_access_email_sent s)).

Definition selected (now : Z) (s : TechnologySubscription) : bool :=
  bool_decide (ts_payment_status s = TrackPayment.CAPTURED) && negb (ts_is_deleted s) && (due now s || owes_mail s).

(** [FOR UPDATE SKIP LOCKED]: the rows in [locked] are passed over. *)
Definition scan (locked : list string) (now : Z) (d : tech_db) : list string :=
  map ts_id (merge_sort (by_asc ts_created_at)
    (select_where (fun s => selected now s && negb (bool_decide (ts_id s ∈ locked))) (values (tb_subs d)))).

(** The outcomes in order. *)
Fixpoint process_all (ids : list string) : Tech (list string) :=
  match ids with
  | [] => ret []
  | id :: ids' => do outcome <- _process id; do rest <- process_all ids'; ret (outcome :: rest)
  end.

Definition run_tick (locked : list string) : Tech (list string) :=
  do now <- utc_now;
  do rows <- query (scan locked now);
  do outcomes <- process_all rows;
  when (negb (bool_decide (outcomes = []))) tech_commit ;;;
  ret outcomes.

Definition not_found : retry_result + string := inr "Subscription not found"%string.

(** [inr] is the answer without a subscription. *)
Definition retry_subscription (subscription_id : string) (force : bool) : Tech (retry_result + string) :=
  do found <- query (fun d => tb_subs d !! subscription_id);
  match found with
  | None => ret not_found
  | Some sub =>
      if ts_is_deleted sub then ret (inl (retry_result_payload sub "failed" (Some "Subscription is deleted"%string)))
      else if negb (bool_decide (ts_payment_status sub = TrackPayment.CAPTURED)) then
        ret (inl (retry_result_payload sub "failed" (Some "Subscription is not paid; refusing to provision"%string)))
      else if bool_decide (ts_status sub = "ACTIVE"%string) then
        do user <- _user_for (ts_user_id sub);
        let user_email := email_or_id user (ts_user_id sub) in
        do email_ok <- _send_confirmation_email subscription_id user_email;
        do access_result <- _send_access_email subscription_id user_email user;
        tech_commit ;;;
        do sub' <- sub_of subscription_id;
        let outcome := (
          if negb (ts_confirmation_sent sub) then (if email_ok && ts_confirmation_sent sub' then "email" else "email_failed")
          else match access_result with Some true => "access" | Some false => "access_failed" | None => "already_active" end)%string in
        ret (inl (retry_result_payload sub' outcome None))
      else if negb force && (retry_limit <=? ts_provision_attempts sub) then
        ret (inl (retry_result_payload sub "failed" (Some "Automatic retry limit reached; needs review"%string)))
      else
        do now <- utc_now;
        on_sub subscription_id (fun s => s <| ts_next_retry_at := Some now |> <| ts_needs_review := false |>) ;;;
        do outcome <- _process subscription_id;
        tech_commit ;;;
        do sub' <- sub_of subscription_id;
        ret (inl (retry_result_payload sub' outcome None))
  end.

(** The two routes of the administrators differ in the detail of the refusal. *)
Definition retry_route (detail item_id : string) : Tech retry_result :=
  do result <- retry_subscription item_id true;
  match result with inl r => ret r | inr _ => raise (HTTPException detail 404) end.

Definition retry_failed_provisioning : string -> Tech retry_result := retry_route "Failed provisioning item not found".
Definition admin_retry_subscription : string -> Tech retry_result := retry_route "Subscription not found".
End Worker.
