(* ===== verification/TechWorker.v ===== *)
(** * What the retry worker guarantees

    Theorems about TechRetry: the rows it leaves alone, what it sends to the
    provider, how often, and when a subscription becomes active. *)

From stdpp Require Import sorting.
From S2P Require Import Prelude Text Numerals PyNum PyJson Urls Secrets TrackRecords TechStore TechStatus TechAccess ProductMapper ResellPortal TechRetry.

(** ** Invariants of the database the helpers keep *)

(** [I] does not mind track records, the mark of a lost transaction, nor changes of
    row [id] that are [fine]. *)
Record closed (fine : TechnologySubscription -> TechnologySubscription -> Prop) (id : string) (I : tech_db -> Prop) : Prop := {
  closed_tracks : forall t d, I d -> I (d <| tb_tracks := t |>);
  closed_failed : forall b d, I d -> I (d <| tb_failed := b |>);
  closed_row : forall f d, (forall s, fine s (f s)) -> I d -> I (d <| tb_subs ::= alter f id |>) }.

(** Changes that leave what decides about retries, the payment and the service. *)
Definition same_core (s s' : TechnologySubscription) : Prop :=
  ts_status s' = ts_status s /\ ts_provision_attempts s' = ts_provision_attempts s /\ ts_user_id s' = ts_user_id s /\
  ts_payment_status s' = ts_payment_status s /\ ts_razorpay_payment_id s' = ts_razorpay_payment_id s /\
  ts_provider_subscription_id s' = ts_provider_subscription_id s /\ ts_is_deleted s' = ts_is_deleted s /\
  (ts_needs_review s = true -> ts_needs_review s' = true) /\ ts_id s' = ts_id s.

(** Any change but of the id. *)
Definition any_change (s s' : TechnologySubscription) : Prop := ts_id s' = ts_id s.

Lemma closed_mono (fine fine' : TechnologySubscription -> TechnologySubscription -> Prop) id I :
  (forall s s', fine' s s' -> fine s s') -> closed fine id I -> closed fine' id I.
Proof. intros Hf [H1 H2 H3]. split; [done..|]. eauto. Qed.

Section Helpers.
#[local] Set Default Proof Using "Type*".
Context {cfg : TechConfig} {portal : Portal} {cipher : Cipher}.
Context (id : string) (I : tech_db -> Prop) (HI : closed same_core id I).

Lemma upholds_usable : upholds I usable.
Proof using Type. unfold usable. upholds. Qed.

Lemma upholds_query {A} (f : tech_db -> A) : upholds I (query f).
Proof using Type. unfold query, usable. upholds. Qed.

Lemma upholds_sub_of k : upholds I (sub_of k).
Proof using Type. unfold sub_of, usable. upholds. Qed.

Lemma upholds_on_sub_core f : (forall s, same_core s (f s)) -> upholds I (on_sub id f).
Proof. intros Hf. apply upholds_modify. intros d. by apply (closed_row _ _ _ HI). Qed.

Lemma upholds_flush : upholds I (flush_sub id).
Proof. unfold flush_sub, usable. upholds. apply upholds_modify. intros d. apply (closed_failed _ _ _ HI). Qed.

Lemma upholds_send_mail m : upholds I (send_mail m).
Proof using Type. unfold send_mail. upholds. Qed.

Lemma upholds_track_write r : upholds I (track_save r : Tech unit).
Proof. unfold track_save. upholds. apply upholds_modify. intros d'. apply (closed_tracks _ _ _ HI). Qed.

#[local] Hint Resolve upholds_usable upholds_query upholds_sub_of upholds_flush upholds_send_mail upholds_track_write : upholds.
#[local] Hint Extern 1 (upholds _ (on_sub _ _)) => apply upholds_on_sub_core; intros ?; repeat split; intros ?; assumption || reflexivity : upholds.

Lemma upholds_merge creds : upholds I (merge_subscription_credentials id creds).
Proof. unfold merge_subscription_credentials. upholds. Qed.

Lemma upholds_update_track f o e m : upholds I (_update_track id f o e m).
Proof.
  unfold _update_track, record_paid_attempt, find_by_razorpay_payment_id, find_by_razorpay_order_id,
    find_by_internal_order_id, generate_internal_order_id. upholds.
Qed.

Lemma upholds_confirmation e : upholds I (_send_confirmation_email id e).
Proof. unfold _send_confirmation_email. upholds. Qed.

Lemma upholds_access e u : upholds I (_send_access_email id e u).
Proof. unfold _send_access_email. upholds. Qed.

Lemma upholds_send_once mail : upholds I (send_once id mail).
Proof. unfold send_once. upholds. Qed.

Lemma upholds_schedule : upholds I (schedule id).
Proof. unfold schedule, _next_retry. upholds. Qed.

Lemma upholds_user_for u : upholds I (_user_for u).
Proof using Type. unfold _user_for. upholds. Qed.

Lemma upholds_merge_answered r : upholds I (merge_answered id r).
Proof. unfold merge_answered. pose proof upholds_merge. upholds. Qed.

Lemma upholds_account e : (forall u, upholds I (create_portal_client e u)) -> upholds I (_ensure_portal_account id e).
Proof.
  intros Hc. pose proof upholds_merge. unfold _ensure_portal_account, _stored_portal_account_for_user. upholds.
Qed.

Lemma upholds_process_active sub : upholds I (process_active id sub).
Proof. pose proof upholds_confirmation. pose proof upholds_access. pose proof upholds_user_for. unfold process_active. upholds. Qed.
End Helpers.

#[export] Hint Resolve upholds_usable upholds_query upholds_sub_of upholds_flush upholds_send_mail upholds_merge upholds_update_track
  upholds_confirmation upholds_access upholds_send_once upholds_schedule upholds_user_for upholds_merge_answered : upholds.

(** ** Invariants the outcomes keep *)

(** Changes that neither count an attempt nor make a row active. *)
Definition passive (s s' : TechnologySubscription) : Prop :=
  (ts_provision_attempts s' = ts_provision_attempts s /\ ts_user_id s' = ts_user_id s /\ ts_id s' = ts_id s) /\
  (ts_status s' = ts_status s \/ ts_status s' <> "ACTIVE"%string).

(** Changes that make a row active. *)
Definition activating (s s' : TechnologySubscription) : Prop :=
  (ts_provision_attempts s' = ts_provision_attempts s /\ ts_user_id s' = ts_user_id s /\ ts_id s' = ts_id s) /\ ts_status s' = "ACTIVE"%string.

Lemma closed_core id I : closed passive id I -> closed same_core id I.
Proof. apply closed_mono. unfold passive, same_core. naive_solver. Qed.

Section Outcomes.
#[local] Set Default Proof Using "Type*".
Context {cfg : TechConfig} {portal : Portal} {cipher : Cipher}.
Context (id : string) (I : tech_db -> Prop) (HI : closed passive id I).

Lemma upholds_on_sub_passive f : (forall s, passive s (f s)) -> upholds I (on_sub id f).
Proof. intros Hf. apply upholds_modify. intros d. by apply (closed_row _ _ _ HI). Qed.

#[local] Hint Extern 1 (upholds _ (on_sub _ _)) =>
  apply upholds_on_sub_passive; intros ?; (split; [repeat split; reflexivity|(left; reflexivity) || (right; discriminate)]) : upholds.
#[local] Hint Extern 1 (closed same_core _ _) => apply closed_core; assumption : upholds.

Lemma upholds_mark_pending r e : upholds I (_mark_pending id r e).
Proof. unfold _mark_pending, _send_pending_email. upholds. Qed.

Lemma upholds_mark_simulated r e : upholds I (_mark_simulated id r e).
Proof. unfold _mark_simulated, _send_simulated_email. upholds. Qed.

Lemma upholds_give_up : upholds I (give_up_or_wait id).
Proof. unfold give_up_or_wait. upholds. Qed.

Lemma upholds_mark_failed r e : upholds I (_mark_failed id r e).
Proof. pose proof upholds_give_up. unfold _mark_failed, _send_pending_email, _send_failed_email. upholds. Qed.

Context (HA : closed activating id I).

Lemma upholds_on_sub_active f : (forall s, activating s (f s)) -> upholds I (on_sub id f).
Proof. intros Hf. apply upholds_modify. intros d. by apply (closed_row _ _ _ HA). Qed.

#[local] Hint Extern 2 (upholds _ (on_sub _ _)) => apply upholds_on_sub_active; intros ?; repeat split : upholds.

Lemma upholds_mark_active r e u : upholds I (_mark_active id r e u).
Proof. unfold _mark_active, _sub_periods. upholds. Qed.

Lemma upholds_adopt o e : upholds I (_adopt_existing_order id o e).
Proof. unfold _adopt_existing_order, _sub_periods. upholds. Qed.

Lemma upholds_conclude r e u : upholds I (conclude id r e u).
Proof.
  pose proof upholds_mark_active. pose proof upholds_mark_pending. pose proof upholds_mark_simulated. pose proof upholds_mark_failed.
  unfold conclude. upholds.
Qed.
End Outcomes.

(** ** Invariants no change of the row matters to *)

Lemma upholds_tech_commit I : upholds I tech_commit.
Proof. unfold tech_commit, usable. upholds. Qed.
#[export] Hint Resolve upholds_tech_commit : upholds.

Section Blind.
#[local] Set Default Proof Using "Type*".
Context {cfg : TechConfig} {portal : Portal} {cipher : Cipher}.
Context (I : tech_db -> Prop).
Context (Hclient : forall e u, upholds I (create_portal_client e u)).
Context (Hfind : forall slug uid key mail plan cycle, upholds I (find_matching_order slug uid key mail plan cycle)).
Context (Hprovision : forall slug name plan cycle e u key ps c acc, upholds I (provision_service slug name plan cycle e u key ps c acc)).

Lemma upholds_on_sub_any id : closed any_change id I -> forall f, (forall s, ts_id (f s) = ts_id s) -> upholds I (on_sub id f).
Proof. intros HI f Hf. apply upholds_modify. intros d. by apply (closed_row _ _ _ HI). Qed.

#[local] Hint Extern 1 (ts_id _ = ts_id _) => reflexivity : upholds.

Lemma upholds_process id : closed any_change id I -> upholds I (_process id).
Proof.
  intros HI.
  assert (HP : closed passive id I) by (revert HI; apply closed_mono; by intros s s' [(_ & _ & ?) _]).
  assert (HA : closed activating id I) by (revert HI; apply closed_mono; by intros s s' [(_ & _ & ?) _]).
  assert (HC : closed same_core id I) by by apply closed_core.
  pose proof (upholds_on_sub_any id HI) as Hsub.
  pose proof (upholds_conclude id I HP HA). pose proof (upholds_adopt id I HP HA). pose proof (upholds_give_up id I HP).
  pose proof (upholds_process_active id I HC). pose proof (fun e => upholds_account id I HC e (Hclient e)).
  unfold _process, provision_steps, reconcile_or_order, _mark_manual_fulfillment, place_order, process_failed, _service_for, _send_pending_email. upholds.
Qed.

Lemma upholds_process_all ids : (forall id, id ∈ ids -> closed any_change id I) -> upholds I (process_all ids).
Proof.
  induction ids as [|id ids IH]; intros HI; [apply upholds_ret|].
  apply upholds_bind; [apply upholds_process, HI; by left|]. intros o. apply upholds_bind; [|upholds].
  apply IH. intros i Hi. apply HI. by right.
Qed.

Lemma upholds_run_tick locked : (forall id, closed any_change id I) -> upholds I (run_tick locked).
Proof.
  intros HI. pose proof upholds_process_all. unfold run_tick, query, usable. upholds.
Qed.

Lemma upholds_retry id force : closed any_change id I -> upholds I (retry_subscription id force).
Proof.
  intros HI. assert (HC : closed same_core id I) by (revert HI; apply closed_mono; by intros s s' (_ & _ & _ & _ & _ & _ & _ & _ & ?)).
  pose proof (upholds_process id HI). pose proof (upholds_on_sub_any id HI) as Hsub.
  unfold retry_subscription. upholds.
Qed.
End Blind.

(** ** What the worker sends *)

Lemma closed_log P id : closed any_change id (logged P).
Proof. by split. Qed.

Lemma closed_writes K id : closed any_change id (fun d => writes_sent d = K).
Proof. by split. Qed.

(** In test mode every order the worker or an administrator's retry places is
    marked as a test, and so is every renewal, change and cancellation: a request
    with an unmarked one is sent by neither, whatever the provider answers and
    whether the transaction is kept or lost. *)
Theorem test_orders_marked {cfg : TechConfig} {portal : Portal} {cipher : Cipher} clock ids locked id force d :
  resellportal_test_mode = true -> logged marked d ->
  logged marked (tech_request clock ids (run_tick locked) d).2 /\
  logged marked (tech_request clock ids (retry_subscription id force) d).2.
Proof.
  intros Ht Hd. unfold tech_request.
  split; (apply run_request_upholds; [apply upholds_run_tick || apply upholds_retry|done]);
    auto using upholds_marked_client, upholds_marked_find, upholds_marked_provision, closed_log.
Qed.

(** C28. In production with live orders switched off, neither the worker nor an
    administrator's retry sends the provider anything but readings. *)
Theorem production_off_only_reads {cfg : TechConfig} {portal : Portal} {cipher : Cipher} clock ids locked id force d :
  live_off ->
  writes_sent (tech_request clock ids (run_tick locked) d).2 = writes_sent d /\
  writes_sent (tech_request clock ids (retry_subscription id force) d).2 = writes_sent d.
Proof.
  intros Hoff. unfold tech_request.
  pose proof (fun e u => keeps_client_off writes_sent e u Hoff (writes_sent d)) as Hc.
  pose proof (fun slug uid key mail plan cycle => keeps_writes_find slug uid key mail plan cycle (writes_sent d)) as Hf.
  pose proof (fun slug name plan cycle e u key ps c acc =>
    keeps_provision_off writes_sent slug name plan cycle e u key ps c acc Hoff (writes_sent d)) as Hp.
  split; (apply (run_request_upholds clock ids (fun d' => writes_sent d' = writes_sent d));
    [apply upholds_run_tick || apply upholds_retry|done]); auto using closed_writes.
Qed.

(** ** Rows the worker leaves alone *)

Section Untouched.
Context {cfg : TechConfig} {portal : Portal} {cipher : Cipher}.

(** A view that the log of requests is not part of. *)
Definition portal_free {T} (view : tech_db -> T) : Prop := forall l d, view (d <| tb_portal := l |>) = view d.

Lemma keeps_portal_call {T} (view : tech_db -> T) q : portal_free view -> keeps view (portal_call q).
Proof. intros Hv K s [Hc Hd]. by split; (etrans; [apply Hv|]). Qed.

Lemma keeps_client {T} (view : tech_db -> T) e u : portal_free view -> keeps view (create_portal_client e u).
Proof. intros Hv. unfold create_portal_client, mock_create_client, secret_text. keeps; by apply keeps_portal_call. Qed.

Lemma keeps_find {T} (view : tech_db -> T) slug uid key mail plan cycle :
  portal_free view -> keeps view (find_matching_order slug uid key mail plan cycle).
Proof. intros Hv. unfold find_matching_order, list_orders, _make_request. keeps; by apply keeps_portal_call. Qed.

Lemma keeps_provision {T} (view : tech_db -> T) slug name plan cycle e u key ps c acc :
  portal_free view -> keeps view (provision_service slug name plan cycle e u key ps c acc).
Proof.
  intros Hv. pose proof (keeps_portal_call view) as Hq.
  unfold provision_service, mock_provision_service, secret_text, _make_request, normalize_provision_response.
  keeps; by apply Hq.
Qed.

Lemma closed_other K id k : k <> id -> closed any_change id (fun d => tb_subs d !! k = K).
Proof. intros Hk. split; [done..|]. intros f d _ H. cbn. by rewrite lookup_alter_ne. Qed.

Lemma upholds_other_row {A} (op : Tech A) k K :
  (forall I, (forall e u, upholds I (create_portal_client e u)) ->
     (forall slug uid key mail plan cycle, upholds I (find_matching_order slug uid key mail plan cycle)) ->
     (forall slug name plan cycle e u key ps c acc, upholds I (provision_service slug name plan cycle e u key ps c acc)) ->
     I = (fun d => tb_subs d !! k = K) -> upholds I op) ->
  upholds (fun d => tb_subs d !! k = K) op.
Proof.
  intros H. apply H; [| | |done]; intros.
  - intros ?. by apply (keeps_client (fun d => tb_subs d !! k)).
  - intros ?. by apply (keeps_find (fun d => tb_subs d !! k)).
  - intros ?. by apply (keeps_provision (fun d => tb_subs d !! k)).
Qed.

Definition keyed (d : tech_db) : Prop := forall k s, tb_subs d !! k = Some s -> ts_id s = k.

Lemma portal_free_upholds (I : tech_db -> Prop) : (forall l d, I (d <| tb_portal := l |>) <-> I d) ->
  (forall e u, upholds I (create_portal_client e u)) /\
  (forall slug uid key mail plan cycle, upholds I (find_matching_order slug uid key mail plan cycle)) /\
  (forall slug name plan cycle e u key ps c acc, upholds I (provision_service slug name plan cycle e u key ps c acc)).
Proof.
  intros HI. assert (Hcall : forall q, upholds I (portal_call q)) by (intros q s [? ?]; split; cbn; by apply HI).
  pose proof (fun res uid cycle tm => upholds_normalize I res uid cycle tm).
  unfold create_portal_client, mock_create_client, find_matching_order, list_orders, provision_service, mock_provision_service,
    _make_request, secret_text. split_and!; upholds.
Qed.

Lemma closed_keyed id : closed any_change id keyed.
Proof.
  split; [done..|]. intros f d Hf Hd k s Hs. cbn in Hs. destruct (decide (k = id)) as [->|Hk].
  - rewrite lookup_alter_eq in Hs. destruct (tb_subs d !! id) as [s0|] eqn:E; [|done]. injection Hs as <-. rewrite Hf. by apply Hd.
  - rewrite lookup_alter_ne in Hs by done. by apply Hd.
Qed.

Lemma keyed_tick clock ids locked d : keyed d -> keyed (tech_request clock ids (run_tick locked) d).2.
Proof.
  intros Hd. apply (run_request_upholds clock ids keyed); [|done].
  destruct (portal_free_upholds keyed) as (? & ? & ?); [done|]. apply upholds_run_tick; [done..|]. apply closed_keyed.
Qed.

Lemma keyed_retry clock ids id force d : keyed d -> keyed (tech_request clock ids (retry_subscription id force) d).2.
Proof.
  intros Hd. apply (run_request_upholds clock ids keyed); [|done].
  destruct (portal_free_upholds keyed) as (? & ? & ?); [done|]. apply upholds_retry; [done..|]. apply closed_keyed.
Qed.

Lemma elem_of_scan locked now d k : keyed d ->
  k ∈ scan locked now d <-> exists s, tb_subs d !! k = Some s /\ selected now s = true /\ k ∉ locked.
Proof.
  intros Hk. unfold scan. rewrite list_elem_of_fmap. setoid_rewrite merge_sort_Permutation.
  setoid_rewrite elem_of_select_where. setoid_rewrite elem_of_values.
  assert (Hp : forall s, selected now s && negb (bool_decide (ts_id s ∈ locked)) = true <-> selected now s = true /\ ts_id s ∉ locked).
  { intros s. by rewrite andb_true_iff, negb_true_iff, bool_decide_eq_false. }
  setoid_rewrite Hp. split.
  - intros (s & -> & [Hs Hl] & k' & Hk'). pose proof (Hk _ _ Hk') as <-. naive_solver.
  - intros (s & Hs & Hsel & Hl). exists s. pose proof (Hk _ _ Hs) as <-. naive_solver.
Qed.

Lemma scan_NoDup locked now d : keyed d -> NoDup (scan locked now d).
Proof.
  intros Hk. unfold scan. rewrite merge_sort_Permutation.
  apply (NoDup_fmap_2_strong ts_id).
  - intros s s' [_ [k H1]%elem_of_values]%elem_of_select_where [_ [k' H2]%elem_of_values]%elem_of_select_where He.
    rewrite (Hk _ _ H1), (Hk _ _ H2) in He. congruence.
  - apply NoDup_filter. unfold values. apply (NoDup_fmap_2_strong snd); [|apply NoDup_map_to_list].
    intros [k s] [k' s'] H1%elem_of_map_to_list H2%elem_of_map_to_list He. cbn in He. subst s'.
    by rewrite <- (Hk _ _ H1), <- (Hk _ _ H2).
Qed.

(** What the worker does with the rows it has read. *)
Definition tick_rows (rows : list string) : Tech (list string) :=
  do outcomes <- process_all rows; when (negb (bool_decide (outcomes = []))) tech_commit ;;; ret outcomes.

Lemma tick_request clock ids locked d : tb_failed d = false ->
  tech_request clock ids (run_tick locked) d
  = tech_request (fun n => clock (S n)) ids (tick_rows (scan locked (clock 0%nat) d)) d.
Proof. intros Hf. unfold tech_request, run_request, run_tick, query, usable, bind, utc_now, gets, guard_exn. cbn [s_db open_session]. by rewrite Hf. Qed.

Lemma tick_request_failed clock ids locked d : tb_failed d = true ->
  tech_request clock ids (run_tick locked) d = (Raise PendingRollbackError, d).
Proof. intros Hf. unfold tech_request, run_request, run_tick, query, usable, bind, utc_now, gets, guard_exn. cbn [s_db open_session]. by rewrite Hf. Qed.

Lemma tick_other_row clock ids locked d k :
  k ∉ scan locked (clock 0%nat) d -> tb_subs (tech_request clock ids (run_tick locked) d).2 !! k = tb_subs d !! k.
Proof.
  intros Hk. destruct (tb_failed d) eqn:Hf; [by rewrite tick_request_failed|]. rewrite tick_request by done.
  apply (run_request_upholds _ _ (fun d' => tb_subs d' !! k = tb_subs d !! k)); [|done].
  apply upholds_other_row. intros I Hc Hfi Hp ->.
  unfold tick_rows. upholds. apply upholds_process_all; [done..|]. intros id Hid. apply closed_other. by intros <-.
Qed.

(** A row the worker may take at [now], column by column: paid, not deleted, and
    either waiting for the provider with attempts left and its time come, or active
    and owing its customer a mail. *)
Definition may_be_taken (now : Z) (s : TechnologySubscription) : Prop :=
  ts_payment_status s = TrackPayment.CAPTURED /\ ts_is_deleted s = false /\
  (ts_status s ∈ ["PENDING"; "PROVISIONING_FAILED"; "PAYMENT_CAPTURED"; "PROVISIONING"]%string /\
     ts_provision_attempts s < retry_limit /\ (forall t, ts_next_retry_at s = Some t -> t <= now)
   \/ ts_status s = "ACTIVE"%string /\ (ts_confirmation_sent s = false \/ ts_access_email_sent s = false)).

Lemma selected_taken now s : selected now s = true -> may_be_taken now s.
Proof.
  unfold selected, may_be_taken, due, owes_mail.
  intros [[Hp%bool_decide_eq_true_1 Hd%negb_true_iff]%andb_true_iff H]%andb_true_iff. split_and!; [done..|].
  apply orb_true_iff in H as [[[Hst%bool_decide_eq_true_1 Hn%Z.ltb_lt]%andb_true_iff Ht]%andb_true_iff
    |[Hst%bool_decide_eq_true_1 Hm%orb_true_iff]%andb_true_iff]; [left|right].
  - split_and!; [exact Hst|done|]. intros t Hnr. rewrite Hnr in Ht. by apply Z.leb_le.
  - split; [done|]. by destruct Hm as [?%negb_true_iff|?%negb_true_iff]; [left|right].
Qed.

(** C10. Only a paid subscription is touched: a row a tick of the worker leaves
    otherwise than it was is captured, not deleted, not locked elsewhere, and either
    due for a retry with an attempt left or active and owing a mail; when no row is
    like that the tick does nothing and sends nothing; a retry by hand touches no
    other row, and of an unpaid or deleted subscription nothing. *)
Theorem only_due_rows_touched clock ids locked id force d k s :
  keyed d -> tb_failed d = false -> tb_subs d !! k = Some s ->
  (tb_subs (tech_request clock ids (run_tick locked) d).2 !! k <> Some s -> may_be_taken (clock 0%nat) s /\ k ∉ locked) /\
  ((forall k' s', tb_subs d !! k' = Some s' -> ~ may_be_taken (clock 0%nat) s' \/ k' ∈ locked) ->
   tech_request clock ids (run_tick locked) d = (Ok [], d)) /\
  (k <> id -> tb_subs (tech_request clock ids (retry_subscription id force) d).2 !! k = Some s) /\
  (ts_payment_status s <> TrackPayment.CAPTURED \/ ts_is_deleted s = true ->
   (tech_request clock ids (retry_subscription k force) d).2 = d).
Proof.
  intros Hkey Hf Hs. split_and!.
  - intros Hne. destruct (decide (k ∈ scan locked (clock 0%nat) d)) as [Hin|Hno].
    + apply elem_of_scan in Hin as (s' & Hs' & Hsel & Hl); [|done]. rewrite Hs in Hs'. injection Hs' as <-.
      split; [by apply selected_taken|done].
    + by rewrite tick_other_row, Hs in Hne.
  - intros Hnone. rewrite tick_request by done. destruct (scan locked (clock 0%nat) d) as [|x l] eqn:E; [done|].
    assert (Hx : x ∈ scan locked (clock 0%nat) d) by (rewrite E; left).
    apply elem_of_scan in Hx as (s' & Hs' & Hsel & Hl); [|done].
    destruct (Hnone x s' Hs') as [Hn|]; [destruct Hn; by apply selected_taken|done].
  - intros Hk. apply (run_request_upholds clock ids (fun d' => tb_subs d' !! k = Some s)); [|done].
    apply upholds_other_row. intros I Hc Hfi Hp ->. apply upholds_retry; try done. by apply closed_other.
  - intros Hno. unfold tech_request, run_request, retry_subscription, query, usable, bind, gets, guard_exn. cbn [s_db open_session]. rewrite Hf. cbn. rewrite Hs.
    destruct (ts_is_deleted s); [done|]. destruct Hno as [Hno|]; [|done]. by rewrite bool_decide_false by done.
Qed.
End Untouched.

(** ** How often it orders *)

Definition is_order (q : portal_request) : bool := bool_decide (pq_method q = "POST"%string) && is_orders (pq_endpoint q).
Definition orders_sent (d : tech_db) : nat := length (List.filter is_order (tb_portal d)).
Definition at_most (n : nat) (d : tech_db) : Prop := (orders_sent d <= n)%nat.

Section Orders.
Context {cfg : TechConfig} {portal : Portal} {cipher : Cipher}.

Lemma closed_at_most n id : closed any_change id (at_most n).
Proof. by split. Qed.

Lemma upholds_no_order n q : is_order q = false -> upholds (at_most n) (portal_call q).
Proof. intros Hq s [_ Hd]. unfold at_most, orders_sent in *. split; cbn; by rewrite Hq. Qed.

Lemma at_most_client n e u : upholds (at_most n) (create_portal_client e u).
Proof. unfold create_portal_client, mock_create_client, secret_text. pose proof (upholds_no_order n). upholds. Qed.

Lemma at_most_find n slug uid key mail plan cycle : upholds (at_most n) (find_matching_order slug uid key mail plan cycle).
Proof. unfold find_matching_order, list_orders, _make_request. pose proof (upholds_no_order n). upholds. Qed.

Lemma at_most_more n d : at_most n d -> at_most (S n) d.
Proof. unfold at_most. lia. Qed.

Lemma one_more_call n q : leads (at_most n) (at_most (S n)) (portal_call q).
Proof. intros s [_ Hd]. unfold at_most, orders_sent in *. split; cbn; destruct (is_order q); cbn; lia. Qed.

Lemma one_more_request n m endpoint j ps : leads (at_most n) (at_most (S n)) (_make_request m endpoint j ps).
Proof.
  apply (leads_bind (at_most (S n))); [apply one_more_call|done|]. intros. apply leads_upholds; [upholds|done].
Qed.

Lemma one_more_provision n slug name plan cycle e u key ps c acc :
  leads (at_most n) (at_most (S n)) (provision_service slug name plan cycle e u key ps c acc).
Proof.
  pose proof (at_most_more n) as Hm. pose proof (upholds_normalize (at_most (S n))). pose proof (upholds_normalize (at_most n)).
  unfold provision_service, mock_provision_service, secret_text. leads.
  all: apply (leads_bind (at_most (S n))); [apply one_more_request|done|intros; apply leads_upholds; [upholds|done]].
Qed.

Lemma one_more_process n id : leads (at_most n) (at_most (S n)) (_process id).
Proof.
  pose proof (at_most_more n) as Hm.
  assert (HP : forall n, closed passive id (at_most n)) by by split.
  assert (HC : forall n, closed same_core id (at_most n)) by by split.
  assert (HA : forall n, closed activating id (at_most n)) by by split.
  assert (Hsub : forall n f, upholds (at_most n) (on_sub id f)) by (intros; by apply upholds_modify).
  pose proof (upholds_conclude id _ (HP (S n)) (HA (S n))). pose proof (upholds_adopt id _ (HP n) (HA n)).
  pose proof (fun n => upholds_give_up id _ (HP n)). pose proof (fun n => upholds_process_active id _ (HC n)).
  pose proof (fun e => upholds_account id _ (HC n) e (at_most_client n e)). pose proof (at_most_find n).
  unfold _process. apply (leads_catch (at_most (S n))); [|done|].
  2:{ intros. apply leads_upholds; [|done]. unfold process_failed. upholds. }
  unfold provision_steps, reconcile_or_order, _service_for, _mark_manual_fulfillment, _send_pending_email, place_order. leads.
  all: apply (leads_bind (at_most (S n))); [apply one_more_provision|done|intros; apply leads_upholds; [upholds|done]].
Qed.

Lemma more_process_all ids : forall n, leads (at_most n) (at_most (n + length ids)) (process_all ids).
Proof.
  induction ids as [|id ids IH]; intros n; cbn [process_all length].
  - apply leads_upholds; [upholds|]. unfold at_most. lia.
  - apply (leads_bind (at_most (S n))); [apply one_more_process|unfold at_most; lia|]. intros o.
    replace (n + S (length ids))%nat with (S n + length ids)%nat by lia.
    apply (leads_bind (at_most (S n + length ids))); [apply IH|done|]. intros l. apply leads_upholds; [upholds|done].
Qed.

(** A tick of the worker sends at most one order for each subscription it has
    read, and an administrator's retry at most one, whatever fails on the way. *)
Theorem one_order_per_subscription clock ids locked id force d :
  tb_failed d = false ->
  (orders_sent (tech_request clock ids (run_tick locked) d).2 <= orders_sent d + length (scan locked (clock 0%nat) d))%nat /\
  (orders_sent (tech_request clock ids (retry_subscription id force) d).2 <= orders_sent d + 1)%nat.
Proof.
  intros Hf. split.
  - rewrite tick_request by done. unfold tech_request.
    apply (run_request_leads _ _ (at_most (orders_sent d)) (at_most (orders_sent d + length (scan locked (clock 0%nat) d)))); [|apply le_n].
    apply (leads_bind (at_most (orders_sent d + length (scan locked (clock 0%nat) d)))); [apply more_process_all|done|].
    intros l. apply leads_upholds; [upholds|done].
  - unfold tech_request. apply (run_request_leads _ _ (at_most (orders_sent d)) (at_most (orders_sent d + 1))); [|apply le_n]. rewrite Nat.add_1_r. set (n := orders_sent d).
    pose proof (at_most_more n) as Hm.
    assert (HC : forall n, closed same_core id (at_most n)) by by split.
    assert (Hsub : forall n f, upholds (at_most n) (on_sub id f)) by (intros; by apply upholds_modify).
    unfold retry_subscription. leads.
    apply (leads_bind (at_most (S n))); [apply one_more_process|done|intros; apply leads_upholds; [upholds|done]].
Qed.

(** ** Adopting instead of ordering *)

(** The product key and the address the worker works with. *)
Definition row_key (d : tech_db) (sub : TechnologySubscription) : option string :=
  key_of (List.find (fun v => bool_decide (sv_slug v = ts_service_slug sub) && negb (sv_is_deleted v)) (values (tb_services d))) sub.

Definition row_mail (d : tech_db) (sub : TechnologySubscription) : string := email_or_id (tb_users d !! ts_user_id sub) (ts_user_id sub).

Definition lists (orders : list json) : Prop :=
  forall log q, pq_method q = "GET"%string -> portal_answers log q = Body (JObj [("orders", JArr orders)]%string).

Lemma find_listed orders slug uid key mail plan cycle o (s : session tech_db tech_effect) :
  resellportal_configured = true -> lists orders -> JObj o ∈ orders -> order_candidate key slug mail o = true ->
  (find_matching_order slug uid key mail plan cycle s).1 <> Ok None.
Proof.
  intros Hconf Hl Ho Hc H. destruct (find_matching_order slug uid key mail plan cycle s) as [r s'] eqn:Hfind. cbn in H. subst r.
  destruct (find_matching_spec _ _ _ _ _ _ _ _ _ Hfind) as (orders' & Hlist & Hnone).
  unfold list_orders, _make_request in Hlist. rewrite Hconf in Hlist. cbn [negb] in Hlist. ok_inv Hlist. ok_inv Hr.
  unfold portal_call in Hr0. injection Hr0 as <- <-. rewrite Hl in Hlist by done.
  destruct orders as [|o1 orders]; [set_solver|]. cbn in Hlist.
  change (bool_decide ("orders"%string = "configured"%string)) with false in Hlist. cbn in Hlist. injection Hlist as <- _.
  specialize (Hnone _ Ho). congruence.
Qed.

Lemma listed_no_order n orders id key mail user sub o found :
  resellportal_configured = true -> lists orders -> JObj o ∈ orders -> order_candidate key (ts_service_slug sub) mail o = true ->
  upholds (at_most n) (reconcile_or_order id key mail user sub found).
Proof.
  intros Hconf Hl Ho Hc. assert (HP : closed passive id (at_most n)) by by split.
  assert (HC : closed same_core id (at_most n)) by by split. assert (HA : closed activating id (at_most n)) by by split.
  assert (Hsub : forall f, upholds (at_most n) (on_sub id f)) by (intros; by apply upholds_modify).
  pose proof (upholds_adopt id _ HP HA).
  unfold reconcile_or_order, _send_pending_email. destruct found as [[client account] error]. destruct (truthy error); [upholds|].
  apply (leads_bind_fact (fun existing d => existing <> None /\ at_most n d)).
  - intros s Hs. pose proof (find_listed _ _ (ts_user_id sub) _ _ (ts_plan_code sub) (ts_billing_cycle sub) _ s Hconf Hl Ho Hc) as Hfind.
    pose proof (at_most_find n (ts_service_slug sub) (ts_user_id sub) key mail (ts_plan_code sub) (ts_billing_cycle sub) s Hs) as Hg.
    destruct (find_matching_order _ _ _ _ _ _ s) as [[existing|e] s']; [|done]. cbn in Hfind. destruct Hg.
    repeat split; try done; congruence.
  - intros [order|]; [|by intros s [[? _] _]]. intros s [[_ ?] [_ ?]]. by apply (upholds_adopt id _ HP HA).
Qed.

Lemma process_reads id sub (s : session tech_db tech_effect) key :
  tb_failed (s_db s) = false -> tb_subs (s_db s) !! id = Some sub -> ts_status sub <> "ACTIVE"%string ->
  row_key (s_db s) sub = Some key -> is_empty key || negb (is_provider_mapped (ts_service_slug sub)) = false ->
  let user := tb_users (s_db s) !! ts_user_id sub in
  _process id s = catch (do found <- _ensure_portal_account id (row_mail (s_db s) sub);
                         reconcile_or_order id key (row_mail (s_db s) sub) user sub found) (fun _ => process_failed id) s.
Proof.
  intros Hf Hs Ha Hk Hm. unfold _process, sub_of, provision_steps, _service_for, _user_for, query, usable, catch, bind, gets, guard_exn.
  rewrite Hf. cbn. rewrite Hs. cbn. rewrite bool_decide_false by done. rewrite Hf. cbn. unfold row_key in Hk. rewrite Hk, Hm.
  cbn. rewrite Hf. done.
Qed.

Lemma upholds_at {A} (I : tech_db -> Prop) (m : Tech A) s : upholds I m -> good I s -> good I (m s).2.
Proof. auto. Qed.

Lemma query_now {A B} (f : tech_db -> A) (k : A -> Tech B) s : tb_failed (s_db s) = false -> bind (query f) k s = k (f (s_db s)) s.
Proof. intros Hf. unfold query, usable, bind, gets, guard_exn. by rewrite Hf. Qed.

Lemma listed_process n id sub key orders o (s : session tech_db tech_effect) :
  resellportal_configured = true -> lists orders -> JObj o ∈ orders ->
  tb_failed (s_db s) = false -> tb_subs (s_db s) !! id = Some sub -> ts_status sub <> "ACTIVE"%string ->
  row_key (s_db s) sub = Some key -> is_empty key || negb (is_provider_mapped (ts_service_slug sub)) = false ->
  order_candidate key (ts_service_slug sub) (row_mail (s_db s) sub) o = true ->
  good (at_most n) s -> good (at_most n) (_process id s).2.
Proof.
  intros Hconf Hl Ho Hf Hs Ha Hk Hm Hc Hg. rewrite (process_reads id sub s key) by done.
  assert (HP : closed passive id (at_most n)) by by split. assert (HC : closed same_core id (at_most n)) by by split.
  assert (Hsub : forall f, upholds (at_most n) (on_sub id f)) by (intros; by apply upholds_modify).
  pose proof (upholds_give_up id _ HP). pose proof (fun e => upholds_account id _ HC e (at_most_client n e)).
  pose proof (fun user found => listed_no_order n orders id key (row_mail (s_db s) sub) user sub o found Hconf Hl Ho Hc).
  revert Hg. apply (upholds_catch (at_most n)); [upholds|]. intros e. unfold process_failed. upholds.
Qed.

(** One of the orders matches the row: its product, service and address. *)
Definition already_listed (orders : list json) (d : tech_db) (sub : TechnologySubscription) : bool :=
  match row_key d sub with
  | Some key =>
      negb (is_empty key || negb (is_provider_mapped (ts_service_slug sub))) &&
      existsb (fun o => match o with
                        | JObj order => order_candidate key (ts_service_slug sub) (row_mail d sub) order
                        | _ => false
                        end) orders
  | None => false
  end.

Lemma already_listed_inv orders d sub : already_listed orders d sub = true ->
  exists key o, row_key d sub = Some key /\ is_empty key || negb (is_provider_mapped (ts_service_slug sub)) = false /\
    JObj o ∈ orders /\ order_candidate key (ts_service_slug sub) (row_mail d sub) o = true.
Proof using Type.
  unfold already_listed. destruct (row_key d sub) as [key|]; [|done].
  intros [Hm%negb_true_iff (o & Ho%list_elem_of_In & Hc)%existsb_exists]%andb_true_iff. destruct o; try done. eauto 6.
Qed.

Lemma listed_steps n id sub orders (s : session tech_db tech_effect) :
  resellportal_configured = true -> lists orders -> tb_subs (s_db s) !! id = Some sub ->
  already_listed orders (s_db s) sub = true -> good (at_most n) s -> good (at_most n) (_process id s).2.
Proof using Type.
  intros Hconf Hl Hs (key & o & Hk & Hm & Ho & Hc)%already_listed_inv Hg.
  assert (HC : closed same_core id (at_most n)) by by split.
  destruct (tb_failed (s_db s)) eqn:Hf.
  { unfold _process, process_failed, sub_of, usable, catch, bind, gets, guard_exn. by rewrite Hf; cbn; rewrite Hf. }
  destruct (bool_decide_reflect (ts_status sub = "ACTIVE"%string)) as [Ha|Ha].
  - unfold _process, sub_of, usable, catch, bind, gets, guard_exn. rewrite Hf. cbn. rewrite Hs. cbn. rewrite bool_decide_true by done.
    pose proof (upholds_process_active id _ HC sub s Hg) as Hp. destruct (process_active id sub s) as [[o'|e] s']; [done|].
    assert (HP : closed passive id (at_most n)) by by split. pose proof (upholds_give_up id _ HP).
    assert (Hsub : forall f, upholds (at_most n) (on_sub id f)) by (intros; by apply upholds_modify).
    apply (upholds_at (at_most n)); [|exact Hp]. unfold process_failed. upholds.
  - by eapply listed_process.
Qed.

(** The rows still to be processed, the users and the services are as they were read. *)
Definition as_read (d0 : tech_db) (ids : list string) (d : tech_db) : Prop :=
  tb_users d = tb_users d0 /\ tb_services d = tb_services d0 /\ forall k, k ∈ ids -> tb_subs d !! k = tb_subs d0 !! k.

Lemma as_read_process d0 id ids : id ∉ ids -> leads (as_read d0 (id :: ids)) (as_read d0 ids) (_process id).
Proof using Type.
  intros Hid s Hg. assert (Hg' : good (as_read d0 ids) s).
  { eapply good_mono; [|exact Hg]. intros d (H1 & H2 & H3). split_and!; [done..|]. intros k Hk. apply H3. by right. }
  destruct (portal_free_upholds (as_read d0 ids)) as (? & ? & ?); [done|]. apply upholds_process; [done..| |exact Hg'].
  split; [done..|]. intros f d _ (Hu & Hv & Hrows). split_and!; [done..|]. intros k Hk. cbn.
  rewrite lookup_alter_ne by (by intros ->). by apply Hrows.
Qed.

(** The rows of [ids] the provider lists no order for. *)
Definition unlisted (orders : list json) (d : tech_db) (ids : list string) : list string :=
  List.filter (fun k => match tb_subs d !! k with Some sub => negb (already_listed orders d sub) | None => true end) ids.

Lemma unlisted_process_all orders d0 ids : resellportal_configured = true -> lists orders -> NoDup ids -> forall n s,
  good (at_most n) s -> good (as_read d0 ids) s ->
  good (at_most (n + length (unlisted orders d0 ids))) (process_all ids s).2.
Proof using Type.
  intros Hconf Hl. induction 1 as [|id ids Hid _ IH]; intros n s Hn Hr.
  { cbn. eapply good_mono; [|exact Hn]. intros d. unfold at_most. lia. }
  cbn [process_all]. pose proof (as_read_process d0 id ids Hid s Hr) as Hr'.
  set (m := if (match tb_subs d0 !! id with Some sub => negb (already_listed orders d0 sub) | None => true end) then S n else n).
  assert (Hm : good (at_most m) (_process id s).2).
  { unfold m. destruct (tb_subs d0 !! id) as [sub|] eqn:Hs; [|by apply one_more_process].
    destruct (already_listed orders d0 sub) eqn:Ha; [|by apply one_more_process].
    destruct Hr as [_ (Hu & Hv & Hrows)].
    apply (listed_steps n id sub orders); [done..| | |done].
    - by rewrite Hrows by left.
    - revert Ha. unfold already_listed, row_key, row_mail. by rewrite Hu, Hv. }
  assert (Hlen : (n + length (unlisted orders d0 (id :: ids)) = m + length (unlisted orders d0 ids))%nat).
  { unfold m, unlisted. cbn [List.filter]. case_match; cbn [length]; lia. }
  rewrite Hlen. unfold bind at 1. destruct (_process id s) as [[o|e] s1].
  - specialize (IH m s1 Hm Hr'). unfold bind. by destruct (process_all ids s1) as [[l|e] s2].
  - eapply good_mono; [|exact Hm]. intros d. unfold at_most. lia.
Qed.

(** C12. What the provider lists is never ordered again: when every reading of the
    provider's orders is answered with [orders], a tick of the worker orders only
    for subscriptions it took that none of them matches by product, service and
    address, for each at most once; and a retry by hand of a subscription that one
    of them matches orders nothing. *)
Theorem listed_order_not_doubled clock ids locked id force d orders :
  resellportal_configured = true -> lists orders -> keyed d -> tb_failed d = false ->
  (orders_sent (tech_request clock ids (run_tick locked) d).2
     <= orders_sent d + length (unlisted orders d (scan locked (clock 0%nat) d)))%nat /\
  (forall sub, tb_subs d !! id = Some sub -> already_listed orders d sub = true ->
     (orders_sent (tech_request clock ids (retry_subscription id force) d).2 <= orders_sent d)%nat).
Proof.
  intros Hconf Hl Hkey Hf. split.
  - rewrite tick_request by done. set (rows := scan locked (clock 0%nat) d). set (n := orders_sent d).
    pose proof (unlisted_process_all orders d rows Hconf Hl (scan_NoDup locked (clock 0%nat) d Hkey) n
      (open_session (fun k => clock (S k)) ids d)) as Hp.
    assert (Hg : good (at_most n) (open_session (fun k => clock (S k)) ids d : session tech_db tech_effect)) by (split; apply le_n).
    specialize (Hp Hg ltac:(done)). unfold tech_request, run_request, tick_rows. unfold bind at 1.
    destruct (process_all rows _) as [[outcomes|e] s1]; [|apply Hp].
    set (m := (n + _)%nat) in *.
    assert (Hend : good (at_most m) ((when (negb (bool_decide (outcomes = []))) tech_commit ;;; ret outcomes) s1).2).
    { apply (upholds_at (at_most m)); [upholds|exact Hp]. }
    destruct ((when (negb (bool_decide (outcomes = []))) tech_commit ;;; ret outcomes) s1). apply Hend.
  - intros sub Hs Hls. set (n := orders_sent d).
    assert (Hg : good (at_most n) (open_session clock ids d : session tech_db tech_effect)) by (split; apply le_n).
    unfold tech_request, run_request. enough (good (at_most n) (retry_subscription id force (open_session clock ids d)).2) as [H _]
      by by destruct (retry_subscription id force _).
    unfold retry_subscription. rewrite query_now by done. cbn [s_db open_session]. rewrite Hs.
    assert (HC : closed same_core id (at_most n)) by by split.
    destruct (ts_is_deleted sub); [done|]. case_match; [done|].
    destruct (bool_decide_reflect (ts_status sub = "ACTIVE"%string)) as [Ha|Ha]; [|case_match; [done|]].
    { apply (upholds_at (at_most n)); [upholds|done]. }
    unfold bind at 1. cbn [utc_now]. unfold bind at 1. cbn [on_sub modify s_db s_committed s_out s_clock s_ids].
    set (s2 := Session _ _ _ _ _).
    assert (Hp : good (at_most n) (_process id s2).2).
    { apply (listed_steps n id (sub <| ts_next_retry_at := Some (clock 0%nat) |> <| ts_needs_review := false |>) orders); try done.
      by cbn; rewrite lookup_alter_eq, Hs. }
    unfold bind at 1. destruct (_process id s2) as [[outcome|e] s3]; [|done].
    apply (upholds_at (at_most n)); [upholds|done].
Qed.
End Orders.

(** ** How many attempts *)

Section Attempts.
#[local] Set Default Proof Using "Type*".
Context {cfg : TechConfig} {portal : Portal} {cipher : Cipher}.

(** The attempts of every row are within its bound. *)
Definition attempts_within (bound : string -> Z) (d : tech_db) : Prop :=
  forall k s, tb_subs d !! k = Some s -> ts_provision_attempts s <= bound k.

Context (bound : string -> Z) (Hbound : forall k, retry_limit <= bound k).

(** Status and attempts of the rows as they were read. *)
Context (rows : gmap string (string * Z)).

Definition core_of (s : TechnologySubscription) : string * Z := (ts_status s, ts_provision_attempts s).

(** The rows still to be processed are as they were read. *)
Definition may_start (ids : list string) (d : tech_db) : Prop :=
  attempts_within bound d /\ forall k, k ∈ ids -> core_of <$> tb_subs d !! k = rows !! k.

(** Row [id] has an attempt left. *)
Definition can_try (id : string) (ids : list string) (d : tech_db) : Prop :=
  may_start ids d /\ forall s, tb_subs d !! id = Some s -> ts_provision_attempts s < bound id.

Lemma alter_row_inv f id k (m : gmap string TechnologySubscription) s :
  alter f id m !! k = Some s -> (k = id /\ exists s0, m !! id = Some s0 /\ s = f s0) \/ (k <> id /\ m !! k = Some s).
Proof.
  destruct (decide (k = id)) as [->|Hk]; [|rewrite lookup_alter_ne by done; auto].
  rewrite lookup_alter_eq. destruct (m !! id); [|done]. intros [= <-]. left. eauto.
Qed.

Definition same_attempts (s s' : TechnologySubscription) : Prop := ts_provision_attempts s' = ts_provision_attempts s.

Lemma closed_may_start id ids : id ∉ ids -> closed same_attempts id (may_start ids).
Proof.
  intros Hid. split; [done..|]. intros f d Hf [H1 H2]. split.
  - intros k s Hs. cbn in Hs. apply alter_row_inv in Hs as [(-> & s0 & Hs & ->)|[Hk Hs]]; [rewrite (Hf s0)|]; by eapply H1.
  - intros k Hk. cbn. rewrite lookup_alter_ne by (by intros ->). by apply H2.
Qed.

Lemma closed_can_try id ids : id ∉ ids -> closed same_attempts id (can_try id ids).
Proof.
  intros Hid. destruct (closed_may_start id ids Hid) as [_ _ H3]. split; [done..|]. intros f d Hf [H1 H2]. split; [by apply H3|].
  intros s Hs. cbn in Hs. apply alter_row_inv in Hs as [(_ & s0 & Hs & ->)|[? _]]; [|done]. rewrite (Hf s0). by apply H2.
Qed.

Lemma counted_attempt id ids f : id ∉ ids ->
  (forall s, ts_provision_attempts (f s) = ts_provision_attempts s + 1) -> leads (can_try id ids) (may_start ids) (on_sub id f).
Proof.
  intros Hid Hf. assert (H : forall d, can_try id ids d -> may_start ids (d <| tb_subs ::= alter f id |>)).
  { intros d [[H1 H2] H3]. split.
    - intros k s Hs. cbn in Hs. apply alter_row_inv in Hs as [(-> & s0 & Hs & ->)|[Hk Hs]]; [rewrite Hf|by eapply H1].
      specialize (H3 _ Hs). lia.
    - intros k Hk. cbn. rewrite lookup_alter_ne by (by intros ->). by apply H2. }
  intros s [[Hc _] Hd%H]. by split.
Qed.

(** Setting the attempts to something within the limit. *)
Lemma limited_attempts id ids f : id ∉ ids ->
  (forall s, ts_provision_attempts s <= bound id -> ts_provision_attempts (f s) <= bound id) -> upholds (may_start ids) (on_sub id f).
Proof.
  intros Hid Hf. apply upholds_modify. intros d [H1 H2]. split.
  - intros k s Hs. cbn in Hs. apply alter_row_inv in Hs as [(-> & s0 & Hs & ->)|[Hk Hs]]; [|by eapply H1]. by eapply Hf, H1.
  - intros k Hk. cbn. rewrite lookup_alter_ne by (by intros ->). by apply H2.
Qed.

Lemma limit_positive : 1 <= retry_limit.
Proof. unfold retry_limit. lia. Qed.

Lemma process_attempts id ids : id ∉ ids ->
  (forall c, rows !! id = Some c -> c.1 = "ACTIVE"%string \/ c.2 < bound id) ->
  leads (may_start (id :: ids)) (may_start ids) (_process id).
Proof.
  intros Hid Hrow. pose proof limit_positive as Hlim. pose proof (Hbound id) as Hb.
  assert (Hw : forall d, can_try id ids d -> may_start ids d) by by intros d [? _].
  assert (Hs' : forall d, may_start (id :: ids) d -> may_start ids d).
  { intros d [H1 H2]. split; [done|]. intros k Hk. apply H2. by right. }
  pose proof (closed_may_start id ids Hid) as HI. pose proof (closed_can_try id ids Hid) as HI'.
  assert (HP : closed passive id (may_start ids)) by (revert HI; apply closed_mono; by intros s s' [[? _] _]).
  assert (HA : closed activating id (may_start ids)) by (revert HI; apply closed_mono; by intros s s' [[? _] _]).
  assert (HC : closed same_core id (may_start ids)) by by apply closed_core.
  assert (HC' : closed same_core id (can_try id ids)) by (revert HI'; apply closed_mono; by intros s s' (_ & ? & _)).
  destruct (portal_free_upholds (may_start ids)) as (Hc & Hf & Hp); [done|].
  destruct (portal_free_upholds (can_try id ids)) as (Hc' & Hf' & _); [done|].
  pose proof (upholds_conclude id _ HP HA). pose proof (upholds_adopt id _ HP HA). pose proof (upholds_give_up id _ HP).
  pose proof (upholds_process_active id _ HC). pose proof (fun e => upholds_account id _ HC' e (Hc' e)).
  pose proof (fun f => limited_attempts id ids f Hid) as Hlimited.
  unfold _process. apply (leads_catch (may_start ids)); [|done|].
  - apply (leads_bind_fact (fun sub d => may_start (id :: ids) d /\ rows !! id = Some (core_of sub))).
    + intros s [Hg1 Hg2]. unfold sub_of, usable, bind, gets, guard_exn. destruct (tb_failed (s_db s)); [by split; apply Hs'|].
      cbn. destruct (tb_subs (s_db s) !! id) as [sub|] eqn:E; cbn; [|by split; apply Hs'].
      assert (rows !! id = Some (core_of sub)) by (destruct Hg2 as [_ Hg2]; rewrite <- (Hg2 id) by (by left); by rewrite E). done.
    + intros sub s [[Hg1 Hr] [Hg2 _]]. assert (Hg : good (may_start (id :: ids)) s) by done.
      destruct (bool_decide_reflect (ts_status sub = "ACTIVE"%string)) as [Ha|Ha].
      { apply (upholds_at (may_start ids)); [upholds|]. by eapply good_mono. }
      assert (Ht : good (can_try id ids) s).
      { eapply good_mono; [|exact Hg]. intros d [H5 H6]. split; [by apply Hs'|]. intros s' Hs1.
        specialize (H6 id ltac:(by left)). rewrite Hs1, Hr in H6. injection H6 as H6 H7. rewrite H7. by destruct (Hrow _ Hr). }
      clear Hg1 Hg2 Hg. revert s Ht. change (leads (can_try id ids) (may_start ids) (provision_steps id sub)).
      assert (Hweak : forall A (m : Tech A), upholds (may_start ids) m -> leads (can_try id ids) (may_start ids) m).
      { intros A m Hm s Hs. apply Hm. by apply (good_mono _ _ _ Hw). }
      assert (Hman : leads (can_try id ids) (may_start ids) (_mark_manual_fulfillment id)).
      { apply Hweak. unfold _mark_manual_fulfillment. apply upholds_bind; [|upholds]. apply Hlimited. intros s. cbn. lia. }
      assert (Hadopt : forall o e, leads (can_try id ids) (may_start ids) (_adopt_existing_order id o e)) by eauto.
      assert (Hpass : forall f, (forall s, ts_provision_attempts (f s) = ts_provision_attempts s) -> upholds (may_start ids) (on_sub id f)).
      { intros f Hf1. apply Hlimited. intros s. by rewrite Hf1. }
      unfold provision_steps, reconcile_or_order, _service_for, _send_pending_email, place_order. leads.
      1, 2: apply Hweak; (apply upholds_bind; [by apply Hpass|upholds]).
      apply (leads_bind (may_start ids)); [by apply counted_attempt|done|]. intros _. apply leads_upholds; [upholds|done].
  - intros e. apply leads_upholds; [|done]. unfold process_failed.
    apply upholds_bind; [upholds|]. intros _. apply upholds_bind; [apply Hlimited; intros s; cbn; lia|upholds].
Qed.

Lemma all_attempts ids : NoDup ids ->
  (forall id c, id ∈ ids -> rows !! id = Some c -> c.1 = "ACTIVE"%string \/ c.2 < bound id) ->
  leads (may_start ids) (attempts_within bound) (process_all ids).
Proof.
  induction 1 as [|id ids Hid _ IH]; intros Hrow; cbn [process_all].
  - apply leads_upholds; [upholds|]. by intros d [? _].
  - apply (leads_bind (may_start ids)); [apply process_attempts; [done|intros; eapply Hrow; [by left|done]]|by intros d [? _]|].
    intros o. apply (leads_bind (attempts_within bound)); [|done|intros; apply leads_upholds; [upholds|done]].
    apply IH. intros. eapply Hrow; [by right|done].
Qed.
End Attempts.

Section AttemptsTheorem.
Context {cfg : TechConfig} {portal : Portal} {cipher : Cipher}.

Lemma selected_may_start now s : selected now s = true ->
  ts_status s = "ACTIVE"%string \/ ts_provision_attempts s < retry_limit.
Proof.
  unfold selected, due, owes_mail. rewrite andb_true_iff, orb_true_iff, !andb_true_iff, Z.ltb_lt, (bool_decide_eq_true (ts_status s = _)). tauto.
Qed.

Lemma attempts_start bound ids d : attempts_within bound d -> may_start bound (core_of <$> tb_subs d) ids d.
Proof. intros Hd. split; [done|]. intros k _. by rewrite lookup_fmap. Qed.

Lemma rows_core d k c : (core_of <$> tb_subs d) !! k = Some c -> exists s, tb_subs d !! k = Some s /\ c = core_of s.
Proof. rewrite lookup_fmap. destruct (tb_subs d !! k); [|done]. intros [= <-]. eauto. Qed.

Lemma tick_attempts bound clock ids locked d : keyed d -> (forall k, retry_limit <= bound k) -> attempts_within bound d ->
  attempts_within bound (tech_request clock ids (run_tick locked) d).2.
Proof.
  intros Hk Hb Hd. destruct (tb_failed d) eqn:Hf; [by rewrite tick_request_failed|].
  rewrite tick_request by done. unfold tech_request. set (rows := scan locked (clock 0%nat) d).
  apply (run_request_leads _ _ (may_start bound (core_of <$> tb_subs d) rows)); [|by apply attempts_start].
  apply (leads_bind (attempts_within bound)); [|done|intros; apply leads_upholds; [upholds|done]].
  apply all_attempts; [done|by apply scan_NoDup|]. intros k c (s' & Hs & Hsel & _)%elem_of_scan (s & Hs' & ->)%rows_core; [|done].
  rewrite Hs in Hs'. simplify_eq. destruct (selected_may_start _ _ Hsel); [by left|right]. specialize (Hb k). cbn. lia.
Qed.

(** What a retry by hand may add to the attempts of row [k]. *)
Definition extra (id : string) (force : bool) (k : string) : Z := if force && bool_decide (k = id) then 1 else 0.

Lemma retry_attempts bound clock ids id force d : (forall k, retry_limit <= bound k) -> attempts_within bound d ->
  attempts_within (fun k => bound k + extra id force k) (tech_request clock ids (retry_subscription id force) d).2.
Proof.
  intros Hb Hd. set (more := fun k => bound k + extra id force k).
  assert (Hm : forall k, bound k <= more k) by (intros k; unfold more, extra; case_match; lia).
  assert (Hb' : forall k, retry_limit <= more k) by (intros k; specialize (Hb k); specialize (Hm k); lia).
  assert (Hd' : attempts_within more d) by (intros k s Hs; specialize (Hd k s Hs); specialize (Hm k); lia).
  assert (Hg : good (attempts_within more) (open_session clock ids d : session tech_db tech_effect)) by by split.
  unfold tech_request, run_request.
  enough (good (attempts_within more) (retry_subscription id force (open_session clock ids d)).2) as [H _]
    by by destruct (retry_subscription id force _).
  destruct (tb_failed d) eqn:Hf.
  { unfold retry_subscription, query, usable, bind, gets, guard_exn. cbn [s_db open_session]. by rewrite Hf. }
  unfold retry_subscription. rewrite query_now by done. cbn [s_db open_session]. destruct (tb_subs d !! id) as [sub|] eqn:Hs; [|done].
  assert (HC : closed same_core id (attempts_within more)).
  { pose proof (closed_may_start more Hb' (core_of <$> tb_subs d) id [] ltac:(set_solver)) as [_ _ H3]. split; [done..|].
    intros f d' Hf' Hd1. apply (H3 f d'); [by intros s; destruct (Hf' s) as (_ & ? & _)|]. split; [done|set_solver]. }
  destruct (ts_is_deleted sub); [done|]. case_match; [done|].
  destruct (bool_decide_reflect (ts_status sub = "ACTIVE"%string)) as [Ha|Ha].
  { apply (upholds_at (attempts_within more)); [upholds|done]. }
  destruct (negb force && (retry_limit <=? ts_provision_attempts sub)) eqn:Hlim; [done|].
  assert (Hroom : ts_provision_attempts sub < more id).
  { specialize (Hd id sub Hs). specialize (Hb id). unfold more, extra. rewrite bool_decide_eq_true_2 by done.
    destruct force; cbn in Hlim |- *; lia. }
  unfold bind at 1. cbn [utc_now]. unfold bind at 1. cbn [on_sub modify s_db s_committed s_out s_clock s_ids].
  set (s2 := Session _ _ _ _ _).
  assert (Hp : good (attempts_within more) (_process id s2).2).
  { apply (good_mono (may_start more (core_of <$> tb_subs d) [])); [by intros d' [? _]|].
    apply process_attempts; [done|set_solver| |].
    - intros c (s & Hs' & ->)%rows_core. rewrite Hs in Hs'. simplify_eq. by right.
    - split; [by apply attempts_start|]. cbn. split.
      + intros k s Hs'. cbn in Hs'. apply alter_row_inv in Hs' as [(-> & s0 & Hs0 & ->)|[_ Hs0]]; exact (Hd' _ _ Hs0).
      + intros k _. cbn. rewrite lookup_fmap. destruct (decide (k = id)) as [->|Hne]; [by rewrite lookup_alter_eq, Hs|].
        by rewrite lookup_alter_ne. }
  unfold bind at 1. destruct (_process id s2) as [[outcome|e] s3]; [|done].
  apply (upholds_at (attempts_within more)); [upholds|done].
Qed.

(** Ticks of the worker and retries by hand, each a request of its own; the list
    holds the subscriptions retried with [force], as the administrators' routes do. *)
Inductive worked : tech_db -> list string -> tech_db -> Prop :=
| worked_none d : worked d [] d
| worked_tick clock ids locked d l d' :
    worked (tech_request clock ids (run_tick locked) d).2 l d' -> worked d l d'
| worked_retry clock ids id d l d' :
    worked (tech_request clock ids (retry_subscription id false) d).2 l d' -> worked d l d'
| worked_forced clock ids id d l d' :
    worked (tech_request clock ids (retry_subscription id true) d).2 l d' -> worked d (id :: l) d'.

Definition times_forced (k : string) (l : list string) : Z := Z.of_nat (count_occ String.string_dec l k).

Lemma worked_attempts bound d l d' : worked d l d' -> keyed d -> (forall k, retry_limit <= bound k) -> attempts_within bound d ->
  attempts_within (fun k => bound k + times_forced k l) d'.
Proof.
  intros H. revert bound. induction H; intros bound Hk Hb Hd.
  - intros k s Hs. specialize (Hd k s Hs). unfold times_forced. cbn. lia.
  - apply IHworked; [by apply keyed_tick|done|by apply tick_attempts].
  - intros k s Hs. assert (Hw : attempts_within bound (tech_request clock ids (retry_subscription id false) d).2).
    { intros k' s' Hs'. pose proof (retry_attempts bound clock ids id false d Hb Hd k' s' Hs') as Hx. cbn in Hx. lia. }
    by apply (IHworked bound (keyed_retry _ _ _ _ _ Hk) Hb Hw).
  - assert (Hb' : forall k, retry_limit <= bound k + extra id true k).
    { intros k. specialize (Hb k). unfold extra. cbn. case_bool_decide; lia. }
    intros k s Hs. pose proof (IHworked _ (keyed_retry _ _ _ _ _ Hk) Hb' (retry_attempts bound clock ids id true d Hb Hd) k s Hs) as Hx.
    cbv beta in Hx. unfold times_forced, extra in *. cbn [count_occ andb] in *.
    destruct (String.string_dec id k) as [->|Hne]; [rewrite bool_decide_eq_true_2 in Hx by done|rewrite bool_decide_eq_false_2 in Hx by congruence]; lia.
Qed.

(** C13. The worker and the retries that are not forced never take a subscription
    past the limit, whatever the provider answers, also when the transaction is
    lost; each retry that is forced, as the administrators' routes force it, adds at
    most one attempt to its own subscription. *)
Theorem attempts_bounded d l d' :
  keyed d -> (forall k s, tb_subs d !! k = Some s -> ts_provision_attempts s <= retry_limit) -> worked d l d' ->
  forall k s, tb_subs d' !! k = Some s -> ts_provision_attempts s <= retry_limit + times_forced k l.
Proof. intros Hk Hd Hw. by apply (worked_attempts (fun _ => retry_limit) d l d' Hw Hk). Qed.
End AttemptsTheorem.

(** ** How a subscription becomes active *)

(** The orders in an answer. *)
Definition listed_orders (body : json) : list json :=
  match body with
  | JObj d => if truth (dget "orders" d) then match py_list (dget "orders" d) with Ok l => l | Raise _ => [] end else []
  | JArr l => l
  | _ => []
  end.

Definition order_status (o : dict) : string := upper (py_str (py_or (dget "status" o) (JStr "PENDING"))).

Section Activation.
Context {cfg : TechConfig} {portal : Portal} {cipher : Cipher}.
Context (base : list portal_request).

(** Since [base] the provider has answered an order with a confirmed active service,
    or listed an order that is active. *)
Definition evidence (uid : string) (log : list portal_request) : Prop :=
  exists newer q older body, log = newer ++ q :: older ++ base /\ portal_answers (older ++ base) q = Body body /\
    pq_endpoint q = "orders"%string /\
    ((pq_method q = "POST"%string /\ exists d i, body = JObj d /\ confirmed_active uid d i) \/
     (pq_method q = "GET"%string /\ exists o, JObj o ∈ listed_orders body /\ order_status o = "ACTIVE"%string)).

Lemma evidence_more uid q log : evidence uid log -> evidence uid (q :: log).
Proof. intros (newer & q' & older & body & -> & H). exists (q :: newer), q', older, body. by split. Qed.

Lemma list_orders_answer uid key (s s' : session tech_db tech_effect) orders :
  resellportal_configured = true -> list_orders uid key s = (Ok orders, s') ->
  exists q body, tb_portal (s_db s') = q :: tb_portal (s_db s) /\ tb_portal (s_committed s') = q :: tb_portal (s_db s) /\
    pq_method q = "GET"%string /\ pq_endpoint q = "orders"%string /\
    (orders = [] \/ portal_answers (tb_portal (s_db s)) q = Body body /\ orders = listed_orders body).
Proof.
  intros Hconf H. unfold list_orders, _make_request in H. rewrite Hconf in H. cbn [negb] in H. ok_inv H. ok_inv Hr.
  unfold portal_call in Hr0. injection Hr0 as <- <-. set (q := PortalRequest _ _ _ _) in *.
  set (a := portal_answers _ q) in *. exists q, (match a with Body b => b | _ => JNull end).
  destruct a as [b|c|n] eqn:Ha.
  - destruct b as [| | | | |l|d|]; try (cbn in H; injection H as <- <-; repeat split; auto; fail).
    rewrite dget_dset_other in H by done. cbn [listed_orders]. destruct (truth (dget "orders" d)); [|injection H as <- <-; repeat split; auto].
    destruct (py_list (dget "orders" d)); [|discriminate H]. injection H as <- <-. repeat split. by right.
  - injection H as <- <-. repeat split; auto.
  - injection H as <- <-. repeat split; auto.
Qed.

(** What the worker reads off an answer. *)
Definition answer_status (out : dict) : string := upper (py_str (py_or (dget "status" out) (JStr "PENDING"))).

Lemma answer_status_str out st : dget "status" out = JStr st -> upper st = st -> answer_status out = "ACTIVE"%string -> st = "ACTIVE"%string.
Proof.
  unfold answer_status. intros -> Hup H. destruct st as [|c st]; [discriminate H|]. rewrite <- Hup. exact H.
Qed.

Lemma dget_marks k out : k <> "credentials"%string -> dget k (with_simulation_marks out) = dget k out.
Proof. intros Hk. unfold with_simulation_marks. case_match; [by apply dget_dset_other|done]. Qed.

Lemma confirmed_configured uid d i : confirmed_active uid (dset "configured" (JBool true) d) i -> confirmed_active uid d i.
Proof.
  unfold confirmed_active. rewrite !dget_dset_other by done. intros (H1 & H2 & H3 & H4 & H5 & k & Hk & Hi).
  repeat (split; [done|]). exists k. split; [done|]. rewrite dget_dset_other in Hi; [done|]. intros ->. set_solver.
Qed.

(** An order request whose answer confirms an active service. *)
Lemma order_answer uid body s s' l d i :
  tb_portal (s_db s) = l ++ base -> _make_request "POST" "orders" body [] s = (Ok (JObj d), s') -> confirmed_active uid d i ->
  evidence uid (tb_portal (s_db s')) /\ tb_portal (s_committed s') = tb_portal (s_db s').
Proof.
  intros Hl H Hc. unfold _make_request in H. ok_inv H. unfold portal_call in Hr. injection Hr as <- <-.
  rename H into Hbody. symmetry in Hbody. cbn. split; [|done]. rewrite Hl in *.
  set (q := PortalRequest _ _ _ _) in *. destruct (portal_answers (l ++ base) q) as [b|c|n] eqn:Ha.
  - exists [], q, l, b. repeat split; [done..|]. left. split; [done|].
    destruct b as [| | | | | |d0|]; try discriminate Hbody. injection Hbody as <-. exists d0, i. split; [done|]. by apply confirmed_configured.
  - injection Hbody as <-. destruct Hc as (_ & Hf & _). discriminate Hf.
  - injection Hbody as <-. destruct Hc as (_ & Hf & _). discriminate Hf.
Qed.

Lemma provision_answer slug name plan cycle e u key ps c acc (s s' : session tech_db tech_effect) out l :
  resellportal_configured = true -> tb_portal (s_db s) = l ++ base ->
  provision_service slug name plan cycle e u key ps c acc s = (Ok out, s') ->
  is_True (dget "success" out) = true -> answer_status out = "ACTIVE"%string ->
  good (fun d => evidence u (tb_portal d)) s'.
Proof.
  intros Hconf Hl H Hok Hst. unfold provision_service in H. rewrite Hconf in H. cbn [negb] in H.
  destruct _production_live_resellportal_enabled; cbn [negb] in H; [|ok_inv H; discriminate Hok].
  destruct c as [client|]; [|ok_inv H; discriminate Hok]. ok_inv H.
  set (n := if truth _ || negb _ then _ else _) in *.
  rewrite dget_marks in Hok by done. unfold answer_status in Hst. rewrite dget_marks in Hst by done.
  assert (Hn : forall k, k <> "credentials"%string -> dget k n = dget k x0).
  { intros k Hk. unfold n. destruct (_ || negb _); [unfold with_account; by apply dget_dset_other|done]. }
  rewrite Hn in Hok, Hst by done.
  destruct (active_answer_spec _ _ _ _ _ _ _ Hr0) as (st & H1 & H2 & H3); [by destruct (dget "success" x0) as [|[]| | | | | |]|].
  destruct (H3 (answer_status_str _ _ H1 H2 Hst)) as (_ & d & i & -> & Hc & _).
  destruct (order_answer u _ _ _ _ _ _ Hl Hr Hc) as [He Hlog].
  pose proof (upholds_normalize (fun d => evidence u (tb_portal d)) (JObj d) u cycle resellportal_test_mode s0) as Hu.
  rewrite Hr0 in Hu. apply Hu. split; [by rewrite Hlog|done].
Qed.

(** The owners of the rows, and the rows that were active before. *)
Context (owners : gmap string string) (was : string -> Prop).

(** With [l] sent since: every active row was so before or has evidence. *)
Definition accounted (l : list portal_request) (d : tech_db) : Prop :=
  tb_portal d = l ++ base /\ ts_user_id <$> tb_subs d = owners /\
  forall k s, tb_subs d !! k = Some s -> ts_status s = "ACTIVE"%string -> was k \/ evidence (ts_user_id s) (l ++ base).

(** Row [id] may become active. *)
Definition proven (id : string) (l : list portal_request) (d : tech_db) : Prop :=
  accounted l d /\ forall uid, owners !! id = Some uid -> evidence uid (l ++ base).

Lemma same_owners f id (m : gmap string TechnologySubscription) :
  (forall s, ts_user_id (f s) = ts_user_id s) -> ts_user_id <$> alter f id m = ts_user_id <$> m.
Proof.
  intros Hf. apply map_eq. intros k. rewrite !lookup_fmap. destruct (decide (k = id)) as [->|Hk]; [|by rewrite lookup_alter_ne].
  rewrite lookup_alter_eq. destruct (m !! id); cbn; by rewrite ?Hf.
Qed.

(** Changes that do not make a row active. *)
Definition quiet (s s' : TechnologySubscription) : Prop :=
  ts_user_id s' = ts_user_id s /\ (ts_status s' = ts_status s \/ ts_status s' <> "ACTIVE"%string).

Lemma closed_quiet id l : closed quiet id (accounted l).
Proof.
  split; [done..|]. intros f d Hf (H1 & H2 & H3). split; [done|]. split.
  { cbn. rewrite same_owners; [done|]. intros s. by destruct (Hf s). }
  intros k s Hs Ha. cbn in Hs. apply alter_row_inv in Hs as [(-> & s0 & Hs & ->)|[_ Hs]]; [|by eapply H3].
  destruct (Hf s0) as [Hu [Hst|Hst]]; [|done]. rewrite Hu. rewrite Hst in Ha. by eapply H3.
Qed.

Lemma closed_accounted id l : closed passive id (accounted l).
Proof. eapply closed_mono; [|apply closed_quiet]. by intros s s' [(_ & ? & _) ?]. Qed.

Lemma upholds_on_sub_quiet id l f : (forall s, quiet s (f s)) -> upholds (accounted l) (on_sub id f).
Proof. intros Hf. apply upholds_modify. intros d. by apply (closed_row _ _ _ (closed_quiet id l)). Qed.

Lemma owner_of id l d s : accounted l d -> tb_subs d !! id = Some s -> owners !! id = Some (ts_user_id s).
Proof. intros (_ & <- & _) Hs. by rewrite lookup_fmap, Hs. Qed.

Lemma closed_proven (fine : TechnologySubscription -> TechnologySubscription -> Prop) id l :
  (forall s s', fine s s' -> ts_user_id s' = ts_user_id s) -> closed fine id (proven id l).
Proof.
  intros Hfine. split; [done..|]. intros f d Hf [(H1 & H2 & H3) H4]. split; [|done]. split; [done|].
  assert (Hown : ts_user_id <$> alter f id (tb_subs d) = owners) by (rewrite same_owners; eauto).
  split; [done|]. intros k s Hs Ha. cbn in Hs.
  apply alter_row_inv in Hs as [(-> & s0 & Hs & ->)|[_ Hs]]; [|by eapply H3].
  right. apply H4. rewrite <- H2, lookup_fmap, Hs. cbn. by rewrite (Hfine _ _ (Hf s0)).
Qed.

(** *** Computations that keep the account *)

Definition stable {A} (m : Tech A) : Prop := forall s l, good (accounted l) s -> exists l', good (accounted l') (m s).2.

Lemma stable_of {A} (m : Tech A) : (forall l, upholds (accounted l) m) -> stable m.
Proof. intros Hm s l Hs. exists l. by apply Hm. Qed.

Lemma stable_bind {A B} (m : Tech A) (f : A -> Tech B) : stable m -> (forall a, stable (f a)) -> stable (bind m f).
Proof.
  intros Hm Hf s l [l' Hs]%Hm. unfold bind. destruct (m s) as [[a|e] s']; [by eapply Hf|by exists l'].
Qed.

Lemma stable_catch {A} (m : Tech A) h : stable m -> (forall e, stable (h e)) -> stable (catch m h).
Proof.
  intros Hm Hh s l [l' Hs]%Hm. unfold catch. destruct (m s) as [[a|e] s']; [by exists l'|by eapply Hh].
Qed.

Lemma stable_call q : stable (portal_call q).
Proof.
  intros s l [Hc Hd]. exists (q :: l). destruct Hd as (H1 & H2 & H3). destruct Hc as (_ & H5 & H6).
  unfold portal_call. cbn. rewrite H1. split; (split; [done|split; [done|]]); intros k x Hx Ha.
  - destruct (H6 k x Hx Ha); [by left|right]. by apply evidence_more.
  - destruct (H3 k x Hx Ha); [by left|right]. by apply evidence_more.
Qed.

Ltac stable :=
  repeat first
    [ progress intros
    | solve [eauto using stable_call with nocore]
    | lazymatch goal with
      | |- stable (bind _ _) => apply stable_bind
      | |- stable (catch _ _) => apply stable_catch
      | |- stable (match _ with _ => _ end) => case_match
      | |- _ => solve [apply stable_of; intros; upholds]
      end ].

Lemma stable_normalize res uid cycle tm : stable (normalize_provision_response res uid cycle tm).
Proof. apply stable_of. intros. apply upholds_normalize. Qed.

Lemma stable_client e u : stable (create_portal_client e u).
Proof. unfold create_portal_client, mock_create_client, secret_text. stable. Qed.

Lemma stable_find slug uid key mail plan cycle : stable (find_matching_order slug uid key mail plan cycle).
Proof. unfold find_matching_order, list_orders, _make_request. stable. Qed.

Lemma stable_provision slug name plan cycle e u key ps c acc : stable (provision_service slug name plan cycle e u key ps c acc).
Proof. pose proof stable_normalize. unfold provision_service, mock_provision_service, secret_text, _make_request. stable. Qed.

Lemma stable_account id e : stable (_ensure_portal_account id e).
Proof.
  pose proof stable_client. pose proof (fun l => closed_core id _ (closed_accounted id l)).
  unfold _ensure_portal_account, _stored_portal_account_for_user. stable.
Qed.

(** *** The outcomes that do not activate *)

#[local] Hint Extern 1 (upholds _ (on_sub _ _)) =>
  apply upholds_on_sub_quiet; intros ?; (split; [reflexivity|(left; reflexivity) || (right; discriminate)]) : upholds.
#[local] Hint Extern 1 (closed same_core _ _) => apply closed_core; apply closed_accounted : upholds.

Lemma adopt_not_active id l o e : order_status o <> "ACTIVE"%string -> upholds (accounted l) (_adopt_existing_order id o e).
Proof.
  intros Ho. unfold _adopt_existing_order. fold (order_status o). cbn zeta. rewrite (bool_decide_false (order_status o = _)) by done.
  cbn [andb]. upholds.
Qed.

Lemma conclude_not_active id l r e u : is_True (dget "success" r) && bool_decide (answer_status r = "ACTIVE"%string) = false ->
  upholds (accounted l) (conclude id r e u).
Proof.
  intros Hr. pose proof (upholds_mark_pending id _ (closed_accounted id l)). pose proof (upholds_mark_simulated id _ (closed_accounted id l)).
  pose proof (upholds_mark_failed id _ (closed_accounted id l)).
  unfold conclude. fold (answer_status r). cbn zeta. rewrite Hr. upholds.
Qed.

Lemma proven_stable {A} id (m : Tech A) s l : upholds (proven id l) m -> good (proven id l) s -> exists l', good (accounted l') (m s).2.
Proof. intros Hm Hs%Hm. exists l. revert Hs. apply good_mono. by intros d [? _]. Qed.

Lemma proven_closed id l : closed passive id (proven id l) /\ closed activating id (proven id l).
Proof. split; apply closed_proven; by intros s s' [(_ & ? & _) _]. Qed.

(** An order found to be active proves it for its owner. *)
Lemma found_proven id slug uid key mail plan cycle o s s' l :
  resellportal_configured = true -> good (accounted l) s -> owners !! id = Some uid ->
  find_matching_order slug uid key mail plan cycle s = (Ok (Some o), s') -> order_status o = "ACTIVE"%string ->
  exists l', good (proven id l') s'.
Proof.
  intros Hconf [Hc Hd] Hid H Ho. pose proof (stable_call (PortalRequest "GET" "orders" [] [])) as _.
  destruct (stable_find slug uid key mail plan cycle s l (conj Hc Hd)) as [l' Hg]. rewrite H in Hg. exists l'.
  destruct (find_matching_spec _ _ _ _ _ _ _ _ _ H) as (orders & Hl & Hin & _).
  destruct (list_orders_answer _ _ _ _ _ Hconf Hl) as (q & body & H1 & H2 & H3 & H4 & [->|[H5 ->]]); [set_solver|].
  assert (He : evidence uid (l' ++ base)).
  { destruct Hg as [_ (Hlog & _)]. cbn in Hlog. rewrite <- Hlog, H1. destruct Hd as (Hlog0 & _). rewrite Hlog0 in *.
    exists [], q, l, body. repeat split; [done..|]. right. split; [done|]. by exists o. }
  revert Hg. apply good_mono. intros d Hacc. split; [done|]. intros uid' Hid'. congruence.
Qed.

Lemma stable_sub_of {A} id (k : TechnologySubscription -> Tech A) :
  (forall sub, owners !! id = Some (ts_user_id sub) -> stable (k sub)) -> stable (bind (sub_of id) k).
Proof.
  intros Hk s l Hs. unfold bind at 1, sub_of, usable, bind, gets, guard_exn. destruct (tb_failed (s_db s)); [by exists l|].
  cbn. destruct (tb_subs (s_db s) !! id) as [sub|] eqn:E; cbn; [|by exists l].
  eapply Hk; [|exact Hs]. eapply owner_of; [apply Hs|done].
Qed.

Lemma stable_order id slug name plan cycle e uid key ps c acc u :
  resellportal_configured = true -> owners !! id = Some uid ->
  stable (do r <- provision_service slug name plan cycle e uid key ps c acc; conclude id r e u).
Proof.
  intros Hconf Hid s l Hs. destruct (stable_provision slug name plan cycle e uid key ps c acc s l Hs) as [l' Hg].
  unfold bind. destruct (provision_service _ _ _ _ _ _ _ _ _ _ s) as [[r|x] s1] eqn:E; [|by exists l'].
  destruct (is_True (dget "success" r) && bool_decide (answer_status r = "ACTIVE"%string)) eqn:Hr.
  - apply andb_true_iff in Hr as [H1 H2%bool_decide_eq_true]. destruct Hs as [_ (Hlog & _)].
    destruct (provision_answer _ _ _ _ _ _ _ _ _ _ _ _ _ _ Hconf Hlog E H1 H2) as [He1 He2]. destruct Hg as [Hg1 Hg2].
    apply (proven_stable id (conclude id r e u) s1 l').
    + destruct (proven_closed id l'). by apply upholds_conclude.
    + pose proof (proj1 Hg1) as Hl1. split; (split; [done|]); intros uid' Hid'; rewrite Hid in Hid'; injection Hid' as <-; by rewrite <- Hl1.
  - exists l'. by apply conclude_not_active.
Qed.

Lemma stable_place_order id key e u c acc sub :
  resellportal_configured = true -> owners !! id = Some (ts_user_id sub) -> stable (place_order id key e u c acc sub).
Proof.
  intros Hconf Hid. pose proof stable_order. unfold place_order, _send_pending_email.
  destruct (validate_order_input _ _) as [ok missing]. destruct (negb ok); stable.
Qed.

Lemma stable_reconcile id key e user sub found :
  resellportal_configured = true -> owners !! id = Some (ts_user_id sub) -> stable (reconcile_or_order id key e user sub found).
Proof.
  intros Hconf Hid. unfold reconcile_or_order, _send_pending_email. destruct found as [[client account] error].
  destruct (truthy error); [stable|]. intros s l Hs.
  destruct (stable_find (ts_service_slug sub) (ts_user_id sub) key e (ts_plan_code sub) (ts_billing_cycle sub) s l Hs) as [l' Hg].
  unfold bind at 1. destruct (find_matching_order _ _ _ _ _ _ s) as [[[o|]|x] s1] eqn:E; [| |by exists l'].
  - destruct (decide (order_status o = "ACTIVE"%string)) as [Ho|Ho].
    + destruct (found_proven id _ _ _ _ _ _ _ _ _ _ Hconf Hs Hid E Ho) as [l2 Hp]. destruct (proven_closed id l2).
      apply (proven_stable id _ s1 l2); [by apply upholds_adopt|done].
    + exists l'. by apply adopt_not_active.
  - revert s1 E Hg. intros s1 _. revert s1 l'. apply stable_sub_of. intros. by apply stable_place_order.
Qed.

Lemma stable_process id : resellportal_configured = true -> stable (_process id).
Proof.
  intros Hconf. pose proof (stable_account id). pose proof (fun l => upholds_give_up id _ (closed_accounted id l)).
  pose proof (fun l => upholds_process_active id _ (closed_core _ _ (closed_accounted id l))).
  unfold _process. apply stable_catch; [|intros; unfold process_failed; stable].
  apply stable_sub_of. intros sub Hid. pose proof (fun key e user found => stable_reconcile id key e user sub found Hconf Hid).
  unfold provision_steps, _service_for, _mark_manual_fulfillment. stable.
Qed.

Lemma stable_process_all ids : resellportal_configured = true -> stable (process_all ids).
Proof. intros Hconf. pose proof (fun id => stable_process id Hconf). induction ids; cbn [process_all]; stable. Qed.

Lemma stable_tick ids : resellportal_configured = true -> stable (tick_rows ids).
Proof. intros Hconf. pose proof (stable_process_all ids Hconf). unfold tick_rows. stable. Qed.

Lemma stable_retry id force : resellportal_configured = true -> stable (retry_subscription id force).
Proof.
  intros Hconf. pose proof (stable_process id Hconf). pose proof (fun l => closed_core id _ (closed_accounted id l)).
  unfold retry_subscription. stable.
Qed.
End Activation.

(** C9. With a configured provider a subscription becomes active through the worker
    or an administrator's retry only when the provider says so: every row that is
    active afterwards was active before, or during the request the provider answered
    an order with success, the status active and a service identifier that is not
    one made up for the owner of the row, or listed an order whose status is active. *)
Theorem active_only_on_evidence {cfg : TechConfig} {portal : Portal} {cipher : Cipher} clock ids locked id force d d' k s :
  resellportal_configured = true ->
  d' ∈ [(tech_request clock ids (run_tick locked) d).2; (tech_request clock ids (retry_subscription id force) d).2] ->
  tb_subs d' !! k = Some s -> ts_status s = "ACTIVE"%string ->
  (exists s0, tb_subs d !! k = Some s0 /\ ts_status s0 = "ACTIVE"%string) \/
  evidence (tb_portal d) (ts_user_id s) (tb_portal d').
Proof.
  intros Hconf Hd' Hs Ha.
  set (was k := exists s0, tb_subs d !! k = Some s0 /\ ts_status s0 = "ACTIVE"%string).
  set (acc := accounted (tb_portal d) (ts_user_id <$> tb_subs d) was).
  assert (Hd : acc [] d) by (split_and!; [done..|]; intros k' s' Hs' Ha'; left; by exists s').
  assert (H : exists l, acc l d').
  { assert (Hrun : forall A (m : Tech A) clock, stable (tb_portal d) (ts_user_id <$> tb_subs d) was m -> exists l, acc l (tech_request clock ids m d).2).
    { intros A m clock' Hm. destruct (Hm (open_session clock' ids d) [] (conj Hd Hd)) as [l [Hl _]]. exists l.
      unfold tech_request, run_request. by destruct (m _). }
    repeat (apply elem_of_cons in Hd' as [->|Hd']); [| |by apply elem_of_nil in Hd'].
    - destruct (tb_failed d) eqn:Hf; [rewrite tick_request_failed by done; by exists []|].
      rewrite tick_request by done. by apply Hrun, stable_tick.
    - by apply Hrun, stable_retry. }
  destruct H as (l & Hlog & _ & Hacc). rewrite Hlog. by eapply Hacc.
Qed.

(** ** Examples *)

Definition example_user : TechUser := MkTechUser "u1" "a@b.in" None (Some "Asha"%string) None None.

Definition example_track : TrackRecord :=
  Track "t1" "TRK-1" None "Technology Purchase" None "VPN" None 1 (None, None, None) None 49900 "INR" (None, None) "CAPTURED"
    (Some "order_1"%string) (Some "pay_1"%string) None "IN_PROGRESS" "Pending" None 1 None None None None None 0.

Definition retry_db (subs : list TechnologySubscription) : tech_db :=
  TechDb (list_to_map (map (fun s => (ts_id s, s)) subs)) ∅ {[ "u1"%string := example_user ]} {[ "t1"%string := example_track ]} [] false empty_shop.

Definition example_ids (n : nat) : string := ("id" +:+ pretty (Z.of_nat n))%string.

Definition tick {cfg : TechConfig} {portal : Portal} (t : Z) (d : tech_db) : res (list string) * tech_db :=
  tech_request (fun n => t + Z.of_nat n) example_ids (run_tick []) d.

Definition test_config : TechConfig := {|
  TECH_ENVIRONMENT := "staging"; RESELLPORTAL_API_KEY := "key"; RESELLPORTAL_API_SECRET := "secret";
  RESELLPORTAL_TEST_MODE := true; RESELLPORTAL_ALLOW_LIVE := true; TECH_SUBSCRIPTION_MAX_RETRIES := 5;
  tech_mail_ok := fun _ => true |}.

(** A paid subscription that is due, and one that is not paid. *)
Definition due_sub : TechnologySubscription := example_sub "CAPTURED" "PENDING" 0.
Definition unpaid_sub : TechnologySubscription := (example_sub "CREATED" "PENDING" 0) <| ts_id := "s2"%string |>.
Definition example_db : tech_db := retry_db [due_sub; unpaid_sub].

Lemma example_keyed : keyed example_db.
Proof.
  intros k s. unfold example_db, retry_db. cbn [tb_subs map list_to_map foldr]. 
  rewrite !lookup_insert_Some, lookup_empty. naive_solver.
Qed.

Example test_orders_marked_witness :
  let cfg := test_config in let portal := listing [] in
  logged marked (tick 0 example_db).2 /\ orders_sent (tick 0 example_db).2 = 1%nat.
Proof.
  intros cfg portal. split; [|vm_compute; reflexivity].
  exact (proj1 (test_orders_marked (fun n => 0 + Z.of_nat n) example_ids [] "s1" true example_db eq_refl (List.Forall_nil _))).
Defined.

Definition off_config : TechConfig := {|
  TECH_ENVIRONMENT := " Production"; RESELLPORTAL_API_KEY := "key"; RESELLPORTAL_API_SECRET := "secret";
  RESELLPORTAL_TEST_MODE := false; RESELLPORTAL_ALLOW_LIVE := false; TECH_SUBSCRIPTION_MAX_RETRIES := 5;
  tech_mail_ok := fun _ => true |}.

Example production_off_only_reads_witness :
  let cfg := off_config in let portal := listing [] in
  (tick 0 example_db).1 = Ok ["pending"%string] /\ writes_sent (tick 0 example_db).2 = [].
Proof.
  intros cfg portal. split; [vm_compute; reflexivity|].
  exact (proj1 (production_off_only_reads (fun n => 0 + Z.of_nat n) example_ids [] "s1" true example_db (conj eq_refl eq_refl))).
Defined.

Example only_due_rows_touched_witness :
  let cfg := plain_config in let portal := listing [] in
  (tick 0 example_db).1 = Ok ["activated"%string] /\ tb_subs (tick 0 example_db).2 !! "s1"%string <> Some due_sub /\
  may_be_taken 0 due_sub /\ ~ may_be_taken 0 unpaid_sub.
Proof.
  intros cfg portal. split; [vm_compute; reflexivity|].
  assert (Hne : tb_subs (tick 0 example_db).2 !! "s1"%string <> Some due_sub) by (vm_compute; discriminate).
  split; [exact Hne|]. split; [|intros [H _]; discriminate H].
  exact (proj1 (proj1 (only_due_rows_touched (fun n => 0 + Z.of_nat n) example_ids [] "s1" true example_db "s1" due_sub example_keyed
    eq_refl eq_refl) Hne)).
Defined.

Example one_order_per_subscription_witness :
  let cfg := plain_config in let portal := listing [] in (orders_sent (tick 0 example_db).2 <= 1)%nat.
Proof.
  intros cfg portal. pose proof (proj1 (one_order_per_subscription (fun n => 0 + Z.of_nat n) example_ids [] "s1" true example_db eq_refl)) as H.
  assert (Hs : length (scan [] 0 example_db) = 1%nat) by (vm_compute; reflexivity). cbn in Hs. cbn beta in H.
  change (0 + Z.of_nat 0) with 0 in H. rewrite Hs in H. exact H.
Defined.

Example listed_order_not_doubled_witness :
  let cfg := plain_config in let portal := listing [listed "monthly" "PENDING"] in
  (orders_sent (tick 0 example_db).2 <= 0)%nat /\
  (orders_sent (tech_request (fun n => Z.of_nat n) example_ids (retry_subscription "s1" true) example_db).2 <= 0)%nat.
Proof.
  intros cfg portal.
  assert (Hl : lists [listed "monthly" "PENDING"]).
  { intros log q Hq. cbv [portal_answers portal listing]. rewrite bool_decide_eq_true_2 by exact Hq. reflexivity. }
  split.
  - pose proof (proj1 (listed_order_not_doubled (fun n => 0 + Z.of_nat n) example_ids [] "s1" true example_db
      [listed "monthly" "PENDING"] eq_refl Hl example_keyed eq_refl)) as H.
    assert (Hu : length (unlisted [listed "monthly" "PENDING"] example_db (scan [] 0 example_db)) = 0%nat) by (vm_compute; reflexivity).
    cbn beta in H. change (0 + Z.of_nat 0) with 0 in H. rewrite Hu in H. exact H.
  - exact (proj2 (listed_order_not_doubled (fun n => Z.of_nat n) example_ids [] "s1" true example_db
      [listed "monthly" "PENDING"] eq_refl Hl example_keyed eq_refl) due_sub eq_refl ltac:(vm_compute; reflexivity)).
Defined.

(** A tick, then the row is forced. *)
Example attempts_bounded_witness :
  let cfg := plain_config in let portal := listing [] in
  exists s, tb_subs (tech_request (fun n => 9 + Z.of_nat n) example_ids (retry_subscription "s1" true)
      (tech_request (fun n => Z.of_nat n) example_ids (run_tick []) example_db).2).2 !! "s1"%string = Some s /\
    ts_provision_attempts s <= 5 + 1.
Proof.
  intros cfg portal.
  assert (Hd : forall k s, tb_subs example_db !! k = Some s -> ts_provision_attempts s <= retry_limit).
  { intros k s. unfold example_db, retry_db. cbn [tb_subs map list_to_map foldr]. rewrite !lookup_insert_Some, lookup_empty.
    intros [[_ <-]|[_ [[_ <-]|[_ [=]]]]]; vm_compute; discriminate. }
  pose proof (attempts_bounded example_db ["s1"%string] _ example_keyed Hd
    (worked_tick (fun n => Z.of_nat n) example_ids [] _ _ _
      (worked_forced (fun n => 9 + Z.of_nat n) example_ids "s1"%string _ _ _ (worked_none _))) "s1"%string) as H.
  destruct (tb_subs _ !! "s1"%string) as [s|] eqn:E.
  - exists s. split; [reflexivity|]. exact (H s eq_refl).
  - exfalso. vm_compute in E. discriminate.
Defined.

Example active_only_on_evidence_witness :
  let cfg := plain_config in let portal := listing [] in evidence [] "u1" (tb_portal (tick 0 example_db).2).
Proof.
  intros cfg portal.
  eassert (Hs : tb_subs (tick 0 example_db).2 !! "s1"%string = Some _) by (vm_compute; reflexivity).
  destruct (active_only_on_evidence (cfg := plain_config) (portal := listing []) (fun n => 0 + Z.of_nat n) example_ids [] "s1" true example_db (tick 0 example_db).2 "s1" _
    ltac:(vm_compute; reflexivity) ltac:(left) Hs eq_refl) as [(s0 & H0 & Ha)|He].
  - exfalso. vm_compute in H0. injection H0 as <-. discriminate Ha.
  - exact He.
Defined.
