(* ===== verification/TechGiveUp.v ===== *)
(** * Giving up on a subscription, and where the worker does not

    A provider that refuses every request: after as many ticks as there are
    attempts left the subscription waits for a review and is not taken again.
    Then concrete runs of behaviour the docstrings of the worker exclude. *)

From stdpp Require Import sorting.
From S2P Require Import Prelude Text Numerals PyNum PyJson Urls Secrets TrackRecords TechStore TechStatus TechAccess ProductMapper ResellPortal TechRetry TechWorker.

Lemma backoff_bounds n : minutes 5 <= _backoff_delay n <= minutes 1440.
Proof.
  unfold _backoff_delay, BACKOFF_MINUTES, minutes. cbn [length].
  assert (H : 0 <= Z.min (Z.max (n - 1) 0) (Z.of_nat 5 - 1) <= 4) by lia. revert H.
  generalize (Z.min (Z.max (n - 1) 0) (Z.of_nat 5 - 1)) as i. intros i Hi.
  assert (Hc : i = 0 \/ i = 1 \/ i = 2 \/ i = 3 \/ i = 4) by lia.
  destruct Hc as [->|[->|[->|[->| ->]]]]; vm_compute; split; discriminate.
Qed.

(** ** A session with one row *)

Section GiveUp.
Context {cfg : TechConfig} {portal : Portal} {cipher : Cipher}.
Context (id : string) (d0 : tech_db) (now : Z).

(** The session holds the row, [n] orders were sent so far, and nothing else changed
    but track records and the rest of the log. *)
Definition holds (n : nat) (sub : TechnologySubscription) (s : session tech_db tech_effect) : Prop :=
  tb_failed (s_db s) = false /\ tb_subs (s_db s) = {[id := sub]} /\ tb_services (s_db s) = tb_services d0 /\
  tb_users (s_db s) = tb_users d0 /\ (forall k, s_clock s k = now) /\ orders_sent (s_db s) = n.

Lemma wp_sub_of n sub (Q : res TechnologySubscription -> session tech_db tech_effect -> Prop) s :
  holds n sub s -> Q (Ok sub) s -> wp (sub_of id) Q s.
Proof.
  intros (Hf & Hs & _) HQ. unfold wp, sub_of, usable, bind, gets, guard_exn. rewrite Hf. cbn. rewrite Hs, lookup_singleton_eq. exact HQ.
Qed.

Lemma wp_on_sub n sub f (Q : res unit -> session tech_db tech_effect -> Prop) s :
  holds n sub s -> (forall s', holds n (f sub) s' -> Q (Ok tt) s') -> wp (on_sub id f) Q s.
Proof.
  intros (Hf & Hs & H1 & H2 & H3 & H4) HQ. apply HQ. unfold holds. cbn. rewrite Hs. split_and!; try done.
  apply map_eq. intros k. destruct (decide (k = id)) as [->|Hk].
  - by rewrite lookup_alter_eq, !lookup_singleton_eq.
  - by rewrite lookup_alter_ne, !lookup_singleton_ne.
Qed.

Lemma wp_flush n sub (Q : res unit -> session tech_db tech_effect -> Prop) s :
  holds n sub s -> bindable sub = true -> Q (Ok tt) s -> wp (flush_sub id) Q s.
Proof.
  intros (Hf & Hs & _) Hb HQ. unfold wp, flush_sub, usable, bind, gets, guard_exn. rewrite Hf. cbn. rewrite Hs, lookup_singleton_eq. by rewrite Hb.
Qed.

Lemma wp_now_held n sub (Q : res Z -> session tech_db tech_effect -> Prop) s :
  holds n sub s -> (forall s', holds n sub s' -> Q (Ok now) s') -> wp utc_now Q s.
Proof.
  intros (Hf & Hs & H1 & H2 & H3 & H4) HQ. unfold wp. cbn. rewrite H3. apply HQ. repeat split; try done. intros k. apply H3.
Qed.

(** *** Computations that leave the row *)

Definition aside {A} (m : Tech A) : Prop := forall n sub s, holds n sub s -> holds n sub (m s).2.

Lemma aside_bind {A B} (m : Tech A) (f : A -> Tech B) : aside m -> (forall a, aside (f a)) -> aside (bind m f).
Proof. intros Hm Hf n sub s Hs%Hm. unfold bind. destruct (m s) as [[a|e] s']; [by apply Hf|done]. Qed.

Lemma aside_catch {A} (m : Tech A) h : aside m -> (forall e, aside (h e)) -> aside (catch m h).
Proof. intros Hm Hh n sub s Hs%Hm. unfold catch. destruct (m s) as [[a|e] s']; [done|by apply Hh]. Qed.

Lemma aside_silent {A} (m : Tech A) : silent m -> aside m.
Proof. intros Hm n sub s Hs. by rewrite (Hm s). Qed.

Lemma aside_now : aside utc_now.
Proof. intros n sub s (Hf & Hs & H1 & H2 & H3 & H4). repeat split; try done. intros k. apply H3. Qed.

Lemma aside_uuid : aside uuid4.
Proof. by intros n sub s Hs. Qed.

Lemma aside_tracks t : aside (modify (fun d => d <| tb_tracks := t d |>)).
Proof. by intros n sub s (Hf & Hs & H1 & H2 & H3 & H4). Qed.

Lemma aside_call q : is_order q = false -> aside (portal_call q).
Proof. intros Hq n sub s (Hf & Hs & H1 & H2 & H3 & H4). repeat split; try done. unfold orders_sent in *. cbn. by rewrite Hq. Qed.

Lemma aside_gets {A} (f : tech_db -> A) : aside (gets f).
Proof. by intros n sub s Hs. Qed.
Lemma aside_ret {A} (a : A) : aside (ret a).
Proof. by intros n sub s Hs. Qed.
Lemma aside_guard b e : aside (guard_exn b e).
Proof. by intros n sub s Hs; destruct b. Qed.
Lemma aside_emit m : aside (emit m).
Proof. by intros n sub s Hs. Qed.

Create HintDb aside.
#[local] Hint Resolve aside_now aside_uuid aside_tracks aside_call aside_gets aside_ret aside_guard aside_emit : aside.

Ltac aside := repeat first [progress intros | solve [eauto with aside nocore] | apply aside_bind | apply aside_catch | case_match].

Lemma wp_update_track n sub f o e m (Q : res unit -> session tech_db tech_effect -> Prop) s :
  holds n sub s -> (forall s', holds n sub s' -> Q (Ok tt) s') -> wp (_update_track id f o e m) Q s.
Proof.
  intros Hs HQ. unfold _update_track. apply wp_bind. eapply wp_sub_of; [exact Hs|].
  match goal with |- wp ?m _ _ => assert (Hm : aside m) end.
  { unfold record_paid_attempt, find_by_razorpay_payment_id, find_by_razorpay_order_id, find_by_internal_order_id,
      generate_internal_order_id, track_save, usable. aside. }
  specialize (Hm n sub s Hs). revert Hm. unfold wp, catch. destruct (bind _ _ s) as [[[]|x] s']; apply HQ.
Qed.

Lemma wp_send_once n sub mail (Q : res unit -> session tech_db tech_effect -> Prop) s :
  holds n sub s -> bindable sub = true ->
  (forall s' sent, holds n (sub <| ts_email_sent := sent |>) s' -> Q (Ok tt) s') -> wp (send_once id mail) Q s.
Proof.
  intros Hs Hb HQ. unfold send_once. apply wp_bind. eapply wp_sub_of; [exact Hs|].
  assert (Hsame : holds n (sub <| ts_email_sent := ts_email_sent sub |>) s) by by destruct sub.
  destruct (ts_email_sent sub); [by eapply HQ|]. unfold send_mail. apply wp_catch, wp_bind, wp_bind. apply wp_guard; intros _; [|apply wp_ret; by eapply HQ].
  unfold wp at 1; cbn [emit fst snd]. apply wp_bind. eapply wp_on_sub; [by apply aside_emit|]. intros s' Hs'.
  eapply wp_flush; [exact Hs'|exact Hb|exact (HQ _ true Hs')].
Qed.

(** [b] tells that the attempts are used up. *)
Lemma wp_schedule n sub b (Q : res unit -> session tech_db tech_effect -> Prop) s :
  holds n sub s -> (retry_limit <=? ts_provision_attempts sub) = b ->
  (forall s', holds n (if b then sub <| ts_needs_review := true |> <| ts_next_retry_at := None |>
                     else sub <| ts_next_retry_at := Some (now + _backoff_delay (ts_provision_attempts sub)) |>) s' -> Q (Ok tt) s') ->
  wp (schedule id) Q s.
Proof.
  intros Hs Hb HQ. unfold schedule, _next_retry. apply wp_bind, wp_bind. eapply wp_sub_of; [exact Hs|]. rewrite Hb. destruct b.
  - apply wp_bind. eapply wp_on_sub; [exact Hs|]. intros s1 H1. apply wp_ret. eapply wp_on_sub; [exact H1|]. done.
  - apply wp_bind. eapply wp_now_held; [exact Hs|]. intros s1 H1. apply wp_ret. eapply wp_on_sub; [exact H1|]. done.
Qed.

Lemma wp_give_up n sub b (Q : res bool -> session tech_db tech_effect -> Prop) s :
  holds n sub s -> (retry_limit <=? ts_provision_attempts sub) = b ->
  (forall s', holds n (if b then sub <| ts_status := "PROVISIONING_FAILED"%string |> <| ts_needs_review := true |>
                     else sub <| ts_status := "PENDING"%string |>) s' -> Q (Ok b) s') ->
  wp (give_up_or_wait id) Q s.
Proof.
  intros Hs Hb HQ. unfold give_up_or_wait. apply wp_bind. eapply wp_sub_of; [exact Hs|]. cbn zeta. rewrite Hb. apply wp_bind.
  destruct b; (eapply wp_on_sub; [exact Hs|]; intros s1 H1; apply wp_ret; by apply HQ).
Qed.

(** ** A provider that refuses *)

#[local] Set Default Proof Using "Type*".
Context (Hconf : resellportal_configured = true) (Hlive : _production_live_resellportal_enabled = true).
Context (Hrefuse : forall log q, exists c, portal_answers log q = HttpError c).

(** A paid subscription the worker can order. *)
Definition orderable (key : string) (sub : TechnologySubscription) : Prop :=
  ts_payment_status sub = TrackPayment.CAPTURED /\ ts_is_deleted sub = false /\ bindable sub = true /\
  row_key d0 sub = Some key /\ is_empty key || negb (is_provider_mapped (ts_service_slug sub)) = false /\
  is_Some (stored_provider_client_id (load_provider_credentials (ts_credentials_json sub))) /\
  (validate_order_input (ts_service_slug sub) (order_metadata sub)).1 = true /\
  exists ps, build_order_parameters key (ts_plan_code sub) (order_metadata sub) = Ok ps.

(** The row without the columns a refused order changes. *)
Definition forget (sub : TechnologySubscription) : TechnologySubscription :=
  sub <| ts_status := EmptyString |> <| ts_provision_attempts := 0 |> <| ts_last_provision_attempt_at := None |>
    <| ts_last_provider_status := None |> <| ts_last_provider_error := None |> <| ts_next_retry_at := None |>
    <| ts_needs_review := false |> <| ts_email_sent := false |>.

Definition retried (sub sub' : TechnologySubscription) : Prop := forget sub' = forget sub.

Lemma orderable_retried key sub sub' : retried sub sub' -> orderable key sub -> orderable key sub'.
Proof.
  unfold retried. intros Heq H. change (orderable key (forget sub')). rewrite Heq. exact H.
Qed.

Lemma aside_reading e j ps : aside (_make_request "GET" e j ps).
Proof. unfold _make_request. apply aside_bind; [by apply aside_call|aside]. Qed.

Lemma one_order n sub j ps s : holds n sub s -> holds (S n) sub (_make_request "POST" "orders" j ps s).2.
Proof.
  intros (Hf & Hs & H1 & H2 & H3 & H4). unfold _make_request, bind, portal_call. cbn.
  split_and!; try done. by rewrite <- H4.
Qed.

Lemma refused_request m e j ps s : exists c, (_make_request m e j ps s).1 = Ok (fallback_response ("HTTP " +:+ pretty (c : Z))%string).
Proof.
  unfold _make_request, bind, portal_call. cbn. destruct (Hrefuse (tb_portal (s_db s)) (PortalRequest m e (request_body m e j) ps)) as [c ->].
  by exists c.
Qed.

Lemma wp_find_refused n sub slug uid key mail plan cycle (Q : res (option dict) -> session tech_db tech_effect -> Prop) s :
  holds n sub s -> (forall s', holds n sub s' -> Q (Ok None) s') -> wp (find_matching_order slug uid key mail plan cycle) Q s.
Proof.
  intros Hs HQ. unfold find_matching_order, list_orders. rewrite Hconf. cbn [negb]. apply wp_bind, wp_bind. unfold wp at 1.
  set (ps := _ ++ _). pose proof (aside_reading "orders" [] ps n sub s Hs) as Hs'.
  destruct (refused_request "GET" "orders" [] ps s) as [c Hc]. rewrite Hc. cbn. by apply HQ.
Qed.

Lemma wp_provision_refused n sub slug name plan cycle e u key ps c acc (Q : res dict -> session tech_db tech_effect -> Prop) s :
  holds n sub s -> (forall s' r, holds (S n) sub s' -> is_True (dget "success" r) = false -> Q (Ok r) s') ->
  wp (provision_service slug name plan cycle e u key ps (Some c) acc) Q s.
Proof.
  intros Hs HQ. unfold provision_service. rewrite Hconf, Hlive. cbn [negb]. cbn zeta. apply wp_bind. unfold wp at 1.
  set (body := tools_as_list _). pose proof (one_order n sub body [] s Hs) as Hs'.
  destruct (refused_request "POST" "orders" body [] s) as [code Hc]. rewrite Hc. cbn [fallback_response].
  apply wp_bind. unfold normalize_provision_response, fallback_response. cbn [dget dlookup]. apply wp_ret, wp_ret. apply HQ; [done|].
  rewrite dget_marks by done. case_match; [unfold with_account; rewrite dget_dset_other by done|]; reflexivity.
Qed.

Lemma refused_conclude n sub r e u (Q : res string -> session tech_db tech_effect -> Prop) s :
  holds n sub s -> bindable sub = true -> is_True (dget "success" r) = false ->
  (forall s' o sub', holds n sub' s' -> retried sub sub' -> ts_provision_attempts sub' = ts_provision_attempts sub ->
     (if retry_limit <=? ts_provision_attempts sub
      then ts_status sub' = "PROVISIONING_FAILED"%string /\ ts_needs_review sub' = true /\ ts_next_retry_at sub' = None
      else ts_status sub' = "PENDING"%string /\ ts_next_retry_at sub' = Some (now + _backoff_delay (ts_provision_attempts sub))) ->
     Q (Ok o) s') ->
  wp (conclude id r e u) Q s.
Proof.
  intros Hs Hb Hr HQ. unfold conclude. rewrite Hr. cbn zeta. apply wp_bind. eapply wp_on_sub; [exact Hs|]. clear s Hs. intros s Hs.
  apply wp_bind. eapply wp_sub_of; [exact Hs|]. cbn [andb]. unfold _mark_failed. cbn zeta.
  apply wp_bind. eapply wp_on_sub; [exact Hs|]. clear s Hs. intros s Hs.
  destruct (retry_limit <=? ts_provision_attempts sub) eqn:E.
  - apply wp_bind. eapply (wp_schedule _ _ true); [exact Hs|exact E|]. clear s Hs. intros s Hs.
    apply wp_bind. eapply (wp_give_up _ _ true); [exact Hs|exact E|]. clear s Hs. intros s Hs.
    apply wp_bind. eapply wp_flush; [exact Hs|exact Hb|]. apply wp_bind. eapply wp_update_track; [exact Hs|]. clear s Hs. intros s Hs.
    apply wp_bind. eapply wp_send_once; [exact Hs|exact Hb|]. intros s' sent Hs'. apply wp_ret.
    eapply HQ; [exact Hs'|reflexivity|reflexivity|split_and?; reflexivity].
  - apply wp_bind. eapply (wp_schedule _ _ false); [exact Hs|exact E|]. clear s Hs. intros s Hs.
    apply wp_bind. eapply (wp_give_up _ _ false); [exact Hs|exact E|]. clear s Hs. intros s Hs.
    apply wp_bind. eapply wp_flush; [exact Hs|exact Hb|]. apply wp_bind. eapply wp_update_track; [exact Hs|]. clear s Hs. intros s Hs.
    apply wp_bind. eapply wp_send_once; [exact Hs|exact Hb|]. intros s' sent Hs'. apply wp_ret.
    eapply HQ; [exact Hs'|reflexivity|reflexivity|split_and?; reflexivity].
Qed.

(** What one more refusal makes of the row. *)
Definition after_refusal (sub sub' : TechnologySubscription) : Prop :=
  retried sub sub' /\ ts_provision_attempts sub' = ts_provision_attempts sub + 1 /\
  if retry_limit <=? ts_provision_attempts sub + 1
  then ts_status sub' = "PROVISIONING_FAILED"%string /\ ts_needs_review sub' = true /\ ts_next_retry_at sub' = None
  else ts_status sub' = "PENDING"%string /\ ts_next_retry_at sub' = Some (now + _backoff_delay (ts_provision_attempts sub + 1)).

Lemma refused_order n key mail user client acc sub s :
  holds n sub s -> orderable key sub ->
  wp (place_order id key mail user (Some client) acc sub) (fun r s' => exists o sub', r = Ok o /\ holds (S n) sub' s' /\ after_refusal sub sub') s.
Proof.
  intros Hs (_ & _ & Hb & _ & _ & _ & Hv & ps & Hps). unfold place_order. cbn zeta.
  destruct (validate_order_input _ _) as [ok missing]. cbn in Hv. subst ok. cbn [negb]. rewrite Hps.
  apply wp_bind, wp_lift_res, wp_bind. eapply wp_now_held; [exact Hs|]. clear s Hs. intros s Hs.
  apply wp_bind. eapply wp_on_sub; [exact Hs|]. clear s Hs. intros s Hs.
  apply wp_bind. eapply wp_flush; [exact Hs|exact Hb|].
  apply wp_bind. eapply wp_provision_refused; [exact Hs|]. clear s Hs. intros s r Hs Hr.
  eapply refused_conclude; [exact Hs|exact Hb|exact Hr|]. intros s' o sub' Hs' Hret Hn Hst. exists o, sub'.
  exact (conj eq_refl (conj Hs' (conj Hret (conj Hn Hst)))).
Qed.

Lemma refused_process n key sub s :
  holds n sub s -> orderable key sub -> ts_status sub <> "ACTIVE"%string ->
  wp (_process id) (fun r s' => exists o sub', r = Ok o /\ holds (S n) sub' s' /\ after_refusal sub sub') s.
Proof.
  intros Hs Hord Ha. pose proof Hord as (_ & _ & _ & Hk & Hm & [client Hcl] & _). pose proof Hs as (Hf & Hrows & Hsv & Hus & _).
  assert (Hk' : row_key (s_db s) sub = Some key) by (unfold row_key; rewrite Hsv; exact Hk).
  unfold wp. rewrite (process_reads id sub s key) by (rewrite ?Hrows, ?lookup_singleton_eq; done).
  change (wp (catch (do found <- _ensure_portal_account id (row_mail (s_db s) sub);
    reconcile_or_order id key (row_mail (s_db s) sub) (tb_users (s_db s) !! ts_user_id sub) sub found) (fun _ => process_failed id))
    (fun r s' => exists o sub', r = Ok o /\ holds (S n) sub' s' /\ after_refusal sub sub') s).
  set (mail := row_mail _ _). set (user := _ !! _).
  apply wp_catch, wp_bind. unfold _ensure_portal_account. apply wp_bind. eapply wp_sub_of; [exact Hs|]. cbn zeta. rewrite Hcl. apply wp_ret.
  unfold reconcile_or_order. cbn [truthy]. apply wp_bind. eapply wp_find_refused; [exact Hs|].
  intros s1 Hs1. apply wp_bind. eapply wp_sub_of; [exact Hs1|].
  eapply wp_mono; [by apply refused_order|]. intros r s' (o & sub' & -> & H). by exists o, sub'.
Qed.
End GiveUp.

(** ** Ticks *)

Section Ticks.
Context {cfg : TechConfig} {portal : Portal} {cipher : Cipher}.
#[local] Set Default Proof Using "Type*".
Context (Hconf : resellportal_configured = true) (Hlive : _production_live_resellportal_enabled = true).
Context (Hrefuse : forall log q, exists c, portal_answers log q = HttpError c).
Context (ids : nat -> string).

(** A tick during which the clock shows [t]. *)
Definition tick_at (t : Z) (d : tech_db) : tech_db := (tech_request (fun _ => t) ids (run_tick []) d).2.

Definition ticks (times : list Z) (d : tech_db) : tech_db := foldl (fun d t => tick_at t d) d times.

(** The only row, one the worker can order. *)
Definition single (key : string) (sub : TechnologySubscription) (d : tech_db) : Prop :=
  tb_failed d = false /\ tb_subs d = {[ts_id sub := sub]} /\ orderable d key sub.

Lemma scan_single t sub d : tb_subs d = {[ts_id sub := sub]} -> scan [] t d = if selected t sub then [ts_id sub] else [].
Proof using Type.
  intros Hs. unfold scan, select_where, values. rewrite Hs, map_to_list_singleton. cbn [map filter list_filter snd].
  rewrite bool_decide_false by apply not_elem_of_nil. rewrite andb_true_r. by destruct (selected t sub).
Qed.

Lemma refused_tick key t sub d : single key sub d -> selected t sub = true -> ts_status sub <> "ACTIVE"%string ->
  exists sub', single key sub' (tick_at t d) /\ after_refusal t sub sub' /\ orders_sent (tick_at t d) = S (orders_sent d).
Proof using All.
  intros (Hf & Hs & Hord) Hsel Ha. unfold tick_at. rewrite tick_request by done. rewrite (scan_single t sub d Hs), Hsel.
  assert (Hh : holds (ts_id sub) d t (orders_sent d) sub (open_session (fun _ => t) ids d)) by done.
  pose proof (refused_process (ts_id sub) d t Hconf Hlive Hrefuse (orders_sent d) key sub _ Hh Hord Ha) as (o & sub' & Ho & Hh' & Haft).
  unfold tech_request, run_request, tick_rows, process_all. unfold wp, bind in *. 
  destruct (_process (ts_id sub) _) as [r s']. cbn in Ho, Hh'. subst r. destruct Hh' as (H1 & H2 & H3 & H4 & _ & H5).
  cbn. unfold tech_commit, usable, bind, gets, guard_exn. cbn. rewrite H1. cbn.
  exists sub'. split; [|by split]. assert (Hid : ts_id sub' = ts_id sub).
  { destruct Haft as [Hret _]. change (ts_id (forget sub') = ts_id (forget sub)). by rewrite Hret. }
  split; [done|]. split; [by rewrite Hid|]. destruct Haft as [Hret _]. apply (orderable_retried d _ _ _ Hret) in Hord. revert Hord.
  unfold orderable, row_key. by rewrite H3.
Qed.

(** Every tick is a day after the one before, or later: longer than any backoff. *)
Fixpoint daily (times : list Z) : Prop :=
  match times with
  | t :: ((t' :: _) as times') => t + days 1 <= t' /\ daily times'
  | _ => True
  end.

Lemma waits_until t t' n : t + days 1 <= t' -> t + _backoff_delay n <= t'.
Proof using Type. pose proof (backoff_bounds n). assert (days 1 = minutes 1440) by reflexivity. lia. Qed.

Lemma selected_waiting t sub : ts_payment_status sub = TrackPayment.CAPTURED -> ts_is_deleted sub = false ->
  ts_status sub ∈ RETRYABLE_STATUSES -> ts_provision_attempts sub < retry_limit ->
  (forall at_, ts_next_retry_at sub = Some at_ -> at_ <= t) -> selected t sub = true.
Proof using Type.
  intros Hp Hd Hst Hn Hat. unfold selected, due. rewrite Hp, Hd, (bool_decide_true (ts_status sub ∈ _)) by done.
  rewrite (proj2 (Z.ltb_lt _ _) Hn). cbn. destruct (ts_next_retry_at sub) as [at_|]; [|done]. by rewrite (proj2 (Z.leb_le _ _) (Hat _ eq_refl)).
Qed.

Lemma exhausted_unselected t sub : ts_status sub = "PROVISIONING_FAILED"%string -> retry_limit <= ts_provision_attempts sub ->
  selected t sub = false.
Proof using Type.
  intros Hst Hn. unfold selected, due, owes_mail. rewrite Hst, (proj2 (Z.ltb_ge _ _) Hn). cbn. by rewrite andb_false_r.
Qed.

Lemma refused_ticks key times : forall sub d, single key sub d -> ts_status sub ∈ RETRYABLE_STATUSES -> daily times ->
  Z.of_nat (length times) <= retry_limit - ts_provision_attempts sub ->
  (forall at_ t, ts_next_retry_at sub = Some at_ -> head times = Some t -> at_ <= t) ->
  exists sub', single key sub' (ticks times d) /\ ts_provision_attempts sub' = ts_provision_attempts sub + Z.of_nat (length times) /\
    orders_sent (ticks times d) = (orders_sent d + length times)%nat /\
    (times <> [] -> ts_provision_attempts sub' = retry_limit ->
     ts_status sub' = "PROVISIONING_FAILED"%string /\ ts_needs_review sub' = true).
Proof using All.
  induction times as [|t times IH]; intros sub d Hsing Hst Hday Hlen Hat.
  { exists sub. cbn. split_and!; [done|lia|lia|done]. }
  cbn [length] in Hlen.
  assert (Hn : ts_provision_attempts sub < retry_limit) by lia.
  assert (Ha : ts_status sub <> "ACTIVE"%string) by (intros E; rewrite E in Hst; set_solver).
  assert (Hsel : selected t sub = true).
  { destruct Hsing as (_ & _ & Hp & Hd & _). apply selected_waiting; [done..|]. intros at_ Hnr. by apply (Hat at_ t). }
  destruct (refused_tick key t sub d Hsing Hsel Ha) as (sub1 & Hsing1 & (_ & Hn1 & Hst1) & Hos).
  change (ticks (t :: times) d) with (ticks times (tick_at t d)). cbn [length].
  destruct (Z.leb_spec retry_limit (ts_provision_attempts sub + 1)) as [Hlast|Hmore].
  - destruct times as [|t' times]; [|cbn [length] in Hlen; lia]. exists sub1. cbn. destruct Hst1 as (H1 & H2 & _).
    split_and!; [done|lia|lia|done].
  - destruct Hst1 as (H1 & H2). destruct (IH sub1 (tick_at t d)) as (sub' & Hs' & Hn' & Ho' & Hend);
      [done|rewrite H1; by left|by destruct times as [|t' times]; [|destruct Hday]|lia| |].
    + intros at_ t1 Hnr Hhd. rewrite H2 in Hnr. injection Hnr as <-. destruct times as [|t' times]; [done|].
      injection Hhd as <-. destruct Hday as [Hgap _]. by apply waits_until.
    + exists sub'. split_and!; [done|lia|lia|]. intros _ Hmax. apply Hend; [|done]. intros ->. cbn in Hn'. lia.
Qed.

Lemma daily_prefix before after : daily (before ++ after) -> daily before.
Proof using Type.
  induction before as [|t before IH]; [done|]. intros H. destruct before as [|t' before]; [done|].
  destruct H as [H1 H2]. split; [done|by apply IH].
Qed.

(** C11. A provider that refuses every request is not asked for ever: a paid
    subscription whose account with the provider is stored and which the worker can
    order, the only one in the table, is ordered exactly once by every tick, a day
    apart, as long as it has attempts left; then it is failed, waits for a review
    with its attempts used up, and from then on a tick changes nothing and sends
    nothing; the payment stays captured.  (A subscription without an account is
    asked for again and again: [refused_clients_not_counted].) *)
Theorem refused_orders_give_up key sub d times :
  single key sub d -> ts_status sub ∈ RETRYABLE_STATUSES -> daily times -> times <> [] ->
  Z.of_nat (length times) = retry_limit - ts_provision_attempts sub ->
  (forall at_ t, ts_next_retry_at sub = Some at_ -> head times = Some t -> at_ <= t) ->
  exists sub', tb_subs (ticks times d) = {[ts_id sub' := sub']} /\ ts_status sub' = "PROVISIONING_FAILED"%string /\
    ts_needs_review sub' = true /\ ts_provision_attempts sub' = retry_limit /\ ts_payment_status sub' = TrackPayment.CAPTURED /\
    (forall before after, times = before ++ after -> orders_sent (ticks before d) = (orders_sent d + length before)%nat) /\
    forall t, tick_at t (ticks times d) = ticks times d.
Proof using All.
  intros Hsing Hst Hday Hne Hlen Hat.
  destruct (refused_ticks key times sub d Hsing Hst Hday ltac:(lia) Hat) as (sub' & (Hf & Hs & Hp & _) & H3 & H4 & Hend).
  assert (Hmax : ts_provision_attempts sub' = retry_limit) by lia. destruct (Hend Hne Hmax) as [H1 H2].
  exists sub'. split_and!; [done..| |].
  - intros before after ->. rewrite length_app in Hlen.
    destruct (refused_ticks key before sub d Hsing Hst (daily_prefix _ _ Hday) ltac:(lia)) as (_ & _ & _ & Ho & _); [|exact Ho].
    intros at_ t Hnr Hhd. apply (Hat at_ t Hnr). by destruct before.
  - intros t. unfold tick_at. rewrite tick_request by done.
    rewrite (scan_single t sub' _ Hs), exhausted_unselected by (done || lia). done.
Qed.
End Ticks.

(** ** Examples *)

Definition two_tries : TechConfig := {|
  TECH_ENVIRONMENT := "production"; RESELLPORTAL_API_KEY := "key"; RESELLPORTAL_API_SECRET := "secret";
  RESELLPORTAL_TEST_MODE := false; RESELLPORTAL_ALLOW_LIVE := true; TECH_SUBSCRIPTION_MAX_RETRIES := 2;
  tech_mail_ok := fun _ => true |}.

Definition refusing : Portal := fun _ _ => HttpError 503.

Definition known_sub : TechnologySubscription :=
  due_sub <| ts_credentials_json := match dump_provider_credentials [("provider_client_id", JStr "9")]%string with Ok b => Some b | Raise _ => None end |>.

Example refused_orders_give_up_witness :
  let cfg := two_tries in let portal := refusing in
  exists sub', tb_subs (ticks example_ids [0; days 1] (retry_db [known_sub])) = {["s1"%string := sub']} /\
    ts_status sub' = "PROVISIONING_FAILED"%string /\ ts_needs_review sub' = true /\
    orders_sent (ticks example_ids [0; days 1] (retry_db [known_sub])) = 2%nat.
Proof.
  intros cfg portal.
  assert (Hs : single "vpn" known_sub (retry_db [known_sub])).
  { split; [reflexivity|]. split; [reflexivity|]. split_and!; try (vm_compute; reflexivity).
    - vm_compute. eexists. reflexivity.
    - eexists. vm_compute. reflexivity. }
  destruct (refused_orders_give_up (cfg := two_tries) (portal := refusing) eq_refl eq_refl (fun _ _ => ex_intro _ 503 eq_refl) example_ids "vpn" known_sub (retry_db [known_sub])
    [0; days 1] Hs) as (sub' & H1 & H2 & H3 & _ & _ & Ho & _).
  - left.
  - split; [vm_compute; discriminate|exact I].
  - discriminate.
  - reflexivity.
  - discriminate.
  - exists sub'. split; [|split; [exact H2|split; [exact H3|exact (Ho [0; days 1] [] eq_refl)]]].
    pose proof (f_equal (fun m : gmap string TechnologySubscription => m !! "s1"%string) H1) as Hx. cbv beta in Hx.
    destruct ({[ts_id sub' := sub']} !! "s1"%string) as [x|] eqn:E; [apply lookup_singleton_Some in E as [Hid _]|exfalso; vm_compute in Hx; discriminate].
    rewrite <- Hid. exact H1.
Defined.

(** ** What the docstrings exclude *)

Definition run {cfg : TechConfig} {portal : Portal} (d : tech_db) : list tech_effect :=
  s_out (run_tick [] (open_session (fun n => Z.of_nat n) example_ids d)).2.

(** The answer of [create_portal_client] is merged into the stored credentials with
    its mark of success, which is no blocked key: the access mail of a service without
    credentials consists of this mark alone, and counts as sent. *)
Lemma account_mark_mailed :
  let cfg := plain_config in let portal := listing [] in
  exists p sub', AccessMail "a@b.in" p ∈ run example_db /\ map af_key (ap_fields p) = ["success"%string] /\
    map af_value (ap_fields p) = ["true"%string] /\
    tb_subs (tick 0 example_db).2 !! "s1"%string = Some sub' /\ ts_access_email_sent sub' = true.
Proof.
  intros cfg portal. do 2 eexists. split; [vm_compute; left|]. split; [vm_compute; reflexivity|]. split; [vm_compute; reflexivity|].
  split; [vm_compute; reflexivity|]. vm_compute. reflexivity.
Qed.

(** Refused clients are not counted: ten ticks leave no attempt and no review. *)
Definition ten_days : list Z := map (fun n => days (Z.of_nat n)) (seq 0 10).

Lemma refused_clients_not_counted :
  let cfg := two_tries in let portal := refusing in
  let sub := tb_subs (ticks example_ids ten_days (retry_db [due_sub])) !! "s1"%string in
  option_map ts_provision_attempts sub = Some 0 /\ option_map ts_needs_review sub = Some false /\
  length (tb_portal (ticks example_ids ten_days (retry_db [due_sub]))) = 10%nat.
Proof. vm_compute. repeat split. Qed.

(** Missing input is not counted either, and is not even postponed. *)
Definition hosting_sub : TechnologySubscription := known_sub <| ts_service_slug := "web-hosting"%string |>.

Lemma missing_input_not_counted :
  let cfg := two_tries in let portal := listing [] in
  let sub := tb_subs (ticks example_ids ten_days (retry_db [hosting_sub])) !! "s1"%string in
  option_map ts_provision_attempts sub = Some 0 /\ option_map ts_next_retry_at sub = Some None /\
  length (tb_portal (ticks example_ids ten_days (retry_db [hosting_sub]))) = 10%nat.
Proof. vm_compute. repeat split. Qed.

(** A provider that times out, on the reading as on the order, is sent the order again. *)
Definition timing_out : Portal := fun _ _ => Failure "ReadTimeout".

Lemma timeout_orders_again :
  let cfg := plain_config in let portal := timing_out in
  orders_sent (ticks example_ids [0; days 1; days 2] (retry_db [known_sub])) = 3%nat.
Proof. vm_compute. reflexivity. Qed.

(** A period given as a text, as JSON must, cannot be written to the column: the flush
    fails, the tick ends with an exception and every row of it is rolled back, though
    the orders were sent; the next tick sends them again. *)
Definition dated_body : json :=
  JObj [("success", JBool true); ("status", JStr "ACTIVE"); ("service_id", JStr "s1"); ("current_period_start", JStr "2026-01-01")]%string.

Definition dated : Portal := fun _ q =>
  if bool_decide (pq_method q = "GET"%string) then Body (JObj [("orders", JArr [])]%string)
  else if bool_decide (text_of (dget "service_slug" (pq_json q)) = "crm"%string) then Body dated_body
  else Body (JObj [("success", JBool true); ("status", JStr "ACTIVE"); ("service_id", JStr "s1")]%string).

Definition crm_sub : TechnologySubscription :=
  known_sub <| ts_id := "s2"%string |> <| ts_service_slug := "crm"%string |> <| ts_created_at := 1 |>.

Lemma dated_answer_aborts :
  let cfg := plain_config in let portal := dated in
  let d := retry_db [known_sub; crm_sub] in
  (tick 5 d).1 = Raise PendingRollbackError /\ tb_subs (tick 5 d).2 = tb_subs d /\ orders_sent (tick 5 d).2 = 2%nat /\
  orders_sent (tick 9 (tick 5 d).2).2 = 4%nat.
Proof. intros cfg portal d. split; [vm_compute; reflexivity|]. split; [vm_compute; reflexivity|]. split; vm_compute; reflexivity. Qed.
