(* ===== verification/TechCheckout.v ===== *)
(** * Buying a technology subscription

    The part of app/service/cart/cart_checkout_service.py that turns a captured
    payment into subscriptions: [complete_technology_payment_from_webhook],
    [_complete_technology_purchase] for services of the catalogue and
    [_ensure_paid_technology_service_subscription], with the price of
    cart_service.py and the add-on requests of utils/addon_services.py.

    Items are services: the sale of a software listing is another component, and
    no listing has the id of an item.  The entries a checkout stamps into the
    metadata of an item (names starting with _checkout_) are texts and floats, as
    create_checkout_order writes them; the rest is what the customer sent.  The
    static catalogue the code falls back on is an argument.  A rollback expires the
    rows a session has loaded, and as SQLAlchemy's asyncio session does, reading an
    expired attribute raises. *)

From Stdlib Require Import SpecFloat.
From stdpp Require Import sorting.
From S2P Require Import Prelude Text Numerals PyNum Sha256 PyJson Urls Secrets ExchangeRates TrackRecords TechStore TechStatus TechAccess ProductMapper ResellPortal TechRetry.

Definition COBROTHER_FEE_INR : py_float := fl_of_Z 1000.

(** ** The cart item *)

(** [item.metadata_json or {}] *)
Definition item_meta (item : CartItem) : dict := default [] (ci_metadata_json item).

(** The first of the given entries that counts, as a text. *)
Definition first_text (values : list json) (fallback : string) : string :=
  strip (py_str (foldr py_or (JStr fallback) values)).

Definition _cart_item_product_name (item : CartItem) : string :=
  let meta := item_meta item in
  let get k := dget k meta in
  match ci_product_type item with
  | DOMAIN_REGISTRATION => first_text [get "domainName"] "Domain registration"
  | DOMAIN_LISTING => first_text [get "domainName"; get "fullDomain"; get "productName"] "Domain listing"
  | TECHNOLOGY => first_text [get "productName"; get "softwareName"; get "name"] "Technology"
  | VENTURE_DEAL => first_text [get "productName"; get "ventureName"; get "name"] "Venture"
  end%string.

Definition full_name (u : TechUser) : string :=
  strip (default EmptyString (tu_firstname u) +:+ " " +:+ default EmptyString (tu_lastname u))%string.

Definition opt_text (o : option string) : json := match o with Some s => JStr s | None => JNull end.

(** f"{registrant.get(k, '')}" *)
Definition piece (k : string) (d : dict) : string := match dlookup k d with Some v => py_str v | None => EmptyString end.

Definition _checkout_buyer_details (item : CartItem) (buyer : TechUser) : string * string * string :=
  let meta := item_meta item in
  let name := first_text [dget "_checkout_buyer_name" meta; JStr (full_name buyer); opt_text (tu_username buyer)] EmptyString in
  let email := first_text [dget "_checkout_buyer_email" meta; JStr (tu_email buyer)] EmptyString in
  let phone := first_text [dget "_checkout_buyer_phone" meta; opt_text (tu_phone_number buyer)] EmptyString in
  match ci_product_type item, py_or (dget "_checkout_registrant" meta) (JObj []) with
  | DOMAIN_REGISTRATION, JObj registrant =>
      let reg_name := strip (piece "firstName" registrant +:+ " " +:+ piece "lastName" registrant)%string in
      let given k old := if truth (dget k registrant) then strip (py_str (dget k registrant)) else old in
      (if is_empty reg_name then name else reg_name, given "email"%string email, given "phone"%string phone)
  | _, _ => (name, email, phone)
  end.

(** A number that is not negative; [None] for anything else. *)
Definition as_float (meta : dict) (key : string) : res (option py_float) :=
  match py_float_of (dget key meta) with
  | Ok x => Ok (if fl_leb fl_zero x then Some x else None)
  | Raise e => if type_or_value_error e then Ok None else Raise e
  end.

(** [x or y] of floats *)
Definition fl_or (x y : py_float) : py_float := if fl_eqb x fl_zero then y else x.

Record track_financials := TrackFinancials { amount_charged : py_float; subtotal_ex_gst : option py_float; gst_amount : option py_float }.

Definition _checkout_financials_for_track (item : CartItem) : res track_financials :=
  let meta := item_meta item in
  try! subtotal <- as_float meta "_checkout_subtotal_inr";
  try! gst <- as_float meta "_checkout_gst_inr";
  try! total <- as_float meta "_checkout_total_inr";
  try! unit_ <- as_float meta "_checkout_unit_price_inr";
  let by_unit := match unit_ with Some u => fl_or u fl_zero | None => fl_zero end in
  Ok (TrackFinancials
    (match ci_product_type item, total with
     | TECHNOLOGY, Some t => if fl_ltb fl_zero t then t else by_unit
     | _, _ => by_unit
     end) subtotal gst).

(** The subtotal, the tax and what was paid. *)
Definition _technology_paid_totals (item : CartItem) (fallback_price : py_float) : res (py_float * py_float * py_float) :=
  try! fin <- _checkout_financials_for_track item;
  let subtotal_v := match subtotal_ex_gst fin with Some x => x | None => fl_or fallback_price fl_zero end in
  let gst_v := default fl_zero (gst_amount fin) in
  let paid_v := if fl_ltb fl_zero (amount_charged fin) then amount_charged fin
                else fl_or (fl_or (fl_add subtotal_v gst_v) fallback_price) fl_zero in
  Ok (subtotal_v, gst_v, paid_v).

Definition _track_internal_order_id (razorpay_order_id : string) (item : CartItem) (result : dict) : string :=
  let reg_order_id := dget "registrationOrderId" result in
  if truth reg_order_id then ("TRK-REG-" +:+ py_str reg_order_id)%string
  else match ci_product_type item with
  | DOMAIN_LISTING => "TRK-MKT-" +:+ razorpay_order_id +:+ "-" +:+ ci_id item
  | _ => "TRK-" +:+ razorpay_order_id +:+ "-" +:+ ci_id item
  end%string.

(** [str(a or b)] of entries of a result *)
Definition explained (values : list json) (fallback : string) : string := py_str (foldr py_or (JStr fallback) values).

Definition provider_status_text (sub_status : string) : string :=
  ("Provider subscription status: " +:+ (if is_empty sub_status then "UNKNOWN" else sub_status))%string.

(** Fulfillment status, overall status, error code, error message. *)
Definition fulfillment_facts : Type := string * string * option string * option string.

Definition _tech_fulfillment_from_result (result : dict) (is_service : bool) : fulfillment_facts :=
  let sub_status := upper (py_str (py_or (dget "status" result) (JStr EmptyString))) in
  let reason fallback := explained [dget "error" result; dget "message" result] fallback in
  if negb is_service then (FulfillmentStatus.PROVISIONED, OverallStatus.SUCCESS, None, None)
  else if bool_decide (sub_status = "ACTIVE"%string) && truth (dget "providerSubscriptionId" result) then
    (FulfillmentStatus.PROVISIONED, OverallStatus.SUCCESS, None, None)
  else if bool_decide (sub_status = "TEST_SIMULATED"%string) then
    (FulfillmentStatus.IN_PROGRESS, OverallStatus.PENDING, None,
     Some (explained [dget "message" result] "ResellPortal test-mode order was simulated and is not customer-accessible."))
  else if among sub_status ["PENDING"; "PAYMENT_CAPTURED"; "PROVISIONING"; "PROVISIONING_PENDING"]%string then
    let err := py_or (dget "error" result) (dget "message" result) in
    (FulfillmentStatus.IN_PROGRESS, OverallStatus.PENDING,
     if truth err then Some "SERVICE_PROVISIONING_FAILED"%string else None, if truth err then Some (py_str err) else None)
  else if some_in ["FAIL"; "ERROR"; "UNKNOWN"]%string sub_status then
    (FulfillmentStatus.IN_PROGRESS, OverallStatus.PENDING, Some "SERVICE_PROVISIONING_FAILED"%string,
     Some (reason (provider_status_text sub_status)))
  else if among sub_status ["CANCELLED"; "CANCELED"; "SUSPENDED"; "EXPIRED"; "REFUNDED"]%string then
    (FulfillmentStatus.FAILED, OverallStatus.FAILED, Some "SERVICE_PROVISIONING_FAILED"%string,
     Some (reason (provider_status_text sub_status)))
  else (FulfillmentStatus.IN_PROGRESS, OverallStatus.PENDING, None, Some (reason (provider_status_text sub_status))).

Definition _TECH_RETRY_BACKOFF_MINUTES : list Z := [5; 15; 60; 360; 1440].

Definition _tech_backoff_for (attempt_number : Z) : Z :=
  let idx := Z.min (Z.max (attempt_number - 1) 0) (Z.of_nat (length _TECH_RETRY_BACKOFF_MINUTES) - 1) in
  minutes (nth (Z.to_nat idx) _TECH_RETRY_BACKOFF_MINUTES 0).

(** The start and the end of the first period. *)
Definition _tech_sub_periods (billing_cycle : string) : Tech (json * json) :=
  do now <- utc_now;
  ret (JDate now, JDate (now + days (if startswith (lower billing_cycle) "ann" then 365 else 30))).

Definition _technology_idempotency_key (razorpay_payment_id service_slug : string) : string :=
  str_take 64 ("rp:" +:+ razorpay_payment_id +:+ ":" +:+ service_slug)%string.

Definition _technology_provider_metadata (metadata : dict) (plan_code : string) : dict :=
  let cleaned := List.filter (fun kv => negb (startswith kv.1 "_")) metadata in
  if is_empty plan_code then cleaned
  else dsetdefault "planCode" (JStr plan_code) (dsetdefault "selectedPlan" (JStr plan_code) cleaned).

(** [json.dumps(v)] *)
Definition plain_dump : dump_options := DumpOptions ", " ": " false false.

(** [json.dumps(d) if d else None] *)
Definition provision_input_of (metadata : dict) : res (option string) :=
  match metadata with [] => Ok None | _ => try! s <- dumps plain_dump (JObj metadata); Ok (Some s) end.

(** A NUMERIC(12, 2) column: the exact value of a float, rounded half away from zero. *)
Definition numeric_12_2 (x : py_float) : res Z :=
  match fl_frac x with
  | Some (n, d) => let c := div_half_up (100 * n) d in
                   if Z.abs c <? 10 ^ 12 then Ok c else Raise (SQLAlchemyError "NumericValueOutOfRange")
  | None => Raise (SQLAlchemyError "NumericValueOutOfRange")
  end.

Definition optional_numeric (x : option py_float) : res (option Z) :=
  match x with Some x => try! c <- numeric_12_2 x; Ok (Some c) | None => Ok None end.

(** ** The price *)

(** [v == s] *)
Definition is_text (s : string) (v : json) : bool := match v with JStr t => bool_decide (t = s) | _ => false end.

(** [next((p for p in plans if p.get("code") == code), None)] *)
Fixpoint plan_with_code (code : string) (plans : list json) : res (option dict) :=
  match plans with
  | [] => Ok None
  | JObj p :: plans' => if is_text code (dget "code" p) then Ok (Some p) else plan_with_code code plans'
  | _ :: _ => Raise AttributeError
  end.

(** [billingCycle] as a text, for the cart. *)
Definition annual (meta : dict) : bool :=
  let v := match dlookup "billingCycle" meta with Some v => py_str v | None => EmptyString end in startswith (lower v) "ann".

(** The stored plans; what is no JSON counts as none, and so does an empty value. *)
Definition stored_plans (plans_json : option string) : res (list json) :=
  match plans_json with
  | None => Ok []
  | Some raw =>
      if is_empty raw then Ok []
      else match loads raw with
      | Raise _ => Ok []
      | Ok v => if negb (truth v) then Ok [] else match v with JArr l => Ok l | _ => Raise AttributeError end
      end
  end.

Definition selected_or_first (plans : list json) (selected_plan : option string) : res dict :=
  try! plan <- (match selected_plan with
                | Some code => if is_empty code then Ok None else plan_with_code code plans
                | None => Ok None
                end);
  match plan, plans with
  | Some p, _ => Ok p
  | None, JObj p :: _ => Ok p
  | None, _ => Raise AttributeError
  end.

Section Price.
(** The rates [get_exchange_rates] serves meanwhile. *)
Context (rates : rates_map).

(** [float(convert_foreign_to_inr(usd, "USD")["amountInr"])], failures being logged. *)
Definition usd_in_rupees (usd_price : py_float) : py_float :=
  match convert_foreign_to_inr rates usd_price "USD" with Ok n => fl_of_Z n | Raise _ => fl_zero end.

Definition _tech_service_plan_price_inr (plans_json selected_plan : option string) (metadata : dict)
    (override_monthly override_annually : option py_float) : res py_float :=
  try! plans <- stored_plans plans_json;
  match plans with
  | [] => Ok fl_zero
  | _ =>
      try! plan <- selected_or_first plans selected_plan;
      let price_key := if annual metadata then "price_annually" else "price_monthly" in
      let listed := dget price_key plan in
      try! usd_price <- py_float_of (if truth listed then listed else default (JInt 0) (dlookup "price_monthly" plan));
      let usd_price := match (if annual metadata then override_annually else override_monthly) with Some x => x | None => usd_price end in
      Ok (if fl_leb usd_price fl_zero then fl_zero else usd_in_rupees usd_price)
  end%string.
End Price.

(** ** The session *)

Definition MissingGreenlet : exn := OtherError "MissingGreenlet".

Definition on_shop (f : shop -> shop) : Tech unit := modify (fun d => d <| tb_shop ::= f |>).

(** The first statement or assignment after a commit opens a transaction. *)
Definition autobegin : Tech unit := on_shop (fun h => h <| sh_begun := true |>).

Definition checkpoint : Tech unit := tech_commit ;;; on_shop (fun h => h <| sh_begun := false |>).

(** A rollback expires the loaded rows, when there is something to roll back. *)
Definition _reset_aborted_session : Tech unit :=
  do h <- gets tb_shop;
  rollback ;;;
  on_shop (fun h' => h' <| sh_begun := false |> <| sh_expired := sh_begun h || sh_expired h |>).

(** An attribute of a row loaded before is read. *)
Definition alive : Tech unit :=
  usable ;;;
  do h <- gets tb_shop;
  guard_exn (negb (sh_expired h)) MissingGreenlet.

(** A flush that violates a constraint. *)
Definition flush_fails {A} (e : exn) : Tech A := modify (fun d => d <| tb_failed := true |>) ;;; raise e.

(** INSERT of a subscription: the identifier and the idempotency key are unique. *)
Definition key_taken (s : TechnologySubscription) (d : tech_db) : bool :=
  bool_decide (is_Some (tb_subs d !! ts_id s)) ||
  existsb (fun s' => bool_decide (is_Some (ts_idempotency_key s)) && bool_decide (ts_idempotency_key s' = ts_idempotency_key s))
    (values (tb_subs d)).

Definition insert_sub (s : TechnologySubscription) : Tech unit :=
  do taken <- query (key_taken s);
  if taken then flush_fails (IntegrityError "technology_subscriptions")
  else modify (fun d => d <| tb_subs ::= insert (ts_id s) s |>).

Definition insert_invoice (i : SubscriptionInvoice) : Tech unit :=
  do taken <- query (fun d => let invoices := sh_invoices (tb_shop d) in
    bool_decide (is_Some (invoices !! si_id i)) ||
    existsb (fun i' => bool_decide (si_invoice_number i' = si_invoice_number i)) (values invoices));
  if taken then flush_fails (IntegrityError "technology_subscription_invoices")
  else on_shop (fun h => h <| sh_invoices ::= insert (si_id i) i |>).

(** [f"INV-CB-{uuid4().hex[:8].upper()}"] *)
Definition new_invoice_number : Tech string :=
  do id <- uuid4;
  ret ("INV-CB-" +:+ upper (str_take 8 (remove_all "-" id)))%string.

Definition new_invoice (sub_id user_id : string) (amount : py_float) (period : json * json) : Tech SubscriptionInvoice :=
  do number <- new_invoice_number;
  do id <- uuid4;
  do now <- utc_now;
  let invoice := SubInvoice id sub_id user_id number amount "INR" "PAID" period (Some "Razorpay"%string) now in
  insert_invoice invoice ;;;
  ret invoice.

(** ** Finding what was paid before *)

Definition paid_rows (user_id : string) (same : TechnologySubscription -> bool) (d : tech_db) : list TechnologySubscription :=
  select_where (fun s => bool_decide (ts_user_id s = user_id) && same s && negb (ts_is_deleted s)) (values (tb_subs d)).

Definition same_slug (service_slug : option string) (s : TechnologySubscription) : bool :=
  negb (truthy service_slug) || bool_decide (Some (ts_service_slug s) = service_slug).

Definition _find_paid_technology_subscription (user_id : string) (razorpay_payment_id razorpay_order_id service_slug : option string)
    : Tech (option TechnologySubscription) :=
  do by_payment <- (if truthy razorpay_payment_id then
      do rows <- query (paid_rows user_id (fun s => bool_decide (ts_razorpay_payment_id s = razorpay_payment_id)));
      let matched := if truthy service_slug then List.filter (same_slug service_slug) rows else [] in
      ret (match matched, rows with m :: _, _ => Some m | [], r :: _ => Some r | [], [] => None end)
    else ret None);
  match by_payment with
  | Some s => ret (Some s)
  | None =>
      if truthy razorpay_order_id then
        do rows <- query (paid_rows user_id (fun s =>
          bool_decide (ts_razorpay_order_id s = razorpay_order_id) && same_slug service_slug s));
        ret (head rows)
      else ret None
  end.

Section Checkout.
Context {cfg : TechConfig} {portal : Portal} {cipher : Cipher}.

(** ** The account at the provider *)

Definition _find_stored_resellportal_portal_account (user_id : string) : Tech (option dict) := _stored_portal_account_for_user user_id.

(** The client id, the account and, instead of them, an error. *)
Definition _ensure_resellportal_portal_account (id user_email user_id : string) : Tech (option string * dict * option string) :=
  do sub <- sub_of id;
  let current := load_provider_credentials (ts_credentials_json sub) in
  match stored_provider_client_id current with
  | Some client_id => ret (Some client_id, current, None)
  | None =>
      do existing <- _find_stored_resellportal_portal_account user_id;
      autobegin ;;;
      match existing with
      | Some ((_ :: _) as account) =>
          do merged <- merge_subscription_credentials id account;
          flush_sub id ;;;
          ret (stored_provider_client_id merged, merged, None)
      | _ =>
          do created <- create_portal_client user_email user_id;
          if negb (is_True (dget "success" created)) || bool_decide (stored_provider_client_id created = None) then
            ret (None, current, Some (py_str (py_or (dget "error" created) (JStr "Provider client creation failed."))))
          else
            do merged <- merge_subscription_credentials id created;
            flush_sub id ;;;
            ret (stored_provider_client_id merged, merged, None)
      end
  end.

(** ** Add-on requests *)

Definition _addon_keys (addon_services : string) : list string :=
  List.filter (fun k => negb (is_empty k)) (map strip (split_char (Ascii.ascii_of_nat 44) addon_services)).

(** The live service of a key, by its id or else by its skills. *)
Definition live_addon (services : list OperationsService) (key : string) : option OperationsService :=
  match List.find (fun s => bool_decide (os_id s = key)) services with
  | Some s => Some s
  | None => List.find (fun s => bool_decide (os_skills s = Some key)) (rev services)
  end.

(** Without repetition, in the order of the keys. *)
Fixpoint once_each (seen : list string) (found : list OperationsService) : list OperationsService :=
  match found with
  | [] => []
  | s :: found' => if bool_decide (os_id s ∈ seen) then once_each seen found' else s :: once_each (os_id s :: seen) found'
  end.

Definition resolve_live_compliance_addon_services (addon_services : string) : Tech (list OperationsService) :=
  match _addon_keys addon_services with
  | [] => ret []
  | keys =>
      do services <- query (fun d => select_where (fun s => negb (os_is_deleted s) && os_is_available s
        && bool_decide (os_service_type s = "compliance"%string)
        && (bool_decide (os_id s ∈ keys) || match os_skills s with Some k => bool_decide (k ∈ keys) | None => false end))
        (values (sh_ops_services (tb_shop d))));
      ret (once_each [] (omap (live_addon services) keys))
  end.

Definition or_dash (s : string) : string := if is_empty (strip s) then "—" else strip s.

(** At most one pending request per user and service; two already there raise. *)
Fixpoint request_addons (user_id : string) (contact : string * string * string) (services : list OperationsService) : Tech unit :=
  match services with
  | [] => ret tt
  | s :: services' =>
      do pending <- query (fun d => select_where (fun r => bool_decide (or_user_id r = user_id) && bool_decide (or_service_id r = os_id s)
        && bool_decide (or_status r = "PENDING"%string)) (values (sh_ops_requests (tb_shop d))));
      (match pending with
       | [] =>
           do id <- uuid4;
           let '(name, email, phone) := contact in
           on_shop (fun h => h <| sh_ops_requests ::=
             insert id (MkOpsRequest id (os_id s) user_id (or_dash name, or_dash email, or_dash phone) "PENDING") |>)
       | [_] => ret tt
       | _ => raise (SQLAlchemyError "MultipleResultsFound")
       end) ;;;
      request_addons user_id contact services'
  end.

Definition create_addon_operations_requests (user_id : string) (contact : string * string * string)
    (addon_services_csv : option string) : Tech unit :=
  if truthy addon_services_csv then
    do services <- resolve_live_compliance_addon_services (default EmptyString addon_services_csv);
    request_addons user_id contact services
  else ret tt.

(** ** Recording a purchase *)

(** The catalogue's initial entries, which are data. *)
Context (seed : list TechnologyService) (rates : rates_map).

Definition _fallback_service_id (slug : string) : string := uuid5 NAMESPACE_URL ("cobrother:technology-service:" +:+ slug).

Definition _get_technology_service (service_id : string) : Tech (option TechnologyService) :=
  query (fun d => match tb_services d !! service_id with Some v => if sv_is_deleted v then None else Some v | None => None end).

(** An entry of the static catalogue: available, without overrides and without a configured key. *)
Definition _get_technology_service_fallback (service_id : string) : option TechnologyService :=
  option_map (fun v => TechService service_id (sv_slug v) (sv_name v) None (sv_plans_json v) None None false)
    (List.find (fun v => bool_decide (_fallback_service_id (sv_slug v) = service_id)) seed).

(** What was bought, by whom, and how it is paid. *)
Record order := Order { o_item : CartItem; o_buyer : TechUser; o_payment : string; o_contact : string * string * string }.

Definition order_email (o : order) : string := (o_contact o).1.2.
Definition order_name (o : order) : string := (o_contact o).1.1.

(** [str(meta.get("_checkout_razorpay_order_id") or "").strip() or None] *)
Definition checkout_order_id (meta : dict) : option string :=
  let s := strip (py_str (py_or (dget "_checkout_razorpay_order_id" meta) (JStr EmptyString))) in if is_empty s then None else Some s.

Definition purchase_of_payment (payment : string) : Tech json :=
  do found <- query (fun d => List.find (fun p => bool_decide (p.2 = payment)) (sh_purchases (tb_shop d)));
  ret (match found with Some p => JStr p.1 | None => JNull end).

Definition already_processed (item : CartItem) (purchase_id : json) (s : TechnologySubscription) : dict :=
  [("type", JStr "TECHNOLOGY"); ("purchaseId", purchase_id); ("softwareId", JStr (ci_product_id item));
   ("alreadyProcessed", JBool true); ("isService", JBool true); ("subscriptionId", JStr (ts_id s));
   ("providerOrderId", ts_provider_order_id s); ("providerSubscriptionId", opt_text (ts_provider_subscription_id s));
   ("status", JStr (ts_status s)); ("success", JBool (bool_decide (ts_status s = "ACTIVE"%string)))]%string.

(** What the later steps know of a recorded purchase. *)
Record purchase := Purchase {
  pu_sub : string; pu_request : string; pu_slug : string; pu_name : string; pu_key : option string; pu_plan : string;
  pu_cycle : string; pu_metadata : dict }.

(** [meta.get("billingCycle", "").lower()] *)
Definition lowered_cycle (meta : dict) : res string :=
  match dlookup "billingCycle" meta with
  | None => Ok EmptyString
  | Some (JStr s) => Ok (lower s)
  | Some _ => Raise AttributeError
  end.

Definition trimmed_or (s default_ : string) : string := if is_empty (strip s) then default_ else strip s.

Definition create_request (o : order) (v : TechnologyService) : Tech string :=
  do id <- uuid4;
  let r := CoBroRequest id (ci_product_id (o_item o)) (Some (sv_name v)) (Some (tu_id (o_buyer o)))
    (Some (match dlookup "_checkout_razorpay_order_id" (item_meta (o_item o)) with Some v => py_str v | None => EmptyString end))
    (Some (o_payment o)) "PENDING" in
  on_shop (fun h => h <| sh_requests ::= insert id r |>) ;;;
  ret id.

Definition text_or (s other : string) : string := if is_empty s then other else s.

(** The row of a new subscription. *)
Definition captured_subscription (id : string) (o : order) (slug name plan cycle : string) (price : py_float)
    (order_id : option string) (period : json * json) (input : option string) (now : Z) : TechnologySubscription :=
  TechSub id (tu_id (o_buyer o)) slug (text_or name slug) plan cycle price "INR" "PAYMENT_CAPTURED" "CAPTURED" None JNull None
    period.1 period.2 false false false false "PENDING" (Some (_technology_idempotency_key (o_payment o) slug)) 0 None None None None
    order_id (Some (o_payment o)) false input false now.

(** The subscription and its invoice, committed before the provider hears of it;
    [inl] is the answer when the payment has its subscription already. *)
Definition record_purchase (o : order) (v : TechnologyService) : Tech (dict + purchase) :=
  let item := o_item o in
  let meta := item_meta item in
  do base_price <- lift_res (_tech_service_plan_price_inr rates (sv_plans_json v) (ci_selected_plan item) meta
                      (sv_price_override_monthly v) (sv_price_override_annually v));
  do request_id <- create_request o v;
  let product_name := first_text [dget "productName" meta; JStr (sv_name v)] EmptyString in
  let slug := sv_slug v in
  let key := resolve_product_key slug (sv_provider_product_key v) in
  guard_exn (negb (is_empty slug)) (AppException "Technology service slug could not be resolved during checkout." 400) ;;;
  let plan_code := trimmed_or (str_or (ci_selected_plan item) "starter") "starter" in
  let provider_metadata := _technology_provider_metadata meta plan_code in
  do bc_meta <- lift_res (lowered_cycle meta);
  let billing_cycle := if startswith bc_meta "ann" then "annually"%string else "monthly"%string in
  let order_id := checkout_order_id meta in
  do now <- utc_now;
  do period <- _tech_sub_periods billing_cycle;
  do totals <- lift_res (_technology_paid_totals item base_price);
  do existing_paid <- _find_paid_technology_subscription (tu_id (o_buyer o)) (Some (o_payment o)) order_id (Some slug);
  match existing_paid with
  | Some s => ret (inl (already_processed item JNull s))
  | None =>
      do input <- lift_res (provision_input_of provider_metadata);
      do id <- uuid4;
      do clash <- catch
        (insert_sub (captured_subscription id o slug product_name plan_code billing_cycle base_price order_id period input now) ;;; ret None)
        (fun e => match e with
                  | IntegrityError _ =>
                      _reset_aborted_session ;;;
                      alive ;;;
                      do again <- _find_paid_technology_subscription (tu_id (o_buyer o)) (Some (o_payment o)) order_id (Some slug);
                      match again with
                      | Some s => ret (Some s)
                      | None => raise (AppException "Could not persist the paid technology purchase." 400)
                      end
                  | _ => raise e
                  end);
      match clash with
      | Some s => ret (inl (already_processed item JNull s))
      | None =>
          do _ <- new_invoice id (tu_id (o_buyer o)) totals.2 period;
          checkpoint ;;;
          ret (inr (Purchase id request_id slug product_name key plan_code billing_cycle provider_metadata))
      end
  end.

(** ** Activating it *)

Definition service_label (pu : purchase) : string := text_or (pu_name pu) (pu_slug pu).
Definition plan_label (pu : purchase) : string := title (spaced (pu_plan pu)).

Definition pending_mail (o : order) (pu : purchase) (reason : TechnologySubscription -> string) : Tech unit :=
  send_once (pu_sub pu) (fun sub => PendingMail (order_email o) (pu_request pu) (service_label pu) (plan_label pu) (reason sub)).

Definition confirmation_mail (o : order) (pu : purchase) : Tech unit :=
  do sub <- sub_of (pu_sub pu);
  if ts_email_sent sub then ret tt
  else catch (
    send_mail (ConfirmationMail (order_email o) (pu_request pu) (service_label pu) (plan_label pu)
      ("Service ID: " +:+ str_or (ts_provider_subscription_id sub) "N/A")%string) ;;;
    on_sub (pu_sub pu) (fun s => s <| ts_email_sent := true |> <| ts_confirmation_sent := true |>) ;;;
    flush_sub (pu_sub pu)) (fun _ => ret tt).

Definition access_mail (id to_email customer_name : string) : Tech unit :=
  do sub <- sub_of id;
  if ts_access_email_sent sub then ret tt
  else
    do payload <- lift_res (access_email_payload sub (Some customer_name) false);
    match payload with
    | None => ret tt
    | Some p =>
        catch (send_mail (AccessMail to_email p) ;;;
               on_sub id (fun s => s <| ts_access_email_sent := true |> <| ts_access_email_status := "SENT"%string |>) ;;;
               flush_sub id)
          (fun _ => on_sub id (fun s => s <| ts_access_email_status := "FAILED"%string |>) ;;; flush_sub id)
    end.

Definition text_column (v : json) : option string := match v with JStr s => Some s | _ => None end.

Definition _nonempty (v : json) : option string := match v with JStr s => if is_empty s then None else Some s | _ => None end.

(** The first identifier of a service that counts. *)
Definition service_id_of (answer : dict) (user_id : string) (old : option string) : option string :=
  match _nonempty (dget "provider_subscription_id" answer), real_provider_service_id answer user_id with
  | Some i, _ => Some i
  | None, Some i => Some i
  | None, None => old
  end.

(** The status reported and whether it counts as a success. *)
Definition outcome : Type := string * bool.

(** An order found at the provider. *)
Definition adopt_order (o : order) (pu : purchase) (portal_account reconciliation : dict) : Tech outcome :=
  let id := pu_sub pu in
  autobegin ;;;
  on_sub id (fun s => s <| ts_provider_order_id := dget "provider_order_id" reconciliation |>
    <| ts_provider_subscription_id := service_id_of reconciliation (tu_id (o_buyer o)) (ts_provider_subscription_id s) |>) ;;;
  do adopted <- lift_res (extract_provider_credentials reconciliation);
  when (negb (bool_decide (length adopted = 0%nat)))
    (do _ <- merge_subscription_credentials id (merge_provider_credentials [portal_account; adopted]); ret tt) ;;;
  let status := upper (py_str (py_or (dget "status" reconciliation) (JStr "PENDING"))) in
  on_sub id (fun s => s <| ts_last_provider_status := Some status |>) ;;;
  do sub <- sub_of id;
  if bool_decide (upper (py_str (py_or (dget "status" reconciliation) (JStr EmptyString))) = "ACTIVE"%string)
     && truthy (ts_provider_subscription_id sub) then
    on_sub id (fun s => s <| ts_status := "ACTIVE"%string |> <| ts_next_retry_at := None |> <| ts_needs_review := false |>
      <| ts_last_provider_error := None |>) ;;;
    (match ts_current_period_start sub, ts_current_period_end sub with
     | JNull, _ | _, JNull =>
         do period <- _tech_sub_periods (pu_cycle pu);
         on_sub id (fun s => s <| ts_current_period_start := period.1 |> <| ts_current_period_end := period.2 |>)
     | _, _ => ret tt
     end) ;;;
    flush_sub id ;;;
    confirmation_mail o pu ;;;
    access_mail id (order_email o) (order_name o) ;;;
    ret ("ACTIVE"%string, true)
  else
    do now <- utc_now;
    on_sub id (fun s => s <| ts_status := "PENDING"%string |> <| ts_next_retry_at := Some (now + _tech_backoff_for 1) |>) ;;;
    flush_sub id ;;;
    pending_mail o pu (fun _ => "Your provider order was found and is still being activated. Activation will continue automatically — you will receive a confirmation email once your service is active."%string) ;;;
    ret ("PENDING"%string, false).

(** [str(exc)], where the code itself says what it is. *)
Definition exn_text (e : exn) : string :=
  match e with
  | AppException m _ | HTTPException m _ | ValueError m | RuntimeError m => m
  | _ => exn_name e
  end.

Definition simulated_reason : string :=
  "This was processed in ResellPortal test mode. The provider simulated the order, so no customer-accessible service was created in the portal.".
Definition retried_reason : string :=
  "Payment received. Service activation is pending and will be retried automatically. No further charge is required.".

(** [sub.x = prov_res.get(x)] for the identifiers, and the credentials when there are some. *)
Definition take_answer (id status : string) (prov_res : dict) : Tech unit :=
  on_sub id (fun s => s <| ts_status := status |> <| ts_provider_order_id := dget "provider_order_id" prov_res |>
    <| ts_provider_subscription_id := text_column (dget "provider_subscription_id" prov_res) |>) ;;;
  merge_answered id prov_res.

(** The answer to an order. *)
Definition conclude_order (o : order) (pu : purchase) (portal_account prov_res : dict) : Tech outcome :=
  let id := pu_sub pu in
  let provider_success := is_True (dget "success" prov_res) in
  let provider_status := upper (py_str (py_or (dget "status" prov_res) (JStr "PENDING"))) in
  on_sub id (fun s => s <| ts_last_provider_status := Some provider_status |>
    <| ts_last_provider_error :=
         if provider_success then None else Some (py_str (py_or (dget "error" prov_res) (JStr EmptyString))) |>) ;;;
  if provider_success && bool_decide (provider_status = "ACTIVE"%string) then
    on_sub id (fun s => s <| ts_status := "ACTIVE"%string |> <| ts_provider_order_id := dget "provider_order_id" prov_res |>
      <| ts_provider_subscription_id := service_id_of prov_res (tu_id (o_buyer o)) None |>) ;;;
    do _ <- merge_subscription_credentials id
      (as_dict (py_or (dget "credentials" prov_res) (JObj portal_account)));
    let start := dget "current_period_start" prov_res in
    let end_ := dget "current_period_end" prov_res in
    do period <- (match start, end_ with
                  | JNull, _ | _, JNull => _tech_sub_periods (pu_cycle pu)
                  | _, _ => ret (start, end_)
                  end);
    on_sub id (fun s => s <| ts_current_period_start := period.1 |> <| ts_current_period_end := period.2 |>
      <| ts_next_retry_at := None |> <| ts_needs_review := false |> <| ts_last_provider_error := None |>) ;;;
    flush_sub id ;;;
    confirmation_mail o pu ;;;
    access_mail id (order_email o) (order_name o) ;;;
    ret ("ACTIVE"%string, true)
  else if provider_success && bool_decide (provider_status = "TEST_SIMULATED"%string) then
    take_answer id "TEST_SIMULATED" prov_res ;;;
    on_sub id (fun s => s <| ts_next_retry_at := None |> <| ts_needs_review := false |>
      <| ts_last_provider_error := Some (py_str (py_or (dget "message" prov_res)
           (JStr "ResellPortal test-mode order was simulated and is not customer-accessible."))) |>) ;;;
    flush_sub id ;;;
    pending_mail o pu (fun _ => simulated_reason) ;;;
    ret ("TEST_SIMULATED"%string, true)
  else if provider_success && among provider_status ["PENDING"; "PROVISIONING_PENDING"]%string then
    take_answer id "PENDING" prov_res ;;;
    do now <- utc_now;
    on_sub id (fun s => s <| ts_next_retry_at := Some (now + _tech_backoff_for (ts_provision_attempts s)) |>) ;;;
    flush_sub id ;;;
    pending_mail o pu (fun _ => "Provider provisioning is pending. Activation will be retried automatically — you will receive a confirmation email once your service is active."%string) ;;;
    ret ("PENDING"%string, false)
  else
    on_sub id (fun s => s <| ts_status := "PENDING"%string |> <| ts_last_provider_status := Some "PROVISIONING_PENDING"%string |>
      <| ts_last_provider_error := Some (explained [dget "error" prov_res; dget "message" prov_res] "Provider provisioning failed.") |>) ;;;
    do sub <- sub_of id;
    (if retry_limit <=? ts_provision_attempts sub
     then on_sub id (fun s => s <| ts_needs_review := true |> <| ts_next_retry_at := None |>)
     else do now <- utc_now;
          on_sub id (fun s => s <| ts_next_retry_at := Some (now + _tech_backoff_for (ts_provision_attempts s)) |>)) ;;;
    flush_sub id ;;;
    pending_mail o pu (fun _ => retried_reason) ;;;
    ret ("PROVISIONING_PENDING"%string, false).

(** A new order; what the client raises counts as an answer. *)
Definition order_service (o : order) (pu : purchase) (product_key : string) (client_id : option string) (portal_account : dict)
    : Tech outcome :=
  let id := pu_sub pu in
  do order_parameters <- lift_res (build_order_parameters product_key (pu_plan pu) (pu_metadata pu));
  autobegin ;;;
  do now <- utc_now;
  on_sub id (fun s => s <| ts_status := "PROVISIONING"%string |> <| ts_last_provision_attempt_at := Some now |>
    <| ts_provision_attempts := ts_provision_attempts s + 1 |> <| ts_last_provider_status := None |>
    <| ts_last_provider_error := None |>) ;;;
  flush_sub id ;;;
  do prov_res <- catch
    (provision_service (pu_slug pu) (service_label pu) (pu_plan pu) (pu_cycle pu) (order_email o) (tu_id (o_buyer o)) product_key
       order_parameters client_id portal_account)
    (fun e => ret [("success", JBool false); ("status", JStr "PROVISIONING_PENDING");
                   ("error", JStr (text_or (exn_text e) "Provider provisioning failed after payment capture."))]%string);
  conclude_order o pu portal_account prov_res.

Definition missing_error (pu : purchase) (missing : list string) : string :=
  (pu_name pu +:+ " requires: " +:+ join ", " missing +:+ ". Please provide the required information to activate.")%string.

(** A service the provider has: input, account, an order already there, or a new one. *)
Definition with_provider (o : order) (pu : purchase) (product_key : string) : Tech outcome :=
  let id := pu_sub pu in
  let '(ok, missing) := validate_order_input (pu_slug pu) (pu_metadata pu) in
  if negb ok then
    on_sub id (fun s => s <| ts_status := "PENDING"%string |> <| ts_needs_review := true |>
      <| ts_last_provider_status := Some "NEEDS_INPUT"%string |> <| ts_last_provider_error := Some (missing_error pu missing) |>
      <| ts_next_retry_at := None |>) ;;;
    autobegin ;;;
    flush_sub id ;;;
    pending_mail o pu (fun sub => default EmptyString (ts_last_provider_error sub)) ;;;
    ret ("PENDING"%string, false)
  else
    do account <- _ensure_resellportal_portal_account id (order_email o) (tu_id (o_buyer o));
    let '(client_id, portal_account, portal_error) := account in
    (if truthy portal_error then
       on_sub id (fun s => s <| ts_last_provider_status := Some "PROVISIONING_PENDING"%string |>
         <| ts_last_provider_error := portal_error |>) ;;;
       flush_sub id
     else checkpoint) ;;;
    do reconciliation <- catch
      (reconcile_pending_provisioning (pu_slug pu) (tu_id (o_buyer o)) product_key (order_email o) (pu_plan pu) (pu_cycle pu))
      (fun e => ret [("reconciled", JBool false); ("error", JStr (exn_text e))]%string);
    if truth (dget "reconciled" reconciliation) && truth (dget "provider_order_id" reconciliation)
    then adopt_order o pu portal_account reconciliation
    else order_service o pu product_key client_id portal_account.

Definition fulfil_manually (o : order) (pu : purchase) : Tech outcome :=
  let id := pu_sub pu in
  autobegin ;;;
  on_sub id (fun s => s <| ts_status := "PENDING"%string |> <| ts_needs_review := true |>
    <| ts_last_provider_status := Some "MANUAL_FULFILLMENT_REQUIRED"%string |>
    <| ts_last_provider_error := Some manual_error |> <| ts_next_retry_at := None |> <| ts_provision_attempts := retry_limit |>) ;;;
  flush_sub id ;;;
  pending_mail o pu (fun _ => "Payment received. This service is fulfilled manually by our team — activation will complete shortly. No further charge."%string) ;;;
  ret ("PENDING"%string, false).

Definition activate_purchase (o : order) (pu : purchase) : Tech outcome :=
  match pu_key pu with
  | Some key => if negb (is_empty key) && is_provider_mapped (pu_slug pu) then with_provider o pu key else fulfil_manually o pu
  | None => fulfil_manually o pu
  end.

Definition completed (o : order) (pu : purchase) (result : outcome) (sub : TechnologySubscription) : dict :=
  [("type", JStr "TECHNOLOGY"); ("purchaseId", JNull); ("softwareId", JStr (ci_product_id (o_item o))); ("githubLink", JStr EmptyString);
   ("isService", JBool true); ("status", JStr result.1); ("success", JBool result.2);
   ("error", if result.2 then JNull else py_or (opt_text (ts_last_provider_error sub)) JNull); ("subscriptionId", JStr (pu_sub pu));
   ("providerSubscriptionId", opt_text (ts_provider_subscription_id sub)); ("providerOrderId", ts_provider_order_id sub)]%string.

Definition _complete_technology_purchase (o : order) : Tech dict :=
  let item := o_item o in
  let meta := item_meta item in
  let service_slug := lower (first_text [dget "serviceSlug" meta] EmptyString) in
  autobegin ;;;
  do existing_sub <- (if is_empty service_slug then ret None
                      else _find_paid_technology_subscription (tu_id (o_buyer o)) (Some (o_payment o)) (checkout_order_id meta)
                             (Some service_slug));
  do purchase_id <- purchase_of_payment (o_payment o);
  match existing_sub with
  | Some s => ret (already_processed item purchase_id s)
  | None =>
      do listed <- _get_technology_service (ci_product_id item);
      match (match listed with Some v => Some v | None => _get_technology_service_fallback (ci_product_id item) end) with
      | None => raise (AppException "Technology listing not found during checkout." 400)
      | Some v =>
          do recorded <- record_purchase o v;
          match recorded with
          | inl answer => ret answer
          | inr pu =>
              do result <- activate_purchase o pu;
              catch (create_addon_operations_requests (tu_id (o_buyer o)) (o_contact o) (ci_addon_services item)) (fun _ => ret tt) ;;;
              do sub <- sub_of (pu_sub pu);
              ret (completed o pu result sub)
          end
      end
  end.

(** The entry of a checkout, a text. *)
Definition stamped (k : string) (missing : string) (meta : dict) : string :=
  match dlookup k meta with Some v => py_str v | None => missing end.

Definition order_of (item : CartItem) (buyer : TechUser) (payment : string) : order :=
  let meta := item_meta item in
  Order item buyer payment (stamped "_checkout_buyer_name" EmptyString meta, stamped "_checkout_buyer_email" (tu_email buyer) meta,
    stamped "_checkout_buyer_phone" (default EmptyString (tu_phone_number buyer)) meta)%string.

(** [_process_item_post_payment] of an item of type TECHNOLOGY. *)
Definition _process_item_post_payment (item : CartItem) (buyer : TechUser) (payment : string) : Tech dict :=
  _complete_technology_purchase (order_of item buyer payment).

(** ** When the purchase fails *)

(** [a or b] of optional columns *)
Definition or_some {A} (a b : option A) : option A := match a with Some _ => a | None => b end.
Definition or_text (a : option string) (b : string) : option string := if truthy a then a else Some b.

Definition rescue_name (meta : dict) (service_slug : string) : string :=
  first_text [dget "productName" meta; dget "softwareName" meta; dget "name" meta;
              JStr (title (replace_char (Ascii.ascii_of_nat 45) (Ascii.ascii_of_nat 32) service_slug))] "Technology Service".

(** [if not sub.current_period_start or not sub.current_period_end] *)
Definition with_period (period : json * json) (s : TechnologySubscription) : TechnologySubscription :=
  match ts_current_period_start s, ts_current_period_end s with
  | JNull, _ | _, JNull => s <| ts_current_period_start := period.1 |> <| ts_current_period_end := period.2 |>
  | _, _ => s
  end.

(** What is written over a subscription that is not active. *)
Definition rescued (created_new : bool) (error_text order_id payment : string) (base_price : py_float) (input : option string)
    (period : json * json) (now : Z) (s : TechnologySubscription) : TechnologySubscription :=
  with_period period (s <| ts_status := "PENDING"%string |> <| ts_payment_status := "CAPTURED"%string |>
    <| ts_last_provider_status := if created_new then Some "PROVISIONING_PENDING"%string
         else or_text (ts_last_provider_status s) "PROVISIONING_PENDING" |>
    <| ts_last_provider_error := if created_new then Some error_text else or_text (ts_last_provider_error s) error_text |>
    <| ts_price := fl_or (ts_price s) base_price |>
    <| ts_last_provision_attempt_at := or_some (ts_last_provision_attempt_at s) (Some now) |>
    <| ts_next_retry_at := or_some (ts_next_retry_at s) (Some (now + _tech_backoff_for (Z.max 1 (ts_provision_attempts s)))) |>
    <| ts_razorpay_order_id := or_text (ts_razorpay_order_id s) order_id |>
    <| ts_razorpay_payment_id := or_text (ts_razorpay_payment_id s) payment |>
    <| ts_provision_input := if truthy (ts_provision_input s) then ts_provision_input s else or_some input (ts_provision_input s) |>).

(** The subscription's invoice: the first there is, with an amount, or a new one. *)
Definition rescue_invoice (sub_id user_id : string) (paid_total : py_float) (period : json * json) : Tech SubscriptionInvoice :=
  do found <- query (fun d => head (select_where (fun i => bool_decide (si_subscription_id i = sub_id) && bool_decide (si_user_id i = user_id))
                                (values (sh_invoices (tb_shop d)))));
  match found with
  | None => new_invoice sub_id user_id paid_total period
  | Some i =>
      if fl_leb (si_amount i) fl_zero then
        on_shop (fun h => h <| sh_invoices ::= alter (fun i => i <| si_amount := paid_total |>) (si_id i) |>) ;;;
        ret (i <| si_amount := paid_total |>)
      else ret i
  end.

Definition _ensure_paid_technology_service_subscription (item : CartItem) (buyer : TechUser) (order_id payment : string)
    (contact : string * string * string) (track : track_financials) (provisioning_error : exn) : Tech dict :=
  alive ;;;
  autobegin ;;;
  let meta := item_meta item in
  let user_id := tu_id buyer in
  let service_slug := lower (first_text [dget "serviceSlug" meta; dget "slug" meta; JStr (ci_product_id item)] EmptyString) in
  let service_name := rescue_name meta service_slug in
  let plan_code := trimmed_or (py_str (py_or (opt_text (ci_selected_plan item)) (py_or (dget "planCode" meta) (JStr "starter")))) "starter" in
  let provider_metadata := _technology_provider_metadata meta plan_code in
  let billing_cycle := if startswith (lower (py_str (py_or (dget "billingCycle" meta) (JStr EmptyString)))) "ann"
                       then "annually"%string else "monthly"%string in
  do totals <- lift_res (_technology_paid_totals item fl_zero);
  do unit_price <- (let v := dget "_checkout_unit_price_inr" meta in if truth v then lift_res (py_float_of v) else ret fl_zero);
  let base_price := fl_or totals.1.1 (fl_or (default fl_zero (subtotal_ex_gst track)) unit_price) in
  let paid_total := fl_or (amount_charged track) (fl_or totals.2 (fl_or base_price fl_zero)) in
  do now <- utc_now;
  do period <- _tech_sub_periods billing_cycle;
  let error_text := text_or (exn_text provisioning_error) "Provisioning failed after payment capture." in
  do input <- lift_res (provision_input_of provider_metadata);
  let find_again := _find_paid_technology_subscription user_id (Some payment) (Some order_id) (Some service_slug) in
  do found <- find_again;
  do sub_created <- (match found with
    | Some s => ret (ts_id s, false)
    | None =>
        do id <- uuid4;
        let slug := text_or service_slug (ci_product_id item) in
        let s := TechSub id user_id slug service_name plan_code billing_cycle base_price "INR" "PENDING" "CAPTURED" None JNull None
          period.1 period.2 false false false false "PENDING" (Some (_technology_idempotency_key payment slug)) 1 (Some now)
          (Some "PROVISIONING_PENDING"%string) (Some error_text) (Some (now + _tech_backoff_for 1)) (Some order_id) (Some payment)
          false input false now in
        catch (insert_sub s ;;; ret (id, true))
          (fun e => match e with
                    | IntegrityError _ =>
                        _reset_aborted_session ;;;
                        alive ;;;
                        do again <- find_again;
                        match again with Some s => ret (ts_id s, false) | None => raise e end
                    | _ => raise e
                    end)
    end);
  let '(id, created_new) := sub_created in
  do sub <- sub_of id;
  let already_active := bool_decide (upper (ts_status sub) = "ACTIVE"%string) in
  when (negb already_active)
    (on_sub id (rescued created_new error_text order_id payment base_price input period now) ;;; flush_sub id) ;;;
  do invoice <- rescue_invoice id user_id paid_total period;
  checkpoint ;;;
  do sub <- sub_of id;
  let '(name, email, _) := contact in
  when (negb already_active && negb (ts_email_sent sub) && negb (ts_confirmation_sent sub))
    (catch (
       send_mail (PendingMail (text_or email (tu_email buyer)) id service_name (title (spaced plan_code)) retried_reason) ;;;
       on_sub id (fun s => s <| ts_email_sent := true |>) ;;;
       checkpoint) (fun _ => ret tt)) ;;;
  ret [("type", JStr "TECHNOLOGY"); ("isService", JBool true); ("subscriptionId", JStr id);
       ("invoiceNumber", JStr (si_invoice_number invoice));
       ("status", JStr (if already_active then "ACTIVE" else "PROVISIONING_PENDING")); ("success", JBool already_active);
       ("durablePurchaseCreated", JBool true)]%string.

(** ** The webhook *)

(** One entry of the results. *)
Definition item_result (item : CartItem) (success : bool) (rest : dict) : dict :=
  dupdate [("itemId", JStr (ci_id item)); ("success", JBool success)]%string rest.

(** [r.get("success") is not False] *)
Definition not_false (v : json) : bool := match v with JBool false => false | _ => true end.

Definition record_attempt (order_id payment : string) (item : CartItem) (buyer : TechUser) (details : string * string * string)
    (fin : track_financials) (internal_order_id category : string) (facts : fulfillment_facts) (error_source : option string) : Tech unit :=
  let meta := item_meta item in
  let '(fulfillment, overall, error_code, error_message) := facts in
  let '(name, email, phone) := details in
  do years <- lift_res (py_int (py_or (dget "years" meta) (py_or (dget "period" meta) (JInt 1))));
  do amount <- lift_res (numeric_12_2 (amount_charged fin));
  do net <- lift_res (optional_numeric (subtotal_ex_gst fin));
  do gst <- lift_res (optional_numeric (gst_amount fin));
  usable ;;;
  do _ <- record_paid_attempt {|
    pa_internal_order_id := Some internal_order_id; pa_cart_batch_id := Some order_id; pa_category := category;
    pa_provider_subcategory := Some "Razorpay"%string; pa_item_name := _cart_item_product_name item;
    pa_item_id := Some (ci_product_id item); pa_quantity_years := years; pa_buyer := (Some name, Some email, Some phone);
    pa_buyer_user_id := Some (tu_id buyer); pa_amount_charged := amount; pa_currency := "INR"; pa_net_and_gst := (net, gst);
    pa_payment_status := TrackPayment.CAPTURED; pa_razorpay_order_id := Some order_id; pa_razorpay_payment_id := Some payment;
    pa_razorpay_refund_id := None; pa_fulfillment_status := fulfillment; pa_overall_status := overall;
    pa_openprovider_domain_id := None; pa_error_code := error_code; pa_error_message := error_message;
    pa_error_source := error_source; pa_notes := None; pa_admin_deep_link := None; pa_created_at := None; pa_clear_errors := false |};
  ret tt.

Definition tech_category (is_service : bool) : string :=
  if is_service then TrackRecordCategory.TECHNOLOGY_SERVICES else TrackRecordCategory.TECHNOLOGY_PURCHASE.

(** [item.metadata_json = meta] with the payment marked, and [repo.save]. *)
Definition mark_fulfilled (item : CartItem) (payment : string) : Tech unit :=
  usable ;;;
  on_shop (fun h => h <| sh_items ::= alter (fun i => i <| ci_metadata_json :=
    Some (dset "_fulfilled_razorpay_payment_id" (JStr payment) (item_meta item)) |>) (ci_id item) |>).

Definition from_error (code : option string) : option string :=
  if truthy code then Some "RESELLPORTAL_OR_BACKEND"%string else None.

Definition fulfil_item (order_id payment : string) (buyer : TechUser) (item : CartItem) : Tech dict :=
  let meta := item_meta item in
  if truth (dget "_fulfilled_razorpay_payment_id" meta) then
    ret [("itemId", JStr (ci_id item)); ("alreadyProcessed", JBool true); ("success", JBool true)]%string
  else
    let details := _checkout_buyer_details item buyer in
    do fin <- lift_res (_checkout_financials_for_track item);
    let is_tech_service := negb (is_empty (first_text [dget "serviceSlug" meta] EmptyString)) in
    let internal_order_id := _track_internal_order_id order_id item [] in
    do done <- catch
      (do result <- _process_item_post_payment item buyer payment;
       mark_fulfilled item payment ;;;
       let is_service := truth (dget "isService" result) || truth (dget "subscriptionId" result) || is_tech_service in
       let facts := _tech_fulfillment_from_result result is_service in
       ret (item_result item (not_false (dget "success" result)) result, is_service, facts, from_error facts.1.2))
      (fun e =>
       alive ;;;
       _reset_aborted_session ;;;
       do durable <- _ensure_paid_technology_service_subscription item buyer order_id payment details fin e;
       ret (item_result item false (dset "error" (JStr (exn_text e)) durable), is_tech_service,
            (FulfillmentStatus.IN_PROGRESS, OverallStatus.PENDING, Some "SERVICE_PROVISIONING_FAILED"%string, Some (exn_text e)),
            Some "RESELLPORTAL_OR_BACKEND"%string));
    let '(result, is_service, facts, source) := done in
    record_attempt order_id payment item buyer details fin internal_order_id (tech_category is_service) facts source ;;;
    ret result.

Fixpoint fulfil_items (order_id payment : string) (buyer : TechUser) (items : list CartItem) : Tech (list dict) :=
  match items with
  | [] => ret []
  | item :: items' =>
      do r <- fulfil_item order_id payment buyer item;
      do rs <- fulfil_items order_id payment buyer items';
      ret (r :: rs)
  end.

Inductive webhook_outcome :=
| NotProcessed (reason : string)
| Processed (items_found items_deleted : nat) (success : bool) (results : list dict).

Definition of_order (order_id : string) (item : CartItem) : bool :=
  bool_decide (ci_product_type item = TECHNOLOGY) && is_text order_id (dget "_checkout_razorpay_order_id" (item_meta item)).

(** [get_by_user_for_update] *)
Definition cart_of (user_id : string) (d : tech_db) : list CartItem :=
  merge_sort (by_asc ci_created_at) (select_where (fun i => bool_decide (ci_user_id i = user_id)) (values (sh_items (tb_shop d)))).

Definition delete_items_by_ids (ids : list string) (user_id : string) : Tech nat :=
  do found <- query (fun d => List.filter (fun i => bool_decide (ci_id i ∈ ids) && bool_decide (ci_user_id i = user_id))
                                (values (sh_items (tb_shop d))));
  on_shop (fun h => h <| sh_items ::= fun m => foldr (fun i m => delete (ci_id i) m) m found |>) ;;;
  ret (length found).

Definition complete_technology_payment_from_webhook (razorpay_order_id : string) (razorpay_payment_id : option string)
    (buyer_id : string) : Tech webhook_outcome :=
  on_shop (fun h => h <| sh_begun := true |> <| sh_expired := false |>) ;;;
  if is_empty razorpay_order_id || negb (truthy razorpay_payment_id) || is_empty buyer_id then ret (NotProcessed "missing identifiers")
  else
    let payment := default EmptyString razorpay_payment_id in
    do found <- query (fun d => tb_users d !! buyer_id);
    match found with
    | None => ret (NotProcessed "buyer not found")
    | Some buyer =>
        do items <- query (cart_of (tu_id buyer));
        match List.filter (of_order razorpay_order_id) items with
        | [] => ret (NotProcessed EmptyString)
        | checkout_items =>
            do results <- fulfil_items razorpay_order_id payment buyer checkout_items;
            do deleted <- delete_items_by_ids (map ci_id checkout_items) (tu_id buyer);
            checkpoint ;;;
            ret (Processed (length checkout_items) deleted
              (forallb (fun r => not_false (dget "success" r)) results) results)
        end
    end.
End Checkout.
