(* ===== verification/TechCheckoutFacts.v ===== *)
(** * What the purchase of a technology subscription guarantees

    Theorems about TechCheckout, whatever the provider answers, whichever mails
    fail and however the run ends: nothing is asked of the provider before the
    purchase is committed, a subscription a purchase leaves behind is served or in
    the hands of the worker of TechRetry or of an administrator, and a payment is
    fulfilled once. *)

From stdpp Require Import sorting.
From S2P Require Import Prelude Text Numerals PyNum PyJson Urls Secrets ExchangeRates TrackRecords TechStore TechStatus TechAccess ProductMapper ResellPortal TechRetry TechWorker TechCheckout.

(** ** Steps that keep an invariant *)

(** [I] depends on the shop through the invoices at most. *)
Definition invoices_only (I : tech_db -> Prop) : Prop :=
  forall f d, (forall h, sh_invoices (f h) = sh_invoices h) -> I d -> I (d <| tb_shop ::= f |>).

(** The invoices may grow and be given an amount. *)
Definition admits_invoices (I : tech_db -> Prop) : Prop :=
  (forall i d, sh_invoices (tb_shop d) !! si_id i = None -> I d -> I (d <| tb_shop ::= set sh_invoices (insert (si_id i) i) |>)) /\
  (forall k x d, I d -> I (d <| tb_shop ::= set sh_invoices (alter (fun i => i <| si_amount := x |>) k) |>)).

(** A row as a purchase inserts it. *)
Definition born (s : TechnologySubscription) : Prop :=
  ts_payment_status s = TrackPayment.CAPTURED /\ ts_is_deleted s = false /\ ts_provision_attempts s <= 1 /\
  ts_status s ∈ ["PAYMENT_CAPTURED"; "PENDING"]%string.

Definition admits_rows (I : tech_db -> Prop) : Prop :=
  forall s d, born s -> tb_subs d !! ts_id s = None -> I d -> I (d <| tb_subs ::= insert (ts_id s) s |>).

Section Steps.
#[local] Set Default Proof Using "Type*".
Context {cfg : TechConfig} {portal : Portal} {cipher : Cipher}.
Context (I : tech_db -> Prop) (HS : invoices_only I).
Context (HF : forall b d, I d -> I (d <| tb_failed := b |>)) (HT : forall t d, I d -> I (d <| tb_tracks := t |>)).

Lemma upholds_on_shop f : (forall h, sh_invoices (f h) = sh_invoices h) -> upholds I (on_shop f).
Proof. intros Hf. apply upholds_modify. intros d. by apply HS. Qed.

#[local] Hint Extern 1 (upholds _ (on_shop _)) => apply upholds_on_shop; intros ?; reflexivity : upholds.

Lemma upholds_autobegin : upholds I autobegin.
Proof. unfold autobegin. upholds. Qed.

Lemma upholds_checkpoint : upholds I checkpoint.
Proof. unfold checkpoint. upholds. Qed.

Lemma upholds_reset : upholds I _reset_aborted_session.
Proof. unfold _reset_aborted_session. upholds. Qed.

Lemma upholds_alive : upholds I alive.
Proof using Type. unfold alive. upholds. Qed.

Lemma upholds_flush_fails {A} e : upholds I (flush_fails e : Tech A).
Proof using HF. unfold flush_fails. upholds. apply upholds_modify. intros d. apply HF. Qed.

Lemma upholds_find_paid u p o s : upholds I (_find_paid_technology_subscription u p o s).
Proof using Type. unfold _find_paid_technology_subscription. upholds. Qed.

Lemma upholds_request_addons u contact services : upholds I (request_addons u contact services).
Proof. induction services as [|x services IH]; cbn [request_addons]; upholds. Qed.

Lemma upholds_addons u contact csv : upholds I (create_addon_operations_requests u contact csv).
Proof.
  pose proof upholds_request_addons. unfold create_addon_operations_requests, resolve_live_compliance_addon_services. upholds.
Qed.

Lemma upholds_create_request o v : upholds I (create_request o v).
Proof. unfold create_request. upholds. Qed.

Lemma upholds_mark_fulfilled item payment : upholds I (mark_fulfilled item payment).
Proof. unfold mark_fulfilled. upholds. Qed.

Lemma upholds_track_writes r : upholds I (track_save r : Tech unit).
Proof. unfold track_save. upholds. apply upholds_modify. intros d'. apply HT. Qed.

Lemma upholds_record_attempt order_id payment item buyer details fin number category facts source :
  upholds I (record_attempt order_id payment item buyer details fin number category facts source).
Proof.
  pose proof upholds_track_writes.
  unfold record_attempt, record_paid_attempt, find_by_razorpay_payment_id, find_by_razorpay_order_id,
    find_by_internal_order_id, generate_internal_order_id. upholds.
Qed.

Lemma upholds_delete_items ids u : upholds I (delete_items_by_ids ids u).
Proof. unfold delete_items_by_ids. upholds. Qed.
End Steps.

#[export] Hint Resolve upholds_autobegin upholds_checkpoint upholds_reset upholds_alive upholds_flush_fails upholds_find_paid upholds_addons
  upholds_create_request upholds_mark_fulfilled upholds_record_attempt upholds_delete_items : upholds.

(** Changes that leave which row it is, who paid and with what. *)
Definition same_payment (s s' : TechnologySubscription) : Prop :=
  ts_user_id s' = ts_user_id s /\ ts_razorpay_payment_id s' = ts_razorpay_payment_id s /\
  ts_payment_status s' = ts_payment_status s /\ ts_is_deleted s' = ts_is_deleted s /\ ts_id s' = ts_id s.

Lemma payment_core id I : closed same_payment id I -> closed same_core id I.
Proof. apply closed_mono. unfold same_core, same_payment. tauto. Qed.

Lemma closed_flags fine id I : closed fine id I ->
  (forall b d, I d -> I (d <| tb_failed := b |>)) /\ (forall t d, I d -> I (d <| tb_tracks := t |>)).
Proof. by intros [H1 H2 _]. Qed.

Section Account.
#[local] Set Default Proof Using "Type*".
Context {cfg : TechConfig} {portal : Portal} {cipher : Cipher}.
Context (id : string) (I : tech_db -> Prop) (HC : closed same_core id I) (HS : invoices_only I).
Context (HF : forall b d, I d -> I (d <| tb_failed := b |>)) (HT : forall t d, I d -> I (d <| tb_tracks := t |>)).

#[local] Hint Extern 1 (upholds _ (on_sub _ _)) =>
  apply (upholds_on_sub_core id I HC); intros ?; repeat split; intros ?; assumption || reflexivity : upholds.

Lemma upholds_access_mail e n : upholds I (access_mail id e n).
Proof using HC. unfold access_mail. upholds. Qed.

Lemma upholds_confirmation_mail o pu : pu_sub pu = id -> upholds I (confirmation_mail o pu).
Proof using HC. intros Hid. unfold confirmation_mail. rewrite Hid. upholds. Qed.

Lemma upholds_pending_mail o pu reason : pu_sub pu = id -> upholds I (pending_mail o pu reason).
Proof using HC. intros Hid. unfold pending_mail. rewrite Hid. upholds. Qed.

Lemma upholds_portal_account e u : (forall u, upholds I (create_portal_client e u)) -> upholds I (_ensure_resellportal_portal_account id e u).
Proof.
  intros Hclient.
  unfold _ensure_resellportal_portal_account, _find_stored_resellportal_portal_account, _stored_portal_account_for_user. upholds.
Qed.
End Account.

#[export] Hint Resolve upholds_access_mail upholds_confirmation_mail upholds_pending_mail upholds_portal_account : upholds.

Section Activation.
#[local] Set Default Proof Using "Type*".
Context {cfg : TechConfig} {portal : Portal} {cipher : Cipher}.
Context (id : string) (I : tech_db -> Prop) (HP : closed same_payment id I) (HS : invoices_only I).
Context (HF : forall b d, I d -> I (d <| tb_failed := b |>)) (HT : forall t d, I d -> I (d <| tb_tracks := t |>)).
Context (Hclient : forall e u, upholds I (create_portal_client e u)).
Context (Hfind : forall slug uid key mail plan cycle, upholds I (find_matching_order slug uid key mail plan cycle)).
Context (Hprovision : forall slug name plan cycle e u key ps c acc, upholds I (provision_service slug name plan cycle e u key ps c acc)).

Lemma upholds_on_sub_payment f : (forall s, same_payment s (f s)) -> upholds I (on_sub id f).
Proof. intros Hf. apply upholds_modify. intros d. by apply (closed_row _ _ _ HP). Qed.

#[local] Hint Extern 1 (upholds _ (on_sub _ _)) => apply upholds_on_sub_payment; intros ?; repeat split : upholds.
#[local] Hint Extern 1 (closed same_core _ _) => apply payment_core; assumption : upholds.

Lemma upholds_activate o pu : pu_sub pu = id -> upholds I (activate_purchase o pu).
Proof.
  intros Hid. pose proof (fun reason => upholds_pending_mail id I (payment_core _ _ HP) o pu reason Hid).
  pose proof (upholds_confirmation_mail id I (payment_core _ _ HP) o pu Hid).
  unfold activate_purchase, with_provider, fulfil_manually, adopt_order, order_service, conclude_order, take_answer,
    reconcile_pending_provisioning, _tech_sub_periods.
  cbn zeta. rewrite Hid. upholds.
Qed.
End Activation.

(** ** A whole run *)

(** A query whose answer decides about a write. *)
Lemma upholds_query_then {A B} (I : tech_db -> Prop) (f : tech_db -> A) (k : A -> Tech B) :
  (forall s, good I s -> good I (k (f (s_db s)) s).2) -> upholds I (bind (query f) k).
Proof.
  intros Hk s Hs. unfold query, usable, bind, gets, guard_exn. destruct (tb_failed (s_db s)); [done|]. by apply Hk.
Qed.

Section Inserts.
#[local] Set Default Proof Using "Type*".
Context (I : tech_db -> Prop) (HN : admits_invoices I) (HB : admits_rows I) (HF : forall b d, I d -> I (d <| tb_failed := b |>)).

Lemma upholds_insert_sub s : born s -> upholds I (insert_sub s).
Proof using HB HF.
  intros Hs. apply upholds_query_then. intros s0 H0. destruct (key_taken s (s_db s0)) eqn:E; [by apply upholds_flush_fails|].
  apply orb_false_iff in E as [E%bool_decide_eq_false _]. destruct H0 as [H1 H2]. split; [done|]. cbn.
  apply HB; [done| |done]. destruct (tb_subs (s_db s0) !! ts_id s); [|done]. destruct E. by eexists.
Qed.

Lemma upholds_new_invoice sub_id u amount period : upholds I (new_invoice sub_id u amount period).
Proof using HN HF.
  assert (H : forall i, upholds I (insert_invoice i)).
  { intros i. apply upholds_query_then. intros s0 H0. cbn zeta. case_match eqn:E; [by apply upholds_flush_fails|].
    apply orb_false_iff in E as [E%bool_decide_eq_false _]. destruct H0 as [H1 H2]. split; [done|]. cbn.
    apply (proj1 HN); [|done]. destruct (sh_invoices _ !! si_id i); [|done]. destruct E. by eexists. }
  unfold new_invoice, new_invoice_number. upholds.
Qed.

Lemma upholds_rescue_invoice sub_id u amount period : upholds I (rescue_invoice sub_id u amount period).
Proof using HN HF.
  pose proof upholds_new_invoice.
  assert (forall k x, upholds I (on_shop (fun h => h <| sh_invoices ::= alter (fun i => i <| si_amount := x |>) k |>))).
  { intros k x. apply upholds_modify. intros d. apply (proj2 HN). }
  unfold rescue_invoice. upholds.
Qed.
End Inserts.

(** A run for a buyer whose items keep [I]. *)
Lemma webhook_items {cfg : TechConfig} {portal : Portal} {cipher : Cipher} (I : tech_db -> Prop) seed rates payment buyer clock ids order_id buyer_id d :
  invoices_only I -> (forall b d, I d -> I (d <| tb_failed := b |>)) -> (forall t d, I d -> I (d <| tb_tracks := t |>)) ->
  (forall items, upholds I (fulfil_items seed rates order_id payment buyer items)) ->
  payment <> EmptyString -> tb_users d !! buyer_id = Some buyer -> I d ->
  I (tech_request clock ids (complete_technology_payment_from_webhook seed rates order_id (Some payment) buyer_id) d).2.
Proof.
  intros HS HF HT Hitems Hp Hu Hd.
  unfold tech_request, run_request. set (s0 := open_session clock ids d). assert (Hs : good I s0) by by split.
  enough (H' : good I (complete_technology_payment_from_webhook seed rates order_id (Some payment) buyer_id s0).2)
    by (destruct H' as [H' _]; revert H'; by destruct (complete_technology_payment_from_webhook _ _ _ _ _ s0)).
  unfold complete_technology_payment_from_webhook. unfold bind at 1.
  assert (Hs1 : good I (on_shop (fun h => h <| sh_begun := true |> <| sh_expired := false |>) s0).2).
  { apply upholds_on_shop; [done..|]. exact Hs. }
  unfold on_shop, modify in *. cbn [fst snd] in *. set (s1 := Session _ _ _ _ _) in *.
  case_match; [done|]. destruct (tb_failed (s_db s1)) eqn:Hf; [unfold query, usable, bind, gets, guard_exn; by rewrite Hf|].
  rewrite query_now by done. replace (tb_users (s_db s1) !! buyer_id) with (Some buyer) by done. revert Hs1.
  match goal with |- good _ ?s -> good _ (?m _).2 => change (good I s -> good I (m s).2); enough (Hm : upholds I m) by apply Hm end.
  upholds.
Qed.

Section Record.
#[local] Set Default Proof Using "Type*".
Context {cfg : TechConfig} {portal : Portal} {cipher : Cipher}.
Context (I : tech_db -> Prop) (HS : invoices_only I) (HN : admits_invoices I) (HB : admits_rows I).
Context (HF : forall b d, I d -> I (d <| tb_failed := b |>)) (HT : forall t d, I d -> I (d <| tb_tracks := t |>)).

Lemma upholds_record_purchase rates o v : upholds I (record_purchase rates o v).
Proof.
  pose proof (upholds_new_invoice I HN HF).
  unfold record_purchase, _tech_sub_periods.
  assert (Hins : forall id slug name plan cycle price order_id period input now,
    upholds I (insert_sub (captured_subscription id o slug name plan cycle price order_id period input now))).
  { intros. apply upholds_insert_sub; [done..|]. split; [done|split; [done|split; [by cbn|by left]]]. }
  upholds.
Qed.
End Record.

Section Run.
#[local] Set Default Proof Using "Type*".
Context {cfg : TechConfig} {portal : Portal} {cipher : Cipher}.
Context (I : tech_db -> Prop) (HS : invoices_only I) (HN : admits_invoices I) (HB : admits_rows I).
Context (HC : forall id, closed same_core id I).
Context (seed : list TechnologyService) (rates : rates_map).

Let HF : forall b d, I d -> I (d <| tb_failed := b |>) := proj1 (closed_flags _ _ _ (HC EmptyString)).
Let HT : forall t d, I d -> I (d <| tb_tracks := t |>) := proj2 (closed_flags _ _ _ (HC EmptyString)).

Context (payment : string).
Context (Hrescued : forall id b e o base input period now, upholds I (on_sub id (rescued b e o payment base input period now))).
Context (buyer : TechUser) (Hpurchase : forall item, upholds I (_process_item_post_payment seed rates item buyer payment)).

Lemma upholds_rescue item order_id contact track e :
  upholds I (_ensure_paid_technology_service_subscription item buyer order_id payment contact track e).
Proof.
  pose proof HF as HF'. pose proof HT as HT'. pose proof (upholds_rescue_invoice I HN HF).
  assert (Hmail : forall id, upholds I (on_sub id (fun s => s <| ts_email_sent := true |>))).
  { intros id. apply (upholds_on_sub_core id I (HC id)). intros s. by repeat split. }
  unfold _ensure_paid_technology_service_subscription, _tech_sub_periods. cbn zeta. 
  repeat (apply upholds_bind; [solve [upholds]|intros ?]).
  apply upholds_bind; [|upholds]. 
  case_match; [upholds|]. apply upholds_bind; [upholds|]. intros id. apply upholds_catch; [|upholds].
  apply upholds_bind; [|upholds]. apply upholds_insert_sub; [done..|]. split; [done|split; [done|split; [by cbn|by right; left]]].
Qed.

Lemma upholds_fulfil order_id items : upholds I (fulfil_items seed rates order_id payment buyer items).
Proof.
  pose proof HF as HF'. pose proof HT as HT'. pose proof upholds_rescue.
  induction items as [|item items IH]; cbn [fulfil_items]; [upholds|]. unfold fulfil_item. upholds.
Qed.

Lemma webhook_upholds clock ids order_id buyer_id d : payment <> EmptyString -> tb_users d !! buyer_id = Some buyer -> I d ->
  I (tech_request clock ids (complete_technology_payment_from_webhook seed rates order_id (Some payment) buyer_id) d).2.
Proof. apply webhook_items; [done|exact HF|exact HT|]. intros items. apply upholds_fulfil. Qed.
End Run.

(** ** Recorded before the provider hears of it *)

(** A subscription of the buyer, paid with the payment, and its invoice. *)
Definition recorded (user_id payment : string) (d : tech_db) : Prop :=
  exists k s j i, tb_subs d !! k = Some s /\ ts_user_id s = user_id /\ ts_razorpay_payment_id s = Some payment /\
    ts_payment_status s = TrackPayment.CAPTURED /\ sh_invoices (tb_shop d) !! j = Some i /\ si_subscription_id i = k.

(** Changes that leave the payment recorded. *)
Definition pays (payment : string) (s s' : TechnologySubscription) : Prop :=
  ts_user_id s' = ts_user_id s /\
  (ts_razorpay_payment_id s = Some payment -> ts_razorpay_payment_id s' = Some payment) /\
  (ts_payment_status s = TrackPayment.CAPTURED -> ts_payment_status s' = TrackPayment.CAPTURED).

Section Recorded.
Context (uid payment : string).

Lemma recorded_shop d d' : tb_subs d' = tb_subs d ->
  (forall j i, sh_invoices (tb_shop d) !! j = Some i ->
     exists i', sh_invoices (tb_shop d') !! j = Some i' /\ si_subscription_id i' = si_subscription_id i) ->
  recorded uid payment d -> recorded uid payment d'.
Proof.
  intros Hs Hi (k & s & j & i & H1 & H2 & H3 & H4 & H5 & H6). destruct (Hi _ _ H5) as (i' & H7 & H8).
  exists k, s, j, i'. rewrite Hs, H8. by repeat split.
Qed.

Lemma closed_recorded id : closed (pays payment) id (recorded uid payment).
Proof.
  split; [done..|]. intros f d Hf (k & s & j & i & H1 & H2 & H3 & H4 & H5).
  destruct (decide (k = id)) as [->|Hk].
  - destruct (Hf s) as (Hu & Hp & Hc). exists id, (f s), j, i. cbn. rewrite lookup_alter_eq, H1. cbn. rewrite Hu. auto 7.
  - exists k, s, j, i. cbn. by rewrite lookup_alter_ne.
Qed.

Lemma recorded_invoices : invoices_only (recorded uid payment).
Proof. intros f d Hf. apply recorded_shop; [done|]. intros j i Hj. exists i. cbn. by rewrite Hf. Qed.

Lemma recorded_admits_invoices : admits_invoices (recorded uid payment).
Proof.
  split.
  - intros i d Hi. apply recorded_shop; [done|]. intros j i' Hj. exists i'. cbn. rewrite lookup_insert_ne; [done|congruence].
  - intros k x d. apply recorded_shop; [done|]. intros j i Hj. cbn.
    destruct (decide (j = k)) as [->|Hk]; [rewrite lookup_alter_eq, Hj; by eexists|rewrite lookup_alter_ne, Hj by done; by exists i].
Qed.

Lemma recorded_admits_rows : admits_rows (recorded uid payment).
Proof.
  intros s' d _ Hn (k & s & j & i & H1 & H2). exists k, s, j, i. cbn. rewrite lookup_insert_ne; [done|congruence].
Qed.
End Recorded.

Lemma payment_pays payment s s' : same_payment s s' -> pays payment s s'.
Proof. unfold same_payment, pays. intuition congruence. Qed.

Lemma core_pays payment s s' : same_core s s' -> pays payment s s'.
Proof. unfold same_core, pays. intuition congruence. Qed.

Lemma rescued_pays payment b e o base input period now s : pays payment s (rescued b e o payment base input period now s).
Proof.
  assert (H : forall x, pays payment s x -> pays payment s (with_period period x)).
  { intros x Hx. unfold with_period. destruct (ts_current_period_start x), (ts_current_period_end x); exact Hx. }
  apply H. split; [done|]. split; [|done]. intros Hp. cbn. unfold or_text. rewrite Hp. by destruct (truthy _).
Qed.

(** *** A purchase that goes on to the provider is committed *)

(** The row of [id] as it was inserted, with an invoice. *)
Definition captured_row (o : order) (id : string) (d : tech_db) : Prop :=
  exists slug name plan cycle price order_id period input now j i,
    tb_subs d !! id = Some (captured_subscription id o slug name plan cycle price order_id period input now) /\
    sh_invoices (tb_shop d) !! j = Some i /\ si_subscription_id i = id.

Lemma usable_ok_inv a (s s' : session tech_db tech_effect) : usable s = (Ok a, s') -> s' = s.
Proof. unfold usable, bind, gets, guard_exn. by destruct (negb _); intros [= _ <-]. Qed.

Lemma query_ok_inv {A} (f : tech_db -> A) a (s s' : session tech_db tech_effect) : query f s = (Ok a, s') -> a = f (s_db s) /\ s' = s.
Proof.
  unfold query. intros ([] & s1 & H1%usable_ok_inv & H2)%bind_ok_inv. subst s1. by apply gets_ok_inv in H2.
Qed.

Lemma insert_sub_ok_inv sub a s s' : insert_sub sub s = (Ok a, s') ->
  tb_subs (s_db s') = <[ts_id sub := sub]> (tb_subs (s_db s)).
Proof.
  unfold insert_sub. intros (b & s1 & [-> ->]%query_ok_inv & H)%bind_ok_inv.
  destruct (key_taken sub (s_db s)); [discriminate H|]. by apply modify_ok_inv in H as ->.
Qed.

Lemma insert_invoice_ok_inv i a s s' : insert_invoice i s = (Ok a, s') ->
  tb_subs (s_db s') = tb_subs (s_db s) /\ sh_invoices (tb_shop (s_db s')) !! si_id i = Some i.
Proof.
  unfold insert_invoice. intros (b & s1 & [-> ->]%query_ok_inv & H)%bind_ok_inv. cbn zeta in H.
  case_match; [discriminate H|]. apply modify_ok_inv in H as ->. cbn. by rewrite lookup_insert_eq.
Qed.

Lemma new_invoice_ok_inv id u x period inv s s' : new_invoice id u x period s = (Ok inv, s') ->
  tb_subs (s_db s') = tb_subs (s_db s) /\ si_subscription_id inv = id /\ sh_invoices (tb_shop (s_db s')) !! si_id inv = Some inv.
Proof.
  unfold new_invoice, new_invoice_number. intros H. ok_inv H. ok_inv Hr. by apply insert_invoice_ok_inv in Hr0 as [? ?].
Qed.

Lemma checkpoint_ok_inv a (s s' : session tech_db tech_effect) : checkpoint s = (Ok a, s') ->
  s_committed s' = s_db s /\ s_db s' = (s_db s) <| tb_shop ::= set sh_begun (fun _ => false) |>.
Proof.
  unfold checkpoint, tech_commit. intros ([] & s1 & H & H')%bind_ok_inv.
  apply bind_ok_inv in H as ([] & s2 & H1%usable_ok_inv & H). subst s2. apply commit_ok_inv in H. subst s1.
  unfold on_shop in H'. apply modify_ok_inv in H'. by subst s'.
Qed.

Lemma record_purchase_captured rates o v s pu s' :
  record_purchase rates o v s = (Ok (inr pu), s') -> good (captured_row o (pu_sub pu)) s'.
Proof.
  unfold record_purchase. intros H. ok_inv H.
  destruct x5 as [sub|]; [discriminate H|]. clear Hr Hr0 Hr1 Hr2 Hr3 Hr4 Hr5.
  ok_inv H. destruct x6 as [sub|]; [discriminate H|]. ok_inv H. injection H as ->. cbn [pu_sub].
  apply catch_ok_inv in Hr0 as [Hr0|(e & s6 & _ & Hr0)].
  - apply bind_ok_inv in Hr0 as (? & s6 & Hi%insert_sub_ok_inv & Hr0). apply ret_ok_inv in Hr0 as [_ ->].
    apply new_invoice_ok_inv in Hr1 as (H1 & H2 & H3). apply checkpoint_ok_inv in Hr2 as [H4 H5].
    split; [rewrite H4|rewrite H5]; unfold captured_row; cbn;
      (repeat eexists; [rewrite H1, Hi; by apply lookup_insert_eq|exact H3|exact H2]).
  - destruct e; try discriminate Hr0. ok_inv Hr0. by case_match.
Qed.

Lemma captured_recorded o id d : captured_row o id d -> recorded (tu_id (o_buyer o)) (o_payment o) d.
Proof.
  intros (slug & name & plan & cycle & price & order_id & period & input & now & j & i & H1 & H2 & H3).
  eexists id, _, j, i. split_and!; [exact H1|done..].
Qed.

(** A purchase keeps [I] when its activation leads from what is recorded back to [I]. *)
Lemma upholds_purchase {cfg : TechConfig} {portal : Portal} {cipher : Cipher} (I : tech_db -> Prop) (F : purchase -> tech_db -> Prop)
    seed rates o :
  invoices_only I -> admits_invoices I -> admits_rows I ->
  (forall b d, I d -> I (d <| tb_failed := b |>)) -> (forall t d, I d -> I (d <| tb_tracks := t |>)) ->
  (forall v s pu s', good I s -> record_purchase rates o v s = (Ok (inr pu), s') -> good I s' -> good (F pu) s') ->
  (forall pu, leads (F pu) I (activate_purchase o pu)) ->
  upholds I (_complete_technology_purchase seed rates o).
Proof.
  intros HS HN HB HF HT Hrec Hact. pose proof (upholds_record_purchase I HS HN HB HF HT rates o) as Hr.
  unfold _complete_technology_purchase.
  do 3 (apply upholds_bind; [unfold purchase_of_payment; upholds|intros ?]). case_match; [upholds|].
  apply upholds_bind; [unfold _get_technology_service; upholds|]. intros listed. case_match; [|upholds].
  apply (leads_bind_fact (fun r d => match r with inl _ => I d | inr pu => F pu d end)).
  - intros s Hs. specialize (Hr t s Hs). specialize (Hrec t s).
    destruct (record_purchase rates o t s) as [[[ans|pu]|e] s']; [done| |done]. by apply Hrec.
  - intros [ans|pu]; [apply (upholds_ret I)|]. apply (leads_bind I); [apply Hact|done|]. intros result.
    change (upholds I (catch (create_addon_operations_requests (tu_id (o_buyer o)) (o_contact o) (ci_addon_services (o_item o)))
      (fun _ => ret tt) ;;; do sub <- sub_of (pu_sub pu); ret (completed o pu result sub))). upholds.
Qed.

Section RecordedRuns.
#[local] Set Default Proof Using "Type*".
Context {cfg : TechConfig} {portal : Portal} {cipher : Cipher}.
Context (seed : list TechnologyService) (rates : rates_map) (uid payment : string) (log : list portal_request).

Definition unsent_or_recorded (d : tech_db) : Prop := tb_portal d = log \/ recorded uid payment d.

Lemma closed_pays_log id : closed (pays payment) id unsent_or_recorded.
Proof.
  destruct (closed_recorded uid payment id) as [H1 H2 H3].
  split; [intros t d [?|?]; [by left|right; by apply H1]|intros b d [?|?]; [by left|right; by apply H2]|].
  intros f d Hf [?|?]; [by left|right; by apply H3].
Qed.

Lemma unsent_invoices : invoices_only unsent_or_recorded.
Proof. intros f d Hf [?|?]; [by left|right; by apply recorded_invoices]. Qed.

Lemma unsent_admits_invoices : admits_invoices unsent_or_recorded.
Proof.
  destruct (recorded_admits_invoices uid payment) as [H1 H2].
  split; [intros i d Hi [?|?]; [by left|right; by apply H1]|intros k x d [?|?]; [by left|right; by apply H2]].
Qed.

Lemma unsent_admits_rows : admits_rows unsent_or_recorded.
Proof. intros s d Hb Hn [?|?]; [by left|right; by apply recorded_admits_rows]. Qed.

(** What follows the recording of the purchase. *)
Lemma recorded_activation o pu : upholds (recorded uid payment) (activate_purchase o pu).
Proof.
  pose proof (closed_recorded uid payment (pu_sub pu)) as HC.
  destruct (portal_free_upholds (recorded uid payment)) as (Hc & Hf & Hp); [done|].
  apply (upholds_activate (pu_sub pu)); [|by apply recorded_invoices|apply HC|apply HC|done..].
  eapply closed_mono; [|exact HC]. apply payment_pays.
Qed.

Lemma recorded_purchase item buyer : tu_id buyer = uid ->
  upholds unsent_or_recorded (_process_item_post_payment seed rates item buyer payment).
Proof.
  intros Hu. pose proof recorded_activation as Hact.
  apply (upholds_purchase _ (fun _ => recorded uid payment)).
  - apply unsent_invoices.
  - apply unsent_admits_invoices.
  - apply unsent_admits_rows.
  - apply (closed_pays_log EmptyString).
  - apply (closed_pays_log EmptyString).
  - intros v s pu s' _ Hc%record_purchase_captured _. revert Hc. apply good_mono. intros d Hd%captured_recorded. by rewrite <- Hu.
  - intros pu. apply leads_upholds; [apply Hact|]. by right.
Qed.
End RecordedRuns.

(** C14. Nothing is asked of the provider before the purchase is on record.  Whatever
    the provider answers, whichever mails fail and however the run of the webhook ends,
    either no request went out during it, or the committed database has a subscription
    of the buyer, paid with this payment, and its invoice. *)
Theorem recorded_before_provider {cfg : TechConfig} {portal : Portal} {cipher : Cipher} seed rates clock ids order_id payment buyer_id buyer d :
  payment <> EmptyString -> tb_users d !! buyer_id = Some buyer ->
  let d' := (tech_request clock ids (complete_technology_payment_from_webhook seed rates order_id (Some payment) buyer_id) d).2 in
  tb_portal d' = tb_portal d \/ recorded (tu_id buyer) payment d'.
Proof.
  intros Hp Hu. apply (webhook_upholds (unsent_or_recorded (tu_id buyer) payment (tb_portal d))) with (buyer := buyer); try done.
  - apply unsent_invoices.
  - apply unsent_admits_invoices.
  - apply unsent_admits_rows.
  - intros id. eapply closed_mono; [|apply closed_pays_log]. apply core_pays.
  - intros. apply upholds_modify. intros d'. apply (closed_row _ _ _ (closed_pays_log (tu_id buyer) payment (tb_portal d) _)).
    intros s. apply rescued_pays.
  - intros item. by apply recorded_purchase.
  - by left.
Qed.

(** ** No purchase is lost *)

(** Paid and not deleted, active only with a service, else in a state the worker
    knows, and flagged for a review when it has more than one attempt behind it. *)
Definition tended (s : TechnologySubscription) : Prop :=
  ts_payment_status s = TrackPayment.CAPTURED /\ ts_is_deleted s = false /\
  (ts_status s = "ACTIVE"%string -> truthy (ts_provider_subscription_id s) = true) /\
  ts_status s ∈ "ACTIVE"%string :: "TEST_SIMULATED"%string :: RETRYABLE_STATUSES /\
  (ts_provision_attempts s <= 1 \/ ts_needs_review s = true).

(** Changes that keep a row tended. *)
Definition tending (s s' : TechnologySubscription) : Prop := tended s -> tended s'.

(** Those that count no attempt. *)
Definition tame (s s' : TechnologySubscription) : Prop :=
  ts_provision_attempts s' = ts_provision_attempts s /\ (ts_provision_attempts s <= 1 -> tended s -> tended s').

Lemma born_tended s : born s -> tended s.
Proof.
  intros (H1 & H2 & H3 & H4). repeat split; [done..| |set_solver|by left]. intros Ha. rewrite Ha in H4. set_solver.
Qed.

Lemma core_tending s s' : same_core s s' -> tending s s'.
Proof.
  intros (H1 & H2 & H3 & H4 & H5 & H6 & H7 & H8) (T1 & T2 & T3 & T4 & T5). unfold tended. rewrite H1, H2, H4, H6, H7. intuition.
Qed.

Lemma core_tame s s' : same_core s s' -> tame s s'.
Proof. intros H. split; [apply H|]. intros _. by apply core_tending. Qed.

Lemma rescued_tending payment b e o base input period now s : tending s (rescued b e o payment base input period now s).
Proof.
  intros (T1 & T2 & T3 & T4 & T5).
  assert (H : forall x, tended x -> tended (with_period period x)).
  { intros x Hx. unfold with_period. destruct (ts_current_period_start x), (ts_current_period_end x); exact Hx. }
  apply H. split_and!; try done. cbn. set_solver.
Qed.

(** *** Identifiers of services *)

Lemma nonempty_truthy v i : _nonempty v = Some i -> truthy (Some i) = true.
Proof. destruct v; try discriminate. cbn. destruct s; [discriminate|]. by intros [= <-]. Qed.

Lemma real_id_truthy keys payload uid i : real_id keys payload uid = Some i -> truthy (Some i) = true.
Proof.
  intros (_ & k & _ & H)%real_id_real. unfold _nonempty_str in H. destruct (dget k payload); try discriminate H;
    destruct (strip _); by inversion H.
Qed.

Lemma service_id_truthy answer uid old : truthy old = true -> truthy (service_id_of answer uid old) = true.
Proof.
  intros Ho. unfold service_id_of. destruct (_nonempty _) eqn:E; [by eapply nonempty_truthy|].
  destruct (real_provider_service_id answer uid) eqn:E'; [by eapply real_id_truthy|done].
Qed.

(** The answer to an order names the service when it is active. *)
Definition names_service (r : dict) : Prop :=
  is_True (dget "success" r) = true -> answer_status r = "ACTIVE"%string -> forall uid, truthy (service_id_of r uid None) = true.

Lemma named_service r i : dget "provider_subscription_id" r = JStr i -> truthy (Some i) = true -> names_service r.
Proof. intros Hi Ht _ _ uid. unfold service_id_of. rewrite Hi. cbn. by destruct i. Qed.

Lemma normalized_names res uid cycle tm (s s' : session tech_db tech_effect) n out :
  normalize_provision_response res uid cycle tm s = (Ok n, s') ->
  (forall k, k <> "credentials"%string -> k <> "test_mode"%string -> k <> "configured"%string -> dget k out = dget k n) ->
  names_service out.
Proof.
  intros H Hk Hok Hst. unfold answer_status in Hst. rewrite Hk in Hok by done. rewrite Hk in Hst by done.
  destruct (active_answer_spec _ _ _ _ _ _ _ H) as (st & H1 & H2 & H3); [by destruct (dget "success" n) as [|[]| | | | | |]|].
  destruct (H3 (answer_status_str _ _ H1 H2 Hst)) as (_ & d & i & _ & Hc & _ & Hi).
  destruct Hc as (_ & _ & _ & _ & _ & k & _ & Hk').
  assert (Ht : truthy (Some i) = true).
  { unfold _nonempty_str in Hk'. destruct (dget k d); try discriminate Hk'; destruct (strip _); by inversion Hk'. }
  intros u. unfold service_id_of. rewrite Hk, Hi by done. cbn. by destruct i.
Qed.

Lemma dget_with_account acc n k : k <> "credentials"%string -> dget k (with_account acc n) = dget k n.
Proof. intros Hk. unfold with_account. by apply dget_dset_other. Qed.

Lemma provision_names {cfg : TechConfig} {portal : Portal} slug name plan cycle e u key ps c acc s out s' :
  provision_service slug name plan cycle e u key ps c acc s = (Ok out, s') -> names_service out.
Proof.
  unfold provision_service. intros H. repeat case_match; ok_inv H; try (intros Hok; discriminate Hok).
  - eapply normalized_names; [exact Hr0|]. intros k H2 H3 H4.
    rewrite dget_dset_other, dget_dset_other, dget_marks by done. by apply dget_with_account.
  - eapply normalized_names; [exact Hr0|]. intros k H4 H5 H6. rewrite dget_marks by done.
    case_match; [by apply dget_with_account|done].
  - eapply normalized_names; [exact Hr0|]. intros k H4 H5 H6. rewrite dget_marks by done.
    case_match; [by apply dget_with_account|done].
Qed.

(** *** The rows a run adds *)

Section InHand.
#[local] Set Default Proof Using "Type*".
Context {cfg : TechConfig} {portal : Portal} {cipher : Cipher}.
Context (seed : list TechnologyService) (rates : rates_map) (old : gmap string TechnologySubscription).

Definition in_hand (d : tech_db) : Prop := forall k s, tb_subs d !! k = Some s -> old !! k = None -> tended s.

(** And row [id] has at most [n] attempts. *)
Definition in_hand_after (id : string) (n : Z) (d : tech_db) : Prop :=
  in_hand d /\ forall s, tb_subs d !! id = Some s -> ts_provision_attempts s <= n.

Lemma closed_in_hand id : closed tending id in_hand.
Proof.
  split; [done..|]. intros f d Hf H k s Hs Ho. cbn in Hs. apply alter_row_inv in Hs as [(-> & s0 & Hs & ->)|[_ Hs]]; [|by eapply H].
  apply Hf. by eapply H.
Qed.

Lemma closed_in_hand_after id n : n <= 1 -> closed tame id (in_hand_after id n).
Proof.
  intros Hn. split; [done..|]. intros f d Hf [H Ha]. split.
  - intros k s Hs Ho. cbn in Hs. apply alter_row_inv in Hs as [(-> & s0 & Hs & ->)|[_ Hs]]; [|by eapply H].
    apply Hf; [specialize (Ha _ Hs); lia|by eapply H].
  - intros s Hs. cbn in Hs. apply alter_row_inv in Hs as [(_ & s0 & Hs & ->)|[? _]]; [|done].
    destruct (Hf s0) as [-> _]. by apply Ha.
Qed.

Lemma in_hand_invoices : invoices_only in_hand.
Proof. by intros f d _ H. Qed.
Lemma in_hand_after_invoices id n : invoices_only (in_hand_after id n).
Proof. by intros f d _ H. Qed.
Lemma in_hand_admits_invoices : admits_invoices in_hand.
Proof. by split. Qed.

Lemma in_hand_admits_rows : admits_rows in_hand.
Proof.
  intros s d Hb Hn H k s' Hs Ho. cbn in Hs. apply lookup_insert_Some in Hs as [[<- <-]|[_ Hs]]; [by apply born_tended|by eapply H].
Qed.

(** *** Activation *)

Context (pu : purchase).

Lemma core_closed n : n <= 1 -> closed same_core (pu_sub pu) (in_hand_after (pu_sub pu) n).
Proof. intros Hn. eapply closed_mono; [|by apply closed_in_hand_after]. apply core_tame. Qed.

Lemma tame_step n f : n <= 1 -> (forall s, tame s (f s)) -> upholds (in_hand_after (pu_sub pu) n) (on_sub (pu_sub pu) f).
Proof. intros Hn Hf. apply upholds_modify. intros d. by apply (closed_row _ _ _ (closed_in_hand_after (pu_sub pu) n Hn)). Qed.

Lemma portal_in_hand n :
  (forall e u, upholds (in_hand_after (pu_sub pu) n) (create_portal_client e u)) /\
  (forall slug uid key mail plan cycle, upholds (in_hand_after (pu_sub pu) n) (find_matching_order slug uid key mail plan cycle)) /\
  (forall slug name plan cycle e u key ps c acc, upholds (in_hand_after (pu_sub pu) n) (provision_service slug name plan cycle e u key ps c acc)).
Proof. by apply portal_free_upholds. Qed.

(** Updates of the row whose effect on [tended] is plain. *)
Ltac tame := intros ?; split; [reflexivity|]; intros ? (? & ? & ? & ? & ?); split_and!; cbn; try done; try (by left); try set_solver.

#[local] Hint Extern 2 (upholds _ (on_sub _ _)) => apply tame_step; [lia|tame] : upholds.
#[local] Hint Extern 1 (closed same_core _ _) => apply core_closed; lia : upholds.
#[local] Hint Extern 1 (invoices_only _) => apply in_hand_after_invoices : upholds.

(** The row just read decides about the next step. *)
Lemma upholds_sub_then {A} (I : tech_db -> Prop) k (f : TechnologySubscription -> Tech A) :
  (forall sub s, good I s -> tb_subs (s_db s) !! k = Some sub -> good I (f sub s).2) -> upholds I (bind (sub_of k) f).
Proof.
  intros Hf s Hs. unfold bind at 1, sub_of, usable, bind, gets, guard_exn. destruct (tb_failed (s_db s)); [done|].
  cbn. destruct (tb_subs (s_db s) !! k) as [sub|] eqn:E; [|done]. by apply Hf.
Qed.

Lemma conclude_in_hand o acc r : names_service r -> upholds (in_hand_after (pu_sub pu) 1) (conclude_order o pu acc r).
Proof.
  intros Hr. destruct (closed_flags _ _ _ (core_closed 1 ltac:(lia))) as [HF HT].
  unfold conclude_order, take_answer, _tech_sub_periods. cbn zeta. fold (answer_status r).
  destruct (is_True (dget "success" r) && bool_decide (answer_status r = "ACTIVE"%string)) eqn:E.
  - apply andb_true_iff in E as [E1 E2%bool_decide_eq_true]. pose proof (Hr E1 E2 (tu_id (o_buyer o))) as Hi.
    upholds.
  - upholds.
Qed.

Lemma adopt_in_hand o acc r : upholds (in_hand_after (pu_sub pu) 0) (adopt_order o pu acc r).
Proof.
  destruct (closed_flags _ _ _ (core_closed 0 ltac:(lia))) as [HF HT].
  unfold adopt_order, _tech_sub_periods. cbn zeta.
  apply upholds_bind; [upholds|intros _]. apply upholds_bind.
  { apply tame_step; [lia|]. intros s. split; [reflexivity|]. intros _ (? & ? & Hid & ? & ?). split_and!; try done.
    intros Ha. by apply service_id_truthy, Hid. }
  intros _. do 3 (apply upholds_bind; [upholds|intros ?]).
  apply upholds_sub_then. intros sub s Hs Hsub.
  destruct (truthy (ts_provider_subscription_id sub)) eqn:Hi; [|rewrite andb_false_r; revert Hs; apply (upholds_at (in_hand_after (pu_sub pu) 0)); upholds].
  case_match; [|revert Hs; apply (upholds_at (in_hand_after (pu_sub pu) 0)); upholds].
  unfold bind at 1. unfold on_sub at 1, modify. match goal with |- good _ (?m ?s1).2 => apply (upholds_at _ m s1); [upholds|] end.
  destruct Hs as [Hc [Hd Ha]]. split; [done|]. split.
  - intros k s' Hs' Ho. cbn in Hs'. apply alter_row_inv in Hs' as [(-> & s0 & Hs0 & ->)|[_ Hs']]; [|by eapply Hd].
    rewrite Hsub in Hs0. injection Hs0 as <-. specialize (Ha _ Hsub). destruct (Hd _ _ Hsub Ho) as (? & ? & ? & ? & ?).
    split_and!; cbn; [done|done|done|set_solver|left; lia].
  - intros s' Hs'. cbn in Hs'. apply alter_row_inv in Hs' as [(_ & s0 & Hs0 & ->)|[? _]]; [|done]. exact (Ha _ Hs0).
Qed.

Lemma order_in_hand o key client acc : leads (in_hand_after (pu_sub pu) 0) in_hand (order_service o pu key client acc).
Proof.
  destruct (closed_flags _ _ _ (core_closed 0 ltac:(lia))) as [HF HT]. destruct (closed_flags _ _ _ (core_closed 1 ltac:(lia))) as [HF1 HT1].
  assert (Hw : forall n d, in_hand_after (pu_sub pu) n d -> in_hand d) by by intros n d [? _].
  unfold order_service. cbn zeta. do 3 (apply leads_step; [upholds|apply Hw|intros ?]).
  apply (leads_bind (in_hand_after (pu_sub pu) 1)); [|apply Hw|intros _].
  { assert (H : forall d, in_hand_after (pu_sub pu) 0 d -> in_hand_after (pu_sub pu) 1 d).
    { intros d [H1 H2]. split; [done|]. intros s Hs. specialize (H2 _ Hs). lia. }
    intros s [Hc [Hd Ha]]. split; [by apply H|]. split.
    - intros k s' Hs' Ho. cbn in Hs'. apply alter_row_inv in Hs' as [(-> & s0 & Hs0 & ->)|[_ Hs']]; [|by eapply Hd].
      specialize (Ha _ Hs0). destruct (Hd _ _ Hs0 Ho) as (? & ? & ? & ? & ?).
      split_and!; cbn; [done|done|done|set_solver|left; lia].
    - intros s' Hs'. cbn in Hs'. apply alter_row_inv in Hs' as [(_ & s0 & Hs0 & ->)|[? _]]; [|done]. cbn. specialize (Ha _ Hs0). lia. }
  apply leads_upholds; [|apply Hw]. apply upholds_bind; [upholds|intros _].
  apply (leads_bind_fact (fun r d => names_service r /\ in_hand_after (pu_sub pu) 1 d)).
  - intros s Hs. destruct (portal_in_hand 1) as (_ & _ & Hp).
    match goal with |- context [catch ?m] => assert (Hm : upholds (in_hand_after (pu_sub pu) 1) m) by apply Hp; specialize (Hm s Hs) end.
    unfold catch. match goal with |- context [provision_service ?a ?b ?c ?d ?e ?f ?g ?h ?i ?j s] =>
      destruct (provision_service a b c d e f g h i j s) as [[r|e1] s'] eqn:E end; cbn in Hm.
    + apply provision_names in E. destruct Hm. by split.
    + destruct Hm. by split.
  - intros r s [[Hr H1] [_ H2]]. by apply (conclude_in_hand o acc r Hr).
Qed.

Lemma activation_in_hand o : leads (in_hand_after (pu_sub pu) 0) in_hand (activate_purchase o pu).
Proof.
  destruct (closed_flags _ _ _ (core_closed 0 ltac:(lia))) as [HF HT].
  destruct (closed_flags _ _ _ (closed_in_hand (pu_sub pu))) as [HF' HT'].
  assert (Hw : forall n d, in_hand_after (pu_sub pu) n d -> in_hand d) by by intros n d [? _].
  assert (HC' : closed same_core (pu_sub pu) in_hand) by (eapply closed_mono; [|apply closed_in_hand]; apply core_tending).
  pose proof in_hand_invoices as HS'. destruct (portal_in_hand 0) as (Hc & Hf & _).
  assert (Hman : leads (in_hand_after (pu_sub pu) 0) in_hand (fulfil_manually o pu)).
  { enough (H : upholds in_hand (fulfil_manually o pu)) by (intros s Hs; apply H; revert Hs; apply good_mono, Hw).
    unfold fulfil_manually. cbn zeta. apply upholds_bind; [upholds|intros _]. apply upholds_bind; [|upholds].
    apply upholds_modify. intros d. apply (closed_row _ _ _ (closed_in_hand (pu_sub pu))).
    intros s (? & ? & ? & ? & ?). split_and!; cbn; [done|done|done|set_solver|by right]. }
  pose proof (adopt_in_hand o). pose proof (order_in_hand o).
  unfold activate_purchase. case_match; [|done]. case_match; [|done].
  unfold with_provider, reconcile_pending_provisioning. cbn zeta. destruct (validate_order_input _ _) as [ok missing].
  destruct (negb ok); [apply leads_upholds; [upholds|apply Hw]|].
  apply leads_step; [upholds|apply Hw|]. intros [[client acc] error].
  apply leads_step; [upholds|apply Hw|intros _]. apply leads_step; [upholds|apply Hw|]. intros r.
  case_match; [apply leads_upholds; [done|apply Hw]|done].
Qed.
End InHand.

Section Added.
Context {cfg : TechConfig} {portal : Portal} {cipher : Cipher}.

Lemma in_hand_core old id : closed same_core id (in_hand old).
Proof. eapply closed_mono; [|apply closed_in_hand]. apply core_tending. Qed.

Lemma purchase_in_hand seed rates old item buyer payment :
  upholds (in_hand old) (_process_item_post_payment seed rates item buyer payment).
Proof.
  apply (upholds_purchase _ (fun pu => in_hand_after old (pu_sub pu) 0)).
  - apply in_hand_invoices.
  - apply in_hand_admits_invoices.
  - apply in_hand_admits_rows.
  - apply (in_hand_core old EmptyString).
  - apply (in_hand_core old EmptyString).
  - intros v s pu s' _ [Hc Hd]%record_purchase_captured [H1 H2].
    assert (H : forall d, captured_row (order_of item buyer payment) (pu_sub pu) d -> in_hand old d -> in_hand_after old (pu_sub pu) 0 d); [|by split; apply H].
    intros d (slug & name & plan & cycle & price & order_id & period & input & now & j & i & Hs & _) Hin. split; [done|].
    intros x. rewrite Hs. intros [= <-]. by cbn.
  - intros pu. apply activation_in_hand.
Qed.

(** The rows the worker takes, sooner or later. *)
Lemma tended_selected s : 1 < retry_limit -> tended s ->
  (ts_status s = "ACTIVE"%string /\ truthy (ts_provider_subscription_id s) = true) \/ ts_status s = "TEST_SIMULATED"%string \/
  ts_needs_review s = true \/ exists t, forall now, t <= now -> selected now s = true.
Proof.
  intros Hl (H1 & H2 & H3 & H4 & H5). destruct H5 as [H5|]; [|by auto].
  apply elem_of_cons in H4 as [H4|H4]; [left; auto|]. apply elem_of_cons in H4 as [H4|H4]; [by auto|]. right. right. right.
  exists (default 0 (ts_next_retry_at s)). intros now Hn. unfold selected, due.
  rewrite H1, H2, !bool_decide_eq_true_2 by done. cbn.
  replace (ts_provision_attempts s <? retry_limit) with true by (symmetry; apply Z.ltb_lt; lia). cbn.
  destruct (ts_next_retry_at s); cbn in *; [|done]. by rewrite (proj2 (Z.leb_le _ _) Hn).
Qed.

Lemma webhook_in_hand seed rates clock ids order_id payment buyer_id buyer d :
  payment <> EmptyString -> tb_users d !! buyer_id = Some buyer ->
  in_hand (tb_subs d) (tech_request clock ids (complete_technology_payment_from_webhook seed rates order_id (Some payment) buyer_id) d).2.
Proof.
  intros Hp Hu. apply webhook_upholds with (buyer := buyer); try done.
  - apply in_hand_invoices.
  - apply in_hand_admits_rows.
  - intros id. apply in_hand_core.
  - intros. apply upholds_modify. intros d1. apply (closed_row _ _ _ (closed_in_hand (tb_subs d) _)).
    intros x. apply rescued_tending.
  - intros item. apply purchase_in_hand.
  - intros k' s' Hk Hk'. congruence.
Qed.

(** No paid purchase is lost.  Whatever the provider answers, whichever mails fail
    and however the run of the webhook ends, every subscription it leaves behind that
    was not there before is paid and not deleted, and it is active with a service, or
    a simulated test order, or flagged for an administrator, or from some time on the
    retry worker takes it: the webhook and the worker between them cover all cases,
    when at least two attempts are allowed. *)
Theorem purchase_stays_in_hand seed rates clock ids order_id payment buyer_id buyer d k s :
  1 < retry_limit -> payment <> EmptyString -> tb_users d !! buyer_id = Some buyer ->
  let d' := (tech_request clock ids (complete_technology_payment_from_webhook seed rates order_id (Some payment) buyer_id) d).2 in
  tb_subs d' !! k = Some s -> tb_subs d !! k = None ->
  ts_payment_status s = TrackPayment.CAPTURED /\ ts_is_deleted s = false /\
  ((ts_status s = "ACTIVE"%string /\ truthy (ts_provider_subscription_id s) = true) \/ ts_status s = "TEST_SIMULATED"%string \/
   ts_needs_review s = true \/ exists t, forall now, t <= now -> selected now s = true).
Proof.
  intros Hl Hp Hu d' Hs Hn. enough (Ht : tended s) by (repeat split; [apply Ht..|by apply tended_selected]).
  eapply (webhook_in_hand seed rates); [exact Hp|exact Hu|exact Hs|exact Hn].
Qed.
End Added.

(** ** A payment is fulfilled once *)

(** What a replay leaves alone. *)
Definition fulfilled_view (d : tech_db) : gmap string TechnologySubscription * gmap string SubscriptionInvoice * list portal_request :=
  (tb_subs d, sh_invoices (tb_shop d), tb_portal d).

Section Replay.
#[local] Set Default Proof Using "Type*".
Context {cfg : TechConfig} {portal : Portal} {cipher : Cipher}.
Context (seed : list TechnologyService) (rates : rates_map) (uid payment : string) (d0 : tech_db).

Definition replayed (d : tech_db) : Prop := fulfilled_view d = fulfilled_view d0.

Context (paid : exists k s, tb_subs d0 !! k = Some s /\ ts_user_id s = uid /\ ts_razorpay_payment_id s = Some payment /\ ts_is_deleted s = false).
Context (Hpayment : payment <> EmptyString).

Lemma replayed_closed fine id : (forall s s', fine s s' -> s' = s) -> closed fine id replayed.
Proof using Type.
  intros Hf. split; [done..|]. intros f d Hs H. unfold replayed, fulfilled_view in *. cbn.
  replace (alter f id (tb_subs d)) with (tb_subs d); [done|]. symmetry. apply map_eq. intros k.
  destruct (decide (k = id)) as [->|Hk]; [|by rewrite lookup_alter_ne]. rewrite lookup_alter_eq.
  destruct (tb_subs d !! id) as [x|]; [|done]. cbn. by rewrite (Hf _ _ (Hs x)).
Qed.

Lemma replayed_invoices : invoices_only replayed.
Proof using Type. intros f d Hf H. unfold replayed, fulfilled_view in *. cbn. by rewrite Hf. Qed.

(** Nothing is changed, the session stays in its transaction, and a result is one of [Q]. *)
Definition steady {A} (Q : A -> Prop) (m : Tech A) : Prop := forall s, good replayed s -> sh_begun (tb_shop (s_db s)) = true ->
  good replayed (m s).2 /\ sh_begun (tb_shop (s_db (m s).2)) = true /\ forall a, (m s).1 = Ok a -> Q a.

Definition anything {A} (a : A) : Prop := True.

Lemma steady_bind {A B} P Q (m : Tech A) (f : A -> Tech B) : steady P m -> (forall a, P a -> steady Q (f a)) -> steady Q (bind m f).
Proof using Type.
  intros Hm Hf s H1 H2. destruct (Hm s H1 H2) as (H3 & H4 & H5). unfold bind. destruct (m s) as [[a|e] s']; [by apply Hf; [apply H5| |]|done].
Qed.

Lemma steady_any {A} P (m : Tech A) : steady P m -> steady anything m.
Proof using Type. intros Hm s H1 H2. by destruct (Hm s H1 H2) as (? & ? & _). Qed.

Lemma steady_silent {A} (m : Tech A) : silent m -> steady anything m.
Proof using Type. intros Hm s H1 H2. by rewrite (Hm s). Qed.

Lemma steady_on_shop f : (forall h, sh_invoices (f h) = sh_invoices h /\ (sh_begun h = true -> sh_begun (f h) = true)) ->
  steady anything (on_shop f).
Proof using Type.
  intros Hf s [H1 H2] H3. split; [split; [done|]|split; [|done]]; cbn; [apply replayed_invoices; [|done]; intros h|]; by apply Hf.
Qed.

Lemma silent_usable : silent usable.
Proof using Type. unfold usable. frame. Qed.
Lemma silent_query {A} (f : tech_db -> A) : silent (query f).
Proof using Type. pose proof silent_usable. unfold query. frame. Qed.

(** The subscription of the payment is found. *)
Lemma find_replayed o slug s : good replayed s ->
  exists r, _find_paid_technology_subscription uid (Some payment) o slug s = (r, s) /\
    match r with Ok x => exists sub, x = Some sub | Raise _ => True end.
Proof.
  intros [_ H1]. unfold _find_paid_technology_subscription, bind at 1.
  assert (Ht : truthy (Some payment) = true) by (by destruct payment). rewrite Ht.
  destruct (tb_failed (s_db s)) eqn:Hf; [unfold query, usable, bind, gets, guard_exn; rewrite Hf; by eexists|].
  rewrite query_now by done. destruct paid as (k0 & s0 & P1 & P2 & P3 & P4).
  assert (Hin : s0 ∈ paid_rows uid (fun s => bool_decide (ts_razorpay_payment_id s = Some payment)) (s_db s)).
  { apply elem_of_select_where. split.
    - rewrite P2, P3, P4, !bool_decide_eq_true_2 by done. done.
    - apply elem_of_values. exists k0. unfold replayed, fulfilled_view in H1. by injection H1 as ->. }
  destruct (paid_rows _ _ _) as [|r rows]; [by apply elem_of_nil in Hin|].
  destruct (if truthy slug then _ else _) as [|m ms]; eexists; (split; [reflexivity|by eexists]).
Qed.

Lemma steady_find o slug : steady (fun x => exists sub, x = Some sub) (_find_paid_technology_subscription uid (Some payment) o slug).
Proof.
  intros s H1 H2. destruct (find_replayed o slug s H1) as (r & Hr & Hx). rewrite Hr. split_and!; [done..|].
  intros a Ha. cbn in Ha. by subst r.
Qed.

(** *** A purchase already made *)

Definition known {A B} (r : A + B) : Prop := match r with inl _ => True | inr _ => False end.

Lemma steady_record o v : tu_id (o_buyer o) = uid -> o_payment o = payment -> steady known (record_purchase rates o v).
Proof.
  intros Hu Hp. unfold record_purchase, create_request, _tech_sub_periods. rewrite Hu, Hp. cbn zeta.
  assert (Huuid : steady anything uuid4) by by intros s.
  assert (Hnow : steady anything utc_now) by by intros s.
  assert (Hl : forall A (r : res A), steady anything (lift_res r)) by by intros A r s0.
  assert (Hret : forall A (a : A), steady anything (ret a)) by by intros A x s0.
  assert (Hg : forall b e, steady anything (guard_exn b e)) by by intros [] e s.
  apply (steady_bind anything); [done|intros base _].
  apply (steady_bind anything); [apply (steady_bind anything); [done|intros id _]|intros rid _].
  { apply (steady_bind anything); [|done]. by apply steady_on_shop. }
  do 5 (apply (steady_bind anything); [first [done|by apply (steady_bind anything)]|intros ? _]).
  eapply steady_bind; [apply steady_find|]. intros x [sub ->] s H1 H2. split_and!; [done..|]. by intros r [= <-].
Qed.

Lemma steady_purchase item buyer s : tu_id buyer = uid -> good replayed s ->
  let r := _process_item_post_payment seed rates item buyer payment s in good replayed r.2 /\ sh_begun (tb_shop (s_db r.2)) = true.
Proof.
  intros Hu Hs. unfold _process_item_post_payment, _complete_technology_purchase. cbn [order_of o_item o_buyer o_payment]. rewrite Hu.
  assert (Hret : forall A (a : A), steady anything (ret a)) by by intros A x s0.
  assert (Hq : forall A (f : tech_db -> A), steady anything (query f)) by (intros; apply steady_silent, silent_query).
  unfold bind at 1, autobegin, on_shop, modify. cbn [fst snd].
  match goal with |- context [?m (Session ?a ?b ?c ?d ?e)] => set (s1 := Session a b c d e); enough (Hm : steady anything m) end.
  { destruct (Hm s1) as (? & ? & _); [|done|done]. destruct Hs as [? ?]. split; [done|by apply replayed_invoices]. }
  apply (steady_bind anything); [case_match; [done|by eapply steady_any, steady_find]|intros existing _].
  apply (steady_bind anything); [apply (steady_bind anything); [apply Hq|done]|intros purchase_id _].
  destruct existing; [done|]. apply (steady_bind anything); [apply Hq|intros listed _].
  case_match; [|by intros s2]. eapply steady_bind; [by apply steady_record|]. intros [|] Hk; [done|by destruct Hk].
Qed.

(** Rows that a rollback has expired cannot be read. *)
Lemma expired_dead {A} (k : unit -> Tech A) s : sh_expired (tb_shop (s_db s)) = true -> exists e, bind alive k s = (Raise e, s).
Proof using Type.
  intros He. unfold alive, usable, bind, gets, guard_exn. destruct (negb (tb_failed _)); [|by eexists]. cbn. rewrite He. by eexists.
Qed.

Lemma alive_or_raises {A} (k : unit -> Tech A) s : (exists e, bind alive k s = (Raise e, s)) \/ bind alive k s = k tt s.
Proof using Type.
  unfold alive, usable, bind, gets, guard_exn. destruct (negb (tb_failed _)); [|left; by eexists]. cbn.
  destruct (negb _); [by right|left; by eexists].
Qed.

Lemma reset_expires {A} (k : unit -> Tech A) s : good replayed s -> sh_begun (tb_shop (s_db s)) = true ->
  exists s', good replayed s' /\ sh_expired (tb_shop (s_db s')) = true /\ bind _reset_aborted_session k s = k tt s'.
Proof using Type.
  intros [Hc _] Hb. unfold _reset_aborted_session, bind, gets, rollback, on_shop, modify. cbn. eexists. split_and!; [| |reflexivity].
  - split; exact Hc.
  - cbn. by rewrite Hb.
Qed.

(** The handler cannot go on: the rollback has expired what it reads. *)
Lemma upholds_replayed_item order_id buyer item : tu_id buyer = uid ->
  upholds replayed (fulfil_item seed rates order_id payment buyer item).
Proof.
  intros Hu. pose proof (replayed_closed eq EmptyString ltac:(done)) as HC. destruct (closed_flags _ _ _ HC) as [HF HT].
  pose proof replayed_invoices as HS. pose proof (upholds_record_attempt replayed HS HF HT).
  unfold fulfil_item. case_match; [upholds|]. apply upholds_bind; [upholds|intros fin].
  apply upholds_bind; [|intros [[[r is_service] facts] source]; upholds].
  intros s Hs. unfold catch.
  match goal with |- context [match ?m s with _ => _ end] =>
    assert (Hb : good replayed (m s).2 /\ sh_begun (tb_shop (s_db (m s).2)) = true); [|destruct (m s) as [[x|e] s1]; [apply Hb|]] end.
  { destruct (steady_purchase item buyer s Hu Hs) as [H1 H2]. unfold bind at 1 3.
    destruct (_process_item_post_payment _ _ _ _ _ s) as [[result|e] s1]; [|done].
    assert (Hm : steady anything (mark_fulfilled item payment)).
    { apply (steady_bind anything); [apply steady_silent, silent_usable|intros _ _]. by apply steady_on_shop. }
    destruct (Hm s1 H1 H2) as (H3 & H4 & _). unfold bind. destruct (mark_fulfilled _ _ s1) as [[[]|e] s2]; done. }
  cbn in Hb. destruct Hb as [Hg Hbeg].
  match goal with |- context [bind alive ?k s1] => destruct (alive_or_raises k s1) as [[e' ->]| ->] end; [done|].
  match goal with |- context [bind _reset_aborted_session ?k s1] => destruct (reset_expires k s1 Hg Hbeg) as (s2 & Hg2 & He & ->) end.
  unfold _ensure_paid_technology_service_subscription.
  match goal with |- context [bind (bind alive ?k) ?k' s2] => destruct (expired_dead k s2 He) as [e' Hd]; unfold bind at 1; by rewrite Hd end.
Qed.

Lemma upholds_replayed_items order_id buyer items : tu_id buyer = uid ->
  upholds replayed (fulfil_items seed rates order_id payment buyer items).
Proof.
  intros Hu. pose proof (fun item => upholds_replayed_item order_id buyer item Hu).
  induction items as [|item items IH]; cbn [fulfil_items]; upholds.
Qed.
End Replay.

(** The whole run. *)
Lemma webhook_replayed {cfg : TechConfig} {portal : Portal} {cipher : Cipher} seed rates clock ids order_id payment buyer_id buyer d :
  tb_users d !! buyer_id = Some buyer -> payment <> EmptyString ->
  (exists k s, tb_subs d !! k = Some s /\ ts_user_id s = tu_id buyer /\ ts_razorpay_payment_id s = Some payment /\ ts_is_deleted s = false) ->
  replayed d (tech_request clock ids (complete_technology_payment_from_webhook seed rates order_id (Some payment) buyer_id) d).2.
Proof.
  intros Hb Hp Hpaid. destruct (closed_flags _ _ _ (replayed_closed d eq EmptyString ltac:(done))) as [HF HT].
  apply (webhook_items (replayed d) _ _ _ buyer); [apply replayed_invoices|done..| |done|done|done].
  intros items. by apply (upholds_replayed_items seed rates (tu_id buyer)).
Qed.

(** C15. A payment is fulfilled once.  When the buyer already has a subscription with
    this payment that is not deleted, a further run of the webhook, whatever is in the
    cart by then and however it ends, adds and changes no subscription and no invoice and
    asks nothing of the provider. *)
Theorem replay_fulfils_nothing {cfg : TechConfig} {portal : Portal} {cipher : Cipher} seed rates clock ids order_id payment buyer_id buyer d k s :
  tb_users d !! buyer_id = Some buyer -> payment <> EmptyString ->
  tb_subs d !! k = Some s -> ts_user_id s = tu_id buyer -> ts_razorpay_payment_id s = Some payment -> ts_is_deleted s = false ->
  let d' := (tech_request clock ids (complete_technology_payment_from_webhook seed rates order_id (Some payment) buyer_id) d).2 in
  tb_subs d' = tb_subs d /\ sh_invoices (tb_shop d') = sh_invoices (tb_shop d) /\ tb_portal d' = tb_portal d.
Proof.
  intros Hb Hp Hs Hu Hpay Hdel d'. enough (H : replayed d d') by (unfold replayed, fulfilled_view in H; by injection H).
  apply (webhook_replayed _ _ _ _ _ _ _ buyer); [done..|]. by exists k, s.
Qed.
