(* ===== verification/TechCheckoutRuns.v ===== *)
(** * Prices and runs of the purchase of a technology subscription

    What a price can be, when a track record counts as a success, the theorems of
    TechCheckoutFacts on concrete runs, and runs in which the code does not do what
    it means to. *)

From Stdlib Require Import SpecFloat.
From stdpp Require Import sorting.
From S2P Require Import Prelude Text Numerals PyNum PyJson Urls Secrets ExchangeRates TrackRecords TechStore TechStatus TechAccess ProductMapper ResellPortal TechRetry TechWorker TechGiveUp TechCheckout TechCheckoutFacts.

(** ** Prices *)

Lemma fl_div_nonneg x y : fl_pos_or_nan x = true -> fl_pos_or_nan y = true -> fl_nonneg_or_nan (fl_div x y) = true.
Proof.
  destruct x as [[]|[]| |[] m e], y as [[]|[]| |[] n f]; try done. intros _ _.
  unfold fl_div, SFdiv. destruct (SFdiv_core_binary _ _ _ _ _ _) as [[mz ez] lz]. cbn [xorb]. apply round_aux_sign.
Qed.

Lemma rupees_whole rates x : fl_leb x fl_zero = false -> exists n, 0 <= n /\ usd_in_rupees rates x = fl_of_Z n.
Proof.
  intros Hx. unfold usd_in_rupees. destruct (convert_foreign_to_inr rates x "USD") as [n|e] eqn:E; [|by exists 0].
  exists n. split; [|done]. unfold convert_foreign_to_inr in E. cbn zeta in E.
  change (negb (supported (upper "USD"))) with false in E. change (bool_decide (upper "USD" = "INR"%string)) with false in E. cbv iota in E.
  destruct (rate_in rates (upper "USD")) as [rate|]; [|discriminate E]. cbn [res_bind] in E.
  destruct (fl_leb rate fl_zero) eqn:Hr; [discriminate E|].
  apply (py_round_nonneg (fl_div x rate)); [|exact E]. apply fl_div_nonneg; by apply fl_not_le_zero.
Qed.

(** The price of a plan is a whole number of rupees and never negative, whatever
    the stored plans, the overrides and the exchange rates are; a stored price that is
    zero or less, and a conversion that fails, cost nothing. *)
Theorem plan_price_whole_rupees rates plans_json selected metadata monthly annually x :
  _tech_service_plan_price_inr rates plans_json selected metadata monthly annually = Ok x -> exists n, 0 <= n /\ x = fl_of_Z n.
Proof.
  unfold _tech_service_plan_price_inr. destruct (stored_plans plans_json) as [[|p plans]|]; cbn [res_bind]; [|..|discriminate].
  { intros [= <-]. by exists 0. }
  destruct (selected_or_first (p :: plans) selected) as [plan|]; cbn [res_bind]; [|discriminate].
  destruct (py_float_of _) as [usd|]; cbn [res_bind]; [|discriminate]. cbn zeta. intros [= <-].
  destruct (fl_leb _ fl_zero) eqn:E; [by exists 0|by apply rupees_whole].
Qed.

(** ** What counts as a success *)

(** A track record of a subscription counts as a success exactly when the purchase
    reports it active together with the identifier the provider gave it, and as failed
    only for a subscription that has ended; every other report leaves it in progress. *)
Theorem success_needs_active_service result :
  let status := upper (py_str (py_or (dget "status" result) (JStr EmptyString))) in
  let '(fulfillment, overall, code, message) := _tech_fulfillment_from_result result true in
  (overall = OverallStatus.SUCCESS <-> status = "ACTIVE"%string /\ truth (dget "providerSubscriptionId" result) = true) /\
  (overall = OverallStatus.FAILED -> status ∈ ["CANCELLED"; "CANCELED"; "SUSPENDED"; "EXPIRED"; "REFUNDED"]%string) /\
  (overall = OverallStatus.PENDING <-> fulfillment = FulfillmentStatus.IN_PROGRESS).
Proof.
  cbn zeta. unfold _tech_fulfillment_from_result. cbn [negb]. cbn zeta. set (status := upper _).
  destruct (bool_decide_reflect (status = "ACTIVE"%string)) as [Ha|Ha]; cbn [andb].
  - destruct (truth (dget "providerSubscriptionId" result)); [by repeat split|].
    rewrite Ha. cbn. repeat split; try done; by intros [_ ?].
  - repeat case_match; simplify_eq; (split_and!; [split; [done|by intros [? _]]|try done|done]).
    intros _. unfold among in *. match goal with H : bool_decide (_ ∈ _) = true |- _ => by apply bool_decide_eq_true in H end.
Qed.

(** ** Concrete runs *)

Definition dumped (v : json) : option string := match dumps plain_dump v with Ok s => Some s | Raise _ => None end.

Definition one_plan (price : Z) : option string :=
  dumped (JArr [JObj [("code", JStr "starter"); ("price_monthly", JInt price); ("price_annually", JInt (10 * price))]])%string.

Definition vpn_service : TechnologyService := TechService "v1" "vpn" "VPN" None (one_plan 10) None None false.
Definition crm_service : TechnologyService := TechService "v2" "crm" "CRM" None (one_plan 20) None None false.

(** What the customer sent, and what the checkout stamped. *)
Definition bought (sent : dict) : dict :=
  app sent [("_checkout_razorpay_order_id", JStr "order_9"); ("_checkout_buyer_name", JStr "Asha"); ("_checkout_buyer_email", JStr "a@b.in");
            ("_checkout_total_inr", JFloat (fl_of_Z 1180))]%string.

Definition tech_item (id product : string) (sent : dict) : CartItem :=
  MkCartItem id "u1" TECHNOLOGY product (Some "starter"%string) None (Some (bought sent)) 0.

Definition vpn_item : CartItem := tech_item "i1" "v1" [("serviceSlug", JStr "vpn"); ("billingCycle", JStr "monthly")]%string.
Definition crm_item : CartItem := tech_item "i2" "v2" [("serviceSlug", JStr "crm"); ("billingCycle", JStr "monthly")]%string.

Definition store_with (items : list CartItem) : tech_db :=
  (retry_db [])
    <| tb_services := list_to_map (map (fun v => (sv_id v, v)) [vpn_service; crm_service]) |>
    <| tb_shop := empty_shop <| sh_items := list_to_map (map (fun i => (ci_id i, i)) items) |> |>.

Definition usd_rates : rates_map := <["USD"%string := fl_div (fl_of_Z 1) (fl_of_Z 80)]> inr_only.

(** The webhook of payment pay_9 of order_9, for user u1. *)
Definition paid_at {cfg : TechConfig} {portal : Portal} (rates : rates_map) (t : Z) (ids : nat -> string) (d : tech_db) : res webhook_outcome * tech_db :=
  tech_request (fun n => t + Z.of_nat n) ids (complete_technology_payment_from_webhook [] rates "order_9" (Some "pay_9"%string) "u1") d.

Definition more_ids (n : nat) : string := ("x" +:+ pretty (Z.of_nat n))%string.


(** *** The theorems on runs *)

Definition run_vpn : tech_db := (paid_at (cfg := plain_config) (portal := listing []) usd_rates 0 more_ids (store_with [vpn_item])).2.

Example recorded_before_provider_witness :
  length (tb_portal run_vpn) = 3%nat /\ recorded "u1" "pay_9" run_vpn.
Proof.
  split; [vm_compute; reflexivity|].
  destruct (recorded_before_provider (cfg := plain_config) (portal := listing []) [] usd_rates (fun n => 0 + Z.of_nat n) more_ids "order_9" "pay_9" "u1"
    example_user (store_with [vpn_item])) as [H|H]; [discriminate|reflexivity| |exact H].
  exfalso. apply (f_equal length) in H. vm_compute in H. discriminate H.
Defined.

(** A provider that confirms nothing yet. *)
Definition slow : Portal := fun _ q =>
  if bool_decide (pq_method q = "GET"%string) then Body (JObj [("orders", JArr [])]%string)
  else Body (JObj [("success", JBool true); ("client_id", JInt 9); ("status", JStr "PENDING"); ("order_id", JStr "o1")]%string).

Example purchase_stays_in_hand_witness :
  exists s t, tb_subs (paid_at (cfg := plain_config) (portal := slow) usd_rates 0 more_ids (store_with [vpn_item])).2 !! "x1"%string = Some s /\
    forall now, t <= now -> selected (cfg := plain_config) now s = true.
Proof.
  eassert (Hs : tb_subs (paid_at (cfg := plain_config) (portal := slow) usd_rates 0 more_ids (store_with [vpn_item])).2 !! "x1"%string = Some _)
    by (vm_compute; reflexivity).
  destruct (purchase_stays_in_hand (cfg := plain_config) (portal := slow) [] usd_rates (fun n => 0 + Z.of_nat n) more_ids "order_9" "pay_9" "u1"
    example_user (store_with [vpn_item]) "x1" _ ltac:(vm_compute; reflexivity) ltac:(discriminate) eq_refl Hs eq_refl)
    as (_ & _ & [[H _]|[H|[H|[t H]]]]); [discriminate H..|].
  eexists _, t. split; [exact Hs|exact H].
Defined.

(** The first run, with its item still in the cart. *)
Definition replay_db : tech_db := run_vpn <| tb_shop ::= set sh_items (fun _ => {["i1"%string := vpn_item]}) |>.

Example replay_fulfils_nothing_witness :
  let d' := (paid_at (cfg := plain_config) (portal := listing []) usd_rates 9 example_ids replay_db).2 in
  tb_subs d' = tb_subs replay_db /\ tb_portal d' = tb_portal replay_db.
Proof.
  eassert (Hs : tb_subs replay_db !! "x1"%string = Some _) by (vm_compute; reflexivity).
  destruct (replay_fulfils_nothing (cfg := plain_config) (portal := listing []) [] usd_rates (fun n => 9 + Z.of_nat n) example_ids "order_9" "pay_9" "u1"
    example_user replay_db "x1" _ ltac:(vm_compute; reflexivity) ltac:(discriminate) Hs eq_refl eq_refl eq_refl) as (H1 & _ & H2).
  split; [exact H1|exact H2].
Defined.

Example plan_price_whole_rupees_witness :
  let price := _tech_service_plan_price_inr usd_rates (one_plan 10) (Some "starter"%string) [] None None in
  price = Ok (fl_of_Z 800) /\ exists n, 0 <= n /\ fl_of_Z 800 = fl_of_Z n.
Proof.
  intros price. assert (H : price = Ok (fl_of_Z 800)) by (vm_compute; reflexivity).
  split; [exact H|]. exact (plan_price_whole_rupees usd_rates (one_plan 10) (Some "starter"%string) [] None None _ H).
Defined.

(** ** Where the purchase departs from what it means *)

(** Two services in one checkout: the search for a subscription of the payment takes
    any service's when the wanted one has none, so the second is reported as processed,
    leaves the cart and is never created, ordered or invoiced. *)
Lemma second_service_never_created :
  let cfg := plain_config in let portal := listing [] in
  let r := paid_at usd_rates 0 more_ids (store_with [vpn_item; crm_item]) in
  exists results, r.1 = Ok (Processed 2 2 true results) /\ sh_items (tb_shop r.2) = ∅ /\
    map ts_service_slug (values (tb_subs r.2)) = ["vpn"%string] /\ length (values (sh_invoices (tb_shop r.2))) = 1%nat /\
    orders_sent r.2 = 1%nat.
Proof. intros cfg portal r. eexists. split; [vm_compute; reflexivity|]. repeat split; vm_compute; reflexivity. Qed.

(** What is to save a purchase that failed cannot run: the rollback before it expires
    the cart item, and reading an expired row outside a query raises.  A null billing
    cycle in the data the customer sent is enough: the paid order is never recorded. *)
Definition null_cycle : CartItem := tech_item "i1" "v1" [("serviceSlug", JStr "vpn"); ("billingCycle", JNull)]%string.

Lemma rescue_never_runs :
  let cfg := plain_config in let portal := listing [] in
  let d := store_with [null_cycle] in
  (paid_at usd_rates 0 more_ids d).1 = Raise MissingGreenlet /\ tb_subs (paid_at usd_rates 0 more_ids d).2 = ∅ /\
  tb_tracks (paid_at usd_rates 0 more_ids d).2 = tb_tracks d.
Proof. intros cfg portal d. repeat split; vm_compute; reflexivity. Qed.

(** A number of years that is no number: the service is ordered, then the run raises
    while it records the attempt; the row is rolled back to what it was before the
    order, and the worker orders the service again. *)
Definition odd_years : CartItem := tech_item "i1" "v1" [("serviceSlug", JStr "vpn"); ("years", JStr "two")]%string.

Lemma odd_years_order_twice :
  let cfg := plain_config in let portal := listing [] in
  let r := paid_at usd_rates 0 more_ids (store_with [odd_years]) in
  is_ok r.1 = false /\ map ts_status (values (tb_subs r.2)) = ["PAYMENT_CAPTURED"%string] /\ orders_sent r.2 = 1%nat /\
  orders_sent (tick 5 r.2).2 = 2%nat.
Proof. intros cfg portal r. repeat split; vm_compute; reflexivity. Qed.

(** A refused order is a state of waiting, says the comment; its track record reads Failed. *)
Lemma waiting_recorded_as_failed :
  let cfg := plain_config in let portal := refusing in
  let d := (paid_at usd_rates 0 more_ids (store_with [vpn_item])).2 in
  map ts_status (values (tb_subs d)) = ["PENDING"%string] /\
  map tr_overall_status (List.filter (fun r => bool_decide (tr_razorpay_payment_id r = Some "pay_9"%string)) (values (tb_tracks d)))
  = [OverallStatus.FAILED].
Proof. intros cfg portal d. repeat split; vm_compute; reflexivity. Qed.

(** With a single attempt allowed, an order the provider has accepted but not confirmed
    is neither flagged for a review nor ever taken by the worker. *)
Definition one_try : TechConfig := {|
  TECH_ENVIRONMENT := "production"; RESELLPORTAL_API_KEY := "key"; RESELLPORTAL_API_SECRET := "secret";
  RESELLPORTAL_TEST_MODE := false; RESELLPORTAL_ALLOW_LIVE := true; TECH_SUBSCRIPTION_MAX_RETRIES := 1;
  tech_mail_ok := fun _ => true |}.

Lemma single_attempt_strands :
  let cfg := one_try in let portal := slow in
  let d := (paid_at usd_rates 0 more_ids (store_with [vpn_item])).2 in
  exists s, tb_subs d !! "x1"%string = Some s /\ ts_status s = "PENDING"%string /\ ts_needs_review s = false /\
    forall now, selected now s = false.
Proof.
  intros cfg portal d. eexists. split; [vm_compute; reflexivity|]. split; [reflexivity|]. split; [reflexivity|].
  intros now. reflexivity.
Qed.
