(* ===== verification/TechAdmin.v ===== *)
(** * Technology subscriptions at the desk: the routes of customers and administrators

    app/controller/technology/technology_services_controller.py beside the
    catalogue and the purchase: what a customer sees of the subscriptions and
    cancels, what an administrator sees, fulfils by hand and mails again, with the
    serializers of provider_access.py.  A handler that reads answers with the rows
    and what is computed of them; columns repeated as they are, are left out.
    Users are known by the id in the token. *)

From stdpp Require Import sorting.
From S2P Require Import Prelude Text Numerals PyNum PyJson Urls Secrets TrackRecords TechStore TechStatus TechAccess ProductMapper ResellPortal TechRetry TechCheckout.

(** ** What customers see *)

Definition iso_or_none (v : json) : json := match v with JDate t => JStr (isoformat "T" t) | _ => JNull end.

Definition _payload_contains_secret (payload : dict) : bool :=
  let dumped := lower (dump_text with_default_str (JObj payload)) in
  contains "access_token" dumped || contains "resellportal.com" dumped.

Definition _reject_secret_payload (payload : dict) : res dict :=
  if _payload_contains_secret payload then Raise (RuntimeError "Refusing to return provider secrets to the customer.") else Ok payload.

Definition serialize_customer_subscription (sub : TechnologySubscription) : res dict :=
  _reject_secret_payload
    [("id", JStr (ts_id sub)); ("service_slug", JStr (ts_service_slug sub)); ("service_name", JStr (ts_service_name sub));
     ("plan_code", JStr (ts_plan_code sub)); ("billing_cycle", JStr (ts_billing_cycle sub)); ("price", JFloat (ts_price sub));
     ("currency", JStr (ts_currency sub)); ("status", JStr (ts_status sub)); ("payment_status", JStr (ts_payment_status sub));
     ("credentials", JObj []); ("current_period_start", iso_or_none (ts_current_period_start sub));
     ("current_period_end", iso_or_none (ts_current_period_end sub)); ("auto_renew", JBool (ts_auto_renew sub));
     ("created_at", JStr (isoformat "T" (ts_created_at sub)))]%string.

(** [\[f(x) for x in l\]] *)
Fixpoint each_of {A B} (f : A -> res B) (l : list A) : res (list B) :=
  match l with
  | [] => Ok []
  | x :: l' => try! y <- f x; try! ys <- each_of f l'; Ok (y :: ys)
  end.

(** The rows that count, the latest first. *)
Definition latest (keep : TechnologySubscription -> bool) (d : tech_db) : list TechnologySubscription :=
  merge_sort (by_desc ts_created_at) (select_where keep (values (tb_subs d))).

(** *** Amounts of an invoice *)

Definition _money_or_none (value : option py_float) : option py_float := option_map py_round2 value.

(** A NUMERIC column as a float. *)
Definition float_of_cents (c : Z) : py_float := fl_of_dec (cents c).

Definition _infer_gst_rate (subtotal gst : option py_float) : option py_float :=
  match subtotal, gst with
  | Some s, Some g => if fl_leb s fl_zero || fl_leb g fl_zero then None else Some (py_round2 (fl_mul (fl_div g s) (fl_of_Z 100)))
  | _, _ => None
  end.

Record invoice_amounts := InvoiceAmounts {
  ia_total : option py_float; ia_subtotal : option py_float; ia_gst : option py_float; ia_rate : option py_float; ia_source : string }.

Definition _invoice_amount_payload (sub : TechnologySubscription) (invoice : SubscriptionInvoice) (track : option TrackRecord) : invoice_amounts :=
  let subtotal := _money_or_none (match track with Some r => option_map float_of_cents (tr_net_and_gst r).1 | None => None end) in
  let gst := _money_or_none (match track with Some r => option_map float_of_cents (tr_net_and_gst r).2 | None => None end) in
  let charged := _money_or_none (option_map (fun r => float_of_cents (tr_amount_charged r)) track) in
  let total := match charged with
               | Some t => if fl_leb t fl_zero then _money_or_none (Some (si_amount invoice)) else Some t
               | None => _money_or_none (Some (si_amount invoice))
               end in
  let subtotal := match subtotal, total, gst with
                  | Some s, _, _ => Some s
                  | None, Some t, Some g =>
                      if fl_ltb fl_zero g && fl_ltb g t then Some (py_round2 (fl_sub t g)) else _money_or_none (Some (ts_price sub))
                  | None, _, _ => _money_or_none (Some (ts_price sub))
                  end in
  InvoiceAmounts total subtotal gst (_infer_gst_rate subtotal gst)
    (match track with Some _ => "track_records" | None => "technology_subscription_invoices" end).

(** The records of the buyer's payment, the latest first. *)
Definition payment_tracks (sub : TechnologySubscription) (user_id : string) (d : tech_db) : list TrackRecord :=
  let same (a b : option string) := truthy a && bool_decide (b = a) in
  merge_sort (by_desc tr_created_at)
    (select_where (fun r => bool_decide (tr_category r = TrackRecordCategory.TECHNOLOGY_SERVICES)
       && bool_decide (tr_buyer_user_id r = Some user_id)
       && (same (ts_razorpay_payment_id sub) (tr_razorpay_payment_id r) || same (ts_razorpay_order_id sub) (tr_razorpay_order_id r)))
       (values (tb_tracks d))).

Definition same_name (name column : string) : bool :=
  let name := lower (strip name) in negb (is_empty name) && bool_decide (lower (strip column) = name).

(** The record of a subscription among those of its payment. *)
Definition track_among (sub : TechnologySubscription) (candidates : list TrackRecord) : option TrackRecord :=
  match candidates with
  | [r] => Some r
  | _ =>
      match List.find (fun r => same_name (ts_service_name sub) (tr_item_name r)
                        || same_name (ts_service_slug sub) (default EmptyString (tr_item_id r))) candidates with
      | Some r => Some r
      | None => head candidates
      end
  end.

(** ** What administrators see *)

Record admin_item := AdminItem {
  ai_sub : TechnologySubscription; ai_customer_name : option string; ai_customer_email : option string; ai_access_email_status : string;
  ai_provisioning_status : string; ai_has_access_information : bool; ai_needs_input : bool }.

Definition email_of (user : option TechUser) : option string :=
  match user with Some u => _nonempty_str (JStr (tu_email u)) | None => None end.

Definition customer_label (user : option TechUser) : option string :=
  match customer_display_name user with Some name => Some name | None => email_of user end.

Definition needs_input (sub : TechnologySubscription) : bool := bool_decide (ts_last_provider_status sub = Some "NEEDS_INPUT"%string).

Definition serialize_admin_subscription_list_item (user : option TechUser) (sub : TechnologySubscription) : admin_item :=
  AdminItem sub (customer_label user) (email_of user) (access_email_delivery_status sub)
    (str_or (ts_last_provider_status sub) (ts_status sub)) (credentials_blob_present (ts_credentials_json sub)) (needs_input sub).

Definition filter_admin_subscriptions_by_email (rows : list admin_item) (email : option string) : list admin_item :=
  let needle := lower (strip (default EmptyString email)) in
  if is_empty needle then rows
  else List.filter (fun row => contains needle (lower (default EmptyString (ai_customer_email row)))) rows.

(** [is_empty fields] decides [access_available] and the message. *)
Record access_details := AccessDetails { ad_customer_name : option string; ad_customer_email : option string; ad_fields : list admin_field }.

Section Routes.
Context {cfg : TechConfig} {portal : Portal} {cipher : Cipher}.

Definition subscription_missing : exn := HTTPException "Subscription not found" 404.

(** The customer's own subscription, unless deleted. *)
Definition own_subscription (user_id subscription_id : string) : Tech TechnologySubscription :=
  do found <- query (fun d => tb_subs d !! subscription_id);
  match found with
  | Some sub => if bool_decide (ts_user_id sub = user_id) && negb (ts_is_deleted sub) then ret sub else raise subscription_missing
  | None => raise subscription_missing
  end.

(** Anybody's, for the administrators. *)
Definition any_subscription (subscription_id : string) : Tech TechnologySubscription :=
  do found <- query (fun d => tb_subs d !! subscription_id);
  match found with
  | Some sub => if ts_is_deleted sub then raise subscription_missing else ret sub
  | None => raise subscription_missing
  end.

(** *** Customers *)

Definition list_my_subscriptions (user_id : string) : Tech (list dict) :=
  do subs <- query (latest (fun s => bool_decide (ts_user_id s = user_id) && negb (ts_is_deleted s)));
  lift_res (each_of serialize_customer_subscription subs).

Definition get_subscription_detail (subscription_id user_id : string) : Tech dict :=
  do sub <- own_subscription user_id subscription_id;
  lift_res (serialize_customer_subscription sub).

Definition renew_subscription (subscription_id user_id : string) : Tech unit :=
  do _ <- own_subscription user_id subscription_id;
  raise (HTTPException "Paid Technology Service renewal checkout is not available yet. Contact support; do not pay again." 402).

Definition upgrade_subscription (subscription_id user_id : string) : Tech unit :=
  do _ <- own_subscription user_id subscription_id;
  raise (HTTPException "Paid Technology Service upgrade checkout is not available yet. Contact support; do not pay again." 402).

Definition cancelled (s : TechnologySubscription) : TechnologySubscription :=
  s <| ts_status := "CANCELLED"%string |> <| ts_auto_renew := false |>.

(** [prov_res.get("success") is True] *)
Definition confirmed (prov_res : json) : Tech bool :=
  match prov_res with JObj d => ret (is_True (dget "success" d)) | _ => raise AttributeError end.

Definition unconfirmed : exn := HTTPException "Provider cancellation could not be confirmed. Please contact support." 502.

Definition cancel_subscription (subscription_id user_id : string) : Tech string :=
  do sub <- own_subscription user_id subscription_id;
  let provider_id := strip (default EmptyString (ts_provider_subscription_id sub)) in
  when (negb (is_empty provider_id))
    (do prov_res <- ResellPortal.cancel_subscription provider_id;
     do ok <- confirmed prov_res;
     guard_exn ok unconfirmed) ;;;
  on_sub subscription_id cancelled ;;;
  tech_commit ;;;
  do sub' <- sub_of subscription_id;
  ret (ts_status sub').

Definition get_subscription_invoices (subscription_id user_id : string) : Tech (list (SubscriptionInvoice * invoice_amounts)) :=
  do sub <- own_subscription user_id subscription_id;
  do invoices <- query (fun d => merge_sort (by_desc si_created_at)
    (select_where (fun i => bool_decide (si_subscription_id i = subscription_id) && bool_decide (si_user_id i = user_id))
       (values (sh_invoices (tb_shop d)))));
  do candidates <- query (payment_tracks sub user_id);
  ret (map (fun i => (i, _invoice_amount_payload sub i (track_among sub candidates))) invoices).

(** *** Administrators *)

Definition _admin_subscription_payloads (email : option string) : Tech (list admin_item) :=
  do subs <- catch (do l <- query (latest (fun _ => true)); ret (Some l)) (fun _ => ret None);
  match subs with
  | None => ret []
  | Some subs =>
      do users <- query tb_users;
      ret (filter_admin_subscriptions_by_email
             (map (fun s => serialize_admin_subscription_list_item (users !! ts_user_id s) s) subs) email)
  end.

Definition get_admin_subscriptions (email : option string) : Tech (list admin_item) := _admin_subscription_payloads email.
Definition get_admin_orders : Tech (list admin_item) := _admin_subscription_payloads None.

Definition serialize_admin_access_details (user : option TechUser) (sub : TechnologySubscription) : access_details :=
  AccessDetails (customer_label user) (email_of user)
    (admin_access_detail_fields (load_provider_credentials (ts_credentials_json sub))).

Definition get_admin_subscription_access_details (subscription_id : string) : Tech access_details :=
  do sub <- any_subscription subscription_id;
  do user <- query (fun d => tb_users d !! ts_user_id sub);
  ret (serialize_admin_access_details user sub).

(** Waiting for an administrator. *)
Definition awaits_review (s : TechnologySubscription) : bool :=
  negb (ts_is_deleted s) && among (ts_status s) ["PENDING"; "PROVISIONING_FAILED"]%string && ts_needs_review s.

(** A query whose failure counts as no rows. *)
Definition rows_or_none (keep : TechnologySubscription -> bool) : Tech (list TechnologySubscription) :=
  catch (query (latest keep)) (fun _ => ret []).

Definition get_admin_subscriptions_needing_review : Tech (list TechnologySubscription) := rows_or_none awaits_review.

Definition renewable (s : TechnologySubscription) : bool :=
  bool_decide (ts_status s = "ACTIVE"%string) && negb (ts_is_deleted s) && bool_decide (is_Some (ts_provider_subscription_id s))
  && match ts_current_period_end s with JNull => false | _ => true end.

Definition period_end (s : TechnologySubscription) : Z := match ts_current_period_end s with JDate t => t | _ => 0 end.

Definition get_admin_renewals : Tech (list TechnologySubscription) :=
  catch (query (fun d => merge_sort (by_asc period_end) (select_where renewable (values (tb_subs d))))) (fun _ => ret []).

Definition get_admin_failed_provisioning : Tech (list failed_item) :=
  catch (
    do subs <- query (latest (fun s => negb (ts_is_deleted s) && bool_decide (ts_payment_status s = TrackPayment.CAPTURED)
                                 && bool_decide (ts_status s ∈ RETRYABLE_PROVISIONING_STATUSES)));
    do users <- query tb_users;
    ret (map (fun s => serialize_failed_provisioning_item _max_retries
                         (match users !! ts_user_id s with Some u => text_or_none (tu_email u) | None => None end) s)
           (List.filter is_failed_provisioning_queue_item subs)))
  (fun _ => ret []).

(** The access mail again. *)
Definition admin_resend_access_email (subscription_id : string) : Tech string :=
  do sub <- any_subscription subscription_id;
  do user <- query (fun d => tb_users d !! ts_user_id sub);
  do result <- deliver_admin_access_email subscription_id user true;
  let '(success, text, status) := result in
  if success then tech_commit ;;; ret status
  else
    let error := (if is_empty text then "Unable to send access email." else text)%string in
    if bool_decide (error = "Unable to send access email."%string) then tech_commit ;;; raise (HTTPException error 502)
    else raise (HTTPException error 400).

(** *** Fulfilment by hand *)

Record AdminFulfillRequest := FulfillRequest { fr_credentials_json : option dict; fr_provider_reference : option string }.

Definition MANUAL_FULFILLMENT_COMPLETED : string := "MANUAL_FULFILLMENT_COMPLETED".

Definition already_active : exn := HTTPException "Subscription is already active" 400.
Definition is_cancelled : exn := HTTPException "Cancelled subscriptions cannot be fulfilled" 400.
Definition not_captured : exn := HTTPException "Payment is not captured; refusing to fulfill" 400.

Definition store_subscription_credentials (id : string) (creds : dict) : Tech unit :=
  do blob <- lift_res (dump_provider_credentials creds);
  on_sub id (fun s => s <| ts_credentials_json := Some blob |>).

(** [sub.provider_subscription_id = payload.provider_reference], when it is given *)
Definition with_reference (reference : option string) (s : TechnologySubscription) : TechnologySubscription :=
  if truthy reference then s <| ts_provider_subscription_id := reference |> else s.

Definition settled_by_hand (s : TechnologySubscription) : TechnologySubscription :=
  s <| ts_last_provider_status := Some MANUAL_FULFILLMENT_COMPLETED |> <| ts_last_provider_error := None |>
    <| ts_needs_review := false |> <| ts_next_retry_at := None |>.

Definition period_missing (s : TechnologySubscription) : bool :=
  match ts_current_period_start s, ts_current_period_end s with JNull, _ | _, JNull => true | _, _ => false end.

(** What is written to the row. *)
Definition mark_fulfilled_by_hand (id : string) (payload : AdminFulfillRequest) : Tech unit :=
  on_sub id (fun s => with_reference (fr_provider_reference payload) (s <| ts_status := "ACTIVE"%string |>)) ;;;
  (match fr_credentials_json payload with Some creds => store_subscription_credentials id creds | None => ret tt end) ;;;
  on_sub id settled_by_hand ;;;
  do sub <- sub_of id;
  when (period_missing sub)
    (do now <- utc_now;
     let n := if startswith (lower (ts_billing_cycle sub)) "ann" then 365 else 30 in
     on_sub id (fun s => s <| ts_current_period_start := JDate now |> <| ts_current_period_end := JDate (now + days n) |>)) ;;;
  flush_sub id.

(** The first request a column of the subscription names; an absent one names the
    requests without a value, as SQL compares [NULL] here. *)
Definition request_with (column : CoBrotherRequest -> option string) (value : option string) (d : tech_db) : option CoBrotherRequest :=
  List.find (fun r => bool_decide (column r = value)) (values (sh_requests (tb_shop d))).

Definition complete_request (sub : TechnologySubscription) : Tech unit :=
  if truthy (ts_razorpay_order_id sub) || truthy (ts_razorpay_payment_id sub) then
    do by_order <- query (request_with cr_razorpay_order_id (ts_razorpay_order_id sub));
    do found <- (match by_order with
                 | Some r => ret (Some r)
                 | None => if truthy (ts_razorpay_payment_id sub)
                           then query (request_with cr_razorpay_payment_id (ts_razorpay_payment_id sub)) else ret None
                 end);
    match found with
    | Some r => modify (fun d => d <| tb_shop ::= set sh_requests (alter (fun r => r <| cr_status := "COMPLETED"%string |>) (cr_id r)) |>)
    | None => ret tt
    end
  else ret tt.

(** [float(record.amount_charged or sub.price or 0.0)], in the column again. *)
Definition amount_of (r : TrackRecord) (sub : TechnologySubscription) : res Z :=
  if tr_amount_charged r =? 0 then (if negb (fl_eqb (ts_price sub) fl_zero) then numeric_12_2 (ts_price sub) else Ok 0)
  else Ok (tr_amount_charged r).

Definition record_fulfilment (sub : TechnologySubscription) : Tech unit :=
  do found <- (if truthy (ts_razorpay_payment_id sub)
               then find_by_razorpay_payment_id (default EmptyString (ts_razorpay_payment_id sub)) else ret None);
  do found <- (match found with
               | Some r => ret (Some r)
               | None => if truthy (ts_razorpay_order_id sub)
                         then find_by_razorpay_order_id (default EmptyString (ts_razorpay_order_id sub)) else ret None
               end);
  match found with
  | None => ret tt
  | Some r =>
      do amount <- lift_res (amount_of r sub);
      do _ <- record_paid_attempt {|
        pa_internal_order_id := Some (tr_internal_order_id r); pa_cart_batch_id := None; pa_category := tr_category r;
        pa_provider_subcategory := Some (str_or (tr_provider_subcategory r) "Manual Fulfillment");
        pa_item_name := if_text (tr_item_name r) (ts_service_name sub); pa_item_id := None; pa_quantity_years := 1;
        pa_buyer := (None, None, None); pa_buyer_user_id := None; pa_amount_charged := amount; pa_currency := "INR";
        pa_net_and_gst := (None, None); pa_payment_status := TrackPayment.CAPTURED; pa_razorpay_order_id := tr_razorpay_order_id r;
        pa_razorpay_payment_id := tr_razorpay_payment_id r; pa_razorpay_refund_id := None;
        pa_fulfillment_status := FulfillmentStatus.PROVISIONED; pa_overall_status := OverallStatus.SUCCESS;
        pa_openprovider_domain_id := None; pa_error_code := None; pa_error_message := None; pa_error_source := None; pa_notes := None;
        pa_admin_deep_link := None; pa_created_at := None; pa_clear_errors := true |};
      ret tt
  end.

(** The confirmation, unless some mail was sent already. *)
Definition fulfilment_confirmation (id : string) : Tech unit :=
  do sub <- sub_of id;
  if ts_email_sent sub then ret tt
  else catch (
    do user <- _user_for (ts_user_id sub);
    send_mail (ConfirmationMail (email_or_id user (ts_user_id sub)) (ts_id sub) (ts_service_name sub) (plan_title sub)
      ("Service ID: " +:+ str_or (ts_provider_subscription_id sub) "N/A")%string) ;;;
    on_sub id (fun s => s <| ts_email_sent := true |> <| ts_confirmation_sent := true |>) ;;;
    tech_commit) (fun _ => ret tt).

Definition first_and_last (user : option TechUser) (fallback : string) : string :=
  let given s := if truthy s then s else None in
  let name := match user with Some u => join " " (omap given [tu_firstname u; tu_lastname u]) | None => EmptyString end in
  if is_empty name then fallback else name.

Definition fulfilment_access (id : string) : Tech unit :=
  do sub <- sub_of id;
  if ts_access_email_sent sub then ret tt
  else
    do user <- _user_for (ts_user_id sub);
    let user_email := email_or_id user (ts_user_id sub) in
    do payload <- lift_res (access_email_payload sub (Some (first_and_last user user_email)) false);
    match payload with
    | None => ret tt
    | Some p =>
        catch (
          send_mail (AccessMail user_email p) ;;;
          on_sub id (fun s => s <| ts_access_email_sent := true |> <| ts_access_email_status := "SENT"%string |>) ;;;
          tech_commit)
        (fun _ => on_sub id (fun s => s <| ts_access_email_status := "FAILED"%string |>) ;;; tech_commit)
    end.

(** The status and the credentials. *)
Definition admin_fulfill_subscription (subscription_id : string) (payload : AdminFulfillRequest) : Tech (string * dict) :=
  do sub <- any_subscription subscription_id;
  guard_exn (negb (bool_decide (ts_status sub = "ACTIVE"%string))) already_active ;;;
  guard_exn (negb (bool_decide (ts_status sub = "CANCELLED"%string))) is_cancelled ;;;
  guard_exn (bool_decide (ts_payment_status sub = TrackPayment.CAPTURED)) not_captured ;;;
  mark_fulfilled_by_hand subscription_id payload ;;;
  complete_request sub ;;;
  record_fulfilment sub ;;;
  tech_commit ;;;
  fulfilment_confirmation subscription_id ;;;
  fulfilment_access subscription_id ;;;
  do sub' <- sub_of subscription_id;
  ret (ts_status sub', load_provider_credentials (ts_credentials_json sub')).
End Routes.
