(* ===== verification/TechLife.v ===== *)
(** * The life of a paid subscription

    Webhooks, ticks of the worker, retries, cancellations, fulfilments by hand and
    mails sent again, in any order: what a webhook leaves alone, and that no
    subscription is ever forgotten. *)

From stdpp Require Import sorting.
From S2P Require Import Prelude Text Numerals PyNum PyJson Urls Secrets ExchangeRates TrackRecords TechStore TechStatus TechAccess ProductMapper ResellPortal TechRetry TechWorker TechCheckout TechCheckoutFacts TechAdmin.

(** ** Computations that end well or commit nothing new

    The committed database satisfies [C] throughout; a session that satisfies [I]
    satisfies [J] when the computation returns and [R] when it raises. *)

Section Settles.
Context {D E : Type} (C R : D -> Prop).
Implicit Types I J K : D -> Prop.

Definition settles {A} I J (m : M D E A) : Prop := forall s, C (s_committed s) -> I (s_db s) ->
  C (s_committed (m s).2) /\ match (m s).1 with Ok _ => J (s_db (m s).2) | Raise _ => R (s_db (m s).2) end.

Lemma settles_seq {A B} K I J (m : M D E A) (f : A -> M D E B) :
  settles I K m -> (forall a, settles K J (f a)) -> settles I J (bind m f).
Proof.
  intros Hm Hf s H1 H2. destruct (Hm s H1 H2) as [H3 H4]. unfold bind. destruct (m s) as [[a|e] s']; cbn in *; [by apply Hf|done].
Qed.

Lemma settles_catch {A} I J (m : M D E A) h : settles I J m -> (forall e, settles R J (h e)) -> settles I J (catch m h).
Proof.
  intros Hm Hh s H1 H2. destruct (Hm s H1 H2) as [H3 H4]. unfold catch. destruct (m s) as [[a|e] s']; [done|by apply Hh].
Qed.

Lemma settles_modify I J f : (forall d, I d -> J (f d)) -> settles I J (modify f : M D E unit).
Proof. intros Hf s H1 H2. split; [done|by apply Hf]. Qed.

Context (HCR : forall d, C d -> R d).

(** A step that keeps [R] and a fact about a part of the session. *)
Lemma settles_view {A T} (view : D -> T) (Q : T -> Prop) (m : M D E A) :
  (forall s, C (s_committed s) -> C (s_committed (m s).2)) -> preserves (db_view view) m -> upholds R m ->
  settles (fun d => R d /\ Q (view d)) (fun d => R d /\ Q (view d)) m.
Proof using HCR.
  intros Hc Hv Hm s H1 [H2 H3]. specialize (Hc s H1). specialize (Hv s). unfold db_view in Hv.
  destruct (Hm s) as [_ H4]; [split; auto|]. split; [done|]. destruct (m s).1; [by rewrite Hv|done].
Qed.

Lemma settles_keeps {A} (m : M D E A) :
  (forall s, C (s_committed s) -> C (s_committed (m s).2)) -> upholds R m -> settles R R m.
Proof using HCR.
  intros Hc Hm s H1 H2. destruct (Hm s) as [_ H3]; [split; auto|]. split; [by apply Hc|]. by destruct (m s).1.
Qed.

(** Where [C] holds, what keeps it may follow, commits included. *)
Lemma settles_upholds {A} I (m : M D E A) : (forall d, I d -> C d) -> upholds C m -> settles I C m.
Proof using HCR.
  intros HI Hm s H1 H2. destruct (Hm s) as [H3 H4]; [split; auto|]. split; [done|]. destruct (m s).1; auto.
Qed.
End Settles.

(** ** What forgotten means *)

Definition known_statuses : list string := "ACTIVE"%string :: "TEST_SIMULATED"%string :: "CANCELLED"%string :: RETRYABLE_STATUSES.

(** A subscription still to be activated waits for an administrator or has attempts left. *)
Definition handled {cfg : TechConfig} (s : TechnologySubscription) : Prop :=
  ts_status s ∈ known_statuses /\
  (ts_status s ∈ RETRYABLE_STATUSES -> ts_needs_review s = true \/ ts_provision_attempts s < retry_limit).

(** Every row is handled, and stands under its id. *)
Definition all_handled {cfg : TechConfig} (d : tech_db) : Prop := forall k s, tb_subs d !! k = Some s -> ts_id s = k /\ handled s.

(** All but row [id], which has a known status. *)
Definition rest_handled {cfg : TechConfig} (id : string) (d : tech_db) : Prop :=
  forall k s, tb_subs d !! k = Some s -> ts_id s = k /\ if decide (k = id) then ts_status s ∈ known_statuses else handled s.

Definition knowing (s s' : TechnologySubscription) : Prop :=
  ts_id s' = ts_id s /\ (ts_status s ∈ known_statuses -> ts_status s' ∈ known_statuses).

Section Handled.
#[local] Set Default Proof Using "Type*".
Context {cfg : TechConfig} {portal : Portal} {cipher : Cipher}.
Context (id : string).

Lemma handled_rest d : all_handled d -> rest_handled id d.
Proof. intros H k s Hs. destruct (H _ _ Hs) as [H1 H2]. split; [done|]. destruct (decide (k = id)); [apply H2|done]. Qed.

Lemma closed_rest : closed knowing id (rest_handled id).
Proof.
  split; [done..|]. intros f d Hf H k s Hs. cbn in Hs.
  apply alter_row_inv in Hs as [(-> & s0 & Hs & ->)|[Hk Hs]]; destruct (H _ _ Hs) as [H1 H2]; [|done].
  destruct (Hf s0) as [F1 F2]. rewrite F1. split; [done|]. rewrite decide_True in * by done. by apply F2.
Qed.

Lemma closed_handled : closed same_core id all_handled.
Proof.
  split; [done..|]. intros f d Hf H k s Hs. cbn in Hs.
  apply alter_row_inv in Hs as [(-> & s0 & Hs & ->)|[Hk Hs]]; [|by eapply H].
  destruct (H _ _ Hs) as (H0 & H1 & H2). destruct (Hf s0) as (E1 & E2 & _ & _ & _ & _ & _ & E3 & E4). split; [by rewrite E4|].
  split; rewrite E1; [done|]. intros Hr. rewrite E2. destruct (H2 Hr); auto.
Qed.

(** Setting the row to something handled. *)
Lemma closed_rest_row d f : rest_handled id d -> (forall s, ts_id (f s) = ts_id s) -> (forall s, tb_subs d !! id = Some s -> handled (f s)) ->
  all_handled (d <| tb_subs ::= alter f id |>).
Proof.
  intros H Hid Hf k s Hs. cbn in Hs. apply alter_row_inv in Hs as [(-> & s0 & Hs & ->)|[Hk Hs]]; destruct (H _ _ Hs) as [H1 H2].
  - rewrite Hid. split; [done|]. by apply Hf.
  - by rewrite decide_False in H2 by done.
Qed.

Lemma rest_known d s : rest_handled id d -> tb_subs d !! id = Some s -> ts_status s ∈ known_statuses.
Proof. intros H Hs. destruct (H _ _ Hs) as [_ H1]. by destruct (decide (id = id)). Qed.

Lemma core_rest : closed same_core id (rest_handled id).
Proof. eapply closed_mono; [|apply closed_rest]. intros s s' (E & _ & _ & _ & _ & _ & _ & _ & E'). split; [done|]. by rewrite E. Qed.

Lemma upholds_on_sub_known f : (forall s, knowing s (f s)) -> upholds (rest_handled id) (on_sub id f).
Proof. intros Hf. apply upholds_modify. intros d. by apply (closed_row _ _ _ closed_rest). Qed.

Abbreviation settling := (settles all_handled (rest_handled id)).

Lemma settles_on_sub f : (forall s, ts_id (f s) = ts_id s /\ (ts_status s ∈ known_statuses -> handled (f s))) ->
  settling (rest_handled id) all_handled (on_sub id f).
Proof.
  intros Hf. apply settles_modify. intros d Hd. apply closed_rest_row; [done|intros s; apply Hf|].
  intros s Hs. by apply Hf, (rest_known d).
Qed.

(** *** The row of the retry *)

Lemma settles_schedule : settling (rest_handled id) all_handled (schedule id).
Proof.
  intros s Hc Hd. unfold schedule, _next_retry, sub_of, usable, bind, gets, guard_exn. destruct (tb_failed (s_db s)); [done|].
  cbn [negb ret raise]. cbn beta iota zeta. destruct (tb_subs (s_db s) !! id) as [sub|] eqn:E; [|done].
  cbn [ret raise]. cbn beta iota zeta. pose proof (rest_known _ _ Hd E) as Hk.
  destruct (Z.leb_spec retry_limit (ts_provision_attempts sub)) as [Hl|Hl]; cbn; (split; [done|]).
  - intros k x Hx. cbn in Hx. rewrite alter_alter_eq in Hx. revert k x Hx. apply (closed_rest_row (s_db s)); [done..|].
    intros s0 Hs0. split; [cbn; congruence|]. by left.
  - apply (closed_rest_row (s_db s)); [done..|]. intros s0 Hs0. rewrite E in Hs0. injection Hs0 as <-. split; [done|]. by right.
Qed.

Lemma settles_give_up : settling (rest_handled id) all_handled (give_up_or_wait id).
Proof.
  intros s Hc Hd. unfold give_up_or_wait, sub_of, usable, bind, gets, guard_exn. destruct (tb_failed (s_db s)); [done|].
  cbn [negb ret raise]. cbn beta iota zeta. destruct (tb_subs (s_db s) !! id) as [sub|] eqn:E; [|done].
  cbn [ret raise]. cbn beta iota zeta.
  destruct (Z.leb_spec retry_limit (ts_provision_attempts sub)) as [Hl|Hl]; cbn; (split; [done|]);
    apply (closed_rest_row (s_db s)); try done; intros s0 Hs0; rewrite E in Hs0; injection Hs0 as <-.
  - split; [cbn; set_solver|]. by left.
  - split; [cbn; set_solver|]. by right.
Qed.

(** *** Steps that commit no row *)

Abbreviation keeps_rows m := (preserves (fun s : session tech_db tech_effect => tb_subs (s_committed s)) m).

Lemma committed_prim {A} (m : Tech A) : keeps_committed m -> keeps_rows m.
Proof using Type. intros Hm s. by rewrite (Hm s). Qed.

#[local] Hint Extern 2 (keeps_rows _) => solve [apply committed_prim; eauto with frame nocore] : frame.


Lemma committed_call q : keeps_rows (portal_call q).
Proof using Type. by intros s. Qed.

Lemma committed_usable : keeps_rows usable.
Proof using Type. unfold usable. frame. Qed.

Lemma committed_query {A} (f : tech_db -> A) : keeps_rows (query f).
Proof using Type. pose proof committed_usable. unfold query. frame. Qed.

Lemma committed_sub_of k : keeps_rows (sub_of k).
Proof using Type. pose proof committed_usable. unfold sub_of. frame. Qed.

Lemma committed_on_sub k f : keeps_rows (on_sub k f).
Proof using Type. unfold on_sub. frame. Qed.

Lemma committed_flush k : keeps_rows (flush_sub k).
Proof using Type. pose proof committed_usable. unfold flush_sub. frame. Qed.

#[local] Hint Resolve committed_call committed_usable committed_query committed_sub_of committed_on_sub committed_flush : frame.

Lemma committed_merge k creds : keeps_rows (merge_subscription_credentials k creds).
Proof using Type. unfold merge_subscription_credentials. frame. Qed.

Lemma committed_answered k r : keeps_rows (merge_answered k r).
Proof using Type. pose proof committed_merge. unfold merge_answered. frame. Qed.

Lemma committed_client e u : keeps_rows (create_portal_client e u).
Proof using Type. unfold create_portal_client, mock_create_client, secret_text. frame. Qed.

Lemma committed_find slug uid key mail plan cycle : keeps_rows (find_matching_order slug uid key mail plan cycle).
Proof using Type. unfold find_matching_order, list_orders, _make_request. frame. Qed.

Lemma committed_provision slug name plan cycle e u key ps c acc : keeps_rows (provision_service slug name plan cycle e u key ps c acc).
Proof using Type.
  unfold provision_service, mock_provision_service, secret_text, _make_request, normalize_provision_response. frame.
Qed.

#[local] Hint Resolve committed_merge committed_answered committed_client committed_find committed_provision : frame.

Lemma committed_account e : keeps_rows (_ensure_portal_account id e).
Proof using Type. unfold _ensure_portal_account, _stored_portal_account_for_user. frame. Qed.

Lemma committed_user u : keeps_rows (_user_for u).
Proof using Type. unfold _user_for. frame. Qed.

Lemma committed_periods c : keeps_rows (_sub_periods c).
Proof using Type. unfold _sub_periods. frame. Qed.

Lemma committed_schedule : keeps_rows (schedule id).
Proof using Type. unfold schedule, _next_retry. frame. Qed.

#[local] Hint Resolve committed_account committed_user committed_periods committed_schedule : frame.

(** *** The outcomes *)

Lemma rows_guarded {A} (m : Tech A) : keeps_rows m -> forall s, all_handled (s_committed s) -> all_handled (s_committed (m s).2).
Proof using Type. intros Hm s Hs k x. rewrite (Hm s). apply Hs. Qed.

Lemma settle_by {A B} (m : Tech A) (f : A -> Tech B) : keeps_rows m -> upholds (rest_handled id) m ->
  (forall a, settling (rest_handled id) all_handled (f a)) -> settling (rest_handled id) all_handled (bind m f).
Proof using Type.
  intros Hc Hm. apply settles_seq. apply settles_keeps; [apply handled_rest|by apply rows_guarded|done].
Qed.

Lemma settle_then {I A B} (m : Tech A) (f : A -> Tech B) : settling I all_handled m ->
  (forall a, upholds all_handled (f a)) -> settling I all_handled (bind m f).
Proof using Type. intros Hm Hf. eapply settles_seq; [done|]. intros a. by apply settles_upholds; [apply handled_rest| |]. Qed.

(** Membership of literals. *)
Ltac member := match goal with |- ?P => exact (bool_decide_unpack P I) end.
Ltac known := split; [reflexivity|]; cbn; first [exact (fun H => H) | intros _; member].
Ltac handled_now := intros ?; split; [reflexivity|]; intros ?; split; cbn; [assumption || member|];
  first [intros _; left; reflexivity | intros Hr; exfalso; revert Hr; member].

#[local] Hint Resolve core_rest closed_handled settles_schedule settles_give_up : core.
#[local] Hint Extern 1 (upholds (rest_handled _) (on_sub _ _)) => apply upholds_on_sub_known; intros ?; known : upholds.
#[local] Hint Extern 1 (upholds all_handled (on_sub _ _)) => apply (upholds_on_sub_core id _ closed_handled); intros ?; repeat split; intros ?; assumption || reflexivity : upholds.

Ltac settle := repeat (cbn beta zeta; first
  [ progress intros
  | solve [auto 1]
  | lazymatch goal with
    | |- settles _ _ _ _ (bind (schedule _) _) => first
        [ apply settle_then; [apply settles_schedule|solve [upholds]] | apply settle_by; [solve [eauto with frame nocore | frame]|solve [upholds]|] ]
    | |- settles _ _ _ _ (bind (give_up_or_wait _) _) => apply settle_then; [apply settles_give_up|solve [upholds]]
    | |- settles _ _ _ _ (bind _ _) => first
        [ apply settle_then; [solve [apply settles_on_sub; handled_now]|solve [upholds]]
        | apply settle_by; [solve [eauto with frame nocore | frame]|solve [upholds]|] ]
    | |- settles _ _ _ _ (match _ with _ => _ end) => case_match
    end ]).

Lemma settles_mark_pending r e : settling (rest_handled id) all_handled (_mark_pending id r e).
Proof. unfold _mark_pending, _send_pending_email. settle. Qed.

(** A status just written decides that the row is handled. *)
Definition with_status (st : string) (d : tech_db) : Prop := rest_handled id d /\ forall x, ts_status <$> tb_subs d !! id = Some x -> x = st.

Lemma settles_status st f : (forall s, ts_id (f s) = ts_id s /\ ts_status (f s) = st) -> st ∈ known_statuses ->
  settling (rest_handled id) (with_status st) (on_sub id f).
Proof.
  intros Hf Hst. apply settles_modify. intros d Hd. split.
  - apply (closed_row _ _ _ closed_rest); [|done]. intros s. destruct (Hf s) as [? E]. split; [done|]. by rewrite E.
  - intros x. cbn. rewrite lookup_alter_eq. destruct (tb_subs d !! id); [|done]. cbn. intros [= <-]. apply (Hf _).
Qed.

Lemma settle_status st {A B} (m : Tech A) (f : A -> Tech B) : keeps_rows m -> upholds (rest_handled id) m ->
  preserves (db_view (fun d => ts_status <$> tb_subs d !! id)) m ->
  (forall a, settling (with_status st) all_handled (f a)) -> settling (with_status st) all_handled (bind m f).
Proof using Type.
  intros Hc Hm Hv. apply settles_seq.
  apply (settles_view _ _ handled_rest (fun d => ts_status <$> tb_subs d !! id) (fun v => forall x, v = Some x -> x = st)); [by apply rows_guarded|done..].
Qed.

Lemma settles_decided st f : (forall s, ts_id (f s) = ts_id s /\ ts_status (f s) = ts_status s) -> st ∈ known_statuses -> st ∉ RETRYABLE_STATUSES ->
  settling (with_status st) all_handled (on_sub id f).
Proof.
  intros Hf Hst Hno. apply settles_modify. intros d [Hd Hx]. apply closed_rest_row; [done|intros s; apply Hf|].
  intros s Hs. rewrite Hs in Hx. specialize (Hx _ eq_refl). destruct (Hf s) as [_ Hf']. split; rewrite Hf', Hx; [done|]. by intros ?%Hno.
Qed.

(** Steps that leave the status as it is. *)
Abbreviation keeps_status m := (preserves (db_view (fun d => ts_status <$> tb_subs d !! id)) m).

Lemma status_on_sub f : (forall s, ts_status (f s) = ts_status s) -> keeps_status (on_sub id f).
Proof using Type.
  intros Hf s. unfold db_view. cbn. rewrite lookup_alter_eq. destruct (tb_subs (s_db s) !! id); [|done]. cbn. by rewrite Hf.
Qed.

Lemma status_silent {A} (m : Tech A) : silent m -> keeps_status m.
Proof using Type. intros Hm s. by rewrite (Hm s). Qed.

#[local] Hint Extern 1 (preserves (db_view _) (on_sub _ _)) => apply status_on_sub; intros ?; reflexivity : frame.

Lemma status_sub_of : keeps_status (sub_of id).
Proof using Type. unfold sub_of, usable. frame. Qed.

Lemma status_merge creds : keeps_status (merge_subscription_credentials id creds).
Proof using Type. pose proof status_sub_of. unfold merge_subscription_credentials. frame. Qed.

Lemma status_answered r : keeps_status (merge_answered id r).
Proof using Type. pose proof status_merge. unfold merge_answered. frame. Qed.

Lemma status_periods c : keeps_status (_sub_periods c).
Proof using Type. unfold _sub_periods. frame. Qed.
#[local] Hint Resolve status_sub_of status_merge status_answered status_periods : frame.

Ltac settle_as := repeat (cbn beta zeta; first
  [ progress intros
  | apply settle_then; [apply settles_decided; [by split|member|member]|solve [upholds]]
  | apply settle_status; [solve [frame]|solve [upholds]|solve [frame]|] ]).

Lemma settles_mark_active r e u : settling (rest_handled id) all_handled (_mark_active id r e u).
Proof.
  unfold _mark_active. eapply settles_seq; [apply (settles_status "ACTIVE"); [by split|member]|]. settle_as.
Qed.

Lemma settles_mark_simulated r e : settling (rest_handled id) all_handled (_mark_simulated id r e).
Proof.
  unfold _mark_simulated, _send_simulated_email. eapply settles_seq; [apply (settles_status "TEST_SIMULATED"); [by split|member]|]. settle_as.
Qed.

Lemma settles_mark_failed r e : settling (rest_handled id) all_handled (_mark_failed id r e).
Proof. unfold _mark_failed, _send_failed_email, _send_pending_email. settle. Qed.

Lemma settles_adopt o e : settling (rest_handled id) all_handled (_adopt_existing_order id o e).
Proof. unfold _adopt_existing_order, _sub_periods. settle. Qed.

Lemma settles_manual : settling (rest_handled id) all_handled (_mark_manual_fulfillment id).
Proof. unfold _mark_manual_fulfillment. settle. Qed.

Lemma settles_conclude r e u : settling (rest_handled id) all_handled (conclude id r e u).
Proof.
  pose proof settles_mark_active. pose proof settles_mark_pending. pose proof settles_mark_simulated. pose proof settles_mark_failed.
  unfold conclude. settle.
Qed.

Lemma settles_place key mail u c acc sub : settling (rest_handled id) all_handled (place_order id key mail u c acc sub).
Proof.
  destruct (portal_free_upholds (rest_handled id)) as (_ & _ & Hp); [done|]. pose proof settles_conclude.
  unfold place_order, _send_pending_email. settle.
Qed.

Lemma settles_steps sub : settling (rest_handled id) all_handled (provision_steps id sub).
Proof.
  destruct (portal_free_upholds (rest_handled id)) as (Hc & Hf & _); [done|].
  pose proof (fun e => upholds_account id _ core_rest e (Hc e)).
  pose proof settles_place. pose proof settles_adopt. pose proof settles_manual.
  unfold provision_steps, reconcile_or_order, _service_for, _send_pending_email. settle.
Qed.

Lemma settles_failed : settling (rest_handled id) all_handled (process_failed id).
Proof. unfold process_failed. settle. Qed.

(** One subscription is processed: then it is handled, unless the transaction is lost. *)
Lemma settles_process : settling (rest_handled id) all_handled (_process id).
Proof.
  pose proof (upholds_process_active id _ closed_handled) as Hactive.
  unfold _process. apply settles_catch; [|intros _; apply settles_failed].
  intros s H1 H2. unfold bind at 1 2 3, sub_of, usable, bind, gets, guard_exn. destruct (tb_failed (s_db s)); [done|].
  cbn [negb ret raise]. cbn beta iota zeta. destruct (tb_subs (s_db s) !! id) as [sub|] eqn:E; [|done].
  cbn [ret]. cbn beta iota zeta. destruct (bool_decide_reflect (ts_status sub = "ACTIVE"%string)) as [Ha|Ha]; [|by apply settles_steps].
  assert (Hg : good all_handled s).
  { split; [done|]. intros k x Hk. destruct (decide (k = id)) as [->|Hne].
    - destruct (H2 _ _ Hk) as [H3 _]. split; [done|]. rewrite E in Hk. injection Hk as <-. split; rewrite Ha; [member|]. intros Hr. exfalso. revert Hr. member.
    - destruct (H2 _ _ Hk) as [H3 H4]. by rewrite decide_False in H4 by done. }
  destruct (Hactive sub s Hg) as [H3 H4]. split; [done|]. destruct (process_active id sub s).1; [done|by apply handled_rest].
Qed.

(** *** At the desk *)

Lemma settles_by_hand payload : settling (rest_handled id) all_handled (mark_fulfilled_by_hand id payload).
Proof.
  unfold mark_fulfilled_by_hand, store_subscription_credentials. eapply settles_seq.
  { apply (settles_status "ACTIVE"); [|member]. intros s. unfold with_reference. by case_match. }
  intros _. apply settle_status; [case_match; frame|case_match; upholds|case_match; frame|]. intros _.
  apply settle_then; [apply settles_decided; [by split|member|member]|]. intros _. upholds.
Qed.

Lemma upholds_handled_row f : (forall s, ts_id (f s) = ts_id s /\ (ts_status s ∈ known_statuses -> handled (f s))) ->
  upholds all_handled (on_sub id f).
Proof.
  intros Hf. apply upholds_modify. intros d Hd%handled_rest. apply closed_rest_row; [done|intros s; apply Hf|].
  intros s Hs. by apply Hf, (rest_known d).
Qed.

Lemma handled_confirmation : upholds all_handled (fulfilment_confirmation id).
Proof. unfold fulfilment_confirmation, _user_for. upholds. Qed.

Lemma handled_access : upholds all_handled (fulfilment_access id).
Proof. unfold fulfilment_access, _user_for. upholds. Qed.

Lemma handled_request sub : upholds all_handled (complete_request sub).
Proof using id. unfold complete_request, query, usable. upholds. Qed.

Lemma handled_record sub : upholds all_handled (record_fulfilment sub).
Proof using id.
  pose proof (fun r => upholds_track_write id _ closed_handled r).
  unfold record_fulfilment, record_paid_attempt, find_by_razorpay_payment_id, find_by_razorpay_order_id, find_by_internal_order_id,
    generate_internal_order_id. upholds.
Qed.

Lemma handled_deliver user again : upholds all_handled (deliver_admin_access_email id user again).
Proof.
  assert (Hfail : upholds all_handled (on_sub id mark_access_email_failed)).
  { apply (upholds_on_sub_core id _ closed_handled). intros s. unfold mark_access_email_failed. by case_match; repeat split. }
  unfold deliver_admin_access_email. upholds.
Qed.

Lemma handled_cancelled : upholds all_handled (on_sub id cancelled).
Proof. apply upholds_handled_row. handled_now. Qed.
End Handled.

(** ** The worker and the retry *)

Abbreviation anywhere := (fun _ : tech_db => True).

(** What a request leaves committed. *)
Definition leaves_handled {cfg : TechConfig} {A} (m : Tech A) : Prop := settles all_handled anywhere all_handled all_handled m.

Section Requests.
Context {cfg : TechConfig} {portal : Portal} {cipher : Cipher}.

Lemma leaves_bind {A B} (m : Tech A) (f : A -> Tech B) : leaves_handled m -> (forall a, leaves_handled (f a)) -> leaves_handled (bind m f).
Proof. apply settles_seq. Qed.

Lemma leaves_upholds {A} (m : Tech A) : upholds all_handled m -> leaves_handled m.
Proof. intros Hm s H1 H2. destruct (Hm s (conj H1 H2)) as [H3 H4]. split; [done|]. by destruct (m s).1. Qed.

Lemma leaves_rest {A} R I (m : Tech A) : settles all_handled R I all_handled m -> settles all_handled anywhere I all_handled m.
Proof. intros Hm s H1 H2. destruct (Hm s H1 H2) as [H3 H4]. split; [done|]. by destruct (m s).1. Qed.

Lemma leaves_process id : leaves_handled (_process id).
Proof. intros s H1 H2. apply (leaves_rest (rest_handled id) (rest_handled id)); [apply settles_process|done|by apply handled_rest]. Qed.

Lemma leaves_request {A} clock ids (m : Tech A) d : leaves_handled m -> all_handled d -> all_handled (tech_request clock ids m d).2.
Proof.
  intros Hm Hd. destruct (Hm (open_session clock ids d) Hd Hd) as [H _]. unfold tech_request, run_request. revert H. by destruct (m _).
Qed.

Lemma leaves_tick locked : leaves_handled (run_tick locked).
Proof.
  assert (Hall : forall ids, leaves_handled (process_all ids)).
  { induction ids as [|id ids IH]; cbn [process_all]; [by apply leaves_upholds; upholds|].
    apply leaves_bind; [apply leaves_process|intros o]. apply leaves_bind; [done|intros rest]. by apply leaves_upholds; upholds. }
  unfold run_tick. apply leaves_bind; [by apply leaves_upholds; upholds|intros now].
  apply leaves_bind; [by apply leaves_upholds; unfold query, usable; upholds|intros rows]. apply leaves_bind; [done|intros outcomes].
  apply leaves_upholds. upholds.
Qed.

Lemma leaves_retry id force : leaves_handled (retry_subscription id force).
Proof.
  pose proof (closed_handled id) as HC. unfold retry_subscription.
  apply leaves_bind; [by apply leaves_upholds; unfold query, usable; upholds|intros found].
  case_match; [|by apply leaves_upholds; upholds]. case_match; [by apply leaves_upholds; upholds|].
  case_match; [by apply leaves_upholds; upholds|]. case_match; [by apply leaves_upholds; upholds|].
  case_match; [by apply leaves_upholds; upholds|]. apply leaves_bind; [by apply leaves_upholds; upholds|intros now].
  apply (settles_seq _ _ (rest_handled id)).
  - apply settles_modify. intros d Hd. apply (closed_row _ _ _ (closed_rest id)); [intros x; split; [done|intros Hx; exact Hx]|by apply handled_rest].
  - intros _. apply (settles_seq _ _ all_handled); [apply (leaves_rest (rest_handled id)), settles_process|].
    intros o. apply leaves_upholds. upholds.
Qed.

Lemma handled_call m e what j mock : upholds all_handled mock -> upholds all_handled (subscription_call m e what j mock).
Proof.
  intros Hm. assert (Hc : forall q, upholds all_handled (portal_call q)) by by intros q s [? ?].
  unfold subscription_call, _make_request. upholds.
Qed.

Lemma handled_own user id : upholds all_handled (own_subscription user id).
Proof. unfold own_subscription, query, usable. upholds. Qed.

Lemma handled_any id : upholds all_handled (any_subscription id).
Proof. unfold any_subscription, query, usable. upholds. Qed.

Lemma leaves_cancel id user : leaves_handled (cancel_subscription id user).
Proof.
  pose proof (closed_handled id) as HC. pose proof handled_own. pose proof (handled_cancelled id).
  apply leaves_upholds. unfold cancel_subscription, confirmed, ResellPortal.cancel_subscription. upholds. apply handled_call. upholds.
Qed.

Lemma leaves_resend id : leaves_handled (admin_resend_access_email id).
Proof.
  pose proof handled_any. pose proof (handled_deliver id).
  apply leaves_upholds. unfold admin_resend_access_email, query, usable. upholds.
Qed.

Lemma leaves_fulfil id payload : leaves_handled (admin_fulfill_subscription id payload).
Proof.
  pose proof (closed_handled id) as HC. pose proof (handled_confirmation id). pose proof (handled_access id).
  pose proof (handled_request id). pose proof (handled_record id).
  unfold admin_fulfill_subscription. apply leaves_bind; [apply leaves_upholds, handled_any|intros sub].
  do 3 (apply leaves_bind; [apply leaves_upholds; upholds|intros _]).
  apply leaves_bind; [|intros _; apply leaves_upholds; upholds].
  intros s H3 H4. apply (leaves_rest (rest_handled id) (rest_handled id)); [apply settles_by_hand|done|by apply handled_rest].
Qed.
End Requests.

(** ** What a webhook leaves alone *)

Section Own.
#[local] Set Default Proof Using "Type*".
Context {cfg : TechConfig} {portal : Portal} {cipher : Cipher}.
Context (seed : list TechnologyService) (rates : rates_map) (uid payment : string) (old : gmap string TechnologySubscription).

(** The rows of [old] are what they were. *)
Definition untouched (d : tech_db) : Prop := keyed d /\ forall k, is_Some (old !! k) -> tb_subs d !! k = old !! k.

Definition has_paid (d : tech_db) : Prop :=
  exists k s, tb_subs d !! k = Some s /\ ts_user_id s = uid /\ ts_razorpay_payment_id s = Some payment /\ ts_is_deleted s = false.

(** Changes of a row that has paid. *)
Definition own_change (s s' : TechnologySubscription) : Prop :=
  ts_id s' = ts_id s /\ ts_user_id s' = ts_user_id s /\ ts_is_deleted s' = ts_is_deleted s /\
  (ts_razorpay_payment_id s = Some payment -> ts_razorpay_payment_id s' = Some payment).

Lemma payment_own s s' : same_payment s s' -> own_change s s'.
Proof using Type. unfold same_payment, own_change. intuition congruence. Qed.

Lemma closed_untouched id : old !! id = None -> closed own_change id untouched.
Proof using Type.
  intros Hid. split; [done..|]. intros f d Hf [H1 H2]. split.
  - intros k s Hs. cbn in Hs. apply alter_row_inv in Hs as [(-> & s0 & Hs & ->)|[_ Hs]]; [destruct (Hf s0) as [-> _]|]; by apply H1.
  - intros k Hk. cbn. rewrite lookup_alter_ne; [by apply H2|]. intros <-. rewrite Hid in Hk. by destruct Hk.
Qed.

Lemma closed_paid id : closed own_change id has_paid.
Proof using Type.
  split; [done..|]. intros f d Hf (k & s & H1 & H2 & H3 & H4). destruct (decide (k = id)) as [->|Hk].
  - destruct (Hf s) as (_ & F1 & F2 & F3). exists id, (f s). cbn. rewrite lookup_alter_eq, H1. cbn. rewrite F1, F2. auto.
  - exists k, s. cbn. by rewrite lookup_alter_ne.
Qed.

Lemma untouched_rows : admits_rows untouched.
Proof using Type.
  intros s d _ Hn [H1 H2]. split.
  - intros k x Hx. cbn in Hx. apply lookup_insert_Some in Hx as [[<- <-]|[_ Hx]]; [done|by apply H1].
  - intros k Hk. cbn. rewrite lookup_insert_ne; [by apply H2|]. intros <-. rewrite <- H2, Hn in Hk by done. by destruct Hk.
Qed.

Lemma has_paid_rows : admits_rows has_paid.
Proof using Type. intros x d _ Hn (k & s & H1 & H2). exists k, s. cbn. rewrite lookup_insert_ne; [done|congruence]. Qed.

(** Both. *)
Definition own (d : tech_db) : Prop := untouched d /\ has_paid d.

Lemma closed_own id : old !! id = None -> closed own_change id own.
Proof using Type.
  intros Hid. destruct (closed_untouched id Hid) as [_ _ H1]. destruct (closed_paid id) as [_ _ H2].
  split; [done..|]. intros f d Hf [? ?]. split; auto.
Qed.

Context (Hnone : forall k s, old !! k = Some s -> ~ (ts_user_id s = uid /\ ts_razorpay_payment_id s = Some payment /\ ts_is_deleted s = false)).
Context (Hpayment : payment <> EmptyString).

(** *** A purchase *)

Lemma untouched_purchase item buyer : tu_id buyer = uid -> upholds untouched (_process_item_post_payment seed rates item buyer payment).
Proof.
  intros Hu. apply (upholds_purchase _ (fun pu d => untouched d /\ old !! pu_sub pu = None));
    [by intros f d _ H|by split|apply untouched_rows|done|done|..].
  - assert (Hfresh : forall pu d, captured_row (order_of item buyer payment) (pu_sub pu) d -> untouched d -> untouched d /\ old !! pu_sub pu = None).
    { intros pu d (slug & name & plan & cycle & price & order_id & period & input & now & j & i & Hs & _) Hd. split; [done|].
      destruct (old !! pu_sub pu) as [s|] eqn:E; [|done]. destruct Hd as [_ Hd]. rewrite Hd, E in Hs by (by eexists).
      destruct (Hnone _ _ E). injection Hs as ->. by rewrite <- Hu. }
    intros v s pu s' _ [H1 H2]%record_purchase_captured [H3 H4]. split; by apply Hfresh.
  - intros pu s [[Hc Hf] [Hd _]]. destruct (portal_free_upholds untouched) as (Hcl & Hfi & Hp); [done|].
    pose proof (closed_untouched _ Hf) as HC.
    apply (upholds_activate (pu_sub pu)); [eapply closed_mono; [apply payment_own|exact HC]|by intros f d _ H|done..].
Qed.

Lemma paid_activation o pu : upholds has_paid (activate_purchase o pu).
Proof.
  pose proof (closed_paid (pu_sub pu)) as HC. destruct (portal_free_upholds has_paid) as (Hc & Hf & Hp); [done|].
  apply (upholds_activate (pu_sub pu)); [eapply closed_mono; [apply payment_own|exact HC]|by intros f d _ H|done..].
Qed.

(** *** A run that fails before the purchase is recorded *)

(** The session is in a transaction, or what it loaded has expired. *)
Definition live (d : tech_db) : bool := sh_begun (tb_shop d) || sh_expired (tb_shop d).
Abbreviation keeps_live m := (preserves (db_view live) m).

#[local] Hint Extern 1 (preserves (db_view _) (modify _)) => apply db_view_modify; intros ?; reflexivity : frame.

Lemma live_query {A} (f : tech_db -> A) : keeps_live (query f).
Proof using Type. unfold query, usable. frame. Qed.

Lemma live_reset : keeps_live _reset_aborted_session.
Proof using Type. by intros s. Qed.

(** What it expires is what the session was at work on. *)
Lemma reset_then {A} (k : unit -> Tech A) s : bind _reset_aborted_session k s = k tt (_reset_aborted_session s).2 /\
  sh_expired (tb_shop (s_db (_reset_aborted_session s).2)) = live (s_db s).
Proof using Type. done. Qed.

Lemma live_alive : keeps_live alive.
Proof using Type. unfold alive, usable. frame. Qed.
#[local] Hint Resolve @live_query live_reset live_alive : frame.
#[local] Opaque _reset_aborted_session.

Lemma live_find u p o s : keeps_live (_find_paid_technology_subscription u p o s).
Proof using Type. unfold _find_paid_technology_subscription. frame. Qed.

Lemma live_insert s : keeps_live (insert_sub s).
Proof using Type. unfold insert_sub, flush_fails. frame. Qed.

Lemma live_invoice id u x period : keeps_live (new_invoice id u x period).
Proof using Type. unfold new_invoice, new_invoice_number, insert_invoice, flush_fails, on_shop. frame. Qed.
#[local] Hint Resolve live_find live_insert live_invoice : frame.

Definition live_or_recorded {A B} (m : Tech (A + B)) : Prop := forall s,
  match m s with (Ok (inr _), _) => True | (_, s') => live (s_db s') = live (s_db s) end.

Lemma live_then {A B C} (m : Tech A) (f : A -> Tech (B + C)) : keeps_live m -> (forall a, live_or_recorded (f a)) -> live_or_recorded (bind m f).
Proof using Type.
  intros Hm Hf s. specialize (Hm s). unfold db_view in Hm. unfold bind. destruct (m s) as [[a|e] s']; [|done]. cbn in Hm.
  specialize (Hf a s'). by rewrite <- Hm.
Qed.

Lemma live_ends {B C} (c : C) : live_or_recorded (checkpoint ;;; ret (inr c) : Tech (B + C)).
Proof using Type.
  intros s. unfold checkpoint, tech_commit, usable, bind, gets, guard_exn. by destruct (negb (tb_failed (s_db s))).
Qed.

Lemma live_record o v : live_or_recorded (record_purchase rates o v).
Proof using Type.
  unfold record_purchase, create_request, _tech_sub_periods, on_shop. cbn zeta.
  repeat (apply live_then; [solve [frame]|intros ?]). case_match; [by intros s|].
  repeat (apply live_then; [solve [frame]|intros ?]). case_match; [by intros s|].
  repeat (apply live_then; [solve [frame]|intros ?]). apply live_ends.
Qed.

(** When a purchase raises it has not begun to be committed, or it is on record. *)
Definition early_or_paid (s : session tech_db tech_effect) : Prop := live (s_db s) = true \/ good has_paid s.

Lemma purchase_early_or_paid item buyer s : tu_id buyer = uid ->
  early_or_paid (_process_item_post_payment seed rates item buyer payment s).2.
Proof.
  intros Hu. unfold _process_item_post_payment, _complete_technology_purchase. unfold bind at 1, autobegin, on_shop, modify. cbn [fst snd].
  match goal with |- context [Session ?a ?b ?c ?d ?e] => set (s0 := Session a b c d e); assert (Hl : live (s_db s0) = true) by done end.
  clearbody s0. unfold early_or_paid.
  match goal with |- live (s_db (?m s0).2) = true \/ _ => change (early_or_paid (m s0).2) end.
  assert (Hstep : forall A B (m : Tech A) (f : A -> Tech B) (s1 : session tech_db tech_effect), keeps_live m -> live (s_db s1) = true ->
    (forall a s2, live (s_db s2) = true -> early_or_paid (f a s2).2) -> early_or_paid (bind m f s1).2).
  { intros A B m f s1 Hm H1 Hf. specialize (Hm s1). unfold db_view in Hm. unfold bind. destruct (m s1) as [[a|e] s2]; cbn in Hm.
    - apply Hf. by rewrite Hm.
    - left. cbn. by rewrite Hm. }
  apply Hstep; [case_match; frame|done|]. intros existing s1 H1. apply Hstep; [unfold purchase_of_payment; frame|done|]. intros pid s2 H2.
  destruct existing; [by left|]. apply Hstep; [unfold _get_technology_service; frame|done|]. intros listed s3 H3.
  case_match; [|by left]. unfold bind at 1. pose proof (live_record (order_of item buyer payment) t s3) as Hr.
  destruct (record_purchase rates _ t s3) as [[[ans|pu]|e] s4] eqn:E; [left; cbn; by rewrite Hr| |left; cbn; by rewrite Hr].
  apply record_purchase_captured in E. right.
  assert (Hp : good has_paid s4).
  { revert E. apply good_mono. intros d (slug & name & plan & cycle & price & order_id & period & input & now & j & i & Hs & _).
    eexists _, _. split; [exact Hs|]. by rewrite <- Hu. }
  revert Hp. pose proof (paid_activation (order_of item buyer payment) pu) as Ha.
  match goal with |- good _ _ -> good _ (?m s4).2 => change (good has_paid s4 -> good has_paid (m s4).2); enough (Hm : upholds has_paid m) by apply Hm end.
  apply upholds_bind; [done|intros result].
  apply upholds_bind; [apply upholds_catch; [apply upholds_addons; [by intros f d _ Hd|done..]|upholds]|upholds].
Qed.

(** *** The rescue of a purchase on record *)

Lemma own_find o slug s : good own s ->
  match _find_paid_technology_subscription uid (Some payment) o slug s with
  | (Ok (Some x), s') => s' = s /\ old !! ts_id x = None
  | (Ok None, _) => False
  | (Raise _, s') => s' = s
  end.
Proof.
  intros [_ [[H1 H2] (k0 & s0 & P1 & P2 & P3 & P4)]]. unfold _find_paid_technology_subscription, bind at 1.
  assert (Ht : truthy (Some payment) = true) by (by destruct payment). rewrite Ht.
  destruct (tb_failed (s_db s)) eqn:Hf; [unfold query, usable, bind, gets, guard_exn; by rewrite Hf|].
  rewrite query_now by done. set (rows := TechCheckout.paid_rows _ _ _).
  assert (Hin : s0 ∈ rows).
  { apply elem_of_select_where. split; [|apply elem_of_values; by exists k0]. by rewrite P2, P3, P4, !bool_decide_eq_true_2 by done. }
  assert (Hfresh : forall x, x ∈ rows -> old !! ts_id x = None).
  { intros x [Hx [k Hk]%elem_of_values]%elem_of_select_where. rewrite (H1 _ _ Hk).
    destruct (old !! k) as [y|] eqn:E; [|done]. rewrite H2, E in Hk by (by eexists). injection Hk as ->.
    rewrite !andb_true_iff, negb_true_iff in Hx. destruct Hx as [[X1 X2] X3]. destruct (Hnone _ _ E).
    split; [by apply bool_decide_eq_true in X1|split; [by apply bool_decide_eq_true in X2|done]]. }
  cbn. destruct rows as [|r rows']; [by apply elem_of_nil in Hin|].
  destruct (if truthy slug then _ else _) as [|m ms] eqn:E; cbn; (split; [done|apply Hfresh]); [by left|].
  destruct (truthy slug); [|discriminate E].
  assert (Hm : m ∈ List.filter (same_slug slug) (r :: rows')) by (rewrite E; by left).
  by apply list_elem_of_In, filter_In in Hm as [Hm%list_elem_of_In _].
Qed.

Lemma rescued_own b e o base input period now s : own_change s (rescued b e o payment base input period now s).
Proof.
  assert (H : forall x, own_change s x -> own_change s (with_period period x)).
  { intros x Hx. unfold with_period. destruct (ts_current_period_start x), (ts_current_period_end x); exact Hx. }
  apply H. split_and!; try done. cbn. intros ->. unfold or_text. by destruct payment.
Qed.

Lemma own_invoices : invoices_only own.
Proof using Type. by intros f d _ H. Qed.

Lemma own_admits_invoices : admits_invoices own.
Proof using Type. by split. Qed.

Lemma upholds_own_find {A} o slug (k : option TechnologySubscription -> Tech A) :
  (forall x, old !! ts_id x = None -> upholds own (k (Some x))) -> upholds own (bind (_find_paid_technology_subscription uid (Some payment) o slug) k).
Proof.
  intros Hk s Hs. pose proof (own_find o slug s Hs) as H. unfold bind.
  destruct (_find_paid_technology_subscription _ _ _ _ s) as [[[x|]|e] s']; [|done|by subst].
  destruct H as [-> Hx]. by apply Hk.
Qed.

Lemma own_rescue item buyer order_id contact track e : tu_id buyer = uid ->
  upholds own (_ensure_paid_technology_service_subscription item buyer order_id payment contact track e).
Proof.
  intros Hu. pose proof own_invoices as HS. pose proof own_admits_invoices as HN.
  assert (HF : forall b d, own d -> own (d <| tb_failed := b |>)) by done.
  pose proof (upholds_rescue_invoice own HN HF).
  unfold _ensure_paid_technology_service_subscription, _tech_sub_periods. cbn zeta. rewrite Hu.
  do 7 (apply upholds_bind; [upholds|intros ?]). apply upholds_own_find. intros x Hx.
  match goal with |- upholds _ (bind (ret ?a) ?f) => change (upholds own (f a)); cbn beta iota end.
  pose proof (closed_own _ Hx) as HC.
  assert (Hsub : forall f, (forall s, own_change s (f s)) -> upholds own (on_sub (ts_id x) f)).
  { intros f Hf. apply upholds_modify. intros d. by apply (closed_row _ _ _ HC). }
  assert (Hcore : closed same_core (ts_id x) own).
  { revert HC. apply closed_mono. intros s s'. unfold same_core, own_change. intuition congruence. }
  assert (Hmail : upholds own (on_sub (ts_id x) (fun s => s <| ts_email_sent := true |>))) by by apply Hsub.
  pose proof rescued_own. upholds.
Qed.

(** *** An item, and the run *)

Lemma untouched_item order_id buyer item : tu_id buyer = uid -> upholds untouched (fulfil_item seed rates order_id payment buyer item).
Proof.
  intros Hu. assert (HS : invoices_only untouched) by by intros f d _ H.
  assert (HF : forall b d, untouched d -> untouched (d <| tb_failed := b |>)) by done.
  assert (HT : forall t d, untouched d -> untouched (d <| tb_tracks := t |>)) by done.
  pose proof (upholds_record_attempt untouched HS HF HT). pose proof (upholds_mark_fulfilled untouched HS HF HT).
  unfold fulfil_item. case_match; [upholds|]. apply upholds_bind; [upholds|intros fin].
  apply upholds_bind; [|intros [[[r is_service] facts] source]; upholds].
  intros s Hs. unfold catch.
  match goal with |- context [match ?m s with _ => _ end] =>
    assert (Hb : good untouched (m s).2 /\ early_or_paid (m s).2); [|destruct (m s) as [[x|e] s1]; [apply Hb|]] end.
  { pose proof (untouched_purchase item buyer Hu s Hs) as Hg. pose proof (purchase_early_or_paid item buyer s Hu) as Hp.
    unfold bind at 1 3. destruct (_process_item_post_payment _ _ _ _ _ s) as [[result|e] s1]; [|done].
    split; [revert Hg; apply (upholds_at untouched); upholds|]. destruct Hp as [Hp|Hp]; [left|right].
    - assert (Hm : keeps_live (mark_fulfilled item payment)) by (unfold mark_fulfilled, usable, on_shop; frame).
      specialize (Hm s1). unfold db_view in Hm. cbn in Hp. unfold bind. destruct (mark_fulfilled _ _ s1) as [[[]|e] s2]; cbn in *; by rewrite Hm.
    - revert Hp. apply (upholds_at has_paid). assert (HS' : invoices_only has_paid) by by intros f d _ Hd.
      pose proof (upholds_mark_fulfilled has_paid HS' ltac:(done) ltac:(done)). upholds. }
  cbn in Hb. destruct Hb as [Hg Hb].
  match goal with |- context [bind alive ?k s1] => destruct (alive_or_raises k s1) as [[e' ->]| ->] end; [done|].
  match goal with |- context [bind _reset_aborted_session ?k s1] => destruct (reset_then k s1) as [-> He] end.
  pose proof (upholds_reset untouched HS HF HT s1 Hg) as Hg2.
  set (s2 := (_reset_aborted_session s1).2) in *. destruct Hb as [Hb|Hb].
  - rewrite Hb in He. unfold _ensure_paid_technology_service_subscription.
    match goal with |- context [bind (bind alive ?k) ?k' s2] => destruct (expired_dead k s2 He) as [e' Hd]; unfold bind at 1; by rewrite Hd end.
  - pose proof (upholds_reset has_paid ltac:(by intros f d _ Hd) ltac:(done) ltac:(done) s1 Hb) as Hb2. fold s2 in Hb2.
    enough (Ho : good own s2).
    { pose proof (own_rescue item buyer order_id (_checkout_buyer_details item buyer) fin e Hu s2 Ho) as Hr.
      unfold bind at 1. destruct (_ensure_paid_technology_service_subscription _ _ _ _ _ _ _ s2) as [[durable|e'] s3];
        (revert Hr; apply good_mono; by intros d [Hd _]). }
    destruct Hg2, Hb2. split; by split.
Qed.

Lemma untouched_items order_id buyer items : tu_id buyer = uid -> upholds untouched (fulfil_items seed rates order_id payment buyer items).
Proof.
  intros Hu. pose proof (fun item => untouched_item order_id buyer item Hu).
  induction items as [|item items IH]; cbn [fulfil_items]; upholds.
Qed.
End Own.

(** Without a payment or for an unknown buyer nothing happens. *)
Lemma webhook_ignored {cfg : TechConfig} {portal : Portal} {cipher : Cipher} seed rates clock ids order_id payment buyer_id d :
  truthy payment = false \/ tb_users d !! buyer_id = None ->
  (tech_request clock ids (complete_technology_payment_from_webhook seed rates order_id payment buyer_id) d).2 = d.
Proof.
  unfold tech_request, run_request, complete_technology_payment_from_webhook, query, usable, bind, on_shop, modify, gets, guard_exn. cbn.
  intros [Hp|Hu]; [by rewrite Hp, orb_true_r|]. destruct (is_empty order_id || _ || _); [done|]. cbn.
  destruct (tb_failed d); [done|]. cbn. by rewrite Hu.
Qed.

(** A webhook changes no subscription that was there before. *)
Lemma webhook_untouched {cfg : TechConfig} {portal : Portal} {cipher : Cipher} seed rates clock ids order_id payment buyer_id d : keyed d ->
  untouched (tb_subs d) (tech_request clock ids (complete_technology_payment_from_webhook seed rates order_id payment buyer_id) d).2.
Proof.
  intros Hk. assert (Hd : untouched (tb_subs d) d) by by split.
  destruct (truthy payment) eqn:Hp; [destruct payment as [payment|]; [|done]; destruct (tb_users d !! buyer_id) as [buyer|] eqn:Hu|].
  - assert (Hp' : payment <> EmptyString) by (by intros ->).
    destruct (select_where (fun s => bool_decide (ts_user_id s = tu_id buyer) && bool_decide (ts_razorpay_payment_id s = Some payment)
      && negb (ts_is_deleted s)) (values (tb_subs d))) as [|s rest] eqn:E.
    + assert (Hnone : forall k s, tb_subs d !! k = Some s ->
        ~ (ts_user_id s = tu_id buyer /\ ts_razorpay_payment_id s = Some payment /\ ts_is_deleted s = false)).
      { intros k s Hs (H1 & H2 & H3). apply (not_elem_of_nil s). rewrite <- E. apply elem_of_select_where.
        split; [|apply elem_of_values; by exists k]. by rewrite H1, H2, H3, !bool_decide_eq_true_2. }
      apply (webhook_items (untouched (tb_subs d)) _ _ _ buyer); [by intros f d1 _ H|done|done| |done|done|done].
      intros items. by apply (untouched_items _ _ (tu_id buyer)).
    + assert (Hs : s ∈ s :: rest) by by left. rewrite <- E in Hs. apply elem_of_select_where in Hs as [Hs [k Hk']%elem_of_values].
      rewrite !andb_true_iff, negb_true_iff in Hs. destruct Hs as [[X1%bool_decide_eq_true X2%bool_decide_eq_true] X3].
      assert (H : replayed d (tech_request clock ids (complete_technology_payment_from_webhook seed rates order_id (Some payment) buyer_id) d).2).
      { apply (webhook_replayed _ _ _ _ _ _ _ buyer); [done..|]. by exists k, s. }
      unfold replayed, fulfilled_view in H. injection H as H1 _ _. unfold untouched, keyed. by rewrite H1.
  - rewrite webhook_ignored; [done|by right].
  - rewrite webhook_ignored; [done|by left].
Qed.

(** ** Histories *)

Inductive tech_event :=
| Webhook (seed : list TechnologyService) (rates : rates_map) (order_id : string) (payment : option string) (buyer_id : string)
| Tick (locked : list string)
| Retry (id : string) (force : bool)
| Cancel (id user_id : string)
| Fulfil (id : string) (payload : AdminFulfillRequest)
| Resend (id : string).

Section Histories.
Context {cfg : TechConfig} {portal : Portal} {cipher : Cipher}.

Definition after_event (clock : nat -> Z) (ids : nat -> string) (e : tech_event) (d : tech_db) : tech_db :=
  match e with
  | Webhook seed rates order_id payment buyer_id =>
      (tech_request clock ids (complete_technology_payment_from_webhook seed rates order_id payment buyer_id) d).2
  | Tick locked => (tech_request clock ids (run_tick locked) d).2
  | Retry id force => (tech_request clock ids (retry_subscription id force) d).2
  | Cancel id user_id => (tech_request clock ids (cancel_subscription id user_id) d).2
  | Fulfil id payload => (tech_request clock ids (admin_fulfill_subscription id payload) d).2
  | Resend id => (tech_request clock ids (admin_resend_access_email id) d).2
  end.

(** Each event with the clock and the uuids its request meets. *)
Definition history (events : list ((nat -> Z) * (nat -> string) * tech_event)) (d : tech_db) : tech_db :=
  foldl (fun d e => after_event e.1.1 e.1.2 e.2 d) d events.

Lemma handled_keyed d : all_handled d -> keyed d.
Proof. intros H k s Hs. by destruct (H _ _ Hs). Qed.

Lemma tended_handled s : 1 < retry_limit -> tended s -> handled s.
Proof.
  intros Hl (_ & _ & _ & H4 & H5). split; [unfold known_statuses; set_solver|]. intros _. destruct H5; [right; lia|by left].
Qed.

Lemma webhook_handled seed rates clock ids order_id payment buyer_id d : 1 < retry_limit -> all_handled d ->
  all_handled (after_event clock ids (Webhook seed rates order_id payment buyer_id) d).
Proof.
  intros Hl Hd k s Hs. destruct (webhook_untouched seed rates clock ids order_id payment buyer_id d (handled_keyed d Hd)) as [H1 H2].
  split; [by apply H1|]. destruct (tb_subs d !! k) as [s0|] eqn:E.
  - cbn in Hs. rewrite H2, E in Hs by by eexists. injection Hs as <-. by apply (Hd k).
  - apply tended_handled; [done|]. cbn in Hs. revert Hs.
    destruct (truthy payment) eqn:Hp; [destruct payment as [payment|]; [|done]; destruct (tb_users d !! buyer_id) as [buyer|] eqn:Hu|].
    + intros Hs. eapply (webhook_in_hand seed rates clock ids order_id payment buyer_id buyer d); [by intros ->|exact Hu|exact Hs|exact E].
    + rewrite webhook_ignored by (right; done). by rewrite E.
    + rewrite webhook_ignored by (left; done). by rewrite E.
Qed.

Lemma event_handled clock ids e d : 1 < retry_limit -> all_handled d -> all_handled (after_event clock ids e d).
Proof.
  intros Hl Hd. destruct e; [by apply webhook_handled|..]; apply leaves_request; try done.
  - apply leaves_tick.
  - apply leaves_retry.
  - apply leaves_cancel.
  - apply leaves_fulfil.
  - apply leaves_resend.
Qed.

Lemma history_handled events : forall d, 1 < retry_limit -> all_handled d -> all_handled (history events d).
Proof. induction events as [|e events IH]; intros d Hl Hd; [done|]. cbn. apply IH; [done|]. by apply event_handled. Qed.

(** C8. No paid purchase is ever forgotten.  Start without subscriptions, and let webhooks,
    ticks of the worker, retries, cancellations, fulfilments by hand and mails come in any
    order, whatever the provider answers: a captured subscription that is not deleted is
    active, a simulated test order or cancelled, or it is flagged for an administrator, or
    from some time on the worker takes it, provided at least two attempts are allowed. *)
Theorem no_purchase_forgotten events d k s : 1 < retry_limit -> tb_subs d = ∅ ->
  tb_subs (history events d) !! k = Some s -> ts_payment_status s = TrackPayment.CAPTURED -> ts_is_deleted s = false ->
  ts_status s ∈ ["ACTIVE"; "TEST_SIMULATED"; "CANCELLED"]%string \/ ts_needs_review s = true \/
  exists t, forall now, t <= now -> selected now s = true.
Proof.
  intros Hl Hd Hs Hp Hdel. assert (H0 : all_handled d) by (intros k' s' Hs'; by rewrite Hd in Hs').
  destruct (history_handled events d Hl H0 _ _ Hs) as (_ & Hk & Hr).
  destruct (decide (ts_status s ∈ RETRYABLE_STATUSES)) as [Hst|Hst]; [|left; unfold known_statuses in Hk; set_solver].
  destruct (Hr Hst) as [|Hn]; [by auto|]. right. right. exists (default 0 (ts_next_retry_at s)). intros now Hnow.
  unfold selected, due. rewrite Hp, Hdel, (bool_decide_eq_true_2 (ts_status s ∈ _)) by done. rewrite (proj2 (Z.ltb_lt _ _) Hn). cbn.
  destruct (ts_next_retry_at s); cbn in *; [|done]. by rewrite (proj2 (Z.leb_le _ _) Hnow).
Qed.

(** *** A cancelled subscription *)

Definition spares (k : string) (e : tech_event) : Prop := match e with Retry id _ => id <> k | _ => True end.

Definition row_cancelled (k : string) (d : tech_db) : Prop := ts_status <$> tb_subs d !! k = Some "CANCELLED"%string.

Definition cancelling (s s' : TechnologySubscription) : Prop := ts_status s' = ts_status s \/ ts_status s' = "CANCELLED"%string.

Lemma closed_cancelled id k : closed cancelling id (row_cancelled k).
Proof using Type.
  split; [done..|]. intros f d Hf. unfold row_cancelled. cbn. destruct (decide (k = id)) as [->|Hk]; [|by rewrite lookup_alter_ne].
  rewrite lookup_alter_eq. destruct (tb_subs d !! id) as [x|]; [|done]. cbn. intros [= Hx]. destruct (Hf x) as [->| ->]; congruence.
Qed.

Lemma cancelled_core id k : closed same_core id (row_cancelled k).
Proof using Type. eapply closed_mono; [|apply closed_cancelled]. intros s s' (E & _). by left. Qed.

Lemma closed_elsewhere id k : k <> id -> closed any_change id (row_cancelled k).
Proof using Type. intros Hk. split; [done..|]. intros f d _. unfold row_cancelled. cbn. by rewrite lookup_alter_ne. Qed.

#[local] Hint Extern 1 (ts_id _ = ts_id _) => reflexivity : upholds.

(** Fulfilment by hand changes one row. *)
Lemma upholds_by_hand I id payload : closed any_change id I -> (forall f d, I d -> I (d <| tb_shop ::= f |>)) ->
  upholds I (admin_fulfill_subscription id payload).
Proof using Type.
  intros HA HS. assert (HC : closed same_core id I) by (revert HA; apply closed_mono; by intros s s' (_ & _ & _ & _ & _ & _ & _ & _ & ?)).
  assert (Hsub : forall f, (forall s, ts_id (f s) = ts_id s) -> upholds I (on_sub id f)).
  { intros f Hf. apply upholds_modify. intros d. by apply (closed_row _ _ _ HA). }
  assert (Hshop : forall f, upholds I (modify (fun d => d <| tb_shop ::= f |>) : Tech unit)) by (intros f; apply upholds_modify; intros d; apply HS).
  pose proof (upholds_track_write id I HC) as Ht.
  unfold admin_fulfill_subscription, any_subscription, mark_fulfilled_by_hand, store_subscription_credentials, complete_request, record_fulfilment,
    record_paid_attempt, find_by_razorpay_payment_id, find_by_razorpay_order_id, find_by_internal_order_id, generate_internal_order_id,
    fulfilment_confirmation, fulfilment_access, _user_for, query, usable. upholds.
  apply Hsub. intros s. unfold with_reference. by case_match.
Qed.

Lemma cancelled_call k m e what j mock : upholds (row_cancelled k) mock -> upholds (row_cancelled k) (subscription_call m e what j mock).
Proof using Type.
  intros Hm. assert (Hc : forall q, upholds (row_cancelled k) (portal_call q)) by by intros q s [? ?].
  unfold subscription_call, _make_request. upholds.
Qed.

Lemma cancel_rests k id user : upholds (row_cancelled k) (cancel_subscription id user).
Proof using Type.
  pose proof (cancelled_core id k) as HC.
  assert (Hsub : upholds (row_cancelled k) (on_sub id cancelled)).
  { apply upholds_modify. intros d. apply (closed_row _ _ _ (closed_cancelled id k)). intros s. by right. }
  unfold cancel_subscription, own_subscription, confirmed, ResellPortal.cancel_subscription, query, usable. upholds. apply cancelled_call. upholds.
Qed.

Lemma resend_rests k id : upholds (row_cancelled k) (admin_resend_access_email id).
Proof using Type.
  pose proof (cancelled_core id k) as HC.
  assert (Hsub : forall f, (forall s, ts_status (f s) = ts_status s) -> upholds (row_cancelled k) (on_sub id f)).
  { intros f Hf. apply upholds_modify. intros d. apply (closed_row _ _ _ (closed_cancelled id k)). intros s. by left. }
  assert (Hfail : forall s, ts_status (mark_access_email_failed s) = ts_status s) by (intros s; unfold mark_access_email_failed; by case_match).
  assert (Hsent : forall s, ts_status (mark_access_email_sent s) = ts_status s) by done.
  pose proof (Hsub _ Hfail). pose proof (Hsub _ Hsent).
  unfold admin_resend_access_email, any_subscription, deliver_admin_access_email, query, usable. upholds.
Qed.

(** The row is read, or the request is refused. *)
Lemma any_cases id s :
  (exists sub, any_subscription id s = (Ok sub, s) /\ tb_subs (s_db s) !! id = Some sub /\ ts_is_deleted sub = false) \/
  exists e, any_subscription id s = (Raise e, s).
Proof using Type.
  unfold any_subscription, query, usable, bind, gets, guard_exn. destruct (tb_failed (s_db s)); [right; by eexists|]. cbn.
  destruct (tb_subs (s_db s) !! id) as [sub|]; [|right; by eexists]. destruct (ts_is_deleted sub) eqn:E; [right; by eexists|left; by eexists].
Qed.

Lemma fulfil_rests clock ids k payload d : row_cancelled k d ->
  (tech_request clock ids (admin_fulfill_subscription k payload) d).2 = d.
Proof using Type.
  unfold row_cancelled. intros Hk. unfold tech_request, run_request, admin_fulfill_subscription, bind at 1.
  destruct (any_cases k (open_session clock ids d)) as [(sub & -> & Hs & _)|[e ->]]; [|done]. cbn in Hs. rewrite Hs in Hk. injection Hk as Hk.
  unfold bind at 1 2, guard_exn. by rewrite Hk.
Qed.

Lemma event_rests clock ids e d k : all_handled d -> spares k e -> row_cancelled k d -> row_cancelled k (after_event clock ids e d).
Proof.
  intros Hd He Hk. pose proof (handled_keyed d Hd) as Hkey. unfold row_cancelled in Hk.
  destruct (tb_subs d !! k) as [s|] eqn:E; [|done]. injection Hk as Hs.
  destruct e as [seed rates order_id payment buyer_id|locked|id force|id user|id payload|id]; cbn [after_event].
  - destruct (webhook_untouched seed rates clock ids order_id payment buyer_id d Hkey) as [_ H]. unfold row_cancelled.
    rewrite H, E by by eexists. cbn. by rewrite Hs.
  - unfold row_cancelled. rewrite tick_other_row, E; [cbn; by rewrite Hs|]. intros (s' & Hs' & Hsel & _)%elem_of_scan; [|done].
    rewrite E in Hs'. injection Hs' as <-. revert Hsel. unfold selected, due, owes_mail. rewrite Hs.
    by rewrite andb_false_r.
  - apply (run_request_upholds clock ids (row_cancelled k)); [|unfold row_cancelled; rewrite E; cbn; by rewrite Hs].
    destruct (portal_free_upholds (row_cancelled k)) as (Hc & Hf & Hp); [done|]. apply upholds_retry; [done..|]. by apply closed_elsewhere.
  - apply (run_request_upholds clock ids (row_cancelled k)); [apply cancel_rests|unfold row_cancelled; rewrite E; cbn; by rewrite Hs].
  - destruct (decide (k = id)) as [->|Hne]; [rewrite fulfil_rests|apply (run_request_upholds clock ids (row_cancelled k)); [apply upholds_by_hand; [by apply closed_elsewhere|done]|]];
      unfold row_cancelled; rewrite E; cbn; by rewrite Hs.
  - apply (run_request_upholds clock ids (row_cancelled k)); [apply resend_rests|unfold row_cancelled; rewrite E; cbn; by rewrite Hs].
Qed.

(** C16. A cancelled subscription stays cancelled: once it is, no webhook, tick, fulfilment,
    further cancellation or mail, and no retry of another subscription, makes it
    anything else; only a retry of this very one by hand could. *)
Theorem cancelled_stays_cancelled before after_ d k : 1 < retry_limit -> tb_subs d = ∅ ->
  Forall (fun e => spares k e.2) after_ -> row_cancelled k (history before d) -> row_cancelled k (history after_ (history before d)).
Proof.
  intros Hl Hd Hspare Hk. assert (H0 : all_handled (history before d)).
  { apply history_handled; [done|]. intros k' s' Hs'. by rewrite Hd in Hs'. }
  revert Hk H0. generalize (history before d). induction Hspare as [|e events He _ IH]; intros d' Hk H0; [done|]. cbn.
  apply IH; [by apply event_rests|by apply event_handled].
Qed.
End Histories.
