(* ===== verification/TechDesk.v ===== *)
(** * What the desk does to a subscription

    Cancellation by the customer and fulfilment by hand: exactly what they change,
    and when; the theorems of TechLife on runs; and runs of the routes that their
    docstrings exclude. *)

From stdpp Require Import sorting.
From S2P Require Import Prelude Text Numerals PyNum PyJson Urls Secrets ExchangeRates TrackRecords TechStore TechStatus TechAccess ProductMapper ResellPortal TechRetry TechWorker TechGiveUp TechCheckout TechCheckoutFacts TechCheckoutRuns TechAdmin TechLife.

Section Cancel.
Context {cfg : TechConfig} {portal : Portal} {cipher : Cipher}.

Definition service_of (sub : TechnologySubscription) : string := strip (default EmptyString (ts_provider_subscription_id sub)).

(** The provider was told to cancel service [pid], the last of all requests, and confirmed it. *)
Definition cancelled_at_provider (pid : string) (before after_ : list portal_request) : Prop :=
  exists q answer, after_ = q :: before /\ pq_method q = "DELETE"%string /\ pq_endpoint q = ("subscriptions/" +:+ pid)%string /\
    portal_answers before q = Body (JObj answer) /\ is_True (dget "success" answer) = true.

(** There is no provider to tell: no credentials, outside production. *)
Definition without_provider : Prop := resellportal_configured = false /\ _production_environment = false.

Definition ask_provider (pid : string) : Tech unit :=
  do prov_res <- ResellPortal.cancel_subscription pid;
  do ok <- confirmed prov_res;
  guard_exn ok unconfirmed.

(** The session apart from the log of requests. *)
Definition logged_only (s s' : session tech_db tech_effect) : Prop :=
  (exists l, s_db s' = (s_db s) <| tb_portal := l |>) /\ exists l, s_committed s' = (s_committed s) <| tb_portal := l |>.

Lemma is_True_configured k v d : k <> "configured"%string -> is_True (dget k (dset "configured" v d)) = is_True (dget k d).
Proof. intros Hk. by rewrite dget_dset_other. Qed.

Lemma ask_provider_cases pid s : logged_only s (ask_provider pid s).2 /\
  ((ask_provider pid s).1 = Ok tt ->
   without_provider \/ cancelled_at_provider pid (tb_portal (s_db s)) (tb_portal (s_db (ask_provider pid s).2))).
Proof.
  assert (Hsame : logged_only s s) by (split; [exists (tb_portal (s_db s)); by destruct (s_db s)|exists (tb_portal (s_committed s)); by destruct (s_committed s)]).
  unfold ask_provider, ResellPortal.cancel_subscription, subscription_call.
  destruct resellportal_configured eqn:Hc; cbn [negb]; [|destruct _production_environment eqn:He].
  - destruct _production_live_resellportal_enabled; cbn [negb]; [|split; [exact Hsame|discriminate]].
    unfold _make_request. unfold bind, portal_call. cbn.
    set (q := PortalRequest _ _ _ _). destruct (portal_answers (tb_portal (s_db s)) q) as [j|c|n] eqn:Ha; cbn.
    + destruct j; cbn; try (split; [by split; eexists|discriminate]).
      destruct (is_True _) eqn:Ht; cbn; (split; [by split; eexists|]); [|discriminate].
      intros _. right. exists q, kvs. rewrite is_True_configured in Ht by done. done.
    + split; [by split; eexists|discriminate].
    + split; [by split; eexists|discriminate].
  - split; [exact Hsame|discriminate].
  - split; [exact Hsame|]. intros _. by left.
Qed.

Lemma own_cases user id s :
  (exists sub, own_subscription user id s = (Ok sub, s) /\ tb_subs (s_db s) !! id = Some sub /\ ts_user_id sub = user /\
     ts_is_deleted sub = false /\ tb_failed (s_db s) = false) \/
  exists e, own_subscription user id s = (Raise e, s).
Proof.
  unfold own_subscription, query, usable, bind, gets, guard_exn. destruct (tb_failed (s_db s)) eqn:Hf; [right; by eexists|]. cbn.
  destruct (tb_subs (s_db s) !! id) as [sub|]; [|right; by eexists].
  destruct (bool_decide_reflect (ts_user_id sub = user)) as [Hu|]; [|right; by eexists].
  destruct (ts_is_deleted sub) eqn:E; [right; by eexists|left; by eexists].
Qed.

(** What follows the confirmation. *)
Definition set_cancelled (id : string) : Tech string :=
  on_sub id cancelled ;;; tech_commit ;;; do sub <- sub_of id; ret (ts_status sub).

Lemma cancel_parts id user : cancel_subscription id user =
  (do sub <- own_subscription user id;
   when (negb (is_empty (service_of sub))) (ask_provider (service_of sub)) ;;; set_cancelled id).
Proof. reflexivity. Qed.

Lemma set_cancelled_run id sub s : tb_failed (s_db s) = false -> tb_subs (s_db s) !! id = Some sub ->
  exists s', set_cancelled id s = (Ok "CANCELLED"%string, s') /\ s_committed s' = (s_db s) <| tb_subs ::= alter cancelled id |>.
Proof.
  intros Hf Hs. unfold set_cancelled, on_sub, tech_commit, sub_of, usable, bind, modify, gets, guard_exn, commit. cbn. rewrite Hf. cbn.
  rewrite lookup_alter_eq, Hs. cbn. eexists. split; reflexivity.
Qed.

(** C17. Cancelling is confirmed first.  The route changes no row but the one it names; it
    succeeds only for the customer's own subscription that is not deleted, which it then
    marks as cancelled and not renewing and changes in nothing else, and, when the
    subscription has a service at the provider, only after the provider, asked last of
    all, has confirmed the cancellation of just that service (or there is no provider,
    outside production).  When it is refused the row is what it was. *)
Theorem cancel_confirmed clock ids id user d :
  let r := tech_request clock ids (cancel_subscription id user) d in
  (forall k, k <> id -> tb_subs r.2 !! k = tb_subs d !! k) /\
  match r.1 with
  | Ok st => st = "CANCELLED"%string /\
      exists sub, tb_subs d !! id = Some sub /\ ts_user_id sub = user /\ ts_is_deleted sub = false /\
        tb_subs r.2 !! id = Some (cancelled sub) /\
        (service_of sub <> EmptyString -> without_provider \/ cancelled_at_provider (service_of sub) (tb_portal d) (tb_portal r.2))
  | Raise _ => tb_subs r.2 !! id = tb_subs d !! id
  end.
Proof.
  intros r. set (s0 := open_session clock ids d : session tech_db tech_effect).
  assert (Hr : forall x s', cancel_subscription id user s0 = (x, s') -> r = (x, s_committed s')).
  { intros x s' H. unfold r, tech_request, run_request. fold s0. by rewrite H. }
  rewrite cancel_parts in Hr. clearbody r. unfold bind at 1 in Hr.
  destruct (own_cases user id s0) as [(sub & Ho & Hs & Hu & Hdel & Hf)|[e Ho]]; rewrite Ho in Hr;
    [cbn in Hs, Hf|by rewrite (Hr _ _ eq_refl)].
  destruct (is_empty (service_of sub)) eqn:E; cbn [negb when] in Hr.
  - destruct (set_cancelled_run id sub s0 Hf Hs) as (s' & Hrun & Hc). rewrite (Hr _ _ Hrun), Hc. cbn.
    split; [intros k Hk; by rewrite lookup_alter_ne|]. split; [done|]. exists sub. rewrite lookup_alter_eq, Hs.
    split_and!; try done. intros Hne. unfold is_empty in E. by apply bool_decide_eq_true in E.
  - destruct (ask_provider_cases (service_of sub) s0) as [[[l Hl] [l' Hl']] Hok]. unfold bind in Hr.
    destruct (ask_provider (service_of sub) s0) as [[[]|e] s1]; cbn in Hl, Hl', Hok; [|rewrite (Hr _ _ eq_refl); cbn; by rewrite Hl'].
    destruct (set_cancelled_run id sub s1) as (s' & Hrun & Hc); [by rewrite Hl|by rewrite Hl|]. rewrite (Hr _ _ Hrun), Hc, Hl. cbn.
    split; [intros k Hk; by rewrite lookup_alter_ne|]. split; [done|]. exists sub. rewrite lookup_alter_eq, Hs.
    split_and!; try done. intros _. rewrite Hl in Hok. by apply Hok.
Qed.
End Cancel.

(** ** Fulfilment by hand *)

Section ByHand.
#[local] Set Default Proof Using "Type".
Context {cfg : TechConfig} {portal : Portal} {cipher : Cipher}.
Context (id : string) (sub : TechnologySubscription) (payload : AdminFulfillRequest).

(** The credentials an administrator gave replace the stored ones. *)
Definition credentials_by_hand (s' : TechnologySubscription) : Prop :=
  match fr_credentials_json payload with
  | None => ts_credentials_json s' = ts_credentials_json sub
  | Some creds => exists blob, dump_provider_credentials creds = Ok blob /\ ts_credentials_json s' = Some blob
  end.

(** What is as it was: whose it is, what was paid, and how often the provider was tried. *)
Definition same_purchase (s' : TechnologySubscription) : Prop :=
  ts_id s' = ts_id sub /\ ts_user_id s' = ts_user_id sub /\ ts_payment_status s' = ts_payment_status sub /\ ts_price s' = ts_price sub /\
  ts_is_deleted s' = ts_is_deleted sub /\ ts_provision_attempts s' = ts_provision_attempts sub.

Definition reference_by_hand (s' : TechnologySubscription) : Prop :=
  ts_provider_subscription_id s' = if truthy (fr_provider_reference payload) then fr_provider_reference payload else ts_provider_subscription_id sub.

Definition fulfilled_row (s' : TechnologySubscription) : Prop :=
  ts_status s' = "ACTIVE"%string /\ ts_last_provider_status s' = Some MANUAL_FULFILLMENT_COMPLETED /\ ts_last_provider_error s' = None /\
  ts_needs_review s' = false /\ ts_next_retry_at s' = None /\ period_missing s' = false /\
  reference_by_hand s' /\ credentials_by_hand s' /\ same_purchase s'.

Definition row (P : TechnologySubscription -> Prop) (d : tech_db) : Prop := exists x, tb_subs d !! id = Some x /\ P x.

Abbreviation by_hand := (settles (fun d => tb_subs d !! id = Some sub) (fun _ : tech_db => True)).

Lemma by_hand_on_sub (P Q : TechnologySubscription -> Prop) f : (forall x, P x -> Q (f x)) -> by_hand (row P) (row Q) (on_sub id f).
Proof.
  intros Hf. apply settles_modify. intros d (x & Hx & HP). exists (f x). cbn. rewrite lookup_alter_eq, Hx. split; [done|by apply Hf].
Qed.

(** The steps that leave the row as it is. *)
Definition beside {A} (m : Tech A) : Prop :=
  preserves (fun s : session tech_db tech_effect => tb_subs (s_committed s)) m /\ preserves (db_view tb_subs) m.

Lemma by_hand_beside {A} P (m : Tech A) : beside m -> by_hand (row P) (row P) m.
Proof.
  intros [H1 H2] s Hc (x & Hx & HP). split; [by rewrite (H1 s)|]. specialize (H2 s). unfold db_view in H2.
  destruct (m s).1; [|done]. exists x. by rewrite H2.
Qed.

#[local] Hint Extern 2 (preserves (fun s : session _ _ => tb_subs (s_committed s)) _) => solve [apply committed_prim; eauto with frame nocore] : frame.
#[local] Hint Extern 1 (preserves (db_view _) (modify _)) => apply db_view_modify; intros ?; reflexivity : frame.

Lemma beside_request : beside (complete_request sub).
Proof. unfold beside, complete_request, query, usable. split; frame. Qed.

Lemma beside_record : beside (record_fulfilment sub).
Proof.
  unfold beside, record_fulfilment, record_paid_attempt, find_by_razorpay_payment_id, find_by_razorpay_order_id, find_by_internal_order_id,
    generate_internal_order_id, query, usable, track_save. split; frame.
Qed.

Lemma by_hand_seq {A B} I K J (m : Tech A) (f : A -> Tech B) : by_hand I K m -> (forall a, by_hand K J (f a)) -> by_hand I J (bind m f).
Proof. apply settles_seq. Qed.

(** Reading the row tells which it is. *)
Lemma by_hand_sub_of {A} P J (k : TechnologySubscription -> Tech A) :
  (forall x, P x -> by_hand (row (eq x)) J (k x)) -> by_hand (row P) J (bind (sub_of id) k).
Proof.
  intros Hk s Hc (x & Hx & HP). unfold bind, sub_of, usable, bind, gets, guard_exn. destruct (tb_failed (s_db s)); [done|]. cbn. rewrite Hx.
  apply (Hk x HP s); [done|by exists x].
Qed.

Lemma by_hand_weaken {A} (P Q : TechnologySubscription -> Prop) J (m : Tech A) : (forall x, P x -> Q x) -> by_hand (row Q) J m -> by_hand (row P) J m.
Proof. intros H Hm s Hc (x & Hx & HP). apply Hm; [done|]. exists x. auto. Qed.

Lemma by_hand_ret (P Q : TechnologySubscription -> Prop) : (forall x, P x -> Q x) -> by_hand (row P) (row Q) (ret tt : Tech unit).
Proof. intros H s Hc (x & Hx & HP). split; [done|]. exists x. auto. Qed.

(** The row as the request goes on. *)
Definition made_active (x : TechnologySubscription) : Prop := ts_status x = "ACTIVE"%string /\ reference_by_hand x /\ same_purchase x.

Definition settled_row (x : TechnologySubscription) : Prop :=
  made_active x /\ credentials_by_hand x /\ ts_last_provider_status x = Some MANUAL_FULFILLMENT_COMPLETED /\ ts_last_provider_error x = None /\
  ts_needs_review x = false /\ ts_next_retry_at x = None.

Lemma settled_fulfilled x : settled_row x -> period_missing x = false -> fulfilled_row x.
Proof. unfold settled_row, made_active, fulfilled_row. tauto. Qed.

Lemma by_hand_credentials : by_hand (row (fun x => made_active x /\ ts_credentials_json x = ts_credentials_json sub)) (row (fun x => made_active x /\ credentials_by_hand x))
  (match fr_credentials_json payload with Some creds => store_subscription_credentials id creds | None => ret tt end).
Proof.
  unfold credentials_by_hand. destruct (fr_credentials_json payload) as [creds|]; [|by apply by_hand_ret].
  unfold store_subscription_credentials. destruct (dump_provider_credentials creds) as [blob|e] eqn:E; [|by intros s Hc _].
  unfold lift_res, bind at 1. cbn. apply by_hand_on_sub. intros x [Hx _]. split; [exact Hx|]. by exists blob.
Qed.

Lemma by_hand_mark : by_hand (row (eq sub)) (row fulfilled_row) (mark_fulfilled_by_hand id payload).
Proof.
  unfold mark_fulfilled_by_hand.
  eapply by_hand_seq; [apply (by_hand_on_sub _ (fun x => made_active x /\ ts_credentials_json x = ts_credentials_json sub))|intros _].
  { intros x <-. unfold with_reference, made_active, reference_by_hand, same_purchase. by destruct (truthy _). }
  eapply by_hand_seq; [apply by_hand_credentials|intros _].
  eapply by_hand_seq; [apply (by_hand_on_sub _ settled_row)|intros _].
  { intros x [Hx Hc]. unfold settled_row. split_and!; [exact Hx|exact Hc|done..]. }
  apply by_hand_sub_of. intros x Hx. eapply by_hand_seq; [|intros _; apply by_hand_beside; unfold beside, flush_sub, usable; split; frame].
  destruct (period_missing x) eqn:Hp; cbn [when].
  - eapply by_hand_seq; [apply by_hand_beside; unfold beside; split; frame|intros now]. apply by_hand_on_sub. intros y <-.
    apply settled_fulfilled; [exact Hx|done].
  - apply by_hand_ret. intros y <-. by apply settled_fulfilled.
Qed.

(** *** The mails afterwards *)

Lemma upholds_fulfilled_row f : (forall x, fulfilled_row x -> fulfilled_row (f x)) -> upholds (row fulfilled_row) (on_sub id f).
Proof.
  intros Hf. apply upholds_modify. intros d (x & Hx & HP). exists (f x). cbn. rewrite lookup_alter_eq, Hx. split; [done|by apply Hf].
Qed.

Lemma upholds_mails : upholds (row fulfilled_row) (fulfilment_confirmation id) /\ upholds (row fulfilled_row) (fulfilment_access id).
Proof. unfold fulfilment_confirmation, fulfilment_access, _user_for, query, usable. split; upholds; apply upholds_fulfilled_row; intros ? H1; exact H1. Qed.

(** *** The request *)

(** What was committed is the row as it was or the row fulfilled, and the latter when the request returns. *)
Definition ends {A} (I : tech_db -> Prop) (m : Tech A) : Prop := forall s, tb_subs (s_committed s) !! id = Some sub -> I (s_db s) ->
  (tb_subs (s_committed (m s).2) !! id = Some sub \/ row fulfilled_row (s_committed (m s).2)) /\
  (is_ok (m s).1 = true -> row fulfilled_row (s_committed (m s).2)).

Lemma ends_step {A B} I K (m : Tech A) (f : A -> Tech B) : by_hand I K m -> (forall a, ends K (f a)) -> ends I (bind m f).
Proof.
  intros Hm Hf s H1 H2. destruct (Hm s H1 H2) as [H3 H4]. unfold bind. destruct (m s) as [[a|e] s']; [by apply Hf|].
  split; [by left|discriminate].
Qed.

Lemma ends_commit {A} (rest : unit -> Tech A) : upholds (row fulfilled_row) (rest tt) -> ends (row fulfilled_row) (bind tech_commit rest).
Proof.
  intros Hr s H1 H2. unfold tech_commit, usable, bind, gets, guard_exn. destruct (tb_failed (s_db s)); cbn; [split; [by left|discriminate]|].
  match goal with |- context [rest tt ?s'] => destruct (Hr s') as [H3 _]; [split; exact H2|] end. split; [by right|done].
Qed.
End ByHand.

Section Fulfil.
Context {cfg : TechConfig} {portal : Portal} {cipher : Cipher}.

(** What may be fulfilled by hand. *)
Definition fulfillable (sub : TechnologySubscription) : Prop :=
  ts_is_deleted sub = false /\ ts_status sub <> "ACTIVE"%string /\ ts_status sub <> "CANCELLED"%string /\ ts_payment_status sub = TrackPayment.CAPTURED.

Lemma fulfil_cases id payload s :
  (exists sub, tb_subs (s_db s) !! id = Some sub /\ fulfillable sub /\
     admin_fulfill_subscription id payload s = (mark_fulfilled_by_hand id payload ;;; complete_request sub ;;; record_fulfilment sub ;;; tech_commit ;;;
       fulfilment_confirmation id ;;; fulfilment_access id ;;;
       do sub' <- sub_of id; ret (ts_status sub', load_provider_credentials (ts_credentials_json sub'))) s) \/
  exists e, admin_fulfill_subscription id payload s = (Raise e, s).
Proof.
  destruct (admin_fulfill_subscription id payload s) as [x s'] eqn:E. unfold admin_fulfill_subscription, bind at 1 in E.
  destruct (any_cases id s) as [(sub & Ho & Hs & Hd)|[e Ho]]; rewrite Ho in E; [|right; exists e; congruence].
  unfold bind at 1, guard_exn at 1 in E. destruct (bool_decide_reflect (ts_status sub = "ACTIVE"%string)) as [|Ha]; [right; eexists; by injection E as <- <-|].
  unfold bind at 1, guard_exn at 1 in E. destruct (bool_decide_reflect (ts_status sub = "CANCELLED"%string)) as [|Hc]; [right; eexists; by injection E as <- <-|].
  unfold bind at 1, guard_exn at 1 in E.
  destruct (bool_decide_reflect (ts_payment_status sub = TrackPayment.CAPTURED)) as [Hp|]; [|right; eexists; by injection E as <- <-].
  left. exists sub. done.
Qed.

(** Nothing is asked of the provider, and no other row changes. *)
Lemma fulfil_elsewhere clock ids id payload d : let d' := (tech_request clock ids (admin_fulfill_subscription id payload) d).2 in
  tb_portal d' = tb_portal d /\ forall k, k <> id -> tb_subs d' !! k = tb_subs d !! k.
Proof.
  apply (run_request_upholds clock ids (fun d' => tb_portal d' = tb_portal d /\ forall k, k <> id -> tb_subs d' !! k = tb_subs d !! k)); [|done].
  apply upholds_by_hand; [|by intros f d' H]. split; [done..|]. intros f d' _ [H1 H2]. split; [done|]. intros k Hk. cbn. rewrite lookup_alter_ne by done. auto.
Qed.

(** C18. Fulfilling by hand.  Nothing is asked of the provider and no other subscription
    changes.  The row stays exactly what it was, or it was captured, not deleted, neither
    active nor cancelled, and is now active by hand: with no review, retry or error
    pending, with a period, with the reference and the credentials the administrator gave
    (or those it had), of the same customer and the same payment.  If the route answers
    with success, it is the latter. *)
Theorem fulfilled_by_hand clock ids id payload d :
  let r := tech_request clock ids (admin_fulfill_subscription id payload) d in
  let done_ := exists sub, tb_subs d !! id = Some sub /\ fulfillable sub /\ row id (fulfilled_row sub payload) r.2 in
  tb_portal r.2 = tb_portal d /\ (forall k, k <> id -> tb_subs r.2 !! k = tb_subs d !! k) /\
  (tb_subs r.2 !! id = tb_subs d !! id \/ done_) /\ (is_ok r.1 = true -> done_).
Proof.
  intros r done_. destruct (fulfil_elsewhere clock ids id payload d) as [H1 H2]. split; [exact H1|split; [exact H2|]].
  set (s0 := open_session clock ids d : session tech_db tech_effect).
  assert (Hr : r = let '(x, s') := admin_fulfill_subscription id payload s0 in (x, s_committed s')) by reflexivity.
  clearbody r. destruct (fulfil_cases id payload s0) as [(sub & Hs & Hf & E)|[e E]]; rewrite E in Hr; [|subst; split; [by left|discriminate]].
  match type of Hr with r = let '(x, s') := ?m s0 in _ => assert (He : ends id sub payload (row id (eq sub)) m) end.
  { eapply ends_step; [apply by_hand_mark|intros _]. eapply ends_step; [apply by_hand_beside, beside_request|intros _].
    eapply ends_step; [apply by_hand_beside, beside_record|intros _]. apply ends_commit.
    destruct (upholds_mails id sub payload) as [M1 M2]. unfold sub_of, usable. upholds. }
  destruct (He s0) as [H3 H4]; [exact Hs|by exists sub|]. cbn in Hs. subst r done_. revert H3 H4.
  match goal with |- context [?m s0] => destruct (m s0) as [x s'] end. cbn. intros H3 H4. split; [|intros Hx; exists sub; auto].
  destruct H3 as [H3|H3]; [left; by rewrite Hs|right; exists sub; auto].
Qed.
End Fulfil.

(** ** Webhooks and the rows there were *)

(** C19. A webhook of a payment changes none of the subscriptions there were before it,
    whosever they are and whatever was paid for them: not even one of the same payment. *)
Theorem webhook_spares_old_rows {cfg : TechConfig} {portal : Portal} {cipher : Cipher} seed rates clock ids order_id payment buyer_id d k s :
  keyed d -> tb_subs d !! k = Some s ->
  tb_subs (tech_request clock ids (complete_technology_payment_from_webhook seed rates order_id payment buyer_id) d).2 !! k = Some s.
Proof. intros Hk Hs. destruct (webhook_untouched seed rates clock ids order_id payment buyer_id d Hk) as [_ H]. rewrite H; [done|by eexists]. Qed.

(** ** Runs *)

Definition from (t : Z) : nat -> Z := fun n => t + Z.of_nat n.

Definition paid_vpn : tech_event := Webhook [] usd_rates "order_9" (Some "pay_9"%string) "u1".

(** Paid, ordered and not confirmed. *)
Definition waiting : tech_db := (paid_at (cfg := plain_config) (portal := slow) usd_rates 0 more_ids (store_with [vpn_item])).2.

Example no_purchase_forgotten_witness :
  let h := history (cfg := plain_config) (portal := slow) [(from 0, more_ids, paid_vpn); (from 10, example_ids, Tick [])] (store_with [vpn_item]) in
  exists s t, tb_subs h !! "x1"%string = Some s /\ forall now, t <= now -> selected (cfg := plain_config) now s = true.
Proof.
  intros h. eassert (Hs : tb_subs h !! "x1"%string = Some _) by (vm_compute; reflexivity).
  destruct (no_purchase_forgotten (cfg := plain_config) (portal := slow) [(from 0, more_ids, paid_vpn); (from 10, example_ids, Tick [])]
    (store_with [vpn_item]) "x1" _ ltac:(vm_compute; reflexivity) eq_refl Hs eq_refl eq_refl) as [H|[H|[t H]]]; [|discriminate H|].
  - exfalso. refine (bool_decide_unpack (~ _) _ H). vm_compute. exact I.
  - eexists _, t. split; [exact Hs|exact H].
Defined.

(** Cancelled; then a tick of the worker, the webhook again and a fulfilment by hand. *)
Example cancelled_stays_cancelled_witness :
  let before := [(from 0, more_ids, paid_vpn); (from 10, example_ids, Cancel "x1" "u1")]%string in
  let after_ := [(from 20, example_ids, Tick []); (from 30, example_ids, paid_vpn); (from 40, example_ids, Fulfil "x1" (FulfillRequest None None))]%string in
  row_cancelled "x1" (history (cfg := plain_config) (portal := slow) after_ (history (cfg := plain_config) (portal := slow) before (store_with [vpn_item]))).
Proof.
  intros before after_. apply (cancelled_stays_cancelled (cfg := plain_config) (portal := slow)); [vm_compute; reflexivity|reflexivity| |].
  - repeat constructor.
  - vm_compute. reflexivity.
Defined.

Example webhook_spares_old_rows_witness :
  exists s, tb_subs (paid_at (cfg := plain_config) (portal := slow) usd_rates 9 example_ids waiting).2 !! "x1"%string = Some s.
Proof.
  eassert (Hs : tb_subs waiting !! "x1"%string = Some _) by (vm_compute; reflexivity). eexists.
  refine (webhook_spares_old_rows (cfg := plain_config) (portal := slow) [] usd_rates _ example_ids "order_9" (Some "pay_9"%string) "u1" waiting "x1" _ _ Hs).
  intros k s Hk. assert (Hw : tb_subs waiting = {["x1"%string := s]} \/ k <> "x1"%string).
  { destruct (decide (k = "x1"%string)) as [->|]; [left|by right]. rewrite Hs in Hk. injection Hk as <-. vm_compute. reflexivity. }
  destruct Hw as [Hw|Hne].
  - rewrite Hw in Hk. apply lookup_singleton_Some in Hk as [<- _]. rewrite Hw, lookup_singleton_eq in Hs. injection Hs as ->. reflexivity.
  - assert (Hw : delete "x1"%string (tb_subs waiting) = ∅) by (vm_compute; reflexivity).
    exfalso. apply (f_equal (fun m => m !! k)) in Hw. rewrite lookup_delete_ne, lookup_empty, Hk in Hw by done. discriminate Hw.
Defined.

(** ** Where the desk departs from what it says *)

(** The provider has the order of the service, but not yet a number of the service: the
    subscription is cancelled without a word to the provider. *)
Lemma pending_cancelled_in_silence :
  let r := tech_request (from 9) more_ids (cancel_subscription (cfg := plain_config) (portal := slow) "x1" "u1") waiting in
  r.1 = Ok "CANCELLED"%string /\ map ts_provider_order_id (values (tb_subs waiting)) = [JStr "o1"] /\ tb_portal r.2 = tb_portal waiting.
Proof. intros r. split_and!; vm_compute; reflexivity. Qed.

(** A retry of the cancelled subscription, meant for those pending or failed, orders the
    service at the provider again and opens the subscription again. *)
Lemma retry_orders_cancelled_again :
  let d := (tech_request (from 9) more_ids (cancel_subscription (cfg := plain_config) (portal := slow) "x1" "u1") waiting).2 in
  let d' := (tech_request (from 20) more_ids (retry_subscription (cfg := plain_config) (portal := slow) "x1" true) d).2 in
  row_cancelled "x1" d /\ map ts_status (values (tb_subs d')) = ["PENDING"%string] /\ orders_sent d = 1%nat /\ orders_sent d' = 2%nat.
Proof. intros d d'. split_and!; vm_compute; reflexivity. Qed.

(** A paid subscription without an order id completes whatever request has none. *)
Lemma fulfilment_completes_stranger :
  let other := CoBroRequest "r0" "plan" None None None None "PENDING" in
  let d := waiting <| tb_subs ::= alter (fun s => s <| ts_razorpay_order_id := None |>) "x1"%string |>
    <| tb_shop ::= set sh_requests (insert "r0"%string other) |> in
  let d' := (tech_request (from 20) more_ids (admin_fulfill_subscription (cfg := plain_config) "x1" (FulfillRequest None None)) d).2 in
  cr_razorpay_payment_id other = None /\ cr_status <$> sh_requests (tb_shop d') !! "r0"%string = Some "COMPLETED"%string.
Proof. intros other d d'. split_and!; vm_compute; reflexivity. Qed.

(** The mail that the order is pending counts as the mail that it is fulfilled: the
    customer gets no confirmation. *)
Lemma fulfilled_without_confirmation :
  let r := tech_request (from 20) more_ids (admin_fulfill_subscription (cfg := plain_config) "x1" (FulfillRequest None None)) waiting in
  is_ok r.1 = true /\ map ts_status (values (tb_subs r.2)) = ["ACTIVE"%string] /\ map ts_confirmation_sent (values (tb_subs r.2)) = [false].
Proof. intros r. split_and!; vm_compute; reflexivity. Qed.
